(* ===== verification/_CoqProject ===== *)
-Q . S2P
Prelude.v
Buffers.v
Endian.v
AesCt.v
AesSpec.v
AesCtProof.v
AesBlock.v
AesInverse.v
AesBear.v
AesBearProof.v
Mbuf.v
MbufProof.v
AesCcm.v
AesCcmProof.v
AesCcmRfc.v
AesCcmMbuf.v
AesCcmSelftest.v
Ieee80211.v
FrameProof.v
Ccmp.v
CcmpProof.v
Rc4.v
Rc4Proof.v
Wep.v
WepProof.v
Tkip.v
TkipProof.v
Crypto.v
CryptoProof.v
CryptoFrame.v
Acl.v
Amrr.v
Defrag.v
InfoElem.v
Wme.v
Node.v
NodeTable.v
WmeParams.v
NodeProof.v
NodeSafety.v
NodeHistory.v
NodeLife.v
NodeTimer.v
Rates.v
Rssadapt.v
Mgmt.v
Station.v
MgmtProof.v
Input.v
Output.v
OutputProof.v
LinkProof.v
FragProof.v
InputProof.v
PowerSave.v
MgmtOut.v
Beacon.v
MgmtOutProof.v
StationProof.v
BeaconProof.v
InputFaults.v
