(* ===== verification/Prelude.v ===== *)
(** * A verification of the net80211 stack: shared vocabulary and guide

    net_80211 is the wireless stack of NetBSD packaged as a portable C library.
    The protocol code (src/net80211), its ciphers (src/crypto/aes) and its
    packet buffers (src/port/net/embox/bsd_mbuf.c, the port's version of the
    BSD mbuf) are plain sequential C; drivers and operating-system glue
    surround them.  This development models the data path of that code, its
    key management, its table of stations, the frames access points and
    stations exchange and the beacon as executable definitions, and proves what
    makes them correct.

    ** Conventions

    A [w]-bit unsigned integer is a [Z] in range ([is_u w]); every store
    truncates ([u8], [u16], [u32], [u64]).  Byte arrays are [list Z].  A
    computation that can go wrong has type [res]: [Ok], or [Fault] for a panic,
    a null dereference or an access outside an object.  The key record, the
    interface ([ieee80211com]) and the heap of mbufs are passed explicitly and
    returned.  What the environment decides is an argument: the memory the
    allocators hand out ([heap], [kmem]), the random initial vector of a WEP
    key, the driver's key methods ([key_ops]), whether the driver queues a frame,
    the clock.  The nodes live in a store indexed by address ([n_nodes] of
    [net]): a freed node is absent, and using it is a fault.

    ** Files, in dependency order

    - Prelude, Buffers, Endian: integers, lists as buffers ([sub_list],
      [splice], [byte_at] and the [list_solve] tactic), compat/netbsd/sys/endian.h.
    - AesCt, AesBear: crypto/aes/aes_ct.c, aes_ct_enc.c, aes_ct_dec.c,
      aes_bear.c and port/aes_impl_compat.c, the bit-sliced constant-time AES
      and the record of operations built from it.  AesSpec is FIPS-197 written
      independently; AesCtProof, AesBlock, AesInverse and AesBearProof relate
      the two lane by lane.
    - AesCcm, AesCcmProof, AesCcmRfc, AesCcmMbuf, AesCcmSelftest: the streaming
      CCM of aes_ccm.c, its mbuf walkers, and RFC 3610 as the specification.
    - Mbuf, MbufProof: bsd_mbuf.c and m_append of ieee80211_netbsd.c; chains,
      their content, packet-header length and the balance of allocations.
    - Ieee80211, FrameProof: frame headers, keys, statistics and the interface
      state (ieee80211.h, ieee80211_var.h, ieee80211_proto.h,
      ieee80211_crypto.h).
    - Ccmp, CcmpProof; Rc4, Rc4Proof, Wep, WepProof; Tkip, TkipProof: the three
      cipher modules, attach, setkey, encap, decap, enmic and demic.
    - Crypto, CryptoProof, CryptoFrame: ieee80211_crypto.c, the null cipher and
      the inlines of ieee80211_crypto.h; cipher table, newkey with its software
      fallback, setkey, deletion, and the dispatch of encap and decap.
    - Acl: ieee80211_acl.c.  Amrr: ieee80211_amrr.c.  Defrag: ieee80211_defrag
      of ieee80211_input.c.
    - InfoElem: the WPA and RSN elements, built (ieee80211_output.c) and parsed
      (ieee80211_input.c).
    - Node, NodeTable: struct ieee80211_node, the two tables and the interface
      state around them, and the operations of ieee80211_node.c; with
      NodeProof (the ownership invariant [nwf], one lemma per operation),
      NodeSafety, NodeHistory, NodeLife (sequences of calls and who owns what
      after each), NodeTimer (the inactivity timer).
    - Rates: ieee80211_fix_rate of ieee80211_proto.c and ieee80211_setup_rates.
    - Mgmt, MgmtProof: authentication, association, probe, deauthentication and
      disassociation frames.  Station: beacons, probe responses and association
      responses, as stations and ad hoc networks take them, and the node table
      entries made from them; ieee80211_recv_mgmt.
    - Input, InputProof: ieee80211_input and what it calls, from the driver to
      the network stack.  PowerSave: ieee80211_pwrsave, PS-polls and the traffic
      indication map.  InputFaults: what goes wrong on this path.
    - Wme, WmeParams: the WME channel access parameters of ieee80211_proto.c,
      the element that announces them (ieee80211_output.c) and its parsing
      (ieee80211_input.c).
    - Output, OutputProof: classification, encapsulation and fragmentation of
      data frames (ieee80211_output.c).  LinkProof, FragProof: both directions
      together, from the Ethernet packet sent to the one received.
    - MgmtOut, MgmtOutProof: the management frames sent, RTS and CTS frames
      (ieee80211_output.c) and ieee80211_getmgtframe; [ieee80211_send_mgmt]
      refines the [IEEE80211_SEND_MGMT] the other files use.  StationProof:
      what one side builds, read by the other.
    - Beacon, BeaconProof: ieee80211_beacon_alloc and ieee80211_beacon_update.
    - Rssadapt: ieee80211_rssadapt.c.

    ** What is shown

    - Ciphers are the standards they claim: the bit-sliced AES is FIPS-197 for
      all key sizes and its inverse undoes it, streaming CCM in pieces of any
      size is RFC 3610, Michael over a chain of mbufs and the table-driven
      CRC-32 are their one-shot references.
    - Frames survive: for CCMP, WEP and TKIP decapsulation undoes encapsulation
      for every mbuf layout, and against the interface [lossless], of which the
      three modules are instances, the same holds through the key layer.
    - Frames are refused when they must be: every received CCMP and WEP frame
      is decided by a verdict on its bytes, and over every history of received
      frames the accepted packet numbers of CCMP and TKIP strictly increase.
    - Keys: over every history of newkey, setkey and delkey calls, with any
      driver and any failures of memory, the live cipher contexts are exactly
      those held by well-formed keys.
    - Buffers: each mbuf operation keeps the chain well formed, does to the
      bytes what it promises, keeps the packet header in step and neither leaks
      nor loses an mbuf.
    - The access control list refines a set of addresses under a policy; the
      rate controller stays inside its rate table; fragments of a packet come
      out as the packet.
    - Nodes: every reference count is the number of owners over every sequence
      of calls that respects ownership, so that no call touches a freed node and
      detaching leaves none behind; the timer, which starts over after every
      station it drops, returns.
    - Received frames: an open access point, given any sequence of frames of
      any bytes, never faults and keeps the node invariant.
    - Negotiation: rates are the sorted intersection of both sides' sets;
      security elements are parsed without reading outside them and give the
      negotiation of both sides' parameters.
    - Power save: the traffic indication map is exact and polls drain the queue
      in order.
    - Packets cross: an Ethernet packet that one interface frames, in clear,
      under a cipher that meets [lossless] or cut into fragments, is given back
      byte for byte by the receive path of another, whatever the mbuf layouts.
    - Management frames fit the room asked for them and sending one does what
      the rest of the stack assumes; probe responses and association requests
      are read back as what they were built from.
    - Beacons: every sequence of updates stays inside the frame, and the partial
      map tells each station whether frames wait for it, except when it moves
      without changing its length; protection and slot time, which stations take
      over one change late.
    - WME: stations follow the parameters of their access point, as far as the
      four-bit count lets them; signal strength adaptation stays in its tables
      and tries faster rates again, except from a rate that never failed.
    - Where the code does not do what its comments say, the theorem states what
      it does: additional data of CCM beyond the first blocks, copies of chains,
      empty payloads, the phase-1 cache of TKIP, the length of a reassembled
      packet, thresholds that decay to the average, association ids after a
      reset, the slot time bookkeeping, ages of saved frames, retransmissions
      after the sequence numbers wrapped.

    ** Bounds and fuel

    Loops over chains and lists are structural.  [append_loop] and
    [free_all_loop] take the number of bytes and of entries as fuel, and are
    proved to finish their work with it.  Freeing a node follows [free_depth]
    levels of references, [find_aid] tries [ic_max_aid] ids, [timeout_loop] runs
    as often as there are stations and once more, [fix_loop] once per offered
    rate, [elem_loop] once per byte, [frag_loop] once per mbuf there is memory
    for and once more, [acm_loop] four times; each is shown to be enough where the
    operation is shown to return.  Payload lengths below 65536 in the
    CCMP and round-trip theorems are what the two-byte length field of CCM
    allows; the packet-number bounds below 2^48 are those of the formats.

    ** Not modelled

    Locks (the key table and the node table are changed under them, one call at
    a time here); debugging output; the CBC and XTS modes of aes_bear.c, which
    the stack does not use; the drivers under src/driver and the register and
    identifier tables, whose behaviour is that of hardware; generated firmware
    images; vendored code under src/third-party.  The scan itself and the choice
    of a network, ieee80211_newstate (a state change is an event here), the
    handshake timer, frame durations, ieee80211_output and the ioctl interface
    are not modelled. *)

From Stdlib Require Export ZArith Lia Bool.
From stdpp Require Export base numbers list tactics.

#[global] Open Scope Z_scope.

(** ** Machine integers: fixed-width unsigned values are [Z] in range, and a
    store into a [w]-bit object truncates. *)

Definition u8 (x : Z) : Z := Z.land x 0xff.
Definition u16 (x : Z) : Z := Z.land x 0xffff.
Definition u32 (x : Z) : Z := Z.land x 0xffffffff.
Definition u64 (x : Z) : Z := Z.land x 0xffffffffffffffff.

Definition is_u (w x : Z) : Prop := 0 <= x < 2 ^ w.
Abbreviation is_u8 := (is_u 8).
Abbreviation is_u16 := (is_u 16).
Abbreviation is_u32 := (is_u 32).
Abbreviation is_u64 := (is_u 64).
Abbreviation bytes := (Forall (is_u 8)).

#[global] Instance is_u_dec w x : Decision (is_u w x).
Proof. unfold is_u. apply _. Defined.

Lemma u8_mod x : u8 x = x mod 2 ^ 8.
Proof. apply (Z.land_ones x 8); lia. Qed.
Lemma u16_mod x : u16 x = x mod 2 ^ 16.
Proof. apply (Z.land_ones x 16); lia. Qed.
Lemma u32_mod x : u32 x = x mod 2 ^ 32.
Proof. apply (Z.land_ones x 32); lia. Qed.
Lemma u64_mod x : u64 x = x mod 2 ^ 64.
Proof. apply (Z.land_ones x 64); lia. Qed.

Lemma u8_range x : is_u8 (u8 x).
Proof. rewrite u8_mod. apply Z.mod_pos_bound; lia. Qed.
Lemma u16_range x : is_u16 (u16 x).
Proof. rewrite u16_mod. apply Z.mod_pos_bound; lia. Qed.
Lemma u32_range x : is_u32 (u32 x).
Proof. rewrite u32_mod. apply Z.mod_pos_bound; lia. Qed.
Lemma u64_range x : is_u64 (u64 x).
Proof. rewrite u64_mod. apply Z.mod_pos_bound; lia. Qed.

Lemma u8_id x : is_u8 x -> u8 x = x.
Proof. intros; rewrite u8_mod; apply Z.mod_small; done. Qed.
Lemma u16_id x : is_u16 x -> u16 x = x.
Proof. intros; rewrite u16_mod; apply Z.mod_small; done. Qed.
Lemma u32_id x : is_u32 x -> u32 x = x.
Proof. intros; rewrite u32_mod; apply Z.mod_small; done. Qed.
Lemma u64_id x : is_u64 x -> u64 x = x.
Proof. intros; rewrite u64_mod; apply Z.mod_small; done. Qed.

(** A number in range is exactly a number whose high bits are clear. *)
Lemma is_u_testbit w x i : is_u w x -> 0 <= w <= i -> Z.testbit x i = false.
Proof.
  intros [? ?] ?. rewrite <- (Z.mod_small x (2 ^ w)) by lia.
  apply Z.mod_pow2_bits_high; lia.
Qed.

Lemma is_u_bits w x :
  0 <= w -> 0 <= x -> (forall i, w <= i -> Z.testbit x i = false) -> is_u w x.
Proof.
  intros Hw Hx Hb. split; [done|].
  assert (x mod 2 ^ w = x) as <-; [|apply Z.mod_pos_bound; lia].
  apply Z.bits_inj'; intros i Hi. destruct (Z.lt_ge_cases i w).
  - by apply Z.mod_pow2_bits_low.
  - rewrite Z.mod_pow2_bits_high by lia. symmetry; auto.
Qed.

Lemma is_u_lxor w x y : 0 <= w -> is_u w x -> is_u w y -> is_u w (Z.lxor x y).
Proof.
  intros Hw Hx Hy. apply is_u_bits; [done|apply Z.lxor_nonneg; split; intros _; [apply Hy|apply Hx]|].
  intros i Hi. rewrite Z.lxor_spec, !(is_u_testbit w) by done. done.
Qed.
Lemma is_u_land w x y : 0 <= w -> is_u w x -> is_u w y -> is_u w (Z.land x y).
Proof.
  intros Hw Hx Hy. apply is_u_bits; [done|apply Z.land_nonneg; left; apply Hx|].
  intros i Hi. rewrite Z.land_spec, !(is_u_testbit w) by done. done.
Qed.
Lemma is_u_land_r w x y : 0 <= w -> is_u w y -> is_u w (Z.land x y).
Proof.
  intros Hw Hy. apply is_u_bits; [done|apply Z.land_nonneg; right; apply Hy|].
  intros i Hi. rewrite Z.land_spec, (is_u_testbit w y) by done. apply andb_false_r.
Qed.
Lemma is_u_lor w x y : 0 <= w -> is_u w x -> is_u w y -> is_u w (Z.lor x y).
Proof.
  intros Hw Hx Hy. apply is_u_bits; [done|apply Z.lor_nonneg; split; [apply Hx|apply Hy]|].
  intros i Hi. rewrite Z.lor_spec, !(is_u_testbit w) by done. done.
Qed.
Lemma is_u_shiftr w x n : 0 <= w -> 0 <= n -> is_u w x -> is_u w (Z.shiftr x n).
Proof.
  intros Hw Hn Hx. apply is_u_bits; [done|apply Z.shiftr_nonneg, Hx|].
  intros i Hi. rewrite Z.shiftr_spec by lia. apply (is_u_testbit w); [done|lia].
Qed.
Lemma is_u_weaken v w x : 0 <= v <= w -> is_u v x -> is_u w x.
Proof.
  intros ? [? ?]. split; [done|]. pose proof (Z.pow_le_mono_r 2 v w). lia.
Qed.

Ltac is_pos_lit p :=
  lazymatch p with
  | xH => idtac
  | xI ?q => is_pos_lit q
  | xO ?q => is_pos_lit q
  end.
Ltac is_Z_lit z :=
  lazymatch z with
  | Z0 => idtac
  | Zpos ?p => is_pos_lit p
  | Zneg ?p => is_pos_lit p
  end.

Create HintDb urange.
#[export] Hint Resolve u8_range u16_range u32_range u64_range : urange.
#[export] Hint Resolve is_u_lxor is_u_land is_u_land_r is_u_lor is_u_shiftr : urange.
#[export] Hint Extern 1 (0 <= _) => lia : urange.
#[export] Hint Extern 1 (is_u _ ?c) => (is_Z_lit c; unfold is_u; lia) : urange.

(** ** Bit-level normalisation *)

Lemma testbit_u32 x i : 0 <= i < 32 -> Z.testbit (u32 x) i = Z.testbit x i.
Proof. intros ?. rewrite u32_mod, Z.mod_pow2_bits_low; [done|lia]. Qed.
Lemma testbit_u8 x i : 0 <= i < 8 -> Z.testbit (u8 x) i = Z.testbit x i.
Proof. intros ?. rewrite u8_mod, Z.mod_pow2_bits_low; [done|lia]. Qed.

Lemma u32_ext x y :
  is_u32 x -> is_u32 y ->
  (forall i, 0 <= i < 32 -> Z.testbit x i = Z.testbit y i) -> x = y.
Proof.
  intros Hx Hy Hb. apply Z.bits_inj'; intros i Hi.
  destruct (Z.lt_ge_cases i 32); [by apply Hb|].
  by rewrite !(is_u_testbit 32).
Qed.
Lemma u8_ext x y :
  is_u8 x -> is_u8 y ->
  (forall i, 0 <= i < 8 -> Z.testbit x i = Z.testbit y i) -> x = y.
Proof.
  intros Hx Hy Hb. apply Z.bits_inj'; intros i Hi.
  destruct (Z.lt_ge_cases i 8); [by apply Hb|].
  by rewrite !(is_u_testbit 8).
Qed.

(** Decide a bit of a word built by constant masks and shifts: push
    [Z.testbit] to the leaves and evaluate the constants. *)
Ltac eval_const_bits :=
  repeat match goal with
  | |- context [Z.testbit ?c ?i] =>
      is_Z_lit c; is_Z_lit i;
      let v := eval vm_compute in (Z.testbit c i) in
      change (Z.testbit c i) with v
  end.

Ltac norm_index :=
  repeat match goal with
  | |- context [Z.testbit _ (?a + ?b)] =>
      is_Z_lit a; is_Z_lit b;
      let v := eval vm_compute in (a + b) in change (a + b) with v
  | |- context [Z.testbit _ (?a - ?b)] =>
      is_Z_lit a; is_Z_lit b;
      let v := eval vm_compute in (a - b) in change (a - b) with v
  end.

Ltac norm_divmod :=
  repeat match goal with
  | |- context [?a / ?b] =>
      is_Z_lit a; is_Z_lit b; let v := eval vm_compute in (a / b) in change (a / b) with v
  | |- context [?a mod ?b] =>
      is_Z_lit a; is_Z_lit b; let v := eval vm_compute in (a mod b) in change (a mod b) with v
  | |- context [?a * ?b] =>
      is_Z_lit a; is_Z_lit b; let v := eval vm_compute in (a * b) in change (a * b) with v
  | |- context [Z.to_nat ?a] =>
      is_Z_lit a; let v := eval vm_compute in (Z.to_nat a) in change (Z.to_nat a) with v
  end.

Ltac push_testbit :=
  repeat (rewrite ?Z.lor_spec, ?Z.land_spec, ?Z.lxor_spec;
          rewrite ?Z.shiftr_spec by lia;
          rewrite ?Z.shiftl_spec by lia;
          rewrite ?testbit_u32 by lia;
          rewrite ?testbit_u8 by lia;
          norm_index).

Ltac solve_bits :=
  push_testbit; eval_const_bits;
  rewrite ?Z.testbit_neg_r by lia;
  rewrite ?andb_true_r, ?andb_false_r, ?orb_false_r, ?orb_false_l, ?andb_false_l;
  try (lazymatch goal with |- ?x = ?x => reflexivity end).

(** Clear the bits known to be zero from the ranges in context. *)
Ltac range_bits :=
  repeat match goal with
  | H : is_u ?w ?x |- context [Z.testbit ?x ?i] =>
      rewrite (is_u_testbit w x i H) by lia
  end;
  rewrite ?orb_false_r, ?orb_false_l, ?andb_false_r, ?xorb_false_r, ?xorb_false_l.

(** Split [0 <= i < n] into its [n] cases. *)
Ltac case_range i H :=
  let rec go k :=
    tryif (assert (i = k) by lia) then (assert (i = k) by lia; subst i)
    else (destruct (Z.eq_dec i k); [subst i | let k' := eval vm_compute in (k + 1) in go k'])
  in go 0.

(** Split an equality of literal lists into its elements. *)
Ltac split_list :=
  repeat match goal with
  | |- @cons _ _ _ = @cons _ _ _ => apply (f_equal2 (@cons _)); [|]
  | |- @nil _ = @nil _ => reflexivity
  end.

(** Unpack [Forall] over a literal list. *)
Ltac inv_Forall :=
  repeat match goal with
  | H : Forall _ (_ :: _) |- _ => apply List.Forall_cons_iff in H; destruct H
  | H : Forall _ [] |- _ => clear H
  end.

(** Split [Forall] over a literal list, leaving the element goals. *)
Ltac split_Forall :=
  repeat lazymatch goal with
  | |- Forall _ (_ :: _) => apply List.Forall_cons
  | |- Forall _ [] => apply List.Forall_nil
  end.

(** ** Outcomes

    [Ok a] is a normal return; [Fault f] is a run that does not return to its
    caller: a call to [panic] (which does not come back), the use of a null
    pointer, or an access outside the object. *)

Inductive fault := Panic | NullDeref | BadAccess.
#[global] Instance fault_eq_dec : EqDecision fault.
Proof. solve_decision. Defined.

Inductive res (A : Type) :=
| Ok (a : A)
| Fault (f : fault).
Arguments Ok {A} _.
Arguments Fault {A} _.

Definition res_bind {A B} (m : res A) (k : A -> res B) : res B :=
  match m with Ok a => k a | Fault f => Fault f end.

Declare Scope res_scope.
Delimit Scope res_scope with res.
Notation "'let*' x ':=' m 'in' k" :=
  (res_bind m (fun x => k))
  (at level 10, x pattern, m at level 100, k at level 200) : res_scope.
#[global] Open Scope res_scope.

Lemma res_bind_Ok {A B} (m : res A) (k : A -> res B) b :
  res_bind m k = Ok b <-> exists a, m = Ok a /\ k a = Ok b.
Proof.
  destruct m as [a|f]; cbn; split.
  - eauto.
  - by intros (? & [= <-] & ?).
  - done.
  - by intros (? & ? & ?).
Qed.

(** ** Byte buffers *)

(** [sub_list off n l] is the [n]-byte window of [l] at [off]. *)
Definition sub_list {A} (off n : nat) (l : list A) : list A := take n (drop off l).

(** [splice off new l] is [memcpy(l + off, new, length new)]. *)
Definition splice {A} (off : nat) (new l : list A) : list A :=
  take off l ++ new ++ drop (off + length new) l.

(** Byte [i] of a buffer. *)
Definition byte_at (l : list Z) (i : nat) : Z := nth i l 0.
(** Element [i] of an array of words. *)
Abbreviation word_at := byte_at (only parsing).

Lemma length_sub_list {A} off n (l : list A) :
  (off + n <= length l)%nat -> length (sub_list off n l) = n.
Proof. intros; unfold sub_list; rewrite length_take, length_drop; lia. Qed.

Lemma length_splice {A} off (new l : list A) :
  (off + length new <= length l)%nat -> length (splice off new l) = length l.
Proof.
  intros; unfold splice. rewrite !length_app, length_take, length_drop; lia.
Qed.

Lemma sub_list_splice {A} off (new l : list A) :
  (off <= length l)%nat -> sub_list off (length new) (splice off new l) = new.
Proof.
  intros. unfold sub_list, splice.
  rewrite drop_app_length' by (rewrite length_take; lia).
  by rewrite take_app_length.
Qed.

Lemma sub_list_app {A} off n m (l : list A) :
  sub_list off n l ++ sub_list (off + n) m l = sub_list off (n + m) l.
Proof.
  unfold sub_list. rewrite <- drop_drop.
  generalize (drop off l); clear; intros l.
  revert n; induction l as [|x l IH]; intros [|n]; cbn; rewrite ?take_nil; try done.
  by rewrite IH.
Qed.

Lemma nth_drop_shift {A} (l : list A) n i d : nth (n + i) l d = nth i (drop n l) d.
Proof.
  revert n; induction l as [|x l IH]; intros [|n]; cbn; [done|by destruct i|done|apply IH].
Qed.
Lemma byte_at_drop l n i : byte_at (drop n l) i = byte_at l (n + i).
Proof. symmetry. apply nth_drop_shift. Qed.
Lemma byte_at_take l n i : (i < n)%nat -> byte_at (take n l) i = byte_at l i.
Proof.
  unfold byte_at. revert n i; induction l as [|x l IH]; intros [|n] [|i] ?; cbn; try lia; try done.
  apply IH; lia.
Qed.

Lemma bytes_app l1 l2 : bytes (l1 ++ l2) <-> bytes l1 /\ bytes l2.
Proof. apply Forall_app. Qed.
Lemma bytes_take n l : bytes l -> bytes (take n l).
Proof. apply Forall_take. Qed.
Lemma bytes_drop n l : bytes l -> bytes (drop n l).
Proof. apply Forall_drop. Qed.
Lemma bytes_sub_list off n l : bytes l -> bytes (sub_list off n l).
Proof. intros. by apply bytes_take, bytes_drop. Qed.
Lemma bytes_splice off new l : bytes new -> bytes l -> bytes (splice off new l).
Proof.
  intros. apply bytes_app; split; [by apply bytes_take|].
  apply bytes_app; split; [done|by apply bytes_drop].
Qed.
Lemma byte_at_range l i : bytes l -> is_u8 (byte_at l i).
Proof.
  intros Hl. unfold byte_at. destruct (nth_in_or_default i l 0) as [H| ->].
  - eapply List.Forall_forall in H; [exact H|done].
  - unfold is_u; lia.
Qed.
#[export] Hint Resolve bytes_take bytes_drop bytes_sub_list bytes_splice byte_at_range : urange.

(** ** C return codes: [None] is 0. *)

Inductive errno :=
  EPERM | ENOENT | EINVAL | ENOBUFS | ENOMEM | EBADMSG | EEXIST | EIO | ENOTTY | ENXIO | EBUSY | EOPNOTSUPP.
#[global] Instance errno_eq_dec : EqDecision errno.
Proof. solve_decision. Defined.
