(* ===== verification/Buffers.v ===== *)
(** * Equality of buffers, index by index

    [list_solve] proves an equation between buffers built by [take], [drop],
    [++], [sub_list], [splice] and [zip_with], by comparing the element at each
    index and deciding the index inequalities with [lia]. *)

From S2P Require Import Prelude.

Lemma lookup_app_if {A} (l k : list A) i :
  (l ++ k) !! i = if decide (i < length l)%nat then l !! i else k !! (i - length l)%nat.
Proof.
  case_decide; [by apply lookup_app_l|apply lookup_app_r; lia].
Qed.
Lemma lookup_sub_list {A} off n (l : list A) i :
  sub_list off n l !! i = if decide (i < n)%nat then l !! (off + i)%nat else None.
Proof. unfold sub_list. rewrite lookup_take, lookup_drop. done. Qed.
Lemma lookup_splice {A} off (new l : list A) i :
  (off + length new <= length l)%nat ->
  splice off new l !! i =
  if decide (i < off)%nat then l !! i
  else if decide (i < off + length new)%nat then new !! (i - off)%nat else l !! i.
Proof.
  intros H. unfold splice. rewrite !lookup_app_if, lookup_drop, lookup_take, length_take.
  repeat case_decide; try lia; try done; f_equal; lia.
Qed.
Lemma splice_nil {A} off (l : list A) : splice off [] l = l.
Proof. unfold splice. cbn [app length]. rewrite Nat.add_0_r. apply take_drop. Qed.
Lemma lookup_rep {A} n (x : A) i :
  replicate n x !! i = if decide (i < n)%nat then Some x else None.
Proof.
  case_decide; [by apply lookup_replicate_2|apply lookup_replicate_None; lia].
Qed.
Lemma length_sub_list_min {A} off n (l : list A) :
  length (sub_list off n l) = (n `min` (length l - off))%nat.
Proof. unfold sub_list. by rewrite length_take, length_drop. Qed.
Lemma lookup_nil_None {A} i : (@nil A) !! i = None.
Proof. done. Qed.

Lemma lookup_cons_if {A} (x : A) l i :
  (x :: l) !! i = if decide (i = 0)%nat then Some x else l !! (i - 1)%nat.
Proof. case_decide; [by subst|]. destruct i; [done|]. cbn. f_equal. lia. Qed.
Lemma lookup_byte_at l i : (i < length l)%nat -> l !! i = Some (byte_at l i).
Proof.
  revert i. induction l as [|x l IH]; intros i H; [cbn in H; lia|].
  destruct i; [done|]. cbn in *. rewrite IH by lia. done.
Qed.
Lemma bytes_lookup l i x : bytes l -> l !! i = Some x -> is_u8 x.
Proof. intros H E. exact (proj1 (Forall_lookup _ l) H i x E). Qed.

(** Lengths of composed buffers, in the goal and in the hypotheses. *)
Ltac len_goal :=
  repeat rewrite ?length_app, ?length_take, ?length_drop, ?length_sub_list_min,
            ?length_zip_with, ?length_replicate, ?length_map, ?length_fmap, ?length_nil, ?length_cons.
Ltac len_hyps :=
  repeat match goal with
  | H : context [length (_ ++ _)] |- _ => rewrite length_app in H
  | H : context [length (take _ _)] |- _ => rewrite length_take in H
  | H : context [length (drop _ _)] |- _ => rewrite length_drop in H
  | H : context [length (sub_list _ _ _)] |- _ => rewrite length_sub_list_min in H
  | H : context [length (zip_with _ _ _)] |- _ => rewrite length_zip_with in H
  | H : context [length (replicate _ _)] |- _ => rewrite length_replicate in H
  | H : context [length (map _ _)] |- _ => rewrite length_map in H
  | H : context [length (_ :: _)] |- _ => rewrite length_cons in H
  | H : context [length (splice _ _ _)] |- _ => rewrite length_splice in H by (len_goal; lia)
  end.
Ltac list_lia :=
  len_goal; rewrite ?length_splice by (len_goal; lia); len_goal; len_hyps; lia.

Ltac list_step :=
  first
  [ progress rewrite ?lookup_app_if, ?lookup_sub_list, ?lookup_take, ?lookup_drop, ?lookup_rep,
      ?lookup_nil_None
  | rewrite lookup_splice by list_lia
  | rewrite lookup_zip_with ].
Ltac list_close :=
  solve
  [ reflexivity | exfalso; list_lia | f_equal; list_lia
  | rewrite ?lookup_ge_None_2 by list_lia; reflexivity
  | f_equal; (list_lia || (f_equal; list_lia)) ].
Ltac list_solve :=
  apply list_eq; intros ?i; repeat list_step;
  repeat (case_decide; repeat list_step); try list_close.

Lemma splice_app_l {A} off (b x y : list A) :
  (off + length b <= length x)%nat -> splice off b (x ++ y) = splice off b x ++ y.
Proof. intros. list_solve. Qed.
Lemma splice_app_r {A} off (b x y : list A) :
  (off + length b <= length y)%nat -> splice (length x + off) b (x ++ y) = x ++ splice off b y.
Proof. intros. list_solve. Qed.

Lemma splice_all {A} (b x : list A) : length b = length x -> splice 0 b x = b.
Proof. intros H. unfold splice. rewrite take_0, drop_ge by lia. apply app_nil_r. Qed.

(** Linear arithmetic over quotients and remainders by 16. *)
Ltac mod16_facts a :=
  lazymatch goal with
  | _ : a = (16 * (a / 16) + a mod 16)%nat |- _ => fail
  | _ => pose proof (Nat.div_mod_eq a 16); pose proof (Nat.mod_upper_bound a 16 ltac:(discriminate))
  end.
Ltac mod16 :=
  repeat match goal with
  | |- context [(?a / 16)%nat] => mod16_facts a
  | |- context [(?a mod 16)%nat] => mod16_facts a
  | H : context [(?a / 16)%nat] |- _ => mod16_facts a
  | H : context [(?a mod 16)%nat] |- _ => mod16_facts a
  end; lia.
