(* ===== verification/Endian.v ===== *)
(** * Byte order helpers: compat/netbsd/sys/endian.h

    A pointer [p] into a buffer is the buffer from that byte on, a [list Z] of
    bytes; the encoders return the bytes they store. *)

From S2P Require Import Prelude.

(** [__builtin_bswap32] as the standard byte reversal. *)
Definition bswap32 (v : Z) : Z :=
  Z.lor (Z.lor (u32 (Z.shiftl v 24)) (Z.land (u32 (Z.shiftl v 8)) 0x00ff0000))
        (Z.lor (Z.land (Z.shiftr v 8) 0x0000ff00) (Z.shiftr v 24)).

Definition le16dec (b : list Z) : Z :=
  u16 (Z.lor (byte_at b 0) (Z.shiftl (byte_at b 1) 8)).

Definition le32dec (b : list Z) : Z :=
  u32 (Z.lor (Z.lor (Z.lor (byte_at b 0) (Z.shiftl (byte_at b 1) 8))
                    (Z.shiftl (byte_at b 2) 16))
             (u32 (Z.shiftl (byte_at b 3) 24))).

(** The loop runs [i] from 7 down to 0. *)
Definition le64dec (b : list Z) : Z :=
  fold_left (fun v i => u64 (Z.lor (u64 (Z.shiftl v 8)) (byte_at b i)))
            [7; 6; 5; 4; 3; 2; 1; 0]%nat 0.

Definition le32enc (v : Z) : list Z :=
  [u8 v; u8 (Z.shiftr v 8); u8 (Z.shiftr v 16); u8 (Z.shiftr v 24)].

Definition be32dec (b : list Z) : Z :=
  u32 (Z.lor (Z.lor (Z.lor (u32 (Z.shiftl (byte_at b 0) 24)) (Z.shiftl (byte_at b 1) 16))
                    (Z.shiftl (byte_at b 2) 8))
             (byte_at b 3)).

Definition be32enc (v : Z) : list Z :=
  [u8 (Z.shiftr v 24); u8 (Z.shiftr v 16); u8 (Z.shiftr v 8); u8 v].

(** ** Bits of the decoded words *)

Lemma testbit_le32dec b0 b1 b2 b3 rest i :
  is_u8 b0 -> is_u8 b1 -> is_u8 b2 -> is_u8 b3 -> 0 <= i < 32 ->
  Z.testbit (le32dec (b0 :: b1 :: b2 :: b3 :: rest)) i =
  Z.testbit (nth (Z.to_nat (i / 8)) [b0; b1; b2; b3] 0) (i mod 8).
Proof.
  intros H0 H1 H2 H3 Hi. unfold le32dec, byte_at. cbn [nth].
  case_range i Hi; norm_divmod; cbn [nth]; solve_bits; range_bits; reflexivity.
Qed.

Lemma le32dec_range b : is_u32 (le32dec b).
Proof. apply u32_range. Qed.
Lemma be32dec_range b : is_u32 (be32dec b).
Proof. apply u32_range. Qed.
Lemma le32enc_bytes v : bytes (le32enc v).
Proof. repeat constructor; apply u8_range. Qed.
Lemma be32enc_bytes v : bytes (be32enc v).
Proof. repeat constructor; apply u8_range. Qed.
#[export] Hint Resolve le32dec_range be32dec_range le32enc_bytes be32enc_bytes : urange.

(** Storing a word and loading it back. *)
Lemma le32dec_enc v rest : is_u32 v -> le32dec (le32enc v ++ rest) = v.
Proof.
  intros Hv. apply u32_ext; [apply u32_range|done|]. intros i Hi.
  cbn [app le32enc]. rewrite testbit_le32dec by (auto with urange).
  case_range i Hi; norm_divmod; cbn [nth]; solve_bits.
Qed.

Lemma le32enc_dec b0 b1 b2 b3 rest :
  bytes [b0; b1; b2; b3] ->
  le32enc (le32dec (b0 :: b1 :: b2 :: b3 :: rest)) = [b0; b1; b2; b3].
Proof.
  intros Hb. inv_Forall.
  unfold le32enc. split_list; (apply u8_ext; [apply u8_range|done|]);
    intros i Hi; case_range i Hi; push_testbit;
    rewrite testbit_le32dec by (done || lia); reflexivity.
Qed.

(** The big-endian pair is the little-endian one on the reversed bytes. *)
Lemma be32dec_le b0 b1 b2 b3 rest rest' :
  bytes [b0; b1; b2; b3] ->
  be32dec (b0 :: b1 :: b2 :: b3 :: rest) = le32dec (b3 :: b2 :: b1 :: b0 :: rest').
Proof.
  intros Hb. inv_Forall.
  apply u32_ext; [apply u32_range..|]. intros i Hi.
  rewrite testbit_le32dec by done. unfold be32dec, byte_at; cbn [nth].
  case_range i Hi; norm_divmod; cbn [nth]; solve_bits; range_bits; reflexivity.
Qed.

Lemma be32enc_rev v : be32enc v = rev (le32enc v).
Proof. reflexivity. Qed.

Lemma bswap32_range v : is_u32 v -> is_u32 (bswap32 v).
Proof. intros. unfold bswap32. auto 10 with urange. Qed.

(** [bswap32] exchanges the two byte orders. *)
Lemma le32enc_bswap32 v : is_u32 v -> le32enc (bswap32 v) = be32enc v.
Proof.
  intros Hv. unfold le32enc, be32enc, bswap32.
  split_list; (apply u8_ext; [apply u8_range..|]);
    intros i Hi; case_range i Hi; solve_bits; range_bits; reflexivity.
Qed.

Lemma be32dec_enc v rest : is_u32 v -> be32dec (be32enc v ++ rest) = v.
Proof.
  intros Hv. cbn [app be32enc].
  rewrite (be32dec_le _ _ _ _ _ []) by (repeat constructor; apply u8_range).
  exact (le32dec_enc v [] Hv).
Qed.
