(* ===== verification/AesCt.v ===== *)
(** * BearSSL constant-time AES: crypto/aes/aes_ct.c, aes_ct_enc.c, aes_ct_dec.c

    The cipher state is [uint32_t q[8]], two blocks held bit-sliced: bit [i] of
    every byte of both blocks sits in word [i].  This file translates the
    routines; AesCtProof.v shows they compute the standard cipher of
    AesSpec.v. *)

From S2P Require Import Prelude Endian.

(** [uint32_t q[8]]; the word type is left open so that the S-box circuit can
    also be read on single bits. *)
Record q8 (W : Type) := mkQ
  { Q0 : W; Q1 : W; Q2 : W; Q3 : W; Q4 : W; Q5 : W; Q6 : W; Q7 : W }.
Arguments mkQ {W} _ _ _ _ _ _ _ _.
Arguments Q0 {W} _. Arguments Q1 {W} _. Arguments Q2 {W} _. Arguments Q3 {W} _.
Arguments Q4 {W} _. Arguments Q5 {W} _. Arguments Q6 {W} _. Arguments Q7 {W} _.

Definition qmap {V W} (f : V -> W) (q : q8 V) : q8 W :=
  mkQ (f (Q0 q)) (f (Q1 q)) (f (Q2 q)) (f (Q3 q))
      (f (Q4 q)) (f (Q5 q)) (f (Q6 q)) (f (Q7 q)).

Definition qzip {W} (f : W -> W -> W) (q k : q8 W) : q8 W :=
  mkQ (f (Q0 q) (Q0 k)) (f (Q1 q) (Q1 k)) (f (Q2 q) (Q2 k)) (f (Q3 q) (Q3 k))
      (f (Q4 q) (Q4 k)) (f (Q5 q) (Q5 k)) (f (Q6 q) (Q6 k)) (f (Q7 q) (Q7 k)).

(** The circuit of [br_aes_ct_bitslice_Sbox], over any type of wires. *)
Section Circuit.
Context {W : Type} (xor and : W -> W -> W) (not : W -> W).
#[local] Notation "a ^^ b" := (xor a b) (at level 50, left associativity).
#[local] Notation "a &&& b" := (and a b) (at level 40, left associativity).

Definition Sbox_circuit (q : q8 W) : q8 W :=
  let x0 := Q7 q in let x1 := Q6 q in let x2 := Q5 q in let x3 := Q4 q in
  let x4 := Q3 q in let x5 := Q2 q in let x6 := Q1 q in let x7 := Q0 q in
  let y14 := x3 ^^ x5 in let y13 := x0 ^^ x6 in let y9 := x0 ^^ x3 in
  let y8 := x0 ^^ x5 in let t0 := x1 ^^ x2 in let y1 := t0 ^^ x7 in
  let y4 := y1 ^^ x3 in let y12 := y13 ^^ y14 in let y2 := y1 ^^ x0 in
  let y5 := y1 ^^ x6 in let y3 := y5 ^^ y8 in let t1 := x4 ^^ y12 in
  let y15 := t1 ^^ x5 in let y20 := t1 ^^ x1 in let y6 := y15 ^^ x7 in
  let y10 := y15 ^^ t0 in let y11 := y20 ^^ y9 in let y7 := x7 ^^ y11 in
  let y17 := y10 ^^ y11 in let y19 := y10 ^^ y8 in let y16 := t0 ^^ y11 in
  let y21 := y13 ^^ y16 in let y18 := x0 ^^ y16 in let t2 := y12 &&& y15 in
  let t3 := y3 &&& y6 in let t4 := t3 ^^ t2 in let t5 := y4 &&& x7 in
  let t6 := t5 ^^ t2 in let t7 := y13 &&& y16 in let t8 := y5 &&& y1 in
  let t9 := t8 ^^ t7 in let t10 := y2 &&& y7 in let t11 := t10 ^^ t7 in
  let t12 := y9 &&& y11 in let t13 := y14 &&& y17 in let t14 := t13 ^^ t12 in
  let t15 := y8 &&& y10 in let t16 := t15 ^^ t12 in let t17 := t4 ^^ t14 in
  let t18 := t6 ^^ t16 in let t19 := t9 ^^ t14 in let t20 := t11 ^^ t16 in
  let t21 := t17 ^^ y20 in let t22 := t18 ^^ y19 in let t23 := t19 ^^ y21 in
  let t24 := t20 ^^ y18 in let t25 := t21 ^^ t22 in let t26 := t21 &&& t23 in
  let t27 := t24 ^^ t26 in let t28 := t25 &&& t27 in let t29 := t28 ^^ t22 in
  let t30 := t23 ^^ t24 in let t31 := t22 ^^ t26 in let t32 := t31 &&& t30 in
  let t33 := t32 ^^ t24 in let t34 := t23 ^^ t33 in let t35 := t27 ^^ t33 in
  let t36 := t24 &&& t35 in let t37 := t36 ^^ t34 in let t38 := t27 ^^ t36 in
  let t39 := t29 &&& t38 in let t40 := t25 ^^ t39 in let t41 := t40 ^^ t37 in
  let t42 := t29 ^^ t33 in let t43 := t29 ^^ t40 in let t44 := t33 ^^ t37 in
  let t45 := t42 ^^ t41 in let z0 := t44 &&& y15 in let z1 := t37 &&& y6 in
  let z2 := t33 &&& x7 in let z3 := t43 &&& y16 in let z4 := t40 &&& y1 in
  let z5 := t29 &&& y7 in let z6 := t42 &&& y11 in let z7 := t45 &&& y17 in
  let z8 := t41 &&& y10 in let z9 := t44 &&& y12 in let z10 := t37 &&& y3 in
  let z11 := t33 &&& y4 in let z12 := t43 &&& y13 in let z13 := t40 &&& y5 in
  let z14 := t29 &&& y2 in let z15 := t42 &&& y9 in let z16 := t45 &&& y14 in
  let z17 := t41 &&& y8 in let t46 := z15 ^^ z16 in let t47 := z10 ^^ z11 in
  let t48 := z5 ^^ z13 in let t49 := z9 ^^ z10 in let t50 := z2 ^^ z12 in
  let t51 := z2 ^^ z5 in let t52 := z7 ^^ z8 in let t53 := z0 ^^ z3 in
  let t54 := z6 ^^ z7 in let t55 := z16 ^^ z17 in let t56 := z12 ^^ t48 in
  let t57 := t50 ^^ t53 in let t58 := z4 ^^ t46 in let t59 := z3 ^^ t54 in
  let t60 := t46 ^^ t57 in let t61 := z14 ^^ t57 in let t62 := t52 ^^ t58 in
  let t63 := t49 ^^ t58 in let t64 := z4 ^^ t59 in let t65 := t61 ^^ t62 in
  let t66 := z1 ^^ t63 in let s0 := t59 ^^ t63 in let s6 := t56 ^^ (not t62) in
  let s7 := t48 ^^ (not t60) in let t67 := t64 ^^ t65 in let s3 := t53 ^^ t66 in
  let s4 := t51 ^^ t66 in let s5 := t47 ^^ t65 in let s1 := t64 ^^ (not s3) in
  let s2 := t55 ^^ (not t67) in
  mkQ s7 s6 s5 s4 s3 s2 s1 s0.
End Circuit.

(** 32-bit complement. *)
Definition not32 (x : Z) : Z := u32 (Z.lnot x).

Definition br_aes_ct_bitslice_Sbox (q : q8 Z) : q8 Z :=
  Sbox_circuit Z.lxor Z.land not32 q.

(** [uint32_t *] arguments read eight words from an offset of an array. *)
Definition q8_at (a : list Z) (off : nat) : q8 Z :=
  mkQ (word_at a (off + 0)) (word_at a (off + 1)) (word_at a (off + 2)) (word_at a (off + 3))
      (word_at a (off + 4)) (word_at a (off + 5)) (word_at a (off + 6)) (word_at a (off + 7)).
Definition q8_list (q : q8 Z) : list Z :=
  [Q0 q; Q1 q; Q2 q; Q3 q; Q4 q; Q5 q; Q6 q; Q7 q].

(** The macro [SWAPN(cl, ch, s, x, y)], the new [x] and the new [y]. *)
Definition SWAPN_x (cl s a b : Z) : Z := Z.lor (Z.land a cl) (u32 (Z.shiftl (Z.land b cl) s)).
Definition SWAPN_y (ch s a b : Z) : Z := Z.lor (Z.shiftr (Z.land a ch) s) (Z.land b ch).

Definition SWAP2 (x y : Z) : Z * Z := (SWAPN_x 0x55555555 1 x y, SWAPN_y 0xAAAAAAAA 1 x y).
Definition SWAP4 (x y : Z) : Z * Z := (SWAPN_x 0x33333333 2 x y, SWAPN_y 0xCCCCCCCC 2 x y).
Definition SWAP8 (x y : Z) : Z * Z := (SWAPN_x 0x0F0F0F0F 4 x y, SWAPN_y 0xF0F0F0F0 4 x y).

Definition br_aes_ct_ortho (q : q8 Z) : q8 Z :=
  let '(mkQ q0 q1 q2 q3 q4 q5 q6 q7) := q in
  let (q0, q1) := SWAP2 q0 q1 in
  let (q2, q3) := SWAP2 q2 q3 in
  let (q4, q5) := SWAP2 q4 q5 in
  let (q6, q7) := SWAP2 q6 q7 in
  let (q0, q2) := SWAP4 q0 q2 in
  let (q1, q3) := SWAP4 q1 q3 in
  let (q4, q6) := SWAP4 q4 q6 in
  let (q5, q7) := SWAP4 q5 q7 in
  let (q0, q4) := SWAP8 q0 q4 in
  let (q1, q5) := SWAP8 q1 q5 in
  let (q2, q6) := SWAP8 q2 q6 in
  let (q3, q7) := SWAP8 q3 q7 in
  mkQ q0 q1 q2 q3 q4 q5 q6 q7.

Definition Rcon : list Z :=
  [0x01; 0x02; 0x04; 0x08; 0x10; 0x20; 0x40; 0x80; 0x1B; 0x36].

Definition sub_word (x : Z) : Z :=
  let q := mkQ x x x x x x x x in
  let q := br_aes_ct_ortho q in
  let q := br_aes_ct_bitslice_Sbox q in
  let q := br_aes_ct_ortho q in
  Q0 q.

(** ** Key schedule

    The two schedules of aes_ct.c run the same recurrence; the first stores
    every word twice ([skey[2i]] and [skey[2i+1]]), the second once.  Words
    are stored in index order, so the arrays are grown at their end. *)

(** [switch (key_len)]. *)
Definition key_rounds (key_len : nat) : option nat :=
  if (key_len =? 16)%nat then Some 10%nat
  else if (key_len =? 24)%nat then Some 12%nat
  else if (key_len =? 32)%nat then Some 14%nat
  else None.

Section Keysched.
(** How word [i] is stored and read back: [dup] is 2 in [br_aes_ct_keysched]
    and 1 in [br_aes_ct_keysched_stdenc]. *)
Context (dup : nat).

Definition sched_push (skey : list Z) (tmp : Z) : list Z := skey ++ replicate dup tmp.
Definition sched_get (skey : list Z) (i : nat) : Z := word_at skey (i * dup).

(** [for (i = 0; i < nk; i++)]: load the key words. *)
Definition sched_load (nk : nat) (key : list Z) : Z * list Z :=
  fold_left (fun '(tmp, skey) i =>
               let tmp := le32dec (drop (4 * i) key) in (tmp, sched_push skey tmp))
            (seq 0 nk) (0, []).

(** One iteration of [for (i = nk, j = 0, k = 0; i < nkf; i++)]. *)
Definition sched_step (nk i : nat) (st : nat * nat * Z * list Z) : nat * nat * Z * list Z :=
  let '(j, k, tmp, skey) := st in
  let tmp :=
    if (j =? 0)%nat then
      let tmp := Z.lor (u32 (Z.shiftl tmp 24)) (Z.shiftr tmp 8) in
      Z.lxor (sub_word tmp) (word_at Rcon k)
    else if (6 <? nk)%nat && (j =? 4)%nat then sub_word tmp
    else tmp in
  let tmp := Z.lxor tmp (sched_get skey (i - nk)) in
  let skey := sched_push skey tmp in
  let j := S j in
  if (j =? nk)%nat then (0%nat, S k, tmp, skey) else (j, k, tmp, skey).

Definition sched_words (nk nkf : nat) (key : list Z) : list Z :=
  let '(tmp, skey) := sched_load nk key in
  let '(_, _, _, skey) :=
    fold_left (fun st i => sched_step nk i st) (seq nk (nkf - nk)) (0%nat, 0%nat, tmp, skey) in
  skey.
End Keysched.

(** [for (i = 0; i < nkf; i += 4) br_aes_ct_ortho(skey + (i << 1))]. *)
Definition ortho_groups (ngroups : nat) (skey : list Z) : list Z :=
  flat_map (fun g => q8_list (br_aes_ct_ortho (q8_at skey (8 * g)))) (seq 0 ngroups).

(** The words written to [comp_skey] and the return value. *)
Definition br_aes_ct_keysched (key : list Z) (key_len : nat) : nat * list Z :=
  match key_rounds key_len with
  | None => (0%nat, [])
  | Some num_rounds =>
      let nk := (key_len / 4)%nat in
      let nkf := ((num_rounds + 1) * 4)%nat in
      let skey := sched_words 2 nk nkf key in
      let skey := ortho_groups (num_rounds + 1) skey in
      (num_rounds,
       map (fun i => Z.lor (Z.land (word_at skey (2 * i + 0)) 0x55555555)
                           (Z.land (word_at skey (2 * i + 1)) 0xAAAAAAAA)) (seq 0 nkf))
  end.

Definition br_aes_ct_skey_expand (num_rounds : nat) (comp_skey : list Z) : list Z :=
  flat_map (fun u =>
              let x := Z.land (word_at comp_skey u) 0x55555555 in
              let y := Z.land (word_at comp_skey u) 0xAAAAAAAA in
              [Z.lor x (u32 (Z.shiftl x 1)); Z.lor y (Z.shiftr y 1)])
           (seq 0 ((num_rounds + 1) * 4)).

(** ** Encryption: aes_ct_enc.c *)

Definition add_round_key (q sk : q8 Z) : q8 Z := qzip Z.lxor q sk.

Definition shift_rows_word (x : Z) : Z :=
  Z.lor (Z.lor (Z.lor (Z.lor (Z.lor (Z.lor
    (Z.land x 0x000000FF)
    (Z.shiftr (Z.land x 0x0000FC00) 2)) (u32 (Z.shiftl (Z.land x 0x00000300) 6)))
    (Z.shiftr (Z.land x 0x00F00000) 4)) (u32 (Z.shiftl (Z.land x 0x000F0000) 4)))
    (Z.shiftr (Z.land x 0xC0000000) 6)) (u32 (Z.shiftl (Z.land x 0x3F000000) 2)).
Definition shift_rows (q : q8 Z) : q8 Z := qmap shift_rows_word q.

Definition rotr16 (x : Z) : Z := Z.lor (u32 (Z.shiftl x 16)) (Z.shiftr x 16).

(** [(q >> 8) | (q << 24)]. *)
Definition rotr8 (x : Z) : Z := Z.lor (Z.shiftr x 8) (u32 (Z.shiftl x 24)).

#[local] Notation "a ^^ b" := (Z.lxor a b) (at level 50, left associativity).

Definition mix_columns (q : q8 Z) : q8 Z :=
  let '(mkQ q0 q1 q2 q3 q4 q5 q6 q7) := q in
  let r0 := rotr8 q0 in let r1 := rotr8 q1 in let r2 := rotr8 q2 in let r3 := rotr8 q3 in
  let r4 := rotr8 q4 in let r5 := rotr8 q5 in let r6 := rotr8 q6 in let r7 := rotr8 q7 in
  mkQ (q7 ^^ r7 ^^ r0 ^^ rotr16 (q0 ^^ r0))
      (q0 ^^ r0 ^^ q7 ^^ r7 ^^ r1 ^^ rotr16 (q1 ^^ r1))
      (q1 ^^ r1 ^^ r2 ^^ rotr16 (q2 ^^ r2))
      (q2 ^^ r2 ^^ q7 ^^ r7 ^^ r3 ^^ rotr16 (q3 ^^ r3))
      (q3 ^^ r3 ^^ q7 ^^ r7 ^^ r4 ^^ rotr16 (q4 ^^ r4))
      (q4 ^^ r4 ^^ r5 ^^ rotr16 (q5 ^^ r5))
      (q5 ^^ r5 ^^ r6 ^^ rotr16 (q6 ^^ r6))
      (q6 ^^ r6 ^^ r7 ^^ rotr16 (q7 ^^ r7)).

Definition br_aes_ct_bitslice_encrypt (num_rounds : nat) (skey : list Z) (q : q8 Z) : q8 Z :=
  let q := add_round_key q (q8_at skey 0) in
  let q := fold_left (fun q u =>
             let q := br_aes_ct_bitslice_Sbox q in
             let q := shift_rows q in
             let q := mix_columns q in
             add_round_key q (q8_at skey (8 * u)))
           (seq 1 (num_rounds - 1)) q in
  let q := br_aes_ct_bitslice_Sbox q in
  let q := shift_rows q in
  add_round_key q (q8_at skey (8 * num_rounds)).

(** ** Decryption: aes_ct_dec.c *)

(** The inverse affine layer that runs before and after the forward S-box. *)
Definition inv_affine_layer (q : q8 Z) : q8 Z :=
  let q0 := not32 (Q0 q) in
  let q1 := not32 (Q1 q) in
  let q2 := Q2 q in
  let q3 := Q3 q in
  let q4 := Q4 q in
  let q5 := not32 (Q5 q) in
  let q6 := not32 (Q6 q) in
  let q7 := Q7 q in
  mkQ (q2 ^^ q5 ^^ q7) (q3 ^^ q6 ^^ q0) (q4 ^^ q7 ^^ q1) (q5 ^^ q0 ^^ q2)
      (q6 ^^ q1 ^^ q3) (q7 ^^ q2 ^^ q4) (q0 ^^ q3 ^^ q5) (q1 ^^ q4 ^^ q6).

Definition br_aes_ct_bitslice_invSbox (q : q8 Z) : q8 Z :=
  let q := inv_affine_layer q in
  let q := br_aes_ct_bitslice_Sbox q in
  inv_affine_layer q.

Definition inv_shift_rows_word (x : Z) : Z :=
  Z.lor (Z.lor (Z.lor (Z.lor (Z.lor (Z.lor
    (Z.land x 0x000000FF)
    (u32 (Z.shiftl (Z.land x 0x00003F00) 2))) (Z.shiftr (Z.land x 0x0000C000) 6))
    (u32 (Z.shiftl (Z.land x 0x000F0000) 4))) (Z.shiftr (Z.land x 0x00F00000) 4))
    (u32 (Z.shiftl (Z.land x 0x03000000) 6))) (Z.shiftr (Z.land x 0xFC000000) 2).
Definition inv_shift_rows (q : q8 Z) : q8 Z := qmap inv_shift_rows_word q.

Definition inv_mix_columns (q : q8 Z) : q8 Z :=
  let '(mkQ q0 q1 q2 q3 q4 q5 q6 q7) := q in
  let r0 := rotr8 q0 in let r1 := rotr8 q1 in let r2 := rotr8 q2 in let r3 := rotr8 q3 in
  let r4 := rotr8 q4 in let r5 := rotr8 q5 in let r6 := rotr8 q6 in let r7 := rotr8 q7 in
  mkQ
   (q5 ^^ q6 ^^ q7 ^^ r0 ^^ r5 ^^ r7 ^^ rotr16 (q0 ^^ q5 ^^ q6 ^^ r0 ^^ r5))
   (q0 ^^ q5 ^^ r0 ^^ r1 ^^ r5 ^^ r6 ^^ r7 ^^ rotr16 (q1 ^^ q5 ^^ q7 ^^ r1 ^^ r5 ^^ r6))
   (q0 ^^ q1 ^^ q6 ^^ r1 ^^ r2 ^^ r6 ^^ r7 ^^ rotr16 (q0 ^^ q2 ^^ q6 ^^ r2 ^^ r6 ^^ r7))
   (q0 ^^ q1 ^^ q2 ^^ q5 ^^ q6 ^^ r0 ^^ r2 ^^ r3 ^^ r5
      ^^ rotr16 (q0 ^^ q1 ^^ q3 ^^ q5 ^^ q6 ^^ q7 ^^ r0 ^^ r3 ^^ r5 ^^ r7))
   (q1 ^^ q2 ^^ q3 ^^ q5 ^^ r1 ^^ r3 ^^ r4 ^^ r5 ^^ r6 ^^ r7
      ^^ rotr16 (q1 ^^ q2 ^^ q4 ^^ q5 ^^ q7 ^^ r1 ^^ r4 ^^ r5 ^^ r6))
   (q2 ^^ q3 ^^ q4 ^^ q6 ^^ r2 ^^ r4 ^^ r5 ^^ r6 ^^ r7
      ^^ rotr16 (q2 ^^ q3 ^^ q5 ^^ q6 ^^ r2 ^^ r5 ^^ r6 ^^ r7))
   (q3 ^^ q4 ^^ q5 ^^ q7 ^^ r3 ^^ r5 ^^ r6 ^^ r7
      ^^ rotr16 (q3 ^^ q4 ^^ q6 ^^ q7 ^^ r3 ^^ r6 ^^ r7))
   (q4 ^^ q5 ^^ q6 ^^ r4 ^^ r6 ^^ r7 ^^ rotr16 (q4 ^^ q5 ^^ q7 ^^ r4 ^^ r7)).

Definition br_aes_ct_bitslice_decrypt (num_rounds : nat) (skey : list Z) (q : q8 Z) : q8 Z :=
  let q := add_round_key q (q8_at skey (8 * num_rounds)) in
  let q := fold_left (fun q u =>
             let q := inv_shift_rows q in
             let q := br_aes_ct_bitslice_invSbox q in
             let q := add_round_key q (q8_at skey (8 * u)) in
             inv_mix_columns q)
           (rev (seq 1 (num_rounds - 1))) q in
  let q := inv_shift_rows q in
  let q := br_aes_ct_bitslice_invSbox q in
  add_round_key q (q8_at skey 0).

Definition br_aes_ct_inv_mix_columns (q : q8 Z) : q8 Z := inv_mix_columns q.

(** ** The standard key schedules, "NetBSD additions" of aes_ct.c *)

Definition br_aes_ct_keysched_stdenc (key : list Z) (key_len : nat) : nat * list Z :=
  match key_rounds key_len with
  | None => (0%nat, [])
  | Some num_rounds =>
      (num_rounds, sched_words 1 (key_len / 4)%nat ((num_rounds + 1) * 4)%nat key)
  end.

(** Round [i] of the decryption schedule before it is moved to its place. *)
Definition stddec_round (skey : list Z) (i : nat) : list Z :=
  let q := mkQ (word_at skey (4 * i + 0)) 0 (word_at skey (4 * i + 1)) 0
               (word_at skey (4 * i + 2)) 0 (word_at skey (4 * i + 3)) 0 in
  let q := br_aes_ct_ortho q in
  let q := br_aes_ct_inv_mix_columns q in
  let q := br_aes_ct_ortho q in
  [Q0 q; Q2 q; Q4 q; Q6 q].

(** [tkey[4 * (num_rounds - i)]] receives round [i]: the rounds in reverse. *)
Definition br_aes_ct_keysched_stddec (key : list Z) (key_len : nat) : nat * list Z :=
  let '(num_rounds, skey) := br_aes_ct_keysched_stdenc key key_len in
  if (num_rounds =? 0)%nat then (0%nat, [])
  else
    (num_rounds,
     sub_list (4 * num_rounds) 4 skey
     ++ flat_map (fun i => stddec_round skey i) (rev (seq 1 (num_rounds - 1)))
     ++ sub_list 0 4 skey).
