(* ===== verification/AesSpec.v ===== *)
(** * The Advanced Encryption Standard (FIPS 197)

    The reference the bit-sliced code of crypto/aes is compared with.  A block
    is a list of 16 bytes in input order: byte [4c + r] is row [r], column [c]
    of the standard's state array.  The S-box is given by its definition
    (inversion in GF(2^8) and an affine map), not by a table. *)

From Stdlib Require Import Btauto.
From S2P Require Import Prelude.

(** ** GF(2^8) *)

Definition xtime (x : Z) : Z :=
  Z.lxor (u8 (Z.shiftl x 1)) (if Z.testbit x 7 then 0x1b else 0).

Fixpoint gmul_loop (n : nat) (a b acc : Z) : Z :=
  match n with
  | O => acc
  | S n => gmul_loop n (xtime a) (Z.shiftr b 1) (if Z.testbit b 0 then Z.lxor acc a else acc)
  end.
(** Product in GF(2^8) modulo x^8 + x^4 + x^3 + x + 1. *)
Definition gmul (a b : Z) : Z := gmul_loop 8 a b 0.

(** Inverse of a non-zero element, and 0 for 0: the 254th power. *)
Definition ginv (x : Z) : Z :=
  let x2 := gmul x x in
  let x4 := gmul x2 x2 in
  let x8 := gmul x4 x4 in
  let x16 := gmul x8 x8 in
  let x32 := gmul x16 x16 in
  let x64 := gmul x32 x32 in
  let x128 := gmul x64 x64 in
  gmul x128 (gmul x64 (gmul x32 (gmul x16 (gmul x8 (gmul x4 x2))))).

Definition rotl8 (x n : Z) : Z := Z.lor (u8 (Z.shiftl x n)) (Z.shiftr x (8 - n)).

Definition sbox (x : Z) : Z :=
  let b := ginv x in
  Z.lxor (Z.lxor (Z.lxor (Z.lxor (Z.lxor b (rotl8 b 1)) (rotl8 b 2)) (rotl8 b 3)) (rotl8 b 4)) 0x63.

Definition inv_sbox (x : Z) : Z :=
  ginv (Z.lxor (Z.lxor (Z.lxor (rotl8 x 1) (rotl8 x 3)) (rotl8 x 6)) 0x05).

(** ** The round transformations *)

Definition sub_bytes (s : list Z) : list Z := map sbox s.
Definition inv_sub_bytes (s : list Z) : list Z := map inv_sbox s.

(** Row [r] moves left by [r] columns. *)
Definition shift_rows_ix (i : nat) : nat := (4 * ((i / 4 + i mod 4) mod 4) + i mod 4)%nat.
Definition spec_shift_rows (s : list Z) : list Z :=
  map (fun i => byte_at s (shift_rows_ix i)) (seq 0 16).
(** Row [r] moves right by [r] columns. *)
Definition inv_shift_rows_ix (i : nat) : nat := (4 * ((i / 4 + 4 - i mod 4) mod 4) + i mod 4)%nat.
Definition spec_inv_shift_rows (s : list Z) : list Z :=
  map (fun i => byte_at s (inv_shift_rows_ix i)) (seq 0 16).

(** Row [r + k] of the column of byte [i]. *)
Definition col_ix (i k : nat) : nat := (4 * (i / 4) + (i + k) mod 4)%nat.

Definition spec_mix_columns (s : list Z) : list Z :=
  map (fun i => Z.lxor (Z.lxor (Z.lxor (gmul (byte_at s (col_ix i 0)) 2)
                                       (gmul (byte_at s (col_ix i 1)) 3))
                               (byte_at s (col_ix i 2))) (byte_at s (col_ix i 3))) (seq 0 16).

Definition spec_inv_mix_columns (s : list Z) : list Z :=
  map (fun i => Z.lxor (Z.lxor (Z.lxor (gmul (byte_at s (col_ix i 0)) 14)
                                       (gmul (byte_at s (col_ix i 1)) 11))
                               (gmul (byte_at s (col_ix i 2)) 13))
                       (gmul (byte_at s (col_ix i 3)) 9)) (seq 0 16).

Definition spec_add_round_key (s k : list Z) : list Z := zip_with Z.lxor s k.

(** ** Key expansion: words are lists of four bytes *)

Definition rot_word (w : list Z) : list Z := drop 1 w ++ take 1 w.
Definition spec_sub_word (w : list Z) : list Z := map sbox w.

(** Round constant [Rcon[j]], [j >= 1]: [x^(j-1)] in the first byte. *)
Definition spec_rcon (j : nat) : list Z := [Nat.iter (j - 1) xtime 1; 0; 0; 0].

Definition key_word (nk : nat) (w : list (list Z)) : list Z :=
  let i := length w in
  let temp := nth (i - 1) w [] in
  let temp :=
    if (i mod nk =? 0)%nat
    then zip_with Z.lxor (spec_sub_word (rot_word temp)) (spec_rcon (i / nk))
    else if (6 <? nk)%nat && (i mod nk =? 4)%nat then spec_sub_word temp
    else temp in
  zip_with Z.lxor (nth (i - nk) w []) temp.

Definition key_expansion (nk nr : nat) (key : list Z) : list (list Z) :=
  Nat.iter (4 * (nr + 1) - nk) (fun w => w ++ [key_word nk w])
           (map (fun i => sub_list (4 * i) 4 key) (seq 0 nk)).

(** The 16 bytes of round key [u]. *)
Definition round_key (w : list (list Z)) (u : nat) : list Z :=
  concat (sub_list (4 * u) 4 w).

(** ** The cipher *)

Definition cipher_with (nr : nat) (rk : nat -> list Z) (s : list Z) : list Z :=
  let s := spec_add_round_key s (rk 0%nat) in
  let s := fold_left (fun s u =>
             spec_add_round_key (spec_mix_columns (spec_shift_rows (sub_bytes s))) (rk u))
           (seq 1 (nr - 1)) s in
  spec_add_round_key (spec_shift_rows (sub_bytes s)) (rk nr).

Definition inv_cipher_with (nr : nat) (rk : nat -> list Z) (s : list Z) : list Z :=
  let s := spec_add_round_key s (rk nr) in
  let s := fold_left (fun s u =>
             spec_inv_mix_columns
               (spec_add_round_key (inv_sub_bytes (spec_inv_shift_rows s)) (rk u)))
           (rev (seq 1 (nr - 1))) s in
  spec_add_round_key (inv_sub_bytes (spec_inv_shift_rows s)) (rk 0%nat).

Definition aes_cipher (nk nr : nat) (key s : list Z) : list Z :=
  cipher_with nr (round_key (key_expansion nk nr key)) s.
Definition aes_inv_cipher (nk nr : nat) (key s : list Z) : list Z :=
  inv_cipher_with nr (round_key (key_expansion nk nr key)) s.

(** ** Facts about the field and the rounds *)

(** The 256 byte values, for proofs by evaluation. *)
Definition all_bytes : list Z := map Z.of_nat (seq 0 256).

Lemma byte_cases (P : Z -> bool) :
  forallb P all_bytes = true -> forall x, is_u8 x -> P x = true.
Proof.
  intros HP x [? ?]. rewrite forallb_forall in HP. apply HP.
  unfold all_bytes. apply in_map_iff. exists (Z.to_nat x). split; [lia|].
  apply in_seq. lia.
Qed.

Lemma sbox_range x : is_u8 x -> is_u8 (sbox x).
Proof.
  intros Hx. apply (byte_cases (fun x => (0 <=? sbox x) && (sbox x <? 256))) in Hx;
    [|vm_compute; reflexivity]. unfold is_u; lia.
Qed.

(** The two S-boxes are inverse permutations of the byte values. *)
Lemma inv_sbox_sbox x : is_u8 x -> inv_sbox (sbox x) = x.
Proof.
  intros Hx. apply (byte_cases (fun x => inv_sbox (sbox x) =? x)) in Hx;
    [lia|vm_compute; reflexivity].
Qed.

Lemma inv_sbox_range x : is_u8 x -> is_u8 (inv_sbox x).
Proof.
  intros Hx. apply (byte_cases (fun x => (0 <=? inv_sbox x) && (inv_sbox x <? 256))) in Hx;
    [|vm_compute; reflexivity]. unfold is_u; lia.
Qed.

Example sbox_00 : sbox 0x00 = 0x63.
Proof. reflexivity. Qed.
Example sbox_53 : sbox 0x53 = 0xed.
Proof. reflexivity. Qed.

(** FIPS 197, appendix C.1. *)
Example fips197_c1 :
  aes_cipher 4 10 [0;1;2;3;4;5;6;7;8;9;10;11;12;13;14;15]
    [0;0x11;0x22;0x33;0x44;0x55;0x66;0x77;0x88;0x99;0xaa;0xbb;0xcc;0xdd;0xee;0xff]
  = [0x69;0xc4;0xe0;0xd8;0x6a;0x7b;0x04;0x30;0xd8;0xcd;0xb7;0x80;0x70;0xb4;0xc5;0x5a].
Proof. vm_compute. reflexivity. Qed.

(** FIPS 197, appendix C.3 (AES-256), both directions. *)
Example fips197_c3 :
  let key := map Z.of_nat (seq 0 32) in
  let pt := [0;0x11;0x22;0x33;0x44;0x55;0x66;0x77;0x88;0x99;0xaa;0xbb;0xcc;0xdd;0xee;0xff] in
  let ct := [0x8e;0xa2;0xb7;0xca;0x51;0x67;0x45;0xbf;0xea;0xfc;0x49;0x90;0x4b;0x49;0x60;0x89] in
  aes_cipher 8 14 key pt = ct /\ aes_inv_cipher 8 14 key ct = pt.
Proof. vm_compute. split; reflexivity. Qed.

(** ** The inverse cipher undoes the cipher *)

(** One AES block: sixteen bytes. *)
Definition blk (l : list Z) : Prop := length l = 16%nat /\ bytes l.

Ltac blk_cases a H :=
  let Hl := fresh "Hl" in let Hf := fresh "Hf" in
  destruct H as [Hl Hf];
  do 16 (destruct a as [|? a]; [discriminate Hl|]);
  destruct a; [|discriminate Hl]; clear Hl; inv_Forall.

Lemma u8_lxor x y : u8 (Z.lxor x y) = Z.lxor (u8 x) (u8 y).
Proof.
  unfold u8. apply Z.bits_inj'; intros i Hi. rewrite !Z.land_spec, !Z.lxor_spec, !Z.land_spec.
  by destruct (Z.testbit x i), (Z.testbit y i), (Z.testbit 255 i).
Qed.

Lemma lxor_swap a b c d : Z.lxor (Z.lxor a b) (Z.lxor c d) = Z.lxor (Z.lxor a c) (Z.lxor b d).
Proof.
  apply Z.bits_inj'; intros i Hi. rewrite !Z.lxor_spec.
  by destruct (Z.testbit a i), (Z.testbit b i), (Z.testbit c i), (Z.testbit d i).
Qed.

Lemma xtime_lxor x y : xtime (Z.lxor x y) = Z.lxor (xtime x) (xtime y).
Proof.
  unfold xtime. rewrite Z.shiftl_lxor, u8_lxor, lxor_swap, Z.lxor_spec. f_equal.
  by destruct (Z.testbit x 7), (Z.testbit y 7).
Qed.

Lemma gmul_loop_lxor n a a' b acc acc' :
  gmul_loop n (Z.lxor a a') b (Z.lxor acc acc') =
  Z.lxor (gmul_loop n a b acc) (gmul_loop n a' b acc').
Proof.
  revert a a' b acc acc'. induction n as [|n IH]; intros; cbn [gmul_loop]; [done|].
  rewrite xtime_lxor, <- IH. destruct (Z.testbit b 0); [by rewrite lxor_swap|done].
Qed.
(** Multiplication distributes over addition. *)
Lemma gmul_lxor a a' b : gmul (Z.lxor a a') b = Z.lxor (gmul a b) (gmul a' b).
Proof. exact (gmul_loop_lxor 8 a a' b 0 0). Qed.

Lemma gmul_range_const x c :
  In c [2; 3; 9; 11; 13; 14] -> is_u8 x -> is_u8 (gmul x c).
Proof.
  intros Hc Hx.
  apply (byte_cases (fun x => forallb (fun c => (0 <=? gmul x c) && (gmul x c <? 256))
                                      [2; 3; 9; 11; 13; 14])) in Hx; [|vm_compute; reflexivity].
  rewrite forallb_forall in Hx. specialize (Hx c Hc). unfold is_u; lia.
Qed.

(** One row of the product of the two MixColumns matrices. *)
Lemma mix_row a b c d :
  is_u8 a -> is_u8 b -> is_u8 c -> is_u8 d ->
  let m w x y z := Z.lxor (Z.lxor (Z.lxor (gmul w 2) (gmul x 3)) y) z in
  Z.lxor (Z.lxor (Z.lxor (gmul (m a b c d) 14) (gmul (m b c d a) 11)) (gmul (m c d a b) 13))
         (gmul (m d a b c) 9) = a.
Proof.
  intros Ha Hb Hc Hd. cbv beta zeta. rewrite !gmul_lxor.
  assert (F : forall x, is_u8 x ->
    Z.lxor (Z.lxor (Z.lxor (gmul (gmul x 2) 14) (gmul x 11)) (gmul x 13)) (gmul (gmul x 3) 9) = x /\
    Z.lxor (Z.lxor (Z.lxor (gmul (gmul x 3) 14) (gmul (gmul x 2) 11)) (gmul x 13)) (gmul x 9) = 0 /\
    Z.lxor (Z.lxor (Z.lxor (gmul x 14) (gmul (gmul x 3) 11)) (gmul (gmul x 2) 13)) (gmul x 9) = 0 /\
    Z.lxor (Z.lxor (Z.lxor (gmul x 14) (gmul x 11)) (gmul (gmul x 3) 13)) (gmul (gmul x 2) 9) = 0).
  { intros x Hx. apply (byte_cases (fun x =>
      (Z.lxor (Z.lxor (Z.lxor (gmul (gmul x 2) 14) (gmul x 11)) (gmul x 13)) (gmul (gmul x 3) 9) =? x) &&
      (Z.lxor (Z.lxor (Z.lxor (gmul (gmul x 3) 14) (gmul (gmul x 2) 11)) (gmul x 13)) (gmul x 9) =? 0) &&
      (Z.lxor (Z.lxor (Z.lxor (gmul x 14) (gmul (gmul x 3) 11)) (gmul (gmul x 2) 13)) (gmul x 9) =? 0) &&
      (Z.lxor (Z.lxor (Z.lxor (gmul x 14) (gmul x 11)) (gmul (gmul x 3) 13)) (gmul (gmul x 2) 9) =? 0)))
      in Hx; [lia|vm_compute; reflexivity]. }
  destruct (F a Ha) as (Fa & _ & _ & _), (F b Hb) as (_ & Fb & _ & _),
    (F c Hc) as (_ & _ & Fc & _), (F d Hd) as (_ & _ & _ & Fd). clear F.
  match type of Fa with ?A = _ => match type of Fb with ?B = _ =>
  match type of Fc with ?C = _ => match type of Fd with ?D = _ =>
    transitivity (Z.lxor (Z.lxor A B) (Z.lxor C D)) end end end end.
  - apply Z.bits_inj'; intros i Hi. rewrite !Z.lxor_spec. btauto.
  - rewrite Fa, Fb, Fc, Fd. by rewrite !Z.lxor_0_r.
Qed.
