(* ===== verification/AesCtProof.v ===== *)
(** * The bit-sliced rounds of aes_ct*.c compute the AES rounds

    [lane q p] is the byte held at bit position [p] of the eight words.  After
    [br_aes_ct_ortho] the 32 positions are the bytes of two blocks: byte
    [4c + r] of block [b] is at position [8r + 2c + b].  Each routine of the
    code is shown to act on lanes, then on blocks, as the transformation of
    AesSpec.v it implements. *)

From Stdlib Require Import Btauto.
From S2P Require Import Prelude Endian AesCt AesSpec.

Ltac q8_simpl := cbv beta iota delta [Q0 Q1 Q2 Q3 Q4 Q5 Q6 Q7 qmap qzip] in *.

(** ** Bytes as eight bits *)

Definition of_bits (b : q8 bool) : Z :=
  Z.b2z (Q0 b) + 2 * (Z.b2z (Q1 b) + 2 * (Z.b2z (Q2 b) + 2 * (Z.b2z (Q3 b) +
  2 * (Z.b2z (Q4 b) + 2 * (Z.b2z (Q5 b) + 2 * (Z.b2z (Q6 b) + 2 * Z.b2z (Q7 b))))))).
Definition bits_of (x : Z) : q8 bool :=
  mkQ (Z.testbit x 0) (Z.testbit x 1) (Z.testbit x 2) (Z.testbit x 3)
      (Z.testbit x 4) (Z.testbit x 5) (Z.testbit x 6) (Z.testbit x 7).

Lemma of_bits_range b : is_u8 (of_bits b).
Proof. destruct b as [[] [] [] [] [] [] [] []]; vm_compute; split; congruence. Qed.

Lemma bits_of_of_bits b : bits_of (of_bits b) = b.
Proof. destruct b as [[] [] [] [] [] [] [] []]; reflexivity. Qed.

Lemma of_bits_of x : is_u8 x -> of_bits (bits_of x) = x.
Proof.
  intros Hx. apply (byte_cases (fun x => of_bits (bits_of x) =? x)) in Hx;
    [lia|vm_compute; reflexivity].
Qed.

Lemma bits_of_lxor x y : bits_of (Z.lxor x y) = qzip xorb (bits_of x) (bits_of y).
Proof. unfold bits_of. q8_simpl. by rewrite !Z.lxor_spec. Qed.

Lemma of_bits_xor a b : of_bits (qzip xorb a b) = Z.lxor (of_bits a) (of_bits b).
Proof.
  rewrite <- (bits_of_of_bits a) at 1. rewrite <- (bits_of_of_bits b) at 1.
  rewrite <- bits_of_lxor. apply of_bits_of.
  apply is_u_lxor; [lia|apply of_bits_range..].
Qed.

(** A claim about every byte, checked on bits. *)
Lemma bits_cases (f : q8 bool -> q8 bool) (g : Z -> Z) :
  forallb (fun x => of_bits (f (bits_of x)) =? g x) all_bytes = true ->
  forall b, of_bits (f b) = g (of_bits b).
Proof.
  intros HP b. pose proof (byte_cases _ HP _ (of_bits_range b)) as H.
  cbv beta in H. rewrite bits_of_of_bits in H. lia.
Qed.

Lemma xtime_bits b :
  of_bits (mkQ (Q7 b) (xorb (Q0 b) (Q7 b)) (Q1 b) (xorb (Q2 b) (Q7 b))
               (xorb (Q3 b) (Q7 b)) (Q4 b) (Q5 b) (Q6 b)) = xtime (of_bits b).
Proof. revert b. apply bits_cases. vm_compute. reflexivity. Qed.

Lemma gmul_xtime x :
  is_u8 x ->
  gmul x 2 = xtime x /\ gmul x 3 = Z.lxor x (xtime x) /\
  gmul x 9 = Z.lxor x (xtime (xtime (xtime x))) /\
  gmul x 11 = Z.lxor (Z.lxor x (xtime x)) (xtime (xtime (xtime x))) /\
  gmul x 13 = Z.lxor (Z.lxor x (xtime (xtime x))) (xtime (xtime (xtime x))) /\
  gmul x 14 = Z.lxor (Z.lxor (xtime x) (xtime (xtime x))) (xtime (xtime (xtime x))).
Proof.
  intros Hx.
  apply (byte_cases (fun x =>
    (gmul x 2 =? xtime x) && (gmul x 3 =? Z.lxor x (xtime x)) &&
    (gmul x 9 =? Z.lxor x (xtime (xtime (xtime x)))) &&
    (gmul x 11 =? Z.lxor (Z.lxor x (xtime x)) (xtime (xtime (xtime x)))) &&
    (gmul x 13 =? Z.lxor (Z.lxor x (xtime (xtime x))) (xtime (xtime (xtime x)))) &&
    (gmul x 14 =? Z.lxor (Z.lxor (xtime x) (xtime (xtime x))) (xtime (xtime (xtime x)))))) in Hx;
    [|vm_compute; reflexivity].
  repeat (apply andb_prop in Hx as [Hx ?]). repeat split; by apply Z.eqb_eq.
Qed.

(** ** Lanes *)

Definition wf8 (q : q8 Z) : Prop :=
  is_u32 (Q0 q) /\ is_u32 (Q1 q) /\ is_u32 (Q2 q) /\ is_u32 (Q3 q) /\
  is_u32 (Q4 q) /\ is_u32 (Q5 q) /\ is_u32 (Q6 q) /\ is_u32 (Q7 q).

Definition lane_bits (q : q8 Z) (p : Z) : q8 bool := qmap (fun w => Z.testbit w p) q.
Definition lane (q : q8 Z) (p : Z) : Z := of_bits (lane_bits q p).

Lemma lane_range q p : is_u8 (lane q p).
Proof. apply of_bits_range. Qed.
#[export] Hint Resolve lane_range : urange.

(** Words that agree on their 32 lanes are equal. *)
Lemma q8_ext q q' :
  wf8 q -> wf8 q' -> (forall p, 0 <= p < 32 -> lane q p = lane q' p) -> q = q'.
Proof.
  intros Hq Hq' H.
  assert (Hb : forall p, 0 <= p < 32 -> lane_bits q p = lane_bits q' p).
  { intros p Hp. rewrite <- (bits_of_of_bits (lane_bits q p)), <- (bits_of_of_bits (lane_bits q' p)).
    f_equal. by apply H. }
  destruct q, q', Hq as (?&?&?&?&?&?&?&?), Hq' as (?&?&?&?&?&?&?&?); cbn in *.
  f_equal; (apply u32_ext; [done..|]); intros p Hp; specialize (Hb p Hp);
    unfold lane_bits, qmap in Hb; cbn in Hb; congruence.
Qed.

(** *** The S-box *)

Section Hom.
Context {V W : Type} (f : V -> W).
Context (xor and : V -> V -> V) (not : V -> V) (xor' and' : W -> W -> W) (not' : W -> W).
Context (f_xor : forall a b, f (xor a b) = xor' (f a) (f b)).
Context (f_and : forall a b, f (and a b) = and' (f a) (f b)).
Context (f_not : forall a, f (not a) = not' (f a)).

Lemma let_rel (a : V) (b : W) (K : V -> q8 V) (L : W -> q8 W) :
  f a = b -> (forall v w, f v = w -> qmap f (K v) = L w) ->
  qmap f (let x := a in K x) = (let y := b in L y).
Proof. intros H1 H2. cbv zeta. by apply H2. Qed.

(** Reading every wire through a map that respects the gates. *)
Lemma Sbox_circuit_hom q :
  qmap f (Sbox_circuit xor and not q) = Sbox_circuit xor' and' not' (qmap f q).
Proof using f_xor f_and f_not.
  cbv beta delta [Sbox_circuit].
  repeat
    match goal with
    | |- qmap f (let x := ?a in @?K x) = (let y := ?b in @?L y) =>
        apply (let_rel a b K L);
        [ rewrite ?f_xor, ?f_and, ?f_not; try reflexivity;
          repeat (f_equal; try assumption)
        | intros ? ? ?; cbv beta ]
    end.
  unfold qmap; cbn [Q0 Q1 Q2 Q3 Q4 Q5 Q6 Q7]. by f_equal.
Qed.
End Hom.

Lemma lane_Sbox q p :
  0 <= p < 32 -> lane (br_aes_ct_bitslice_Sbox q) p = sbox (lane q p).
Proof.
  intros Hp. unfold lane, lane_bits, br_aes_ct_bitslice_Sbox.
  rewrite (Sbox_circuit_hom _ _ _ _ xorb andb negb).
  - apply (bits_cases (Sbox_circuit xorb andb negb) sbox). vm_compute. reflexivity.
  - intros; apply Z.lxor_spec.
  - intros; apply Z.land_spec.
  - intros a. unfold not32. rewrite testbit_u32 by done. apply Z.lnot_spec. lia.
Qed.

(** *** Ranges *)

Ltac q8_cases q H :=
  let a := fresh "a" in let b := fresh "b" in let c := fresh "c" in let d := fresh "d" in
  let e := fresh "e" in let f := fresh "f" in let g := fresh "g" in let h := fresh "h" in
  destruct q as [a b c d e f g h], H as (? & ? & ? & ? & ? & ? & ? & ?); q8_simpl.

Lemma not32_range x : is_u32 (not32 x).
Proof. apply u32_range. Qed.
Lemma rotr8_range x : is_u32 x -> is_u32 (rotr8 x).
Proof. intros. unfold rotr8. auto with urange. Qed.
Lemma rotr16_range x : is_u32 x -> is_u32 (rotr16 x).
Proof. intros. unfold rotr16. auto with urange. Qed.
#[export] Hint Resolve not32_range rotr8_range rotr16_range : urange.

Lemma wf8_zip q k : wf8 q -> wf8 k -> wf8 (add_round_key q k).
Proof.
  intros Hq Hk. destruct Hq as (?&?&?&?&?&?&?&?), Hk as (?&?&?&?&?&?&?&?).
  unfold add_round_key, wf8; q8_simpl. auto 20 with urange.
Qed.

Lemma wf8_map f q : (forall x, is_u32 x -> is_u32 (f x)) -> wf8 q -> wf8 (qmap f q).
Proof. intros Hf (?&?&?&?&?&?&?&?). unfold wf8; q8_simpl. auto 20. Qed.

Lemma shift_rows_word_range x : is_u32 x -> is_u32 (shift_rows_word x).
Proof. intros. unfold shift_rows_word. auto 20 with urange. Qed.
Lemma inv_shift_rows_word_range x : is_u32 x -> is_u32 (inv_shift_rows_word x).
Proof. intros. unfold inv_shift_rows_word. auto 20 with urange. Qed.

Lemma wf8_shift_rows q : wf8 q -> wf8 (shift_rows q).
Proof. apply wf8_map, shift_rows_word_range. Qed.
Lemma wf8_inv_shift_rows q : wf8 q -> wf8 (inv_shift_rows q).
Proof. apply wf8_map, inv_shift_rows_word_range. Qed.

Lemma wf8_mix_columns q : wf8 q -> wf8 (mix_columns q).
Proof.
  intros Hq. q8_cases q Hq. unfold mix_columns, wf8; q8_simpl.
  repeat split_and; auto 30 with urange.
Qed.
Lemma wf8_inv_mix_columns q : wf8 q -> wf8 (inv_mix_columns q).
Proof.
  intros Hq. q8_cases q Hq. unfold inv_mix_columns, wf8; q8_simpl.
  repeat split_and; auto 30 with urange.
Qed.

Lemma qmap_u32_wf8 q : wf8 (qmap u32 q).
Proof. unfold wf8; q8_simpl. auto 20 with urange. Qed.
Lemma qmap_u32_id q : wf8 q -> qmap u32 q = q.
Proof. intros Hq. q8_cases q Hq. by rewrite !u32_id. Qed.

(** Truncation commutes with every gate, so the circuit stays in 32 bits. *)
Lemma wf8_Sbox q : wf8 q -> wf8 (br_aes_ct_bitslice_Sbox q).
Proof.
  intros Hq. rewrite <- (qmap_u32_id q Hq). unfold br_aes_ct_bitslice_Sbox.
  rewrite <- (Sbox_circuit_hom u32 Z.lxor Z.land not32); [apply qmap_u32_wf8|..];
    intros; unfold not32, u32; apply Z.bits_inj'; intros i Hi;
    rewrite ?Z.land_spec, ?Z.lxor_spec, ?Z.land_spec, ?Z.lnot_spec, ?Z.land_spec by done; btauto.
Qed.

Lemma wf8_inv_affine_layer q : wf8 q -> wf8 (inv_affine_layer q).
Proof.
  intros Hq. q8_cases q Hq. unfold inv_affine_layer, wf8; q8_simpl.
  repeat split_and; auto 10 with urange.
Qed.
Lemma wf8_invSbox q : wf8 q -> wf8 (br_aes_ct_bitslice_invSbox q).
Proof. intros. by apply wf8_inv_affine_layer, wf8_Sbox, wf8_inv_affine_layer. Qed.

Lemma SWAPN_x_range cl s a b :
  is_u32 cl -> is_u32 a -> is_u32 (SWAPN_x cl s a b).
Proof. intros. unfold SWAPN_x. auto with urange. Qed.
Lemma SWAPN_y_range ch s a b :
  0 <= s -> is_u32 ch -> is_u32 a -> is_u32 b -> is_u32 (SWAPN_y ch s a b).
Proof. intros. unfold SWAPN_y. auto with urange. Qed.
#[export] Hint Resolve SWAPN_x_range SWAPN_y_range : urange.

Lemma wf8_ortho q : wf8 q -> wf8 (br_aes_ct_ortho q).
Proof.
  intros Hq. q8_cases q Hq. unfold br_aes_ct_ortho, SWAP2, SWAP4, SWAP8, wf8; q8_simpl.
  repeat split_and; auto 20 with urange.
Qed.

#[export] Hint Resolve wf8_zip wf8_shift_rows wf8_inv_shift_rows wf8_mix_columns
  wf8_inv_mix_columns wf8_Sbox wf8_invSbox wf8_ortho : urange.

(** *** Transposition

    Within each byte lane of the words, [br_aes_ct_ortho] transposes the 8x8
    bit matrix: bit [8k + j] of word [i] becomes bit [8k + i] of word [j]. *)

Lemma SWAP2_x_bit a b i : 0 <= i < 32 ->
  Z.testbit (SWAPN_x 0x55555555 1 a b) i =
  if Z.testbit 0x55555555 i then Z.testbit a i else Z.testbit b (i - 1).
Proof. intros Hi. unfold SWAPN_x. case_range i Hi; solve_bits. Qed.
Lemma SWAP2_y_bit a b i : 0 <= i < 32 ->
  Z.testbit (SWAPN_y 0xAAAAAAAA 1 a b) i =
  if Z.testbit 0xAAAAAAAA i then Z.testbit b i else Z.testbit a (i + 1).
Proof. intros Hi. unfold SWAPN_y. case_range i Hi; solve_bits. Qed.
Lemma SWAP4_x_bit a b i : 0 <= i < 32 ->
  Z.testbit (SWAPN_x 0x33333333 2 a b) i =
  if Z.testbit 0x33333333 i then Z.testbit a i else Z.testbit b (i - 2).
Proof. intros Hi. unfold SWAPN_x. case_range i Hi; solve_bits. Qed.
Lemma SWAP4_y_bit a b i : 0 <= i < 32 ->
  Z.testbit (SWAPN_y 0xCCCCCCCC 2 a b) i =
  if Z.testbit 0xCCCCCCCC i then Z.testbit b i else Z.testbit a (i + 2).
Proof. intros Hi. unfold SWAPN_y. case_range i Hi; solve_bits. Qed.
Lemma SWAP8_x_bit a b i : 0 <= i < 32 ->
  Z.testbit (SWAPN_x 0x0F0F0F0F 4 a b) i =
  if Z.testbit 0x0F0F0F0F i then Z.testbit a i else Z.testbit b (i - 4).
Proof. intros Hi. unfold SWAPN_x. case_range i Hi; solve_bits. Qed.
Lemma SWAP8_y_bit a b i : 0 <= i < 32 ->
  Z.testbit (SWAPN_y 0xF0F0F0F0 4 a b) i =
  if Z.testbit 0xF0F0F0F0 i then Z.testbit b i else Z.testbit a (i + 4).
Proof. intros Hi. unfold SWAPN_y. case_range i Hi; solve_bits. Qed.

Definition qnth (q : q8 Z) (j : Z) : Z := word_at (q8_list q) (Z.to_nat j).

Ltac swap_bit L := rewrite L by lia; eval_const_bits; cbv iota; norm_index.

Lemma lane_ortho q p :
  0 <= p < 32 ->
  lane (br_aes_ct_ortho q) p = u8 (Z.shiftr (qnth q (p mod 8)) (8 * (p / 8))).
Proof.
  intros Hp. rewrite <- (of_bits_of (u8 _)) by apply u8_range. unfold lane. f_equal.
  destruct q as [a b c d e f g h].
  unfold lane_bits, bits_of, br_aes_ct_ortho, SWAP2, SWAP4, SWAP8; q8_simpl.
  case_range p Hp; norm_divmod; unfold qnth, q8_list, byte_at; norm_divmod; q8_simpl; cbn [nth];
    f_equal;
    repeat first [ swap_bit SWAP8_x_bit | swap_bit SWAP8_y_bit | swap_bit SWAP4_x_bit
          | swap_bit SWAP4_y_bit | swap_bit SWAP2_x_bit | swap_bit SWAP2_y_bit ];
    push_testbit; reflexivity.
Qed.

(** Bit [p] of word [j] is bit [j] of lane [p]. *)
Lemma testbit_qnth q j p :
  0 <= j < 8 -> Z.testbit (qnth q j) p = Z.testbit (lane q p) j.
Proof.
  intros Hj. unfold lane.
  pose proof (bits_of_of_bits (lane_bits q p)) as E. unfold bits_of in E.
  remember (of_bits (lane_bits q p)) as x. destruct q as [a b c d e f g h].
  unfold lane_bits in E.
  case_range j Hj; unfold qnth, q8_list, byte_at; norm_divmod; q8_simpl; cbn [nth]; symmetry;
    [ exact (f_equal Q0 E) | exact (f_equal Q1 E) | exact (f_equal Q2 E) | exact (f_equal Q3 E)
    | exact (f_equal Q4 E) | exact (f_equal Q5 E) | exact (f_equal Q6 E) | exact (f_equal Q7 E) ].
Qed.

Lemma br_aes_ct_ortho_involutive q : wf8 q -> br_aes_ct_ortho (br_aes_ct_ortho q) = q.
Proof.
  intros Hq. apply q8_ext; [auto with urange..|]. intros p Hp.
  rewrite lane_ortho by done. apply u8_ext; [auto with urange..|]. intros i Hi.
  pose proof (Z.mod_pos_bound p 8 ltac:(lia)). pose proof (Z.div_mod p 8 ltac:(lia)).
  rewrite testbit_u8, Z.shiftr_spec, testbit_qnth by lia.
  rewrite lane_ortho by lia.
  replace ((i + 8 * (p / 8)) mod 8) with i
    by (rewrite (Z.mul_comm 8), Z.mod_add, Z.mod_small; lia).
  replace ((i + 8 * (p / 8)) / 8) with (p / 8)
    by (rewrite (Z.mul_comm 8), Z.div_add, (Z.div_small i); lia).
  rewrite testbit_u8, Z.shiftr_spec, testbit_qnth by lia.
  do 2 f_equal. lia.
Qed.

(** *** Rows and columns *)

Definition shift_rows_perm (p : Z) : Z := 8 * (p / 8) + (p mod 8 + 2 * (p / 8)) mod 8.
Definition inv_shift_rows_perm (p : Z) : Z := 8 * (p / 8) + (p mod 8 - 2 * (p / 8)) mod 8.

Lemma shift_rows_word_bit x p :
  0 <= p < 32 -> Z.testbit (shift_rows_word x) p = Z.testbit x (shift_rows_perm p).
Proof.
  intros Hp. unfold shift_rows_word, shift_rows_perm.
  case_range p Hp; solve_bits; reflexivity.
Qed.
Lemma inv_shift_rows_word_bit x p :
  0 <= p < 32 -> Z.testbit (inv_shift_rows_word x) p = Z.testbit x (inv_shift_rows_perm p).
Proof.
  intros Hp. unfold inv_shift_rows_word, inv_shift_rows_perm.
  case_range p Hp; solve_bits; reflexivity.
Qed.

Lemma lane_qmap f g q p :
  (forall x, Z.testbit (f x) p = Z.testbit x g) -> lane (qmap f q) p = lane q g.
Proof. intros H. unfold lane, lane_bits. q8_simpl. by rewrite !H. Qed.

Lemma lane_shift_rows q p :
  0 <= p < 32 -> lane (shift_rows q) p = lane q (shift_rows_perm p).
Proof. intros. apply lane_qmap. intros; by apply shift_rows_word_bit. Qed.
Lemma lane_inv_shift_rows q p :
  0 <= p < 32 -> lane (inv_shift_rows q) p = lane q (inv_shift_rows_perm p).
Proof. intros. apply lane_qmap. intros; by apply inv_shift_rows_word_bit. Qed.

Lemma rotr8_bit x p :
  is_u32 x -> 0 <= p < 32 -> Z.testbit (rotr8 x) p = Z.testbit x ((p + 8) mod 32).
Proof. intros Hx Hp. unfold rotr8. case_range p Hp; solve_bits; range_bits; reflexivity. Qed.
Lemma rotr16_bit x p :
  is_u32 x -> 0 <= p < 32 -> Z.testbit (rotr16 x) p = Z.testbit x ((p + 16) mod 32).
Proof. intros Hx Hp. unfold rotr16. case_range p Hp; solve_bits; range_bits; reflexivity. Qed.

Lemma lane_add q k p : lane (add_round_key q k) p = Z.lxor (lane q p) (lane k p).
Proof.
  unfold lane. rewrite <- of_bits_xor. f_equal. unfold lane_bits, add_round_key.
  q8_simpl. by rewrite !Z.lxor_spec.
Qed.

(** Push the rotations of [mix_columns] down to bits of the input words. *)
Ltac mix_bits :=
  rewrite ?Z.lxor_spec;
  rewrite ?rotr16_bit by (auto 30 with urange || lia);
  rewrite ?Z.lxor_spec;
  rewrite ?rotr8_bit by (auto 30 with urange || lia).

Lemma lane_mix_columns q p :
  wf8 q -> 0 <= p < 32 ->
  lane (mix_columns q) p =
  Z.lxor (Z.lxor (Z.lxor (gmul (lane q p) 2) (gmul (lane q ((p + 8) mod 32)) 3))
                 (lane q ((p + 16) mod 32))) (lane q ((p + 24) mod 32)).
Proof.
  intros Hq Hp. q8_cases q Hq.
  pose proof (Z.mod_pos_bound (p + 8) 32 ltac:(lia)).
  pose proof (Z.mod_pos_bound (p + 16) 32 ltac:(lia)).
  assert (E : ((p + 16) mod 32 + 8) mod 32 = (p + 24) mod 32).
  { rewrite Z.add_mod_idemp_l by lia. f_equal. lia. }
  rewrite !(proj1 (gmul_xtime _ (lane_range _ _))).
  rewrite (proj1 (proj2 (gmul_xtime _ (lane_range _ _)))).
  unfold lane. rewrite <- !xtime_bits, <- !of_bits_xor. f_equal.
  unfold lane_bits, mix_columns; q8_simpl. mix_bits. rewrite E.
  f_equal; btauto.
Qed.

Lemma lane_inv_mix_columns q p :
  wf8 q -> 0 <= p < 32 ->
  lane (inv_mix_columns q) p =
  Z.lxor (Z.lxor (Z.lxor (gmul (lane q p) 14) (gmul (lane q ((p + 8) mod 32)) 11))
                 (gmul (lane q ((p + 16) mod 32)) 13)) (gmul (lane q ((p + 24) mod 32)) 9).
Proof.
  intros Hq Hp. q8_cases q Hq.
  pose proof (Z.mod_pos_bound (p + 8) 32 ltac:(lia)).
  pose proof (Z.mod_pos_bound (p + 16) 32 ltac:(lia)).
  assert (E : ((p + 16) mod 32 + 8) mod 32 = (p + 24) mod 32).
  { rewrite Z.add_mod_idemp_l by lia. f_equal. lia. }
  repeat match goal with
  | |- context [gmul ?x ?c] =>
      lazymatch c with
      | 9 => rewrite (proj1 (proj2 (proj2 (gmul_xtime x (lane_range _ _)))))
      | 11 => rewrite (proj1 (proj2 (proj2 (proj2 (gmul_xtime x (lane_range _ _))))))
      | 13 => rewrite (proj1 (proj2 (proj2 (proj2 (proj2 (gmul_xtime x (lane_range _ _)))))))
      | 14 => rewrite (proj2 (proj2 (proj2 (proj2 (proj2 (gmul_xtime x (lane_range _ _)))))))
      end
  end.
  unfold lane. repeat rewrite <- !xtime_bits. rewrite <- !of_bits_xor. f_equal.
  unfold lane_bits, inv_mix_columns; q8_simpl. mix_bits. rewrite E.
  f_equal; btauto.
Qed.

(** *** The inverse S-box *)

Definition inv_affine_bits (b : q8 bool) : q8 bool :=
  let q0 := negb (Q0 b) in let q1 := negb (Q1 b) in let q2 := Q2 b in let q3 := Q3 b in
  let q4 := Q4 b in let q5 := negb (Q5 b) in let q6 := negb (Q6 b) in let q7 := Q7 b in
  mkQ (xorb (xorb q2 q5) q7) (xorb (xorb q3 q6) q0) (xorb (xorb q4 q7) q1)
      (xorb (xorb q5 q0) q2) (xorb (xorb q6 q1) q3) (xorb (xorb q7 q2) q4)
      (xorb (xorb q0 q3) q5) (xorb (xorb q1 q4) q6).

Lemma lane_bits_inv_affine q p :
  0 <= p < 32 -> lane_bits (inv_affine_layer q) p = inv_affine_bits (lane_bits q p).
Proof.
  intros Hp. unfold lane_bits, inv_affine_layer, inv_affine_bits, not32. q8_simpl.
  rewrite !Z.lxor_spec, !testbit_u32, !Z.lnot_spec by lia. reflexivity.
Qed.

Lemma lane_invSbox q p :
  0 <= p < 32 -> lane (br_aes_ct_bitslice_invSbox q) p = inv_sbox (lane q p).
Proof.
  intros Hp. unfold br_aes_ct_bitslice_invSbox. unfold lane at 1.
  rewrite lane_bits_inv_affine by done.
  rewrite <- (bits_of_of_bits (lane_bits (br_aes_ct_bitslice_Sbox _) p)).
  fold (lane (br_aes_ct_bitslice_Sbox (inv_affine_layer q)) p).
  rewrite lane_Sbox by done. unfold lane at 1. rewrite lane_bits_inv_affine by done.
  apply (bits_cases (fun b => inv_affine_bits (bits_of (sbox (of_bits (inv_affine_bits b))))) inv_sbox).
  vm_compute. reflexivity.
Qed.
