(* ===== verification/AesBlock.v ===== *)
(** * Bit-sliced AES on blocks: the whole cipher and its key schedule

    The two blocks of a bit-sliced state, the rounds of aes_ct_enc.c and
    aes_ct_dec.c as the rounds of the standard on both blocks, and the key
    schedule of aes_ct.c as the standard key expansion. *)

From S2P Require Import Prelude Endian AesCt AesSpec AesCtProof.

#[local] Ltac zdiv := Z.to_euclidean_division_equations; lia.

(** Position of byte [i] of block [b]. *)
Definition pos (i : nat) (b : Z) : Z := 8 * Z.of_nat (i mod 4) + 2 * Z.of_nat (i / 4) + b.

Definition block (q : q8 Z) (b : Z) : list Z := map (fun i => lane q (pos i b)) (seq 0 16).

Ltac case_nat n i :=
  lazymatch n with
  | O => exfalso; lia
  | S ?m => destruct i as [|i]; [|case_nat m i]
  end.
Ltac case_block i Hi := case_nat 16%nat i; clear Hi.

Lemma pos_range i b : (i < 16)%nat -> 0 <= b <= 1 -> 0 <= pos i b < 32.
Proof.
  intros Hi Hb. unfold pos.
  pose proof (Nat.mod_upper_bound i 4 ltac:(lia)).
  pose proof (Nat.Div0.div_lt_upper_bound i 4 4 ltac:(lia)). lia.
Qed.

Lemma byte_at_map (f : nat -> Z) n i : (i < n)%nat -> byte_at (map f (seq 0 n)) i = f i.
Proof.
  intros Hi. unfold byte_at. rewrite (nth_indep _ 0 (f 0%nat)) by (rewrite length_map, length_seq; lia).
  rewrite map_nth, seq_nth by lia. done.
Qed.

Lemma byte_at_block q b i : (i < 16)%nat -> byte_at (block q b) i = lane q (pos i b).
Proof. intros. unfold block. by rewrite byte_at_map. Qed.

Lemma block_bytes q b : bytes (block q b).
Proof. apply Forall_map, List.Forall_forall. intros; apply lane_range. Qed.
Lemma length_block q b : length (block q b) = 16%nat.
Proof. unfold block. by rewrite length_map, length_seq. Qed.
#[export] Hint Resolve block_bytes : urange.

(** Blocks are equal when their bytes are. *)
Lemma map_seq_ext (f g : nat -> Z) n :
  (forall i, (i < n)%nat -> f i = g i) -> map f (seq 0 n) = map g (seq 0 n).
Proof. intros H. apply map_ext_in. intros i Hi. apply H. apply in_seq in Hi. lia. Qed.

Section Blocks.
Context (q : q8 Z) (b : Z) (Hb : 0 <= b <= 1).

Lemma block_Sbox : block (br_aes_ct_bitslice_Sbox q) b = sub_bytes (block q b).
Proof using Hb.
  unfold sub_bytes, block. rewrite map_map. apply map_seq_ext. intros.
  apply lane_Sbox. by apply pos_range.
Qed.

Lemma block_invSbox : block (br_aes_ct_bitslice_invSbox q) b = inv_sub_bytes (block q b).
Proof using Hb.
  unfold inv_sub_bytes, block. rewrite map_map. apply map_seq_ext. intros.
  apply lane_invSbox. by apply pos_range.
Qed.

Lemma block_shift_rows : block (shift_rows q) b = spec_shift_rows (block q b).
Proof using Hb.
  unfold spec_shift_rows. apply map_seq_ext. intros i Hi.
  rewrite lane_shift_rows by by apply pos_range.
  assert (b = 0 \/ b = 1) as [-> | ->] by lia;
    case_block i Hi; rewrite byte_at_block by (vm_compute; lia); reflexivity.
Qed.

Lemma block_inv_shift_rows : block (inv_shift_rows q) b = spec_inv_shift_rows (block q b).
Proof using Hb.
  unfold spec_inv_shift_rows. apply map_seq_ext. intros i Hi.
  rewrite lane_inv_shift_rows by by apply pos_range.
  assert (b = 0 \/ b = 1) as [-> | ->] by lia;
    case_block i Hi; rewrite byte_at_block by (vm_compute; lia); reflexivity.
Qed.

Lemma block_mix_columns : wf8 q -> block (mix_columns q) b = spec_mix_columns (block q b).
Proof using Hb.
  intros Hq. unfold spec_mix_columns. apply map_seq_ext. intros i Hi.
  rewrite lane_mix_columns by first [done | by apply pos_range].
  assert (b = 0 \/ b = 1) as [-> | ->] by lia;
    case_block i Hi; rewrite !byte_at_block by (vm_compute; lia); reflexivity.
Qed.

Lemma block_inv_mix_columns :
  wf8 q -> block (inv_mix_columns q) b = spec_inv_mix_columns (block q b).
Proof using Hb.
  intros Hq. unfold spec_inv_mix_columns. apply map_seq_ext. intros i Hi.
  rewrite lane_inv_mix_columns by first [done | by apply pos_range].
  assert (b = 0 \/ b = 1) as [-> | ->] by lia;
    case_block i Hi; rewrite !byte_at_block by (vm_compute; lia); reflexivity.
Qed.
End Blocks.

Lemma zip_map_seq (f g : nat -> Z) l :
  zip_with Z.lxor (map f l) (map g l) = map (fun i => Z.lxor (f i) (g i)) l.
Proof. induction l; cbn; congruence. Qed.

Lemma block_add q k b : block (add_round_key q k) b = spec_add_round_key (block q b) (block k b).
Proof.
  unfold spec_add_round_key, block. rewrite zip_map_seq. apply map_ext. intros; apply lane_add.
Qed.

(** ** The rounds, for expanded keys given as bit-sliced round keys *)

Section Cipher.
Context (nr : nat) (skey : list Z) (Hsk : forall u, wf8 (q8_at skey (8 * u))).
Context (b : Z) (Hb : 0 <= b <= 1).

(** Round key [u] as the standard's 16 bytes. *)
Definition sliced_round_key (u : nat) : list Z := block (q8_at skey (8 * u)) b.

Lemma block_fold (step : q8 Z -> nat -> q8 Z) (sstep : list Z -> nat -> list Z) l q :
  wf8 q -> (forall q u, wf8 q -> wf8 (step q u)) ->
  (forall q u, wf8 q -> block (step q u) b = sstep (block q b) u) ->
  block (fold_left step l q) b = fold_left sstep l (block q b) /\ wf8 (fold_left step l q).
Proof.
  intros Hq Hwf Hs. revert q Hq. induction l as [|u l IH]; intros q Hq; cbn [fold_left]; [done|].
  rewrite <- Hs by done. by apply IH, Hwf.
Qed.

Lemma block_encrypt q :
  wf8 q ->
  block (br_aes_ct_bitslice_encrypt nr skey q) b = cipher_with nr sliced_round_key (block q b) /\
  wf8 (br_aes_ct_bitslice_encrypt nr skey q).
Proof using Hb Hsk.
  intros Hq. unfold br_aes_ct_bitslice_encrypt, cipher_with. cbv zeta.
  change (q8_at skey 0) with (q8_at skey (8 * 0)).
  match goal with |- context [fold_left ?f ?l ?s0] =>
    destruct (block_fold f (fun s u => spec_add_round_key
      (spec_mix_columns (spec_shift_rows (sub_bytes s))) (sliced_round_key u)) l s0) as [E W] end.
  - auto with urange.
  - auto with urange.
  - intros q' u Hq'. rewrite block_add, block_mix_columns, block_shift_rows, block_Sbox
      by auto with urange. done.
  - split; [|auto with urange].
    rewrite block_add, block_shift_rows, block_Sbox, E, block_add by done. done.
Qed.

Lemma block_decrypt q :
  wf8 q ->
  block (br_aes_ct_bitslice_decrypt nr skey q) b = inv_cipher_with nr sliced_round_key (block q b) /\
  wf8 (br_aes_ct_bitslice_decrypt nr skey q).
Proof using Hb Hsk.
  intros Hq. unfold br_aes_ct_bitslice_decrypt, inv_cipher_with. cbv zeta.
  change (q8_at skey 0) with (q8_at skey (8 * 0)).
  match goal with |- context [fold_left ?f ?l ?s0] =>
    destruct (block_fold f (fun s u => spec_inv_mix_columns (spec_add_round_key
      (inv_sub_bytes (spec_inv_shift_rows s)) (sliced_round_key u))) l s0) as [E W] end.
  - auto with urange.
  - auto with urange.
  - intros q' u Hq'. rewrite block_inv_mix_columns, block_add, block_invSbox, block_inv_shift_rows
      by auto with urange. done.
  - split; [|auto with urange].
    rewrite block_add, block_invSbox, block_inv_shift_rows, E, block_add by done. done.
Qed.
End Cipher.

(** ** Words and their four bytes *)

Definition word4 (w : list Z) : Prop := length w = 4%nat /\ bytes w.

Ltac word4_cases w H :=
  let a := fresh "a" in let b := fresh "b" in let c := fresh "c" in let d := fresh "d" in
  let Hl := fresh "Hl" in let Hf := fresh "Hf" in
  destruct H as [Hl Hf];
  destruct w as [|a [|b [|c [|d [|]]]]]; try discriminate Hl; clear Hl; inv_Forall.

Lemma le32dec_lxor v w :
  word4 v -> word4 w -> le32dec (zip_with Z.lxor v w) = Z.lxor (le32dec v) (le32dec w).
Proof.
  intros Hv Hw. word4_cases v Hv. word4_cases w Hw. cbn [zip_with].
  apply u32_ext; [auto with urange..|]. intros i Hi.
  rewrite Z.lxor_spec, !testbit_le32dec by (auto with urange || done).
  case_range i Hi; norm_divmod; cbn [nth]; apply Z.lxor_spec.
Qed.

Lemma le32dec_rot w :
  word4 w ->
  le32dec (rot_word w) = Z.lor (u32 (Z.shiftl (le32dec w) 24)) (Z.shiftr (le32dec w) 8).
Proof.
  intros Hw. word4_cases w Hw. cbn [rot_word drop take app].
  pose proof (le32dec_range [a; b; c; d]).
  apply u32_ext; [auto with urange..|]. intros i Hi.
  rewrite testbit_le32dec by done.
  case_range i Hi; norm_divmod; cbn [nth]; push_testbit;
    rewrite ?(Z.testbit_neg_r _ (Zneg _)) by lia; range_bits;
    rewrite testbit_le32dec by (done || lia); norm_divmod; reflexivity.
Qed.

Lemma zip_word4 v w : word4 v -> word4 w -> word4 (zip_with Z.lxor v w).
Proof.
  intros Hv Hw. word4_cases v Hv. word4_cases w Hw. split; [done|].
  cbn [zip_with]. split_Forall; auto with urange.
Qed.
Lemma rot_word4 w : word4 w -> word4 (rot_word w).
Proof. intros Hw. word4_cases w Hw. split; [done|]. cbn. by split_Forall. Qed.
Lemma sub_word4 w : word4 w -> word4 (spec_sub_word w).
Proof.
  intros Hw. word4_cases w Hw. split; [done|].
  cbn [spec_sub_word map]. split_Forall; by apply sbox_range.
Qed.

(** Byte [k] of word [j] of a transposed state. *)
Lemma ortho_byte q j k :
  wf8 q -> 0 <= j < 8 -> 0 <= k < 4 ->
  u8 (Z.shiftr (qnth (br_aes_ct_ortho q) j) (8 * k)) = lane q (8 * k + j).
Proof.
  intros Hq Hj Hk. pose proof (lane_ortho (br_aes_ct_ortho q) (8 * k + j) ltac:(lia)) as E.
  rewrite br_aes_ct_ortho_involutive in E by done. rewrite E. clear E.
  replace ((8 * k + j) mod 8) with j
    by (rewrite (Z.add_comm _ j), (Z.mul_comm 8), Z.mod_add, Z.mod_small; lia).
  replace ((8 * k + j) / 8) with k
    by (rewrite (Z.add_comm _ j), (Z.mul_comm 8), Z.div_add, (Z.div_small j); lia).
  done.
Qed.

Lemma le32enc_qnth_ortho q j :
  wf8 q -> 0 <= j < 8 ->
  le32enc (qnth (br_aes_ct_ortho q) j) =
  [lane q j; lane q (8 + j); lane q (16 + j); lane q (24 + j)].
Proof.
  intros Hq Hj. unfold le32enc. rewrite <- (Z.shiftr_0_r (qnth _ _)) at 1.
  split_list.
  - exact (ortho_byte q j 0 Hq Hj ltac:(lia)).
  - exact (ortho_byte q j 1 Hq Hj ltac:(lia)).
  - exact (ortho_byte q j 2 Hq Hj ltac:(lia)).
  - exact (ortho_byte q j 3 Hq Hj ltac:(lia)).
Qed.

Lemma le32enc_inj v w : is_u32 v -> is_u32 w -> le32enc v = le32enc w -> v = w.
Proof.
  intros Hv Hw E. rewrite <- (le32dec_enc v [] Hv), <- (le32dec_enc w [] Hw). by rewrite E.
Qed.

Lemma le32enc_le32dec w : word4 w -> le32enc (le32dec w) = w.
Proof. intros Hw. word4_cases w Hw. apply le32enc_dec. by split_Forall. Qed.

Lemma qnth_range q j : wf8 q -> 0 <= j < 8 -> is_u32 (qnth q j).
Proof.
  intros Hq Hj. q8_cases q Hq. case_range j Hj; unfold qnth, q8_list, byte_at; norm_divmod; done.
Qed.

Lemma qnth_0 q : Q0 q = qnth q 0.
Proof. reflexivity. Qed.
Lemma qnth_2 q : Q2 q = qnth q 2.
Proof. reflexivity. Qed.
Lemma qnth_4 q : Q4 q = qnth q 4.
Proof. reflexivity. Qed.
Lemma qnth_6 q : Q6 q = qnth q 6.
Proof. reflexivity. Qed.

(** [sub_word] is SubWord. *)
Lemma sub_word_spec w : word4 w -> sub_word (le32dec w) = le32dec (spec_sub_word w).
Proof.
  intros Hw. unfold sub_word. cbv zeta.
  set (q := mkQ _ _ _ _ _ _ _ _).
  assert (Hq : wf8 q) by (unfold wf8, q; q8_simpl; auto 20 with urange).
  rewrite qnth_0.
  apply le32enc_inj; [apply qnth_range; [auto with urange|lia]|auto with urange|].
  rewrite (le32enc_le32dec (spec_sub_word w)) by by apply sub_word4.
  rewrite le32enc_qnth_ortho by (auto with urange || lia).
  rewrite !Z.add_0_r, !lane_Sbox, !lane_ortho by lia.
  unfold q, qnth, q8_list, byte_at; norm_divmod; q8_simpl; cbn [nth].
  pose proof (le32enc_le32dec w Hw) as E. word4_cases w Hw.
  unfold le32enc in E. injection E as E0 E1 E2 E3.
  cbn [spec_sub_word map]. rewrite Z.shiftr_0_r. congruence.
Qed.

(** ** The key schedule is the standard key expansion *)

Lemma nth_word4 w i : Forall word4 w -> (i < length w)%nat -> word4 (nth i w []).
Proof. intros Hw Hi. eapply List.Forall_forall in Hw; [exact Hw|]. by apply nth_In. Qed.

Lemma rcon_word j :
  (1 <= j <= 10)%nat ->
  word4 (spec_rcon j) /\ le32dec (spec_rcon j) = word_at Rcon (j - 1).
Proof.
  intros Hj. case_nat 11%nat j; try lia; clear Hj; (split; [split; [reflexivity|]|reflexivity]);
    unfold spec_rcon; split_Forall; (split; [vm_compute; congruence|vm_compute; reflexivity]).
Qed.

(** The FIPS word list as the code's array, each word stored [dup] times. *)
Definition stored (dup : nat) (w : list (list Z)) : list Z :=
  flat_map (fun v => replicate dup (le32dec v)) w.

Lemma stored_app dup w v : stored dup (w ++ [v]) = stored dup w ++ replicate dup (le32dec v).
Proof. unfold stored. by rewrite flat_map_app; cbn; rewrite app_nil_r. Qed.

Lemma nth_replicate (x d : Z) n r : (r < n)%nat -> nth r (replicate n x) d = x.
Proof. revert r; induction n as [|n IH]; intros [|r] ?; cbn; try lia; apply IH; lia. Qed.

Lemma word_at_stored dup w i r :
  (r < dup)%nat -> (i < length w)%nat ->
  word_at (stored dup w) (i * dup + r) = le32dec (nth i w []).
Proof.
  intros Hr. revert i. induction w as [|v w IH]; intros i Hi; [cbn in Hi; lia|].
  unfold stored, byte_at in *. cbn [flat_map]. destruct i as [|i].
  - rewrite app_nth1 by (rewrite length_replicate; lia). apply nth_replicate; lia.
  - rewrite app_nth2 by (rewrite length_replicate; lia). rewrite length_replicate.
    replace (S i * dup + r - dup)%nat with (i * dup + r)%nat by lia.
    rewrite IH by (cbn in Hi; lia). done.
Qed.

Section Schedule.
Context (dup nk : nat) (key : list Z).
Context (Hdup : (1 <= dup)%nat) (Hnk : (1 <= nk)%nat).
Context (Hlen : length key = (4 * nk)%nat) (Hkey : bytes key).

Definition key_words : list (list Z) := map (fun i => sub_list (4 * i) 4 key) (seq 0 nk).
Definition expand_step (w : list (list Z)) : list (list Z) := w ++ [key_word nk w].

Lemma key_words_word4 : Forall word4 key_words.
Proof.
  apply Forall_map, List.Forall_forall. intros i Hi. apply in_seq in Hi. split.
  - apply length_sub_list. lia.
  - auto with urange.
Qed.

Lemma length_key_words : length key_words = nk.
Proof. unfold key_words. by rewrite length_map, length_seq. Qed.

Lemma sched_load_spec n :
  (n <= nk)%nat ->
  fold_left (fun '(tmp, skey) i =>
               let tmp := le32dec (drop (4 * i) key) in (tmp, sched_push dup skey tmp))
            (seq 0 n) (0, []) =
  (match n with O => 0 | S m => le32dec (sub_list (4 * m) 4 key) end,
   stored dup (map (fun i => sub_list (4 * i) 4 key) (seq 0 n))).
Proof.
  induction n as [|n IH]; intros Hn; [done|].
  rewrite seq_S, fold_left_app, map_app, IH by lia. cbn [fold_left map Nat.add].
  rewrite stored_app. unfold sched_push.
  assert (E : le32dec (drop (4 * n) key) = le32dec (sub_list (4 * n) 4 key)); [|by rewrite E].
  unfold le32dec, byte_at, sub_list. pose proof (length_drop key (4 * n)).
  destruct (drop (4 * n) key) as [|? [|? [|? [|? ?]]]]; reflexivity.
Qed.

(** The loop counters, the running word and the array after the words of
    [w] have been produced. *)
Definition sched_inv (w : list (list Z)) (st : nat * nat * Z * list Z) : Prop :=
  Forall word4 w /\ (nk <= length w)%nat /\
  st = ((length w mod nk)%nat, (length w / nk - 1)%nat,
        le32dec (nth (length w - 1) w []), stored dup w).

Lemma sched_step_inv w st :
  (length w / nk <= 10)%nat ->
  sched_inv w st -> sched_inv (expand_step w) (sched_step dup nk (length w) st).
Proof.
  intros Hr (Hw & Hl & ->). set (i := length w) in *.
  assert (Hi : (1 <= i / nk)%nat) by (apply Nat.div_le_lower_bound; lia).
  assert (Hlast : word4 (nth (i - 1) w [])) by (apply nth_word4; [done|lia]).
  assert (Hold : word4 (nth (i - nk) w [])) by (apply nth_word4; [done|lia]).
  destruct (rcon_word (i / nk) ltac:(lia)) as [Hrc Erc].
  assert (Hget : sched_get dup (stored dup w) (i - nk) = le32dec (nth (i - nk) w [])).
  { unfold sched_get. rewrite <- (word_at_stored dup w (i - nk) 0) by lia. f_equal. lia. }
  assert (Hnew : word4 (key_word nk w) /\
    le32dec (key_word nk w) =
    Z.lxor (if (i mod nk =? 0)%nat
            then Z.lxor (sub_word (Z.lor (u32 (Z.shiftl (le32dec (nth (i - 1) w [])) 24))
                                         (Z.shiftr (le32dec (nth (i - 1) w [])) 8)))
                        (word_at Rcon (i / nk - 1))
            else if (6 <? nk)%nat && (i mod nk =? 4)%nat
                 then sub_word (le32dec (nth (i - 1) w []))
                 else le32dec (nth (i - 1) w []))
           (le32dec (nth (i - nk) w []))).
  { unfold key_word. fold i. pose proof (rot_word4 _ Hlast).
    rewrite <- (le32dec_rot _ Hlast), <- Erc, !sub_word_spec by done.
    case_match; [|case_match];
      (split; [repeat first [apply zip_word4 | apply sub_word4 | done]|]);
      rewrite !le32dec_lxor by (repeat first [apply zip_word4 | apply sub_word4 | done]);
      apply Z.lxor_comm. }
  destruct Hnew as [Hnw Enw]. unfold sched_step. rewrite Hget, <- Enw.
  unfold expand_step, sched_inv. rewrite length_app. fold i. cbn [length].
  split_and!; [apply Forall_app; split; [done|by split_Forall]|lia|].
  rewrite app_nth2 by lia. replace (i + 1 - 1 - length w)%nat with 0%nat by lia. cbn [nth].
  rewrite stored_app. unfold sched_push.
  pose proof (Nat.div_mod_eq i nk). pose proof (Nat.mod_upper_bound i nk ltac:(lia)).
  destruct (Nat.eqb_spec (S (i mod nk)) nk) as [Hj|Hj].
  - replace ((i + 1) mod nk)%nat with 0%nat.
    2:{ apply Nat.mod_unique with (q := S (i / nk)); lia. }
    replace ((i + 1) / nk)%nat with (S (i / nk)).
    2:{ apply Nat.div_unique with (r := 0%nat); lia. }
    f_equal. f_equal. f_equal. lia.
  - replace ((i + 1) mod nk)%nat with (S (i mod nk)).
    2:{ apply Nat.mod_unique with (q := (i / nk)%nat); lia. }
    replace ((i + 1) / nk)%nat with (i / nk)%nat; [done|].
    apply Nat.div_unique with (r := S (i mod nk)); lia.
Qed.

Lemma expand_0 : Nat.iter 0 expand_step key_words = key_words.
Proof. reflexivity. Qed.
Lemma expand_S n :
  Nat.iter (S n) expand_step key_words = expand_step (Nat.iter n expand_step key_words).
Proof. reflexivity. Qed.

Lemma length_expand n : length (Nat.iter n expand_step key_words) = (nk + n)%nat.
Proof.
  induction n as [|n IH]; [rewrite expand_0, length_key_words; lia|]. rewrite expand_S.
  unfold expand_step at 1. rewrite length_app, IH. cbn; lia.
Qed.

Lemma sched_loop n :
  (nk + n <= 10 * nk + nk)%nat ->
  sched_inv (Nat.iter n expand_step key_words)
    (fold_left (fun st i => sched_step dup nk i st) (seq nk n)
               (let '(tmp, skey) := sched_load dup nk key in (0%nat, 0%nat, tmp, skey))).
Proof.
  induction n as [|n IH]; intros Hn.
  - rewrite expand_0. cbn [seq fold_left]. unfold sched_load. rewrite sched_load_spec by lia.
    split_and!; [apply key_words_word4|rewrite length_key_words; lia|].
    rewrite length_key_words, Nat.Div0.mod_same, Nat.div_same by lia.
    assert (E : nth (nk - 1) key_words [] = sub_list (4 * (nk - 1)) 4 key).
    { unfold key_words.
      rewrite (nth_indep _ _ (sub_list (4 * 0) 4 key)) by (rewrite length_map, length_seq; lia).
      rewrite (map_nth (fun i => sub_list (4 * i) 4 key)), seq_nth by lia. done. }
    rewrite E. fold key_words. destruct nk as [|m]; [lia|].
    replace (S m - 1)%nat with m by lia. done.
  - rewrite seq_S, fold_left_app, expand_S. cbn [fold_left].
    specialize (IH ltac:(lia)). rewrite <- (length_expand n).
    apply sched_step_inv; [|done]. rewrite length_expand.
    apply Nat.lt_succ_r, Nat.Div0.div_lt_upper_bound. lia.
Qed.

Lemma sched_words_spec nr :
  (nk <= 4 * (nr + 1))%nat -> (4 * (nr + 1) <= 11 * nk)%nat ->
  sched_words dup nk ((nr + 1) * 4) key = stored dup (key_expansion nk nr key) /\
  Forall word4 (key_expansion nk nr key) /\
  length (key_expansion nk nr key) = (4 * (nr + 1))%nat.
Proof.
  intros H1 H2. pose proof (sched_loop (4 * (nr + 1) - nk) ltac:(lia)) as (Hw & _ & E).
  pose proof (length_expand (4 * (nr + 1) - nk)) as Hl.
  unfold sched_words, key_expansion. fold key_words. fold expand_step in *.
  replace ((nr + 1) * 4)%nat with (4 * (nr + 1))%nat by lia.
  split_and!; [|exact Hw|rewrite Hl; lia].
  destruct (sched_load dup nk key) as [tmp skey]. cbv beta iota zeta in E.
  rewrite E. reflexivity.
Qed.
End Schedule.

(** ** Compressed round keys

    [br_aes_ct_keysched] keeps one of every two equal bits of the transposed
    words; [br_aes_ct_skey_expand] puts them back. *)

Lemma word_at_flat_map (f : nat -> list Z) k n u r :
  (forall i, length (f i) = k) -> (r < k)%nat -> (u < n)%nat ->
  word_at (flat_map f (seq 0 n)) (k * u + r) = word_at (f u) r.
Proof.
  intros Hf Hr Hu. unfold byte_at.
  assert (G : forall s n u, (u < n)%nat ->
            nth (k * u + r) (flat_map f (seq s n)) 0 = nth r (f (s + u)%nat) 0); [|by apply G].
  clear n u Hu. intros s n. revert s. induction n as [|n IH]; intros s u Hu; [lia|].
  cbn [seq flat_map]. destruct u as [|u].
  - rewrite app_nth1 by (rewrite Hf; lia). f_equal; [lia|]. f_equal. lia.
  - rewrite app_nth2 by (rewrite Hf; lia). rewrite Hf.
    replace (k * S u + r - k)%nat with (k * u + r)%nat by lia.
    rewrite IH by lia. do 2 f_equal. lia.
Qed.

Lemma q8_at_groups (F : nat -> q8 Z) n u :
  (u < n)%nat -> q8_at (flat_map (fun g => q8_list (F g)) (seq 0 n)) (8 * u) = F u.
Proof.
  intros Hu. unfold q8_at. rewrite !(word_at_flat_map _ 8) by (done || lia).
  by destruct (F u).
Qed.

Definition paired (w : Z) : Prop :=
  is_u32 w /\ forall t, 0 <= t < 16 -> Z.testbit w (2 * t) = Z.testbit w (2 * t + 1).

Ltac pair_bits Hp :=
  solve_bits; rewrite ?orb_false_l, ?orb_false_r;
  lazymatch goal with
  | |- Z.testbit _ ?a = Z.testbit _ ?b =>
      first [ reflexivity
            | let t := eval vm_compute in (a / 2) in exact (Hp t ltac:(lia))
            | let t := eval vm_compute in (b / 2) in symmetry; exact (Hp t ltac:(lia)) ]
  | _ => idtac
  end.

Lemma paired_even w v :
  paired w ->
  let x := Z.land (Z.lor (Z.land w 0x55555555) (Z.land v 0xAAAAAAAA)) 0x55555555 in
  Z.lor x (u32 (Z.shiftl x 1)) = w.
Proof.
  intros [Hw Hp]. cbv zeta. apply u32_ext; [auto 10 with urange|done|]. intros i Hi.
  case_range i Hi; pair_bits Hp.
Qed.

Lemma paired_odd w v :
  paired v ->
  let y := Z.land (Z.lor (Z.land w 0x55555555) (Z.land v 0xAAAAAAAA)) 0xAAAAAAAA in
  Z.lor y (Z.shiftr y 1) = v.
Proof.
  intros [Hw Hp]. cbv zeta. apply u32_ext; [auto 10 with urange|done|]. intros i Hi.
  case_range i Hi; pair_bits Hp.
Qed.

(** The transpose of a state whose words come in equal pairs. *)
Definition doubled (w0 w1 w2 w3 : Z) : q8 Z := mkQ w0 w0 w1 w1 w2 w2 w3 w3.

Lemma doubled_wf8 w0 w1 w2 w3 :
  is_u32 w0 -> is_u32 w1 -> is_u32 w2 -> is_u32 w3 -> wf8 (doubled w0 w1 w2 w3).
Proof. intros. unfold doubled, wf8; q8_simpl. auto 20. Qed.

Lemma doubled_qnth w0 w1 w2 w3 c :
  0 <= c < 4 -> qnth (doubled w0 w1 w2 w3) (2 * c) = qnth (doubled w0 w1 w2 w3) (2 * c + 1).
Proof. intros Hc. case_range c Hc; reflexivity. Qed.

Lemma ortho_paired w0 w1 w2 w3 j :
  is_u32 w0 -> is_u32 w1 -> is_u32 w2 -> is_u32 w3 -> 0 <= j < 8 ->
  paired (qnth (br_aes_ct_ortho (doubled w0 w1 w2 w3)) j).
Proof.
  intros ? ? ? ? Hj. pose proof (doubled_wf8 w0 w1 w2 w3) as Hwf. split.
  { apply qnth_range; [auto with urange|done]. }
  intros t Ht. rewrite !testbit_qnth, !lane_ortho by lia.
  replace ((2 * t + 1) / 8) with ((2 * t) / 8) by zdiv.
  replace ((2 * t + 1) mod 8) with (2 * (t mod 4) + 1) by zdiv.
  replace ((2 * t) mod 8) with (2 * (t mod 4)) by zdiv.
  rewrite doubled_qnth by zdiv. done.
Qed.

Lemma key_rounds_cases key_len nr :
  key_rounds key_len = Some nr ->
  (key_len = 16 /\ nr = 10 \/ key_len = 24 /\ nr = 12 \/ key_len = 32 /\ nr = 14)%nat.
Proof.
  unfold key_rounds. intros H.
  repeat (case_match; [rewrite Nat.eqb_eq in *; simplify_eq; auto|]). discriminate.
Qed.

Section Expanded.
Context (key : list Z) (key_len nr : nat).
Context (Hnr : key_rounds key_len = Some nr).
Context (Hlen : length key = key_len) (Hkey : bytes key).

(** The standard's expanded key. *)
Definition fips_words : list (list Z) := key_expansion (key_len / 4) nr key.
Let w (i : nat) : Z := le32dec (nth i fips_words []).

Lemma key_sizes :
  (1 <= key_len / 4)%nat /\ length key = (4 * (key_len / 4))%nat /\
  (key_len / 4 <= 4 * (nr + 1))%nat /\ (4 * (nr + 1) <= 11 * (key_len / 4))%nat.
Proof.
  rewrite Hlen. destruct (key_rounds_cases _ _ Hnr) as [[-> ->]|[[-> ->]|[-> ->]]]; cbn; lia.
Qed.

Lemma fips_words_wf : Forall word4 fips_words /\ length fips_words = (4 * (nr + 1))%nat.
Proof.
  destruct key_sizes as (? & ? & ? & ?).
  apply (sched_words_spec 1 (key_len / 4) key); (done || lia).
Qed.

Lemma w_range i : is_u32 (w i).
Proof. apply le32dec_range. Qed.

(** Round [u] of the words [br_aes_ct_keysched] computes, before compression. *)
Definition sliced (u : nat) : q8 Z :=
  br_aes_ct_ortho (doubled (w (4 * u + 0)) (w (4 * u + 1)) (w (4 * u + 2)) (w (4 * u + 3))).

Lemma q8_at_sched u :
  (u <= nr)%nat ->
  q8_at (sched_words 2 (key_len / 4) ((nr + 1) * 4) key) (8 * u) =
  doubled (w (4 * u + 0)) (w (4 * u + 1)) (w (4 * u + 2)) (w (4 * u + 3)).
Proof.
  intros Hu. destruct key_sizes as (? & ? & ? & ?).
  destruct (sched_words_spec 2 (key_len / 4) key ltac:(lia) ltac:(lia) ltac:(lia) Hkey nr
              ltac:(lia) ltac:(lia)) as (E & _ & Hl).
  rewrite E. fold fips_words in *. unfold q8_at, doubled.
  assert (G : forall i r, (i < 4)%nat -> (r < 2)%nat ->
            word_at (stored 2 fips_words) (8 * u + (2 * i + r)) = w (4 * u + i)).
  { intros i r Hi Hr. replace (8 * u + (2 * i + r))%nat with ((4 * u + i) * 2 + r)%nat by lia.
    rewrite word_at_stored by lia. done. }
  f_equal;
    [ exact (G 0 0 ltac:(lia) ltac:(lia))%nat | exact (G 0 1 ltac:(lia) ltac:(lia))%nat
    | exact (G 1 0 ltac:(lia) ltac:(lia))%nat | exact (G 1 1 ltac:(lia) ltac:(lia))%nat
    | exact (G 2 0 ltac:(lia) ltac:(lia))%nat | exact (G 2 1 ltac:(lia) ltac:(lia))%nat
    | exact (G 3 0 ltac:(lia) ltac:(lia))%nat | exact (G 3 1 ltac:(lia) ltac:(lia))%nat ].
Qed.

Lemma doubled_words_wf8 u :
  wf8 (doubled (w (4 * u + 0)) (w (4 * u + 1)) (w (4 * u + 2)) (w (4 * u + 3))).
Proof. apply doubled_wf8; apply w_range. Qed.

Definition expanded : list Z := br_aes_ct_skey_expand nr (snd (br_aes_ct_keysched key key_len)).

(** Compressing and expanding again gives back the transposed words. *)
Lemma q8_at_expanded u : (u <= nr)%nat -> q8_at expanded (8 * u) = sliced u.
Proof.
  intros Hu. unfold expanded, br_aes_ct_keysched. rewrite Hnr. cbn [snd].
  set (S0 := ortho_groups _ _).
  assert (HS : forall c r, (c < 4)%nat -> (r < 2)%nat ->
            word_at S0 (2 * (4 * u + c) + r) = qnth (sliced u) (2 * Z.of_nat c + Z.of_nat r)).
  { intros c r Hc Hr. unfold S0, ortho_groups.
    replace (2 * (4 * u + c) + r)%nat with (8 * u + (2 * c + r))%nat by lia.
    rewrite (word_at_flat_map _ 8) by (done || lia). rewrite q8_at_sched by done.
    unfold qnth. do 2 f_equal. lia. }
  assert (HP : forall c r, (c < 4)%nat -> (r < 2)%nat -> paired (word_at S0 (2 * (4 * u + c) + r))).
  { intros c r Hc Hr. rewrite HS by done. apply ortho_paired; (apply w_range || lia). }
  assert (HE : forall c r, (c < 4)%nat -> (r < 2)%nat ->
            word_at (br_aes_ct_skey_expand nr
              (map (fun i => Z.lor (Z.land (word_at S0 (2 * i + 0)) 0x55555555)
                                   (Z.land (word_at S0 (2 * i + 1)) 0xAAAAAAAA))
                   (seq 0 ((nr + 1) * 4)))) (8 * u + (2 * c + r)) =
            qnth (sliced u) (2 * Z.of_nat c + Z.of_nat r)).
  { intros c r Hc Hr. rewrite <- HS by done. unfold br_aes_ct_skey_expand.
    replace (8 * u + (2 * c + r))%nat with (2 * (4 * u + c) + r)%nat by lia.
    rewrite (word_at_flat_map _ 2) by (done || lia). rewrite byte_at_map by lia.
    destruct r as [|[|r]]; [| |lia]; unfold byte_at at 1; cbn [nth].
    - apply paired_even, HP; lia.
    - apply paired_odd, HP; lia. }
  unfold q8_at. destruct (sliced u) as [s0 s1 s2 s3 s4 s5 s6 s7] eqn:Es.
  f_equal;
    [ exact (HE 0 0 ltac:(lia) ltac:(lia))%nat | exact (HE 0 1 ltac:(lia) ltac:(lia))%nat
    | exact (HE 1 0 ltac:(lia) ltac:(lia))%nat | exact (HE 1 1 ltac:(lia) ltac:(lia))%nat
    | exact (HE 2 0 ltac:(lia) ltac:(lia))%nat | exact (HE 2 1 ltac:(lia) ltac:(lia))%nat
    | exact (HE 3 0 ltac:(lia) ltac:(lia))%nat | exact (HE 3 1 ltac:(lia) ltac:(lia))%nat ].
Qed.

Lemma q8_at_beyond a off : (length a <= off)%nat -> q8_at a off = mkQ 0 0 0 0 0 0 0 0.
Proof. intros. unfold q8_at, byte_at. rewrite !nth_overflow by lia. done. Qed.

Lemma length_flat_map_const (f : nat -> list Z) k l :
  (forall i, length (f i) = k) -> length (flat_map f l) = (k * length l)%nat.
Proof. intros Hf. induction l; cbn; [lia|]. rewrite length_app, Hf, IHl. lia. Qed.

Lemma expanded_wf8 u : wf8 (q8_at expanded (8 * u)).
Proof.
  destruct (Nat.le_gt_cases u nr) as [Hu|Hu].
  - rewrite q8_at_expanded by done. apply wf8_ortho, doubled_words_wf8.
  - rewrite q8_at_beyond.
    + unfold wf8; q8_simpl. unfold is_u. lia.
    + unfold expanded, br_aes_ct_skey_expand.
      rewrite (length_flat_map_const _ 2) by done. rewrite length_seq. lia.
Qed.

(** The round keys the rounds see are the standard's. *)
Lemma sliced_round_key_spec b u :
  0 <= b <= 1 -> (u <= nr)%nat -> sliced_round_key expanded b u = round_key fips_words u.
Proof.
  intros Hb Hu. unfold sliced_round_key. rewrite q8_at_expanded by done.
  destruct fips_words_wf as [Hw Hl].
  assert (G : forall c, (c < 4)%nat -> le32enc (w (4 * u + c)) = nth (4 * u + c) fips_words []).
  { intros c Hc. apply le32enc_le32dec, nth_word4; [done|lia]. }
  assert (Hrk : round_key fips_words u =
     le32enc (w (4 * u + 0)) ++ le32enc (w (4 * u + 1)) ++
     le32enc (w (4 * u + 2)) ++ le32enc (w (4 * u + 3))).
  { rewrite !G by lia. unfold round_key, sub_list.
    assert (D : forall i, nth (4 * u + i) fips_words [] = nth i (drop (4 * u) fips_words) []).
    { intros i. apply nth_drop_shift. }
    rewrite !D. assert (4 <= length (drop (4 * u) fips_words))%nat by (rewrite length_drop; lia).
    destruct (drop (4 * u) fips_words) as [|? [|? [|? [|? ?]]]]; cbn in *; try lia.
    by rewrite app_nil_r. }
  rewrite Hrk. unfold block, sliced.
  pose proof (doubled_words_wf8 u) as Hwf.
  rewrite (map_seq_ext _ (fun i => u8 (Z.shiftr (w (4 * u + i / 4)) (8 * Z.of_nat (i mod 4))))).
  - unfold le32enc. rewrite <- (Z.shiftr_0_r (w (4 * u + 0))) at 2.
    rewrite <- (Z.shiftr_0_r (w (4 * u + 1))) at 2. rewrite <- (Z.shiftr_0_r (w (4 * u + 2))) at 2.
    rewrite <- (Z.shiftr_0_r (w (4 * u + 3))) at 2. reflexivity.
  - intros i Hi. rewrite lane_ortho by by apply pos_range.
    assert (b = 0 \/ b = 1) as [-> | ->] by lia; case_block i Hi; reflexivity.
Qed.
End Expanded.
