(* ===== verification/AesInverse.v ===== *)
(** * The inverse cipher of the standard undoes the cipher

    Round by round, for any round keys of sixteen bytes, and then for the
    expanded key of FIPS 197. *)

From S2P Require Import Prelude Endian AesSpec AesBlock.

Lemma byte_ext (f : nat -> Z) s :
  length s = 16%nat -> (forall i, (i < 16)%nat -> f i = byte_at s i) -> map f (seq 0 16) = s.
Proof.
  intros Hl Hf. rewrite (map_seq_ext _ _ 16 Hf).
  do 16 (destruct s as [|? s]; [discriminate Hl|]). by destruct s.
Qed.

Lemma map16_blk (f : nat -> Z) : (forall i, (i < 16)%nat -> is_u8 (f i)) -> blk (map f (seq 0 16)).
Proof.
  intros Hf. split; [done|]. apply Forall_map, List.Forall_forall.
  intros i Hi%in_seq. apply Hf; lia.
Qed.

Lemma blk_byte s i : blk s -> is_u8 (byte_at s i).
Proof. intros [_ ?]. auto with urange. Qed.

Lemma shift_rows_blk s : blk s -> blk (spec_shift_rows s).
Proof. intros. apply map16_blk. intros; by apply blk_byte. Qed.
Lemma sub_bytes_blk s : blk s -> blk (sub_bytes s).
Proof.
  intros [Hl Hb]. split; [unfold sub_bytes; by rewrite length_map|].
  apply Forall_map. revert Hb. apply List.Forall_impl, sbox_range.
Qed.
Lemma mix_columns_blk s : blk s -> blk (spec_mix_columns s).
Proof.
  intros Hs. apply map16_blk. intros. pose proof (fun i => blk_byte s i Hs) as Hby.
  pose proof (fun i => gmul_range_const _ 2 ltac:(cbn; auto) (Hby i)).
  pose proof (fun i => gmul_range_const _ 3 ltac:(cbn; auto) (Hby i)).
  auto 10 with urange.
Qed.
Lemma add_round_key_blk s k : blk s -> blk k -> blk (spec_add_round_key s k).
Proof.
  intros Ha Hb. blk_cases s Ha. blk_cases k Hb. split; [done|].
  cbn [spec_add_round_key zip_with]. split_Forall; auto with urange.
Qed.

Lemma inv_shift_rows_shift s : blk s -> spec_inv_shift_rows (spec_shift_rows s) = s.
Proof. intros Hs. blk_cases s Hs. reflexivity. Qed.
Lemma inv_sub_bytes_sub s : blk s -> inv_sub_bytes (sub_bytes s) = s.
Proof.
  intros [_ Hb]. unfold inv_sub_bytes, sub_bytes. rewrite map_map.
  induction Hb as [|x s Hx Hb IH]; [done|]. cbn [map]. by rewrite inv_sbox_sbox, IH.
Qed.
Lemma add_round_key_twice s k : blk s -> blk k -> spec_add_round_key (spec_add_round_key s k) k = s.
Proof.
  intros [Hs _] [Hk _]. unfold spec_add_round_key.
  assert (Hl : length s = length k) by congruence. clear Hs Hk.
  revert k Hl. induction s as [|x s IH]; intros [|y k] Hl; cbn in *; try lia; [done|].
  rewrite IH by lia. by rewrite Z.lxor_assoc, Z.lxor_nilpotent, Z.lxor_0_r.
Qed.
Lemma inv_mix_columns_mix s : blk s -> spec_inv_mix_columns (spec_mix_columns s) = s.
Proof.
  intros Hs. apply byte_ext; [by destruct Hs|]. intros i Hi.
  assert (G : forall j, (j < 16)%nat -> byte_at (spec_mix_columns s) j =
    Z.lxor (Z.lxor (Z.lxor (gmul (byte_at s (col_ix j 0)) 2) (gmul (byte_at s (col_ix j 1)) 3))
           (byte_at s (col_ix j 2))) (byte_at s (col_ix j 3))).
  { intros j Hj. unfold spec_mix_columns. by rewrite byte_at_map. }
  assert (R : forall k, (col_ix i k < 16)%nat).
  { intros k. unfold col_ix. pose proof (Nat.mod_upper_bound (i + k) 4 ltac:(lia)).
    pose proof (Nat.Div0.div_lt_upper_bound i 4 4 ltac:(lia)). lia. }
  rewrite !G by apply R. clear G R.
  pose proof (mix_row (byte_at s (col_ix i 0)) (byte_at s (col_ix i 1)) (byte_at s (col_ix i 2))
                (byte_at s (col_ix i 3))) as M.
  specialize (M (blk_byte _ _ Hs) (blk_byte _ _ Hs) (blk_byte _ _ Hs) (blk_byte _ _ Hs)). cbv zeta in M.
  case_block i Hi; exact M.
Qed.

Section Inverse.
Context (nr : nat) (rk : nat -> list Z) (Hrk : forall u, (u <= nr)%nat -> blk (rk u)).

Let step s u := spec_add_round_key (spec_mix_columns (spec_shift_rows (sub_bytes s))) (rk u).
Let inv_step s u := spec_inv_mix_columns
  (spec_add_round_key (inv_sub_bytes (spec_inv_shift_rows s)) (rk u)).

Lemma step_blk s u : (u <= nr)%nat -> blk s -> blk (step s u).
Proof using Hrk.
  intros. by apply add_round_key_blk; [apply mix_columns_blk, shift_rows_blk, sub_bytes_blk|apply Hrk].
Qed.

Lemma steps_blk l s : (forall u, In u l -> (u <= nr)%nat) -> blk s -> blk (fold_left step l s).
Proof using Hrk.
  revert s. induction l as [|u l IH]; intros s Hl Hs; cbn; [done|].
  apply IH; [intros; apply Hl; by right|]. apply step_blk; [apply Hl; by left|done].
Qed.

Lemma unsub s : blk s -> inv_sub_bytes (spec_inv_shift_rows (spec_shift_rows (sub_bytes s))) = s.
Proof.
  intros. rewrite inv_shift_rows_shift by by apply sub_bytes_blk. by apply inv_sub_bytes_sub.
Qed.

Lemma inv_step_step s u :
  (u <= nr)%nat -> blk s ->
  inv_step (spec_shift_rows (sub_bytes (step s u))) u = spec_shift_rows (sub_bytes s).
Proof using Hrk.
  intros Hu Hs. pose proof (step_blk s u Hu Hs) as Hst. unfold inv_step. rewrite unsub by done.
  assert (blk (spec_shift_rows (sub_bytes s))) by by apply shift_rows_blk, sub_bytes_blk.
  unfold step. rewrite add_round_key_twice by auto using mix_columns_blk.
  by apply inv_mix_columns_mix.
Qed.

Lemma inv_steps l s :
  (forall u, In u l -> (u <= nr)%nat) -> blk s ->
  fold_left inv_step (rev l) (spec_shift_rows (sub_bytes (fold_left step l s))) =
  spec_shift_rows (sub_bytes s).
Proof using Hrk.
  revert s. induction l as [|u l IH]; intros s Hl Hs; cbn [rev fold_left]; [done|].
  assert (u <= nr)%nat by (apply Hl; by left).
  rewrite fold_left_app, IH; [|intros; apply Hl; by right|by apply step_blk].
  cbn [fold_left]. by apply inv_step_step.
Qed.

Lemma inv_cipher_cipher s : blk s -> inv_cipher_with nr rk (cipher_with nr rk s) = s.
Proof using Hrk.
  intros Hs. unfold inv_cipher_with, cipher_with. cbv zeta. fold step. fold inv_step.
  assert (Hl : forall u, In u (seq 1 (nr - 1)) -> (u <= nr)%nat).
  { intros u Hu%in_seq. lia. }
  assert (H0 : blk (spec_add_round_key s (rk 0%nat))) by (apply add_round_key_blk; auto with lia).
  rewrite add_round_key_twice; [|by apply shift_rows_blk, sub_bytes_blk, steps_blk|by apply Hrk].
  rewrite inv_steps, unsub by done. apply add_round_key_twice; [done|apply Hrk; lia].
Qed.
End Inverse.

(** The round keys of the standard are blocks. *)
Lemma round_key_blk w n u :
  Forall word4 w -> length w = (4 * (n + 1))%nat -> (u <= n)%nat -> blk (round_key w u).
Proof.
  intros Hw Hl Hu. unfold round_key, sub_list.
  assert (H4 : (4 <= length (drop (4 * u) w))%nat) by (rewrite length_drop; lia).
  apply (Forall_drop _ (4 * u)) in Hw.
  destruct (drop (4 * u) w) as [|a [|b [|c [|d l]]]]; cbn in H4; try lia.
  inv_Forall. repeat match goal with H : word4 _ |- _ => destruct H end.
  cbn [take concat]. rewrite take_0. cbn [concat]. rewrite app_nil_r. split.
  - rewrite !length_app. lia.
  - rewrite !bytes_app. auto.
Qed.

Lemma aes_inv_cipher_cipher key nr s :
  AesCt.key_rounds (length key) = Some nr -> bytes key -> blk s ->
  aes_inv_cipher (length key / 4) nr key (aes_cipher (length key / 4) nr key s) = s.
Proof.
  intros Hnr Hkey Hs. destruct (fips_words_wf key _ nr Hnr eq_refl Hkey) as [Hw Hl].
  apply inv_cipher_cipher; [|done]. intros u Hu. by apply (round_key_blk _ nr).
Qed.
