(* ===== verification/AesBear.v ===== *)
(** * The BearSSL AES implementation: crypto/aes/aes_bear.c, aes_impl.h,
    port/aes_impl_compat.c

    [aes_impl] is the function table of aes_impl.h.  Its contract,
    [aes_impl_ok], says what each entry computes in terms of one block
    function; AesCcm.v is proved against the contract, and the instance at the
    end of this file discharges it for [aes_bear_impl] with the standard
    cipher. *)

From S2P Require Import Prelude Endian AesCt AesSpec AesCtProof AesBlock.

(** ** Modes over a block function

    What the multi-block entries of the table compute. *)

Definition xor_bytes (a b : list Z) : list Z := zip_with Z.lxor a b.

(** [n] steps of CBC-MAC over the input. *)
Fixpoint cbcmac (E : list Z -> list Z) (n : nat) (auth inp : list Z) : list Z :=
  match n with
  | O => auth
  | S n => cbcmac E n (E (xor_bytes auth (take 16 inp))) (drop 16 inp)
  end.

(** The counter block with its last four bytes, big endian, advanced by [k]. *)
Definition ctr_add (ctr : list Z) (k : Z) : list Z :=
  take 12 ctr ++ be32enc (u32 (be32dec (drop 12 ctr) + k)).

(** [n] blocks of counter mode, the first under [ctr + 1]. *)
Fixpoint ctr_stream (E : list Z -> list Z) (n : nat) (ctr : list Z) : list Z :=
  match n with
  | O => []
  | S n => E (ctr_add ctr 1) ++ ctr_stream E n (ctr_add ctr 1)
  end.

(** ** struct aes_impl *)

(** [struct aesenc] is its array of round keys, [uint32_t aes_rk[60]]. *)
Record aes_impl := {
  ai_setenckey : list Z -> list Z -> nat -> res (list Z);
  ai_enc : list Z -> list Z -> nat -> list Z;
  ai_cbcmac_update1 : list Z -> list Z -> nat -> list Z -> nat -> list Z;
  ai_ccm_enc1 : list Z -> list Z -> nat -> list Z -> nat -> list Z * list Z;
  ai_ccm_dec1 : list Z -> list Z -> nat -> list Z -> nat -> list Z * list Z;
}.

Class aes_impl_ok (I : aes_impl) (rk : list Z) (nr : nat) (E : list Z -> list Z) : Prop := {
  E_blk : forall b, blk b -> blk (E b);
  enc_ok : forall b, blk b -> ai_enc I rk b nr = E b;
  cbcmac_ok : forall n inp auth,
    (0 < n)%nat -> blk auth -> length inp = (16 * n)%nat -> bytes inp ->
    ai_cbcmac_update1 I rk inp (16 * n) auth nr = cbcmac E n auth inp;
  ccm_enc1_ok : forall n inp auth ctr,
    (0 < n)%nat -> blk auth -> blk ctr -> length inp = (16 * n)%nat -> bytes inp ->
    ai_ccm_enc1 I rk inp (16 * n) (auth ++ ctr) nr =
    (xor_bytes inp (ctr_stream E n ctr), cbcmac E n auth inp ++ ctr_add ctr (Z.of_nat n));
  ccm_dec1_ok : forall n inp auth ctr,
    (0 < n)%nat -> blk auth -> blk ctr -> length inp = (16 * n)%nat -> bytes inp ->
    ai_ccm_dec1 I rk inp (16 * n) (auth ++ ctr) nr =
    (let out := xor_bytes inp (ctr_stream E n ctr) in
     (out, cbcmac E n auth out ++ ctr_add ctr (Z.of_nat n)));
}.

(** ** aes_bear.c *)

(** [le32dec(p + 4*i)]. *)
Definition ld32 (p : list Z) (i : nat) : Z := le32dec (drop (4 * i) p).

Definition aesbear_setkey (rk key : list Z) (nrounds : nat) : res (list Z) :=
  let* key_len :=
    match nrounds with
    | 10%nat => Ok 16%nat
    | 12%nat => Ok 24%nat
    | 14%nat => Ok 32%nat
    | _ => Fault Panic
    end in
  Ok (splice 0 (snd (br_aes_ct_keysched key key_len)) rk).

Definition aesbear_setenckey (enc key : list Z) (nrounds : nat) : res (list Z) :=
  aesbear_setkey enc key nrounds.

Definition aesbear_setdeckey (dec key : list Z) (nrounds : nat) : res (list Z) :=
  aesbear_setkey dec key nrounds.

(** The three calls that run the cipher on a loaded state:
    [br_aes_ct_ortho], [br_aes_ct_bitslice_encrypt], [br_aes_ct_ortho]. *)
Definition bitslice_run (nrounds : nat) (sk_exp : list Z) (q : q8 Z) : q8 Z :=
  let q := br_aes_ct_ortho q in
  let q := br_aes_ct_bitslice_encrypt nrounds sk_exp q in
  br_aes_ct_ortho q.
Definition bitslice_run_dec (nrounds : nat) (sk_exp : list Z) (q : q8 Z) : q8 Z :=
  let q := br_aes_ct_ortho q in
  let q := br_aes_ct_bitslice_decrypt nrounds sk_exp q in
  br_aes_ct_ortho q.

(** [le32enc(out + 4*i, q[2*i])] for [i < 4], and for [q[2*i + 1]]. *)
Definition store_even (q : q8 Z) : list Z :=
  le32enc (Q0 q) ++ le32enc (Q2 q) ++ le32enc (Q4 q) ++ le32enc (Q6 q).
Definition store_odd (q : q8 Z) : list Z :=
  le32enc (Q1 q) ++ le32enc (Q3 q) ++ le32enc (Q5 q) ++ le32enc (Q7 q).

Definition aesbear_enc (enc inp : list Z) (nrounds : nat) : list Z :=
  let sk_exp := br_aes_ct_skey_expand nrounds enc in
  let q := mkQ (ld32 inp 0) 0 (ld32 inp 1) 0 (ld32 inp 2) 0 (ld32 inp 3) 0 in
  store_even (bitslice_run nrounds sk_exp q).

Definition aesbear_dec (dec inp : list Z) (nrounds : nat) : list Z :=
  let sk_exp := br_aes_ct_skey_expand nrounds dec in
  let q := mkQ (ld32 inp 0) 0 (ld32 inp 1) 0 (ld32 inp 2) 0 (ld32 inp 3) 0 in
  store_even (bitslice_run_dec nrounds sk_exp q).

(** The loop [for (; nbytes; nbytes -= 16, in += 16)] of
    [aesbear_cbcmac_update1]; [n] counts the remaining blocks. *)
Fixpoint cbcmac_loop (nrounds : nat) (sk_exp : list Z) (n : nat) (inp : list Z) (q : q8 Z) : q8 Z :=
  match n with
  | O => q
  | S n =>
      let q := mkQ (Z.lxor (Q0 q) (ld32 inp 0)) (Q1 q) (Z.lxor (Q2 q) (ld32 inp 1)) (Q3 q)
                   (Z.lxor (Q4 q) (ld32 inp 2)) (Q5 q) (Z.lxor (Q6 q) (ld32 inp 3)) (Q7 q) in
      let q := bitslice_run nrounds sk_exp q in
      cbcmac_loop nrounds sk_exp n (drop 16 inp) q
  end.

Definition aesbear_cbcmac_update1 (enc inp : list Z) (nbytes : nat) (auth : list Z)
    (nrounds : nat) : list Z :=
  let sk_exp := br_aes_ct_skey_expand nrounds enc in
  let q := mkQ (ld32 auth 0) 0 (ld32 auth 1) 0 (ld32 auth 2) 0 (ld32 auth 3) 0 in
  store_even (cbcmac_loop nrounds sk_exp (nbytes / 16) inp q).

(** The loop of [aesbear_ccm_enc1]: output bytes, last state, last [c3]. *)
Fixpoint ccm_enc1_loop (nrounds : nat) (sk_exp : list Z) (c0 c1 c2 : Z) (n : nat)
    (inp : list Z) (c3 : Z) (q : q8 Z) : list Z * Z * q8 Z :=
  match n with
  | O => ([], c3, q)
  | S n =>
      let c3 := u32 (c3 + 1) in
      let q := mkQ (Z.lxor (Q0 q) (ld32 inp 0)) c0 (Z.lxor (Q2 q) (ld32 inp 1)) c1
                   (Z.lxor (Q4 q) (ld32 inp 2)) c2 (Z.lxor (Q6 q) (ld32 inp 3)) (bswap32 c3) in
      let q := bitslice_run nrounds sk_exp q in
      let out := le32enc (Z.lxor (ld32 inp 0) (Q1 q)) ++ le32enc (Z.lxor (ld32 inp 1) (Q3 q)) ++
                 le32enc (Z.lxor (ld32 inp 2) (Q5 q)) ++ le32enc (Z.lxor (ld32 inp 3) (Q7 q)) in
      let '(rest, c3, q) := ccm_enc1_loop nrounds sk_exp c0 c1 c2 n (drop 16 inp) c3 q in
      (out ++ rest, c3, q)
  end.

(** [(out, authctr)]. *)
Definition aesbear_ccm_enc1 (enc inp : list Z) (nbytes : nat) (authctr : list Z)
    (nrounds : nat) : list Z * list Z :=
  let sk_exp := br_aes_ct_skey_expand nrounds enc in
  let q := mkQ (ld32 authctr 0) 0 (ld32 authctr 1) 0 (ld32 authctr 2) 0 (ld32 authctr 3) 0 in
  let ctr := drop 16 authctr in
  let c0 := ld32 ctr 0 in
  let c1 := ld32 ctr 1 in
  let c2 := ld32 ctr 2 in
  let c3 := be32dec (drop 12 ctr) in
  let '(out, c3, q) := ccm_enc1_loop nrounds sk_exp c0 c1 c2 (nbytes / 16) inp c3 q in
  (out, splice (16 + 4 * 3) (be32enc c3) (splice 0 (store_even q) authctr)).

(** The loop of [aesbear_ccm_dec1]; [n] is the number of blocks after the
    current one, so the test [(nbytes -= 16) == 0] is [n = 0]. *)
Fixpoint ccm_dec1_loop (nrounds : nat) (sk_exp : list Z) (c0 c1 c2 : Z) (n : nat)
    (inp : list Z) (c3 : Z) (q : q8 Z) : list Z * Z * q8 Z :=
  let b0 := Z.lxor (ld32 inp 0) (Q0 q) in
  let b1 := Z.lxor (ld32 inp 1) (Q2 q) in
  let b2 := Z.lxor (ld32 inp 2) (Q4 q) in
  let b3 := Z.lxor (ld32 inp 3) (Q6 q) in
  let q := mkQ (Q0 q) (Z.lxor (Q1 q) b0) (Q2 q) (Z.lxor (Q3 q) b1)
               (Q4 q) (Z.lxor (Q5 q) b2) (Q6 q) (Z.lxor (Q7 q) b3) in
  let out := le32enc b0 ++ le32enc b1 ++ le32enc b2 ++ le32enc b3 in
  match n with
  | O => (out, c3, q)
  | S n =>
      let c3 := u32 (c3 + 1) in
      let q := mkQ c0 (Q1 q) c1 (Q3 q) c2 (Q5 q) (bswap32 c3) (Q7 q) in
      let q := bitslice_run nrounds sk_exp q in
      let '(rest, c3, q) := ccm_dec1_loop nrounds sk_exp c0 c1 c2 n (drop 16 inp) c3 q in
      (out ++ rest, c3, q)
  end.

Definition aesbear_ccm_dec1 (enc inp : list Z) (nbytes : nat) (authctr : list Z)
    (nrounds : nat) : list Z * list Z :=
  let sk_exp := br_aes_ct_skey_expand nrounds enc in
  let ctr := drop 16 authctr in
  let c0 := ld32 ctr 0 in
  let c1 := ld32 ctr 1 in
  let c2 := ld32 ctr 2 in
  let c3 := u32 (be32dec (drop 12 ctr) + 1) in
  let q := mkQ c0 0 c1 0 c2 0 (bswap32 c3) 0 in
  let q := bitslice_run nrounds sk_exp q in
  let q := mkQ (Q0 q) (ld32 authctr 0) (Q2 q) (ld32 authctr 1)
               (Q4 q) (ld32 authctr 2) (Q6 q) (ld32 authctr 3) in
  let '(out, c3, q) := ccm_dec1_loop nrounds sk_exp c0 c1 c2 (nbytes / 16 - 1) inp c3 q in
  let q := bitslice_run nrounds sk_exp q in
  (out, splice (16 + 4 * 3) (be32enc c3) (splice 0 (store_odd q) authctr)).

Definition aes_bear_impl : aes_impl := {|
  ai_setenckey := aesbear_setenckey;
  ai_enc := aesbear_enc;
  ai_cbcmac_update1 := aesbear_cbcmac_update1;
  ai_ccm_enc1 := aesbear_ccm_enc1;
  ai_ccm_dec1 := aesbear_ccm_dec1;
|}.

(** ** port/aes_impl_compat.c *)

(** [aes_setenckey128] and its siblings: the new key and the round count. *)
Definition aes_setenckey (enc key : list Z) (nrounds : nat) : res (list Z) :=
  ai_setenckey aes_bear_impl enc key nrounds.
Definition aes_setenckey128 (enc key : list Z) : res (list Z * nat) :=
  let* enc := aes_setenckey enc key 10 in Ok (enc, 10%nat).
Definition aes_setenckey192 (enc key : list Z) : res (list Z * nat) :=
  let* enc := aes_setenckey enc key 12 in Ok (enc, 12%nat).
Definition aes_setenckey256 (enc key : list Z) : res (list Z * nat) :=
  let* enc := aes_setenckey enc key 14 in Ok (enc, 14%nat).
Definition aes_enc (enc inp : list Z) (nrounds : nat) : list Z :=
  ai_enc aes_bear_impl enc inp nrounds.
Definition aes_dec (dec inp : list Z) (nrounds : nat) : list Z :=
  aesbear_dec dec inp nrounds.
