(* ===== verification/AesBearProof.v ===== *)
(** * The BearSSL implementation meets its contract

    Two blocks travel through the bit-sliced cipher at once ([pack]); each is
    encrypted as the standard says.  From that, every entry of
    [aes_bear_impl] computes what [aes_impl_ok] asks, for the three key sizes
    [aesbear_setkey] accepts. *)

From S2P Require Import Prelude Endian AesCt AesSpec AesCtProof AesBlock AesInverse AesBear.

(** ** Blocks as lists of sixteen bytes *)

Lemma xor_blk a b : blk a -> blk b -> blk (xor_bytes a b).
Proof.
  intros Ha Hb. blk_cases a Ha. blk_cases b Hb. split; [done|].
  cbn [xor_bytes zip_with]. split_Forall; auto with urange.
Qed.

Lemma block_blk q b : blk (block q b).
Proof. split; [apply length_block|apply block_bytes]. Qed.

Lemma ld32_word4 a i : blk a -> (i < 4)%nat -> word4 (sub_list (4 * i) 4 a).
Proof.
  intros [Hl Hf] Hi. split; [apply length_sub_list; lia|auto with urange].
Qed.

Lemma ld32_sub a i : blk a -> (i < 4)%nat -> ld32 a i = le32dec (sub_list (4 * i) 4 a).
Proof.
  intros Ha Hi. blk_cases a Ha. case_nat 4%nat i; reflexivity.
Qed.

Lemma le32enc_ld32 a i : blk a -> (i < 4)%nat -> le32enc (ld32 a i) = sub_list (4 * i) 4 a.
Proof. intros Ha Hi. rewrite ld32_sub by done. by apply le32enc_le32dec, ld32_word4. Qed.

(** ** Two blocks in a state *)

(** [q] loaded with the words of [a] in the even and of [b] in the odd places. *)
Definition pack (a b : list Z) : q8 Z :=
  mkQ (ld32 a 0) (ld32 b 0) (ld32 a 1) (ld32 b 1) (ld32 a 2) (ld32 b 2) (ld32 a 3) (ld32 b 3).

Lemma ld32_range a i : is_u32 (ld32 a i).
Proof. apply le32dec_range. Qed.
#[export] Hint Resolve ld32_range : urange.

Lemma wf8_pack a b : wf8 (pack a b).
Proof. unfold pack, wf8; q8_simpl. auto 20 with urange. Qed.

Lemma store_even_pack a b : blk a -> store_even (pack a b) = a.
Proof.
  intros Ha. unfold store_even, pack; q8_simpl. rewrite !le32enc_ld32 by (done || lia).
  blk_cases a Ha. reflexivity.
Qed.
Lemma store_odd_pack a b : blk b -> store_odd (pack a b) = b.
Proof.
  intros Hb. unfold store_odd, pack; q8_simpl. rewrite !le32enc_ld32 by (done || lia).
  blk_cases b Hb. reflexivity.
Qed.

Lemma byte_of_ld32 a i :
  blk a -> (i < 16)%nat ->
  u8 (Z.shiftr (ld32 a (i / 4)) (8 * Z.of_nat (i mod 4))) = byte_at a i.
Proof.
  intros Ha Hi.
  assert (Hq : (i / 4 < 4)%nat) by (apply Nat.Div0.div_lt_upper_bound; lia).
  pose proof (le32enc_ld32 a (i / 4) Ha Hq) as E. unfold le32enc in E.
  rewrite <- (Z.shiftr_0_r (ld32 a (i / 4))) in E at 1.
  blk_cases a Ha. case_block i Hi; injection E; intros; assumption.
Qed.

Lemma qnth_pack a b i s :
  (i < 16)%nat -> s = 0 \/ s = 1 ->
  qnth (pack a b) (pos i s mod 8) = ld32 (if s =? 0 then a else b) (i / 4) /\
  pos i s / 8 = Z.of_nat (i mod 4).
Proof. intros Hi [-> | ->]; case_block i Hi; split; reflexivity. Qed.

Lemma block_pack a b s :
  blk a -> blk b -> s = 0 \/ s = 1 ->
  block (br_aes_ct_ortho (pack a b)) s = if s =? 0 then a else b.
Proof.
  intros Ha Hb Hs. set (c := if s =? 0 then a else b).
  assert (Hc : blk c) by (unfold c; case_match; done).
  transitivity (map (byte_at c) (seq 0 16)).
  - apply map_seq_ext. intros i Hi. rewrite lane_ortho by (apply pos_range; [done|lia]).
    destruct (qnth_pack a b i s Hi Hs) as [-> ->]. by apply byte_of_ld32.
  - clearbody c. clear Ha Hb. blk_cases c Hc. reflexivity.
Qed.

Lemma ortho_pack q : wf8 q -> br_aes_ct_ortho q = pack (block q 0) (block q 1).
Proof.
  intros Hq. pose proof (wf8_ortho q Hq) as Hw.
  assert (G : forall c b, (c < 4)%nat -> 0 <= b <= 1 ->
     qnth (br_aes_ct_ortho q) (2 * Z.of_nat c + b) = ld32 (block q b) c).
  { intros c b Hc Hb. apply le32enc_inj; [apply qnth_range; [done|lia]|auto with urange|].
    rewrite le32enc_qnth_ortho, le32enc_ld32 by (done || lia || apply block_blk).
    assert (b = 0 \/ b = 1) as [-> | ->] by lia; case_nat 4%nat c; reflexivity. }
  destruct (br_aes_ct_ortho q) as [s0 s1 s2 s3 s4 s5 s6 s7]. unfold pack.
  f_equal;
    [ exact (G 0%nat 0 ltac:(lia) ltac:(lia)) | exact (G 0%nat 1 ltac:(lia) ltac:(lia))
    | exact (G 1%nat 0 ltac:(lia) ltac:(lia)) | exact (G 1%nat 1 ltac:(lia) ltac:(lia))
    | exact (G 2%nat 0 ltac:(lia) ltac:(lia)) | exact (G 2%nat 1 ltac:(lia) ltac:(lia))
    | exact (G 3%nat 0 ltac:(lia) ltac:(lia)) | exact (G 3%nat 1 ltac:(lia) ltac:(lia)) ].
Qed.

(** The cipher depends on the round keys it uses only. *)
Lemma fold_left_ext {A B} (f g : A -> B -> A) l a :
  (forall a b, In b l -> f a b = g a b) -> fold_left f l a = fold_left g l a.
Proof.
  revert a; induction l as [|x l IH]; intros a H; cbn; [done|].
  rewrite (H a x) by by left. apply IH. intros; apply H; by right.
Qed.

Lemma cipher_with_ext nr rk rk' s :
  (forall u, (u <= nr)%nat -> rk u = rk' u) -> cipher_with nr rk s = cipher_with nr rk' s.
Proof.
  intros H. unfold cipher_with. rewrite !H by lia. cbv zeta. do 3 f_equal.
  apply fold_left_ext. intros a u Hu. apply in_seq in Hu. by rewrite H by lia.
Qed.
Lemma inv_cipher_with_ext nr rk rk' s :
  (forall u, (u <= nr)%nat -> rk u = rk' u) -> inv_cipher_with nr rk s = inv_cipher_with nr rk' s.
Proof.
  intros H. unfold inv_cipher_with. rewrite !H by lia. cbv zeta. do 3 f_equal.
  apply fold_left_ext. intros a u Hu. apply in_rev, in_seq in Hu. by rewrite H by lia.
Qed.

(** ** Words of a block, and the counter *)

Lemma ld32_take16 inp i : (i < 4)%nat -> ld32 (take 16 inp) i = ld32 inp i.
Proof.
  intros Hi. unfold ld32, le32dec. rewrite !byte_at_drop. by rewrite !byte_at_take by lia.
Qed.

Lemma ld32_xor a b i :
  blk a -> blk b -> (i < 4)%nat -> ld32 (xor_bytes a b) i = Z.lxor (ld32 a i) (ld32 b i).
Proof.
  intros Ha Hb Hi. rewrite !ld32_sub by auto using xor_blk.
  rewrite <- le32dec_lxor by by apply ld32_word4.
  f_equal. blk_cases a Ha. blk_cases b Hb. case_nat 4%nat i; reflexivity.
Qed.

(** The four stores of [le32dec(in + 4*i) ^ q[..]]. *)
Lemma store_xor a b :
  blk a -> blk b ->
  le32enc (Z.lxor (ld32 a 0) (ld32 b 0)) ++ le32enc (Z.lxor (ld32 a 1) (ld32 b 1)) ++
  le32enc (Z.lxor (ld32 a 2) (ld32 b 2)) ++ le32enc (Z.lxor (ld32 a 3) (ld32 b 3)) = xor_bytes a b.
Proof.
  intros Ha Hb. rewrite <- !ld32_xor by (done || lia).
  apply (store_even_pack (xor_bytes a b) a). by apply xor_blk.
Qed.

Lemma xor_bytes_app a b c d :
  length a = length c -> xor_bytes (a ++ b) (c ++ d) = xor_bytes a c ++ xor_bytes b d.
Proof. intros. unfold xor_bytes. by apply zip_with_app. Qed.

Lemma xor_bytes_split inp k rest :
  blk (take 16 inp) -> blk k ->
  xor_bytes (take 16 inp) k ++ xor_bytes (drop 16 inp) rest = xor_bytes inp (k ++ rest).
Proof.
  intros [Ht _] [Hk _]. rewrite <- xor_bytes_app by lia. by rewrite take_drop.
Qed.

Lemma take16_blk n inp : length inp = (16 * S n)%nat -> bytes inp -> blk (take 16 inp).
Proof. intros Hl Hb. split; [rewrite length_take; lia|auto with urange]. Qed.

(** The last word of the counter block, as [c3]. *)
Definition ctr_val (ctr : list Z) : Z := be32dec (drop 12 ctr).

Lemma ctr_add_blk ctr k : blk ctr -> blk (ctr_add ctr k).
Proof.
  intros [Hl Hb]. unfold ctr_add. split.
  - rewrite length_app, length_take. change (length (be32enc _)) with 4%nat. lia.
  - apply bytes_app; split; auto with urange.
Qed.

Lemma drop_ctr_add ctr k :
  blk ctr -> drop 12 (ctr_add ctr k) = be32enc (u32 (ctr_val ctr + k)).
Proof.
  intros [Hl _]. unfold ctr_add. rewrite drop_app_length'; [done|rewrite length_take; lia].
Qed.
Lemma take_ctr_add ctr k : blk ctr -> take 12 (ctr_add ctr k) = take 12 ctr.
Proof.
  intros [Hl _]. unfold ctr_add. rewrite take_app_length'; [done|rewrite length_take; lia].
Qed.

Lemma ctr_val_add ctr k : blk ctr -> ctr_val (ctr_add ctr k) = u32 (ctr_val ctr + k).
Proof.
  intros Hc. unfold ctr_val at 1. rewrite drop_ctr_add by done.
  rewrite <- (app_nil_r (be32enc _)). apply be32dec_enc, u32_range.
Qed.

Lemma u32_add_u32 x k : u32 (u32 x + k) = u32 (x + k).
Proof. rewrite !u32_mod. apply Zplus_mod_idemp_l. Qed.

Lemma ctr_add_add ctr j k : blk ctr -> ctr_add (ctr_add ctr j) k = ctr_add ctr (j + k).
Proof.
  intros Hc. unfold ctr_add at 1. rewrite take_ctr_add by done.
  change (be32dec (drop 12 (ctr_add ctr j))) with (ctr_val (ctr_add ctr j)).
  rewrite ctr_val_add, u32_add_u32 by done. unfold ctr_add. do 3 f_equal.
  unfold ctr_val. lia.
Qed.

Lemma ctr_add_0 ctr : blk ctr -> ctr_add ctr 0 = ctr.
Proof.
  intros Hc. unfold ctr_add. rewrite Z.add_0_r, u32_id by auto with urange.
  transitivity (take 12 ctr ++ drop 12 ctr); [f_equal|apply take_drop].
  blk_cases ctr Hc. cbn [drop]. rewrite be32enc_rev.
  rewrite (be32dec_le _ _ _ _ _ []) by by split_Forall.
  rewrite le32enc_dec by by split_Forall. reflexivity.
Qed.

(** Words 0, 1, 2 of a counter block do not change, and word 3 is the
    byte-swapped counter. *)
Lemma ld32_ctr_add ctr k i : blk ctr -> (i < 3)%nat -> ld32 (ctr_add ctr k) i = ld32 ctr i.
Proof.
  intros Hc Hi.
  assert (G : forall l, ld32 (take 12 l) i = ld32 l i).
  { intros l. unfold ld32, le32dec. rewrite !byte_at_drop. by rewrite !byte_at_take by lia. }
  rewrite <- G, take_ctr_add by done. apply G.
Qed.
Lemma ld32_ctr_add_3 ctr k :
  blk ctr -> ld32 (ctr_add ctr k) 3 = bswap32 (u32 (ctr_val ctr + k)).
Proof.
  intros Hc. unfold ld32. change (4 * 3)%nat with 12%nat. rewrite drop_ctr_add by done.
  rewrite <- le32enc_bswap32 by auto with urange. rewrite <- (app_nil_r (le32enc _)).
  apply le32dec_enc, bswap32_range, u32_range.
Qed.

Lemma length_ctr_stream E n ctr :
  (forall b, blk b -> blk (E b)) -> blk ctr -> length (ctr_stream E n ctr) = (16 * n)%nat.
Proof.
  intros HE. revert ctr. induction n as [|n IH]; intros ctr Hc; [done|].
  pose proof (ctr_add_blk ctr 1 Hc) as Hc1.
  cbn [ctr_stream]. rewrite length_app, IH, (proj1 (HE _ Hc1)) by done. lia.
Qed.

(** ** A keyed implementation *)

Section Keyed.
Context (key rk0 rk : list Z) (nr : nat).
Context (Hkey : bytes key) (Hlen : key_rounds (length key) = Some nr).
Context (Hset : aesbear_setkey rk0 key nr = Ok rk).

Let E : list Z -> list Z := aes_cipher (length key / 4) nr key.
Let D : list Z -> list Z := aes_inv_cipher (length key / 4) nr key.

Lemma skey_expand_ext n a b :
  (forall i, (i < (n + 1) * 4)%nat -> word_at a i = word_at b i) ->
  br_aes_ct_skey_expand n a = br_aes_ct_skey_expand n b.
Proof.
  intros H. unfold br_aes_ct_skey_expand. rewrite !flat_map_concat_map. f_equal.
  apply map_ext_in. intros u Hu. apply in_seq in Hu. by rewrite H by lia.
Qed.

Lemma setkey_splice : rk = splice 0 (snd (br_aes_ct_keysched key (length key))) rk0.
Proof using Hlen Hset.
  clear E D. revert Hset. unfold aesbear_setkey.
  destruct (key_rounds_cases _ _ Hlen) as [[-> ->]|[[-> ->]|[-> ->]]]; cbn [res_bind]; congruence.
Qed.

Lemma skey_expand_rk : br_aes_ct_skey_expand nr rk = expanded key (length key) nr.
Proof using Hlen Hset.
  rewrite setkey_splice. unfold expanded. apply skey_expand_ext. intros i Hi.
  unfold splice, byte_at. rewrite take_0. cbn [app]. apply app_nth1.
  unfold br_aes_ct_keysched. rewrite Hlen. cbn [snd]. rewrite length_map, length_seq. lia.
Qed.

Lemma run_block b q :
  0 <= b <= 1 -> wf8 q ->
  block (br_aes_ct_bitslice_encrypt nr (br_aes_ct_skey_expand nr rk) q) b = E (block q b) /\
  wf8 (br_aes_ct_bitslice_encrypt nr (br_aes_ct_skey_expand nr rk) q).
Proof using Hkey Hlen Hset.
  intros Hb Hq. rewrite skey_expand_rk.
  destruct (block_encrypt nr (expanded key (length key) nr)
              (fun u => expanded_wf8 key _ nr Hlen eq_refl Hkey u) b Hb q Hq) as [-> ?].
  split; [|done]. apply cipher_with_ext. intros u Hu.
  by apply sliced_round_key_spec.
Qed.

Lemma run_block_dec b q :
  0 <= b <= 1 -> wf8 q ->
  block (br_aes_ct_bitslice_decrypt nr (br_aes_ct_skey_expand nr rk) q) b = D (block q b) /\
  wf8 (br_aes_ct_bitslice_decrypt nr (br_aes_ct_skey_expand nr rk) q).
Proof using Hkey Hlen Hset.
  intros Hb Hq. rewrite skey_expand_rk.
  destruct (block_decrypt nr (expanded key (length key) nr)
              (fun u => expanded_wf8 key _ nr Hlen eq_refl Hkey u) b Hb q Hq) as [-> ?].
  split; [|done]. apply inv_cipher_with_ext. intros u Hu.
  by apply sliced_round_key_spec.
Qed.

Lemma bitslice_run_pack a b :
  blk a -> blk b ->
  bitslice_run nr (br_aes_ct_skey_expand nr rk) (pack a b) = pack (E a) (E b).
Proof using Hkey Hlen Hset.
  intros Ha Hb. unfold bitslice_run. cbv zeta.
  pose proof (wf8_ortho _ (wf8_pack a b)) as Hw.
  destruct (run_block 0 _ ltac:(lia) Hw) as [E0 Hw']. destruct (run_block 1 _ ltac:(lia) Hw) as [E1 _].
  rewrite ortho_pack by done. rewrite E0, E1, !block_pack by auto. done.
Qed.

Lemma bitslice_run_dec_pack a b :
  blk a -> blk b ->
  bitslice_run_dec nr (br_aes_ct_skey_expand nr rk) (pack a b) = pack (D a) (D b).
Proof using Hkey Hlen Hset.
  intros Ha Hb. unfold bitslice_run_dec. cbv zeta.
  pose proof (wf8_ortho _ (wf8_pack a b)) as Hw.
  destruct (run_block_dec 0 _ ltac:(lia) Hw) as [E0 Hw'].
  destruct (run_block_dec 1 _ ltac:(lia) Hw) as [E1 _].
  rewrite ortho_pack by done. rewrite E0, E1, !block_pack by auto. done.
Qed.

Lemma cipher_blk a : blk a -> blk (E a).
Proof using Hkey Hlen Hset.
  intros Ha. destruct (run_block 0 _ ltac:(lia) (wf8_ortho _ (wf8_pack a a))) as [E0 _].
  rewrite block_pack in E0 by auto. cbv beta iota in E0. change (0 =? 0) with true in E0. rewrite <- E0. apply block_blk.
Qed.
Lemma inv_cipher_blk a : blk a -> blk (D a).
Proof using Hkey Hlen Hset.
  intros Ha. destruct (run_block_dec 0 _ ltac:(lia) (wf8_ortho _ (wf8_pack a a))) as [E0 _].
  rewrite block_pack in E0 by auto. cbv beta iota in E0. change (0 =? 0) with true in E0. rewrite <- E0. apply block_blk.
Qed.

(** A block whose odd companion is zero. *)
Definition zero_blk : list Z := replicate 16 0.
Lemma zero_blk_blk : blk zero_blk.
Proof. split; [done|]. apply Forall_replicate. unfold is_u; lia. Qed.

#[local] Opaque bitslice_run bitslice_run_dec aes_cipher aes_inv_cipher.

Lemma aesbear_enc_spec a : blk a -> aesbear_enc rk a nr = E a.
Proof using Hkey Hlen Hset.
  intros Ha. unfold aesbear_enc. cbv zeta. change (mkQ _ _ _ _ _ _ _ _) with (pack a zero_blk).
  rewrite bitslice_run_pack by auto using zero_blk_blk. by apply store_even_pack, cipher_blk.
Qed.
Lemma aesbear_dec_spec a : blk a -> aesbear_dec rk a nr = D a.
Proof using Hkey Hlen Hset.
  intros Ha. unfold aesbear_dec. cbv zeta. change (mkQ _ _ _ _ _ _ _ _) with (pack a zero_blk).
  rewrite bitslice_run_dec_pack by auto using zero_blk_blk. by apply store_even_pack, inv_cipher_blk.
Qed.

Lemma cbcmac_loop_S sk n inp q :
  cbcmac_loop nr sk (S n) inp q =
  cbcmac_loop nr sk n (drop 16 inp) (bitslice_run nr sk
    (mkQ (Z.lxor (Q0 q) (ld32 inp 0)) (Q1 q) (Z.lxor (Q2 q) (ld32 inp 1)) (Q3 q)
         (Z.lxor (Q4 q) (ld32 inp 2)) (Q5 q) (Z.lxor (Q6 q) (ld32 inp 3)) (Q7 q))).
Proof. reflexivity. Qed.

Lemma cbcmac_loop_step sk n inp auth z :
  blk auth -> blk (take 16 inp) ->
  cbcmac_loop nr sk (S n) inp (pack auth z) =
  cbcmac_loop nr sk n (drop 16 inp) (bitslice_run nr sk (pack (xor_bytes auth (take 16 inp)) z)).
Proof.
  intros Ha Ht. rewrite cbcmac_loop_S. do 2 f_equal. unfold pack; q8_simpl.
  by rewrite !ld32_xor, !ld32_take16 by (done || lia).
Qed.

Lemma cbcmac_loop_spec n inp auth z :
  blk auth -> blk z -> length inp = (16 * n)%nat -> bytes inp ->
  exists z', blk z' /\ blk (cbcmac E n auth inp) /\
    cbcmac_loop nr (br_aes_ct_skey_expand nr rk) n inp (pack auth z) =
    pack (cbcmac E n auth inp) z'.
Proof using Hkey Hlen Hset.
  revert inp auth z. induction n as [|n IH]; intros inp auth z Ha Hz Hl Hb; [eauto|].
  pose proof (take16_blk n inp Hl Hb) as Ht.
  rewrite cbcmac_loop_step, bitslice_run_pack by auto using xor_blk.
  apply IH; auto using cipher_blk, xor_blk with urange. rewrite length_drop. lia.
Qed.

Lemma aesbear_cbcmac_spec n inp auth :
  blk auth -> length inp = (16 * n)%nat -> bytes inp ->
  aesbear_cbcmac_update1 rk inp (16 * n) auth nr = cbcmac E n auth inp.
Proof using Hkey Hlen Hset.
  intros Ha Hl Hb. unfold aesbear_cbcmac_update1. cbv zeta.
  change (mkQ _ _ _ _ _ _ _ _) with (pack auth zero_blk).
  rewrite (Nat.mul_comm 16 n), Nat.div_mul by lia.
  destruct (cbcmac_loop_spec n inp auth zero_blk) as (z & ? & ? & ->);
    auto using zero_blk_blk, store_even_pack.
Qed.

(** The state the CCM loops load next to [a]: counter block [ctr + 1]. *)
Lemma pack_ctr a ctr :
  blk ctr ->
  mkQ (ld32 a 0) (ld32 ctr 0) (ld32 a 1) (ld32 ctr 1) (ld32 a 2) (ld32 ctr 2) (ld32 a 3)
      (bswap32 (u32 (ctr_val ctr + 1))) = pack a (ctr_add ctr 1).
Proof.
  intros Hc. unfold pack. rewrite <- ld32_ctr_add_3 by done.
  by rewrite (ld32_ctr_add ctr 1 0), (ld32_ctr_add ctr 1 1), (ld32_ctr_add ctr 1 2) by (done || lia).
Qed.
Lemma pack_ctr_even b ctr :
  blk ctr ->
  mkQ (ld32 ctr 0) (ld32 b 0) (ld32 ctr 1) (ld32 b 1) (ld32 ctr 2) (ld32 b 2)
      (bswap32 (u32 (ctr_val ctr + 1))) (ld32 b 3) = pack (ctr_add ctr 1) b.
Proof.
  intros Hc. unfold pack. rewrite <- ld32_ctr_add_3 by done.
  by rewrite (ld32_ctr_add ctr 1 0), (ld32_ctr_add ctr 1 1), (ld32_ctr_add ctr 1 2) by (done || lia).
Qed.

Lemma ccm_enc1_loop_step sk n inp auth ctr z :
  blk auth -> blk ctr -> blk (take 16 inp) ->
  ccm_enc1_loop nr sk (ld32 ctr 0) (ld32 ctr 1) (ld32 ctr 2) (S n) inp (ctr_val ctr) (pack auth z) =
  (let q := bitslice_run nr sk (pack (xor_bytes auth (take 16 inp)) (ctr_add ctr 1)) in
   let '(rest, c3, q') :=
     ccm_enc1_loop nr sk (ld32 ctr 0) (ld32 ctr 1) (ld32 ctr 2) n (drop 16 inp)
       (u32 (ctr_val ctr + 1)) q in
   ((le32enc (Z.lxor (ld32 inp 0) (Q1 q)) ++ le32enc (Z.lxor (ld32 inp 1) (Q3 q)) ++
     le32enc (Z.lxor (ld32 inp 2) (Q5 q)) ++ le32enc (Z.lxor (ld32 inp 3) (Q7 q))) ++ rest,
    c3, q')).
Proof.
  intros Ha Hc Ht. rewrite <- (pack_ctr (xor_bytes auth (take 16 inp)) ctr) by done.
  rewrite !ld32_xor, !ld32_take16 by (done || lia). reflexivity.
Qed.

Lemma ccm_enc1_loop_spec n inp auth ctr z :
  blk auth -> blk ctr -> blk z -> length inp = (16 * n)%nat -> bytes inp ->
  exists z', blk z' /\ blk (cbcmac E n auth inp) /\
    ccm_enc1_loop nr (br_aes_ct_skey_expand nr rk) (ld32 ctr 0) (ld32 ctr 1) (ld32 ctr 2)
      n inp (ctr_val ctr) (pack auth z) =
    (xor_bytes inp (ctr_stream E n ctr), ctr_val (ctr_add ctr (Z.of_nat n)),
     pack (cbcmac E n auth inp) z').
Proof using Hkey Hlen Hset.
  revert inp auth ctr z. induction n as [|n IH]; intros inp auth ctr z Ha Hc Hz Hl Hb.
  { exists z. split_and!; [done..|]. cbn [ccm_enc1_loop cbcmac ctr_stream].
    rewrite ctr_add_0 by done. by destruct inp. }
  pose proof (take16_blk n inp Hl Hb) as Ht. pose proof (ctr_add_blk ctr 1 Hc) as Hc1.
  destruct (IH (drop 16 inp) (E (xor_bytes auth (take 16 inp))) (ctr_add ctr 1) (E (ctr_add ctr 1)))
    as (z' & Hz' & Hm & EQ);
    [auto using cipher_blk, xor_blk with urange..|rewrite length_drop; lia|auto with urange|].
  exists z'. split_and!; [done..|].
  rewrite !ld32_ctr_add in EQ by (done || lia). rewrite ctr_val_add in EQ by done.
  rewrite ccm_enc1_loop_step, bitslice_run_pack by auto using xor_blk. cbv zeta. rewrite EQ. clear EQ.
  rewrite ctr_add_add by done. replace (1 + Z.of_nat n) with (Z.of_nat (S n)) by lia.
  f_equal. f_equal. cbn [ctr_stream]. rewrite <- (xor_bytes_split inp) by (done || apply cipher_blk, Hc1).
  f_equal. unfold pack; q8_simpl.
  rewrite <- (store_xor (take 16 inp) (E (ctr_add ctr 1))) by auto using cipher_blk.
  rewrite !ld32_take16 by lia. reflexivity.
Qed.

Lemma splice_authctr m auth ctr k :
  blk m -> blk auth -> blk ctr ->
  splice (16 + 4 * 3) (be32enc (ctr_val (ctr_add ctr k))) (splice 0 m (auth ++ ctr)) =
  m ++ ctr_add ctr k.
Proof.
  intros Hm Ha Hc. rewrite ctr_val_add by done. unfold ctr_add, ctr_val.
  generalize (be32dec (drop 12 ctr) + k). intros v.
  blk_cases m Hm. blk_cases auth Ha. blk_cases ctr Hc. reflexivity.
Qed.

Lemma ld32_app a b i : blk a -> (i < 4)%nat -> ld32 (a ++ b) i = ld32 a i.
Proof.
  intros [Hl _] Hi. rewrite <- ld32_take16, take_app_length' by done. done.
Qed.

Lemma aesbear_ccm_enc1_spec n inp auth ctr :
  blk auth -> blk ctr -> length inp = (16 * n)%nat -> bytes inp ->
  aesbear_ccm_enc1 rk inp (16 * n) (auth ++ ctr) nr =
  (xor_bytes inp (ctr_stream E n ctr), cbcmac E n auth inp ++ ctr_add ctr (Z.of_nat n)).
Proof using Hkey Hlen Hset.
  intros Ha Hc Hl Hb. unfold aesbear_ccm_enc1. cbv zeta.
  rewrite drop_app_length' by by destruct Ha. rewrite !ld32_app by (done || lia).
  change (mkQ _ _ _ _ _ _ _ _) with (pack auth zero_blk). fold (ctr_val ctr).
  rewrite (Nat.mul_comm 16 n), Nat.div_mul by lia.
  destruct (ccm_enc1_loop_spec n inp auth ctr zero_blk) as (z & ? & ? & ->);
    auto using zero_blk_blk.
  by rewrite store_even_pack, splice_authctr.
Qed.

Lemma ccm_dec1_loop_step sk c0 c1 c2 n inp c3 k auth :
  blk (take 16 inp) -> blk k -> blk auth ->
  ccm_dec1_loop nr sk c0 c1 c2 n inp c3 (pack k auth) =
  (let o := xor_bytes (take 16 inp) k in
   let x := xor_bytes auth o in
   match n with
   | O => (o, c3, pack k x)
   | S n =>
       let c3 := u32 (c3 + 1) in
       let q := mkQ c0 (ld32 x 0) c1 (ld32 x 1) c2 (ld32 x 2) (bswap32 c3) (ld32 x 3) in
       let '(rest, c3, q) :=
         ccm_dec1_loop nr sk c0 c1 c2 n (drop 16 inp) c3 (bitslice_run nr sk q) in
       (o ++ rest, c3, q)
   end).
Proof.
  intros Ht Hk Ha. pose proof (xor_blk _ _ Ht Hk) as Ho.
  pose proof (store_xor _ _ Ht Hk) as Es. set (o := xor_bytes (take 16 inp) k) in *.
  rewrite !ld32_take16 in Es by lia.
  assert (X : forall i, (i < 4)%nat ->
    ld32 (xor_bytes auth o) i = Z.lxor (ld32 auth i) (Z.lxor (ld32 inp i) (ld32 k i))).
  { intros i Hi. unfold o. by rewrite !ld32_xor, ld32_take16. }
  cbv zeta. unfold pack at 2. rewrite !X, <- Es by lia. clear. destruct n; reflexivity.
Qed.

Lemma ccm_dec1_loop_spec n inp auth ctr :
  blk auth -> blk ctr -> length inp = (16 * S n)%nat -> bytes inp ->
  exists y x, blk x /\ blk y /\
    let out := xor_bytes inp (E ctr ++ ctr_stream E n ctr) in
    E x = cbcmac E (S n) auth out /\
    ccm_dec1_loop nr (br_aes_ct_skey_expand nr rk) (ld32 ctr 0) (ld32 ctr 1) (ld32 ctr 2)
      n inp (ctr_val ctr) (pack (E ctr) auth) =
    (out, ctr_val (ctr_add ctr (Z.of_nat n)), pack y x).
Proof using Hkey Hlen Hset.
  revert inp auth ctr. induction n as [|n IH]; intros inp auth ctr Ha Hc Hl Hb;
    pose proof (take16_blk _ inp Hl Hb) as Ht; pose proof (cipher_blk ctr Hc) as HEc;
    pose proof (xor_blk _ _ Ht HEc) as Ho; rewrite ccm_dec1_loop_step by done; cbv zeta.
  - rewrite take_ge in * by lia. cbn [ctr_stream cbcmac]. rewrite app_nil_r, ctr_add_0 by done.
    do 2 eexists. split_and!; [| | |reflexivity]; [by apply xor_blk|done|].
    by rewrite take_ge by (rewrite (proj1 Ho); lia).
  - set (o := xor_bytes (take 16 inp) (E ctr)) in *.
    pose proof (ctr_add_blk ctr 1 Hc) as Hc1.
    destruct (IH (drop 16 inp) (E (xor_bytes auth o)) (ctr_add ctr 1)) as (y & x & Hx & Hy & Ex & EQ);
      [auto using cipher_blk, xor_blk with urange..|rewrite length_drop; lia|auto with urange|].
    rewrite !ld32_ctr_add in EQ by (done || lia). rewrite ctr_val_add in EQ by done.
    rewrite pack_ctr_even, bitslice_run_pack, EQ by auto using xor_blk.
    assert (Eo : xor_bytes inp (E ctr ++ ctr_stream E (S n) ctr) =
                 o ++ xor_bytes (drop 16 inp) (E (ctr_add ctr 1) ++ ctr_stream E n (ctr_add ctr 1))).
    { symmetry. by apply xor_bytes_split. }
    rewrite Eo. exists y, x. split_and!; [done..| |].
    + rewrite Ex. cbn [cbcmac].
      by rewrite (take_app_length' o), (drop_app_length' o) by (by rewrite (proj1 Ho)).
    + rewrite ctr_add_add by done. by replace (1 + Z.of_nat n) with (Z.of_nat (S n)) by lia.
Qed.

Lemma aesbear_ccm_dec1_spec n inp auth ctr :
  (0 < n)%nat -> blk auth -> blk ctr -> length inp = (16 * n)%nat -> bytes inp ->
  aesbear_ccm_dec1 rk inp (16 * n) (auth ++ ctr) nr =
  (let out := xor_bytes inp (ctr_stream E n ctr) in
   (out, cbcmac E n auth out ++ ctr_add ctr (Z.of_nat n))).
Proof using Hkey Hlen Hset.
  intros Hn Ha Hc Hl Hb. unfold aesbear_ccm_dec1. cbv zeta.
  rewrite drop_app_length' by by destruct Ha. rewrite !ld32_app by (done || lia).
  fold (ctr_val ctr). rewrite (Nat.mul_comm 16 n), Nat.div_mul by lia.
  destruct n as [|n]; [lia|]. replace (S n - 1)%nat with n by lia.
  pose proof (ctr_add_blk ctr 1 Hc) as Hc1. pose proof (cipher_blk _ Hc1) as HEc.
  change (mkQ (ld32 ctr 0) 0 (ld32 ctr 1) 0 (ld32 ctr 2) 0 (bswap32 (u32 (ctr_val ctr + 1))) 0)
    with (mkQ (ld32 ctr 0) (ld32 zero_blk 0) (ld32 ctr 1) (ld32 zero_blk 1) (ld32 ctr 2)
              (ld32 zero_blk 2) (bswap32 (u32 (ctr_val ctr + 1))) (ld32 zero_blk 3)).
  rewrite pack_ctr_even, bitslice_run_pack by auto using zero_blk_blk.
  change (mkQ _ _ _ _ _ _ _ _) with (pack (E (ctr_add ctr 1)) auth).
  destruct (ccm_dec1_loop_spec n inp auth (ctr_add ctr 1)) as (y & x & Hx & Hy & Ex & EQ); auto.
  rewrite !ld32_ctr_add in EQ by (done || lia). rewrite ctr_val_add in EQ by done.
  rewrite EQ, bitslice_run_pack, store_odd_pack by auto using cipher_blk.
  rewrite ctr_add_add by done. replace (1 + Z.of_nat n) with (Z.of_nat (S n)) by lia.
  rewrite splice_authctr by auto using cipher_blk. by rewrite Ex.
Qed.

(** The contract, for any key [aesbear_setkey] accepts. *)
#[export] Instance aes_bear_impl_ok : aes_impl_ok aes_bear_impl rk nr E.
Proof using Hkey Hlen Hset.
  split; intros.
  - by apply cipher_blk.
  - by apply aesbear_enc_spec.
  - by apply aesbear_cbcmac_spec.
  - by apply aesbear_ccm_enc1_spec.
  - by apply aesbear_ccm_dec1_spec.
Qed.
End Keyed.

(** ** Properties *)

(** C20. The exported [aes_enc], keyed by [aes_setenckey], is the AES of
    FIPS 197, for every block and for every key of 16, 24 or 32 bytes: the
    bit-sliced S-box circuit, the transposition, the round functions and the
    compressed key schedule together compute the standard's cipher. *)
Theorem aes_enc_is_fips197 (key rk0 rk b : list Z) (nr : nat)
    (Hlen : key_rounds (length key) = Some nr) (Hkey : bytes key) (Hb : blk b)
    (Hset : aes_setenckey rk0 key nr = Ok rk) :
  aes_enc rk b nr = aes_cipher (length key / 4) nr key b.
Proof. exact (aesbear_enc_spec key rk0 rk nr Hkey Hlen Hset b Hb). Qed.

Lemma aes_enc_is_fips197_witness :
  exists rk, aes_setenckey (replicate 60 0) (map Z.of_nat (seq 0 16)) 10 = Ok rk /\
    aes_enc rk [0;0x11;0x22;0x33;0x44;0x55;0x66;0x77;0x88;0x99;0xaa;0xbb;0xcc;0xdd;0xee;0xff] 10 =
    [0x69;0xc4;0xe0;0xd8;0x6a;0x7b;0x04;0x30;0xd8;0xcd;0xb7;0x80;0x70;0xb4;0xc5;0x5a].
Proof.
  eexists. split; [reflexivity|].
  etransitivity.
  - eapply (aes_enc_is_fips197 (map Z.of_nat (seq 0 16)) (replicate 60 0)).
    + reflexivity.
    + apply (bool_decide_unpack _). vm_compute. exact I.
    + split; [reflexivity|]. apply (bool_decide_unpack _). vm_compute. exact I.
    + reflexivity.
  - exact fips197_c1.
Defined.

(** Decryption undoes encryption: a block encrypted by [aes_enc]
    under a key is recovered by [aes_dec] under the same key, whichever of
    the three key sizes was set. *)
Theorem aes_dec_enc_id (key rk0 rk dk0 dk b : list Z) (nr : nat)
    (Hlen : key_rounds (length key) = Some nr) (Hkey : bytes key) (Hb : blk b)
    (Hset : aes_setenckey rk0 key nr = Ok rk) (Hsetd : aesbear_setdeckey dk0 key nr = Ok dk) :
  aes_dec dk (aes_enc rk b nr) nr = b.
Proof.
  unfold aes_enc, aes_dec. cbn [ai_enc aes_bear_impl].
  rewrite (aesbear_enc_spec key rk0 rk nr Hkey Hlen Hset b Hb).
  rewrite (aesbear_dec_spec key dk0 dk nr Hkey Hlen Hsetd)
    by (by apply (cipher_blk key rk0 rk nr Hkey Hlen Hset)).
  by apply aes_inv_cipher_cipher.
Qed.

Lemma aes_dec_enc_id_witness :
  exists rk dk, aes_setenckey (replicate 60 0) (map Z.of_nat (seq 0 32)) 14 = Ok rk /\
    aes_dec dk (aes_enc rk (map Z.of_nat (seq 0 16)) 14) 14 = map Z.of_nat (seq 0 16).
Proof.
  do 2 eexists. split; [reflexivity|].
  eapply (aes_dec_enc_id (map Z.of_nat (seq 0 32)) (replicate 60 0) _ (replicate 60 7)).
  - reflexivity.
  - apply (bool_decide_unpack _). vm_compute. exact I.
  - split; [reflexivity|]. apply (bool_decide_unpack _). vm_compute. exact I.
  - reflexivity.
  - reflexivity.
Defined.

(** Setting a key succeeds exactly for 10, 12 and 14 rounds and panics
    otherwise, and keeps the size of the round-key array. *)
Theorem aes_setenckey_rounds (rk0 key : list Z) (nr : nat) (Hrk : length rk0 = 60%nat) :
  match aes_setenckey rk0 key nr with
  | Ok rk => (nr = 10 \/ nr = 12 \/ nr = 14)%nat /\ length rk = 60%nat
  | Fault f => f = Panic /\ nr <> 10%nat /\ nr <> 12%nat /\ nr <> 14%nat
  end.
Proof.
  unfold aes_setenckey. cbn [ai_setenckey aes_bear_impl]. unfold aesbear_setenckey, aesbear_setkey.
  assert (G : forall n, (n = 10 \/ n = 12 \/ n = 14)%nat -> forall kl, key_rounds kl = Some n ->
              length (splice 0 (snd (br_aes_ct_keysched key kl)) rk0) = 60%nat).
  { intros n Hn kl Hkl. rewrite length_splice; [done|]. unfold br_aes_ct_keysched.
    rewrite Hkl. cbn [snd]. rewrite Hrk, length_map, length_seq. lia. }
  destruct (Nat.eq_dec nr 10%nat) as [->|]; [split; [lia|by apply (G 10%nat ltac:(lia))]|].
  destruct (Nat.eq_dec nr 12%nat) as [->|]; [split; [lia|by apply (G 12%nat ltac:(lia))]|].
  destruct (Nat.eq_dec nr 14%nat) as [->|]; [split; [lia|by apply (G 14%nat ltac:(lia))]|].
  do 15 (destruct nr as [|nr]; [first [lia|split; [done|lia]]|]). split; [done|lia].
Qed.

Lemma aes_setenckey_rounds_witness :
  length (replicate 60 0) = 60%nat /\ exists rk,
  aes_setenckey (replicate 60 0) (replicate 16 5) 10 = Ok rk /\ length rk = 60%nat.
Proof.
  split; [reflexivity|]. eexists. split; [reflexivity|].
  exact (proj2 (aes_setenckey_rounds (replicate 60 0) (replicate 16 5) 10 eq_refl)).
Defined.

(** The non-bit-sliced schedule [br_aes_ct_keysched_stdenc] is the standard
    key expansion, word for word in little-endian order. *)
Theorem keysched_stdenc_is_fips197 (key : list Z) (nr : nat)
    (Hlen : key_rounds (length key) = Some nr) (Hkey : bytes key) :
  br_aes_ct_keysched_stdenc key (length key) =
  (nr, map le32dec (key_expansion (length key / 4) nr key)).
Proof.
  unfold br_aes_ct_keysched_stdenc. rewrite Hlen.
  destruct (key_sizes key _ nr Hlen eq_refl) as (H1 & H2 & H3 & H4).
  destruct (sched_words_spec 1 (length key / 4) key ltac:(lia) H1 H2 Hkey nr H3 H4) as [-> _].
  reflexivity.
Qed.

Lemma keysched_stdenc_is_fips197_witness :
  br_aes_ct_keysched_stdenc (map Z.of_nat (seq 0 24)) 24 =
  (12%nat, map le32dec (key_expansion 6 12 (map Z.of_nat (seq 0 24)))).
Proof.
  apply (keysched_stdenc_is_fips197 (map Z.of_nat (seq 0 24)) 12).
  - reflexivity.
  - apply (bool_decide_unpack _). vm_compute. exact I.
Defined.
