(* ===== verification/Mbuf.v ===== *)
(** * Packet buffers: port/net/embox/bsd_mbuf.c and compat/netbsd/sys/mbuf.h

    A [struct mbuf *] is the chain it heads, a list of mbufs ([[]] is NULL);
    every mbuf owns one cluster, and [m_data] is an offset into it.  Memory
    comes from a heap whose supply says, for each allocation to come, whether
    it fails and what the fresh memory holds; the heap also counts the mbufs
    that are live.  [m_append] of net80211/ieee80211_netbsd.c is here too. *)

From S2P Require Import Prelude.

(** ** Constants and records of sys/mbuf.h *)

Definition MCLBYTES : nat := 4096.
Definition MLEN : nat := 224.
Definition MH_ALIGN : nat := 256.
Definition cluster_size : nat := MCLBYTES + MH_ALIGN.

Definition M_EXT : Z := 0x000001.
Definition M_PKTHDR : Z := 0x000002.
Definition M_MCAST : Z := 0x000004.
Definition M_LINK0 : Z := 0x000010.
Definition M_BCAST : Z := 0x000800.
Definition MT_DATA : Z := 1.

Record m_pkthdr := mkPkthdr {
  ph_len : Z;
  ph_rcvif : Z;
  ph_csum_data : Z;
  ph_csum_flags : Z;
  ph_userdata : Z;
}.

Record mbuf := mkMbuf {
  m_flags : Z;
  m_data : nat;
  m_len : nat;
  m_type : Z;
  m_hdr : m_pkthdr;
  m_cluster : list Z;
}.
Abbreviation chain := (list mbuf) (only parsing).

Definition has_pkthdr (m : mbuf) : bool := negb (Z.land (m_flags m) M_PKTHDR =? 0).

Definition set_window (m : mbuf) (data len : nat) : mbuf :=
  mkMbuf (m_flags m) data len (m_type m) (m_hdr m) (m_cluster m).
Definition set_flags (m : mbuf) (f : Z) : mbuf :=
  mkMbuf f (m_data m) (m_len m) (m_type m) (m_hdr m) (m_cluster m).
Definition set_hdr (m : mbuf) (h : m_pkthdr) : mbuf :=
  mkMbuf (m_flags m) (m_data m) (m_len m) (m_type m) h (m_cluster m).
Definition set_cluster (m : mbuf) (c : list Z) : mbuf :=
  mkMbuf (m_flags m) (m_data m) (m_len m) (m_type m) (m_hdr m) c.
Definition with_ph_len (h : m_pkthdr) (n : Z) : m_pkthdr :=
  mkPkthdr n (ph_rcvif h) (ph_csum_data h) (ph_csum_flags h) (ph_userdata h).
Definition set_ph_len (m : mbuf) (n : Z) : mbuf := set_hdr m (with_ph_len (m_hdr m) n).

(** [M_LEADINGSPACE], [M_TRAILINGSPACE]. *)
Definition M_LEADINGSPACE (m : mbuf) : Z := Z.of_nat (m_data m).
Definition M_TRAILINGSPACE (m : mbuf) : Z :=
  Z.of_nat (length (m_cluster m)) - Z.of_nat (m_data m + m_len m).

(** The bytes of an mbuf and of a packet. *)
Definition mdata (m : mbuf) : list Z := sub_list (m_data m) (m_len m) (m_cluster m).
Definition content (c : chain) : list Z := flat_map mdata c.

(** ** The heap *)

Record heap := mkHeap {
  h_supply : list (option (list Z));  (* what sysmalloc will return *)
  h_live : Z;                         (* mbufs allocated and not freed *)
}.

Definition sysmalloc (h : heap) : option (list Z) * heap :=
  match h_supply h with
  | Some mem :: rest => (Some mem, mkHeap rest (h_live h + 1))
  | None :: rest => (None, mkHeap rest (h_live h))
  | [] => (None, h)
  end.
Definition sysfree (h : heap) : heap := mkHeap (h_supply h) (h_live h - 1).

(** ** Allocation and release *)

(** Cut or pad fresh memory to the cluster size. *)
Definition fresh_cluster (mem : list Z) : list Z :=
  take cluster_size (map u8 mem) ++ replicate (cluster_size - length mem) 0.

Definition m_get_impl (h : heap) (type : Z) (pkthdr : bool) : option mbuf * heap :=
  match sysmalloc h with
  | (None, h) => (None, h)
  | (Some mem, h) =>
      (Some (mkMbuf (Z.lor (if pkthdr then M_PKTHDR else 0) M_EXT)
                    (if pkthdr then MH_ALIGN else 0%nat) 0 type
                    (mkPkthdr 0 0 0 0 0) (fresh_cluster mem)), h)
  end.
Definition m_getcl_impl := m_get_impl.

(** The head mbuf is freed; the rest of the chain is not touched. *)
Definition m_free_impl (h : heap) (m : chain) : heap :=
  match m with
  | [] => h
  | _ :: _ => sysfree h
  end.

Fixpoint m_freem (h : heap) (m : chain) : heap :=
  match m with
  | [] => h
  | _ :: next => m_freem (sysfree h) next
  end.

(** ** Trimming *)

Fixpoint chain_len (m : chain) : nat :=
  match m with [] => 0%nat | m :: rest => (m_len m + chain_len rest)%nat end.

(** [while (len > 0 && m != NULL)]. *)
Fixpoint adj_head (len : nat) (m : chain) : chain :=
  match m with
  | [] => []
  | x :: rest =>
      if (len =? 0)%nat then x :: rest
      else if (m_len x <=? len)%nat
      then set_window x (m_data x + m_len x) 0 :: adj_head (len - m_len x) rest
      else set_window x (m_data x + len) (m_len x - len) :: rest
  end.

(** The second loop of the tail branch. *)
Fixpoint adj_tail (count : nat) (m : chain) : chain :=
  match m with
  | [] => []
  | x :: rest =>
      let x := if (count <? m_len x)%nat then set_window x (m_data x) count else x in
      x :: adj_tail (count - m_len x) rest
  end.

Definition sync_pkthdr (m : chain) : chain :=
  match m with
  | [] => []
  | x :: rest =>
      (if has_pkthdr x then set_ph_len x (Z.of_nat (chain_len (x :: rest))) else x) :: rest
  end.

Definition m_adj (mp : chain) (req_len : Z) : chain :=
  sync_pkthdr
    (if 0 <=? req_len then adj_head (Z.to_nat req_len) mp
     else let len := Z.to_nat (- req_len) in
          let count := chain_len mp in
          let count := if (len <? count)%nat then (count - len)%nat else 0%nat in
          adj_tail count mp).

(** ** Copying in and out *)

(** [while (off > 0 && m != NULL)]: skip whole mbufs. *)
Fixpoint copy_skip (m : chain) (off : nat) : chain * nat :=
  match m with
  | [] => ([], off)
  | x :: rest =>
      if (off =? 0)%nat then (m, off)
      else if (off <? m_len x)%nat then (m, off)
      else copy_skip rest (off - m_len x)
  end.

(** [while (len > 0 && m != NULL)]. *)
Fixpoint copy_take (m : chain) (off len : nat) : list Z :=
  match m with
  | [] => []
  | x :: rest =>
      if (len =? 0)%nat then []
      else
        let taken := if (m_len x - off <? len)%nat then (m_len x - off)%nat else len in
        sub_list (m_data x + off) taken (m_cluster x) ++ copy_take rest 0 (len - taken)
  end.

(** The bytes stored at [cp]; fewer than [len] after a short read. *)
Definition m_copydata (m : chain) (off len : nat) : list Z :=
  let '(m, off) := copy_skip m off in copy_take m off len.

(** The loop of [m_copyback]; [cp] holds the bytes still to be stored. *)
Fixpoint copyback_loop (m : chain) (off : nat) (cp : list Z) : chain :=
  match m with
  | [] => []
  | n :: rest =>
      if (length cp =? 0)%nat then m
      else if (m_len n <=? off)%nat then n :: copyback_loop rest (off - m_len n) cp
      else
        let taken := if (m_len n - off <? length cp)%nat then (m_len n - off)%nat else length cp in
        set_cluster n (splice (m_data n + off) (take taken cp) (m_cluster n))
        :: copyback_loop rest 0 (drop taken cp)
  end.

Definition m_copyback (m : chain) (off : nat) (cp : list Z) : option errno * chain :=
  if (chain_len m <? off + length cp)%nat then (Some ENOBUFS, m)
  else (None, copyback_loop m off cp).

(** ** Reshaping *)

Definition m_move_pkthdr (to from : mbuf) : mbuf * mbuf :=
  (set_hdr (set_flags to (Z.lor (Z.land (m_flags to) (Z.lnot M_PKTHDR))
                                (Z.land (m_flags from) M_PKTHDR))) (m_hdr from),
   set_flags from (Z.land (m_flags from) (Z.lnot M_PKTHDR))).

(** [while (m != NULL && m->m_len == 0)]: free the emptied mbufs. *)
Fixpoint free_empty (h : heap) (m : chain) : heap * chain :=
  match m with
  | x :: rest => if (m_len x =? 0)%nat then free_empty (sysfree h) rest else (h, m)
  | [] => (h, [])
  end.

Definition m_pullup (h : heap) (m : chain) (len : Z) : chain * heap :=
  match m with
  | [] => ([], h)
  | x :: rest =>
      if (len <? 0) || (Z.of_nat (MCLBYTES - MH_ALIGN) <? len) then ([], m_freem h m)
      else if len <=? Z.of_nat (m_len x) then (m, h)
      else if Z.of_nat (chain_len m) <? len then ([], m_freem h m)
      else
        match m_get_impl h (m_type x) (has_pkthdr x) with
        | (None, h) => ([], m_freem h m)
        | (Some head, h) =>
            let '(head, x) := if has_pkthdr x then m_move_pkthdr head x else (head, x) in
            let n := Z.to_nat len in
            let head := set_cluster head
                          (splice (m_data head) (m_copydata (x :: rest) 0 n) (m_cluster head)) in
            let head := set_window head (m_data head) n in
            let '(h, m) := free_empty h (m_adj (x :: rest) len) in
            (head :: m, h)
        end
  end.

Definition m_prepend (h : heap) (m : chain) (len : Z) : chain * heap :=
  match m with
  | [] => ([], m_freem h [])
  | x :: rest =>
      if (len <? 0) || (Z.of_nat (MCLBYTES - MH_ALIGN) <? len) then ([], m_freem h m)
      else
        let n := Z.to_nat len in
        if len <=? M_LEADINGSPACE x then
          let x := set_window x (m_data x - n) (m_len x + n) in
          let x := if has_pkthdr x then set_ph_len x (ph_len (m_hdr x) + len) else x in
          (x :: rest, h)
        else
          match m_get_impl h (m_type x) (has_pkthdr x) with
          | (None, h) => ([], m_freem h m)
          | (Some y, h) =>
              let y := set_window y (m_data y) n in
              let '(y, x) :=
                if has_pkthdr x then
                  let '(y, x) := m_move_pkthdr y x in (set_ph_len y (ph_len (m_hdr y) + len), x)
                else (y, x) in
              (y :: x :: rest, h)
          end
  end.

(** [m] is dereferenced at once, so it must not be NULL. *)
Fixpoint m_cat (m n : chain) : res chain :=
  match m with
  | [] => Fault NullDeref
  | [x] => Ok ((if has_pkthdr x
                then set_ph_len x (ph_len (m_hdr x) + Z.of_nat (chain_len n)) else x) :: n)
  | x :: rest => let* c := m_cat rest n in Ok (x :: c)
  end.

Definition m_align (m : chain) (len : Z) : chain :=
  match m with
  | [] => []
  | x :: rest =>
      if len <? 0 then m
      else set_window x (if has_pkthdr x then MH_ALIGN else 0%nat) (Z.to_nat len) :: rest
  end.

Definition m_copypacket (h : heap) (m : chain) : chain * heap :=
  match m with
  | [] =>
      match m_get_impl h MT_DATA false with
      | (None, h) => ([], h)
      | (Some n, h) => ([], m_freem h [n])
      end
  | x :: _ =>
      match m_get_impl h (m_type x) (has_pkthdr x) with
      | (None, h) => ([], h)
      | (Some n, h) =>
          let n := set_flags n (Z.lor (m_flags n) (Z.land (m_flags x) (Z.lor M_BCAST M_MCAST))) in
          let n := set_cluster n (splice 0 (m_cluster x) (m_cluster n)) in
          let n := set_window n (m_data x) (m_len x) in
          let n := if has_pkthdr x then set_ph_len n (ph_len (m_hdr x)) else n in
          ([n], h)
      end
  end.

(** Nothing to do: clusters are private and writable. *)
Definition m_makewritable (m : chain) : option errno * chain := (None, m).

(** ** m_append (ieee80211_netbsd.c) *)

(** [while (remainder > 0)]: the new mbufs and the bytes left over.  Each
    round stores at least one byte, so [length cp] rounds are enough. *)
Fixpoint append_loop (fuel : nat) (h : heap) (type : Z) (cp : list Z) : chain * list Z * heap :=
  match fuel with
  | O => ([], cp, h)
  | S fuel =>
      if (length cp =? 0)%nat then ([], cp, h)
      else
        match m_get_impl h type false with
        | (None, h) => ([], cp, h)
        | (Some n, h) =>
            let l := Nat.min MLEN (length cp) in
            let n := set_cluster (set_window n (m_data n) l)
                       (splice (m_data n) (take l cp) (m_cluster n)) in
            let '(ms, rem, h) := append_loop fuel h (m_type n) (drop l cp) in
            (n :: ms, rem, h)
        end
  end.

(** Copy into the last mbuf, then extend the chain. *)
Fixpoint append_last (h : heap) (m : chain) (cp : list Z) : chain * list Z * heap :=
  match m with
  | [] => ([], cp, h)
  | [x] =>
      let space := M_TRAILINGSPACE x in
      let space := if 0 <? space then Nat.min (Z.to_nat space) (length cp) else 0%nat in
      let x := set_window (set_cluster x
                 (splice (m_data x + m_len x) (take space cp) (m_cluster x)))
                 (m_data x) (m_len x + space) in
      let cp := drop space cp in
      let '(ms, rem, h) := append_loop (length cp) h (m_type x) cp in
      (x :: ms, rem, h)
  | x :: rest =>
      let '(c, rem, h) := append_last h rest cp in (x :: c, rem, h)
  end.

Definition m_append (h : heap) (m0 : chain) (cp : list Z) : res (bool * chain * heap) :=
  match append_last h m0 cp with
  | ([], _, _) => Fault NullDeref
  | (x :: c, rem, h) =>
      let x := if has_pkthdr x
               then set_ph_len x (ph_len (m_hdr x) + Z.of_nat (length cp - length rem)) else x in
      Ok ((length rem =? 0)%nat, x :: c, h)
  end.
