(* ===== verification/MbufProof.v ===== *)
(** * Packet buffers: proofs

    Well-formed chains, the bytes each operation leaves in the packet, the
    packet-header length, and the balance of allocations and frees. *)

From S2P Require Import Prelude Buffers Mbuf.

(** ** Invariants *)

(** The window of an mbuf lies inside its cluster. *)
Definition mwf (m : mbuf) : Prop :=
  length (m_cluster m) = cluster_size /\ (m_data m + m_len m <= cluster_size)%nat /\
  bytes (m_cluster m).
Definition cwf (c : list mbuf) : Prop := Forall mwf c.

(** The head's packet-header length is the number of bytes in the chain. *)
Definition hdr_sync (c : list mbuf) : Prop :=
  match c with
  | [] => True
  | x :: _ => has_pkthdr x = true -> ph_len (m_hdr x) = Z.of_nat (length (content c))
  end.

Lemma length_mdata m : mwf m -> length (mdata m) = m_len m.
Proof. intros (? & ? & ?). unfold mdata. apply length_sub_list. lia. Qed.
Lemma mdata_bytes m : mwf m -> bytes (mdata m).
Proof. intros (? & ? & ?). unfold mdata. auto with urange. Qed.
Lemma length_content c : cwf c -> length (content c) = chain_len c.
Proof.
  induction 1 as [|x c Hx Hc IH]; [done|]. cbn [content flat_map chain_len].
  rewrite length_app, length_mdata by done. fold (content c). lia.
Qed.
Lemma content_bytes c : cwf c -> bytes (content c).
Proof.
  induction 1 as [|x c Hx Hc IH]; [constructor|]. cbn. apply bytes_app. auto using mdata_bytes.
Qed.

Lemma content_cons x c : content (x :: c) = mdata x ++ content c.
Proof. done. Qed.
Lemma content_app c d : content (c ++ d) = content c ++ content d.
Proof. apply flat_map_app. Qed.

(** ** m_adj *)

Lemma mdata_trim m k :
  (k <= m_len m)%nat -> mdata (set_window m (m_data m + k) (m_len m - k)) = drop k (mdata m).
Proof. intros. unfold mdata, set_window; cbn. list_solve. Qed.
Lemma mdata_cut m k :
  (k <= m_len m)%nat -> mdata (set_window m (m_data m) k) = take k (mdata m).
Proof. intros. unfold mdata, set_window; cbn. list_solve. Qed.
Lemma mwf_window m d n :
  mwf m -> (d + n <= cluster_size)%nat -> mwf (set_window m d n).
Proof. intros (? & ? & ?) ?. by split_and!. Qed.

Lemma adj_head_spec n c :
  cwf c -> content (adj_head n c) = drop n (content c) /\ cwf (adj_head n c).
Proof.
  intros Hc. revert n. induction Hc as [|x c Hx Hc IH]; intros n; cbn [adj_head].
  { split; [symmetry; apply drop_nil|constructor]. }
  pose proof (length_mdata x Hx) as Hl. pose proof Hx as (? & ? & ?).
  case_match eqn:E0; [apply Nat.eqb_eq in E0; subst; split; [done|by constructor]|].
  case_match eqn:E1.
  - apply Nat.leb_le in E1. destruct (IH (n - m_len x)%nat) as [E W]. split.
    + rewrite !content_cons, E. unfold mdata at 1; cbn. list_solve.
    + constructor; [apply mwf_window; [done|lia]|done].
  - apply Nat.leb_gt in E1. split.
    + rewrite !content_cons, mdata_trim by lia. list_solve.
    + constructor; [apply mwf_window; [done|lia]|done].
Qed.

Lemma adj_tail_spec n c :
  cwf c -> content (adj_tail n c) = take n (content c) /\ cwf (adj_tail n c).
Proof.
  intros Hc. revert n. induction Hc as [|x c Hx Hc IH]; intros n; cbn [adj_tail].
  { split; [symmetry; apply take_nil|constructor]. }
  pose proof (length_mdata x Hx) as Hl. pose proof Hx as (? & ? & ?).
  case_match eqn:E1.
  - apply Nat.ltb_lt in E1. cbn [m_len set_window]. destruct (IH (n - n)%nat) as [E W]. split.
    + rewrite !content_cons, E, mdata_cut by lia. list_solve.
    + constructor; [apply mwf_window; [done|lia]|done].
  - apply Nat.ltb_ge in E1. destruct (IH (n - m_len x)%nat) as [E W]. split.
    + rewrite !content_cons, E. list_solve.
    + by constructor.
Qed.

Lemma sync_content c : content (sync_pkthdr c) = content c.
Proof. destruct c as [|x c]; [done|]. cbn [sync_pkthdr]. by case_match. Qed.
Lemma sync_cwf c : cwf c -> cwf (sync_pkthdr c).
Proof. intros Hc. destruct Hc; cbn [sync_pkthdr]; [constructor|]. constructor; [by case_match|done]. Qed.
Lemma sync_hdr c : cwf c -> hdr_sync (sync_pkthdr c).
Proof.
  intros Hc. destruct c as [|x c]; [done|]. unfold sync_pkthdr, hdr_sync.
  destruct (has_pkthdr x) eqn:E; intros Hh; [|congruence].
  rewrite content_cons. change (mdata (set_ph_len x _)) with (mdata x). cbn [set_ph_len set_hdr m_hdr with_ph_len ph_len].
  by rewrite <- content_cons, length_content.
Qed.

(** What [m_adj] leaves: drop from the head or from the tail. *)
Definition adj_spec (l : list Z) (req : Z) : list Z :=
  if 0 <=? req then drop (Z.to_nat req) l else take (length l - Z.to_nat (- req)) l.

Lemma m_adj_spec c req :
  cwf c ->
  content (m_adj c req) = adj_spec (content c) req /\ cwf (m_adj c req) /\ hdr_sync (m_adj c req).
Proof.
  intros Hc. unfold m_adj, adj_spec. case_match eqn:E.
  - destruct (adj_head_spec (Z.to_nat req) c Hc) as [E1 W].
    rewrite sync_content, E1. auto using sync_cwf, sync_hdr.
  - match goal with |- context [adj_tail ?k c] => set (n := k) end. destruct (adj_tail_spec n c Hc) as [E1 W].
    rewrite sync_content, E1. split; [|auto using sync_cwf, sync_hdr].
    f_equal. rewrite length_content by done. unfold n. case_match eqn:E2; [done|].
    apply Nat.ltb_ge in E2. lia.
Qed.

(** ** m_copydata and m_copyback *)

Lemma copy_skip_spec c off len :
  cwf c ->
  let '(c', off') := copy_skip c off in
  cwf c' /\ sub_list off' len (content c') = sub_list off len (content c) /\
  match c' with [] => True | x :: _ => off' = 0%nat \/ (off' < m_len x)%nat end.
Proof.
  intros Hc. revert off. induction Hc as [|x c Hx Hc IH]; intros off; cbn [copy_skip].
  { refine (conj _ (conj _ _)); [constructor|done|done]. }
  pose proof (length_mdata x Hx) as Hl.
  destruct (off =? 0)%nat eqn:E0; [apply Nat.eqb_eq in E0; refine (conj _ (conj _ _)); [by constructor|done|by left]|].
  destruct (off <? m_len x)%nat eqn:E1; [apply Nat.ltb_lt in E1; refine (conj _ (conj _ _)); [by constructor|done|by right]|].
  apply Nat.ltb_ge in E1. specialize (IH (off - m_len x)%nat).
  destruct (copy_skip c (off - m_len x)) as [c' off']. destruct IH as (? & E & ?).
  split_and!; [done| |done]. rewrite E, content_cons. list_solve.
Qed.

Lemma copy_take_spec c off len :
  cwf c -> match c with [] => True | x :: _ => off = 0%nat \/ (off < m_len x)%nat end ->
  copy_take c off len = sub_list off len (content c).
Proof.
  intros Hc. revert off len. induction Hc as [|x c Hx Hc IH]; intros off len Ho; cbn [copy_take].
  { unfold sub_list, content. cbn [flat_map]. by rewrite drop_nil, take_nil. }
  pose proof (length_mdata x Hx) as Hl. pose proof Hx as (? & ? & ?).
  destruct (len =? 0)%nat eqn:E0; [apply Nat.eqb_eq in E0; subst; done|].
  rewrite IH by (destruct c; auto). rewrite content_cons. unfold mdata.
  destruct (m_len x - off <? len)%nat eqn:E1; [apply Nat.ltb_lt in E1|apply Nat.ltb_ge in E1];
    list_solve.
Qed.

Lemma m_copydata_spec c off len :
  cwf c -> m_copydata c off len = sub_list off len (content c).
Proof.
  intros Hc. unfold m_copydata. pose proof (copy_skip_spec c off len Hc) as H.
  destruct (copy_skip c off) as [c' off']. destruct H as (? & <- & ?). by apply copy_take_spec.
Qed.

Lemma mdata_store m off new :
  mwf m -> (off + length new <= m_len m)%nat ->
  mdata (set_cluster m (splice (m_data m + off) new (m_cluster m))) = splice off new (mdata m).
Proof.
  intros (? & ? & ?) ?. unfold mdata, set_cluster; cbn [m_data m_len m_cluster].
  list_solve.
Qed.
Lemma mwf_store m off new :
  mwf m -> (off + length new <= length (m_cluster m))%nat -> bytes new ->
  mwf (set_cluster m (splice off new (m_cluster m))).
Proof.
  intros (? & ? & ?) ? ?. split_and!; cbn [m_data m_len m_cluster set_cluster].
  - by rewrite length_splice.
  - done.
  - auto with urange.
Qed.

Lemma copyback_loop_spec c off cp :
  cwf c -> bytes cp -> (off + length cp <= chain_len c)%nat ->
  content (copyback_loop c off cp) = splice off cp (content c) /\ cwf (copyback_loop c off cp) /\
  map m_len (copyback_loop c off cp) = map m_len c /\
  map m_flags (copyback_loop c off cp) = map m_flags c /\
  map m_hdr (copyback_loop c off cp) = map m_hdr c.
Proof.
  intros Hc. revert off cp. induction Hc as [|x c Hx Hc IH]; intros off cp Hcp Hle; cbn [copyback_loop].
  { cbn in Hle. destruct cp; [|cbn in Hle; lia]. split_and!; [|constructor|done..].
    by rewrite splice_nil. }
  cbn [chain_len] in Hle. pose proof (length_mdata x Hx) as Hl. pose proof Hx as (? & ? & ?).
  pose proof (length_content c Hc) as Hlc.
  case_match eqn:E0.
  { apply Nat.eqb_eq, nil_length_inv in E0. subst. split_and!; [|by constructor|done..].
    by rewrite splice_nil. }
  rewrite content_cons. case_match eqn:E1.
  - apply Nat.leb_le in E1. destruct (IH (off - m_len x)%nat cp Hcp) as (E & W & L & F & G); [lia|].
    cbn [map]. rewrite L, F, G. split_and!; [|by constructor|done..].
    rewrite content_cons, E. list_solve.
  - apply Nat.leb_gt in E1.
    set (t := if (m_len x - off <? length cp)%nat then (m_len x - off)%nat else length cp).
    assert (Ht : t = Nat.min (m_len x - off) (length cp)).
    { unfold t. case_match eqn:E2; [apply Nat.ltb_lt in E2|apply Nat.ltb_ge in E2]; lia. }
    clearbody t. destruct (IH 0%nat (drop t cp)) as (E & W & L & F & G);
      [auto with urange|rewrite length_drop; lia|].
    cbn [map]. rewrite L, F, G. split_and!; [| |done..].
    + rewrite content_cons, E, mdata_store by (done || list_lia). list_solve.
    + constructor; [|done]. apply mwf_store; [done|list_lia|auto with urange].
Qed.

(** ** Allocation and packet headers *)

Lemma fresh_cluster_wf mem : length (fresh_cluster mem) = cluster_size /\ bytes (fresh_cluster mem).
Proof.
  unfold fresh_cluster. split; [list_lia|]. apply bytes_app. split.
  - apply bytes_take, Forall_map, List.Forall_forall. intros; apply u8_range.
  - apply Forall_replicate. unfold is_u; lia.
Qed.

Lemma m_get_impl_spec h type p :
  match m_get_impl h type p with
  | (Some m, h') =>
      mwf m /\ m_len m = 0%nat /\ m_data m = (if p then MH_ALIGN else 0%nat) /\
      has_pkthdr m = p /\ m_type m = type /\ ph_len (m_hdr m) = 0 /\ h_live h' = h_live h + 1
  | (None, h') => h_live h' = h_live h
  end.
Proof.
  unfold m_get_impl, sysmalloc. destruct (h_supply h) as [|[mem|] rest]; [done| |done].
  destruct (fresh_cluster_wf mem) as [Hl Hb].
  split_and!; cbn [m_len m_data m_cluster m_type m_hdr ph_len m_flags h_live]; try done.
  - split_and!; cbn [m_len m_data m_cluster]; [done| |done].
    destruct p; unfold cluster_size, MCLBYTES, MH_ALIGN; lia.
  - by destruct p.
Qed.

Lemma pkthdr_moved a b :
  Z.land (Z.lor (Z.land a (Z.lnot M_PKTHDR)) (Z.land b M_PKTHDR)) M_PKTHDR = Z.land b M_PKTHDR.
Proof.
  apply Z.bits_inj'; intros i Hi. rewrite !Z.land_spec, Z.lor_spec, !Z.land_spec, Z.lnot_spec by lia.
  by destruct (Z.testbit a i), (Z.testbit b i), (Z.testbit M_PKTHDR i).
Qed.
Lemma pkthdr_cleared a : Z.land (Z.land a (Z.lnot M_PKTHDR)) M_PKTHDR = 0.
Proof.
  apply Z.bits_inj'; intros i Hi. rewrite !Z.land_spec, Z.lnot_spec, Z.bits_0 by lia.
  by destruct (Z.testbit a i), (Z.testbit M_PKTHDR i).
Qed.

Lemma m_move_pkthdr_spec to from :
  let '(to', from') := m_move_pkthdr to from in
  has_pkthdr to' = has_pkthdr from /\ m_hdr to' = m_hdr from /\ has_pkthdr from' = false /\
  mdata to' = mdata to /\ mdata from' = mdata from /\ (mwf to -> mwf to') /\ (mwf from -> mwf from') /\
  m_data to' = m_data to /\ m_len from' = m_len from /\ m_len to' = m_len to.
Proof.
  unfold m_move_pkthdr, has_pkthdr. cbn [m_flags m_hdr set_hdr set_flags].
  rewrite pkthdr_moved, pkthdr_cleared. by split_and!.
Qed.

Lemma m_freem_live h c : h_live (m_freem h c) = h_live h - Z.of_nat (length c).
Proof.
  revert h. induction c as [|x c IH]; intros h; cbn [m_freem length]; [lia|].
  rewrite IH. cbn. lia.
Qed.

Lemma free_empty_spec h c :
  let '(h', c') := free_empty h c in
  content c' = content c /\ (cwf c -> cwf c') /\
  h_live h' - Z.of_nat (length c') = h_live h - Z.of_nat (length c).
Proof.
  revert h. induction c as [|x c IH]; intros h; cbn [free_empty]; [done|].
  destruct (m_len x =? 0)%nat eqn:E; [|done].
  apply Nat.eqb_eq in E. specialize (IH (sysfree h)).
  destruct (free_empty (sysfree h) c) as [h' c']. destruct IH as (Ec & W & L).
  split_and!.
  - rewrite Ec, content_cons. unfold mdata. by rewrite E.
  - intros Hc. apply W. by inversion Hc.
  - cbn [sysfree h_live length] in *. lia.
Qed.

Lemma m_adj_length c n : length (m_adj c n) = length c.
Proof.
  assert (S : forall c, length (sync_pkthdr c) = length c) by (intros [|]; done).
  assert (H : forall c n, length (adj_head n c) = length c).
  { clear. intros c. induction c as [|x c IH]; intros n; cbn [adj_head]; [done|].
    repeat case_match; cbn [length]; auto. }
  assert (T : forall c n, length (adj_tail n c) = length c).
  { clear. intros c. induction c as [|x c IH]; intros n; cbn [adj_tail length]; auto. }
  unfold m_adj. rewrite S. case_match; auto.
Qed.

(** ** m_prepend and m_pullup

    A chain operation that may fail keeps the heap balanced: what is live and
    not in the returned chain does not change. *)
Definition balanced (h h' : heap) (c c' : list mbuf) : Prop :=
  h_live h' - Z.of_nat (length c') = h_live h - Z.of_nat (length c).

Definition pkt_ok (c : list mbuf) : Prop := cwf c /\ hdr_sync c.

Lemma mdata_lead m n :
  mwf m -> (n <= m_data m)%nat ->
  mdata (set_window m (m_data m - n) (m_len m + n)) =
  sub_list (m_data m - n) n (m_cluster m) ++ mdata m.
Proof. intros (? & ? & ?) ?. unfold mdata, set_window; cbn [m_data m_len m_cluster]. list_solve. Qed.

Lemma pkt_ok_ph x c : pkt_ok (x :: c) -> has_pkthdr x = true ->
  ph_len (m_hdr x) = Z.of_nat (length (content (x :: c))).
Proof. intros [_ H] E. by apply H. Qed.

(** What a successful prepend of [n] bytes to [c] gives. *)
Definition prepended (n : nat) (c c' : list mbuf) : Prop :=
  exists x rest pre, c' = x :: rest /\ length pre = n /\ content c' = pre ++ content c /\
    (n <= m_len x)%nat.

(** The first mbuf has room in front of its data. *)
Lemma prepend_in_place x c n :
  pkt_ok (x :: c) -> (n <= m_data x)%nat ->
  let y := set_window x (m_data x - n) (m_len x + n) in
  let z := if has_pkthdr y then set_ph_len y (ph_len (m_hdr y) + Z.of_nat n) else y in
  pkt_ok (z :: c) /\ prepended n (x :: c) (z :: c).
Proof.
  intros Hok Hn y z. pose proof Hok as [Hc Hs]. inversion_clear Hc as [|? ? Hx Hr].
  assert (Ey : mdata z = sub_list (m_data x - n) n (m_cluster x) ++ mdata x).
  { transitivity (mdata y); [unfold z; by case_match|by apply mdata_lead]. }
  assert (Hp : length (sub_list (m_data x - n) n (m_cluster x)) = n).
  { destruct Hx as (? & ? & ?). rewrite length_sub_list; [done|lia]. }
  assert (Hz : mwf z).
  { assert (mwf y) by (destruct Hx as (? & ? & ?); apply mwf_window; [by split_and!|lia]).
    unfold z. by case_match. }
  split.
  - split; [by constructor|]. intros E.
    assert (E' : has_pkthdr x = true) by (revert E; unfold z; by case_match).
    change (has_pkthdr y) with (has_pkthdr x) in z.
    rewrite content_cons, Ey, <- app_assoc, length_app, Hp, <- content_cons.
    pose proof (pkt_ok_ph x c Hok E') as Hl. unfold z. rewrite E'.
    change (ph_len (m_hdr x) + Z.of_nat n = Z.of_nat (n + length (content (x :: c)))). lia.
  - eexists _, _, _. split_and!; [done|exact Hp| |].
    + by rewrite content_cons, Ey, <- app_assoc, <- content_cons.
    + unfold z. case_match; cbn [m_len set_ph_len set_hdr y set_window]; lia.
Qed.

(** A new mbuf [y] of [n] bytes goes in front and takes the packet header. *)
Lemma prepend_fresh x c y n :
  pkt_ok (x :: c) -> mwf y -> m_len y = n -> has_pkthdr y = has_pkthdr x ->
  let '(y', x') :=
    if has_pkthdr x then
      let '(y, x) := m_move_pkthdr y x in (set_ph_len y (ph_len (m_hdr y) + Z.of_nat n), x)
    else (y, x) in
  pkt_ok (y' :: x' :: c) /\ prepended n (x :: c) (y' :: x' :: c).
Proof.
  intros Hok Wy Ly Py. pose proof Hok as [Hc Hs]. inversion_clear Hc as [|? ? Hx Hr].
  pose proof (length_mdata y Wy) as Hl.
  pose proof (m_move_pkthdr_spec y x) as M. destruct (m_move_pkthdr y x) as [y2 x2].
  destruct M as (P2 & H2 & P3 & D2 & D3 & W2 & W3 & _ & _ & L2).
  destruct (has_pkthdr x) eqn:E.
  - assert (Ec : content (set_ph_len y2 (ph_len (m_hdr y2) + Z.of_nat n) :: x2 :: c) =
                 mdata y ++ content (x :: c)).
    { rewrite !content_cons. change (mdata (set_ph_len y2 _)) with (mdata y2). by rewrite D2, D3. }
    split.
    + split; [constructor; [by apply W2|constructor; auto]|]. intros _. rewrite Ec.
      change (ph_len (m_hdr (set_ph_len y2 _))) with (ph_len (m_hdr y2) + Z.of_nat n).
      rewrite H2, (pkt_ok_ph x c Hok E), length_app. lia.
    + eexists _, _, (mdata y). split_and!; [done|lia|done|]. cbn [m_len set_ph_len set_hdr]. lia.
  - split.
    + split; [constructor; [done|by constructor]|]. intros E'. congruence.
    + eexists _, _, (mdata y). split_and!; [done|lia|done|lia].
Qed.

Lemma m_freem_balanced h k c : h_live k = h_live h -> balanced h (m_freem k c) c [].
Proof. intros E. unfold balanced. rewrite m_freem_live. cbn. lia. Qed.
Lemma pkt_ok_nil : pkt_ok [].
Proof. by split; [constructor|]. Qed.

Lemma m_prepend_spec h c len c' h' :
  pkt_ok c -> m_prepend h c len = (c', h') ->
  pkt_ok c' /\ balanced h h' c c' /\ (c' <> [] -> 0 <= len /\ prepended (Z.to_nat len) c c').
Proof.
  intros Hok. unfold m_prepend.
  destruct c as [|x c]; [intros [= <- <-]; split; [|split]; [done|unfold balanced; cbn; lia|done]|].
  destruct ((len <? 0) || _) eqn:Eg;
    [intros [= <- <-]; split; [|split]; [apply pkt_ok_nil|exact (m_freem_balanced h h (x :: c) eq_refl)|done]|].
  apply orb_false_iff in Eg as [Eg1 Eg2]. apply Z.ltb_ge in Eg1, Eg2.
  replace len with (Z.of_nat (Z.to_nat len)) by lia. set (n := Z.to_nat len) in *.
  assert (Hn : (n <= MCLBYTES - MH_ALIGN)%nat) by (unfold n; lia). clearbody n. clear Eg1 Eg2 len.
  rewrite ?Nat2Z.id. unfold M_LEADINGSPACE. destruct (_ <=? Z.of_nat (m_data x)) eqn:El.
  - intros [= <- <-]. destruct (prepend_in_place x c n Hok) as [? ?]; [lia|].
    split; [|split]; [done|unfold balanced; cbn [length]; lia|intros _; split; [lia|done]].
  - pose proof (m_get_impl_spec h (m_type x) (has_pkthdr x)) as G.
    destruct (m_get_impl h (m_type x) (has_pkthdr x)) as [[y|] k].
    2:{ intros [= <- <-]. split; [|split]; [apply pkt_ok_nil|exact (m_freem_balanced h k (x :: c) G)|done]. }
    destruct G as (Wy & Ly & Dy & Py & _ & _ & Lk).
    pose proof (prepend_fresh x c (set_window y (m_data y) n) n Hok) as P.
    match goal with |- context [if has_pkthdr x then ?a else (?b, x)] =>
      destruct (if has_pkthdr x then a else (b, x)) as [y' x'] end.
    intros [= <- <-].
    destruct P as [? ?]; [|done|done|].
    { apply mwf_window; [done|]. rewrite Dy. unfold cluster_size, MCLBYTES, MH_ALIGN in *.
      destruct (has_pkthdr x); lia. }
    split; [|split]; [done|unfold balanced; cbn [length]; lia|intros _; split; [lia|done]].
Qed.

(** The next allocation fails. *)
Definition exhausted (h : heap) : Prop :=
  match h_supply h with Some _ :: _ => False | _ => True end.

Lemma m_get_impl_None h type p k : m_get_impl h type p = (None, k) -> exhausted h.
Proof.
  unfold m_get_impl, sysmalloc, exhausted. by destruct (h_supply h) as [|[mem|] rest].
Qed.

(** An allocation takes one entry of the supply. *)
Lemma m_get_impl_supply h type p :
  match m_get_impl h type p with
  | (Some m, k) => exists mem, h_supply h = Some mem :: h_supply k
  | (None, k) => h_supply h = [] \/ exists rest, h_supply h = None :: rest
  end.
Proof.
  unfold m_get_impl, sysmalloc. destruct (h_supply h) as [|[mem|] rest] eqn:E; eauto.
Qed.

(** The new head of [m_pullup], holding the first [n] bytes of [x :: c]. *)
Lemma pullup_head x c y n :
  pkt_ok (x :: c) -> mwf y -> has_pkthdr y = has_pkthdr x -> (n <= chain_len (x :: c))%nat ->
  m_data y = (if has_pkthdr x then MH_ALIGN else 0%nat) -> (n <= MCLBYTES - MH_ALIGN)%nat ->
  let '(y', x') := if has_pkthdr x then m_move_pkthdr y x else (y, x) in
  let z := set_window (set_cluster y'
             (splice (m_data y') (m_copydata (x' :: c) 0 n) (m_cluster y'))) (m_data y') n in
  cwf (x' :: c) /\ content (x' :: c) = content (x :: c) /\
  mwf z /\ mdata z = take n (content (x :: c)) /\ has_pkthdr z = has_pkthdr x /\ m_len z = n /\
  (has_pkthdr x = true -> m_hdr z = m_hdr x).
Proof.
  intros [Hc Hs] Wy Py Hn Dy Hb.
  assert (Hpair : let '(y', x') := if has_pkthdr x then m_move_pkthdr y x else (y, x) in
    mwf y' /\ mwf x' /\ mdata x' = mdata x /\ m_data y' = m_data y /\ has_pkthdr y' = has_pkthdr x /\
    (has_pkthdr x = true -> m_hdr y' = m_hdr x)).
  { inversion_clear Hc. pose proof (m_move_pkthdr_spec y x) as M.
    destruct (has_pkthdr x) eqn:E; [|by split_and!]. destruct (m_move_pkthdr y x) as [y' x'].
    destruct M as (? & ? & ? & ? & ? & ? & ? & ? & ? & ?).
    refine (conj _ (conj _ (conj _ (conj _ (conj _ _))))); auto. }
  destruct (if has_pkthdr x then m_move_pkthdr y x else (y, x)) as [y' x'].
  destruct Hpair as (Wy' & Wx' & Dx & Dy' & Py' & Hh). inversion_clear Hc as [|? ? Hx Hr].
  assert (Hc' : cwf (x' :: c)) by (by constructor).
  assert (Ec : content (x' :: c) = content (x :: c)) by (by rewrite !content_cons, Dx).
  assert (Hl : length (content (x :: c)) = chain_len (x :: c)) by (apply length_content; by constructor).
  set (d := m_copydata (x' :: c) 0 n).
  assert (Hd : d = take n (content (x :: c))) by (unfold d; rewrite m_copydata_spec, Ec; done).
  assert (Hld : length d = n) by (rewrite Hd, length_take; lia).
  assert (Hbd : bytes d) by (rewrite Hd, <- Ec; apply bytes_take; by apply content_bytes).
  assert (Hfit : (m_data y' + n <= cluster_size)%nat).
  { rewrite Dy', Dy. unfold cluster_size, MCLBYTES, MH_ALIGN in *. case_match; lia. }
  cbv zeta. clearbody d. split_and!; [done|done| | |done|done|done].
  - apply mwf_window; [|done]. apply mwf_store; [done| |done]. destruct Wy' as (-> & ? & ?). lia.
  - destruct Wy' as (Hcl & ? & ?). rewrite <- Hd. unfold mdata, set_window, set_cluster.
    cbn [m_data m_len m_cluster]. list_solve.
Qed.

Lemma m_pullup_spec h c len c' h' :
  pkt_ok c -> m_pullup h c len = (c', h') ->
  pkt_ok c' /\ balanced h h' c c' /\
  match c' with
  | [] => c = [] \/ len < 0 \/ Z.of_nat (MCLBYTES - MH_ALIGN) < len \/
          Z.of_nat (chain_len c) < len \/ exhausted h
  | x :: _ => content c' = content c /\ len <= Z.of_nat (m_len x)
  end.
Proof.
  intros Hok. unfold m_pullup.
  destruct c as [|x c]; [intros [= <- <-]; split; [|split]; [done|unfold balanced; cbn; lia|by left]|].
  destruct ((len <? 0) || _) eqn:Eg.
  { intros [= <- <-]. split; [|split]; [apply pkt_ok_nil|exact (m_freem_balanced h h (x :: c) eq_refl)|].
    apply orb_true_iff in Eg as [Eg|Eg]; apply Z.ltb_lt in Eg; right; [left|right; left]; done. }
  apply orb_false_iff in Eg as [Eg1 Eg2]. apply Z.ltb_ge in Eg1, Eg2.
  destruct (len <=? Z.of_nat (m_len x)) eqn:El.
  { intros [= <- <-]. split; [done|split]; [unfold balanced; lia|]. split; [done|lia]. }
  destruct (_ <? len) eqn:Et.
  { intros [= <- <-]. split; [|split]; [apply pkt_ok_nil|exact (m_freem_balanced h h (x :: c) eq_refl)|].
    apply Z.ltb_lt in Et. do 3 right. by left. }
  pose proof (m_get_impl_spec h (m_type x) (has_pkthdr x)) as G.
  pose proof (m_get_impl_None h (m_type x) (has_pkthdr x)) as N.
  destruct (m_get_impl h (m_type x) (has_pkthdr x)) as [[y|] k].
  2:{ intros [= <- <-]. split; [|split]; [apply pkt_ok_nil|exact (m_freem_balanced h k (x :: c) G)|].
      do 4 right. by apply (N k). }
  destruct G as (Wy & _ & Dy & Py & _ & _ & Lk).
  pose proof (pullup_head x c y (Z.to_nat len) Hok Wy Py) as P.
  destruct (if has_pkthdr x then m_move_pkthdr y x else (y, x)) as [y' x'].
  destruct P as (Wc & Ec & Wz & Dz & Pz & Lz & Hz); [lia|done|lia|].
  cbv zeta in *. cbn [m_data set_cluster].
  set (z := set_window _ _ _) in *. clearbody z.
  destruct (m_adj_spec (x' :: c) len Wc) as (Ea & Wa & _).
  pose proof (free_empty_spec k (m_adj (x' :: c) len)) as FE.
  pose proof (m_adj_length (x' :: c) len) as La. set (a := m_adj (x' :: c) len) in *. clearbody a.
  destruct (free_empty k a) as [k' c2]. destruct FE as (E2 & W2 & L2). intros [= <- <-].
  assert (E : content (z :: c2) = content (x :: c)).
  { rewrite content_cons, E2, Ea, Dz, Ec. unfold adj_spec.
    replace (0 <=? len) with true by lia. apply take_drop. }
  split; [|split]; [|unfold balanced; cbn [length] in *; lia|split; [done|lia]].
  split; [constructor; [done|by apply W2]|]. intros Hp. rewrite Pz in Hp. rewrite E, Hz by done.
  by apply pkt_ok_ph.
Qed.

(** The head of the result carries the packet header if the head of the chain did. *)
Definition head_pkthdr (c : list mbuf) : bool :=
  match c with x :: _ => has_pkthdr x | [] => false end.

Lemma m_prepend_head h c len c' h' :
  m_prepend h c len = (c', h') -> c' <> [] -> head_pkthdr c' = head_pkthdr c.
Proof.
  unfold m_prepend. destruct c as [|x c]; [by intros [= <- <-]|].
  destruct (_ || _); [by intros [= <- <-]|].
  destruct (_ <=? M_LEADINGSPACE x); [intros [= <- <-] _; cbn [head_pkthdr]|].
  { by destruct (has_pkthdr (set_window _ _ _)). }
  pose proof (m_get_impl_spec h (m_type x) (has_pkthdr x)) as G.
  destruct (m_get_impl h (m_type x) (has_pkthdr x)) as [[y|] k]; [|by intros [= <- <-]].
  destruct G as (_ & _ & _ & Py & _).
  destruct (has_pkthdr x) eqn:E; [|intros [= <- <-] _; cbn [head_pkthdr]; rewrite E; exact Py].
  pose proof (m_move_pkthdr_spec (set_window y (m_data y) (Z.to_nat len)) x) as M.
  destruct (m_move_pkthdr _ x) as [y' x']. destruct M as (P & _).
  intros [= <- <-] _. cbn [head_pkthdr]. exact P.
Qed.

Lemma m_pullup_head h c len c' h' :
  m_pullup h c len = (c', h') -> c' <> [] -> head_pkthdr c' = head_pkthdr c.
Proof.
  unfold m_pullup. destruct c as [|x c]; [by intros [= <- <-]|].
  destruct (_ || _); [by intros [= <- <-]|].
  destruct (_ <=? Z.of_nat (m_len x)); [by intros [= <- <-]|].
  destruct (_ <? len); [by intros [= <- <-]|].
  pose proof (m_get_impl_spec h (m_type x) (has_pkthdr x)) as G.
  destruct (m_get_impl h (m_type x) (has_pkthdr x)) as [[y|] k]; [|by intros [= <- <-]].
  destruct G as (_ & _ & _ & Py & _).
  pose proof (m_move_pkthdr_spec y x) as M.
  destruct (has_pkthdr x) eqn:E.
  - destruct (m_move_pkthdr y x) as [y' x']. destruct M as (P & _). cbv zeta.
    destruct (free_empty k _) as [k' c2]. intros [= <- <-] _. cbn [head_pkthdr]. rewrite E. exact P.
  - cbv zeta. destruct (free_empty k _) as [k' c2]. intros [= <- <-] _. cbn [head_pkthdr]. rewrite E. exact Py.
Qed.

(** ** m_append, m_cat, m_copypacket *)

Lemma append_loop_spec fuel h type cp ms rem h' :
  (length cp <= fuel)%nat -> bytes cp -> append_loop fuel h type cp = (ms, rem, h') ->
  cwf ms /\ content ms ++ rem = cp /\ h_live h' = h_live h + Z.of_nat (length ms) /\
  Forall (fun m => m_len m <= MLEN)%nat ms /\
  (Forall is_Some (h_supply h) -> (length cp <= length (h_supply h))%nat -> rem = []).
Proof.
  revert h type cp ms rem h'. induction fuel as [|fuel IH]; intros h type cp ms rem h' Hf Hb; cbn [append_loop].
  { intros [= <- <- <-]. destruct cp; [|cbn in Hf; lia]. split_and!; [constructor|done|cbn; lia|constructor|done]. }
  destruct (length cp =? 0)%nat eqn:E0.
  { apply Nat.eqb_eq, nil_length_inv in E0. subst. intros [= <- <- <-].
    split_and!; [constructor|done|cbn; lia|constructor|done]. }
  apply Nat.eqb_neq in E0.
  pose proof (m_get_impl_spec h type false) as G. pose proof (m_get_impl_supply h type false) as Sp.
  destruct (m_get_impl h type false) as [[n|] k].
  2:{ intros [= <- <- <-]. split_and!; [constructor|done|cbn; lia|constructor|].
      intros Hs Hle. destruct Sp as [Sp|(rest & Sp)]; rewrite Sp in *; cbn in *; [lia|].
      inversion Hs as [|? ? [? ?]]. done. }
  destruct G as (Wn & Ln & Dn & _ & _ & _ & Lk). destruct Sp as [mem Sp].
  set (l := Nat.min MLEN (length cp)).
  assert (Hl : (1 <= l <= length cp)%nat /\ (l <= MLEN)%nat) by (unfold l, MLEN; lia). clearbody l.
  destruct (append_loop fuel k _ (drop l cp)) as [[ms' rem'] k'] eqn:E.
  apply IH in E; [|rewrite length_drop; lia|auto with urange].
  destruct E as (W & Ec & Lh & Hm & Hs). intros [= <- <- <-].
  pose proof Wn as (Hcl & ? & ?). cbn [m_data set_window m_cluster]. rewrite Dn.
  set (y := set_cluster _ _).
  assert (Wy : mwf y).
  { apply (mwf_store (set_window n 0 l)); [apply mwf_window; [done|unfold cluster_size, MCLBYTES, MLEN in *; lia]|..];
      [cbn [m_cluster set_window]; rewrite Hcl, length_take; unfold cluster_size, MCLBYTES, MLEN in *; lia
      |auto with urange]. }
  assert (Dy : mdata y = take l cp).
  { unfold y, mdata; cbn [m_data m_len m_cluster set_cluster set_window]. rewrite ?Dn.
    assert (l <= cluster_size)%nat by (unfold cluster_size, MCLBYTES, MLEN in *; lia). list_solve. }
  split_and!.
  - by constructor.
  - rewrite content_cons, <- app_assoc, Ec, Dy. apply take_drop.
  - cbn [length]. lia.
  - constructor; [cbn; lia|done].
  - intros HS Hle. apply Hs.
    + rewrite Sp in HS. by inversion HS.
    + rewrite Sp in Hle. cbn in Hle. rewrite length_drop. lia.
Qed.

Lemma append_here x cp s :
  mwf x -> bytes cp -> (m_data x + m_len x + s <= cluster_size)%nat -> (s <= length cp)%nat ->
  let y := set_window (set_cluster x (splice (m_data x + m_len x) (take s cp) (m_cluster x)))
             (m_data x) (m_len x + s) in
  mwf y /\ mdata y = mdata x ++ take s cp.
Proof.
  intros Hx Hb Hfit Hs y. pose proof Hx as (Hcl & ? & ?). split.
  - apply mwf_window; [|lia]. apply mwf_store; [done|list_lia|auto with urange].
  - unfold y, mdata; cbn [m_data m_len m_cluster set_cluster set_window]. list_solve.
Qed.

(** The head keeps its flags and header. *)
Definition same_head (c c' : list mbuf) : Prop :=
  match c, c' with
  | x :: _, y :: _ => m_flags y = m_flags x /\ m_hdr y = m_hdr x
  | _, _ => False
  end.

Lemma append_last_spec h c cp c' rem h' :
  c <> [] -> cwf c -> bytes cp -> append_last h c cp = (c', rem, h') ->
  cwf c' /\ (exists d, cp = d ++ rem /\ content c' = content c ++ d) /\ balanced h h' c c' /\
  same_head c c' /\
  (Forall is_Some (h_supply h) -> (length cp <= length (h_supply h))%nat -> rem = []).
Proof.
  intros Hne Hc Hb. revert c' rem h'. induction Hc as [|x c Hx Hc IH]; intros c' rem h'; [done|].
  cbn [append_last]. destruct c as [|x2 c].
  - set (s := if 0 <? M_TRAILINGSPACE x then _ else _). pose proof Hx as (Hcl & Hw & _).
    assert (Hs : (m_data x + m_len x + s <= cluster_size)%nat /\ (s <= length cp)%nat).
    { unfold s, M_TRAILINGSPACE. rewrite Hcl. case_match; lia. }
    destruct (append_here x cp s Hx Hb) as [Wy Dy]; [lia..|]. cbv zeta in Wy, Dy.
    set (y := set_window _ _ _) in *.
    destruct (append_loop _ _ _ _) as [[ms r] k] eqn:E.
    apply append_loop_spec in E; [|done|auto with urange].
    destruct E as (W & Ec & Lh & _ & Hr). intros [= <- <- <-].
    split; [|split; [|split; [|split]]].
    + by constructor.
    + exists (take s cp ++ content ms). split.
      * by rewrite <- app_assoc, Ec, take_drop.
      * by rewrite !content_cons, Dy, app_nil_r, <- app_assoc.
    + unfold balanced. cbn [length]. lia.
    + done.
    + intros HS Hl. apply Hr; [done|]. rewrite length_drop. lia.
  - destruct (append_last h (x2 :: c) cp) as [[c2 r] k] eqn:E.
    destruct (IH ltac:(done) _ _ _ eq_refl) as (W & Ec & Lh & Sh & Hr). intros [= <- <- <-].
    split; [|split; [|split; [|split]]]; [by constructor| | |done|done].
    + destruct Ec as (d & -> & Ec). exists d. split; [done|].
      by rewrite content_cons, Ec, (content_cons x), app_assoc.
    + unfold balanced in *. cbn [length] in *. lia.
Qed.

Lemma m_append_spec h c cp :
  c <> [] -> pkt_ok c -> bytes cp ->
  exists ok c' h' d rem,
    m_append h c cp = Ok (ok, c', h') /\ pkt_ok c' /\ balanced h h' c c' /\
    cp = d ++ rem /\ content c' = content c ++ d /\ (ok = true <-> rem = []) /\
    (Forall is_Some (h_supply h) -> (length cp <= length (h_supply h))%nat -> ok = true).
Proof.
  intros Hne [Hc Hs] Hb. unfold m_append.
  destruct (append_last h c cp) as [[c1 rem] k] eqn:E.
  apply append_last_spec in E; [|done..]. destruct E as (W & Ec & Bl & Sh & Hr).
  destruct c as [|x c]; [done|]. destruct c1 as [|y c1]; [done|]. destruct Sh as [Sf Sd].
  destruct Ec as (d & -> & Ec).
  set (z := if has_pkthdr y then _ else _).
  assert (Hz : mdata z = mdata y /\ has_pkthdr z = has_pkthdr x /\ (mwf y -> mwf z) /\
    (has_pkthdr x = true -> ph_len (m_hdr z) = ph_len (m_hdr x) + Z.of_nat (length d))).
  { assert (Hp : has_pkthdr y = has_pkthdr x) by (unfold has_pkthdr; by rewrite Sf).
    unfold z. rewrite Hp. destruct (has_pkthdr x) eqn:E; [|by split_and!].
    split_and!; [done|by rewrite <- Hp|done|]. intros _. cbn [set_ph_len set_hdr m_hdr with_ph_len ph_len].
    rewrite Sd, length_app. lia. }
  clearbody z. destruct Hz as (Dz & Pz & Wz & Hz).
  assert (Ecz : content (z :: c1) = content (x :: c) ++ d) by (by rewrite content_cons, Dz).
  exists (length rem =? 0)%nat, (z :: c1), k, d, rem. split_and!; [done|..].
  - inversion_clear W. split; [constructor; auto|]. intros E. rewrite Pz in E.
    rewrite Hz, Ecz, length_app by done. specialize (Hs E). lia.
  - done.
  - done.
  - done.
  - rewrite Nat.eqb_eq. apply length_zero_iff_nil.
  - intros HS Hl. by rewrite Hr.
Qed.

Lemma m_cat_spec c n :
  c <> [] -> exists c', m_cat c n = Ok c' /\ content c' = content c ++ content n /\
    (cwf c -> cwf n -> cwf c') /\ length c' = (length c + length n)%nat.
Proof.
  intros Hne. induction c as [|x c IH]; [done|]. cbn [m_cat]. destruct c as [|y c].
  - eexists. split_and!; [done|..].
    + rewrite !content_cons. change (content []) with (@nil Z). rewrite app_nil_r. by case_match.
    + intros Hc Hn. constructor; [|done]. inversion_clear Hc. by case_match.
    + done.
  - destruct IH as (c' & -> & E & W & L); [done|]. eexists. split_and!; [done|..].
    + by rewrite content_cons, E, (content_cons x), app_assoc.
    + intros Hc Hn. inversion_clear Hc. constructor; [done|by apply W].
    + cbn [length] in *. lia.
Qed.

(** ** Properties *)

(** Sample packets for the witnesses. *)
Definition sample_mbuf (pkthdr : bool) (d : nat) (l : list Z) (total : Z) : mbuf :=
  mkMbuf (if pkthdr then 3 else 1) d (length l) MT_DATA (mkPkthdr total 0 0 0 0)
         (replicate d 0 ++ l ++ replicate (cluster_size - d - length l) 0).
Definition sample_pkt : list mbuf :=
  [sample_mbuf true 256 [1; 2; 3] 7; sample_mbuf false 0 [4; 5; 6; 7] 0].

Lemma sample_pkt_ok : pkt_ok sample_pkt.
Proof.
  split.
  - apply (bool_decide_unpack _). vm_compute. exact I.
  - intros _. reflexivity.
Qed.

(** [m_adj] removes exactly the requested bytes: the first [n] for a
    request [n >= 0], the last [n] for a request [-n], all of them when the
    packet is shorter; the windows stay inside their clusters and the packet
    header holds the new length. *)
Theorem m_adj_trims (c : list mbuf) (req : Z) (Hok : cwf c) :
  pkt_ok (m_adj c req) /\
  content (m_adj c req) =
    (if 0 <=? req then drop (Z.to_nat req) (content c)
     else take (length (content c) - Z.to_nat (- req)) (content c)).
Proof.
  destruct (m_adj_spec c req Hok) as (E & W & S). exact (conj (conj W S) E).
Qed.

Lemma m_adj_trims_witness :
  content (m_adj sample_pkt 4) = [5; 6; 7] /\ content (m_adj sample_pkt (-5)) = [1; 2].
Proof.
  split.
  - exact (proj2 (m_adj_trims sample_pkt 4 (proj1 sample_pkt_ok))).
  - exact (proj2 (m_adj_trims sample_pkt (-5) (proj1 sample_pkt_ok))).
Defined.

(** [m_copyback] stores across mbuf boundaries or refuses as a whole:
    when the range is inside the packet the bytes there are replaced and
    nothing else, so that [m_copydata] reads them back; otherwise the packet
    is unchanged and the error is ENOBUFS. *)
Theorem m_copyback_copydata (c : list mbuf) (off : nat) (cp : list Z)
    (Hok : pkt_ok c) (Hb : bytes cp) :
  let '(err, c') := m_copyback c off cp in
  pkt_ok c' /\ map m_len c' = map m_len c /\
  match err with
  | None => (off + length cp <= length (content c))%nat /\
            content c' = splice off cp (content c) /\ m_copydata c' off (length cp) = cp
  | Some e => e = ENOBUFS /\ c' = c /\ (length (content c) < off + length cp)%nat
  end.
Proof.
  pose proof Hok as [Hc Hs]. pose proof (length_content c Hc) as Hl. unfold m_copyback.
  destruct (_ <? _)%nat eqn:E; [apply Nat.ltb_lt in E|apply Nat.ltb_ge in E].
  { split_and!; [done..|lia]. }
  destruct (copyback_loop_spec c off cp Hc Hb E) as (Ec & W & Lm & Fm & Hm).
  assert (Hcp : m_copydata (copyback_loop c off cp) off (length cp) = cp).
  { rewrite m_copydata_spec, Ec by done. apply sub_list_splice. lia. }
  split; [split; [done|]|split; [done|split; [lia|done]]].
  destruct (copyback_loop c off cp) as [|y c'] eqn:Ey; [done|]. destruct c as [|x c]; [done|].
  cbn [map] in Fm, Hm. injection Fm as Fm _. injection Hm as Hm _. intros Hp.
  rewrite Ec, length_splice by lia. rewrite Hm. apply Hs. unfold has_pkthdr in *. by rewrite <- Fm.
Qed.

Lemma m_copyback_copydata_witness :
  exists c', m_copyback sample_pkt 2 [30; 40] = (None, c') /\ content c' = [1; 2; 30; 40; 5; 6; 7].
Proof.
  pose proof (m_copyback_copydata sample_pkt 2 [30; 40] sample_pkt_ok) as H.
  destruct (m_copyback sample_pkt 2 [30; 40]) as [[e|] c'] eqn:E; [discriminate E|].
  exists c'. split; [reflexivity|].
  destruct H as (_ & _ & _ & -> & _); [|reflexivity].
  repeat constructor; cbv; congruence.
Defined.

(** [m_pullup] makes the first [len] bytes contiguous without changing the
    packet: on success the bytes are the same, the first mbuf holds at least
    [len] of them and the packet header still counts the packet; it fails
    only for a negative or too large request, a packet that is too short or
    an exhausted heap, and then the whole chain has been freed. *)
Theorem m_pullup_contiguous (h : heap) (c : list mbuf) (len : Z) (Hok : pkt_ok c) :
  let '(c', h') := m_pullup h c len in
  pkt_ok c' /\ balanced h h' c c' /\
  match c' with
  | [] => c = [] \/ len < 0 \/ Z.of_nat (MCLBYTES - MH_ALIGN) < len \/
          Z.of_nat (length (content c)) < len \/ exhausted h
  | x :: _ => content c' = content c /\ len <= Z.of_nat (m_len x)
  end.
Proof.
  destruct (m_pullup h c len) as [c' h'] eqn:E.
  rewrite (length_content c (proj1 Hok)). exact (m_pullup_spec h c len c' h' Hok E).
Qed.

Lemma m_pullup_contiguous_witness :
  exists x rest h', m_pullup (mkHeap [Some [9]] 2) sample_pkt 5 = (x :: rest, h') /\
    content (x :: rest) = [1; 2; 3; 4; 5; 6; 7] /\ (5 <= m_len x)%nat.
Proof.
  pose proof (m_pullup_contiguous (mkHeap [Some [9]] 2) sample_pkt 5 sample_pkt_ok) as H.
  destruct (m_pullup (mkHeap [Some [9]] 2) sample_pkt 5) as [[|x rest] h'] eqn:E.
  - apply (f_equal (fun p => length (fst p))) in E. vm_compute in E. discriminate E.
  - exists x, rest, h'. destruct H as (_ & _ & H1 & H2).
    split; [reflexivity|]. split; [exact H1|lia].
Defined.

(** [m_prepend] opens [len] bytes in front of the packet and keeps every
    byte of it behind them; the new bytes are contiguous in the first mbuf,
    the packet header grows by [len], and on failure the chain is freed. *)
Theorem m_prepend_makes_room (h : heap) (c : list mbuf) (len : Z) (Hok : pkt_ok c) :
  let '(c', h') := m_prepend h c len in
  pkt_ok c' /\ balanced h h' c c' /\
  (c' <> [] -> 0 <= len /\ prepended (Z.to_nat len) c c').
Proof.
  destruct (m_prepend h c len) as [c' h'] eqn:E. exact (m_prepend_spec h c len c' h' Hok E).
Qed.

Lemma m_prepend_makes_room_witness :
  let '(c', h') := m_prepend (mkHeap [] 2) sample_pkt 8 in
  c' <> [] /\ prepended 8 sample_pkt c' /\ h_live h' = 2.
Proof.
  pose proof (m_prepend_makes_room (mkHeap [] 2) sample_pkt 8 sample_pkt_ok) as H.
  assert (Hc : length (fst (m_prepend (mkHeap [] 2) sample_pkt 8)) = 2%nat) by reflexivity.
  assert (Hh : h_live (snd (m_prepend (mkHeap [] 2) sample_pkt 8)) = 2) by reflexivity.
  destruct (m_prepend (mkHeap [] 2) sample_pkt 8) as [c' h']. cbn [fst snd] in Hc, Hh.
  assert (Hne : c' <> []) by (intros ->; discriminate Hc).
  split; [exact Hne|]. split; [exact (proj2 (proj2 (proj2 H) Hne))|exact Hh].
Defined.

(** [m_append] adds a prefix of the data at the end of the packet, all of
    it exactly when it returns 1; it returns 1 whenever the heap can supply
    the mbufs, and the packet header counts what was added. *)
Theorem m_append_appends (h : heap) (c : list mbuf) (cp : list Z)
    (Hne : c <> []) (Hok : pkt_ok c) (Hb : bytes cp) :
  exists ok c' h' d rem,
    m_append h c cp = Ok (ok, c', h') /\ pkt_ok c' /\ balanced h h' c c' /\
    cp = d ++ rem /\ content c' = content c ++ d /\ (ok = true <-> rem = []) /\
    (Forall is_Some (h_supply h) -> (length cp <= length (h_supply h))%nat -> ok = true).
Proof. exact (m_append_spec h c cp Hne Hok Hb). Qed.

Lemma m_append_appends_witness :
  exists c' h', m_append (mkHeap [Some []; Some []] 2) sample_pkt [8; 9] = Ok (true, c', h') /\
    content c' = [1; 2; 3; 4; 5; 6; 7; 8; 9].
Proof.
  destruct (m_append_appends (mkHeap [Some []; Some []] 2) sample_pkt [8; 9])
    as (ok & c' & h' & d & rem & E & _ & _ & Ed & Ec & Hr & Hs).
  - discriminate.
  - exact sample_pkt_ok.
  - repeat constructor; cbv; congruence.
  - assert (ok = true) as -> by (apply Hs; [repeat constructor; eexists; reflexivity|cbn; lia]).
    exists c', h'. split; [exact E|]. rewrite Ec.
    assert (rem = []) as -> by (apply Hr; reflexivity). rewrite app_nil_r in Ed. subst d. reflexivity.
Defined.

(** [m_copypacket] of a packet of one mbuf is a faithful private copy. *)
Theorem m_copypacket_single (h : heap) (x : mbuf) (Hok : pkt_ok [x]) :
  match m_copypacket h [x] with
  | ([y], h') => pkt_ok [y] /\ content [y] = content [x] /\ has_pkthdr y = has_pkthdr x /\
                 h_live h' = h_live h + 1
  | ([], h') => exhausted h /\ h_live h' = h_live h
  | _ => False
  end.
Proof.
  unfold m_copypacket.
  pose proof (m_get_impl_spec h (m_type x) (has_pkthdr x)) as G.
  pose proof (m_get_impl_None h (m_type x) (has_pkthdr x)) as N.
  destruct (m_get_impl h (m_type x) (has_pkthdr x)) as [[y|] k]; [|by split; [apply (N k)|]].
  destruct G as (Wy & _ & _ & Py & _ & _ & Lk).
  pose proof Hok as [Hc Hs]. inversion_clear Hc as [|? ? Hx _].
  pose proof Hx as (Hcl & Hw & Hb). pose proof Wy as (Hcy & _ & _).
  assert (Ecl : splice 0 (m_cluster x) (m_cluster y) = m_cluster x).
  { unfold splice. rewrite take_0, drop_ge by lia. apply app_nil_r. }
  cbn [m_cluster set_flags]. rewrite Ecl.
  set (z := if has_pkthdr x then _ else _).
  assert (Hz : mdata z = mdata x /\ mwf z /\ m_flags z = Z.lor (m_flags y) (Z.land (m_flags x) (Z.lor M_BCAST M_MCAST))
    /\ (has_pkthdr x = true -> ph_len (m_hdr z) = ph_len (m_hdr x))).
  { unfold z. destruct (has_pkthdr x); by split_and!. }
  clearbody z. destruct Hz as (Dz & Wz & Fz & Hz).
  assert (Pz : has_pkthdr z = has_pkthdr x).
  { rewrite <- Py. unfold has_pkthdr. rewrite Fz. do 2 f_equal.
    apply Z.bits_inj'; intros i Hi. rewrite !Z.land_spec, Z.lor_spec, !Z.land_spec.
    unfold M_PKTHDR, M_BCAST, M_MCAST. destruct (decide (i = 1)) as [->|Hi1].
    - rewrite andb_false_r. by rewrite orb_false_r.
    - replace (Z.testbit 2 i) with false; [by rewrite !andb_false_r|].
      symmetry. change 2 with (2 ^ 1). apply Z.pow2_bits_false. lia. }
  assert (Ec : content [z] = content [x]) by (by rewrite !content_cons, Dz).
  split_and!; [|done|done|done]. split; [by constructor|]. intros E. rewrite Pz in E.
  rewrite Ec, Hz by done. by apply Hs.
Qed.

Lemma m_copypacket_single_witness :
  match m_copypacket (mkHeap [Some []] 0) [sample_mbuf true 256 [1; 2; 3] 3] with
  | ([y], h') => content [y] = [1; 2; 3]
  | _ => False
  end.
Proof.
  pose proof (m_copypacket_single (mkHeap [Some []] 0) (sample_mbuf true 256 [1; 2; 3] 3)) as H.
  destruct (m_copypacket (mkHeap [Some []] 0) [sample_mbuf true 256 [1; 2; 3] 3]) as [[|y [|]] h'] eqn:E.
  - apply (f_equal (fun p => length (fst p))) in E. vm_compute in E. discriminate E.
  - apply H. split.
    + apply (bool_decide_unpack _). vm_compute. exact I.
    + intros _. reflexivity.
  - apply (f_equal (fun p => length (fst p))) in E. vm_compute in E. discriminate E.
Defined.

(** The copy of a packet of several mbufs is inconsistent: only the first
    mbuf is copied, while the packet header keeps the length of the whole. *)
Theorem m_copypacket_truncates (h : heap) (x y : mbuf) (c : list mbuf)
    (Hok : pkt_ok (x :: y :: c)) (Hp : has_pkthdr x = true) (Hy : (0 < m_len y)%nat)
    (Hh : ~ exhausted h) :
  exists z h', m_copypacket h (x :: y :: c) = ([z], h') /\ content [z] = mdata x /\ ~ hdr_sync [z].
Proof.
  unfold m_copypacket.
  pose proof (m_get_impl_spec h (m_type x) (has_pkthdr x)) as G.
  pose proof (m_get_impl_None h (m_type x) (has_pkthdr x)) as N.
  destruct (m_get_impl h (m_type x) (has_pkthdr x)) as [[n|] k]; [|by destruct Hh; apply (N k)].
  destruct G as (Wn & _ & _ & Pn & _ & _ & _). rewrite Hp in *.
  pose proof Hok as [Hc Hs]. inversion_clear Hc as [|? ? Hx Hc']. inversion_clear Hc' as [|? ? Hy' Hc].
  pose proof Hx as (Hcl & Hw & Hb). pose proof Wn as (Hcy & _ & _).
  assert (Ecl : splice 0 (m_cluster x) (m_cluster n) = m_cluster x).
  { unfold splice. rewrite take_0, drop_ge by lia. apply app_nil_r. }
  cbn [m_cluster set_flags]. rewrite Ecl. eexists _, _. split; [done|].
  assert (Ec : forall z, mdata z = mdata x -> content [z] = mdata x).
  { intros z Ez. rewrite content_cons, Ez. apply app_nil_r. }
  split; [by apply Ec|]. intros Hz. cbv beta iota delta [hdr_sync] in Hz. rewrite Ec in Hz by done.
  cbn [set_ph_len set_hdr m_hdr with_ph_len ph_len] in Hz.
  rewrite (pkt_ok_ph x (y :: c) Hok Hp), !content_cons, !length_app, (length_mdata y) in Hz by done.
  enough (Z.of_nat (length (mdata x) + (m_len y + length (content c))) = Z.of_nat (length (mdata x))) by lia.
  apply Hz. unfold has_pkthdr in *. cbn [m_flags set_flags set_cluster set_window set_ph_len set_hdr].
  apply negb_true_iff, Z.eqb_neq. apply negb_true_iff, Z.eqb_neq in Pn. intros E. apply Pn.
  rewrite Z.land_comm, Z.land_lor_distr_r in E. apply Z.lor_eq_0_iff in E as [E _].
  by rewrite Z.land_comm.
Qed.

Lemma m_copypacket_truncates_witness :
  exists z h', m_copypacket (mkHeap [Some []] 2) sample_pkt = ([z], h') /\
    content [z] = [1; 2; 3] /\ ~ hdr_sync [z].
Proof.
  apply (m_copypacket_truncates (mkHeap [Some []] 2) (sample_mbuf true 256 [1; 2; 3] 7)
           (sample_mbuf false 0 [4; 5; 6; 7] 0) []).
  - exact sample_pkt_ok.
  - reflexivity.
  - cbn. lia.
  - cbn. tauto.
Defined.
