(* ===== verification/AesCcm.v ===== *)
(** * AES-CCM: crypto/aes/aes_ccm.c, aes_ccm.h, aes_ccm_mbuf.c

    The streaming CCM state and its operations, over any implementation table
    [I] of aes_impl.h.  KASSERT and KASSERTMSG expand to nothing in this build
    (port/port_config.h), so they are preconditions of the theorems and not
    steps of the model; [panic] is a step.  Input buffers are lists, and an
    operation returns the bytes it stores through [out]. *)

From S2P Require Import Prelude Endian AesBear Mbuf.

(** [struct aes_ccm]; [authctr] is the authenticator followed by the counter. *)
Record aes_ccm := mkCcm {
  C_enc : list Z;
  C_authctr : list Z;
  C_out : list Z;
  C_mlen : Z;
  C_mleft : Z;
  C_i : Z;
  C_nr : nat;
  C_L : Z;
  C_M : Z;
}.

Definition C_auth (C : aes_ccm) : list Z := take 16 (C_authctr C).
Definition C_ctr (C : aes_ccm) : list Z := drop 16 (C_authctr C).

Definition set_authctr (C : aes_ccm) (a : list Z) : aes_ccm :=
  mkCcm (C_enc C) a (C_out C) (C_mlen C) (C_mleft C) (C_i C) (C_nr C) (C_L C) (C_M C).
Definition set_out (C : aes_ccm) (o : list Z) : aes_ccm :=
  mkCcm (C_enc C) (C_authctr C) o (C_mlen C) (C_mleft C) (C_i C) (C_nr C) (C_L C) (C_M C).
Definition set_i (C : aes_ccm) (i : Z) : aes_ccm :=
  mkCcm (C_enc C) (C_authctr C) (C_out C) (C_mlen C) (C_mleft C) i (C_nr C) (C_L C) (C_M C).
Definition set_mleft (C : aes_ccm) (n : Z) : aes_ccm :=
  mkCcm (C_enc C) (C_authctr C) (C_out C) (C_mlen C) n (C_i C) (C_nr C) (C_L C) (C_M C).

(** Stores through [auth] and [ctr = auth + 16]. *)
Definition store_auth (C : aes_ccm) (off : nat) (b : list Z) : aes_ccm :=
  set_authctr C (splice off b (C_authctr C)).
Definition store_ctr (C : aes_ccm) (off : nat) (b : list Z) : aes_ccm :=
  set_authctr C (splice (16 + off) b (C_authctr C)).

(** [xor(x, a, b, n)]: the [n] bytes stored at [x]. *)
Definition xor (a b : list Z) (n : nat) : list Z := xor_bytes (take n a) (take n b).

(** [~0u]. *)
Definition i_done : Z := 0xffffffff.

Section Ccm.
Context (I : aes_impl).

Definition aes_ccm_inc (C : aes_ccm) : res aes_ccm :=
  let c15 := u8 (byte_at (C_ctr C) 15 + 1) in
  let C := store_ctr C 15 [c15] in
  if c15 =? 0 then
    let c14 := u8 (byte_at (C_ctr C) 14 + 1) in
    let C := store_ctr C 14 [c14] in
    if c14 =? 0 then Fault Panic else Ok C
  else Ok C.

Definition aes_ccm_zero_ctr (C : aes_ccm) : aes_ccm := store_ctr C 14 [0; 0].

(** [aes_enc(C->enc, auth, auth, C->nr)]. *)
Definition enc_auth (C : aes_ccm) : aes_ccm :=
  store_auth C 0 (ai_enc I (C_enc C) (C_auth C) (C_nr C)).

(** The length field in front of the additional data (RFC 3610, 2.2). *)
Definition ad_len_bytes (adlen : Z) : list Z :=
  if adlen <? 0xff00 then [u8 (Z.shiftr adlen 8); u8 adlen]
  else if adlen <? 0xffffffff then
    [0xff; 0xfe; u8 (Z.shiftr adlen 24); u8 (Z.shiftr adlen 16); u8 (Z.shiftr adlen 8); u8 adlen]
  else
    [0xff; 0xff; u8 (Z.shiftr adlen 56); u8 (Z.shiftr adlen 48); u8 (Z.shiftr adlen 40);
     u8 (Z.shiftr adlen 32); u8 (Z.shiftr adlen 24); u8 (Z.shiftr adlen 16);
     u8 (Z.shiftr adlen 8); u8 adlen].

(** [for (i = 0; i < L; i++, mlen >>= 8) auth[16 - i - 1] = mlen & 0xff]. *)
Fixpoint store_mlen (C : aes_ccm) (i L : nat) (mlen : Z) : aes_ccm :=
  match L with
  | O => C
  | S L => store_mlen (store_auth C (16 - i - 1) [Z.land mlen 0xff]) (S i) L (Z.shiftr mlen 8)
  end.

(** The additional data after the first block.  The source does not advance
    [adp] over the whole blocks it has processed, so the last, short block is
    read from the start of [adp] again. *)
Definition aes_ccm_init_ad_rest (C : aes_ccm) (adp : list Z) : aes_ccm :=
  let full := (length adp - length adp mod 16)%nat in
  let C := if (full =? 0)%nat then C
           else store_auth C 0 (ai_cbcmac_update1 I (C_enc C) (take full adp) full (C_auth C) (C_nr C)) in
  let rest := (length adp mod 16)%nat in
  if (rest =? 0)%nat then C
  else enc_auth (store_auth C 0 (xor (C_auth C) adp rest)).

(** The additional data, [if (adlen)]. *)
Definition aes_ccm_init_ad (C : aes_ccm) (ad : list Z) : aes_ccm :=
  let lb := ad_len_bytes (Z.of_nat (length ad)) in
  let i := length lb in
  let C := store_auth C 0 (xor (C_auth C) lb i) in
  let n := Nat.min (length ad) (16 - i) in
  let C := store_auth C i (xor (drop i (C_auth C)) ad n) in
  let adp := drop n ad in
  let C := enc_auth C in
  aes_ccm_init_ad_rest C adp.

Definition aes_ccm_init (C : aes_ccm) (nr : nat) (enc : list Z) (L M : Z)
    (nonce ad : list Z) (mlen : Z) : aes_ccm :=
  let noncelen := length nonce in
  let C := mkCcm enc (C_authctr C) (C_out C) mlen mlen (C_i C) nr L M in
  let a0 := u8 (Z.shiftl (if (length ad =? 0)%nat then 0 else 1) 6) in
  let a0 := u8 (Z.lor a0 (Z.shiftl ((M - 2) / 2) 3)) in
  let a0 := u8 (Z.lor a0 (L - 1)) in
  let C := store_auth C 0 [a0] in
  let C := store_auth C 1 nonce in
  let C := store_mlen C 0 (Z.to_nat L) mlen in
  let C := enc_auth C in
  let C := if (length ad =? 0)%nat then C else aes_ccm_init_ad C ad in
  let C := store_ctr C 0 [u8 (L - 1)] in
  let C := store_ctr C 1 nonce in
  let C := store_ctr C (1 + noncelen) (replicate (16 - 1 - noncelen) 0) in
  set_i C 0.

(** Finish a partial block if it was already started: the state, the bytes
    produced, the input left, and whether to go on. *)
Definition ccm_enc_partial (C : aes_ccm) (p : list Z) : aes_ccm * list Z * list Z * bool :=
  if C_i C =? 0 then (C, [], p, true)
  else
    let i := Z.to_nat (C_i C) in
    let m := Nat.min (Z.to_nat (u32 (16 - C_i C))) (length p) in
    let C := store_auth C i (xor (drop i (C_auth C)) p m) in
    let q := xor (drop i (C_out C)) p m in
    let C := set_i C (u32 (C_i C + Z.of_nat m)) in
    let p := drop m p in
    if C_i C =? 16 then (set_i (enc_auth C) 0, q, p, true) else (C, q, p, false).

Definition aes_ccm_enc (C : aes_ccm) (inp : list Z) : res (aes_ccm * list Z) :=
  let C := set_mleft C (u64 (C_mleft C - Z.of_nat (length inp))) in
  let '(C, q1, p, go_on) := ccm_enc_partial C inp in
  if negb go_on then Ok (C, q1)
  else
    let full := (length p - length p mod 16)%nat in
    let '(C, q2) :=
      if (full =? 0)%nat then (C, [])
      else let '(q, a) := ai_ccm_enc1 I (C_enc C) (take full p) full (C_authctr C) (C_nr C) in
           (set_authctr C a, q) in
    let p := drop full p in
    let n := length p in
    if (n =? 0)%nat then Ok (C, q1 ++ q2)
    else
      let C := store_auth C 0 (xor (C_auth C) p n) in
      let* C := aes_ccm_inc C in
      let C := set_out C (ai_enc I (C_enc C) (C_ctr C) (C_nr C)) in
      let q3 := xor (C_out C) p n in
      Ok (set_i C (Z.of_nat n), q1 ++ q2 ++ q3).

Definition ccm_dec_partial (C : aes_ccm) (p : list Z) : aes_ccm * list Z * list Z * bool :=
  if C_i C =? 0 then (C, [], p, true)
  else
    let i := Z.to_nat (C_i C) in
    let m := Nat.min (Z.to_nat (u32 (16 - C_i C))) (length p) in
    let q := xor (drop i (C_out C)) p m in
    let C := store_auth C i (xor (drop i (C_auth C)) q m) in
    let C := set_i C (u32 (C_i C + Z.of_nat m)) in
    let p := drop m p in
    if C_i C =? 16 then (set_i (enc_auth C) 0, q, p, true) else (C, q, p, false).

Definition aes_ccm_dec (C : aes_ccm) (inp : list Z) : res (aes_ccm * list Z) :=
  let C := set_mleft C (u64 (C_mleft C - Z.of_nat (length inp))) in
  let '(C, q1, p, go_on) := ccm_dec_partial C inp in
  if negb go_on then Ok (C, q1)
  else
    let full := (length p - length p mod 16)%nat in
    let '(C, q2) :=
      if (full =? 0)%nat then (C, [])
      else let '(q, a) := ai_ccm_dec1 I (C_enc C) (take full p) full (C_authctr C) (C_nr C) in
           (set_authctr C a, q) in
    let p := drop full p in
    let n := length p in
    if (n =? 0)%nat then Ok (C, q1 ++ q2)
    else
      let* C := aes_ccm_inc C in
      let C := set_out C (ai_enc I (C_enc C) (C_ctr C) (C_nr C)) in
      let q3 := xor (C_out C) p n in
      let C := store_auth C 0 (xor (C_auth C) q3 n) in
      Ok (set_i C (Z.of_nat n), q1 ++ q2 ++ q3).

(** The tag bytes and the final state. *)
Definition aes_ccm_tag (C : aes_ccm) : aes_ccm * list Z :=
  let C := if C_i C =? 0 then C else enc_auth C in
  let C := aes_ccm_zero_ctr C in
  let C := set_out C (ai_enc I (C_enc C) (C_ctr C) (C_nr C)) in
  let out := xor (C_out C) (C_auth C) (Z.to_nat (C_M C)) in
  (set_i C i_done, out).

(** [consttime_memequal(a, b, len)] of compat/netbsd/sys/systm.h. *)
Definition consttime_memequal (a b : list Z) (len : nat) : bool :=
  fold_left (fun diff i => Z.lor diff (u8 (Z.lxor (byte_at a i) (byte_at b i)))) (seq 0 len) 0 =? 0.

(** [expected] is a local array: its bytes past the tag are indeterminate and
    are not compared. *)
Definition aes_ccm_verify (C : aes_ccm) (tag : list Z) : aes_ccm * bool :=
  let '(C, expected) := aes_ccm_tag C in
  (C, consttime_memequal tag expected (Z.to_nat (C_M C))).

(** ** aes_ccm_mbuf.c *)

(** [while (off >= m->m_len)]: the mbufs skipped, the rest, the offset. *)
Fixpoint mbuf_seek (m : list mbuf) (off : nat) : res (list mbuf * list mbuf * nat) :=
  match m with
  | [] => Fault NullDeref
  | x :: rest =>
      if (m_len x <=? off)%nat then
        let* (pre, m, off) := mbuf_seek rest (off - m_len x) in Ok (x :: pre, m, off)
      else Ok ([], m, off)
  end.

(** [for (; len > 0; m = m->m_next, off = 0, len -= seglen)] with the loop body
    [f], which rewrites the segment in place; [len] is a [size_t]. *)
Fixpoint mbuf_walk {S} (f : S -> list Z -> res (S * list Z)) (s : S)
    (m : list mbuf) (off : nat) (len : Z) : res (S * list mbuf) :=
  if len <=? 0 then Ok (s, m)
  else
    match m with
    | [] => Fault NullDeref
    | x :: rest =>
        let seglen := Z.min (Z.of_nat (m_len x - off)) len in
        let n := Z.to_nat seglen in
        let* (s, q) := f s (sub_list (m_data x + off) n (m_cluster x)) in
        let x := set_cluster x (splice (m_data x + off) q (m_cluster x)) in
        let* (s, rest) := mbuf_walk f s rest 0 (len - seglen) in
        Ok (s, x :: rest)
    end.

Definition aes_ccm_enc_mbuf (C : aes_ccm) (m : list mbuf) (off : nat) (len : Z)
    : res (aes_ccm * list mbuf * list Z) :=
  let* (pre, m, off) := mbuf_seek m off in
  let* (C, m) := mbuf_walk aes_ccm_enc C m off len in
  let '(C, tag) := aes_ccm_tag C in
  Ok (C, pre ++ m, tag).

Definition aes_ccm_dec_mbuf (C : aes_ccm) (m0 : list mbuf) (off0 : nat) (len0 : Z) (tag : list Z)
    : res (aes_ccm * list mbuf * bool) :=
  let* (pre, m0, off0) := mbuf_seek m0 off0 in
  let* (C, m) := mbuf_walk aes_ccm_dec C m0 off0 len0 in
  let '(C, ok) := aes_ccm_verify C tag in
  if ok then Ok (C, pre ++ m, true)
  else
    let* (_, m) := mbuf_walk (fun _ seg => Ok (tt, replicate (length seg) 0)) tt m off0 len0 in
    Ok (C, pre ++ m, false).
End Ccm.
