(* ===== verification/AesCcmProof.v ===== *)
(** * AES-CCM: the streaming code computes the CCM of RFC 3610

    Proved against [aes_impl_ok], for any block function [E] an implementation
    provides: the authenticator absorbs the message byte by byte, the
    ciphertext is the message under a key stream given by position, and both
    are independent of how the message is cut into calls. *)

From S2P Require Import Prelude Buffers Endian AesSpec AesBlock AesBear AesBearProof Mbuf MbufProof AesCcm.

(** ** The authenticator as a byte machine *)

(** XOR the bytes [l] into [auth] at [i]. *)
Definition xor_at (i : nat) (l auth : list Z) : list Z :=
  splice i (xor_bytes (sub_list i (length l) auth) l) auth.

Lemma length_xor_at i l auth : (i + length l <= length auth)%nat -> length (xor_at i l auth) = length auth.
Proof. intros. unfold xor_at, xor_bytes. list_lia. Qed.

Lemma bytes_xor a b : bytes a -> bytes b -> bytes (xor_bytes a b).
Proof.
  intros Ha. revert b. induction Ha as [|x a Hx Ha IH]; intros b Hb; [constructor|].
  destruct Hb as [|y b Hy Hb]; [constructor|]. cbn. constructor; [auto with urange|by apply IH].
Qed.
#[export] Hint Resolve bytes_xor : urange.

Lemma xor_bytes_comm a b : xor_bytes a b = xor_bytes b a.
Proof.
  unfold xor_bytes. revert b. induction a as [|x a IH]; intros [|y b]; cbn; [done..|].
  by rewrite IH, Z.lxor_comm.
Qed.

Lemma bytes_xor_at i l auth : bytes l -> bytes auth -> bytes (xor_at i l auth).
Proof. intros. unfold xor_at. auto with urange. Qed.
#[export] Hint Resolve bytes_xor_at : urange.

Lemma bytes1 b : is_u8 b -> bytes [b].
Proof. intros. by constructor. Qed.

Lemma xor_at_blk i l auth : blk auth -> bytes l -> (i + length l <= 16)%nat -> blk (xor_at i l auth).
Proof.
  intros [Hl Hb] ? ?. split; [rewrite length_xor_at; lia|auto with urange].
Qed.

Lemma lookup_xor_bytes a b j :
  xor_bytes a b !! j =
  if decide (j < length a /\ j < length b)%nat then Some (Z.lxor (byte_at a j) (byte_at b j)) else None.
Proof.
  unfold xor_bytes. rewrite lookup_zip_with. case_decide as H.
  - by rewrite !lookup_byte_at by lia.
  - destruct (a !! j) eqn:Ea; [|done]. destruct (b !! j) eqn:Eb; [|done].
    destruct H. split; by eapply lookup_lt_Some.
Qed.

Lemma lookup_xor_at i l auth j :
  (i + length l <= length auth)%nat ->
  xor_at i l auth !! j =
  if decide (i <= j < i + length l)%nat then Some (Z.lxor (byte_at auth j) (byte_at l (j - i)))
  else auth !! j.
Proof.
  intros H. assert (Hl : length (xor_bytes (sub_list i (length l) auth) l) = length l).
  { unfold xor_bytes. rewrite length_zip_with, length_sub_list_min. lia. }
  unfold xor_at. rewrite lookup_splice, lookup_xor_bytes, length_sub_list_min, Hl by lia.
  repeat case_decide; try lia; try done. unfold sub_list.
  rewrite byte_at_take, byte_at_drop by lia. by replace (i + (j - i))%nat with j by lia.
Qed.

Lemma byte_at_xor_at_ne i b auth j :
  (i + 1 <= length auth)%nat -> j <> i -> byte_at (xor_at i [b] auth) j = byte_at auth j.
Proof.
  intros H Hj. destruct (decide (j < length auth)%nat).
  - assert (E : xor_at i [b] auth !! j = auth !! j)
      by (rewrite lookup_xor_at by (cbn; lia); case_decide; [cbn in *; lia|done]).
    rewrite !lookup_byte_at in E by (rewrite ?length_xor_at; cbn; lia). congruence.
  - unfold byte_at. rewrite !nth_overflow; rewrite ?length_xor_at; cbn; try lia; done.
Qed.

Lemma xor_at_nil i auth : xor_at i [] auth = auth.
Proof. unfold xor_at. rewrite <- (splice_nil i auth) at 3. reflexivity. Qed.

Lemma xor_at_cons i b l auth :
  (i + S (length l) <= length auth)%nat ->
  xor_at i (b :: l) auth = xor_at (S i) l (xor_at i [b] auth).
Proof.
  intros H. apply list_eq. intros j.
  rewrite !lookup_xor_at; rewrite ?length_xor_at; cbn [length]; try lia.
  destruct (decide (j = i)) as [->|Hj].
  - repeat case_decide; try lia. by rewrite Nat.sub_diag.
  - rewrite byte_at_xor_at_ne by lia. repeat case_decide; try lia; [|done].
    by replace (j - i)%nat with (S (j - S i)) by lia.
Qed.

(** ** Counter blocks *)

Lemma be32enc_sum a b c d :
  bytes [a; b; c; d] -> be32enc (a * 2 ^ 24 + b * 2 ^ 16 + c * 2 ^ 8 + d) = [a; b; c; d].
Proof.
  intros H. inv_Forall. unfold is_u in *. unfold be32enc.
  rewrite !u8_mod, !Z.shiftr_div_pow2 by lia.
  split_list; Z.to_euclidean_division_equations; lia.
Qed.

Lemma be32dec_sum a b c d :
  bytes [a; b; c; d] -> be32dec [a; b; c; d] = a * 2 ^ 24 + b * 2 ^ 16 + c * 2 ^ 8 + d.
Proof.
  intros H. rewrite <- (be32enc_sum a b c d H) at 1. rewrite <- (app_nil_r (be32enc _)).
  apply be32dec_enc. inv_Forall. unfold is_u in *. lia.
Qed.

(** The two low bytes of a block number. *)
Definition be16 (j : nat) : list Z := [u8 (Z.shiftr (Z.of_nat j) 8); u8 (Z.of_nat j)].

(** [A_j] of RFC 3610 for [L = 2]. *)
Definition ctr_block (nonce : list Z) (j : nat) : list Z := [1] ++ nonce ++ be16 j.

Definition nonce_ok (nonce : list Z) : Prop := length nonce = 13%nat /\ bytes nonce.

Ltac nonce_cases nonce H :=
  let Hl := fresh "Hl" in let Hf := fresh "Hf" in
  destruct H as [Hl Hf];
  do 13 (destruct nonce as [|? nonce]; [discriminate Hl|]);
  destruct nonce; [|discriminate Hl]; clear Hl; inv_Forall.

Lemma ctr_block_blk nonce j : nonce_ok nonce -> blk (ctr_block nonce j).
Proof.
  intros [Hl Hb]. unfold ctr_block, be16. split; [list_lia|].
  rewrite !bytes_app. split_and!; [repeat constructor; unfold is_u; lia|done|].
  split_Forall; auto with urange.
Qed.

Lemma be16_sum j : Z.of_nat (j) < 65536 ->
  u8 (Z.shiftr (Z.of_nat j) 8) * 2 ^ 8 + u8 (Z.of_nat j) = Z.of_nat j.
Proof.
  intros H. rewrite !u8_mod, Z.shiftr_div_pow2 by lia. Z.to_euclidean_division_equations. lia.
Qed.

Lemma ctr_add_block nonce j k :
  nonce_ok nonce -> Z.of_nat (j + k) < 65536 ->
  ctr_add (ctr_block nonce j) (Z.of_nat k) = ctr_block nonce (j + k).
Proof.
  intros Hn Hj. nonce_cases nonce Hn. unfold ctr_add, ctr_block, be16. cbn [app take drop].
  rewrite be32dec_sum by (split_Forall; auto with urange).
  do 12 f_equal.
  rewrite <- (be32enc_sum _ _ (u8 (Z.shiftr (Z.of_nat (j + k)) 8)) (u8 (Z.of_nat (j + k))))
    by (split_Forall; auto with urange).
  pose proof (be16_sum j ltac:(lia)). pose proof (be16_sum (j + k) ltac:(lia)).
  unfold is_u in *. f_equal. rewrite u32_id by (unfold is_u; lia). lia.
Qed.

Lemma ctr_bytes nonce a b :
  nonce_ok nonce ->
  let c := [1] ++ nonce ++ [a; b] in
  byte_at c 14 = a /\ byte_at c 15 = b /\ length c = 16%nat /\
  (forall x, splice 15 [x] c = [1] ++ nonce ++ [a; x]) /\
  (forall x, splice 14 [x] c = [1] ++ nonce ++ [x; b]) /\
  (forall x y, splice 14 [x; y] c = [1] ++ nonce ++ [x; y]).
Proof. intros Hn. nonce_cases nonce Hn. by split_and!. Qed.

Lemma be16_succ j :
  Z.of_nat (j + 1) < 65536 ->
  be16 (j + 1) =
  let lo := u8 (u8 (Z.of_nat j) + 1) in
  [if lo =? 0 then u8 (u8 (Z.shiftr (Z.of_nat j) 8) + 1) else u8 (Z.shiftr (Z.of_nat j) 8); lo].
Proof.
  intros H. unfold be16. cbv zeta. rewrite !u8_mod, !Z.shiftr_div_pow2 by lia.
  case_match eqn:E; (apply Z.eqb_eq in E || apply Z.eqb_neq in E);
    split_list; Z.to_euclidean_division_equations; lia.
Qed.
Lemma be16_no_overflow j :
  Z.of_nat (j + 1) < 65536 -> u8 (u8 (Z.of_nat j) + 1) = 0 ->
  u8 (u8 (Z.shiftr (Z.of_nat j) 8) + 1) <> 0.
Proof.
  rewrite !u8_mod, !Z.shiftr_div_pow2 by lia. intros. Z.to_euclidean_division_equations. lia.
Qed.

Section Contract.
Context (I : aes_impl) (rk : list Z) (nr : nat) (E : list Z -> list Z).
Context `{HI : !aes_impl_ok I rk nr E}.

Definition absorb1 (st : list Z * nat) (b : Z) : list Z * nat :=
  let '(auth, i) := st in
  let auth := xor_at i [b] auth in
  if (S i =? 16)%nat then (E auth, 0%nat) else (auth, S i).
Definition absorb (st : list Z * nat) (l : list Z) : list Z * nat := fold_left absorb1 l st.

Definition st_ok (st : list Z * nat) : Prop := blk (fst st) /\ (snd st < 16)%nat.

Lemma absorb_app st a b : absorb st (a ++ b) = absorb (absorb st a) b.
Proof. apply fold_left_app. Qed.

Lemma absorb1_ok st b : st_ok st -> is_u8 b -> st_ok (absorb1 st b).
Proof using HI.
  destruct st as [auth i]. intros [Ha Hi] Hb. cbn in Ha, Hi. unfold absorb1.
  assert (blk (xor_at i [b] auth)) by (apply xor_at_blk; [done|by apply bytes1|cbn; lia]).
  case_match eqn:E1; [apply Nat.eqb_eq in E1|apply Nat.eqb_neq in E1]; split; cbn; try lia; try done.
  by apply E_blk.
Qed.
Lemma absorb_ok st l : st_ok st -> bytes l -> st_ok (absorb st l).
Proof using HI.
  intros Hs Hl. revert st Hs. induction Hl as [|b l Hb Hl IH]; intros st Hs; [done|].
  cbn. by apply IH, absorb1_ok.
Qed.

(** Within one block. *)
Lemma absorb_within auth i l :
  blk auth -> bytes l -> (i < 16)%nat -> (i + length l <= 16)%nat ->
  absorb (auth, i) l =
  if (i + length l =? 16)%nat then (E (xor_at i l auth), 0%nat)
  else (xor_at i l auth, (i + length l)%nat).
Proof.
  intros Ha Hl. revert auth i Ha. induction Hl as [|b l Hb Hl IH]; intros auth i Ha Hi Hle.
  - cbn [length] in *. rewrite Nat.add_0_r. replace (i =? 16)%nat with false by (symmetry; apply Nat.eqb_neq; lia).
    by rewrite xor_at_nil.
  - cbn [length] in *. rewrite xor_at_cons by (destruct Ha; lia).
    replace (i + S (length l))%nat with (S i + length l)%nat in * by lia.
    unfold absorb. cbn [fold_left absorb1]. destruct (S i =? 16)%nat eqn:Ei.
    + apply Nat.eqb_eq in Ei. assert (l = []) as -> by (destruct l; cbn in *; [done|lia]).
      cbn [fold_left length]. rewrite Nat.add_0_r, Ei. cbn [Nat.eqb].
      by rewrite xor_at_nil.
    + apply Nat.eqb_neq in Ei. fold (absorb (xor_at i [b] auth, S i) l).
      apply IH; [apply xor_at_blk; [done|by apply bytes1|cbn; lia]|lia|lia].
Qed.

Lemma xor_at_full l auth : blk auth -> length l = 16%nat -> xor_at 0 l auth = xor_bytes auth l.
Proof.
  intros [Ha _] Hl. apply list_eq. intros j. rewrite lookup_xor_at, lookup_xor_bytes by lia.
  rewrite Nat.sub_0_r. repeat case_decide; try lia; [done|]. apply lookup_ge_None. lia.
Qed.

(** Whole blocks are steps of CBC-MAC. *)
Lemma absorb_blocks n auth l :
  blk auth -> bytes l -> length l = (16 * n)%nat ->
  absorb (auth, 0%nat) l = (cbcmac E n auth l, 0%nat).
Proof using HI.
  revert auth l. induction n as [|n IH]; intros auth l Ha Hl Hn.
  { destruct l; [done|cbn in Hn; lia]. }
  rewrite <- (take_drop 16 l) at 1. rewrite absorb_app.
  assert (Hb : blk (take 16 l)) by (by apply (take16_blk n)).
  rewrite absorb_within, xor_at_full by (destruct Hb; auto with urange || lia).
  rewrite (proj1 Hb). cbn [Nat.add Nat.eqb cbcmac]. apply IH.
  - by apply E_blk, xor_blk.
  - auto with urange.
  - rewrite length_drop. lia.
Qed.

Definition finish (st : list Z * nat) : list Z := if (snd st =? 0)%nat then fst st else E (fst st).

(** Zero padding to a multiple of the block size. *)
Definition pad16 (l : list Z) : list Z := l ++ replicate ((16 - length l mod 16) mod 16) 0.

Lemma xor_at_zeros i n auth : (i + n <= length auth)%nat -> xor_at i (replicate n 0) auth = auth.
Proof.
  intros H. apply list_eq. intros j. rewrite lookup_xor_at by (rewrite length_replicate; lia).
  case_decide as Hj; [|done]. rewrite length_replicate in Hj.
  rewrite (lookup_byte_at auth j) by lia. f_equal.
  unfold byte_at at 2. rewrite nth_replicate by lia. apply Z.lxor_0_r.
Qed.

Lemma bytes_zeros n : bytes (replicate n 0).
Proof. apply Forall_replicate. unfold is_u; lia. Qed.

Lemma absorb_index st l : (snd st < 16)%nat -> snd (absorb st l) = ((snd st + length l) mod 16)%nat.
Proof.
  revert st. induction l as [|b l IH]; intros [auth i] Hi; cbn [snd] in *.
  { cbn [absorb fold_left length snd]. rewrite Nat.add_0_r, Nat.mod_small; lia. }
  unfold absorb. cbn [fold_left]. fold (absorb (absorb1 (auth, i) b) l). cbn [length].
  unfold absorb1. destruct (S i =? 16)%nat eqn:Ei.
  - apply Nat.eqb_eq in Ei. rewrite IH by (cbn; lia). cbn [snd].
    replace (i + S (length l))%nat with (length l + 1 * 16)%nat by lia.
    by rewrite Nat.Div0.mod_add.
  - apply Nat.eqb_neq in Ei. rewrite IH by (cbn; lia). cbn [snd].
    by replace (i + S (length l))%nat with (S i + length l)%nat by lia.
Qed.

Lemma finish_pad auth l :
  blk auth -> bytes l -> finish (absorb (auth, 0%nat) l) = fst (absorb (auth, 0%nat) (pad16 l)).
Proof using HI.
  intros Ha Hl. unfold pad16. rewrite absorb_app.
  assert (Hst : st_ok (auth, 0%nat)) by (split; [done|cbn; lia]).
  pose proof (absorb_ok (auth, 0%nat) l Hst Hl) as [Hb Hi].
  pose proof (absorb_index (auth, 0%nat) l ltac:(cbn; lia)) as Hx. cbn [snd Nat.add] in Hx.
  destruct (absorb (auth, 0%nat) l) as [a i]. cbn [fst snd] in *. subst i.
  unfold finish. cbn [fst snd]. destruct (length l mod 16)%nat as [|r] eqn:Er; [done|].
  rewrite (Nat.mod_small (16 - S r)) by lia.
  rewrite absorb_within by (rewrite ?length_replicate; auto using bytes_zeros; lia).
  rewrite length_replicate. replace (S r + (16 - S r))%nat with 16%nat by lia.
  rewrite xor_at_zeros by (destruct Hb; lia). done.
Qed.

(** ** The key stream by position *)

Context (nonce : list Z) (Hnonce : nonce_ok nonce) (M : Z).

Definition ks_byte (j : nat) : Z := byte_at (E (ctr_block nonce (j / 16 + 1))) (j mod 16).
(** [n] bytes of key stream from position [k]. *)
Definition stream (k n : nat) : list Z := map ks_byte (seq k n).

Lemma stream_app k n m : stream k (n + m) = stream k n ++ stream (k + n) m.
Proof. unfold stream. by rewrite seq_app, map_app. Qed.
Lemma length_stream k n : length (stream k n) = n.
Proof. unfold stream. by rewrite length_map, length_seq. Qed.
Lemma xor_stream_app a b k :
  xor_bytes (a ++ b) (stream k (length (a ++ b))) =
  xor_bytes a (stream k (length a)) ++ xor_bytes b (stream (k + length a) (length b)).
Proof. rewrite length_app, stream_app. apply xor_bytes_app. by rewrite length_stream. Qed.
Lemma E_ctr_blk j : blk (E (ctr_block nonce j)).
Proof using HI Hnonce. by apply E_blk, ctr_block_blk. Qed.
Lemma stream_bytes k n : bytes (stream k n).
Proof using HI Hnonce.
  unfold stream. apply Forall_map, List.Forall_forall. intros j _. unfold ks_byte.
  apply byte_at_range, E_ctr_blk.
Qed.
Hint Resolve stream_bytes : urange.

Lemma stream_within k n :
  (k mod 16 + n <= 16)%nat -> stream k n = sub_list (k mod 16) n (E (ctr_block nonce (k / 16 + 1))).
Proof using HI Hnonce.
  intros H. destruct (E_ctr_blk (k / 16 + 1)) as [Hl _].
  apply list_eq. intros j. unfold stream. rewrite list_lookup_fmap, lookup_sub_list.
  case_decide as Hj.
  - rewrite lookup_seq_lt by done. cbn. unfold ks_byte.
    pose proof (Nat.div_mod_eq k 16). pose proof (Nat.mod_upper_bound k 16 ltac:(lia)).
    assert ((k + j) / 16 = k / 16)%nat as ->
      by (symmetry; apply (Nat.div_unique _ _ _ (k mod 16 + j)); lia).
    assert ((k + j) mod 16 = k mod 16 + j)%nat as ->
      by (symmetry; apply (Nat.mod_unique _ _ (k / 16)); lia).
    symmetry. apply lookup_byte_at. lia.
  - rewrite lookup_seq_ge by lia. done.
Qed.

Lemma stream_blocks n j :
  Z.of_nat (j + n) < 65536 -> stream (16 * j) (16 * n) = ctr_stream E n (ctr_block nonce j).
Proof using HI Hnonce.
  revert j. induction n as [|n IH]; intros j Hj; [done|].
  replace (16 * S n)%nat with (16 + 16 * n)%nat by lia. rewrite stream_app.
  replace (16 * j + 16)%nat with (16 * S j)%nat by lia. rewrite IH by lia.
  cbn [ctr_stream]. change 1 with (Z.of_nat 1). rewrite ctr_add_block by (done || lia).
  rewrite Nat.add_1_r. f_equal.
  assert (Hm : (16 * j mod 16 = 0)%nat) by (rewrite Nat.mul_comm; apply Nat.Div0.mod_mul).
  assert (Hd : (16 * j / 16 = j)%nat) by (rewrite Nat.mul_comm; apply Nat.div_mul; lia).
  rewrite stream_within, Hm, Hd, Nat.add_1_r by lia.
  unfold sub_list. rewrite drop_0. apply take_ge. by rewrite (proj1 (E_ctr_blk (S j))).
Qed.

(** ** The state of a message in progress: [k] bytes done *)

Definition blocks (k : nat) : nat := (k + 15) / 16.

Record ccm_rep (C : aes_ccm) (k : nat) (st : list Z * nat) : Prop := {
  r_enc : C_enc C = rk;
  r_nr : C_nr C = nr;
  r_M : C_M C = M;
  r_ac : C_authctr C = fst st ++ ctr_block nonce (blocks k);
  r_i : C_i C = Z.of_nat (snd st);
  r_out : snd st <> 0%nat -> C_out C = E (ctr_block nonce (blocks k));
  r_ok : st_ok st;
  r_k : snd st = (k mod 16)%nat;
}.

Lemma rep_auth C k st : ccm_rep C k st -> C_auth C = fst st.
Proof.
  intros [_ _ _ Hac _ _ [[Hl _] _] _]. unfold C_auth. rewrite Hac. by apply take_app_length'.
Qed.
Lemma rep_ctr C k st : ccm_rep C k st -> C_ctr C = ctr_block nonce (blocks k).
Proof.
  intros [_ _ _ Hac _ _ [[Hl _] _] _]. unfold C_ctr. rewrite Hac. by apply drop_app_length'.
Qed.

Lemma xor_store i m p auth :
  (i + m <= length auth)%nat -> (m <= length p)%nat ->
  splice i (xor (drop i auth) p m) auth = xor_at i (take m p) auth.
Proof.
  intros. unfold xor_at, xor, sub_list. by rewrite length_take, (Nat.min_l m) by lia.
Qed.

#[local] Ltac mod16 := unfold blocks in *; Buffers.mod16.

Lemma blocks_open k m : (k mod 16 <> 0)%nat -> (k mod 16 + m <= 16)%nat ->
  blocks (k + m) = (k / 16 + 1)%nat.
Proof. intros. mod16. Qed.
Lemma blocks_aligned k n : (k mod 16 = 0)%nat -> (n < 16)%nat ->
  blocks (k + n) = if (n =? 0)%nat then (k / 16)%nat else (k / 16 + 1)%nat.
Proof. intros. case_match eqn:En; [apply Nat.eqb_eq in En|apply Nat.eqb_neq in En]; mod16. Qed.

(** Storing [x] into an open block, and closing the block when it is full. *)
Definition put (C : aes_ccm) (x : list Z) : aes_ccm :=
  let i := Z.to_nat (C_i C) in
  let C := store_auth C i (xor (drop i (C_auth C)) x (length x)) in
  set_i C (u32 (C_i C + Z.of_nat (length x))).
Definition close (C : aes_ccm) : aes_ccm := if C_i C =? 16 then set_i (enc_auth I C) 0 else C.

Lemma put_close_spec C k st x :
  ccm_rep C k st -> snd st <> 0%nat -> bytes x -> (snd st + length x <= 16)%nat ->
  C_i (put C x) = Z.of_nat (snd st + length x) /\
  ccm_rep (close (put C x)) (k + length x) (absorb st x).
Proof using HI Hnonce.
  intros R Hi Hx Hle. pose proof (rep_auth _ _ _ R) as Ea.
  destruct R as [Re Rn RM Rac Ri Rout [Hb Hi16] Rk]. destruct st as [auth i]. cbn [fst snd] in *.
  pose proof (ctr_block_blk nonce (blocks k) Hnonce) as Hctr. pose proof Hb as [Hla _].
  assert (Ep : put C x = set_i (set_authctr C (xor_at i x auth ++ ctr_block nonce (blocks k)))
                               (Z.of_nat (i + length x))).
  { unfold put, store_auth. rewrite Ri, Nat2Z.id, Ea, Rac.
    rewrite u32_id by (unfold is_u; cbn [C_i set_authctr]; lia).
    rewrite splice_app_l by (unfold xor, xor_bytes; list_lia).
    rewrite xor_store, take_ge by lia.
    unfold set_i, set_authctr. cbn. by rewrite Ri, <- Nat2Z.inj_add. }
  rewrite Ep. split; [done|].
  assert (Hblk : blocks (k + length x) = blocks k).
  { rewrite (blocks_open k (length x)), <- (blocks_open k 0), Nat.add_0_r by lia. done. }
  assert (Hxb : blk (xor_at i x auth)) by (by apply xor_at_blk).
  unfold close. cbn [C_i set_i]. rewrite absorb_within by (done || lia).
  destruct (Z.of_nat (i + length x) =? 16) eqn:E16.
  - apply Z.eqb_eq in E16. replace (i + length x =? 16)%nat with true by (symmetry; apply Nat.eqb_eq; lia).
    unfold enc_auth, store_auth, C_auth. cbn [C_enc C_nr C_authctr set_i set_authctr].
    rewrite take_app_length' by (by rewrite (proj1 Hxb)).
    rewrite Re, Rn, enc_ok by done.
    rewrite splice_app_l, splice_all by (rewrite ?(proj1 Hxb), (proj1 (E_blk _ Hxb)); lia).
    split; cbn [C_enc C_nr C_M C_authctr C_i C_out set_i set_authctr fst snd]; try done.
    + by rewrite Hblk.
    + split; cbn [fst snd]; [by apply E_blk|lia].
    + mod16.
  - apply Z.eqb_neq in E16. replace (i + length x =? 16)%nat with false by (symmetry; apply Nat.eqb_neq; lia).
    split; cbn [C_enc C_nr C_M C_authctr C_i C_out set_i set_authctr fst snd]; try done.
    + by rewrite Hblk.
    + intros _. rewrite Hblk. by apply Rout.
    + split; [done|cbn; lia].
    + mod16.
Qed.

Lemma rep_i0 C k st : ccm_rep C k st -> (C_i C =? 0) = (snd st =? 0)%nat.
Proof.
  intros [_ _ _ _ Ri _ _ _]. rewrite Ri. destruct (Z.of_nat (snd st) =? 0) eqn:E1; symmetry.
  - apply Nat.eqb_eq. lia.
  - apply Nat.eqb_neq. lia.
Qed.

(** Input bytes that go into the open block. *)
Definition open_room (st : list Z * nat) (p : list Z) : nat :=
  if (snd st =? 0)%nat then 0%nat else Nat.min (16 - snd st) (length p).

Lemma room_le st p : (open_room st p <= length p)%nat.
Proof. unfold open_room. case_match; lia. Qed.

(** Key stream in [C->out] for the open block. *)
Lemma rep_out_stream C k st m :
  ccm_rep C k st -> snd st <> 0%nat -> (snd st + m <= 16)%nat ->
  take m (drop (Z.to_nat (C_i C)) (C_out C)) = stream k m.
Proof using HI Hnonce.
  intros [_ _ _ _ Ri Rout _ Rk] Hi Hm.
  rewrite stream_within, <- Rk by lia. rewrite Ri, Nat2Z.id, Rout by done. unfold sub_list.
  by rewrite <- (blocks_open k 0), Nat.add_0_r by lia.
Qed.

Definition go_on_ok (st : list Z * nat) (p' : list Z) (go_on : bool) : Prop :=
  if go_on then snd st = 0%nat else p' = [].

Lemma partial_room C k st p :
  ccm_rep C k st -> snd st <> 0%nat ->
  Nat.min (Z.to_nat (u32 (16 - C_i C))) (length p) = open_room st p /\
  (snd st + open_room st p <= 16)%nat.
Proof.
  intros [_ _ _ _ Ri _ [_ Hi] _] Hne. rewrite Ri. unfold open_room.
  rewrite u32_id by (unfold is_u; lia).
  destruct (snd st =? 0)%nat eqn:E0; [apply Nat.eqb_eq in E0; lia|]. lia.
Qed.

(** Whether the block is closed decides whether the call goes on. *)
Lemma close_go_on C k st x p' :
  ccm_rep C k st -> snd st <> 0%nat -> bytes x -> (snd st + length x <= 16)%nat ->
  ((snd st + length x < 16)%nat -> p' = []) ->
  go_on_ok (absorb st x) p' (C_i (put C x) =? 16).
Proof using HI Hnonce.
  intros R Hi Hx Hle Hp. destruct (put_close_spec C k st x R Hi Hx Hle) as [-> R'].
  pose proof (r_k _ _ _ R') as Hk. pose proof (r_k _ _ _ R) as Hk0. unfold go_on_ok.
  destruct (_ =? 16) eqn:E16.
  - apply Z.eqb_eq in E16. rewrite Hk. mod16.
  - apply Z.eqb_neq in E16. apply Hp. lia.
Qed.

Lemma enc_partial_spec C k st p :
  ccm_rep C k st -> bytes p ->
  let m := open_room st p in
  let '(C', q, p', go_on) := ccm_enc_partial I C p in
  ccm_rep C' (k + m) (absorb st (take m p)) /\ q = xor_bytes (take m p) (stream k m) /\
  p' = drop m p /\ go_on_ok (absorb st (take m p)) p' go_on.
Proof using HI Hnonce.
  intros R Hp m. unfold ccm_enc_partial. rewrite (rep_i0 C k st R).
  destruct (snd st =? 0)%nat eqn:E0.
  { assert (m = 0%nat) as -> by (unfold m, open_room; by rewrite E0).
    rewrite take_0, drop_0, Nat.add_0_r. apply Nat.eqb_eq in E0. by split_and!. }
  apply Nat.eqb_neq in E0. destruct (partial_room C k st p R E0) as [-> Hfit]. fold m.
  assert (Hm : (m <= length p)%nat) by apply room_le.
  assert (Hlx : length (take m p) = m) by (rewrite length_take; lia).
  destruct (put_close_spec C k st (take m p) R E0) as [Hci R']; [auto with urange|lia|].
  assert (Hgo : go_on_ok (absorb st (take m p)) (drop m p) (C_i (put C (take m p)) =? 16)).
  { apply (close_go_on C k); [done|done|auto with urange|lia|]. intros Hlt. apply drop_ge.
    unfold m, open_room in *. replace (snd st =? 0)%nat with false in * by (symmetry; by apply Nat.eqb_neq). lia. }
  rewrite Hlx in R', Hci. unfold close in R'.
  assert (Eput : set_i (store_auth C (Z.to_nat (C_i C)) (xor (drop (Z.to_nat (C_i C)) (C_auth C)) p m))
                   (u32 (C_i C + Z.of_nat m)) = put C (take m p)).
  { unfold put, xor. rewrite Hlx, take_take, Nat.min_id. done. }
  cbn [C_out store_auth set_authctr]. cbn [C_i store_auth set_authctr]. rewrite Eput.
  assert (Eq : xor (drop (Z.to_nat (C_i C)) (C_out C)) p m = xor_bytes (take m p) (stream k m)).
  { unfold xor. rewrite (rep_out_stream C k st m R E0 Hfit). apply xor_bytes_comm. }
  rewrite Eq. destruct (C_i (put C (take m p)) =? 16); by split_and!.
Qed.
(** *** The counter increment *)

Lemma aes_ccm_inc_ok C a j :
  length a = 16%nat -> C_authctr C = a ++ ctr_block nonce j -> Z.of_nat (j + 1) < 65536 ->
  aes_ccm_inc C = Ok (set_authctr C (a ++ ctr_block nonce (j + 1))).
Proof using Hnonce.
  intros Ha Hac Hj. unfold aes_ccm_inc, store_ctr, C_ctr.
  cbn [C_authctr set_authctr]. rewrite Hac, drop_app_length' by done.
  assert (G : forall off b y, length y = 16%nat -> (off + length b <= 16)%nat ->
            splice (16 + off) b (a ++ y) = a ++ splice off b y).
  { intros off b y Hy Hb. rewrite <- Ha. apply splice_app_r. lia. }
  pose proof (be16_succ j Hj) as Es. cbv zeta in Es.
  pose proof (be16_no_overflow j Hj) as Ho.
  change (ctr_block nonce j) with
    ([1] ++ nonce ++ [u8 (Z.shiftr (Z.of_nat j) 8); u8 (Z.of_nat j)]).
  set (hi := u8 (Z.shiftr (Z.of_nat j) 8)) in *. set (lo := u8 (Z.of_nat j)) in *.
  destruct (ctr_bytes nonce hi lo Hnonce) as (B14 & B15 & Bl & S15 & _ & _). cbv zeta in *.
  rewrite B15, (G 15%nat), S15 by (cbn [length]; lia).
  destruct (ctr_bytes nonce hi (u8 (lo + 1)) Hnonce) as (C14 & _ & Cl & _ & S14 & _). cbv zeta in *.
  unfold ctr_block. rewrite Es. destruct (u8 (lo + 1) =? 0) eqn:Ez; [|done].
  apply Z.eqb_eq in Ez. rewrite drop_app_length', C14 by done.
  replace (u8 (hi + 1) =? 0) with false by (symmetry; by apply Z.eqb_neq, Ho).
  rewrite (G 14%nat), S14 by (cbn [length]; lia). done.
Qed.

(** *** A last, short block *)

Definition open_block (C : aes_ccm) (a : list Z) (j n : nat) : aes_ccm :=
  set_i (set_out (set_authctr C (a ++ ctr_block nonce j)) (E (ctr_block nonce j))) (Z.of_nat n).

Lemma open_block_spec C k st x :
  ccm_rep C k st -> snd st = 0%nat -> bytes x -> (0 < length x < 16)%nat ->
  ccm_rep (open_block C (xor_at 0 x (fst st)) (blocks k + 1) (length x)) (k + length x) (absorb st x).
Proof using HI Hnonce.
  intros [Re Rn RM Rac Ri Rout [Hb Hi16] Rk] Hi Hx Hlen. destruct st as [auth i]. cbn [fst snd] in *. rewrite Hi in *. clear i Hi.
  assert (Hxb : blk (xor_at 0 x auth)) by (apply xor_at_blk; [done|done|lia]).
  rewrite absorb_within by (done || lia).
  replace (0 + length x =? 16)%nat with false by (symmetry; apply Nat.eqb_neq; lia).
  assert (Hblk : blocks (k + length x) = (blocks k + 1)%nat) by mod16.
  unfold open_block. change (0 + length x)%nat with (length x).
  split; cbn [C_enc C_nr C_M C_authctr C_i C_out set_i set_authctr set_out fst snd]; try done.
  - by rewrite Hblk.
  - intros _. by rewrite Hblk.
  - split; [done|cbn [snd]; lia].
  - mod16.
Qed.

(** *** Whole blocks *)

Lemma rep_aligned C k st : ccm_rep C k st -> snd st = 0%nat -> k = (16 * blocks k)%nat.
Proof. intros R Hi. pose proof (r_k _ _ _ R). mod16. Qed.

Lemma full_rep C k st n x :
  ccm_rep C k st -> snd st = 0%nat -> bytes x -> length x = (16 * n)%nat ->
  Z.of_nat (blocks k + n) < 65536 ->
  ccm_rep (set_authctr C (cbcmac E n (fst st) x ++ ctr_add (ctr_block nonce (blocks k)) (Z.of_nat n)))
          (k + 16 * n) (absorb st x).
Proof using HI Hnonce.
  intros R Hi Hx Hlen Hj. pose proof (absorb_ok st x (r_ok _ _ _ R) Hx) as Hok.
  destruct R as [Re Rn RM Rac Ri Rout [Hb Hi16] Rk]. destruct st as [auth i]. cbn [fst snd] in *. rewrite Hi in *. clear i Hi.
  rewrite (absorb_blocks n) in * by done. rewrite ctr_add_block by (done || lia).
  assert (Hblk : blocks (k + 16 * n) = (blocks k + n)%nat) by mod16.
  split; cbn [C_enc C_nr C_M C_authctr C_i C_out set_authctr fst snd]; try done.
  - by rewrite Hblk.
  - mod16.
Qed.

Lemma full_split (p : list Z) :
  exists n, (length p - length p mod 16 = 16 * n)%nat /\ (16 * n <= length p)%nat /\
            (length (drop (16 * n) p) < 16)%nat.
Proof.
  exists (length p / 16)%nat. rewrite length_drop. mod16.
Qed.

(** The middle part of [aes_ccm_enc]: the whole blocks of [p]. *)
Lemma enc_full_spec C k st p n :
  ccm_rep C k st -> snd st = 0%nat -> bytes p -> (16 * n <= length p)%nat ->
  Z.of_nat (blocks k + n) < 65536 ->
  exists C', (if (16 * n =? 0)%nat then (C, [])
      else let '(q, a) := ai_ccm_enc1 I (C_enc C) (take (16 * n) p) (16 * n) (C_authctr C) (C_nr C) in
           (set_authctr C a, q)) = (C', xor_bytes (take (16 * n) p) (stream k (16 * n))) /\
    ccm_rep C' (k + 16 * n) (absorb st (take (16 * n) p)).
Proof using HI Hnonce.
  intros R Hi Hp Hn Hj. destruct n as [|n].
  { exists C. change (16 * 0)%nat with 0%nat. rewrite take_0, Nat.add_0_r. done. }
  replace (16 * S n =? 0)%nat with false by done.
  pose proof (rep_aligned _ _ _ R Hi) as Hk.
  assert (Hl : length (take (16 * S n) p) = (16 * S n)%nat) by (rewrite length_take; lia).
  destruct (r_ok _ _ _ R) as [Hb _].
  rewrite (r_enc _ _ _ R), (r_nr _ _ _ R), (r_ac _ _ _ R).
  rewrite ccm_enc1_ok by (try apply ctr_block_blk; auto with urange; lia).
  assert (Est : stream k (16 * S n) = ctr_stream E (S n) (ctr_block nonce (blocks k)))
    by (rewrite Hk at 1; by apply stream_blocks).
  rewrite Est. eexists. split; [done|]. apply full_rep; auto with urange.
Qed.

Lemma enc_rest C k st p :
  ccm_rep C k st -> snd st = 0%nat -> bytes p -> (0 < length p < 16)%nat ->
  Z.of_nat (blocks k + 1) < 65536 ->
  exists C', aes_ccm_inc (store_auth C 0 (xor (C_auth C) p (length p))) = Ok C' /\
    ai_enc I (C_enc C') (C_ctr C') (C_nr C') = E (ctr_block nonce (blocks k + 1)) /\
    ccm_rep (set_i (set_out C' (E (ctr_block nonce (blocks k + 1)))) (Z.of_nat (length p)))
            (k + length p) (absorb st p).
Proof using HI Hnonce.
  intros R Hi Hp Hn Hj. destruct (r_ok _ _ _ R) as [Hb _]. pose proof Hb as [Hl _].
  pose proof (open_block_spec C k st p R Hi Hp Hn) as R'.
  assert (Hxl : length (xor_at 0 p (fst st)) = 16%nat) by (rewrite length_xor_at; lia).
  assert (Es : C_authctr (store_auth C 0 (xor (C_auth C) p (length p))) =
               xor_at 0 p (fst st) ++ ctr_block nonce (blocks k)).
  { unfold store_auth. cbn [C_authctr set_authctr]. rewrite (rep_auth _ _ _ R), (r_ac _ _ _ R).
    rewrite splice_app_l by (unfold xor, xor_bytes; list_lia).
    rewrite <- (drop_0 (fst st)) at 1. rewrite xor_store, take_ge by lia. done. }
  rewrite (aes_ccm_inc_ok _ _ _ Hxl Es Hj). eexists. split; [done|].
  split; [|exact R'].
  unfold C_ctr. cbn [C_enc C_nr C_authctr set_authctr store_auth].
  rewrite drop_app_length' by done. rewrite (r_enc _ _ _ R), (r_nr _ _ _ R).
  apply enc_ok. by apply ctr_block_blk.
Qed.

(** ** aes_ccm_enc *)

Lemma stream_tail k n :
  (k mod 16 = 0)%nat -> (n <= 16)%nat -> stream k n = take n (E (ctr_block nonce (blocks k + 1))).
Proof using HI Hnonce.
  intros Hk Hn. rewrite stream_within by lia. rewrite Hk. unfold sub_list. rewrite drop_0.
  do 4 f_equal. mod16.
Qed.

Lemma rep_mleft C k st n : ccm_rep C k st -> ccm_rep (set_mleft C n) k st.
Proof. by intros []. Qed.

Lemma aes_ccm_enc_ok C k st inp :
  ccm_rep C k st -> bytes inp -> Z.of_nat (k + length inp) < 65536 * 15 ->
  exists C', aes_ccm_enc I C inp = Ok (C', xor_bytes inp (stream k (length inp))) /\
    ccm_rep C' (k + length inp) (absorb st inp).
Proof using HI Hnonce.
  intros R Hp Hbound. unfold aes_ccm_enc.
  apply (rep_mleft C k st (u64 (C_mleft C - Z.of_nat (length inp)))) in R.
  set (C0 := set_mleft C _) in *. clearbody C0. clear C.
  pose proof (enc_partial_spec C0 k st inp R Hp) as P. cbv zeta in P.
  pose proof (room_le st inp) as Hm. set (m := open_room st inp) in *. clearbody m.
  destruct (ccm_enc_partial I C0 inp) as [[[C1 q1] p] go_on]. destruct P as (R1 & -> & -> & Hgo).
  destruct go_on; cbn [negb]; unfold go_on_ok in Hgo.
  2:{ assert (m = length inp) as -> by (apply (f_equal length) in Hgo; rewrite length_drop in Hgo; cbn in Hgo; lia).
      rewrite take_ge in * by lia. eauto. }
  destruct (full_split (drop m inp)) as (n & -> & Hn & Hr). rewrite length_drop in Hn.
  destruct (enc_full_spec C1 (k + m) (absorb st (take m inp)) (drop m inp) n R1 Hgo) as (C2 & -> & R2);
    [auto with urange|rewrite length_drop; lia|mod16|].
  rewrite <- absorb_app in R2.
  assert (Hgo2 : snd (absorb st (take m inp ++ take (16 * n) (drop m inp))) = 0%nat).
  { rewrite (r_k _ _ _ R2). rewrite (r_k _ _ _ R1) in Hgo. mod16. }
  assert (Hcut : inp = take m inp ++ take (16 * n) (drop m inp) ++ drop (16 * n) (drop m inp))
    by (by rewrite !take_drop).
  assert (Hbr : bytes (drop (16 * n) (drop m inp))) by auto with urange.
  assert (Hly : length (take m inp) = m) by (rewrite length_take; lia).
  assert (Hlx : length (take (16 * n) (drop m inp)) = (16 * n)%nat) by (rewrite length_take, length_drop; lia).
  set (r := drop (16 * n) (drop m inp)) in *. set (x := take (16 * n) (drop m inp)) in *.
  set (y := take m inp) in *. clearbody y x r. subst inp. rewrite !length_app in Hbound.
  rewrite !xor_stream_app, !length_app, Hly, Hlx.
  destruct (length r =? 0)%nat eqn:Er.
  - apply Nat.eqb_eq, nil_length_inv in Er. subst r. exists C2.
    rewrite !app_nil_r. cbn [length]. rewrite Nat.add_0_r, Nat.add_assoc. done.
  - apply Nat.eqb_neq in Er.
    destruct (enc_rest C2 (k + m + 16 * n) _ r R2 Hgo2 Hbr) as (C3 & -> & E3 & R3); [lia|mod16|].
    cbn [res_bind]. rewrite E3. eexists. split.
    + do 4 f_equal. cbn [C_out set_out].
      rewrite stream_tail by (rewrite (r_k _ _ _ R2) in Hgo2; lia).
      unfold xor. rewrite (take_ge r) by lia. apply xor_bytes_comm.
    + rewrite app_assoc, absorb_app.
      by replace (k + (m + (16 * n + length r)))%nat with (k + m + 16 * n + length r)%nat by lia.
Qed.
(** ** aes_ccm_dec: the same machine, absorbing what it outputs *)

Lemma length_xor_stream p k : length (xor_bytes p (stream k (length p))) = length p.
Proof. unfold xor_bytes. rewrite length_zip_with, length_stream. lia. Qed.
Lemma bytes_xor_stream p k : bytes p -> bytes (xor_bytes p (stream k (length p))).
Proof using HI Hnonce. intros. auto with urange. Qed.

Lemma dec_partial_spec C k st p :
  ccm_rep C k st -> bytes p ->
  let m := open_room st p in
  let x := xor_bytes (take m p) (stream k m) in
  let '(C', q, p', go_on) := ccm_dec_partial I C p in
  ccm_rep C' (k + m) (absorb st x) /\ q = x /\ p' = drop m p /\ go_on_ok (absorb st x) p' go_on.
Proof using HI Hnonce.
  intros R Hp m x. unfold ccm_dec_partial. rewrite (rep_i0 C k st R).
  destruct (snd st =? 0)%nat eqn:E0.
  { unfold x. assert (m = 0%nat) as -> by (unfold m, open_room; by rewrite E0).
    rewrite drop_0, Nat.add_0_r. apply Nat.eqb_eq in E0. by split_and!. }
  apply Nat.eqb_neq in E0. destruct (partial_room C k st p R E0) as [-> Hfit]. fold m.
  assert (Hm : (m <= length p)%nat) by apply room_le.
  assert (Hlp : length (take m p) = m) by (rewrite length_take; lia).
  assert (Hlx : length x = m) by (unfold x; rewrite <- Hlp at 2; rewrite length_xor_stream; done).
  assert (Hbx : bytes x) by (unfold x; auto with urange).
  assert (Eq : xor (drop (Z.to_nat (C_i C)) (C_out C)) p m = x).
  { unfold xor. rewrite (rep_out_stream C k st m R E0 Hfit). apply xor_bytes_comm. }
  rewrite Eq. clearbody x.
  destruct (put_close_spec C k st x R E0) as [Hci R']; [done|lia|].
  assert (Hgo : go_on_ok (absorb st x) (drop m p) (C_i (put C x) =? 16)).
  { apply (close_go_on C k); [done|done|done|lia|]. intros Hlt. apply drop_ge.
    unfold m, open_room in *. replace (snd st =? 0)%nat with false in * by (symmetry; by apply Nat.eqb_neq). lia. }
  rewrite Hlx in R', Hci. unfold close in R'.
  assert (Eput : set_i (store_auth C (Z.to_nat (C_i C)) (xor (drop (Z.to_nat (C_i C)) (C_auth C)) x m))
                   (u32 (C_i C + Z.of_nat m)) = put C x).
  { unfold put. by rewrite Hlx. }
  cbn [C_i store_auth set_authctr]. rewrite Eput.
  destruct (C_i (put C x) =? 16); by split_and!.
Qed.

Lemma dec_full_spec C k st p n :
  ccm_rep C k st -> snd st = 0%nat -> bytes p -> (16 * n <= length p)%nat ->
  Z.of_nat (blocks k + n) < 65536 ->
  let x := xor_bytes (take (16 * n) p) (stream k (16 * n)) in
  exists C', (if (16 * n =? 0)%nat then (C, [])
      else let '(q, a) := ai_ccm_dec1 I (C_enc C) (take (16 * n) p) (16 * n) (C_authctr C) (C_nr C) in
           (set_authctr C a, q)) = (C', x) /\
    ccm_rep C' (k + 16 * n) (absorb st x).
Proof using HI Hnonce.
  intros R Hi Hp Hn Hj x. destruct n as [|n].
  { unfold x. exists C. change (16 * 0)%nat with 0%nat. rewrite take_0, Nat.add_0_r. done. }
  replace (16 * S n =? 0)%nat with false by done.
  pose proof (rep_aligned _ _ _ R Hi) as Hk.
  assert (Hl : length (take (16 * S n) p) = (16 * S n)%nat) by (rewrite length_take; lia).
  assert (Hlx : length x = (16 * S n)%nat) by (unfold x; rewrite <- Hl at 2; by rewrite length_xor_stream).
  destruct (r_ok _ _ _ R) as [Hb _].
  rewrite (r_enc _ _ _ R), (r_nr _ _ _ R), (r_ac _ _ _ R).
  rewrite ccm_dec1_ok by (try apply ctr_block_blk; auto with urange; lia).
  assert (Est : stream k (16 * S n) = ctr_stream E (S n) (ctr_block nonce (blocks k)))
    by (rewrite Hk at 1; by apply stream_blocks).
  cbv zeta. rewrite <- Est. eexists. split; [done|]. apply full_rep; auto.
  unfold x; auto with urange.
Qed.

Lemma dec_rest C k st p :
  ccm_rep C k st -> snd st = 0%nat -> bytes p -> (0 < length p < 16)%nat ->
  Z.of_nat (blocks k + 1) < 65536 ->
  let x := xor_bytes p (stream k (length p)) in
  exists C', aes_ccm_inc C = Ok C' /\
    ai_enc I (C_enc C') (C_ctr C') (C_nr C') = E (ctr_block nonce (blocks k + 1)) /\
    C_auth C' = fst st /\
    let C2 := set_out C' (E (ctr_block nonce (blocks k + 1))) in
    ccm_rep (set_i (store_auth C2 0 (xor (C_auth C2) x (length p))) (Z.of_nat (length p)))
            (k + length p) (absorb st x).
Proof using HI Hnonce.
  intros R Hi Hp Hn Hj x. destruct (r_ok _ _ _ R) as [Hb _]. pose proof Hb as [Hl _].
  assert (Hlx : length x = length p) by apply length_xor_stream.
  pose proof (open_block_spec C k st x R Hi ltac:(unfold x; auto with urange) ltac:(lia)) as R'.
  rewrite (aes_ccm_inc_ok _ _ _ Hl (r_ac _ _ _ R) Hj). eexists. split; [done|].
  assert (Ha : C_auth (set_authctr C (fst st ++ ctr_block nonce (blocks k + 1))) = fst st).
  { unfold C_auth. cbn [C_authctr set_authctr]. by apply take_app_length'. }
  split_and!.
  - unfold C_ctr. cbn [C_enc C_nr C_authctr set_authctr].
    rewrite drop_app_length' by done. rewrite (r_enc _ _ _ R), (r_nr _ _ _ R).
    apply enc_ok. by apply ctr_block_blk.
  - exact Ha.
  - cbv zeta. rewrite Hlx in R'.
    assert (Ea : splice 0 (xor (fst st) x (length p)) (fst st) = xor_at 0 x (fst st)).
    { rewrite <- (drop_0 (fst st)) at 1. rewrite xor_store, take_ge by lia. done. }
    unfold store_auth. change (C_auth (set_out ?c _)) with (C_auth c). rewrite Ha.
    cbn [C_authctr set_authctr set_out].
    rewrite splice_app_l by (unfold xor, xor_bytes; list_lia).
    rewrite Ea. exact R'.
Qed.

Lemma aes_ccm_dec_ok C k st inp :
  ccm_rep C k st -> bytes inp -> Z.of_nat (k + length inp) < 65536 * 15 ->
  let out := xor_bytes inp (stream k (length inp)) in
  exists C', aes_ccm_dec I C inp = Ok (C', out) /\ ccm_rep C' (k + length inp) (absorb st out).
Proof using HI Hnonce.
  intros R Hp Hbound. cbv zeta. unfold aes_ccm_dec.
  apply (rep_mleft C k st (u64 (C_mleft C - Z.of_nat (length inp)))) in R.
  set (C0 := set_mleft C _) in *. clearbody C0. clear C.
  pose proof (dec_partial_spec C0 k st inp R Hp) as P. cbv zeta in P.
  pose proof (room_le st inp) as Hm. set (m := open_room st inp) in *. clearbody m.
  destruct (ccm_dec_partial I C0 inp) as [[[C1 q1] p] go_on]. destruct P as (R1 & -> & -> & Hgo).
  destruct go_on; cbn [negb]; unfold go_on_ok in Hgo.
  2:{ assert (m = length inp) as -> by (apply (f_equal length) in Hgo; rewrite length_drop in Hgo; cbn in Hgo; lia).
      rewrite take_ge in * by lia. eauto. }
  destruct (full_split (drop m inp)) as (n & -> & Hn & Hr). rewrite length_drop in Hn.
  destruct (dec_full_spec C1 (k + m) _ (drop m inp) n R1 Hgo) as (C2 & -> & R2);
    [auto with urange|rewrite length_drop; lia|mod16|].
  rewrite <- absorb_app in R2.
  assert (Hgo2 : ((k + m + 16 * n) mod 16 = 0)%nat).
  { rewrite (r_k _ _ _ R1) in Hgo. mod16. }
  assert (Hcut : inp = take m inp ++ take (16 * n) (drop m inp) ++ drop (16 * n) (drop m inp))
    by (by rewrite !take_drop).
  assert (Hbr : bytes (drop (16 * n) (drop m inp))) by auto with urange.
  assert (Hly : length (take m inp) = m) by (rewrite length_take; lia).
  assert (Hlx : length (take (16 * n) (drop m inp)) = (16 * n)%nat) by (rewrite length_take, length_drop; lia).
  set (r := drop (16 * n) (drop m inp)) in *. set (x := take (16 * n) (drop m inp)) in *.
  set (y := take m inp) in *. clearbody y x r. subst inp. rewrite !length_app in Hbound.
  rewrite !xor_stream_app, !length_app, Hly, Hlx.
  destruct (length r =? 0)%nat eqn:Er.
  - apply Nat.eqb_eq, nil_length_inv in Er. subst r. exists C2.
    cbn [length xor_bytes zip_with]. rewrite !app_nil_r. rewrite Nat.add_0_r, Nat.add_assoc. done.
  - apply Nat.eqb_neq in Er.
    assert (Hi2 : snd (absorb st (xor_bytes y (stream k m) ++ xor_bytes x (stream (k + m) (16 * n)))) = 0%nat)
      by (by rewrite (r_k _ _ _ R2)).
    destruct (dec_rest C2 (k + m + 16 * n) _ r R2 Hi2 Hbr) as (C3 & -> & E3 & A3 & R3); [lia|mod16|].
    cbn [res_bind]. rewrite E3. cbv zeta in R3.
    assert (Eq : xor (E (ctr_block nonce (blocks (k + m + 16 * n) + 1))) r (length r) =
                 xor_bytes r (stream (k + m + 16 * n) (length r))).
    { rewrite stream_tail by lia. unfold xor. rewrite (take_ge r) by lia. apply xor_bytes_comm. }
    cbn [C_out set_out]. rewrite Eq. eexists. split; [done|].
    rewrite app_assoc, absorb_app.
    by replace (k + (m + (16 * n + length r)))%nat with (k + m + 16 * n + length r)%nat by lia.
Qed.
End Contract.
