(* ===== verification/AesCcmRfc.v ===== *)
(** * AES-CCM: initialisation, tag, and the message operations as RFC 3610

    The one-shot definition of CCM (RFC 3610 with [L = 2]) over a block
    function, and the streaming operations as that definition for any way of
    cutting the message into calls or into mbufs. *)

From S2P Require Import Prelude Buffers Endian AesSpec AesBlock AesBear AesBearProof Mbuf MbufProof.
From S2P Require Import AesCcm AesCcmProof.

(** ** RFC 3610 *)

Section Rfc3610.
Context (E : list Z -> list Z).

Definition rfc_flags (M : Z) (ad : list Z) : Z :=
  64 * (if (length ad =? 0)%nat then 0 else 1) + 8 * ((M - 2) / 2) + 1.

Definition rfc_b0 (M : Z) (nonce ad : list Z) (mlen : nat) : list Z :=
  [rfc_flags M ad] ++ nonce ++ be16 mlen.

(** The additional data with its length in front, for fewer than 2^16 - 2^8 bytes. *)
Definition rfc_ad (ad : list Z) : list Z :=
  if (length ad =? 0)%nat then [] else pad16 (be16 (length ad) ++ ad).

(** The CBC-MAC value T. *)
Definition rfc_mac (M : Z) (nonce ad msg : list Z) : list Z :=
  let x := rfc_b0 M nonce ad (length msg) ++ rfc_ad ad ++ pad16 msg in
  cbcmac E (length x / 16) zero_blk x.

(** The authentication value U. *)
Definition rfc_tag (M : Z) (nonce ad msg : list Z) : list Z :=
  xor_bytes (take (Z.to_nat M) (E (ctr_block nonce 0))) (take (Z.to_nat M) (rfc_mac M nonce ad msg)).

(** Encryption and decryption are the same: add the key stream S_1, S_2, ... *)
Definition rfc_crypt (nonce msg : list Z) : list Z := xor_bytes msg (stream E nonce 0 (length msg)).

Lemma rfc_crypt_twice nonce msg : rfc_crypt nonce (rfc_crypt nonce msg) = msg.
Proof.
  unfold rfc_crypt. rewrite length_xor_stream.
  pose proof (length_stream E nonce 0 (length msg)) as Hl. revert Hl.
  generalize (stream E nonce 0 (length msg)). unfold xor_bytes.
  induction msg as [|x m IH]; intros [|y k] Hl; cbn in *; try lia; [done|].
  rewrite IH by lia. by rewrite Z.lxor_assoc, Z.lxor_nilpotent, Z.lxor_0_r.
Qed.
End Rfc3610.

Lemma length_pad16 l : (length (pad16 l) mod 16 = 0)%nat.
Proof. unfold pad16. rewrite length_app, length_replicate. mod16. Qed.
Lemma pad16_bytes l : bytes l -> bytes (pad16 l).
Proof. intros. unfold pad16. apply bytes_app. split; [done|apply bytes_zeros]. Qed.

Lemma xor_at_app i a b auth :
  (i + length a + length b <= length auth)%nat ->
  xor_at i (a ++ b) auth = xor_at (i + length a) b (xor_at i a auth).
Proof.
  revert i auth. induction a as [|x a IH]; intros i auth H; cbn [app length] in *.
  { by rewrite xor_at_nil, Nat.add_0_r. }
  rewrite (xor_at_cons i x (a ++ b)), (xor_at_cons i x a) by (rewrite ?length_app; lia).
  rewrite IH by (rewrite length_xor_at; cbn; lia). by replace (S i + length a)%nat with (i + S (length a))%nat by lia.
Qed.

(** ** Initialisation *)

Section Init.
Context (I : aes_impl) (rk : list Z) (nr : nat) (E : list Z -> list Z).
Context `{HI : !aes_impl_ok I rk nr E}.

Lemma enc_auth_eq C a c :
  C_enc C = rk -> C_nr C = nr -> blk a -> C_authctr C = a ++ c ->
  enc_auth I C = set_authctr C (E a ++ c).
Proof using HI.
  intros He Hn Ha Hc. unfold enc_auth, store_auth, C_auth. rewrite Hc, He, Hn.
  rewrite take_app_length' by (by destruct Ha). rewrite enc_ok by done.
  pose proof (E_blk _ Ha) as [Hl _]. destruct Ha as [Hla _].
  by rewrite splice_app_l, splice_all by lia.
Qed.

(** The additional data that [aes_ccm_init] handles as the RFC says: what
    does not fit in the first block is less than a block or whole blocks. *)
Definition ad_ok (ad : list Z) : Prop :=
  (length ad < 30)%nat \/ ((length ad - 14) mod 16 = 0)%nat.

Lemma store_auth_xor C a c i p n :
  length a = 16%nat -> C_authctr C = a ++ c -> (i + n <= 16)%nat -> (n <= length p)%nat ->
  store_auth C i (xor (drop i (C_auth C)) p n) = set_authctr C (xor_at i (take n p) a ++ c).
Proof.
  intros Hl Hc Hi Hn. unfold store_auth, C_auth. rewrite Hc, take_app_length' by done.
  rewrite splice_app_l by (unfold xor, xor_bytes; list_lia). by rewrite xor_store by lia.
Qed.

Lemma init_ad_rest_spec C a c adp :
  C_enc C = rk -> C_nr C = nr -> blk a -> C_authctr C = a ++ c -> bytes adp ->
  (length adp < 16 \/ length adp mod 16 = 0)%nat ->
  aes_ccm_init_ad_rest I C adp = set_authctr C (finish E (absorb E (a, 0%nat) adp) ++ c).
Proof using HI.
  intros He Hn Ha Hc Hb Hcases. unfold aes_ccm_init_ad_rest. pose proof Ha as [Hla _].
  destruct Hcases as [Hsmall|Hfull].
  - rewrite (Nat.mod_small (length adp)) by lia. rewrite Nat.sub_diag. cbn [Nat.eqb].
    rewrite absorb_within by (done || lia). unfold finish. cbn [Nat.add].
    replace (length adp =? 16)%nat with false by (symmetry; apply Nat.eqb_neq; lia). cbn [fst snd].
    destruct (length adp =? 0)%nat eqn:E0.
    { apply Nat.eqb_eq, nil_length_inv in E0. rewrite E0, xor_at_nil, <- Hc. by destruct C. }
    rewrite <- (drop_0 (C_auth _)). rewrite (store_auth_xor _ a c) by (done || lia).
    rewrite (take_ge adp) by lia.
    rewrite (enc_auth_eq _ (xor_at 0 adp a) c); [done|done|done| |done].
    apply xor_at_blk; [done|done|lia].
  - rewrite Hfull, Nat.sub_0_r. cbn [Nat.eqb].
    set (q := (length adp / 16)%nat). assert (Hq : length adp = (16 * q)%nat) by (unfold q; mod16).
    pose proof (absorb_ok I rk nr E (a, 0%nat) adp ltac:(split; [done|cbn; lia]) Hb) as [[Hcl _] _].
    rewrite (absorb_blocks I rk nr E q) in * by done. unfold finish. cbn [fst snd Nat.eqb] in *.
    destruct (length adp =? 0)%nat eqn:E0.
    { apply Nat.eqb_eq in E0. replace q with 0%nat by lia. cbn [cbcmac]. rewrite <- Hc. by destruct C. }
    apply Nat.eqb_neq in E0. rewrite take_ge by lia. unfold store_auth, C_auth.
    rewrite Hc, He, Hn, take_app_length', Hq, cbcmac_ok by (done || lia).
    by rewrite splice_app_l, splice_all by lia.
Qed.

Lemma init_ad_spec C a c ad :
  C_enc C = rk -> C_nr C = nr -> blk a -> C_authctr C = a ++ c ->
  bytes ad -> Z.of_nat (length ad) < 0xff00 -> ad_ok ad ->
  aes_ccm_init_ad I C ad = set_authctr C (finish E (absorb E (a, 0%nat) (be16 (length ad) ++ ad)) ++ c).
Proof using HI.
  intros He Hn Ha Hc Hb Hlt Hok. unfold aes_ccm_init_ad, ad_len_bytes.
  replace (Z.of_nat (length ad) <? 0xff00) with true by (symmetry; apply Z.ltb_lt; done).
  change [u8 (Z.shiftr (Z.of_nat (length ad)) 8); u8 (Z.of_nat (length ad))] with (be16 (length ad)).
  assert (Hb16 : bytes (be16 (length ad))) by (unfold be16; split_Forall; auto with urange).
  change (length (be16 (length ad))) with 2%nat.
  set (lb := be16 (length ad)) in *. assert (Hlb : length lb = 2%nat) by done. clearbody lb.
  pose proof Ha as [Hla _].
  set (n := Nat.min (length ad) (16 - 2)). assert (Hn14 : (n <= 14 /\ n <= length ad)%nat) by (unfold n; lia).
  rewrite <- (drop_0 (C_auth C)). rewrite (store_auth_xor C a c) by (done || lia).
  rewrite (take_ge lb) by lia.
  assert (Hx2 : length (xor_at 0 lb a) = 16%nat) by (rewrite length_xor_at; lia).
  rewrite (store_auth_xor _ (xor_at 0 lb a) c) by (done || lia).
  assert (Ehd : xor_at 2 (take n ad) (xor_at 0 lb a) = xor_at 0 (lb ++ take n ad) a).
  { rewrite xor_at_app by (rewrite length_take; lia). by rewrite Hlb. }
  assert (Hll : length (lb ++ take n ad) = (2 + n)%nat) by (rewrite length_app, length_take; lia).
  assert (Hbl : bytes (lb ++ take n ad)) by (apply bytes_app; auto with urange).
  rewrite Ehd. set (hd := xor_at 0 (lb ++ take n ad) a).
  assert (Hhd : blk hd) by (apply xor_at_blk; [done|done|lia]).
  rewrite (enc_auth_eq _ hd c) by done.
  set (adp := drop n ad). assert (Hadp : length adp = (length ad - n)%nat) by apply length_drop.
  assert (Habs : absorb E (a, 0%nat) (lb ++ ad) =
    absorb E (if (2 + n =? 16)%nat then (E hd, 0%nat) else (hd, (2 + n)%nat)) adp).
  { rewrite <- (take_drop n ad) at 1. rewrite app_assoc, absorb_app. fold adp.
    rewrite absorb_within, Hll by (done || lia). done. }
  rewrite Habs. destruct (2 + n =? 16)%nat eqn:E16; [apply Nat.eqb_eq in E16|apply Nat.eqb_neq in E16].
  - rewrite (init_ad_rest_spec _ (E hd) c); [done|done|done|by apply E_blk|done|unfold adp; auto with urange|].
    unfold ad_ok in Hok. rewrite Hadp. replace n with 14%nat by lia. destruct Hok; [left; lia|by right].
  - assert (adp = []) as -> by (apply nil_length_inv; unfold n in *; lia). done.
Qed.

(** ** The first block *)

Lemma shiftl_or_flags M b :
  In M [4; 6; 8; 10; 12; 14; 16] -> (b = 0 \/ b = 1) ->
  u8 (Z.lor (u8 (Z.lor (u8 (Z.shiftl b 6)) (Z.shiftl ((M - 2) / 2) 3))) (2 - 1)) =
  64 * b + 8 * ((M - 2) / 2) + 1.
Proof.
  intros HM Hb. cbn in HM.
  repeat (destruct HM as [<-|HM]; [destruct Hb as [-> | ->]; reflexivity|]). done.
Qed.

Lemma ctr_stores x nonce :
  length x = 16%nat -> nonce_ok nonce ->
  splice 14 (replicate 2 0) (splice 1 nonce (splice 0 [1] x)) = ctr_block nonce 0.
Proof.
  intros Hx Hn. nonce_cases nonce Hn. do 16 (destruct x as [|? x]; [discriminate Hx|]).
  destruct x; [|discriminate Hx]. reflexivity.
Qed.
Lemma b0_stores x nonce f lo hi :
  length x = 16%nat -> nonce_ok nonce ->
  splice 14 [hi] (splice 15 [lo] (splice 1 nonce (splice 0 [f] x))) = [f] ++ nonce ++ [hi; lo].
Proof.
  intros Hx Hn. nonce_cases nonce Hn. do 16 (destruct x as [|? x]; [discriminate Hx|]).
  destruct x; [|discriminate Hx]. reflexivity.
Qed.

(** The state [aes_ccm_init] leaves: nothing of the message done, and the
    authenticator holding the MAC of B0 and of the additional data. *)
Definition mac0 (M : Z) (nonce ad : list Z) (mlen : nat) : list Z :=
  let b0 := E (rfc_b0 M nonce ad mlen) in
  if (length ad =? 0)%nat then b0 else finish E (absorb E (b0, 0%nat) (be16 (length ad) ++ ad)).

Lemma rfc_b0_blk M nonce ad mlen :
  In M [4; 6; 8; 10; 12; 14; 16] -> nonce_ok nonce -> blk (rfc_b0 M nonce ad mlen).
Proof.
  intros HM [Hl Hb]. unfold rfc_b0, be16. split; [list_lia|].
  rewrite !bytes_app. split_and!; [|done|split_Forall; auto with urange].
  apply bytes1. unfold rfc_flags, is_u. cbn in HM.
  destruct (length ad =? 0)%nat;
    repeat (destruct HM as [<-|HM]; [split; [discriminate|reflexivity]|]); done.
Qed.

Lemma mac0_blk M nonce ad mlen :
  In M [4; 6; 8; 10; 12; 14; 16] -> nonce_ok nonce -> bytes ad -> blk (mac0 M nonce ad mlen).
Proof using HI.
  intros HM Hn Hb. pose proof (E_blk _ (rfc_b0_blk M nonce ad mlen HM Hn)) as Hb0.
  unfold mac0. case_match; [done|]. unfold finish.
  assert (Hst : st_ok (absorb E (E (rfc_b0 M nonce ad mlen), 0%nat) (be16 (length ad) ++ ad))).
  { apply (absorb_ok I rk nr E); [split; [done|cbn; lia]|].
    apply bytes_app. split; [unfold be16; split_Forall; auto with urange|done]. }
  destruct Hst. case_match; [done|by apply E_blk].
Qed.
(** [aes_ccm_init] for CCM with a 13-byte nonce and a 2-byte length field. *)
Lemma aes_ccm_init_ok C M nonce ad mlen :
  length (C_authctr C) = 32%nat -> In M [4; 6; 8; 10; 12; 14; 16] -> nonce_ok nonce ->
  bytes ad -> Z.of_nat (length ad) < 0xff00 -> ad_ok ad -> Z.of_nat mlen < 65536 ->
  ccm_rep rk nr E nonce M (aes_ccm_init I C nr rk 2 M nonce ad (Z.of_nat mlen)) 0
          (mac0 M nonce ad mlen, 0%nat).
Proof using HI.
  intros HC HM Hn Hb Hlt Hok Hml. pose proof (mac0_blk M nonce ad mlen HM Hn Hb) as Hmac.
  pose proof (rfc_b0_blk M nonce ad mlen HM Hn) as Hb0. pose proof Hn as [Hnl _].
  unfold aes_ccm_init. rewrite Hnl. change (Z.to_nat 2) with 2%nat. cbn [store_mlen].
  rewrite (shiftl_or_flags M (if (length ad =? 0)%nat then 0 else 1)) by (done || case_match; auto).
  fold (rfc_flags M ad). change (Z.land ?x 0xff) with (u8 x).
  set (x := take 16 (C_authctr C)). set (y := drop 16 (C_authctr C)).
  assert (Exy : C_authctr C = x ++ y) by (symmetry; apply take_drop).
  assert (Hx : length x = 16%nat) by (unfold x; rewrite length_take; lia).
  assert (Hy : length y = 16%nat) by (unfold y; rewrite length_drop; lia). clearbody x y.
  pose proof (E_blk _ Hb0) as HE.
  match goal with |- context [if (length ad =? 0)%nat then ?c else aes_ccm_init_ad I ?c ad] =>
    set (C1 := c) end.
  assert (H1 : C_enc C1 = rk /\ C_nr C1 = nr /\ C_M C1 = M /\
               C_authctr C1 = E (rfc_b0 M nonce ad mlen) ++ y).
  { unfold C1, store_auth. cbn [C_authctr set_authctr].
    change (16 - 0 - 1)%nat with 15%nat. change (16 - 1 - 1)%nat with 14%nat. rewrite Exy.
    rewrite !splice_app_l by (rewrite ?length_splice; rewrite ?length_splice; rewrite ?length_splice; cbn [length]; lia).
    rewrite b0_stores by done.
    change ([rfc_flags M ad] ++ nonce ++ [u8 (Z.shiftr (Z.of_nat mlen) 8); u8 (Z.of_nat mlen)])
      with (rfc_b0 M nonce ad mlen).
    by rewrite (enc_auth_eq _ (rfc_b0 M nonce ad mlen) y). }
  clearbody C1. destruct H1 as (He1 & Hn1 & HM1 & Hc1).
  assert (Ead : (if (length ad =? 0)%nat then C1 else aes_ccm_init_ad I C1 ad) =
                set_authctr C1 (mac0 M nonce ad mlen ++ y)).
  { unfold mac0. destruct (length ad =? 0)%nat; [rewrite <- Hc1; by destruct C1|]. by apply init_ad_spec. }
  rewrite Ead. change (u8 (2 - 1)) with 1. destruct Hmac as [Hml' Hmb].
  assert (G : forall off b z, length z = 16%nat -> (off + length b <= 16)%nat ->
     splice (16 + off) b (mac0 M nonce ad mlen ++ z) = mac0 M nonce ad mlen ++ splice off b z).
  { intros off b z Hz Hle. rewrite <- Hml'. apply splice_app_r. lia. }
  unfold store_ctr. cbn [C_authctr set_authctr].
  change (1 + 13)%nat with 14%nat. change (16 - 1 - 13)%nat with 2%nat.
  rewrite !G by (rewrite ?length_splice; rewrite ?length_splice; cbn [length replicate]; lia).
  rewrite ctr_stores by done.
  split; try done. split; [by split|cbn; lia].
Qed.

(** ** The tag *)

Lemma aes_ccm_tag_ok C k st nonce M :
  nonce_ok nonce -> ccm_rep rk nr E nonce M C k st ->
  snd (aes_ccm_tag I C) =
  xor_bytes (take (Z.to_nat M) (E (ctr_block nonce 0))) (take (Z.to_nat M) (finish E st)).
Proof using HI.
  intros Hn R. unfold aes_ccm_tag. rewrite (rep_i0 rk nr E nonce M C k st R).
  destruct R as [Re Rn RM Rac Ri _ [Hb Hi] _].
  set (C1 := if (snd st =? 0)%nat then C else enc_auth I C).
  assert (Ec : C1 = set_authctr C (finish E st ++ ctr_block nonce (blocks k))).
  { unfold C1, finish. destruct (snd st =? 0)%nat; [rewrite <- Rac; by destruct C|].
    by apply enc_auth_eq. }
  assert (Hf : blk (finish E st)) by (unfold finish; case_match; [done|by apply E_blk]).
  rewrite Ec. clear Ec C1. destruct Hf as [Hfl Hfb].
  unfold aes_ccm_zero_ctr, store_ctr, C_ctr, C_auth, xor. cbn [C_authctr set_authctr set_out C_out C_enc C_nr C_M snd].
  pose proof (ctr_block_blk nonce (blocks k) Hn) as [Hcb _].
  assert (Esp : splice (16 + 14) [0; 0] (finish E st ++ ctr_block nonce (blocks k)) =
                finish E st ++ splice 14 [0; 0] (ctr_block nonce (blocks k))).
  { rewrite <- Hfl at 1. apply splice_app_r. cbn [length]. lia. }
  rewrite Esp.
  assert (Hz : splice 14 [0; 0] (ctr_block nonce (blocks k)) = ctr_block nonce 0).
  { unfold ctr_block, be16.
    destruct (ctr_bytes nonce (u8 (Z.shiftr (Z.of_nat (blocks k)) 8)) (u8 (Z.of_nat (blocks k))) Hn)
      as (_ & _ & _ & _ & _ & S). apply S. }
  rewrite Hz, drop_app_length', Re, Rn, enc_ok by (done || by apply ctr_block_blk).
  rewrite take_app_length' by done. by rewrite RM.
Qed.
(** ** The authenticator after the whole message is the MAC of the RFC *)

Lemma absorb_padded auth l :
  blk auth -> bytes l -> absorb E (auth, 0%nat) (pad16 l) = (finish E (absorb E (auth, 0%nat) l), 0%nat).
Proof using HI.
  intros Ha Hl. rewrite (finish_pad I rk nr E) by done.
  pose proof (absorb_index E (auth, 0%nat) (pad16 l) ltac:(cbn; lia)) as Hi.
  cbn [snd Nat.add] in Hi. rewrite length_pad16 in Hi.
  destruct (absorb E (auth, 0%nat) (pad16 l)) as [a i]. cbn [fst snd] in *. by subst.
Qed.

Lemma absorb_b0 b0 : blk b0 -> absorb E (zero_blk, 0%nat) b0 = (E b0, 0%nat).
Proof.
  intros [Hl Hb]. rewrite absorb_within, xor_at_full by (apply zero_blk_blk || done || lia).
  rewrite Hl. cbn [Nat.add Nat.eqb]. do 2 f_equal.
  do 16 (destruct b0 as [|? b0]; [discriminate Hl|]). destruct b0; [reflexivity|discriminate Hl].
Qed.

Lemma rfc_mac_spec M nonce ad msg :
  In M [4; 6; 8; 10; 12; 14; 16] -> nonce_ok nonce -> bytes ad -> bytes msg ->
  finish E (absorb E (mac0 M nonce ad (length msg), 0%nat) msg) = rfc_mac E M nonce ad msg.
Proof using HI.
  intros HM Hn Hb Hm. unfold rfc_mac.
  pose proof (rfc_b0_blk M nonce ad (length msg) HM Hn) as Hb0.
  pose proof (mac0_blk M nonce ad (length msg) HM Hn Hb) as Hmac.
  set (x := rfc_b0 M nonce ad (length msg) ++ rfc_ad ad ++ pad16 msg).
  assert (Hbad : bytes (be16 (length ad) ++ ad)).
  { apply bytes_app. split; [unfold be16; split_Forall; auto with urange|done]. }
  assert (Had : bytes (rfc_ad ad) /\ (length (rfc_ad ad) mod 16 = 0)%nat /\
    absorb E (E (rfc_b0 M nonce ad (length msg)), 0%nat) (rfc_ad ad) = (mac0 M nonce ad (length msg), 0%nat)).
  { unfold rfc_ad, mac0. destruct (length ad =? 0)%nat; [split_and!; [constructor|done|done]|].
    split_and!; [by apply pad16_bytes|apply length_pad16|]. apply absorb_padded; [by apply E_blk|done]. }
  destruct Had as (Had1 & Had2 & Had3).
  assert (Hx : bytes x) by (unfold x; rewrite !bytes_app; split_and!; [apply Hb0|done|by apply pad16_bytes]).
  assert (Hlx : length x = (16 * (length x / 16))%nat).
  { assert (length x mod 16 = 0)%nat; [|mod16]. unfold x. rewrite !length_app, (proj1 Hb0).
    pose proof (length_pad16 msg). mod16. }
  transitivity (fst (absorb E (zero_blk, 0%nat) x)).
  - unfold x. by rewrite !absorb_app, absorb_b0, Had3, absorb_padded.
  - by rewrite (absorb_blocks I rk nr E (length x / 16)) by (apply zero_blk_blk || done).
Qed.
End Init.

(** ** Messages in pieces *)

(** Call [f] on each piece in turn. *)
Fixpoint feed {S} (f : S -> list Z -> res (S * list Z)) (s : S) (segs : list (list Z))
    : res (S * list (list Z)) :=
  match segs with
  | [] => Ok (s, [])
  | x :: segs =>
      let* (s, q) := f s x in
      let* (s, qs) := feed f s segs in
      Ok (s, q :: qs)
  end.

Section Messages.
Context (I : aes_impl) (rk : list Z) (nr : nat) (E : list Z -> list Z).
Context `{HI : !aes_impl_ok I rk nr E}.
Context (nonce : list Z) (Hnonce : nonce_ok nonce) (M : Z).

Lemma feed_enc C k st segs :
  ccm_rep rk nr E nonce M C k st -> bytes (concat segs) ->
  Z.of_nat (k + length (concat segs)) < 65536 * 15 ->
  exists C' outs, feed (aes_ccm_enc I) C segs = Ok (C', outs) /\
    concat outs = xor_bytes (concat segs) (stream E nonce k (length (concat segs))) /\
    map length outs = map length segs /\
    ccm_rep rk nr E nonce M C' (k + length (concat segs)) (absorb E st (concat segs)).
Proof using HI Hnonce.
  revert C k st. induction segs as [|x segs IH]; intros C k st R Hb Hk; cbn [feed concat] in *.
  { exists C, []. rewrite Nat.add_0_r. by split_and!. }
  apply bytes_app in Hb as [Hx Hb]. rewrite length_app in Hk.
  destruct (aes_ccm_enc_ok I rk nr E nonce Hnonce M C k st x R Hx ltac:(lia)) as (C1 & -> & R1).
  cbn [res_bind]. destruct (IH C1 (k + length x)%nat _ R1 Hb ltac:(lia)) as (C2 & outs & -> & E2 & L2 & R2).
  cbn [res_bind]. eexists _, _. split; [done|]. split_and!.
  - cbn [concat]. by rewrite E2, xor_stream_app.
  - cbn [map]. by rewrite L2, length_xor_stream.
  - rewrite length_app, absorb_app, Nat.add_assoc. done.
Qed.

Lemma feed_dec C k st segs :
  ccm_rep rk nr E nonce M C k st -> bytes (concat segs) ->
  Z.of_nat (k + length (concat segs)) < 65536 * 15 ->
  let out := xor_bytes (concat segs) (stream E nonce k (length (concat segs))) in
  exists C' outs, feed (aes_ccm_dec I) C segs = Ok (C', outs) /\
    concat outs = out /\ map length outs = map length segs /\
    ccm_rep rk nr E nonce M C' (k + length (concat segs)) (absorb E st out).
Proof using HI Hnonce.
  revert C k st. induction segs as [|x segs IH]; intros C k st R Hb Hk; cbn [feed concat] in *.
  { exists C, []. rewrite Nat.add_0_r. by split_and!. }
  apply bytes_app in Hb as [Hx Hb]. rewrite length_app in Hk.
  destruct (aes_ccm_dec_ok I rk nr E nonce Hnonce M C k st x R Hx ltac:(lia)) as (C1 & -> & R1).
  cbn [res_bind]. destruct (IH C1 (k + length x)%nat _ R1 Hb ltac:(lia)) as (C2 & outs & -> & E2 & L2 & R2).
  cbn [res_bind]. eexists _, _. split; [done|]. cbv zeta in *. split_and!.
  - cbn [concat]. by rewrite E2, xor_stream_app.
  - cbn [map]. by rewrite L2, length_xor_stream.
  - rewrite xor_stream_app, length_app, absorb_app, Nat.add_assoc. done.
Qed.
End Messages.

(** ** Comparing tags *)

Lemma fold_lor_0 (g : nat -> Z) l acc :
  0 <= acc -> (forall i, 0 <= g i) ->
  fold_left (fun d i => Z.lor d (g i)) l acc = 0 <-> acc = 0 /\ Forall (fun i => g i = 0) l.
Proof.
  intros Ha Hg. revert acc Ha. induction l as [|i l IH]; intros acc Ha; cbn [fold_left].
  { split; [intros ->; by split|by intros []]. }
  rewrite IH by (apply Z.lor_nonneg; auto). rewrite Z.lor_eq_0_iff, List.Forall_cons_iff. tauto.
Qed.

Lemma consttime_memequal_spec a b n :
  bytes a -> bytes b -> (n <= length a)%nat -> (n <= length b)%nat ->
  consttime_memequal a b n = true <-> take n a = take n b.
Proof.
  intros Ha Hb Hla Hlb. unfold consttime_memequal. rewrite Z.eqb_eq.
  rewrite (fold_lor_0 (fun i => u8 (Z.lxor (byte_at a i) (byte_at b i))))
    by (try lia; intros i; apply u8_range).
  assert (G : forall i, u8 (Z.lxor (byte_at a i) (byte_at b i)) = 0 <-> byte_at a i = byte_at b i).
  { intros i. pose proof (byte_at_range a i Ha). pose proof (byte_at_range b i Hb).
    rewrite u8_id by auto with urange. apply Z.lxor_eq_0_iff. }
  split.
  - intros [_ H]. apply list_eq. intros i. rewrite !lookup_take. case_decide; [|done].
    rewrite !lookup_byte_at by lia. f_equal. apply G.
    eapply List.Forall_forall in H; [exact H|]. apply in_seq. lia.
  - intros E. split; [done|]. apply List.Forall_forall. intros i Hi%in_seq. apply G.
    rewrite <- (byte_at_take a n i), <- (byte_at_take b n i) by lia. by rewrite E.
Qed.

Lemma init_ad_tail I C a t1 t2 :
  (30 <= length a)%nat -> ((length a - 14) mod 16 = 0)%nat -> length t1 = length t2 ->
  (length t1 < 16)%nat -> Z.of_nat (length a + length t1) < 0xff00 ->
  aes_ccm_init_ad I C (a ++ t1) = aes_ccm_init_ad I C (a ++ t2).
Proof.
  intros Ha Hmod Ht Ht16 Hlen.
  assert (Hl : length (a ++ t1) = length (a ++ t2)) by (rewrite !length_app; lia).
  unfold aes_ccm_init_ad, ad_len_bytes. rewrite <- Hl.
  replace (Z.of_nat (length (a ++ t1)) <? 0xff00) with true
    by (symmetry; apply Z.ltb_lt; rewrite length_app; lia).
  cbn [length]. replace (Nat.min (length (a ++ t1)) (16 - 2)) with 14%nat by (rewrite length_app; lia).
  unfold xor. rewrite !(take_app_le a _ 14), !(drop_app_le a _ 14) by lia.
  match goal with |- aes_ccm_init_ad_rest I ?c _ = _ => generalize c end. clear C. intros C.
  unfold aes_ccm_init_ad_rest.
  set (d := drop 14 a). assert (Hd : length d = (length a - 14)%nat) by apply length_drop.
  assert (Hm : forall t, (length t < 16)%nat ->
    (length (d ++ t) mod 16 = length t)%nat /\ (length (d ++ t) - length t = length d)%nat).
  { intros t Hts. rewrite length_app. split; [|lia]. mod16. }
  destruct (Hm t1 Ht16) as [Em1 Es1], (Hm t2 ltac:(lia)) as [Em2 Es2]. rewrite Em1, Em2, Es1, Es2, Ht.
  rewrite !take_app_length. unfold xor. by rewrite !(take_app_le d) by lia.
Qed.

(** ** Properties *)

(** C21. Streaming encryption is the CCM of RFC 3610, for any implementation that
    meets its contract: after [aes_ccm_init] for a message of the promised
    length, feeding the message to [aes_ccm_enc] in pieces of any sizes never
    panics, produces the RFC ciphertext, and [aes_ccm_tag] gives the RFC
    authentication value.  (The additional data must satisfy [ad_ok].) *)
Theorem aes_ccm_enc_is_rfc3610 (I : aes_impl) (rk : list Z) (nr : nat) (E : list Z -> list Z)
    (HI : aes_impl_ok I rk nr E) (C : aes_ccm) (M : Z) (nonce ad : list Z) (segs : list (list Z))
    (HC : length (C_authctr C) = 32%nat) (HM : In M [4; 6; 8; 10; 12; 14; 16])
    (Hn : nonce_ok nonce) (Hb : bytes ad) (Hlt : Z.of_nat (length ad) < 0xff00) (Hok : ad_ok ad)
    (Hm : bytes (concat segs)) (Hlen : Z.of_nat (length (concat segs)) < 65536) :
  let msg := concat segs in
  exists C' outs,
    feed (aes_ccm_enc I) (aes_ccm_init I C nr rk 2 M nonce ad (Z.of_nat (length msg))) segs
      = Ok (C', outs) /\
    concat outs = rfc_crypt E nonce msg /\ map length outs = map length segs /\
    snd (aes_ccm_tag I C') = rfc_tag E M nonce ad msg.
Proof.
  intros msg.
  pose proof (aes_ccm_init_ok I rk nr E C M nonce ad (length msg) HC HM Hn Hb Hlt Hok Hlen) as R.
  destruct (feed_enc I rk nr E nonce Hn M _ 0 _ segs R Hm ltac:(lia)) as (C' & outs & Ef & Eo & Lo & R').
  exists C', outs. split_and!; [done|done|done|].
  rewrite (aes_ccm_tag_ok I rk nr E C' _ _ nonce M Hn R'). unfold rfc_tag.
  by rewrite (rfc_mac_spec I rk nr E).
Qed.

(** Uninitialised memory for the state. *)
Definition ccm_scratch : aes_ccm := mkCcm [] (replicate 32 0xaa) (replicate 16 0xbb) 0 0 0 0 0 0.
Definition rfc_key : list Z := map Z.of_nat (seq 0xc0 16).
Definition rfc_rk : list Z :=
  match aes_setenckey128 (replicate 60 0) rfc_key with Ok (rk, _) => rk | _ => [] end.
Definition rfc_nonce : list Z := [0;0;0;3;2;1;0;0xa0;0xa1;0xa2;0xa3;0xa4;0xa5].
Definition rfc_ad8 : list Z := map Z.of_nat (seq 0 8).
(** Packet vector 1 of RFC 3610, in three pieces. *)
Definition rfc_segs : list (list Z) :=
  [map Z.of_nat (seq 8 1); map Z.of_nat (seq 9 17); map Z.of_nat (seq 26 5)].
Definition rfc_ctxt : list Z :=
  [0x58;0x8c;0x97;0x9a;0x61;0xc6;0x63;0xd2;0xf0;0x66;0xd0;0xc2;0xc0;0xf9;0x89;0x80;
   0x6d;0x5f;0x6b;0x61;0xda;0xc3;0x84].
Definition rfc_tag1 : list Z := [0x17;0xe8;0xd1;0x2c;0xfd;0xf9;0x26;0xe0].

Lemma rfc_rk_ok : aes_impl_ok aes_bear_impl rfc_rk 10 (aes_cipher 4 10 rfc_key).
Proof.
  apply (aes_bear_impl_ok rfc_key (replicate 60 0) rfc_rk 10).
  - apply (bool_decide_unpack _). vm_compute. exact I.
  - reflexivity.
  - reflexivity.
Qed.

Ltac by_compute := apply (bool_decide_unpack _); vm_compute; exact I.

Lemma aes_ccm_enc_is_rfc3610_witness :
  exists C' outs,
    feed (aes_ccm_enc aes_bear_impl)
      (aes_ccm_init aes_bear_impl ccm_scratch 10 rfc_rk 2 8 rfc_nonce rfc_ad8 23) rfc_segs = Ok (C', outs) /\
    concat outs = rfc_ctxt /\ snd (aes_ccm_tag aes_bear_impl C') = rfc_tag1.
Proof.
  destruct (aes_ccm_enc_is_rfc3610 aes_bear_impl rfc_rk 10 (aes_cipher 4 10 rfc_key) rfc_rk_ok
              ccm_scratch 8 rfc_nonce rfc_ad8 rfc_segs) as (C' & outs & Ef & Eo & _ & Et).
  - reflexivity.
  - cbn. auto.
  - split; [reflexivity|by_compute].
  - by_compute.
  - reflexivity.
  - left. cbn. lia.
  - by_compute.
  - reflexivity.
  - exists C', outs. split; [exact Ef|]. split.
    + rewrite Eo. vm_compute. reflexivity.
    + rewrite Et. vm_compute. reflexivity.
Defined.

(** Streaming decryption undoes it: fed with a ciphertext in pieces of any
    sizes, [aes_ccm_dec] produces the plaintext that encrypts to it, and
    [aes_ccm_verify] accepts a tag exactly when it is the RFC authentication
    value of that plaintext. *)
Theorem aes_ccm_dec_verify_is_rfc3610 (I : aes_impl) (rk : list Z) (nr : nat) (E : list Z -> list Z)
    (HI : aes_impl_ok I rk nr E) (C : aes_ccm) (M : Z) (nonce ad tag : list Z) (segs : list (list Z))
    (HC : length (C_authctr C) = 32%nat) (HM : In M [4; 6; 8; 10; 12; 14; 16])
    (Hn : nonce_ok nonce) (Hb : bytes ad) (Hlt : Z.of_nat (length ad) < 0xff00) (Hok : ad_ok ad)
    (Hm : bytes (concat segs)) (Hlen : Z.of_nat (length (concat segs)) < 65536)
    (Htag : bytes tag) (Htl : (Z.to_nat M <= length tag)%nat) :
  let ctxt := concat segs in
  exists C' outs,
    feed (aes_ccm_dec I) (aes_ccm_init I C nr rk 2 M nonce ad (Z.of_nat (length ctxt))) segs
      = Ok (C', outs) /\
    rfc_crypt E nonce (concat outs) = ctxt /\ map length outs = map length segs /\
    (snd (aes_ccm_verify I C' tag) = true <->
     take (Z.to_nat M) tag = rfc_tag E M nonce ad (concat outs)).
Proof.
  intros ctxt.
  pose proof (aes_ccm_init_ok I rk nr E C M nonce ad (length ctxt) HC HM Hn Hb Hlt Hok Hlen) as R.
  destruct (feed_dec I rk nr E nonce Hn M _ 0 _ segs R Hm ltac:(lia)) as (C' & outs & Ef & Eo & Lo & R').
  exists C', outs. split_and!; [done| |done|].
  { rewrite Eo. apply (rfc_crypt_twice E nonce ctxt). }
  pose proof (aes_ccm_tag_ok I rk nr E C' _ _ nonce M Hn R') as Et.
  fold ctxt in Eo, Et. rewrite <- Eo in Et.
  assert (Hbo : bytes (concat outs)) by (rewrite Eo; by apply (bytes_xor_stream I rk nr E)).
  assert (Hlo : length (concat outs) = length ctxt) by (rewrite Eo; apply length_xor_stream).
  rewrite <- Hlo in Et. rewrite (rfc_mac_spec I rk nr E) in Et by done.
  assert (Hmac : blk (rfc_mac E M nonce ad (concat outs))).
  { rewrite <- (rfc_mac_spec I rk nr E) by done.
    pose proof (absorb_ok I rk nr E (mac0 E M nonce ad (length (concat outs)), 0%nat) (concat outs)) as [? ?];
      [split; [by apply (mac0_blk I rk nr E)|cbn; lia]|done|].
    unfold finish. case_match; [done|by apply E_blk]. }
  pose proof (E_ctr_blk I rk nr E nonce Hn 0) as Hc0.
  assert (HM16 : (Z.to_nat M <= 16)%nat) by (cbn in HM; lia).
  assert (HCM : C_M (fst (aes_ccm_tag I C')) = M) by (unfold aes_ccm_tag, enc_auth; destruct R'; by case_match).
  unfold aes_ccm_verify. destruct (aes_ccm_tag I C') as [C2 ex]. cbn [fst snd] in *. rewrite HCM.
  subst ex. fold (rfc_tag E M nonce ad (concat outs)).
  assert (Hlt' : length (rfc_tag E M nonce ad (concat outs)) = Z.to_nat M).
  { unfold rfc_tag, xor_bytes. rewrite length_zip_with, !length_take, (proj1 Hmac), (proj1 Hc0). lia. }
  assert (Hbt : bytes (rfc_tag E M nonce ad (concat outs))).
  { unfold rfc_tag. apply bytes_xor; apply bytes_take; [apply Hc0|apply Hmac]. }
  rewrite consttime_memequal_spec by (done || lia).
  by rewrite (take_ge (rfc_tag _ _ _ _ _)) by lia.
Qed.

Lemma aes_ccm_dec_verify_is_rfc3610_witness :
  exists C' outs,
    feed (aes_ccm_dec aes_bear_impl)
      (aes_ccm_init aes_bear_impl ccm_scratch 10 rfc_rk 2 8 rfc_nonce rfc_ad8 23) [rfc_ctxt] = Ok (C', outs) /\
    snd (aes_ccm_verify aes_bear_impl C' rfc_tag1) = true.
Proof.
  destruct (aes_ccm_dec_verify_is_rfc3610 aes_bear_impl rfc_rk 10 (aes_cipher 4 10 rfc_key) rfc_rk_ok
              ccm_scratch 8 rfc_nonce rfc_ad8 rfc_tag1 [rfc_ctxt]) as (C' & outs & Ef & Eo & _ & Hv).
  - reflexivity.
  - cbn. auto.
  - split; [reflexivity|by_compute].
  - by_compute.
  - reflexivity.
  - left. cbn. lia.
  - by_compute.
  - reflexivity.
  - by_compute.
  - cbn. lia.
  - exists C', outs. split; [exact Ef|]. apply Hv.
    rewrite <- (rfc_crypt_twice (aes_cipher 4 10 rfc_key) rfc_nonce (concat outs)), Eo.
    vm_compute. reflexivity.
Defined.

(** C35. The last bytes of long additional data are not authenticated: when the
    data after the first block is at least one block and not a whole number
    of blocks, [aes_ccm_init] gives the same state whatever its last, partial
    block holds, because the source pointer is not advanced over the whole
    blocks.  (The data CCMP authenticates is at most 30 bytes and not
    affected.) *)
Theorem aes_ccm_init_ignores_ad_tail (I : aes_impl) (C : aes_ccm) (nr : nat) (rk : list Z)
    (M : Z) (nonce a t1 t2 : list Z) (mlen : Z)
    (Ha : (30 <= length a)%nat) (Hmod : ((length a - 14) mod 16 = 0)%nat)
    (Ht : length t1 = length t2) (Ht16 : (length t1 < 16)%nat)
    (Hlen : Z.of_nat (length a + length t1) < 0xff00) :
  aes_ccm_init I C nr rk 2 M nonce (a ++ t1) mlen = aes_ccm_init I C nr rk 2 M nonce (a ++ t2) mlen.
Proof.
  assert (Hl : length (a ++ t1) = length (a ++ t2)) by (rewrite !length_app; lia).
  unfold aes_ccm_init. rewrite <- Hl. by rewrite (init_ad_tail I _ a t1 t2 Ha Hmod Ht Ht16 Hlen).
Qed.

Lemma aes_ccm_init_ignores_ad_tail_witness :
  aes_ccm_init aes_bear_impl ccm_scratch 10 (replicate 60 7) 2 8 (replicate 13 1)
    (replicate 30 5 ++ [1; 2; 3]) 20 =
  aes_ccm_init aes_bear_impl ccm_scratch 10 (replicate 60 7) 2 8 (replicate 13 1)
    (replicate 30 5 ++ [9; 9; 9]) 20.
Proof.
  apply (aes_ccm_init_ignores_ad_tail aes_bear_impl ccm_scratch 10 (replicate 60 7) 8 (replicate 13 1)
           (replicate 30 5) [1; 2; 3] [9; 9; 9] 20); cbn; lia.
Defined.
