(* ===== verification/AesCcmMbuf.v ===== *)
(** * AES-CCM over mbuf chains: crypto/aes/aes_ccm_mbuf.c

    The walks over a chain rewrite one window of the packet in place, whatever
    the mbuf boundaries are, and fault when the window is not inside the
    packet. *)

From S2P Require Import Prelude Buffers Endian AesSpec AesBlock AesBear AesBearProof Mbuf MbufProof.
From S2P Require Import AesCcm AesCcmProof AesCcmRfc.

(** ** The shape of a chain: everything but the stored bytes *)

Definition shape (c : list mbuf) : list (Z * nat * nat * Z * m_pkthdr) :=
  map (fun m => (m_flags m, m_data m, m_len m, m_type m, m_hdr m)) c.

Lemma shape_chain_len c d : shape c = shape d -> chain_len c = chain_len d.
Proof.
  revert d. induction c as [|x c IH]; intros [|y d] H; cbn in *; try discriminate; [done|].
  injection H as _ _ E _ _ H. rewrite E. f_equal. by apply IH.
Qed.

(** The same shape and as many bytes: still a well-formed packet. *)
Lemma shape_pkt_ok c d : shape c = shape d -> pkt_ok d -> cwf c -> pkt_ok c.
Proof.
  intros Hs [Wd Hd] Wc. split; [done|].
  destruct c as [|x c]; [done|]. destruct d as [|y d]; [done|].
  pose proof (shape_chain_len _ _ Hs) as Hl. cbn [shape map] in Hs. injection Hs as F _ _ _ Hh _.
  intros Hp. rewrite Hh, length_content, Hl, <- length_content by done. apply Hd.
  unfold has_pkthdr in *. by rewrite <- F.
Qed.

(** ** Finding the first byte *)

Lemma mbuf_seek_ok c off :
  (off < chain_len c)%nat ->
  exists pre x rest off', mbuf_seek c off = Ok (pre, x :: rest, off') /\ c = pre ++ x :: rest /\
    off = (chain_len pre + off')%nat /\ (off' < m_len x)%nat.
Proof.
  revert off. induction c as [|x c IH]; intros off H; cbn [chain_len mbuf_seek] in *; [lia|].
  destruct (m_len x <=? off)%nat eqn:E; [apply Nat.leb_le in E|apply Nat.leb_gt in E].
  - destruct (IH (off - m_len x)%nat ltac:(lia)) as (pre & y & rest & off' & -> & -> & Ho & Hl).
    cbn [res_bind]. exists (x :: pre), y, rest, off'. split_and!; [done|done|cbn; lia|done].
  - exists [], x, c, off. split_and!; [done..|cbn; lia].
Qed.

(** Past the end the walk follows a null pointer. *)
Lemma mbuf_seek_null c off : (chain_len c <= off)%nat -> mbuf_seek c off = Fault NullDeref.
Proof.
  revert off. induction c as [|x c IH]; intros off H; cbn [chain_len mbuf_seek] in *; [done|].
  replace (m_len x <=? off)%nat with true by (symmetry; apply Nat.leb_le; lia).
  by rewrite IH by lia.
Qed.

(** ** Rewriting a window *)

Section Walk.
Context {S : Type} (f : S -> list Z -> res (S * list Z)).
(** [Rel s P]: the state after the bytes [P]; [out P l] is what [l] becomes
    when it comes after [P]; [N] bounds the bytes that can be processed. *)
Context (Rel : S -> list Z -> Prop) (out : list Z -> list Z -> list Z) (N : Z).
Context (Hstep : forall s P l, Rel s P -> bytes l -> Z.of_nat (length (P ++ l)) < N ->
  exists s', f s l = Ok (s', out P l) /\ Rel s' (P ++ l)).
Context (out_app : forall P a b, out P (a ++ b) = out P a ++ out (P ++ a) b).
Context (out_len : forall P l, length (out P l) = length l).
Context (out_bytes : forall P l, bytes l -> bytes (out P l)).

Lemma mbuf_walk_ok c s P off len :
  cwf c -> Rel s P -> match c with [] => True | x :: _ => (off <= m_len x)%nat end ->
  (off + len <= chain_len c)%nat -> Z.of_nat (length P + len) < N ->
  let seg := sub_list off len (content c) in
  exists s' c', mbuf_walk f s c off (Z.of_nat len) = Ok (s', c') /\ Rel s' (P ++ seg) /\
    cwf c' /\ shape c' = shape c /\ content c' = splice off (out P seg) (content c).
Proof using Hstep out_app out_len out_bytes.
  intros Hc. revert s P off len. induction Hc as [|x c Hx Hc IH]; intros s P off len HR Ho Hle HN.
  { cbn [chain_len] in Hle. assert (len = 0%nat) as -> by lia. assert (off = 0%nat) as -> by lia.
    exists s, []. cbn. split_and!; [done|by rewrite app_nil_r|constructor|done|].
    pose proof (out_len P []) as H. apply nil_length_inv in H. by rewrite H. }
  cbn [chain_len] in Hle. rewrite content_cons.
  pose proof (length_mdata x Hx) as Hl. pose proof (length_content c Hc) as Hlc.
  pose proof Hx as (Hcl & Hfit & Hby).
  cbn [mbuf_walk]. destruct (Z.of_nat len <=? 0) eqn:E0.
  { assert (len = 0%nat) as -> by lia. exists s, (x :: c). cbv zeta. change (sub_list off 0 _) with (@nil Z).
    pose proof (out_len P []) as H. apply nil_length_inv in H. rewrite H, splice_nil, app_nil_r.
    split_and!; [done|done|by constructor|done|done]. }
  set (n := Nat.min (m_len x - off) len).
  assert (En : Z.min (Z.of_nat (m_len x - off)) (Z.of_nat len) = Z.of_nat n) by (unfold n; lia).
  rewrite En, Nat2Z.id.
  set (a := sub_list (m_data x + off) n (m_cluster x)).
  assert (Ha : a = sub_list off n (mdata x)) by (unfold a, mdata, n; list_solve).
  assert (Hla : length a = n) by (rewrite Ha, length_sub_list; unfold n; lia).
  assert (Hba : bytes a) by (unfold a; auto with urange).
  destruct (Hstep s P a HR Hba) as (s1 & -> & R1); [rewrite length_app; unfold n in *; lia|]. cbn [res_bind].
  replace (Z.of_nat len - Z.of_nat n) with (Z.of_nat (len - n)) by (unfold n; lia).
  set (y := set_cluster x (splice (m_data x + off) (out P a) (m_cluster x))).
  assert (Wy : mwf y).
  { apply mwf_store; [done|rewrite out_len, Hla, Hcl; unfold n; lia|by apply out_bytes]. }
  assert (Dy : mdata y = splice off (out P a) (mdata x)).
  { apply mdata_store; [done|rewrite out_len, Hla; unfold n; lia]. }
  destruct (IH s1 (P ++ a) 0%nat (len - n)%nat R1) as (s2 & c2 & -> & R2 & W2 & S2 & E2);
    [destruct c; [done|lia]|unfold n; lia|rewrite length_app; unfold n in *; lia|].
  cbn [res_bind]. exists s2, (y :: c2). split; [done|]. cbv zeta in *.
  assert (Eseg : sub_list off len (mdata x ++ content c) = a ++ sub_list 0 (len - n) (content c)).
  { rewrite Ha. unfold n. list_solve. }
  rewrite Eseg. split_and!.
  - by rewrite app_assoc.
  - by constructor.
  - cbn [shape map]. unfold shape in S2. by rewrite S2.
  - rewrite content_cons, Dy, E2, out_app.
    pose proof (out_len P a) as L1. pose proof (out_len (P ++ a) (sub_list 0 (len - n) (content c))) as L2.
    rewrite length_sub_list in L2 by (unfold n; lia).
    set (o1 := out P a) in *. set (o2 := out (P ++ a) _) in *. clearbody o1 o2.
    clear IH Hstep out_app out_len out_bytes E2. unfold n in *. list_solve.
Qed.

(** A window that runs past the end: the walk follows a null pointer. *)
Lemma mbuf_walk_overrun c s P off len :
  cwf c -> Rel s P -> match c with [] => True | x :: _ => (off <= m_len x)%nat end ->
  Z.of_nat (length P + chain_len c) < N -> Z.of_nat (chain_len c) < Z.of_nat off + len -> 0 < len ->
  mbuf_walk f s c off len = Fault NullDeref.
Proof using Hstep out_len.
  intros Hc. revert s P off len. induction Hc as [|x c Hx Hc IH]; intros s P off len HR Ho HN Hgt Hp.
  { cbn. by replace (len <=? 0) with false by lia. }
  cbn [chain_len mbuf_walk] in *. replace (len <=? 0) with false by lia.
  pose proof Hx as (Hcl & Hfit & Hby).
  replace (Z.min (Z.of_nat (m_len x - off)) len) with (Z.of_nat (m_len x - off)) by lia.
  rewrite Nat2Z.id. set (a := sub_list (m_data x + off) (m_len x - off) (m_cluster x)).
  assert (Hla : length a = (m_len x - off)%nat) by (unfold a; rewrite length_sub_list; lia).
  destruct (Hstep s P a HR) as (s1 & -> & R1);
    [unfold a; auto with urange|rewrite length_app; lia|]. cbn [res_bind].
  rewrite (IH s1 (P ++ a) 0%nat); [done|done|destruct c; [done|lia]|rewrite length_app; lia|lia|lia].
Qed.
End Walk.

Lemma length_content_chain c : cwf c -> chain_len c = length (content c).
Proof. intros. symmetry. by apply length_content. Qed.

Lemma shape_app c d : shape (c ++ d) = shape c ++ shape d.
Proof. apply map_app. Qed.

(** A window of a chain seen from the mbuf that holds its first byte. *)
Lemma content_window pre m off' len q :
  cwf pre -> (off' + len <= length (content m))%nat -> length q = len ->
  sub_list (chain_len pre + off') len (content (pre ++ m)) = sub_list off' len (content m) /\
  content pre ++ splice off' q (content m) = splice (chain_len pre + off') q (content (pre ++ m)).
Proof.
  intros Hp Hle Hq. rewrite content_app, (length_content_chain pre) by done. split.
  - list_solve.
  - symmetry. apply splice_app_r. lia.
Qed.

Section CcmMbuf.
Context (I : aes_impl) (rk : list Z) (nr : nat) (E : list Z -> list Z).
Context `{HI : !aes_impl_ok I rk nr E}.
Context (nonce : list Z) (Hnonce : nonce_ok nonce) (M : Z) (HM : In M [4; 6; 8; 10; 12; 14; 16]).
Context (ad : list Z) (Hb : bytes ad) (Hlt : Z.of_nat (length ad) < 0xff00) (Hok : ad_ok ad).

Let out (P l : list Z) : list Z := xor_bytes l (stream E nonce (length P) (length l)).

Lemma out_app P a b : out P (a ++ b) = out P a ++ out (P ++ a) b.
Proof. unfold out. rewrite (length_app P). apply xor_stream_app. Qed.
Lemma out_len P l : length (out P l) = length l.
Proof. apply length_xor_stream. Qed.
Lemma out_bytes P l : bytes l -> bytes (out P l).
Proof using HI Hnonce. apply (bytes_xor_stream I rk nr E nonce Hnonce). Qed.

Definition enc_rel (st0 : list Z * nat) (C : aes_ccm) (P : list Z) : Prop :=
  ccm_rep rk nr E nonce M C (length P) (absorb E st0 P).
Definition dec_rel (st0 : list Z * nat) (C : aes_ccm) (P : list Z) : Prop :=
  ccm_rep rk nr E nonce M C (length P) (absorb E st0 (rfc_crypt E nonce P)).

Lemma enc_step st0 C P l :
  enc_rel st0 C P -> bytes l -> Z.of_nat (length (P ++ l)) < 65536 * 15 ->
  exists C', aes_ccm_enc I C l = Ok (C', out P l) /\ enc_rel st0 C' (P ++ l).
Proof using HI Hnonce.
  unfold enc_rel. rewrite length_app, absorb_app. intros R Hl Hle.
  by apply (aes_ccm_enc_ok I rk nr E nonce Hnonce M).
Qed.
Lemma dec_step st0 C P l :
  dec_rel st0 C P -> bytes l -> Z.of_nat (length (P ++ l)) < 65536 * 15 ->
  exists C', aes_ccm_dec I C l = Ok (C', out P l) /\ dec_rel st0 C' (P ++ l).
Proof using HI Hnonce.
  unfold dec_rel. intros R Hl Hle. unfold rfc_crypt in *. rewrite xor_stream_app, length_app, absorb_app.
  rewrite length_app in Hle. by apply (aes_ccm_dec_ok I rk nr E nonce Hnonce M).
Qed.

(** Encrypting the bytes [off, off + len) of a packet. *)
Lemma aes_ccm_enc_mbuf_ok C c off len :
  length (C_authctr C) = 32%nat -> cwf c ->
  (off + len <= length (content c))%nat -> (off < length (content c))%nat -> Z.of_nat len < 65536 ->
  let seg := sub_list off len (content c) in
  exists C' c', aes_ccm_enc_mbuf I (aes_ccm_init I C nr rk 2 M nonce ad (Z.of_nat len)) c off (Z.of_nat len)
      = Ok (C', c', rfc_tag E M nonce ad seg) /\
    cwf c' /\ shape c' = shape c /\ content c' = splice off (rfc_crypt E nonce seg) (content c).
Proof using HI Hnonce HM Hb Hlt Hok.
  intros HC Hc Hle Hoff Hlen. unfold aes_ccm_enc_mbuf.
  destruct (mbuf_seek_ok c off) as (pre & x & rest & off' & -> & -> & -> & Ho);
    [by rewrite length_content_chain|].
  cbn [res_bind]. apply Forall_app in Hc as [Hpre Hc]. fold (cwf (x :: rest)) in Hc.
  rewrite content_app, length_app, <- length_content_chain in Hle by done.
  pose proof (aes_ccm_init_ok I rk nr E C M nonce ad len HC HM Hnonce Hb Hlt Hok Hlen) as R0.
  destruct (mbuf_walk_ok (aes_ccm_enc I) (enc_rel (mac0 E M nonce ad len, 0%nat)) out (65536 * 15)
              (enc_step _) out_app out_len out_bytes (x :: rest) _ [] off' len Hc R0)
    as (C1 & c1 & -> & R1 & W1 & S1 & E1);
    [cbn; lia|rewrite length_content_chain by done; lia|cbn [length Nat.add]; lia|].
  cbn [res_bind]. destruct (content_window pre (x :: rest) off' len
    (rfc_crypt E nonce (sub_list off' len (content (x :: rest)))) Hpre) as [Es Ew];
    [lia|unfold rfc_crypt; rewrite length_xor_stream, length_sub_list; lia|].
  cbv zeta. rewrite Es. set (seg := sub_list off' len (content (x :: rest))) in *.
  assert (Hls : length seg = len) by (apply length_sub_list; lia).
  assert (Hbs : bytes seg) by (apply bytes_sub_list, content_bytes; done).
  unfold enc_rel in R1. cbn [app] in R1.
  pose proof (aes_ccm_tag_ok I rk nr E C1 _ _ nonce M Hnonce R1) as Et.
  rewrite <- Hls in Et at 1. rewrite (rfc_mac_spec I rk nr E) in Et by done.
  destruct (aes_ccm_tag I C1) as [C2 tag]. cbn [snd] in Et. subst tag.
  exists C2, (pre ++ c1). split_and!; [done| | |].
  - apply Forall_app. by split.
  - by rewrite !shape_app, S1.
  - rewrite content_app, E1. exact Ew.
Qed.
(** [aes_ccm_verify] after the whole ciphertext. *)
Lemma aes_ccm_verify_ok C ct tag :
  dec_rel (mac0 E M nonce ad (length ct), 0%nat) C ct -> bytes ct -> bytes tag ->
  (Z.to_nat M <= length tag)%nat ->
  snd (aes_ccm_verify I C tag) =
  bool_decide (take (Z.to_nat M) tag = rfc_tag E M nonce ad (rfc_crypt E nonce ct)).
Proof using HI Hnonce HM Hb.
  intros R Hct Htag Htl. unfold dec_rel in R. set (pt := rfc_crypt E nonce ct) in *.
  assert (Hbp : bytes pt) by (by apply (bytes_xor_stream I rk nr E)).
  assert (Hlp : length ct = length pt) by (symmetry; apply length_xor_stream).
  pose proof (aes_ccm_tag_ok I rk nr E C _ _ nonce M Hnonce R) as Et. rewrite Hlp in Et.
  pose proof (absorb_ok I rk nr E (mac0 E M nonce ad (length pt), 0%nat) pt) as [Hf _];
    [split; [by apply (mac0_blk I rk nr E)|cbn; lia]|done|].
  assert (Hmac : blk (finish E (absorb E (mac0 E M nonce ad (length pt), 0%nat) pt)))
    by (unfold finish; case_match; [done|by apply E_blk]).
  rewrite (rfc_mac_spec I rk nr E) in Et, Hmac by done.
  pose proof (E_ctr_blk I rk nr E nonce Hnonce 0) as Hc0.
  assert (HM16 : (Z.to_nat M <= 16)%nat) by (cbn in HM; lia).
  assert (HCM : C_M (fst (aes_ccm_tag I C)) = M) by (unfold aes_ccm_tag, enc_auth; destruct R; by case_match).
  unfold aes_ccm_verify. destruct (aes_ccm_tag I C) as [C2 ex]. cbn [fst snd] in *. rewrite HCM.
  subst ex. fold (rfc_tag E M nonce ad pt). set (t := rfc_tag E M nonce ad pt).
  assert (Hlt' : length t = Z.to_nat M).
  { unfold t, rfc_tag, xor_bytes. rewrite length_zip_with, !length_take, (proj1 Hmac), (proj1 Hc0). lia. }
  assert (Hbt : bytes t) by (unfold t, rfc_tag; apply bytes_xor; apply bytes_take; [apply Hc0|apply Hmac]).
  apply eq_bool_prop_intro. rewrite bool_decide_spec.
  rewrite <- (take_ge t (Z.to_nat M)) at 2 by lia. rewrite <- consttime_memequal_spec by (done || lia).
  apply Is_true_true.
Qed.

Lemma zero_walk c off len :
  cwf c -> match c with [] => True | x :: _ => (off <= m_len x)%nat end ->
  (off + len <= length (content c))%nat ->
  exists c', mbuf_walk (fun _ seg => Ok (tt, replicate (length seg) 0)) tt c off (Z.of_nat len) = Ok (tt, c') /\
    cwf c' /\ shape c' = shape c /\ content c' = splice off (replicate len 0) (content c).
Proof.
  intros Hc Ho Hle.
  destruct (mbuf_walk_ok (fun (_ : unit) seg => Ok (tt, replicate (length seg) 0)) (fun _ _ => True)
    (fun _ l => replicate (length l) 0) (Z.of_nat len + 1)) with (c := c) (s := tt) (P := @nil Z) (off := off) (len := len)
    as ([] & c' & Ew & _ & W & Sh & Ec); try done.
  - intros [] P l _ _ _. by exists tt.
  - intros P a b. rewrite length_app. apply replicate_add.
  - intros. by rewrite length_replicate.
  - intros. apply bytes_zeros.
  - by rewrite length_content_chain.
  - cbn [length Nat.add]. lia.
  - exists c'. split_and!; [done..|]. rewrite Ec, length_sub_list by lia. done.
Qed.

(** Decrypting and verifying the bytes [off, off + len) of a packet; on a bad
    tag the window is cleared. *)
Lemma aes_ccm_dec_mbuf_ok C c off len tag :
  length (C_authctr C) = 32%nat -> cwf c -> bytes tag -> (Z.to_nat M <= length tag)%nat ->
  (off + len <= length (content c))%nat -> (off < length (content c))%nat -> Z.of_nat len < 65536 ->
  let pt := rfc_crypt E nonce (sub_list off len (content c)) in
  let ok := bool_decide (take (Z.to_nat M) tag = rfc_tag E M nonce ad pt) in
  exists C' c', aes_ccm_dec_mbuf I (aes_ccm_init I C nr rk 2 M nonce ad (Z.of_nat len)) c off
      (Z.of_nat len) tag = Ok (C', c', ok) /\
    cwf c' /\ shape c' = shape c /\
    content c' = splice off (if ok then pt else replicate len 0) (content c).
Proof using HI Hnonce HM Hb Hlt Hok.
  intros HC Hc Htag Htl Hle Hoff Hlen. unfold aes_ccm_dec_mbuf.
  destruct (mbuf_seek_ok c off) as (pre & x & rest & off' & -> & -> & -> & Ho);
    [by rewrite length_content_chain|].
  cbn [res_bind]. apply Forall_app in Hc as [Hpre Hc]. fold (cwf (x :: rest)) in Hc.
  rewrite content_app, length_app, <- length_content_chain in Hle by done.
  pose proof (aes_ccm_init_ok I rk nr E C M nonce ad len HC HM Hnonce Hb Hlt Hok Hlen) as R0.
  destruct (mbuf_walk_ok (aes_ccm_dec I) (dec_rel (mac0 E M nonce ad len, 0%nat)) out (65536 * 15)
              (dec_step _) out_app out_len out_bytes (x :: rest) _ [] off' len Hc R0)
    as (C1 & c1 & -> & R1 & W1 & S1 & E1);
    [cbn; lia|rewrite length_content_chain by done; lia|cbn [length Nat.add]; lia|].
  cbn [res_bind app] in *. set (seg := sub_list off' len (content (x :: rest))) in *.
  assert (Hls : length seg = len) by (apply length_sub_list; lia).
  assert (Hbs : bytes seg) by (apply bytes_sub_list, content_bytes; done).
  change (out [] seg) with (rfc_crypt E nonce seg) in E1. set (pt := rfc_crypt E nonce seg) in *.
  assert (Hlp : length pt = len) by (unfold pt, rfc_crypt; rewrite length_xor_stream; done).
  rewrite <- Hls in R1. pose proof (aes_ccm_verify_ok C1 seg tag R1 Hbs Htag Htl) as Ev.
  destruct (content_window pre (x :: rest) off' len pt Hpre ltac:(lia) Hlp) as [Es Ew].
  destruct (content_window pre (x :: rest) off' len (replicate len 0) Hpre ltac:(lia)
              (length_replicate len 0)) as [_ Ez].
  cbv zeta. rewrite Es. fold seg. fold pt. fold pt in Ev.
  destruct (aes_ccm_verify I C1 tag) as [C2 ok]. cbn [snd] in Ev. rewrite <- Ev. destruct ok.
  - exists C2, (pre ++ c1). split_and!; [done|apply Forall_app; by split|by rewrite !shape_app, S1|].
    rewrite content_app, E1. exact Ew.
  - destruct (zero_walk c1 off' len W1) as (c2 & -> & W2 & S2 & E2).
    { destruct c1 as [|y c1]; [done|]. cbn [shape map] in S1. injection S1 as _ _ El _ _. lia. }
    { rewrite <- length_content_chain by done. rewrite (shape_chain_len _ _ S1), length_content_chain by done. lia. }
    cbn [res_bind]. exists C2, (pre ++ c2).
    split_and!; [done|apply Forall_app; by split|by rewrite !shape_app, S2, S1|].
    rewrite content_app, E2, E1. rewrite <- Ez. f_equal. list_solve.
Qed.
End CcmMbuf.
