(* ===== verification/AesCcmSelftest.v ===== *)
(** * The AES-CCM self-test: crypto/aes/aes_ccm.c, RFC 3610 section 8

    The table of packet vectors, the self-test that runs them through the
    streaming operations in four uneven pieces, and the module hook that
    refuses to load when it fails. *)

From S2P Require Import Prelude Endian AesBear Mbuf AesCcm.

Definition keyC : list Z :=
  [0xc0; 0xc1; 0xc2; 0xc3; 0xc4; 0xc5; 0xc6; 0xc7; 0xc8; 0xc9; 0xca; 0xcb; 0xcc; 0xcd; 0xce; 0xcf].
Definition keyD : list Z :=
  [0xd7; 0x82; 0x8d; 0x13; 0xb2; 0xb0; 0xbd; 0xc3; 0x25; 0xa7; 0x62; 0x36; 0xdf; 0x93; 0xcc; 0x6b].
Definition ptxt_seq : list Z := map Z.of_nat (seq 0 33).
Definition ptxt_rand : list Z :=
  [0x6e; 0x37; 0xa6; 0xef; 0x54; 0x6d; 0x95; 0x5d; 0x34; 0xab; 0x60; 0x59; 0xab; 0xf2; 0x1c; 0x0b;
   0x02; 0xfe; 0xb8; 0x8f; 0x85; 0x6d; 0xf4; 0xa3; 0x73; 0x81; 0xbc; 0xe3; 0xcc; 0x12; 0x85; 0x17;
   0xd4].

(** [adlen] and [mlen] are the lengths of [t_ad] and [t_ptxt]. *)
Record ccm_vector := {
  t_key : list Z; t_nonce : list Z; t_ad : list Z; t_ptxt : list Z;
  t_M : Z; t_tag : list Z; t_ctxt : list Z;
}.

Definition T : list ccm_vector := [
  {| t_key := keyC;
     t_nonce := [0x00; 0x00; 0x00; 0x03; 0x02; 0x01; 0x00; 0xa0; 0xa1; 0xa2; 0xa3; 0xa4; 0xa5];
     t_ad := take 8 ptxt_seq;
     t_ptxt := take 23 (drop 8 ptxt_seq);
     t_M := 8;
     t_tag := [0x17; 0xe8; 0xd1; 0x2c; 0xfd; 0xf9; 0x26; 0xe0];
     t_ctxt := [0x58; 0x8c; 0x97; 0x9a; 0x61; 0xc6; 0x63; 0xd2; 0xf0; 0x66; 0xd0; 0xc2; 0xc0; 0xf9; 0x89;
      0x80; 0x6d; 0x5f; 0x6b; 0x61; 0xda; 0xc3; 0x84] |};
  {| t_key := keyC;
     t_nonce := [0x00; 0x00; 0x00; 0x04; 0x03; 0x02; 0x01; 0xa0; 0xa1; 0xa2; 0xa3; 0xa4; 0xa5];
     t_ad := take 8 ptxt_seq;
     t_ptxt := take 24 (drop 8 ptxt_seq);
     t_M := 8;
     t_tag := [0xa0; 0x91; 0xd5; 0x6e; 0x10; 0x40; 0x09; 0x16];
     t_ctxt := [0x72; 0xc9; 0x1a; 0x36; 0xe1; 0x35; 0xf8; 0xcf; 0x29; 0x1c; 0xa8; 0x94; 0x08; 0x5c; 0x87;
      0xe3; 0xcc; 0x15; 0xc4; 0x39; 0xc9; 0xe4; 0x3a; 0x3b] |};
  {| t_key := keyC;
     t_nonce := [0x00; 0x00; 0x00; 0x05; 0x04; 0x03; 0x02; 0xa0; 0xa1; 0xa2; 0xa3; 0xa4; 0xa5];
     t_ad := take 8 ptxt_seq;
     t_ptxt := take 25 (drop 8 ptxt_seq);
     t_M := 8;
     t_tag := [0x4a; 0xda; 0xa7; 0x6f; 0xbd; 0x9f; 0xb0; 0xc5];
     t_ctxt := [0x51; 0xb1; 0xe5; 0xf4; 0x4a; 0x19; 0x7d; 0x1d; 0xa4; 0x6b; 0x0f; 0x8e; 0x2d; 0x28; 0x2a;
      0xe8; 0x71; 0xe8; 0x38; 0xbb; 0x64; 0xda; 0x85; 0x96; 0x57] |};
  {| t_key := keyC;
     t_nonce := [0x00; 0x00; 0x00; 0x06; 0x05; 0x04; 0x03; 0xa0; 0xa1; 0xa2; 0xa3; 0xa4; 0xa5];
     t_ad := take 12 ptxt_seq;
     t_ptxt := take 19 (drop 12 ptxt_seq);
     t_M := 8;
     t_tag := [0x96; 0xc8; 0x61; 0xb9; 0xc9; 0xe6; 0x1e; 0xf1];
     t_ctxt := [0xa2; 0x8c; 0x68; 0x65; 0x93; 0x9a; 0x9a; 0x79; 0xfa; 0xaa; 0x5c; 0x4c; 0x2a; 0x9d; 0x4a;
      0x91; 0xcd; 0xac; 0x8c] |};
  {| t_key := keyC;
     t_nonce := [0x00; 0x00; 0x00; 0x07; 0x06; 0x05; 0x04; 0xa0; 0xa1; 0xa2; 0xa3; 0xa4; 0xa5];
     t_ad := take 12 ptxt_seq;
     t_ptxt := take 20 (drop 12 ptxt_seq);
     t_M := 8;
     t_tag := [0x51; 0xe8; 0x3f; 0x07; 0x7d; 0x9c; 0x2d; 0x93];
     t_ctxt := [0xdc; 0xf1; 0xfb; 0x7b; 0x5d; 0x9e; 0x23; 0xfb; 0x9d; 0x4e; 0x13; 0x12; 0x53; 0x65; 0x8a;
      0xd8; 0x6e; 0xbd; 0xca; 0x3e] |};
  {| t_key := keyC;
     t_nonce := [0x00; 0x00; 0x00; 0x08; 0x07; 0x06; 0x05; 0xa0; 0xa1; 0xa2; 0xa3; 0xa4; 0xa5];
     t_ad := take 12 ptxt_seq;
     t_ptxt := take 21 (drop 12 ptxt_seq);
     t_M := 8;
     t_tag := [0x40; 0x5a; 0x04; 0x43; 0xac; 0x91; 0xcb; 0x94];
     t_ctxt := [0x6f; 0xc1; 0xb0; 0x11; 0xf0; 0x06; 0x56; 0x8b; 0x51; 0x71; 0xa4; 0x2d; 0x95; 0x3d; 0x46;
      0x9b; 0x25; 0x70; 0xa4; 0xbd; 0x87] |};
  {| t_key := keyD;
     t_nonce := [0x00; 0x8d; 0x49; 0x3b; 0x30; 0xae; 0x8b; 0x3c; 0x96; 0x96; 0x76; 0x6c; 0xfa];
     t_ad := take 12 ptxt_rand;
     t_ptxt := take 21 (drop 12 ptxt_rand);
     t_M := 10;
     t_tag := [0x6d; 0xce; 0x9e; 0x82; 0xef; 0xa1; 0x6d; 0xa6; 0x20; 0x59];
     t_ctxt := [0xf3; 0x29; 0x05; 0xb8; 0x8a; 0x64; 0x1b; 0x04; 0xb9; 0xc9; 0xff; 0xb5; 0x8c; 0xc3; 0x90;
      0x90; 0x0f; 0x3d; 0xa1; 0x2a; 0xb1] |}
].

(** [buf] and [tag] with their guard bytes; [bufp] and [tagp] point one past
    the first. *)
Record selftest := { s_C : aes_ccm; s_buf : list Z; s_tag : list Z; s_result : Z }.

Section Selftest.
Context (I : aes_impl).

(** One call of [op] on [len] bytes of [src] at [off], stored at [bufp + off]. *)
Definition piece (op : aes_ccm -> list Z -> res (aes_ccm * list Z)) (src : list Z)
    (st : aes_ccm * list Z) (off len : nat) : res (aes_ccm * list Z) :=
  let '(C, buf) := st in
  let* (C, q) := op C (sub_list off len src) in
  Ok (C, splice (1 + off) q buf).

(** The four calls: 1, 2, [mlen - 4] and 1 bytes. *)
Definition pieces (op : aes_ccm -> list Z -> res (aes_ccm * list Z)) (src : list Z)
    (C : aes_ccm) (buf : list Z) : res (aes_ccm * list Z) :=
  let mlen := length src in
  let* st := piece op src (C, buf) 0 1 in
  let* st := piece op src st 1 2 in
  let* st := piece op src st 3 (mlen - 4) in
  piece op src st (mlen - 1) 1.

Definition fail_unless (b : bool) (result : Z) : Z := if b then result else -1.

Definition selftest_vector (s : selftest) (v : ccm_vector) : res selftest :=
  let mlen := length (t_ptxt v) in
  let M := Z.to_nat (t_M v) in
  let* (AE, nr) := aes_setenckey128 (C_enc (s_C s)) (t_key v) in
  let init C := aes_ccm_init I C nr AE 2 (t_M v) (t_nonce v) (t_ad v) (Z.of_nat mlen) in
  (* encrypt and authenticate *)
  let* (C, buf) := pieces (aes_ccm_enc I) (t_ptxt v) (init (s_C s)) (s_buf s) in
  let '(C, tag) := aes_ccm_tag I C in
  let tagbuf := splice 1 tag (s_tag s) in
  let result := fail_unless (bool_decide (sub_list 1 mlen buf = t_ctxt v)) (s_result s) in
  let result := fail_unless (bool_decide (sub_list 1 M tagbuf = take M (t_tag v))) result in
  (* decrypt and verify *)
  let* (C, buf) := pieces (aes_ccm_dec I) (t_ctxt v) (init C) buf in
  let '(C, ok) := aes_ccm_verify I C (t_tag v) in
  let result := fail_unless ok result in
  let result := fail_unless (bool_decide (sub_list 1 mlen buf = t_ptxt v)) result in
  (* decrypt and verify with a bit flipped *)
  let tagbuf := splice 1 (take M (t_tag v)) tagbuf in
  let tagbuf := splice 1 [Z.lxor (byte_at tagbuf 1) 0x80] tagbuf in
  let* (C, buf) := pieces (aes_ccm_dec I) (t_ctxt v) (init C) buf in
  let '(C, ok) := aes_ccm_verify I C (drop 1 tagbuf) in
  let result := fail_unless (negb ok) result in
  Ok {| s_C := C; s_buf := buf; s_tag := tagbuf; s_result := result |}.

Fixpoint selftest_loop (s : selftest) (vs : list ccm_vector) : res selftest :=
  match vs with
  | [] => Ok s
  | v :: vs => let* s := selftest_vector s v in selftest_loop s vs
  end.

(** The local variables hold arbitrary memory: [C], [buf] and [tag]. *)
Definition aes_ccm_selftest (C : aes_ccm) (buf tag : list Z) : res Z :=
  let buf := splice 34 [0x1a] (splice 0 [0x1a] buf) in
  let tag := splice 17 [0x53] (splice 0 [0x53] tag) in
  let* s := selftest_loop {| s_C := C; s_buf := buf; s_tag := tag; s_result := 0 |} T in
  let result := fail_unless ((byte_at (s_buf s) 0 =? 0x1a) && (byte_at (s_buf s) 34 =? 0x1a))
                            (s_result s) in
  let result := fail_unless ((byte_at (s_tag s) 0 =? 0x53) && (byte_at (s_tag s) 17 =? 0x53))
                            result in
  Ok result.

Inductive modcmd := MODULE_CMD_INIT | MODULE_CMD_FINI | MODULE_CMD_OTHER.

(** [None] is success. *)
Definition aes_ccm_modcmd (cmd : modcmd) (C : aes_ccm) (buf tag : list Z) : res (option errno) :=
  match cmd with
  | MODULE_CMD_INIT =>
      let* r := aes_ccm_selftest C buf tag in
      Ok (if r =? 0 then None else Some EIO)
  | MODULE_CMD_FINI => Ok None
  | MODULE_CMD_OTHER => Ok (Some ENOTTY)
  end.
End Selftest.

(** ** Properties *)

(** The self-test passes: with [aes_bear_impl], on all seven packet vectors of
    RFC 3610, the streaming operations encrypt, authenticate, decrypt, verify
    and reject a flipped bit, and do not write outside their buffers; so the
    module loads. *)
Theorem aes_ccm_selftest_passes :
  let C := mkCcm (replicate 60 0) (replicate 32 0xaa) (replicate 16 0xbb) 0 0 0 0 0 0 in
  aes_ccm_selftest aes_bear_impl C (replicate 35 0xcc) (replicate 18 0xdd) = Ok 0 /\
  aes_ccm_modcmd aes_bear_impl MODULE_CMD_INIT C (replicate 35 0xcc) (replicate 18 0xdd) = Ok None.
Proof. vm_compute. split; reflexivity. Qed.
