(* ===== verification/Ieee80211.v ===== *)
(** * Frames, keys and the interface state: net80211/ieee80211.h,
    ieee80211_proto.h, ieee80211_crypto.h, ieee80211_var.h

    A [struct ieee80211_frame *] is the buffer from that byte on.  The part of
    [struct ieee80211com] the modelled code uses is a record; statistics are
    counters indexed by name, and the messages sent to user space through the
    routing socket are a log. *)

From S2P Require Import Prelude Endian Mbuf.

(** ** ieee80211.h *)

Definition IEEE80211_ADDR_LEN : nat := 6.
Definition IEEE80211_FC0_TYPE_MASK : Z := 0x0c.
Definition IEEE80211_FC0_TYPE_MGT : Z := 0x00.
Definition IEEE80211_FC0_TYPE_CTL : Z := 0x04.
Definition IEEE80211_FC0_TYPE_DATA : Z := 0x08.
Definition IEEE80211_FC0_SUBTYPE_MASK : Z := 0xf0.
Definition IEEE80211_FC0_SUBTYPE_CTS : Z := 0xc0.
Definition IEEE80211_FC0_SUBTYPE_ACK : Z := 0xd0.
Definition IEEE80211_FC0_SUBTYPE_QOS : Z := 0x80.
Definition IEEE80211_FC1_DIR_MASK : Z := 0x03.
Definition IEEE80211_FC1_DIR_NODS : Z := 0x00.
Definition IEEE80211_FC1_DIR_TODS : Z := 0x01.
Definition IEEE80211_FC1_DIR_FROMDS : Z := 0x02.
Definition IEEE80211_FC1_DIR_DSTODS : Z := 0x03.
Definition IEEE80211_QOS_TID : Z := 0x0f.
Definition IEEE80211_FC1_MORE_FRAG : Z := 0x04.
Definition IEEE80211_FC1_ORDER : Z := 0x80.
Definition IEEE80211_SEQ_FRAG_MASK : Z := 0x000f.
Definition IEEE80211_SEQ_SEQ_SHIFT : Z := 4.
Definition IEEE80211_WEP_IVLEN : nat := 3.
Definition IEEE80211_WEP_KIDLEN : nat := 1.
Definition IEEE80211_WEP_CRCLEN : nat := 4.
Definition IEEE80211_WEP_EXTIV : Z := 0x20.
Definition IEEE80211_WEP_EXTIVLEN : nat := 4.
Definition IEEE80211_WEP_MICLEN : nat := 8.
Definition IEEE80211_WEP_NKID : nat := 4.

(** Fields of [struct ieee80211_frame]: 24 bytes. *)
Definition sizeof_frame : nat := 24.
Definition i_fc0 (wh : list Z) : Z := byte_at wh 0.
Definition i_fc1 (wh : list Z) : Z := byte_at wh 1.
Definition i_addr1 (wh : list Z) : list Z := sub_list 4 6 wh.
Definition i_addr2 (wh : list Z) : list Z := sub_list 10 6 wh.
Definition i_addr3 (wh : list Z) : list Z := sub_list 16 6 wh.
Definition i_seq0 (wh : list Z) : Z := byte_at wh 22.
(** [struct ieee80211_frame_addr4], [ieee80211_qosframe], [ieee80211_qosframe_addr4]. *)
Definition i_addr4 (wh : list Z) : list Z := sub_list 24 6 wh.
Definition i_qos0 (wh : list Z) : Z := byte_at wh 24.
Definition i_qos0_addr4 (wh : list Z) : Z := byte_at wh 30.

Definition IEEE80211_ADDR_EQ (a1 a2 : list Z) : bool :=
  bool_decide (take IEEE80211_ADDR_LEN a1 = take IEEE80211_ADDR_LEN a2).
Definition IEEE80211_IS_MULTICAST (a : list Z) : bool := negb (Z.land (byte_at a 0) 0x01 =? 0).

Definition ieee80211_has_seq (wh : list Z) : bool :=
  negb (Z.land (i_fc0 wh) IEEE80211_FC0_TYPE_MASK =? IEEE80211_FC0_TYPE_CTL).
Definition ieee80211_has_addr4 (wh : list Z) : bool :=
  Z.land (i_fc1 wh) IEEE80211_FC1_DIR_MASK =? IEEE80211_FC1_DIR_DSTODS.
Definition ieee80211_has_qos (wh : list Z) : bool :=
  Z.land (i_fc0 wh) (Z.lor IEEE80211_FC0_TYPE_MASK IEEE80211_FC0_SUBTYPE_QOS) =?
  Z.lor IEEE80211_FC0_TYPE_DATA IEEE80211_FC0_SUBTYPE_QOS.
Definition ieee80211_has_htc (wh : list Z) : bool :=
  negb (Z.land (i_fc1 wh) IEEE80211_FC1_ORDER =? 0) &&
  (ieee80211_has_qos wh ||
   (Z.land (i_fc0 wh) IEEE80211_FC0_TYPE_MASK =? IEEE80211_FC0_TYPE_MGT)).
(** The little-endian QoS control field. *)
Definition ieee80211_get_qos (wh : list Z) : Z :=
  le16dec (drop (if ieee80211_has_addr4 wh then 30 else 24) wh).

(** ** ieee80211_crypto.h *)

Definition IEEE80211_KEY_XMIT : Z := 0x01.
Definition IEEE80211_KEY_RECV : Z := 0x02.
Definition IEEE80211_KEY_GROUP : Z := 0x04.
Definition IEEE80211_KEY_SWCRYPT : Z := 0x10.
Definition IEEE80211_KEY_SWMIC : Z := 0x20.
Definition IEEE80211_KEY_COMMON : Z :=
  Z.lor (Z.lor IEEE80211_KEY_XMIT IEEE80211_KEY_RECV) IEEE80211_KEY_GROUP.
Definition IEEE80211_KEYBUF_SIZE : nat := 16.
Definition IEEE80211_MICBUF_SIZE : nat := 16.
Definition IEEE80211_KEYIX_NONE : Z := 0xffff.

Definition IEEE80211_CIPHER_WEP : Z := 0.
Definition IEEE80211_CIPHER_TKIP : Z := 1.
Definition IEEE80211_CIPHER_AES_OCB : Z := 2.
Definition IEEE80211_CIPHER_AES_CCM : Z := 3.
Definition IEEE80211_CIPHER_CKIP : Z := 5.
Definition IEEE80211_CIPHER_NONE : Z := 6.
Definition IEEE80211_CIPHER_MAX : Z := IEEE80211_CIPHER_NONE + 1.

(** The cipher templates the sources define; a [const struct ieee80211_cipher *]
    is one of them or NULL. *)
Inductive cipher := cipher_none | cipher_wep | cipher_tkip | cipher_ccmp.
#[global] Instance cipher_eq_dec : EqDecision cipher.
Proof. solve_decision. Defined.

(** [struct tkip_ctx], without the interface it points to. *)
Record tkip_ctx := mkTkip {
  tx_ttak : list Z;
  tx_phase1_done : bool;
  tx_rc4key : list Z;
  rx_ttak : list Z;
  rx_phase1_done : bool;
  rx_rc4key : list Z;
  rx_rsc : Z;
}.

(** [wk_private]: the state the attached cipher keeps with the key. *)
Inductive priv :=
| priv_null
| priv_none                                (* the null cipher keeps the ieee80211com *)
| priv_wep (wc_iv : Z)                     (* struct wep_ctx *)
| priv_tkip (t : tkip_ctx)                 (* struct tkip_ctx *)
| priv_ccmp (cc_aes : list Z).             (* struct ccmp_ctx *)

Record ieee80211_key := mkKey {
  wk_keylen : nat;
  wk_flags : Z;
  wk_keyix : Z;
  wk_rxkeyix : Z;
  wk_key : list Z;       (* IEEE80211_KEYBUF_SIZE + IEEE80211_MICBUF_SIZE bytes *)
  wk_keyrsc : Z;
  wk_keytsc : Z;
  wk_cipher : option cipher;
  wk_private : priv;
}.

Definition set_keyrsc (k : ieee80211_key) (v : Z) : ieee80211_key :=
  mkKey (wk_keylen k) (wk_flags k) (wk_keyix k) (wk_rxkeyix k) (wk_key k) v (wk_keytsc k)
        (wk_cipher k) (wk_private k).
Definition set_keytsc (k : ieee80211_key) (v : Z) : ieee80211_key :=
  mkKey (wk_keylen k) (wk_flags k) (wk_keyix k) (wk_rxkeyix k) (wk_key k) (wk_keyrsc k) v
        (wk_cipher k) (wk_private k).
Definition set_private (k : ieee80211_key) (p : priv) : ieee80211_key :=
  mkKey (wk_keylen k) (wk_flags k) (wk_keyix k) (wk_rxkeyix k) (wk_key k) (wk_keyrsc k) (wk_keytsc k)
        (wk_cipher k) p.
Definition set_kflags (k : ieee80211_key) (f : Z) : ieee80211_key :=
  mkKey (wk_keylen k) f (wk_keyix k) (wk_rxkeyix k) (wk_key k) (wk_keyrsc k) (wk_keytsc k)
        (wk_cipher k) (wk_private k).
Definition set_cipher (k : ieee80211_key) (c : option cipher) : ieee80211_key :=
  mkKey (wk_keylen k) (wk_flags k) (wk_keyix k) (wk_rxkeyix k) (wk_key k) (wk_keyrsc k) (wk_keytsc k)
        c (wk_private k).
Definition set_keyix (k : ieee80211_key) (ix rxix : Z) : ieee80211_key :=
  mkKey (wk_keylen k) (wk_flags k) ix rxix (wk_key k) (wk_keyrsc k) (wk_keytsc k)
        (wk_cipher k) (wk_private k).

Definition has_flag (flags f : Z) : bool := negb (Z.land flags f =? 0).

(** ** ieee80211_var.h *)

Definition IEEE80211_F_PRIVACY : Z := 0x00000010.
Definition IEEE80211_F_DATAPAD : Z := 0x00080000.
Definition IEEE80211_F_DROPUNENC : Z := 0x02000000.
Definition IEEE80211_F_COUNTERM : Z := 0x04000000.
Definition IEEE80211_C_TKIPMIC : Z := 0x00020000.

(** The counters of [struct ieee80211_stats]. *)
Inductive stat :=
| is_rx_badversion | is_rx_tooshort | is_rx_wrongbss | is_rx_dup | is_rx_wrongdir | is_rx_mcastecho
| is_rx_notassoc | is_rx_noprivacy | is_rx_unencrypted | is_rx_wepfail | is_rx_decap | is_rx_mgtdiscard
| is_rx_ctl | is_rx_beacon | is_rx_rstoobig | is_rx_elem_missing | is_rx_elem_toobig
| is_rx_elem_toosmall | is_rx_elem_unknown | is_rx_badchan | is_rx_chanmismatch | is_rx_nodealloc
| is_rx_ssidmismatch | is_rx_auth_unsupported | is_rx_auth_fail | is_rx_auth_countermeasures
| is_rx_assoc_bss | is_rx_assoc_notauth | is_rx_assoc_capmismatch | is_rx_assoc_norate
| is_rx_assoc_badwpaie | is_rx_deauth | is_rx_disassoc | is_rx_badsubtype | is_rx_nobuf
| is_rx_decryptcrc | is_rx_ahdemo_mgt | is_rx_bad_auth | is_rx_unauth | is_rx_badkeyid
| is_rx_ccmpreplay | is_rx_ccmpformat | is_rx_ccmpmic | is_rx_tkipreplay | is_rx_tkipformat
| is_rx_tkipmic | is_rx_tkipicv | is_rx_badcipher | is_rx_nocipherctx | is_rx_acl | is_tx_nobuf
| is_tx_nonode | is_tx_unknownmgt | is_tx_badcipher | is_tx_nodefkey | is_tx_noheadroom
| is_tx_fragframes | is_tx_frags | is_scan_active | is_scan_passive | is_node_timeout | is_crypto_nomem
| is_crypto_tkip | is_crypto_tkipenmic | is_crypto_tkipdemic | is_crypto_tkipcm | is_crypto_ccmp
| is_crypto_wep | is_crypto_setkey_cipher | is_crypto_setkey_nokey | is_crypto_delkey
| is_crypto_badcipher | is_crypto_nocipher | is_crypto_attachfail | is_crypto_swfallback
| is_crypto_keyfail | is_crypto_enmicfail | is_ibss_capmismatch | is_ibss_norate | is_ps_unassoc
| is_ps_badaid | is_ps_qempty | is_ff_badhdr | is_ff_tooshort | is_ff_split | is_ff_decap | is_ff_encap
| is_rx_badbintval.
#[global] Instance stat_eq_dec : EqDecision stat.
Proof. solve_decision. Defined.

(** Messages to user space ([rt_ieee80211msg]). *)
Inductive event :=
| ev_replay (dst src : list Z) (cipher keyix keyrsc rsc : Z)
| ev_michael (dst src : list Z) (cipher keyix : Z).

Record ieee80211com := mkCom {
  ic_ifp : bool;                       (* an interface is attached *)
  ic_flags : Z;
  ic_caps : Z;
  ic_stats : stat -> Z;
  ic_nw_keys : list ieee80211_key;
  ic_def_txkey : Z;
  ic_max_keyix : Z;
  ic_log : list event;
}.

(** [ic->ic_stats.s++] on a 32-bit counter. *)
Definition stat_inc (ic : ieee80211com) (s : stat) : ieee80211com :=
  mkCom (ic_ifp ic) (ic_flags ic) (ic_caps ic)
        (fun t => if decide (t = s) then u32 (ic_stats ic t + 1) else ic_stats ic t)
        (ic_nw_keys ic) (ic_def_txkey ic) (ic_max_keyix ic) (ic_log ic).
Definition log_event (ic : ieee80211com) (e : event) : ieee80211com :=
  mkCom (ic_ifp ic) (ic_flags ic) (ic_caps ic) (ic_stats ic) (ic_nw_keys ic) (ic_def_txkey ic)
        (ic_max_keyix ic) (ic_log ic ++ [e]).

Lemma stat_inc_same ic s : ic_stats (stat_inc ic s) s = u32 (ic_stats ic s + 1).
Proof. cbn. by rewrite decide_True. Qed.
Lemma stat_inc_other ic s t : t <> s -> ic_stats (stat_inc ic s) t = ic_stats ic t.
Proof. intros. cbn. by rewrite decide_False. Qed.

(** [ic->ic_nw_keys[i] = k]. *)
Definition set_nw_key (ic : ieee80211com) (i : nat) (k : ieee80211_key) : ieee80211com :=
  mkCom (ic_ifp ic) (ic_flags ic) (ic_caps ic) (ic_stats ic) (<[i := k]> (ic_nw_keys ic)) (ic_def_txkey ic)
        (ic_max_keyix ic) (ic_log ic).

(** ** Header sizes: ieee80211_proto.h, ieee80211_var.h *)

Definition ieee80211_hdrsize (wh : list Z) : res nat :=
  if Z.land (i_fc0 wh) IEEE80211_FC0_TYPE_MASK =? IEEE80211_FC0_TYPE_CTL then Fault Panic
  else
    let size := sizeof_frame in
    let size := if Z.land (i_fc1 wh) IEEE80211_FC1_DIR_MASK =? IEEE80211_FC1_DIR_DSTODS
                then (size + IEEE80211_ADDR_LEN)%nat else size in
    let size := if ieee80211_has_qos wh then (size + 2)%nat else size in
    Ok size.

(** [struct ieee80211_frame_ack] is 10 bytes and [struct ieee80211_frame_min] 16. *)
Definition ieee80211_anyhdrsize (wh : list Z) : res nat :=
  if Z.land (i_fc0 wh) IEEE80211_FC0_TYPE_MASK =? IEEE80211_FC0_TYPE_CTL then
    let st := Z.land (i_fc0 wh) IEEE80211_FC0_SUBTYPE_MASK in
    if (st =? IEEE80211_FC0_SUBTYPE_CTS) || (st =? IEEE80211_FC0_SUBTYPE_ACK) then Ok 10%nat
    else Ok 16%nat
  else ieee80211_hdrsize wh.

(** [roundup(x, 4)]. *)
Definition roundup4 (x : nat) : nat := ((x + 3) / 4 * 4)%nat.

Definition ieee80211_hdrspace (ic : ieee80211com) (wh : list Z) : res nat :=
  let* size := ieee80211_hdrsize wh in
  Ok (if has_flag (ic_flags ic) IEEE80211_F_DATAPAD then roundup4 size else size).
Definition ieee80211_anyhdrspace (ic : ieee80211com) (wh : list Z) : res nat :=
  let* size := ieee80211_anyhdrsize wh in
  Ok (if has_flag (ic_flags ic) IEEE80211_F_DATAPAD then roundup4 size else size).

(** ** Buffers as the cipher modules see them *)

(** [mtod(m, u_int8_t * )]: from the data pointer to the end of the cluster. *)
Definition mtod (x : mbuf) : list Z := drop (m_data x) (m_cluster x).
(** Store bytes at [mtod(m) + off]. *)
Definition mstore (x : mbuf) (off : nat) (b : list Z) : mbuf :=
  set_cluster x (splice (m_data x + off) b (m_cluster x)).

(** ** Shared by the cipher modules *)

(** A length computed in [u_int] ([ic_header] is one) and kept in a [size_t]:
    a negative value wraps at 32 bits. *)
Definition size_t (x : Z) : Z := u32 x.

(** The 48-bit counter of an extended IV (the CCMP and TKIP modules each have
    this function). *)
Definition READ_6 (b0 b1 b2 b3 b4 b5 : Z) : Z :=
  let iv32 := u32 (Z.lor (Z.lor (Z.lor (Z.shiftl b0 0) (Z.shiftl b1 8)) (Z.shiftl b2 16)) (Z.shiftl b3 24)) in
  let iv16 := u16 (Z.lor (Z.shiftl b4 0) (Z.shiftl b5 8)) in
  Z.lor (Z.shiftl iv16 32) iv32.

(** [memmove(mtod(m) + n, mtod(m), hdrlen)] and the two [m_adj]. *)
Definition strip_crypto (m : list mbuf) (hdrlen hdr trailer : nat) : list mbuf :=
  match m with
  | [] => []
  | x :: rest =>
      let x := mstore x hdr (take hdrlen (mtod x)) in
      m_adj (m_adj (x :: rest) (Z.of_nat hdr)) (- Z.of_nat trailer)
  end.

(** ** ieee80211_netbsd.c: notifications *)

Definition cipher_ix (c : option cipher) : Z :=
  match c with
  | Some cipher_wep => IEEE80211_CIPHER_WEP
  | Some cipher_tkip => IEEE80211_CIPHER_TKIP
  | Some cipher_ccmp => IEEE80211_CIPHER_AES_CCM
  | _ => IEEE80211_CIPHER_NONE
  end.

Definition ieee80211_notify_replay_failure (ic : ieee80211com) (wh : list Z) (k : ieee80211_key)
    (rsc : Z) : ieee80211com :=
  if ic_ifp ic then
    log_event ic (ev_replay (i_addr1 wh) (i_addr2 wh) (cipher_ix (wk_cipher k))
      (if wk_rxkeyix k =? IEEE80211_KEYIX_NONE then wk_keyix k else wk_rxkeyix k)
      (wk_keyrsc k) rsc)
  else ic.

Definition ieee80211_notify_michael_failure (ic : ieee80211com) (wh : list Z) (keyix : Z) : ieee80211com :=
  let ic := stat_inc ic is_rx_tkipmic in
  if ic_ifp ic then log_event ic (ev_michael (i_addr1 wh) (i_addr2 wh) IEEE80211_CIPHER_TKIP keyix)
  else ic.
