(* ===== verification/FrameProof.v ===== *)
(** * Frames in mbuf chains: lemmas

    What the cipher modules need of header sizes, of stores into the first
    mbuf, of packet numbers and of stripping the privacy header. *)

From S2P Require Import Prelude Buffers Mbuf MbufProof AesCcmMbuf Ieee80211.

(** ** Head buffers *)

Lemma take_mtod x rest n :
  mwf x -> (n <= m_len x)%nat -> take n (mtod x) = take n (content (x :: rest)).
Proof.
  intros (Hl & Hw & _) Hn. unfold mtod. rewrite content_cons. unfold mdata. list_solve.
Qed.
Lemma byte_at_mtod x rest i :
  mwf x -> (i < m_len x)%nat -> byte_at (mtod x) i = byte_at (content (x :: rest)) i.
Proof.
  intros Hx Hi. rewrite <- (byte_at_take (mtod x) (m_len x) i), (take_mtod x rest) by (done || lia).
  by rewrite byte_at_take.
Qed.
Lemma mtod_bytes x : mwf x -> bytes (mtod x).
Proof. intros (_ & _ & ?). unfold mtod. auto with urange. Qed.
Lemma length_mtod x : mwf x -> (m_len x <= length (mtod x))%nat.
Proof. intros (Hl & Hw & _). unfold mtod. rewrite length_drop. lia. Qed.

Lemma mstore_ok x rest off b :
  pkt_ok (x :: rest) -> (off + length b <= m_len x)%nat -> bytes b ->
  pkt_ok (mstore x off b :: rest) /\ content (mstore x off b :: rest) = splice off b (content (x :: rest)).
Proof.
  intros Hok Hle Hb. pose proof Hok as [Hc _]. inversion_clear Hc as [|? ? Hx Hr].
  pose proof Hx as (Hl & Hw & _). pose proof (length_mdata x Hx) as Hlm.
  assert (Wy : mwf (mstore x off b)) by (apply mwf_store; [done|lia|done]).
  assert (Ec : content (mstore x off b :: rest) = splice off b (content (x :: rest))).
  { rewrite !content_cons. unfold mstore. rewrite mdata_store by done. symmetry. apply splice_app_l. lia. }
  split; [|done]. apply (shape_pkt_ok _ (x :: rest)); [done|done|by constructor].
Qed.

(** ** Sizes of headers *)

Lemma hdrsize_bounds wh n : ieee80211_hdrsize wh = Ok n -> (24 <= n <= 32)%nat.
Proof.
  unfold ieee80211_hdrsize, sizeof_frame, IEEE80211_ADDR_LEN. case_match; [done|].
  intros [= <-]. repeat case_match; lia.
Qed.
Lemma roundup4_le n : (n <= roundup4 n)%nat.
Proof. unfold roundup4. pose proof (Nat.div_mod_eq (n + 3) 4). pose proof (Nat.mod_upper_bound (n + 3) 4). lia. Qed.
Lemma roundup4_mono a b : (a <= b)%nat -> (roundup4 a <= roundup4 b)%nat.
Proof. intros. unfold roundup4. apply Nat.mul_le_mono_r, Nat.Div0.div_le_mono. lia. Qed.
Lemma hdrspace_bounds ic wh n :
  ieee80211_hdrspace ic wh = Ok n ->
  (24 <= n <= 32)%nat /\ exists s, ieee80211_hdrsize wh = Ok s /\ (s <= n)%nat.
Proof.
  unfold ieee80211_hdrspace. destruct (ieee80211_hdrsize wh) as [s|] eqn:E; [|done].
  cbn [res_bind]. intros [= <-]. apply hdrsize_bounds in E as Hs.
  pose proof (roundup4_le s). pose proof (roundup4_mono s 32 ltac:(lia)) as H32. change (roundup4 32) with 32%nat in H32.
  case_match; split; try lia; exists s; split; (done || lia).
Qed.

(** Header fields depend on the header only. *)
Lemma byte_at_prefix n wh wh' i : take n wh = take n wh' -> (i < n)%nat -> byte_at wh i = byte_at wh' i.
Proof. intros E Hi. by rewrite <- (byte_at_take wh n i), E, byte_at_take. Qed.
Lemma sub_list_prefix {A} n off len (wh wh' : list A) :
  take n wh = take n wh' -> (off + len <= n)%nat -> sub_list off len wh = sub_list off len wh'.
Proof.
  intros E Hle. assert (G : forall l : list A, sub_list off len l = sub_list off len (take n l)).
  { intros l. list_solve. }
  by rewrite G, E, <- G.
Qed.

Lemma hdrsize_prefix n wh wh' :
  (24 <= n)%nat -> take n wh = take n wh' -> ieee80211_hdrsize wh = ieee80211_hdrsize wh'.
Proof.
  intros Hn E. unfold ieee80211_hdrsize, ieee80211_has_qos, i_fc0, i_fc1.
  by rewrite (byte_at_prefix n wh wh' 0), (byte_at_prefix n wh wh' 1) by (done || lia).
Qed.

(** ** Packet numbers *)

Lemma READ_6_range b0 b1 b2 b3 b4 b5 : 0 <= READ_6 b0 b1 b2 b3 b4 b5 < 2 ^ 48.
Proof.
  unfold READ_6. set (a := u16 _). set (b := u32 _).
  assert (Ha : is_u 16 a) by apply u16_range. assert (Hb : is_u 32 b) by apply u32_range.
  assert (H : is_u 48 (Z.lor (Z.shiftl a 32) b)); [|exact H].
  apply is_u_lor; [lia| |apply (is_u_weaken 32); [lia|done]].
  unfold is_u in *. rewrite Z.shiftl_mul_pow2 by lia. lia.
Qed.

(** The receiver reads back the low 48 bits of the transmit counter. *)
Lemma READ_6_tsc t :
  READ_6 (u8 (Z.shiftr t 0)) (u8 (Z.shiftr t 8)) (u8 (Z.shiftr t 16)) (u8 (Z.shiftr t 24))
         (u8 (Z.shiftr t 32)) (u8 (Z.shiftr t 40)) = t mod 2 ^ 48.
Proof.
  apply Z.bits_inj'. intros i Hi. destruct (Z.lt_ge_cases i 48) as [Hlt|Hge].
  - rewrite Z.mod_pow2_bits_low by lia. unfold READ_6, u16. assert (Hr : 0 <= i < 48) by lia.
    case_range i Hr; solve_bits; rewrite ?(is_u_testbit 8 _ _ (u8_range _)) by lia;
      rewrite ?(is_u_testbit 32 _ _ (u32_range _)) by lia;
      rewrite ?orb_false_r, ?orb_false_l, ?andb_true_r; solve_bits; reflexivity.
  - pose proof (READ_6_range (u8 (Z.shiftr t 0)) (u8 (Z.shiftr t 8)) (u8 (Z.shiftr t 16))
      (u8 (Z.shiftr t 24)) (u8 (Z.shiftr t 32)) (u8 (Z.shiftr t 40))) as H.
    rewrite (is_u_testbit 48 _ i H) by lia. symmetry. apply Z.mod_pow2_bits_high. lia.
Qed.

(** ** Lengths *)

Lemma size_t_nat n : Z.of_nat n < 2 ^ 32 -> size_t (Z.of_nat n) = Z.of_nat n.
Proof. intros. apply u32_id. unfold is_u. lia. Qed.

(** ** Stripping *)

Lemma strip_crypto_ok x rest hdrlen hn tn :
  pkt_ok (x :: rest) -> (hdrlen + hn <= m_len x)%nat ->
  (hdrlen + hn + tn <= length (content (x :: rest)))%nat ->
  let c := content (x :: rest) in
  pkt_ok (strip_crypto (x :: rest) hdrlen hn tn) /\
  content (strip_crypto (x :: rest) hdrlen hn tn) =
  take hdrlen c ++ sub_list (hdrlen + hn) (length c - (hdrlen + hn + tn)) c.
Proof.
  intros Hok Hm Hle c. pose proof Hok as [Hc _]. inversion_clear Hc as [|? ? Hx Hr].
  unfold strip_crypto. rewrite (take_mtod x rest) by (done || lia). fold c.
  assert (Hb : bytes (take hdrlen c)) by (apply bytes_take, content_bytes; by constructor).
  assert (Hl : length (take hdrlen c) = hdrlen) by (rewrite length_take; unfold c; lia).
  destruct (mstore_ok x rest hn (take hdrlen c) Hok) as [[W1 _] E1]; [lia|done|].
  destruct (m_adj_spec _ (Z.of_nat hn) W1) as (E2 & W2 & _).
  destruct (m_adj_spec _ (- Z.of_nat tn) W2) as (E3 & W3 & S3).
  split; [by split|]. rewrite E3, E2, E1. fold c. unfold adj_spec.
  replace (0 <=? Z.of_nat hn) with true by lia. rewrite Nat2Z.id.
  destruct (0 <=? - Z.of_nat tn) eqn:E0.
  - assert (tn = 0%nat) as -> by lia. cbn [Z.of_nat Z.opp Z.to_nat]. fold c in Hle. list_solve.
  - replace (- - Z.of_nat tn) with (Z.of_nat tn) by lia. rewrite Nat2Z.id. fold c in Hle. list_solve.
Qed.

Lemma m_adj_head c req : head_pkthdr (m_adj c req) = head_pkthdr c.
Proof.
  assert (S : forall d, head_pkthdr (sync_pkthdr d) = head_pkthdr d) by (intros [|x d]; [done|]; cbn [sync_pkthdr head_pkthdr]; destruct (has_pkthdr x) eqn:E; exact E).
  unfold m_adj. rewrite S. destruct c as [|x c]; [by destruct (0 <=? req)|]. destruct (0 <=? req); cbn [adj_head adj_tail].
  - destruct (_ =? 0)%nat; [done|]. by destruct (_ <=? _)%nat.
  - cbn [head_pkthdr]. by destruct (_ <? _)%nat.
Qed.

(** The first mbuf after [n] bytes of headers were taken out: still the packet
    header, and all the bytes it had that are still there. *)
Definition head_len (c : list mbuf) : nat := match c with x :: _ => m_len x | [] => 0%nat end.
Definition keeps_head (n : nat) (a b : list mbuf) : Prop :=
  head_pkthdr b = head_pkthdr a /\ forall k, (k + n <= head_len a)%nat -> (k <= length (content b))%nat -> (k <= head_len b)%nat.

Lemma head_len_sync c : head_len (sync_pkthdr c) = head_len c.
Proof. destruct c as [|x c]; [done|]. cbn [sync_pkthdr head_len]. by destruct (has_pkthdr x). Qed.
Lemma m_adj_front_head c n k : (k + n <= head_len c)%nat -> (k <= head_len (m_adj c (Z.of_nat n)))%nat.
Proof.
  intros H. unfold m_adj. rewrite (proj2 (Z.leb_le 0 _)), Nat2Z.id, head_len_sync by lia. destruct c as [|x c]; [cbn in *; lia|].
  cbn [adj_head head_len] in *. destruct (Nat.eqb_spec n 0); [cbn [head_len]; lia|].
  destruct (Nat.leb_spec (m_len x) n); cbn [head_len set_window m_len]; lia.
Qed.
Lemma m_adj_back_head c n k : cwf c -> (k <= head_len c)%nat -> (k <= length (content (m_adj c (- Z.of_nat n))))%nat ->
  (k <= head_len (m_adj c (- Z.of_nat n)))%nat.
Proof.
  intros W H. destruct (m_adj_spec c (- Z.of_nat n) W) as (-> & _). unfold m_adj, adj_spec. rewrite head_len_sync.
  destruct (0 <=? - Z.of_nat n) eqn:E.
  - assert (n = 0%nat) as -> by lia. intros _. by destruct c.
  - rewrite length_take, length_content by done. replace (Z.to_nat (- - Z.of_nat n)) with n by lia. destruct c as [|x c]; [done|].
    intros Hk. set (cnt := if (n <? chain_len (x :: c))%nat then _ else _).
    assert (Ec : (k <= cnt)%nat) by (unfold cnt; destruct (Nat.ltb_spec n (chain_len (x :: c))); lia). clearbody cnt.
    cbn [adj_tail head_len] in *. destruct (Nat.ltb_spec cnt (m_len x)); cbn [m_len set_window]; lia.
Qed.
Lemma strip_keeps x rest hdrlen hn tn : pkt_ok (x :: rest) -> (hdrlen + hn <= m_len x)%nat ->
  keeps_head hn (x :: rest) (strip_crypto (x :: rest) hdrlen hn tn).
Proof.
  intros O H. unfold strip_crypto. split; [by rewrite !m_adj_head|]. intros k Hk Hl.
  pose proof O as [Hc _]. inversion_clear Hc as [|? ? Wx _].
  assert (Le : (length (take hdrlen (mtod x)) <= hdrlen)%nat) by (rewrite length_take; lia).
  destruct (mstore_ok x rest hn (take hdrlen (mtod x)) O) as [[W1 _] _]; [lia|by apply bytes_take, mtod_bytes|].
  apply m_adj_back_head; [apply m_adj_spec, W1| |exact Hl]. by apply m_adj_front_head.
Qed.
