(* ===== verification/Ccmp.v ===== *)
(** * AES-CCMP: net80211/ieee80211_crypto_ccmp.c

    The cipher module for WPA2.  [k->wk_private] is a [ccmp_ctx], whose
    [cc_aes] is the expanded key and whose [cc_ic] is the interface the
    operations are given. *)

From S2P Require Import Prelude Endian AesBear Mbuf AesCcm Ieee80211.

(** [ieee80211_cipher_ccmp]. *)
Definition ccmp_ic_header : nat := IEEE80211_WEP_IVLEN + IEEE80211_WEP_KIDLEN + IEEE80211_WEP_EXTIVLEN.
Definition ccmp_ic_trailer : nat := IEEE80211_WEP_MICLEN.
Definition ccmp_ic_miclen : nat := 0.

(** The local [struct aes_ccm] before [aes_ccm_init] fills it. *)
Definition ccm_local : aes_ccm := mkCcm [] (replicate 32 0) (replicate 16 0) 0 0 0 0 0 0.

(** [kmem] says whether [kmem_intr_zalloc] succeeds. *)
Definition ccmp_attach (kmem : bool) (ic : ieee80211com) : option priv * ieee80211com :=
  if kmem then (Some (priv_ccmp (replicate 60 0)), ic)
  else (None, stat_inc ic is_crypto_nomem).

(** [ctx = k->wk_private]. *)
Definition ccmp_ctx (k : ieee80211_key) : res (list Z) :=
  match wk_private k with
  | priv_ccmp cc_aes => Ok cc_aes
  | _ => Fault NullDeref
  end.

Definition ccmp_setkey (k : ieee80211_key) : res (bool * ieee80211_key) :=
  let* cc_aes := ccmp_ctx k in
  if negb (wk_keylen k =? 16)%nat then Ok (false, k)
  else if has_flag (wk_flags k) IEEE80211_KEY_SWCRYPT then
    let* (cc_aes, _) := aes_setenckey128 cc_aes (take 16 (wk_key k)) in
    Ok (true, set_private k (priv_ccmp cc_aes))
  else Ok (true, k).

(** The eight bytes at [ivp]. *)
Definition ccmp_iv (tsc keyid : Z) : list Z :=
  [u8 (Z.shiftr tsc 0); u8 (Z.shiftr tsc 8); 0; u8 (Z.lor keyid IEEE80211_WEP_EXTIV);
   u8 (Z.shiftr tsc 16); u8 (Z.shiftr tsc 24); u8 (Z.shiftr tsc 32); u8 (Z.shiftr tsc 40)].

(** The nonce and the additional data [ccmp_init_blocks] builds from the
    frame header. *)
Definition ccmp_blocks (wh : list Z) (pn : Z) : list Z * list Z :=
  let ad22 := [Z.land (i_fc0 wh) 0x8f; Z.land (i_fc1 wh) 0xc7] ++ sub_list 4 18 wh ++
              [Z.land (i_seq0 wh) IEEE80211_SEQ_FRAG_MASK; 0] in
  let is_4address := Z.land (i_fc1 wh) IEEE80211_FC1_DIR_MASK =? IEEE80211_FC1_DIR_DSTODS in
  let '(qos, ad) :=
    if is_4address then
      if ieee80211_has_qos wh then
        let qos := Z.land (i_qos0_addr4 wh) 0x0f in (qos, ad22 ++ i_addr4 wh ++ [qos; 0])
      else (0, ad22 ++ i_addr4 wh)
    else
      if ieee80211_has_qos wh then
        let qos := Z.land (i_qos0 wh) 0x0f in (qos, ad22 ++ [qos; 0])
      else (0, ad22) in
  ([qos] ++ i_addr2 wh ++
   [u8 (Z.shiftr pn 40); u8 (Z.shiftr pn 32); u8 (Z.shiftr pn 24);
    u8 (Z.shiftr pn 16); u8 (Z.shiftr pn 8); u8 (Z.shiftr pn 0)], ad).

Definition AES_128_NROUNDS : nat := 10.

Definition ccmp_init_blocks (ctx : list Z) (wh : list Z) (pn : Z) (data_len : Z) : aes_ccm :=
  let '(nonce, ad) := ccmp_blocks wh pn in
  aes_ccm_init aes_bear_impl ccm_local AES_128_NROUNDS ctx 2 (Z.of_nat IEEE80211_WEP_MICLEN)
    nonce ad data_len.

Definition ccmp_encrypt (ic : ieee80211com) (h : heap) (key : ieee80211_key) (m : list mbuf)
    (hdrlen : nat) : res (bool * list mbuf * ieee80211com * heap) :=
  let* ctx := ccmp_ctx key in
  match m with
  | [] => Fault NullDeref
  | x :: _ =>
      let ic := stat_inc ic is_crypto_ccmp in
      let data_len := size_t (ph_len (m_hdr x) - Z.of_nat (hdrlen + ccmp_ic_header)) in
      let C := ccmp_init_blocks ctx (mtod x) (wk_keytsc key) data_len in
      let* (_, m, mic) := aes_ccm_enc_mbuf aes_bear_impl C m (hdrlen + ccmp_ic_header) data_len in
      let* (ok, m, h) := m_append h m mic in
      Ok (ok, m, ic, h)
  end.

Definition ccmp_encap (ic : ieee80211com) (h : heap) (k : ieee80211_key) (m : list mbuf) (keyid : Z)
    : res (bool * ieee80211_key * list mbuf * ieee80211com * heap) :=
  match m with
  | [] => Fault NullDeref
  | x :: rest =>
      let* _ := ccmp_ctx k in
      let* hdrlen := ieee80211_hdrspace ic (mtod x) in
      let k := set_keytsc k (u64 (wk_keytsc k + 1)) in
      let x := mstore x hdrlen (ccmp_iv (wk_keytsc k) keyid) in
      if has_flag (wk_flags k) IEEE80211_KEY_SWCRYPT then
        let* (ok, m, ic, h) := ccmp_encrypt ic h k (x :: rest) hdrlen in
        Ok (ok, k, m, ic, h)
      else Ok (true, k, x :: rest, ic, h)
  end.

Definition ccmp_enmic (k : ieee80211_key) (m : list mbuf) (force : bool) : bool := true.
Definition ccmp_demic (k : ieee80211_key) (m : list mbuf) (force : bool) : bool := true.

Definition ccmp_decrypt (ic : ieee80211com) (key : ieee80211_key) (pn : Z) (m : list mbuf)
    (hdrlen : nat) : res (bool * list mbuf * ieee80211com) :=
  let* ctx := ccmp_ctx key in
  match m with
  | [] => Fault NullDeref
  | x :: _ =>
      let ic := stat_inc ic is_crypto_ccmp in
      let data_len := size_t (ph_len (m_hdr x) - Z.of_nat (hdrlen + ccmp_ic_header + ccmp_ic_trailer)) in
      let C := ccmp_init_blocks ctx (mtod x) pn data_len in
      let mic := m_copydata m (Z.to_nat (ph_len (m_hdr x)) - ccmp_ic_trailer) ccmp_ic_trailer in
      let* (_, m, ok) := aes_ccm_dec_mbuf aes_bear_impl C m (hdrlen + ccmp_ic_header) data_len mic in
      Ok (if ok then (true, m, ic) else (false, m, stat_inc ic is_rx_ccmpmic))
  end.

Definition ccmp_decap (ic : ieee80211com) (k : ieee80211_key) (m : list mbuf) (hdrlen : nat)
    : res (bool * ieee80211_key * list mbuf * ieee80211com) :=
  let* _ := ccmp_ctx k in
  match m with
  | [] => Fault NullDeref
  | x :: _ =>
      let wh := mtod x in
      let ivp := drop hdrlen (mtod x) in
      if Z.land (byte_at ivp IEEE80211_WEP_IVLEN) IEEE80211_WEP_EXTIV =? 0 then
        Ok (false, k, m, stat_inc ic is_rx_ccmpformat)
      else
        let pn := READ_6 (byte_at ivp 0) (byte_at ivp 1) (byte_at ivp 4) (byte_at ivp 5)
                         (byte_at ivp 6) (byte_at ivp 7) in
        if pn <=? wk_keyrsc k then
          let ic := ieee80211_notify_replay_failure ic wh k pn in
          Ok (false, k, m, stat_inc ic is_rx_ccmpreplay)
        else
          let* (ok, m, ic) :=
            if has_flag (wk_flags k) IEEE80211_KEY_SWCRYPT
            then ccmp_decrypt ic k pn m hdrlen else Ok (true, m, ic) in
          if negb ok then Ok (false, k, m, ic)
          else
            let m := strip_crypto m hdrlen ccmp_ic_header ccmp_ic_trailer in
            Ok (true, set_keyrsc k pn, m, ic)
  end.
