(* ===== verification/CcmpProof.v ===== *)
(** * AES-CCMP: proofs

    What encapsulation puts on the air, what decapsulation accepts, and that
    the two fit: round trip, replay protection and integrity. *)

From Stdlib Require Import Sorted.
From S2P Require Import Prelude Buffers Endian AesCt AesSpec AesBlock AesBear AesBearProof Mbuf MbufProof.
From S2P Require Import AesCcm AesCcmProof AesCcmRfc AesCcmMbuf Ieee80211 FrameProof Ccmp.

Lemma ccmp_blocks_prefix n s wh wh' pn :
  take n wh = take n wh' -> ieee80211_hdrsize wh = Ok s -> (s <= n)%nat ->
  ccmp_blocks wh pn = ccmp_blocks wh' pn.
Proof.
  intros E Hs Hle. apply hdrsize_bounds in Hs as Hb.
  assert (B : forall i, (i < n)%nat -> byte_at wh i = byte_at wh' i) by (intros; by apply (byte_at_prefix n)).
  assert (S : forall o l, (o + l <= n)%nat -> sub_list o l wh = sub_list o l wh') by (intros; by apply (sub_list_prefix n)).
  revert Hs. unfold ieee80211_hdrsize, ccmp_blocks, ieee80211_has_qos, i_fc0, i_fc1, i_addr2, i_addr4, i_seq0,
    i_qos0, i_qos0_addr4, sizeof_frame, IEEE80211_ADDR_LEN.
  rewrite <- (B 0%nat), <- (B 1%nat), <- (B 22%nat), <- !S by lia.
  case_match; [done|]. intros [= Hs].
  destruct (_ =? IEEE80211_FC1_DIR_DSTODS) eqn:E4; destruct (_ =? Z.lor _ _) eqn:Eq;
    rewrite <- ?(B 24%nat), <- ?(B 30%nat), <- ?S by lia; done.
Qed.

(** The nonce and additional data are what CCM accepts. *)
Lemma ccmp_blocks_ok wh pn nonce ad :
  bytes wh -> (32 <= length wh)%nat -> ccmp_blocks wh pn = (nonce, ad) ->
  nonce_ok nonce /\ bytes ad /\ Z.of_nat (length ad) < 0xff00 /\ ad_ok ad.
Proof.
  intros Hb Hl. unfold ccmp_blocks.
  set (ad22 := _ ++ sub_list 4 18 wh ++ _).
  assert (H22 : length ad22 = 22%nat /\ bytes ad22).
  { unfold ad22. split; [rewrite !length_app, length_sub_list by lia; done|].
    rewrite !bytes_app. split_and!; [|auto with urange|];
      split_Forall; try (apply is_u_land_r; [lia|unfold is_u, IEEE80211_SEQ_FRAG_MASK; lia]); unfold is_u; lia. }
  clearbody ad22. destruct H22 as [H22 B22].
  assert (Hq : forall q, is_u8 (Z.land q 0x0f)) by (intros; apply is_u_land_r; unfold is_u; lia).
  assert (H0 : is_u8 0) by (unfold is_u; lia).
  assert (Hn : forall q, is_u8 q -> nonce_ok ([q] ++ i_addr2 wh ++
    [u8 (Z.shiftr pn 40); u8 (Z.shiftr pn 32); u8 (Z.shiftr pn 24);
     u8 (Z.shiftr pn 16); u8 (Z.shiftr pn 8); u8 (Z.shiftr pn 0)])).
  { intros q Hq'. unfold i_addr2. split; [rewrite !length_app, length_sub_list by lia; done|].
    rewrite !bytes_app. split_and!; [by apply bytes1|auto with urange|]. split_Forall; auto with urange. }
  assert (H4 : length (i_addr4 wh) = 6%nat /\ bytes (i_addr4 wh)).
  { unfold i_addr4. split; [apply length_sub_list; lia|auto with urange]. }
  destruct H4 as [H4 B4].
  destruct (_ =? IEEE80211_FC1_DIR_DSTODS), (ieee80211_has_qos wh); intros [= <- <-];
    (split; [apply Hn; auto|]); unfold ad_ok;
    rewrite ?length_app, H22, ?H4; cbn [length Nat.add];
    (refine (conj _ (conj _ _));
     [repeat (apply bytes_app; split); auto; split_Forall; auto|lia|]);
    (left; lia) || (right; reflexivity).
Qed.

Lemma ccmp_iv_bytes t keyid : bytes (ccmp_iv t keyid).
Proof. unfold ccmp_iv. split_Forall; auto with urange. Qed.

Lemma ccmp_iv_ext t keyid : is_u8 keyid -> Z.land (byte_at (ccmp_iv t keyid) 3) IEEE80211_WEP_EXTIV <> 0.
Proof.
  intros Hk. unfold ccmp_iv, byte_at, IEEE80211_WEP_EXTIV. cbn [nth].
  intros H. apply (f_equal (fun z => Z.testbit z 5)) in H. revert H. solve_bits. by rewrite orb_true_r.
Qed.

(** ** Keys ready for software CCMP *)

Definition ccmp_E (key : list Z) : list Z -> list Z := aes_cipher 4 10 key.
Definition ccmp_crypt (key hdr : list Z) (pn : Z) (data : list Z) : list Z :=
  rfc_crypt (ccmp_E key) (fst (ccmp_blocks hdr pn)) data.
Definition ccmp_mic (key hdr : list Z) (pn : Z) (data : list Z) : list Z :=
  let '(nonce, ad) := ccmp_blocks hdr pn in rfc_tag (ccmp_E key) 8 nonce ad data.

(** [k] is attached to CCMP, does the work in software and holds [key]. *)
Definition ccmp_ready (k : ieee80211_key) (key : list Z) : Prop :=
  length key = 16%nat /\ bytes key /\ has_flag (wk_flags k) IEEE80211_KEY_SWCRYPT = true /\
  exists rk0 rk, wk_private k = priv_ccmp rk /\ aesbear_setkey rk0 key 10 = Ok rk.

Lemma ccmp_ready_impl k key :
  ccmp_ready k key ->
  exists rk, ccmp_ctx k = Ok rk /\ aes_impl_ok aes_bear_impl rk 10 (ccmp_E key).
Proof.
  intros (Hl & Hb & _ & rk0 & rk & Hp & Hs). exists rk. split; [unfold ccmp_ctx; by rewrite Hp|].
  pose proof (aes_bear_impl_ok key rk0 rk 10 Hb) as H. rewrite Hl in H. by apply H.
Qed.

Lemma ccmp_setkey_ok k rk0 :
  wk_private k = priv_ccmp rk0 -> wk_keylen k = 16%nat -> length (wk_key k) = 32%nat -> bytes (wk_key k) ->
  has_flag (wk_flags k) IEEE80211_KEY_SWCRYPT = true ->
  exists k', ccmp_setkey k = Ok (true, k') /\ ccmp_ready k' (take 16 (wk_key k)) /\
    wk_keyrsc k' = wk_keyrsc k /\ wk_keytsc k' = wk_keytsc k.
Proof.
  intros Hp Hlen Hk Hb Hsw. unfold ccmp_setkey, ccmp_ctx. rewrite Hp, Hlen, Hsw. cbn [res_bind Nat.eqb negb].
  eexists. split; [reflexivity|]. split_and!; [|done|done].
  split; [rewrite length_take; lia|]. split; [auto with urange|]. split; [done|].
  eexists _, _. split; reflexivity.
Qed.

Lemma rfc_tag_blk E nonce ad M msg I rk nr :
  aes_impl_ok I rk nr E -> In M [4; 6; 8; 10; 12; 14; 16] -> nonce_ok nonce -> bytes ad -> bytes msg ->
  length (rfc_tag E M nonce ad msg) = Z.to_nat M /\ bytes (rfc_tag E M nonce ad msg).
Proof.
  intros HI HM Hn Hb Hm.
  assert (Hmac : blk (rfc_mac E M nonce ad msg)).
  { rewrite <- (rfc_mac_spec I rk nr E) by done.
    pose proof (absorb_ok I rk nr E (mac0 E M nonce ad (length msg), 0%nat) msg) as [? ?];
      [split; [by apply (mac0_blk I rk nr E)|cbn; lia]|done|].
    unfold finish. case_match; [done|by apply E_blk]. }
  pose proof (E_ctr_blk I rk nr E nonce Hn 0) as Hc0.
  assert (HM16 : (Z.to_nat M <= 16)%nat) by (cbn in HM; lia). unfold rfc_tag. split.
  - unfold xor_bytes. rewrite length_zip_with, !length_take, (proj1 Hmac), (proj1 Hc0). lia.
  - apply bytes_xor; apply bytes_take; [apply Hc0|apply Hmac].
Qed.

(** ** Encapsulation *)

(** [ccmp_encrypt] on a packet whose header and IV are in the first mbuf. *)
Lemma ccmp_encrypt_ok ic h k key x rest hdrlen :
  pkt_ok (x :: rest) -> has_pkthdr x = true -> ccmp_ready k key ->
  ieee80211_hdrspace ic (mtod x) = Ok hdrlen -> (hdrlen + 8 <= m_len x)%nat ->
  (hdrlen + 8 < length (content (x :: rest)))%nat ->
  Z.of_nat (length (content (x :: rest)) - (hdrlen + 8)) < 65536 ->
  let c := content (x :: rest) in
  let hdr := take hdrlen c in
  let data := drop (hdrlen + 8) c in
  exists ok c' h' d rem,
    ccmp_encrypt ic h k (x :: rest) hdrlen = Ok (ok, c', stat_inc ic is_crypto_ccmp, h') /\
    pkt_ok c' /\ balanced h h' (x :: rest) c' /\
    ccmp_mic key hdr (wk_keytsc k) data = d ++ rem /\
    content c' = take (hdrlen + 8) c ++ ccmp_crypt key hdr (wk_keytsc k) data ++ d /\
    (ok = true <-> rem = []) /\
    (Forall is_Some (h_supply h) -> (8 <= length (h_supply h))%nat -> ok = true).
Proof.
  intros Hok Hp Hr Hhs Hh Hne Hlen c hdr data.
  destruct (ccmp_ready_impl k key Hr) as (rk & Hctx & HI).
  pose proof Hok as [Hc Hs]. inversion_clear Hc as [|? ? Hx Hrest]. assert (Hc : cwf (x :: rest)) by (by constructor).
  destruct (hdrspace_bounds ic (mtod x) hdrlen Hhs) as [Hhb (s & Hsz & Hsle)].
  unfold ccmp_encrypt. rewrite Hctx. cbn [res_bind]. change ccmp_ic_header with 8%nat.
  rewrite (pkt_ok_ph x rest Hok Hp). fold c.
  set (n := (length c - (hdrlen + 8))%nat).
  replace (Z.of_nat (length c) - Z.of_nat (hdrlen + 8)) with (Z.of_nat n) by (unfold n, c; lia).
  rewrite size_t_nat by (unfold n, c; lia).
  assert (Ehdr : take hdrlen (mtod x) = take hdrlen hdr).
  { unfold hdr, c. rewrite take_take, Nat.min_id. apply take_mtod; [done|lia]. }
  assert (Eb : ccmp_blocks (mtod x) (wk_keytsc k) = ccmp_blocks hdr (wk_keytsc k))
    by (by apply (ccmp_blocks_prefix hdrlen s)).
  unfold ccmp_init_blocks, ccmp_mic, ccmp_crypt. rewrite <- Eb.
  destruct (ccmp_blocks (mtod x) (wk_keytsc k)) as [nonce ad] eqn:Ebl. cbn [fst].
  destruct (ccmp_blocks_ok (mtod x) (wk_keytsc k) nonce ad) as (Hn & Hbad & Hlad & Hadok);
    [by apply mtod_bytes|pose proof (length_mtod x Hx); lia|done|].
  assert (Hseg : sub_list (hdrlen + 8) n c = data).
  { unfold sub_list, data. apply take_ge. rewrite length_drop. unfold n. lia. }
  assert (Hbd : bytes data) by (apply bytes_drop, content_bytes; done).
  assert (HM : In 8 [4; 6; 8; 10; 12; 14; 16]) by (cbn; auto).
  destruct (aes_ccm_enc_mbuf_ok aes_bear_impl rk 10 (ccmp_E key) nonce Hn 8 HM ad Hbad Hlad Hadok
              ccm_local (x :: rest) (hdrlen + 8) n) as (C' & c1 & Ee & W1 & S1 & E1);
    [done|done|fold c; unfold n, c; lia|fold c; unfold c; lia|unfold n, c; lia|].
  fold c in Ee, E1. rewrite Hseg in Ee, E1.
  unfold AES_128_NROUNDS, IEEE80211_WEP_MICLEN. change (Z.of_nat 8) with 8. rewrite Ee. cbn [res_bind].
  destruct (rfc_tag_blk (ccmp_E key) nonce ad 8 data aes_bear_impl rk 10 HI HM Hn Hbad Hbd) as [Htl Htb].
  pose proof (shape_pkt_ok c1 (x :: rest) S1 Hok W1) as Hok1.
  assert (Hne1 : c1 <> []) by (intros ->; discriminate S1).
  destruct (m_append_spec h c1 (rfc_tag (ccmp_E key) 8 nonce ad data) Hne1 Hok1 Htb)
    as (ok & c' & h' & d & rem & Ea & Hok' & Hbal & Et & Ec & Hiff & Hsup).
  rewrite Ea. cbn [res_bind]. exists ok, c', h', d, rem. split_and!; try done.
  - unfold balanced in *. apply (f_equal length) in S1. unfold shape in S1. rewrite !length_map in S1. lia.
  - rewrite Ec, E1, app_assoc. f_equal. unfold splice.
    assert (Hlr : length (rfc_crypt (ccmp_E key) nonce data) = n)
      by (unfold rfc_crypt; rewrite length_xor_stream; unfold data; rewrite length_drop; done).
    rewrite Hlr, (drop_ge c) by (unfold n; lia). by rewrite app_nil_r.
  - intros HS H8. apply Hsup; [done|]. rewrite Htl. done.
Qed.

(** [ccmp_encap]: the frame on the air is the header, the IV with the new
    packet number, the encrypted payload and the MIC. *)
Lemma ccmp_encap_ok ic h k key x rest hdrlen keyid :
  pkt_ok (x :: rest) -> has_pkthdr x = true -> ccmp_ready k key ->
  ieee80211_hdrspace ic (mtod x) = Ok hdrlen -> (hdrlen + 8 <= m_len x)%nat ->
  (hdrlen + 8 < length (content (x :: rest)))%nat ->
  Z.of_nat (length (content (x :: rest)) - (hdrlen + 8)) < 65536 ->
  let c := content (x :: rest) in
  let hdr := take hdrlen c in
  let data := drop (hdrlen + 8) c in
  let tsc := u64 (wk_keytsc k + 1) in
  exists ok c' h' d rem,
    ccmp_encap ic h k (x :: rest) keyid = Ok (ok, set_keytsc k tsc, c', stat_inc ic is_crypto_ccmp, h') /\
    pkt_ok c' /\ balanced h h' (x :: rest) c' /\
    ccmp_mic key hdr tsc data = d ++ rem /\
    content c' = hdr ++ ccmp_iv tsc keyid ++ ccmp_crypt key hdr tsc data ++ d /\
    (ok = true <-> rem = []) /\
    (Forall is_Some (h_supply h) -> (8 <= length (h_supply h))%nat -> ok = true).
Proof.
  intros Hok Hp Hr Hhs Hh Hne Hlen c hdr data tsc.
  destruct (ccmp_ready_impl k key Hr) as (rk & Hctx & _).
  pose proof Hok as [Hc _]. inversion_clear Hc as [|? ? Hx Hrest].
  destruct (hdrspace_bounds ic (mtod x) hdrlen Hhs) as [Hhb _].
  destruct (mstore_ok x rest hdrlen (ccmp_iv tsc keyid) Hok) as [Hok1 Ec1];
    [cbn; lia|apply ccmp_iv_bytes|].
  set (y := mstore x hdrlen (ccmp_iv tsc keyid)) in *. fold c in Ec1.
  assert (Hlc : length (content (y :: rest)) = length c).
  { rewrite Ec1, length_splice; [done|]. cbn [length ccmp_iv]. unfold c. lia. }
  assert (Hhdr : take hdrlen (content (y :: rest)) = hdr).
  { rewrite Ec1. unfold hdr, splice. rewrite take_app_length'; [done|]. rewrite length_take. unfold c. lia. }
  assert (Hdat : drop (hdrlen + 8) (content (y :: rest)) = data /\
                 take (hdrlen + 8) (content (y :: rest)) = hdr ++ ccmp_iv tsc keyid).
  { rewrite Ec1. unfold splice. change (length (ccmp_iv tsc keyid)) with 8%nat. fold data hdr.
    assert (Hl : length (hdr ++ ccmp_iv tsc keyid) = (hdrlen + 8)%nat).
    { rewrite length_app. unfold hdr. rewrite length_take. cbn [length ccmp_iv]. unfold c. lia. }
    rewrite app_assoc. split; [by apply drop_app_length'|by apply take_app_length']. }
  destruct Hdat as [Hdat Htk].
  assert (Hhs' : ieee80211_hdrspace ic (mtod y) = Ok hdrlen).
  { rewrite <- Hhs. unfold ieee80211_hdrspace.
    rewrite (hdrsize_prefix hdrlen (mtod y) (mtod x)); [done|lia|].
    destruct Hok1 as [Hc1 _]. inversion_clear Hc1.
    rewrite (take_mtod y rest), (take_mtod x rest) by (done || cbn; lia). by rewrite Hhdr. }
  destruct (ccmp_encrypt_ok ic h (set_keytsc k tsc) key y rest hdrlen Hok1 Hp Hr Hhs')
    as (ok & c' & h' & d & rem & Ee & Hok' & Hbal & Et & Ec & Hiff & Hsup);
    [cbn; lia|rewrite Hlc; unfold c; lia|rewrite Hlc; unfold c; lia|].
  rewrite Hhdr, Hdat in Et. rewrite Hhdr, Hdat, Htk in Ec. cbn [wk_keytsc set_keytsc] in Et, Ec.
  exists ok, c', h', d, rem. unfold ccmp_encap. rewrite Hctx, Hhs. cbn [res_bind].
  destruct Hr as (_ & _ & Hsw & _). fold tsc. cbn [wk_keytsc wk_flags set_keytsc]. fold y. rewrite Hsw.
  fold (set_keytsc k tsc). rewrite Ee. cbn [res_bind]. rewrite <- !app_assoc in Ec. by split_and!.
Qed.

(** ** Decapsulation *)

(** The packet number in the IV of a frame. *)
Definition frame_pn (c : list Z) (hdrlen : nat) : Z :=
  let ivp := drop hdrlen c in
  READ_6 (byte_at ivp 0) (byte_at ivp 1) (byte_at ivp 4) (byte_at ivp 5) (byte_at ivp 6) (byte_at ivp 7).
(** The extended-IV bit. *)
Definition frame_extiv (c : list Z) (hdrlen : nat) : bool :=
  negb (Z.land (byte_at (drop hdrlen c) 3) IEEE80211_WEP_EXTIV =? 0).

(** What [ccmp_decap] does with a frame [c] under receive counter [rsc]. *)
Inductive ccmp_verdict := cv_noext | cv_replay (pn : Z) | cv_badmic | cv_accept (pn : Z) (pt : list Z).
Definition ccmp_judge (key c : list Z) (hdrlen : nat) (rsc : Z) : ccmp_verdict :=
  let hdr := take hdrlen c in
  let n := (length c - (hdrlen + 16))%nat in
  let pn := frame_pn c hdrlen in
  if negb (frame_extiv c hdrlen) then cv_noext
  else if pn <=? rsc then cv_replay pn
  else
    let pt := ccmp_crypt key hdr pn (sub_list (hdrlen + 8) n c) in
    if decide (drop (hdrlen + 8 + n) c = ccmp_mic key hdr pn pt) then cv_accept pn pt else cv_badmic.

Lemma ccmp_decrypt_ok ic k key x rest hdrlen pn :
  pkt_ok (x :: rest) -> has_pkthdr x = true -> ccmp_ready k key ->
  ieee80211_hdrspace ic (mtod x) = Ok hdrlen -> (hdrlen + 8 <= m_len x)%nat ->
  (hdrlen + 16 <= length (content (x :: rest)))%nat ->
  Z.of_nat (length (content (x :: rest)) - (hdrlen + 16)) < 65536 ->
  let c := content (x :: rest) in
  let n := (length c - (hdrlen + 16))%nat in
  let hdr := take hdrlen c in
  let pt := ccmp_crypt key hdr pn (sub_list (hdrlen + 8) n c) in
  let ok := bool_decide (drop (hdrlen + 8 + n) c = ccmp_mic key hdr pn pt) in
  exists c', ccmp_decrypt ic k pn (x :: rest) hdrlen =
      Ok (if ok then (true, c', stat_inc ic is_crypto_ccmp)
          else (false, c', stat_inc (stat_inc ic is_crypto_ccmp) is_rx_ccmpmic)) /\
    pkt_ok c' /\ shape c' = shape (x :: rest) /\
    content c' = splice (hdrlen + 8) (if ok then pt else replicate n 0) c.
Proof.
  intros Hok Hp Hr Hhs Hh Hge Hlen c n hdr pt ok.
  destruct (ccmp_ready_impl k key Hr) as (rk & Hctx & HI).
  pose proof Hok as [Hc Hs]. inversion_clear Hc as [|? ? Hx Hrest]. assert (Hc : cwf (x :: rest)) by (by constructor).
  destruct (hdrspace_bounds ic (mtod x) hdrlen Hhs) as [Hhb (s & Hsz & Hsle)].
  unfold ccmp_decrypt. rewrite Hctx. cbn [res_bind]. change ccmp_ic_header with 8%nat.
  change ccmp_ic_trailer with 8%nat. rewrite (pkt_ok_ph x rest Hok Hp). fold c.
  replace (Z.of_nat (length c) - Z.of_nat (hdrlen + 8 + 8)) with (Z.of_nat n) by (unfold n, c; lia).
  rewrite size_t_nat by (unfold n, c; lia). rewrite Nat2Z.id, m_copydata_spec by done. fold c.
  assert (Emic : sub_list (length c - 8) 8 c = drop (hdrlen + 8 + n) c).
  { replace (hdrlen + 8 + n)%nat with (length c - 8)%nat by (unfold n, c; lia).
    unfold sub_list. apply take_ge. rewrite length_drop. lia. }
  rewrite Emic. set (mic := drop (hdrlen + 8 + n) c).
  assert (Hml : length mic = 8%nat) by (unfold mic; rewrite length_drop; unfold n, c; lia).
  assert (Ehdr : take hdrlen (mtod x) = take hdrlen hdr).
  { unfold hdr, c. rewrite take_take, Nat.min_id. apply take_mtod; [done|lia]. }
  assert (Eb : ccmp_blocks (mtod x) pn = ccmp_blocks hdr pn) by (by apply (ccmp_blocks_prefix hdrlen s)).
  unfold ccmp_init_blocks, ok, pt, ccmp_mic, ccmp_crypt. rewrite <- Eb.
  destruct (ccmp_blocks (mtod x) pn) as [nonce ad] eqn:Ebl. cbn [fst].
  destruct (ccmp_blocks_ok (mtod x) pn nonce ad) as (Hn & Hbad & Hlad & Hadok);
    [by apply mtod_bytes|pose proof (length_mtod x Hx); lia|done|].
  assert (HM : In 8 [4; 6; 8; 10; 12; 14; 16]) by (cbn; auto).
  destruct (aes_ccm_dec_mbuf_ok aes_bear_impl rk 10 (ccmp_E key) nonce Hn 8 HM ad Hbad Hlad Hadok
              ccm_local (x :: rest) (hdrlen + 8) n mic) as (C' & c1 & Ee & W1 & S1 & E1);
    [done|done|unfold mic; apply bytes_drop, content_bytes; done|rewrite Hml; lia
    |fold c; unfold n, c; lia|fold c; unfold c; lia|unfold n, c; lia|].
  fold c in Ee, E1. rewrite (take_ge mic) in Ee, E1 by (rewrite Hml; cbn; lia).
  unfold AES_128_NROUNDS, IEEE80211_WEP_MICLEN. change (Z.of_nat 8) with 8. rewrite Ee. cbn [res_bind].
  exists c1. split_and!; [done| |done|done]. by apply (shape_pkt_ok c1 (x :: rest)).
Qed.

(** [ccmp_decap] on a frame long enough for its header and trailer. *)
Lemma ccmp_decap_ok ic k key x rest hdrlen :
  pkt_ok (x :: rest) -> has_pkthdr x = true -> ccmp_ready k key ->
  ieee80211_hdrspace ic (mtod x) = Ok hdrlen -> (hdrlen + 8 <= m_len x)%nat ->
  (hdrlen + 16 <= length (content (x :: rest)))%nat ->
  Z.of_nat (length (content (x :: rest)) - (hdrlen + 16)) < 65536 ->
  let c := content (x :: rest) in
  match ccmp_judge key c hdrlen (wk_keyrsc k) with
  | cv_noext => ccmp_decap ic k (x :: rest) hdrlen = Ok (false, k, x :: rest, stat_inc ic is_rx_ccmpformat)
  | cv_replay pn =>
      ccmp_decap ic k (x :: rest) hdrlen =
      Ok (false, k, x :: rest,
          stat_inc (ieee80211_notify_replay_failure ic (mtod x) k pn) is_rx_ccmpreplay)
  | cv_badmic => exists c', ccmp_decap ic k (x :: rest) hdrlen =
      Ok (false, k, c', stat_inc (stat_inc ic is_crypto_ccmp) is_rx_ccmpmic) /\ pkt_ok c' /\
      content c' = splice (hdrlen + 8) (replicate (length c - (hdrlen + 16)) 0) c
  | cv_accept pn pt => exists c', ccmp_decap ic k (x :: rest) hdrlen =
      Ok (true, set_keyrsc k pn, c', stat_inc ic is_crypto_ccmp) /\ pkt_ok c' /\
      content c' = take hdrlen c ++ pt
  end.
Proof.
  intros Hok Hp Hr Hhs Hh Hge Hlen c.
  destruct (ccmp_ready_impl k key Hr) as (rk & Hctx & HI).
  pose proof Hok as [Hc _]. inversion_clear Hc as [|? ? Hx Hrest].
  assert (Hby : forall i, (i < 8)%nat -> byte_at (drop hdrlen (mtod x)) i = byte_at (drop hdrlen c) i).
  { intros i Hi. rewrite !byte_at_drop. apply byte_at_mtod; [done|lia]. }
  unfold ccmp_judge, frame_extiv, frame_pn, ccmp_decap. rewrite Hctx. cbn [res_bind].
  change IEEE80211_WEP_IVLEN with 3%nat. rewrite !Hby by lia. rewrite negb_involutive.
  destruct (Z.land _ IEEE80211_WEP_EXTIV =? 0) eqn:Eext; [done|].
  set (pn := READ_6 _ _ _ _ _ _). destruct (pn <=? wk_keyrsc k) eqn:Er; [done|].
  pose proof Hr as (_ & _ & Hsw & _). rewrite Hsw.
  destruct (ccmp_decrypt_ok ic k key x rest hdrlen pn Hok Hp Hr Hhs Hh Hge Hlen) as (c1 & -> & Hok1 & S1 & E1).
  fold c in E1 |- *. set (n := (length c - (hdrlen + 16))%nat) in *.
  set (pt := ccmp_crypt key (take hdrlen c) pn (sub_list (hdrlen + 8) n c)) in *.
  destruct (decide (drop (hdrlen + 8 + n) c = ccmp_mic key (take hdrlen c) pn pt)) as [Hm|Hm].
  2:{ rewrite bool_decide_eq_false_2 in * by done. cbn [res_bind negb]. exists c1. by split_and!. }
  rewrite bool_decide_eq_true_2 in * by done. cbn [res_bind negb].
  change ccmp_ic_header with 8%nat. change ccmp_ic_trailer with 8%nat.
  destruct c1 as [|y c1]; [discriminate S1|]. cbn [shape map] in S1. injection S1 as _ _ Hly _ _ _.
  assert (Hlp : length pt = n).
  { unfold pt, ccmp_crypt, rfc_crypt. rewrite length_xor_stream, length_sub_list; [done|unfold n, c; lia]. }
  assert (Hlc : length (content (y :: c1)) = length c) by (rewrite E1, length_splice; [done|unfold n, c in *; lia]).
  destruct (strip_crypto_ok y c1 hdrlen 8 8 Hok1) as [Hok2 E2]; [lia|rewrite Hlc; unfold c; lia|].
  eexists. split; [done|]. split; [done|]. rewrite E2, Hlc, E1.
  unfold n, c in *. list_solve.
Qed.

(** An encapsulated frame is judged acceptable, with its payload. *)
Lemma ccmp_judge_encap key hdr data tsc keyid rsc :
  ccmp_mic key hdr tsc data <> [] -> length (ccmp_mic key hdr tsc data) = 8%nat ->
  0 <= tsc < 2 ^ 48 -> rsc < tsc -> is_u8 keyid ->
  ccmp_judge key (hdr ++ ccmp_iv tsc keyid ++ ccmp_crypt key hdr tsc data ++ ccmp_mic key hdr tsc data)
    (length hdr) rsc = cv_accept tsc data.
Proof.
  intros _ Hm Ht Hr Hk. set (ct := ccmp_crypt key hdr tsc data). set (mic := ccmp_mic key hdr tsc data) in *.
  assert (Hct : length ct = length data) by (unfold ct, ccmp_crypt, rfc_crypt; apply length_xor_stream).
  set (iv := ccmp_iv tsc keyid). assert (Hiv : length iv = 8%nat) by done.
  set (c := hdr ++ iv ++ ct ++ mic).
  assert (Hdrop : drop (length hdr) c = iv ++ ct ++ mic) by (unfold c; apply drop_app_length).
  assert (Hn : (length c - (length hdr + 16) = length ct)%nat) by (unfold c; rewrite !length_app; lia).
  assert (Hb : forall i, (i < 8)%nat -> byte_at (iv ++ ct ++ mic) i = byte_at iv i).
  { intros i Hi. unfold byte_at. apply app_nth1. lia. }
  assert (Hpn : frame_pn c (length hdr) = tsc).
  { unfold frame_pn. rewrite Hdrop, !Hb by lia. unfold iv, ccmp_iv, byte_at; cbn [nth].
    rewrite READ_6_tsc. apply Z.mod_small. lia. }
  unfold ccmp_judge. rewrite Hn, Hpn. unfold frame_extiv. rewrite Hdrop, Hb by lia.
  destruct (_ =? 0) eqn:E0; [apply Z.eqb_eq in E0; by apply ccmp_iv_ext in E0|]. cbn [negb].
  replace (tsc <=? rsc) with false by lia.
  assert (E1 : take (length hdr) c = hdr) by (unfold c; apply take_app_length).
  assert (E2 : sub_list (length hdr + 8) (length ct) c = ct) by (unfold c; list_solve).
  assert (E3 : drop (length hdr + 8 + length ct) c = mic) by (unfold c; list_solve).
  rewrite E1, E2, E3. assert (Ept : ccmp_crypt key hdr tsc ct = data) by apply rfc_crypt_twice.
  rewrite Ept. by rewrite decide_True.
Qed.

Lemma length_frame_mic ic k key x rest hdrlen pn :
  pkt_ok (x :: rest) -> ccmp_ready k key -> ieee80211_hdrspace ic (mtod x) = Ok hdrlen -> (hdrlen + 8 <= m_len x)%nat ->
  length (ccmp_mic key (take hdrlen (content (x :: rest))) pn (drop (hdrlen + 8) (content (x :: rest)))) = 8%nat.
Proof.
  intros [Hc _] Hr Hhs Hm. inversion_clear Hc as [|? ? Hx Hrest].
  destruct (ccmp_ready_impl k key Hr) as (rk & _ & HI).
  destruct (hdrspace_bounds ic (mtod x) hdrlen Hhs) as [Hhb (s & Hsz & Hsle)]. set (data := drop _ _).
  unfold ccmp_mic.
  rewrite <- (ccmp_blocks_prefix hdrlen s (mtod x)); [|rewrite take_take, Nat.min_id; apply take_mtod; [done|lia]|done|done].
  destruct (ccmp_blocks (mtod x) pn) as [nonce ad] eqn:Eb.
  destruct (ccmp_blocks_ok (mtod x) pn nonce ad) as (Hn & Hbad & _ & _);
    [by apply mtod_bytes|pose proof (length_mtod x Hx); lia|exact Eb|].
  apply (rfc_tag_blk (ccmp_E key) nonce ad 8 data aes_bear_impl rk 10 HI); [cbn; auto|done|done|].
  apply bytes_drop, content_bytes. by constructor.
Qed.

(** ** Properties *)

(** Encapsulation with a software CCMP key never faults on a data frame with a
    payload: it advances the transmit counter by one, and the frame becomes
    the unchanged header, the 8-byte IV carrying the new packet number, the
    payload in counter mode, and the MIC over header and payload; it reports
    success exactly when the whole MIC was appended, which a heap with memory
    guarantees. *)
Theorem ccmp_encap_frame (ic : ieee80211com) (h : heap) (k : ieee80211_key) (key : list Z)
    (x : mbuf) (rest : list mbuf) (hdrlen : nat) (keyid : Z)
    (Hok : pkt_ok (x :: rest)) (Hp : has_pkthdr x = true) (Hr : ccmp_ready k key)
    (Hhs : ieee80211_hdrspace ic (mtod x) = Ok hdrlen) (Hm : (hdrlen + 8 <= m_len x)%nat)
    (Hne : (hdrlen + 8 < length (content (x :: rest)))%nat)
    (Hlen : Z.of_nat (length (content (x :: rest)) - (hdrlen + 8)) < 65536) :
  let c := content (x :: rest) in
  let hdr := take hdrlen c in
  let data := drop (hdrlen + 8) c in
  let tsc := u64 (wk_keytsc k + 1) in
  exists ok c' h' d rem,
    ccmp_encap ic h k (x :: rest) keyid = Ok (ok, set_keytsc k tsc, c', stat_inc ic is_crypto_ccmp, h') /\
    pkt_ok c' /\ balanced h h' (x :: rest) c' /\
    ccmp_mic key hdr tsc data = d ++ rem /\
    content c' = hdr ++ ccmp_iv tsc keyid ++ ccmp_crypt key hdr tsc data ++ d /\
    (ok = true <-> rem = []) /\
    (Forall is_Some (h_supply h) -> (8 <= length (h_supply h))%nat -> ok = true).
Proof. exact (ccmp_encap_ok ic h k key x rest hdrlen keyid Hok Hp Hr Hhs Hm Hne Hlen). Qed.

(** A sample key and data frame. *)
Definition sample_key : ieee80211_key :=
  mkKey 16 (Z.lor IEEE80211_KEY_XMIT IEEE80211_KEY_SWCRYPT) 0 0xffff (map Z.of_nat (seq 1 32)) 0 41
        (Some cipher_ccmp)
        (priv_ccmp match aes_setenckey128 (replicate 60 0) (map Z.of_nat (seq 1 16)) with
                   | Ok (rk, _) => rk | _ => [] end).
Definition sample_com : ieee80211com := mkCom true 0 0 (fun _ => 0) [] 0xffff 4 [].
Definition sample_frame : list Z :=
  [0x08; 0x41; 0; 0] ++ map Z.of_nat (seq 100 20) ++ replicate 8 0 ++ map Z.of_nat (seq 1 20).
Definition sample_chain : list mbuf := [sample_mbuf true 256 sample_frame 52].

Lemma sample_key_ready : ccmp_ready sample_key (map Z.of_nat (seq 1 16)).
Proof.
  split; [reflexivity|]. split; [by_compute|]. split; [reflexivity|].
  exists (replicate 60 0). eexists. split; [reflexivity|]. vm_compute. reflexivity.
Qed.

Lemma sample_chain_ok : pkt_ok sample_chain.
Proof. split; [by_compute|]. intros _. vm_compute. reflexivity. Qed.

Lemma ccmp_encap_frame_witness :
  exists ok k' c' ic' h',
    ccmp_encap sample_com (mkHeap [] 1) sample_key sample_chain 0 = Ok (ok, k', c', ic', h') /\ wk_keytsc k' = 42.
Proof.
  destruct (ccmp_encap_frame sample_com (mkHeap [] 1) sample_key (map Z.of_nat (seq 1 16))
              (sample_mbuf true 256 sample_frame 52) [] 24 0) as (ok & c' & h' & d & rem & E & _).
  - exact sample_chain_ok.
  - reflexivity.
  - exact sample_key_ready.
  - reflexivity.
  - apply Nat.leb_le. reflexivity.
  - apply Nat.ltb_lt. vm_compute. reflexivity.
  - vm_compute. reflexivity.
  - eexists _, _, _, _, _. split; [exact E|]. reflexivity.
Defined.

Lemma ccmp_roundtrip (ic ic2 : ieee80211com) (h h' : heap) (k k' k2 : ieee80211_key) (key : list Z)
    (x : mbuf) (rest c' : list mbuf) (ic' : ieee80211com) (hdrlen : nat) (keyid : Z)
    (y : mbuf) (rs : list mbuf)
    (Hok : pkt_ok (x :: rest)) (Hp : has_pkthdr x = true) (Hr : ccmp_ready k key)
    (Hhs : ieee80211_hdrspace ic (mtod x) = Ok hdrlen) (Hm : (hdrlen + 8 <= m_len x)%nat)
    (Hne : (hdrlen + 8 < length (content (x :: rest)))%nat)
    (Hlen : Z.of_nat (length (content (x :: rest)) - (hdrlen + 8)) < 65536)
    (Htsc : 0 <= wk_keytsc k < 2 ^ 48 - 1) (Hid : is_u8 keyid)
    (Henc : ccmp_encap ic h k (x :: rest) keyid = Ok (true, k', c', ic', h'))
    (Hok2 : pkt_ok (y :: rs)) (Hp2 : has_pkthdr y = true) (Hr2 : ccmp_ready k2 key)
    (Hcont : content (y :: rs) = content c') (Hm2 : (hdrlen + 8 <= m_len y)%nat)
    (Hhs2 : ieee80211_hdrspace ic2 (mtod y) = Ok hdrlen) (Hrsc : wk_keyrsc k2 < wk_keytsc k + 1) :
  exists c2, ccmp_decap ic2 k2 (y :: rs) hdrlen =
      Ok (true, set_keyrsc k2 (wk_keytsc k + 1), c2, stat_inc ic2 is_crypto_ccmp) /\ pkt_ok c2 /\
    content c2 = take hdrlen (content (x :: rest)) ++ drop (hdrlen + 8) (content (x :: rest)).
Proof.
  destruct (ccmp_encap_ok ic h k key x rest hdrlen keyid Hok Hp Hr Hhs Hm Hne Hlen)
    as (ok & c1 & h1 & d & rem & Ee & _ & _ & Et & Ec & Hiff & _).
  rewrite Ee in Henc. injection Henc as -> _ -> _ _.
  assert (rem = []) as -> by (by apply Hiff). rewrite app_nil_r in Et. subst d. clear Hiff Ee.
  rewrite (u64_id (wk_keytsc k + 1)) in Ec by (unfold is_u; lia).
  set (c := content (x :: rest)) in *. set (hdr := take hdrlen c) in *. set (data := drop (hdrlen + 8) c) in *.
  assert (Hlh : length hdr = hdrlen) by (unfold hdr; rewrite length_take; clear -Hne; lia).
  assert (Hld : length data = (length c - (hdrlen + 8))%nat) by apply length_drop.
  assert (Hmic : length (ccmp_mic key hdr (wk_keytsc k + 1) data) = 8%nat)
    by exact (length_frame_mic ic k key x rest hdrlen (wk_keytsc k + 1) Hok Hr Hhs Hm).
  assert (Hlc : length (content (y :: rs)) = (hdrlen + 16 + length data)%nat).
  { rewrite Hcont, Ec, !length_app, Hlh, Hmic. unfold ccmp_crypt, rfc_crypt. rewrite length_xor_stream.
    change (length (ccmp_iv _ _)) with 8%nat. lia. }
  assert (Hl1 : (hdrlen + 16 <= length (content (y :: rs)))%nat) by (clear -Hlc; lia).
  assert (Hl2 : Z.of_nat (length (content (y :: rs)) - (hdrlen + 16)) < 65536) by (clear -Hlc Hld Hlen; lia).
  pose proof (ccmp_decap_ok ic2 k2 key y rs hdrlen Hok2 Hp2 Hr2 Hhs2 Hm2 Hl1 Hl2) as Hd. cbv zeta in Hd.
  rewrite Hcont, Ec in Hd.
  assert (Ej : ccmp_judge key (hdr ++ ccmp_iv (wk_keytsc k + 1) keyid ++
    ccmp_crypt key hdr (wk_keytsc k + 1) data ++ ccmp_mic key hdr (wk_keytsc k + 1) data) hdrlen (wk_keyrsc k2)
    = cv_accept (wk_keytsc k + 1) data).
  { rewrite <- Hlh. apply ccmp_judge_encap; [|done|lia|done|done]. intros H0. rewrite H0 in Hmic. discriminate Hmic. }
  rewrite Ej in Hd. destruct Hd as (c2 & Ed & Hok3 & E3). exists c2. split; [done|]. split; [done|].
  rewrite E3. f_equal. by apply take_app_length'.
Qed.

(** C16. Round trip: when encapsulation succeeds, a peer holding the same key that
    has not yet seen this packet number accepts the frame, however it is split
    into mbufs on its side, recovers header and payload unchanged and moves
    its receive counter to the packet number. *)
Theorem ccmp_decap_encap (ic ic2 : ieee80211com) (h h' : heap) (k k' k2 : ieee80211_key) (key : list Z)
    (x : mbuf) (rest c' : list mbuf) (ic' : ieee80211com) (hdrlen : nat) (keyid : Z)
    (y : mbuf) (rs : list mbuf)
    (Hok : pkt_ok (x :: rest)) (Hp : has_pkthdr x = true) (Hr : ccmp_ready k key)
    (Hhs : ieee80211_hdrspace ic (mtod x) = Ok hdrlen) (Hm : (hdrlen + 8 <= m_len x)%nat)
    (Hne : (hdrlen + 8 < length (content (x :: rest)))%nat)
    (Hlen : Z.of_nat (length (content (x :: rest)) - (hdrlen + 8)) < 65536)
    (Htsc : 0 <= wk_keytsc k < 2 ^ 48 - 1) (Hid : is_u8 keyid)
    (Henc : ccmp_encap ic h k (x :: rest) keyid = Ok (true, k', c', ic', h'))
    (Hok2 : pkt_ok (y :: rs)) (Hp2 : has_pkthdr y = true) (Hr2 : ccmp_ready k2 key)
    (Hcont : content (y :: rs) = content c') (Hm2 : (hdrlen + 8 <= m_len y)%nat)
    (Hhs2 : ieee80211_hdrspace ic2 (mtod y) = Ok hdrlen) (Hrsc : wk_keyrsc k2 < wk_keytsc k + 1) :
  exists c2, ccmp_decap ic2 k2 (y :: rs) hdrlen =
      Ok (true, set_keyrsc k2 (wk_keytsc k + 1), c2, stat_inc ic2 is_crypto_ccmp) /\ pkt_ok c2 /\
    content c2 = take hdrlen (content (x :: rest)) ++ drop (hdrlen + 8) (content (x :: rest)).
Proof.
  exact (ccmp_roundtrip ic ic2 h h' k k' k2 key x rest c' ic' hdrlen keyid y rs Hok Hp Hr Hhs Hm Hne Hlen Htsc Hid Henc Hok2 Hp2 Hr2 Hcont Hm2 Hhs2 Hrsc).
Qed.

(** A receiver one packet behind the sender, and the sender's frame there. *)
Definition sample_peer : ieee80211_key := set_keyrsc sample_key 41.
Definition sample_air : list Z :=
  match ccmp_encap sample_com (mkHeap [] 1) sample_key sample_chain 0 with
  | Ok (_, _, c', _, _) => content c' | _ => [] end.
Definition sample_rx : list mbuf := [sample_mbuf true 256 sample_air (Z.of_nat (length sample_air))].

Lemma sample_peer_ready : ccmp_ready sample_peer (map Z.of_nat (seq 1 16)).
Proof.
  split; [reflexivity|]. split; [by_compute|]. split; [reflexivity|].
  exists (replicate 60 0). eexists. split; [reflexivity|]. vm_compute. reflexivity.
Qed.
Lemma sample_rx_ok : pkt_ok sample_rx.
Proof. split; [by_compute|]. intros _. vm_compute. reflexivity. Qed.

Lemma ccmp_decap_encap_witness :
  exists c2, ccmp_decap sample_com sample_peer sample_rx 24 =
      Ok (true, set_keyrsc sample_peer 42, c2, stat_inc sample_com is_crypto_ccmp) /\ pkt_ok c2 /\
    content c2 = take 24 sample_frame ++ drop 32 sample_frame.
Proof.
  destruct (ccmp_encap sample_com (mkHeap [] 1) sample_key sample_chain 0)
    as [((((ok & k') & c') & ic') & h')|] eqn:E; [|vm_compute in E; discriminate E].
  assert (ok = true) as -> by (apply (f_equal (fun r => match r with Ok (ok, _, _, _, _) => ok | _ => false end)) in E;
    rewrite <- E; vm_compute; reflexivity).
  apply (ccmp_decap_encap sample_com sample_com (mkHeap [] 1) h' sample_key k' sample_peer
    (map Z.of_nat (seq 1 16)) (sample_mbuf true 256 sample_frame 52) [] c' ic' 24 0
    (sample_mbuf true 256 sample_air (Z.of_nat (length sample_air))) []).
  - exact sample_chain_ok.
  - reflexivity.
  - exact sample_key_ready.
  - reflexivity.
  - apply Nat.leb_le. reflexivity.
  - apply Nat.ltb_lt. vm_compute. reflexivity.
  - vm_compute. reflexivity.
  - cbn. lia.
  - unfold is_u. lia.
  - exact E.
  - exact sample_rx_ok.
  - reflexivity.
  - exact sample_peer_ready.
  - unfold sample_air. rewrite E. apply (f_equal (fun r => match r with Ok (_, _, c, _, _) => content c | _ => [] end)) in E.
    rewrite <- E. vm_compute. reflexivity.
  - apply Nat.leb_le. vm_compute. reflexivity.
  - vm_compute. reflexivity.
  - cbn. lia.
Defined.

(** C22. Every data frame long enough for the CCMP header and MIC is decided: no
    extended IV, an old packet number, a wrong MIC or acceptance. Only an
    accepted frame, whose MIC is that of its header, packet number and
    decrypted payload, moves the receive counter, and what is handed on is the
    header and the decrypted payload; a rejected frame leaves the key alone and
    a bad MIC leaves no decrypted byte in the packet. *)
Theorem ccmp_decap_verdict (ic : ieee80211com) (k : ieee80211_key) (key : list Z) (x : mbuf) (rest : list mbuf)
    (hdrlen : nat)
    (Hok : pkt_ok (x :: rest)) (Hp : has_pkthdr x = true) (Hr : ccmp_ready k key)
    (Hhs : ieee80211_hdrspace ic (mtod x) = Ok hdrlen) (Hm : (hdrlen + 8 <= m_len x)%nat)
    (Hge : (hdrlen + 16 <= length (content (x :: rest)))%nat)
    (Hlen : Z.of_nat (length (content (x :: rest)) - (hdrlen + 16)) < 65536) :
  let c := content (x :: rest) in
  match ccmp_judge key c hdrlen (wk_keyrsc k) with
  | cv_noext => ccmp_decap ic k (x :: rest) hdrlen = Ok (false, k, x :: rest, stat_inc ic is_rx_ccmpformat)
  | cv_replay pn =>
      ccmp_decap ic k (x :: rest) hdrlen =
      Ok (false, k, x :: rest,
          stat_inc (ieee80211_notify_replay_failure ic (mtod x) k pn) is_rx_ccmpreplay)
  | cv_badmic => exists c', ccmp_decap ic k (x :: rest) hdrlen =
      Ok (false, k, c', stat_inc (stat_inc ic is_crypto_ccmp) is_rx_ccmpmic) /\ pkt_ok c' /\
      content c' = splice (hdrlen + 8) (replicate (length c - (hdrlen + 16)) 0) c
  | cv_accept pn pt => exists c', ccmp_decap ic k (x :: rest) hdrlen =
      Ok (true, set_keyrsc k pn, c', stat_inc ic is_crypto_ccmp) /\ pkt_ok c' /\
      content c' = take hdrlen c ++ pt
  end.
Proof. exact (ccmp_decap_ok ic k key x rest hdrlen Hok Hp Hr Hhs Hm Hge Hlen). Qed.

Lemma ccmp_decap_verdict_witness :
  ccmp_decap sample_com (set_keyrsc sample_key 42) sample_rx 24 =
  Ok (false, set_keyrsc sample_key 42, sample_rx,
      stat_inc (ieee80211_notify_replay_failure sample_com (mtod (sample_mbuf true 256 sample_air (Z.of_nat (length sample_air))))
        (set_keyrsc sample_key 42) 42) is_rx_ccmpreplay).
Proof.
  pose proof (ccmp_decap_verdict sample_com (set_keyrsc sample_key 42) (map Z.of_nat (seq 1 16))
    (sample_mbuf true 256 sample_air (Z.of_nat (length sample_air))) [] 24 sample_rx_ok eq_refl sample_key_ready) as H.
  assert (E : ccmp_judge (map Z.of_nat (seq 1 16)) (content sample_rx) 24 42 = cv_replay 42)
    by (vm_compute; reflexivity).
  apply (f_equal (fun v => v)) in E. unfold sample_rx in E. cbv zeta in H.
  change (wk_keyrsc (set_keyrsc sample_key 42)) with 42 in H. rewrite E in H. apply H.
  - vm_compute. reflexivity.
  - apply Nat.leb_le. vm_compute. reflexivity.
  - apply Nat.leb_le. vm_compute. reflexivity.
  - vm_compute. reflexivity.
Defined.

(** ** Histories of received frames *)

(** [ccmp_rx k pns k']: the key goes from [k] to [k'] through any sequence of
    received frames, those accepted carrying the packet numbers [pns]. *)
Inductive ccmp_rx : ieee80211_key -> list Z -> ieee80211_key -> Prop :=
| rx_done k : ccmp_rx k [] k
| rx_accept ic k x rest hdrlen k1 m1 ic1 pns k2 :
    ccmp_decap ic k (x :: rest) hdrlen = Ok (true, k1, m1, ic1) ->
    ccmp_rx k1 pns k2 -> ccmp_rx k (frame_pn (mtod x) hdrlen :: pns) k2
| rx_reject ic k m hdrlen k1 m1 ic1 pns k2 :
    ccmp_decap ic k m hdrlen = Ok (false, k1, m1, ic1) ->
    ccmp_rx k1 pns k2 -> ccmp_rx k pns k2.

Lemma ccmp_decap_inv ic k m hdrlen ok k1 m1 ic1 :
  ccmp_decap ic k m hdrlen = Ok (ok, k1, m1, ic1) ->
  exists x rest, m = x :: rest /\
    if ok then k1 = set_keyrsc k (frame_pn (mtod x) hdrlen) /\ wk_keyrsc k < frame_pn (mtod x) hdrlen
    else k1 = k.
Proof.
  unfold ccmp_decap. destruct (ccmp_ctx k); [|done]. cbn [res_bind]. destruct m as [|x rest]; [done|].
  fold (frame_pn (mtod x) hdrlen). destruct (_ =? 0); [intros [= <- <- _ _]; eauto|].
  destruct (_ <=? wk_keyrsc k) eqn:Er; [intros [= <- <- _ _]; eauto|].
  destruct (if has_flag _ _ then _ else _) as [((ok' & m') & ic')|]; [|done]. cbn [res_bind].
  destruct ok'; cbn [negb]; intros [= <- <- _ _]; exists x, rest; split; try done. split; [done|lia].
Qed.

Lemma ccmp_rx_increasing k pns k' :
  ccmp_rx k pns k' -> StronglySorted Z.lt (wk_keyrsc k :: pns) /\ wk_keyrsc k' = List.last pns (wk_keyrsc k).
Proof.
  induction 1 as [k|ic k x rest hl k1 m1 ic1 pns k2 E _ [IH1 IH2]|ic k m hl k1 m1 ic1 pns k2 E _ IH].
  - split; [repeat constructor|done].
  - apply ccmp_decap_inv in E as (x' & rest' & [= <- <-] & -> & Hlt). cbn [wk_keyrsc set_keyrsc] in *.
    split.
    + constructor; [done|]. inversion_clear IH1 as [|? ? _ Hall]. constructor; [done|].
      eapply List.Forall_impl; [|exact Hall]. cbn. lia.
    + rewrite IH2. destruct pns as [|p pns]; [done|]. symmetry. cbn [List.last].
      clear. revert p. induction pns as [|q pns IH]; intros p; [done|]. cbn [List.last] in *. apply IH.
  - apply ccmp_decap_inv in E as (? & ? & -> & ->). done.
Qed.

(** C17. Replay protection over a whole history: whatever frames the receiver is
    given, in whatever order, an accepted packet number is above the receive
    counter the key started with and above every packet number accepted
    before it, so no frame is ever accepted twice. *)
Theorem ccmp_never_replays (k k' : ieee80211_key) (pns : list Z) (Hrx : ccmp_rx k pns k') :
  StronglySorted Z.lt (wk_keyrsc k :: pns) /\ wk_keyrsc k' = List.last pns (wk_keyrsc k) /\ NoDup pns.
Proof.
  destruct (ccmp_rx_increasing k pns k' Hrx) as [Hs Hl]. split; [done|]. split; [done|].
  inversion_clear Hs as [|? ? Hs' _]. clear -Hs'. induction Hs' as [|p pns _ IH Hall]; constructor; [|done].
  intros Hin%list_elem_of_In. rewrite List.Forall_forall in Hall. specialize (Hall p Hin). lia.
Qed.

Lemma ccmp_never_replays_witness :
  wk_keyrsc sample_peer = 41 /\
  exists k', ccmp_rx sample_peer [42] k' /\ wk_keyrsc k' = 42.
Proof.
  split; [reflexivity|].
  destruct (ccmp_decap sample_com sample_peer sample_rx 24) as [(((ok & k1) & m1) & ic1)|] eqn:E;
    [|vm_compute in E; discriminate E].
  assert (ok = true) as -> by (apply (f_equal (fun r => match r with Ok (ok, _, _, _) => ok | _ => false end)) in E;
    rewrite <- E; vm_compute; reflexivity).
  destruct (ccmp_decap sample_com k1 sample_rx 24) as [(((ok & k2) & m2) & ic2)|] eqn:E2.
  2:{ apply (f_equal (fun r => match r with Ok (_, k1, _, _) => Some k1 | _ => None end)) in E.
      vm_compute in E. injection E as <-. vm_compute in E2. discriminate E2. }
  assert (H : ccmp_rx sample_peer [42] k2).
  { apply (rx_accept sample_com sample_peer _ [] 24 k1 m1 ic1 [] k2 E).
    apply (rx_reject sample_com k1 sample_rx 24 k2 m2 ic2).
    - rewrite E2. do 4 f_equal.
      apply (f_equal (fun r => match r with Ok (_, k1, _, _) => Some k1 | _ => None end)) in E.
      vm_compute in E. injection E as <-.
      apply (f_equal (fun r => match r with Ok (ok, _, _, _) => ok | _ => true end)) in E2.
      rewrite <- E2. vm_compute. reflexivity.
    - apply rx_done. }
  exists k2. split; [exact H|]. destruct (ccmp_never_replays _ _ _ H) as (_ & -> & _). reflexivity.
Defined.

(** An empty payload is not a case the software path survives: the walk over
    the packet leaves the chain, whatever the heap and the key. *)
Theorem ccmp_encap_empty_faults (ic : ieee80211com) (h : heap) (k : ieee80211_key) (key : list Z)
    (x : mbuf) (rest : list mbuf) (hdrlen : nat) (keyid : Z)
    (Hok : pkt_ok (x :: rest)) (Hr : ccmp_ready k key)
    (Hhs : ieee80211_hdrspace ic (mtod x) = Ok hdrlen) (Hm : (hdrlen + 8 <= m_len x)%nat)
    (Hempty : length (content (x :: rest)) = (hdrlen + 8)%nat) :
  ccmp_encap ic h k (x :: rest) keyid = Fault NullDeref.
Proof.
  destruct (ccmp_ready_impl k key Hr) as (rk & Hctx & _). unfold ccmp_encap. rewrite Hctx, Hhs. cbn [res_bind].
  destruct Hr as (_ & _ & Hsw & _). cbn [wk_keytsc wk_flags set_keytsc]. rewrite Hsw.
  unfold ccmp_encrypt, ccmp_ctx in *. cbn [wk_private set_keytsc]. rewrite Hctx. cbn [res_bind].
  unfold aes_ccm_enc_mbuf. rewrite mbuf_seek_null; [done|].
  set (iv := ccmp_iv _ _). destruct (mstore_ok x rest hdrlen iv Hok) as [[Hc _] Ec];
    [cbn; lia|apply ccmp_iv_bytes|].
  rewrite <- (length_content _ Hc), Ec, length_splice; [rewrite Hempty; done|]. rewrite Hempty. cbn. lia.
Qed.

Definition sample_empty : mbuf := sample_mbuf true 256 (take 32 sample_frame) 32.
Lemma ccmp_encap_empty_faults_witness :
  ccmp_encap sample_com (mkHeap [] 1) sample_key [sample_empty] 0 = Fault NullDeref.
Proof.
  apply (ccmp_encap_empty_faults sample_com (mkHeap [] 1) sample_key (map Z.of_nat (seq 1 16)) sample_empty [] 24 0).
  - split; [by_compute|]. intros _. vm_compute. reflexivity.
  - exact sample_key_ready.
  - reflexivity.
  - apply Nat.leb_le. reflexivity.
  - vm_compute. reflexivity.
Defined.
