(* ===== verification/Rc4Proof.v ===== *)
(** * RC4 and CRC-32: proofs

    The table-driven CRC is the bit-by-bit one, the RC4 state stays a table of
    bytes, decryption undoes encryption, and the walk over a chain works on
    the packet whatever its mbuf boundaries. *)

From S2P Require Import Prelude Buffers Mbuf MbufProof AesCcmMbuf Ieee80211 FrameProof Rc4.

(** ** CRC-32 bit by bit *)

(** One bit of the reflected division by the IEEE 802.3 polynomial. *)
Definition crc_bit (c : Z) : Z :=
  if Z.odd c then Z.lxor (Z.shiftr c 1) 0xedb88320 else Z.shiftr c 1.
Definition crc_bits8 (c : Z) : Z :=
  crc_bit (crc_bit (crc_bit (crc_bit (crc_bit (crc_bit (crc_bit (crc_bit c))))))).
Definition crc_ref (crc : Z) (l : list Z) : Z := fold_left (fun c b => crc_bits8 (Z.lxor c b)) l crc.

Lemma crc_bit_lxor x y : crc_bit (Z.lxor x y) = Z.lxor (crc_bit x) (crc_bit y).
Proof.
  unfold crc_bit. rewrite <- !Z.bit0_odd, Z.lxor_spec, Z.shiftr_lxor.
  destruct (Z.testbit x 0), (Z.testbit y 0); cbn [xorb];
    apply Z.bits_inj'; intros i Hi; rewrite ?Z.lxor_spec;
    destruct (Z.testbit (Z.shiftr x 1) i), (Z.testbit (Z.shiftr y 1) i), (Z.testbit 0xedb88320 i); done.
Qed.
Lemma crc_bits8_lxor x y : crc_bits8 (Z.lxor x y) = Z.lxor (crc_bits8 x) (crc_bits8 y).
Proof. unfold crc_bits8. by rewrite !crc_bit_lxor. Qed.

Lemma crc_bit_even x : crc_bit (2 * x) = x.
Proof.
  unfold crc_bit. rewrite Z.odd_mul. cbn [Z.odd andb].
  rewrite Z.shiftr_div_pow2 by lia. change (2 ^ 1) with 2. rewrite Z.mul_comm. by apply Z.div_mul.
Qed.
Lemma crc_bits8_high x : crc_bits8 (Z.shiftl x 8) = x.
Proof.
  rewrite Z.shiftl_mul_pow2 by lia. unfold crc_bits8.
  replace (x * 2 ^ 8) with (2 * (2 * (2 * (2 * (2 * (2 * (2 * (2 * x)))))))) by lia.
  by rewrite !crc_bit_even.
Qed.

Lemma split_low8 x : x = Z.lxor (Z.land x 0xff) (Z.shiftl (Z.shiftr x 8) 8).
Proof.
  apply Z.bits_inj'. intros i Hi. rewrite Z.lxor_spec, Z.shiftl_spec, Z.land_spec by lia.
  change 0xff with (Z.ones 8). destruct (Z.lt_ge_cases i 8).
  - rewrite Z.ones_spec_low, (Z.testbit_neg_r _ (i - 8)) by lia. by rewrite andb_true_r, xorb_false_r.
  - rewrite Z.ones_spec_high, andb_false_r, Z.shiftr_spec by lia.
    rewrite xorb_false_l. f_equal. lia.
Qed.

Lemma crc32_table_bits : Forall (fun i => word_at crc32_table i = crc_bits8 (Z.of_nat i)) (seq 0 256).
Proof.
  apply (bool_decide_unpack _). vm_compute. exact I.
Qed.

Lemma crc_step_bits c b : is_u8 b -> crc_step c b = crc_bits8 (Z.lxor c b).
Proof.
  intros Hb. unfold crc_step. set (x := Z.lxor c b).
  assert (Hs : Z.shiftr c 8 = Z.shiftr x 8).
  { unfold x. rewrite Z.shiftr_lxor. rewrite (Z.shiftr_div_pow2 b) by lia.
    rewrite (Z.div_small b) by (unfold is_u in Hb; lia). by rewrite Z.lxor_0_r. }
  assert (Hr : is_u8 (Z.land x 0xff)) by apply u8_range.
  assert (Ht : word_at crc32_table (Z.to_nat (Z.land x 0xff)) = crc_bits8 (Z.land x 0xff)).
  { pose proof crc32_table_bits as H. rewrite List.Forall_forall in H.
    rewrite H by (apply in_seq; unfold is_u in Hr; lia). f_equal. apply Z2Nat.id, Hr. }
  rewrite Hs, Ht. rewrite (split_low8 x) at 3. by rewrite crc_bits8_lxor, crc_bits8_high.
Qed.

Lemma crc_fold_ref l c : bytes l -> fold_left crc_step l c = crc_ref c l.
Proof.
  intros Hl. revert c. induction Hl as [|b l Hb _ IH]; intros c; [done|].
  cbn [fold_left]. rewrite IH. unfold crc_ref. cbn [fold_left]. by rewrite crc_step_bits.
Qed.

Lemma crc_step_range c b : is_u32 c -> is_u32 (crc_step c b).
Proof.
  intros Hc. unfold crc_step. apply is_u_lxor; [lia| |apply is_u_shiftr; [lia|lia|done]].
  assert (H : Forall is_u32 crc32_table) by (apply (bool_decide_unpack _); vm_compute; exact I).
  unfold byte_at. destruct (nth_in_or_default (Z.to_nat (Z.land (Z.lxor c b) 255)) crc32_table 0) as [Hi| ->].
  - rewrite List.Forall_forall in H. by apply H.
  - unfold is_u; lia.
Qed.
Lemma crc_fold_range l c : is_u32 c -> is_u32 (fold_left crc_step l c).
Proof. revert c. induction l as [|b l IH]; intros c Hc; [done|]. cbn. apply IH, crc_step_range, Hc. Qed.

(** ** RC4 states *)

Definition rc4_ok (s : rc4) : Prop := bytes (r_S s).

Lemma bytes_insert i x l : is_u8 x -> bytes l -> bytes (<[i := x]> l).
Proof. intros Hx Hl. by apply Forall_insert. Qed.
Lemma S_SWAP_bytes S a b : bytes S -> bytes (S_SWAP S a b).
Proof. intros H. unfold S_SWAP. apply bytes_insert; [by apply byte_at_range|]. by apply bytes_insert; [apply byte_at_range|]. Qed.

Lemma rc4_next_ok s : rc4_ok s -> rc4_ok (fst (rc4_next s)) /\ is_u8 (snd (rc4_next s)).
Proof.
  intros H. unfold rc4_next, rc4_ok. cbn [fst snd r_S].
  split; [by apply S_SWAP_bytes|]. by apply byte_at_range, S_SWAP_bytes.
Qed.

Lemma rc4_setup_bytes kb : bytes (rc4_setup kb).
Proof.
  unfold rc4_setup.
  assert (H : forall l S j, bytes S -> bytes (fst (fold_left (fun '(Sb, j) i =>
         let j := Z.land (j + word_at Sb i + kb i) 0xff in
         (S_SWAP Sb (Z.of_nat i) j, j)) l (S, j)))).
  { induction l as [|i l IH]; intros S j HS; [done|]. cbn [fold_left]. by apply IH, S_SWAP_bytes. }
  apply H. apply (bool_decide_unpack _). vm_compute. exact I.
Qed.

(** [n] steps of the generator. *)
Definition rc4_skip (n : nat) (s : rc4) : rc4 := Nat.iter n (fun s => fst (rc4_next s)) s.

Lemma rc4_skip_S n s : rc4_skip (S n) s = rc4_skip n (fst (rc4_next s)).
Proof. unfold rc4_skip. by rewrite Nat.iter_succ_r. Qed.

Lemma length_rc4_xor l s : length (rc4_xor s l) = length l.
Proof. revert s. induction l as [|b l IH]; intros s; [done|]. cbn. destruct (rc4_next s). cbn. by rewrite IH. Qed.

Lemma rc4_xor_app a b s : rc4_xor s (a ++ b) = rc4_xor s a ++ rc4_xor (rc4_skip (length a) s) b.
Proof.
  revert s. induction a as [|x a IH]; intros s; [done|]. cbn [rc4_xor app length].
  rewrite rc4_skip_S. destruct (rc4_next s) as [s' ks]. cbn [fst]. by rewrite IH.
Qed.

(** The same key stream decrypts. *)
Lemma rc4_xor_twice l s : rc4_xor s (rc4_xor s l) = l.
Proof.
  revert s. induction l as [|b l IH]; intros s; [done|]. cbn [rc4_xor].
  destruct (rc4_next s) as [s' ks] eqn:E. cbn [rc4_xor]. rewrite E, IH. f_equal.
  by rewrite Z.lxor_assoc, Z.lxor_nilpotent, Z.lxor_0_r.
Qed.

Lemma rc4_xor_bytes l s : rc4_ok s -> bytes l -> bytes (rc4_xor s l).
Proof.
  intros Hs Hl. revert s Hs. induction Hl as [|b l Hb _ IH]; intros s Hs; [constructor|].
  cbn [rc4_xor]. pose proof (rc4_next_ok s Hs) as [H1 H2]. destruct (rc4_next s) as [s' ks].
  constructor; [by apply is_u_lxor|by apply IH].
Qed.
Lemma rc4_skip_ok n s : rc4_ok s -> rc4_ok (rc4_skip n s).
Proof. revert s. induction n as [|n IH]; intros s H; [done|]. rewrite rc4_skip_S. by apply IH, rc4_next_ok. Qed.

(** What the byte loops compute. *)
Lemma map_enc_bytes l crc s :
  map_bytes enc_byte (crc, s) l = ((fold_left crc_step l crc, rc4_skip (length l) s), rc4_xor s l).
Proof.
  revert crc s. induction l as [|b l IH]; intros crc s; [done|]. cbn [map_bytes enc_byte rc4_xor length fold_left].
  rewrite rc4_skip_S. destruct (rc4_next s) as [s' ks]. by rewrite IH.
Qed.
Lemma map_dec_bytes l crc s :
  map_bytes dec_byte (crc, s) l =
  ((fold_left crc_step (rc4_xor s l) crc, rc4_skip (length l) s), rc4_xor s l).
Proof.
  revert crc s. induction l as [|b l IH]; intros crc s; [done|]. cbn [map_bytes dec_byte rc4_xor length fold_left].
  rewrite rc4_skip_S. destruct (rc4_next s) as [s' ks]. by rewrite IH.
Qed.

(** ** The walk over a chain *)

Lemma last_cons {A} (c : list A) x y : List.last (y :: c) x = List.last c y.
Proof. revert x y. induction c as [|z c IH]; intros x y; [done|]. transitivity (List.last (z :: c) x); [done|]. by rewrite !IH. Qed.
Lemma last_chain_len c y : (m_len (List.last c y) <= chain_len (y :: c))%nat.
Proof.
  revert y. induction c as [|z c IH]; intros y; [cbn; lia|]. rewrite last_cons. specialize (IH z).
  change (chain_len (y :: z :: c)) with (m_len y + chain_len (z :: c))%nat. lia.
Qed.

Lemma map_bytes_app f a b st :
  map_bytes f st (a ++ b) =
  let '(st1, a') := map_bytes f st a in let '(st2, b') := map_bytes f st1 b in (st2, a' ++ b').
Proof.
  revert st. induction a as [|x a IH]; intros st; [cbn; by destruct (map_bytes f st b)|].
  cbn [map_bytes app]. destruct (f st x) as [st1 x']. rewrite IH.
  destruct (map_bytes f st1 a) as [st2 a']. by destruct (map_bytes f st2 b).
Qed.
Lemma length_map_bytes f l st : length (snd (map_bytes f st l)) = length l.
Proof.
  revert st. induction l as [|x l IH]; intros st; [done|]. cbn [map_bytes]. destruct (f st x) as [st1 x'].
  specialize (IH st1). destruct (map_bytes f st1 l). cbn in *. by rewrite IH.
Qed.

Section Walk.
Context (f : wep_st -> Z -> wep_st * Z) (P : wep_st -> Prop).
Context (Hf : forall st b, P st -> is_u8 b -> P (fst (f st b)) /\ is_u8 (snd (f st b))).

Lemma map_bytes_ok l st : P st -> bytes l -> P (fst (map_bytes f st l)) /\ bytes (snd (map_bytes f st l)).
Proof using Hf.
  intros HP Hl. revert st HP. induction Hl as [|x l Hx _ IH]; intros st HP; [by split; [|constructor]|].
  cbn [map_bytes]. destruct (Hf st x HP Hx) as [H1 H2]. destruct (f st x) as [st1 x'].
  destruct (IH st1 H1) as [H3 H4]. destruct (map_bytes f st1 l). cbn in *. split; [done|by constructor].
Qed.

(** One segment inside an mbuf. *)
Lemma wep_seg_ok st x off len :
  mwf x -> P st -> (off <= m_len x)%nat ->
  let n := Nat.min (m_len x - off) len in
  let r := map_bytes f st (sub_list off n (mdata x)) in
  exists y, wep_seg f st x off (Z.of_nat (m_len x - off)) (Z.of_nat len) =
      Ok (fst r, y, Z.of_nat (len - n), drop (off + n) (mtod y)) /\ P (fst r) /\
    mwf y /\ shape [y] = shape [x] /\ mdata y = splice off (snd r) (mdata x).
Proof using Hf.
  intros Hx HP Ho n r. pose proof Hx as (Hcl & Hfit & Hby). unfold wep_seg.
  replace (Z.min (Z.of_nat (m_len x - off)) (Z.of_nat len)) with (Z.of_nat n) by (unfold n; lia).
  destruct (_ <=? _) eqn:E; [|apply Z.leb_gt in E; rewrite Hcl in E; unfold n in E; lia]. rewrite Nat2Z.id.
  assert (Ha : sub_list (m_data x + off) n (m_cluster x) = sub_list off n (mdata x)) by (unfold mdata, n; list_solve).
  rewrite Ha. fold r. pose proof (length_map_bytes f (sub_list off n (mdata x)) st) as Hlr. fold r in Hlr.
  rewrite length_sub_list in Hlr by (rewrite length_mdata by done; unfold n; lia).
  destruct (map_bytes_ok (sub_list off n (mdata x)) st HP) as [HP' Hb'];
    [apply bytes_sub_list, mdata_bytes, Hx|]. fold r in HP', Hb'.
  destruct r as [st' b]. cbn [fst snd] in *. exists (mstore x off b).
  replace (Z.of_nat len - Z.of_nat n) with (Z.of_nat (len - n)) by (unfold n; lia).
  split; [done|]. split; [done|]. unfold mstore. split; [|split; [done|]].
  - apply mwf_store; [done|rewrite Hcl, Hlr; unfold n; lia|done].
  - apply mdata_store; [done|unfold n in *; lia].
Qed.

Lemma wep_walk_cons st x c off buflen len :
  wep_walk f st (x :: c) off buflen len =
  (let* (st, x, len, pos) := wep_seg f st x off buflen len in
   match c with
   | [] => Ok (st, [x], len, pos)
   | y :: _ =>
       let* (st, c, len, pos) := wep_walk f st c 0 (Z.of_nat (m_len y)) len in Ok (st, x :: c, len, pos)
   end).
Proof. done. Qed.

(** The whole chain: [len] bytes from [off] on are rewritten, and if the [k]
    bytes left after them are in the last mbuf, [pos] is left on them. *)
Lemma wep_walk_ok x c st off len :
  cwf (x :: c) -> P st -> (off <= m_len x)%nat -> (off + len <= length (content (x :: c)))%nat ->
  let r := map_bytes f st (sub_list off len (content (x :: c))) in
  exists c' pos,
    wep_walk f st (x :: c) off (Z.of_nat (m_len x - off)) (Z.of_nat len) = Ok (fst r, c', 0, pos) /\ P (fst r) /\
    cwf c' /\ shape c' = shape (x :: c) /\ content c' = splice off (snd r) (content (x :: c)) /\
    forall k, (off + len + k)%nat = length (content (x :: c)) ->
      (k <= m_len (List.last c x))%nat -> take k pos = drop (off + len) (content (x :: c)).
Proof using Hf.
  revert x st off len. induction c as [|y c IH]; intros x st off len Hc HP Ho Hle r;
    pose proof Hc as Hc0; apply List.Forall_cons_iff in Hc0 as [Hx Hc'];
    destruct (wep_seg_ok st x off len Hx HP Ho) as (x' & Es & HP1 & Wx & Sx & Dx);
    pose proof (length_mdata x Hx) as Hlx; pose proof (length_mdata x' Wx) as Hlx';
    assert (Hml : m_len x' = m_len x) by (by injection Sx);
    rewrite wep_walk_cons, Es; cbn [res_bind]; clear Es; set (n := Nat.min (m_len x - off) len) in *;
    pose proof (length_map_bytes f (sub_list off n (mdata x)) st) as Hlr;
    rewrite length_sub_list in Hlr by (unfold n; lia).
  - assert (Ec0 : content [x] = mdata x) by (rewrite content_cons; apply app_nil_r).
    subst r. rewrite Ec0 in Hle |- *. assert (En : n = len) by (unfold n; lia). rewrite En in *.
    set (r := map_bytes f st (sub_list off len (mdata x))) in *. rewrite Nat.sub_diag. exists [x'], (drop (off + len) (mtod x')).
    split; [done|]. split; [done|]. split; [by constructor|]. split; [done|].
    split; [by rewrite content_cons, app_nil_r|]. intros k Hk _.
    assert (E : take k (drop (off + len) (mtod x')) = drop (off + len) (mdata x')).
    { unfold mdata, mtod. pose proof Wx as (? & ? & _). list_solve. }
    rewrite E, Dx. clear E. destruct r as [st' b]. cbn [snd] in *. list_solve.
  - set (r1 := map_bytes f st (sub_list off n (mdata x))) in *.
    rewrite content_cons, length_app in Hle.
    assert (Hy : mwf y) by (by apply List.Forall_cons_iff in Hc' as [? _]).
    destruct (IH y (fst r1) 0%nat (len - n)%nat Hc' HP1) as (c' & pos & Ew & HP2 & Wc & Sc & Ec & Hpos);
      [lia|unfold n; lia|]. rewrite Nat.sub_0_r in Ew. rewrite Ew. cbn [res_bind].
    set (r2 := map_bytes f (fst r1) (sub_list 0 (len - n) (content (y :: c)))) in *.
    assert (Er : r = (fst r2, snd r1 ++ snd r2)).
    { unfold r. rewrite content_cons.
      assert (Eseg : sub_list off len (mdata x ++ content (y :: c)) =
        sub_list off n (mdata x) ++ sub_list 0 (len - n) (content (y :: c))) by (unfold n; list_solve).
      rewrite Eseg, map_bytes_app. fold r1. rewrite (surjective_pairing r1). cbn [fst snd].
      fold r2. by rewrite (surjective_pairing r2). }
    rewrite Er. cbn [fst snd]. exists (x' :: c'), pos.
    pose proof (length_map_bytes f (sub_list 0 (len - n) (content (y :: c))) (fst r1)) as Hl2. fold r2 in Hl2.
    rewrite length_sub_list in Hl2 by (unfold n; lia).
    assert (Esp : content (x' :: c') = splice off (snd r1 ++ snd r2) (content (x :: y :: c))).
    { rewrite content_cons, Dx, Ec, (content_cons x). unfold n in *.
      set (b1 := snd r1) in *. set (b2 := snd r2) in *. clearbody b1 b2. list_solve. }
    split; [done|]. split; [done|]. split; [by constructor|].
    split; [change (shape ([x'] ++ c') = shape ([x] ++ y :: c)); by rewrite !shape_app, Sx, Sc|].
    split; [done|]. intros k Hk Hlast. rewrite content_cons, length_app in Hk.
    rewrite last_cons in Hlast. assert (Hkn : (k <= length (content (y :: c)))%nat).
    { rewrite length_content by done. etransitivity; [exact Hlast|apply last_chain_len]. }
    rewrite Hpos; [rewrite (content_cons x); unfold n in *; list_solve|unfold n in *; lia|done].
Qed.
End Walk.

(** ** Encrypting and decrypting a packet *)

Lemma icv_check_spec icv s pos :
  (length icv <= length pos)%nat ->
  icv_check s icv pos = Ok (bool_decide (rc4_xor s icv = take (length icv) pos)).
Proof.
  revert s pos. induction icv as [|b icv IH]; intros s pos Hl; [by rewrite bool_decide_eq_true_2|].
  destruct pos as [|p pos]; [cbn in Hl; lia|]. cbn [icv_check rc4_xor length take].
  destruct (rc4_next s) as [s' ks]. destruct (Z.eqb_spec (Z.lxor b ks) p) as [<-|Hne].
  - rewrite IH by (cbn in Hl; lia). f_equal. apply bool_decide_ext. split; [by intros ->|by intros [= H]].
  - rewrite bool_decide_eq_false_2; [done|]. by intros [= ? _].
Qed.

Definition wst_ok (st : wep_st) : Prop := is_u32 (fst st) /\ rc4_ok (snd st).

Lemma enc_byte_ok st b : wst_ok st -> is_u8 b -> wst_ok (fst (enc_byte st b)) /\ is_u8 (snd (enc_byte st b)).
Proof.
  destruct st as [crc s]. intros [Hc Hs] Hb. unfold enc_byte. pose proof (rc4_next_ok s Hs) as [H1 H2].
  destruct (rc4_next s). split; [split; [by apply crc_step_range|done]|by apply is_u_lxor].
Qed.
Lemma dec_byte_ok st b : wst_ok st -> is_u8 b -> wst_ok (fst (dec_byte st b)) /\ is_u8 (snd (dec_byte st b)).
Proof.
  destruct st as [crc s]. intros [Hc Hs] Hb. unfold dec_byte. pose proof (rc4_next_ok s Hs) as [H1 H2].
  destruct (rc4_next s). split; [split; [by apply crc_step_range|done]|by apply is_u_lxor].
Qed.
Lemma crc_init_range : is_u32 crc_init.
Proof. unfold crc_init, is_u. lia. Qed.

(** The ICV of a payload, and a payload sealed under the key stream [s]. *)
Definition wep_icv (data : list Z) : list Z := icv_plain (fold_left crc_step data crc_init).
Definition wep_seal (s : rc4) (data : list Z) : list Z := rc4_xor s (data ++ wep_icv data).

Lemma length_wep_icv data : length (wep_icv data) = 4%nat.
Proof. done. Qed.
Lemma wep_icv_bytes data : bytes (wep_icv data).
Proof. unfold wep_icv, icv_plain. split_Forall; auto with urange. Qed.
Lemma wep_icv_ref data : bytes data -> wep_icv data = icv_plain (crc_ref crc_init data).
Proof. intros H. unfold wep_icv. by rewrite crc_fold_ref. Qed.
Lemma length_wep_seal s data : length (wep_seal s data) = (length data + 4)%nat.
Proof. unfold wep_seal. by rewrite length_rc4_xor, length_app. Qed.

Lemma wep_enc_walk x c s off :
  cwf (x :: c) -> rc4_ok s -> (off <= m_len x)%nat -> Z.of_nat (length (content (x :: c))) < 2 ^ 32 ->
  let data := drop off (content (x :: c)) in
  exists c' pos,
    wep_walk enc_byte (crc_init, s) (x :: c) off (size_t (Z.of_nat (m_len x) - Z.of_nat off))
      (size_t (Z.of_nat (length (content (x :: c))) - Z.of_nat off)) =
      Ok ((fold_left crc_step data crc_init, rc4_skip (length data) s), c', 0, pos) /\
    cwf c' /\ shape c' = shape (x :: c) /\ content c' = take off (content (x :: c)) ++ rc4_xor s data.
Proof.
  intros Hc Hs Ho Hlt data. pose proof Hc as Hc0. apply List.Forall_cons_iff in Hc0 as [Hx _].
  assert (Hle : (m_len x <= length (content (x :: c)))%nat).
  { rewrite length_content by done. cbn. lia. }
  destruct (wep_walk_ok enc_byte wst_ok enc_byte_ok x c (crc_init, s) off
      (length (content (x :: c)) - off) Hc) as (c' & pos & Ew & _ & Wc & Sc & Ec & _);
    [split; [apply crc_init_range|done]|done|lia|].
  rewrite <- !Nat2Z.inj_sub, !size_t_nat by lia.
  assert (Ed : sub_list off (length (content (x :: c)) - off) (content (x :: c)) = data).
  { unfold sub_list, data. apply take_ge. rewrite length_drop. lia. }
  rewrite Ed, map_enc_bytes in Ew, Ec. cbn [fst snd] in Ew, Ec. exists c', pos.
  split; [exact Ew|]. split; [done|]. split; [done|]. rewrite Ec. unfold splice.
  rewrite length_rc4_xor, (drop_ge (content _)), app_nil_r; [done|]. unfold data. rewrite length_drop. lia.
Qed.

Lemma wep_dec_walk x c s off :
  cwf (x :: c) -> rc4_ok s -> (off <= m_len x)%nat -> Z.of_nat (length (content (x :: c))) < 2 ^ 32 ->
  (off + 4 <= length (content (x :: c)))%nat -> (4 <= m_len (List.last c x))%nat ->
  let n := (length (content (x :: c)) - (off + 4))%nat in
  let pt := rc4_xor s (sub_list off n (content (x :: c))) in
  exists c' pos,
    wep_walk dec_byte (crc_init, s) (x :: c) off (size_t (Z.of_nat (m_len x) - Z.of_nat off))
      (size_t (Z.of_nat (length (content (x :: c))) - Z.of_nat (off + 4))) =
      Ok ((fold_left crc_step pt crc_init, rc4_skip n s), c', 0, pos) /\
    cwf c' /\ shape c' = shape (x :: c) /\ content c' = splice off pt (content (x :: c)) /\
    take 4 pos = drop (off + n) (content (x :: c)).
Proof.
  intros Hc Hs Ho Hlt Hge Hlast n pt. pose proof Hc as Hc0. apply List.Forall_cons_iff in Hc0 as [Hx _].
  assert (Hle : (m_len x <= length (content (x :: c)))%nat).
  { rewrite length_content by done. cbn. lia. }
  destruct (wep_walk_ok dec_byte wst_ok dec_byte_ok x c (crc_init, s) off n Hc)
    as (c' & pos & Ew & _ & Wc & Sc & Ec & Hpos);
    [split; [apply crc_init_range|done]|done|unfold n; lia|].
  rewrite <- !Nat2Z.inj_sub, !size_t_nat by lia. fold n.
  rewrite map_dec_bytes in Ew, Ec. cbn [fst snd] in Ew, Ec. fold pt in Ew, Ec.
  rewrite length_sub_list in Ew by (unfold n; lia). exists c', pos. split; [exact Ew|].
  split; [done|]. split; [done|]. split; [done|]. apply Hpos; [unfold n; lia|done].
Qed.

(** The trailer read back: it matches exactly when the whole payload with its
    ICV was sealed under [s]. *)
Lemma wep_icv_match s ct icv :
  rc4_xor (rc4_skip (length ct) s) (wep_icv (rc4_xor s ct)) = icv <->
  ct ++ icv = wep_seal s (rc4_xor s ct).
Proof.
  unfold wep_seal. rewrite rc4_xor_app, rc4_xor_twice, length_rc4_xor. split; [by intros ->|].
  intros H. symmetry. by apply app_inv_head in H.
Qed.
