(* ===== verification/Wep.v ===== *)
(** * WEP: net80211/ieee80211_crypto_wep.c

    [k->wk_private] is a [wep_ctx]: the next IV ([wc_iv]) and the interface,
    which the operations are given.  The little-endian branch of the IV layout
    is the one the supported boards compile. *)

From S2P Require Import Prelude Buffers Mbuf Ieee80211 Rc4.

(** [ieee80211_cipher_wep]. *)
Definition wep_ic_header : nat := IEEE80211_WEP_IVLEN + IEEE80211_WEP_KIDLEN.
Definition wep_ic_trailer : nat := IEEE80211_WEP_CRCLEN.
Definition wep_ic_miclen : nat := 0.

(** [kmem] says whether the allocation succeeds, [rnd] is what
    [get_random_bytes] stores in [wc_iv]. *)
Definition wep_attach (kmem : bool) (rnd : Z) (ic : ieee80211com) : option priv * ieee80211com :=
  if kmem then (Some (priv_wep (u32 rnd)), ic) else (None, stat_inc ic is_crypto_nomem).

Definition wep_ctx (k : ieee80211_key) : res Z :=
  match wk_private k with
  | priv_wep wc_iv => Ok wc_iv
  | _ => Fault NullDeref
  end.

Definition wep_setkey (k : ieee80211_key) : bool := (40 / 8 <=? wk_keylen k)%nat.

(** The IV of the next frame: weak IVs (B, 255, N) with 3 <= B < 16 are skipped. *)
Definition wep_iv (wc_iv : Z) : Z :=
  if Z.land wc_iv 0xff00 =? 0xff00 then
    let B := Z.shiftr (Z.land wc_iv 0xff0000) 16 in
    if (3 <=? B) && (B <? 16) then u32 (wc_iv + 0x0100) else wc_iv
  else wc_iv.

(** The four bytes at [ivp]. *)
Definition wep_ivp (iv keyid : Z) : list Z :=
  [u8 (Z.shiftr iv 16); u8 (Z.shiftr iv 8); u8 (Z.shiftr iv 0); keyid].

(** [rc4key] holds the IV and the key in IVLEN + KEYBUF_SIZE bytes; the RC4
    state it sets up. *)
Definition wep_rc4 (k : ieee80211_key) (iv3 : list Z) : res rc4 :=
  if (wk_keylen k <=? IEEE80211_KEYBUF_SIZE)%nat then
    let rc4key := iv3 ++ take (wk_keylen k) (wk_key k) in
    let keylen := (wk_keylen k + IEEE80211_WEP_IVLEN)%nat in
    Ok (mkRc4 (rc4_setup (fun i => byte_at rc4key (i mod keylen))) 0 0)
  else Fault BadAccess.

Definition wep_encrypt (ic : ieee80211com) (h : heap) (key : ieee80211_key) (m0 : list mbuf)
    (hdrlen : nat) : res (bool * list mbuf * ieee80211com * heap) :=
  let* _ := wep_ctx key in
  match m0 with
  | [] => Fault NullDeref
  | x :: _ =>
      let ic := stat_inc ic is_crypto_wep in
      let* s := wep_rc4 key (sub_list hdrlen IEEE80211_WEP_IVLEN (mtod x)) in
      let off := (hdrlen + wep_ic_header)%nat in
      let data_len := size_t (ph_len (m_hdr x) - Z.of_nat off) in
      let buflen := size_t (Z.of_nat (m_len x) - Z.of_nat off) in
      let* (st, m, data_len, _) := wep_walk enc_byte (crc_init, s) m0 off buflen data_len in
      if negb (data_len =? 0) then Ok (false, m, ic, h)
      else
        let '(crc, s) := st in
        let* (ok, m, h) := m_append h m (rc4_xor s (icv_plain crc)) in
        Ok (ok, m, ic, h)
  end.

Definition wep_encap (ic : ieee80211com) (h : heap) (k : ieee80211_key) (m : list mbuf) (keyid : Z)
    : res (bool * ieee80211_key * list mbuf * ieee80211com * heap) :=
  let* wc_iv := wep_ctx k in
  match m with
  | [] => Fault NullDeref
  | x :: rest =>
      let* hdrlen := ieee80211_hdrspace ic (mtod x) in
      let iv := wep_iv wc_iv in
      let k := set_private k (priv_wep (u32 (iv + 1))) in
      let x := mstore x hdrlen (wep_ivp iv keyid) in
      if has_flag (wk_flags k) IEEE80211_KEY_SWCRYPT then
        let* (ok, m, ic, h) := wep_encrypt ic h k (x :: rest) hdrlen in
        Ok (ok, k, m, ic, h)
      else Ok (true, k, x :: rest, ic, h)
  end.

Definition wep_enmic (k : ieee80211_key) (m : list mbuf) (force : bool) : bool := true.
Definition wep_demic (k : ieee80211_key) (m : list mbuf) (force : bool) : bool := true.

Definition wep_decrypt (ic : ieee80211com) (key : ieee80211_key) (m0 : list mbuf) (hdrlen : nat)
    : res (bool * list mbuf * ieee80211com) :=
  let* _ := wep_ctx key in
  match m0 with
  | [] => Fault NullDeref
  | x :: _ =>
      let ic := stat_inc ic is_crypto_wep in
      let* s := wep_rc4 key (sub_list hdrlen IEEE80211_WEP_IVLEN (mtod x)) in
      let off := (hdrlen + wep_ic_header)%nat in
      let data_len := size_t (ph_len (m_hdr x) - Z.of_nat (off + wep_ic_trailer)) in
      let buflen := size_t (Z.of_nat (m_len x) - Z.of_nat off) in
      let* (st, m, data_len, pos) := wep_walk dec_byte (crc_init, s) m0 off buflen data_len in
      if negb (data_len =? 0) then Ok (false, m, ic)
      else
        let '(crc, s) := st in
        let* ok := icv_check s (icv_plain crc) pos in
        Ok (ok, m, ic)
  end.

Definition wep_decap (ic : ieee80211com) (k : ieee80211_key) (m : list mbuf) (hdrlen : nat)
    : res (bool * list mbuf * ieee80211com) :=
  match m with
  | [] => Fault NullDeref
  | _ :: _ =>
      let* (ok, m, ic) :=
        if has_flag (wk_flags k) IEEE80211_KEY_SWCRYPT then wep_decrypt ic k m hdrlen else Ok (true, m, ic) in
      if negb ok then Ok (false, m, stat_inc ic is_rx_wepfail)
      else Ok (true, strip_crypto m hdrlen wep_ic_header wep_ic_trailer, ic)
  end.
