(* ===== verification/WepProof.v ===== *)
(** * WEP: proofs

    What encapsulation sends, what decapsulation accepts, the round trip, and
    the IVs over the lifetime of a key. *)

From Stdlib Require Import Sorted.
From S2P Require Import Prelude Buffers Mbuf MbufProof AesCcmMbuf AesCcmRfc Ieee80211 FrameProof.
From S2P Require Import Rc4 Rc4Proof Wep.

(** ** Keys ready for software WEP *)

(** The key stream of a frame with IV [iv3]. *)
Definition wep_stream (k : ieee80211_key) (iv3 : list Z) : rc4 :=
  let rc4key := iv3 ++ take (wk_keylen k) (wk_key k) in
  mkRc4 (rc4_setup (fun i => byte_at rc4key (i mod (wk_keylen k + 3)))) 0 0.

Definition wep_ready (k : ieee80211_key) : Prop :=
  (wk_keylen k <= IEEE80211_KEYBUF_SIZE)%nat /\ has_flag (wk_flags k) IEEE80211_KEY_SWCRYPT = true /\
  exists iv, wk_private k = priv_wep iv /\ is_u32 iv.

Lemma wep_ready_rc4 k iv3 : wep_ready k -> wep_rc4 k iv3 = Ok (wep_stream k iv3).
Proof. intros (Hl & _ & _). unfold wep_rc4. by rewrite (proj2 (Nat.leb_le _ _) Hl). Qed.
Lemma wep_stream_ok k iv3 : rc4_ok (wep_stream k iv3).
Proof. apply rc4_setup_bytes. Qed.

(** The IV bytes are read where they are in the packet. *)
Lemma mtod_window x rest off n :
  mwf x -> (off + n <= m_len x)%nat -> sub_list off n (mtod x) = sub_list off n (content (x :: rest)).
Proof.
  intros Hx Hle. apply (sub_list_prefix (m_len x)); [|lia].
  rewrite (take_mtod x rest) by (done || lia). done.
Qed.

(** ** Encapsulation *)

Lemma wep_encrypt_ok ic h k x rest hdrlen :
  pkt_ok (x :: rest) -> has_pkthdr x = true -> wep_ready k -> (hdrlen + 4 <= m_len x)%nat ->
  Z.of_nat (length (content (x :: rest))) < 2 ^ 32 ->
  let c := content (x :: rest) in
  let sealed := wep_seal (wep_stream k (sub_list hdrlen 3 c)) (drop (hdrlen + 4) c) in
  exists ok c' h' d rem,
    wep_encrypt ic h k (x :: rest) hdrlen = Ok (ok, c', stat_inc ic is_crypto_wep, h') /\
    pkt_ok c' /\ balanced h h' (x :: rest) c' /\ sealed = d ++ rem /\
    content c' = take (hdrlen + 4) c ++ d /\ (ok = true <-> rem = []) /\
    (Forall is_Some (h_supply h) -> (4 <= length (h_supply h))%nat -> ok = true).
Proof.
  intros Hok Hp Hr Hm Hlt c sealed. pose proof Hok as [Hc _]. pose proof Hc as Hc0.
  apply List.Forall_cons_iff in Hc0 as [Hx _]. destruct (Hr) as (_ & _ & iv & Hpriv & _).
  unfold wep_encrypt, wep_ctx. rewrite Hpriv. cbn [res_bind].
  change IEEE80211_WEP_IVLEN with 3%nat. rewrite (mtod_window x rest hdrlen 3 Hx) by lia. fold c.
  rewrite (wep_ready_rc4 k _ Hr). cbn [res_bind]. change wep_ic_header with 4%nat.
  rewrite (pkt_ok_ph x rest Hok Hp).
  set (s := wep_stream k (sub_list hdrlen 3 c)).
  destruct (wep_enc_walk x rest s (hdrlen + 4) Hc (wep_stream_ok _ _) Hm Hlt) as (c1 & pos & Ew & W1 & S1 & E1).
  fold c in Ew, E1 |- *. rewrite Ew. cbn [res_bind negb Z.eqb].
  set (data := drop (hdrlen + 4) c) in *.
  set (icv := rc4_xor (rc4_skip (length data) s) (wep_icv data)).
  change (rc4_xor (rc4_skip (length data) s) (icv_plain (fold_left crc_step data crc_init))) with icv.
  assert (Hicv : bytes icv) by (apply rc4_xor_bytes; [apply rc4_skip_ok, wep_stream_ok|apply wep_icv_bytes]).
  assert (Hne1 : c1 <> []) by (intros ->; discriminate S1).
  destruct (m_append_spec h c1 icv Hne1 (shape_pkt_ok c1 (x :: rest) S1 Hok W1) Hicv)
    as (ok & c' & h' & d & rem & Ea & Hok' & Hbal & Et & Ec & Hiff & Hsup).
  rewrite Ea. cbn [res_bind]. exists ok, c', h', (rc4_xor s data ++ d), rem.
  assert (Esl : sealed = rc4_xor s data ++ icv) by (unfold sealed, wep_seal; fold s; by rewrite rc4_xor_app).
  split; [done|]. split; [done|]. split.
  { unfold balanced in *. apply (f_equal length) in S1. unfold shape in S1. rewrite !length_map in S1. lia. }
  split; [by rewrite Esl, Et, app_assoc|]. split; [by rewrite Ec, E1, app_assoc|]. split; [done|].
  intros HS H4. apply Hsup; [done|]. unfold icv. rewrite length_rc4_xor. done.
Qed.

Lemma wep_iv_range iv : is_u32 iv -> is_u32 (wep_iv iv).
Proof. intros H. unfold wep_iv. destruct (_ =? _); [|done]. destruct (_ && _); [apply u32_range|done]. Qed.

(** ** Decapsulation *)

(** What the receiver computes from a packet: the payload under the key
    stream, and whether its ICV is the trailer. *)
Definition wep_opened (k : ieee80211_key) (c : list Z) (hdrlen : nat) : list Z :=
  rc4_xor (wep_stream k (sub_list hdrlen 3 c)) (sub_list (hdrlen + 4) (length c - (hdrlen + 8)) c).
Definition wep_genuine (k : ieee80211_key) (c : list Z) (hdrlen : nat) : bool :=
  bool_decide (drop (hdrlen + 4) c = wep_seal (wep_stream k (sub_list hdrlen 3 c)) (wep_opened k c hdrlen)).

Lemma wep_decrypt_ok ic k x rest hdrlen :
  pkt_ok (x :: rest) -> has_pkthdr x = true -> wep_ready k -> (hdrlen + 4 <= m_len x)%nat ->
  Z.of_nat (length (content (x :: rest))) < 2 ^ 32 ->
  (hdrlen + 8 <= length (content (x :: rest)))%nat -> (4 <= m_len (List.last rest x))%nat ->
  let c := content (x :: rest) in
  exists c', wep_decrypt ic k (x :: rest) hdrlen = Ok (wep_genuine k c hdrlen, c', stat_inc ic is_crypto_wep) /\
    pkt_ok c' /\ shape c' = shape (x :: rest) /\ content c' = splice (hdrlen + 4) (wep_opened k c hdrlen) c.
Proof.
  intros Hok Hp Hr Hm Hlt Hge Hlast c. pose proof Hok as [Hc _]. pose proof Hc as Hc0.
  apply List.Forall_cons_iff in Hc0 as [Hx _]. destruct (Hr) as (_ & _ & iv & Hpriv & _).
  unfold wep_decrypt, wep_ctx. rewrite Hpriv. cbn [res_bind].
  change IEEE80211_WEP_IVLEN with 3%nat. rewrite (mtod_window x rest hdrlen 3 Hx) by lia. fold c.
  rewrite (wep_ready_rc4 k _ Hr). cbn [res_bind]. change wep_ic_header with 4%nat. change wep_ic_trailer with 4%nat.
  rewrite (pkt_ok_ph x rest Hok Hp).
  unfold wep_genuine, wep_opened. fold c in Hge. set (s := wep_stream k (sub_list hdrlen 3 c)).
  destruct (wep_dec_walk x rest s (hdrlen + 4) Hc (wep_stream_ok _ _) Hm Hlt) as (c1 & pos & Ew & W1 & S1 & E1 & Hpos);
    [fold c; lia|done|]. fold c in Ew, E1, Hpos |- *.
  replace (hdrlen + 4 + 4)%nat with (hdrlen + 8)%nat in * by lia. rewrite Ew. cbn [res_bind negb Z.eqb].
  set (n := (length c - (hdrlen + 8))%nat) in *. set (ct := sub_list (hdrlen + 4) n c) in *.
  assert (Hct : length ct = n) by (unfold ct; rewrite length_sub_list; unfold n; lia).
  change (icv_plain (fold_left crc_step (rc4_xor s ct) crc_init)) with (wep_icv (rc4_xor s ct)).
  assert (Hlp : (4 <= length pos)%nat).
  { apply (f_equal length) in Hpos. rewrite length_take, length_drop in Hpos. unfold n in Hpos. lia. }
  rewrite icv_check_spec by (rewrite length_wep_icv; lia). rewrite length_wep_icv, Hpos. cbn [res_bind].
  exists c1. split; [|split; [by apply (shape_pkt_ok c1 (x :: rest))|by split]].
  do 3 f_equal. apply bool_decide_ext. rewrite <- Hct, wep_icv_match, Hct.
  assert (E : drop (hdrlen + 4) c = ct ++ drop (hdrlen + 4 + n) c).
  { unfold ct. list_solve. }
  by rewrite <- E.
Qed.

Lemma wep_decap_ok ic k x rest hdrlen :
  pkt_ok (x :: rest) -> has_pkthdr x = true -> wep_ready k -> (hdrlen + 4 <= m_len x)%nat ->
  Z.of_nat (length (content (x :: rest))) < 2 ^ 32 ->
  (hdrlen + 8 <= length (content (x :: rest)))%nat -> (4 <= m_len (List.last rest x))%nat ->
  let c := content (x :: rest) in
  exists c', pkt_ok c' /\
    if wep_genuine k c hdrlen
    then wep_decap ic k (x :: rest) hdrlen = Ok (true, c', stat_inc ic is_crypto_wep) /\
         content c' = take hdrlen c ++ wep_opened k c hdrlen
    else wep_decap ic k (x :: rest) hdrlen =
         Ok (false, c', stat_inc (stat_inc ic is_crypto_wep) is_rx_wepfail).
Proof.
  intros Hok Hp Hr Hm Hlt Hge Hlast c.
  destruct (wep_decrypt_ok ic k x rest hdrlen Hok Hp Hr Hm Hlt Hge Hlast) as (c1 & Ed & Hok1 & S1 & E1).
  unfold wep_decap. pose proof Hr as (_ & Hsw & _). rewrite Hsw, Ed. fold c. cbn [res_bind].
  destruct (wep_genuine k c hdrlen); cbn [negb]; [|exists c1; by split].
  destruct c1 as [|y c1]; [discriminate S1|]. cbn [shape map] in S1. injection S1 as _ _ Hly _ _ _.
  fold c in Hge, E1. set (pt := wep_opened k c hdrlen) in *.
  assert (Hlp : length pt = (length c - (hdrlen + 8))%nat).
  { unfold pt, wep_opened. rewrite length_rc4_xor, length_sub_list; [done|lia]. }
  assert (Hlc : length (content (y :: c1)) = length c) by (rewrite E1, length_splice; [done|lia]).
  change wep_ic_header with 4%nat. change wep_ic_trailer with 4%nat.
  destruct (strip_crypto_ok y c1 hdrlen 4 4 Hok1) as [Hok2 E2]; [lia|lia|].
  eexists. split; [exact Hok2|]. split; [done|]. rewrite E2, Hlc, E1. list_solve.
Qed.

(** An encapsulated packet opens to its payload. *)
Lemma wep_opened_sealed k hdr iv3 keyid data :
  length iv3 = 3%nat ->
  let c := hdr ++ iv3 ++ [keyid] ++ wep_seal (wep_stream k iv3) data in
  wep_opened k c (length hdr) = data /\ wep_genuine k c (length hdr) = true.
Proof.
  intros Hiv c. set (s := wep_stream k iv3). pose proof (length_wep_seal s data) as Hls.
  assert (Eiv : sub_list (length hdr) 3 c = iv3 /\ drop (length hdr + 4) c = wep_seal s data).
  { unfold c. fold s. set (w := wep_seal s data) in *. set (kb := [keyid]).
    assert (Hkb : length kb = 1%nat) by done. clearbody w kb. split; list_solve. }
  destruct Eiv as [Eiv Ed].
  assert (Eo : wep_opened k c (length hdr) = data).
  { unfold wep_opened. rewrite Eiv. fold s.
    assert (Hn : (length c - (length hdr + 8))%nat = length data) by (unfold c; rewrite !length_app; cbn [length]; fold s; lia).
    unfold sub_list. rewrite Hn, Ed. unfold wep_seal. rewrite rc4_xor_app.
    rewrite take_app_length' by (by rewrite length_rc4_xor). apply rc4_xor_twice. }
  split; [exact Eo|]. unfold wep_genuine. rewrite Eiv, Eo. by apply bool_decide_eq_true_2.
Qed.

(** [wep_encap] on a packet with the header and the IV room in the first mbuf. *)
Lemma wep_encap_ok ic h k x rest hdrlen keyid iv :
  pkt_ok (x :: rest) -> has_pkthdr x = true -> wep_ready k -> wk_private k = priv_wep iv ->
  ieee80211_hdrspace ic (mtod x) = Ok hdrlen -> (hdrlen + 4 <= m_len x)%nat ->
  Z.of_nat (length (content (x :: rest))) < 2 ^ 32 -> is_u8 keyid ->
  let c := content (x :: rest) in
  let ivp := wep_ivp (wep_iv iv) keyid in
  let k' := set_private k (priv_wep (u32 (wep_iv iv + 1))) in
  exists ok c' h' d rem,
    wep_encap ic h k (x :: rest) keyid = Ok (ok, k', c', stat_inc ic is_crypto_wep, h') /\
    pkt_ok c' /\ balanced h h' (x :: rest) c' /\
    wep_seal (wep_stream k (take 3 ivp)) (drop (hdrlen + 4) c) = d ++ rem /\
    content c' = take hdrlen c ++ ivp ++ d /\ (ok = true <-> rem = []) /\
    (Forall is_Some (h_supply h) -> (4 <= length (h_supply h))%nat -> ok = true).
Proof.
  intros Hok Hp Hr Hpriv Hhs Hm Hlt Hid c ivp k'.
  assert (Hlv : length ivp = 4%nat) by done.
  assert (Hbv : bytes ivp) by (unfold ivp, wep_ivp; split_Forall; auto with urange).
  destruct (mstore_ok x rest hdrlen ivp Hok) as [Hok1 Ec1]; [rewrite Hlv; lia|done|].
  set (y := mstore x hdrlen ivp) in *. fold c in Ec1.
  assert (Hl : (hdrlen + 4 <= length c)%nat).
  { unfold c. rewrite length_content by apply Hok. cbn. lia. }
  assert (Hlc : length (content (y :: rest)) = length c) by (rewrite Ec1; apply length_splice; rewrite Hlv; lia).
  assert (Hr' : wep_ready k').
  { destruct Hr as (Hkl & Hsw & _). split; [done|]. split; [done|].
    exists (u32 (wep_iv iv + 1)). split; [done|apply u32_range]. }
  destruct (wep_encrypt_ok ic h k' y rest hdrlen Hok1 Hp Hr') as (ok & c' & h' & d & rem & Ee & H1 & H2 & H3 & H4 & H5 & H6);
    [cbn; lia|rewrite Hlc; done|].
  exists ok, c', h', d, rem. unfold wep_encap, wep_ctx. rewrite Hpriv, Hhs. cbn [res_bind]. fold ivp y.
  destruct Hr as (_ & Hsw & _). fold k'. change (wk_flags k') with (wk_flags k). rewrite Hsw, Ee. cbn [res_bind].
  split; [done|]. split; [done|]. split; [done|]. rewrite Ec1 in H3, H4.
  assert (E3 : sub_list hdrlen 3 (splice hdrlen ivp c) = take 3 ivp) by list_solve.
  assert (Ed : drop (hdrlen + 4) (splice hdrlen ivp c) = drop (hdrlen + 4) c) by list_solve.
  assert (Et : take (hdrlen + 4) (splice hdrlen ivp c) = take hdrlen c ++ ivp) by list_solve.
  rewrite E3, Ed in H3. rewrite Et, <- app_assoc in H4. by split_and!.
Qed.

(** ** Properties *)

Lemma wep_roundtrip (ic ic2 : ieee80211com) (h h' : heap) (k k' k2 : ieee80211_key)
    (x : mbuf) (rest c' : list mbuf) (ic' : ieee80211com) (hdrlen : nat) (keyid iv : Z) (y : mbuf) (rs : list mbuf)
    (Hok : pkt_ok (x :: rest)) (Hp : has_pkthdr x = true) (Hr : wep_ready k) (Hpriv : wk_private k = priv_wep iv)
    (Hhs : ieee80211_hdrspace ic (mtod x) = Ok hdrlen) (Hm : (hdrlen + 4 <= m_len x)%nat)
    (Hlt : Z.of_nat (length (content (x :: rest))) < 2 ^ 31) (Hid : is_u8 keyid)
    (Henc : wep_encap ic h k (x :: rest) keyid = Ok (true, k', c', ic', h'))
    (Hok2 : pkt_ok (y :: rs)) (Hp2 : has_pkthdr y = true) (Hr2 : wep_ready k2)
    (Hkey : wk_key k2 = wk_key k) (Hkl : wk_keylen k2 = wk_keylen k)
    (Hcont : content (y :: rs) = content c') (Hm2 : (hdrlen + 4 <= m_len y)%nat)
    (Hlast : (4 <= m_len (List.last rs y))%nat) :
  exists c2, wep_decap ic2 k2 (y :: rs) hdrlen = Ok (true, c2, stat_inc ic2 is_crypto_wep) /\ pkt_ok c2 /\
    content c2 = take hdrlen (content (x :: rest)) ++ drop (hdrlen + 4) (content (x :: rest)).
Proof.
  destruct (wep_encap_ok ic h k x rest hdrlen keyid iv Hok Hp Hr Hpriv Hhs Hm ltac:(clear -Hlt; lia) Hid)
    as (ok & c1 & h1 & d & rem & Ee & _ & _ & Et & Ec & Hiff & _).
  rewrite Ee in Henc. injection Henc as -> _ -> _ _.
  assert (rem = []) as -> by (by apply Hiff). rewrite app_nil_r in Et. subst d. clear Hiff Ee.
  set (c := content (x :: rest)) in *. set (data := drop (hdrlen + 4) c) in *. set (ivp := wep_ivp (wep_iv iv) keyid) in *.
  assert (Hl : (hdrlen + 4 <= length c)%nat) by (unfold c; rewrite length_content by apply Hok; cbn; lia).
  assert (Hlh : length (take hdrlen c) = hdrlen) by (rewrite length_take; lia).
  assert (Es : wep_stream k (take 3 ivp) = wep_stream k2 (take 3 ivp)) by (unfold wep_stream; by rewrite Hkey, Hkl).
  assert (Ec2 : content (y :: rs) = take hdrlen c ++ take 3 ivp ++ [keyid] ++ wep_seal (wep_stream k2 (take 3 ivp)) data).
  { rewrite Hcont, Ec, Es. done. }
  assert (Hlen : length (content (y :: rs)) = (length c + 4)%nat).
  { rewrite Ec2, !length_app, Hlh, length_wep_seal. unfold data. rewrite length_drop. cbn [length take ivp wep_ivp]. lia. }
  destruct (wep_opened_sealed k2 (take hdrlen c) (take 3 ivp) keyid data eq_refl) as [Eo Eg].
  rewrite <- Ec2, Hlh in Eo, Eg.
  destruct (wep_decap_ok ic2 k2 y rs hdrlen Hok2 Hp2 Hr2 Hm2) as (c2 & Hok3 & Hd);
    [clear -Hlen Hlt; lia|clear -Hlen Hl; lia|done|].
  rewrite Eg in Hd. destruct Hd as [Ed E3]. exists c2. split; [done|]. split; [done|].
  rewrite E3, Eo, Ec2. f_equal. by apply take_app_length'.
Qed.


(** A sample 104-bit key and data frame. *)
Definition wep_key : ieee80211_key :=
  mkKey 13 (Z.lor IEEE80211_KEY_XMIT IEEE80211_KEY_SWCRYPT) 0 0xffff (map Z.of_nat (seq 1 32)) 0 0
        (Some cipher_wep) (priv_wep 0x07ff10).
Definition wep_com : ieee80211com := mkCom true 0 0 (fun _ => 0) [] 0xffff 4 [].
Definition wep_frame : list Z :=
  [0x08; 0x41; 0; 0] ++ map Z.of_nat (seq 100 20) ++ replicate 4 0 ++ map Z.of_nat (seq 1 20).
Definition wep_chain : list mbuf := [sample_mbuf true 256 wep_frame 48].
Definition wep_air : list Z :=
  match wep_encap wep_com (mkHeap [] 1) wep_key wep_chain 0 with
  | Ok (_, _, c', _, _) => content c' | _ => [] end.
Definition wep_rx : mbuf := sample_mbuf true 256 wep_air (Z.of_nat (length wep_air)).

Lemma wep_key_ready : wep_ready wep_key.
Proof.
  split; [apply Nat.leb_le; reflexivity|]. split; [reflexivity|]. exists 0x07ff10. split; [reflexivity|unfold is_u; lia].
Qed.
Lemma wep_chain_ok : pkt_ok wep_chain.
Proof. split; [by_compute|]. intros _. vm_compute. reflexivity. Qed.
Lemma wep_rx_ok : pkt_ok [wep_rx].
Proof. split; [by_compute|]. intros _. vm_compute. reflexivity. Qed.


(** The receiver's decision: a frame is accepted exactly when its payload and
    trailer are the sealing of the payload, with its CRC-32, under the key
    stream of its IV; then header and payload are handed on, otherwise the
    frame is refused and counted. *)
Theorem wep_decap_verdict (ic : ieee80211com) (k : ieee80211_key) (x : mbuf) (rest : list mbuf) (hdrlen : nat)
    (Hok : pkt_ok (x :: rest)) (Hp : has_pkthdr x = true) (Hr : wep_ready k) (Hm : (hdrlen + 4 <= m_len x)%nat)
    (Hlt : Z.of_nat (length (content (x :: rest))) < 2 ^ 32)
    (Hge : (hdrlen + 8 <= length (content (x :: rest)))%nat) (Hlast : (4 <= m_len (List.last rest x))%nat) :
  let c := content (x :: rest) in
  exists c', pkt_ok c' /\
    if wep_genuine k c hdrlen
    then wep_decap ic k (x :: rest) hdrlen = Ok (true, c', stat_inc ic is_crypto_wep) /\
         content c' = take hdrlen c ++ wep_opened k c hdrlen
    else wep_decap ic k (x :: rest) hdrlen =
         Ok (false, c', stat_inc (stat_inc ic is_crypto_wep) is_rx_wepfail).
Proof. exact (wep_decap_ok ic k x rest hdrlen Hok Hp Hr Hm Hlt Hge Hlast). Qed.

(** The sample frame with one payload bit flipped on the air. *)
Definition wep_forged : mbuf :=
  sample_mbuf true 256 (splice 30 [Z.lxor (byte_at wep_air 30) 1] wep_air) (Z.of_nat (length wep_air)).
Lemma wep_decap_verdict_witness :
  exists c', wep_decap wep_com wep_key [wep_forged] 24 =
    Ok (false, c', stat_inc (stat_inc wep_com is_crypto_wep) is_rx_wepfail).
Proof.
  destruct (wep_decap_verdict wep_com wep_key wep_forged [] 24) as (c' & _ & H).
  - split; [by_compute|]. intros _. vm_compute. reflexivity.
  - reflexivity.
  - exact wep_key_ready.
  - apply Nat.leb_le. vm_compute. reflexivity.
  - vm_compute. reflexivity.
  - apply Nat.leb_le. vm_compute. reflexivity.
  - apply Nat.leb_le. vm_compute. reflexivity.
  - exists c'. assert (E : wep_genuine wep_key (content [wep_forged]) 24 = false) by (vm_compute; reflexivity).
    rewrite E in H. exact H.
Defined.

(** The CRC-32 computed with the 256-entry table, byte by byte while the packet
    is encrypted, is the bit-by-bit CRC of IEEE 802.3. *)
Theorem wep_crc_is_ieee8023 (s : rc4) (data : list Z) (Hb : bytes data) :
  fst (fst (map_bytes enc_byte (crc_init, s) data)) = crc_ref 0xffffffff data.
Proof. rewrite map_enc_bytes. by apply crc_fold_ref. Qed.
Lemma wep_crc_is_ieee8023_witness :
  Z.lxor (crc_ref 0xffffffff [49; 50; 51; 52; 53; 54; 55; 56; 57]) 0xffffffff = 0xcbf43926.
Proof.
  rewrite <- (wep_crc_is_ieee8023 (mkRc4 [] 0 0) [49; 50; 51; 52; 53; 54; 55; 56; 57]); [reflexivity|by_compute].
Defined.

(** ** IVs over the lifetime of a key *)

(** The 24 bits of the IV that are sent. *)
Definition iv24 (iv : Z) : Z := iv mod 2 ^ 24.
(** The class of weak IVs: (B, 255, N) with 3 <= B < 16. *)
Definition weak_iv (v : Z) : Prop := (v / 2 ^ 8) mod 2 ^ 8 = 255 /\ 3 <= v / 2 ^ 16 < 16.

(** [wep_tx k ivs k']: frames are sent under the key, with the IVs [ivs]. *)
Inductive wep_tx : ieee80211_key -> list Z -> ieee80211_key -> Prop :=
| tx_done k : wep_tx k [] k
| tx_frame ic h k m keyid iv ok k1 m1 ic1 h1 ivs k2 :
    wk_private k = priv_wep iv ->
    wep_encap ic h k m keyid = Ok (ok, k1, m1, ic1, h1) ->
    wep_tx k1 ivs k2 -> wep_tx k (iv24 (wep_iv iv) :: ivs) k2.

Lemma land_mask_mod x m a b : 0 <= a -> 0 <= b -> m = Z.shiftl (Z.ones b) a -> Z.shiftr (Z.land x m) a = (x / 2 ^ a) mod 2 ^ b.
Proof.
  intros Ha Hb ->. rewrite <- Z.land_ones, <- Z.shiftr_div_pow2 by lia.
  rewrite Z.shiftr_land, Z.shiftr_shiftl_l, Z.sub_diag, Z.shiftl_0_r by lia. done.
Qed.

(** The skip in arithmetic. *)
Lemma wep_iv_arith iv : is_u32 iv ->
  let b := (iv / 2 ^ 16) mod 2 ^ 8 in
  wep_iv iv = if bool_decide ((iv / 2 ^ 8) mod 2 ^ 8 = 255 /\ 3 <= b < 16) then (iv + 256) mod 2 ^ 32 else iv.
Proof.
  intros Hiv b. unfold wep_iv. rewrite (land_mask_mod iv 0xff0000 16 8) by (reflexivity || lia). fold b.
  assert (E : (Z.land iv 0xff00 =? 0xff00) = bool_decide ((iv / 2 ^ 8) mod 2 ^ 8 = 255)).
  { pose proof (land_mask_mod iv 0xff00 8 8 ltac:(lia) ltac:(lia) eq_refl) as H.
    assert (Hs : Z.land iv 0xff00 = Z.shiftl (Z.shiftr (Z.land iv 0xff00) 8) 8).
    { apply Z.bits_inj'. intros i Hi. rewrite Z.shiftl_spec by lia. destruct (Z.lt_ge_cases i 8).
      - rewrite (Z.testbit_neg_r _ (i - 8)), Z.land_spec by lia.
        replace (Z.testbit 0xff00 i) with false; [apply andb_false_r|].
        symmetry. change 0xff00 with (Z.shiftl 0xff 8). apply Z.shiftl_spec_low. lia.
      - rewrite Z.shiftr_spec by lia. f_equal. lia. }
    rewrite Hs, H, Z.shiftl_mul_pow2 by lia. set (v := (iv / 2 ^ 8) mod 2 ^ 8).
    destruct (bool_decide_reflect (v = 255)) as [->|Hne]; [reflexivity|]. apply Z.eqb_neq. lia. }
  rewrite E. set (v := (iv / 2 ^ 8) mod 2 ^ 8). rewrite u32_mod.
  destruct (bool_decide_reflect (v = 255)) as [H1|H1];
    [|rewrite bool_decide_eq_false_2 by (intros [? _]; done); done].
  destruct ((3 <=? b) && (b <? 16)) eqn:E2; [rewrite bool_decide_eq_true_2 by lia|rewrite bool_decide_eq_false_2 by lia]; done.
Qed.

(** The digits of a 32-bit counter. *)
Lemma iv_digits iv : is_u32 iv ->
  exists q b v n, iv = q * 2 ^ 24 + b * 2 ^ 16 + v * 2 ^ 8 + n /\ 0 <= q < 256 /\ 0 <= b < 256 /\ 0 <= v < 256 /\ 0 <= n < 256 /\
    (iv / 2 ^ 8) mod 2 ^ 8 = v /\ (iv / 2 ^ 16) mod 2 ^ 8 = b.
Proof.
  intros [Hl Hh]. exists (iv / 2 ^ 24), ((iv / 2 ^ 16) mod 2 ^ 8), ((iv / 2 ^ 8) mod 2 ^ 8), (iv mod 2 ^ 8).
  pose proof (Z.div_mod iv (2 ^ 8) ltac:(lia)) as E1.
  pose proof (Z.div_mod (iv / 2 ^ 8) (2 ^ 8) ltac:(lia)) as E2.
  pose proof (Z.div_mod (iv / 2 ^ 16) (2 ^ 8) ltac:(lia)) as E3.
  assert (D2 : iv / 2 ^ 8 / 2 ^ 8 = iv / 2 ^ 16) by (rewrite Z.div_div by lia; done).
  assert (D3 : iv / 2 ^ 16 / 2 ^ 8 = iv / 2 ^ 24) by (rewrite Z.div_div by lia; done).
  rewrite D2 in E2. rewrite D3 in E3.
  pose proof (Z.mod_pos_bound iv (2 ^ 8) ltac:(lia)). pose proof (Z.mod_pos_bound (iv / 2 ^ 8) (2 ^ 8) ltac:(lia)).
  pose proof (Z.mod_pos_bound (iv / 2 ^ 16) (2 ^ 8) ltac:(lia)).
  pose proof (Z.div_le_lower_bound iv (2 ^ 24) 0 ltac:(lia) ltac:(lia)).
  pose proof (Z.div_lt_upper_bound iv (2 ^ 24) 256 ltac:(lia) ltac:(lia)).
  split; [lia|]. split; [lia|]. split; [lia|]. split; [lia|]. split; [lia|]. by split.
Qed.

Lemma iv24_digits q b v n : 0 <= b < 256 -> 0 <= v < 256 -> 0 <= n < 256 ->
  iv24 (q * 2 ^ 24 + b * 2 ^ 16 + v * 2 ^ 8 + n) = b * 2 ^ 16 + v * 2 ^ 8 + n.
Proof.
  intros. unfold iv24. replace (q * 2 ^ 24 + b * 2 ^ 16 + v * 2 ^ 8 + n) with (b * 2 ^ 16 + v * 2 ^ 8 + n + q * 2 ^ 24) by lia.
  rewrite Z.mod_add by lia. apply Z.mod_small. lia.
Qed.
Lemma weak_digits b v n : 0 <= b < 256 -> 0 <= v < 256 -> 0 <= n < 256 ->
  weak_iv (b * 2 ^ 16 + v * 2 ^ 8 + n) <-> v = 255 /\ 3 <= b < 16.
Proof.
  intros. unfold weak_iv.
  assert (E1 : (b * 2 ^ 16 + v * 2 ^ 8 + n) / 2 ^ 8 = b * 2 ^ 8 + v).
  { symmetry. apply (Z.div_unique _ _ _ n); lia. }
  assert (E2 : (b * 2 ^ 16 + v * 2 ^ 8 + n) / 2 ^ 16 = b).
  { symmetry. apply (Z.div_unique _ _ _ (v * 2 ^ 8 + n)); lia. }
  rewrite E1, E2, Z.add_comm, Z.mod_add, Z.mod_small by lia. done.
Qed.

(** One step: the IV used is not weak and the counter moves by 1 or 257. *)
Lemma wep_iv_step iv : is_u32 iv ->
  ~ weak_iv (iv24 (wep_iv iv)) /\ exists d, (d = 0 \/ d = 256) /\ wep_iv iv = iv + d.
Proof.
  intros Hiv. rewrite (wep_iv_arith iv Hiv).
  destruct (iv_digits iv Hiv) as (q & b & v & n & E & Hq & Hb & Hv & Hn & -> & ->). rewrite E. clear E Hiv.
  destruct (bool_decide_reflect (v = 255 /\ 3 <= b < 16)) as [[-> Hb']|Hn'].
  - rewrite Z.mod_small by lia. split; [|exists 256; split; [auto|lia]].
    replace (q * 2 ^ 24 + b * 2 ^ 16 + 255 * 2 ^ 8 + n + 256) with (q * 2 ^ 24 + (b + 1) * 2 ^ 16 + 0 * 2 ^ 8 + n) by lia.
    rewrite iv24_digits, weak_digits by lia. lia.
  - split; [|exists 0; split; [auto|lia]]. by rewrite iv24_digits, weak_digits by lia.
Qed.

Lemma wep_encap_priv ic h k m keyid iv ok k1 m1 ic1 h1 :
  wk_private k = priv_wep iv -> wep_encap ic h k m keyid = Ok (ok, k1, m1, ic1, h1) ->
  wk_private k1 = priv_wep (u32 (wep_iv iv + 1)).
Proof.
  intros Hp. unfold wep_encap, wep_ctx. rewrite Hp. cbn [res_bind]. destruct m as [|x rest]; [done|].
  destruct (ieee80211_hdrspace ic (mtod x)); [|done]. cbn [res_bind]. destruct (has_flag _ _).
  - destruct (wep_encrypt _ _ _ _ _) as [(((? & ?) & ?) & ?)|]; [|done]. cbn [res_bind]. by intros [= _ <- _ _ _].
  - by intros [= _ <- _ _ _].
Qed.

(** Along a history the IVs are the counter plus increasing offsets. *)
Lemma wep_tx_offsets k ivs k' : wep_tx k ivs k' -> forall iv, wk_private k = priv_wep iv -> is_u32 iv ->
  Forall (fun v => ~ weak_iv v) ivs /\
  exists ds, ivs = map (fun d => (iv + d) mod 2 ^ 24) ds /\ StronglySorted Z.lt ds /\
    Forall (fun d => 0 <= d < 257 * Z.of_nat (length ivs)) ds.
Proof.
  induction 1 as [k|ic h k m keyid iv0 ok k1 m1 ic1 h1 ivs k2 Hp He _ IH]; intros iv Hp' Hiv.
  { split; [constructor|]. exists []. repeat constructor. }
  rewrite Hp in Hp'. injection Hp' as ->. pose proof (wep_encap_priv _ _ _ _ _ _ _ _ _ _ _ Hp He) as Hp1.
  destruct (wep_iv_step iv Hiv) as [Hw (d & Hd & Ed)].
  destruct (IH _ Hp1 (u32_range _)) as [Hall (ds & -> & Hs & Hb)]. split; [by constructor|].
  exists (d :: map (fun e => d + 1 + e) ds). rewrite length_map in Hb. cbn [map length]. rewrite length_map. split; [|split].
  - f_equal; [unfold iv24; by rewrite Ed|]. rewrite map_map. apply map_ext. intros e.
    rewrite Ed, u32_mod. rewrite <- (Z.add_mod_idemp_l _ e) by lia.
    rewrite Z.mod_mod_divide by (exists (2 ^ 8); reflexivity).
    rewrite Z.add_mod_idemp_l by lia. f_equal. lia.
  - constructor.
    + clear -Hs. induction Hs as [|e ds _ IH Ha]; [constructor|]. cbn. constructor; [done|].
      apply List.Forall_map. eapply List.Forall_impl; [|exact Ha]. cbn. lia.
    + apply List.Forall_map. eapply List.Forall_impl; [|exact Hb]. cbn. lia.
  - constructor; [lia|]. apply List.Forall_map. eapply List.Forall_impl; [|exact Hb]. cbn. lia.
Qed.

(** IVs over a key's lifetime: no frame is ever sent with a weak IV of the class
    (B, 255, N), 3 <= B < 16, and the IVs of any 65280 consecutive frames are
    pairwise different, whatever else happens to the frames. *)
Theorem wep_ivs_distinct (k k' : ieee80211_key) (ivs : list Z) (iv : Z)
    (Htx : wep_tx k ivs k') (Hp : wk_private k = priv_wep iv) (Hiv : is_u32 iv)
    (Hn : Z.of_nat (length ivs) <= 65280) :
  Forall (fun v => ~ weak_iv v) ivs /\ NoDup ivs.
Proof.
  destruct (wep_tx_offsets k ivs k' Htx iv Hp Hiv) as [Hw (ds & -> & Hs & Hb)]. split; [done|].
  rewrite length_map in Hb, Hn. assert (Hb' : Forall (fun d => 0 <= d < 2 ^ 24) ds).
  { eapply List.Forall_impl; [|exact Hb]. cbn. lia. }
  clear -Hs Hb'. induction Hs as [|d ds _ IH Ha]; [constructor|].
  apply List.Forall_cons_iff in Hb' as [Hd Hb']. cbn. constructor; [|by apply IH].
  intros Hin%list_elem_of_In. apply in_map_iff in Hin as (e & He & Hin).
  rewrite List.Forall_forall in Ha, Hb'. specialize (Ha e Hin). specialize (Hb' e Hin).
  assert (Hdvd : (e - d) mod 2 ^ 24 = 0).
  { replace (e - d) with ((iv + e) - (iv + d)) by lia. rewrite Zminus_mod, He, Z.sub_diag. done. }
  rewrite Z.mod_small in Hdvd by lia. lia.
Qed.

Lemma wep_ivs_distinct_witness :
  exists k', wep_tx wep_key [0x080010; 0x080011] k' /\ NoDup [0x080010; 0x080011].
Proof.
  set (f := fun r : res (bool * ieee80211_key * list mbuf * ieee80211com * heap) =>
              match r with Ok (_, k, _, _, _) => Some (wk_private k) | _ => None end).
  destruct (wep_encap wep_com (mkHeap [] 1) wep_key wep_chain 0) as [((((ok & k1) & c1) & ic1) & h1)|] eqn:E;
    [|vm_compute in E; discriminate E].
  assert (P1 : wk_private k1 = priv_wep 0x080011).
  { assert (H : f (Ok (ok, k1, c1, ic1, h1)) = Some (priv_wep 0x080011)) by (rewrite <- E; vm_compute; reflexivity).
    by injection H. }
  assert (Hk1 : exists r, wep_encap wep_com (mkHeap [] 1) k1 wep_chain 0 = Ok r).
  { destruct (wep_encap wep_com (mkHeap [] 1) k1 wep_chain 0) eqn:E2; [eauto|].
    apply (f_equal (fun r => match r with Ok (_, k, _, _, _) => Some k | _ => None end)) in E.
    vm_compute in E. injection E as <-. vm_compute in E2. discriminate E2. }
  destruct Hk1 as [((((ok2 & k2) & c2) & ic2) & h2) E2].
  assert (H : wep_tx wep_key [0x080010; 0x080011] k2).
  { apply (tx_frame wep_com (mkHeap [] 1) wep_key wep_chain 0 0x07ff10 ok k1 c1 ic1 h1 [0x080011] k2 eq_refl E).
    apply (tx_frame wep_com (mkHeap [] 1) k1 wep_chain 0 0x080011 ok2 k2 c2 ic2 h2 [] k2 P1 E2). apply tx_done. }
  exists k2. split; [exact H|].
  apply (wep_ivs_distinct wep_key k2 [0x080010; 0x080011] 0x07ff10 H); [reflexivity|unfold is_u; lia|cbn; lia].
Defined.
