(* ===== verification/Tkip.v ===== *)
(** * TKIP: net80211/ieee80211_crypto_tkip.c

    Key mixing, the Michael MIC, and the cipher module.  [k->wk_private] is a
    [tkip_ctx]: the phase-1 results cached for transmission and reception and
    the sequence counter of the frame whose MIC is still to be verified.
    16-bit arithmetic wraps; the little-endian layout of the RC4 key is the one
    the supported boards compile. *)

From S2P Require Import Prelude Buffers Endian Mbuf Ieee80211 Rc4.

(** [ieee80211_cipher_tkip]. *)
Definition tkip_ic_header : nat := IEEE80211_WEP_IVLEN + IEEE80211_WEP_KIDLEN + IEEE80211_WEP_EXTIVLEN.
Definition tkip_ic_trailer : nat := IEEE80211_WEP_CRCLEN.
Definition tkip_ic_miclen : nat := IEEE80211_WEP_MICLEN.

(** ** Key mixing *)

Definition RotR1 (val : Z) : Z := u16 (Z.lor (Z.shiftr val 1) (Z.shiftl val 15)).
Definition Lo8 (val : Z) : Z := Z.land val 0xff.
Definition Hi8 (val : Z) : Z := u8 (Z.shiftr val 8).
Definition Lo16 (val : Z) : Z := Z.land val 0xffff.
Definition Hi16 (val : Z) : Z := u16 (Z.shiftr val 16).
Definition Mk16 (hi lo : Z) : Z := u16 (Z.lor lo (Z.shiftl hi 8)).
(** [Mk16_le((const u16 * ) &TK[n])]. *)
Definition Mk16_le (TK : list Z) (n : nat) : Z := le16dec (drop n TK).

Definition Sbox : list Z :=
  [
   0xC6A5; 0xF884; 0xEE99; 0xF68D; 0xFF0D; 0xD6BD; 0xDEB1; 0x9154; 0x6050; 0x0203; 0xCEA9; 0x567D;
   0xE719; 0xB562; 0x4DE6; 0xEC9A; 0x8F45; 0x1F9D; 0x8940; 0xFA87; 0xEF15; 0xB2EB; 0x8EC9; 0xFB0B;
   0x41EC; 0xB367; 0x5FFD; 0x45EA; 0x23BF; 0x53F7; 0xE496; 0x9B5B; 0x75C2; 0xE11C; 0x3DAE; 0x4C6A;
   0x6C5A; 0x7E41; 0xF502; 0x834F; 0x685C; 0x51F4; 0xD134; 0xF908; 0xE293; 0xAB73; 0x6253; 0x2A3F;
   0x080C; 0x9552; 0x4665; 0x9D5E; 0x3028; 0x37A1; 0x0A0F; 0x2FB5; 0x0E09; 0x2436; 0x1B9B; 0xDF3D;
   0xCD26; 0x4E69; 0x7FCD; 0xEA9F; 0x121B; 0x1D9E; 0x5874; 0x342E; 0x362D; 0xDCB2; 0xB4EE; 0x5BFB;
   0xA4F6; 0x764D; 0xB761; 0x7DCE; 0x527B; 0xDD3E; 0x5E71; 0x1397; 0xA6F5; 0xB968; 0x0000; 0xC12C;
   0x4060; 0xE31F; 0x79C8; 0xB6ED; 0xD4BE; 0x8D46; 0x67D9; 0x724B; 0x94DE; 0x98D4; 0xB0E8; 0x854A;
   0xBB6B; 0xC52A; 0x4FE5; 0xED16; 0x86C5; 0x9AD7; 0x6655; 0x1194; 0x8ACF; 0xE910; 0x0406; 0xFE81;
   0xA0F0; 0x7844; 0x25BA; 0x4BE3; 0xA2F3; 0x5DFE; 0x80C0; 0x058A; 0x3FAD; 0x21BC; 0x7048; 0xF104;
   0x63DF; 0x77C1; 0xAF75; 0x4263; 0x2030; 0xE51A; 0xFD0E; 0xBF6D; 0x814C; 0x1814; 0x2635; 0xC32F;
   0xBEE1; 0x35A2; 0x88CC; 0x2E39; 0x9357; 0x55F2; 0xFC82; 0x7A47; 0xC8AC; 0xBAE7; 0x322B; 0xE695;
   0xC0A0; 0x1998; 0x9ED1; 0xA37F; 0x4466; 0x547E; 0x3BAB; 0x0B83; 0x8CCA; 0xC729; 0x6BD3; 0x283C;
   0xA779; 0xBCE2; 0x161D; 0xAD76; 0xDB3B; 0x6456; 0x744E; 0x141E; 0x92DB; 0x0C0A; 0x486C; 0xB8E4;
   0x9F5D; 0xBD6E; 0x43EF; 0xC4A6; 0x39A8; 0x31A4; 0xD337; 0xF28B; 0xD532; 0x8B43; 0x6E59; 0xDAB7;
   0x018C; 0xB164; 0x9CD2; 0x49E0; 0xD8B4; 0xACFA; 0xF307; 0xCF25; 0xCAAF; 0xF48E; 0x47E9; 0x1018;
   0x6FD5; 0xF088; 0x4A6F; 0x5C72; 0x3824; 0x57F1; 0x73C7; 0x9751; 0xCB23; 0xA17C; 0xE89C; 0x3E21;
   0x96DD; 0x61DC; 0x0D86; 0x0F85; 0xE090; 0x7C42; 0x71C4; 0xCCAA; 0x90D8; 0x0605; 0xF701; 0x1C12;
   0xC2A3; 0x6A5F; 0xAEF9; 0x69D0; 0x1791; 0x9958; 0x3A27; 0x27B9; 0xD938; 0xEB13; 0x2BB3; 0x2233;
   0xD2BB; 0xA970; 0x0789; 0x33A7; 0x2DB6; 0x3C22; 0x1592; 0xC920; 0x8749; 0xAAFF; 0x5078; 0xA57A;
   0x038F; 0x59F8; 0x0980; 0x1A17; 0x65DA; 0xD731; 0x84C6; 0xD0B8; 0x82C3; 0x29B0; 0x5A77; 0x1E11;
   0x7BCB; 0xA8FC; 0x6DD6; 0x2C3A].

Definition _S_ (v : Z) : Z :=
  let t := word_at Sbox (Z.to_nat (Hi8 v)) in
  Z.lxor (word_at Sbox (Z.to_nat (Lo8 v))) (u16 (Z.lor (Z.shiftl t 8) (Z.shiftr t 8))).

Definition PHASE1_LOOP_COUNT : nat := 8.

(** One turn of the loop of phase 1. *)
Definition phase1_step (TK : list Z) (ttak : list Z) (i : nat) : list Z :=
  let j := (2 * (i mod 2))%nat in
  let tk hi lo := Mk16 (byte_at TK (hi + j)) (byte_at TK (lo + j)) in
  let t0 := u16 (word_at ttak 0 + _S_ (Z.lxor (word_at ttak 4) (tk 1 0)%nat)) in
  let t1 := u16 (word_at ttak 1 + _S_ (Z.lxor t0 (tk 5 4)%nat)) in
  let t2 := u16 (word_at ttak 2 + _S_ (Z.lxor t1 (tk 9 8)%nat)) in
  let t3 := u16 (word_at ttak 3 + _S_ (Z.lxor t2 (tk 13 12)%nat)) in
  let t4 := u16 (word_at ttak 4 + (_S_ (Z.lxor t3 (tk 1 0)%nat) + Z.of_nat i)) in
  [t0; t1; t2; t3; t4].

Definition tkip_mixing_phase1 (TK TA : list Z) (IV32 : Z) : list Z :=
  fold_left (phase1_step TK) (seq 0 PHASE1_LOOP_COUNT)
    [Lo16 IV32; Hi16 IV32; Mk16 (byte_at TA 1) (byte_at TA 0);
     Mk16 (byte_at TA 3) (byte_at TA 2); Mk16 (byte_at TA 5) (byte_at TA 4)].

(** The 16-byte RC4 key; its bytes 4 to 15 are the array [PPK]. *)
Definition tkip_mixing_phase2 (TK TTAK : list Z) (IV16 : Z) : list Z :=
  let p0 := word_at TTAK 0 in let p1 := word_at TTAK 1 in let p2 := word_at TTAK 2 in
  let p3 := word_at TTAK 3 in let p4 := word_at TTAK 4 in let p5 := u16 (word_at TTAK 4 + IV16) in
  let p0 := u16 (p0 + _S_ (Z.lxor p5 (Mk16_le TK 0))) in
  let p1 := u16 (p1 + _S_ (Z.lxor p0 (Mk16_le TK 2))) in
  let p2 := u16 (p2 + _S_ (Z.lxor p1 (Mk16_le TK 4))) in
  let p3 := u16 (p3 + _S_ (Z.lxor p2 (Mk16_le TK 6))) in
  let p4 := u16 (p4 + _S_ (Z.lxor p3 (Mk16_le TK 8))) in
  let p5 := u16 (p5 + _S_ (Z.lxor p4 (Mk16_le TK 10))) in
  let p0 := u16 (p0 + RotR1 (Z.lxor p5 (Mk16_le TK 12))) in
  let p1 := u16 (p1 + RotR1 (Z.lxor p0 (Mk16_le TK 14))) in
  let p2 := u16 (p2 + RotR1 p1) in
  let p3 := u16 (p3 + RotR1 p2) in
  let p4 := u16 (p4 + RotR1 p3) in
  let p5 := u16 (p5 + RotR1 p4) in
  [Hi8 IV16; Z.land (Z.lor (Hi8 IV16) 0x20) 0x7f; Lo8 IV16; Lo8 (Z.shiftr (Z.lxor p5 (Mk16_le TK 0)) 1)] ++
  flat_map (fun p => [Lo8 p; Hi8 p]) [p0; p1; p2; p3; p4; p5].

(** ** RC4 with the 16-byte key, over the packet *)

Definition tkip_rc4 (key : list Z) : rc4 := mkRc4 (rc4_setup (fun i => byte_at key (i mod 16))) 0 0.

(** Returns the ICV; running out of mbufs is a failed [IASSERT]. *)
Definition tkip_wep_encrypt (key : list Z) (m0 : list mbuf) (off : nat) (data_len : Z)
    : res (list mbuf * list Z) :=
  match m0 with
  | [] => Fault NullDeref
  | x :: _ =>
      let buflen := size_t (Z.of_nat (m_len x) - Z.of_nat off) in
      let* (st, m, data_len, _) := wep_walk enc_byte (crc_init, tkip_rc4 key) m0 off buflen data_len in
      if negb (data_len =? 0) then Fault Panic
      else let '(crc, s) := st in Ok (m, rc4_xor s (icv_plain crc))
  end.

(** [true] is the return value 0: the ICV matches. *)
Definition tkip_wep_decrypt (key : list Z) (m : list mbuf) (off : nat) (data_len : Z)
    : res (list mbuf * bool) :=
  match m with
  | [] => Fault NullDeref
  | x :: _ =>
      let buflen := size_t (Z.of_nat (m_len x) - Z.of_nat off) in
      let* (st, m, data_len, pos) := wep_walk dec_byte (crc_init, tkip_rc4 key) m off buflen data_len in
      if negb (data_len =? 0) then Fault Panic
      else
        let '(crc, s) := st in
        let* ok := icv_check s (icv_plain crc) pos in
        Ok (m, ok)
  end.

(** ** Michael *)

Definition rotl (val : Z) (bits : Z) : Z := Z.lor (u32 (Z.shiftl val bits)) (Z.shiftr val (32 - bits)).
Definition rotr (val : Z) (bits : Z) : Z := Z.lor (Z.shiftr val bits) (u32 (Z.shiftl val (32 - bits))).
Definition xswap (val : Z) : Z :=
  Z.lor (u32 (Z.shiftl (Z.land val 0x00ff00ff) 8)) (Z.shiftr (Z.land val 0xff00ff00) 8).

Definition michael_block (l r : Z) : Z * Z :=
  let r := Z.lxor r (rotl l 17) in
  let l := u32 (l + r) in
  let r := Z.lxor r (xswap l) in
  let l := u32 (l + r) in
  let r := Z.lxor r (rotl l 3) in
  let l := u32 (l + r) in
  let r := Z.lxor r (rotr l 2) in
  let l := u32 (l + r) in
  (l, r).

Definition get_le32_split (b0 b1 b2 b3 : Z) : Z :=
  u32 (Z.lor (Z.lor (Z.lor b0 (Z.shiftl b1 8)) (Z.shiftl b2 16)) (Z.shiftl b3 24)).
Definition get_le32 (p : list Z) : Z :=
  get_le32_split (byte_at p 0) (byte_at p 1) (byte_at p 2) (byte_at p 3).
Definition put_le32 (v : Z) : list Z :=
  [u8 v; u8 (Z.shiftr v 8); u8 (Z.shiftr v 16); u8 (Z.shiftr v 24)].

(** The pseudo header: destination, source, priority, three zeros. *)
Definition michael_mic_hdr (wh : list Z) : list Z :=
  let dir := Z.land (i_fc1 wh) IEEE80211_FC1_DIR_MASK in
  let addrs :=
    if dir =? IEEE80211_FC1_DIR_NODS then i_addr1 wh ++ i_addr2 wh
    else if dir =? IEEE80211_FC1_DIR_TODS then i_addr3 wh ++ i_addr2 wh
    else if dir =? IEEE80211_FC1_DIR_FROMDS then i_addr1 wh ++ i_addr3 wh
    else i_addr3 wh ++ i_addr4 wh in
  let prio :=
    if has_flag (i_fc0 wh) IEEE80211_FC0_SUBTYPE_QOS
    then Z.land (i_qos0 wh) IEEE80211_QOS_TID else 0 in
  addrs ++ [prio; 0; 0; 0].

(** [l ^= get_le32(p)] and a block. *)
Definition mic_word (lr : Z * Z) (p : list Z) : Z * Z :=
  let '(l, r) := lr in michael_block (Z.lxor l (get_le32 p)) r.

(** The 32-bit blocks of a buffer; what is left is the new spill. *)
Fixpoint mic_words (lr : Z * Z) (data : list Z) : (Z * Z) * list Z :=
  match data with
  | b0 :: b1 :: b2 :: b3 :: data => mic_words (mic_word lr [b0; b1; b2; b3]) data
  | _ => (lr, data)
  end.

(** One buffer: complete the spilled block first, if there is one. *)
Definition mic_seg (lr : Z * Z) (spill data : list Z) : (Z * Z) * list Z :=
  if (length spill =? 0)%nat then mic_words lr data
  else
    let n := Nat.min (4 - length spill) (length data) in
    let spill := spill ++ take n data in
    if (length spill =? 4)%nat then mic_words (mic_word lr spill) (drop n data)
    else (lr, spill).

(** The loop over the chain: leaving it needs [data_len] bytes; the [KASSERT]
    on the next mbuf is compiled out. *)
Fixpoint mic_walk (lr : Z * Z) (spill : list Z) (m : list mbuf) (off : nat) (data_len : Z)
    : res ((Z * Z) * list Z) :=
  match m with
  | [] => Fault NullDeref
  | x :: rest =>
      let space := Z.min (size_t (Z.of_nat (m_len x) - Z.of_nat off)) data_len in
      if Z.of_nat (m_data x + off) + space <=? Z.of_nat (length (m_cluster x)) then
        let '(lr, spill) := mic_seg lr spill (sub_list (m_data x + off) (Z.to_nat space) (m_cluster x)) in
        let data_len := data_len - space in
        if data_len =? 0 then Ok (lr, spill) else mic_walk lr spill rest 0 data_len
      else Fault BadAccess
  end.

Definition michael_mic (key : list Z) (m : list mbuf) (off : nat) (data_len : Z) : res (list Z) :=
  match m with
  | [] => Fault NullDeref
  | x :: _ =>
      let hdr := michael_mic_hdr (mtod x) in
      let lr := (get_le32 key, get_le32 (drop 4 key)) in
      let lr := mic_word lr hdr in
      let lr := mic_word lr (drop 4 hdr) in
      let lr := mic_word lr (drop 8 hdr) in
      let lr := mic_word lr (drop 12 hdr) in
      let* (lr, spill) := mic_walk lr [] m off data_len in
      let spill := spill ++ [0x5a] ++ replicate (3 - length spill) 0 in
      let lr := mic_word lr spill in
      let '(l, r) := michael_block (fst lr) (snd lr) in
      Ok (put_le32 l ++ put_le32 r)
  end.

(** ** The cipher module *)

Definition wk_txmic (k : ieee80211_key) : list Z := drop IEEE80211_KEYBUF_SIZE (wk_key k).
Definition wk_rxmic (k : ieee80211_key) : list Z := drop (IEEE80211_KEYBUF_SIZE + 8) (wk_key k).

Definition tkip_attach (kmem : bool) (ic : ieee80211com) : option priv * ieee80211com :=
  if kmem then (Some (priv_tkip (mkTkip (replicate 5 0) false (replicate 16 0) (replicate 5 0) false (replicate 16 0) 0)), ic)
  else (None, stat_inc ic is_crypto_nomem).

Definition tkip_get (k : ieee80211_key) : res tkip_ctx :=
  match wk_private k with
  | priv_tkip t => Ok t
  | _ => Fault NullDeref
  end.

Definition tkip_setkey (k : ieee80211_key) : bool * ieee80211_key :=
  if negb (wk_keylen k =? 16)%nat then (false, k) else (true, set_keytsc k 1).

Definition set_tx (t : tkip_ctx) (ttak : list Z) (done : bool) (rc4key : list Z) : tkip_ctx :=
  mkTkip ttak done rc4key (rx_ttak t) (rx_phase1_done t) (rx_rc4key t) (rx_rsc t).
Definition set_rx (t : tkip_ctx) (ttak : list Z) (done : bool) (rc4key : list Z) : tkip_ctx :=
  mkTkip (tx_ttak t) (tx_phase1_done t) (tx_rc4key t) ttak done rc4key (rx_rsc t).
Definition set_rx_rsc (t : tkip_ctx) (rsc : Z) : tkip_ctx :=
  mkTkip (tx_ttak t) (tx_phase1_done t) (tx_rc4key t) (rx_ttak t) (rx_phase1_done t) (rx_rc4key t) rsc.
Definition put_ctx (k : ieee80211_key) (t : tkip_ctx) : ieee80211_key := set_private k (priv_tkip t).

Definition tkip_encrypt (ic : ieee80211com) (h : heap) (ctx : tkip_ctx) (key : ieee80211_key) (m : list mbuf)
    (hdrlen : nat) : res (bool * ieee80211_key * list mbuf * ieee80211com * heap) :=
  match m with
  | [] => Fault NullDeref
  | x :: _ =>
      let ic := stat_inc ic is_crypto_tkip in
      let ttak := if tx_phase1_done ctx then tx_ttak ctx
                  else tkip_mixing_phase1 (wk_key key) (i_addr2 (mtod x)) (u32 (Z.shiftr (wk_keytsc key) 16)) in
      let rc4key := tkip_mixing_phase2 (wk_key key) ttak (u16 (wk_keytsc key)) in
      let off := (hdrlen + tkip_ic_header)%nat in
      let* (m, icv) := tkip_wep_encrypt rc4key m off (size_t (ph_len (m_hdr x) - Z.of_nat off)) in
      let* (ok, m, h) := m_append h m icv in
      if negb ok then Ok (false, put_ctx key (set_tx ctx ttak true rc4key), m, ic, h)
      else
        let tsc := u64 (wk_keytsc key + 1) in
        let done := negb (u16 tsc =? 0) in
        Ok (true, set_keytsc (put_ctx key (set_tx ctx ttak done rc4key)) tsc, m, ic, h)
  end.

(** The eight bytes at [ivp]. *)
Definition tkip_iv (tsc keyid : Z) : list Z :=
  let tsc1 := u8 (Z.shiftr tsc 8) in
  [tsc1; Z.land (Z.lor tsc1 0x20) 0x7f; u8 (Z.shiftr tsc 0); u8 (Z.lor keyid IEEE80211_WEP_EXTIV);
   u8 (Z.shiftr tsc 16); u8 (Z.shiftr tsc 24); u8 (Z.shiftr tsc 32); u8 (Z.shiftr tsc 40)].

Definition tkip_encap (ic : ieee80211com) (h : heap) (k : ieee80211_key) (m : list mbuf) (keyid : Z)
    : res (bool * ieee80211_key * list mbuf * ieee80211com * heap) :=
  let* ctx := tkip_get k in
  if has_flag (ic_flags ic) IEEE80211_F_COUNTERM then Ok (false, k, m, stat_inc ic is_crypto_tkipcm, h)
  else
    match m with
    | [] => Fault NullDeref
    | x :: rest =>
        let* hdrlen := ieee80211_hdrspace ic (mtod x) in
        let x := mstore x hdrlen (tkip_iv (wk_keytsc k) keyid) in
        if has_flag (wk_flags k) IEEE80211_KEY_SWCRYPT then tkip_encrypt ic h ctx k (x :: rest) hdrlen
        else Ok (true, set_keytsc k (u64 (wk_keytsc k + 1)), x :: rest, ic, h)
    end.

Definition tkip_enmic (ic : ieee80211com) (h : heap) (k : ieee80211_key) (m : list mbuf) (force : bool)
    : res (bool * list mbuf * ieee80211com * heap) :=
  if force || has_flag (wk_flags k) IEEE80211_KEY_SWMIC then
    match m with
    | [] => Fault NullDeref
    | x :: _ =>
        let* _ := tkip_get k in
        let ic := stat_inc ic is_crypto_tkipenmic in
        let* hdrlen := ieee80211_hdrspace ic (mtod x) in
        let* mic := michael_mic (wk_txmic k) m hdrlen (size_t (ph_len (m_hdr x) - Z.of_nat hdrlen)) in
        let* (ok, m, h) := m_append h m mic in
        Ok (ok, m, ic, h)
    end
  else Ok (true, m, ic, h).

Definition tkip_decrypt (ic : ieee80211com) (ctx : tkip_ctx) (key : ieee80211_key) (m : list mbuf) (hdrlen : nat)
    : res (bool * tkip_ctx * list mbuf * ieee80211com) :=
  match m with
  | [] => Fault NullDeref
  | x :: _ =>
      let ic := stat_inc ic is_crypto_tkip in
      let iv16 := u16 (rx_rsc ctx) in
      let iv32 := u32 (Z.shiftr (rx_rsc ctx) 16) in
      let miss := negb (iv32 =? u32 (Z.shiftr (wk_keyrsc key) 16)) in
      let ttak := if miss || negb (rx_phase1_done ctx)
                  then tkip_mixing_phase1 (wk_key key) (i_addr2 (mtod x)) iv32 else rx_ttak ctx in
      let rc4key := tkip_mixing_phase2 (wk_key key) ttak iv16 in
      let off := (hdrlen + tkip_ic_header)%nat in
      let* (m, ok) := tkip_wep_decrypt rc4key m off (size_t (ph_len (m_hdr x) - Z.of_nat (off + tkip_ic_trailer))) in
      if ok then Ok (true, set_rx ctx ttak true rc4key, m, ic)
      else Ok (false, set_rx ctx ttak (negb miss) rc4key, m, stat_inc ic is_rx_tkipicv)
  end.

Definition tkip_decap (ic : ieee80211com) (k : ieee80211_key) (m : list mbuf) (hdrlen : nat)
    : res (bool * ieee80211_key * list mbuf * ieee80211com) :=
  let* ctx := tkip_get k in
  match m with
  | [] => Fault NullDeref
  | x :: _ =>
      let ivp := drop hdrlen (mtod x) in
      if Z.land (byte_at ivp IEEE80211_WEP_IVLEN) IEEE80211_WEP_EXTIV =? 0 then
        Ok (false, k, m, stat_inc ic is_rx_tkipformat)
      else if has_flag (ic_flags ic) IEEE80211_F_COUNTERM then Ok (false, k, m, stat_inc ic is_crypto_tkipcm)
      else
        let rsc := READ_6 (byte_at ivp 2) (byte_at ivp 0) (byte_at ivp 4) (byte_at ivp 5) (byte_at ivp 6) (byte_at ivp 7) in
        let ctx := set_rx_rsc ctx rsc in
        if rsc <=? wk_keyrsc k then
          let ic := ieee80211_notify_replay_failure ic (mtod x) k rsc in
          Ok (false, put_ctx k ctx, m, stat_inc ic is_rx_tkipreplay)
        else
          let* (ok, ctx, m, ic) :=
            if has_flag (wk_flags k) IEEE80211_KEY_SWCRYPT then tkip_decrypt ic ctx k m hdrlen
            else Ok (true, ctx, m, ic) in
          if negb ok then Ok (false, put_ctx k ctx, m, ic)
          else Ok (true, put_ctx k ctx, strip_crypto m hdrlen tkip_ic_header tkip_ic_trailer, ic)
  end.

Definition tkip_demic (ic : ieee80211com) (k : ieee80211_key) (m : list mbuf) (force : bool)
    : res (bool * ieee80211_key * list mbuf * ieee80211com) :=
  let* ctx := tkip_get k in
  match m with
  | [] => Fault NullDeref
  | x :: _ =>
      let* (ok, ic) :=
        if force || has_flag (wk_flags k) IEEE80211_KEY_SWMIC then
          let* hdrlen := ieee80211_hdrspace ic (mtod x) in
          let ic := stat_inc ic is_crypto_tkipdemic in
          let* mic := michael_mic (wk_rxmic k) m hdrlen
                        (size_t (ph_len (m_hdr x) - Z.of_nat (hdrlen + tkip_ic_miclen))) in
          let mic0 := m_copydata m (Z.to_nat (ph_len (m_hdr x)) - tkip_ic_miclen) tkip_ic_miclen in
          if bool_decide (mic = mic0) then Ok (true, ic)
          else Ok (false, ieee80211_notify_michael_failure ic (mtod x)
                            (if wk_rxkeyix k =? IEEE80211_KEYIX_NONE then wk_keyix k else wk_rxkeyix k))
        else Ok (true, ic) in
      if negb ok then Ok (false, k, m, ic)
      else Ok (true, set_keyrsc k (rx_rsc ctx), m_adj m (- Z.of_nat tkip_ic_miclen), ic)
  end.
