(* ===== verification/TkipProof.v ===== *)
(** * TKIP: proofs

    The Michael MIC over a chain is the one-shot Michael of the packet; the
    caches of key-mixing results are transparent as long as MICs verify; round
    trip, replay protection and countermeasures; and the two ways a cached
    phase-1 result goes stale. *)

From Stdlib Require Import Sorted.
From S2P Require Import Prelude Buffers Endian AesSpec Mbuf MbufProof AesCcmMbuf AesCcmRfc Ieee80211 FrameProof.
From S2P Require Import Rc4 Rc4Proof Tkip.

(** ** Michael in one shot *)

(** Michael of a whole message: the words of the message, a final word with
    the marker 0x5a and zero padding, and a zero word. *)
Definition michael_words (lr : Z * Z) (msg : list Z) : Z * Z := fst (mic_words lr msg).
Definition michael_pad (msg : list Z) : list Z :=
  msg ++ [0x5a] ++ replicate (3 - length msg mod 4) 0 ++ [0; 0; 0; 0].
Definition michael_ref (key msg : list Z) : list Z :=
  let '(l, r) := michael_words (get_le32 key, get_le32 (drop 4 key)) (michael_pad msg) in
  put_le32 l ++ put_le32 r.

(** Induction on a list in steps of four. *)
Lemma list4_ind (P : list Z -> Prop) :
  (forall l, (length l < 4)%nat -> P l) ->
  (forall a b c d l, P l -> P (a :: b :: c :: d :: l)) -> forall l, P l.
Proof.
  intros Hs Hc l. assert (H : forall n l, (length l <= n)%nat -> P l).
  { clear l. induction n as [|n IH]; intros l Hl; [apply Hs; lia|].
    destruct l as [|a [|b [|c [|d l]]]]; try (apply Hs; cbn; lia). apply Hc, IH. cbn in Hl. lia. }
  by apply (H (length l)).
Qed.

Lemma mic_words_short lr l : (length l < 4)%nat -> mic_words lr l = (lr, l).
Proof. destruct l as [|a [|b [|c [|d l]]]]; cbn; intros; (done || lia). Qed.
Lemma mic_words_rest l lr : (length (snd (mic_words lr l)) = length l mod 4)%nat.
Proof.
  revert lr. induction l as [l Hl|a b c d l IH] using list4_ind; intros lr.
  - rewrite mic_words_short by done. cbn [snd]. by rewrite Nat.mod_small.
  - cbn [mic_words]. rewrite IH. replace (length (a :: b :: c :: d :: l)) with (length l + 1 * 4)%nat by (cbn; lia).
    by rewrite Nat.Div0.mod_add.
Qed.
Lemma mic_words_app b a lr :
  mic_words lr (a ++ b) = let '(lr, rest) := mic_words lr a in mic_words lr (rest ++ b).
Proof.
  revert lr. induction a as [l Hl|x y z w l IH] using list4_ind; intros lr.
  - by rewrite (mic_words_short lr l).
  - cbn [mic_words app]. apply IH.
Qed.
Lemma mic_words_four lr p rest : length p = 4%nat -> mic_words lr (p ++ rest) = mic_words (mic_word lr p) rest.
Proof. destruct p as [|a [|b [|c [|d [|e p]]]]]; try discriminate. done. Qed.

(** A buffer after a spill is a buffer with the spill in front of it. *)
Lemma mic_seg_spec lr spill data : (length spill < 4)%nat -> mic_seg lr spill data = mic_words lr (spill ++ data).
Proof.
  intros Hs. unfold mic_seg. destruct (length spill =? 0)%nat eqn:E0.
  { apply Nat.eqb_eq, nil_length_inv in E0. by subst. }
  set (n := Nat.min (4 - length spill) (length data)).
  assert (Hl : length (spill ++ take n data) = (length spill + n)%nat) by (rewrite length_app, length_take; unfold n; lia).
  destruct (length (spill ++ take n data) =? 4)%nat eqn:E4; [apply Nat.eqb_eq in E4|apply Nat.eqb_neq in E4].
  - rewrite <- (mic_words_four lr (spill ++ take n data) _ E4), <- app_assoc. by rewrite take_drop.
  - rewrite (take_ge data) by (unfold n in *; lia).
    rewrite mic_words_short; [done|]. rewrite length_app. unfold n in *. lia.
Qed.

(** The walk over the chain is the one pass over its content. *)
Lemma mic_walk_ok c lr spill off len :
  cwf c -> (length spill < 4)%nat -> c <> [] -> match c with [] => True | x :: _ => (off <= m_len x)%nat end ->
  (off + len <= chain_len c)%nat -> Z.of_nat (chain_len c) < 2 ^ 32 ->
  mic_walk lr spill c off (Z.of_nat len) = Ok (mic_words lr (spill ++ sub_list off len (content c))).
Proof.
  intros Hc. revert lr spill off len. induction Hc as [|x c Hx Hc IH]; intros lr spill off len Hs Hne Ho Hle Hlt; [done|].
  cbn [chain_len] in Hle, Hlt. pose proof Hx as (Hcl & Hfit & _). pose proof (length_mdata x Hx) as Hlm.
  pose proof (length_content c Hc) as Hlc.
  cbn [mic_walk]. rewrite <- Nat2Z.inj_sub, size_t_nat by lia.
  set (n := Nat.min (m_len x - off) len).
  replace (Z.min (Z.of_nat (m_len x - off)) (Z.of_nat len)) with (Z.of_nat n) by (unfold n; lia).
  destruct (_ <=? Z.of_nat (length (m_cluster x))) eqn:E; [|apply Z.leb_gt in E; rewrite Hcl in E; unfold n in E; lia].
  rewrite Nat2Z.id, mic_seg_spec by done. clear E.
  assert (Ha : sub_list (m_data x + off) n (m_cluster x) = sub_list off n (mdata x)) by (unfold mdata, n; list_solve).
  rewrite Ha. rewrite content_cons.
  destruct (mic_words lr (spill ++ sub_list off n (mdata x))) as [lr1 sp1] eqn:E1.
  assert (Hs1 : (length sp1 < 4)%nat).
  { pose proof (mic_words_rest (spill ++ sub_list off n (mdata x)) lr) as H. rewrite E1 in H. cbn [snd] in H. rewrite H.
    by apply Nat.mod_upper_bound. }
  replace (Z.of_nat len - Z.of_nat n) with (Z.of_nat (len - n)) by (unfold n; lia).
  assert (Eseg : sub_list off len (mdata x ++ content c) = sub_list off n (mdata x) ++ sub_list 0 (len - n) (content c)).
  { unfold n. list_solve. }
  rewrite Eseg, app_assoc, mic_words_app, E1. destruct (Z.of_nat (len - n) =? 0) eqn:E0.
  - assert (Ez : (len - n)%nat = 0%nat) by (apply Z.eqb_eq in E0; lia). rewrite Ez. change (sub_list 0 0 (content c)) with (@nil Z).
    by rewrite app_nil_r, mic_words_short.
  - assert (Hc0 : c <> []) by (intros ->; cbn in Hle; apply Z.eqb_neq in E0; unfold n in E0; lia).
    apply (IH lr1 sp1 0%nat (len - n)%nat Hs1 Hc0); [destruct c; [done|lia]|unfold n; lia|lia].
Qed.

(** The pseudo header of a data frame depends on its 802.11 header only. *)
Definition is_data (wh : list Z) : Prop := Z.land (i_fc0 wh) IEEE80211_FC0_TYPE_MASK = IEEE80211_FC0_TYPE_DATA.

Lemma data_qos wh : is_data wh -> has_flag (i_fc0 wh) IEEE80211_FC0_SUBTYPE_QOS = ieee80211_has_qos wh.
Proof.
  unfold is_data, has_flag, ieee80211_has_qos. set (f := i_fc0 wh). intros Hd.
  change (Z.lor IEEE80211_FC0_TYPE_MASK IEEE80211_FC0_SUBTYPE_QOS) with 0x8c.
  change (Z.lor IEEE80211_FC0_TYPE_DATA IEEE80211_FC0_SUBTYPE_QOS) with 0x88.
  assert (E : Z.land f 0x8c = Z.lor (Z.land f 0x0c) (Z.land f 0x80)) by (change 0x8c with (Z.lor 0x0c 0x80); apply Z.land_lor_distr_r).
  rewrite E. change IEEE80211_FC0_TYPE_MASK with 0x0c in Hd. rewrite Hd. change IEEE80211_FC0_SUBTYPE_QOS with 0x80.
  assert (Hb : Z.land f 0x80 = if Z.testbit f 7 then 0x80 else 0).
  { change 0x80 with (2 ^ 7). apply Z.bits_inj'. intros i Hi. rewrite Z.land_spec, Z.pow2_bits_eqb by lia.
    destruct (Z.eqb_spec 7 i) as [<-|Hne]; [rewrite andb_true_r; destruct (Z.testbit f 7); [done|by rewrite Z.bits_0]|].
    rewrite andb_false_r. symmetry. destruct (Z.testbit f 7); [|apply Z.bits_0].
    rewrite Z.pow2_bits_eqb by lia. by apply Z.eqb_neq. }
  rewrite Hb. by destruct (Z.testbit f 7).
Qed.

Lemma dir_cases f :
  Z.land f IEEE80211_FC1_DIR_MASK = 0 \/ Z.land f IEEE80211_FC1_DIR_MASK = 1 \/
  Z.land f IEEE80211_FC1_DIR_MASK = 2 \/ Z.land f IEEE80211_FC1_DIR_MASK = 3.
Proof.
  assert (H : is_u 2 (Z.land f IEEE80211_FC1_DIR_MASK)) by (apply is_u_land_r; unfold is_u, IEEE80211_FC1_DIR_MASK; lia).
  unfold is_u in H. lia.
Qed.

Lemma michael_hdr_prefix n s wh wh' :
  take n wh = take n wh' -> ieee80211_hdrsize wh = Ok s -> (s <= n)%nat -> is_data wh ->
  michael_mic_hdr wh = michael_mic_hdr wh'.
Proof.
  intros E Hs Hle Hd. apply hdrsize_bounds in Hs as Hb.
  assert (B : forall i, (i < n)%nat -> byte_at wh i = byte_at wh' i) by (intros; by apply (byte_at_prefix n)).
  assert (S : forall o l, (o + l <= n)%nat -> sub_list o l wh = sub_list o l wh') by (intros; by apply (sub_list_prefix n)).
  assert (E0 : i_fc0 wh = i_fc0 wh') by (apply B; lia). assert (E1 : i_fc1 wh = i_fc1 wh') by (apply B; lia).
  revert Hs. unfold ieee80211_hdrsize, michael_mic_hdr. rewrite <- (data_qos wh Hd), <- E0, <- E1.
  unfold i_addr1, i_addr2, i_addr3, i_addr4, i_qos0, sizeof_frame, IEEE80211_ADDR_LEN.
  rewrite <- (S 4%nat), <- (S 10%nat), <- (S 16%nat) by lia.
  destruct (_ =? IEEE80211_FC0_TYPE_CTL); [done|].
  destruct (dir_cases (i_fc1 wh)) as [-> |[-> |[-> | ->]]]; cbn [Z.eqb Pos.eqb IEEE80211_FC1_DIR_NODS
    IEEE80211_FC1_DIR_TODS IEEE80211_FC1_DIR_FROMDS IEEE80211_FC1_DIR_DSTODS]; destruct (has_flag _ _); intros [= Hs];
    rewrite <- ?(S 24%nat) by lia; rewrite <- ?(B 24%nat) by lia; done.
Qed.
Lemma length_michael_hdr s wh :
  ieee80211_hdrsize wh = Ok s -> (s <= length wh)%nat -> length (michael_mic_hdr wh) = 16%nat.
Proof.
  intros Hs Hl. apply hdrsize_bounds in Hs as Hb. revert Hs.
  unfold ieee80211_hdrsize, michael_mic_hdr, i_addr1, i_addr2, i_addr3, i_addr4, sizeof_frame, IEEE80211_ADDR_LEN.
  destruct (_ =? IEEE80211_FC0_TYPE_CTL); [done|]. rewrite length_app.
  destruct (dir_cases (i_fc1 wh)) as [-> |[-> |[-> | ->]]]; cbn [Z.eqb Pos.eqb IEEE80211_FC1_DIR_NODS
    IEEE80211_FC1_DIR_TODS IEEE80211_FC1_DIR_FROMDS IEEE80211_FC1_DIR_DSTODS]; destruct (ieee80211_has_qos wh); intros [= Hs];
    rewrite length_app, !length_sub_list by lia; done.
Qed.

Lemma mic_word_take lr p : mic_word lr p = mic_word lr (take 4 p).
Proof. unfold mic_word, get_le32. destruct lr. by rewrite !byte_at_take by lia. Qed.

(** Four words of header. *)
Lemma mic_words_hdr lr hdr rest : length hdr = 16%nat ->
  mic_words lr (hdr ++ rest) =
  mic_words (mic_word (mic_word (mic_word (mic_word lr hdr) (drop 4 hdr)) (drop 8 hdr)) (drop 12 hdr)) rest.
Proof.
  intros H. do 17 (destruct hdr as [|? hdr]; [try discriminate H|]); [|discriminate H]. clear H.
  cbn [drop]. rewrite !(mic_word_take _ (_ :: _ :: _ :: _ :: _ :: _)). done.
Qed.

Lemma michael_mic_ok key x c off len :
  cwf (x :: c) -> length (michael_mic_hdr (mtod x)) = 16%nat -> (off <= m_len x)%nat ->
  (off + len <= length (content (x :: c)))%nat ->
  Z.of_nat (length (content (x :: c))) < 2 ^ 32 ->
  michael_mic key (x :: c) off (Z.of_nat len) =
  Ok (michael_ref key (michael_mic_hdr (mtod x) ++ sub_list off len (content (x :: c)))).
Proof.
  intros Hc Hh Ho Hle Hlt. rewrite length_content in Hle, Hlt by done.
  unfold michael_mic. rewrite mic_walk_ok; [|done|cbn; lia|done|done|done|done].
  set (data := sub_list off len (content (x :: c))). set (hdr := michael_mic_hdr (mtod x)).
  fold hdr in Hh.
  cbn [res_bind app]. unfold michael_ref, michael_words, michael_pad. rewrite <- !app_assoc, mic_words_hdr by done.
  set (lr := mic_word _ (drop 12 hdr)). rewrite mic_words_app.
  pose proof (mic_words_rest data lr) as Hr. destruct (mic_words lr data) as [lr1 sp]. cbn [snd] in Hr.
  assert (Hmod : (length (hdr ++ data) mod 4 = length sp)%nat).
  { rewrite length_app, Hh, Hr. replace (16 + length data)%nat with (length data + 4 * 4)%nat by lia. by rewrite Nat.Div0.mod_add. }
  rewrite Hmod. assert (Hsp : (length sp < 4)%nat) by (rewrite Hr; by apply Nat.mod_upper_bound).
  replace (sp ++ [0x5a] ++ replicate (3 - length sp) 0 ++ [0; 0; 0; 0])
    with ((sp ++ [0x5a] ++ replicate (3 - length sp) 0) ++ [0; 0; 0; 0]) by (by rewrite <- !app_assoc).
  rewrite mic_words_four by (rewrite !length_app, length_replicate; cbn; lia).
  set (lr2 := mic_word lr1 _). cbn [mic_words fst]. destruct lr2 as [l r]. cbn [fst snd mic_word].
  replace (Z.lxor l (get_le32 [0; 0; 0; 0])) with l by (cbn; by rewrite Z.lxor_0_r).
  destruct (michael_block l r). done.
Qed.

(** ** The S-box of key mixing *)

(** The table of the sources is the one derived from the AES S-box: byte [i]
    becomes the pair of twice and three times [S(i)] in the AES field. *)
Definition sbox16 (i : Z) : Z :=
  Z.lor (Z.shiftl (gmul 2 (sbox i)) 8) (gmul 3 (sbox i)).

Lemma Sbox_aes : Forall (fun i => word_at Sbox i = sbox16 (Z.of_nat i)) (seq 0 256).
Proof. apply (bool_decide_unpack _). vm_compute. exact I. Qed.

(** ** Keys and key streams *)

#[local] Opaque tkip_mixing_phase1 tkip_mixing_phase2 rc4_setup.

(** The RC4 key and key stream of sequence counter [tsc], without any cache. *)
Definition tkip_ttak (key TA : list Z) (tsc : Z) : list Z :=
  tkip_mixing_phase1 key TA (u32 (Z.shiftr tsc 16)).
Definition tkip_seed (key TA : list Z) (tsc : Z) : list Z :=
  tkip_mixing_phase2 key (tkip_ttak key TA tsc) (u16 tsc).
Definition tkip_stream (key TA : list Z) (tsc : Z) : rc4 := tkip_rc4 (tkip_seed key TA tsc).

Definition tkip_ready (k : ieee80211_key) (t : tkip_ctx) : Prop :=
  wk_private k = priv_tkip t /\ has_flag (wk_flags k) IEEE80211_KEY_SWCRYPT = true.

(** A cached phase-1 result is the one its counter asks for. *)
Definition tx_cache_ok (k : ieee80211_key) (TA : list Z) (t : tkip_ctx) : Prop :=
  tx_phase1_done t = true -> tx_ttak t = tkip_ttak (wk_key k) TA (wk_keytsc k).
Definition rx_cache_ok (k : ieee80211_key) (TA : list Z) (t : tkip_ctx) : Prop :=
  rx_phase1_done t = true -> rx_ttak t = tkip_ttak (wk_key k) TA (wk_keyrsc k).

Lemma tkip_rc4_ok key : rc4_ok (tkip_rc4 key).
Proof. apply rc4_setup_bytes. Qed.
Lemma tkip_iv_bytes tsc keyid : bytes (tkip_iv tsc keyid).
Proof. unfold tkip_iv. split_Forall; auto with urange. Qed.

(** Phase 1 changes only when the low 16 bits of the counter wrap. *)
Lemma phase1_counter t : is_u64 t -> u16 (u64 (t + 1)) <> 0 ->
  u32 (Z.shiftr (u64 (t + 1)) 16) = u32 (Z.shiftr t 16).
Proof.
  intros [Hl Hh]. rewrite u16_mod, u64_mod, !u32_mod, !Z.shiftr_div_pow2 by lia. intros Hne.
  assert (Hw : t + 1 <> 2 ^ 64) by (intros E; rewrite E in Hne; by vm_compute in Hne).
  rewrite (Z.mod_small (t + 1)) in * by lia. f_equal.
  pose proof (Z.div_mod t (2 ^ 16) ltac:(lia)) as E. pose proof (Z.mod_pos_bound t (2 ^ 16) ltac:(lia)) as Hb.
  assert (Hr : t mod 2 ^ 16 + 1 <> 2 ^ 16).
  { intros Hr. apply Hne. replace (t + 1) with (0 + (t / 2 ^ 16 + 1) * 2 ^ 16) by lia. rewrite Z.mod_add by lia. done. }
  symmetry. apply (Z.div_unique _ _ _ (t mod 2 ^ 16 + 1)); lia.
Qed.

(** ** Encapsulation *)

Lemma i_addr2_mtod x rest : mwf x -> (16 <= m_len x)%nat -> i_addr2 (mtod x) = i_addr2 (content (x :: rest)).
Proof.
  intros Hx Hl. unfold i_addr2. apply (sub_list_prefix (m_len x)); [|lia]. rewrite (take_mtod x rest) by (done || lia). done.
Qed.

Lemma tkip_encrypt_ok ic h k t x rest hdrlen TA :
  pkt_ok (x :: rest) -> has_pkthdr x = true -> tkip_ready k t -> tx_cache_ok k TA t ->
  TA = i_addr2 (content (x :: rest)) -> is_u64 (wk_keytsc k) -> (24 <= hdrlen)%nat -> (hdrlen + 8 <= m_len x)%nat ->
  Z.of_nat (length (content (x :: rest))) < 2 ^ 32 ->
  let c := content (x :: rest) in
  let sealed := wep_seal (tkip_stream (wk_key k) TA (wk_keytsc k)) (drop (hdrlen + 8) c) in
  exists (ok : bool) t' c' h' d rem,
    tkip_encrypt ic h t k (x :: rest) hdrlen =
      Ok (ok, set_keytsc (put_ctx k t') (if ok then u64 (wk_keytsc k + 1) else wk_keytsc k), c', stat_inc ic is_crypto_tkip, h') /\
    tx_cache_ok (set_keytsc k (if ok then u64 (wk_keytsc k + 1) else wk_keytsc k)) TA t' /\
    rx_ttak t' = rx_ttak t /\ rx_phase1_done t' = rx_phase1_done t /\
    pkt_ok c' /\ balanced h h' (x :: rest) c' /\ sealed = d ++ rem /\
    content c' = take (hdrlen + 8) c ++ d /\ (ok = true <-> rem = []) /\
    (Forall is_Some (h_supply h) -> (4 <= length (h_supply h))%nat -> ok = true).
Proof.
  intros Hok Hp Hr Htx HTA Htsc Hh Hm Hlt c sealed. pose proof Hok as [Hc _]. pose proof Hc as Hc0.
  apply List.Forall_cons_iff in Hc0 as [Hx _]. unfold tkip_encrypt.
  rewrite (i_addr2_mtod x rest Hx) by lia. rewrite <- HTA.
  set (ttak := if tx_phase1_done t then tx_ttak t else tkip_mixing_phase1 _ _ _).
  assert (Et : ttak = tkip_ttak (wk_key k) TA (wk_keytsc k)).
  { unfold ttak. destruct (tx_phase1_done t) eqn:Ed; [by apply Htx|done]. }
  clearbody ttak. set (seed := tkip_mixing_phase2 (wk_key k) ttak (u16 (wk_keytsc k))).
  assert (Es : tkip_stream (wk_key k) TA (wk_keytsc k) = tkip_rc4 seed) by (unfold tkip_stream, tkip_seed, seed; by rewrite Et).
  clearbody seed. unfold tkip_wep_encrypt. change tkip_ic_header with 8%nat. rewrite (pkt_ok_ph x rest Hok Hp).
  unfold sealed. rewrite Es. clear sealed Es. set (s := tkip_rc4 seed).
  destruct (wep_enc_walk x rest s (hdrlen + 8) Hc (tkip_rc4_ok _) Hm Hlt) as (c1 & pos & Ew & W1 & S1 & E1).
  fold c in Ew, E1 |- *. rewrite Ew. cbn [res_bind negb Z.eqb].
  set (data := drop (hdrlen + 8) c) in *. set (icv := rc4_xor (rc4_skip (length data) s) (wep_icv data)).
  change (rc4_xor (rc4_skip (length data) s) (icv_plain (fold_left crc_step data crc_init))) with icv.
  assert (Hicv : bytes icv) by (apply rc4_xor_bytes; [apply rc4_skip_ok, tkip_rc4_ok|apply wep_icv_bytes]).
  assert (Hne1 : c1 <> []) by (intros ->; discriminate S1).
  destruct (m_append_spec h c1 icv Hne1 (shape_pkt_ok c1 (x :: rest) S1 Hok W1) Hicv)
    as (ok & c' & h' & d & rem & Ea & Hok' & Hbal & Ed & Ec & Hiff & Hsup).
  rewrite Ea. cbn [res_bind].
  set (tsc := u64 (wk_keytsc k + 1)).
  set (t' := set_tx t ttak (if ok then negb (u16 tsc =? 0) else true) seed).
  exists ok, t', c', h', (rc4_xor s data ++ d), rem.
  assert (Esl : wep_seal s data = rc4_xor s data ++ icv) by (unfold wep_seal; by rewrite rc4_xor_app).
  split; [unfold t'; destruct ok; cbn [negb]; destruct k; done|]. split.
  { unfold tx_cache_ok, t'. cbn [tx_ttak tx_phase1_done set_tx wk_keytsc wk_key set_keytsc]. destruct ok; [|done].
    intros Hd. apply negb_true_iff, Z.eqb_neq in Hd. rewrite Et. unfold tkip_ttak, tsc in *. by rewrite phase1_counter. }
  split; [done|]. split; [done|]. split; [done|]. split.
  { unfold balanced in *. apply (f_equal length) in S1. unfold shape in S1. rewrite !length_map in S1. lia. }
  split; [by rewrite Esl, Ed, app_assoc|]. split; [by rewrite Ec, E1, app_assoc|]. split; [done|].
  intros HS H4. apply Hsup; [done|]. unfold icv. rewrite length_rc4_xor. done.
Qed.

Lemma tkip_encap_ok ic h k t x rest hdrlen keyid TA :
  pkt_ok (x :: rest) -> has_pkthdr x = true -> tkip_ready k t -> tx_cache_ok k TA t ->
  TA = i_addr2 (content (x :: rest)) -> is_u64 (wk_keytsc k) ->
  has_flag (ic_flags ic) IEEE80211_F_COUNTERM = false ->
  ieee80211_hdrspace ic (mtod x) = Ok hdrlen -> (hdrlen + 8 <= m_len x)%nat ->
  Z.of_nat (length (content (x :: rest))) < 2 ^ 32 ->
  let c := content (x :: rest) in
  let tsc := wk_keytsc k in
  exists (ok : bool) t' c' h' d rem,
    tkip_encap ic h k (x :: rest) keyid =
      Ok (ok, set_keytsc (put_ctx k t') (if ok then u64 (tsc + 1) else tsc), c', stat_inc ic is_crypto_tkip, h') /\
    tx_cache_ok (set_keytsc k (if ok then u64 (tsc + 1) else tsc)) TA t' /\
    rx_ttak t' = rx_ttak t /\ rx_phase1_done t' = rx_phase1_done t /\
    pkt_ok c' /\ balanced h h' (x :: rest) c' /\
    wep_seal (tkip_stream (wk_key k) TA tsc) (drop (hdrlen + 8) c) = d ++ rem /\
    content c' = take hdrlen c ++ tkip_iv tsc keyid ++ d /\ (ok = true <-> rem = []) /\
    (Forall is_Some (h_supply h) -> (4 <= length (h_supply h))%nat -> ok = true).
Proof.
  intros Hok Hp Hr Htx HTA Htsc Hcm Hhs Hm Hlt c tsc. pose proof Hr as [Hpriv Hsw].
  destruct (hdrspace_bounds ic (mtod x) hdrlen Hhs) as [Hhb _].
  set (ivp := tkip_iv tsc keyid). assert (Hlv : length ivp = 8%nat) by done.
  destruct (mstore_ok x rest hdrlen ivp Hok) as [Hok1 Ec1]; [rewrite Hlv; lia|apply tkip_iv_bytes|].
  set (y := mstore x hdrlen ivp) in *. fold c in Ec1.
  assert (Hl : (hdrlen + 8 <= length c)%nat) by (unfold c; rewrite length_content by apply Hok; cbn; lia).
  assert (Hlc : length (content (y :: rest)) = length c) by (rewrite Ec1; apply length_splice; rewrite Hlv; lia).
  assert (HTA' : TA = i_addr2 (content (y :: rest))).
  { rewrite HTA, Ec1. fold c. unfold i_addr2. list_solve. }
  destruct (tkip_encrypt_ok ic h k t y rest hdrlen TA Hok1 Hp Hr Htx HTA' Htsc)
    as (ok & t' & c' & h' & d & rem & Ee & H1 & H2 & H3 & H4 & H5 & H6 & H7 & H8 & H9);
    [lia|cbn; lia|rewrite Hlc; done|].
  exists ok, t', c', h', d, rem. unfold tkip_encap, tkip_get. rewrite Hpriv. cbn [res_bind].
  rewrite Hcm, Hhs. cbn [res_bind]. fold tsc ivp y. rewrite Hsw, Ee. fold tsc in H1, H6 |- *.
  rewrite Ec1 in H6, H7.
  assert (Ed : drop (hdrlen + 8) (splice hdrlen ivp c) = drop (hdrlen + 8) c) by list_solve.
  assert (Et : take (hdrlen + 8) (splice hdrlen ivp c) = take hdrlen c ++ ivp) by list_solve.
  rewrite Ed in H6. rewrite Et, <- app_assoc in H7. by split_and!.
Qed.

(** ** Decapsulation *)

(** The sequence counter in the IV of a frame. *)
Definition tkip_rsc (c : list Z) (hdrlen : nat) : Z :=
  let ivp := drop hdrlen c in
  READ_6 (byte_at ivp 2) (byte_at ivp 0) (byte_at ivp 4) (byte_at ivp 5) (byte_at ivp 6) (byte_at ivp 7).
Definition tkip_extiv (c : list Z) (hdrlen : nat) : bool :=
  negb (Z.land (byte_at (drop hdrlen c) 3) IEEE80211_WEP_EXTIV =? 0).

Definition tkip_opened (key c : list Z) (hdrlen : nat) : list Z :=
  rc4_xor (tkip_stream key (i_addr2 c) (tkip_rsc c hdrlen)) (sub_list (hdrlen + 8) (length c - (hdrlen + 12)) c).
Definition tkip_genuine (key c : list Z) (hdrlen : nat) : bool :=
  bool_decide (drop (hdrlen + 8) c =
    wep_seal (tkip_stream key (i_addr2 c) (tkip_rsc c hdrlen)) (tkip_opened key c hdrlen)).

(** The decision on a frame. *)
Inductive tkip_verdict := tv_noext | tv_counterm | tv_replay | tv_badicv | tv_open.
Definition tkip_judge (ic : ieee80211com) (k : ieee80211_key) (c : list Z) (hdrlen : nat) : tkip_verdict :=
  if negb (tkip_extiv c hdrlen) then tv_noext
  else if has_flag (ic_flags ic) IEEE80211_F_COUNTERM then tv_counterm
  else if tkip_rsc c hdrlen <=? wk_keyrsc k then tv_replay
  else if tkip_genuine (wk_key k) c hdrlen then tv_open else tv_badicv.

Lemma tkip_decrypt_ok ic k t x rest hdrlen :
  pkt_ok (x :: rest) -> has_pkthdr x = true -> rx_cache_ok k (i_addr2 (content (x :: rest))) t ->
  rx_rsc t = tkip_rsc (content (x :: rest)) hdrlen -> (24 <= hdrlen)%nat -> (hdrlen + 8 <= m_len x)%nat ->
  Z.of_nat (length (content (x :: rest))) < 2 ^ 32 ->
  (hdrlen + 12 <= length (content (x :: rest)))%nat -> (4 <= m_len (List.last rest x))%nat ->
  let c := content (x :: rest) in
  let ok := tkip_genuine (wk_key k) c hdrlen in
  exists t' c', tkip_decrypt ic t k (x :: rest) hdrlen =
      Ok (ok, t', c', if ok then stat_inc ic is_crypto_tkip else stat_inc (stat_inc ic is_crypto_tkip) is_rx_tkipicv) /\
    rx_rsc t' = rx_rsc t /\
    (if ok then rx_phase1_done t' = true /\ rx_ttak t' = tkip_ttak (wk_key k) (i_addr2 c) (rx_rsc t)
     else rx_cache_ok k (i_addr2 c) t') /\
    pkt_ok c' /\ shape c' = shape (x :: rest) /\ content c' = splice (hdrlen + 8) (tkip_opened (wk_key k) c hdrlen) c.
Proof.
  intros Hok Hp Hrx Hrsc Hh Hm Hlt Hge Hlast c ok. pose proof Hok as [Hc _]. pose proof Hc as Hc0.
  apply List.Forall_cons_iff in Hc0 as [Hx _]. unfold tkip_decrypt.
  rewrite (i_addr2_mtod x rest Hx) by lia. fold c in Hrx, Hge |- *. set (TA := i_addr2 c) in *.
  set (iv32 := u32 (Z.shiftr (rx_rsc t) 16)). set (miss := negb (iv32 =? u32 (Z.shiftr (wk_keyrsc k) 16))).
  set (ttak := if miss || negb (rx_phase1_done t) then tkip_mixing_phase1 _ _ _ else rx_ttak t).
  assert (Emiss : miss = false -> tkip_ttak (wk_key k) TA (wk_keyrsc k) = tkip_ttak (wk_key k) TA (rx_rsc t)).
  { intros E. apply negb_false_iff, Z.eqb_eq in E. unfold tkip_ttak. fold iv32. by rewrite E. }
  assert (Et : ttak = tkip_ttak (wk_key k) TA (rx_rsc t)).
  { unfold ttak. destruct miss eqn:Em; [done|]. destruct (rx_phase1_done t) eqn:Ed; cbn [negb orb]; [|done].
    rewrite (Hrx Ed). by apply Emiss. }
  clearbody ttak. set (seed := tkip_mixing_phase2 (wk_key k) ttak (u16 (rx_rsc t))).
  assert (Es : tkip_stream (wk_key k) TA (rx_rsc t) = tkip_rc4 seed) by (unfold tkip_stream, tkip_seed, seed; by rewrite Et).
  clearbody seed. unfold tkip_wep_decrypt. change tkip_ic_header with 8%nat. change tkip_ic_trailer with 4%nat.
  rewrite (pkt_ok_ph x rest Hok Hp).
  unfold ok, tkip_genuine, tkip_opened. fold c TA in Hrsc |- *. rewrite <- Hrsc, Es. clear ok Es. set (s := tkip_rc4 seed).
  destruct (wep_dec_walk x rest s (hdrlen + 8) Hc (tkip_rc4_ok _) Hm Hlt) as (c1 & pos & Ew & W1 & S1 & E1 & Hpos);
    [fold c; lia|done|]. fold c in Ew, E1, Hpos |- *.
  replace (hdrlen + 8 + 4)%nat with (hdrlen + 12)%nat in * by lia. rewrite Ew. cbn [res_bind negb Z.eqb].
  set (n := (length c - (hdrlen + 12))%nat) in *. set (ct := sub_list (hdrlen + 8) n c) in *.
  assert (Hct : length ct = n) by (unfold ct; rewrite length_sub_list; unfold n; lia).
  change (icv_plain (fold_left crc_step (rc4_xor s ct) crc_init)) with (wep_icv (rc4_xor s ct)).
  assert (Hlp : (4 <= length pos)%nat).
  { apply (f_equal length) in Hpos. rewrite length_take, length_drop in Hpos. unfold n in Hpos. lia. }
  rewrite icv_check_spec by (rewrite length_wep_icv; lia). rewrite length_wep_icv, Hpos. cbn [res_bind].
  assert (Eb : bool_decide (rc4_xor (rc4_skip n s) (wep_icv (rc4_xor s ct)) = drop (hdrlen + 8 + n) c) =
               bool_decide (drop (hdrlen + 8) c = wep_seal s (rc4_xor s ct))).
  { apply bool_decide_ext. rewrite <- Hct, wep_icv_match, Hct.
    assert (E : drop (hdrlen + 8) c = ct ++ drop (hdrlen + 8 + n) c) by (unfold ct; list_solve). by rewrite <- E. }
  rewrite Eb. clear Eb. destruct (bool_decide (drop (hdrlen + 8) c = wep_seal s (rc4_xor s ct))); cbn [res_bind];
    eexists _, c1; (split; [reflexivity|]); (split; [reflexivity|]);
    (split; [|split; [by apply (shape_pkt_ok c1 (x :: rest))|by split]]).
  - by split.
  - unfold rx_cache_ok. cbn [rx_phase1_done rx_ttak set_rx]. intros Hd. apply negb_true_iff in Hd. by rewrite Et, Emiss.
Qed.

Lemma tkip_decap_ok ic k t x rest hdrlen :
  pkt_ok (x :: rest) -> has_pkthdr x = true -> tkip_ready k t -> rx_cache_ok k (i_addr2 (content (x :: rest))) t ->
  (24 <= hdrlen)%nat -> (hdrlen + 8 <= m_len x)%nat -> Z.of_nat (length (content (x :: rest))) < 2 ^ 32 ->
  (hdrlen + 12 <= length (content (x :: rest)))%nat -> (4 <= m_len (List.last rest x))%nat ->
  let c := content (x :: rest) in
  let rsc := tkip_rsc c hdrlen in
  match tkip_judge ic k c hdrlen with
  | tv_noext => tkip_decap ic k (x :: rest) hdrlen = Ok (false, k, x :: rest, stat_inc ic is_rx_tkipformat)
  | tv_counterm => tkip_decap ic k (x :: rest) hdrlen = Ok (false, k, x :: rest, stat_inc ic is_crypto_tkipcm)
  | tv_replay => tkip_decap ic k (x :: rest) hdrlen =
      Ok (false, put_ctx k (set_rx_rsc t rsc), x :: rest,
          stat_inc (ieee80211_notify_replay_failure ic (mtod x) k rsc) is_rx_tkipreplay)
  | tv_badicv => exists t' c', tkip_decap ic k (x :: rest) hdrlen =
      Ok (false, put_ctx k t', c', stat_inc (stat_inc ic is_crypto_tkip) is_rx_tkipicv) /\ pkt_ok c' /\
      rx_cache_ok k (i_addr2 c) t'
  | tv_open => exists t' c', tkip_decap ic k (x :: rest) hdrlen = Ok (true, put_ctx k t', c', stat_inc ic is_crypto_tkip) /\
      pkt_ok c' /\ content c' = take hdrlen c ++ tkip_opened (wk_key k) c hdrlen /\
      rx_rsc t' = rsc /\ rx_phase1_done t' = true /\ rx_ttak t' = tkip_ttak (wk_key k) (i_addr2 c) rsc
  end.
Proof.
  intros Hok Hp [Hpriv Hsw] Hrx Hh Hm Hlt Hge Hlast c rsc. pose proof Hok as [Hc _]. pose proof Hc as Hc0.
  apply List.Forall_cons_iff in Hc0 as [Hx _].
  assert (Hby : forall i, (i < 8)%nat -> byte_at (drop hdrlen (mtod x)) i = byte_at (drop hdrlen c) i).
  { intros i Hi. rewrite !byte_at_drop. apply byte_at_mtod; [done|lia]. }
  unfold tkip_judge, tkip_extiv, tkip_decap, tkip_get. rewrite Hpriv. cbn [res_bind].
  change IEEE80211_WEP_IVLEN with 3%nat. rewrite !Hby by lia. rewrite negb_involutive.
  destruct (Z.land _ IEEE80211_WEP_EXTIV =? 0) eqn:Eext; [done|].
  destruct (has_flag (ic_flags ic) _) eqn:Ecm; [done|].
  assert (Ersc : READ_6 (byte_at (drop hdrlen c) 2) (byte_at (drop hdrlen c) 0) (byte_at (drop hdrlen c) 4)
    (byte_at (drop hdrlen c) 5) (byte_at (drop hdrlen c) 6) (byte_at (drop hdrlen c) 7) = rsc) by done.
  rewrite Ersc. fold rsc. destruct (rsc <=? wk_keyrsc k) eqn:Er; [done|]. rewrite Hsw.
  destruct (tkip_decrypt_ok ic k (set_rx_rsc t rsc) x rest hdrlen Hok Hp Hrx eq_refl Hh Hm Hlt Hge Hlast)
    as (t' & c1 & -> & Hrs & Hca & Hok1 & S1 & E1). fold c in Hca, E1 |- *. cbn [res_bind].
  destruct (tkip_genuine (wk_key k) c hdrlen); cbn [negb].
  2:{ exists t', c1. by split_and!. }
  destruct c1 as [|y c1]; [discriminate S1|]. cbn [shape map] in S1. injection S1 as _ _ Hly _ _ _.
  fold c in Hge. set (pt := tkip_opened (wk_key k) c hdrlen) in *.
  assert (Hlp : length pt = (length c - (hdrlen + 12))%nat).
  { unfold pt, tkip_opened. rewrite length_rc4_xor, length_sub_list; [done|lia]. }
  assert (Hlc : length (content (y :: c1)) = length c) by (rewrite E1, length_splice; [done|lia]).
  change tkip_ic_header with 8%nat. change tkip_ic_trailer with 4%nat.
  destruct (strip_crypto_ok y c1 hdrlen 8 4 Hok1) as [Hok2 E2]; [lia|lia|].
  destruct Hca as [Hd Ht]. exists t'. eexists. split; [done|]. split; [exact Hok2|].
  split; [rewrite E2, Hlc, E1; list_solve|]. by split.
Qed.

(** ** MICs *)

(** The MIC of the first [n] payload bytes of a frame. *)
Definition tkip_mic (key c : list Z) (hdrlen n : nat) : list Z :=
  michael_ref key (michael_mic_hdr c ++ sub_list hdrlen n c).

Lemma michael_ref_mic key msg : length (michael_ref key msg) = 8%nat /\ bytes (michael_ref key msg).
Proof.
  unfold michael_ref. destruct (michael_words _ _) as [l r]. split; [done|].
  unfold put_le32. cbn [app]. split_Forall; auto with urange.
Qed.

(** Only the first eight bytes of the MIC key are used. *)
Lemma tkip_mic_key key key' c hdrlen n : take 8 key = take 8 key' -> tkip_mic key c hdrlen n = tkip_mic key' c hdrlen n.
Proof.
  intros E. unfold tkip_mic, michael_ref, get_le32. rewrite !byte_at_drop.
  by rewrite !(byte_at_prefix 8 key key') by (done || (cbn; lia)).
Qed.

Lemma michael_mic_frame ic key x rest hdrlen n :
  cwf (x :: rest) -> ieee80211_hdrspace ic (mtod x) = Ok hdrlen -> (hdrlen <= m_len x)%nat -> is_data (mtod x) ->
  (hdrlen + n <= length (content (x :: rest)))%nat -> Z.of_nat (length (content (x :: rest))) < 2 ^ 32 ->
  michael_mic key (x :: rest) hdrlen (Z.of_nat n) = Ok (tkip_mic key (content (x :: rest)) hdrlen n).
Proof.
  intros Hc Hhs Hm Hd Hn Hlt. pose proof Hc as Hc0. apply List.Forall_cons_iff in Hc0 as [Hx _].
  destruct (hdrspace_bounds ic (mtod x) hdrlen Hhs) as [Hhb (s & Hsz & Hsle)].
  rewrite michael_mic_ok; [|done| |done|done|done].
  - unfold tkip_mic. do 3 f_equal. apply (michael_hdr_prefix hdrlen s); [|done|done|done]. apply take_mtod; [done|lia].
  - apply (length_michael_hdr s); [done|]. pose proof (length_mtod x Hx). lia.
Qed.

Lemma tkip_enmic_ok ic h k t x rest hdrlen force :
  pkt_ok (x :: rest) -> has_pkthdr x = true -> wk_private k = priv_tkip t ->
  force || has_flag (wk_flags k) IEEE80211_KEY_SWMIC = true ->
  ieee80211_hdrspace ic (mtod x) = Ok hdrlen -> (hdrlen <= m_len x)%nat -> is_data (mtod x) ->
  Z.of_nat (length (content (x :: rest))) < 2 ^ 32 ->
  let c := content (x :: rest) in
  exists ok c' h' d rem,
    tkip_enmic ic h k (x :: rest) force = Ok (ok, c', stat_inc ic is_crypto_tkipenmic, h') /\
    pkt_ok c' /\ balanced h h' (x :: rest) c' /\
    tkip_mic (wk_txmic k) c hdrlen (length c - hdrlen) = d ++ rem /\
    content c' = c ++ d /\ (ok = true <-> rem = []) /\
    (Forall is_Some (h_supply h) -> (8 <= length (h_supply h))%nat -> ok = true).
Proof.
  intros Hok Hp Hpriv Hf Hhs Hm Hd Hlt c. pose proof Hok as [Hc _].
  assert (Hl : (hdrlen <= length c)%nat) by (unfold c; rewrite length_content by done; cbn; lia).
  unfold tkip_enmic, tkip_get. rewrite Hf, Hpriv. cbn [res_bind].
  assert (Hhs' : ieee80211_hdrspace (stat_inc ic is_crypto_tkipenmic) (mtod x) = Ok hdrlen) by exact Hhs.
  rewrite Hhs'. cbn [res_bind]. rewrite (pkt_ok_ph x rest Hok Hp). fold c.
  rewrite <- Nat2Z.inj_sub, size_t_nat by (unfold c in *; lia).
  rewrite (michael_mic_frame ic) by (done || (fold c; lia)). fold c. cbn [res_bind].
  set (mic := tkip_mic _ _ _ _). destruct (michael_ref_mic (wk_txmic k) (michael_mic_hdr c ++ sub_list hdrlen (length c - hdrlen) c)) as [Hml Hmb].
  fold (tkip_mic (wk_txmic k) c hdrlen (length c - hdrlen)) in Hml, Hmb. fold mic in Hml, Hmb.
  destruct (m_append_spec h (x :: rest) mic ltac:(done) Hok Hmb) as (ok & c' & h' & d & rem & Ea & Hok' & Hbal & Ed & Ec & Hiff & Hsup).
  rewrite Ea. cbn [res_bind]. exists ok, c', h', d, rem. split_and!; try done.
  intros HS H8. apply Hsup; [done|]. rewrite Hml. done.
Qed.

Lemma tkip_demic_ok ic k t x rest hdrlen force :
  pkt_ok (x :: rest) -> has_pkthdr x = true -> wk_private k = priv_tkip t ->
  force || has_flag (wk_flags k) IEEE80211_KEY_SWMIC = true ->
  ieee80211_hdrspace ic (mtod x) = Ok hdrlen -> (hdrlen <= m_len x)%nat -> is_data (mtod x) ->
  Z.of_nat (length (content (x :: rest))) < 2 ^ 32 -> (hdrlen + 8 <= length (content (x :: rest)))%nat ->
  let c := content (x :: rest) in
  let n := (length c - (hdrlen + 8))%nat in
  if bool_decide (drop (hdrlen + n) c = tkip_mic (wk_rxmic k) c hdrlen n)
  then exists c', tkip_demic ic k (x :: rest) force =
         Ok (true, set_keyrsc k (rx_rsc t), c', stat_inc ic is_crypto_tkipdemic) /\ pkt_ok c' /\
         content c' = take (hdrlen + n) c
  else tkip_demic ic k (x :: rest) force =
         Ok (false, k, x :: rest,
             ieee80211_notify_michael_failure (stat_inc ic is_crypto_tkipdemic) (mtod x)
               (if wk_rxkeyix k =? IEEE80211_KEYIX_NONE then wk_keyix k else wk_rxkeyix k)).
Proof.
  intros Hok Hp Hpriv Hf Hhs Hm Hd Hlt Hge c n. pose proof Hok as [Hc _].
  unfold tkip_demic, tkip_get. rewrite Hpriv. cbn [res_bind]. rewrite Hf, Hhs. cbn [res_bind].
  change tkip_ic_miclen with 8%nat. rewrite (pkt_ok_ph x rest Hok Hp). fold c in Hge |- *.
  rewrite <- Nat2Z.inj_sub, size_t_nat by (unfold c in *; lia). fold n.
  rewrite (michael_mic_frame ic) by (done || (fold c; unfold n; lia)). fold c. cbn [res_bind].
  rewrite Nat2Z.id, m_copydata_spec by done. fold c.
  assert (Emic : sub_list (length c - 8) 8 c = drop (hdrlen + n) c).
  { unfold sub_list. replace (hdrlen + n)%nat with (length c - 8)%nat by (unfold n; lia).
    apply take_ge. rewrite length_drop. lia. }
  rewrite Emic. set (mic := tkip_mic _ _ _ _).
  destruct (bool_decide_reflect (drop (hdrlen + n) c = mic)) as [E|E].
  - rewrite bool_decide_eq_true_2 by done. cbn [res_bind negb].
    destruct (m_adj_spec (x :: rest) (- Z.of_nat 8) Hc) as (E3 & W3 & S3).
    eexists. split; [done|]. split; [by split|]. rewrite E3. fold c. unfold adj_spec.
    change (0 <=? - Z.of_nat 8) with false. cbn [Z.opp Z.of_nat]. f_equal. unfold n. lia.
  - rewrite bool_decide_eq_false_2; [done|]. intros E'. by symmetry in E'.
Qed.

(** The sequence counter travels in the IV. *)
Lemma tkip_rsc_iv hdr tsc keyid tail :
  0 <= tsc < 2 ^ 48 -> tkip_rsc (hdr ++ tkip_iv tsc keyid ++ tail) (length hdr) = tsc.
Proof.
  intros Ht. unfold tkip_rsc. rewrite drop_app_length. unfold byte_at, tkip_iv. cbn [app nth].
  rewrite READ_6_tsc. by apply Z.mod_small.
Qed.
Lemma tkip_extiv_iv hdr tsc keyid tail :
  is_u8 keyid -> tkip_extiv (hdr ++ tkip_iv tsc keyid ++ tail) (length hdr) = true.
Proof.
  intros Hk. unfold tkip_extiv. rewrite drop_app_length. unfold byte_at, tkip_iv. cbn [app nth].
  destruct (Z.eqb_spec (Z.land (u8 (Z.lor keyid IEEE80211_WEP_EXTIV)) IEEE80211_WEP_EXTIV) 0) as [H|]; [|done].
  exfalso. apply (f_equal (fun z => Z.testbit z 5)) in H. revert H. unfold IEEE80211_WEP_EXTIV. solve_bits. by rewrite orb_true_r.
Qed.

Lemma tkip_opened_sealed key hdr tsc keyid data :
  0 <= tsc < 2 ^ 48 -> (16 <= length hdr)%nat ->
  let c := hdr ++ tkip_iv tsc keyid ++ wep_seal (tkip_stream key (i_addr2 hdr) tsc) data in
  tkip_opened key c (length hdr) = data /\ tkip_genuine key c (length hdr) = true.
Proof.
  intros Ht Hh c. set (s := tkip_stream key (i_addr2 hdr) tsc) in *. set (iv := tkip_iv tsc keyid) in *.
  assert (Hiv : length iv = 8%nat) by done.
  assert (Er : tkip_rsc c (length hdr) = tsc) by (by apply tkip_rsc_iv).
  assert (EA : i_addr2 c = i_addr2 hdr).
  { unfold i_addr2, c. generalize (iv ++ wep_seal s data). intros w. list_solve. }
  assert (Ed : drop (length hdr + 8) c = wep_seal s data).
  { unfold c. rewrite app_assoc. apply drop_app_length'. rewrite length_app, Hiv. done. }
  assert (Eo : tkip_opened key c (length hdr) = data).
  { unfold tkip_opened. rewrite Er, EA. fold s.
    assert (Hn : (length c - (length hdr + 12))%nat = length data).
    { unfold c. rewrite !length_app, Hiv, length_wep_seal. lia. }
    unfold sub_list. rewrite Hn, Ed. unfold wep_seal. rewrite rc4_xor_app.
    rewrite take_app_length' by (by rewrite length_rc4_xor). apply rc4_xor_twice. }
  split; [exact Eo|]. unfold tkip_genuine. rewrite Er, EA, Eo. fold s. by apply bool_decide_eq_true_2.
Qed.

(** ** Properties *)


(** Sample keys and frames: a payload split over mbufs of awkward sizes. *)
Definition tkip_com : ieee80211com := mkCom true 0 0 (fun _ => 0) [] 0xffff 4 [].
Definition tkip_fresh : tkip_ctx := mkTkip (replicate 5 0) false (replicate 16 0) (replicate 5 0) false (replicate 16 0) 0.
Definition tkip_key (base : nat) (rsc tsc : Z) : ieee80211_key :=
  let mat := map Z.of_nat (seq base 16) ++ map Z.of_nat (seq 50 8) ++ map Z.of_nat (seq 50 8) in
  mkKey 16 0x33 0 0xffff mat rsc tsc (Some cipher_tkip) (priv_tkip tkip_fresh).
Definition tkip_hdr : list Z := [0x08; 0x41; 0; 0] ++ map Z.of_nat (seq 100 20).
Definition tkip_head : mbuf := sample_mbuf true 256 (tkip_hdr ++ [1; 2; 3]) 35.
Definition tkip_tail : list mbuf := [sample_mbuf false 0 [4] 0; sample_mbuf false 0 [5; 6; 7; 8; 9; 10; 11] 0].

Lemma tkip_sample_cwf : cwf (tkip_head :: tkip_tail).
Proof. by_compute. Qed.


(** The 16-bit S-box of key mixing is the one IEEE 802.11i derives from the AES
    S-box, for every 16-bit value. *)
Theorem tkip_sbox_is_aes (v : Z) (Hv : is_u16 v) :
  _S_ v = Z.lxor (sbox16 (v mod 2 ^ 8)) (u16 (Z.lor (Z.shiftl (sbox16 (v / 2 ^ 8)) 8) (Z.shiftr (sbox16 (v / 2 ^ 8)) 8))).
Proof.
  assert (E : forall i, 0 <= i < 256 -> word_at Sbox (Z.to_nat i) = sbox16 i).
  { intros i Hi. pose proof Sbox_aes as H. rewrite List.Forall_forall in H.
    rewrite H by (apply in_seq; lia). f_equal. apply Z2Nat.id. lia. }
  pose proof (Z.mod_pos_bound v (2 ^ 8) ltac:(lia)) as H1.
  assert (H2 : 0 <= v / 2 ^ 8 < 256).
  { destruct Hv. split; [apply Z.div_le_lower_bound; lia|apply Z.div_lt_upper_bound; lia]. }
  assert (El : Lo8 v = v mod 2 ^ 8) by apply u8_mod.
  assert (Eh : Hi8 v = v / 2 ^ 8).
  { unfold Hi8. rewrite Z.shiftr_div_pow2 by lia. apply u8_id. unfold is_u. lia. }
  unfold _S_. rewrite El, Eh, !E by lia. done.
Qed.
Lemma tkip_sbox_is_aes_witness : _S_ 0 = Z.lxor 0xc6a5 0xa5c6.
Proof. rewrite (tkip_sbox_is_aes 0); [reflexivity|unfold is_u; lia]. Defined.

Lemma tkip_roundtrip (ic ic2 : ieee80211com) (h h' : heap) (k k' k2 : ieee80211_key) (t t2 : tkip_ctx)
    (x : mbuf) (rest c' : list mbuf) (ic' : ieee80211com) (hdrlen : nat) (keyid : Z) (y : mbuf) (rs : list mbuf)
    (Hok : pkt_ok (x :: rest)) (Hp : has_pkthdr x = true) (Hr : tkip_ready k t)
    (Htx : tx_cache_ok k (i_addr2 (content (x :: rest))) t) (Htsc : 0 <= wk_keytsc k < 2 ^ 48)
    (Hhs : ieee80211_hdrspace ic (mtod x) = Ok hdrlen) (Hm : (hdrlen + 8 <= m_len x)%nat)
    (Hlt : Z.of_nat (length (content (x :: rest))) < 2 ^ 31) (Hid : is_u8 keyid)
    (Hcm : has_flag (ic_flags ic) IEEE80211_F_COUNTERM = false)
    (Henc : tkip_encap ic h k (x :: rest) keyid = Ok (true, k', c', ic', h'))
    (Hok2 : pkt_ok (y :: rs)) (Hp2 : has_pkthdr y = true) (Hr2 : tkip_ready k2 t2)
    (Hrx : rx_cache_ok k2 (i_addr2 (content (x :: rest))) t2)
    (Hcm2 : has_flag (ic_flags ic2) IEEE80211_F_COUNTERM = false)
    (Hkey : wk_key k2 = wk_key k) (Hrsc : wk_keyrsc k2 < wk_keytsc k)
    (Hcont : content (y :: rs) = content c') (Hm2 : (hdrlen + 8 <= m_len y)%nat)
    (Hlast : (4 <= m_len (List.last rs y))%nat) :
  (exists t', k' = set_keytsc (put_ctx k t') (u64 (wk_keytsc k + 1)) /\ tx_cache_ok k' (i_addr2 (content (x :: rest))) t') /\
  exists t3 c2, tkip_decap ic2 k2 (y :: rs) hdrlen = Ok (true, put_ctx k2 t3, c2, stat_inc ic2 is_crypto_tkip) /\ pkt_ok c2 /\
    content c2 = take hdrlen (content (x :: rest)) ++ drop (hdrlen + 8) (content (x :: rest)) /\
    rx_rsc t3 = wk_keytsc k /\
    rx_cache_ok (set_keyrsc k2 (wk_keytsc k)) (i_addr2 (content (x :: rest))) t3.
Proof.
  set (c := content (x :: rest)) in *. set (TA := i_addr2 c) in *.
  destruct (hdrspace_bounds ic (mtod x) hdrlen Hhs) as [Hhb _].
  destruct (tkip_encap_ok ic h k t x rest hdrlen keyid TA Hok Hp Hr Htx eq_refl) as
    (ok & t' & c1 & h1 & d & rem & Ee & Hca & _ & _ & _ & _ & Et & Ec & Hiff & _);
    [unfold is_u; lia|done|done|done|clear -Hlt; fold c; lia|].
  rewrite Ee in Henc. injection Henc as -> Ek -> _ _. fold c in Et, Ec.
  assert (rem = []) as -> by (by apply Hiff). rewrite app_nil_r in Et. subst d. clear Hiff Ee.
  split; [exists t'; split; [by rewrite <- Ek|]; rewrite <- Ek; exact Hca|].
  assert (Hl : (hdrlen + 8 <= length c)%nat) by (unfold c; rewrite length_content by apply Hok; cbn; lia).
  assert (Hlh : length (take hdrlen c) = hdrlen) by (rewrite length_take; lia).
  assert (ETA : TA = i_addr2 (take hdrlen c)) by (unfold TA, i_addr2; list_solve).
  destruct (tkip_opened_sealed (wk_key k2) (take hdrlen c) (wk_keytsc k) keyid (drop (hdrlen + 8) c) Htsc) as [Eo Eg];
    [lia|]. rewrite <- ETA, Hkey, <- Ec, <- Hcont, Hlh in Eo, Eg.
  assert (Hlen : length (content (y :: rs)) = (length c + 4)%nat).
  { rewrite Hcont, Ec, !length_app, Hlh, length_wep_seal, length_drop. change (length (tkip_iv _ _)) with 8%nat. lia. }
  assert (ETA2 : i_addr2 (content (y :: rs)) = TA).
  { rewrite Hcont, Ec, ETA. unfold i_addr2. generalize (tkip_iv (wk_keytsc k) keyid ++ wep_seal (tkip_stream (wk_key k) TA (wk_keytsc k)) (drop (hdrlen + 8) c)).
    intros w. list_solve. }
  pose proof (tkip_decap_ok ic2 k2 t2 y rs hdrlen Hok2 Hp2 Hr2) as Hd. rewrite ETA2 in Hd.
  specialize (Hd Hrx ltac:(lia) Hm2 ltac:(clear -Hlen Hlt; lia) ltac:(clear -Hlen Hl; lia) Hlast). cbv zeta in Hd.
  pose proof (tkip_rsc_iv (take hdrlen c) (wk_keytsc k) keyid
    (wep_seal (tkip_stream (wk_key k) TA (wk_keytsc k)) (drop (hdrlen + 8) c)) Htsc) as Er.
  pose proof (tkip_extiv_iv (take hdrlen c) (wk_keytsc k) keyid
    (wep_seal (tkip_stream (wk_key k) TA (wk_keytsc k)) (drop (hdrlen + 8) c)) Hid) as Ex.
  rewrite <- Ec, <- Hcont, Hlh in Er, Ex.
  assert (Ej : tkip_judge ic2 k2 (content (y :: rs)) hdrlen = tv_open).
  { unfold tkip_judge. rewrite Ex, Hcm2, Er, Hkey, Eg. cbn [negb]. by replace (wk_keytsc k <=? wk_keyrsc k2) with false by lia. }
  rewrite Ej, Er in Hd. destruct Hd as (t3 & c2 & Ed & Hok3 & E3 & E4 & E5 & E6). exists t3, c2.
  split; [done|]. split; [done|]. rewrite Hkey, Eo in E3. split; [|split; [done|intros _; rewrite ETA2 in E6; exact E6]].
  rewrite E3, Hcont, Ec. f_equal. by apply take_app_length'.
Qed.


(** The sample frame with room for the IV, and what goes on the air. *)
Definition tkip_frame : list Z := tkip_hdr ++ replicate 8 0 ++ map Z.of_nat (seq 1 20).
Definition tkip_mbuf (l : list Z) : mbuf := sample_mbuf true 256 l (Z.of_nat (length l)).
Definition tkip_send (k : ieee80211_key) (l : list Z) : res (bool * ieee80211_key * list Z) :=
  let* (ok, k, m, _, _) := tkip_encap tkip_com (mkHeap [] 1) k [tkip_mbuf l] 0 in Ok (ok, k, content m).
Definition tkip_air : list Z :=
  match tkip_send (tkip_key 1 0 7) tkip_frame with Ok (_, _, l) => l | _ => [] end.

Lemma tkip_fresh_caches TA base rsc tsc : tx_cache_ok (tkip_key base rsc tsc) TA tkip_fresh /\ rx_cache_ok (tkip_key base rsc tsc) TA tkip_fresh.
Proof. split; intros H; discriminate H. Qed.


(** The MIC of a frame: a frame whose MIC was added by [tkip_enmic] passes
    [tkip_demic] at a peer whose receive MIC key is the sender's, whatever the
    mbufs, which strips the MIC and moves the receive counter to that of the
    frame just decapsulated. *)
Theorem tkip_demic_enmic (ic ic2 : ieee80211com) (h h' : heap) (k k2 : ieee80211_key) (t t2 : tkip_ctx)
    (x : mbuf) (rest c' : list mbuf) (ic' : ieee80211com) (hdrlen : nat) (force force2 : bool) (y : mbuf) (rs : list mbuf)
    (Hok : pkt_ok (x :: rest)) (Hp : has_pkthdr x = true) (Hpriv : wk_private k = priv_tkip t)
    (Hf : force || has_flag (wk_flags k) IEEE80211_KEY_SWMIC = true)
    (Hhs : ieee80211_hdrspace ic (mtod x) = Ok hdrlen) (Hm : (hdrlen <= m_len x)%nat) (Hd : is_data (mtod x))
    (Hlt : Z.of_nat (length (content (x :: rest))) < 2 ^ 31)
    (Henc : tkip_enmic ic h k (x :: rest) force = Ok (true, c', ic', h'))
    (Hok2 : pkt_ok (y :: rs)) (Hp2 : has_pkthdr y = true) (Hpriv2 : wk_private k2 = priv_tkip t2)
    (Hf2 : force2 || has_flag (wk_flags k2) IEEE80211_KEY_SWMIC = true)
    (Hhs2 : ieee80211_hdrspace ic2 (mtod y) = Ok hdrlen) (Hm2 : (hdrlen <= m_len y)%nat) (Hd2 : is_data (mtod y))
    (Hkey : take 8 (wk_rxmic k2) = take 8 (wk_txmic k)) (Hcont : content (y :: rs) = content c') :
  exists c2, tkip_demic ic2 k2 (y :: rs) force2 =
      Ok (true, set_keyrsc k2 (rx_rsc t2), c2, stat_inc ic2 is_crypto_tkipdemic) /\ pkt_ok c2 /\
    content c2 = content (x :: rest).
Proof.
  set (c := content (x :: rest)) in *. pose proof Hok as [Hc _].
  destruct (tkip_enmic_ok ic h k t x rest hdrlen force Hok Hp Hpriv Hf Hhs Hm Hd) as
    (ok & c1 & h1 & d & rem & Ee & _ & _ & Et & Ec & Hiff & _); [clear -Hlt; fold c; lia|].
  rewrite Ee in Henc. injection Henc as -> -> _ _. fold c in Et, Ec.
  assert (rem = []) as -> by (by apply Hiff). rewrite app_nil_r in Et. subst d. clear Hiff Ee.
  assert (Hl : (hdrlen <= length c)%nat) by (unfold c; rewrite length_content by done; cbn; lia).
  set (mic := tkip_mic (wk_txmic k) c hdrlen (length c - hdrlen)) in *.
  assert (Hml : length mic = 8%nat) by (apply michael_ref_mic).
  assert (Hlen : length (content (y :: rs)) = (length c + 8)%nat) by (rewrite Hcont, Ec, length_app, Hml; done).
  pose proof (tkip_demic_ok ic2 k2 t2 y rs hdrlen force2 Hok2 Hp2 Hpriv2 Hf2 Hhs2 Hm2 Hd2
    ltac:(clear -Hlen Hlt; lia) ltac:(clear -Hlen Hl; lia)) as H. cbv zeta in H.
  rewrite Hlen in H. replace (length c + 8 - (hdrlen + 8))%nat with (length c - hdrlen)%nat in H by lia.
  replace (hdrlen + (length c - hdrlen))%nat with (length c) in H by lia.
  rewrite (tkip_mic_key (wk_rxmic k2) (wk_txmic k)) in H by done. rewrite Hcont, Ec in H.
  destruct (hdrspace_bounds ic (mtod x) hdrlen Hhs) as [Hhb (s & Hsz & Hsle)].
  apply List.Forall_cons_iff in Hc as [Hx _].
  assert (Emic : tkip_mic (wk_txmic k) (c ++ mic) hdrlen (length c - hdrlen) = mic).
  { unfold mic at 2, tkip_mic. f_equal. f_equal; [|list_solve].
    assert (E1 : michael_mic_hdr (mtod x) = michael_mic_hdr (c ++ mic)).
    { apply (michael_hdr_prefix hdrlen s); [|done|done|done]. rewrite (take_mtod x rest) by (done || lia). fold c. list_solve. }
    assert (E2 : michael_mic_hdr (mtod x) = michael_mic_hdr c).
    { apply (michael_hdr_prefix hdrlen s); [|done|done|done]. by rewrite (take_mtod x rest) by (done || lia). }
    by rewrite <- E1, <- E2. }
  rewrite Emic, drop_app_length, bool_decide_eq_true_2 in H by done. destruct H as (c2 & Ed & Hok3 & E3).
  exists c2. split; [done|]. split; [done|]. rewrite E3. by apply take_app_length.
Qed.

Definition tkip_mic_frame : list Z := tkip_hdr ++ map Z.of_nat (seq 1 11).
Definition tkip_miced : list Z :=
  match tkip_enmic tkip_com (mkHeap [] 3) (tkip_key 1 0 7) (tkip_head :: tkip_tail) false with
  | Ok (_, c, _, _) => content c | _ => [] end.

Lemma tkip_demic_enmic_witness :
  exists c2, tkip_demic tkip_com (tkip_key 9 0 0) [tkip_mbuf tkip_miced] true =
    Ok (true, set_keyrsc (tkip_key 9 0 0) 0, c2, stat_inc tkip_com is_crypto_tkipdemic) /\ content c2 = tkip_mic_frame.
Proof.
  destruct (tkip_enmic tkip_com (mkHeap [] 3) (tkip_key 1 0 7) (tkip_head :: tkip_tail) false)
    as [(((ok & c') & ic') & h')|] eqn:E; [|vm_compute in E; discriminate E].
  assert (ok = true) as -> by (apply (f_equal (fun r => match r with Ok (ok, _, _, _) => ok | _ => false end)) in E;
    rewrite <- E; vm_compute; reflexivity).
  destruct (tkip_demic_enmic tkip_com tkip_com (mkHeap [] 3) h' (tkip_key 1 0 7) (tkip_key 9 0 0) tkip_fresh tkip_fresh
    tkip_head tkip_tail c' ic' 24 false true (tkip_mbuf tkip_miced) []) as (c2 & E1 & _ & E2).
  - split; [exact tkip_sample_cwf|]. intros _. vm_compute. reflexivity.
  - reflexivity.
  - reflexivity.
  - reflexivity.
  - reflexivity.
  - apply Nat.leb_le. reflexivity.
  - reflexivity.
  - vm_compute. reflexivity.
  - exact E.
  - split; [by_compute|]. intros _. vm_compute. reflexivity.
  - reflexivity.
  - reflexivity.
  - reflexivity.
  - vm_compute. reflexivity.
  - apply Nat.leb_le. vm_compute. reflexivity.
  - vm_compute. reflexivity.
  - reflexivity.
  - unfold tkip_miced. rewrite E. apply (f_equal (fun r => match r with Ok (_, c, _, _) => content c | _ => [] end)) in E.
    rewrite <- E. vm_compute. reflexivity.
  - exists c2. split; [exact E1|]. rewrite E2. vm_compute. reflexivity.
Defined.

(** ** Histories of received frames *)

(** Each frame is decapsulated and, if that succeeds, its MIC is checked on
    the packet the input path made of it; [rscs] are the accepted counters. *)
Inductive tkip_rx : ieee80211_key -> list Z -> ieee80211_key -> Prop :=
| trx_done k : tkip_rx k [] k
| trx_refused ic k m hdrlen k1 m1 ic1 rscs k2 :
    tkip_decap ic k m hdrlen = Ok (false, k1, m1, ic1) -> tkip_rx k1 rscs k2 -> tkip_rx k rscs k2
| trx_badmic ic k m hdrlen k1 m1 ic1 m2 force k3 m3 ic3 rscs k4 :
    tkip_decap ic k m hdrlen = Ok (true, k1, m1, ic1) ->
    tkip_demic ic1 k1 m2 force = Ok (false, k3, m3, ic3) -> tkip_rx k3 rscs k4 -> tkip_rx k rscs k4
| trx_accept ic k x rest hdrlen k1 m1 ic1 m2 force k3 m3 ic3 rscs k4 :
    tkip_decap ic k (x :: rest) hdrlen = Ok (true, k1, m1, ic1) ->
    tkip_demic ic1 k1 m2 force = Ok (true, k3, m3, ic3) ->
    tkip_rx k3 rscs k4 -> tkip_rx k (tkip_rsc (mtod x) hdrlen :: rscs) k4.

Lemma tkip_decrypt_rsc ic t k m hdrlen ok t' m' ic' :
  tkip_decrypt ic t k m hdrlen = Ok (ok, t', m', ic') -> rx_rsc t' = rx_rsc t.
Proof.
  unfold tkip_decrypt. destruct m as [|x rest]; [done|].
  destruct (tkip_wep_decrypt _ _ _ _) as [[m1 ok2]|]; [|done]. cbn [res_bind]. intros E.
  apply (f_equal (fun r => match r with Ok (_, t, _, _) => rx_rsc t | _ => 0 end)) in E.
  symmetry. destruct ok2; exact E.
Qed.

Lemma tkip_decap_inv ic k m hdrlen ok k1 m1 ic1 :
  tkip_decap ic k m hdrlen = Ok (ok, k1, m1, ic1) ->
  wk_keyrsc k1 = wk_keyrsc k /\
  exists x rest, m = x :: rest /\
    if ok then wk_keyrsc k < tkip_rsc (mtod x) hdrlen /\ exists t, wk_private k1 = priv_tkip t /\ rx_rsc t = tkip_rsc (mtod x) hdrlen
    else True.
Proof.
  unfold tkip_decap. destruct (tkip_get k) as [t|]; [|done]. cbn [res_bind]. destruct m as [|x rest]; [done|].
  destruct (_ =? 0); [intros [= <- <- _ _]; split; [done|by exists x, rest]|].
  destruct (has_flag _ _); [intros [= <- <- _ _]; split; [done|by exists x, rest]|].
  fold (tkip_rsc (mtod x) hdrlen). set (rsc := tkip_rsc (mtod x) hdrlen).
  destruct (rsc <=? wk_keyrsc k) eqn:Er; [intros [= <- <- _ _]; split; [done|by exists x, rest]|].
  destruct (if has_flag _ IEEE80211_KEY_SWCRYPT then _ else _) as [(((ok' & t') & m') & ic')|] eqn:E; [|done].
  cbn [res_bind]. destruct ok'; cbn [negb]; intros [= <- <- _ _]; (split; [done|]); exists x, rest; (split; [done|]); [|done].
  split; [lia|]. exists t'. split; [done|]. destruct (has_flag _ IEEE80211_KEY_SWCRYPT) in E.
  - exact (tkip_decrypt_rsc _ _ _ _ _ _ _ _ _ E).
  - apply (f_equal (fun r => match r with Ok (_, t, _, _) => rx_rsc t | _ => 0 end)) in E. symmetry. exact E.
Qed.

Lemma tkip_demic_inv ic k m force ok k1 m1 ic1 t :
  wk_private k = priv_tkip t -> tkip_demic ic k m force = Ok (ok, k1, m1, ic1) ->
  k1 = if ok then set_keyrsc k (rx_rsc t) else k.
Proof.
  intros Hp. unfold tkip_demic, tkip_get. rewrite Hp. cbn [res_bind]. destruct m as [|x rest]; [done|].
  destruct (if force || _ then _ else _) as [(ok' & ic')|]; [|done]. cbn [res_bind].
  destruct ok'; cbn [negb]; by intros [= <- <- _ _].
Qed.

Lemma tkip_rx_increasing k rscs k' :
  tkip_rx k rscs k' -> StronglySorted Z.lt (wk_keyrsc k :: rscs).
Proof.
  induction 1 as [k|ic k m hl k1 m1 ic1 rscs k2 E _ IH
    |ic k m hl k1 m1 ic1 m2 force k3 m3 ic3 rscs k4 E E2 _ IH|ic k x rest hl k1 m1 ic1 m2 force k3 m3 ic3 rscs k4 E E2 _ IH].
  - repeat constructor.
  - apply tkip_decap_inv in E as [<- _]. done.
  - apply tkip_decap_inv in E as [<- (x & rest & -> & _ & t & Hp & _)].
    apply (tkip_demic_inv _ _ _ _ _ _ _ _ t Hp) in E2 as ->. done.
  - apply tkip_decap_inv in E as [Ek (x' & rest' & [= <- <-] & Hlt & t & Hp & Hr)].
    apply (tkip_demic_inv _ _ _ _ _ _ _ _ t Hp) in E2 as ->. cbn [wk_keyrsc set_keyrsc] in IH. rewrite Hr in IH.
    constructor; [done|]. inversion_clear IH as [|? ? _ Hall]. constructor; [done|].
    eapply List.Forall_impl; [|exact Hall]. cbn. lia.
Qed.

(** C26. Replay protection: over any history in which each decapsulated frame has its
    MIC checked before the next one is decapsulated, the counters of accepted
    frames strictly increase from the receive counter of the key on. *)
Theorem tkip_never_replays (k k' : ieee80211_key) (rscs : list Z) (Hrx : tkip_rx k rscs k') :
  StronglySorted Z.lt (wk_keyrsc k :: rscs) /\ NoDup rscs.
Proof.
  pose proof (tkip_rx_increasing k rscs k' Hrx) as Hs. split; [done|].
  inversion_clear Hs as [|? ? Hs' _]. clear -Hs'. induction Hs' as [|p pns _ IH Hall]; constructor; [|done].
  intros Hin%list_elem_of_In. rewrite List.Forall_forall in Hall. specialize (Hall p Hin). lia.
Qed.

(** Countermeasures: while they are in force no frame is encapsulated and none
    is accepted, and neither key nor packet changes. *)
Theorem tkip_countermeasures (ic : ieee80211com) (h : heap) (k : ieee80211_key) (t : tkip_ctx) (x : mbuf) (rest : list mbuf)
    (keyid : Z) (hdrlen : nat) (Hpriv : wk_private k = priv_tkip t)
    (Hcm : has_flag (ic_flags ic) IEEE80211_F_COUNTERM = true) :
  tkip_encap ic h k (x :: rest) keyid = Ok (false, k, x :: rest, stat_inc ic is_crypto_tkipcm, h) /\
  exists ic', tkip_decap ic k (x :: rest) hdrlen = Ok (false, k, x :: rest, ic') /\
    (ic' = stat_inc ic is_crypto_tkipcm \/ ic' = stat_inc ic is_rx_tkipformat).
Proof.
  unfold tkip_encap, tkip_decap, tkip_get. rewrite Hpriv. cbn [res_bind]. rewrite Hcm. split; [done|].
  destruct (_ =? 0); eexists; (split; [reflexivity|]); auto.
Qed.
Lemma tkip_countermeasures_witness :
  let ic := mkCom true IEEE80211_F_COUNTERM 0 (fun _ => 0) [] 0xffff 4 [] in
  tkip_encap ic (mkHeap [] 1) (tkip_key 1 6 7) [tkip_mbuf tkip_frame] 0 =
  Ok (false, tkip_key 1 6 7, [tkip_mbuf tkip_frame], stat_inc ic is_crypto_tkipcm, mkHeap [] 1).
Proof.
  intros ic. apply (tkip_countermeasures ic (mkHeap [] 1) (tkip_key 1 6 7) tkip_fresh (tkip_mbuf tkip_frame) [] 0 24);
    reflexivity.
Defined.

(** ** Stale phase-1 results *)

(** Receive a frame: decapsulate, then check the MIC; whether each step
    accepted it, and the key afterwards. *)
Definition tkip_receive (k : ieee80211_key) (l : list Z) : res (bool * bool * ieee80211_key) :=
  let* (ok, k, m, ic) := tkip_decap tkip_com k [tkip_mbuf l] 24 in
  if ok then let* (ok2, k, _, _) := tkip_demic ic k m false in Ok (true, ok2, k) else Ok (false, false, k).
(** Send a frame: MIC, then encapsulate after making room for the IV. *)
Definition tkip_transmit (k : ieee80211_key) (l : list Z) : res (ieee80211_key * list Z) :=
  let* (_, m, _, _) := tkip_enmic tkip_com (mkHeap [] 1) k [tkip_mbuf l] false in
  let c := content m in
  let* (_, k, c) := tkip_send k (take 24 c ++ replicate 8 0 ++ drop 24 c) in
  Ok (k, c).

(** A frame with counter 0x10005 and a good ICV but no MIC arrives at a
    receiver whose counter is 5, between two good frames 6 and 7. *)
Definition poison_run : res (list (bool * bool)) :=
  let rx := tkip_key 1 5 0 in
  let* (_, _, forged) := tkip_send (tkip_key 1 0 0x10005) tkip_frame in
  let* (tx, good6) := tkip_transmit (tkip_key 1 0 6) tkip_mic_frame in
  let* (_, good7) := tkip_transmit tx tkip_mic_frame in
  let* (a, b, rx) := tkip_receive rx good6 in
  let* (c, d, rx) := tkip_receive rx forged in
  let* (e, f, _) := tkip_receive rx good7 in
  Ok [(a, b); (c, d); (e, f)].
(** The same without the frame in the middle. *)
Definition clean_run : res (list (bool * bool)) :=
  let rx := tkip_key 1 5 0 in
  let* (tx, good6) := tkip_transmit (tkip_key 1 0 6) tkip_mic_frame in
  let* (_, good7) := tkip_transmit tx tkip_mic_frame in
  let* (a, b, rx) := tkip_receive rx good6 in
  let* (e, f, _) := tkip_receive rx good7 in
  Ok [(a, b); (e, f)].


(** A sender that has sent a frame is given new key material by [tkip_setkey];
    the peer holds the new key with a fresh context. *)
Definition with_material (k : ieee80211_key) (mat : list Z) : ieee80211_key :=
  mkKey (wk_keylen k) (wk_flags k) (wk_keyix k) (wk_rxkeyix k) mat (wk_keyrsc k) (wk_keytsc k) (wk_cipher k) (wk_private k).
Definition rekey_run (send_first : bool) : res (bool * (bool * bool)) :=
  let* (tx, _) := if send_first then tkip_transmit (tkip_key 1 0 1) tkip_mic_frame else Ok (tkip_key 1 0 1, []) in
  let '(ok, tx) := tkip_setkey (with_material tx (wk_key (tkip_key 90 0 0))) in
  let* (_, l) := tkip_transmit tx tkip_mic_frame in
  let* (a, b, _) := tkip_receive (tkip_key 90 0 0) l in
  Ok (ok, (a, b)).

(** Setting new key material on a key in use restarts the counter but keeps the
    phase-1 result of the old key, so the peer cannot decrypt the next frame;
    on a key that has not been used the frame is accepted. *)
Theorem tkip_setkey_keeps_stale_phase1 :
  rekey_run false = Ok (true, (true, true)) /\ rekey_run true = Ok (true, (false, false)).
Proof. split; vm_compute; reflexivity. Qed.

Lemma tkip_never_replays_witness :
  exists k', tkip_rx (tkip_key 1 6 0) [7] k' /\ NoDup [7].
Proof.
  set (c := match tkip_transmit (tkip_key 1 0 7) tkip_mic_frame with Ok (_, l) => l | _ => [] end).
  destruct (tkip_decap tkip_com (tkip_key 1 6 0) [tkip_mbuf c] 24) as [(((ok & k1) & m1) & ic1)|] eqn:E;
    [|vm_compute in E; discriminate E].
  assert (ok = true) as -> by (apply (f_equal (fun r => match r with Ok (ok, _, _, _) => ok | _ => false end)) in E;
    rewrite <- E; vm_compute; reflexivity).
  assert (E2 : exists k3 m3 ic3, tkip_demic ic1 k1 m1 false = Ok (true, k3, m3, ic3)).
  { set (f := fun r : res (bool * ieee80211_key * list mbuf * ieee80211com) => match r with
      | Ok (_, k, m, ic) => match tkip_demic ic k m false with Ok (ok, _, _, _) => ok | _ => false end | _ => false end).
    assert (H : f (Ok (true, k1, m1, ic1)) = true) by (rewrite <- E; vm_compute; reflexivity). unfold f in H.
    destruct (tkip_demic ic1 k1 m1 false) as [(((ok & k3) & m3) & ic3)|]; [|done]. rewrite H. by exists k3, m3, ic3. }
  destruct E2 as (k3 & m3 & ic3 & E2). exists k3.
  assert (H : tkip_rx (tkip_key 1 6 0) [7] k3).
  { apply (trx_accept tkip_com (tkip_key 1 6 0) (tkip_mbuf c) [] 24 k1 m1 ic1 m1 false k3 m3 ic3 [] k3 E E2). apply trx_done. }
  split; [exact H|]. apply (tkip_never_replays _ _ _ H).
Defined.
