(* ===== verification/Crypto.v ===== *)
(** * Key management and cipher dispatch: net80211/ieee80211_crypto.c,
    ieee80211_crypto.h, ieee80211_crypto_none.c

    A key lives in the global table [ic_nw_keys] or in a node
    ([ni_ucastkey]).  [kmem] is the allocator of cipher contexts: what each
    [kmem_intr_zalloc] will give (with the bytes [get_random_bytes] would then
    draw) and the number of live contexts.  The driver's key methods are the
    function pointers of [ieee80211_crypto_state]. *)

From S2P Require Import Prelude Buffers Mbuf Ieee80211 Ccmp Wep Tkip.

(** ** Cipher contexts *)

Record kmem := mkKmem { k_supply : list (option Z); k_live : Z }.

Definition kmem_take (km : kmem) : option Z * kmem :=
  match k_supply km with
  | Some rnd :: s => (Some rnd, mkKmem s (k_live km + 1))
  | None :: s => (None, mkKmem s (k_live km))
  | [] => (None, km)
  end.
Definition kmem_put (km : kmem) : kmem := mkKmem (k_supply km) (k_live km - 1).

(** ** The methods of the cipher templates *)

Definition ic_header (c : cipher) : nat :=
  match c with
  | cipher_none => 0 | cipher_wep => wep_ic_header | cipher_tkip => tkip_ic_header | cipher_ccmp => ccmp_ic_header
  end.
Definition ic_trailer (c : cipher) : nat :=
  match c with
  | cipher_none => 0 | cipher_wep => wep_ic_trailer | cipher_tkip => tkip_ic_trailer | cipher_ccmp => ccmp_ic_trailer
  end.
Definition ic_miclen (c : cipher) : nat :=
  match c with
  | cipher_none => 0 | cipher_wep => wep_ic_miclen | cipher_tkip => tkip_ic_miclen | cipher_ccmp => ccmp_ic_miclen
  end.

(** The null cipher keeps the interface itself, which is always there. *)
Definition none_attach (ic : ieee80211com) : option priv * ieee80211com := (Some priv_none, ic).
Definition none_setkey (k : ieee80211_key) : bool := true.
Definition none_encap (ic : ieee80211com) : bool * ieee80211com := (false, stat_inc ic is_tx_badcipher).
Definition none_decap (ic : ieee80211com) : bool * ieee80211com := (false, stat_inc ic is_rx_badkeyid).
Definition none_enmic (ic : ieee80211com) : bool * ieee80211com := (false, stat_inc ic is_tx_badcipher).
Definition none_demic (ic : ieee80211com) : bool * ieee80211com := (false, stat_inc ic is_rx_badkeyid).

Definition ic_attach (c : cipher) (km : kmem) (ic : ieee80211com) : option priv * ieee80211com * kmem :=
  match c with
  | cipher_none => let '(p, ic) := none_attach ic in (p, ic, km)
  | _ =>
      let '(mem, km) := kmem_take km in
      let ok := match mem with Some _ => true | None => false end in
      let rnd := match mem with Some r => r | None => 0 end in
      let '(p, ic) := match c with
                      | cipher_wep => wep_attach ok rnd ic
                      | cipher_tkip => tkip_attach ok ic
                      | _ => ccmp_attach ok ic
                      end in
      (p, ic, km)
  end.

(** [wep_detach], [tkip_detach] and [ccmp_detach] free the context,
    [none_detach] has none. *)
Definition ic_detach (c : cipher) (km : kmem) : kmem :=
  match c with
  | cipher_none => km
  | _ => kmem_put km
  end.

Definition ic_setkey (c : cipher) (k : ieee80211_key) : res (bool * ieee80211_key) :=
  match c with
  | cipher_none => Ok (none_setkey k, k)
  | cipher_wep => Ok (wep_setkey k, k)
  | cipher_tkip => Ok (tkip_setkey k)
  | cipher_ccmp => ccmp_setkey k
  end.

Definition ic_encap (c : cipher) (ic : ieee80211com) (h : heap) (k : ieee80211_key) (m : list mbuf) (keyid : Z)
    : res (bool * ieee80211_key * list mbuf * ieee80211com * heap) :=
  match c with
  | cipher_none => let '(ok, ic) := none_encap ic in Ok (ok, k, m, ic, h)
  | cipher_wep => wep_encap ic h k m keyid
  | cipher_tkip => tkip_encap ic h k m keyid
  | cipher_ccmp => ccmp_encap ic h k m keyid
  end.

Definition ic_decap (c : cipher) (ic : ieee80211com) (k : ieee80211_key) (m : list mbuf) (hdrlen : nat)
    : res (bool * ieee80211_key * list mbuf * ieee80211com) :=
  match c with
  | cipher_none => let '(ok, ic) := none_decap ic in Ok (ok, k, m, ic)
  | cipher_wep => let* (ok, m, ic) := wep_decap ic k m hdrlen in Ok (ok, k, m, ic)
  | cipher_tkip => tkip_decap ic k m hdrlen
  | cipher_ccmp => ccmp_decap ic k m hdrlen
  end.

Definition ic_enmic (c : cipher) (ic : ieee80211com) (h : heap) (k : ieee80211_key) (m : list mbuf) (force : bool)
    : res (bool * list mbuf * ieee80211com * heap) :=
  match c with
  | cipher_none => let '(ok, ic) := none_enmic ic in Ok (ok, m, ic, h)
  | cipher_wep => Ok (wep_enmic k m force, m, ic, h)
  | cipher_tkip => tkip_enmic ic h k m force
  | cipher_ccmp => Ok (ccmp_enmic k m force, m, ic, h)
  end.

Definition ic_demic (c : cipher) (ic : ieee80211com) (k : ieee80211_key) (m : list mbuf) (force : bool)
    : res (bool * ieee80211_key * list mbuf * ieee80211com) :=
  match c with
  | cipher_none => let '(ok, ic) := none_demic ic in Ok (ok, k, m, ic)
  | cipher_wep => Ok (wep_demic k m force, k, m, ic)
  | cipher_tkip => tkip_demic ic k m force
  | cipher_ccmp => Ok (ccmp_demic k m force, k, m, ic)
  end.

(** [cip = k->wk_cipher], which is dereferenced. *)
Definition key_cipher (k : ieee80211_key) : res cipher :=
  match wk_cipher k with Some c => Ok c | None => Fault NullDeref end.

(** ** ieee80211_crypto.h *)

Definition ieee80211_crypto_demic (ic : ieee80211com) (k : ieee80211_key) (m : list mbuf) (force : bool)
    : res (bool * ieee80211_key * list mbuf * ieee80211com) :=
  let* cip := key_cipher k in
  if (0 <? ic_miclen cip)%nat then ic_demic cip ic k m force else Ok (true, k, m, ic).

Definition ieee80211_crypto_enmic (ic : ieee80211com) (h : heap) (k : ieee80211_key) (m : list mbuf) (force : bool)
    : res (bool * list mbuf * ieee80211com * heap) :=
  let* cip := key_cipher k in
  if (0 <? ic_miclen cip)%nat then ic_enmic cip ic h k m force else Ok (true, m, ic, h).

(** The index arguments are the same; flags become XMIT and RECV. *)
Definition ieee80211_crypto_resetkey (k : ieee80211_key) (ix : Z) : ieee80211_key :=
  mkKey (wk_keylen k) (Z.lor IEEE80211_KEY_XMIT IEEE80211_KEY_RECV) ix ix (wk_key k) (wk_keyrsc k) (wk_keytsc k)
        (Some cipher_none) priv_none.

(** ** The cipher table *)

(** [ciphers[IEEE80211_CIPHER_MAX]]. *)
Definition cipher_table : Type := list (option cipher).
Definition cipher_index (c : cipher) : Z := cipher_ix (Some c).

Definition ieee80211_crypto_register (tbl : cipher_table) (cip : cipher) : cipher_table :=
  if IEEE80211_CIPHER_MAX <=? cipher_index cip then tbl
  else
    match tbl !! Z.to_nat (cipher_index cip) with
    | Some (Some c) => if decide (c = cip) then <[Z.to_nat (cipher_index cip) := Some cip]> tbl else tbl
    | _ => <[Z.to_nat (cipher_index cip) := Some cip]> tbl
    end.
Definition ieee80211_crypto_unregister (tbl : cipher_table) (cip : cipher) : cipher_table :=
  if IEEE80211_CIPHER_MAX <=? cipher_index cip then tbl
  else
    match tbl !! Z.to_nat (cipher_index cip) with
    | Some (Some c) => if decide (c = cip) then <[Z.to_nat (cipher_index cip) := None]> tbl else tbl
    | _ => <[Z.to_nat (cipher_index cip) := None]> tbl
    end.
Definition ieee80211_crypto_available (tbl : cipher_table) (cipher : Z) : bool :=
  (cipher <? IEEE80211_CIPHER_MAX) && match tbl !! Z.to_nat cipher with Some (Some _) => true | _ => false end.

(** ** Keys and the driver *)

(** Where a [struct ieee80211_key *] points. *)
Inductive kloc := KNw (i : nat) | KUcast.

(** [cs_key_alloc] (the two indices, or refusal), [cs_key_delete], [cs_key_set]. *)
Record key_ops := {
  cs_key_alloc : ieee80211com -> kloc -> ieee80211_key -> option (Z * Z);
  cs_key_delete : ieee80211com -> ieee80211_key -> bool;
  cs_key_set : ieee80211com -> ieee80211_key -> list Z -> bool;
}.

Definition null_key_alloc (ic : ieee80211com) (l : kloc) (k : ieee80211_key) : option (Z * Z) :=
  match l with
  | KUcast => if has_flag (wk_flags k) IEEE80211_KEY_GROUP then None else Some (0, IEEE80211_KEYIX_NONE)
  | KNw i => Some (Z.of_nat i, IEEE80211_KEYIX_NONE)
  end.
Definition null_key_delete (ic : ieee80211com) (k : ieee80211_key) : bool := true.
Definition null_key_set (ic : ieee80211com) (k : ieee80211_key) (mac : list Z) : bool := true.
Definition null_key_ops : key_ops :=
  {| cs_key_alloc := null_key_alloc; cs_key_delete := null_key_delete; cs_key_set := null_key_set |}.

(** [ieee80211_crypto_attach]: the key table is reset; the keys are zeroed before. *)
Definition zero_key : ieee80211_key := mkKey 0 0 0 0 (replicate 32 0) 0 0 None priv_null.
Definition ieee80211_crypto_attach (tbl : cipher_table) (ic : ieee80211com) : cipher_table * ieee80211com * key_ops :=
  (<[Z.to_nat IEEE80211_CIPHER_NONE := Some cipher_none]> tbl,
   mkCom (ic_ifp ic) (ic_flags ic) (ic_caps ic) (ic_stats ic)
         (map (fun k => ieee80211_crypto_resetkey k IEEE80211_KEYIX_NONE) (ic_nw_keys ic))
         IEEE80211_KEYIX_NONE (Z.of_nat IEEE80211_WEP_NKID) (ic_log ic),
   null_key_ops).

Section Keys.
Context (dev : key_ops).

(** From [again:] to the commit: attach the cipher, detach the old one. *)
Definition newkey_bind (km : kmem) (ic : ieee80211com) (k : ieee80211_key) (cip : cipher) (flags oflags : Z)
    : res (bool * ieee80211_key * ieee80211com * kmem) :=
  match ic_attach cip km ic with
  | (None, ic, km) => Ok (false, set_kflags k oflags, stat_inc ic is_crypto_attachfail, km)
  | (Some keyctx, ic, km) =>
      let* old := key_cipher k in
      Ok (true, set_private (set_cipher (set_kflags k flags) (Some cip)) keyctx, ic, ic_detach old km)
  end.

(** The driver's index; [None] when there is no room. *)
Definition newkey_index (ic : ieee80211com) (l : kloc) (k : ieee80211_key) : option ieee80211_key :=
  if wk_keyix k =? IEEE80211_KEYIX_NONE then
    match cs_key_alloc dev ic l k with
    | Some (keyix, rxkeyix) => Some (set_keyix k keyix rxkeyix)
    | None => None
    end
  else Some k.

Definition newkey_flags (ic : ieee80211com) (cipher flags : Z) : Z :=
  let flags := Z.land flags IEEE80211_KEY_COMMON in
  let flags := if Z.land (ic_caps ic) (Z.shiftl 1 cipher) =? 0 then Z.lor flags IEEE80211_KEY_SWCRYPT else flags in
  if (cipher =? IEEE80211_CIPHER_TKIP) && (Z.land (ic_caps ic) IEEE80211_C_TKIPMIC =? 0)
  then Z.lor flags IEEE80211_KEY_SWMIC else flags.

Definition ieee80211_crypto_newkey (tbl : cipher_table) (km : kmem) (ic : ieee80211com) (l : kloc) (cipher flags : Z)
    (key : ieee80211_key) : res (bool * ieee80211_key * ieee80211com * kmem) :=
  if IEEE80211_CIPHER_MAX <=? cipher then Ok (false, key, stat_inc ic is_crypto_badcipher, km)
  else if cipher <? 0 then Fault BadAccess                               (* the index is an int *)
  else
    match tbl !! Z.to_nat cipher with
    | None => Fault BadAccess
    | Some None => Ok (false, key, stat_inc ic is_crypto_nocipher, km)   (* no module is loaded *)
    | Some (Some cip) =>
        let oflags := wk_flags key in
        let flags := newkey_flags ic cipher flags in
        let* (ok, key, ic, km) :=
          if bool_decide (wk_cipher key = Some cip) && (oflags =? flags) then Ok (true, key, ic, km)
          else newkey_bind km ic key cip flags oflags in
        if negb ok then Ok (false, key, ic, km)
        else
          match newkey_index ic l key with
          | Some key => Ok (true, key, ic, km)
          | None =>
              if has_flag (wk_flags key) IEEE80211_KEY_SWCRYPT then
                Ok (false, key, stat_inc ic is_crypto_keyfail, km)
              else
                (* software fallback: bind again, ask for an index again *)
                let ic := stat_inc ic is_crypto_swfallback in
                let oflags := wk_flags key in
                let flags := Z.lor flags IEEE80211_KEY_SWCRYPT in
                let flags := if cipher =? IEEE80211_CIPHER_TKIP then Z.lor flags IEEE80211_KEY_SWMIC else flags in
                let* (ok, key, ic, km) := newkey_bind km ic key cip flags oflags in
                if negb ok then Ok (false, key, ic, km)
                else
                  match newkey_index ic l key with
                  | Some key => Ok (true, key, ic, km)
                  | None => Ok (false, key, stat_inc ic is_crypto_keyfail, km)
                  end
          end
    end.

(** The internal deletion; a key without a cipher is a failed [IASSERT]. *)
Definition crypto_delkey (km : kmem) (ic : ieee80211com) (key : ieee80211_key)
    : res (ieee80211_key * ieee80211com * kmem) :=
  match wk_cipher key with
  | None => Fault Panic
  | Some cip =>
      let ic := if (wk_keyix key =? IEEE80211_KEYIX_NONE) || cs_key_delete dev ic key then ic
                else stat_inc ic is_crypto_delkey in
      Ok (ieee80211_crypto_resetkey zero_key IEEE80211_KEYIX_NONE, ic, ic_detach cip km)
  end.
Definition ieee80211_crypto_delkey := crypto_delkey.

(** The global table, entry by entry. *)
Fixpoint delglobal_loop (km : kmem) (ic : ieee80211com) (ixs : list nat) : res (ieee80211com * kmem) :=
  match ixs with
  | [] => Ok (ic, km)
  | i :: ixs =>
      match ic_nw_keys ic !! i with
      | None => Fault BadAccess
      | Some k =>
          let* (k, ic, km) := crypto_delkey km ic k in
          delglobal_loop km (set_nw_key ic i k) ixs
      end
  end.
Definition ieee80211_crypto_delglobalkeys (km : kmem) (ic : ieee80211com) : res (ieee80211com * kmem) :=
  delglobal_loop km ic (seq 0 IEEE80211_WEP_NKID).
Definition ieee80211_crypto_detach := ieee80211_crypto_delglobalkeys.

Definition ieee80211_crypto_setkey (ic : ieee80211com) (key : ieee80211_key) (macaddr : list Z)
    : res (bool * ieee80211_key * ieee80211com) :=
  match wk_cipher key with
  | None => Fault Panic
  | Some cip =>
      let* (ok, key) := ic_setkey cip key in
      if negb ok then Ok (false, key, stat_inc ic is_crypto_setkey_cipher)
      else if wk_keyix key =? IEEE80211_KEYIX_NONE then Ok (false, key, stat_inc ic is_crypto_setkey_nokey)
      else Ok (cs_key_set dev ic key macaddr, key, ic)
  end.
End Keys.

(** ** Frames *)

Definition get_key (ic : ieee80211com) (ucast : ieee80211_key) (l : kloc) : res ieee80211_key :=
  match l with
  | KUcast => Ok ucast
  | KNw i => match ic_nw_keys ic !! i with Some k => Ok k | None => Fault BadAccess end
  end.
Definition put_key (ic : ieee80211com) (ucast : ieee80211_key) (l : kloc) (k : ieee80211_key) : ieee80211com * ieee80211_key :=
  match l with
  | KUcast => (ic, k)
  | KNw i => (set_nw_key ic i k, ucast)
  end.

(** Multicast frames and frames to a node without its own key use the global table. *)
Definition uses_group_key (wh : list Z) (ucast : ieee80211_key) : bool :=
  IEEE80211_IS_MULTICAST (i_addr1 wh) || bool_decide (wk_cipher ucast = Some cipher_none).

(** Room for the privacy header in front, with both headers contiguous. *)
Definition encap_room (h : heap) (m : list mbuf) (hdrlen hdr : nat) : list mbuf * heap :=
  let '(m, h) := m_prepend h m (Z.of_nat hdr) in
  match m with
  | x :: _ => if (m_len x <? hdrlen + hdr)%nat then m_pullup h m (Z.of_nat (hdrlen + hdr)) else (m, h)
  | [] => (m, h)
  end.

(** The result names the key used, if the frame was encapsulated; the packet is
    what [m] is in the function, which the caller's pointer may not follow. *)
Definition ieee80211_crypto_encap (ic : ieee80211com) (ucast : ieee80211_key) (h : heap) (m : list mbuf)
    : res (option kloc * ieee80211com * ieee80211_key * list mbuf * heap) :=
  match m with
  | [] => Fault NullDeref
  | x :: _ =>
      let wh := mtod x in
      let sel := if uses_group_key wh ucast then
                   if ic_def_txkey ic =? IEEE80211_KEYIX_NONE then None
                   else Some (u8 (ic_def_txkey ic), KNw (Z.to_nat (ic_def_txkey ic)))
                 else Some (0, KUcast) in
      match sel with
      | None => Ok (None, stat_inc ic is_tx_nodefkey, ucast, m, h)
      | Some (keyid, l) =>
          let* k := get_key ic ucast l in
          let* hdrlen := ieee80211_hdrspace ic wh in
          let* cip := key_cipher k in
          let '(m, h) := encap_room h m hdrlen (ic_header cip) in
          match m with
          | [] => Ok (None, ic, ucast, [], h)
          | x :: rest =>
              let x := mstore x 0 (sub_list (ic_header cip) hdrlen (mtod x)) in
              let* (ok, k, m, ic, h) := ic_encap cip ic h k (x :: rest) (u8 (Z.shiftl keyid 6)) in
              let '(ic, ucast) := put_key ic ucast l k in
              Ok (if ok then Some l else None, ic, ucast, m, h)
          end
      end
  end.

Definition IEEE80211_WEP_MINLEN : nat := sizeof_frame + (IEEE80211_WEP_IVLEN + IEEE80211_WEP_KIDLEN) + IEEE80211_WEP_CRCLEN.

(** [junk] is what the uninitialised [keyid] holds when the packet is too short
    for the copy to store anything. *)
Definition ieee80211_crypto_decap (ic : ieee80211com) (ucast : ieee80211_key) (h : heap) (junk : Z) (m : list mbuf) (hdrlen : nat)
    : res (option kloc * ieee80211com * ieee80211_key * list mbuf * heap) :=
  match m with
  | [] => Fault NullDeref
  | x :: _ =>
      if u64 (ph_len (m_hdr x)) <? Z.of_nat IEEE80211_WEP_MINLEN then
        Ok (None, stat_inc ic is_rx_tooshort, ucast, m, h)
      else
        let keyid := match m_copydata m (hdrlen + IEEE80211_WEP_IVLEN) 1 with b :: _ => b | [] => junk end in
        let l := if uses_group_key (mtod x) ucast then KNw (Z.to_nat (Z.shiftr keyid 6)) else KUcast in
        let* k := get_key ic ucast l in
        let* cip := key_cipher k in
        let '(m, h) := if (m_len x <? hdrlen + ic_header cip)%nat
                       then m_pullup h m (Z.of_nat (hdrlen + ic_header cip)) else (m, h) in
        match m with
        | [] => Ok (None, stat_inc ic is_rx_tooshort, ucast, [], h)
        | x :: _ =>
            if u32 (ph_len (m_hdr x)) <? Z.of_nat (hdrlen + ic_header cip + ic_trailer cip) then
              Ok (None, stat_inc ic is_rx_tooshort, ucast, m, h)
            else
              let* (ok, k, m, ic) := ic_decap cip ic k m hdrlen in
              let '(ic, ucast) := put_key ic ucast l k in
              Ok (if ok then Some l else None, ic, ucast, m, h)
        end
  end.
