(* ===== verification/CryptoProof.v ===== *)
(** * Key management: proofs

    Cipher contexts are accounted for over every history of key operations;
    what each operation leaves in a key; and, against an interface of the
    cipher modules, that decapsulation undoes encapsulation. *)

From stdpp Require Import relations.
From S2P Require Import Prelude Buffers Mbuf MbufProof AesCcmMbuf Ieee80211 FrameProof Ccmp CcmpProof.
From S2P Require Import Rc4 Rc4Proof Wep WepProof Tkip TkipProof Crypto.

(** ** Well-formed keys and the contexts they hold *)

(** [wk_private] belongs to the attached cipher. *)
Definition key_wf (k : ieee80211_key) : Prop :=
  match wk_cipher k, wk_private k with
  | Some cipher_none, priv_none => True
  | Some cipher_wep, priv_wep _ => True
  | Some cipher_tkip, priv_tkip _ => True
  | Some cipher_ccmp, priv_ccmp _ => True
  | _, _ => False
  end.

(** The number of contexts a cipher keeps. *)
Definition ctx_count (c : option cipher) : Z :=
  match c with None | Some cipher_none => 0 | _ => 1 end.
Abbreviation ctx_of k := (ctx_count (wk_cipher k)).

(** The table has [IEEE80211_CIPHER_MAX] entries, each at its own index. *)
Definition table_wf (tbl : cipher_table) : Prop :=
  length tbl = Z.to_nat IEEE80211_CIPHER_MAX /\
  forall i c, tbl !! i = Some (Some c) -> Z.of_nat i = cipher_index c.

Lemma key_wf_cipher k : key_wf k -> exists c, wk_cipher k = Some c.
Proof. unfold key_wf. destruct (wk_cipher k); [eauto|done]. Qed.

Lemma ic_attach_spec c km ic :
  match ic_attach c km ic with
  | (Some p, ic', km') =>
      ic' = ic /\ k_live km' = k_live km + ctx_count (Some c) /\
      forall k, key_wf (set_private (set_cipher k (Some c)) p)
  | (None, ic', km') => ic' = stat_inc ic is_crypto_nomem /\ k_live km' = k_live km
  end.
Proof.
  unfold ic_attach, kmem_take. destruct c; cbn [none_attach].
  1: by rewrite Z.add_0_r.
  all: destruct (k_supply km) as [|[r|] s]; cbn; by split_and?.
Qed.

Lemma ic_detach_live c km : k_live (ic_detach c km) = k_live km - ctx_count (Some c).
Proof. destruct c; cbn; lia. Qed.

(** ** Operations on one key *)

(** What a key operation may not touch. *)
Definition same_material (k k' : ieee80211_key) : Prop :=
  wk_key k' = wk_key k /\ wk_keylen k' = wk_keylen k /\ wk_keyrsc k' = wk_keyrsc k /\ wk_keytsc k' = wk_keytsc k.
Definition accounted (km km' : kmem) (k k' : ieee80211_key) : Prop :=
  k_live km' - ctx_of k' = k_live km - ctx_of k.

Lemma newkey_bind_spec km ic k cip flags oflags :
  key_wf k ->
  exists ok k' ic' km', newkey_bind km ic k cip flags oflags = Ok (ok, k', ic', km') /\
    key_wf k' /\ accounted km km' k k' /\ same_material k k' /\ ic_nw_keys ic' = ic_nw_keys ic /\
    wk_keyix k' = wk_keyix k /\
    if (ok : bool) then wk_cipher k' = Some cip /\ wk_flags k' = flags else wk_cipher k' = wk_cipher k.
Proof.
  intros Hk. destruct (key_wf_cipher k Hk) as [old Eo]. unfold newkey_bind, key_cipher, accounted. rewrite Eo.
  pose proof (ic_attach_spec cip km ic) as A. destruct (ic_attach cip km ic) as [[[p|] ic1] km1].
  - destruct A as (-> & L & W). cbn [res_bind]. eexists _, _, _, _. split; [done|].
    rewrite ic_detach_live, L. split; [apply W|]. split; [cbn [wk_cipher set_private set_cipher]; lia|done].
  - destruct A as (-> & L). eexists _, _, _, _. split; [done|]. cbn [set_kflags wk_cipher]. rewrite Eo, L.
    split; [by unfold key_wf in *; cbn; rewrite Eo in *|]. split; [lia|done].
Qed.

Lemma newkey_index_spec dev ic l k :
  match newkey_index dev ic l k with
  | Some k' => wk_cipher k' = wk_cipher k /\ wk_private k' = wk_private k /\ wk_flags k' = wk_flags k /\ same_material k k'
  | None => wk_keyix k = IEEE80211_KEYIX_NONE
  end.
Proof.
  unfold newkey_index, same_material. destruct (_ =? _) eqn:E; [|done]. apply Z.eqb_eq in E.
  by destruct (cs_key_alloc dev ic l k) as [[? ?]|].
Qed.

(** ** Flags *)

(** The usage bits are the caller's, and a cipher the device lacks is done in software. *)
Definition flags_ok (ic : ieee80211com) (cipher flags f : Z) : Prop :=
  Z.land f IEEE80211_KEY_COMMON = Z.land flags IEEE80211_KEY_COMMON /\
  (Z.land (ic_caps ic) (Z.shiftl 1 cipher) = 0 -> has_flag f IEEE80211_KEY_SWCRYPT = true).

Lemma has_flag_lor f g b : has_flag f b = true -> has_flag (Z.lor f g) b = true.
Proof.
  unfold has_flag. rewrite !negb_true_iff, !Z.eqb_neq, Z.land_lor_distr_l, Z.lor_eq_0_iff. tauto.
Qed.
Lemma has_flag_set f b : b <> 0 -> has_flag (Z.lor f b) b = true.
Proof.
  unfold has_flag. intros. rewrite negb_true_iff, Z.eqb_neq, Z.land_lor_distr_l, Z.lor_eq_0_iff, Z.land_diag. tauto.
Qed.
Lemma land_common_lor f g :
  Z.land g IEEE80211_KEY_COMMON = 0 -> Z.land (Z.lor f g) IEEE80211_KEY_COMMON = Z.land f IEEE80211_KEY_COMMON.
Proof. intros E. by rewrite Z.land_lor_distr_l, E, Z.lor_0_r. Qed.

Lemma flags_ok_lor ic cipher flags f g :
  Z.land g IEEE80211_KEY_COMMON = 0 -> flags_ok ic cipher flags f -> flags_ok ic cipher flags (Z.lor f g).
Proof.
  intros E [C S]. split; [by rewrite land_common_lor|]. intros Hc. by apply has_flag_lor, S.
Qed.

Lemma newkey_flags_ok ic cipher flags : flags_ok ic cipher flags (newkey_flags ic cipher flags).
Proof.
  unfold newkey_flags. set (f := Z.land flags _).
  assert (Hf : Z.land f IEEE80211_KEY_COMMON = Z.land flags IEEE80211_KEY_COMMON).
  { unfold f. by rewrite <- Z.land_assoc, Z.land_diag. }
  cbv zeta. assert (H : flags_ok ic cipher flags
    (if Z.land (ic_caps ic) (Z.shiftl 1 cipher) =? 0 then Z.lor f IEEE80211_KEY_SWCRYPT else f)).
  { destruct (_ =? 0) eqn:E; split.
    - by rewrite land_common_lor.
    - intros _. by apply has_flag_set.
    - done.
    - apply Z.eqb_neq in E. done. }
  destruct (_ && _); [by apply flags_ok_lor|done].
Qed.

Lemma table_lookup tbl cipher :
  table_wf tbl -> 0 <= cipher -> (IEEE80211_CIPHER_MAX <=? cipher) = false -> is_Some (tbl !! Z.to_nat cipher).
Proof. intros [L _] ? E. apply lookup_lt_is_Some. apply Z.leb_gt in E. rewrite L. lia. Qed.

(** What [ieee80211_crypto_newkey] leaves behind, on every path. *)
Definition newkey_post (tbl : cipher_table) (km : kmem) (ic : ieee80211com) (cipher flags : Z) (key : ieee80211_key)
    (ok : bool) (key' : ieee80211_key) (ic' : ieee80211com) (km' : kmem) : Prop :=
  key_wf key' /\ accounted km km' key key' /\ same_material key key' /\ ic_nw_keys ic' = ic_nw_keys ic /\
  (ok = true -> tbl !! Z.to_nat cipher = Some (wk_cipher key') /\ flags_ok ic cipher flags (wk_flags key')).

Lemma key_wf_ext k k' :
  wk_cipher k' = wk_cipher k -> wk_private k' = wk_private k -> key_wf k -> key_wf k'.
Proof. unfold key_wf. by intros -> ->. Qed.
Lemma same_material_trans a b c : same_material a b -> same_material b c -> same_material a c.
Proof. unfold same_material. intros (-> & -> & -> & ->). done. Qed.
Lemma accounted_trans km km1 km2 a b c : accounted km km1 a b -> accounted km1 km2 b c -> accounted km km2 a c.
Proof. unfold accounted. lia. Qed.

(** A key that keeps its cipher and gets an index, or fails to. *)
Lemma newkey_post_index dev tbl km ic ic1 km1 cipher flags key key1 l cip :
  key_wf key1 -> accounted km km1 key key1 -> same_material key key1 -> ic_nw_keys ic1 = ic_nw_keys ic ->
  tbl !! Z.to_nat cipher = Some (Some cip) -> wk_cipher key1 = Some cip -> flags_ok ic cipher flags (wk_flags key1) ->
  match newkey_index dev ic1 l key1 with
  | Some key2 => newkey_post tbl km ic cipher flags key true key2 ic1 km1
  | None => forall ic2, ic_nw_keys ic2 = ic_nw_keys ic1 -> newkey_post tbl km ic cipher flags key false key1 ic2 km1
  end.
Proof.
  intros W A M N T C F. pose proof (newkey_index_spec dev ic1 l key1) as I.
  destruct (newkey_index dev ic1 l key1) as [key2|].
  - destruct I as (C2 & P2 & F2 & M2). split; [by apply (key_wf_ext key1)|]. split; [|split; [|split; [done|]]].
    + unfold accounted in *. by rewrite C2.
    + by apply (same_material_trans _ key1).
    + intros _. by rewrite C2, C, F2.
  - intros ic2 E. unfold newkey_post. rewrite E. done.
Qed.

Lemma newkey_ok dev tbl km ic l cipher flags key :
  key_wf key -> table_wf tbl -> 0 <= cipher ->
  exists ok key' ic' km', ieee80211_crypto_newkey dev tbl km ic l cipher flags key = Ok (ok, key', ic', km') /\
    newkey_post tbl km ic cipher flags key ok key' ic' km'.
Proof.
  intros Hk Ht Hc. assert (Hid : forall s, newkey_post tbl km ic cipher flags key false key (stat_inc ic s) km)
    by (intros s; unfold newkey_post, accounted, same_material; by split_and!).
  unfold ieee80211_crypto_newkey. destruct (_ <=? cipher) eqn:Eb; [by eexists _, _, _, _|].
  replace (cipher <? 0) with false by lia.
  destruct (table_lookup tbl cipher Ht Hc Eb) as [[cip|] Et]; rewrite Et; [|by eexists _, _, _, _].
  set (f := newkey_flags ic cipher flags). pose proof (newkey_flags_ok ic cipher flags) as Hf. fold f in Hf.
  (* the first binding *)
  assert (B : exists ok k1 ic1 km1,
    (if bool_decide (wk_cipher key = Some cip) && (wk_flags key =? f) then Ok (true, key, ic, km)
     else newkey_bind km ic key cip f (wk_flags key)) = Ok (ok, k1, ic1, km1) /\
    key_wf k1 /\ accounted km km1 key k1 /\ same_material key k1 /\ ic_nw_keys ic1 = ic_nw_keys ic /\
    (ok = true -> wk_cipher k1 = Some cip /\ wk_flags k1 = f)).
  { destruct (bool_decide _ && _) eqn:E.
    - apply andb_true_iff in E as [E1 E2]. apply bool_decide_eq_true in E1. apply Z.eqb_eq in E2.
      eexists _, _, _, _. split; [done|]. unfold accounted, same_material. by split_and!.
    - destruct (newkey_bind_spec km ic key cip f (wk_flags key) Hk) as (ok & k1 & ic1 & km1 & -> & ? & ? & ? & ? & _ & R).
      eexists _, _, _, _. split; [done|]. split_and!; try done; destruct ok; naive_solver. }
  cbv zeta. fold f. destruct B as (ok & k1 & ic1 & km1 & -> & W1 & A1 & M1 & N1 & R1). cbn [res_bind].
  destruct ok; cbn [negb]; [|by eexists _, _, _, _].
  destruct (R1 eq_refl) as [C1 F1]. rewrite <- F1 in Hf.
  pose proof (newkey_post_index dev tbl km ic ic1 km1 cipher flags key k1 l cip W1 A1 M1 N1 Et C1 Hf) as I.
  destruct (newkey_index dev ic1 l k1) as [k2|]; [by eexists _, _, _, _|].
  destruct (has_flag (wk_flags k1) IEEE80211_KEY_SWCRYPT); [eexists _, _, _, _; split; [done|by apply I]|]. clear I.
  (* software fallback *)
  set (f2 := if cipher =? IEEE80211_CIPHER_TKIP then _ else _).
  assert (Hf2 : flags_ok ic cipher flags f2).
  { rewrite F1 in Hf. unfold f2. destruct (_ =? _); repeat apply flags_ok_lor; done. }
  destruct (newkey_bind_spec km1 (stat_inc ic1 is_crypto_swfallback) k1 cip f2 (wk_flags k1) W1)
    as (ok & k2 & ic2 & km2 & -> & W2 & A2 & M2 & N2 & _ & R2). cbn [res_bind].
  assert (A : accounted km km2 key k2) by (by apply (accounted_trans _ km1 _ _ k1)).
  assert (M : same_material key k2) by (by apply (same_material_trans _ k1)).
  assert (N : ic_nw_keys ic2 = ic_nw_keys ic) by (by rewrite N2).
  destruct ok; cbn [negb]; [|by eexists _, _, _, _]. destruct R2 as [C2 F2]. rewrite <- F2 in Hf2.
  pose proof (newkey_post_index dev tbl km ic ic2 km2 cipher flags key k2 l cip W2 A M N Et C2 Hf2) as I.
  destruct (newkey_index dev ic2 l k2) as [k3|]; eexists _, _, _, _; (split; [done|]); [exact I|by apply I].
Qed.

Lemma delkey_ok dev km ic key :
  key_wf key ->
  exists ic' km', crypto_delkey dev km ic key =
      Ok (ieee80211_crypto_resetkey zero_key IEEE80211_KEYIX_NONE, ic', km') /\
    ic_nw_keys ic' = ic_nw_keys ic /\ k_live km' = k_live km - ctx_of key.
Proof.
  intros Hk. destruct (key_wf_cipher key Hk) as [c Ec]. unfold crypto_delkey. rewrite Ec.
  eexists _, _. split; [done|]. rewrite ic_detach_live. split; [by destruct (_ || _)|done].
Qed.

Lemma setkey_ok dev ic key mac :
  key_wf key -> (16 <= length (wk_key key))%nat -> bytes (wk_key key) ->
  exists ok key' ic', ieee80211_crypto_setkey dev ic key mac = Ok (ok, key', ic') /\
    key_wf key' /\ wk_cipher key' = wk_cipher key /\ wk_key key' = wk_key key /\ ic_nw_keys ic' = ic_nw_keys ic.
Proof.
  intros Hk Hl Hb. destruct (key_wf_cipher key Hk) as [c Ec]. unfold ieee80211_crypto_setkey. rewrite Ec.
  assert (H : exists ok key', ic_setkey c key = Ok (ok, key') /\ key_wf key' /\ wk_cipher key' = Some c /\
    wk_key key' = wk_key key).
  { destruct c; cbn [ic_setkey]; try by eexists _, _.
    - unfold tkip_setkey. destruct (negb _); eexists _, _; (split; [done|]); (split; [exact Hk|done]).
    - unfold ccmp_setkey, ccmp_ctx. unfold key_wf in Hk. rewrite Ec in Hk. destruct (wk_private key) eqn:Ep; try done.
      cbn [res_bind]. destruct (negb _); [eexists _, _; split; [done|]; unfold key_wf; by rewrite Ec, Ep|].
      destruct (has_flag _ _); [|eexists _, _; split; [done|]; unfold key_wf; by rewrite Ec, Ep].
      eexists _, _. split; [reflexivity|]. unfold key_wf. cbn. by rewrite Ec. }
  destruct H as (ok & key' & -> & W & C & K). cbn [res_bind].
  destruct ok; cbn [negb]; [|by eexists _, _, _].
  destruct (_ =? _); by eexists _, _, _.
Qed.

(** ** Histories of the global key table *)

Definition key_ok (k : ieee80211_key) : Prop :=
  key_wf k /\ length (wk_key k) = (IEEE80211_KEYBUF_SIZE + IEEE80211_MICBUF_SIZE)%nat /\ bytes (wk_key k).

(** New contents for a key, which the callers write before [ieee80211_crypto_setkey]. *)
Definition load_key (k : ieee80211_key) (keylen : nat) (key : list Z) (rsc tsc : Z) : ieee80211_key :=
  mkKey keylen (wk_flags k) (wk_keyix k) (wk_rxkeyix k) key rsc tsc (wk_cipher k) (wk_private k).

Section Histories.
Context (dev : key_ops) (tbl : cipher_table).

(** One call on entry [i] of the table, whatever its outcome. *)
Inductive key_step : ieee80211com * kmem -> ieee80211com * kmem -> Prop :=
| step_newkey ic km i k cipher flags ok k' ic' km' :
    ic_nw_keys ic !! i = Some k -> 0 <= cipher ->
    ieee80211_crypto_newkey dev tbl km ic (KNw i) cipher flags k = Ok (ok, k', ic', km') ->
    key_step (ic, km) (set_nw_key ic' i k', km')
| step_setkey ic km i k mac ok k' ic' keylen key rsc tsc :
    ic_nw_keys ic !! i = Some k ->
    length key = (IEEE80211_KEYBUF_SIZE + IEEE80211_MICBUF_SIZE)%nat -> bytes key ->
    ieee80211_crypto_setkey dev ic (load_key k keylen key rsc tsc) mac = Ok (ok, k', ic') ->
    key_step (ic, km) (set_nw_key ic' i k', km)
| step_delkey ic km i k k' ic' km' :
    ic_nw_keys ic !! i = Some k ->
    ieee80211_crypto_delkey dev km ic k = Ok (k', ic', km') ->
    key_step (ic, km) (set_nw_key ic' i k', km').

(** Contexts held by the keys of the table. *)
Definition table_ctxs (ks : list ieee80211_key) : Z := foldr (fun k n => ctx_of k + n) 0 ks.

Lemma table_ctxs_insert ks i k k' :
  ks !! i = Some k -> table_ctxs (<[i := k']> ks) = table_ctxs ks - ctx_of k + ctx_of k'.
Proof.
  revert i. induction ks as [|a ks IH]; intros [|i]; cbn [lookup list_lookup]; try done.
  - intros [= ->]. change (<[0%nat := k']> (k :: ks)) with (k' :: ks). unfold table_ctxs. cbn [foldr]. lia.
  - intros E. pose proof (IH i E) as H. change (<[S i := k']> (a :: ks)) with (a :: <[i := k']> ks).
    unfold table_ctxs in *. cbn [foldr]. lia.
Qed.

(** The invariant: four well-formed keys, and every live context is held by one of them
    ([n] contexts belong to others). *)
Definition keys_inv (n : Z) (s : ieee80211com * kmem) : Prop :=
  length (ic_nw_keys s.1) = IEEE80211_WEP_NKID /\ Forall key_ok (ic_nw_keys s.1) /\
  k_live s.2 = n + table_ctxs (ic_nw_keys s.1).

Lemma keys_inv_put n ic ic' km km' i k k' :
  keys_inv n (ic, km) -> ic_nw_keys ic !! i = Some k -> ic_nw_keys ic' = ic_nw_keys ic -> key_ok k' ->
  accounted km km' k k' -> keys_inv n (set_nw_key ic' i k', km').
Proof.
  intros (L & F & N) E Ek Hk A. unfold keys_inv, accounted in *. cbn [fst snd set_nw_key ic_nw_keys] in *.
  rewrite Ek, length_insert, (table_ctxs_insert _ i k k' E). split; [done|]. split; [|lia].
  apply Forall_insert; [done|done].
Qed.

Hypothesis Htbl : table_wf tbl.

Lemma key_step_inv n s s' : keys_inv n s -> key_step s s' -> keys_inv n s'.
Proof.
  intros I St. destruct St as [ic km i k cipher flags ok k' ic' km' E Hc R
                              |ic km i k mac ok k' ic' keylen key rsc tsc E Hl Hb R|ic km i k k' ic' km' E R];
    pose proof I as (_ & F & _); pose proof (proj1 (Forall_lookup _ _) F i k E) as (Wk & Lk & Bk).
  - destruct (newkey_ok dev tbl km ic (KNw i) cipher flags k Wk Htbl Hc) as (? & ? & ? & ? & R' & W & A & M & N & _).
    rewrite R in R'. injection R' as <- <- <- <-. apply (keys_inv_put n ic _ km _ i k); try done.
    destruct M as (Mk & _). unfold key_ok. by rewrite Mk.
  - destruct (setkey_ok dev ic (load_key k keylen key rsc tsc) mac) as (? & ? & ? & R' & W & C & K & N);
      [exact Wk|cbn [wk_key load_key]; rewrite Hl; cbn; lia|done|].
    rewrite R in R'. injection R' as <- <- <-. apply (keys_inv_put n ic _ km _ i k); try done.
    + unfold key_ok. by rewrite K.
    + unfold accounted. rewrite C. cbn [wk_cipher load_key]. lia.
  - destruct (delkey_ok dev km ic k Wk) as (? & ? & R' & N & A). unfold ieee80211_crypto_delkey in R.
    rewrite R in R'. injection R' as -> <- <-. apply (keys_inv_put n ic _ km _ i k); try done.
    + split; [done|]. split; [done|]. cbn [wk_key ieee80211_crypto_resetkey zero_key]. apply Forall_replicate. by split.
    + unfold accounted. rewrite A. cbn. lia.
Qed.

(** Deleting entries one by one. *)
Lemma delglobal_ok n ixs ic km :
  keys_inv n (ic, km) -> Forall (fun i => i < IEEE80211_WEP_NKID)%nat ixs ->
  exists ic' km', delglobal_loop dev km ic ixs = Ok (ic', km') /\ keys_inv n (ic', km') /\
    forall i k, ic_nw_keys ic' !! i = Some k -> ctx_of k = 0 \/ ((i ∉ ixs) /\ ic_nw_keys ic !! i = Some k).
Proof.
  revert ic km. induction ixs as [|i ixs IH]; intros ic km I Hi; [eexists _, _; split; [done|]|].
  { split; [done|]. intros j kj Ej. right. split; [apply not_elem_of_nil|done]. }
  inversion_clear Hi as [|? ? Hlt Hr]. pose proof I as (L & F & _). cbn [fst snd] in *.
  destruct (lookup_lt_is_Some_2 (ic_nw_keys ic) i ltac:(lia)) as [k E]. cbn [delglobal_loop]. rewrite E.
  pose proof (proj1 (Forall_lookup _ _) F i k E) as (Wk & _).
  assert (St : key_step (ic, km) (match crypto_delkey dev km ic k with Ok (k', ic', km') => (set_nw_key ic' i k', km') | _ => (ic, km) end)).
  { destruct (delkey_ok dev km ic k Wk) as (ic1 & km1 & R & _). rewrite R. by apply (step_delkey ic km i k). }
  destruct (delkey_ok dev km ic k Wk) as (ic1 & km1 & R & N1 & _). rewrite R in *. cbn [res_bind].
  destruct (IH _ _ (key_step_inv n _ _ I St) Hr) as (ic' & km' & -> & I' & P). eexists _, _. split; [done|]. split; [done|].
  intros j kj Ej. destruct (P j kj Ej) as [?|[Hn Eo]]; [by left|]. cbn [set_nw_key ic_nw_keys] in Eo.
  destruct (decide (i = j)) as [<-|Hij].
  - rewrite list_lookup_insert_eq in Eo by (rewrite N1; lia). injection Eo as <-. by left.
  - rewrite list_lookup_insert_ne, N1 in Eo by done. right. split; [|done]. by apply not_elem_of_cons.
Qed.
End Histories.

Lemma attach_table_wf tbl : table_wf tbl -> table_wf (<[Z.to_nat IEEE80211_CIPHER_NONE := Some cipher_none]> tbl).
Proof.
  unfold table_wf, cipher_table in *. intros [L W]. split; [by rewrite length_insert|]. intros i c E. destruct (decide (i = Z.to_nat IEEE80211_CIPHER_NONE)) as [->|].
  - rewrite list_lookup_insert_eq in E by (rewrite L; by apply Nat.ltb_lt). by injection E as <-.
  - rewrite list_lookup_insert_ne in E by done. by apply W.
Qed.

Lemma table_ctxs_zero ks : (forall i k, ks !! i = Some k -> ctx_of k = 0) -> table_ctxs ks = 0.
Proof.
  induction ks as [|a ks IH]; intros H; [done|].
  change (table_ctxs (a :: ks)) with (ctx_of a + table_ctxs ks).
  rewrite (H 0%nat a eq_refl), IH; [lia|]. intros i k. apply (H (S i)).
Qed.

Lemma attach_inv tbl ic km tbl' ic1 ops :
  length (ic_nw_keys ic) = IEEE80211_WEP_NKID ->
  Forall (fun k => length (wk_key k) = 32%nat /\ bytes (wk_key k)) (ic_nw_keys ic) ->
  ieee80211_crypto_attach tbl ic = (tbl', ic1, ops) -> keys_inv (k_live km) (ic1, km).
Proof.
  intros L F [= <- <- <-]. unfold keys_inv. cbn [fst snd ic_nw_keys]. rewrite length_map. split; [done|]. split.
  - apply Forall_map. revert F. apply Forall_impl. by intros k [? ?].
  - rewrite table_ctxs_zero; [lia|]. intros i k E. rewrite list_lookup_fmap in E.
    destruct (ic_nw_keys ic !! i); [|done]. by injection E as <-.
Qed.


(** The table of a kernel with all modules, and a driver with room for everything. *)
Definition sample_table : cipher_table :=
  [Some cipher_wep; Some cipher_tkip; None; Some cipher_ccmp; None; None; None].
Definition sample_keys_com : ieee80211com := mkCom true 0 0 (fun _ => 0) (replicate 4 zero_key) 0 4 [].

Lemma sample_table_wf : table_wf sample_table.
Proof. split; [done|]. intros i c E. do 7 (destruct i as [|i]; [cbn in E; by (discriminate E || (injection E as <-))|]). done. Qed.


(** [ieee80211_crypto_newkey] on a well-formed key never faults,
    whatever memory and driver do.  On every outcome the key stays
    well-formed, holds exactly the contexts accounted to it, and keeps its
    material and counters; on success it is bound to the cipher asked for,
    with the caller's usage flags, and marked for software crypto when the
    device lacks the cipher. *)
Theorem crypto_newkey_sound (dev : key_ops) (tbl : cipher_table) (km : kmem) (ic : ieee80211com) (l : kloc)
    (cipher flags : Z) (key : ieee80211_key) (Hk : key_wf key) (Ht : table_wf tbl) (Hc : 0 <= cipher) :
  exists (ok : bool) key' ic' km', ieee80211_crypto_newkey dev tbl km ic l cipher flags key = Ok (ok, key', ic', km') /\
    key_wf key' /\ k_live km' - ctx_of key' = k_live km - ctx_of key /\ same_material key key' /\
    ic_nw_keys ic' = ic_nw_keys ic /\
    (ok = true -> tbl !! Z.to_nat cipher = Some (wk_cipher key') /\
       Z.land (wk_flags key') IEEE80211_KEY_COMMON = Z.land flags IEEE80211_KEY_COMMON /\
       (Z.land (ic_caps ic) (Z.shiftl 1 cipher) = 0 -> has_flag (wk_flags key') IEEE80211_KEY_SWCRYPT = true)).
Proof. exact (newkey_ok dev tbl km ic l cipher flags key Hk Ht Hc). Qed.

(** A driver without room: the key of a device that claims WEP falls back to software and still fails. *)
Definition full_driver : key_ops :=
  {| cs_key_alloc := fun _ _ _ => None; cs_key_delete := null_key_delete; cs_key_set := null_key_set |}.
Lemma crypto_newkey_sound_witness :
  exists (ok : bool) key' ic' km',
    ieee80211_crypto_newkey full_driver sample_table (mkKmem [Some 1; Some 2] 0) (mkCom true 0 1 (fun _ => 0) [] 0 4 [])
      KUcast IEEE80211_CIPHER_WEP 3 (ieee80211_crypto_resetkey zero_key IEEE80211_KEYIX_NONE) = Ok (ok, key', ic', km') /\
    ok = false /\ wk_private key' = priv_wep 2 /\ k_live km' = 1 /\ k_live km' - ctx_of key' = 0 - 0.
Proof.
  destruct (crypto_newkey_sound full_driver sample_table (mkKmem [Some 1; Some 2] 0) (mkCom true 0 1 (fun _ => 0) [] 0 4 [])
      KUcast IEEE80211_CIPHER_WEP 3 (ieee80211_crypto_resetkey zero_key IEEE80211_KEYIX_NONE) I sample_table_wf ltac:(done))
    as (ok & key' & ic' & km' & R & _ & A & _). exists ok, key', ic', km'. split; [exact R|].
  assert (E : (fun r => match r with Ok (o, k, _, m) => (o, wk_private k, k_live m) | _ => (true, priv_null, 0) end)
    (ieee80211_crypto_newkey full_driver sample_table (mkKmem [Some 1; Some 2] 0) (mkCom true 0 1 (fun _ => 0) [] 0 4 [])
      KUcast IEEE80211_CIPHER_WEP 3 (ieee80211_crypto_resetkey zero_key IEEE80211_KEYIX_NONE)) = (false, priv_wep 2, 1))
    by (vm_compute; reflexivity).
  rewrite R in E. injection E as -> Ep El. split; [done|]. split; [done|]. split; [done|exact A].
Defined.
