(* ===== verification/CryptoFrame.v ===== *)
(** * Frames through the key layer: the cipher interface

    [lossless] is what [ieee80211_crypto_encap] and [ieee80211_crypto_decap]
    rely on from a cipher module.  The three modules are instances; the round
    trip of whole frames is proved once, against the interface. *)

From S2P Require Import Prelude Buffers Mbuf MbufProof AesCcmProof AesCcmRfc AesCcmMbuf Ieee80211 FrameProof Ccmp CcmpProof.
From S2P Require Import Rc4 Rc4Proof Wep WepProof Tkip TkipProof Crypto CryptoProof.

(** ** The interface *)

(** A frame as the cipher modules get it: [hdrlen] bytes of 802.11 header,
    room for the privacy header in the same mbuf, and a payload. *)
Record room_ok (c : cipher) (ic : ieee80211com) (m : list mbuf) (hdrlen : nat) : Prop := mkRoom {
  room_pkt : pkt_ok m;
  room_hdr : head_pkthdr m = true;
  room_space : match m with x :: _ => ieee80211_hdrspace ic (mtod x) = Ok hdrlen /\ (hdrlen + ic_header c <= m_len x)%nat
               | [] => False end;
  room_payload : (hdrlen + ic_header c < length (content m))%nat;
  room_short : Z.of_nat (length (content m) - (hdrlen + ic_header c)) < 65536;
}.

(** The same frame as it arrives: any layout with the headers in the first
    mbuf and the last four bytes in one mbuf. *)
Record arrived (c : cipher) (ic : ieee80211com) (air : list Z) (m : list mbuf) (hdrlen : nat) : Prop := mkArrived {
  arr_pkt : pkt_ok m;
  arr_hdr : head_pkthdr m = true;
  arr_content : content m = air;
  arr_space : match m with
              | x :: rs => ieee80211_hdrspace ic (mtod x) = Ok hdrlen /\ (hdrlen + ic_header c <= m_len x)%nat /\
                           (4 <= m_len (List.last rs x))%nat
              | [] => False end;
}.

(** [tx ic k ta] says that [k] can send from address [ta]; [rx k ic2 k2 ta] that
    [k2] can receive what [k] sends next.  On the air the frame has its header,
    the key index, and the bytes the cipher adds. *)
Definition air_ok (c : cipher) (tx : ieee80211com -> ieee80211_key -> list Z -> Prop) : Prop :=
  forall ic h k m keyid hdrlen k' m' ic' h',
    room_ok c ic m hdrlen -> is_u8 keyid -> tx ic k (i_addr2 (content m)) ->
    ic_encap c ic h k m keyid = Ok (true, k', m', ic', h') ->
    pkt_ok m' /\ length (content m') = (length (content m) + ic_trailer c)%nat /\
    take hdrlen (content m') = take hdrlen (content m) /\
    Z.shiftr (byte_at (content m') (hdrlen + 3)) 6 = Z.shiftr keyid 6.
Class lossless (c : cipher) (tx : ieee80211com -> ieee80211_key -> list Z -> Prop)
    (rx : ieee80211_key -> ieee80211com -> ieee80211_key -> list Z -> Prop) : Prop := {
  lossless_air : air_ok c tx;
  lossless_decap : forall ic h k m keyid hdrlen k' m' ic' h' ic2 k2 y,
    room_ok c ic m hdrlen -> is_u8 keyid -> tx ic k (i_addr2 (content m)) ->
    ic_encap c ic h k m keyid = Ok (true, k', m', ic', h') ->
    rx k ic2 k2 (i_addr2 (content m)) -> arrived c ic2 (content m') y hdrlen ->
    exists k2' c2 ic2', ic_decap c ic2 k2 y hdrlen = Ok (true, k2', c2, ic2') /\ pkt_ok c2 /\
      content c2 = take hdrlen (content m) ++ drop (hdrlen + ic_header c) (content m) /\ keeps_head (ic_header c) y c2 /\
      wk_cipher k2' = wk_cipher k2 /\ ic_nw_keys ic2' = ic_nw_keys ic2;
}.

(** ** CCMP *)

Definition ccmp_tx (key : list Z) (ic : ieee80211com) (k : ieee80211_key) (ta : list Z) : Prop :=
  ccmp_ready k key /\ 0 <= wk_keytsc k < 2 ^ 48 - 1.
Definition ccmp_peer (key : list Z) (k : ieee80211_key) (ic2 : ieee80211com) (k2 : ieee80211_key) (ta : list Z) : Prop :=
  ccmp_ready k2 key /\ wk_keyrsc k2 < wk_keytsc k + 1.

Lemma keyid_bits a : Z.shiftr (u8 (Z.lor a IEEE80211_WEP_EXTIV)) 6 = Z.shiftr (u8 a) 6.
Proof.
  unfold u8, IEEE80211_WEP_EXTIV. rewrite Z.land_lor_distr_l, Z.shiftr_lor. change (Z.shiftr (Z.land 32 255) 6) with 0.
  apply Z.lor_0_r.
Qed.

(** What the modules put on the air, seen by the interface. *)
Lemma air_shape (hdr iv d : list Z) hdrlen n :
  length hdr = hdrlen -> length iv = n -> (3 < n)%nat ->
  length (hdr ++ iv ++ d) = (hdrlen + n + length d)%nat /\ take hdrlen (hdr ++ iv ++ d) = hdr /\
  byte_at (hdr ++ iv ++ d) (hdrlen + 3) = byte_at iv 3.
Proof.
  intros <- <- Hn. rewrite !length_app. split; [lia|]. split; [by rewrite take_app_length|].
  unfold byte_at. rewrite app_nth2 by lia. replace (length hdr + 3 - length hdr)%nat with 3%nat by lia.
  by rewrite app_nth1.
Qed.

(** Decryption in place and removal of the headers leave the first mbuf as it was, but for these. *)
Lemma strip_shape a y rs hdrlen hn tn : pkt_ok a -> shape a = shape (y :: rs) -> (hdrlen + hn <= m_len y)%nat ->
  keeps_head hn (y :: rs) (strip_crypto a hdrlen hn tn).
Proof.
  intros O S H. destruct a as [|z a]; [done|]. cbn [shape map] in S. injection S as Sf _ Sl _ _ _.
  destruct (strip_keeps z a hdrlen hn tn O) as [P K]; [lia|]. split; [|cbn [head_len] in *; by rewrite <- Sl].
  rewrite P. cbn [head_pkthdr]. unfold has_pkthdr. by rewrite Sf.
Qed.
Lemma ccmp_decap_keeps ic k key x rest hdrlen k' c' ic' :
  pkt_ok (x :: rest) -> has_pkthdr x = true -> ccmp_ready k key ->
  ieee80211_hdrspace ic (mtod x) = Ok hdrlen -> (hdrlen + 8 <= m_len x)%nat ->
  (hdrlen + 16 <= length (content (x :: rest)))%nat -> Z.of_nat (length (content (x :: rest)) - (hdrlen + 16)) < 65536 ->
  ccmp_decap ic k (x :: rest) hdrlen = Ok (true, k', c', ic') -> keeps_head 8 (x :: rest) c'.
Proof.
  intros Hok Hp Hr Hhs Hh Hge Hlen. destruct (ccmp_ready_impl k key Hr) as (rk & Hctx & _). unfold ccmp_decap. rewrite Hctx.
  cbn [res_bind]. destruct (_ =? 0); [done|]. cbv zeta. set (pn := READ_6 _ _ _ _ _ _). destruct (pn <=? _); [done|].
  pose proof Hr as (_ & _ & Hsw & _). rewrite Hsw.
  destruct (ccmp_decrypt_ok ic k key x rest hdrlen pn Hok Hp Hr Hhs Hh Hge Hlen) as (c1 & -> & O1 & S1 & _).
  destruct (bool_decide _); cbn [res_bind negb]; [|done]. intros [= _ <- _]. by apply strip_shape.
Qed.

Lemma ccmp_air_ok key : air_ok cipher_ccmp (ccmp_tx key).
Proof.
  intros ic h k m keyid hdrlen k' m' ic' h' R Hid [Hr Ht] E.
  destruct m as [|x rest]; [by destruct R as [_ ? _ _ _]|].
  destruct R as [P1 P2 [P3 P4] P5 P6]. change (ic_header cipher_ccmp) with 8%nat in *.
  destruct (ccmp_encap_ok ic h k key x rest hdrlen keyid P1 P2 Hr P3 P4 P5 P6)
    as (ok & c' & h1 & d & rem & E' & O & _ & Ed & Ec & Eok & _).
  cbn [ic_encap] in E. rewrite E in E'. injection E' as <- -> -> -> ->.
  assert (rem = []) as -> by (by apply Eok). rewrite app_nil_r in Ed. split; [done|]. subst d.
  assert (Hl : length (take hdrlen (content (x :: rest))) = hdrlen) by (rewrite length_take; lia).
  pose proof (length_frame_mic ic k key x rest hdrlen (u64 (wk_keytsc k + 1)) P1 Hr P3 P4) as Hm.
  destruct (air_shape _ (ccmp_iv (u64 (wk_keytsc k + 1)) keyid) (ccmp_crypt key (take hdrlen (content (x :: rest)))
    (u64 (wk_keytsc k + 1)) (drop (hdrlen + 8) (content (x :: rest))) ++ ccmp_mic key (take hdrlen (content (x :: rest)))
    (u64 (wk_keytsc k + 1)) (drop (hdrlen + 8) (content (x :: rest)))) hdrlen 8 Hl eq_refl) as (L & T & B); [lia|].
  rewrite Ec, L, T, B, length_app, Hm. unfold ccmp_crypt, rfc_crypt. rewrite length_xor_stream, length_drop.
  split; [change (ic_trailer cipher_ccmp) with 8%nat; lia|]. split; [done|].
  unfold ccmp_iv, byte_at. cbn [nth]. rewrite keyid_bits. by rewrite u8_id.
Qed.
#[export] Instance ccmp_lossless key : lossless cipher_ccmp (ccmp_tx key) (ccmp_peer key).
Proof.
  split; [apply ccmp_air_ok|].
  intros ic h k m keyid hdrlen k' m' ic' h' ic2 k2 y R Hid [Hr Ht] E [Hr2 Hs] A.
  destruct (ccmp_air_ok key ic h k m keyid hdrlen k' m' ic' h' R Hid (conj Hr Ht) E) as (_ & L & _). change (ic_trailer cipher_ccmp) with 8%nat in L.
  destruct m as [|x rest]; [by destruct R as [_ ? _ _ _]|]. destruct y as [|y rs]; [by destruct A as [_ ? _ _]|].
  destruct R as [P1 P2 [P3 P4] P5 P6]. destruct A as [A1 A2 A3 (A4 & A5 & A6)].
  destruct (ccmp_roundtrip ic ic2 h h' k k' k2 key x rest m' ic' hdrlen keyid y rs) as (c2 & Ed & O & Ec); try done.
  eexists _, c2, _. split; [exact Ed|]. split; [done|]. split; [done|].
  change (ic_header cipher_ccmp) with 8%nat in *.
  split; [|done]. refine (ccmp_decap_keeps ic2 k2 key y rs hdrlen _ _ _ A1 A2 Hr2 A4 A5 _ _ Ed); rewrite A3; lia.
Qed.

(** ** WEP *)

Definition wep_tx (ic : ieee80211com) (k : ieee80211_key) (ta : list Z) : Prop := wep_ready k.
Definition wep_peer (k : ieee80211_key) (ic2 : ieee80211com) (k2 : ieee80211_key) (ta : list Z) : Prop :=
  wep_ready k2 /\ wk_key k2 = wk_key k /\ wk_keylen k2 = wk_keylen k.

Lemma wep_air_ok : air_ok cipher_wep wep_tx.
Proof.
  intros ic h k m keyid hdrlen k' m' ic' h' R Hid Hr E.
  destruct m as [|x rest]; [by destruct R as [_ ? _ _ _]|]. pose proof Hr as (_ & _ & iv & Hp & _).
  destruct R as [P1 P2 [P3 P4] P5 P6]. change (ic_header cipher_wep) with 4%nat in *.
  pose proof (hdrspace_bounds _ _ _ P3) as [Hb _].
  destruct (wep_encap_ok ic h k x rest hdrlen keyid iv P1 P2 Hr Hp P3 P4) as (ok & c' & h1 & d & rem & E' & O & _ & Ed & Ec & Eok & _);
    [lia|done|].
  cbn [ic_encap] in E. rewrite E in E'. injection E' as <- -> -> -> ->.
  assert (rem = []) as -> by (by apply Eok). rewrite app_nil_r in Ed. split; [done|].
  assert (Hl : length (take hdrlen (content (x :: rest))) = hdrlen) by (rewrite length_take; lia).
  destruct (air_shape _ (wep_ivp (wep_iv iv) keyid) d hdrlen 4 Hl eq_refl) as (L & T & B); [lia|].
  rewrite Ec, L, T, B, <- Ed, length_wep_seal, length_drop.
  split; [change (ic_trailer cipher_wep) with 4%nat; lia|]. split; [done|].
  unfold wep_ivp, byte_at. cbn [nth]. by rewrite ?u8_id.
Qed.
Lemma wep_decap_keeps ic k x rest hdrlen c' ic' :
  pkt_ok (x :: rest) -> has_pkthdr x = true -> wep_ready k -> (hdrlen + 4 <= m_len x)%nat ->
  Z.of_nat (length (content (x :: rest))) < 2 ^ 32 ->
  (hdrlen + 8 <= length (content (x :: rest)))%nat -> (4 <= m_len (List.last rest x))%nat ->
  wep_decap ic k (x :: rest) hdrlen = Ok (true, c', ic') -> keeps_head 4 (x :: rest) c'.
Proof.
  intros Hok Hp Hr Hm Hlt Hge Hlast. unfold wep_decap. pose proof Hr as (_ & Hsw & _). rewrite Hsw.
  destruct (wep_decrypt_ok ic k x rest hdrlen Hok Hp Hr Hm Hlt Hge Hlast) as (c1 & -> & O1 & S1 & _). cbn [res_bind].
  destruct (wep_genuine _ _ _); cbn [negb]; [|done]. intros [= <- _]. by apply strip_shape.
Qed.
#[export] Instance wep_lossless : lossless cipher_wep wep_tx wep_peer.
Proof.
  split; [apply wep_air_ok|].
  intros ic h k m keyid hdrlen k' m' ic' h' ic2 k2 y R Hid Hr E (Hr2 & Hk & Hkl) A.
  destruct (wep_air_ok ic h k m keyid hdrlen k' m' ic' h' R Hid Hr E) as (_ & L & _). change (ic_trailer cipher_wep) with 4%nat in L.
  destruct m as [|x rest]; [by destruct R as [_ ? _ _ _]|]. destruct y as [|y rs]; [by destruct A as [_ ? _ _]|].
  pose proof Hr as (_ & _ & iv & Hp & _).
  destruct R as [P1 P2 [P3 P4] P5 P6]. destruct A as [A1 A2 A3 (A4 & A5 & A6)].
  pose proof (hdrspace_bounds _ _ _ P3) as [Hb _]. change (ic_header cipher_wep) with 4%nat in *.
  destruct (wep_roundtrip ic ic2 h h' k k' k2 x rest m' ic' hdrlen keyid iv y rs) as (c2 & Ed & O & Ec); try done; [lia|].
  eexists _, c2, _. cbn [ic_decap]. rewrite Ed. split; [done|]. split; [done|]. split; [done|].
  split; [|done]. refine (wep_decap_keeps ic2 k2 y rs hdrlen c2 _ A1 A2 Hr2 A5 _ _ A6 Ed); rewrite A3; lia.
Qed.

(** ** TKIP *)

Definition tkip_tx (ic : ieee80211com) (k : ieee80211_key) (ta : list Z) : Prop :=
  has_flag (ic_flags ic) IEEE80211_F_COUNTERM = false /\ 0 <= wk_keytsc k < 2 ^ 48 /\
  exists t, tkip_ready k t /\ tx_cache_ok k ta t.
Definition tkip_peer (k : ieee80211_key) (ic2 : ieee80211com) (k2 : ieee80211_key) (ta : list Z) : Prop :=
  has_flag (ic_flags ic2) IEEE80211_F_COUNTERM = false /\ wk_key k2 = wk_key k /\ wk_keyrsc k2 < wk_keytsc k /\
  exists t, tkip_ready k2 t /\ rx_cache_ok k2 ta t.

Lemma tkip_air_ok : air_ok cipher_tkip tkip_tx.
Proof.
  intros ic h k m keyid hdrlen k' m' ic' h' R Hid (Hcm & Ht & t & Hr & Hca) E.
  destruct m as [|x rest]; [by destruct R as [_ ? _ _ _]|].
  destruct R as [P1 P2 [P3 P4] P5 P6]. change (ic_header cipher_tkip) with 8%nat in *.
  pose proof (hdrspace_bounds _ _ _ P3) as [Hb _].
  destruct (tkip_encap_ok ic h k t x rest hdrlen keyid _ P1 P2 Hr Hca eq_refl) as (ok & t' & c' & h1 & d & rem & E' & _ & _ & _ & O & _ & Ed & Ec & Eok & _);
    [unfold is_u; lia|done|done|done|lia|].
  cbn [ic_encap] in E. rewrite E in E'. injection E' as <- -> -> -> ->.
  assert (rem = []) as -> by (by apply Eok). rewrite app_nil_r in Ed. split; [done|].
  assert (Hl : length (take hdrlen (content (x :: rest))) = hdrlen) by (rewrite length_take; lia).
  destruct (air_shape _ (tkip_iv (wk_keytsc k) keyid) d hdrlen 8 Hl eq_refl) as (L & T & B); [lia|].
  rewrite Ec, L, T, B, <- Ed, length_wep_seal, length_drop.
  split; [change (ic_trailer cipher_tkip) with 4%nat; lia|]. split; [done|].
  unfold tkip_iv, byte_at. cbn [nth]. rewrite keyid_bits. by rewrite u8_id.
Qed.
Lemma tkip_decap_keeps ic k t x rest hdrlen k' c' ic' :
  pkt_ok (x :: rest) -> has_pkthdr x = true -> tkip_ready k t -> rx_cache_ok k (i_addr2 (content (x :: rest))) t ->
  (24 <= hdrlen)%nat -> (hdrlen + 8 <= m_len x)%nat -> Z.of_nat (length (content (x :: rest))) < 2 ^ 32 ->
  (hdrlen + 12 <= length (content (x :: rest)))%nat -> (4 <= m_len (List.last rest x))%nat ->
  tkip_decap ic k (x :: rest) hdrlen = Ok (true, k', c', ic') -> keeps_head 8 (x :: rest) c'.
Proof.
  intros Hok Hp [Hpriv Hsw] Hrx Hh Hm Hlt Hge Hlast. pose proof Hok as [Hc _]. inversion_clear Hc as [|? ? Hx _].
  assert (Hby : forall i, (i < 8)%nat -> byte_at (drop hdrlen (mtod x)) i = byte_at (drop hdrlen (content (x :: rest))) i).
  { intros i Hi. rewrite !byte_at_drop. apply byte_at_mtod; [done|lia]. }
  unfold tkip_decap, tkip_get. rewrite Hpriv. cbn [res_bind]. destruct (_ =? 0); [done|]. destruct (has_flag (ic_flags ic) _); [done|].
  cbv zeta. rewrite !Hby by lia. fold (tkip_rsc (content (x :: rest)) hdrlen). destruct (_ <=? wk_keyrsc k); [done|]. rewrite Hsw.
  destruct (tkip_decrypt_ok ic k (set_rx_rsc t (tkip_rsc (content (x :: rest)) hdrlen)) x rest hdrlen Hok Hp Hrx eq_refl Hh Hm Hlt Hge Hlast)
    as (t' & c1 & -> & _ & _ & O1 & S1 & _). cbn [res_bind].
  destruct (tkip_genuine _ _ _); cbn [negb]; [|done]. intros [= _ <- _]. by apply strip_shape.
Qed.
#[export] Instance tkip_lossless : lossless cipher_tkip tkip_tx tkip_peer.
Proof.
  split; [apply tkip_air_ok|].
  intros ic h k m keyid hdrlen k' m' ic' h' ic2 k2 y R Hid Htx E (Hcm2 & Hk & Hrsc & t2 & Hr2 & Hca2) A.
  destruct (tkip_air_ok ic h k m keyid hdrlen k' m' ic' h' R Hid Htx E) as (_ & L & T & _). change (ic_trailer cipher_tkip) with 4%nat in L.
  destruct Htx as (Hcm & Ht & t & Hr & Hca).
  destruct m as [|x rest]; [by destruct R as [_ ? _ _ _]|]. destruct y as [|y rs]; [by destruct A as [_ ? _ _]|].
  destruct R as [P1 P2 [P3 P4] P5 P6]. destruct A as [A1 A2 A3 (A4 & A5 & A6)].
  pose proof (hdrspace_bounds _ _ _ P3) as [Hb _]. change (ic_header cipher_tkip) with 8%nat in *.
  destruct (tkip_roundtrip ic ic2 h h' k k' k2 t t2 x rest m' ic' hdrlen keyid y rs) as (_ & t3 & c2 & Ed & O & Ec & _); try done; [lia|].
  eexists _, c2, _. cbn [ic_decap]. rewrite Ed. split; [done|]. split; [done|]. split; [done|].
  split; [|done]. refine (tkip_decap_keeps ic2 k2 t2 y rs hdrlen _ c2 _ A1 A2 Hr2 _ ltac:(lia) A5 _ _ A6 Ed); rewrite A3; [|lia|lia].
  unfold i_addr2 in *. rewrite (sub_list_prefix hdrlen 10 6 _ _ T) by lia. exact Hca2.
Qed.

(** ** Making room for the privacy header *)

Lemma encap_room_ok h m hdrlen hn m' h' :
  pkt_ok m -> head_pkthdr m = true -> encap_room h m hdrlen hn = (m', h') -> m' <> [] ->
  exists y rs pre, m' = y :: rs /\ pkt_ok m' /\ has_pkthdr y = true /\ (hdrlen + hn <= m_len y)%nat /\
    length pre = hn /\ content m' = pre ++ content m.
Proof.
  intros Hok Hp E Hne. unfold encap_room in E. destruct (m_prepend h m (Z.of_nat hn)) as [m1 h1] eqn:E1.
  destruct (m_prepend_spec h m (Z.of_nat hn) m1 h1 Hok E1) as (O1 & _ & P1).
  pose proof (m_prepend_head h m (Z.of_nat hn) m1 h1 E1) as H1.
  destruct m1 as [|x1 r1]; [injection E as <- <-; done|].
  destruct P1 as (_ & x & rest & pre & [= <- <-] & Lp & Ec & _); [done|]. rewrite Nat2Z.id in Lp.
  rewrite Hp in H1. cbn [head_pkthdr] in H1.
  destruct (m_len x1 <? hdrlen + hn)%nat eqn:El.
  - destruct (m_pullup_spec h1 (x1 :: r1) _ m' h' O1 E) as (O2 & _ & P2).
    pose proof (m_pullup_head h1 (x1 :: r1) _ m' h' E Hne) as H2. cbn [head_pkthdr] in H2.
    destruct m' as [|y rs]; [done|]. destruct P2 as [Ec2 Lm]. exists y, rs, pre. cbn [head_pkthdr] in H2.
    split; [done|]. split; [done|]. split; [rewrite H2; by apply H1|]. split; [lia|]. split; [done|congruence].
  - injection E as <- <-. apply Nat.ltb_ge in El. exists x1, r1, pre. split_and!; auto.
Qed.

(** [memmove] of the 802.11 header to the front. *)
Lemma encap_shift y rs pre c hdrlen hn :
  pkt_ok (y :: rs) -> (hdrlen + hn <= m_len y)%nat -> length pre = hn -> content (y :: rs) = pre ++ c ->
  (hdrlen <= length c)%nat ->
  let z := mstore y 0 (sub_list hn hdrlen (mtod y)) in
  pkt_ok (z :: rs) /\ has_pkthdr z = has_pkthdr y /\ m_len z = m_len y /\
  length (content (z :: rs)) = (hn + length c)%nat /\
  take hdrlen (content (z :: rs)) = take hdrlen c /\ drop (hdrlen + hn) (content (z :: rs)) = drop hdrlen c.
Proof.
  intros Hok Hm Lp Ec Hle z. pose proof Hok as [Hc _]. inversion_clear Hc as [|? ? Hy Hr].
  assert (Es : sub_list hn hdrlen (mtod y) = take hdrlen c).
  { rewrite (sub_list_prefix (hdrlen + hn) hn hdrlen (mtod y) (pre ++ c)); [|rewrite <- Ec; by apply take_mtod|lia].
    clear -Lp Hle. list_solve. }
  assert (Lt : length (take hdrlen c) = hdrlen) by (rewrite length_take; lia).
  unfold z. rewrite Es. destruct (mstore_ok y rs 0 (take hdrlen c) Hok) as [O E]; [lia|rewrite <- Es; apply bytes_sub_list, mtod_bytes, Hy|].
  split; [done|]. split; [done|]. split; [done|]. rewrite E, Ec.
  clear -Lp Lt Hle. split; [rewrite length_splice; rewrite ?length_app; lia|]. split; list_solve.
Qed.

(** ** The round trip *)

Lemma hdrspace_prefix ic ic2 n wh wh' :
  (24 <= n)%nat -> take n wh = take n wh' ->
  has_flag (ic_flags ic) IEEE80211_F_DATAPAD = has_flag (ic_flags ic2) IEEE80211_F_DATAPAD ->
  ieee80211_hdrspace ic wh = ieee80211_hdrspace ic2 wh'.
Proof. intros Hn E F. unfold ieee80211_hdrspace. by rewrite (hdrsize_prefix n wh wh' Hn E), F. Qed.

(** The sender's choice of key, and the key id it sends. *)
Lemma key_id_sent d : 0 <= d < 4 -> Z.shiftr (u8 (Z.shiftl (u8 d) 6)) 6 = d.
Proof. intros H. assert (d = 0 \/ d = 1 \/ d = 2 \/ d = 3) as [->|[->|[->| ->]]] by lia; done. Qed.

(** What a successful encapsulation says about the call of the cipher. *)
Lemma crypto_encap_inv ic ucast h x rest hdrlen l ic' ucast' m' h' k c :
  pkt_ok (x :: rest) -> has_pkthdr x = true -> ieee80211_hdrspace ic (mtod x) = Ok hdrlen ->
  (hdrlen <= m_len x)%nat -> (hdrlen < length (content (x :: rest)))%nat ->
  Z.of_nat (length (content (x :: rest)) - hdrlen) < 65536 ->
  ieee80211_crypto_encap ic ucast h (x :: rest) = Ok (Some l, ic', ucast', m', h') ->
  get_key ic ucast l = Ok k -> wk_cipher k = Some c ->
  exists z h1 keyid k' ic1,
    l = (if uses_group_key (mtod x) ucast then KNw (Z.to_nat (ic_def_txkey ic)) else KUcast) /\
    (uses_group_key (mtod x) ucast = true -> ic_def_txkey ic <> IEEE80211_KEYIX_NONE) /\
    keyid = u8 (Z.shiftl (if uses_group_key (mtod x) ucast then u8 (ic_def_txkey ic) else 0) 6) /\
    ic_encap c ic h1 k z keyid = Ok (true, k', m', ic1, h') /\ room_ok c ic z hdrlen /\
    length (content z) = (ic_header c + length (content (x :: rest)))%nat /\
    take hdrlen (content z) = take hdrlen (content (x :: rest)) /\
    drop (hdrlen + ic_header c) (content z) = drop hdrlen (content (x :: rest)).
Proof.
  intros Hok Hp Hhs Hm Hne Hlt E Hk Hc. unfold ieee80211_crypto_encap in E. cbv zeta in E.
  set (g := uses_group_key (mtod x) ucast) in *. set (n := ic_def_txkey ic) in *.
  set (kid := if g then u8 n else 0). set (loc := if g then KNw (Z.to_nat n) else KUcast).
  set (sel := if g then _ else _) in E.
  assert (Es : sel = Some (kid, loc) /\ (g = true -> n <> IEEE80211_KEYIX_NONE) \/ sel = None).
  { unfold sel, kid, loc. destruct g; [destruct (n =? _) eqn:En; [by right|]|]; left; [|done].
    apply Z.eqb_neq in En. done. }
  clearbody sel. destruct Es as [[-> Hdef]| ->]; [|discriminate E].
  destruct (get_key ic ucast loc) as [k1|] eqn:Ek1; [|discriminate E]. cbn [res_bind] in E. rewrite Hhs in E. cbn [res_bind] in E.
  destruct (key_cipher k1) as [c1|] eqn:Ec1; [|discriminate E]. cbn [res_bind] in E.
  destruct (encap_room h (x :: rest) hdrlen (ic_header c1)) as [m1 h1] eqn:Er. destruct m1 as [|y rs]; [discriminate E|].
  destruct (ic_encap c1 ic h1 k1 _ _) as [[[[[ok k2] m2] ic2] h2]|] eqn:Ee; [|discriminate E]. cbn [res_bind] in E.
  destruct (put_key ic2 ucast loc k2) as [ic3 u3]. destruct ok; [|discriminate E].
  assert (El : l = loc) by (apply (f_equal (fun r => match r with Ok (o, _, _, _, _) => o | _ => None end)) in E; by injection E as ->).
  assert (Em : m2 = m') by (apply (f_equal (fun r => match r with Ok (_, _, _, m, _) => m | _ => [] end)) in E; exact E).
  assert (Eh : h2 = h') by (apply (f_equal (fun r => match r with Ok (_, _, _, _, h) => h | _ => h2 end)) in E; exact E).
  subst m2 h2 l. clear E. rewrite Ek1 in Hk. injection Hk as ->. unfold key_cipher in Ec1. rewrite Hc in Ec1. injection Ec1 as <-.
  destruct (encap_room_ok h (x :: rest) hdrlen (ic_header c) (y :: rs) h1 Hok Hp Er ltac:(done))
    as (y' & rs' & pre & [= <- <-] & O1 & P1 & L1 & Lp & Ec).
  destruct (encap_shift y rs pre (content (x :: rest)) hdrlen (ic_header c) O1 L1 Lp Ec ltac:(lia)) as (O2 & P2 & L2 & N2 & T2 & D2).
  cbv zeta in Ee. set (z := mstore y 0 _) in *. clearbody z.
  exists (z :: rs), h1, (u8 (Z.shiftl kid 6)), k2, ic2. split; [done|]. split; [exact Hdef|]. split; [done|]. split; [exact Ee|]. split; [|done].
  pose proof (hdrspace_bounds _ _ _ Hhs) as [Hb _]. pose proof Hok as [Hcw _]. inversion_clear Hcw as [|? ? Hx _].
  pose proof O2 as [Hcz _]. inversion_clear Hcz as [|? ? Hz _].
  split; [done|cbn [head_pkthdr]; congruence| |lia|lia]. split; [|lia].
  rewrite <- Hhs. apply (hdrspace_prefix ic ic hdrlen); [lia| |done].
  rewrite (take_mtod z rs), (take_mtod x rest) by (done || lia). exact T2.
Qed.

(** The receiver picks the same key, and its cipher is called on the frame. *)
Lemma crypto_decap_eq ic2 ucast2 h2 junk y rs hdrlen k2 c l :
  pkt_ok (y :: rs) -> has_pkthdr y = true -> (hdrlen + ic_header c <= m_len y)%nat -> (24 <= hdrlen)%nat ->
  (8 <= ic_header c + ic_trailer c)%nat -> (4 <= ic_header c)%nat ->
  (hdrlen + ic_header c + ic_trailer c <= length (content (y :: rs)))%nat ->
  Z.of_nat (length (content (y :: rs))) < 2 ^ 31 ->
  l = (if uses_group_key (mtod y) ucast2 then KNw (Z.to_nat (Z.shiftr (byte_at (content (y :: rs)) (hdrlen + 3)) 6)) else KUcast) ->
  get_key ic2 ucast2 l = Ok k2 -> wk_cipher k2 = Some c ->
  ieee80211_crypto_decap ic2 ucast2 h2 junk (y :: rs) hdrlen =
  (let* (ok, k, m, ic) := ic_decap c ic2 k2 (y :: rs) hdrlen in
   let '(ic, ucast) := put_key ic ucast2 l k in
   Ok (if (ok : bool) then Some l else None, ic, ucast, m, h2)).
Proof.
  intros Hok Hp Hm Hh Hht H4 Hl Hlt El Hk Hc. unfold ieee80211_crypto_decap.
  rewrite (pkt_ok_ph y rs Hok Hp), u64_id by (unfold is_u; lia).
  replace (Z.of_nat (length (content (y :: rs))) <? Z.of_nat IEEE80211_WEP_MINLEN) with false
    by (symmetry; apply Z.ltb_ge; change IEEE80211_WEP_MINLEN with 32%nat; lia).
  rewrite m_copydata_spec by apply Hok. change IEEE80211_WEP_IVLEN with 3%nat.
  assert (Ed : sub_list (hdrlen + 3) 1 (content (y :: rs)) = [byte_at (content (y :: rs)) (hdrlen + 3)]).
  { unfold sub_list. rewrite (drop_S _ (byte_at (content (y :: rs)) (hdrlen + 3)) (hdrlen + 3)); [done|].
    apply lookup_byte_at. lia. }
  rewrite Ed. cbv zeta. rewrite <- El, Hk. cbn [res_bind]. unfold key_cipher. rewrite Hc. cbn [res_bind].
  replace (m_len y <? hdrlen + ic_header c)%nat with false by (symmetry; by apply Nat.ltb_ge).
  cbv beta iota. rewrite (pkt_ok_ph y rs Hok Hp), u32_id by (unfold is_u; lia).
  replace (Z.of_nat (length (content (y :: rs))) <? Z.of_nat (hdrlen + ic_header c + ic_trailer c)) with false by (symmetry; apply Z.ltb_ge; clear -Hl; lia).
  done.
Qed.

Lemma uses_group_key_prefix wh wh' u u' :
  take 24 wh = take 24 wh' ->
  bool_decide (wk_cipher u' = Some cipher_none) = bool_decide (wk_cipher u = Some cipher_none) ->
  uses_group_key wh' u' = uses_group_key wh u.
Proof.
  intros E Eu. unfold uses_group_key, i_addr1. by rewrite (sub_list_prefix 24 4 6 wh wh' E ltac:(lia)), Eu.
Qed.
Lemma take_weaken {A} n n' (a b : list A) : (n <= n')%nat -> take n' a = take n' b -> take n a = take n b.
Proof.
  intros H E. assert (G : forall l : list A, take n l = take n (take n' l)) by (intros l; by rewrite take_take, Nat.min_l).
  by rewrite G, E, <- G.
Qed.

(** One frame through the key layer; the first mbuf keeps what it has. *)
Lemma crypto_frame_roundtrip (c : cipher) (tx : ieee80211com -> ieee80211_key -> list Z -> Prop)
    (rx : ieee80211_key -> ieee80211com -> ieee80211_key -> list Z -> Prop) (L : lossless c tx rx)
    (ic ic' ic2 : ieee80211com) (ucast ucast' ucast2 k k2 : ieee80211_key) (h h' h2 : heap) (junk : Z)
    (x : mbuf) (rest m' y : list mbuf) (hdrlen : nat) (l : kloc)
    (Hok : pkt_ok (x :: rest)) (Hp : has_pkthdr x = true)
    (Hhs : ieee80211_hdrspace ic (mtod x) = Ok hdrlen) (Hm : (hdrlen <= m_len x)%nat)
    (Hne : (hdrlen < length (content (x :: rest)))%nat)
    (Hlt : Z.of_nat (length (content (x :: rest)) - hdrlen) < 65536)
    (Hdef : 0 <= ic_def_txkey ic < Z.of_nat IEEE80211_WEP_NKID \/ ic_def_txkey ic = IEEE80211_KEYIX_NONE)
    (Henc : ieee80211_crypto_encap ic ucast h (x :: rest) = Ok (Some l, ic', ucast', m', h'))
    (Hk : get_key ic ucast l = Ok k) (Hc : wk_cipher k = Some c) (Htx : tx ic k (i_addr2 (content (x :: rest))))
    (Hk2 : get_key ic2 ucast2 l = Ok k2) (Hc2 : wk_cipher k2 = Some c)
    (Hrx : rx k ic2 k2 (i_addr2 (content (x :: rest))))
    (Hg : bool_decide (wk_cipher ucast2 = Some cipher_none) = bool_decide (wk_cipher ucast = Some cipher_none))
    (Harr : arrived c ic2 (content m') y hdrlen) :
  exists ic2' ucast2' c2, ieee80211_crypto_decap ic2 ucast2 h2 junk y hdrlen = Ok (Some l, ic2', ucast2', c2, h2) /\
    pkt_ok c2 /\ content c2 = content (x :: rest) /\ keeps_head (ic_header c) y c2 /\
    take hdrlen (content m') = take hdrlen (content (x :: rest)) /\
    exists k3, get_key ic2' ucast2' l = Ok k3 /\ wk_cipher k3 = Some c.
Proof.
  destruct (crypto_encap_inv ic ucast h x rest hdrlen l ic' ucast' m' h' k c) as
    (z & h1 & keyid & k' & ic1 & El & Hnn & Ei & Ee & R & Nz & Tz & Dz); try done.
  pose proof (hdrspace_bounds _ _ _ Hhs) as [Hb _].
  assert (Hn : c <> cipher_none) by (intros ->; discriminate Ee).
  assert (Hsz : (4 <= ic_header c /\ ic_header c + ic_trailer c <= 16 /\ 8 <= ic_header c + ic_trailer c)%nat)
    by (destruct c; [done|..]; vm_compute; lia).
  assert (Hid : is_u8 keyid) by (subst keyid; apply u8_range).
  assert (Ha : i_addr2 (content z) = i_addr2 (content (x :: rest))).
  { unfold i_addr2. apply (sub_list_prefix hdrlen); [exact Tz|lia]. }
  rewrite <- Ha in Htx, Hrx.
  destruct (lossless_air ic h1 k z keyid hdrlen k' m' ic1 h' R Hid Htx Ee) as (O' & N' & T' & B').
  destruct (lossless_decap ic h1 k z keyid hdrlen k' m' ic1 h' ic2 k2 y R Hid Htx Ee Hrx Harr) as (k3 & c2 & ic3 & Ed & O2 & E2 & K2 & W2 & N2).
  destruct y as [|y rs]; [by destruct Harr as [_ ? _ _]|]. destruct Harr as [A1 A2 A3 (A4 & A5 & A6)].
  pose proof A1 as [Hcy _]. inversion_clear Hcy as [|? ? Hy _]. pose proof Hok as [Hcx _]. inversion_clear Hcx as [|? ? Hx _].
  assert (Eg : uses_group_key (mtod y) ucast2 = uses_group_key (mtod x) ucast).
  { apply uses_group_key_prefix; [|done]. apply (take_weaken 24 hdrlen); [lia|].
    rewrite (take_mtod x rest), (take_mtod y rs) by (done || lia). congruence. }
  rewrite (crypto_decap_eq ic2 ucast2 h2 junk y rs hdrlen k2 c l); try done; try lia.
  - rewrite Ed. cbn [res_bind]. assert (Gk : get_key (put_key ic3 ucast2 l k3).1 (put_key ic3 ucast2 l k3).2 l = Ok k3).
    { destruct l as [i|]; [|done]. cbn [put_key get_key fst] in *. cbn [set_nw_key ic_nw_keys]. rewrite N2.
      destruct (ic_nw_keys ic2 !! i) as [kk|] eqn:Ei2; [|done]. rewrite list_lookup_insert_eq; [done|by eapply lookup_lt_Some]. }
    destruct (put_key ic3 ucast2 l k3) as [ic4 u4]. eexists _, _, c2.
    split; [reflexivity|]. split; [done|]. split; [rewrite E2, Tz, Dz; apply take_drop|]. split; [done|]. split; [congruence|].
    exists k3. split; [exact Gk|congruence].
  - rewrite A3, N', Nz. lia.
  - rewrite A3, N', Nz. lia.
  - rewrite Eg, A3, B', Ei, El. destruct (uses_group_key (mtod x) ucast) eqn:Eu; [|done].
    f_equal. f_equal. destruct Hdef as [Hd|Hd]; [symmetry; by apply key_id_sent|by destruct (Hnn eq_refl)].
Qed.

(** C18. The key layer, for every cipher that meets the interface: when
    [ieee80211_crypto_encap] succeeds with the key at [l] (the station's own
    key, or the default group key whose index travels in the frame), a
    receiver whose key at [l] can decrypt what that key sends finds this key,
    accepts the frame in any mbuf layout, and has the original packet back. *)
Theorem crypto_decap_encap (c : cipher) (tx : ieee80211com -> ieee80211_key -> list Z -> Prop)
    (rx : ieee80211_key -> ieee80211com -> ieee80211_key -> list Z -> Prop) (L : lossless c tx rx)
    (ic ic' ic2 : ieee80211com) (ucast ucast' ucast2 k k2 : ieee80211_key) (h h' h2 : heap) (junk : Z)
    (x : mbuf) (rest m' y : list mbuf) (hdrlen : nat) (l : kloc)
    (Hok : pkt_ok (x :: rest)) (Hp : has_pkthdr x = true)
    (Hhs : ieee80211_hdrspace ic (mtod x) = Ok hdrlen) (Hm : (hdrlen <= m_len x)%nat)
    (Hne : (hdrlen < length (content (x :: rest)))%nat)
    (Hlt : Z.of_nat (length (content (x :: rest)) - hdrlen) < 65536)
    (Hdef : 0 <= ic_def_txkey ic < Z.of_nat IEEE80211_WEP_NKID \/ ic_def_txkey ic = IEEE80211_KEYIX_NONE)
    (Henc : ieee80211_crypto_encap ic ucast h (x :: rest) = Ok (Some l, ic', ucast', m', h'))
    (Hk : get_key ic ucast l = Ok k) (Hc : wk_cipher k = Some c) (Htx : tx ic k (i_addr2 (content (x :: rest))))
    (Hk2 : get_key ic2 ucast2 l = Ok k2) (Hc2 : wk_cipher k2 = Some c)
    (Hrx : rx k ic2 k2 (i_addr2 (content (x :: rest))))
    (Hg : bool_decide (wk_cipher ucast2 = Some cipher_none) = bool_decide (wk_cipher ucast = Some cipher_none))
    (Harr : arrived c ic2 (content m') y hdrlen) :
  exists ic2' ucast2' c2, ieee80211_crypto_decap ic2 ucast2 h2 junk y hdrlen = Ok (Some l, ic2', ucast2', c2, h2) /\
    pkt_ok c2 /\ content c2 = content (x :: rest).
Proof.
  destruct (crypto_frame_roundtrip c tx rx L ic ic' ic2 ucast ucast' ucast2 k k2 h h' h2 junk x rest m' y hdrlen l Hok Hp Hhs Hm Hne Hlt Hdef Henc Hk Hc Htx Hk2 Hc2 Hrx Hg Harr)
    as (ic2' & ucast2' & c2 & E & O & C & _). by eexists ic2', ucast2', c2.
Qed.

(** A station without a pairwise key: WEP under the group key of index 2. *)
Definition gk_none : ieee80211_key := ieee80211_crypto_resetkey zero_key IEEE80211_KEYIX_NONE.
Definition gk_com : ieee80211com := mkCom true 0 0 (fun _ => 0) [gk_none; gk_none; wep_key; gk_none] 2 4 [].
Definition gk_frame : list Z := [0x08; 0x41; 0; 0] ++ map Z.of_nat (seq 100 20) ++ map Z.of_nat (seq 1 20).
Abbreviation gk_sent := (ieee80211_crypto_encap gk_com gk_none (mkHeap [] 1) [sample_mbuf true 256 gk_frame 44]).
Definition gk_air : list Z := match gk_sent with Ok (_, _, _, c, _) => content c | _ => [] end.
Definition gk_rx : list mbuf := [sample_mbuf true 256 gk_air (Z.of_nat (length gk_air))].

Lemma crypto_decap_encap_witness :
  exists ic2' ucast2' c2, ieee80211_crypto_decap gk_com gk_none (mkHeap [] 1) 0 gk_rx 24 =
      Ok (Some (KNw 2), ic2', ucast2', c2, mkHeap [] 1) /\ pkt_ok c2 /\
    content c2 = content [sample_mbuf true 256 gk_frame 44].
Proof.
  destruct gk_sent as [((((ol & ic') & u') & c') & h')|] eqn:E; [|vm_compute in E; discriminate E].
  assert (ol = Some (KNw 2)) as -> by (apply (f_equal (fun r => match r with Ok (o, _, _, _, _) => o | _ => None end)) in E;
    rewrite <- E; vm_compute; reflexivity).
  apply (crypto_decap_encap cipher_wep wep_tx wep_peer wep_lossless gk_com ic' gk_com gk_none u' gk_none wep_key wep_key
    (mkHeap [] 1) h' (mkHeap [] 1) 0 (sample_mbuf true 256 gk_frame 44) [] c' gk_rx 24 (KNw 2)).
  - split; [by_compute|]. intros _. vm_compute. reflexivity.
  - reflexivity.
  - reflexivity.
  - apply Nat.leb_le. reflexivity.
  - apply Nat.ltb_lt. vm_compute. reflexivity.
  - vm_compute. reflexivity.
  - left. clear. change (0 <= 2 < 4). lia.
  - exact E.
  - reflexivity.
  - reflexivity.
  - exact wep_key_ready.
  - reflexivity.
  - reflexivity.
  - split; [exact wep_key_ready|]. split; reflexivity.
  - reflexivity.
  - assert (Ec : content c' = gk_air) by (unfold gk_air; by rewrite E). rewrite Ec. clear. split.
    + split; [by_compute|]. intros _. vm_compute. reflexivity.
    + reflexivity.
    + vm_compute. reflexivity.
    + split; [vm_compute; reflexivity|]. split; apply Nat.leb_le; vm_compute; reflexivity.
Defined.
