(* ===== verification/Acl.v ===== *)
(** * Access control list: net80211/ieee80211_acl.c

    An entry is a heap object linked into two lists, the list of all entries
    and one hash bucket; here objects are addresses into [as_mem] and the
    lists hold addresses, so that a bucket entry and a list entry are the same
    object.  The list is proved to implement a finite set of addresses under
    a policy. *)

From stdpp Require Import gmap.
From S2P Require Import Prelude Buffers Ieee80211.

(** ** Data *)

Definition ACL_POLICY_OPEN : Z := 0.
Definition ACL_POLICY_ALLOW : Z := 1.
Definition ACL_POLICY_DENY : Z := 2.
Definition ACL_HASHSIZE : nat := 32.

Definition IEEE80211_MACCMD_POLICY_OPEN : Z := 0.
Definition IEEE80211_MACCMD_POLICY_ALLOW : Z := 1.
Definition IEEE80211_MACCMD_POLICY_DENY : Z := 2.
Definition IEEE80211_MACCMD_POLICY : Z := 5.
Definition IEEE80211_MACCMD_LIST : Z := 6.

(** [errno] values of the host. *)
Definition ENOENT : Z := 2.
Definition EEXIST : Z := 17.
Definition EINVAL : Z := 22.

Record aclstate := mkAcl {
  as_policy : Z;
  as_nacls : Z;                      (* uint32_t *)
  as_list : list nat;                (* TAILQ of entries, by address *)
  as_hash : list (list nat);         (* ACL_HASHSIZE buckets *)
  as_mem : gmap nat (list Z);        (* live entries: their acl_macaddr *)
}.

Definition ACL_HASH (addr : list Z) : nat := Z.to_nat (byte_at addr (IEEE80211_ADDR_LEN - 1) mod Z.of_nat ACL_HASHSIZE).

(** ** Operations *)

Definition acl_attach : aclstate := mkAcl ACL_POLICY_OPEN 0 [] (replicate ACL_HASHSIZE []) ∅.

(** [LIST_FOREACH] over a bucket, reading each entry. *)
Fixpoint find_bucket (mem : gmap nat (list Z)) (l : list nat) (macaddr : list Z) : res (option nat) :=
  match l with
  | [] => Ok None
  | p :: l =>
      match mem !! p with
      | None => Fault BadAccess                       (* a freed entry *)
      | Some a => if IEEE80211_ADDR_EQ a macaddr then Ok (Some p) else find_bucket mem l macaddr
      end
  end.
Definition _find_acl (s : aclstate) (macaddr : list Z) : res (option nat) :=
  match as_hash s !! ACL_HASH macaddr with
  | None => Fault BadAccess
  | Some l => find_bucket (as_mem s) l macaddr
  end.

(** [TAILQ_REMOVE] and [LIST_REMOVE] take the entry out of the lists it is linked in. *)
Definition unlink (p : nat) (l : list nat) : list nat := filter (fun q => q <> p) l.
Definition _acl_free (s : aclstate) (p : nat) : aclstate :=
  mkAcl (as_policy s) (u32 (as_nacls s - 1)) (unlink p (as_list s)) (map (unlink p) (as_hash s)) (delete p (as_mem s)).

Definition acl_check (s : aclstate) (mac : list Z) : res Z :=
  if as_policy s =? ACL_POLICY_OPEN then Ok 1
  else if as_policy s =? ACL_POLICY_ALLOW then
    let* p := _find_acl s mac in Ok (match p with Some _ => 1 | None => 0 end)
  else if as_policy s =? ACL_POLICY_DENY then
    let* p := _find_acl s mac in Ok (match p with Some _ => 0 | None => 1 end)
  else Ok 0.

(** [new] is what [malloc] gave; an entry already there is refused and [new] freed. *)
Definition acl_add (s : aclstate) (new : option nat) (mac : list Z) : res (Z * aclstate) :=
  let* found := _find_acl s mac in
  match found with
  | Some _ => Ok (EEXIST, s)
  | None =>
      match new with
      | None => Fault NullDeref
      | Some p =>
          Ok (0, mkAcl (as_policy s) (u32 (as_nacls s + 1)) (as_list s ++ [p])
                       (alter (cons p) (ACL_HASH mac) (as_hash s)) (<[p := take IEEE80211_ADDR_LEN mac]> (as_mem s)))
      end
  end.

Definition acl_remove (s : aclstate) (mac : list Z) : res (Z * aclstate) :=
  let* found := _find_acl s mac in
  match found with
  | Some p => Ok (0, _acl_free s p)
  | None => Ok (ENOENT, s)
  end.

(** [while ((acl = TAILQ_FIRST(..)) != NULL)]; each round unlinks the entry, so
    the length of the list bounds the rounds. *)
Fixpoint free_all_loop (fuel : nat) (s : aclstate) : aclstate :=
  match fuel with
  | O => s
  | S fuel => match as_list s with [] => s | p :: _ => free_all_loop fuel (_acl_free s p) end
  end.
Definition acl_free_all (s : aclstate) : aclstate := free_all_loop (length (as_list s)) s.
(** [acl_detach]: the entries that are left when the state itself is freed. *)
Definition acl_detach (s : aclstate) : gmap nat (list Z) := as_mem (acl_free_all s).

Definition set_policy (s : aclstate) (p : Z) : aclstate :=
  mkAcl p (as_nacls s) (as_list s) (as_hash s) (as_mem s).
Definition acl_setpolicy (s : aclstate) (policy : Z) : Z * aclstate :=
  if policy =? IEEE80211_MACCMD_POLICY_OPEN then (0, set_policy s ACL_POLICY_OPEN)
  else if policy =? IEEE80211_MACCMD_POLICY_ALLOW then (0, set_policy s ACL_POLICY_ALLOW)
  else if policy =? IEEE80211_MACCMD_POLICY_DENY then (0, set_policy s ACL_POLICY_DENY)
  else (EINVAL, s).
Definition acl_getpolicy (s : aclstate) : Z := as_policy s.
Definition acl_setioctl (s : aclstate) : Z := EINVAL.

(** The addresses in list order, as the loop stores them into [ap]. *)
Fixpoint maclist (mem : gmap nat (list Z)) (l : list nat) : res (list Z) :=
  match l with
  | [] => Ok []
  | p :: l =>
      match mem !! p with
      | None => Fault BadAccess
      | Some a => let* rest := maclist mem l in Ok (a ++ rest)
      end
  end.
(** The reply: error, [i_val], [i_len] and what is copied out.  [ap] has [space]
    bytes; storing more than that is a fault. *)
Definition acl_getioctl (s : aclstate) (i_val i_len : Z) : res (Z * Z * Z * list Z) :=
  if i_val =? IEEE80211_MACCMD_POLICY then Ok (0, as_policy s, i_len, [])
  else if i_val =? IEEE80211_MACCMD_LIST then
    let space := u32 (as_nacls s * Z.of_nat IEEE80211_ADDR_LEN) in
    if i_len =? 0 then Ok (0, i_val, u16 space, [])
    else
      let* ap := maclist (as_mem s) (as_list s) in
      if space <? Z.of_nat (length ap) then Fault BadAccess
      else if space <=? i_len then Ok (0, i_val, u16 space, take (Z.to_nat space) ap)
      else Ok (0, i_val, i_len, take (Z.to_nat i_len) ap)
  else Ok (EINVAL, i_val, i_len, []).

(** ** Invariant *)

Definition is_mac (a : list Z) : Prop := length a = IEEE80211_ADDR_LEN /\ bytes a.

Record acl_wf (s : aclstate) : Prop := mkAclWf {
  wf_buckets : length (as_hash s) = ACL_HASHSIZE;
  wf_nodup : NoDup (as_list s);
  wf_count : as_nacls s = u32 (Z.of_nat (length (as_list s)));
  (** the entries of the list are the live objects *)
  wf_live : forall p, p ∈ as_list s <-> is_Some (as_mem s !! p);
  wf_mac : forall p a, as_mem s !! p = Some a -> is_mac a;
  (** an address is listed once, in the bucket of its hash *)
  wf_inj : forall p q a, as_mem s !! p = Some a -> as_mem s !! q = Some a -> p = q;
  wf_bucket : forall h l p, as_hash s !! h = Some l -> p ∈ l <-> exists a, as_mem s !! p = Some a /\ ACL_HASH a = h;
}.

Lemma ACL_HASH_bound a : (ACL_HASH a < ACL_HASHSIZE)%nat.
Proof. unfold ACL_HASH, ACL_HASHSIZE. pose proof (Z.mod_pos_bound (byte_at a (IEEE80211_ADDR_LEN - 1)) (Z.of_nat 32)). lia. Qed.
Lemma is_mac_take a : is_mac a -> take IEEE80211_ADDR_LEN a = a.
Proof. intros [L _]. apply take_ge. lia. Qed.

Lemma find_bucket_spec mem l mac :
  is_mac mac -> (forall p, p ∈ l -> exists a, mem !! p = Some a /\ is_mac a) ->
  match find_bucket mem l mac with
  | Ok (Some p) => p ∈ l /\ mem !! p = Some mac
  | Ok None => forall p, p ∈ l -> mem !! p <> Some mac
  | Fault _ => False
  end.
Proof.
  intros Hm. induction l as [|p l IH]; intros Hl; cbn [find_bucket]; [intros p Hp; by apply elem_of_nil in Hp|].
  destruct (Hl p) as (a & E & Ha); [by constructor|]. rewrite E. unfold IEEE80211_ADDR_EQ.
  rewrite (is_mac_take a Ha), (is_mac_take mac Hm). destruct (bool_decide_reflect (a = mac)) as [->|Hne].
  - split; [by constructor|done].
  - assert (Hl' : forall p0, p0 ∈ l -> exists a0, mem !! p0 = Some a0 /\ is_mac a0) by (intros; apply Hl; by constructor).
    specialize (IH Hl'). destruct (find_bucket mem l mac) as [[q|]|]; [|intros q Hq; apply elem_of_cons in Hq as [->|Hq]; [congruence|by apply IH]|done].
    destruct IH. split; [by constructor|done].
Qed.

Lemma find_acl_spec s mac :
  acl_wf s -> is_mac mac ->
  match _find_acl s mac with
  | Ok (Some p) => as_mem s !! p = Some mac
  | Ok None => forall p, as_mem s !! p <> Some mac
  | Fault _ => False
  end.
Proof.
  intros W Hm. unfold _find_acl. destruct (lookup_lt_is_Some_2 (as_hash s) (ACL_HASH mac)) as [l El].
  { rewrite (wf_buckets s W). apply ACL_HASH_bound. }
  rewrite El. pose proof (find_bucket_spec (as_mem s) l mac Hm) as F.
  destruct (find_bucket (as_mem s) l mac) as [[p|]|].
  - apply F. intros q Hq. apply (wf_bucket s W _ l q El) in Hq as (a & Ea & _). exists a. split; [done|by apply (wf_mac s W q)].
  - intros p Hp. apply (F ltac:(intros q Hq; apply (wf_bucket s W _ l q El) in Hq as (a & Ea & _); exists a; split; [done|by apply (wf_mac s W q)]) p); [|done].
    apply (wf_bucket s W _ l p El). by exists mac.
  - apply F. intros q Hq. apply (wf_bucket s W _ l q El) in Hq as (a & Ea & _). exists a. split; [done|by apply (wf_mac s W q)].
Qed.

Lemma elem_of_unlink p q l : q ∈ unlink p l <-> q <> p /\ q ∈ l.
Proof. unfold unlink. by rewrite list_elem_of_filter. Qed.

Lemma length_unlink p l : NoDup l -> p ∈ l -> length l = S (length (unlink p l)).
Proof.
  induction 1 as [|a l Ha Hn IH]; intros Hp; [by apply elem_of_nil in Hp|].
  unfold unlink in *. rewrite filter_cons. destruct (decide (a <> p)) as [Hne|He].
  - apply elem_of_cons in Hp as [->|Hp]; [done|]. cbn [length]. by rewrite <- IH.
  - assert (a = p) as -> by (destruct (decide (a = p)); tauto). cbn [length]. f_equal.
    symmetry. f_equal. clear IH Hp He Hn. induction l as [|b l IH]; [done|]. rewrite filter_cons.
    apply not_elem_of_cons in Ha as [? ?]. rewrite decide_True by done. f_equal. by apply IH.
Qed.

Lemma u32_pred n : u32 (u32 (Z.of_nat (S n)) - 1) = u32 (Z.of_nat n).
Proof. rewrite !u32_mod, Zminus_mod_idemp_l. f_equal. lia. Qed.
Lemma u32_succ n : u32 (u32 (Z.of_nat n) + 1) = u32 (Z.of_nat (S n)).
Proof. rewrite !u32_mod, Zplus_mod_idemp_l. f_equal. lia. Qed.

Lemma acl_free_wf s p : acl_wf s -> p ∈ as_list s -> acl_wf (_acl_free s p).
Proof.
  intros W Hp. split; cbn [_acl_free as_hash as_list as_nacls as_mem].
  - rewrite length_map. apply W.
  - unfold unlink. apply list.NoDup_filter, W.
  - rewrite (wf_count s W), (length_unlink p (as_list s) (wf_nodup s W) Hp). apply u32_pred.
  - intros q. rewrite elem_of_unlink, (wf_live s W), lookup_delete_is_Some. naive_solver.
  - intros q a [_ E]%lookup_delete_Some. by apply (wf_mac s W q).
  - intros q r a [_ Eq]%lookup_delete_Some [_ Er]%lookup_delete_Some. by apply (wf_inj s W q r a).
  - intros h l q E. rewrite list_lookup_fmap in E. destruct (as_hash s !! h) as [l0|] eqn:E0; [|done].
    injection E as <-. rewrite elem_of_unlink, (wf_bucket s W h l0 q E0). setoid_rewrite lookup_delete_Some. naive_solver.
Qed.

Lemma acl_add_wf s p mac :
  acl_wf s -> is_mac mac -> as_mem s !! p = None -> (forall q, as_mem s !! q <> Some mac) ->
  acl_wf (mkAcl (as_policy s) (u32 (as_nacls s + 1)) (as_list s ++ [p])
                (alter (cons p) (ACL_HASH mac) (as_hash s)) (<[p := take IEEE80211_ADDR_LEN mac]> (as_mem s))).
Proof.
  intros W Hm Hp Hn. rewrite (is_mac_take mac Hm). assert (Hpl : p ∉ as_list s).
  { rewrite (wf_live s W), Hp. by intros [? ?]. }
  split; cbn [as_hash as_list as_nacls as_mem].
  - rewrite length_alter. apply W.
  - apply list.NoDup_app. split; [apply W|]. split; [|apply NoDup_singleton].
    intros q Hq ->%list_elem_of_singleton. done.
  - rewrite (wf_count s W), length_app, Nat.add_1_r. apply u32_succ.
  - intros q. rewrite elem_of_app, list_elem_of_singleton, (wf_live s W), lookup_insert_is_Some.
    destruct (decide (p = q)) as [->|Hne]; [tauto|]. clear -Hne. intuition congruence.
  - intros q a [[<- <-]|[_ E]]%lookup_insert_Some; [done|by apply (wf_mac s W q)].
  - intros q r a [[<- <-]|[? Eq]]%lookup_insert_Some [[<- Er]|[? Er]]%lookup_insert_Some; try done.
    + by destruct (Hn r).
    + subst a. by destruct (Hn q).
    + by apply (wf_inj s W q r a).
  - intros h l q E. destruct (decide (h = ACL_HASH mac)) as [->|Hh].
    + rewrite list_lookup_alter_eq in E. destruct (as_hash s !! ACL_HASH mac) as [l0|] eqn:E0; [|done].
      injection E as <-. rewrite elem_of_cons, (wf_bucket s W _ l0 q E0). setoid_rewrite lookup_insert_Some. naive_solver.
    + rewrite list_lookup_alter_ne in E by done. rewrite (wf_bucket s W h l q E). setoid_rewrite lookup_insert_Some.
      naive_solver.
Qed.

(** Flushing: every round frees the first entry of the list. *)
Lemma free_all_loop_spec n s :
  acl_wf s -> length (as_list s) = n ->
  acl_wf (free_all_loop n s) /\ as_list (free_all_loop n s) = [] /\ as_policy (free_all_loop n s) = as_policy s.
Proof.
  revert s. induction n as [|n IH]; intros s W Hl; cbn [free_all_loop]; [by destruct (as_list s)|].
  destruct (as_list s) as [|p l] eqn:E; [done|]. assert (Hp : p ∈ as_list s) by (rewrite E; by constructor).
  destruct (IH (_acl_free s p)) as (? & ? & ?); [by apply acl_free_wf| |done].
  pose proof (length_unlink p (as_list s) (wf_nodup s W) Hp) as L. cbn [_acl_free as_list]. rewrite E in *. cbn [length] in *. lia.
Qed.

(** ** Refinement of a set of addresses *)

(** What the rest of the stack sees: a policy and a set. *)
Definition acl_spec : Type := Z * gset (list Z).
Definition acl_abs (s : aclstate) : acl_spec := (as_policy s, map_img (as_mem s)).

Inductive acl_op :=
| op_check (mac : list Z) | op_add (mac : list Z) | op_remove (mac : list Z) | op_flush
| op_setpolicy (policy : Z) | op_getpolicy.

(** An operation of [ieee80211_aclator]; [malloc] waits for memory and gives an unused address. *)
Definition acl_run (s : aclstate) (o : acl_op) : res (Z * aclstate) :=
  match o with
  | op_check mac => let* r := acl_check s mac in Ok (r, s)
  | op_add mac => acl_add s (Some (fresh (dom (as_mem s)))) mac
  | op_remove mac => acl_remove s mac
  | op_flush => Ok (0, acl_free_all s)
  | op_setpolicy p => Ok (acl_setpolicy s p)
  | op_getpolicy => Ok (acl_getpolicy s, s)
  end.
Definition spec_run (a : acl_spec) (o : acl_op) : Z * acl_spec :=
  let '(policy, set) := a in
  match o with
  | op_check mac =>
      (if policy =? ACL_POLICY_OPEN then 1
       else if policy =? ACL_POLICY_ALLOW then if decide (mac ∈ set) then 1 else 0
       else if policy =? ACL_POLICY_DENY then if decide (mac ∈ set) then 0 else 1 else 0, a)
  | op_add mac => if decide (mac ∈ set) then (EEXIST, a) else (0, (policy, {[mac]} ∪ set))
  | op_remove mac => if decide (mac ∈ set) then (0, (policy, set ∖ {[mac]})) else (ENOENT, a)
  | op_flush => (0, (policy, ∅))
  | op_setpolicy p => if (0 <=? p) && (p <=? 2) then (0, (p, set)) else (EINVAL, a)
  | op_getpolicy => (policy, a)
  end.
Definition op_ok (o : acl_op) : Prop :=
  match o with op_check mac | op_add mac | op_remove mac => is_mac mac | _ => True end.

Lemma elem_of_acls s mac : mac ∈ (map_img (as_mem s) : gset (list Z)) <-> exists p, as_mem s !! p = Some mac.
Proof. apply elem_of_map_img. Qed.

Lemma find_acl_decide s mac :
  acl_wf s -> is_mac mac ->
  exists o, _find_acl s mac = Ok o /\
    (if decide (mac ∈ (map_img (as_mem s) : gset (list Z))) then exists p, o = Some p /\ as_mem s !! p = Some mac else o = None /\ forall p, as_mem s !! p <> Some mac).
Proof.
  intros W Hm. pose proof (find_acl_spec s mac W Hm) as F. destruct (_find_acl s mac) as [o|]; [|done].
  exists o. split; [done|]. destruct (decide _) as [Hd|Hd]; rewrite elem_of_acls in Hd.
  - destruct o as [p|]; [by exists p|]. destruct Hd as [p Hp]. by destruct (F p).
  - destruct o as [p|]; [destruct Hd; by exists p|done].
Qed.

Lemma acl_free_abs s p mac :
  acl_wf s -> as_mem s !! p = Some mac -> acl_abs (_acl_free s p) = (as_policy s, map_img (as_mem s) ∖ {[mac]}).
Proof.
  intros W E. unfold acl_abs. f_equal. apply set_eq. intros a. cbn [_acl_free as_mem].
  rewrite elem_of_difference, !elem_of_map_img, elem_of_singleton. split.
  - intros (q & [Hq Ea]%lookup_delete_Some). split; [by exists q|]. intros ->. by destruct Hq; apply (wf_inj s W p q mac).
  - intros [(q & Eq) Hne]. exists q. apply lookup_delete_Some. split; [|done]. intros ->. congruence.
Qed.

Lemma acl_wf_policy s p : acl_wf s -> acl_wf (set_policy s p).
Proof. intros W. by destruct W; split. Qed.

Lemma acl_sim s o :
  acl_wf s -> op_ok o ->
  exists r s', acl_run s o = Ok (r, s') /\ acl_wf s' /\ (r, acl_abs s') = spec_run (acl_abs s) o.
Proof.
  intros W Ho. destruct o as [mac|mac|mac| |p|]; cbn [acl_run spec_run acl_abs op_ok] in *.
  - destruct (find_acl_decide s mac W Ho) as (o & E & D). unfold acl_check. rewrite E.
    destruct (decide _); [destruct D as (p & -> & _)|destruct D as (-> & _)];
      repeat (destruct (_ =? _); [by eexists _, _|]); by eexists _, _.
  - destruct (find_acl_decide s mac W Ho) as (o & E & D). unfold acl_add. rewrite E. cbn [res_bind].
    destruct (decide _) as [Hi|Hi]; [destruct D as (p & -> & _); by eexists _, _|]. destruct D as (-> & Hn).
    set (p := fresh (dom (as_mem s))). assert (Hp : as_mem s !! p = None) by (apply not_elem_of_dom, is_fresh).
    eexists _, _. split; [done|]. split; [by apply acl_add_wf|]. unfold acl_abs. cbn [as_policy as_mem].
    rewrite (is_mac_take mac Ho), map_img_insert_notin_L by done. done.
  - destruct (find_acl_decide s mac W Ho) as (o & E & D). unfold acl_remove. rewrite E. cbn [res_bind].
    destruct (decide _) as [Hi|Hi]; [|destruct D as (-> & _); by eexists _, _]. destruct D as (p & -> & Ep).
    eexists _, _. split; [done|]. split; [apply acl_free_wf; [done|apply (wf_live s W); by exists mac]|].
    by rewrite (acl_free_abs s p mac W Ep).
  - destruct (free_all_loop_spec _ s W eq_refl) as (W' & L' & P'). fold (acl_free_all s) in *.
    eexists _, _. split; [done|]. split; [done|]. unfold acl_abs. rewrite P'. do 2 f_equal.
    apply set_eq. intros a. rewrite elem_of_acls. split; [|by intros ?%elem_of_empty]. intros [p Hp].
    assert (Hin : p ∈ as_list (acl_free_all s)) by (apply (wf_live _ W'); by exists a). rewrite L' in Hin. by apply elem_of_nil in Hin.
  - unfold acl_setpolicy, IEEE80211_MACCMD_POLICY_OPEN, IEEE80211_MACCMD_POLICY_ALLOW, IEEE80211_MACCMD_POLICY_DENY.
    destruct (Z.eqb_spec p 0) as [->|]; [eexists _, _; split; [done|]; split; [by apply acl_wf_policy|done]|].
    destruct (Z.eqb_spec p 1) as [->|]; [eexists _, _; split; [done|]; split; [by apply acl_wf_policy|done]|].
    destruct (Z.eqb_spec p 2) as [->|]; [eexists _, _; split; [done|]; split; [by apply acl_wf_policy|done]|].
    replace ((0 <=? p) && (p <=? 2)) with false by lia. by eexists _, _.
  - by eexists _, _.
Qed.

(** A sequence of operations, with the replies. *)
Fixpoint acl_runs (s : aclstate) (ops : list acl_op) : res (list Z * aclstate) :=
  match ops with
  | [] => Ok ([], s)
  | o :: ops => let* (r, s) := acl_run s o in let* (rs, s) := acl_runs s ops in Ok (r :: rs, s)
  end.
Fixpoint spec_runs (a : acl_spec) (ops : list acl_op) : list Z * acl_spec :=
  match ops with
  | [] => ([], a)
  | o :: ops => let '(r, a) := spec_run a o in let '(rs, a) := spec_runs a ops in (r :: rs, a)
  end.

Lemma acl_attach_wf : acl_wf acl_attach.
Proof.
  split; cbn [acl_attach as_hash as_list as_nacls as_mem].
  - by rewrite length_replicate.
  - constructor.
  - done.
  - intros p. rewrite lookup_empty. split; [by intros ?%elem_of_nil|by intros [? ?]].
  - intros p a E. by rewrite lookup_empty in E.
  - intros p q a E. by rewrite lookup_empty in E.
  - intros h l p [-> _]%lookup_replicate. split; [by intros ?%elem_of_nil|]. intros (a & E & _). by rewrite lookup_empty in E.
Qed.

Lemma acl_runs_sim ops s :
  acl_wf s -> Forall op_ok ops ->
  exists rs s', acl_runs s ops = Ok (rs, s') /\ acl_wf s' /\ spec_runs (acl_abs s) ops = (rs, acl_abs s').
Proof.
  intros W Ho. revert s W. induction Ho as [|o ops Ho _ IH]; intros s W; [by eexists _, _|].
  destruct (acl_sim s o W Ho) as (r & s1 & E1 & W1 & A1). destruct (IH s1 W1) as (rs & s2 & E2 & W2 & A2).
  exists (r :: rs), s2. cbn [acl_runs spec_runs]. rewrite E1, <- A1. cbn [res_bind]. rewrite E2, A2. done.
Qed.

(** C27. The access control list implements a set of addresses under a policy:
    starting from [acl_attach], every sequence of checks, additions, removals,
    flushes and policy changes runs without fault, and each reply is that of
    the set (an address already present is EEXIST, an absent one ENOENT, a
    check follows the policy and membership); detaching frees every entry. *)
Theorem acl_refines_set (ops : list acl_op) (Hok : Forall op_ok ops) :
  exists rs s', acl_runs acl_attach ops = Ok (rs, s') /\
    spec_runs (ACL_POLICY_OPEN, ∅) ops = (rs, acl_abs s') /\ acl_detach s' = ∅.
Proof.
  destruct (acl_runs_sim ops acl_attach acl_attach_wf Hok) as (rs & s' & E & W & A). exists rs, s'.
  split; [done|]. split; [rewrite <- A; unfold acl_abs; cbn [acl_attach as_policy as_mem]; by rewrite map_img_empty_L|].
  destruct (free_all_loop_spec _ s' W eq_refl) as (W' & L' & _). apply map_eq. intros p. rewrite lookup_empty.
  unfold acl_detach. destruct (as_mem (acl_free_all s') !! p) as [a|] eqn:Ep; [|done].
  assert (Hin : p ∈ as_list (acl_free_all s')) by (apply (wf_live _ W'); by exists a).
  unfold acl_free_all in Hin. rewrite L' in Hin. by apply elem_of_nil in Hin.
Qed.
Lemma acl_refines_set_witness :
  exists rs s', acl_runs acl_attach [op_setpolicy 1; op_add [2; 0; 0; 0; 0; 9]; op_add [2; 0; 0; 0; 0; 41]; op_add [2; 0; 0; 0; 0; 9];
      op_check [2; 0; 0; 0; 0; 41]; op_remove [2; 0; 0; 0; 0; 41]; op_check [2; 0; 0; 0; 0; 41]] = Ok (rs, s') /\
    rs = [0; 0; 0; EEXIST; 1; 0; 0] /\ acl_detach s' = ∅.
Proof.
  destruct (acl_refines_set [op_setpolicy 1; op_add [2; 0; 0; 0; 0; 9]; op_add [2; 0; 0; 0; 0; 41]; op_add [2; 0; 0; 0; 0; 9];
      op_check [2; 0; 0; 0; 0; 41]; op_remove [2; 0; 0; 0; 0; 41]; op_check [2; 0; 0; 0; 0; 41]]) as (rs & s' & E & A & D).
  { repeat (first [exact I | reflexivity | lia | constructor]). }
  exists rs, s'. split; [exact E|]. split; [|exact D].
  apply (f_equal (fun r => match r with Ok (rs, _) => rs | _ => [] end)) in E. rewrite <- E. vm_compute. reflexivity.
Defined.

(** ** Reading the list *)

Definition acl_macs (s : aclstate) : list (list Z) := omap (fun p => as_mem s !! p) (as_list s).

Lemma maclist_spec mem l :
  (forall p, p ∈ l -> exists a, mem !! p = Some a /\ length a = 6%nat) ->
  maclist mem l = Ok (concat (omap (fun p => mem !! p) l)) /\
  length (concat (omap (fun p => mem !! p) l)) = (6 * length l)%nat /\ length (omap (fun p => mem !! p) l) = length l.
Proof.
  induction l as [|p l IH]; intros H; [done|]. destruct (H p) as (a & E & La); [by constructor|].
  destruct IH as (E1 & L1 & L2); [intros q Hq; apply H; by constructor|].
  cbn [maclist omap list_omap]. rewrite E, E1. cbn [res_bind concat length]. rewrite length_app, La.
  split; [done|]. split; [unfold omap in *; lia|unfold omap in *; lia].
Qed.

Lemma acl_macs_ok s :
  acl_wf s -> NoDup (acl_macs s) /\ list_to_set (acl_macs s) = snd (acl_abs s) /\ length (acl_macs s) = length (as_list s) /\
  maclist (as_mem s) (as_list s) = Ok (concat (acl_macs s)) /\ length (concat (acl_macs s)) = (6 * length (as_list s))%nat.
Proof.
  intros W. destruct (maclist_spec (as_mem s) (as_list s)) as (E & L & L2).
  { intros p Hp%(wf_live s W). destruct Hp as [a Ea]. exists a. split; [done|]. by destruct (wf_mac s W p a Ea). }
  split; [|split; [|done]].
  - unfold acl_macs. pose proof (wf_nodup s W) as N. revert N. generalize (as_list s). clear E L L2. intros l.
    induction 1 as [|p l Hp Hl IH]; [constructor|]. cbn [omap list_omap]. destruct (as_mem s !! p) as [a|] eqn:Ea; [|exact IH].
    constructor; [|exact IH]. intros (q & Hq & Eq)%list_elem_of_omap. destruct Hp. by rewrite (wf_inj s W p q a).
  - apply set_eq. intros a. cbn [acl_abs snd]. rewrite elem_of_list_to_set, elem_of_acls. unfold acl_macs. rewrite list_elem_of_omap. split.
    + intros (p & _ & Ep). by exists p.
    + intros [p Ep]. exists p. split; [apply (wf_live s W); by exists a|done].
Qed.

(** Reading the list back takes two calls: a request with no buffer tells
    the space needed, and a request with that space returns the addresses,
    each once and together exactly the set; a smaller buffer gets a prefix.
    The loop never writes past the buffer it allocated. *)
Theorem acl_getioctl_lists (s : aclstate) (i_len : Z) (W : acl_wf s) (Hn : 6 * Z.of_nat (length (as_list s)) < 2 ^ 16)
    (Hi : 0 < i_len < 2 ^ 16) :
  exists macs, NoDup macs /\ list_to_set macs = snd (acl_abs s) /\
    acl_getioctl s IEEE80211_MACCMD_LIST 0 = Ok (0, IEEE80211_MACCMD_LIST, 6 * Z.of_nat (length macs), []) /\
    acl_getioctl s IEEE80211_MACCMD_LIST i_len =
      Ok (0, IEEE80211_MACCMD_LIST, Z.min i_len (6 * Z.of_nat (length macs)), take (Z.to_nat i_len) (concat macs)).
Proof.
  destruct (acl_macs_ok s W) as (N & Es & Lm & Em & Lc). exists (acl_macs s). split; [done|]. split; [done|].
  assert (Hs : u32 (as_nacls s * Z.of_nat IEEE80211_ADDR_LEN) = 6 * Z.of_nat (length (as_list s))).
  { rewrite (wf_count s W), (u32_id (Z.of_nat (length (as_list s)))) by (unfold is_u; lia). change (Z.of_nat IEEE80211_ADDR_LEN) with 6.
    rewrite u32_id by (unfold is_u; lia). lia. }
  unfold acl_getioctl. cbn [Z.eqb IEEE80211_MACCMD_LIST IEEE80211_MACCMD_POLICY Pos.eqb].
  rewrite Hs, Lm, Em. cbn [res_bind]. rewrite u16_id by (unfold is_u; lia). split; [done|].
  replace (i_len =? 0) with false by lia. rewrite Lc.
  replace (6 * Z.of_nat (length (as_list s)) <? Z.of_nat (6 * length (as_list s))) with false by (symmetry; apply Z.ltb_ge; lia).
  destruct (_ <=? i_len) eqn:El.
  - do 2 f_equal; [f_equal; lia|]. rewrite !take_ge by lia. done.
  - do 2 f_equal. f_equal. lia.
Qed.
Definition acl_one : aclstate :=
  mkAcl 0 (u32 (0 + 1)) ([] ++ [7%nat]) (alter (cons 7%nat) (ACL_HASH [2; 0; 0; 0; 0; 9]) (replicate ACL_HASHSIZE []))
    (<[7%nat := take IEEE80211_ADDR_LEN [2; 0; 0; 0; 0; 9]]> ∅).
Lemma acl_one_wf : acl_wf acl_one.
Proof.
  apply (acl_add_wf acl_attach 7 [2; 0; 0; 0; 0; 9] acl_attach_wf); [split; [done|repeat constructor; lia]|done|].
  intros q. cbn [acl_attach as_mem]. by rewrite lookup_empty.
Qed.
Lemma acl_getioctl_lists_witness :
  acl_getioctl acl_one IEEE80211_MACCMD_LIST 12 = Ok (0, IEEE80211_MACCMD_LIST, 6, [2; 0; 0; 0; 0; 9]) /\
  exists macs, NoDup macs /\ list_to_set macs = snd (acl_abs acl_one) /\
    acl_getioctl acl_one IEEE80211_MACCMD_LIST 0 = Ok (0, IEEE80211_MACCMD_LIST, 6 * Z.of_nat (length macs), []) /\
    acl_getioctl acl_one IEEE80211_MACCMD_LIST 12 =
      Ok (0, IEEE80211_MACCMD_LIST, Z.min 12 (6 * Z.of_nat (length macs)), take (Z.to_nat 12) (concat macs)).
Proof.
  split; [vm_compute; reflexivity|]. apply (acl_getioctl_lists acl_one 12 acl_one_wf); [vm_compute; reflexivity|lia].
Defined.
