(* ===== verification/Amrr.v ===== *)
(** * Adaptive multi-rate retry: net80211/ieee80211_amrr.c

    The rate controller of a node.  Its counters are [u_int]; [ni_txrate] is
    an [int] index into the [rs_nrates] negotiated rates of the node. *)

From stdpp Require Import relations.
From S2P Require Import Prelude.

(** ** Data *)

Record ieee80211_amrr := mkAmrr {
  amrr_min_success_threshold : Z;
  amrr_max_success_threshold : Z;
}.
Record ieee80211_amrr_node := mkAmn {
  amn_success : Z;
  amn_recovery : Z;
  amn_success_threshold : Z;
  amn_txcnt : Z;
  amn_retrycnt : Z;
}.

Definition is_success (amn : ieee80211_amrr_node) : bool := amn_retrycnt amn <? amn_txcnt amn / 10.
Definition is_failure (amn : ieee80211_amrr_node) : bool := amn_txcnt amn / 3 <? amn_retrycnt amn.
Definition is_enough (amn : ieee80211_amrr_node) : bool := 10 <? amn_txcnt amn.
Definition is_min_rate (txrate : Z) : bool := txrate =? 0.
Definition is_max_rate (nrates txrate : Z) : bool := txrate =? nrates - 1.

Definition set_success (a : ieee80211_amrr_node) (v : Z) : ieee80211_amrr_node :=
  mkAmn v (amn_recovery a) (amn_success_threshold a) (amn_txcnt a) (amn_retrycnt a).
Definition set_recovery (a : ieee80211_amrr_node) (v : Z) : ieee80211_amrr_node :=
  mkAmn (amn_success a) v (amn_success_threshold a) (amn_txcnt a) (amn_retrycnt a).
Definition set_threshold (a : ieee80211_amrr_node) (v : Z) : ieee80211_amrr_node :=
  mkAmn (amn_success a) (amn_recovery a) v (amn_txcnt a) (amn_retrycnt a).
Definition reset_cnt (a : ieee80211_amrr_node) : ieee80211_amrr_node :=
  mkAmn (amn_success a) (amn_recovery a) (amn_success_threshold a) 0 0.

(** ** Operations *)

Definition ieee80211_amrr_node_init (amrr : ieee80211_amrr) : ieee80211_amrr_node :=
  mkAmn 0 0 (amrr_min_success_threshold amrr) 0 0.

(** The new [ni_txrate] and the new state. *)
Definition ieee80211_amrr_choose (amrr : ieee80211_amrr) (nrates txrate : Z) (amn : ieee80211_amrr_node)
    : Z * ieee80211_amrr_node :=
  let '(txrate, amn, need_change) :=
    if is_success amn && is_enough amn then
      let amn := set_success amn (u32 (amn_success amn + 1)) in
      if (amn_success_threshold amn <=? amn_success amn) && negb (is_max_rate nrates txrate) then
        (txrate + 1, set_success (set_recovery amn 1) 0, true)
      else (txrate, set_recovery amn 0, false)
    else if is_failure amn then
      let amn := set_success amn 0 in
      if negb (is_min_rate txrate) then
        let amn :=
          if negb (amn_recovery amn =? 0) then
            let amn := set_threshold amn (u32 (amn_success_threshold amn * 2)) in
            if amrr_max_success_threshold amrr <? amn_success_threshold amn
            then set_threshold amn (amrr_max_success_threshold amrr) else amn
          else set_threshold amn (amrr_min_success_threshold amrr) in
        (txrate - 1, set_recovery amn 0, true)
      else (txrate, set_recovery amn 0, false)
    else (txrate, amn, false) in
  (txrate, if is_enough amn || need_change then reset_cnt amn else amn).

(** ** Invariant *)

Section Rates.
Context (amrr : ieee80211_amrr) (nrates : Z).

(** The settings a driver gives: [1 .. 15] in this tree. *)
Definition amrr_ok : Prop :=
  0 < amrr_min_success_threshold amrr <= amrr_max_success_threshold amrr /\ amrr_max_success_threshold amrr < 2 ^ 31.

Record rate_inv (txrate : Z) (a : ieee80211_amrr_node) : Prop := mkRateInv {
  inv_rate : 0 <= txrate < nrates;
  inv_threshold : amrr_min_success_threshold amrr <= amn_success_threshold a <= amrr_max_success_threshold amrr;
  inv_success : 0 <= amn_success a < 2 ^ 32;
  inv_recovery : amn_recovery a = 0 \/ amn_recovery a = 1;
}.

(** What the driver does between two decisions: count transmissions and retries. *)
Inductive rate_step : Z * ieee80211_amrr_node -> Z * ieee80211_amrr_node -> Prop :=
| step_count txrate a tx retry :
    rate_step (txrate, a) (txrate, mkAmn (amn_success a) (amn_recovery a) (amn_success_threshold a) tx retry)
| step_choose txrate a : rate_step (txrate, a) (ieee80211_amrr_choose amrr nrates txrate a).

Hypothesis Hok : amrr_ok.

Lemma doubled_threshold t :
  amrr_min_success_threshold amrr <= t <= amrr_max_success_threshold amrr -> u32 (t * 2) = t * 2.
Proof. intros H. destruct Hok. apply u32_id. unfold is_u. lia. Qed.

Lemma amrr_choose_inv txrate a :
  rate_inv txrate a ->
  rate_inv (fst (ieee80211_amrr_choose amrr nrates txrate a)) (snd (ieee80211_amrr_choose amrr nrates txrate a)).
Proof.
  intros [Hr Ht Hs Hc]. destruct Hok as [Hm Hx]. unfold ieee80211_amrr_choose.
  pose proof (u32_range (amn_success a + 1)) as Hu. unfold is_u in Hu. change (2 ^ 32) with (2 ^ 32) in Hu.
  assert (R : forall b x, rate_inv txrate x -> rate_inv txrate (if b : bool then reset_cnt x else x))
    by (intros b x [? ? ? ?]; destruct b; by split).
  destruct (is_success a && is_enough a).
  - cbv zeta. cbn [amn_success amn_success_threshold set_success]. destruct (_ && _) eqn:E.
    + apply andb_true_iff in E as [_ E]. apply negb_true_iff, Z.eqb_neq in E. cbn [fst snd]. rewrite orb_true_r.
      split; cbn; try lia; auto.
    + cbn [fst snd]. apply R. split; cbn; auto.
  - destruct (is_failure a).
    + cbv zeta. destruct (negb (is_min_rate txrate)) eqn:E.
      * apply negb_true_iff, Z.eqb_neq in E. cbn [fst snd]. rewrite orb_true_r. cbn [amn_recovery set_success].
        destruct (negb _); [cbn [amn_success_threshold set_threshold set_success]; rewrite doubled_threshold by done; destruct (_ <? _) eqn:El|];
          split; cbn; try lia; auto; rewrite ?doubled_threshold by done; try lia.
      * cbn [fst snd]. apply R. split; cbn; auto. lia.
    + cbn [fst snd]. apply R. by split.
Qed.

Lemma rate_step_inv s s' : rate_inv (fst s) (snd s) -> rate_step s s' -> rate_inv (fst s') (snd s').
Proof.
  intros I St. destruct St as [txrate a tx retry|txrate a]; [|by apply amrr_choose_inv].
  destruct I as [? ? ? ?]. by split.
Qed.
Lemma rate_run_inv s s' : rate_inv (fst s) (snd s) -> rtc rate_step s s' -> rate_inv (fst s') (snd s').
Proof. intros I R. induction R as [|a b c St _ IH]; [done|]. apply IH. by apply (rate_step_inv a). Qed.
End Rates.

(** C31. Over any history of transmissions and decisions the rate index stays
    inside the negotiated rates (so the table is never read out of bounds) and
    the success threshold between its minimum and maximum, its doubling never
    wrapping around. *)
Theorem amrr_rate_in_bounds (amrr : ieee80211_amrr) (nrates txrate : Z) (s : Z * ieee80211_amrr_node)
    (Hok : amrr_ok amrr) (Hr : 0 <= txrate < nrates)
    (Hrun : rtc (rate_step amrr nrates) (txrate, ieee80211_amrr_node_init amrr) s) :
  0 <= fst s < nrates /\
  amrr_min_success_threshold amrr <= amn_success_threshold (snd s) <= amrr_max_success_threshold amrr.
Proof.
  assert (I0 : rate_inv amrr nrates txrate (ieee80211_amrr_node_init amrr)) by (destruct Hok; split; cbn; auto; lia).
  by destruct (rate_run_inv amrr nrates Hok (txrate, ieee80211_amrr_node_init amrr) s I0 Hrun).
Qed.
Lemma amrr_rate_in_bounds_witness :
  0 <= fst (1, mkAmn 0 1 1 0 0) < 4 /\ 1 <= amn_success_threshold (snd (1, mkAmn 0 1 1 0 0)) <= 15.
Proof.
  apply (amrr_rate_in_bounds (mkAmrr 1 15) 4 0 (1, mkAmn 0 1 1 0 0)); [split; cbn; lia|lia|].
  eapply rtc_l; [apply (step_count _ _ 0 (ieee80211_amrr_node_init (mkAmrr 1 15)) 100 2)|].
  eapply rtc_l; [apply step_choose|]. vm_compute. apply rtc_refl.
Defined.
