(* ===== verification/Defrag.v ===== *)
(** * Reassembly of fragments: ieee80211_defrag of net80211/ieee80211_input.c

    A node keeps at most one packet under reassembly, [ni_rxfrag[0]].  Its
    fragments arrive one at a time, after the cipher has removed its headers
    from each. *)

From S2P Require Import Prelude Buffers Endian Mbuf MbufProof AesCcmProof AesCcmRfc AesCcmMbuf Ieee80211 FrameProof.

(** ** Definitions *)

(** The part of [struct ieee80211_node] that reassembly uses. *)
Record frag_node := mkFrag {
  ni_rxfrag : option (list mbuf);    (* ni_rxfrag[0] *)
  ni_table : bool;                   (* the node is in a table *)
  ni_rxfragstamp : Z;
  ns_rx_defrag : Z;
}.

Definition i_seq (wh : list Z) : list Z := sub_list 22 2 wh.
Definition rxseq (wh : list Z) : Z := le16dec (i_seq wh).

(** The new fragment continues the saved packet. *)
Definition frag_related (wh lwh : list Z) : bool :=
  (rxseq wh =? rxseq lwh + 1) && IEEE80211_ADDR_EQ (i_addr1 wh) (i_addr1 lwh) &&
  IEEE80211_ADDR_EQ (i_addr2 wh) (i_addr2 lwh).

(** Strip the header of [m] and append the rest to the saved packet. *)
Definition frag_append (mfrag m : list mbuf) (hdrspace : nat) (iseq : list Z) : res (list mbuf) :=
  let m := m_adj m (Z.of_nat hdrspace) in
  let mlen := match m with y :: _ => ph_len (m_hdr y) | [] => 0 end in
  let* mfrag := m_cat mfrag m in
  match mfrag with
  | [] => Fault NullDeref
  | x :: rest =>
      let x := set_ph_len x (ph_len (m_hdr x) + mlen) in
      Ok (mstore x 22 iseq :: rest)
  end.

(** The result is the packet to go on with, [[]] for NULL. *)
Definition ieee80211_defrag (ticks : Z) (ni : frag_node) (h : heap) (m : list mbuf) (hdrspace : nat)
    : res (list mbuf * frag_node * heap) :=
  match m with
  | [] => Fault NullDeref
  | y :: _ =>
      let wh := mtod y in
      let more_frag := negb (Z.land (i_fc1 wh) IEEE80211_FC1_MORE_FRAG =? 0) in
      if IEEE80211_IS_MULTICAST (i_addr1 wh) then Fault Panic
      else
        let fragno := Z.land (rxseq wh) IEEE80211_SEQ_FRAG_MASK in
        if negb more_frag && (fragno =? 0) && bool_decide (ni_rxfrag ni = None) then Ok (m, ni, h)
        else if negb (ni_table ni) then Ok ([], ni, m_freem h m)
        else
          let mfrag := match ni_rxfrag ni with Some c => c | None => [] end in
          let ni := mkFrag None (ni_table ni) (ni_rxfragstamp ni) (ns_rx_defrag ni) in
          let '(mfrag, h) :=
            match mfrag with
            | x :: _ => if frag_related wh (mtod x) then (mfrag, h) else ([], m_freem h mfrag)
            | [] => (mfrag, h)
            end in
          match mfrag with
          | [] =>
              if negb (fragno =? 0) then
                Ok ([], mkFrag None (ni_table ni) (ni_rxfragstamp ni) (u32 (ns_rx_defrag ni + 1)), m_freem h m)
              else
                if more_frag then Ok ([], mkFrag (Some m) (ni_table ni) ticks (ns_rx_defrag ni), h)
                else Ok (m, ni, h)
          | _ :: _ =>
              let* mfrag := frag_append mfrag m hdrspace (i_seq wh) in
              if more_frag then Ok ([], mkFrag (Some mfrag) (ni_table ni) ticks (ns_rx_defrag ni), h)
              else Ok (mfrag, ni, h)
          end
  end.

(** ** One fragment *)

(** A fragment as the input path hands it over. *)
Record frag_ok (hdrlen : nat) (m : list mbuf) : Prop := mkFragOk {
  fo_wf : cwf m;
  fo_hdr : match m with y :: _ => (hdrlen <= m_len y)%nat | [] => False end;
  fo_min : (24 <= hdrlen)%nat;
  fo_ucast : IEEE80211_IS_MULTICAST (i_addr1 (content m)) = false;
}.
Definition frag_more (m : list mbuf) : bool := negb (Z.land (i_fc1 (content m)) IEEE80211_FC1_MORE_FRAG =? 0).
Definition frag_no (m : list mbuf) : Z := Z.land (rxseq (content m)) IEEE80211_SEQ_FRAG_MASK.

(** Header fields of the first mbuf are those of the packet. *)
Lemma frag_fields y rs n :
  cwf (y :: rs) -> (24 <= n)%nat -> (n <= m_len y)%nat ->
  i_fc1 (mtod y) = i_fc1 (content (y :: rs)) /\ i_addr1 (mtod y) = i_addr1 (content (y :: rs)) /\
  i_addr2 (mtod y) = i_addr2 (content (y :: rs)) /\ i_seq (mtod y) = i_seq (content (y :: rs)).
Proof.
  intros Hc Hn Hm. inversion_clear Hc as [|? ? Hy _].
  assert (E : take 24 (mtod y) = take 24 (content (y :: rs))) by (apply take_mtod; [done|lia]).
  unfold i_fc1, i_addr1, i_addr2, i_seq. split; [by apply (byte_at_prefix 24); [|lia]|].
  split; [|split]; by apply (sub_list_prefix 24); [|lia].
Qed.

(** The bytes of a chain after a store into its head, whatever its packet header says. *)
Lemma mstore_content x r off b :
  cwf (x :: r) -> (off + length b <= m_len x)%nat -> bytes b ->
  cwf (mstore x off b :: r) /\ content (mstore x off b :: r) = splice off b (content (x :: r)).
Proof.
  intros Hc Hle Hb. inversion_clear Hc as [|? ? Hx Hr]. pose proof Hx as (Hl & Hw & _). pose proof (length_mdata x Hx) as Hlm.
  split; [constructor; [apply mwf_store; [done|lia|done]|done]|].
  rewrite !content_cons. unfold mstore. rewrite mdata_store by done. symmetry. apply splice_app_l. lia.
Qed.

Lemma m_cat_head x r n c :
  m_cat (x :: r) n = Ok c ->
  exists x' r', c = x' :: r' /\ m_len x' = m_len x /\ m_data x' = m_data x /\ m_cluster x' = m_cluster x.
Proof.
  cbn [m_cat]. destruct r as [|z r]; [intros [= <-]; eexists _, _; split; [done|]; by destruct (has_pkthdr x)|].
  destruct (m_cat (z :: r) n) as [c0|]; [|done]. intros [= <-]. by eexists _, _.
Qed.

(** Appending a fragment to a saved packet. *)
Lemma frag_append_ok x r y rs hdrlen iseq :
  cwf (x :: r) -> (24 <= m_len x)%nat -> cwf (y :: rs) -> length iseq = 2%nat -> bytes iseq ->
  exists x' r', frag_append (x :: r) (y :: rs) hdrlen iseq = Ok (x' :: r') /\ cwf (x' :: r') /\ m_len x' = m_len x /\
    content (x' :: r') = splice 22 iseq (content (x :: r)) ++ drop hdrlen (content (y :: rs)) /\
    length (x' :: r') = (length (x :: r) + length (y :: rs))%nat.
Proof.
  intros Hc Hx Hf Hl Hb. unfold frag_append. destruct (m_adj_spec (y :: rs) (Z.of_nat hdrlen) Hf) as (Ea & Wa & _).
  pose proof (m_adj_length (y :: rs) (Z.of_nat hdrlen)) as La. cbv zeta. set (a := m_adj (y :: rs) _) in *. clearbody a.
  destruct (m_cat_spec (x :: r) a ltac:(done)) as (c1 & E1 & Ec & Wc & Lc).
  destruct (m_cat_head x r a c1 E1) as (x1 & r1 & -> & L1 & _). rewrite E1. cbn [res_bind].
  set (x2 := set_ph_len x1 _). specialize (Wc Hc Wa).
  assert (W2 : cwf (x2 :: r1)) by (inversion_clear Wc; by constructor).
  destruct (mstore_content x2 r1 22 iseq W2) as [W3 E3]; [change (m_len x2) with (m_len x1); lia|done|].
  eexists _, _. split; [done|]. split; [done|]. split; [exact L1|]. split; [|rewrite <- La; exact Lc].
  rewrite E3. change (content (x2 :: r1)) with (content (x1 :: r1)). rewrite Ec, Ea. unfold adj_spec.
  replace (0 <=? Z.of_nat hdrlen) with true by (symmetry; apply Z.leb_le; lia). rewrite Nat2Z.id. apply splice_app_l.
  pose proof Hc as Hc'. inversion_clear Hc' as [|? ? Wx _]. rewrite content_cons, length_app, (length_mdata x Wx). lia.
Qed.

(** ** A packet in fragments *)

Lemma i_seq_ok l : (24 <= length l)%nat -> bytes l -> length (i_seq l) = 2%nat /\ bytes (i_seq l).
Proof. intros. unfold i_seq. split; [rewrite length_sub_list; [done|lia]|auto with urange]. Qed.

Lemma content_ge x r n : cwf (x :: r) -> (n <= m_len x)%nat -> (n <= length (content (x :: r)))%nat.
Proof. intros Hc Hn. inversion_clear Hc as [|? ? Wx _]. rewrite content_cons, length_app, (length_mdata x Wx). lia. Qed.

(** The next fragment of a saved packet. *)
Lemma defrag_next ticks ni h x r y rs hdrlen :
  ni_rxfrag ni = Some (x :: r) -> ni_table ni = true -> cwf (x :: r) -> (24 <= m_len x)%nat -> frag_ok hdrlen (y :: rs) ->
  frag_related (content (y :: rs)) (content (x :: r)) = true ->
  exists x' r', frag_append (x :: r) (y :: rs) hdrlen (i_seq (content (y :: rs))) = Ok (x' :: r') /\
    cwf (x' :: r') /\ m_len x' = m_len x /\
    content (x' :: r') = splice 22 (i_seq (content (y :: rs))) (content (x :: r)) ++ drop hdrlen (content (y :: rs)) /\
    length (x' :: r') = (length (x :: r) + length (y :: rs))%nat /\
    ieee80211_defrag ticks ni h (y :: rs) hdrlen =
      Ok (if frag_more (y :: rs) then ([], mkFrag (Some (x' :: r')) true ticks (ns_rx_defrag ni), h)
          else (x' :: r', mkFrag None true (ni_rxfragstamp ni) (ns_rx_defrag ni), h)).
Proof.
  intros Hs Ht Hc Hx [Wf Hh Hm Hu] Hr.
  destruct (frag_fields y rs hdrlen Wf Hm Hh) as (F1 & F2 & F3 & F4).
  destruct (frag_fields x r 24 Hc ltac:(lia) Hx) as (G1 & G2 & G3 & G4).
  destruct (i_seq_ok (content (y :: rs))) as [Li Bi];
    [apply content_ge; [done|lia]|by apply content_bytes|].
  destruct (frag_append_ok x r y rs hdrlen (i_seq (content (y :: rs))) Hc Hx Wf Li Bi) as (x' & r' & Ea & Wa & La & Ec & Lc).
  exists x', r'. split; [done|]. split; [done|]. split; [done|]. split; [done|]. split; [done|].
  unfold ieee80211_defrag. rewrite F2, Hu, Hs, Ht. replace (bool_decide (Some (x :: r) = None)) with false by (symmetry; by apply bool_decide_eq_false).
  rewrite andb_false_r. cbn [negb]. unfold frag_related, rxseq in *. rewrite F2, F3, F4, G2, G3, G4, Hr.
  rewrite Ea. cbn [res_bind]. rewrite F1. unfold frag_more. by destruct (negb _).
Qed.

(** What [frag_related] looks at. *)
Definition frag_key (wh : list Z) : Z * list Z * list Z := (rxseq wh, take 6 (i_addr1 wh), take 6 (i_addr2 wh)).

Lemma frag_related_key wh a b : frag_key a = frag_key b -> frag_related wh a = frag_related wh b.
Proof. intros [= E1 E2 E3]. unfold frag_related, IEEE80211_ADDR_EQ. change IEEE80211_ADDR_LEN with 6%nat. by rewrite E1, E2, E3. Qed.

Lemma frag_related_addrs a b :
  frag_related a b = true -> take 6 (i_addr1 a) = take 6 (i_addr1 b) /\ take 6 (i_addr2 a) = take 6 (i_addr2 b).
Proof.
  unfold frag_related, IEEE80211_ADDR_EQ. change IEEE80211_ADDR_LEN with 6%nat.
  intros [[_ H1]%andb_true_iff H2]%andb_true_iff. apply bool_decide_eq_true in H1, H2. done.
Qed.

Lemma frag_key_splice c d wh :
  (24 <= length c)%nat -> length (i_seq wh) = 2%nat -> frag_related wh c = true ->
  frag_key (splice 22 (i_seq wh) c ++ d) = frag_key wh.
Proof.
  intros Hc Hl Hr. destruct (frag_related_addrs wh c Hr) as [E1 E2]. unfold frag_key, rxseq. rewrite E1, E2.
  assert (Ea : forall off, (off + 6 <= 22)%nat -> sub_list off 6 (splice 22 (i_seq wh) c ++ d) = sub_list off 6 c).
  { intros off Ho. set (s := i_seq wh) in *. clearbody s. clear -Hc Hl Ho. list_solve. }
  assert (Es : i_seq (splice 22 (i_seq wh) c ++ d) = i_seq wh).
  { unfold i_seq at 1. set (s := i_seq wh) in *. clearbody s. clear -Hc Hl. list_solve. }
  unfold i_addr1, i_addr2. rewrite Es, !Ea by lia. done.
Qed.

(** A packet in fragments: [fs] continues [prev] up to the last fragment. *)
Fixpoint frags_linked (prev : list mbuf) (fs : list (list mbuf)) : Prop :=
  match fs with
  | [] => False
  | f :: fs =>
      frag_related (content f) (content prev) = true /\
      match fs with [] => frag_more f = false | _ => frag_more f = true /\ frags_linked f fs end
  end.

(** Fragments given one after the other; the packets that come out. *)
Fixpoint defrag_all (ticks : Z) (ni : frag_node) (h : heap) (fs : list (list mbuf)) (hdrlen : nat)
    : res (list (list mbuf) * frag_node * heap) :=
  match fs with
  | [] => Ok ([], ni, h)
  | f :: fs =>
      let* (c, ni, h) := ieee80211_defrag ticks ni h f hdrlen in
      let* (cs, ni, h) := defrag_all ticks ni h fs hdrlen in
      Ok (c :: cs, ni, h)
  end.

Definition payloads (hdrlen : nat) (fs : list (list mbuf)) : list Z := concat (map (fun f => drop hdrlen (content f)) fs).
Definition mbufs (fs : list (list mbuf)) : nat := length (concat fs).

Lemma last_default {A} (g : A) l d d' : List.last (g :: l) d = List.last (g :: l) d'.
Proof. revert g. induction l as [|z l IH]; intros g; [done|apply (IH z)]. Qed.
Lemma last_Forall {A} (P : A -> Prop) g l d : Forall P (g :: l) -> P (List.last (g :: l) d).
Proof. revert g. induction l as [|z l IH]; intros g H; inversion_clear H; [done|by apply (IH z)]. Qed.
Lemma frag_seq_ok hdrlen f : frag_ok hdrlen f -> length (i_seq (content f)) = 2%nat /\ bytes (i_seq (content f)).
Proof.
  intros [W H M _]. destruct f as [|y rs]; [done|]. apply i_seq_ok; [apply content_ge; [done|lia]|by apply content_bytes].
Qed.

Lemma defrag_rest ticks hdrlen fs : forall prev ni h x r,
  ni_rxfrag ni = Some (x :: r) -> ni_table ni = true -> cwf (x :: r) -> (24 <= m_len x)%nat ->
  frag_key (content (x :: r)) = frag_key (content prev) -> frags_linked prev fs -> Forall (frag_ok hdrlen) fs ->
  exists c ni', defrag_all ticks ni h fs hdrlen = Ok (replicate (length fs - 1) [] ++ [c], ni', h) /\
    ni_rxfrag ni' = None /\ cwf c /\
    content c = splice 22 (i_seq (content (List.last fs prev))) (content (x :: r)) ++ payloads hdrlen fs /\
    length c = (length (x :: r) + mbufs fs)%nat /\ head_len c = m_len x.
Proof.
  induction fs as [|f fs IH]; intros prev ni h x r Hs Ht Hc Hx Hk Hl Hf; [done|].
  inversion_clear Hf as [|? ? Ff Hf']. destruct Hl as [Hr Hl]. rewrite <- (frag_related_key _ _ _ Hk) in Hr.
  destruct f as [|y rs]; [by destruct Ff as [_ ? _ _]|].
  assert (H24 : (24 <= length (content (x :: r)))%nat) by (apply content_ge; [done|lia]).
  pose proof (frag_seq_ok hdrlen _ Ff) as [Li Bi].
  destruct (defrag_next ticks ni h x r y rs hdrlen Hs Ht Hc Hx Ff Hr) as (x' & r' & _ & W' & L' & E' & N' & D').
  cbn [defrag_all]. rewrite D'. destruct fs as [|g fs].
  - rewrite Hl. cbn [res_bind defrag_all]. eexists _, _. split; [done|]. split; [done|]. split; [done|].
    split; [rewrite E'; unfold payloads; cbn [map concat]; by rewrite app_nil_r|].
    unfold mbufs. cbn [concat]. rewrite app_nil_r. split; [exact N'|exact L'].
  - destruct Hl as [Hm Hl]. rewrite Hm. cbn [res_bind].
    destruct (IH (y :: rs) (mkFrag (Some (x' :: r')) true ticks (ns_rx_defrag ni)) h x' r') as (c & ni' & -> & Hn & Wc & Ec & Lc & Hc');
      [done|done|done|lia|rewrite E'; by apply frag_key_splice|done|done|].
    eexists c, ni'. split; [cbn [length Nat.sub]; by rewrite ?Nat.sub_0_r|]. split; [done|]. split; [done|]. split.
    + rewrite Ec, E'. change (List.last ((y :: rs) :: g :: fs) prev) with (List.last (g :: fs) prev).
      rewrite (last_default g fs (y :: rs) prev). pose proof (frag_seq_ok hdrlen _ (last_Forall _ g fs prev Hf')) as [Lz _].
      unfold payloads at 2. cbn [map concat]. fold (payloads hdrlen (g :: fs)). rewrite app_assoc. f_equal.
      set (s1 := i_seq (content (y :: rs))) in *. set (s2 := i_seq _) in *. set (c0 := content (x :: r)) in *. set (d := drop _ _).
      clearbody s1 s2 c0 d. clear -Li Lz H24. list_solve.
    + split; [|congruence]. rewrite Lc, N'. unfold mbufs. cbn [concat]. rewrite !length_app. cbn [length]. lia.
Qed.

Lemma defrag_first ticks ni h f hdrlen :
  ni_rxfrag ni = None -> ni_table ni = true -> frag_ok hdrlen f -> frag_no f = 0 -> frag_more f = true ->
  ieee80211_defrag ticks ni h f hdrlen = Ok ([], mkFrag (Some f) true ticks (ns_rx_defrag ni), h).
Proof.
  intros Hn Ht [Wf Hh Hm Hu] H0 Hmore. destruct f as [|y rs]; [done|].
  destruct (frag_fields y rs hdrlen Wf Hm Hh) as (F1 & F2 & F3 & F4). unfold frag_more, frag_no, rxseq in *.
  unfold ieee80211_defrag, rxseq. rewrite F1, F2, F4, Hu, Hmore, Hn, Ht, H0. done.
Qed.

(** Fragments given in order, the last one included. *)
Lemma defrag_frags (ticks : Z) (ni : frag_node) (h : heap) (f0 : list mbuf) (fs : list (list mbuf)) (hdrlen : nat)
    (Hn : ni_rxfrag ni = None) (Ht : ni_table ni = true) (Hf : Forall (frag_ok hdrlen) (f0 :: fs))
    (H0 : frag_no f0 = 0) (Hm : frag_more f0 = true) (Hl : frags_linked f0 fs) :
  exists c ni', defrag_all ticks ni h (f0 :: fs) hdrlen = Ok (replicate (length fs) [] ++ [c], ni', h) /\
    ni_rxfrag ni' = None /\
    content c = splice 22 (i_seq (content (List.last fs f0))) (content f0) ++ payloads hdrlen fs /\
    length c = mbufs (f0 :: fs) /\ cwf c /\ head_len c = head_len f0.
Proof.
  inversion_clear Hf as [|? ? F0 Fs]. cbn [defrag_all]. rewrite (defrag_first ticks ni h f0 hdrlen Hn Ht F0 H0 Hm). cbn [res_bind].
  destruct f0 as [|x r]; [by destruct F0 as [_ ? _ _]|]. destruct F0 as [W0 L0 M0 _].
  destruct (defrag_rest ticks hdrlen fs (x :: r) (mkFrag (Some (x :: r)) true ticks (ns_rx_defrag ni)) h x r)
    as (c & ni' & E & N & W & C & L & Hc); try done; [lia|].
  exists c, ni'. rewrite E. destruct fs as [|g fs]; [done|]. cbn [length Nat.sub]. rewrite Nat.sub_0_r.
  split; [done|]. split; [done|]. split; [done|]. split; [|by split]. rewrite L. unfold mbufs.
  change (concat ((x :: r) :: g :: fs)) with ((x :: r) ++ concat (g :: fs)). by rewrite length_app.
Qed.

(** ** Properties *)

(** Reassembly: fragments of one packet, given in order to a node that has
    none pending, are held back one by one, and with the last one comes the
    packet: the header of the first fragment (with the sequence number of the
    last) and the payloads of all, in order.  No mbuf is lost and nothing
    stays pending. *)
Theorem defrag_reassembles (ticks : Z) (ni : frag_node) (h : heap) (f0 : list mbuf) (fs : list (list mbuf)) (hdrlen : nat)
    (Hn : ni_rxfrag ni = None) (Ht : ni_table ni = true) (Hf : Forall (frag_ok hdrlen) (f0 :: fs))
    (H0 : frag_no f0 = 0) (Hm : frag_more f0 = true) (Hl : frags_linked f0 fs) :
  exists c ni', defrag_all ticks ni h (f0 :: fs) hdrlen = Ok (replicate (length fs) [] ++ [c], ni', h) /\
    ni_rxfrag ni' = None /\
    content c = splice 22 (i_seq (content (List.last fs f0))) (content f0) ++ payloads hdrlen fs /\
    length c = mbufs (f0 :: fs).
Proof.
  destruct (defrag_frags ticks ni h f0 fs hdrlen Hn Ht Hf H0 Hm Hl) as (c & ni' & E & N & C & L & _). by exists c, ni'.
Qed.

(** Three fragments of a packet: 24 bytes of header and 3, 2 and 4 of payload. *)
Definition sample_frag (fc1 sq : Z) (pl : list Z) : list mbuf :=
  [sample_mbuf true 256 ([0x08; fc1; 0; 0] ++ map Z.of_nat (seq 100 18) ++ [sq; 0x12] ++ pl) (24 + Z.of_nat (length pl))].
Definition idle_node : frag_node := mkFrag None true 0 0.

Lemma sample_frags_ok :
  Forall (frag_ok 24) [sample_frag 0x06 0x30 [1; 2; 3]; sample_frag 0x06 0x31 [4; 5]; sample_frag 0x02 0x32 [6; 7; 8; 9]].
Proof.
  do 3 (apply Forall_cons_2; [split; [by_compute|apply Nat.leb_le; vm_compute; reflexivity|lia|vm_compute; reflexivity]|]).
  apply Forall_nil_2.
Qed.
Lemma defrag_reassembles_witness :
  exists c ni', defrag_all 7 idle_node (mkHeap [] 3)
      [sample_frag 0x06 0x30 [1; 2; 3]; sample_frag 0x06 0x31 [4; 5]; sample_frag 0x02 0x32 [6; 7; 8; 9]] 24
      = Ok ([[]; []; c], ni', mkHeap [] 3) /\ ni_rxfrag ni' = None /\
    drop 22 (content c) = [0x32; 0x12] ++ map Z.of_nat (seq 1 9) /\ length c = 3%nat.
Proof.
  destruct (defrag_reassembles 7 idle_node (mkHeap [] 3) (sample_frag 0x06 0x30 [1; 2; 3])
    [sample_frag 0x06 0x31 [4; 5]; sample_frag 0x02 0x32 [6; 7; 8; 9]] 24) as (c & ni' & E & N & C & L).
  - reflexivity.
  - reflexivity.
  - exact sample_frags_ok.
  - vm_compute. reflexivity.
  - vm_compute. reflexivity.
  - cbn [frags_linked]. repeat split; vm_compute; reflexivity.
  - exists c, ni'. split; [exact E|]. split; [exact N|]. split; [rewrite C; vm_compute; reflexivity|rewrite L; reflexivity].
Defined.

(** The packet header after the first append to a packet of one mbuf. *)
Lemma frag_append_len x y rs hdrlen iseq x' r' :
  has_pkthdr x = true -> has_pkthdr y = true -> cwf (y :: rs) -> frag_append [x] (y :: rs) hdrlen iseq = Ok (x' :: r') ->
  has_pkthdr x' = true /\ ph_len (m_hdr x') = ph_len (m_hdr x) + 2 * Z.of_nat (length (drop hdrlen (content (y :: rs)))).
Proof.
  intros Hx Hy Wf Ea. unfold frag_append in Ea. destruct (m_adj_spec (y :: rs) (Z.of_nat hdrlen) Wf) as (Ec & Wa & Sa).
  pose proof (m_adj_head (y :: rs) (Z.of_nat hdrlen)) as Ha. cbn [head_pkthdr] in Ha. rewrite Hy in Ha.
  assert (Hl : content (m_adj (y :: rs) (Z.of_nat hdrlen)) = drop hdrlen (content (y :: rs))).
  { rewrite Ec. unfold adj_spec. replace (0 <=? Z.of_nat hdrlen) with true by (symmetry; apply Z.leb_le; lia). by rewrite Nat2Z.id. }
  rewrite <- Hl. set (a := m_adj (y :: rs) _) in *. clearbody a. rewrite (length_content a Wa). destruct a as [|a0 a1]; [done|].
  specialize (Sa Ha). rewrite (length_content _ Wa) in Sa. cbn [m_cat] in Ea. rewrite Hx in Ea. cbn [res_bind] in Ea.
  injection Ea as <- <-. split; [exact Hx|]. rewrite Sa.
  change (ph_len (m_hdr x) + Z.of_nat (chain_len (a0 :: a1)) + Z.of_nat (chain_len (a0 :: a1)) =
          ph_len (m_hdr x) + 2 * Z.of_nat (chain_len (a0 :: a1))). lia.
Qed.

(** The announced length: when the first fragment is one mbuf, the reassembled packet's header counts
    the second fragment twice, because [m_cat] of this port already adds what
    [ieee80211_defrag] then adds again. *)
Theorem defrag_counts_twice (ticks : Z) (ni : frag_node) (h : heap) (x y : mbuf) (rs : list mbuf) (hdrlen : nat)
    (Hs : ni_rxfrag ni = Some [x]) (Ht : ni_table ni = true) (Hx : pkt_ok [x]) (Hxp : has_pkthdr x = true)
    (Hx24 : (24 <= m_len x)%nat) (Hf : frag_ok hdrlen (y :: rs)) (Hyp : has_pkthdr y = true)
    (Hr : frag_related (content (y :: rs)) (content [x]) = true) (Hlast : frag_more (y :: rs) = false) :
  exists x' r' ni', ieee80211_defrag ticks ni h (y :: rs) hdrlen = Ok (x' :: r', ni', h) /\ has_pkthdr x' = true /\
    ph_len (m_hdr x') = Z.of_nat (length (content (x' :: r'))) + Z.of_nat (length (drop hdrlen (content (y :: rs)))).
Proof.
  pose proof Hx as [Hc _]. destruct (defrag_next ticks ni h x [] y rs hdrlen Hs Ht Hc Hx24 Hf Hr) as (x' & r' & Ea & W & L & E & _ & D).
  rewrite Hlast in D. eexists x', r', _. split; [exact D|]. pose proof Hf as [Wf _ _ _].
  destruct (frag_append_len x y rs hdrlen _ x' r' Hxp Hyp Wf Ea) as [Hp Hl]. split; [exact Hp|].
  rewrite Hl, (pkt_ok_ph x [] Hx Hxp), E, length_app, length_splice; [lia|].
  pose proof (frag_seq_ok hdrlen _ Hf) as [-> _]. apply (content_ge x [] 24 Hc Hx24).
Qed.

Lemma defrag_counts_twice_witness :
  exists x' r' ni', ieee80211_defrag 7 (mkFrag (Some (sample_frag 0x06 0x30 [1; 2; 3])) true 0 0) (mkHeap [] 2)
      (sample_frag 0x02 0x31 [4; 5]) 24 = Ok (x' :: r', ni', mkHeap [] 2) /\
    has_pkthdr x' = true /\ ph_len (m_hdr x') = 31 /\ length (content (x' :: r')) = 29%nat.
Proof.
  destruct (defrag_counts_twice 7 (mkFrag (Some (sample_frag 0x06 0x30 [1; 2; 3])) true 0 0) (mkHeap [] 2)
    (sample_mbuf true 256 ([0x08; 0x06; 0; 0] ++ map Z.of_nat (seq 100 18) ++ [0x30; 0x12] ++ [1; 2; 3]) 27)
    (sample_mbuf true 256 ([0x08; 0x02; 0; 0] ++ map Z.of_nat (seq 100 18) ++ [0x31; 0x12] ++ [4; 5]) 26) [] 24)
    as (x' & r' & ni' & E & P & L).
  - reflexivity.
  - reflexivity.
  - split; [by_compute|]. intros _. vm_compute. reflexivity.
  - reflexivity.
  - apply Nat.leb_le. reflexivity.
  - split; [by_compute|apply Nat.leb_le; vm_compute; reflexivity|lia|vm_compute; reflexivity].
  - reflexivity.
  - vm_compute. reflexivity.
  - vm_compute. reflexivity.
  - exists x', r', ni'. split; [exact E|]. split; [exact P|].
    assert (Lc : length (content (x' :: r')) = 29%nat).
    { apply (f_equal (fun r => match r with Ok (c, _, _) => length (content c) | _ => 0%nat end)) in E.
      rewrite <- E. vm_compute. reflexivity. }
    split; [|exact Lc]. rewrite L, Lc. vm_compute. reflexivity.
Defined.
