(* ===== verification/InfoElem.v ===== *)
(** * Security and QoS information elements

    Building (net80211/ieee80211_output.c) and parsing (ieee80211_input.c) of
    the WPA, RSN and WME elements.  An element in a frame is the memory from
    its id byte on: [ie[1]] is its length, and a read past the element is a
    fault.  [1 << 32], which the parsers compute for an unknown cipher, is
    undefined in C: [shl32] is what the machine gives. *)

From S2P Require Import Prelude Buffers Ieee80211.

(** ** Constants *)

Definition IEEE80211_ELEMID_RSN : Z := 48.
Definition IEEE80211_ELEMID_VENDOR : Z := 221.
Definition IEEE80211_REASON_IE_INVALID : Z := 13.
Definition IEEE80211_F_WPA1 : Z := 0x00800000.
Definition IEEE80211_F_WPA2 : Z := 0x01000000.
Definition IEEE80211_F_WPA : Z := 0x01800000.
Definition WPA_OUI : Z := 0xf25000.
Definition WPA_OUI_TYPE : Z := 0x01.
Definition WPA_VERSION : Z := 1.
Definition WPA_CSE_NULL : Z := 0x00.
Definition WPA_CSE_WEP40 : Z := 0x01.
Definition WPA_CSE_TKIP : Z := 0x02.
Definition WPA_CSE_CCMP : Z := 0x04.
Definition WPA_CSE_WEP104 : Z := 0x05.
Definition WPA_ASE_NONE : Z := 0x00.
Definition WPA_ASE_8021X_UNSPEC : Z := 0x01.
Definition WPA_ASE_8021X_PSK : Z := 0x02.
Definition RSN_OUI : Z := 0xac0f00.
Definition RSN_VERSION : Z := 1.
Definition RSN_CSE_NULL : Z := 0x00.
Definition RSN_CSE_WEP40 : Z := 0x01.
Definition RSN_CSE_TKIP : Z := 0x02.
Definition RSN_CSE_WRAP : Z := 0x03.
Definition RSN_CSE_CCMP : Z := 0x04.
Definition RSN_CSE_WEP104 : Z := 0x05.
Definition RSN_ASE_NONE : Z := 0x00.
Definition RSN_ASE_8021X_UNSPEC : Z := 0x01.
Definition RSN_ASE_8021X_PSK : Z := 0x02.
Definition RSN_CAP_PREAUTH : Z := 0x01.
Definition sizeof_ie_wpa : Z := 100.

Record ieee80211_rsnparms := mkRsn {
  rsn_mcastcipher : Z;
  rsn_mcastkeylen : Z;
  rsn_ucastcipherset : Z;
  rsn_ucastcipher : Z;
  rsn_ucastkeylen : Z;
  rsn_keymgmtset : Z;
  rsn_keymgmt : Z;
  rsn_caps : Z;
}.
Definition set_mcastkeylen (r : ieee80211_rsnparms) (v : Z) :=
  mkRsn (rsn_mcastcipher r) v (rsn_ucastcipherset r) (rsn_ucastcipher r) (rsn_ucastkeylen r) (rsn_keymgmtset r) (rsn_keymgmt r) (rsn_caps r).
Definition set_ucast (r : ieee80211_rsnparms) (c : Z) :=
  mkRsn (rsn_mcastcipher r) (rsn_mcastkeylen r) (rsn_ucastcipherset r) c (rsn_ucastkeylen r) (rsn_keymgmtset r) (rsn_keymgmt r) (rsn_caps r).
Definition set_ucastkeylen (r : ieee80211_rsnparms) (v : Z) :=
  mkRsn (rsn_mcastcipher r) (rsn_mcastkeylen r) (rsn_ucastcipherset r) (rsn_ucastcipher r) v (rsn_keymgmtset r) (rsn_keymgmt r) (rsn_caps r).
Definition set_keymgmt (r : ieee80211_rsnparms) (v : Z) :=
  mkRsn (rsn_mcastcipher r) (rsn_mcastkeylen r) (rsn_ucastcipherset r) (rsn_ucastcipher r) (rsn_ucastkeylen r) (rsn_keymgmtset r) v (rsn_caps r).
Definition set_caps (r : ieee80211_rsnparms) (v : Z) :=
  mkRsn (rsn_mcastcipher r) (rsn_mcastkeylen r) (rsn_ucastcipherset r) (rsn_ucastcipher r) (rsn_ucastkeylen r) (rsn_keymgmtset r) (rsn_keymgmt r) v.

(** ** Parsing *)

(** [frm[i]], inside the element. *)
Definition rd (ie : list Z) (i : nat) : res Z :=
  if (i <? 2 + Z.to_nat (byte_at ie 1))%nat then Ok (byte_at ie i) else Fault BadAccess.
Definition LE_READ_2 (ie : list Z) (i : nat) : res Z :=
  let* b0 := rd ie i in let* b1 := rd ie (i + 1) in
  Ok (u16 (Z.lor b0 (Z.shiftl b1 8))).
Definition LE_READ_4 (ie : list Z) (i : nat) : res Z :=
  let* b0 := rd ie i in let* b1 := rd ie (i + 1) in let* b2 := rd ie (i + 2) in let* b3 := rd ie (i + 3) in
  Ok (u32 (Z.lor (Z.lor (Z.lor b0 (Z.shiftl b1 8)) (Z.shiftl b2 16)) (Z.shiftl b3 24))).

Definition iswpaoui (ie : list Z) : res bool :=
  if 3 <? byte_at ie 1 then let* w := LE_READ_4 ie 2 in Ok (w =? Z.lor (Z.shiftl WPA_OUI_TYPE 24) WPA_OUI) else Ok false.

Definition WPA_SEL (x : Z) : Z := Z.lor (Z.shiftl x 24) WPA_OUI.
Definition RSN_SEL (x : Z) : Z := Z.lor (Z.shiftl x 24) RSN_OUI.

(** The cipher a selector names and the key length, where it tells one. *)
Definition wpa_cipher (w keylen : Z) : Z * Z :=
  if w =? WPA_SEL WPA_CSE_NULL then (IEEE80211_CIPHER_NONE, keylen)
  else if w =? WPA_SEL WPA_CSE_WEP40 then (IEEE80211_CIPHER_WEP, 40 / 8)
  else if w =? WPA_SEL WPA_CSE_WEP104 then (IEEE80211_CIPHER_WEP, 104 / 8)
  else if w =? WPA_SEL WPA_CSE_TKIP then (IEEE80211_CIPHER_TKIP, keylen)
  else if w =? WPA_SEL WPA_CSE_CCMP then (IEEE80211_CIPHER_AES_CCM, keylen)
  else (32, keylen).
Definition wpa_keymgmt (w : Z) : Z :=
  if w =? WPA_SEL WPA_ASE_8021X_UNSPEC then WPA_ASE_8021X_UNSPEC
  else if w =? WPA_SEL WPA_ASE_8021X_PSK then WPA_ASE_8021X_PSK
  else if w =? WPA_SEL WPA_ASE_NONE then WPA_ASE_NONE
  else 0.
Definition rsn_cipher (w keylen : Z) : Z * Z :=
  if w =? RSN_SEL RSN_CSE_NULL then (IEEE80211_CIPHER_NONE, keylen)
  else if w =? RSN_SEL RSN_CSE_WEP40 then (IEEE80211_CIPHER_WEP, 40 / 8)
  else if w =? RSN_SEL RSN_CSE_WEP104 then (IEEE80211_CIPHER_WEP, 104 / 8)
  else if w =? RSN_SEL RSN_CSE_TKIP then (IEEE80211_CIPHER_TKIP, keylen)
  else if w =? RSN_SEL RSN_CSE_CCMP then (IEEE80211_CIPHER_AES_CCM, keylen)
  else if w =? RSN_SEL RSN_CSE_WRAP then (IEEE80211_CIPHER_AES_OCB, keylen)
  else (32, keylen).
Definition rsn_keymgmt_sel (w : Z) : Z :=
  if w =? RSN_SEL RSN_ASE_8021X_UNSPEC then RSN_ASE_8021X_UNSPEC
  else if w =? RSN_SEL RSN_ASE_8021X_PSK then RSN_ASE_8021X_PSK
  else if w =? RSN_SEL RSN_ASE_NONE then RSN_ASE_NONE
  else 0.

Section Parse.
Context (shl32 : Z) (ic : ieee80211com).

Definition shl1 (c : Z) : Z := if c =? 32 then shl32 else Z.shiftl 1 c.

(** [for (; n > 0; n--)] over the unicast selectors: position, remaining length, cipher set, key length. *)
Fixpoint ucast_loop (cipher : Z -> Z -> Z * Z) (ie : list Z) (n : nat) (off : nat) (len w keylen : Z) : res (nat * Z * Z * Z) :=
  match n with
  | O => Ok (off, len, w, keylen)
  | S n =>
      let* v := LE_READ_4 ie off in
      let '(c, keylen) := cipher v keylen in
      ucast_loop cipher ie n (off + 4) (u8 (len - 4)) (Z.lor w (shl1 c)) keylen
  end.
(** The same over the key management selectors. *)
Fixpoint keymgmt_loop (keymgmt : Z -> Z) (ie : list Z) (n : nat) (off : nat) (len w : Z) : res (nat * Z * Z) :=
  match n with
  | O => Ok (off, len, w)
  | S n => let* v := LE_READ_4 ie off in keymgmt_loop keymgmt ie n (off + 4) (u8 (len - 4)) (Z.lor w (keymgmt v))
  end.

(** From the multicast cipher to the end, which the two parsers have in common:
    [off] and [len] are [frm] and [len] there. *)
Definition parse_body (cipher : Z -> Z -> Z * Z) (keymgmt : Z -> Z) (ie : list Z) (off : nat) (len : Z)
    (rsn : ieee80211_rsnparms) : res (Z * ieee80211_rsnparms) :=
  let* v := LE_READ_4 ie off in
  let '(w, kl) := cipher v (rsn_mcastkeylen rsn) in
  let rsn := set_mcastkeylen rsn kl in
  if negb (w =? rsn_mcastcipher rsn) then Ok (IEEE80211_REASON_IE_INVALID, rsn)
  else
    let off := (off + 4)%nat in let len := u8 (len - 4) in
    let* n := LE_READ_2 ie off in
    let off := (off + 2)%nat in let len := u8 (len - 2) in
    if len <? n * 4 + 2 then Ok (IEEE80211_REASON_IE_INVALID, rsn)
    else
      let* (off, len, w, kl) := ucast_loop cipher ie (Z.to_nat n) off len 0 (rsn_ucastkeylen rsn) in
      let rsn := set_ucastkeylen rsn kl in
      let w := Z.land w (rsn_ucastcipherset rsn) in
      if w =? 0 then Ok (IEEE80211_REASON_IE_INVALID, rsn)
      else
        let rsn := set_ucast rsn (if has_flag w (Z.shiftl 1 IEEE80211_CIPHER_TKIP) then IEEE80211_CIPHER_TKIP
                                  else IEEE80211_CIPHER_AES_CCM) in
        let* n := LE_READ_2 ie off in
        let off := (off + 2)%nat in let len := u8 (len - 2) in
        if len <? n * 4 then Ok (IEEE80211_REASON_IE_INVALID, rsn)
        else
          let* (off, len, w) := keymgmt_loop keymgmt ie (Z.to_nat n) off len 0 in
          let w := Z.land w (rsn_keymgmtset rsn) in
          if w =? 0 then Ok (IEEE80211_REASON_IE_INVALID, rsn)
          else
            let rsn := set_keymgmt rsn (if has_flag w WPA_ASE_8021X_UNSPEC then WPA_ASE_8021X_UNSPEC else WPA_ASE_8021X_PSK) in
            if 2 <? len then
              let* v := LE_READ_2 ie off in Ok (0, set_caps rsn v)
            else Ok (0, rsn).

Definition ieee80211_parse_wpa (ie : list Z) (rsn : ieee80211_rsnparms) : res (Z * ieee80211_rsnparms) :=
  let len := byte_at ie 1 in
  if negb (has_flag (ic_flags ic) IEEE80211_F_WPA1) then Ok (IEEE80211_REASON_IE_INVALID, rsn)
  else if len <? 14 then Ok (IEEE80211_REASON_IE_INVALID, rsn)
  else
    let off := 6%nat in let len := u8 (len - 4) in
    let* w := LE_READ_2 ie off in
    if negb (w =? WPA_VERSION) then Ok (IEEE80211_REASON_IE_INVALID, rsn)
    else parse_body wpa_cipher wpa_keymgmt ie (off + 2) (u8 (len - 2)) rsn.

Definition ieee80211_parse_rsn (ie : list Z) (rsn : ieee80211_rsnparms) : res (Z * ieee80211_rsnparms) :=
  let len := byte_at ie 1 in
  if negb (has_flag (ic_flags ic) IEEE80211_F_WPA2) then Ok (IEEE80211_REASON_IE_INVALID, rsn)
  else if len <? 10 then Ok (IEEE80211_REASON_IE_INVALID, rsn)
  else
    let off := 2%nat in
    let* w := LE_READ_2 ie off in
    if negb (w =? RSN_VERSION) then Ok (IEEE80211_REASON_IE_INVALID, rsn)
    else parse_body rsn_cipher rsn_keymgmt_sel ie (off + 2) (u8 (len - 2)) rsn.
End Parse.

(** ** Building *)

Definition WPA_OUI_BYTES : list Z := [0x00; 0x50; 0xf2].
Definition RSN_OUI_BYTES : list Z := [0x00; 0x0f; 0xac].
Definition ADDSHORT (v : Z) : list Z := [Z.land v 0xff; u8 (Z.shiftr v 8)].

(** [cipher_suite[]] of the two functions, six entries each. *)
Definition wpa_suites : list (list Z) :=
  [WPA_OUI_BYTES ++ [WPA_CSE_WEP40]; WPA_OUI_BYTES ++ [WPA_CSE_TKIP]; [0x00; 0x00; 0x00; 0x00];
   WPA_OUI_BYTES ++ [WPA_CSE_CCMP]; [0x00; 0x00; 0x00; 0x00]; WPA_OUI_BYTES ++ [WPA_CSE_NULL]].
Definition rsn_suites : list (list Z) :=
  [RSN_OUI_BYTES ++ [RSN_CSE_WEP40]; RSN_OUI_BYTES ++ [RSN_CSE_TKIP]; RSN_OUI_BYTES ++ [RSN_CSE_WRAP];
   RSN_OUI_BYTES ++ [RSN_CSE_CCMP]; [0x00; 0x00; 0x00; 0x00]; RSN_OUI_BYTES ++ [RSN_CSE_NULL]].
Definition suite (suites : list (list Z)) (c : Z) : res (list Z) :=
  match suites !! Z.to_nat c with Some s => Ok s | None => Fault BadAccess end.

(** The selectors of [sels] whose flag is set, after their count. *)
Definition selectors (sels : list (bool * list Z)) : list Z :=
  let on := filter (fun p => p.1 = true) sels in
  [Z.of_nat (length on); 0] ++ concat (map snd on).

(** The part from the multicast cipher to the key management selectors. *)
Definition setup_body (oui : list Z) (suites : list (list Z)) (cse_wep104 : Z) (rsn : ieee80211_rsnparms) : res (list Z) :=
  let* mcast := if (rsn_mcastcipher rsn =? IEEE80211_CIPHER_WEP) && (13 <=? rsn_mcastkeylen rsn)
                then Ok (oui ++ [cse_wep104]) else suite suites (rsn_mcastcipher rsn) in
  let* ccm := suite suites IEEE80211_CIPHER_AES_CCM in
  let* tkip := suite suites IEEE80211_CIPHER_TKIP in
  Ok (mcast ++
      selectors [(has_flag (rsn_ucastcipherset rsn) (Z.shiftl 1 IEEE80211_CIPHER_AES_CCM), ccm);
                 (has_flag (rsn_ucastcipherset rsn) (Z.shiftl 1 IEEE80211_CIPHER_TKIP), tkip)] ++
      selectors [(has_flag (rsn_keymgmtset rsn) WPA_ASE_8021X_UNSPEC, oui ++ [WPA_ASE_8021X_UNSPEC]);
                 (has_flag (rsn_keymgmtset rsn) WPA_ASE_8021X_PSK, oui ++ [WPA_ASE_8021X_PSK])]).

(** The element with its length filled in, and the size assertion. *)
Definition close_ie (id : Z) (body : list Z) : res (list Z) :=
  let len := u8 (Z.of_nat (length body)) in
  if sizeof_ie_wpa <? len + 2 then Fault Panic else Ok ([id; len] ++ body).

Definition ieee80211_setup_wpa_ie (rsn : ieee80211_rsnparms) : res (list Z) :=
  let* body := setup_body WPA_OUI_BYTES wpa_suites WPA_CSE_WEP104 rsn in
  let caps := if negb (rsn_caps rsn =? 0) && negb (rsn_caps rsn =? RSN_CAP_PREAUTH) then ADDSHORT (rsn_caps rsn) else [] in
  close_ie IEEE80211_ELEMID_VENDOR (WPA_OUI_BYTES ++ [WPA_OUI_TYPE] ++ ADDSHORT WPA_VERSION ++ body ++ caps).

Definition ieee80211_setup_rsn_ie (rsn : ieee80211_rsnparms) : res (list Z) :=
  let* body := setup_body RSN_OUI_BYTES rsn_suites RSN_CSE_WEP104 rsn in
  close_ie IEEE80211_ELEMID_RSN (ADDSHORT RSN_VERSION ++ body ++ ADDSHORT (rsn_caps rsn)).

Definition ieee80211_add_wpa (flags : Z) (rsn : ieee80211_rsnparms) : res (list Z) :=
  if negb (has_flag flags IEEE80211_F_WPA) then Fault Panic
  else
    let* a := if has_flag flags IEEE80211_F_WPA2 then ieee80211_setup_rsn_ie rsn else Ok [] in
    let* b := if has_flag flags IEEE80211_F_WPA1 then ieee80211_setup_wpa_ie rsn else Ok [] in
    Ok (a ++ b).

(** ** What the parsers decide, on every element *)

Definition le2 (ie : list Z) (i : nat) : Z := u16 (Z.lor (byte_at ie i) (Z.shiftl (byte_at ie (i + 1)) 8)).
Definition le4 (ie : list Z) (i : nat) : Z :=
  u32 (Z.lor (Z.lor (Z.lor (byte_at ie i) (Z.shiftl (byte_at ie (i + 1)) 8))
                    (Z.shiftl (byte_at ie (i + 2)) 16)) (Z.shiftl (byte_at ie (i + 3)) 24)).
Definition sels (ie : list Z) (off n : nat) : list Z := map (fun i => le4 ie (off + 4 * i)) (seq 0 n).

Lemma rd_ok ie i : (i < 2 + Z.to_nat (byte_at ie 1))%nat -> rd ie i = Ok (byte_at ie i).
Proof. intros H. unfold rd. by rewrite (proj2 (Nat.ltb_lt _ _) H). Qed.
Lemma LE_READ_2_ok ie i : (i + 2 <= 2 + Z.to_nat (byte_at ie 1))%nat -> LE_READ_2 ie i = Ok (le2 ie i).
Proof. intros H. unfold LE_READ_2. rewrite !rd_ok by lia. done. Qed.
Lemma LE_READ_4_ok ie i : (i + 4 <= 2 + Z.to_nat (byte_at ie 1))%nat -> LE_READ_4 ie i = Ok (le4 ie i).
Proof. intros H. unfold LE_READ_4. rewrite !rd_ok by lia. done. Qed.

Lemma sels_S ie off n : sels ie off (S n) = le4 ie off :: sels ie (off + 4) n.
Proof.
  unfold sels. cbn [seq map]. f_equal; [f_equal; lia|].
  rewrite <- seq_shift, map_map. apply map_ext. intros i. f_equal. lia.
Qed.

(** The key length a cipher selector sets does not change the cipher it names. *)
Definition named (cipher : Z -> Z -> Z * Z) : Prop := forall w k, (cipher w k).1 = (cipher w 0).1.
Lemma wpa_cipher_named : named wpa_cipher.
Proof. intros w k. unfold wpa_cipher. repeat case_match; done. Qed.
Lemma rsn_cipher_named : named rsn_cipher.
Proof. intros w k. unfold rsn_cipher. repeat case_match; done. Qed.

(** Compare results component by component. *)
Ltac tup :=
  repeat match goal with
  | |- Ok _ = Ok _ => apply f_equal
  | |- (_, _) = (_, _) => apply (f_equal2 pair)
  end; try reflexivity; try lia.

Section Judge.
Context (shl32 : Z) (cipher : Z -> Z -> Z * Z) (keymgmt : Z -> Z) (Hnamed : named cipher).

Definition ucast_bits (us : list Z) (w : Z) : Z := fold_left (fun w u => Z.lor w (shl1 shl32 (cipher u 0).1)) us w.
Definition ucast_keylen (us : list Z) (k : Z) : Z := fold_left (fun k u => (cipher u k).2) us k.
Definition akm_bits (ks : list Z) (w : Z) : Z := fold_left (fun w k => Z.lor w (keymgmt k)) ks w.

Lemma ucast_loop_ok ie n : forall off len w kl,
  Z.of_nat off + len = 2 + byte_at ie 1 -> 4 * Z.of_nat n <= len <= 255 ->
  ucast_loop shl32 cipher ie n off len w kl =
  Ok ((off + 4 * n)%nat, len - 4 * Z.of_nat n, ucast_bits (sels ie off n) w, ucast_keylen (sels ie off n) kl).
Proof using Hnamed.
  induction n as [|n IH]; intros off len w kl Ho Hl.
  - cbn. tup.
  - rewrite sels_S. cbn [ucast_loop]. rewrite LE_READ_4_ok by lia. cbn [res_bind].
    destruct (cipher (le4 ie off) kl) as [c kl'] eqn:E.
    assert (c = (cipher (le4 ie off) 0).1) as -> by (rewrite <- (Hnamed _ kl), E; done).
    cbn [ucast_bits ucast_keylen fold_left]. rewrite E. cbn [snd].
    rewrite (u8_id (len - 4)) by (unfold is_u; lia).
    rewrite IH by lia. unfold ucast_bits, ucast_keylen. tup.
Qed.
Lemma keymgmt_loop_ok ie n : forall off len w,
  Z.of_nat off + len = 2 + byte_at ie 1 -> 4 * Z.of_nat n <= len <= 255 ->
  keymgmt_loop keymgmt ie n off len w = Ok ((off + 4 * n)%nat, len - 4 * Z.of_nat n, akm_bits (sels ie off n) w).
Proof.
  induction n as [|n IH]; intros off len w Ho Hl.
  - cbn. tup.
  - rewrite sels_S. cbn [keymgmt_loop]. rewrite LE_READ_4_ok by lia. cbn [res_bind].
    rewrite (u8_id (len - 4)) by (unfold is_u; lia).
    rewrite IH by lia. cbn [akm_bits fold_left]. unfold akm_bits. tup.
Qed.

(** The decision on what the element lists: [None] stands for a list that does
    not fit into it. *)
Definition judge (mc : Z) (us ks : option (list Z)) (caps : option Z) (rsn : ieee80211_rsnparms)
    : Z * ieee80211_rsnparms :=
  let '(w, kl) := cipher mc (rsn_mcastkeylen rsn) in
  let rsn := set_mcastkeylen rsn kl in
  if negb (w =? rsn_mcastcipher rsn) then (IEEE80211_REASON_IE_INVALID, rsn)
  else match us with
  | None => (IEEE80211_REASON_IE_INVALID, rsn)
  | Some us =>
      let rsn := set_ucastkeylen rsn (ucast_keylen us (rsn_ucastkeylen rsn)) in
      let w := Z.land (ucast_bits us 0) (rsn_ucastcipherset rsn) in
      if w =? 0 then (IEEE80211_REASON_IE_INVALID, rsn)
      else
        let rsn := set_ucast rsn (if has_flag w (Z.shiftl 1 IEEE80211_CIPHER_TKIP) then IEEE80211_CIPHER_TKIP
                                  else IEEE80211_CIPHER_AES_CCM) in
        match ks with
        | None => (IEEE80211_REASON_IE_INVALID, rsn)
        | Some ks =>
            let w := Z.land (akm_bits ks 0) (rsn_keymgmtset rsn) in
            if w =? 0 then (IEEE80211_REASON_IE_INVALID, rsn)
            else
              let rsn := set_keymgmt rsn (if has_flag w WPA_ASE_8021X_UNSPEC then WPA_ASE_8021X_UNSPEC
                                          else WPA_ASE_8021X_PSK) in
              (0, match caps with Some v => set_caps rsn v | None => rsn end)
        end
  end.

(** The lists of an element whose multicast selector is at [off]; [len] bytes are left from there. *)
Definition ucast_of (ie : list Z) (off : nat) (len : Z) : option (list Z) :=
  let n := le2 ie (off + 4) in
  if len - 6 <? n * 4 + 2 then None else Some (sels ie (off + 6) (Z.to_nat n)).
Definition akm_off (ie : list Z) (off : nat) : nat := (off + 6 + 4 * Z.to_nat (le2 ie (off + 4)))%nat.
Definition akm_of (ie : list Z) (off : nat) (len : Z) : option (list Z) :=
  let n := le2 ie (akm_off ie off) in
  if len - 8 - 4 * le2 ie (off + 4) <? n * 4 then None else Some (sels ie (akm_off ie off + 2) (Z.to_nat n)).
Definition caps_of (ie : list Z) (off : nat) (len : Z) : option Z :=
  let n := le2 ie (akm_off ie off) in
  if 2 <? len - 8 - 4 * le2 ie (off + 4) - 4 * n then Some (le2 ie (akm_off ie off + 2 + 4 * Z.to_nat n)) else None.

Lemma le2_range ie i : 0 <= le2 ie i.
Proof. unfold le2. pose proof (u16_range (Z.lor (byte_at ie i) (Z.shiftl (byte_at ie (i + 1)) 8))) as H. unfold is_u in H. lia. Qed.

Lemma parse_body_ok ie off len rsn :
  Z.of_nat off + len = 2 + byte_at ie 1 -> 8 <= len <= 255 ->
  parse_body shl32 cipher keymgmt ie off len rsn =
  Ok (judge (le4 ie off) (ucast_of ie off len) (akm_of ie off len) (caps_of ie off len) rsn).
Proof using Hnamed.
  intros Ho Hl. unfold parse_body, judge, ucast_of, akm_of, caps_of.
  rewrite LE_READ_4_ok by lia. cbn [res_bind].
  destruct (cipher (le4 ie off) (rsn_mcastkeylen rsn)) as [c kl].
  destruct (c =? rsn_mcastcipher (set_mcastkeylen rsn kl)); cbn [negb]; [|done].
  rewrite LE_READ_2_ok by lia. cbn [res_bind].
  pose proof (le2_range ie (off + 4)). set (n := le2 ie (off + 4)) in *.
  rewrite (u8_id (len - 4)) by (unfold is_u; lia).
  rewrite (u8_id (len - 4 - 2)) by (unfold is_u; lia).
  replace (len - 4 - 2) with (len - 6) by lia. replace (off + 4 + 2)%nat with (off + 6)%nat by lia.
  destruct (Z.ltb_spec (len - 6) (n * 4 + 2)) as [|Hn]; [done|].
  rewrite ucast_loop_ok by lia. cbn [res_bind].
  case_match; [done|].
  unfold akm_off. fold n. rewrite LE_READ_2_ok by lia. cbn [res_bind].
  pose proof (le2_range ie (off + 6 + 4 * Z.to_nat n)). set (k := le2 ie (off + 6 + 4 * Z.to_nat n)) in *.
  rewrite (u8_id (len - 6 - 4 * Z.of_nat (Z.to_nat n) - 2)) by (unfold is_u; lia).
  replace (len - 6 - 4 * Z.of_nat (Z.to_nat n) - 2) with (len - 8 - 4 * n) by lia.
  destruct (Z.ltb_spec (len - 8 - 4 * n) (k * 4)) as [|Hk]; [done|].
  rewrite keymgmt_loop_ok by lia. cbn [res_bind].
  case_match; [done|].
  replace (len - 8 - 4 * n - 4 * Z.of_nat (Z.to_nat k)) with (len - 8 - 4 * n - 4 * k) by lia.
  destruct (Z.ltb_spec 2 (len - 8 - 4 * n - 4 * k)); [|done].
  rewrite LE_READ_2_ok by lia. done.
Qed.
End Judge.

(** ** What an accepted element guarantees *)

Lemma has_flag_bit x k : 0 <= k -> has_flag x (2 ^ k) = Z.testbit x k.
Proof.
  intros Hk. unfold has_flag. destruct (Z.testbit x k) eqn:E.
  - destruct (Z.eqb_spec (Z.land x (2 ^ k)) 0) as [H|]; [|done].
    apply (f_equal (fun z => Z.testbit z k)) in H.
    by rewrite Z.land_spec, E, Z.pow2_bits_true, Z.bits_0 in H.
  - replace (Z.land x (2 ^ k)) with 0; [done|]. symmetry. apply Z.bits_inj'. intros i Hi.
    rewrite Z.land_spec, Z.bits_0, Z.pow2_bits_eqb by done.
    destruct (Z.eqb_spec k i) as [<-|]; [by rewrite E|apply andb_false_r].
Qed.

(** A non-zero part of a word with no other bits than [a] and [b] has one of the two. *)
Lemma two_bits x s a b :
  0 <= a -> 0 <= b -> Z.land x s <> 0 -> Z.land s (Z.lor (2 ^ a) (2 ^ b)) = s ->
  Z.testbit (Z.land x s) a = false -> Z.testbit (Z.land x s) b = true.
Proof.
  intros Ha Hb Hx Hs Ea. apply not_false_is_true. intros Eb. apply Hx. apply Z.bits_inj'. intros i Hi.
  rewrite Z.bits_0. apply not_true_is_false. intros E. rewrite Z.land_spec in E.
  apply andb_prop in E as [E1 E2]. rewrite <- Hs, Z.land_spec, Z.lor_spec, !Z.pow2_bits_eqb in E2 by done.
  rewrite Z.land_spec in Ea, Eb.
  apply andb_prop in E2 as [E2 [Ei%Z.eqb_eq|Ei%Z.eqb_eq]%orb_prop]; subst i; by rewrite E1, E2 in *.
Qed.

Definition ciphers_ok (cipher : Z -> Z -> Z * Z) : Prop :=
  forall w, In (cipher w 0).1 [0; 1; 2; 3; 6; 32].
Definition akms_ok (keymgmt : Z -> Z) : Prop := forall w, In (keymgmt w) [0; 1; 2].
Lemma wpa_ciphers : ciphers_ok wpa_cipher.
Proof. intros w. unfold wpa_cipher. repeat case_match; cbn; tauto. Qed.
Lemma rsn_ciphers : ciphers_ok rsn_cipher.
Proof. intros w. unfold rsn_cipher. repeat case_match; cbn; tauto. Qed.
Lemma wpa_akms : akms_ok wpa_keymgmt.
Proof. intros w. unfold wpa_keymgmt. repeat case_match; cbn; tauto. Qed.
Lemma rsn_akms : akms_ok rsn_keymgmt_sel.
Proof. intros w. unfold rsn_keymgmt_sel. repeat case_match; cbn; tauto. Qed.

Section Sound.
Context (shl32 : Z) (cipher : Z -> Z -> Z * Z) (keymgmt : Z -> Z).
Context (Hc : ciphers_ok cipher) (Hk : akms_ok keymgmt).

Lemma ucast_bits_from us i : forall w,
  Z.testbit (ucast_bits shl32 cipher us w) i = true ->
  Z.testbit w i = true \/ exists u, In u us /\ Z.testbit (shl1 shl32 (cipher u 0).1) i = true.
Proof.
  induction us as [|u us IH]; intros w H; [by left|].
  destruct (IH _ H) as [E|(u' & ? & ?)]; [|right; exists u'; split; [by right|done]].
  rewrite Z.lor_spec in E. apply orb_prop in E as [E|E]; [by left|right; exists u; split; [by left|done]].
Qed.
Lemma akm_bits_from ks i : forall w,
  Z.testbit (akm_bits keymgmt ks w) i = true ->
  Z.testbit w i = true \/ exists k, In k ks /\ Z.testbit (keymgmt k) i = true.
Proof.
  induction ks as [|k ks IH]; intros w H; [by left|].
  destruct (IH _ H) as [E|(k' & ? & ?)]; [|right; exists k'; split; [by right|done]].
  rewrite Z.lor_spec in E. apply orb_prop in E as [E|E]; [by left|right; exists k; split; [by left|done]].
Qed.

(** A common bit comes from a selector that names this cipher. *)
Lemma offered_cipher us set c :
  Z.land shl32 set = 0 -> In c [1; 3] -> Z.testbit (Z.land (ucast_bits shl32 cipher us 0) set) c = true ->
  (exists u, In u us /\ (cipher u 0).1 = c) /\ Z.testbit set c = true.
Proof using Hc.
  intros Hs Hin H. rewrite Z.land_spec in H. apply andb_prop in H as [H1 H2]. split; [|done].
  apply ucast_bits_from in H1 as [H1|(u & Hu & E)]; [by rewrite Z.bits_0 in H1|].
  exists u. split; [done|].
  assert (Z.testbit shl32 c = false) as E32.
  { apply (f_equal (fun z => Z.testbit z c)) in Hs. rewrite Z.land_spec, Z.bits_0, H2, andb_true_r in Hs. done. }
  specialize (Hc u). revert Hc E. unfold shl1. generalize (cipher u 0).1. cbn in Hin.
  intros d Hd E. cbn in Hd. destruct (Z.eqb_spec d 32); [congruence|].
  destruct Hin as [<-|[<-|[]]]; destruct_or! Hd; subst; done.
Qed.
Lemma offered_akm ks set c :
  In c [0; 1] -> Z.testbit (Z.land (akm_bits keymgmt ks 0) set) c = true ->
  (exists k, In k ks /\ keymgmt k = 2 ^ c) /\ Z.testbit set c = true.
Proof using Hk.
  intros Hin H. rewrite Z.land_spec in H. apply andb_prop in H as [H1 H2]. split; [|done].
  apply akm_bits_from in H1 as [H1|(k & Hin' & E)]; [by rewrite Z.bits_0 in H1|].
  exists k. split; [done|]. specialize (Hk k). revert Hk E. generalize (keymgmt k). cbn in Hin.
  intros d Hd E. cbn in Hd.
  destruct Hin as [<-|[<-|[]]]; destruct_or! Hd; subst; done.
Qed.

Lemma chosen_cipher us set :
  Z.land shl32 set = 0 -> Z.land set 10 = set -> Z.land (ucast_bits shl32 cipher us 0) set <> 0 ->
  let c := if has_flag (Z.land (ucast_bits shl32 cipher us 0) set) (Z.shiftl 1 IEEE80211_CIPHER_TKIP)
           then IEEE80211_CIPHER_TKIP else IEEE80211_CIPHER_AES_CCM in
  (exists u, In u us /\ (cipher u 0).1 = c) /\ Z.testbit set c = true /\
  In c [IEEE80211_CIPHER_TKIP; IEEE80211_CIPHER_AES_CCM].
Proof using Hc.
  intros H32 Hset Hw. change (Z.shiftl 1 IEEE80211_CIPHER_TKIP) with (2 ^ 1). rewrite has_flag_bit by done.
  pose proof (two_bits _ _ 1 3 ltac:(done) ltac:(done) Hw Hset) as H3.
  destruct (Z.testbit _ 1) eqn:E; cbn zeta.
  - destruct (offered_cipher us set 1 H32 ltac:(by left) E). split_and!; [done|done|by left].
  - destruct (offered_cipher us set 3 H32 ltac:(by right; left) (H3 eq_refl)). split_and!; [done|done|by right; left].
Qed.
Lemma chosen_akm ks set :
  Z.land set 3 = set -> Z.land (akm_bits keymgmt ks 0) set <> 0 ->
  let c := if has_flag (Z.land (akm_bits keymgmt ks 0) set) WPA_ASE_8021X_UNSPEC
           then WPA_ASE_8021X_UNSPEC else WPA_ASE_8021X_PSK in
  (exists k, In k ks /\ keymgmt k = c) /\ has_flag set c = true.
Proof using Hk.
  intros Hset Hw. change WPA_ASE_8021X_UNSPEC with (2 ^ 0). change WPA_ASE_8021X_PSK with (2 ^ 1).
  rewrite has_flag_bit by done. pose proof (two_bits _ _ 0 1 ltac:(done) ltac:(done) Hw Hset) as H3.
  destruct (Z.testbit _ 0) eqn:E; cbn zeta; rewrite has_flag_bit by done.
  - exact (offered_akm ks set 0 ltac:(by left) E).
  - exact (offered_akm ks set 1 ltac:(by right; left) (H3 eq_refl)).
Qed.

(** The configuration of the receiver is never changed, and an accepted element
    leaves ciphers and key management that both sides have. *)
Definition agreed (mc : Z) (us ks : option (list Z)) (rsn rsn' : ieee80211_rsnparms) : Prop :=
  (cipher mc 0).1 = rsn_mcastcipher rsn /\
  (exists l u, us = Some l /\ In u l /\ (cipher u 0).1 = rsn_ucastcipher rsn') /\
  In (rsn_ucastcipher rsn') [IEEE80211_CIPHER_TKIP; IEEE80211_CIPHER_AES_CCM] /\
  Z.testbit (rsn_ucastcipherset rsn) (rsn_ucastcipher rsn') = true /\
  (exists l k, ks = Some l /\ In k l /\ keymgmt k = rsn_keymgmt rsn') /\
  has_flag (rsn_keymgmtset rsn) (rsn_keymgmt rsn') = true.
Definition judged (mc : Z) (us ks : option (list Z)) (rsn : ieee80211_rsnparms) (o : Z * ieee80211_rsnparms) : Prop :=
  (rsn_mcastcipher o.2 = rsn_mcastcipher rsn /\ rsn_ucastcipherset o.2 = rsn_ucastcipherset rsn /\
   rsn_keymgmtset o.2 = rsn_keymgmtset rsn) /\
  (o.1 = IEEE80211_REASON_IE_INVALID \/ o.1 = 0 /\ agreed mc us ks rsn o.2).

Lemma judged_refused mc us ks rsn : judged mc us ks rsn (IEEE80211_REASON_IE_INVALID, rsn).
Proof. split; [done|by left]. Qed.
Lemma judge_sound (Hnamed : named cipher) mc us ks caps rsn :
  Z.land shl32 (rsn_ucastcipherset rsn) = 0 ->
  Z.land (rsn_ucastcipherset rsn) 10 = rsn_ucastcipherset rsn ->
  Z.land (rsn_keymgmtset rsn) 3 = rsn_keymgmtset rsn ->
  judged mc us ks rsn (judge shl32 cipher keymgmt mc us ks caps rsn).
Proof using Hc Hk.
  intros H32 Hset Hkm. unfold judge.
  pose proof (Hnamed mc (rsn_mcastkeylen rsn)) as Hmc. destruct (cipher mc (rsn_mcastkeylen rsn)) as [c kl].
  cbn [fst] in Hmc. cbn [set_mcastkeylen rsn_mcastcipher rsn_ucastkeylen rsn_ucastcipherset rsn_keymgmtset].
  destruct (Z.eqb_spec c (rsn_mcastcipher rsn)) as [Ec|]; cbn [negb]; [|by split; [|left]].
  destruct us as [us|]; [|by split; [|left]].
  cbn zeta. cbn [set_ucastkeylen set_ucast set_mcastkeylen rsn_keymgmtset rsn_ucastcipherset].
  destruct (Z.eqb_spec (Z.land (ucast_bits shl32 cipher us 0) (rsn_ucastcipherset rsn)) 0) as [|Hu]; [by split; [|left]|].
  destruct ks as [ks|]; [|by split; [|left]].
  destruct (Z.eqb_spec (Z.land (akm_bits keymgmt ks 0) (rsn_keymgmtset rsn)) 0) as [|Ha]; [by split; [|left]|].
  destruct (chosen_cipher us _ H32 Hset Hu) as ((u & ? & ?) & ? & ?).
  destruct (chosen_akm ks _ Hkm Ha) as ((k & ? & ?) & ?).
  split; [by destruct caps|]. right. split; [done|]. unfold agreed. rewrite <- Hmc.
  split_and!; [done|exists us, u|..|exists ks, k|]; destruct caps; done.
Qed.
End Sound.

Abbreviation wit_cfg := (mkRsn IEEE80211_CIPHER_TKIP 0 10 0 0 3 0 0).
Abbreviation wit_ic := (mkCom true IEEE80211_F_WPA 0 (fun _ => 0) [] 0 0 []).



(** ** What one station builds, another parses *)

(** The ciphers and key managements the builders announce: CCMP and TKIP, 802.1X and shared key. *)
Definition announced_ciphers (tx : ieee80211_rsnparms) : Z :=
  Z.lor (if has_flag (rsn_ucastcipherset tx) (Z.shiftl 1 IEEE80211_CIPHER_AES_CCM) then 8 else 0)
        (if has_flag (rsn_ucastcipherset tx) (Z.shiftl 1 IEEE80211_CIPHER_TKIP) then 2 else 0).
Definition announced_akms (tx : ieee80211_rsnparms) : Z :=
  Z.lor (if has_flag (rsn_keymgmtset tx) WPA_ASE_8021X_UNSPEC then 1 else 0)
        (if has_flag (rsn_keymgmtset tx) WPA_ASE_8021X_PSK then 2 else 0).
(** WEP group keys are announced as 40 or 104 bits. *)
Definition announced_keylen (tx : ieee80211_rsnparms) (k : Z) : Z :=
  if rsn_mcastcipher tx =? IEEE80211_CIPHER_WEP then (if 13 <=? rsn_mcastkeylen tx then 13 else 5) else k.

(** What the receiver [rx] makes of an element built from [tx]. *)
Definition negotiate (tx rx : ieee80211_rsnparms) : Z * ieee80211_rsnparms :=
  let rx := set_mcastkeylen rx (announced_keylen tx (rsn_mcastkeylen rx)) in
  let u := Z.land (announced_ciphers tx) (rsn_ucastcipherset rx) in
  let k := Z.land (announced_akms tx) (rsn_keymgmtset rx) in
  if negb (rsn_mcastcipher tx =? rsn_mcastcipher rx) || (u =? 0) then (IEEE80211_REASON_IE_INVALID, rx)
  else
    let rx := set_ucast rx (if Z.testbit u 1 then IEEE80211_CIPHER_TKIP else IEEE80211_CIPHER_AES_CCM) in
    if k =? 0 then (IEEE80211_REASON_IE_INVALID, rx)
    else (0, set_keymgmt rx (if Z.testbit k 0 then WPA_ASE_8021X_UNSPEC else WPA_ASE_8021X_PSK)).

Lemma parse_wpa_ok shl32 ic ie rsn :
  has_flag (ic_flags ic) IEEE80211_F_WPA1 = true -> 14 <= byte_at ie 1 <= 255 -> le2 ie 6 = WPA_VERSION ->
  ieee80211_parse_wpa shl32 ic ie rsn =
  Ok (judge shl32 wpa_cipher wpa_keymgmt (le4 ie 8) (ucast_of ie 8 (byte_at ie 1 - 6))
        (akm_of ie 8 (byte_at ie 1 - 6)) (caps_of ie 8 (byte_at ie 1 - 6)) rsn).
Proof.
  intros Hf HL Hv. unfold ieee80211_parse_wpa. rewrite Hf. cbn [negb].
  destruct (Z.ltb_spec (byte_at ie 1) 14); [lia|].
  rewrite LE_READ_2_ok by lia. cbn [res_bind]. rewrite Hv. change (negb (WPA_VERSION =? WPA_VERSION)) with false. cbv iota.
  rewrite (u8_id (byte_at ie 1 - 4)) by (unfold is_u; lia).
  rewrite (u8_id (byte_at ie 1 - 4 - 2)) by (unfold is_u; lia).
  replace (byte_at ie 1 - 4 - 2) with (byte_at ie 1 - 6) by lia.
  by rewrite parse_body_ok by (apply wpa_cipher_named || lia).
Qed.
Lemma parse_rsn_ok shl32 ic ie rsn :
  has_flag (ic_flags ic) IEEE80211_F_WPA2 = true -> 10 <= byte_at ie 1 <= 255 -> le2 ie 2 = RSN_VERSION ->
  ieee80211_parse_rsn shl32 ic ie rsn =
  Ok (judge shl32 rsn_cipher rsn_keymgmt_sel (le4 ie 4) (ucast_of ie 4 (byte_at ie 1 - 2))
        (akm_of ie 4 (byte_at ie 1 - 2)) (caps_of ie 4 (byte_at ie 1 - 2)) rsn).
Proof.
  intros Hf HL Hv. unfold ieee80211_parse_rsn. rewrite Hf. cbn [negb].
  destruct (Z.ltb_spec (byte_at ie 1) 10); [lia|].
  rewrite LE_READ_2_ok by lia. cbn [res_bind]. rewrite Hv. change (negb (RSN_VERSION =? RSN_VERSION)) with false. cbv iota.
  rewrite (u8_id (byte_at ie 1 - 2)) by (unfold is_u; lia).
  by rewrite parse_body_ok by (apply rsn_cipher_named || lia).
Qed.

(** The decision on an element that lists the announced ciphers. *)
Lemma judge_negotiate shl32 cipher keymgmt mc us ks tx rx :
  cipher mc (rsn_mcastkeylen rx) = (rsn_mcastcipher tx, announced_keylen tx (rsn_mcastkeylen rx)) ->
  ucast_bits shl32 cipher us 0 = announced_ciphers tx ->
  ucast_keylen cipher us (rsn_ucastkeylen rx) = rsn_ucastkeylen rx ->
  akm_bits keymgmt ks 0 = announced_akms tx ->
  judge shl32 cipher keymgmt mc (Some us) (Some ks) None rx = negotiate tx rx.
Proof.
  intros Hm Hu Hl Hk. unfold judge, negotiate. rewrite Hm. cbn zeta.
  change (rsn_ucastkeylen (set_mcastkeylen rx ?k)) with (rsn_ucastkeylen rx). rewrite Hu, Hl, Hk.
  destruct rx as [c kl us' uc ul km k cp].
  cbn [set_mcastkeylen set_ucastkeylen set_ucast set_keymgmt rsn_mcastcipher rsn_ucastcipherset rsn_keymgmtset].
  destruct (rsn_mcastcipher tx =? c); cbn [negb orb]; [|done].
  destruct (_ =? 0); [done|].
  change (Z.shiftl 1 IEEE80211_CIPHER_TKIP) with (2 ^ 1). change WPA_ASE_8021X_UNSPEC with (2 ^ 0).
  rewrite !has_flag_bit by done. done.
Qed.

(** The sixteen sets of announced ciphers and key managements. *)
Ltac split_announced tx :=
  destruct (has_flag (rsn_ucastcipherset tx) (Z.shiftl 1 IEEE80211_CIPHER_AES_CCM)) eqn:?,
           (has_flag (rsn_ucastcipherset tx) (Z.shiftl 1 IEEE80211_CIPHER_TKIP)) eqn:?,
           (has_flag (rsn_keymgmtset tx) WPA_ASE_8021X_UNSPEC) eqn:?,
           (has_flag (rsn_keymgmtset tx) WPA_ASE_8021X_PSK) eqn:?.
(** Evaluate an element's lists and compare with what was announced. *)
Ltac compare_lists :=
  match goal with
  | |- judge _ _ _ ?mc ?us ?ks ?cp _ = _ =>
      let mc' := eval vm_compute in mc in let us' := eval vm_compute in us in
      let ks' := eval vm_compute in ks in let cp' := eval vm_compute in cp in
      change mc with mc'; change us with us'; change ks with ks'; change cp with cp'
  end;
  apply judge_negotiate;
  [ | unfold announced_ciphers | | unfold announced_akms];
  repeat match goal with H : has_flag _ _ = _ |- _ => rewrite H; clear H end.

(** All cases of an element being built and parsed; the capabilities are literal bytes by now. *)
Ltac build_and_parse tx Hin parse_ok :=
  set (mc := rsn_mcastcipher tx) in *; set (ml := 13 <=? rsn_mcastkeylen tx) in *;
  assert (forall k, announced_keylen tx k = if mc =? 0 then (if ml then 13 else 5) else k) as Hkl by done;
  assert (rsn_mcastcipher tx = mc) as Hmc by done; clearbody mc ml;
  cbn in Hin; split_announced tx; destruct_or! Hin; destruct Hin; try destruct ml;
  (match goal with |- exists _, ?b = _ /\ _ => let b' := eval vm_compute in b in change b with b' end);
  eexists; (split; [reflexivity|]); (rewrite parse_ok; [f_equal; compare_lists|..]);
  rewrite ?Hmc, ?Hkl; try done; reflexivity.

Lemma setup_rsn_parsed shl32 ic tx rx :
  has_flag (ic_flags ic) IEEE80211_F_WPA2 = true -> In (rsn_mcastcipher tx) [0; 1; 2; 3] ->
  exists ie, ieee80211_setup_rsn_ie tx = Ok ie /\ ieee80211_parse_rsn shl32 ic ie rx = Ok (negotiate tx rx).
Proof.
  intros Hf Hin. unfold ieee80211_setup_rsn_ie, setup_body.
  assert (exists x y, ADDSHORT (rsn_caps tx) = [x; y]) as (x & y & ->) by (unfold ADDSHORT; eauto).
  build_and_parse tx Hin parse_rsn_ok.
Qed.
Lemma setup_wpa_parsed shl32 ic tx rx :
  has_flag (ic_flags ic) IEEE80211_F_WPA1 = true -> In (rsn_mcastcipher tx) [0; 1; 3] ->
  exists ie, ieee80211_setup_wpa_ie tx = Ok ie /\ ieee80211_parse_wpa shl32 ic ie rx = Ok (negotiate tx rx).
Proof.
  intros Hf Hin. unfold ieee80211_setup_wpa_ie, setup_body.
  assert (exists x y, ADDSHORT (rsn_caps tx) = [x; y]) as (x & y & ->) by (unfold ADDSHORT; eauto).
  destruct (negb (rsn_caps tx =? 0) && negb (rsn_caps tx =? RSN_CAP_PREAUTH)); cbn zeta;
    build_and_parse tx Hin parse_wpa_ok.
Qed.

(** C34. An element built from the parameters of one station, parsed by another:
    the answer is exactly [negotiate], for the WPA and for the RSN element.  It
    succeeds when the two have the multicast cipher in common, one of TKIP and
    CCMP, and one of 802.1X and shared key; TKIP and 802.1X are preferred.  The
    capabilities at the end of the element are not taken over. *)
Theorem setup_then_parse shl32 ic tx rx :
  has_flag (ic_flags ic) IEEE80211_F_WPA1 = true -> has_flag (ic_flags ic) IEEE80211_F_WPA2 = true ->
  In (rsn_mcastcipher tx) [IEEE80211_CIPHER_WEP; IEEE80211_CIPHER_TKIP; IEEE80211_CIPHER_AES_CCM] ->
  (exists ie, ieee80211_setup_wpa_ie tx = Ok ie /\ ieee80211_parse_wpa shl32 ic ie rx = Ok (negotiate tx rx)) /\
  (exists ie, ieee80211_setup_rsn_ie tx = Ok ie /\ ieee80211_parse_rsn shl32 ic ie rx = Ok (negotiate tx rx)).
Proof.
  intros H1 H2 Hin. split; [by apply setup_wpa_parsed|apply setup_rsn_parsed; [done|]].
  cbn in *. tauto.
Qed.
Lemma setup_then_parse_witness :
  (exists ie, ieee80211_setup_wpa_ie wit_cfg = Ok ie /\ ieee80211_parse_wpa 1 wit_ic ie wit_cfg = Ok (negotiate wit_cfg wit_cfg)) /\
  (exists ie, ieee80211_setup_rsn_ie wit_cfg = Ok ie /\ ieee80211_parse_rsn 1 wit_ic ie wit_cfg = Ok (negotiate wit_cfg wit_cfg)) /\
  negotiate wit_cfg wit_cfg = (0, mkRsn IEEE80211_CIPHER_TKIP 0 10 IEEE80211_CIPHER_TKIP 0 3 WPA_ASE_8021X_UNSPEC 0).
Proof.
  destruct (setup_then_parse 1 wit_ic wit_cfg wit_cfg eq_refl eq_refl ltac:(right; left; reflexivity)) as [H1 H2].
  split; [exact H1|split; [exact H2|reflexivity]].
Defined.

(** The six-entry cipher table of the builders has no room for the last
    cipher: with [IEEE80211_CIPHER_NONE] as multicast cipher, which can be
    configured, building the element reads past the table; CKIP is announced
    as the null cipher.  Every other cipher is built. *)
Theorem setup_ie_mcast tx :
  0 <= rsn_mcastcipher tx < IEEE80211_CIPHER_MAX ->
  (ieee80211_setup_rsn_ie tx = Fault BadAccess <-> rsn_mcastcipher tx = IEEE80211_CIPHER_NONE) /\
  (ieee80211_setup_wpa_ie tx = Fault BadAccess <-> rsn_mcastcipher tx = IEEE80211_CIPHER_NONE) /\
  (rsn_mcastcipher tx = IEEE80211_CIPHER_CKIP ->
   exists ie, ieee80211_setup_rsn_ie tx = Ok ie /\ (rsn_cipher (le4 ie 4) 0).1 = IEEE80211_CIPHER_NONE).
Proof.
  intros Hc. unfold ieee80211_setup_rsn_ie, ieee80211_setup_wpa_ie, setup_body.
  assert (exists x y, ADDSHORT (rsn_caps tx) = [x; y]) as (x & y & ->) by (unfold ADDSHORT; eauto).
  set (mc := rsn_mcastcipher tx) in *. set (ml := 13 <=? rsn_mcastkeylen tx) in *.
  set (cp := negb (rsn_caps tx =? 0) && _). clearbody mc ml cp.
  assert (In mc [0; 1; 2; 3; 4; 5; 6]) as Hin.
  { change IEEE80211_CIPHER_MAX with 7 in Hc. cbn. lia. }
  clear Hc. cbn in Hin. split_announced tx; destruct_or! Hin; destruct Hin; try destruct ml; destruct cp;
    (split_and!; [split; vm_compute; congruence|split; vm_compute; congruence|]);
    intros E; try discriminate E; eexists; split; reflexivity.
Qed.
Lemma setup_ie_mcast_witness :
  ieee80211_setup_rsn_ie (mkRsn IEEE80211_CIPHER_NONE 0 10 0 0 3 0 0) = Fault BadAccess.
Proof. apply setup_ie_mcast; [split; reflexivity || discriminate|reflexivity]. Defined.
