(* ===== verification/Wme.v ===== *)
(** * WME parameters: data and elements

    The access parameters of the four traffic classes ([struct wmeParams] and
    its tables in ieee80211_proto.h), the elements that carry them, built by
    ieee80211_output.c and parsed by ieee80211_input.c. *)

From S2P Require Import Prelude Buffers Ieee80211 InfoElem.

(** ** Constants *)

Definition WME_AC_BE : Z := 0.
Definition WME_AC_BK : Z := 1.
Definition WME_AC_VI : Z := 2.
Definition WME_AC_VO : Z := 3.
Definition WME_NUM_AC : nat := 4.
Definition WME_OUI : Z := 0xf25000.
Definition WME_OUI_TYPE : Z := 0x02.
Definition WME_INFO_OUI_SUBTYPE : Z := 0x00.
Definition WME_PARAM_OUI_SUBTYPE : Z := 0x01.
Definition WME_VERSION : Z := 1.
Definition WME_PARAM_ACI : Z := 0x60.
Definition WME_PARAM_ACI_S : Z := 5.
Definition WME_PARAM_ACM : Z := 0x10.
Definition WME_PARAM_ACM_S : Z := 4.
Definition WME_PARAM_AIFSN : Z := 0x0f.
Definition WME_PARAM_AIFSN_S : Z := 0.
Definition WME_PARAM_LOGCWMIN : Z := 0x0f.
Definition WME_PARAM_LOGCWMIN_S : Z := 0.
Definition WME_PARAM_LOGCWMAX : Z := 0xf0.
Definition WME_PARAM_LOGCWMAX_S : Z := 4.
Definition WME_QOSINFO_COUNT : Z := 0x0f.
Definition WME_OUI_BYTES : list Z := [0x00; 0x50; 0xf2].
(** [sizeof(struct ieee80211_wme_info)], [sizeof(struct ieee80211_wme_param)]
    and the offsets of two fields of the latter. *)
Definition sizeof_wme_info : Z := 9.
Definition sizeof_wme_param : Z := 26.
Definition off_qosInfo : nat := 8.
Definition off_acParams : nat := 10.

(** ** Data *)

Record wmeParams := mkWmep {
  wmep_acm : Z;
  wmep_aifsn : Z;
  wmep_logcwmin : Z;
  wmep_logcwmax : Z;
  wmep_txopLimit : Z;
  wmep_noackPolicy : Z;
}.
Record chanAccParams := mkCap {
  cap_info : Z;
  cap_wmeParams : list wmeParams;                    (* one per class *)
}.
(** Without [wme_params], which nothing uses, and the driver's hook. *)
Record ieee80211_wme_state := mkWme {
  wme_flags : Z;
  wme_hipri_switch_thresh : Z;
  wme_hipri_switch_hysteresis : Z;
  wme_wmeChanParams : chanAccParams;                    (* WME params applied to self *)
  wme_wmeBssChanParams : chanAccParams;                    (* WME params bcast to stations *)
  wme_chanParams : chanAccParams;                    (* params applied to self *)
  wme_bssChanParams : chanAccParams;                    (* params bcast to stations *)
}.

Definition set_wmeChan (w : ieee80211_wme_state) (c : chanAccParams) : ieee80211_wme_state :=
  mkWme (wme_flags w) (wme_hipri_switch_thresh w) (wme_hipri_switch_hysteresis w) c (wme_wmeBssChanParams w) (wme_chanParams w) (wme_bssChanParams w).
Definition set_wmeBssChan (w : ieee80211_wme_state) (c : chanAccParams) : ieee80211_wme_state :=
  mkWme (wme_flags w) (wme_hipri_switch_thresh w) (wme_hipri_switch_hysteresis w) (wme_wmeChanParams w) c (wme_chanParams w) (wme_bssChanParams w).
Definition set_chanParams (w : ieee80211_wme_state) (c : chanAccParams) : ieee80211_wme_state :=
  mkWme (wme_flags w) (wme_hipri_switch_thresh w) (wme_hipri_switch_hysteresis w) (wme_wmeChanParams w) (wme_wmeBssChanParams w) c (wme_bssChanParams w).
Definition set_bssChanParams (w : ieee80211_wme_state) (c : chanAccParams) : ieee80211_wme_state :=
  mkWme (wme_flags w) (wme_hipri_switch_thresh w) (wme_hipri_switch_hysteresis w) (wme_wmeChanParams w) (wme_wmeBssChanParams w) (wme_chanParams w) c.
Definition set_switch_thresh (w : ieee80211_wme_state) (v : Z) : ieee80211_wme_state :=
  mkWme (wme_flags w) v (wme_hipri_switch_hysteresis w) (wme_wmeChanParams w) (wme_wmeBssChanParams w) (wme_chanParams w) (wme_bssChanParams w).
Definition set_wme_flags (w : ieee80211_wme_state) (v : Z) : ieee80211_wme_state :=
  mkWme v (wme_hipri_switch_thresh w) (wme_hipri_switch_hysteresis w) (wme_wmeChanParams w) (wme_wmeBssChanParams w) (wme_chanParams w) (wme_bssChanParams w).

(** Memory as it is cleared before an interface is attached. *)
Definition zero_wmep : wmeParams := mkWmep 0 0 0 0 0 0.
Definition zero_cap : chanAccParams := mkCap 0 (replicate WME_NUM_AC zero_wmep).
Definition idle_wme : ieee80211_wme_state := mkWme 0 0 0 zero_cap zero_cap zero_cap zero_cap.

(** ** Elements *)

(** [MS] and [SM]: a field out of and into a byte. *)
Definition MS (v f s : Z) : Z := Z.shiftr (Z.land v f) s.
Definition SM (v f s : Z) : Z := Z.land (Z.shiftl v s) f.

Definition ieee80211_add_wme_info : list Z :=
  [IEEE80211_ELEMID_VENDOR; sizeof_wme_info - 2] ++ WME_OUI_BYTES ++ [WME_OUI_TYPE; WME_INFO_OUI_SUBTYPE; WME_VERSION; 0].

(** The two bytes of packed fields of a class. *)
Definition ac_byte0 (i acm aifsn : Z) : Z :=
  Z.lor (Z.lor (SM i WME_PARAM_ACI WME_PARAM_ACI_S) (SM acm WME_PARAM_ACM WME_PARAM_ACM_S)) (SM aifsn WME_PARAM_AIFSN WME_PARAM_AIFSN_S).
Definition ac_byte1 (logcwmax logcwmin : Z) : Z :=
  Z.lor (SM logcwmax WME_PARAM_LOGCWMAX WME_PARAM_LOGCWMAX_S) (SM logcwmin WME_PARAM_LOGCWMIN WME_PARAM_LOGCWMIN_S).
Definition add_acparam (i : nat) (ac : wmeParams) : list Z :=
  [ac_byte0 (Z.of_nat i) (wmep_acm ac) (wmep_aifsn ac); ac_byte1 (wmep_logcwmax ac) (wmep_logcwmin ac)]
  ++ ADDSHORT (wmep_txopLimit ac).
Definition ieee80211_add_wme_param (wme : ieee80211_wme_state) : list Z :=
  [IEEE80211_ELEMID_VENDOR; sizeof_wme_param - 2] ++ WME_OUI_BYTES ++ [WME_OUI_TYPE; WME_PARAM_OUI_SUBTYPE; WME_VERSION] ++
  [cap_info (wme_bssChanParams wme); 0] ++ concat (imap add_acparam (cap_wmeParams (wme_bssChanParams wme))).

(** One round of the loop of [ieee80211_parse_wmeparams]; the limit is stored
    in a byte. *)
Definition parse_acparam (frm : list Z) (i : nat) (wmep : wmeParams) : res wmeParams :=
  let off := (off_acParams + 4 * i)%nat in
  let* b0 := rd frm off in
  let* b1 := rd frm (off + 1) in
  let* txop := LE_READ_2 frm (off + 2) in
  Ok (mkWmep (MS b0 WME_PARAM_ACM WME_PARAM_ACM_S) (MS b0 WME_PARAM_AIFSN WME_PARAM_AIFSN_S)
             (MS b1 WME_PARAM_LOGCWMIN WME_PARAM_LOGCWMIN_S) (MS b1 WME_PARAM_LOGCWMAX WME_PARAM_LOGCWMAX_S)
             (u8 txop) (wmep_noackPolicy wmep)).
Fixpoint parse_acparams (frm : list Z) (i : nat) (l : list wmeParams) : res (list wmeParams) :=
  match l with
  | [] => Ok []
  | w :: l => let* w := parse_acparam frm i w in let* l := parse_acparams frm (S i) l in Ok (w :: l)
  end.
(** The answer is -1, 0 or 1. *)
Definition ieee80211_parse_wmeparams (wme : ieee80211_wme_state) (frm : list Z) : res (Z * ieee80211_wme_state) :=
  if byte_at frm 1 <? sizeof_wme_param - 2 then Ok (-1, wme)
  else
    let* qosinfo := rd frm off_qosInfo in
    let qosinfo := Z.land qosinfo WME_QOSINFO_COUNT in
    if qosinfo =? cap_info (wme_wmeChanParams wme) then Ok (0, wme)
    else
      let* l := parse_acparams frm 0 (cap_wmeParams (wme_wmeChanParams wme)) in
      Ok (1, set_wmeChan wme (mkCap qosinfo l)).
