(* ===== verification/Node.v ===== *)
(** * Nodes and node tables: data of net80211/ieee80211_node.h

    A node is a heap object that several places point to at once: the list and
    the hash buckets of its table, the key-index map, the BSS pointer, and the
    callers that hold references.  Nodes are therefore addresses into
    [n_nodes]; an access to an address that is not there is a use after free. *)

From stdpp Require Import gmap.
From S2P Require Import Prelude Buffers Mbuf Ieee80211 Crypto InfoElem Wme.

(** ** Constants *)

Definition IEEE80211_NODE_AUTH : Z := 0x0001.
Definition IEEE80211_NODE_QOS : Z := 0x0002.
Definition IEEE80211_NODE_ERP : Z := 0x0004.
Definition IEEE80211_NODE_PWR_MGT : Z := 0x0010.
Definition IEEE80211_NODE_AREF : Z := 0x0020.
Definition IEEE80211_NODE_HASHSIZE : Z := 32.
Definition IEEE80211_INACT_WAIT : Z := 15.
Definition IEEE80211_INACT_INIT : Z := 30 / IEEE80211_INACT_WAIT.
Definition IEEE80211_INACT_AUTH : Z := 180 / IEEE80211_INACT_WAIT.
Definition IEEE80211_INACT_RUN : Z := 300 / IEEE80211_INACT_WAIT.
Definition IEEE80211_INACT_PROBE : Z := 30 / IEEE80211_INACT_WAIT.
Definition IEEE80211_INACT_SCAN : Z := 300 / IEEE80211_INACT_WAIT.
Definition IEEE80211_AID_MAX : Z := 2007.
Definition IEEE80211_AID_DEF : Z := 128.
Definition IEEE80211_AUTH_OPEN : Z := 1.
Definition IEEE80211_AUTH_SHARED : Z := 2.
Definition IEEE80211_AUTH_8021X : Z := 3.
Definition IEEE80211_AUTH_AUTO : Z := 4.
Definition IEEE80211_M_IBSS : Z := 0.
Definition IEEE80211_M_STA : Z := 1.
Definition IEEE80211_M_AHDEMO : Z := 3.
Definition IEEE80211_M_HOSTAP : Z := 6.
Definition IEEE80211_M_MONITOR : Z := 8.
Definition IEEE80211_MODE_11A : Z := 1.
Definition IEEE80211_MODE_11B : Z := 2.
Definition IEEE80211_MODE_11G : Z := 3.
Definition IEEE80211_MODE_FH : Z := 4.
Definition IEEE80211_MODE_TURBO_A : Z := 5.
Definition IEEE80211_MODE_TURBO_G : Z := 6.
Definition IEEE80211_PROT_NONE : Z := 0.
Definition IEEE80211_F_SCAN : Z := 0x00000080.
Definition IEEE80211_F_SHSLOT : Z := 0x00000400.
Definition IEEE80211_F_SHPREAMBLE : Z := 0x00040000.
Definition IEEE80211_F_USEPROT : Z := 0x00100000.
Definition IEEE80211_F_USEBARKER : Z := 0x00200000.
Definition IEEE80211_F_TIMUPDATE : Z := 0x00400000.
Definition IEEE80211_C_AES : Z := 0x00000004.
Definition IEEE80211_C_CKIP : Z := 0x00000020.
Definition IEEE80211_C_SHSLOT : Z := 0x00004000.
Definition IEEE80211_C_SHPREAMBLE : Z := 0x00008000.
Definition IEEE80211_CAPINFO_IBSS : Z := 0x0002.
Definition IEEE80211_CAPINFO_SHORT_PREAMBLE : Z := 0x0020.
Definition IEEE80211_CAPINFO_SHORT_SLOTTIME : Z := 0x0400.
Definition IEEE80211_RATE_VAL : Z := 0x7f.
Definition IEEE80211_REASON_AUTH_EXPIRE : Z := 2.
Definition IEEE80211_REASON_ASSOC_TOOMANY : Z := 5.
Definition IEEE80211_STATUS_SUCCESS : Z := 0.
Definition IEEE80211_FC0_SUBTYPE_DEAUTH : Z := 0xc0.
Definition IEEE80211_FC0_SUBTYPE_PS_POLL : Z := 0xa0.

(** ** Data *)

(** A pointer into [ic_channels]: the place, and what it points to. *)
Record ieee80211_channel := mkChan { ch_ix : Z; ic_freq : Z; ch_flags : Z }.
#[global] Instance channel_eq_dec : EqDecision ieee80211_channel.
Proof. solve_decision. Defined.

(** The two tables of an interface. *)
Inductive tab := T_scan | T_sta.
#[global] Instance tab_eq_dec : EqDecision tab.
Proof. solve_decision. Defined.

(** Calls through driver hooks and messages to user space. *)
Inductive nev :=
| NE_newassoc (id : nat) (isnew : bool)
| NE_updateslot
| NE_mgmt (id : nat) (subtype arg : Z)
| NE_nulldata (id : nat)
| NE_join (id : nat) (newassoc : bool)
| NE_leave (id : nat)
| NE_newstate (nstate arg : Z)
| NE_mgtq (id : nat) (m : list mbuf)                     (* put on the management queue, for a node *)
| NE_snd (m : list mbuf)                              (* put on the send queue of the interface *)
| NE_eapol (src payload : list Z)                     (* given to the supplicant *)
| NE_wme_update                                       (* wme_update of the driver *)
| NE_data (frame : list Z).                           (* given to the network stack *)

(** Fields of a node that only beacons set. *)
Record bcninfo := mkBcn {
  ni_tstamp : list Z;                    (* 8 bytes *)
  ni_timoff : Z;
  ni_dtim_period : Z;
  ni_dtim_count : Z;
}.

Record ieee80211_node := mkNode {
  ni_table : option tab;                    (* in which table, if any *)
  ni_refcnt : Z;
  ni_scangen : Z;
  ni_authmode : Z;
  ni_flags : Z;
  ni_associd : Z;
  ni_txpower : Z;
  ni_vlan : Z;
  ni_challenge : option (list Z);
  ni_rxfragstamp : Z;
  ni_rxfrag : option (list mbuf);                    (* entry 0; the other two stay NULL *)
  ni_rsn : ieee80211_rsnparms;
  ni_ucastkey : ieee80211_key;
  ni_rssi : Z;
  ni_macaddr : list Z;
  ni_bssid : list Z;
  ni_intval : Z;
  ni_capinfo : Z;
  ni_rates : list Z;                    (* the first rs_nrates *)
  ni_chan : option ieee80211_channel;                    (* None is IEEE80211_CHAN_ANYC *)
  ni_inact : Z;
  ni_inact_reload : Z;
  ni_savedq : list (Z * list mbuf);                    (* with the age of each packet *)
  ni_rstamp : Z;
  ni_essid : list Z;                    (* the first ni_esslen *)
  ni_fhdwell : Z;
  ni_fhindex : Z;
  ni_erp : Z;
  ni_txrate : Z;
  ni_fails : Z;
  ni_wpa_ie : option (list Z);
  ni_wme_ie : option (list Z);
  ni_rxseqs : list Z;                    (* one of no traffic class, then one per class *)
  ni_txseqs : list Z;                    (* 17 entries *)
  ni_bcn : bcninfo;
}.

Record ieee80211_node_table := mkTable {
  nt_node : list nat;                    (* all nodes *)
  nt_hash : list (list nat);
  nt_scangen : Z;
  nt_inact_timer : Z;
  nt_inact_init : Z;
  nt_keyixmap : option (list (option nat));
  nt_keyixmax : Z;
}.

(** Fields of [struct ieee80211com] that choose a network and describe the one
    to be created.  The bit maps are [IEEE80211_CHAN_BYTES] bytes. *)
Record ieee80211_conf := mkConf {
  ic_phytype : Z;
  ic_channels : list ieee80211_channel;                    (* 256 entries *)
  ic_chan_active : list Z;
  ic_chan_scan : list Z;
  ic_des_chan : option ieee80211_channel;                    (* None is IEEE80211_CHAN_ANYC *)
  ic_ibss_chan : option ieee80211_channel;                    (* None is a null pointer *)
  ic_des_essid : list Z;                    (* the first ic_des_esslen *)
  ic_des_bssid : list Z;
  ic_roaming : Z;
  ic_flags_ext : Z;
  ic_dtim_period : Z;
  ic_opt_ie : option (list Z);
  ic_lintval : Z;
  ic_bmiss_count : Z;
}.

Record net := mkNet {
  n_ic : ieee80211com;                    (* flags, capabilities, statistics, keys *)
  n_km : kmem;
  n_heap : heap;
  n_nodes : gmap nat ieee80211_node;                    (* the nodes allocated and not freed *)
  n_fresh : nat;                    (* next address *)
  n_mem : list bool;                    (* outcomes of the next allocations *)
  ic_bss : option nat;
  ic_scan : ieee80211_node_table;
  ic_sta : ieee80211_node_table;
  ic_opmode : Z;
  ic_curmode : Z;
  ic_protmode : Z;
  ic_curchan : ieee80211_channel;
  ic_sup_rates : Z -> list Z;
  ic_myaddr : list Z;
  ic_max_aid : Z;
  ic_aid_bitmap : list Z;                    (* 32-bit words *)
  ic_tim_bitmap : list Z;                    (* bytes *)
  ic_sta_assoc : Z;
  ic_ps_sta : Z;
  ic_ps_pending : Z;
  ic_nonerpsta : Z;
  ic_longslotsta : Z;
  ic_txpowlimit : Z;
  ic_bintval : Z;
  ic_inact_auth : Z;
  ic_inact_run : Z;
  ic_inact_probe : Z;
  ic_state : Z;
  ic_fixed_rate : Z;
  wme_hipri_traffic : Z;
  if_flags : Z;
  if_broadcastaddr : list Z;
  ic_fragthreshold : Z;
  ic_wme : ieee80211_wme_state;                    (* wme_hipri_traffic is above *)
  ic_conf : ieee80211_conf;
  n_out : list nev;                    (* what drivers and user space were told *)
}.

(** Assignments to single fields. *)

Definition set_table (ni : ieee80211_node) (v : option tab) : ieee80211_node :=
  mkNode v (ni_refcnt ni) (ni_scangen ni) (ni_authmode ni) (ni_flags ni) (ni_associd ni) (ni_txpower ni)
    (ni_vlan ni) (ni_challenge ni) (ni_rxfragstamp ni) (ni_rxfrag ni) (ni_rsn ni) (ni_ucastkey ni)
    (ni_rssi ni) (ni_macaddr ni) (ni_bssid ni) (ni_intval ni) (ni_capinfo ni) (ni_rates ni) (ni_chan ni)
    (ni_inact ni) (ni_inact_reload ni) (ni_savedq ni) (ni_rstamp ni) (ni_essid ni) (ni_fhdwell ni)
    (ni_fhindex ni) (ni_erp ni) (ni_txrate ni) (ni_fails ni) (ni_wpa_ie ni) (ni_wme_ie ni) (ni_rxseqs ni)
    (ni_txseqs ni) (ni_bcn ni).
Definition set_refcnt (ni : ieee80211_node) (v : Z) : ieee80211_node :=
  mkNode (ni_table ni) v (ni_scangen ni) (ni_authmode ni) (ni_flags ni) (ni_associd ni) (ni_txpower ni)
    (ni_vlan ni) (ni_challenge ni) (ni_rxfragstamp ni) (ni_rxfrag ni) (ni_rsn ni) (ni_ucastkey ni)
    (ni_rssi ni) (ni_macaddr ni) (ni_bssid ni) (ni_intval ni) (ni_capinfo ni) (ni_rates ni) (ni_chan ni)
    (ni_inact ni) (ni_inact_reload ni) (ni_savedq ni) (ni_rstamp ni) (ni_essid ni) (ni_fhdwell ni)
    (ni_fhindex ni) (ni_erp ni) (ni_txrate ni) (ni_fails ni) (ni_wpa_ie ni) (ni_wme_ie ni) (ni_rxseqs ni)
    (ni_txseqs ni) (ni_bcn ni).
Definition set_scangen (ni : ieee80211_node) (v : Z) : ieee80211_node :=
  mkNode (ni_table ni) (ni_refcnt ni) v (ni_authmode ni) (ni_flags ni) (ni_associd ni) (ni_txpower ni)
    (ni_vlan ni) (ni_challenge ni) (ni_rxfragstamp ni) (ni_rxfrag ni) (ni_rsn ni) (ni_ucastkey ni)
    (ni_rssi ni) (ni_macaddr ni) (ni_bssid ni) (ni_intval ni) (ni_capinfo ni) (ni_rates ni) (ni_chan ni)
    (ni_inact ni) (ni_inact_reload ni) (ni_savedq ni) (ni_rstamp ni) (ni_essid ni) (ni_fhdwell ni)
    (ni_fhindex ni) (ni_erp ni) (ni_txrate ni) (ni_fails ni) (ni_wpa_ie ni) (ni_wme_ie ni) (ni_rxseqs ni)
    (ni_txseqs ni) (ni_bcn ni).
Definition set_authmode (ni : ieee80211_node) (v : Z) : ieee80211_node :=
  mkNode (ni_table ni) (ni_refcnt ni) (ni_scangen ni) v (ni_flags ni) (ni_associd ni) (ni_txpower ni)
    (ni_vlan ni) (ni_challenge ni) (ni_rxfragstamp ni) (ni_rxfrag ni) (ni_rsn ni) (ni_ucastkey ni)
    (ni_rssi ni) (ni_macaddr ni) (ni_bssid ni) (ni_intval ni) (ni_capinfo ni) (ni_rates ni) (ni_chan ni)
    (ni_inact ni) (ni_inact_reload ni) (ni_savedq ni) (ni_rstamp ni) (ni_essid ni) (ni_fhdwell ni)
    (ni_fhindex ni) (ni_erp ni) (ni_txrate ni) (ni_fails ni) (ni_wpa_ie ni) (ni_wme_ie ni) (ni_rxseqs ni)
    (ni_txseqs ni) (ni_bcn ni).
Definition set_nflags (ni : ieee80211_node) (v : Z) : ieee80211_node :=
  mkNode (ni_table ni) (ni_refcnt ni) (ni_scangen ni) (ni_authmode ni) v (ni_associd ni) (ni_txpower ni)
    (ni_vlan ni) (ni_challenge ni) (ni_rxfragstamp ni) (ni_rxfrag ni) (ni_rsn ni) (ni_ucastkey ni)
    (ni_rssi ni) (ni_macaddr ni) (ni_bssid ni) (ni_intval ni) (ni_capinfo ni) (ni_rates ni) (ni_chan ni)
    (ni_inact ni) (ni_inact_reload ni) (ni_savedq ni) (ni_rstamp ni) (ni_essid ni) (ni_fhdwell ni)
    (ni_fhindex ni) (ni_erp ni) (ni_txrate ni) (ni_fails ni) (ni_wpa_ie ni) (ni_wme_ie ni) (ni_rxseqs ni)
    (ni_txseqs ni) (ni_bcn ni).
Definition set_associd (ni : ieee80211_node) (v : Z) : ieee80211_node :=
  mkNode (ni_table ni) (ni_refcnt ni) (ni_scangen ni) (ni_authmode ni) (ni_flags ni) v (ni_txpower ni)
    (ni_vlan ni) (ni_challenge ni) (ni_rxfragstamp ni) (ni_rxfrag ni) (ni_rsn ni) (ni_ucastkey ni)
    (ni_rssi ni) (ni_macaddr ni) (ni_bssid ni) (ni_intval ni) (ni_capinfo ni) (ni_rates ni) (ni_chan ni)
    (ni_inact ni) (ni_inact_reload ni) (ni_savedq ni) (ni_rstamp ni) (ni_essid ni) (ni_fhdwell ni)
    (ni_fhindex ni) (ni_erp ni) (ni_txrate ni) (ni_fails ni) (ni_wpa_ie ni) (ni_wme_ie ni) (ni_rxseqs ni)
    (ni_txseqs ni) (ni_bcn ni).
Definition set_txpower (ni : ieee80211_node) (v : Z) : ieee80211_node :=
  mkNode (ni_table ni) (ni_refcnt ni) (ni_scangen ni) (ni_authmode ni) (ni_flags ni) (ni_associd ni) v
    (ni_vlan ni) (ni_challenge ni) (ni_rxfragstamp ni) (ni_rxfrag ni) (ni_rsn ni) (ni_ucastkey ni)
    (ni_rssi ni) (ni_macaddr ni) (ni_bssid ni) (ni_intval ni) (ni_capinfo ni) (ni_rates ni) (ni_chan ni)
    (ni_inact ni) (ni_inact_reload ni) (ni_savedq ni) (ni_rstamp ni) (ni_essid ni) (ni_fhdwell ni)
    (ni_fhindex ni) (ni_erp ni) (ni_txrate ni) (ni_fails ni) (ni_wpa_ie ni) (ni_wme_ie ni) (ni_rxseqs ni)
    (ni_txseqs ni) (ni_bcn ni).
Definition set_vlan (ni : ieee80211_node) (v : Z) : ieee80211_node :=
  mkNode (ni_table ni) (ni_refcnt ni) (ni_scangen ni) (ni_authmode ni) (ni_flags ni) (ni_associd ni)
    (ni_txpower ni) v (ni_challenge ni) (ni_rxfragstamp ni) (ni_rxfrag ni) (ni_rsn ni) (ni_ucastkey ni)
    (ni_rssi ni) (ni_macaddr ni) (ni_bssid ni) (ni_intval ni) (ni_capinfo ni) (ni_rates ni) (ni_chan ni)
    (ni_inact ni) (ni_inact_reload ni) (ni_savedq ni) (ni_rstamp ni) (ni_essid ni) (ni_fhdwell ni)
    (ni_fhindex ni) (ni_erp ni) (ni_txrate ni) (ni_fails ni) (ni_wpa_ie ni) (ni_wme_ie ni) (ni_rxseqs ni)
    (ni_txseqs ni) (ni_bcn ni).
Definition set_challenge (ni : ieee80211_node) (v : option (list Z)) : ieee80211_node :=
  mkNode (ni_table ni) (ni_refcnt ni) (ni_scangen ni) (ni_authmode ni) (ni_flags ni) (ni_associd ni)
    (ni_txpower ni) (ni_vlan ni) v (ni_rxfragstamp ni) (ni_rxfrag ni) (ni_rsn ni) (ni_ucastkey ni)
    (ni_rssi ni) (ni_macaddr ni) (ni_bssid ni) (ni_intval ni) (ni_capinfo ni) (ni_rates ni) (ni_chan ni)
    (ni_inact ni) (ni_inact_reload ni) (ni_savedq ni) (ni_rstamp ni) (ni_essid ni) (ni_fhdwell ni)
    (ni_fhindex ni) (ni_erp ni) (ni_txrate ni) (ni_fails ni) (ni_wpa_ie ni) (ni_wme_ie ni) (ni_rxseqs ni)
    (ni_txseqs ni) (ni_bcn ni).
Definition set_rxfrag (ni : ieee80211_node) (v : option (list mbuf)) : ieee80211_node :=
  mkNode (ni_table ni) (ni_refcnt ni) (ni_scangen ni) (ni_authmode ni) (ni_flags ni) (ni_associd ni)
    (ni_txpower ni) (ni_vlan ni) (ni_challenge ni) (ni_rxfragstamp ni) v (ni_rsn ni) (ni_ucastkey ni)
    (ni_rssi ni) (ni_macaddr ni) (ni_bssid ni) (ni_intval ni) (ni_capinfo ni) (ni_rates ni) (ni_chan ni)
    (ni_inact ni) (ni_inact_reload ni) (ni_savedq ni) (ni_rstamp ni) (ni_essid ni) (ni_fhdwell ni)
    (ni_fhindex ni) (ni_erp ni) (ni_txrate ni) (ni_fails ni) (ni_wpa_ie ni) (ni_wme_ie ni) (ni_rxseqs ni)
    (ni_txseqs ni) (ni_bcn ni).
Definition set_rsn (ni : ieee80211_node) (v : ieee80211_rsnparms) : ieee80211_node :=
  mkNode (ni_table ni) (ni_refcnt ni) (ni_scangen ni) (ni_authmode ni) (ni_flags ni) (ni_associd ni)
    (ni_txpower ni) (ni_vlan ni) (ni_challenge ni) (ni_rxfragstamp ni) (ni_rxfrag ni) v (ni_ucastkey ni)
    (ni_rssi ni) (ni_macaddr ni) (ni_bssid ni) (ni_intval ni) (ni_capinfo ni) (ni_rates ni) (ni_chan ni)
    (ni_inact ni) (ni_inact_reload ni) (ni_savedq ni) (ni_rstamp ni) (ni_essid ni) (ni_fhdwell ni)
    (ni_fhindex ni) (ni_erp ni) (ni_txrate ni) (ni_fails ni) (ni_wpa_ie ni) (ni_wme_ie ni) (ni_rxseqs ni)
    (ni_txseqs ni) (ni_bcn ni).
Definition set_ucastkey (ni : ieee80211_node) (v : ieee80211_key) : ieee80211_node :=
  mkNode (ni_table ni) (ni_refcnt ni) (ni_scangen ni) (ni_authmode ni) (ni_flags ni) (ni_associd ni)
    (ni_txpower ni) (ni_vlan ni) (ni_challenge ni) (ni_rxfragstamp ni) (ni_rxfrag ni) (ni_rsn ni) v
    (ni_rssi ni) (ni_macaddr ni) (ni_bssid ni) (ni_intval ni) (ni_capinfo ni) (ni_rates ni) (ni_chan ni)
    (ni_inact ni) (ni_inact_reload ni) (ni_savedq ni) (ni_rstamp ni) (ni_essid ni) (ni_fhdwell ni)
    (ni_fhindex ni) (ni_erp ni) (ni_txrate ni) (ni_fails ni) (ni_wpa_ie ni) (ni_wme_ie ni) (ni_rxseqs ni)
    (ni_txseqs ni) (ni_bcn ni).
Definition set_macaddr (ni : ieee80211_node) (v : list Z) : ieee80211_node :=
  mkNode (ni_table ni) (ni_refcnt ni) (ni_scangen ni) (ni_authmode ni) (ni_flags ni) (ni_associd ni)
    (ni_txpower ni) (ni_vlan ni) (ni_challenge ni) (ni_rxfragstamp ni) (ni_rxfrag ni) (ni_rsn ni)
    (ni_ucastkey ni) (ni_rssi ni) v (ni_bssid ni) (ni_intval ni) (ni_capinfo ni) (ni_rates ni) (ni_chan ni)
    (ni_inact ni) (ni_inact_reload ni) (ni_savedq ni) (ni_rstamp ni) (ni_essid ni) (ni_fhdwell ni)
    (ni_fhindex ni) (ni_erp ni) (ni_txrate ni) (ni_fails ni) (ni_wpa_ie ni) (ni_wme_ie ni) (ni_rxseqs ni)
    (ni_txseqs ni) (ni_bcn ni).
Definition set_bssid (ni : ieee80211_node) (v : list Z) : ieee80211_node :=
  mkNode (ni_table ni) (ni_refcnt ni) (ni_scangen ni) (ni_authmode ni) (ni_flags ni) (ni_associd ni)
    (ni_txpower ni) (ni_vlan ni) (ni_challenge ni) (ni_rxfragstamp ni) (ni_rxfrag ni) (ni_rsn ni)
    (ni_ucastkey ni) (ni_rssi ni) (ni_macaddr ni) v (ni_intval ni) (ni_capinfo ni) (ni_rates ni)
    (ni_chan ni) (ni_inact ni) (ni_inact_reload ni) (ni_savedq ni) (ni_rstamp ni) (ni_essid ni)
    (ni_fhdwell ni) (ni_fhindex ni) (ni_erp ni) (ni_txrate ni) (ni_fails ni) (ni_wpa_ie ni) (ni_wme_ie ni)
    (ni_rxseqs ni) (ni_txseqs ni) (ni_bcn ni).
Definition set_intval (ni : ieee80211_node) (v : Z) : ieee80211_node :=
  mkNode (ni_table ni) (ni_refcnt ni) (ni_scangen ni) (ni_authmode ni) (ni_flags ni) (ni_associd ni)
    (ni_txpower ni) (ni_vlan ni) (ni_challenge ni) (ni_rxfragstamp ni) (ni_rxfrag ni) (ni_rsn ni)
    (ni_ucastkey ni) (ni_rssi ni) (ni_macaddr ni) (ni_bssid ni) v (ni_capinfo ni) (ni_rates ni) (ni_chan ni)
    (ni_inact ni) (ni_inact_reload ni) (ni_savedq ni) (ni_rstamp ni) (ni_essid ni) (ni_fhdwell ni)
    (ni_fhindex ni) (ni_erp ni) (ni_txrate ni) (ni_fails ni) (ni_wpa_ie ni) (ni_wme_ie ni) (ni_rxseqs ni)
    (ni_txseqs ni) (ni_bcn ni).
Definition set_rates (ni : ieee80211_node) (v : list Z) : ieee80211_node :=
  mkNode (ni_table ni) (ni_refcnt ni) (ni_scangen ni) (ni_authmode ni) (ni_flags ni) (ni_associd ni)
    (ni_txpower ni) (ni_vlan ni) (ni_challenge ni) (ni_rxfragstamp ni) (ni_rxfrag ni) (ni_rsn ni)
    (ni_ucastkey ni) (ni_rssi ni) (ni_macaddr ni) (ni_bssid ni) (ni_intval ni) (ni_capinfo ni) v
    (ni_chan ni) (ni_inact ni) (ni_inact_reload ni) (ni_savedq ni) (ni_rstamp ni) (ni_essid ni)
    (ni_fhdwell ni) (ni_fhindex ni) (ni_erp ni) (ni_txrate ni) (ni_fails ni) (ni_wpa_ie ni) (ni_wme_ie ni)
    (ni_rxseqs ni) (ni_txseqs ni) (ni_bcn ni).
Definition set_chan (ni : ieee80211_node) (v : option ieee80211_channel) : ieee80211_node :=
  mkNode (ni_table ni) (ni_refcnt ni) (ni_scangen ni) (ni_authmode ni) (ni_flags ni) (ni_associd ni)
    (ni_txpower ni) (ni_vlan ni) (ni_challenge ni) (ni_rxfragstamp ni) (ni_rxfrag ni) (ni_rsn ni)
    (ni_ucastkey ni) (ni_rssi ni) (ni_macaddr ni) (ni_bssid ni) (ni_intval ni) (ni_capinfo ni) (ni_rates ni)
    v (ni_inact ni) (ni_inact_reload ni) (ni_savedq ni) (ni_rstamp ni) (ni_essid ni) (ni_fhdwell ni)
    (ni_fhindex ni) (ni_erp ni) (ni_txrate ni) (ni_fails ni) (ni_wpa_ie ni) (ni_wme_ie ni) (ni_rxseqs ni)
    (ni_txseqs ni) (ni_bcn ni).
Definition set_inact (ni : ieee80211_node) (v : Z) : ieee80211_node :=
  mkNode (ni_table ni) (ni_refcnt ni) (ni_scangen ni) (ni_authmode ni) (ni_flags ni) (ni_associd ni)
    (ni_txpower ni) (ni_vlan ni) (ni_challenge ni) (ni_rxfragstamp ni) (ni_rxfrag ni) (ni_rsn ni)
    (ni_ucastkey ni) (ni_rssi ni) (ni_macaddr ni) (ni_bssid ni) (ni_intval ni) (ni_capinfo ni) (ni_rates ni)
    (ni_chan ni) v (ni_inact_reload ni) (ni_savedq ni) (ni_rstamp ni) (ni_essid ni) (ni_fhdwell ni)
    (ni_fhindex ni) (ni_erp ni) (ni_txrate ni) (ni_fails ni) (ni_wpa_ie ni) (ni_wme_ie ni) (ni_rxseqs ni)
    (ni_txseqs ni) (ni_bcn ni).
Definition set_inact_reload (ni : ieee80211_node) (v : Z) : ieee80211_node :=
  mkNode (ni_table ni) (ni_refcnt ni) (ni_scangen ni) (ni_authmode ni) (ni_flags ni) (ni_associd ni)
    (ni_txpower ni) (ni_vlan ni) (ni_challenge ni) (ni_rxfragstamp ni) (ni_rxfrag ni) (ni_rsn ni)
    (ni_ucastkey ni) (ni_rssi ni) (ni_macaddr ni) (ni_bssid ni) (ni_intval ni) (ni_capinfo ni) (ni_rates ni)
    (ni_chan ni) (ni_inact ni) v (ni_savedq ni) (ni_rstamp ni) (ni_essid ni) (ni_fhdwell ni) (ni_fhindex ni)
    (ni_erp ni) (ni_txrate ni) (ni_fails ni) (ni_wpa_ie ni) (ni_wme_ie ni) (ni_rxseqs ni) (ni_txseqs ni) (ni_bcn ni).
Definition set_savedq (ni : ieee80211_node) (v : list (Z * list mbuf)) : ieee80211_node :=
  mkNode (ni_table ni) (ni_refcnt ni) (ni_scangen ni) (ni_authmode ni) (ni_flags ni) (ni_associd ni)
    (ni_txpower ni) (ni_vlan ni) (ni_challenge ni) (ni_rxfragstamp ni) (ni_rxfrag ni) (ni_rsn ni)
    (ni_ucastkey ni) (ni_rssi ni) (ni_macaddr ni) (ni_bssid ni) (ni_intval ni) (ni_capinfo ni) (ni_rates ni)
    (ni_chan ni) (ni_inact ni) (ni_inact_reload ni) v (ni_rstamp ni) (ni_essid ni) (ni_fhdwell ni)
    (ni_fhindex ni) (ni_erp ni) (ni_txrate ni) (ni_fails ni) (ni_wpa_ie ni) (ni_wme_ie ni) (ni_rxseqs ni)
    (ni_txseqs ni) (ni_bcn ni).
Definition set_rssi (ni : ieee80211_node) (v : Z) : ieee80211_node :=
  mkNode (ni_table ni) (ni_refcnt ni) (ni_scangen ni) (ni_authmode ni) (ni_flags ni) (ni_associd ni)
    (ni_txpower ni) (ni_vlan ni) (ni_challenge ni) (ni_rxfragstamp ni) (ni_rxfrag ni) (ni_rsn ni)
    (ni_ucastkey ni) v (ni_macaddr ni) (ni_bssid ni) (ni_intval ni) (ni_capinfo ni) (ni_rates ni)
    (ni_chan ni) (ni_inact ni) (ni_inact_reload ni) (ni_savedq ni) (ni_rstamp ni) (ni_essid ni)
    (ni_fhdwell ni) (ni_fhindex ni) (ni_erp ni) (ni_txrate ni) (ni_fails ni) (ni_wpa_ie ni) (ni_wme_ie ni)
    (ni_rxseqs ni) (ni_txseqs ni) (ni_bcn ni).
Definition set_rstamp (ni : ieee80211_node) (v : Z) : ieee80211_node :=
  mkNode (ni_table ni) (ni_refcnt ni) (ni_scangen ni) (ni_authmode ni) (ni_flags ni) (ni_associd ni)
    (ni_txpower ni) (ni_vlan ni) (ni_challenge ni) (ni_rxfragstamp ni) (ni_rxfrag ni) (ni_rsn ni)
    (ni_ucastkey ni) (ni_rssi ni) (ni_macaddr ni) (ni_bssid ni) (ni_intval ni) (ni_capinfo ni) (ni_rates ni)
    (ni_chan ni) (ni_inact ni) (ni_inact_reload ni) (ni_savedq ni) v (ni_essid ni) (ni_fhdwell ni)
    (ni_fhindex ni) (ni_erp ni) (ni_txrate ni) (ni_fails ni) (ni_wpa_ie ni) (ni_wme_ie ni) (ni_rxseqs ni)
    (ni_txseqs ni) (ni_bcn ni).
Definition set_capinfo (ni : ieee80211_node) (v : Z) : ieee80211_node :=
  mkNode (ni_table ni) (ni_refcnt ni) (ni_scangen ni) (ni_authmode ni) (ni_flags ni) (ni_associd ni)
    (ni_txpower ni) (ni_vlan ni) (ni_challenge ni) (ni_rxfragstamp ni) (ni_rxfrag ni) (ni_rsn ni)
    (ni_ucastkey ni) (ni_rssi ni) (ni_macaddr ni) (ni_bssid ni) (ni_intval ni) v (ni_rates ni) (ni_chan ni)
    (ni_inact ni) (ni_inact_reload ni) (ni_savedq ni) (ni_rstamp ni) (ni_essid ni) (ni_fhdwell ni)
    (ni_fhindex ni) (ni_erp ni) (ni_txrate ni) (ni_fails ni) (ni_wpa_ie ni) (ni_wme_ie ni) (ni_rxseqs ni)
    (ni_txseqs ni) (ni_bcn ni).
Definition set_fhdwell (ni : ieee80211_node) (v : Z) : ieee80211_node :=
  mkNode (ni_table ni) (ni_refcnt ni) (ni_scangen ni) (ni_authmode ni) (ni_flags ni) (ni_associd ni)
    (ni_txpower ni) (ni_vlan ni) (ni_challenge ni) (ni_rxfragstamp ni) (ni_rxfrag ni) (ni_rsn ni)
    (ni_ucastkey ni) (ni_rssi ni) (ni_macaddr ni) (ni_bssid ni) (ni_intval ni) (ni_capinfo ni) (ni_rates ni)
    (ni_chan ni) (ni_inact ni) (ni_inact_reload ni) (ni_savedq ni) (ni_rstamp ni) (ni_essid ni) v
    (ni_fhindex ni) (ni_erp ni) (ni_txrate ni) (ni_fails ni) (ni_wpa_ie ni) (ni_wme_ie ni) (ni_rxseqs ni)
    (ni_txseqs ni) (ni_bcn ni).
Definition set_fhindex (ni : ieee80211_node) (v : Z) : ieee80211_node :=
  mkNode (ni_table ni) (ni_refcnt ni) (ni_scangen ni) (ni_authmode ni) (ni_flags ni) (ni_associd ni)
    (ni_txpower ni) (ni_vlan ni) (ni_challenge ni) (ni_rxfragstamp ni) (ni_rxfrag ni) (ni_rsn ni)
    (ni_ucastkey ni) (ni_rssi ni) (ni_macaddr ni) (ni_bssid ni) (ni_intval ni) (ni_capinfo ni) (ni_rates ni)
    (ni_chan ni) (ni_inact ni) (ni_inact_reload ni) (ni_savedq ni) (ni_rstamp ni) (ni_essid ni)
    (ni_fhdwell ni) v (ni_erp ni) (ni_txrate ni) (ni_fails ni) (ni_wpa_ie ni) (ni_wme_ie ni) (ni_rxseqs ni)
    (ni_txseqs ni) (ni_bcn ni).
Definition set_txrate (ni : ieee80211_node) (v : Z) : ieee80211_node :=
  mkNode (ni_table ni) (ni_refcnt ni) (ni_scangen ni) (ni_authmode ni) (ni_flags ni) (ni_associd ni)
    (ni_txpower ni) (ni_vlan ni) (ni_challenge ni) (ni_rxfragstamp ni) (ni_rxfrag ni) (ni_rsn ni)
    (ni_ucastkey ni) (ni_rssi ni) (ni_macaddr ni) (ni_bssid ni) (ni_intval ni) (ni_capinfo ni) (ni_rates ni)
    (ni_chan ni) (ni_inact ni) (ni_inact_reload ni) (ni_savedq ni) (ni_rstamp ni) (ni_essid ni)
    (ni_fhdwell ni) (ni_fhindex ni) (ni_erp ni) v (ni_fails ni) (ni_wpa_ie ni) (ni_wme_ie ni) (ni_rxseqs ni)
    (ni_txseqs ni) (ni_bcn ni).
Definition set_fails (ni : ieee80211_node) (v : Z) : ieee80211_node :=
  mkNode (ni_table ni) (ni_refcnt ni) (ni_scangen ni) (ni_authmode ni) (ni_flags ni) (ni_associd ni)
    (ni_txpower ni) (ni_vlan ni) (ni_challenge ni) (ni_rxfragstamp ni) (ni_rxfrag ni) (ni_rsn ni)
    (ni_ucastkey ni) (ni_rssi ni) (ni_macaddr ni) (ni_bssid ni) (ni_intval ni) (ni_capinfo ni) (ni_rates ni)
    (ni_chan ni) (ni_inact ni) (ni_inact_reload ni) (ni_savedq ni) (ni_rstamp ni) (ni_essid ni)
    (ni_fhdwell ni) (ni_fhindex ni) (ni_erp ni) (ni_txrate ni) v (ni_wpa_ie ni) (ni_wme_ie ni)
    (ni_rxseqs ni) (ni_txseqs ni) (ni_bcn ni).
Definition set_wpa_ie (ni : ieee80211_node) (v : option (list Z)) : ieee80211_node :=
  mkNode (ni_table ni) (ni_refcnt ni) (ni_scangen ni) (ni_authmode ni) (ni_flags ni) (ni_associd ni)
    (ni_txpower ni) (ni_vlan ni) (ni_challenge ni) (ni_rxfragstamp ni) (ni_rxfrag ni) (ni_rsn ni)
    (ni_ucastkey ni) (ni_rssi ni) (ni_macaddr ni) (ni_bssid ni) (ni_intval ni) (ni_capinfo ni) (ni_rates ni)
    (ni_chan ni) (ni_inact ni) (ni_inact_reload ni) (ni_savedq ni) (ni_rstamp ni) (ni_essid ni)
    (ni_fhdwell ni) (ni_fhindex ni) (ni_erp ni) (ni_txrate ni) (ni_fails ni) v (ni_wme_ie ni) (ni_rxseqs ni)
    (ni_txseqs ni) (ni_bcn ni).
Definition set_wme_ie (ni : ieee80211_node) (v : option (list Z)) : ieee80211_node :=
  mkNode (ni_table ni) (ni_refcnt ni) (ni_scangen ni) (ni_authmode ni) (ni_flags ni) (ni_associd ni)
    (ni_txpower ni) (ni_vlan ni) (ni_challenge ni) (ni_rxfragstamp ni) (ni_rxfrag ni) (ni_rsn ni)
    (ni_ucastkey ni) (ni_rssi ni) (ni_macaddr ni) (ni_bssid ni) (ni_intval ni) (ni_capinfo ni) (ni_rates ni)
    (ni_chan ni) (ni_inact ni) (ni_inact_reload ni) (ni_savedq ni) (ni_rstamp ni) (ni_essid ni)
    (ni_fhdwell ni) (ni_fhindex ni) (ni_erp ni) (ni_txrate ni) (ni_fails ni) (ni_wpa_ie ni) v (ni_rxseqs ni)
    (ni_txseqs ni) (ni_bcn ni).
Definition set_rxseqs (ni : ieee80211_node) (v : list Z) : ieee80211_node :=
  mkNode (ni_table ni) (ni_refcnt ni) (ni_scangen ni) (ni_authmode ni) (ni_flags ni) (ni_associd ni)
    (ni_txpower ni) (ni_vlan ni) (ni_challenge ni) (ni_rxfragstamp ni) (ni_rxfrag ni) (ni_rsn ni)
    (ni_ucastkey ni) (ni_rssi ni) (ni_macaddr ni) (ni_bssid ni) (ni_intval ni) (ni_capinfo ni) (ni_rates ni)
    (ni_chan ni) (ni_inact ni) (ni_inact_reload ni) (ni_savedq ni) (ni_rstamp ni) (ni_essid ni)
    (ni_fhdwell ni) (ni_fhindex ni) (ni_erp ni) (ni_txrate ni) (ni_fails ni) (ni_wpa_ie ni) (ni_wme_ie ni) v
    (ni_txseqs ni) (ni_bcn ni).
Definition set_txseqs (ni : ieee80211_node) (v : list Z) : ieee80211_node :=
  mkNode (ni_table ni) (ni_refcnt ni) (ni_scangen ni) (ni_authmode ni) (ni_flags ni) (ni_associd ni)
    (ni_txpower ni) (ni_vlan ni) (ni_challenge ni) (ni_rxfragstamp ni) (ni_rxfrag ni) (ni_rsn ni)
    (ni_ucastkey ni) (ni_rssi ni) (ni_macaddr ni) (ni_bssid ni) (ni_intval ni) (ni_capinfo ni) (ni_rates ni)
    (ni_chan ni) (ni_inact ni) (ni_inact_reload ni) (ni_savedq ni) (ni_rstamp ni) (ni_essid ni)
    (ni_fhdwell ni) (ni_fhindex ni) (ni_erp ni) (ni_txrate ni) (ni_fails ni) (ni_wpa_ie ni) (ni_wme_ie ni)
    (ni_rxseqs ni) v (ni_bcn ni).
Definition set_rxfragstamp (ni : ieee80211_node) (v : Z) : ieee80211_node :=
  mkNode (ni_table ni) (ni_refcnt ni) (ni_scangen ni) (ni_authmode ni) (ni_flags ni) (ni_associd ni)
    (ni_txpower ni) (ni_vlan ni) (ni_challenge ni) v (ni_rxfrag ni) (ni_rsn ni) (ni_ucastkey ni)
    (ni_rssi ni) (ni_macaddr ni) (ni_bssid ni) (ni_intval ni) (ni_capinfo ni) (ni_rates ni) (ni_chan ni)
    (ni_inact ni) (ni_inact_reload ni) (ni_savedq ni) (ni_rstamp ni) (ni_essid ni) (ni_fhdwell ni)
    (ni_fhindex ni) (ni_erp ni) (ni_txrate ni) (ni_fails ni) (ni_wpa_ie ni) (ni_wme_ie ni) (ni_rxseqs ni)
    (ni_txseqs ni) (ni_bcn ni).

Definition set_nt_node (nt : ieee80211_node_table) (v : list nat) : ieee80211_node_table :=
  mkTable v (nt_hash nt) (nt_scangen nt) (nt_inact_timer nt) (nt_inact_init nt) (nt_keyixmap nt) (nt_keyixmax nt).
Definition set_nt_hash (nt : ieee80211_node_table) (v : list (list nat)) : ieee80211_node_table :=
  mkTable (nt_node nt) v (nt_scangen nt) (nt_inact_timer nt) (nt_inact_init nt) (nt_keyixmap nt) (nt_keyixmax nt).
Definition set_nt_scangen (nt : ieee80211_node_table) (v : Z) : ieee80211_node_table :=
  mkTable (nt_node nt) (nt_hash nt) v (nt_inact_timer nt) (nt_inact_init nt) (nt_keyixmap nt) (nt_keyixmax nt).
Definition set_nt_inact_timer (nt : ieee80211_node_table) (v : Z) : ieee80211_node_table :=
  mkTable (nt_node nt) (nt_hash nt) (nt_scangen nt) v (nt_inact_init nt) (nt_keyixmap nt) (nt_keyixmax nt).
Definition set_nt_keyixmap (nt : ieee80211_node_table) (v : option (list (option nat))) : ieee80211_node_table :=
  mkTable (nt_node nt) (nt_hash nt) (nt_scangen nt) (nt_inact_timer nt) (nt_inact_init nt) v (nt_keyixmax nt).

Definition set_ic (n : net) (v : ieee80211com) : net :=
  mkNet v (n_km n) (n_heap n) (n_nodes n) (n_fresh n) (n_mem n) (ic_bss n) (ic_scan n) (ic_sta n) (ic_opmode n)
    (ic_curmode n) (ic_protmode n) (ic_curchan n) (ic_sup_rates n) (ic_myaddr n) (ic_max_aid n)
    (ic_aid_bitmap n) (ic_tim_bitmap n) (ic_sta_assoc n) (ic_ps_sta n) (ic_ps_pending n) (ic_nonerpsta n)
    (ic_longslotsta n) (ic_txpowlimit n) (ic_bintval n) (ic_inact_auth n) (ic_inact_run n)
    (ic_inact_probe n) (ic_state n) (ic_fixed_rate n) (wme_hipri_traffic n) (if_flags n)
    (if_broadcastaddr n) (ic_fragthreshold n) (ic_wme n) (ic_conf n) (n_out n).
Definition set_km (n : net) (v : kmem) : net :=
  mkNet (n_ic n) v (n_heap n) (n_nodes n) (n_fresh n) (n_mem n) (ic_bss n) (ic_scan n) (ic_sta n) (ic_opmode n)
    (ic_curmode n) (ic_protmode n) (ic_curchan n) (ic_sup_rates n) (ic_myaddr n) (ic_max_aid n)
    (ic_aid_bitmap n) (ic_tim_bitmap n) (ic_sta_assoc n) (ic_ps_sta n) (ic_ps_pending n) (ic_nonerpsta n)
    (ic_longslotsta n) (ic_txpowlimit n) (ic_bintval n) (ic_inact_auth n) (ic_inact_run n)
    (ic_inact_probe n) (ic_state n) (ic_fixed_rate n) (wme_hipri_traffic n) (if_flags n)
    (if_broadcastaddr n) (ic_fragthreshold n) (ic_wme n) (ic_conf n) (n_out n).
Definition set_heap (n : net) (v : heap) : net :=
  mkNet (n_ic n) (n_km n) v (n_nodes n) (n_fresh n) (n_mem n) (ic_bss n) (ic_scan n) (ic_sta n) (ic_opmode n)
    (ic_curmode n) (ic_protmode n) (ic_curchan n) (ic_sup_rates n) (ic_myaddr n) (ic_max_aid n)
    (ic_aid_bitmap n) (ic_tim_bitmap n) (ic_sta_assoc n) (ic_ps_sta n) (ic_ps_pending n) (ic_nonerpsta n)
    (ic_longslotsta n) (ic_txpowlimit n) (ic_bintval n) (ic_inact_auth n) (ic_inact_run n)
    (ic_inact_probe n) (ic_state n) (ic_fixed_rate n) (wme_hipri_traffic n) (if_flags n)
    (if_broadcastaddr n) (ic_fragthreshold n) (ic_wme n) (ic_conf n) (n_out n).
Definition set_nodes (n : net) (v : gmap nat ieee80211_node) : net :=
  mkNet (n_ic n) (n_km n) (n_heap n) v (n_fresh n) (n_mem n) (ic_bss n) (ic_scan n) (ic_sta n) (ic_opmode n)
    (ic_curmode n) (ic_protmode n) (ic_curchan n) (ic_sup_rates n) (ic_myaddr n) (ic_max_aid n)
    (ic_aid_bitmap n) (ic_tim_bitmap n) (ic_sta_assoc n) (ic_ps_sta n) (ic_ps_pending n) (ic_nonerpsta n)
    (ic_longslotsta n) (ic_txpowlimit n) (ic_bintval n) (ic_inact_auth n) (ic_inact_run n)
    (ic_inact_probe n) (ic_state n) (ic_fixed_rate n) (wme_hipri_traffic n) (if_flags n)
    (if_broadcastaddr n) (ic_fragthreshold n) (ic_wme n) (ic_conf n) (n_out n).
Definition set_fresh (n : net) (v : nat) : net :=
  mkNet (n_ic n) (n_km n) (n_heap n) (n_nodes n) v (n_mem n) (ic_bss n) (ic_scan n) (ic_sta n) (ic_opmode n)
    (ic_curmode n) (ic_protmode n) (ic_curchan n) (ic_sup_rates n) (ic_myaddr n) (ic_max_aid n)
    (ic_aid_bitmap n) (ic_tim_bitmap n) (ic_sta_assoc n) (ic_ps_sta n) (ic_ps_pending n) (ic_nonerpsta n)
    (ic_longslotsta n) (ic_txpowlimit n) (ic_bintval n) (ic_inact_auth n) (ic_inact_run n)
    (ic_inact_probe n) (ic_state n) (ic_fixed_rate n) (wme_hipri_traffic n) (if_flags n)
    (if_broadcastaddr n) (ic_fragthreshold n) (ic_wme n) (ic_conf n) (n_out n).
Definition set_mem (n : net) (v : list bool) : net :=
  mkNet (n_ic n) (n_km n) (n_heap n) (n_nodes n) (n_fresh n) v (ic_bss n) (ic_scan n) (ic_sta n) (ic_opmode n)
    (ic_curmode n) (ic_protmode n) (ic_curchan n) (ic_sup_rates n) (ic_myaddr n) (ic_max_aid n)
    (ic_aid_bitmap n) (ic_tim_bitmap n) (ic_sta_assoc n) (ic_ps_sta n) (ic_ps_pending n) (ic_nonerpsta n)
    (ic_longslotsta n) (ic_txpowlimit n) (ic_bintval n) (ic_inact_auth n) (ic_inact_run n)
    (ic_inact_probe n) (ic_state n) (ic_fixed_rate n) (wme_hipri_traffic n) (if_flags n)
    (if_broadcastaddr n) (ic_fragthreshold n) (ic_wme n) (ic_conf n) (n_out n).
Definition set_bss (n : net) (v : option nat) : net :=
  mkNet (n_ic n) (n_km n) (n_heap n) (n_nodes n) (n_fresh n) (n_mem n) v (ic_scan n) (ic_sta n) (ic_opmode n)
    (ic_curmode n) (ic_protmode n) (ic_curchan n) (ic_sup_rates n) (ic_myaddr n) (ic_max_aid n)
    (ic_aid_bitmap n) (ic_tim_bitmap n) (ic_sta_assoc n) (ic_ps_sta n) (ic_ps_pending n) (ic_nonerpsta n)
    (ic_longslotsta n) (ic_txpowlimit n) (ic_bintval n) (ic_inact_auth n) (ic_inact_run n)
    (ic_inact_probe n) (ic_state n) (ic_fixed_rate n) (wme_hipri_traffic n) (if_flags n)
    (if_broadcastaddr n) (ic_fragthreshold n) (ic_wme n) (ic_conf n) (n_out n).
Definition set_scan (n : net) (v : ieee80211_node_table) : net :=
  mkNet (n_ic n) (n_km n) (n_heap n) (n_nodes n) (n_fresh n) (n_mem n) (ic_bss n) v (ic_sta n) (ic_opmode n)
    (ic_curmode n) (ic_protmode n) (ic_curchan n) (ic_sup_rates n) (ic_myaddr n) (ic_max_aid n)
    (ic_aid_bitmap n) (ic_tim_bitmap n) (ic_sta_assoc n) (ic_ps_sta n) (ic_ps_pending n) (ic_nonerpsta n)
    (ic_longslotsta n) (ic_txpowlimit n) (ic_bintval n) (ic_inact_auth n) (ic_inact_run n)
    (ic_inact_probe n) (ic_state n) (ic_fixed_rate n) (wme_hipri_traffic n) (if_flags n)
    (if_broadcastaddr n) (ic_fragthreshold n) (ic_wme n) (ic_conf n) (n_out n).
Definition set_sta (n : net) (v : ieee80211_node_table) : net :=
  mkNet (n_ic n) (n_km n) (n_heap n) (n_nodes n) (n_fresh n) (n_mem n) (ic_bss n) (ic_scan n) v (ic_opmode n)
    (ic_curmode n) (ic_protmode n) (ic_curchan n) (ic_sup_rates n) (ic_myaddr n) (ic_max_aid n)
    (ic_aid_bitmap n) (ic_tim_bitmap n) (ic_sta_assoc n) (ic_ps_sta n) (ic_ps_pending n) (ic_nonerpsta n)
    (ic_longslotsta n) (ic_txpowlimit n) (ic_bintval n) (ic_inact_auth n) (ic_inact_run n)
    (ic_inact_probe n) (ic_state n) (ic_fixed_rate n) (wme_hipri_traffic n) (if_flags n)
    (if_broadcastaddr n) (ic_fragthreshold n) (ic_wme n) (ic_conf n) (n_out n).
Definition set_max_aid (n : net) (v : Z) : net :=
  mkNet (n_ic n) (n_km n) (n_heap n) (n_nodes n) (n_fresh n) (n_mem n) (ic_bss n) (ic_scan n) (ic_sta n)
    (ic_opmode n) (ic_curmode n) (ic_protmode n) (ic_curchan n) (ic_sup_rates n) (ic_myaddr n) v
    (ic_aid_bitmap n) (ic_tim_bitmap n) (ic_sta_assoc n) (ic_ps_sta n) (ic_ps_pending n) (ic_nonerpsta n)
    (ic_longslotsta n) (ic_txpowlimit n) (ic_bintval n) (ic_inact_auth n) (ic_inact_run n)
    (ic_inact_probe n) (ic_state n) (ic_fixed_rate n) (wme_hipri_traffic n) (if_flags n)
    (if_broadcastaddr n) (ic_fragthreshold n) (ic_wme n) (ic_conf n) (n_out n).
Definition set_aid_bitmap (n : net) (v : list Z) : net :=
  mkNet (n_ic n) (n_km n) (n_heap n) (n_nodes n) (n_fresh n) (n_mem n) (ic_bss n) (ic_scan n) (ic_sta n)
    (ic_opmode n) (ic_curmode n) (ic_protmode n) (ic_curchan n) (ic_sup_rates n) (ic_myaddr n)
    (ic_max_aid n) v (ic_tim_bitmap n) (ic_sta_assoc n) (ic_ps_sta n) (ic_ps_pending n) (ic_nonerpsta n)
    (ic_longslotsta n) (ic_txpowlimit n) (ic_bintval n) (ic_inact_auth n) (ic_inact_run n)
    (ic_inact_probe n) (ic_state n) (ic_fixed_rate n) (wme_hipri_traffic n) (if_flags n)
    (if_broadcastaddr n) (ic_fragthreshold n) (ic_wme n) (ic_conf n) (n_out n).
Definition set_tim_bitmap (n : net) (v : list Z) : net :=
  mkNet (n_ic n) (n_km n) (n_heap n) (n_nodes n) (n_fresh n) (n_mem n) (ic_bss n) (ic_scan n) (ic_sta n)
    (ic_opmode n) (ic_curmode n) (ic_protmode n) (ic_curchan n) (ic_sup_rates n) (ic_myaddr n)
    (ic_max_aid n) (ic_aid_bitmap n) v (ic_sta_assoc n) (ic_ps_sta n) (ic_ps_pending n) (ic_nonerpsta n)
    (ic_longslotsta n) (ic_txpowlimit n) (ic_bintval n) (ic_inact_auth n) (ic_inact_run n)
    (ic_inact_probe n) (ic_state n) (ic_fixed_rate n) (wme_hipri_traffic n) (if_flags n)
    (if_broadcastaddr n) (ic_fragthreshold n) (ic_wme n) (ic_conf n) (n_out n).
Definition set_sta_assoc (n : net) (v : Z) : net :=
  mkNet (n_ic n) (n_km n) (n_heap n) (n_nodes n) (n_fresh n) (n_mem n) (ic_bss n) (ic_scan n) (ic_sta n)
    (ic_opmode n) (ic_curmode n) (ic_protmode n) (ic_curchan n) (ic_sup_rates n) (ic_myaddr n)
    (ic_max_aid n) (ic_aid_bitmap n) (ic_tim_bitmap n) v (ic_ps_sta n) (ic_ps_pending n) (ic_nonerpsta n)
    (ic_longslotsta n) (ic_txpowlimit n) (ic_bintval n) (ic_inact_auth n) (ic_inact_run n)
    (ic_inact_probe n) (ic_state n) (ic_fixed_rate n) (wme_hipri_traffic n) (if_flags n)
    (if_broadcastaddr n) (ic_fragthreshold n) (ic_wme n) (ic_conf n) (n_out n).
Definition set_ps_sta (n : net) (v : Z) : net :=
  mkNet (n_ic n) (n_km n) (n_heap n) (n_nodes n) (n_fresh n) (n_mem n) (ic_bss n) (ic_scan n) (ic_sta n)
    (ic_opmode n) (ic_curmode n) (ic_protmode n) (ic_curchan n) (ic_sup_rates n) (ic_myaddr n)
    (ic_max_aid n) (ic_aid_bitmap n) (ic_tim_bitmap n) (ic_sta_assoc n) v (ic_ps_pending n) (ic_nonerpsta n)
    (ic_longslotsta n) (ic_txpowlimit n) (ic_bintval n) (ic_inact_auth n) (ic_inact_run n)
    (ic_inact_probe n) (ic_state n) (ic_fixed_rate n) (wme_hipri_traffic n) (if_flags n)
    (if_broadcastaddr n) (ic_fragthreshold n) (ic_wme n) (ic_conf n) (n_out n).
Definition set_ps_pending (n : net) (v : Z) : net :=
  mkNet (n_ic n) (n_km n) (n_heap n) (n_nodes n) (n_fresh n) (n_mem n) (ic_bss n) (ic_scan n) (ic_sta n)
    (ic_opmode n) (ic_curmode n) (ic_protmode n) (ic_curchan n) (ic_sup_rates n) (ic_myaddr n)
    (ic_max_aid n) (ic_aid_bitmap n) (ic_tim_bitmap n) (ic_sta_assoc n) (ic_ps_sta n) v (ic_nonerpsta n)
    (ic_longslotsta n) (ic_txpowlimit n) (ic_bintval n) (ic_inact_auth n) (ic_inact_run n)
    (ic_inact_probe n) (ic_state n) (ic_fixed_rate n) (wme_hipri_traffic n) (if_flags n)
    (if_broadcastaddr n) (ic_fragthreshold n) (ic_wme n) (ic_conf n) (n_out n).
Definition set_nonerpsta (n : net) (v : Z) : net :=
  mkNet (n_ic n) (n_km n) (n_heap n) (n_nodes n) (n_fresh n) (n_mem n) (ic_bss n) (ic_scan n) (ic_sta n)
    (ic_opmode n) (ic_curmode n) (ic_protmode n) (ic_curchan n) (ic_sup_rates n) (ic_myaddr n)
    (ic_max_aid n) (ic_aid_bitmap n) (ic_tim_bitmap n) (ic_sta_assoc n) (ic_ps_sta n) (ic_ps_pending n) v
    (ic_longslotsta n) (ic_txpowlimit n) (ic_bintval n) (ic_inact_auth n) (ic_inact_run n)
    (ic_inact_probe n) (ic_state n) (ic_fixed_rate n) (wme_hipri_traffic n) (if_flags n)
    (if_broadcastaddr n) (ic_fragthreshold n) (ic_wme n) (ic_conf n) (n_out n).
Definition set_longslotsta (n : net) (v : Z) : net :=
  mkNet (n_ic n) (n_km n) (n_heap n) (n_nodes n) (n_fresh n) (n_mem n) (ic_bss n) (ic_scan n) (ic_sta n)
    (ic_opmode n) (ic_curmode n) (ic_protmode n) (ic_curchan n) (ic_sup_rates n) (ic_myaddr n)
    (ic_max_aid n) (ic_aid_bitmap n) (ic_tim_bitmap n) (ic_sta_assoc n) (ic_ps_sta n) (ic_ps_pending n)
    (ic_nonerpsta n) v (ic_txpowlimit n) (ic_bintval n) (ic_inact_auth n) (ic_inact_run n)
    (ic_inact_probe n) (ic_state n) (ic_fixed_rate n) (wme_hipri_traffic n) (if_flags n)
    (if_broadcastaddr n) (ic_fragthreshold n) (ic_wme n) (ic_conf n) (n_out n).
Definition set_out (n : net) (v : list nev) : net :=
  mkNet (n_ic n) (n_km n) (n_heap n) (n_nodes n) (n_fresh n) (n_mem n) (ic_bss n) (ic_scan n) (ic_sta n)
    (ic_opmode n) (ic_curmode n) (ic_protmode n) (ic_curchan n) (ic_sup_rates n) (ic_myaddr n)
    (ic_max_aid n) (ic_aid_bitmap n) (ic_tim_bitmap n) (ic_sta_assoc n) (ic_ps_sta n) (ic_ps_pending n)
    (ic_nonerpsta n) (ic_longslotsta n) (ic_txpowlimit n) (ic_bintval n) (ic_inact_auth n) (ic_inact_run n)
    (ic_inact_probe n) (ic_state n) (ic_fixed_rate n) (wme_hipri_traffic n) (if_flags n)
    (if_broadcastaddr n) (ic_fragthreshold n) (ic_wme n) (ic_conf n) v.
Definition set_hipri_traffic (n : net) (v : Z) : net :=
  mkNet (n_ic n) (n_km n) (n_heap n) (n_nodes n) (n_fresh n) (n_mem n) (ic_bss n) (ic_scan n) (ic_sta n)
    (ic_opmode n) (ic_curmode n) (ic_protmode n) (ic_curchan n) (ic_sup_rates n) (ic_myaddr n)
    (ic_max_aid n) (ic_aid_bitmap n) (ic_tim_bitmap n) (ic_sta_assoc n) (ic_ps_sta n) (ic_ps_pending n)
    (ic_nonerpsta n) (ic_longslotsta n) (ic_txpowlimit n) (ic_bintval n) (ic_inact_auth n) (ic_inact_run n)
    (ic_inact_probe n) (ic_state n) (ic_fixed_rate n) v (if_flags n) (if_broadcastaddr n)
    (ic_fragthreshold n) (ic_wme n) (ic_conf n) (n_out n).
Definition set_wme (n : net) (v : ieee80211_wme_state) : net :=
  mkNet (n_ic n) (n_km n) (n_heap n) (n_nodes n) (n_fresh n) (n_mem n) (ic_bss n) (ic_scan n) (ic_sta n)
    (ic_opmode n) (ic_curmode n) (ic_protmode n) (ic_curchan n) (ic_sup_rates n) (ic_myaddr n)
    (ic_max_aid n) (ic_aid_bitmap n) (ic_tim_bitmap n) (ic_sta_assoc n) (ic_ps_sta n) (ic_ps_pending n)
    (ic_nonerpsta n) (ic_longslotsta n) (ic_txpowlimit n) (ic_bintval n) (ic_inact_auth n) (ic_inact_run n)
    (ic_inact_probe n) (ic_state n) (ic_fixed_rate n) (wme_hipri_traffic n) (if_flags n)
    (if_broadcastaddr n) (ic_fragthreshold n) v (ic_conf n) (n_out n).

Definition set_bcn (ni : ieee80211_node) (v : bcninfo) : ieee80211_node :=
  mkNode (ni_table ni) (ni_refcnt ni) (ni_scangen ni) (ni_authmode ni) (ni_flags ni) (ni_associd ni)
    (ni_txpower ni) (ni_vlan ni) (ni_challenge ni) (ni_rxfragstamp ni) (ni_rxfrag ni) (ni_rsn ni)
    (ni_ucastkey ni) (ni_rssi ni) (ni_macaddr ni) (ni_bssid ni) (ni_intval ni) (ni_capinfo ni) (ni_rates ni)
    (ni_chan ni) (ni_inact ni) (ni_inact_reload ni) (ni_savedq ni) (ni_rstamp ni) (ni_essid ni)
    (ni_fhdwell ni) (ni_fhindex ni) (ni_erp ni) (ni_txrate ni) (ni_fails ni) (ni_wpa_ie ni) (ni_wme_ie ni)
    (ni_rxseqs ni) (ni_txseqs ni) v.
Definition set_essid (ni : ieee80211_node) (v : list Z) : ieee80211_node :=
  mkNode (ni_table ni) (ni_refcnt ni) (ni_scangen ni) (ni_authmode ni) (ni_flags ni) (ni_associd ni)
    (ni_txpower ni) (ni_vlan ni) (ni_challenge ni) (ni_rxfragstamp ni) (ni_rxfrag ni) (ni_rsn ni)
    (ni_ucastkey ni) (ni_rssi ni) (ni_macaddr ni) (ni_bssid ni) (ni_intval ni) (ni_capinfo ni) (ni_rates ni)
    (ni_chan ni) (ni_inact ni) (ni_inact_reload ni) (ni_savedq ni) (ni_rstamp ni) v (ni_fhdwell ni)
    (ni_fhindex ni) (ni_erp ni) (ni_txrate ni) (ni_fails ni) (ni_wpa_ie ni) (ni_wme_ie ni) (ni_rxseqs ni)
    (ni_txseqs ni) (ni_bcn ni).
Definition set_erp (ni : ieee80211_node) (v : Z) : ieee80211_node :=
  mkNode (ni_table ni) (ni_refcnt ni) (ni_scangen ni) (ni_authmode ni) (ni_flags ni) (ni_associd ni)
    (ni_txpower ni) (ni_vlan ni) (ni_challenge ni) (ni_rxfragstamp ni) (ni_rxfrag ni) (ni_rsn ni)
    (ni_ucastkey ni) (ni_rssi ni) (ni_macaddr ni) (ni_bssid ni) (ni_intval ni) (ni_capinfo ni) (ni_rates ni)
    (ni_chan ni) (ni_inact ni) (ni_inact_reload ni) (ni_savedq ni) (ni_rstamp ni) (ni_essid ni)
    (ni_fhdwell ni) (ni_fhindex ni) v (ni_txrate ni) (ni_fails ni) (ni_wpa_ie ni) (ni_wme_ie ni)
    (ni_rxseqs ni) (ni_txseqs ni) (ni_bcn ni).
Definition set_nt_inact_init (nt : ieee80211_node_table) (v : Z) : ieee80211_node_table :=
  mkTable (nt_node nt) (nt_hash nt) (nt_scangen nt) (nt_inact_timer nt) v (nt_keyixmap nt) (nt_keyixmax nt).
Definition set_conf (n : net) (v : ieee80211_conf) : net :=
  mkNet (n_ic n) (n_km n) (n_heap n) (n_nodes n) (n_fresh n) (n_mem n) (ic_bss n) (ic_scan n) (ic_sta n)
    (ic_opmode n) (ic_curmode n) (ic_protmode n) (ic_curchan n) (ic_sup_rates n) (ic_myaddr n)
    (ic_max_aid n) (ic_aid_bitmap n) (ic_tim_bitmap n) (ic_sta_assoc n) (ic_ps_sta n) (ic_ps_pending n)
    (ic_nonerpsta n) (ic_longslotsta n) (ic_txpowlimit n) (ic_bintval n) (ic_inact_auth n) (ic_inact_run n)
    (ic_inact_probe n) (ic_state n) (ic_fixed_rate n) (wme_hipri_traffic n) (if_flags n)
    (if_broadcastaddr n) (ic_fragthreshold n) (ic_wme n) v (n_out n).
Definition set_curchan (n : net) (v : ieee80211_channel) : net :=
  mkNet (n_ic n) (n_km n) (n_heap n) (n_nodes n) (n_fresh n) (n_mem n) (ic_bss n) (ic_scan n) (ic_sta n)
    (ic_opmode n) (ic_curmode n) (ic_protmode n) v (ic_sup_rates n) (ic_myaddr n) (ic_max_aid n)
    (ic_aid_bitmap n) (ic_tim_bitmap n) (ic_sta_assoc n) (ic_ps_sta n) (ic_ps_pending n) (ic_nonerpsta n)
    (ic_longslotsta n) (ic_txpowlimit n) (ic_bintval n) (ic_inact_auth n) (ic_inact_run n)
    (ic_inact_probe n) (ic_state n) (ic_fixed_rate n) (wme_hipri_traffic n) (if_flags n)
    (if_broadcastaddr n) (ic_fragthreshold n) (ic_wme n) (ic_conf n) (n_out n).
Definition set_curmode (n : net) (v : Z) : net :=
  mkNet (n_ic n) (n_km n) (n_heap n) (n_nodes n) (n_fresh n) (n_mem n) (ic_bss n) (ic_scan n) (ic_sta n)
    (ic_opmode n) v (ic_protmode n) (ic_curchan n) (ic_sup_rates n) (ic_myaddr n) (ic_max_aid n)
    (ic_aid_bitmap n) (ic_tim_bitmap n) (ic_sta_assoc n) (ic_ps_sta n) (ic_ps_pending n) (ic_nonerpsta n)
    (ic_longslotsta n) (ic_txpowlimit n) (ic_bintval n) (ic_inact_auth n) (ic_inact_run n)
    (ic_inact_probe n) (ic_state n) (ic_fixed_rate n) (wme_hipri_traffic n) (if_flags n)
    (if_broadcastaddr n) (ic_fragthreshold n) (ic_wme n) (ic_conf n) (n_out n).
Definition set_state (n : net) (v : Z) : net :=
  mkNet (n_ic n) (n_km n) (n_heap n) (n_nodes n) (n_fresh n) (n_mem n) (ic_bss n) (ic_scan n) (ic_sta n)
    (ic_opmode n) (ic_curmode n) (ic_protmode n) (ic_curchan n) (ic_sup_rates n) (ic_myaddr n)
    (ic_max_aid n) (ic_aid_bitmap n) (ic_tim_bitmap n) (ic_sta_assoc n) (ic_ps_sta n) (ic_ps_pending n)
    (ic_nonerpsta n) (ic_longslotsta n) (ic_txpowlimit n) (ic_bintval n) (ic_inact_auth n) (ic_inact_run n)
    (ic_inact_probe n) v (ic_fixed_rate n) (wme_hipri_traffic n) (if_flags n) (if_broadcastaddr n)
    (ic_fragthreshold n) (ic_wme n) (ic_conf n) (n_out n).
Definition set_chan_scan (c : ieee80211_conf) (v : list Z) : ieee80211_conf :=
  mkConf (ic_phytype c) (ic_channels c) (ic_chan_active c) v (ic_des_chan c) (ic_ibss_chan c) (ic_des_essid c)
    (ic_des_bssid c) (ic_roaming c) (ic_flags_ext c) (ic_dtim_period c) (ic_opt_ie c) (ic_lintval c)
    (ic_bmiss_count c).
Definition set_flags_ext (c : ieee80211_conf) (v : Z) : ieee80211_conf :=
  mkConf (ic_phytype c) (ic_channels c) (ic_chan_active c) (ic_chan_scan c) (ic_des_chan c) (ic_ibss_chan c)
    (ic_des_essid c) (ic_des_bssid c) (ic_roaming c) v (ic_dtim_period c) (ic_opt_ie c) (ic_lintval c)
    (ic_bmiss_count c).
Definition set_bmiss_count (c : ieee80211_conf) (v : Z) : ieee80211_conf :=
  mkConf (ic_phytype c) (ic_channels c) (ic_chan_active c) (ic_chan_scan c) (ic_des_chan c) (ic_ibss_chan c)
    (ic_des_essid c) (ic_des_bssid c) (ic_roaming c) (ic_flags_ext c) (ic_dtim_period c) (ic_opt_ie c)
    (ic_lintval c) v.

(** A configuration without channels. *)
Definition no_conf : ieee80211_conf := mkConf 0 [] [] [] None None [] [] 0 0 1 None 100 0.
