(* ===== verification/NodeTable.v ===== *)
(** * Node tables: net80211/ieee80211_node.c

    Allocation, lookup, reference counting, the key-index map, association ids
    and the inactivity timers.  The node locks make each operation atomic; the
    operations are functions on the whole state.

    Function pointers of the interface are the defaults that
    [ieee80211_node_attach] installs, apart from the frame sending hooks: what
    matters to a node is only whether the frame was queued, in which case it
    keeps a reference; [queued] says so.  [ic_newassoc] and [ic_updateslot] act
    on the device and are logged; no authenticator of the source has the
    [ia_node_join] and [ia_node_leave] hooks. *)

From stdpp Require Import gmap.
From S2P Require Import Prelude Buffers Mbuf Ieee80211 Crypto InfoElem Node.

(** ** Access *)

Definition node_at (n : net) (id : nat) : res ieee80211_node :=
  match n_nodes n !! id with Some ni => Ok ni | None => Fault BadAccess end.
Definition upd (n : net) (id : nat) (f : ieee80211_node -> ieee80211_node) : net := set_nodes n (alter f id (n_nodes n)).
Definition tell (n : net) (e : nev) : net := set_out n (n_out n ++ [e]).
Definition bump (n : net) (s : stat) : net := set_ic n (stat_inc (n_ic n) s).
Definition table (n : net) (t : tab) : ieee80211_node_table := match t with T_scan => ic_scan n | T_sta => ic_sta n end.
Definition put_table (n : net) (t : tab) (nt : ieee80211_node_table) : net :=
  match t with T_scan => set_scan n nt | T_sta => set_sta n nt end.
Definition set_icflags (n : net) (v : Z) : net :=
  let ic := n_ic n in
  set_ic n (mkCom (ic_ifp ic) v (ic_caps ic) (ic_stats ic) (ic_nw_keys ic) (ic_def_txkey ic) (ic_max_keyix ic) (ic_log ic)).
Definition flag_on (n : net) (f : Z) : net := set_icflags n (Z.lor (ic_flags (n_ic n)) f).
Definition flag_off (n : net) (f : Z) : net := set_icflags n (Z.land (ic_flags (n_ic n)) (Z.lnot f)).

(** ** Reference counts *)

Definition ieee80211_node_incref (ni : ieee80211_node) : ieee80211_node := set_refcnt ni (u32 (ni_refcnt ni + 1)).
Definition ieee80211_node_decref (ni : ieee80211_node) : ieee80211_node := set_refcnt ni (u32 (ni_refcnt ni - 1)).
(** The last reference is put back: the count is 1 while the node is freed. *)
Definition ieee80211_node_dectestref (n : net) (id : nat) : res (bool * net) :=
  let* ni := node_at n id in
  let ni' := ieee80211_node_decref ni in
  if ni_refcnt ni' =? 0 then Ok (true, upd n id (fun _ => ieee80211_node_incref ni'))
  else Ok (false, upd n id (fun _ => ni')).
Definition ieee80211_ref_node (n : net) (id : nat) : res net :=
  let* _ := node_at n id in Ok (upd n id ieee80211_node_incref).

(** ** Association ids *)

Definition IEEE80211_AID (b : Z) : Z := Z.land b (Z.lnot 0xc000).
Definition aid_word (n : net) (b : Z) : res Z :=
  match ic_aid_bitmap n !! Z.to_nat (IEEE80211_AID b / 32) with Some w => Ok w | None => Fault BadAccess end.
Definition IEEE80211_AID_SET (n : net) (b : Z) : res net :=
  let* w := aid_word n b in
  Ok (set_aid_bitmap n (<[Z.to_nat (IEEE80211_AID b / 32) := u32 (Z.lor w (Z.shiftl 1 (IEEE80211_AID b mod 32)))]> (ic_aid_bitmap n))).
Definition IEEE80211_AID_CLR (n : net) (b : Z) : res net :=
  let* w := aid_word n b in
  Ok (set_aid_bitmap n (<[Z.to_nat (IEEE80211_AID b / 32) := u32 (Z.land w (Z.lnot (Z.shiftl 1 (IEEE80211_AID b mod 32))))]> (ic_aid_bitmap n))).
Definition IEEE80211_AID_ISSET (n : net) (b : Z) : res bool :=
  let* w := aid_word n b in Ok (has_flag w (Z.shiftl 1 (IEEE80211_AID b mod 32))).

Definition ieee80211_set_tim (n : net) (id : nat) (set : bool) : res net :=
  if negb ((ic_opmode n =? IEEE80211_M_HOSTAP) || (ic_opmode n =? IEEE80211_M_IBSS)) then Fault Panic
  else
    let* ni := node_at n id in
    let aid := IEEE80211_AID (ni_associd ni) in
    if negb (aid <? ic_max_aid n) then Fault Panic
    else
      let i := Z.to_nat (aid / 8) in let m := Z.shiftl 1 (aid mod 8) in
      match ic_tim_bitmap n !! i with
      | None => Fault BadAccess
      | Some b =>
          if eqb set (has_flag b m) then Ok n
          else
            let n := if set then set_ps_pending (set_tim_bitmap n (<[i := u8 (Z.lor b m)]> (ic_tim_bitmap n))) (u16 (ic_ps_pending n + 1))
                     else set_ps_pending (set_tim_bitmap n (<[i := u8 (Z.land b (Z.lnot m))]> (ic_tim_bitmap n))) (u16 (ic_ps_pending n - 1)) in
            Ok (flag_on n IEEE80211_F_TIMUPDATE)
      end.

(** ** Mode and protection *)

Definition ieee80211_chan2mode (n : net) (c : ieee80211_channel) : Z :=
  let all ms := Z.land (ch_flags c) ms =? ms in
  if all 0x150 then IEEE80211_MODE_TURBO_A                          (* IEEE80211_CHAN_T *)
  else if has_flag (ch_flags c) 0x100 then IEEE80211_MODE_11A       (* IEEE80211_CHAN_5GHZ *)
  else if all 0x880 then IEEE80211_MODE_FH                           (* IEEE80211_CHAN_FHSS *)
  else if has_flag (ch_flags c) 0x440 then                          (* OFDM or DYN *)
    if ic_curmode n =? IEEE80211_MODE_TURBO_G then IEEE80211_MODE_TURBO_G
    else if ic_curmode n =? IEEE80211_MODE_11B then IEEE80211_MODE_11B
    else IEEE80211_MODE_11G
  else IEEE80211_MODE_11B.

Definition ieee80211_set_chan (n : net) (id : nat) (chan : option ieee80211_channel) : res net :=
  let* _ := node_at n id in
  let c := match chan with None => ic_curchan n | Some c => c end in
  Ok (upd n id (fun ni => set_rates (set_chan ni (Some c)) (ic_sup_rates n (ieee80211_chan2mode n c)))).

Definition ieee80211_set_shortslottime (n : net) (onoff : bool) : net :=
  tell (if onoff then flag_on n IEEE80211_F_SHSLOT else flag_off n IEEE80211_F_SHSLOT) NE_updateslot.

Definition ieee80211_reset_erp (n : net) : net :=
  let n := set_longslotsta (set_nonerpsta (flag_off n IEEE80211_F_USEPROT) 0) 0 in
  let n := ieee80211_set_shortslottime n
             ((ic_curmode n =? IEEE80211_MODE_11A) ||
              ((ic_curmode n =? IEEE80211_MODE_11G) && (ic_opmode n =? IEEE80211_M_HOSTAP) &&
               has_flag (ic_caps (n_ic n)) IEEE80211_C_SHSLOT)) in
  if (ic_curmode n =? IEEE80211_MODE_11A) || has_flag (ic_caps (n_ic n)) IEEE80211_C_SHPREAMBLE
  then flag_off (flag_on n IEEE80211_F_SHPREAMBLE) IEEE80211_F_USEBARKER
  else flag_on (flag_off n IEEE80211_F_SHPREAMBLE) IEEE80211_F_USEBARKER.

(** One of the rates of the loop: found before a larger one. *)
Fixpoint erp_scan (rate : Z) (rs : list Z) : bool :=
  match rs with
  | [] => false
  | x :: rs =>
      let r := Z.land x IEEE80211_RATE_VAL in
      if rate =? r then true else if rate <? r then false else erp_scan rate rs
  end.
Definition ieee80211_iserp_rateset (rs : list Z) : bool :=
  let rates := [2; 4; 11; 22; 12; 24; 48] in
  if (length rs <? length rates)%nat then false else forallb (fun r => erp_scan r rs) rates.

(** ** Table links *)

Definition IEEE80211_NODE_HASH (addr : list Z) : nat := Z.to_nat (byte_at addr 5 mod IEEE80211_NODE_HASHSIZE).
(** [TAILQ_REMOVE] and [LIST_REMOVE]; the node must be linked. *)
Definition node_unlink (n : net) (t : tab) (id : nat) : res net :=
  let nt := table n t in
  if bool_decide (id ∈ nt_node nt) then
    Ok (put_table n t (set_nt_hash (set_nt_node nt (filter (.≠ id) (nt_node nt))) (map (filter (.≠ id)) (nt_hash nt))))
  else Fault BadAccess.
(** Entry [keyix] of the key-index map of [t], if there is a map and it has one. *)
Definition keymap_get (n : net) (t : tab) (keyix : Z) : option nat :=
  match nt_keyixmap (table n t) with
  | Some m => if keyix <? nt_keyixmax (table n t) then mjoin (m !! Z.to_nat keyix) else None
  | None => None
  end.
Definition keymap_put (n : net) (t : tab) (keyix : Z) (v : option nat) : net :=
  match nt_keyixmap (table n t) with
  | Some m => put_table n t (set_nt_keyixmap (table n t) (Some (<[Z.to_nat keyix := v]> m)))
  | None => n
  end.

(** ** Allocation *)

Definition zero_node : ieee80211_node :=
  mkNode None 0 0 0 0 0 0 0 None 0 None (mkRsn 0 0 0 0 0 0 0 0) zero_key 0 (replicate 6 0) (replicate 6 0) 0 0 [] None 0 0 []
    0 [] 0 0 0 0 0 None None (replicate 17 0) (replicate 17 0) (mkBcn (replicate 8 0) 0 0 0).
Definition node_alloc (n : net) : option nat * net :=
  match n_mem n with
  | true :: mem => (Some (n_fresh n), set_fresh (set_mem (set_nodes n (<[n_fresh n := zero_node]> (n_nodes n))) mem) (S (n_fresh n)))
  | false :: mem => (None, set_mem n mem)
  | [] => (None, n)
  end.

Definition ieee80211_setup_node (n : net) (t : tab) (id : nat) (macaddr : list Z) : res net :=
  let nt := table n t in
  let hash := IEEE80211_NODE_HASH macaddr in
  let* _ := node_at n id in
  let n := upd n id (fun ni =>
    let ni := set_refcnt (set_macaddr ni macaddr) 1 in
    let ni := set_txpower (set_authmode (set_chan ni None) IEEE80211_AUTH_OPEN) (ic_txpowlimit n) in
    let ni := set_ucastkey ni (ieee80211_crypto_resetkey (ni_ucastkey ni) IEEE80211_KEYIX_NONE) in
    set_inact (set_inact_reload ni (nt_inact_init nt)) (nt_inact_init nt)) in
  let n := put_table n t (set_nt_hash (set_nt_node nt (nt_node nt ++ [id])) (alter (cons id) hash (nt_hash nt))) in
  Ok (upd n id (fun ni => set_table ni (Some t))).

Definition ieee80211_alloc_node (n : net) (t : tab) (macaddr : list Z) : res (option nat * net) :=
  match node_alloc n with
  | (Some id, n) => let* n := ieee80211_setup_node n t id macaddr in Ok (Some id, n)
  | (None, n) => Ok (None, bump n is_rx_nodealloc)
  end.

(** [ic->ic_bss], dereferenced. *)
Definition bss_node (n : net) : res ieee80211_node :=
  match ic_bss n with Some id => node_at n id | None => Fault NullDeref end.

Definition ieee80211_tmp_node (n : net) (macaddr : list Z) : res (option nat * net) :=
  match node_alloc n with
  | (Some id, n) =>
      let* bss := bss_node n in
      let n := upd n id (fun ni => set_txpower (set_refcnt (set_bssid (set_macaddr ni macaddr) (ni_bssid bss)) 1) (ni_txpower bss)) in
      let* n := ieee80211_set_chan n id (ni_chan bss) in
      let n := upd n id (fun ni =>
        set_table (set_ucastkey ni (ieee80211_crypto_resetkey (ni_ucastkey ni) IEEE80211_KEYIX_NONE)) None) in
      Ok (Some id, n)
  | (None, n) => Ok (None, bump n is_rx_nodealloc)
  end.

Definition ieee80211_dup_bss (n : net) (t : tab) (macaddr : list Z) : res (option nat * net) :=
  match node_alloc n with
  | (Some id, n) =>
      let* n := ieee80211_setup_node n t id macaddr in
      let* bss := bss_node n in
      let n := upd n id (fun ni =>
        set_bssid (set_vlan (set_txpower (set_authmode ni (ni_authmode bss)) (ni_txpower bss)) (ni_vlan bss)) (ni_bssid bss)) in
      let* n := ieee80211_set_chan n id (ni_chan bss) in
      Ok (Some id, upd n id (fun ni => set_rsn ni (ni_rsn bss)))
  | (None, n) => Ok (None, bump n is_rx_nodealloc)
  end.

Definition ieee80211_node_authorize (n : net) (ni : ieee80211_node) : ieee80211_node :=
  set_inact_reload (set_nflags ni (Z.lor (ni_flags ni) IEEE80211_NODE_AUTH)) (ic_inact_run n).
Definition ieee80211_node_unauthorize (ni : ieee80211_node) : ieee80211_node :=
  set_nflags ni (Z.land (ni_flags ni) (Z.lnot IEEE80211_NODE_AUTH)).

Definition ieee80211_fakeup_adhoc_node (n : net) (t : tab) (macaddr : list Z) : res (option nat * net) :=
  let* (r, n) := ieee80211_dup_bss n t macaddr in
  match r with
  | None => Ok (None, n)
  | Some id =>
      let* bss := bss_node n in
      let n := upd n id (fun ni => set_rates ni (ni_rates bss)) in
      let n := tell n (NE_newassoc id true) in
      Ok (Some id, upd n id (ieee80211_node_authorize n))
  end.

(** ** Lookup *)

(** [LIST_FOREACH] over a bucket. *)
Fixpoint find_chain (n : net) (macaddr : list Z) (l : list nat) : res (option nat) :=
  match l with
  | [] => Ok None
  | id :: l =>
      let* ni := node_at n id in
      if IEEE80211_ADDR_EQ (ni_macaddr ni) macaddr then Ok (Some id) else find_chain n macaddr l
  end.
Definition _ieee80211_find_node (n : net) (t : tab) (macaddr : list Z) : res (option nat * net) :=
  match nt_hash (table n t) !! IEEE80211_NODE_HASH macaddr with
  | None => Fault BadAccess
  | Some bucket =>
      let* r := find_chain n macaddr bucket in
      match r with
      | Some id => let* n := ieee80211_ref_node n id in Ok (Some id, n)
      | None => Ok (None, n)
      end
  end.
Definition ieee80211_find_node := _ieee80211_find_node.

Definition IS_CTL (wh : list Z) : bool := Z.land (i_fc0 wh) IEEE80211_FC0_TYPE_MASK =? IEEE80211_FC0_TYPE_CTL.
Definition IS_PSPOLL (wh : list Z) : bool := Z.land (i_fc0 wh) IEEE80211_FC0_SUBTYPE_MASK =? IEEE80211_FC0_SUBTYPE_PS_POLL.
(** The table that receive lookups use, and the address they look for. *)
Definition rx_table (n : net) : tab :=
  if (ic_opmode n =? IEEE80211_M_STA) || (ic_opmode n =? IEEE80211_M_MONITOR) || has_flag (ic_flags (n_ic n)) IEEE80211_F_SCAN
  then T_scan else T_sta.
Definition rx_addr (wh : list Z) : list Z := if IS_CTL wh && negb (IS_PSPOLL wh) then i_addr1 wh else i_addr2 wh.

(** A reference to the BSS node. *)
Definition ref_bss (n : net) : res (nat * net) :=
  match ic_bss n with
  | None => Fault NullDeref
  | Some id => let* n := ieee80211_ref_node n id in Ok (id, n)
  end.
(** The node of the sender, the BSS node for an unknown one. *)
Definition find_or_bss (n : net) (t : tab) (wh : list Z) : res (nat * net) :=
  let* (r, n) := _ieee80211_find_node n t (rx_addr wh) in
  match r with Some id => Ok (id, n) | None => ref_bss n end.

Definition ieee80211_find_rxnode (n : net) (wh : list Z) : res (nat * net) := find_or_bss n (rx_table n) wh.

Definition ieee80211_find_rxnode_withkey (n : net) (wh : list Z) (keyix : Z) : res (nat * net) :=
  let t := rx_table n in
  match keymap_get n t keyix with
  | Some id => let* n := ieee80211_ref_node n id in Ok (id, n)
  | None =>
      let* (id, n) := find_or_bss n t wh in
      match nt_keyixmap (table n t) with
      | None => Ok (id, n)
      | Some _ =>
          let* ni := node_at n id in
          let keyix := wk_rxkeyix (ni_ucastkey ni) in
          if (keyix <? nt_keyixmax (table n t)) && bool_decide (keymap_get n t keyix = None) then
            let* n := ieee80211_ref_node n id in Ok (id, keymap_put n t keyix (Some id))
          else Ok (id, n)
      end
  end.

Definition ieee80211_find_txnode (n : net) (macaddr : list Z) : res (option nat * net) :=
  let* (r, n) :=
    if (ic_opmode n =? IEEE80211_M_STA) || IEEE80211_IS_MULTICAST macaddr
    then let* (id, n) := ref_bss n in Ok (Some id, n)
    else _ieee80211_find_node n T_sta macaddr in
  match r with
  | Some id => Ok (Some id, n)
  | None =>
      if (ic_opmode n =? IEEE80211_M_IBSS) || (ic_opmode n =? IEEE80211_M_AHDEMO) then
        let* (r, n) := ieee80211_fakeup_adhoc_node n T_sta macaddr in
        match r with
        | Some id => let* n := ieee80211_ref_node n id in Ok (Some id, n)
        | None => Ok (None, n)
        end
      else Ok (None, bump n is_tx_nonode)
  end.

(** ** Release

    Freeing a node cleans it up, which deletes its key, which frees the node
    once more if the key-index map still has it: [free] is that call. *)

Section Release.
Context (dev : key_ops).

(** [IF_PURGE]. *)
Definition saveq_purge (h : heap) (q : list (Z * list mbuf)) : heap := fold_left (fun h p => m_freem h p.2) q h.

Section Open.
Context (free : net -> nat -> res net).

Definition ieee80211_node_delucastkey (n : net) (id : nat) : res net :=
  let* ni := node_at n id in
  let keyix := wk_rxkeyix (ni_ucastkey ni) in
  let* (k, ic, km) := ieee80211_crypto_delkey dev (n_km n) (n_ic n) (ni_ucastkey ni) in
  let n := set_km (set_ic (upd n id (fun ni => set_ucastkey ni k)) ic) km in
  let nikey := keymap_get n T_sta keyix in
  let n := if keyix <? nt_keyixmax (ic_sta n) then keymap_put n T_sta keyix None else n in
  match nikey with
  | None => Ok n
  | Some id' => if decide (id' = id) then free n id else Fault Panic
  end.

Definition node_cleanup (n : net) (id : nat) : res net :=
  let* ni := node_at n id in
  let n := if has_flag (ni_flags ni) IEEE80211_NODE_PWR_MGT then
             upd (set_ps_sta n (u16 (ic_ps_sta n - 1))) id
                 (fun ni => set_nflags ni (Z.land (ni_flags ni) (Z.lnot IEEE80211_NODE_PWR_MGT)))
           else n in
  let n := upd n id (fun ni => set_nflags ni (Z.land (ni_flags ni) (Z.lnot IEEE80211_NODE_AREF))) in
  let n := upd (set_heap n (saveq_purge (n_heap n) (ni_savedq ni))) id (fun ni => set_savedq ni []) in
  let* n := match ni_savedq ni with [] => Ok n | _ :: _ => ieee80211_set_tim n id false end in
  let n := upd n id (fun ni => set_challenge (set_associd ni 0) None) in
  let n := upd (match ni_rxfrag ni with Some m => set_heap n (m_freem (n_heap n) m) | None => n end) id
               (fun ni => set_rxfrag ni None) in
  ieee80211_node_delucastkey n id.

Definition node_free (n : net) (id : nat) : res net :=
  let* n := node_cleanup n id in Ok (set_nodes n (delete id (n_nodes n))).

Definition _ieee80211_free_node (n : net) (id : nat) : res net :=
  let* ni := node_at n id in
  let* n := IEEE80211_AID_CLR n (ni_associd ni) in
  let* n := match ni_table ni with Some t => node_unlink n t id | None => Ok n end in
  node_free n id.
End Open.

(** The nesting is at most two deep in every well-formed state. *)
Fixpoint free_node_n (fuel : nat) (n : net) (id : nat) : res net :=
  match fuel with
  | O => Fault Panic
  | S fuel =>
      let* ni := node_at n id in
      match ni_table ni with
      | Some t =>
          let* (last, n) := ieee80211_node_dectestref n id in
          if last then _ieee80211_free_node (free_node_n fuel) n id
          else
            let* ni := node_at n id in
            let keyix := wk_rxkeyix (ni_ucastkey ni) in
            if (ni_refcnt ni =? 1) && bool_decide (keymap_get n t keyix = Some id) then
              let n := upd (keymap_put n t keyix None) id ieee80211_node_decref in
              _ieee80211_free_node (free_node_n fuel) n id
            else Ok n
      | None =>
          let* (last, n) := ieee80211_node_dectestref n id in
          if last then _ieee80211_free_node (free_node_n fuel) n id else Ok n
      end
  end.
Definition free_depth : nat := 3.
Definition ieee80211_free_node : net -> nat -> res net := free_node_n free_depth.

Definition node_reclaim (n : net) (t : tab) (id : nat) : res net :=
  let* ni := node_at n id in
  let keyix := wk_rxkeyix (ni_ucastkey ni) in
  let n := if bool_decide (keymap_get n t keyix = Some id)
           then upd (keymap_put n t keyix None) id ieee80211_node_decref else n in
  let* (last, n) := ieee80211_node_dectestref n id in
  if negb last then
    let* n := node_unlink n t id in Ok (upd n id (fun ni => set_table ni None))
  else _ieee80211_free_node ieee80211_free_node n id.

(** [while ((ni = TAILQ_FIRST(&nt->nt_node)) != NULL)]; an association id is
    cleared but stays in the node. *)
Fixpoint free_all_loop (fuel : nat) (n : net) (t : tab) : res net :=
  match nt_node (table n t) with
  | [] => Ok n
  | id :: _ =>
      match fuel with
      | O => Fault Panic
      | S fuel =>
          let* ni := node_at n id in
          let* n := if ni_associd ni =? 0 then Ok n else IEEE80211_AID_CLR n (ni_associd ni) in
          let* n := node_reclaim n t id in
          free_all_loop fuel n t
      end
  end.
Definition ieee80211_free_allnodes_locked (n : net) (t : tab) : res net :=
  let* n := free_all_loop (length (nt_node (table n t))) n t in Ok (ieee80211_reset_erp n).
Definition ieee80211_node_table_reset (n : net) (t : tab) : res net :=
  ieee80211_free_allnodes_locked (put_table n t (set_nt_inact_timer (table n t) 0)) t.
Definition ieee80211_node_table_cleanup (n : net) (t : tab) : res net :=
  let* n := ieee80211_free_allnodes_locked n t in
  Ok (put_table n t (set_nt_keyixmap (table n t) None)).

Definition copy_bss (nbss obss : ieee80211_node) : ieee80211_node :=
  set_rsn (set_vlan (set_txpower (set_authmode nbss (ni_authmode obss)) (ni_txpower obss)) (ni_vlan obss)) (ni_rsn obss).

(** [ieee80211_sta_join], committing to [selbs]: the caller's reference becomes
    that of [ic_bss], the old BSS node is released. *)
Definition bss_switch (n : net) (selbs : nat) : res net :=
  let obss := ic_bss n in
  let n := set_bss n (Some selbs) in
  match obss with
  | None => Ok n
  | Some o =>
      let* oni := node_at n o in
      let* _ := node_at n selbs in
      ieee80211_free_node (upd n selbs (fun ni => copy_bss ni oni)) o
  end.

Definition ieee80211_reset_bss (n : net) : res net :=
  let* n := ieee80211_node_table_reset n T_scan in
  let* n := ieee80211_node_table_reset n T_sta in
  let* (r, n) := ieee80211_alloc_node n T_scan (ic_myaddr n) in
  match r with
  | None => Fault Panic
  | Some id =>
      let obss := ic_bss n in
      let* n := ieee80211_ref_node n id in
      let n := set_bss n (Some id) in
      match obss with
      | None => Ok n
      | Some o =>
          let* oni := node_at n o in
          let n := upd n id (fun ni => set_intval (copy_bss ni oni) (ic_bintval n)) in
          ieee80211_free_node n o
      end
  end.

(** ** Stations of an access point *)

Section Stations.
Context (queued : net -> nat -> bool).

(** A frame takes a sequence number of no traffic class. *)
Definition take_seq (ni : ieee80211_node) : ieee80211_node :=
  set_txseqs ni (alter (fun s => u16 (s + 1)) 0%nat (ni_txseqs ni)).
(** What a management frame does to its node: a deauthentication closes the port. *)
Definition mgmt_sent (subtype : Z) (ni : ieee80211_node) : ieee80211_node :=
  take_seq (if subtype =? IEEE80211_FC0_SUBTYPE_DEAUTH then ieee80211_node_unauthorize ni else ni).

(** [IEEE80211_SEND_MGMT]: a queued frame keeps its reference to the node. *)
Definition IEEE80211_SEND_MGMT (n : net) (id : nat) (subtype arg : Z) : res net :=
  let* _ := node_at n id in
  if queued n id then
    let* n := ieee80211_ref_node n id in
    Ok (tell (upd n id (mgmt_sent subtype)) (NE_mgmt id subtype arg))
  else Ok (bump n is_tx_nobuf).

Definition ieee80211_sta_leave (n : net) (id : nat) : res net :=
  let* n := node_cleanup ieee80211_free_node n id in
  let* _ := node_at n id in
  Ok (tell n (NE_leave id)).

Definition ieee80211_node_join_11g (n : net) (id : nat) : res net :=
  let* ni := node_at n id in
  let n := if has_flag (ni_capinfo ni) IEEE80211_CAPINFO_SHORT_SLOTTIME then n
           else ieee80211_set_shortslottime (set_longslotsta n (u16 (ic_longslotsta n + 1))) false in
  if ieee80211_iserp_rateset (ni_rates ni) then Ok (upd n id (fun ni => set_nflags ni (Z.lor (ni_flags ni) IEEE80211_NODE_ERP)))
  else
    let n := set_nonerpsta n (u16 (ic_nonerpsta n + 1)) in
    let n := if ic_protmode n =? IEEE80211_PROT_NONE then n else flag_on n IEEE80211_F_USEPROT in
    Ok (if has_flag (ni_capinfo ni) IEEE80211_CAPINFO_SHORT_PREAMBLE then n
        else flag_off (flag_on n IEEE80211_F_USEBARKER) IEEE80211_F_SHPREAMBLE).

(** The two halves of the 802.11g bookkeeping for a station that leaves. *)
Definition leave_longslot (n : net) (ni : ieee80211_node) : res net :=
  if has_flag (ni_capinfo ni) IEEE80211_CAPINFO_SHORT_SLOTTIME then Ok n
  else if negb (0 <? ic_longslotsta n) then Fault Panic
  else
    let n := set_longslotsta n (u16 (ic_longslotsta n - 1)) in
    Ok (if (ic_longslotsta n =? 0) && has_flag (ic_caps (n_ic n)) IEEE80211_C_SHSLOT && negb (ic_opmode n =? IEEE80211_M_IBSS)
        then ieee80211_set_shortslottime n true else n).
Definition leave_nonerp (n : net) (ni : ieee80211_node) : res net :=
  if has_flag (ni_flags ni) IEEE80211_NODE_ERP then Ok n
  else if negb (0 <? ic_nonerpsta n) then Fault Panic
  else
    let n := set_nonerpsta n (u16 (ic_nonerpsta n - 1)) in
    Ok (if ic_nonerpsta n =? 0 then
          let n := flag_off n IEEE80211_F_USEPROT in
          if has_flag (ic_caps (n_ic n)) IEEE80211_C_SHPREAMBLE
          then flag_off (flag_on n IEEE80211_F_SHPREAMBLE) IEEE80211_F_USEBARKER else n
        else n).
Definition ieee80211_node_leave_11g (n : net) (id : nat) : res net :=
  if negb (ic_curmode n =? IEEE80211_MODE_11G) then Fault Panic
  else
    let* ni := node_at n id in
    let* n := leave_longslot n ni in
    leave_nonerp n ni.

(** What an associated station gives up before it leaves the tables. *)
Definition leave_bookkeeping (n : net) (id : nat) (associd : Z) : res net :=
  if associd =? 0 then Ok n
  else
    let* n := IEEE80211_AID_CLR n associd in
    let n := set_sta_assoc (upd n id (fun ni => set_associd ni 0)) (u16 (ic_sta_assoc n - 1)) in
    let* n := if ic_curmode n =? IEEE80211_MODE_11G then ieee80211_node_leave_11g n id else Ok n in
    ieee80211_sta_leave n id.
Definition ieee80211_node_leave (n : net) (id : nat) : res net :=
  let* ni := node_at n id in
  if negb ((ic_opmode n =? IEEE80211_M_HOSTAP) || (ic_opmode n =? IEEE80211_M_IBSS) || (ic_opmode n =? IEEE80211_M_AHDEMO))
  then Fault Panic
  else
    let* n := leave_bookkeeping n id (ni_associd ni) in
    match ni_table ni with
    | Some t => node_reclaim n t id
    | None => ieee80211_free_node n id
    end.

(** The first free association id from [aid] on; the limit if there is none. *)
Fixpoint find_aid (fuel : nat) (n : net) (aid : Z) : res Z :=
  match fuel with
  | O => Ok aid
  | S fuel =>
      if aid <? ic_max_aid n then
        let* b := IEEE80211_AID_ISSET n aid in
        if b then find_aid fuel n (u16 (aid + 1)) else Ok aid
      else Ok aid
  end.

(** A station gets its id and is counted. *)
Definition join_admit (n : net) (id : nat) (aid : Z) : res net :=
  let associd := Z.lor aid 0xc000 in
  let n := upd n id (fun ni => set_associd ni associd) in
  let* n := IEEE80211_AID_SET n associd in
  let n := set_sta_assoc n (u16 (ic_sta_assoc n + 1)) in
  if ic_curmode n =? IEEE80211_MODE_11G then ieee80211_node_join_11g n id else Ok n.
(** The driver and the station are told. *)
Definition join_done (n : net) (id : nat) (resp : Z) (newassoc : bool) : res net :=
  let n := tell n (NE_newassoc id newassoc) in
  let n := upd n id (fun ni => set_inact (set_inact_reload ni (ic_inact_auth n)) (ic_inact_auth n)) in
  let* n := IEEE80211_SEND_MGMT n id resp IEEE80211_STATUS_SUCCESS in
  Ok (tell n (NE_join id newassoc)).
Definition ieee80211_node_join (n : net) (id : nat) (resp : Z) : res net :=
  let* ni := node_at n id in
  if ni_associd ni =? 0 then
    let* aid := find_aid (Z.to_nat (ic_max_aid n)) n 1 in
    if ic_max_aid n <=? aid then
      let* n := IEEE80211_SEND_MGMT n id resp IEEE80211_REASON_ASSOC_TOOMANY in
      ieee80211_node_leave n id
    else
      let* n := join_admit n id aid in join_done n id resp true
  else join_done n id resp false.
(** ** Timers *)

(** Free a reassembly older than a second. *)
Definition drop_old_frag (ticks hz : Z) (n : net) (id : nat) : res net :=
  let* ni := node_at n id in
  match ni_rxfrag ni with
  | Some m =>
      if u32 (ni_rxfragstamp ni + hz) <? ticks
      then Ok (upd (set_heap n (m_freem (n_heap n) m)) id (fun ni => set_rxfrag ni None)) else Ok n
  | None => Ok n
  end.

(** [TAILQ_FOREACH_SAFE]. *)
Fixpoint scan_purge (n : net) (t : tab) (l : list nat) : res net :=
  match l with
  | [] => Ok n
  | id :: l =>
      let* ni := node_at n id in
      if ni_inact ni =? 0 then scan_purge n t l
      else
        let n := upd n id (fun ni => set_inact ni (ni_inact ni - 1)) in
        let* n := if ni_inact ni - 1 =? 0 then node_reclaim n t id else Ok n in
        scan_purge n t l
  end.
Definition ieee80211_timeout_scan_candidates (ticks hz : Z) (n : net) (t : tab) : res net :=
  let* n := match ic_bss n with Some b => drop_old_frag ticks hz n b | None => Fault NullDeref end in
  let* n := scan_purge n t (nt_node (table n t)) in
  Ok (put_table n t (set_nt_inact_timer (table n t) IEEE80211_INACT_WAIT)).

(** Discard the frames at the head that have waited long enough, age the next. *)
Fixpoint age_savedq (q : list (Z * list mbuf)) (h : heap) : list (Z * list mbuf) * heap * Z :=
  match q with
  | [] => ([], h, 0)
  | (age, m) :: q' =>
      if age <? IEEE80211_INACT_WAIT then let '(q'', h, d) := age_savedq q' (m_freem h m) in (q'', h, d + 1)
      else ((age - IEEE80211_INACT_WAIT, m) :: q', h, 0)
  end.
Definition age_station (n : net) (id : nat) : res net :=
  let* ni := node_at n id in
  let '(q, h, discard) := age_savedq (ni_savedq ni) (n_heap n) in
  let n := upd (set_heap n h) id (fun ni => set_savedq ni q) in
  match q with
  | [] => if discard =? 0 then Ok n else ieee80211_set_tim n id false
  | _ :: _ => Ok n
  end.

(** [ieee80211_send_nulldata] uses up the reference it is given; without memory
    it only decrements the count. *)
Definition ieee80211_send_nulldata (n : net) (id : nat) : res net :=
  let* _ := node_at n id in
  if queued n id then Ok (tell (upd n id take_seq) (NE_nulldata id))
  else Ok (upd (bump n is_tx_nobuf) id ieee80211_node_decref).

(** One pass over a node not handled yet. *)
Definition timeout_node (ticks hz gen : Z) (n : net) (id : nat) : res net :=
  let isadhoc := (ic_opmode n =? IEEE80211_M_IBSS) || (ic_opmode n =? IEEE80211_M_AHDEMO) in
  let n := upd n id (fun ni => set_scangen ni gen) in
  let* ni := node_at n id in
  if (ic_opmode n =? IEEE80211_M_HOSTAP) && negb (has_flag (ni_flags ni) IEEE80211_NODE_AREF) then Ok n
  else
    let* n := drop_old_frag ticks hz n id in
    if bool_decide (ic_bss n = Some id) then Ok n
    else
      let n := upd n id (fun ni => set_inact ni (ni_inact ni - 1)) in
      let* ni := node_at n id in
      let known := negb (ni_associd ni =? 0) || isadhoc in
      let* n := if known then age_station n id else Ok n in
      if known && (0 <? ni_inact ni) && (ni_inact ni <=? ic_inact_probe n) then
        let* n := ieee80211_ref_node n id in ieee80211_send_nulldata n id
      else if ni_inact ni <=? 0 then
        let* n := if ni_associd ni =? 0 then Ok n
                  else IEEE80211_SEND_MGMT n id IEEE80211_FC0_SUBTYPE_DEAUTH IEEE80211_REASON_AUTH_EXPIRE in
        let* n := ieee80211_node_leave n id in
        Ok (bump n is_node_timeout)
      else Ok n.

(** The scan restarts from the head of the list after a frame was sent; nodes
    marked with the generation number are passed over. *)
Fixpoint unhandled (n : net) (gen : Z) (l : list nat) : res (option nat) :=
  match l with
  | [] => Ok None
  | id :: l => let* ni := node_at n id in if ni_scangen ni =? gen then unhandled n gen l else Ok (Some id)
  end.
Fixpoint timeout_loop (fuel : nat) (ticks hz gen : Z) (n : net) (t : tab) : res net :=
  let* r := unhandled n gen (nt_node (table n t)) in
  match r with
  | None => Ok n
  | Some id =>
      match fuel with
      | O => Fault Panic
      | S fuel => let* n := timeout_node ticks hz gen n id in timeout_loop fuel ticks hz gen n t
      end
  end.
Definition ieee80211_timeout_stations (ticks hz : Z) (n : net) (t : tab) : res net :=
  let gen := u32 (nt_scangen (table n t) + 1) in
  let n := put_table n t (set_nt_scangen (table n t) gen) in
  let* n := timeout_loop (length (nt_node (table n t))) ticks hz gen n t in
  Ok (put_table n t (set_nt_inact_timer (table n t) IEEE80211_INACT_WAIT)).
End Stations.

(** ** Attach and detach *)

Definition ieee80211_node_table_init (inact keyixmax : Z) (nt : ieee80211_node_table) : ieee80211_node_table :=
  mkTable [] (nt_hash nt) 1 (nt_inact_timer nt) inact
    (if 0 <? keyixmax then Some (replicate (Z.to_nat keyixmax) None) else None) keyixmax.

(** What the first BSS node offers; new stations inherit it. *)
Definition default_rsn (caps : Z) (r : ieee80211_rsnparms) : ieee80211_rsnparms :=
  let set := fold_left (fun s c => Z.lor s (Z.shiftl 1 c)) [IEEE80211_CIPHER_WEP; IEEE80211_CIPHER_TKIP; IEEE80211_CIPHER_AES_CCM]
               (rsn_ucastcipherset r) in
  let set := if has_flag caps IEEE80211_C_AES then Z.lor set (Z.shiftl 1 IEEE80211_CIPHER_AES_OCB) else set in
  let set := if has_flag caps IEEE80211_C_CKIP then Z.lor set (Z.shiftl 1 IEEE80211_CIPHER_CKIP) else set in
  mkRsn IEEE80211_CIPHER_TKIP (128 / 8) set IEEE80211_CIPHER_WEP (104 / 8) (Z.lor WPA_ASE_8021X_UNSPEC WPA_ASE_8021X_PSK)
    WPA_ASE_8021X_PSK (rsn_caps r).

(** The allocations of the bitmaps and of the key map wait for memory.  The
    authenticator that is looked up at the end is not part of the state. *)
Definition ieee80211_node_lateattach (n : net) : res net :=
  let n := if IEEE80211_AID_MAX <? ic_max_aid n then set_max_aid n IEEE80211_AID_MAX else n in
  let n := set_aid_bitmap n (replicate (Z.to_nat ((ic_max_aid n + 31) / 32)) 0) in
  let n := set_tim_bitmap n (replicate (Z.to_nat ((ic_max_aid n + 7) / 8)) 0) in
  let n := put_table n T_sta (ieee80211_node_table_init IEEE80211_INACT_INIT (ic_max_keyix (n_ic n)) (ic_sta n)) in
  let n := put_table n T_scan (ieee80211_node_table_init IEEE80211_INACT_SCAN 0 (ic_scan n)) in
  let* n := ieee80211_reset_bss n in
  match ic_bss n with
  | None => Fault NullDeref
  | Some b =>
      let* _ := node_at n b in
      Ok (upd n b (fun ni => set_rsn ni (default_rsn (ic_caps (n_ic n)) (ni_rsn ni))))
  end.

Definition ieee80211_node_detach (n : net) : res net :=
  let* n := match ic_bss n with Some b => let* n := ieee80211_free_node n b in Ok (set_bss n None) | None => Ok n end in
  let* n := ieee80211_node_table_cleanup n T_scan in
  let* n := ieee80211_node_table_cleanup n T_sta in
  Ok (set_tim_bitmap (set_aid_bitmap n []) []).
End Release.

(** ** Signal strength *)

Definition node_getrssi (ni : ieee80211_node) : Z := ni_rssi ni.
(** Samples and their sum over the nodes that count, 32-bit. *)
Fixpoint rssi_sum (n : net) (counts : ieee80211_node -> bool) (l : list nat) (samples total : Z) : res (Z * Z) :=
  match l with
  | [] => Ok (samples, total)
  | id :: l =>
      let* ni := node_at n id in
      if counts ni then rssi_sum n counts l (u32 (samples + 1)) (u32 (total + node_getrssi ni))
      else rssi_sum n counts l samples total
  end.
Definition ieee80211_getrssi (n : net) : res Z :=
  let over counts := rssi_sum n counts (nt_node (ic_sta n)) 0 0 in
  let* (samples, total) :=
    if ic_opmode n =? IEEE80211_M_IBSS then over (fun ni => has_flag (ni_capinfo ni) IEEE80211_CAPINFO_IBSS)
    else if ic_opmode n =? IEEE80211_M_AHDEMO then over (fun _ => true)
    else if ic_opmode n =? IEEE80211_M_HOSTAP then over (fun ni => negb (IEEE80211_AID (ni_associd ni) =? 0))
    else match ic_bss n with Some b => let* ni := node_at n b in Ok (1, node_getrssi ni) | None => Ok (1, 0) end in
  Ok (u8 (total / (if samples =? 0 then 1 else samples))).
