(* ===== verification/WmeParams.v ===== *)
(** * WME parameters: ieee80211_wme_initparams and ieee80211_wme_updateparams

    The default parameters of the traffic classes for each physical mode, and
    how an access point puts them into force and lets its stations know: it
    counts the updates modulo 16 in the element of its beacons, and a station
    takes over a set whose count is not the one it has. *)

From stdpp Require Import gmap.
From S2P Require Import Prelude Buffers Mbuf Ieee80211 Crypto InfoElem Wme Node NodeTable.

(** ** Tables (ieee80211_proto.c) *)

Definition IEEE80211_C_WME : Z := 0x04000000.
Definition IEEE80211_C_BURST : Z := 0x02000000.
Definition IEEE80211_F_WME : Z := 0x00002000.
Definition IEEE80211_F_WMEUPDATE : Z := 0x20000000.
Definition WME_F_AGGRMODE : Z := 0x00000001.
Definition HIGH_PRI_SWITCH_THRESH : Z := 10.

Record phyParamType := mkPhy { aifsn : Z; logcwmin : Z; logcwmax : Z; txopLimit : Z; acm : Z }.

(** One entry per mode: AUTO, 11A, 11B, 11G, FH, TURBO_A, TURBO_G. *)
Definition phyParamForAC_BE : list phyParamType :=
  [mkPhy 3 4 6 0 0; mkPhy 3 4 6 0 0; mkPhy 3 5 7 0 0; mkPhy 3 4 6 0 0; mkPhy 3 5 7 0 0; mkPhy 2 3 5 0 0; mkPhy 2 3 5 0 0].
Definition phyParamForAC_BK : list phyParamType :=
  [mkPhy 7 4 10 0 0; mkPhy 7 4 10 0 0; mkPhy 7 5 10 0 0; mkPhy 7 4 10 0 0; mkPhy 7 5 10 0 0; mkPhy 7 3 10 0 0; mkPhy 7 3 10 0 0].
Definition phyParamForAC_VI : list phyParamType :=
  [mkPhy 1 3 4 94 0; mkPhy 1 3 4 94 0; mkPhy 1 4 5 188 0; mkPhy 1 3 4 94 0; mkPhy 1 4 5 188 0; mkPhy 1 2 3 94 0; mkPhy 1 2 3 94 0].
Definition phyParamForAC_VO : list phyParamType :=
  [mkPhy 1 2 3 47 0; mkPhy 1 2 3 47 0; mkPhy 1 3 4 102 0; mkPhy 1 2 3 47 0; mkPhy 1 3 4 102 0; mkPhy 1 2 2 47 0; mkPhy 1 2 2 47 0].
Definition bssPhyParamForAC_BE : list phyParamType :=
  [mkPhy 3 4 10 0 0; mkPhy 3 4 10 0 0; mkPhy 3 5 10 0 0; mkPhy 3 4 10 0 0; mkPhy 3 5 10 0 0; mkPhy 2 3 10 0 0; mkPhy 2 3 10 0 0].
Definition bssPhyParamForAC_VI : list phyParamType :=
  [mkPhy 2 3 4 94 0; mkPhy 2 3 4 94 0; mkPhy 2 4 5 188 0; mkPhy 2 3 4 94 0; mkPhy 2 4 5 188 0; mkPhy 2 2 3 94 0; mkPhy 2 2 3 94 0].
Definition bssPhyParamForAC_VO : list phyParamType :=
  [mkPhy 2 2 3 47 0; mkPhy 2 2 3 47 0; mkPhy 2 3 4 102 0; mkPhy 2 2 3 47 0; mkPhy 2 3 4 102 0; mkPhy 1 2 2 47 0; mkPhy 1 2 2 47 0].
(** Of [ieee80211_wme_updateparams_locked]. *)
Definition phyParam : list phyParamType :=
  [mkPhy 2 4 10 64 0; mkPhy 2 4 10 64 0; mkPhy 2 5 10 64 0; mkPhy 2 4 10 64 0; mkPhy 2 5 10 64 0; mkPhy 1 3 10 64 0; mkPhy 1 3 10 64 0].
Definition logCwMin : list Z := [3; 3; 4; 3; 4; 3; 3].

(** [a[ic->ic_curmode]]. *)
Definition at_mode {A} (a : list A) (mode : Z) : res A :=
  match (if mode <? 0 then None else a !! Z.to_nat mode) with Some x => Ok x | None => Fault BadAccess end.

(** ** Operations *)

(** The tables of class [i]: for the station itself, and for the network. *)
Definition ac_tables (i : nat) : list phyParamType * list phyParamType :=
  match i with
  | 1%nat => (phyParamForAC_BK, phyParamForAC_BK)
  | 2%nat => (phyParamForAC_VI, bssPhyParamForAC_VI)
  | 3%nat => (phyParamForAC_VO, bssPhyParamForAC_VO)
  | _ => (phyParamForAC_BE, bssPhyParamForAC_BE)
  end.
(** All fields but [wmep_noackPolicy]. *)
Definition load_phy (p : phyParamType) (w : wmeParams) : wmeParams :=
  mkWmep (acm p) (aifsn p) (logcwmin p) (logcwmax p) (u8 (txopLimit p)) (wmep_noackPolicy w).
(** All fields but [wmep_acm] and [wmep_noackPolicy]. *)
Definition load_wmep (p w : wmeParams) : wmeParams :=
  mkWmep (wmep_acm w) (wmep_aifsn p) (wmep_logcwmin p) (wmep_logcwmax p) (wmep_txopLimit p) (wmep_noackPolicy w).

Definition set_params (c : chanAccParams) (l : list wmeParams) : chanAccParams := mkCap (cap_info c) l.
Definition set_be (f : wmeParams -> wmeParams) (c : chanAccParams) : chanAccParams :=
  set_params c (alter f (Z.to_nat WME_AC_BE) (cap_wmeParams c)).
Definition both_be (f : wmeParams -> wmeParams) (w : ieee80211_wme_state) : ieee80211_wme_state :=
  set_bssChanParams (set_chanParams w (set_be f (wme_chanParams w))) (set_be f (wme_bssChanParams w)).

(** The first loop: what is configured goes into force. *)
Definition apply_params (w : ieee80211_wme_state) : ieee80211_wme_state :=
  set_bssChanParams
    (set_chanParams w (set_params (wme_chanParams w) (zip_with load_wmep (cap_wmeParams (wme_wmeChanParams w)) (cap_wmeParams (wme_chanParams w)))))
    (set_params (wme_bssChanParams w) (zip_with load_wmep (cap_wmeParams (wme_wmeBssChanParams w)) (cap_wmeParams (wme_bssChanParams w)))).

(** Parameters of best-effort traffic while there is no other. *)
Definition aggr_be (burst : bool) (p : phyParamType) (w : wmeParams) : wmeParams :=
  mkWmep (wmep_acm w) (aifsn p) (logcwmin p) (logcwmax p) (u8 (if burst then txopLimit p else 0)) (wmep_noackPolicy w).
Definition with_cwmin (v : Z) (w : wmeParams) : wmeParams :=
  mkWmep (wmep_acm w) (wmep_aifsn w) v (wmep_logcwmax w) (wmep_txopLimit w) (wmep_noackPolicy w).

Definition ieee80211_wme_updateparams_locked (n : net) : res net :=
  let w := apply_params (ic_wme n) in
  let ap := ic_opmode n =? IEEE80211_M_HOSTAP in
  let aggr := has_flag (wme_flags w) WME_F_AGGRMODE in
  let* noqos := if ap then Ok false
                else let* bss := bss_node n in Ok (negb (has_flag (ni_flags bss) IEEE80211_NODE_QOS)) in
  let* w := if (ap && negb aggr) || noqos || negb (has_flag (ic_flags (n_ic n)) IEEE80211_F_WME) then
              let* p := at_mode phyParam (ic_curmode n) in
              Ok (both_be (aggr_be (has_flag (ic_caps (n_ic n)) IEEE80211_C_BURST) p) w)
            else Ok w in
  let* w := if ap && (ic_sta_assoc n <? 2) && negb aggr then
              let* c := at_mode logCwMin (ic_curmode n) in Ok (both_be (with_cwmin c) w)
            else Ok w in
  let n := if ap then
             let b := wme_bssChanParams w in
             flag_on (set_wme n (set_bssChanParams w (mkCap (Z.land (cap_info b + 1) WME_QOSINFO_COUNT) (cap_wmeParams b)))) IEEE80211_F_WMEUPDATE
           else set_wme n w in
  Ok (tell n NE_wme_update).

Definition ieee80211_wme_updateparams (n : net) : res net :=
  if has_flag (ic_caps (n_ic n)) IEEE80211_C_WME then ieee80211_wme_updateparams_locked n else Ok n.

(** One round of the loop of [ieee80211_wme_initparams]. *)
Definition init_ac (n : net) (w : ieee80211_wme_state) (i : nat) : res ieee80211_wme_state :=
  let '(own, bss) := ac_tables i in
  let* p := at_mode own (ic_curmode n) in
  let* b := at_mode bss (ic_curmode n) in
  let q := if ic_opmode n =? IEEE80211_M_HOSTAP then p else b in
  let w := set_wmeChan w (set_params (wme_wmeChanParams w) (alter (load_phy q) i (cap_wmeParams (wme_wmeChanParams w)))) in
  Ok (set_wmeBssChan w (set_params (wme_wmeBssChanParams w) (alter (load_phy b) i (cap_wmeParams (wme_wmeBssChanParams w))))).
Fixpoint init_loop (n : net) (w : ieee80211_wme_state) (ixs : list nat) : res ieee80211_wme_state :=
  match ixs with
  | [] => Ok w
  | i :: ixs => let* w := init_ac n w i in init_loop n w ixs
  end.
Definition ieee80211_wme_initparams (n : net) : res net :=
  if negb (has_flag (ic_caps (n_ic n)) IEEE80211_C_WME) then Ok n
  else
    let* w := init_loop n (ic_wme n) (seq 0 WME_NUM_AC) in
    let n := set_wme n w in
    match ic_bss n with
    | None => Ok n
    | Some b =>
        let* bss := node_at n b in
        ieee80211_wme_updateparams (set_wme n (set_switch_thresh w (HIGH_PRI_SWITCH_THRESH * ni_intval bss / 100)))
    end.

(** ** The invariant *)

(** Every field fits its place in the element. *)
Record wmep_ok (w : wmeParams) : Prop := mkWmepOk {
  wo_acm : 0 <= wmep_acm w < 2;
  wo_aifsn : 0 <= wmep_aifsn w < 16;
  wo_cwmin : 0 <= wmep_logcwmin w < 16;
  wo_cwmax : 0 <= wmep_logcwmax w < 16;
  wo_txop : is_u8 (wmep_txopLimit w);
}.
Record cap_ok (c : chanAccParams) : Prop := mkCapOk {
  co_info : 0 <= cap_info c < 16;
  co_len : length (cap_wmeParams c) = WME_NUM_AC;
  co_all : Forall wmep_ok (cap_wmeParams c);
}.
Record wme_ok (w : ieee80211_wme_state) : Prop := mkWmeOk {
  we_own : cap_ok (wme_wmeChanParams w);
  we_bss : cap_ok (wme_wmeBssChanParams w);
  we_chan : cap_ok (wme_chanParams w);
  we_bcast : cap_ok (wme_bssChanParams w);
}.
Definition phy_ok (p : phyParamType) : Prop :=
  0 <= acm p < 2 /\ 0 <= aifsn p < 16 /\ 0 <= logcwmin p < 16 /\ 0 <= logcwmax p < 16.
#[export] Instance phy_ok_dec p : Decision (phy_ok p).
Proof. unfold phy_ok. apply _. Defined.
#[export] Hint Resolve u8_range : core.

Lemma cap_ok_set c l : cap_ok c -> length l = WME_NUM_AC -> Forall wmep_ok l -> cap_ok (set_params c l).
Proof. intros [? ? ?] ? ?. by split. Qed.
Lemma cap_ok_alter c f i : cap_ok c -> (forall w, wmep_ok w -> wmep_ok (f w)) -> cap_ok (set_params c (alter f i (cap_wmeParams c))).
Proof.
  intros C Hf. apply cap_ok_set; [done|rewrite length_alter; apply C|]. apply Forall_alter; [apply C|]. auto.
Qed.
Lemma both_be_ok f w : wme_ok w -> (forall x, wmep_ok x -> wmep_ok (f x)) -> wme_ok (both_be f w).
Proof. intros [? ? ? ?] Hf. split; try done; by apply cap_ok_alter. Qed.
Lemma load_ok c d : cap_ok c -> cap_ok d -> cap_ok (set_params d (zip_with load_wmep (cap_wmeParams c) (cap_wmeParams d))).
Proof.
  intros [_ L C] D. pose proof D as [_ L' C']. apply cap_ok_set; [done|rewrite length_zip_with; lia|].
  apply (Forall_zip_with_fst _ wmep_ok); [done|]. eapply list.Forall_impl; [exact C'|]. intros w [? ? ? ? ?] p [? ? ? ? ?]. by split.
Qed.
Lemma apply_params_ok w : wme_ok w -> wme_ok (apply_params w).
Proof. intros [? ? ? ?]. split; try done; by apply load_ok. Qed.

Lemma at_mode_ok {A} (P : A -> Prop) a mode : length a = 7%nat -> Forall P a -> 0 <= mode < 7 -> exists x, at_mode a mode = Ok x /\ P x.
Proof.
  intros L F Hm. unfold at_mode. rewrite (proj2 (Z.ltb_ge mode 0)) by lia.
  destruct (lookup_lt_is_Some_2 a (Z.to_nat mode)) as [x E]; [lia|]. rewrite E. exists x. split; [done|]. by eapply Forall_lookup_1.
Qed.
Lemma at_mode_phy a mode : a ∈ [phyParamForAC_BE; phyParamForAC_BK; phyParamForAC_VI; phyParamForAC_VO; bssPhyParamForAC_BE;
    bssPhyParamForAC_VI; bssPhyParamForAC_VO; phyParam] -> 0 <= mode < 7 -> exists p, at_mode a mode = Ok p /\ phy_ok p.
Proof.
  intros Ha Hm.
  assert (F : Forall (fun a => length a = 7%nat /\ Forall phy_ok a) [phyParamForAC_BE; phyParamForAC_BK; phyParamForAC_VI; phyParamForAC_VO;
    bssPhyParamForAC_BE; bssPhyParamForAC_VI; bssPhyParamForAC_VO; phyParam]) by (apply (bool_decide_unpack _); vm_compute; done).
  rewrite list.Forall_forall in F. destruct (F a Ha). by apply at_mode_ok.
Qed.
Lemma load_phy_ok p w : phy_ok p -> wmep_ok (load_phy p w).
Proof. intros (? & ? & ? & ?). split; cbn; auto. Qed.
Lemma aggr_be_ok b p w : phy_ok p -> wmep_ok w -> wmep_ok (aggr_be b p w).
Proof. intros (? & ? & ? & ?) [? ? ? ? ?]. split; cbn; auto. Qed.
Lemma with_cwmin_ok v w : 0 <= v < 16 -> wmep_ok w -> wmep_ok (with_cwmin v w).
Proof. intros ? [? ? ? ? ?]. by split. Qed.
#[local] Hint Resolve load_phy_ok aggr_be_ok with_cwmin_ok both_be_ok apply_params_ok : core.

Lemma count_ok i : 0 <= i -> Z.land (i + 1) WME_QOSINFO_COUNT = (i + 1) mod 16.
Proof. intros _. apply (Z.land_ones _ 4). done. Qed.

Lemma both_be_info f w : cap_info (wme_bssChanParams (both_be f w)) = cap_info (wme_bssChanParams w).
Proof. done. Qed.

(** One update of an access point. *)
Lemma updateparams_ap n :
  ic_opmode n = IEEE80211_M_HOSTAP -> 0 <= ic_curmode n < 7 -> wme_ok (ic_wme n) ->
  exists n', ieee80211_wme_updateparams_locked n = Ok n' /\ wme_ok (ic_wme n') /\
    cap_info (wme_bssChanParams (ic_wme n')) = (cap_info (wme_bssChanParams (ic_wme n)) + 1) mod 16 /\
    ic_opmode n' = ic_opmode n /\ ic_curmode n' = ic_curmode n /\ ic_caps (n_ic n') = ic_caps (n_ic n).
Proof.
  intros Ho Hm W. unfold ieee80211_wme_updateparams_locked. rewrite Ho. cbn [res_bind Z.eqb Pos.eqb IEEE80211_M_HOSTAP andb negb].
  set (aggr := has_flag _ _). set (nowme := negb (has_flag (ic_flags _) _)). set (burst := has_flag (ic_caps _) _).
  destruct (at_mode_phy phyParam (ic_curmode n)) as (p & -> & Hp); [by rewrite !elem_of_cons; auto 10|done|].
  destruct (at_mode_ok (fun v => 0 <= v < 16) logCwMin (ic_curmode n)) as (v & -> & Hv); [done|apply (bool_decide_unpack _); vm_compute; done|done|]. cbn [res_bind].
  assert (G : forall w, wme_ok w -> cap_info (wme_bssChanParams w) = cap_info (wme_bssChanParams (ic_wme n)) ->
    exists w1, (if (negb aggr || false || nowme) then Ok (both_be (aggr_be burst p) w) else Ok w) = Ok w1 /\ wme_ok w1 /\
      cap_info (wme_bssChanParams w1) = cap_info (wme_bssChanParams (ic_wme n))).
  { intros w Hw Ew. destruct (negb aggr || false || nowme); eexists; (split; [done|]); split; eauto. }
  destruct (G (apply_params (ic_wme n))) as (w1 & -> & W1 & E1); [auto|done|]. clear G. cbn [res_bind].
  assert (exists w2, (if (ic_sta_assoc n <? 2) && negb aggr then Ok (both_be (with_cwmin v) w1) else Ok w1) = Ok w2 /\ wme_ok w2 /\
      cap_info (wme_bssChanParams w2) = cap_info (wme_bssChanParams (ic_wme n))) as (w2 & -> & W2 & E2).
  { destruct (_ && _); eexists; (split; [done|]); split; eauto. }
  cbn [res_bind]. eexists. split; [reflexivity|]. destruct W2 as [? ? ? [I L A]].
  assert (Ei : Z.land (cap_info (wme_bssChanParams w2) + 1) WME_QOSINFO_COUNT = (cap_info (wme_bssChanParams (ic_wme n)) + 1) mod 16)
    by (rewrite E2 in *; apply count_ok; lia).
  split; [|split; [exact Ei|done]]. split; try done. split; [|done|done]. cbn. rewrite Ei. apply Z.mod_pos_bound. lia.
Qed.

(** Nothing else changes. *)
Lemma updateparams_shape n n' : ic_opmode n = IEEE80211_M_HOSTAP -> ieee80211_wme_updateparams_locked n = Ok n' ->
  n' = tell (flag_on (set_wme n (ic_wme n')) IEEE80211_F_WMEUPDATE) NE_wme_update.
Proof.
  intros Ho. unfold ieee80211_wme_updateparams_locked. rewrite Ho. intros (b & _ & (w1 & _ & (w2 & _ & [= <-])%res_bind_Ok)%res_bind_Ok)%res_bind_Ok.
  reflexivity.
Qed.

(** ** The element *)

(** What a station makes of the parameters [p] of its access point. *)
Definition heard_ac (p w : wmeParams) : wmeParams :=
  mkWmep (wmep_acm p) (wmep_aifsn p) (wmep_logcwmin p) (wmep_logcwmax p) (wmep_txopLimit p) (wmep_noackPolicy w).

Lemma byte0_fields i a f : 0 <= i < 4 -> 0 <= a < 2 -> 0 <= f < 16 ->
  MS (ac_byte0 i a f) WME_PARAM_ACM WME_PARAM_ACM_S = a /\ MS (ac_byte0 i a f) WME_PARAM_AIFSN WME_PARAM_AIFSN_S = f.
Proof.
  intros Hi Ha Hf.
  assert (F : Forall (fun i => Forall (fun a => Forall (fun f => MS (ac_byte0 i a f) WME_PARAM_ACM WME_PARAM_ACM_S = a /\
    MS (ac_byte0 i a f) WME_PARAM_AIFSN WME_PARAM_AIFSN_S = f) (seqZ 0 16)) (seqZ 0 2)) (seqZ 0 4))
    by (apply (bool_decide_unpack _); vm_compute; done).
  rewrite list.Forall_forall in F. specialize (F i ltac:(apply elem_of_seqZ; lia)).
  rewrite list.Forall_forall in F. specialize (F a ltac:(apply elem_of_seqZ; lia)).
  rewrite list.Forall_forall in F. exact (F f ltac:(apply elem_of_seqZ; lia)).
Qed.
Lemma byte1_fields x m : 0 <= x < 16 -> 0 <= m < 16 ->
  MS (ac_byte1 x m) WME_PARAM_LOGCWMIN WME_PARAM_LOGCWMIN_S = m /\ MS (ac_byte1 x m) WME_PARAM_LOGCWMAX WME_PARAM_LOGCWMAX_S = x.
Proof.
  intros Hx Hm.
  assert (F : Forall (fun x => Forall (fun m => MS (ac_byte1 x m) WME_PARAM_LOGCWMIN WME_PARAM_LOGCWMIN_S = m /\
    MS (ac_byte1 x m) WME_PARAM_LOGCWMAX WME_PARAM_LOGCWMAX_S = x) (seqZ 0 16)) (seqZ 0 16))
    by (apply (bool_decide_unpack _); vm_compute; done).
  rewrite list.Forall_forall in F. specialize (F x ltac:(apply elem_of_seqZ; lia)).
  rewrite list.Forall_forall in F. exact (F m ltac:(apply elem_of_seqZ; lia)).
Qed.
Lemma short_u8 t : is_u8 t -> u8 (u16 (Z.lor (Z.land t 0xff) (Z.shiftl (u8 (Z.shiftr t 8)) 8))) = t.
Proof.
  intros Ht. rewrite (Z.shiftr_div_pow2 t 8), Z.div_small by (done || apply Ht). rewrite Z.lor_0_r.
  change (u8 (u16 (u8 t)) = t). rewrite (u8_id t Ht), u16_id; [by apply u8_id|]. unfold is_u in *. lia.
Qed.

(** One class, wherever it is in the element. *)
Lemma parse_add i p w frm :
  0 <= Z.of_nat i < 4 -> wmep_ok p -> (forall j, (j < 4)%nat -> rd frm (off_acParams + 4 * i + j) = Ok (nth j (add_acparam i p) 0)) ->
  parse_acparam frm i w = Ok (heard_ac p w).
Proof.
  intros Hi [Ha Hf Hm Hx Ht] H. unfold parse_acparam, LE_READ_2. set (off := (off_acParams + 4 * i)%nat) in *.
  rewrite <- (Nat.add_0_r off) at 1. rewrite (H 0%nat), (H 1%nat), (H 2%nat) by lia.
  replace (off + 2 + 1)%nat with (off + 3)%nat by lia. rewrite (H 3%nat) by lia. cbn [res_bind nth add_acparam app ADDSHORT].
  destruct (byte0_fields (Z.of_nat i) _ _ Hi Ha Hf) as [-> ->]. destruct (byte1_fields _ _ Hx Hm) as [-> ->].
  by rewrite short_u8.
Qed.

(** The whole element. *)
Lemma parse_wme_param ap sta :
  cap_ok (wme_bssChanParams ap) -> length (cap_wmeParams (wme_wmeChanParams sta)) = WME_NUM_AC ->
  let c := wme_bssChanParams ap in
  ieee80211_parse_wmeparams sta (ieee80211_add_wme_param ap) =
  if cap_info c =? cap_info (wme_wmeChanParams sta) then Ok (0, sta)
  else Ok (1, set_wmeChan sta (mkCap (cap_info c) (zip_with heard_ac (cap_wmeParams c) (cap_wmeParams (wme_wmeChanParams sta))))).
Proof.
  intros [I L A] L' c. unfold ieee80211_parse_wmeparams. subst c.
  destruct (cap_wmeParams (wme_bssChanParams ap)) as [|p0 [|p1 [|p2 [|p3 [|]]]]] eqn:Ep; try discriminate L.
  destruct (cap_wmeParams (wme_wmeChanParams sta)) as [|w0 [|w1 [|w2 [|w3 [|]]]]] eqn:Ew; try discriminate L'.
  set (frm := ieee80211_add_wme_param ap). assert (E : frm = ieee80211_add_wme_param ap) by done. clearbody frm.
  unfold ieee80211_add_wme_param in E. rewrite Ep in E. change (imap add_acparam [p0; p1; p2; p3]) with
    [add_acparam 0 p0; add_acparam 1 p1; add_acparam 2 p2; add_acparam 3 p3] in E. rewrite E at 1.
  cbn [concat app]. change (byte_at _ 1 <? sizeof_wme_param - 2) with false. cbv iota.
  assert (R : forall j, (j < 26)%nat -> rd frm j = Ok (byte_at frm j)).
  { intros j Hj. unfold rd. rewrite E at 1. change (Z.to_nat _) with 24%nat. by rewrite (proj2 (Nat.ltb_lt j (2 + 24))) by lia. }
  rewrite R by (unfold off_qosInfo; lia). cbn [res_bind].
  assert (byte_at frm off_qosInfo = cap_info (wme_bssChanParams ap)) as -> by (by rewrite E).
  assert (Z.land (cap_info (wme_bssChanParams ap)) WME_QOSINFO_COUNT = cap_info (wme_bssChanParams ap)) as ->.
  { change WME_QOSINFO_COUNT with (Z.ones 4). rewrite Z.land_ones by done. by apply Z.mod_small. }
  destruct (_ =? _); [done|]. cbn [parse_acparams].
  apply list.Forall_cons in A as [A0 A]. apply list.Forall_cons in A as [A1 A]. apply list.Forall_cons in A as [A2 A]. apply list.Forall_cons in A as [A3 _].
  assert (P : forall i p w, wmep_ok p -> (i < 4)%nat -> sub_list (off_acParams + 4 * i) 4 frm = add_acparam i p -> parse_acparam frm i w = Ok (heard_ac p w)).
  { intros i p w Hp Hi Es. apply parse_add; [lia|done|]. intros j Hj. rewrite R by (unfold off_acParams; lia). f_equal. rewrite <- Es.
    unfold byte_at, sub_list. rewrite !nth_lookup, lookup_take_lt, lookup_drop by lia. done. }
  rewrite (P 0%nat p0 _ A0 ltac:(lia)), (P 1%nat p1 _ A1 ltac:(lia)), (P 2%nat p2 _ A2 ltac:(lia)), (P 3%nat p3 _ A3 ltac:(lia))
    by (by rewrite E).
  done.
Qed.

(** ** The defaults *)

Lemma init_ac_ok n w i : 0 <= ic_curmode n < 7 -> wme_ok w -> exists w', init_ac n w i = Ok w' /\ wme_ok w' /\
  wme_bssChanParams w' = wme_bssChanParams w.
Proof.
  intros Hm [W1 W2 W3 W4]. unfold init_ac. destruct (ac_tables i) as [own bss] eqn:E.
  assert (exists p, at_mode own (ic_curmode n) = Ok p /\ phy_ok p) as (p & -> & Hp).
  { apply at_mode_phy; [|done]. rewrite !elem_of_cons. destruct i as [|[|[|[|i]]]]; injection E as <- <-; auto 10. }
  assert (exists p, at_mode bss (ic_curmode n) = Ok p /\ phy_ok p) as (b & -> & Hb).
  { apply at_mode_phy; [|done]. rewrite !elem_of_cons. destruct i as [|[|[|[|i]]]]; injection E as <- <-; auto 10. }
  cbn [res_bind]. eexists. split; [done|]. split; [|done]. split; try done; apply cap_ok_alter; auto. by destruct (_ =? _); auto.
Qed.
Lemma init_loop_ok n ixs w : 0 <= ic_curmode n < 7 -> wme_ok w -> exists w', init_loop n w ixs = Ok w' /\ wme_ok w' /\
  wme_bssChanParams w' = wme_bssChanParams w.
Proof.
  intros Hm. revert w. induction ixs as [|i ixs IH]; intros w W; [by exists w|]. cbn [init_loop].
  destruct (init_ac_ok n w i Hm W) as (w1 & -> & W1 & E1). cbn [res_bind]. destruct (IH w1 W1) as (w2 & -> & W2 & E2). exists w2. by rewrite E2.
Qed.

(** The defaults are a state the updates can start from. *)
Lemma wme_initparams_ok n :
  ic_opmode n = IEEE80211_M_HOSTAP -> 0 <= ic_curmode n < 7 -> wme_ok (ic_wme n) ->
  (forall b, ic_bss n = Some b -> is_Some (n_nodes n !! b)) ->
  exists n', ieee80211_wme_initparams n = Ok n' /\ wme_ok (ic_wme n').
Proof.
  intros Ho Hm W Hb. unfold ieee80211_wme_initparams. destruct (has_flag _ IEEE80211_C_WME) eqn:Ec; [|by exists n]. cbn [negb].
  destruct (init_loop_ok n (seq 0 WME_NUM_AC) (ic_wme n) Hm W) as (w & -> & W' & _). cbn [res_bind].
  change (ic_bss (set_wme n w)) with (ic_bss n). destruct (ic_bss n) as [b|]; [|by eexists].
  destruct (Hb b eq_refl) as [ni Eb]. unfold node_at. change (n_nodes (set_wme n w)) with (n_nodes n). rewrite Eb. cbn [res_bind].
  unfold ieee80211_wme_updateparams. set (n1 := set_wme _ _). change (ic_caps (n_ic n1)) with (ic_caps (n_ic n)). rewrite Ec.
  destruct (updateparams_ap n1) as (n' & -> & W1 & _); [done|done|by destruct W'|by exists n'].
Qed.

(** ** Updates *)

(** [k] calls in a row. *)
Fixpoint updates (k : nat) (n : net) : res net :=
  match k with O => Ok n | S k => let* n := ieee80211_wme_updateparams n in updates k n end.

Lemma updates_ok k n :
  ic_opmode n = IEEE80211_M_HOSTAP -> has_flag (ic_caps (n_ic n)) IEEE80211_C_WME = true -> 0 <= ic_curmode n < 7 -> wme_ok (ic_wme n) ->
  exists n', updates k n = Ok n' /\ wme_ok (ic_wme n') /\
    cap_info (wme_bssChanParams (ic_wme n')) = (cap_info (wme_bssChanParams (ic_wme n)) + Z.of_nat k) mod 16.
Proof.
  revert n. induction k as [|k IH]; intros n Ho Hc Hm W.
  - exists n. split; [done|]. split; [done|]. rewrite Z.add_0_r, Z.mod_small; [done|]. apply W.
  - cbn [updates]. unfold ieee80211_wme_updateparams at 1. rewrite Hc.
    destruct (updateparams_ap n Ho Hm W) as (n1 & -> & W1 & I1 & O1 & M1 & C1). cbn [res_bind].
    destruct (IH n1) as (n2 & -> & W2 & I2); [congruence|by rewrite C1|by rewrite M1|done|]. exists n2. split; [done|]. split; [done|].
    rewrite I2, I1, Z.add_mod_idemp_l by done. f_equal. lia.
Qed.

(** C28. A station whose WME parameters are those of its access point
    misses any number of updates and then gets the element of a beacon: unless
    that number is a multiple of 16, when it cannot tell, it takes over all
    four classes exactly as the access point announces them, and has the
    count of the access point again. *)
Theorem wme_updates_reach_stations k n sta :
  ic_opmode n = IEEE80211_M_HOSTAP -> has_flag (ic_caps (n_ic n)) IEEE80211_C_WME = true -> 0 <= ic_curmode n < 7 -> wme_ok (ic_wme n) ->
  length (cap_wmeParams (wme_wmeChanParams sta)) = WME_NUM_AC ->
  cap_info (wme_wmeChanParams sta) = cap_info (wme_bssChanParams (ic_wme n)) ->
  exists n' sta', updates k n = Ok n' /\ wme_ok (ic_wme n') /\
    ieee80211_parse_wmeparams sta (ieee80211_add_wme_param (ic_wme n')) = Ok (if Z.of_nat k mod 16 =? 0 then 0 else 1, sta') /\
    let ap := wme_bssChanParams (ic_wme n') in let own := wme_wmeChanParams sta' in
    cap_info own = cap_info ap /\
    (Z.of_nat k mod 16 = 0 -> sta' = sta) /\
    (Z.of_nat k mod 16 <> 0 ->
       cap_wmeParams own = zip_with heard_ac (cap_wmeParams ap) (cap_wmeParams (wme_wmeChanParams sta))).
Proof.
  intros Ho Hc Hm W L Es. destruct (updates_ok k n Ho Hc Hm W) as (n' & E & W' & I). exists n'.
  pose proof (parse_wme_param (ic_wme n') sta (we_bcast _ W') L) as P. cbv zeta in P. rewrite I, Es in P.
  pose proof (co_info _ (we_bcast _ W)) as R. set (c := cap_info (wme_bssChanParams (ic_wme n))) in *. clearbody c.
  pose proof (Z.mod_pos_bound (Z.of_nat k) 16 ltac:(done)) as B.
  assert (M : (c + Z.of_nat k) mod 16 = (c + Z.of_nat k mod 16) mod 16) by (by rewrite Z.add_mod_idemp_r).
  destruct (Z.of_nat k mod 16 =? 0) eqn:Ek.
  - apply Z.eqb_eq in Ek. rewrite Ek, Z.add_0_r, (Z.mod_small c) in M by lia. rewrite M, Z.eqb_refl in P.
    exists sta. split; [done|]. split; [done|]. split; [exact P|]. split; [congruence|]. done.
  - apply Z.eqb_neq in Ek. rewrite (proj2 (Z.eqb_neq _ _)) in P.
    + eexists. split; [done|]. split; [done|]. split; [exact P|]. cbn. done.
    + rewrite M. revert Ek B. clear -R. generalize (Z.of_nat k mod 16). intros r Hr B C.
      pose proof (Z.div_mod (c + r) 16 ltac:(done)) as D'. lia.
Qed.

(** An access point after its defaults were loaded, and a fresh station. *)
Definition wme_ap : net :=
  set_wme (mkNet (mkCom true IEEE80211_F_WME IEEE80211_C_WME (fun _ => 0) [] 0 4 []) (mkKmem [] 0) (mkHeap [] 0) ∅ 0%nat [] None
    (mkTable [] [] 0 0 0 None 0) (mkTable [] [] 0 0 0 None 0) IEEE80211_M_HOSTAP IEEE80211_MODE_11G IEEE80211_PROT_NONE (mkChan 1 2412 0x480)
    (fun _ => []) [] 128 [] [] 0 0 0 0 0 100 100 1 1 1 4 (-1) 0 0 (replicate 6 0xff) 2346 idle_wme no_conf []) idle_wme.
Lemma idle_wme_ok : wme_ok idle_wme.
Proof.
  assert (cap_ok zero_cap); [|by split]. split; [done|done|]. apply Forall_replicate. split; cbn; try lia. split; cbn; lia.
Qed.
Lemma wme_updates_reach_stations_witness :
  exists n' sta', updates 3 wme_ap = Ok n' /\ ieee80211_parse_wmeparams idle_wme (ieee80211_add_wme_param (ic_wme n')) = Ok (1, sta') /\
    cap_info (wme_wmeChanParams sta') = 3 /\ cap_wmeParams (wme_wmeChanParams sta') !! 0%nat = Some (mkWmep 0 2 3 10 0 0).
Proof.
  destruct (wme_updates_reach_stations 3 wme_ap idle_wme) as (n' & sta' & E & _ & P & I & _ & H);
    [done|vm_compute; reflexivity|change (0 <= 3 < 7); lia|exact idle_wme_ok|done|done|].
  exists n', sta'. split; [done|]. split; [exact P|]. rewrite (H ltac:(done)), I. vm_compute in E. injection E as <-. done.
Defined.
