(* ===== verification/NodeProof.v ===== *)
(** * Reference counting of nodes

    [held id] is the number of references that drivers, frames and tables own
    on node [id]; the key-index map and the BSS pointer own one each on what
    they point to.  [nwf] says that every count is the number of its owners,
    that nothing points to a freed node, and that the links of the two tables
    agree with the nodes.  It is preserved by every operation as long as a
    reference is only given back by an owner; in particular no operation then
    touches freed memory. *)

From stdpp Require Import gmap.
From S2P Require Import Prelude Buffers Mbuf Ieee80211 Crypto InfoElem Node NodeTable.

(** ** The invariant *)

Definition rxkey (ni : ieee80211_node) : Z := wk_rxkeyix (ni_ucastkey ni).
Definition keyref (n : net) (id : nat) (ni : ieee80211_node) : Z :=
  if decide (keymap_get n T_sta (rxkey ni) = Some id) then 1 else 0.
Definition bssref (n : net) (id : nat) : Z := if decide (ic_bss n = Some id) then 1 else 0.

(** What a node keeps about itself. *)
Record node_ok (n : net) (ni : ieee80211_node) : Prop := mkNodeOk {
  ok_aid : 0 <= ni_associd ni /\ IEEE80211_AID (ni_associd ni) < ic_max_aid n;
  ok_cipher : wk_cipher (ni_ucastkey ni) <> None;
  ok_rxkey : 0 <= rxkey ni;
  ok_saveq : ni_savedq ni <> [] -> ic_opmode n = IEEE80211_M_HOSTAP \/ ic_opmode n = IEEE80211_M_IBSS;
  ok_rxseqs : length (ni_rxseqs ni) = 17%nat;
}.

(** Links of a table: its list and its buckets hold the nodes that say so, but
    for [gone], which has been unlinked. *)
Definition linked (gone : option nat) (n : net) (t : tab) (id : nat) (P : ieee80211_node -> Prop) : Prop :=
  gone <> Some id /\ exists ni, n_nodes n !! id = Some ni /\ ni_table ni = Some t /\ P ni.
Record table_ok (gone : option nat) (n : net) (t : tab) : Prop := mkTableOk {
  tab_nodup : NoDup (nt_node (table n t));
  tab_in : forall id, id ∈ nt_node (table n t) <-> linked gone n t id (fun _ => True);
  tab_size : length (nt_hash (table n t)) = Z.to_nat IEEE80211_NODE_HASHSIZE;
  tab_hash : forall b l id, nt_hash (table n t) !! b = Some l ->
    id ∈ l <-> linked gone n t id (fun ni => IEEE80211_NODE_HASH (ni_macaddr ni) = b);
}.

(** The key-index map: only the station table has one. *)
Record keys_ok (n : net) : Prop := mkKeysOk {
  key_scan : nt_keyixmap (ic_scan n) = None;
  key_max : nt_keyixmax (ic_sta n) <= IEEE80211_KEYIX_NONE;
  key_len : forall m, nt_keyixmap (ic_sta n) = Some m -> length m = Z.to_nat (nt_keyixmax (ic_sta n));
  key_node : forall k id, 0 <= k -> keymap_get n T_sta k = Some id ->
    exists ni, n_nodes n !! id = Some ni /\ rxkey ni = k;
  key_uniq : forall id1 id2 ni1 ni2, n_nodes n !! id1 = Some ni1 -> n_nodes n !! id2 = Some ni2 ->
    rxkey ni1 = rxkey ni2 -> rxkey ni1 < nt_keyixmax (ic_sta n) -> id1 = id2;
}.

Definition maps_ok (n : net) : Prop :=
  0 < ic_max_aid n <= 0x4000 /\ ic_max_aid n <= 32 * Z.of_nat (length (ic_aid_bitmap n)) /\
  ic_max_aid n <= 8 * Z.of_nat (length (ic_tim_bitmap n)).

(** No link leads to a freed node. *)
Record nlinks_but (gone : option nat) (n : net) : Prop := mkLinks {
  wf_bss : forall b, ic_bss n = Some b -> is_Some (n_nodes n !! b);
  wf_fresh : forall id, is_Some (n_nodes n !! id) -> (id < n_fresh n)%nat;
  wf_tab : forall t, table_ok gone n t;
  wf_keys : keys_ok n;
  wf_node : forall id ni, n_nodes n !! id = Some ni -> node_ok n ni;
  wf_maps : maps_ok n;
}.

Abbreviation nlinks := (nlinks_but None).

(** Every count is the number of owners, and owners have live nodes.  [dying]
    is the node being freed, which has no owner any more. *)
Record counts (dying : option nat) (n : net) (held : nat -> nat) : Prop := mkCounts {
  wf_ref : forall id ni, n_nodes n !! id = Some ni -> dying <> Some id ->
    ni_refcnt ni = Z.of_nat (held id) + keyref n id ni + bssref n id /\ 0 < ni_refcnt ni < 2 ^ 32;
  wf_dying : forall d ni, dying = Some d -> n_nodes n !! d = Some ni ->
    held d = 0%nat /\ keyref n d ni = 0 /\ ic_bss n <> Some d;
  wf_held : forall id, (0 < held id)%nat -> is_Some (n_nodes n !! id);
}.
Definition nwf_but (dying : option nat) (n : net) (held : nat -> nat) : Prop := nlinks n /\ counts dying n held.
Abbreviation nwf := (nwf_but None).

(** ** Access *)

Lemma node_at_Some n id ni : n_nodes n !! id = Some ni -> node_at n id = Ok ni.
Proof. intros H. unfold node_at. by rewrite H. Qed.
Lemma upd_nodes n id f : n_nodes (upd n id f) = alter f id (n_nodes n).
Proof. done. Qed.
Lemma upd_same n id f ni : n_nodes n !! id = Some ni -> n_nodes (upd n id f) !! id = Some (f ni).
Proof. intros H. rewrite upd_nodes, lookup_alter_eq, H. done. Qed.
Lemma upd_other n id f id' : id <> id' -> n_nodes (upd n id f) !! id' = n_nodes n !! id'.
Proof. intros H. by rewrite upd_nodes, lookup_alter_ne. Qed.

(** Configuration that no operation on nodes changes. *)
Definition rx_mask : Z := Z.lor IEEE80211_F_PRIVACY IEEE80211_F_SCAN.
Definition conf (n : net) : Z * Z * Z := (ic_state n, ic_fixed_rate n, Z.land (ic_flags (n_ic n)) rx_mask).
Lemma mask_on a f : Z.land f rx_mask = 0 -> Z.land (Z.lor a f) rx_mask = Z.land a rx_mask.
Proof. intros H. by rewrite Z.land_lor_distr_l, H, Z.lor_0_r. Qed.
Lemma mask_off a f : Z.land f rx_mask = 0 -> Z.land (Z.land a (Z.lnot f)) rx_mask = Z.land a rx_mask.
Proof.
  intros H. rewrite <- Z.land_assoc. f_equal. apply Z.bits_inj'. intros i Hi.
  pose proof (f_equal (fun x => Z.testbit x i) H) as B. cbv beta in B. rewrite Z.bits_0, Z.land_spec in B.
  rewrite Z.land_spec, Z.lnot_spec by done. by destruct (Z.testbit f i), (Z.testbit rx_mask i).
Qed.
(** Flags of slot time, preamble, protection and traffic indication. *)
Ltac same_conf := unfold conf; cbn; repeat first [rewrite mask_on by done|rewrite mask_off by done]; done.
Ltac same_flags := constructor; first [done|same_conf].

(** Everything but the nodes is as before, as far as the invariant can tell. *)
Record same_net (n n' : net) : Prop := mkSame {
  sn_scan : (nt_node (ic_scan n'), nt_hash (ic_scan n'), nt_keyixmap (ic_scan n'), nt_keyixmax (ic_scan n')) =
            (nt_node (ic_scan n), nt_hash (ic_scan n), nt_keyixmap (ic_scan n), nt_keyixmax (ic_scan n));
  sn_sta : (nt_node (ic_sta n'), nt_hash (ic_sta n'), nt_keyixmap (ic_sta n'), nt_keyixmax (ic_sta n')) =
           (nt_node (ic_sta n), nt_hash (ic_sta n), nt_keyixmap (ic_sta n), nt_keyixmax (ic_sta n));
  sn_bss : ic_bss n' = ic_bss n;
  sn_fresh : n_fresh n' = n_fresh n;
  sn_mode : (ic_opmode n', ic_max_aid n') = (ic_opmode n, ic_max_aid n);
  sn_curmode : ic_curmode n' = ic_curmode n;
  sn_conf : conf n' = conf n;
  sn_maps : (length (ic_aid_bitmap n'), length (ic_tim_bitmap n')) = (length (ic_aid_bitmap n), length (ic_tim_bitmap n));
}.
#[global] Instance same_net_refl : Reflexive same_net.
Proof. intros n. by constructor. Qed.
#[global] Instance same_net_trans : Transitive same_net.
Proof. intros a b c [] []. constructor; congruence. Qed.

(** The part of a node that others depend on. *)
Definition core (ni : ieee80211_node) : option tab * list Z * Z := (ni_table ni, ni_macaddr ni, rxkey ni).
Lemma core_inv ni ni' : core ni = core ni' ->
  ni_table ni = ni_table ni' /\ ni_macaddr ni = ni_macaddr ni' /\ rxkey ni = rxkey ni'.
Proof. unfold core. intros [=]. done. Qed.

(** Same nodes, with the same core, each still well formed. *)
Definition same_nodes (n n' : net) : Prop :=
  forall id, match n_nodes n !! id, n_nodes n' !! id with
             | Some ni, Some ni' => core ni' = core ni /\ (node_ok n ni -> node_ok n' ni')
             | None, None => True
             | _, _ => False
             end.

Section SameNet.
Context (n n' : net) (S : same_net n n').

Lemma same_table t : nt_node (table n' t) = nt_node (table n t) /\ nt_hash (table n' t) = nt_hash (table n t) /\
  nt_keyixmap (table n' t) = nt_keyixmap (table n t) /\ nt_keyixmax (table n' t) = nt_keyixmax (table n t).
Proof using S. destruct S as [E1 E2 _ _]. destruct t; cbn; by simplify_eq. Qed.
Lemma same_keymap t k : keymap_get n' t k = keymap_get n t k.
Proof using S. unfold keymap_get. destruct (same_table t) as (_ & _ & -> & ->). done. Qed.
Lemma same_keyref id ni ni' : rxkey ni' = rxkey ni -> keyref n' id ni' = keyref n id ni.
Proof using S. intros E. unfold keyref. by rewrite same_keymap, E. Qed.
Lemma same_bssref id : bssref n' id = bssref n id.
Proof using S. unfold bssref. by rewrite (sn_bss _ _ S). Qed.
Lemma same_node_ok ni : node_ok n ni -> node_ok n' ni.
Proof using S.
  pose proof (sn_mode _ _ S) as E. injection E as E1 E2. intros []. constructor; rewrite ?E1, ?E2; done.
Qed.
End SameNet.

Section SameNodes.
Context (n n' : net) (S : same_net n n') (N : same_nodes n n').

Lemma same_back id ni' : n_nodes n' !! id = Some ni' ->
  exists ni, n_nodes n !! id = Some ni /\ core ni' = core ni /\ (node_ok n ni -> node_ok n' ni').
Proof using N. intros E. specialize (N id). rewrite E in N. destruct (n_nodes n !! id) as [ni|]; [by exists ni|done]. Qed.
Lemma same_forth id ni : n_nodes n !! id = Some ni -> exists ni', n_nodes n' !! id = Some ni' /\ core ni' = core ni.
Proof using N.
  intros E. specialize (N id). rewrite E in N.
  destruct (n_nodes n' !! id) as [ni'|]; [exists ni'; split; [done|apply N]|done].
Qed.
Lemma same_live id : is_Some (n_nodes n' !! id) <-> is_Some (n_nodes n !! id).
Proof using N.
  split; intros [ni E]; [destruct (same_back _ _ E) as (? & E' & _)|destruct (same_forth _ _ E) as (? & E' & _)]; eauto.
Qed.

(** The links of a state depend on nothing else. *)
Lemma linked_same g t id P :
  (forall ni ni', core ni' = core ni -> P ni' <-> P ni) -> linked g n' t id P <-> linked g n t id P.
Proof using N.
  intros HP. unfold linked. split; intros [Hg (ni & E & ET & EP)]; (split; [done|]).
  - destruct (same_back _ _ E) as (ni0 & E0 & C & _). pose proof (core_inv _ _ C) as (C1 & _ & _).
    exists ni0. split_and!; [done|congruence|by apply (HP _ _ C)].
  - destruct (same_forth _ _ E) as (ni' & E' & C). pose proof (core_inv _ _ C) as (C1 & _ & _).
    exists ni'. split_and!; [done|congruence|by apply (HP _ _ C)].
Qed.
Lemma nlinks_same g : nlinks_but g n -> nlinks_but g n'.
Proof using S N.
  intros [Wb Wf Wt Wk Wn Wm]. split.
  - intros b. rewrite (sn_bss _ _ S), same_live. apply Wb.
  - intros id. rewrite (sn_fresh _ _ S), same_live. apply Wf.
  - intros t. destruct (same_table _ _ S t) as (T1 & T2 & _ & _). destruct (Wt t) as [Q1 Q2 Q3 Q4].
    split; rewrite ?T1, ?T2; [done| |done|].
    + intros id. rewrite Q2, linked_same; done.
    + intros b l id Eb. rewrite (Q4 _ _ _ Eb), linked_same; [done|].
      intros ni ni' (_ & C & _)%core_inv. by rewrite C.
  - destruct (same_table _ _ S T_sta) as (_ & _ & K1 & K2). destruct (same_table _ _ S T_scan) as (_ & _ & K3 & _).
    cbn in K1, K2, K3. destruct Wk as [Q1 Q0 Q2 Q3 Q4]. split; rewrite ?K1, ?K2, ?K3; [done|done|done| |].
    + intros k id Hk H. rewrite (same_keymap _ _ S) in H. destruct (Q3 k id Hk H) as (ni & E & EK).
      destruct (same_forth _ _ E) as (ni' & E' & (_ & _ & C)%core_inv). exists ni'. split; congruence.
    + intros id1 id2 ni1 ni2 E1 E2 EK EL.
      destruct (same_back _ _ E1) as (n1 & E1' & (_ & _ & C1)%core_inv & _).
      destruct (same_back _ _ E2) as (n2 & E2' & (_ & _ & C2)%core_inv & _).
      apply (Q4 id1 id2 n1 n2); congruence.
  - intros id ni' E. destruct (same_back _ _ E) as (ni & E0 & _ & Hok). eauto.
  - pose proof (sn_mode _ _ S) as E1. pose proof (sn_maps _ _ S) as E2. unfold maps_ok in *.
    injection E1 as _ ->. injection E2 as -> ->. done.
Qed.

Lemma counts_same d held :
  (forall id ni ni', n_nodes n !! id = Some ni -> n_nodes n' !! id = Some ni' -> ni_refcnt ni' = ni_refcnt ni) ->
  counts d n held -> counts d n' held.
Proof using S N.
  intros R [Wr Wd Wh]. split.
  - intros id ni' E Hd. destruct (same_back _ _ E) as (ni & E0 & (? & ? & K)%core_inv & _).
    rewrite (R _ _ _ E0 E), (same_keyref _ _ S _ _ _ K), (same_bssref _ _ S). eauto.
  - intros id ni' E E'. destruct (same_back _ _ E') as (ni & E0 & (? & ? & K)%core_inv & _).
    rewrite (same_keyref _ _ S _ _ _ K), (sn_bss _ _ S). eauto.
  - intros id. rewrite same_live. apply Wh.
Qed.

(** One count changed, with its owners; or its node is given up. *)
Lemma counts_change d id ni held held' :
  n_nodes n !! id = Some ni ->
  (forall j, j <> id -> held' j = held j) ->
  (forall j ni0 ni', j <> id -> n_nodes n !! j = Some ni0 -> n_nodes n' !! j = Some ni' -> ni_refcnt ni' = ni_refcnt ni0) ->
  (forall ni', n_nodes n' !! id = Some ni' ->
     d = None /\ ni_refcnt ni' = Z.of_nat (held' id) + keyref n id ni + bssref n id /\ 0 < ni_refcnt ni' < 2 ^ 32 \/
     d = Some id /\ held' id = 0%nat /\ keyref n id ni = 0 /\ ic_bss n <> Some id) ->
  counts None n held -> counts d n' held'.
Proof using S N.
  intros E Hh Hr Hd [Wr _ Wh]. split.
  - intros j ni' E' Hj. destruct (same_back _ _ E') as (ni0 & E0 & (_ & _ & K)%core_inv & _).
    rewrite (same_keyref _ _ S _ _ _ K), (same_bssref _ _ S). destruct (decide (j = id)) as [->|Hne].
    + simplify_eq. destruct (Hd _ E') as [(-> & ? & ?)|(-> & _)]; [done|congruence].
    + rewrite (Hr _ _ _ Hne E0 E'), Hh by done. by apply Wr.
  - intros j ni' -> E'. destruct (same_back _ _ E') as (ni0 & E0 & (_ & _ & K)%core_inv & _).
    rewrite (same_keyref _ _ S _ _ _ K), (sn_bss _ _ S).
    destruct (same_forth _ _ E) as (ni1 & E1 & _). destruct (Hd _ E1) as [(? & _)|([= ->] & ? & ? & ?)]; [done|].
    simplify_eq. done.
  - intros j H. rewrite same_live. destruct (decide (j = id)) as [->|Hne]; [eauto|]. apply Wh. by rewrite <- Hh.
Qed.
End SameNodes.

(** ** Steps that the invariant does not see *)

Record quiet (n n' : net) : Prop := mkQuiet {
  q_net : same_net n n';
  q_nodes : same_nodes n n';
  q_refs : forall id ni ni', n_nodes n !! id = Some ni -> n_nodes n' !! id = Some ni' -> ni_refcnt ni' = ni_refcnt ni;
}.
#[global] Instance quiet_refl : Reflexive quiet.
Proof.
  intros n. split; [done|intros id; by destruct (n_nodes n !! id)|intros id ni ni' E E'; congruence].
Qed.
#[global] Instance quiet_trans : Transitive quiet.
Proof.
  intros a b c [S1 N1 R1] [S2 N2 R2]. split; [by trans b| |].
  - intros id. specialize (N1 id). specialize (N2 id).
    destruct (n_nodes a !! id), (n_nodes b !! id), (n_nodes c !! id); try done.
    destruct N1 as [C1 K1], N2 as [C2 K2]. split; [congruence|auto].
  - intros id ni ni' E E'. destruct (same_forth _ _ N1 _ _ E) as (nb & Eb & _).
    rewrite (R2 _ _ _ Eb E'). by apply (R1 _ _ _ E Eb).
Qed.
Lemma nwf_quiet d n n' held : quiet n n' -> nwf_but d n held -> nwf_but d n' held.
Proof. intros [S N R] [L C]. split; [by apply (nlinks_same n)|by apply (counts_same n)]. Qed.

Lemma quiet_net n n' : n_nodes n' = n_nodes n -> same_net n n' -> quiet n n'.
Proof.
  intros E S. split; [done| |intros id ni ni' E1 E2; congruence].
  intros id. rewrite E. destruct (n_nodes n !! id); [|done]. split; [done|apply (same_node_ok _ _ S)].
Qed.
Lemma upd_same_net n id f : same_net n (upd n id f).
Proof. by constructor. Qed.
Lemma upd_same_nodes n id ni f :
  n_nodes n !! id = Some ni -> core (f ni) = core ni -> (node_ok n ni -> node_ok n (f ni)) -> same_nodes n (upd n id f).
Proof.
  intros E C K j. destruct (decide (id = j)) as [<-|Hne].
  - rewrite (upd_same _ _ _ _ E), E. split; [done|]. intros H. apply (same_node_ok n); [apply upd_same_net|auto].
  - rewrite (upd_other _ _ _ _ Hne). destruct (n_nodes n !! j); [|done].
    split; [done|apply (same_node_ok n), upd_same_net].
Qed.
Lemma quiet_upd n id ni f :
  n_nodes n !! id = Some ni -> core (f ni) = core ni -> ni_refcnt (f ni) = ni_refcnt ni ->
  (node_ok n ni -> node_ok n (f ni)) -> quiet n (upd n id f).
Proof.
  intros E C R K. split; [apply upd_same_net|by apply (upd_same_nodes _ _ ni)|].
  intros j nj nj' Ej Ej'. destruct (decide (id = j)) as [<-|Hne].
  - rewrite (upd_same _ _ _ _ E) in Ej'. congruence.
  - rewrite (upd_other _ _ _ _ Hne) in Ej'. congruence.
Qed.

(** What an operation on one node leaves alone. *)
Record touch (id : nat) (n n' : net) : Prop := mkTouch {
  t_others : forall j, j <> id -> n_nodes n' !! j = n_nodes n !! j;
  t_lists : forall t, filter (.≠ id) (nt_node (table n' t)) = filter (.≠ id) (nt_node (table n t));
  t_bss : ic_bss n' = ic_bss n;
  t_mode : (ic_opmode n', ic_max_aid n', n_fresh n') = (ic_opmode n, ic_max_aid n, n_fresh n);
  t_curmode : ic_curmode n' = ic_curmode n;
  t_keymax : nt_keyixmax (ic_sta n') = nt_keyixmax (ic_sta n);
  t_conf : conf n' = conf n;
}.
#[global] Instance touch_refl id : Reflexive (touch id).
Proof. intros n. by constructor. Qed.
#[global] Instance touch_trans id : Transitive (touch id).
Proof.
  intros a b c [O1 L1 B1 M1 C1 K1 F1] [O2 L2 B2 M2 C2 K2 F2].
  split; [intros j H; rewrite O2, O1; done|intros t; rewrite L2, L1; done|congruence..].
Qed.
Lemma touch_net id n n' : n_nodes n' = n_nodes n -> same_net n n' -> touch id n n'.
Proof.
  intros E S. pose proof (sn_mode _ _ S) as M. split; [intros; by rewrite E| |apply S| |apply S|apply (same_table _ _ S T_sta)|apply S].
  - intros t. by destruct (same_table _ _ S t) as (-> & _).
  - rewrite (sn_fresh _ _ S). congruence.
Qed.
Lemma touch_upd id n f : touch id n (upd n id f).
Proof. split; [intros j H; by apply upd_other|done..]. Qed.

(** ** References *)

Definition hinc (held : nat -> nat) (id : nat) : nat -> nat := fun j => if decide (j = id) then S (held j) else held j.
Definition hdec (held : nat -> nat) (id : nat) : nat -> nat := fun j => if decide (j = id) then pred (held j) else held j.
(** Room for more references on a 32-bit count. *)
Definition few (held : nat -> nat) : Prop := forall id, Z.of_nat (held id) + 4 < 2 ^ 32.

Lemma few_at held id : few held -> Z.of_nat (held id) + 3 < 2 ^ 32.
Proof. intros H. specialize (H id). lia. Qed.
Lemma hinc_same held id : hinc held id id = S (held id).
Proof. unfold hinc. by rewrite decide_True. Qed.
Lemma hdec_same held id : hdec held id id = pred (held id).
Proof. unfold hdec. by rewrite decide_True. Qed.
Lemma few_hinc held id j : few held -> Z.of_nat (hinc held id j) + 3 < 2 ^ 32.
Proof. intros H. unfold hinc. specialize (H j). case_decide; lia. Qed.
Lemma hinc_other held id j : j <> id -> hinc held id j = held j.
Proof. intros H. unfold hinc. by rewrite decide_False. Qed.
Lemma hdec_other held id j : j <> id -> hdec held id j = held j.
Proof. intros H. unfold hdec. by rewrite decide_False. Qed.
Lemma hdec_hinc held id j : hdec (hinc held id) id j = held j.
Proof. unfold hdec, hinc. case_decide; [subst; done|done]. Qed.

Lemma counts_ext d n held held' : (forall id, held' id = held id) -> counts d n held -> counts d n held'.
Proof. intros H [Wr Wd Wh]. split; intros *; rewrite ?H; eauto. Qed.
Lemma nwf_ext d n held held' : (forall id, held' id = held id) -> nwf_but d n held -> nwf_but d n held'.
Proof. intros H [L C]. split; [done|]. by apply (counts_ext d n held). Qed.

Lemma keyref_range n id ni : 0 <= keyref n id ni <= 1.
Proof. unfold keyref. case_decide; lia. Qed.
Lemma bssref_range n id : 0 <= bssref n id <= 1.
Proof. unfold bssref. case_decide; lia. Qed.

(** Setting the count of a node, its other fields kept. *)
Lemma nwf_recount d n held held' id ni c :
  nwf n held -> n_nodes n !! id = Some ni -> (forall j, j <> id -> held' j = held j) ->
  d = None /\ c = Z.of_nat (held' id) + keyref n id ni + bssref n id /\ 0 < c < 2 ^ 32 \/
  d = Some id /\ held' id = 0%nat /\ keyref n id ni = 0 /\ ic_bss n <> Some id ->
  nwf_but d (upd n id (fun _ => set_refcnt ni c)) held'.
Proof.
  intros [L C] E Hh Hc.
  pose proof (upd_same_net n id (fun _ => set_refcnt ni c)) as S.
  assert (same_nodes n (upd n id (fun _ => set_refcnt ni c))) as N.
  { apply (upd_same_nodes _ _ ni); [done|done|]. intros [A1 A2 A3 A4 A5]. by constructor. }
  split; [by apply (nlinks_same n)|]. apply (counts_change n _ S N d id ni held); [done|done| |  |done].
  - intros j ni0 ni' Hj E0 E'. rewrite upd_other in E' by congruence. congruence.
  - intros ni' E'. rewrite (upd_same _ _ _ _ E) in E'. injection E' as <-. exact Hc.
Qed.

Lemma upd_const n id ni f : n_nodes n !! id = Some ni -> upd n id f = upd n id (fun _ => f ni).
Proof.
  intros E. unfold upd. f_equal. apply map_eq. intros j. destruct (decide (id = j)) as [<-|Hne].
  - by rewrite !lookup_alter_eq, E.
  - by rewrite !lookup_alter_ne.
Qed.

Lemma ref_node_ok n held id :
  nwf n held -> Z.of_nat (held id) + 3 < 2 ^ 32 -> is_Some (n_nodes n !! id) ->
  exists n', ieee80211_ref_node n id = Ok n' /\ nwf n' (hinc held id) /\ touch id n n'.
Proof.
  intros W Hf [ni E]. unfold ieee80211_ref_node. rewrite (node_at_Some _ _ _ E). cbn [res_bind].
  eexists. split; [done|]. split; [|apply touch_upd].
  rewrite (upd_const _ _ _ _ E). unfold ieee80211_node_incref.
  destruct W as [L C]. destruct (wf_ref _ _ _ C _ _ E) as [R B]; [done|].
  pose proof (keyref_range n id ni). pose proof (bssref_range n id).
  rewrite u32_id by (unfold is_u; lia).
  apply (nwf_recount None n held); [by split|done|intros; by apply hinc_other|left].
  rewrite hinc_same. split_and!; [done|lia|lia|lia].
Qed.

(** ** Unlinking and freeing *)

Lemma counts_net d n n' held :
  n_nodes n' = n_nodes n -> (forall k, keymap_get n' T_sta k = keymap_get n T_sta k) -> ic_bss n' = ic_bss n ->
  counts d n held -> counts d n' held.
Proof.
  intros E K B [Wr Wd Wh]. split; rewrite ?E; unfold keyref, bssref in *; rewrite ?B; [intros id ni; rewrite K; eauto| |done].
  intros id ni. rewrite K. eauto.
Qed.

Lemma table_put n t nt t' : table (put_table n t nt) t' = if decide (t' = t) then nt else table n t'.
Proof. by destruct t, t'. Qed.
Lemma put_table_nodes n t nt : n_nodes (put_table n t nt) = n_nodes n.
Proof. by destruct t. Qed.

Lemma keymap_table n n' t k :
  nt_keyixmap (table n' t) = nt_keyixmap (table n t) -> nt_keyixmax (table n' t) = nt_keyixmax (table n t) ->
  keymap_get n' t k = keymap_get n t k.
Proof. intros E1 E2. unfold keymap_get. by rewrite E1, E2. Qed.

(** A new list and new buckets for a table; the rest is kept. *)
Lemma relink_keep n t l h :
  let n' := put_table n t (set_nt_hash (set_nt_node (table n t) l) h) in
  n_nodes n' = n_nodes n /\ ic_bss n' = ic_bss n /\ n_fresh n' = n_fresh n /\
  (forall t' k, keymap_get n' t' k = keymap_get n t' k) /\
  (nt_keyixmap (ic_scan n') = nt_keyixmap (ic_scan n) /\ nt_keyixmap (ic_sta n') = nt_keyixmap (ic_sta n) /\
   nt_keyixmax (ic_sta n') = nt_keyixmax (ic_sta n)) /\
  (maps_ok n' <-> maps_ok n) /\ (forall ni, node_ok n' ni <-> node_ok n ni) /\
  (ic_opmode n', ic_max_aid n') = (ic_opmode n, ic_max_aid n).
Proof.
  cbn zeta. split_and!; destruct t; try done; try (by intros [|]).
  all: intros ni; split; intros []; by constructor.
Qed.

Lemma keys_ok_keep n n' :
  n_nodes n' = n_nodes n -> (forall k, keymap_get n' T_sta k = keymap_get n T_sta k) ->
  nt_keyixmap (ic_scan n') = nt_keyixmap (ic_scan n) -> nt_keyixmap (ic_sta n') = nt_keyixmap (ic_sta n) ->
  nt_keyixmax (ic_sta n') = nt_keyixmax (ic_sta n) -> keys_ok n -> keys_ok n'.
Proof.
  intros E K E1 E2 E3 [Q1 Q0 Q2 Q3 Q4]. split; rewrite ?E, ?E1, ?E2, ?E3; [done..| |done].
  intros k id Hk. rewrite K. apply (Q3 k id Hk).
Qed.

Lemma unlink_ok n held d id ni t :
  nlinks n -> counts d n held -> n_nodes n !! id = Some ni -> ni_table ni = Some t ->
  exists n', node_unlink n t id = Ok n' /\ nlinks_but (Some id) n' /\ counts d n' held /\
             n_nodes n' = n_nodes n /\ touch id n n'.
Proof.
  intros L C E ET. unfold node_unlink.
  assert (id ∈ nt_node (table n t)) as Hin by (apply (tab_in _ _ _ (wf_tab _ _ L t)); by split; [|exists ni]).
  rewrite bool_decide_eq_true_2 by done. eexists. split; [done|].
  destruct (relink_keep n t (filter (.≠ id) (nt_node (table n t))) (map (filter (.≠ id)) (nt_hash (table n t))))
    as (En & Eb & Ef & Ek & (K1 & K2 & K3) & Em & Eo & Emd).
  split_and!; [|by apply (counts_net _ n)|done|].
  - destruct L as [Wb Wf Wt Wk Wn Wm]. split; rewrite ?Eb, ?En, ?Ef; [done|done| |by apply (keys_ok_keep n)| |tauto].
    + intros t'. specialize (Wt t'). destruct Wt as [Q1 Q2 Q3 Q4].
      split; rewrite table_put; case_decide as Ht; subst; try done.
      * by apply list.NoDup_filter.
      * intros j. cbn. rewrite list_elem_of_filter, Q2. unfold linked. rewrite En. naive_solver.
      * intros j. rewrite Q2. unfold linked. rewrite En. split; [|naive_solver].
        intros [_ (nj & Ej & ETj & _)]. split; [congruence|by exists nj].
      * cbn. by rewrite length_map.
      * cbn. intros b l j. rewrite list_lookup_fmap. intros (l0 & El0 & ->)%fmap_Some.
        rewrite list_elem_of_filter, (Q4 _ _ _ El0). unfold linked. rewrite En. naive_solver.
      * intros b l j Eb'. rewrite (Q4 _ _ _ Eb'). unfold linked. rewrite En. split; [|naive_solver].
        intros [_ (nj & Ej & ETj & EP)]. split; [congruence|by exists nj].
    + intros j nj Ej. apply Eo. eauto.
  - split; [by intros; rewrite En| |done|congruence|by destruct t|by destruct t|by destruct t].
    intros t'. rewrite table_put. case_decide as Ht; [subst t'|done]. cbn.
    rewrite list_filter_filter. apply list_filter_iff. tauto.
Qed.

(** The tables forget an unlinked node once it is marked or freed. *)
Lemma unlinked_marked n id ni :
  nlinks_but (Some id) n -> n_nodes n !! id = Some ni -> nlinks (upd n id (fun ni => set_table ni None)).
Proof.
  intros [Wb Wf Wt Wk Wn Wm] E.
  assert (forall t j P, linked None (upd n id (fun ni => set_table ni None)) t j P <-> linked (Some id) n t j P) as HL.
  { intros t j P. unfold linked. destruct (decide (id = j)) as [<-|Hne].
    - rewrite (upd_same _ _ _ _ E). split; [|naive_solver]. intros (_ & nj & Ej & ETj & _). by simplify_eq.
    - rewrite upd_other by done. naive_solver. }
  split; [| | | | |done].
  - intros b Hb. destruct (Wb b Hb) as [nb Eb]. rewrite upd_nodes. destruct (decide (id = b)) as [<-|?].
    + rewrite lookup_alter_eq, E. by eexists.
    + rewrite lookup_alter_ne by done. by eexists.
  - intros j. rewrite upd_nodes. intros Hj. apply Wf. destruct (decide (id = j)) as [<-|?]; [by eexists|by rewrite lookup_alter_ne in Hj].
  - intros t. destruct (Wt t) as [Q1 Q2 Q3 Q4]. split; [done| |done|].
    + intros j. rewrite HL. apply Q2.
    + intros b l j Eb. rewrite HL. by apply Q4.
  - destruct Wk as [Q1 Q0 Q2 Q3 Q4].
    assert (forall j nj, n_nodes (upd n id (fun ni => set_table ni None)) !! j = Some nj ->
              exists nj0, n_nodes n !! j = Some nj0 /\ rxkey nj0 = rxkey nj) as B.
    { intros j nj. rewrite upd_nodes. destruct (decide (id = j)) as [<-|?].
      - rewrite lookup_alter_eq, E. intros [= <-]. by exists ni.
      - rewrite lookup_alter_ne by done. by exists nj. }
    split; [done..| |].
    + intros k j Hk H. destruct (Q3 k j Hk H) as (nj & Ej & EK). destruct (decide (id = j)) as [<-|Hne].
      * rewrite (upd_same _ _ _ _ E). eexists. split; [done|]. by simplify_eq.
      * rewrite upd_other by done. by exists nj.
    + intros j1 j2 n1 n2 E1 E2 EK EL. destruct (B _ _ E1) as (m1 & F1 & G1). destruct (B _ _ E2) as (m2 & F2 & G2).
      apply (Q4 j1 j2 m1 m2); [done|done|congruence|by rewrite G1].
  - intros j nj Ej. assert (exists nj0, n_nodes n !! j = Some nj0 /\ (nj = nj0 \/ nj = set_table nj0 None)) as (nj0 & F & H).
    { revert Ej. rewrite upd_nodes. destruct (decide (id = j)) as [<-|?].
      - rewrite lookup_alter_eq, E. intros [= <-]. exists ni. tauto.
      - rewrite lookup_alter_ne by done. exists nj. tauto. }
    destruct (Wn _ _ F). destruct H as [->| ->]; by constructor.
Qed.
Lemma unlinked_of_none n id ni :
  nlinks n -> n_nodes n !! id = Some ni -> ni_table ni = None -> nlinks_but (Some id) n.
Proof.
  intros [Wb Wf Wt Wk Wn Wm] E ET. split; [done|done| |done|done|done].
  assert (forall t j P, linked None n t j P <-> linked (Some id) n t j P) as HL.
  { intros t j P. unfold linked. split; [|naive_solver]. intros (_ & nj & Ej & ETj & HP).
    split; [congruence|by exists nj]. }
  intros t. destruct (Wt t) as [Q1 Q2 Q3 Q4]. split; [done| |done|].
  - intros j. rewrite <- HL. apply Q2.
  - intros b l j Eb. rewrite <- HL. by apply Q4.
Qed.

Lemma delete_ok n id held :
  nlinks_but (Some id) n -> counts (Some id) n held -> is_Some (n_nodes n !! id) ->
  nwf (set_nodes n (delete id (n_nodes n))) held.
Proof.
  intros L C [ni E]. destruct (wf_dying _ _ _ C id ni eq_refl E) as (Hh & Hk & Hb).
  destruct L as [Wb Wf Wt Wk Wn Wm], C as [Wr _ Wh].
  assert (forall t j P, linked None (set_nodes n (delete id (n_nodes n))) t j P <-> linked (Some id) n t j P) as HL.
  { intros t j P. unfold linked. cbn. destruct (decide (id = j)) as [<-|Hne].
    - rewrite lookup_delete_eq. naive_solver.
    - rewrite lookup_delete_ne by done. naive_solver. }
  split.
  - split.
    + intros b Eb. cbn in *. rewrite lookup_delete_ne by congruence. auto.
    + intros j [nj Ej]. cbn in *. apply lookup_delete_Some in Ej as [_ Ej]. eauto.
    + intros t. destruct (Wt t) as [Q1 Q2 Q3 Q4]. split; [by destruct t| |by destruct t|].
      * intros j. rewrite HL, <- Q2. by destruct t.
      * intros b l j Eb. rewrite HL. apply Q4. by destruct t.
    + destruct Wk as [Q1 Q0 Q2 Q3 Q4]. split; [done..| |].
      * intros k j Hk0 H. destruct (Q3 k j Hk0 H) as (nj & Ej & EK). exists nj. cbn. rewrite lookup_delete_ne; [done|].
        intros <-. simplify_eq. unfold keyref in Hk. case_decide as Hd; [done|]. by apply Hd.
      * cbn. intros j1 j2 n1 n2 [_ E1]%lookup_delete_Some [_ E2]%lookup_delete_Some. by apply Q4.
    + cbn. intros j nj [_ Ej]%lookup_delete_Some. destruct (Wn _ _ Ej). by constructor.
    + done.
  - split; [|done|].
    + cbn. intros j nj [Hne Ej]%lookup_delete_Some _. apply Wr; [done|congruence].
    + cbn. intros j Hj. destruct (decide (id = j)) as [<-|Hne]; [lia|]. rewrite lookup_delete_ne by done. by apply Wh.
Qed.

(** ** The key-index map *)

Lemma keymap_put_get n k v k' :
  keys_ok n -> 0 <= k -> 0 <= k' -> is_Some (keymap_get n T_sta k) ->
  keymap_get (keymap_put n T_sta k v) T_sta k' = if decide (k' = k) then v else keymap_get n T_sta k'.
Proof.
  intros K Hk Hk' [x Hx]. unfold keymap_get, keymap_put in *. cbn in *.
  destruct (nt_keyixmap (ic_sta n)) as [m|] eqn:Em; [|done]. cbn.
  destruct (Z.ltb_spec k (nt_keyixmax (ic_sta n))) as [Hlt|]; [|done].
  pose proof (key_len _ K m Em) as Hlen.
  destruct (decide (k' = k)) as [->|Hne].
  - rewrite (proj2 (Z.ltb_lt _ _) Hlt), list_lookup_insert_eq by lia. done.
  - destruct (k' <? nt_keyixmax (ic_sta n)); [|done]. rewrite list_lookup_insert_ne by lia. done.
Qed.
Lemma keymap_put_keep n k v :
  let n' := keymap_put n T_sta k v in
  n_nodes n' = n_nodes n /\ ic_bss n' = ic_bss n /\ n_fresh n' = n_fresh n /\ ic_scan n' = ic_scan n /\
  nt_node (ic_sta n') = nt_node (ic_sta n) /\ nt_hash (ic_sta n') = nt_hash (ic_sta n) /\
  nt_keyixmax (ic_sta n') = nt_keyixmax (ic_sta n) /\
  (maps_ok n' <-> maps_ok n) /\ (forall ni, node_ok n' ni <-> node_ok n ni) /\
  (ic_opmode n', ic_max_aid n') = (ic_opmode n, ic_max_aid n).
Proof.
  unfold keymap_put. cbn. destruct (nt_keyixmap (ic_sta n)); cbn; split_and!; try done.
  all: intros ni; split; intros []; by constructor.
Qed.
(** Clearing an empty entry changes nothing. *)
Lemma keymap_clear_none n k : keymap_get n T_sta k = None -> k < nt_keyixmax (ic_sta n) -> keymap_put n T_sta k None = n.
Proof.
  unfold keymap_get, keymap_put. cbn. destruct (nt_keyixmap (ic_sta n)) as [m|] eqn:Em; [|done].
  intros H Hlt. rewrite (proj2 (Z.ltb_lt _ _) Hlt) in H.
  replace (<[Z.to_nat k:=None]> m) with m.
  - rewrite <- Em. destruct n as [? ? ? ? ? ? ? ? sta]. by destruct sta.
  - symmetry. destruct (m !! Z.to_nat k) as [x|] eqn:E; [|by apply list_insert_ge, lookup_ge_None].
    apply list_insert_id. cbn in H. by subst x.
Qed.

(** The reference of the map passes to whoever clears or fills the entry. *)
Lemma keymap_clear_ok n held k id :
  nwf n held -> 0 <= k -> keymap_get n T_sta k = Some id ->
  nwf (keymap_put n T_sta k None) (hinc held id) /\ touch id n (keymap_put n T_sta k None) /\
  (forall k', 0 <= k' -> keymap_get (keymap_put n T_sta k None) T_sta k' <> Some id).
Proof.
  intros [L C] Hk Hg. destruct (keymap_put_keep n k None) as (En & Eb & Ef & Es & E1 & E2 & E3 & Em & Eo & Emd).
  pose proof (wf_keys _ _ L) as K.
  assert (forall k', 0 <= k' -> keymap_get (keymap_put n T_sta k None) T_sta k' = if decide (k' = k) then None else keymap_get n T_sta k') as G.
  { intros k' Hk'. rewrite keymap_put_get; [done|done|done|done|by eexists]. }
  destruct (key_node _ K k id Hk Hg) as (ni & E & EK).
  assert (forall k', 0 <= k' -> keymap_get (keymap_put n T_sta k None) T_sta k' <> Some id) as Hno.
  { intros k' Hk'. rewrite (G _ Hk'). case_decide as Hd; [done|]. intros H.
    destruct (key_node _ K k' id Hk' H) as (ni' & E' & EK'). congruence. }
  split_and!; [|split; [by intros; rewrite En|intros [|]; cbn; by rewrite ?Es, ?E1|done|congruence|by unfold keymap_put; cbn; destruct (nt_keyixmap (ic_sta n))|done|by unfold keymap_put; cbn; destruct (nt_keyixmap (ic_sta n))]|done].
  destruct L as [Wb Wf Wt Wk Wn Wm], C as [Wr _ Wh]. split; [split|split].
  - intros b. rewrite Eb, En. apply Wb.
  - intros j. rewrite Ef, En. apply Wf.
  - intros t. destruct (Wt t) as [Q1 Q2 Q3 Q4].
    destruct t; split; unfold linked; cbn [table] in *; rewrite ?Es, ?E1, ?E2, ?En; done.
  - destruct Wk as [Q1 Q0 Q2 Q3 Q4]. split; rewrite ?Es, ?E3, ?En; [done|done| | |done].
    + unfold keymap_put. cbn. destruct (nt_keyixmap (ic_sta n)) as [m|] eqn:Emm; cbn; [|by rewrite Emm].
      intros m' [= <-]. rewrite length_insert. by apply Q2.
    + intros k' j Hk'. rewrite (G _ Hk'). case_decide; [done|]. by apply Q3.
  - intros j nj. rewrite En. intros Ej. apply Eo. eauto.
  - tauto.
  - intros j nj. rewrite En. intros Ej _. destruct (Wr _ _ Ej) as [R B]; [done|]. split; [|done].
    pose proof (ok_rxkey _ _ (Wn _ _ Ej)) as Hrk.
    unfold keyref, bssref in *. rewrite Eb, (G _ Hrk). destruct (decide (j = id)) as [->|Hne].
    + rewrite hinc_same. assert (nj = ni) as -> by congruence. subst k. rewrite (decide_True (P := rxkey ni = rxkey ni)) by done.
      rewrite (decide_True (P := keymap_get n T_sta _ = _)) in R by done. rewrite decide_False by done. lia.
    + rewrite hinc_other by done. destruct (decide (rxkey nj = k)) as [HK|]; [|done].
      rewrite (decide_False (P := None = Some j)) by done. rewrite (decide_False (P := keymap_get n T_sta _ = _)) in R; [done|].
      rewrite HK, Hg. congruence.
  - done.
  - intros j. rewrite En. destruct (decide (j = id)) as [->|Hne]; [by eexists|]. rewrite hinc_other by done. apply Wh.
Qed.

(** A node gets another key index: the old one is not in the map, the new one
    is not in use. *)
Lemma rekey_ok d g n held id ni f :
  nlinks_but g n -> counts d n held -> n_nodes n !! id = Some ni ->
  (ni_table (f ni), ni_macaddr (f ni), ni_refcnt (f ni)) = (ni_table ni, ni_macaddr ni, ni_refcnt ni) ->
  node_ok n (f ni) -> keymap_get n T_sta (rxkey ni) <> Some id -> keymap_get n T_sta (rxkey (f ni)) <> Some id ->
  (forall j nj, j <> id -> n_nodes n !! j = Some nj -> rxkey nj = rxkey (f ni) -> nt_keyixmax (ic_sta n) <= rxkey (f ni)) ->
  nlinks_but g (upd n id f) /\ counts d (upd n id f) held.
Proof.
  intros [Wb Wf Wt Wk Wn Wm] [Wr Wd Wh] E [= Et Ea Er] Hok Hk1 Hk2 Hu.
  assert (forall j, is_Some (n_nodes (upd n id f) !! j) <-> is_Some (n_nodes n !! j)) as HS.
  { intros j. rewrite upd_nodes. destruct (decide (id = j)) as [<-|?]; [|by rewrite lookup_alter_ne].
    rewrite lookup_alter_eq, E. split; intros _; by eexists. }
  assert (forall j nj, n_nodes (upd n id f) !! j = Some nj -> j = id /\ nj = f ni \/ j <> id /\ n_nodes n !! j = Some nj) as B.
  { intros j nj. destruct (decide (id = j)) as [<-|?].
    - rewrite (upd_same _ _ _ _ E). intros [= <-]. by left.
    - rewrite upd_other by done. intros ?. by right. }
  split; [split|split].
  - intros b Hb. apply HS. by apply Wb.
  - intros j Hj. apply Wf. by apply HS.
  - assert (forall t j P, (forall x y, ni_macaddr x = ni_macaddr y -> P x <-> P y) ->
      linked g (upd n id f) t j P <-> linked g n t j P) as HL.
    { intros t j P HP. unfold linked. destruct (decide (id = j)) as [<-|?]; [|by rewrite upd_other].
      rewrite (upd_same _ _ _ _ E), E. split; intros (Hg & nj & [= <-] & ET & HQ); (split; [done|]); eexists; (split; [done|]);
        (split; [congruence|]); by apply (HP _ _ Ea). }
    intros t. destruct (Wt t) as [Q1 Q2 Q3 Q4]. split; [done| |done|].
    + intros j. rewrite HL; [apply Q2|done].
    + intros b l j Eb. rewrite HL; [by apply Q4|]. intros x y Exy. by rewrite Exy.
  - destruct Wk as [Q1 Q0 Q2 Q3 Q4]. split; [done..| |].
    + intros k j Hk H. destruct (Q3 k j Hk H) as (nj & Ej & EK). destruct (decide (j = id)) as [->|Hne].
      * exfalso. apply Hk1. assert (nj = ni) as -> by congruence. rewrite EK. exact H.
      * rewrite upd_other by done. by exists nj.
    + intros j1 j2 n1 n2 E1 E2 EK EL.
      destruct (B _ _ E1) as [[-> ->]|[? F1]], (B _ _ E2) as [[-> ->]|[? F2]]; [done| | |by apply (Q4 j1 j2 n1 n2)].
      * pose proof (Hu _ _ ltac:(done) F2 ltac:(congruence)). change (ic_sta (upd n id f)) with (ic_sta n) in EL. lia.
      * pose proof (Hu _ _ ltac:(done) F1 ltac:(congruence)). change (ic_sta (upd n id f)) with (ic_sta n) in EL. lia.
  - intros j nj Ej. destruct (B _ _ Ej) as [[-> ->]|[_ F]]; apply (same_node_ok n); auto using upd_same_net. by apply (Wn j).
  - done.
  - intros j nj Ej Hd. destruct (B _ _ Ej) as [[-> ->]|[_ F]]; [|by apply (Wr j)].
    destruct (Wr _ _ E Hd) as [R ?]. rewrite Er. split; [|done]. rewrite R. unfold keyref.
    rewrite (decide_False (P := keymap_get n T_sta (rxkey ni) = _)) by done.
    by rewrite (decide_False (P := keymap_get (upd n id f) T_sta (rxkey (f ni)) = _)) by done.
  - intros j nj Hd Ej. destruct (B _ _ Ej) as [[-> ->]|[_ F]]; [|by apply (Wd j)].
    destruct (Wd _ _ Hd E) as (? & _ & ?). split_and!; [done| |done].
    unfold keyref. by rewrite (decide_False (P := keymap_get (upd n id f) T_sta (rxkey (f ni)) = _)) by done.
  - intros j Hj. apply HS. by apply Wh.
Qed.

(** ** Cleaning up a node *)

Lemma lookup_live n i : 0 <= i < 8 * Z.of_nat (length (ic_tim_bitmap n)) ->
  exists b, ic_tim_bitmap n !! Z.to_nat (i / 8) = Some b.
Proof.
  intros H. apply lookup_lt_is_Some_2. pose proof (Z.div_lt_upper_bound i 8 (Z.of_nat (length (ic_tim_bitmap n)))).
  pose proof (Z.div_pos i 8). lia.
Qed.
Lemma AID_range b : 0 <= b -> 0 <= IEEE80211_AID b.
Proof. intros H. unfold IEEE80211_AID. apply Z.land_nonneg. by left. Qed.

Lemma set_tim_ok n id ni b :
  n_nodes n !! id = Some ni -> node_ok n ni -> maps_ok n -> ic_opmode n = IEEE80211_M_HOSTAP \/ ic_opmode n = IEEE80211_M_IBSS ->
  exists n', ieee80211_set_tim n id b = Ok n' /\ n_nodes n' = n_nodes n /\ same_net n n'.
Proof.
  intros E [[A1 A2] _ _ _ _] (M1 & _ & M2) Ho. unfold ieee80211_set_tim.
  assert ((ic_opmode n =? IEEE80211_M_HOSTAP) || (ic_opmode n =? IEEE80211_M_IBSS) = true) as -> by
    (apply orb_true_iff; rewrite !Z.eqb_eq; done).
  cbn [negb]. rewrite (node_at_Some _ _ _ E). cbn [res_bind].
  rewrite (proj2 (Z.ltb_lt _ _) A2). cbn [negb]. pose proof (AID_range _ A1).
  destruct (lookup_live n (IEEE80211_AID (ni_associd ni))) as [x Hx]; [lia|]. cbn zeta. rewrite Hx.
  destruct (eqb b _); [eexists; done|]. eexists. split; [done|].
  split; [by destruct b|]. destruct b; constructor; first [same_conf|cbn; rewrite ?length_insert; done].
Qed.

(** A quiet step on one node, which then is [ni]. *)
Definition mild (id : nat) (n n' : net) (ni : ieee80211_node) : Prop :=
  quiet n n' /\ touch id n n' /\ n_nodes n' !! id = Some ni.
Lemma mild_refl id n ni : n_nodes n !! id = Some ni -> mild id n n ni.
Proof. intros E. split_and!; [reflexivity|reflexivity|done]. Qed.
Lemma mild_trans id a b c ni ni' : mild id a b ni -> mild id b c ni' -> mild id a c ni'.
Proof. intros (Q1 & T1 & _) (Q2 & T2 & E). split_and!; [by trans b|by trans b|done]. Qed.
Lemma mild_upd id n ni f :
  n_nodes n !! id = Some ni -> core (f ni) = core ni -> ni_refcnt (f ni) = ni_refcnt ni ->
  (node_ok n ni -> node_ok n (f ni)) -> mild id n (upd n id f) (f ni).
Proof. intros E C R K. split_and!; [by apply (quiet_upd _ _ ni)|apply touch_upd|by apply upd_same]. Qed.
Lemma mild_net id n n' ni : n_nodes n !! id = Some ni -> n_nodes n' = n_nodes n -> same_net n n' -> mild id n n' ni.
Proof. intros E En S. split_and!; [by apply quiet_net|by apply touch_net|by rewrite En]. Qed.
Lemma mild_heap id n h ni : n_nodes n !! id = Some ni -> mild id n (set_heap n h) ni.
Proof. intros E. by apply mild_net. Qed.
(** One more update, or another heap, after a quiet prefix. *)
Lemma mild_then_upd id a n ni f :
  mild id a n ni -> core (f ni) = core ni -> ni_refcnt (f ni) = ni_refcnt ni ->
  (node_ok n ni -> node_ok n (f ni)) -> mild id a (upd n id f) (f ni).
Proof. intros M C R K. eapply mild_trans; [exact M|]. apply mild_upd; [apply M|done..]. Qed.
Lemma mild_then_net id a n n' ni : mild id a n ni -> n_nodes n' = n_nodes n -> same_net n n' -> mild id a n' ni.
Proof. intros M E S. eapply mild_trans; [exact M|]. by apply mild_net; [apply M|..]. Qed.
Lemma mild_ok id n n' ni : mild id n n' ni -> nlinks n -> node_ok n' ni.
Proof. intros ([S N _] & _ & E) L. apply (wf_node _ _ (nlinks_same _ _ S N _ L) id ni E). Qed.

(** Fields that the invariant does not mention can be set freely. *)
Ltac node_ok_fields := let H := fresh in intros H; destruct H; constructor; cbn; auto.

Section Release.
Context (dev : key_ops).

(** Up to the deletion of the key, cleaning up only changes the node itself. *)
Lemma cleanup_quiet free n id ni :
  n_nodes n !! id = Some ni -> node_ok n ni -> maps_ok n ->
  exists n' ni', node_cleanup dev free n id = ieee80211_node_delucastkey dev free n' id /\ mild id n n' ni' /\
    ni_ucastkey ni' = ni_ucastkey ni.
Proof.
  intros E Hok Hm. unfold node_cleanup. rewrite (node_at_Some _ _ _ E). cbn [res_bind]. cbn zeta.
  assert (exists n1 ni1, (if has_flag (ni_flags ni) IEEE80211_NODE_PWR_MGT
      then upd (set_ps_sta n (u16 (ic_ps_sta n - 1))) id (fun ni => set_nflags ni (Z.land (ni_flags ni) (Z.lnot IEEE80211_NODE_PWR_MGT)))
      else n) = n1 /\ mild id n n1 ni1 /\ ni_ucastkey ni1 = ni_ucastkey ni) as (n1 & ni1 & -> & M1 & K1).
  { destruct (has_flag _ _); [|exists n, ni; split_and!; [done|by apply mild_refl|done]].
    eexists _, _. split; [done|]. split; [apply (mild_then_upd _ _ _ ni)|]; [by apply mild_net|done|done|node_ok_fields|done]. }
  set (n2 := upd (set_heap (upd n1 id _) _) id _).
  assert (exists ni2, mild id n n2 ni2 /\ ni_ucastkey ni2 = ni_ucastkey ni /\ ni_savedq ni2 = []) as (ni2 & M2 & K2 & Q2).
  { subst n2. eexists. split_and!; [apply mild_then_upd|..].
    - apply (mild_then_net _ _ (upd n1 id (fun ni => set_nflags ni (Z.land (ni_flags ni) (Z.lnot IEEE80211_NODE_AREF)))));
        [|done|done]. apply mild_then_upd; [exact M1|done|done|node_ok_fields].
    - done.
    - done.
    - node_ok_fields.
    - done.
    - done. }
  assert (exists n3, match ni_savedq ni with [] => Ok n2 | _ :: _ => ieee80211_set_tim n2 id false end = Ok n3 /\
    mild id n n3 ni2) as (n3 & -> & M3).
  { destruct (ni_savedq ni) as [|p q] eqn:Eq; [by exists n2|]. clearbody n2.
    destruct M2 as (Qt & T & E2). pose proof (q_net _ _ Qt) as S. pose proof (sn_mode _ _ S) as Sm. injection Sm as So Sx.
    destruct (set_tim_ok n2 id ni2 false) as (n3 & Es & En & Sn); [done| | | |].
    - pose proof (q_nodes _ _ Qt id) as H. rewrite E, E2 in H. by apply H.
    - pose proof (sn_maps _ _ S) as Sp. injection Sp as P1 P2. unfold maps_ok in *. by rewrite P1, P2, Sx.
    - rewrite So. apply (ok_saveq _ _ Hok). by rewrite Eq.
    - exists n3. split; [done|]. by apply (mild_then_net _ _ n2). }
  cbn [res_bind]. eexists _, _. split; [done|]. split; [apply mild_then_upd|].
  - apply (mild_then_net _ _ (upd n3 id (fun ni => set_challenge (set_associd ni 0) None))).
    + apply mild_then_upd; [exact M3|done|done|]. intros [A1 A2 A3 A4 A5]. constructor; cbn; auto.
      split; [done|]. pose proof (AID_range _ (proj1 A1)). change (IEEE80211_AID 0) with 0. lia.
    + by destruct (ni_rxfrag ni).
    + by destruct (ni_rxfrag ni).
  - done.
  - done.
  - node_ok_fields.
  - cbn. done.
Qed.

Definition deleted_key : ieee80211_key := ieee80211_crypto_resetkey zero_key IEEE80211_KEYIX_NONE.
Lemma delkey_eq km ic k : wk_cipher k <> None ->
  exists ic' km', ieee80211_crypto_delkey dev km ic k = Ok (deleted_key, ic', km') /\ ic_flags ic' = ic_flags ic.
Proof. intros H. unfold ieee80211_crypto_delkey, crypto_delkey. destruct (wk_cipher k); [|done]. eexists _, _. split; [done|]. by repeat case_match. Qed.

(** Replacing the key of a node whose index is not in the map. *)
Lemma rekey_deleted d g n held id ni :
  nlinks_but g n -> counts d n held -> n_nodes n !! id = Some ni -> keymap_get n T_sta (rxkey ni) <> Some id ->
  nlinks_but g (upd n id (fun ni => set_ucastkey ni deleted_key)) /\
  counts d (upd n id (fun ni => set_ucastkey ni deleted_key)) held.
Proof.
  intros L C E Hk. pose proof (wf_keys _ _ L) as K. pose proof (key_max _ K) as Kmax.
  apply (rekey_ok d g n held id ni (fun ni => set_ucastkey ni deleted_key)); try done.
  - destruct (wf_node _ _ L _ _ E) as [A1 A2 A3 A4 A5]. by constructor.
  - change (rxkey (set_ucastkey ni deleted_key)) with IEEE80211_KEYIX_NONE. unfold keymap_get. cbn [table].
    rewrite (proj2 (Z.ltb_ge _ _) Kmax). by destruct (nt_keyixmap (ic_sta n)).
Qed.

(** Nodes, links and counts do not depend on the interface's other state. *)
Lemma same_ic n ic km : ic_flags ic = ic_flags (n_ic n) -> same_net n (set_km (set_ic n ic) km).
Proof. intros H. split; try done. unfold conf. cbn. by rewrite H. Qed.
Lemma quiet_ic n ic km : ic_flags ic = ic_flags (n_ic n) -> quiet n (set_km (set_ic n ic) km).
Proof. intros H. by apply quiet_net; [|apply same_ic]. Qed.
Lemma keymap_put_ic n t k v : n_ic (keymap_put n t k v) = n_ic n.
Proof. unfold keymap_put. destruct (nt_keyixmap (table n t)); [by destruct t|done]. Qed.
Lemma quiet_wf d g n n' held : quiet n n' -> nlinks_but g n -> counts d n held -> nlinks_but g n' /\ counts d n' held.
Proof. intros [S N R] L C. split; [by apply (nlinks_same n)|by apply (counts_same n)]. Qed.

Lemma delucastkey_none free d g n held id ni :
  nlinks_but g n -> counts d n held -> n_nodes n !! id = Some ni -> keymap_get n T_sta (rxkey ni) = None ->
  exists n' ni', ieee80211_node_delucastkey dev free n id = Ok n' /\ nlinks_but g n' /\ counts d n' held /\ touch id n n' /\
    n_nodes n' !! id = Some ni' /\ (ni_table ni', ni_refcnt ni') = (ni_table ni, ni_refcnt ni) /\ rxkey ni' = IEEE80211_KEYIX_NONE.
Proof.
  intros L C E Hk. unfold ieee80211_node_delucastkey. rewrite (node_at_Some _ _ _ E). cbn [res_bind].
  destruct (delkey_eq (n_km n) (n_ic n) (ni_ucastkey ni)) as (ic' & km' & -> & Hfl); [apply (wf_node _ _ L _ _ E)|].
  cbn [res_bind]. cbn zeta. fold (rxkey ni).
  destruct (rekey_deleted d g n held id ni L C E) as [L1 C1]; [by rewrite Hk|].
  set (n0 := upd n id _) in *. destruct (quiet_wf d g n0 _ held (quiet_ic n0 ic' km' Hfl) L1 C1) as [L2 C2].
  set (n1 := set_km (set_ic n0 ic') km') in *.
  assert (keymap_get n1 T_sta (rxkey ni) = None) as -> by exact Hk.
  assert ((if rxkey ni <? nt_keyixmax (ic_sta n1) then keymap_put n1 T_sta (rxkey ni) None else n1) = n1) as ->.
  { destruct (Z.ltb_spec (rxkey ni) (nt_keyixmax (ic_sta n1))); [|done]. by apply keymap_clear_none. }
  eexists _, _. split_and!; [done|done|done| |exact (upd_same n id _ ni E)|done|done].
  trans n0; [apply touch_upd|by apply touch_net; [|apply same_ic]].
Qed.

Lemma delucastkey_some free n held id ni :
  nwf n held -> n_nodes n !! id = Some ni -> keymap_get n T_sta (rxkey ni) = Some id ->
  exists n' ni', ieee80211_node_delucastkey dev free n id = free n' id /\ nwf n' (hinc held id) /\ touch id n n' /\
    n_nodes n' !! id = Some ni' /\ ni_table ni' = ni_table ni /\ keymap_get n' T_sta (rxkey ni') = None.
Proof.
  intros W E Hk. destruct W as [L C]. unfold ieee80211_node_delucastkey. rewrite (node_at_Some _ _ _ E). cbn [res_bind].
  destruct (delkey_eq (n_km n) (n_ic n) (ni_ucastkey ni)) as (ic' & km' & -> & Hfl); [apply (wf_node _ _ L _ _ E)|].
  cbn [res_bind]. cbn zeta. fold (rxkey ni). pose proof (ok_rxkey _ _ (wf_node _ _ L _ _ E)) as H0.
  destruct (keymap_clear_ok n held (rxkey ni) id) as ([L1 C1] & T1 & Hno); [by split|done|done|].
  destruct (keymap_put_keep n (rxkey ni) None) as (En & _ & _ & _ & _ & _ & Ex & _ & _ & _).
  assert (rxkey ni < nt_keyixmax (ic_sta n)) as Hlt.
  { unfold keymap_get in Hk. cbn in Hk. destruct (nt_keyixmap (ic_sta n)); [|done].
    destruct (Z.ltb_spec (rxkey ni) (nt_keyixmax (ic_sta n))); done. }
  set (m := keymap_put n T_sta (rxkey ni) None) in *.
  assert (n_nodes m !! id = Some ni) as Em by by rewrite En.
  destruct (rekey_deleted None None m (hinc held id) id ni L1 C1 Em (Hno _ H0)) as [L2 C2].
  assert (ic_flags ic' = ic_flags (n_ic m)) as Hm by (unfold m; by rewrite keymap_put_ic).
  set (n0 := upd m id _) in *. destruct (quiet_wf None None n0 _ _ (quiet_ic n0 ic' km' Hm) L2 C2) as [L3 C3].
  exists (set_km (set_ic n0 ic') km'), (set_ucastkey ni deleted_key).
  rewrite (proj2 (Z.ltb_lt _ _) Hlt : (_ <? nt_keyixmax (ic_sta (set_km (set_ic (upd n id _) _) _))) = true).
  assert (keymap_put (set_km (set_ic (upd n id (fun ni => set_ucastkey ni deleted_key)) ic') km') T_sta (rxkey ni) None =
          set_km (set_ic n0 ic') km') as ->.
  { unfold n0, m, keymap_put. cbn. by destruct (nt_keyixmap (ic_sta n)). }
  rewrite (Hk : keymap_get (set_km (set_ic (upd n id _) _) _) T_sta _ = _), decide_True by done.
  split; [done|]. split; [done|]. split_and!; [|exact (upd_same m id _ ni Em)|done|].
  - trans m; [done|]. trans n0; [apply touch_upd|by apply touch_net; [|apply same_ic]].
  - pose proof (key_max _ (wf_keys _ _ L3)) as Kmax.
    change (rxkey (set_ucastkey ni deleted_key)) with IEEE80211_KEYIX_NONE. unfold keymap_get. cbn [table].
    rewrite (proj2 (Z.ltb_ge _ _) Kmax). by destruct (nt_keyixmap _).
Qed.

Lemma keymap_lt n k id : keymap_get n T_sta k = Some id -> k < nt_keyixmax (ic_sta n).
Proof.
  unfold keymap_get. cbn. destruct (nt_keyixmap (ic_sta n)); [|done].
  by destruct (Z.ltb_spec k (nt_keyixmax (ic_sta n))).
Qed.
Lemma keymap_scan g n k : nlinks_but g n -> keymap_get n T_scan k = None.
Proof. intros L. unfold keymap_get. cbn. by rewrite (key_scan _ (wf_keys _ _ L)). Qed.
(** The map entry for the key index of a node can only be that node's. *)
Lemma keymap_own g n id ni j :
  nlinks_but g n -> n_nodes n !! id = Some ni -> keymap_get n T_sta (rxkey ni) = Some j -> j = id.
Proof.
  intros L E H. pose proof (ok_rxkey _ _ (wf_node _ _ L _ _ E)) as H0.
  destruct (key_node _ (wf_keys _ _ L) _ _ H0 H) as (nj & Ej & EK).
  apply (key_uniq _ (wf_keys _ _ L) j id nj ni); [done|done|done|]. rewrite EK. by apply (keymap_lt _ _ j).
Qed.
Lemma keymap_none g n id ni :
  nlinks_but g n -> n_nodes n !! id = Some ni -> keyref n id ni = 0 -> keymap_get n T_sta (rxkey ni) = None.
Proof.
  intros L E H. destruct (keymap_get n T_sta (rxkey ni)) as [j|] eqn:Ek; [|done].
  rewrite (keymap_own _ _ _ _ _ L E Ek) in Ek. unfold keyref in H. by rewrite decide_True in H.
Qed.

Lemma aid_clr_ok n b : maps_ok n -> 0 <= b -> IEEE80211_AID b < ic_max_aid n ->
  exists l, IEEE80211_AID_CLR n b = Ok (set_aid_bitmap n l) /\ same_net n (set_aid_bitmap n l).
Proof.
  intros (M1 & M2 & _) H0 Hb. unfold IEEE80211_AID_CLR, aid_word. pose proof (AID_range _ H0).
  destruct (lookup_lt_is_Some_2 (ic_aid_bitmap n) (Z.to_nat (IEEE80211_AID b / 32))) as [w ->].
  { pose proof (Z.div_lt_upper_bound (IEEE80211_AID b) 32 (Z.of_nat (length (ic_aid_bitmap n)))).
    pose proof (Z.div_pos (IEEE80211_AID b) 32). lia. }
  cbn [res_bind]. eexists. split; [done|]. constructor; cbn; rewrite ?length_insert; done.
Qed.

(** Freeing a node that has no owner left. *)
Lemma free_dying free n held d ni :
  nlinks n -> counts (Some d) n held -> n_nodes n !! d = Some ni ->
  exists n', _ieee80211_free_node dev free n d = Ok n' /\ nwf n' held /\ touch d n n' /\ n_nodes n' !! d = None.
Proof.
  intros L C E. unfold _ieee80211_free_node. rewrite (node_at_Some _ _ _ E). cbn [res_bind].
  destruct (aid_clr_ok n (ni_associd ni)) as (l & -> & S1); [apply L|apply (wf_node _ _ L _ _ E)..|].
  cbn [res_bind]. set (n1 := set_aid_bitmap n l) in *. assert (n_nodes n1 = n_nodes n) as E1 by done. clearbody n1.
  pose proof (quiet_net _ _ E1 S1) as Q1. destruct (quiet_wf _ _ _ _ _ Q1 L C) as [L1 C1].
  rewrite <- E1 in E.
  assert (exists n2, match ni_table ni with Some t => node_unlink n1 t d | None => Ok n1 end = Ok n2 /\
    nlinks_but (Some d) n2 /\ counts (Some d) n2 held /\ n_nodes n2 = n_nodes n1 /\ touch d n1 n2)
    as (n2 & -> & L2 & C2 & E2 & T2).
  { destruct (ni_table ni) as [t|] eqn:Et; [by apply (unlink_ok n1 held (Some d) d ni t)|].
    exists n1. split_and!; [done|by apply (unlinked_of_none _ _ ni)|done|done|reflexivity]. }
  cbn [res_bind]. unfold node_free. rewrite <- E2 in E.
  destruct (cleanup_quiet free n2 d ni E) as (n3 & ni3 & -> & M3 & _); [apply (wf_node _ _ L2 _ _ E)|apply L2|].
  destruct M3 as (Q3 & T3 & E3). destruct (quiet_wf _ _ _ _ _ Q3 L2 C2) as [L3 C3].
  destruct (delucastkey_none free (Some d) (Some d) n3 held d ni3) as (n4 & ni4 & -> & L4 & C4 & T4 & E4 & _); [done|done|done| |].
  { apply (keymap_none _ _ _ _ L3 E3). by apply (wf_dying _ _ _ C3 d ni3 eq_refl E3). }
  cbn [res_bind]. eexists. split; [done|]. split; [by apply delete_ok|]. split; [|cbn; by rewrite lookup_delete_eq].
  trans n1; [by apply touch_net|]. trans n2; [done|]. trans n3; [done|]. trans n4; [done|].
  split; [|by intros [|]|done..]. intros j Hj. cbn. by rewrite lookup_delete_ne.
Qed.

(** Giving back a reference. *)
Lemma u32_pred_id c : 0 < c < 2 ^ 32 -> u32 (c - 1) = c - 1.
Proof. intros H. apply u32_id. unfold is_u. lia. Qed.

Lemma dectest_last n held id ni :
  nwf n held -> n_nodes n !! id = Some ni -> ni_refcnt ni = 1 -> (0 < held id)%nat ->
  exists n' ni', ieee80211_node_dectestref n id = Ok (true, n') /\ nlinks n' /\ counts (Some id) n' (hdec held id) /\
    n_nodes n' !! id = Some ni' /\ touch id n n'.
Proof.
  intros W E Hr Hh. unfold ieee80211_node_dectestref. rewrite (node_at_Some _ _ _ E). cbn [res_bind]. cbn zeta.
  unfold ieee80211_node_decref. cbn [ni_refcnt set_refcnt]. rewrite Hr. change (u32 (1 - 1)) with 0. rewrite Z.eqb_refl.
  eexists _, _. split; [done|]. pose proof W as [L C]. destruct (wf_ref _ _ _ C _ _ E) as [R _]; [done|].
  pose proof (keyref_range n id ni). pose proof (bssref_range n id).
  destruct (nwf_recount (Some id) n held (hdec held id) id ni 1) as [L' C']; [done|done|intros; by apply hdec_other|right|].
  { rewrite hdec_same. split_and!; [done|lia|lia|]. intros Hb. unfold bssref in *. rewrite decide_True in R by done. lia. }
  split_and!; [exact L'|exact C'|apply (upd_same _ _ _ _ E)|apply touch_upd].
Qed.
Lemma dectest_more n held id ni :
  nwf n held -> n_nodes n !! id = Some ni -> 1 < ni_refcnt ni -> (0 < held id)%nat ->
  ieee80211_node_dectestref n id = Ok (false, upd n id (fun _ => set_refcnt ni (ni_refcnt ni - 1))) /\
  nwf (upd n id (fun _ => set_refcnt ni (ni_refcnt ni - 1))) (hdec held id).
Proof.
  intros W E Hr Hh. unfold ieee80211_node_dectestref. rewrite (node_at_Some _ _ _ E). cbn [res_bind]. cbn zeta.
  unfold ieee80211_node_decref. cbn [ni_refcnt set_refcnt]. pose proof W as [L C].
  destruct (wf_ref _ _ _ C _ _ E) as [R B]; [done|]. rewrite u32_pred_id by done.
  rewrite (proj2 (Z.eqb_neq _ _)) by lia. split; [done|].
  apply (nwf_recount None n held); [done|done|intros; by apply hdec_other|left].
  rewrite hdec_same. split_and!; [done|lia|lia|lia].
Qed.

(** Dropping the reference of the map when it is the only one. *)
Lemma map_ref_last n held id ni :
  nwf n held -> n_nodes n !! id = Some ni -> ni_refcnt ni = 1 -> keymap_get n T_sta (rxkey ni) = Some id ->
  let n' := upd (keymap_put n T_sta (rxkey ni) None) id ieee80211_node_decref in
  nlinks n' /\ counts (Some id) n' held /\ n_nodes n' !! id = Some (ieee80211_node_decref ni) /\ touch id n n'.
Proof.
  intros W E H1 Hk. cbn zeta. pose proof W as [L C]. pose proof (ok_rxkey _ _ (wf_node _ _ L _ _ E)) as H0.
  destruct (wf_ref _ _ _ C _ _ E) as [R _]; [done|].
  pose proof (bssref_range n id). unfold keyref in R. rewrite decide_True in R by done.
  destruct (keymap_clear_ok n held (rxkey ni) id W H0 Hk) as (W1 & T1 & Hno).
  destruct (keymap_put_keep n (rxkey ni) None) as (En & Eb & _). set (m := keymap_put n T_sta (rxkey ni) None) in *.
  assert (n_nodes m !! id = Some ni) as Em by by rewrite En. rewrite (upd_const _ _ _ _ Em).
  destruct (nwf_recount (Some id) m (hinc held id) held id ni (u32 (ni_refcnt ni - 1))) as [L2 C2].
  - done.
  - done.
  - intros j Hj. by rewrite hinc_other.
  - right. split_and!; [done|lia| |].
    + unfold keyref. by rewrite decide_False by (by apply Hno).
    + rewrite Eb. intros Hb. unfold bssref in R. rewrite decide_True in R by done. lia.
  - split_and!; [exact L2|exact C2|exact (upd_same m id (fun _ => ieee80211_node_decref ni) ni Em)|]. trans m; [done|apply touch_upd].
Qed.

(** [ieee80211_free_node] on a node with an owner. *)
Lemma free_node_ok fuel n held id :
  nwf n held -> (0 < held id)%nat ->
  exists n', free_node_n dev (S fuel) n id = Ok n' /\ nwf n' (hdec held id) /\ touch id n n' /\
    (forall ni', n_nodes n' !! id = Some ni' -> exists ni, n_nodes n !! id = Some ni /\ core ni' = core ni /\ ni_chan ni' = ni_chan ni).
Proof.
  intros W Hh. pose proof W as [L C]. destruct (wf_held _ _ _ C id Hh) as [ni E].
  destruct (wf_ref _ _ _ C _ _ E) as [R B]; [done|]. cbn [free_node_n]. rewrite (node_at_Some _ _ _ E). cbn [res_bind].
  destruct (decide (ni_refcnt ni = 1)) as [H1|H1].
  { destruct (dectest_last n held id ni W E H1 Hh) as (n1 & ni1 & Ed & L1 & C1 & E1 & T1).
    destruct (free_dying (free_node_n dev fuel) n1 (hdec held id) id ni1 L1 C1 E1) as (n2 & Ef & W2 & T2 & Hg).
    exists n2. split_and!; [|exact W2|by trans n1|intros ni'; by rewrite Hg].
    destruct (ni_table ni); rewrite Ed; cbn [res_bind]; exact Ef. }
  destruct (dectest_more n held id ni W E ltac:(lia) Hh) as [Ed W1].
  set (n1 := upd n id _) in *. pose proof (upd_same n id (fun _ => set_refcnt ni (ni_refcnt ni - 1)) ni E : n_nodes n1 !! id = _) as E1.
  assert (exists n', Ok n1 = Ok n' /\ nwf n' (hdec held id) /\ touch id n n' /\
    (forall ni', n_nodes n' !! id = Some ni' -> exists ni, n_nodes n !! id = Some ni /\ core ni' = core ni /\ ni_chan ni' = ni_chan ni)) as Hdone.
  { exists n1. split; [done|]. split; [done|]. split; [apply touch_upd|]. rewrite E1. intros ni' [= <-]. by exists ni. }
  destruct (ni_table ni) as [t|]; rewrite Ed; cbn [res_bind]; [|done].
  rewrite (node_at_Some _ _ _ E1). cbn [res_bind]. fold (rxkey (set_refcnt ni (ni_refcnt ni - 1))).
  change (rxkey (set_refcnt ni (ni_refcnt ni - 1))) with (rxkey ni). cbn [ni_refcnt set_refcnt].
  destruct (Z.eqb_spec (ni_refcnt ni - 1) 1) as [H2|]; [|done]. cbn [andb].
  case_bool_decide as Hk; [|done].
  destruct t; [by rewrite (keymap_scan _ _ _ (proj1 W1)) in Hk|].
  destruct (map_ref_last n1 (hdec held id) id _ W1 E1 ltac:(done) Hk) as (L2 & C2 & E2 & T2).
  destruct (free_dying (free_node_n dev fuel) _ (hdec held id) id _ L2 C2 E2) as (n2 & Ef & W2 & T3 & Hg).
  exists n2. split_and!; [exact Ef|exact W2| |intros ni'; by rewrite Hg].
  trans n1; [apply touch_upd|]. by etrans.
Qed.

Lemma counts_upd d n held id ni f :
  n_nodes n !! id = Some ni -> ni_refcnt (f ni) = ni_refcnt ni -> rxkey (f ni) = rxkey ni ->
  counts d n held -> counts d (upd n id f) held.
Proof.
  intros E Er Ek [Wr Wd Wh].
  assert (forall j nj, n_nodes (upd n id f) !! j = Some nj ->
    exists nj0, n_nodes n !! j = Some nj0 /\ ni_refcnt nj = ni_refcnt nj0 /\ rxkey nj = rxkey nj0) as B.
  { intros j nj. destruct (decide (id = j)) as [<-|?]; [rewrite (upd_same _ _ _ _ E)|rewrite upd_other by done].
    - intros [= <-]. by exists ni.
    - by exists nj. }
  split.
  - intros j nj Ej Hd. destruct (B _ _ Ej) as (nj0 & E0 & -> & K). unfold keyref. rewrite K. by apply Wr.
  - intros j nj Hd Ej. destruct (B _ _ Ej) as (nj0 & E0 & _ & K). unfold keyref. rewrite K. by apply Wd.
  - intros j Hj. destruct (Wh j Hj) as [nj Ej]. destruct (decide (id = j)) as [<-|?]; [rewrite (upd_same _ _ _ _ E)|rewrite upd_other by done]; by eexists.
Qed.

(** A node leaves the key map; the reference goes with it. *)
Lemma reclaim_key n held t id ni :
  nwf n held -> (0 < held id)%nat -> n_nodes n !! id = Some ni ->
  exists m ni1, (if bool_decide (keymap_get n t (rxkey ni) = Some id)
                 then upd (keymap_put n t (rxkey ni) None) id ieee80211_node_decref else n) = m /\
    nwf m held /\ touch id n m /\ n_nodes m !! id = Some ni1 /\ core ni1 = core ni.
Proof.
  intros W Hh E. case_bool_decide as Hk; [|by exists n, ni; split_and!; [|exact W|reflexivity|..]].
  pose proof W as [L C].
  destruct t; [by rewrite (keymap_scan _ _ _ L) in Hk|].
  pose proof (ok_rxkey _ _ (wf_node _ _ L _ _ E)) as H0. destruct (wf_ref _ _ _ C _ _ E) as [R B]; [done|].
  pose proof (bssref_range n id). unfold keyref in R. rewrite decide_True in R by done.
  destruct (keymap_clear_ok n held (rxkey ni) id W H0 Hk) as (W1 & T1 & Hno).
  destruct (keymap_put_keep n (rxkey ni) None) as (En & Eb & _). set (m := keymap_put n T_sta (rxkey ni) None) in *.
  assert (n_nodes m !! id = Some ni) as Em by by rewrite En. rewrite (upd_const _ _ _ _ Em).
  eexists _, _. split; [done|]. split; [|split_and!; [trans m; [done|apply touch_upd]|exact (upd_same m id _ ni Em)|done]].
  apply (nwf_recount None m (hinc held id)); [done|done|intros j Hj; by rewrite hinc_other|left].
  rewrite u32_pred_id by done. unfold keyref, bssref in *. rewrite (decide_False (P := keymap_get m T_sta _ = _)) by (by apply Hno).
  rewrite Eb. split_and!; [done|lia|lia|lia].
Qed.

Lemma node_reclaim_ok n held t id ni :
  nwf n held -> (0 < held id)%nat -> n_nodes n !! id = Some ni -> ni_table ni = Some t ->
  exists n', node_reclaim dev n t id = Ok n' /\ nwf n' (hdec held id) /\ touch id n n' /\
    (forall ni', n_nodes n' !! id = Some ni' -> ni_table ni' = None).
Proof.
  intros W Hh E Et. unfold node_reclaim. rewrite (node_at_Some _ _ _ E). cbn [res_bind]. cbn zeta. fold (rxkey ni).
  destruct (reclaim_key n held t id ni W Hh E) as (m & ni1 & -> & W1 & T1 & E1 & (Et1 & _ & _)%core_inv).
  rewrite Et in Et1. destruct (wf_ref _ _ _ (proj2 W1) _ _ E1) as [R B]; [done|].
  destruct (decide (ni_refcnt ni1 = 1)) as [H1|H1].
  - destruct (dectest_last m held id ni1 W1 E1 H1 Hh) as (n1 & ni2 & -> & L2 & C2 & E2 & T2). cbn [res_bind negb].
    destruct (free_dying (ieee80211_free_node dev) n1 (hdec held id) id ni2 L2 C2 E2) as (n2 & -> & W3 & T3 & Hg).
    exists n2. split; [done|]. split; [exact W3|]. split; [trans m; [done|by trans n1]|]. intros ni'. by rewrite Hg.
  - destruct (dectest_more m held id ni1 W1 E1 ltac:(lia) Hh) as [-> [L2 C2]]. cbn [res_bind negb].
    set (n1 := upd m id _) in *.
    pose proof (upd_same m id (fun _ => set_refcnt ni1 (ni_refcnt ni1 - 1)) ni1 E1 : n_nodes n1 !! id = _) as E2.
    destruct (unlink_ok n1 (hdec held id) None id _ t L2 C2 E2 Et1) as (n2 & -> & L3 & C3 & E3 & T3). cbn [res_bind].
    rewrite <- E3 in E2. eexists. split; [done|]. split; [split|split].
    + by apply (unlinked_marked _ _ _ L3 E2).
    + by apply (counts_upd None n2 _ id _ (fun ni => set_table ni None) E2).
    + trans m; [done|]. trans n1; [apply touch_upd|]. trans n2; [done|apply touch_upd].
    + rewrite (upd_same _ _ _ _ E2). by intros ni' [= <-].
Qed.

(** ** Cleaning up and leaving *)

Lemma cleanup_live n held id ni :
  nwf n held -> (0 < held id)%nat -> n_nodes n !! id = Some ni ->
  exists n' ni', node_cleanup dev (ieee80211_free_node dev) n id = Ok n' /\ nwf n' held /\ touch id n n' /\
    n_nodes n' !! id = Some ni' /\ ni_table ni' = ni_table ni.
Proof.
  intros W Hh E. pose proof W as [L C].
  destruct (cleanup_quiet (ieee80211_free_node dev) n id ni E) as (n1 & ni1 & -> & (Q1 & T1 & E1) & _);
    [apply (wf_node _ _ L _ _ E)|apply L|].
  pose proof (nwf_quiet _ _ _ _ Q1 W) as W1.
  assert (ni_table ni1 = ni_table ni) as Et.
  { pose proof (q_nodes _ _ Q1 id) as N. rewrite E, E1 in N. by destruct N as [(? & _)%core_inv _]. }
  destruct (keymap_get n1 T_sta (rxkey ni1)) as [j|] eqn:Ek.
  - rewrite (keymap_own _ _ _ _ _ (proj1 W1) E1 Ek) in Ek.
    destruct (delucastkey_some (ieee80211_free_node dev) n1 held id ni1 W1 E1 Ek) as (n2 & ni2 & -> & W2 & T2 & E2 & Et2 & _).
    destruct (free_node_ok 2 n2 (hinc held id) id W2) as (n3 & Ef & W3 & T3 & Hc); [rewrite hinc_same; lia|].
    apply (nwf_ext _ _ _ held) in W3; [|intros j'; by rewrite hdec_hinc].
    destruct (wf_held _ _ _ (proj2 W3) id Hh) as [ni3 E3].
    destruct (Hc _ E3) as (ni2' & E2' & (Ec & _)%core_inv & _). assert (ni2' = ni2) as -> by congruence.
    exists n3, ni3. split; [exact Ef|]. split; [exact W3|]. split_and!; [trans n1; [done|by trans n2]|done|congruence].
  - destruct (delucastkey_none (ieee80211_free_node dev) None None n1 held id ni1 (proj1 W1) (proj2 W1) E1 Ek)
      as (n2 & ni2 & -> & L2 & C2 & T2 & E2 & [= Et2 _] & _).
    exists n2, ni2. split; [done|]. split; [by split|]. split_and!; [by trans n1|done|congruence].
Qed.

Lemma sta_leave_ok n held id ni :
  nwf n held -> (0 < held id)%nat -> n_nodes n !! id = Some ni ->
  exists n' ni', ieee80211_sta_leave dev n id = Ok n' /\ nwf n' held /\ touch id n n' /\
    n_nodes n' !! id = Some ni' /\ ni_table ni' = ni_table ni.
Proof.
  intros W Hh E. unfold ieee80211_sta_leave. destruct (cleanup_live n held id ni W Hh E) as (n1 & ni1 & -> & W1 & T1 & E1 & Et).
  cbn [res_bind]. rewrite (node_at_Some _ _ _ E1). cbn [res_bind].
  eexists _, ni1. split; [done|]. split; [|split_and!; [|done|done]].
  - eapply nwf_quiet; [|exact W1]. by apply quiet_net.
  - trans n1; [done|]. by apply touch_net.
Qed.

(** The assertions of the 802.11g bookkeeping. *)
Definition counters_ok (n : net) (ni : ieee80211_node) : Prop :=
  ic_curmode n = IEEE80211_MODE_11G ->
  (has_flag (ni_capinfo ni) IEEE80211_CAPINFO_SHORT_SLOTTIME = false -> 0 < ic_longslotsta n) /\
  (has_flag (ni_flags ni) IEEE80211_NODE_ERP = false -> 0 < ic_nonerpsta n).

Lemma leave_11g_ok n id ni :
  n_nodes n !! id = Some ni -> ic_curmode n = IEEE80211_MODE_11G -> counters_ok n ni ->
  exists n', ieee80211_node_leave_11g n id = Ok n' /\ n_nodes n' = n_nodes n /\ same_net n n'.
Proof.
  intros E Hm Hc. destruct (Hc Hm) as [H1 H2]. unfold ieee80211_node_leave_11g.
  rewrite Hm, (node_at_Some _ _ _ E), Z.eqb_refl. cbn [res_bind negb].
  assert (exists n1, leave_longslot n ni = Ok n1 /\ n_nodes n1 = n_nodes n /\ same_net n n1 /\ ic_nonerpsta n1 = ic_nonerpsta n)
    as (n1 & -> & En & S & Ec).
  { unfold leave_longslot. destruct (has_flag (ni_capinfo ni) _); [by exists n|].
    rewrite (proj2 (Z.ltb_lt _ _) (H1 eq_refl)). cbn [negb]. cbn zeta.
    case_match; eexists; (split; [done|]); split_and!; try done; same_flags. }
  cbn [res_bind]. unfold leave_nonerp. destruct (has_flag (ni_flags ni) _); [by exists n1|].
  rewrite Ec, (proj2 (Z.ltb_lt _ _) (H2 eq_refl)). cbn [negb]. cbn zeta.
  repeat case_match; eexists; (split; [done|]); (split; [exact En|]); (trans n1; [done|same_flags]).
Qed.

Lemma bookkeeping_ok n held id ni :
  nwf n held -> (0 < held id)%nat -> n_nodes n !! id = Some ni -> (ni_associd ni <> 0 -> counters_ok n ni) ->
  exists n' ni', leave_bookkeeping dev n id (ni_associd ni) = Ok n' /\ nwf n' held /\ touch id n n' /\
    n_nodes n' !! id = Some ni' /\ ni_table ni' = ni_table ni.
Proof.
  intros W Hh E Hc. unfold leave_bookkeeping.
  destruct (Z.eqb_spec (ni_associd ni) 0) as [|Ha]; [by exists n, ni; split_and!; [|exact W|reflexivity|..]|].
  pose proof W as [L C]. destruct (wf_node _ _ L _ _ E) as [[A1 A2] A3 A4 A5].
  destruct (aid_clr_ok n (ni_associd ni)) as (l & -> & S1); [apply L|done|done|]. cbn [res_bind]. cbn zeta.
  set (n2 := set_sta_assoc _ _).
  assert (mild id n n2 (set_associd ni 0)) as M2.
  { apply (mild_then_net _ _ (upd (set_aid_bitmap n l) id (fun ni => set_associd ni 0))); [|done|done].
    apply (mild_then_upd _ _ _ ni); [by apply mild_net|done|done|]. intros [B1 B2 B3 B4]. constructor; cbn; auto.
    split; [done|]. pose proof (AID_range _ (proj1 B1)). change (IEEE80211_AID 0) with 0. cbn in B1. lia. }
  assert (exists n3, (if ic_curmode n2 =? IEEE80211_MODE_11G then ieee80211_node_leave_11g n2 id else Ok n2) = Ok n3 /\
    n_nodes n3 = n_nodes n2 /\ same_net n2 n3) as (n3 & -> & E3 & S3).
  { destruct (Z.eqb_spec (ic_curmode n2) IEEE80211_MODE_11G) as [Hm|]; [|by exists n2].
    apply (leave_11g_ok n2 id (set_associd ni 0)); [apply M2|done|]. exact (Hc Ha). }
  cbn [res_bind]. pose proof (mild_then_net _ _ _ _ _ M2 E3 S3) as (Q3 & T3 & E4).
  destruct (sta_leave_ok n3 held id _ (nwf_quiet _ _ _ _ Q3 W) Hh E4) as (n4 & ni4 & -> & W4 & T4 & E5 & Et).
  exists n4, ni4. split; [done|]. split; [done|]. split_and!; [by trans n3|done|done].
Qed.

Lemma node_leave_ok n held id ni :
  nwf n held -> (0 < held id)%nat -> n_nodes n !! id = Some ni -> (ni_associd ni <> 0 -> counters_ok n ni) ->
  ic_opmode n = IEEE80211_M_HOSTAP \/ ic_opmode n = IEEE80211_M_IBSS \/ ic_opmode n = IEEE80211_M_AHDEMO ->
  exists n', ieee80211_node_leave dev n id = Ok n' /\ nwf n' (hdec held id) /\ touch id n n' /\
    (forall ni', n_nodes n' !! id = Some ni' -> ni_table ni' = None).
Proof.
  intros W Hh E Hc Ho. unfold ieee80211_node_leave. rewrite (node_at_Some _ _ _ E). cbn [res_bind].
  assert ((ic_opmode n =? IEEE80211_M_HOSTAP) || (ic_opmode n =? IEEE80211_M_IBSS) || (ic_opmode n =? IEEE80211_M_AHDEMO) = true) as ->
    by (rewrite !orb_true_iff, !Z.eqb_eq; tauto).
  cbn [negb]. destruct (bookkeeping_ok n held id ni W Hh E Hc) as (n1 & ni1 & -> & W1 & T1 & E1 & Et).
  cbn [res_bind]. destruct (ni_table ni) as [t|].
  - destruct (node_reclaim_ok n1 held t id ni1 W1 Hh E1 Et) as (n2 & -> & W2 & T2 & H2).
    exists n2. split; [done|]. split; [done|]. split; [by trans n1|done].
  - destruct (free_node_ok 2 n1 held id W1 Hh) as (n2 & Ef & W2 & T2 & H2).
    exists n2. split; [exact Ef|]. split; [done|]. split; [by trans n1|].
    intros ni' E'. destruct (H2 _ E') as (ni1' & E1' & (Ec & _)%core_inv & _). congruence.
Qed.
End Release.
