(* ===== verification/NodeSafety.v ===== *)
(** * Node tables: no use after free, nothing leaked

    Allocation, lookup, the loops over a table, and the theorem about every
    history of operations. *)

From stdpp Require Import gmap.
From S2P Require Import Prelude Buffers Mbuf Ieee80211 Crypto InfoElem Node NodeTable NodeProof.

(** ** Allocation *)

Lemma hash_range mac : (IEEE80211_NODE_HASH mac < Z.to_nat IEEE80211_NODE_HASHSIZE)%nat.
Proof.
  unfold IEEE80211_NODE_HASH. pose proof (Z.mod_pos_bound (byte_at mac 5) IEEE80211_NODE_HASHSIZE ltac:(done)). lia.
Qed.

(** A new node is linked in the table it was made for. *)
Lemma add_node_table n n' id ni t :
  n_nodes n !! id = None -> n_nodes n' = <[id := ni]> (n_nodes n) ->
  table n' t = (if decide (ni_table ni = Some t)
     then set_nt_hash (set_nt_node (table n t) (nt_node (table n t) ++ [id]))
            (alter (cons id) (IEEE80211_NODE_HASH (ni_macaddr ni)) (nt_hash (table n t)))
     else table n t) ->
  table_ok None n t -> table_ok None n' t.
Proof.
  intros Hnew En Etab [Q1 Q2 Q3 Q4].
  assert (forall j P, j <> id -> linked None n' t j P <-> linked None n t j P) as HL.
  { intros j P Hj. unfold linked. rewrite En, lookup_insert_ne by done. done. }
  assert (id ∉ nt_node (table n t)) as Hni.
  { rewrite Q2. intros (_ & nj & Ej & _). congruence. }
  assert (forall P, linked None n' t id P <-> ni_table ni = Some t /\ P ni) as HLi.
  { intros P. unfold linked. rewrite En, lookup_insert_eq. split; [intros (_ & nj & [= <-] & ? & ?); done|].
    intros [? ?]. split; [done|]. by exists ni. }
  split; rewrite Etab; case_decide as Ht; cbn.
  + apply list.NoDup_app. split_and!; [done| |apply list.NoDup_singleton].
    intros j Hj ->%list_elem_of_singleton. done.
  + done.
  + intros j. rewrite elem_of_app, list_elem_of_singleton. destruct (decide (j = id)) as [->|Hj]; [rewrite HLi; tauto|].
    rewrite HL by done. rewrite Q2. tauto.
  + intros j. destruct (decide (j = id)) as [->|Hj]; [rewrite HLi; tauto|]. by rewrite HL.
  + by rewrite length_alter.
  + done.
  + intros b l j. destruct (decide (IEEE80211_NODE_HASH (ni_macaddr ni) = b)) as [Hb|Hb].
    * rewrite <- Hb, list_lookup_alter_eq. intros (l0 & El & ->)%fmap_Some. rewrite elem_of_cons.
      destruct (decide (j = id)) as [->|Hj]; [rewrite HLi; tauto|]. rewrite HL, (Q4 _ _ _ El) by done. naive_solver.
    * rewrite list_lookup_alter_ne by done. intros El. rewrite (Q4 _ _ _ El).
      destruct (decide (j = id)) as [->|Hj]; [|by rewrite HL]. rewrite HLi. unfold linked. naive_solver congruence.
  + intros b l j El. rewrite (Q4 _ _ _ El). destruct (decide (j = id)) as [->|Hj]; [|by rewrite HL].
    rewrite HLi. unfold linked. naive_solver congruence.
Qed.
(** A new node, in a table or not, with its one reference. *)
Lemma add_node_ok n n' held id ni :
  nwf n held -> id = n_fresh n -> n_nodes n' = <[id := ni]> (n_nodes n) -> n_fresh n' = S id -> ic_bss n' = ic_bss n ->
  (ic_opmode n', ic_max_aid n') = (ic_opmode n, ic_max_aid n) ->
  (length (ic_aid_bitmap n'), length (ic_tim_bitmap n')) = (length (ic_aid_bitmap n), length (ic_tim_bitmap n)) ->
  (forall t, table n' t = if decide (ni_table ni = Some t)
     then set_nt_hash (set_nt_node (table n t) (nt_node (table n t) ++ [id]))
            (alter (cons id) (IEEE80211_NODE_HASH (ni_macaddr ni)) (nt_hash (table n t)))
     else table n t) ->
  ni_refcnt ni = 1 -> rxkey ni = IEEE80211_KEYIX_NONE -> node_ok n ni -> nwf n' (hinc held id).
Proof.
  intros [[Wb Wf Wt Wk Wn Wm] [Wr _ Wh]] Hid En Efr Eb [= Eo Ex] [= P1 P2] Etab Hr Hk Hok.
  assert (n_nodes n !! id = None) as Hnew.
  { destruct (n_nodes n !! id) eqn:Ei; [|done]. pose proof (Wf id ltac:(by eexists)). lia. }
  assert (forall j nj, n_nodes n' !! j = Some nj -> j = id /\ nj = ni \/ j <> id /\ n_nodes n !! j = Some nj) as B.
  { intros j nj. rewrite En. intros [[-> ->]|[? ?]]%lookup_insert_Some; [by left|by right]. }
  assert (forall t, nt_keyixmap (table n' t) = nt_keyixmap (table n t) /\ nt_keyixmax (table n' t) = nt_keyixmax (table n t)) as HK.
  { intros t. rewrite Etab. by case_decide. }
  assert (forall k, keymap_get n' T_sta k = keymap_get n T_sta k) as HG by (intros k; apply keymap_table; apply HK).
  assert (forall k, 0 <= k -> keymap_get n T_sta k <> Some id) as Hno.
  { intros k H0 H. destruct (key_node _ Wk k id H0 H) as (nj & Ej & _). congruence. }
  assert (forall nj, node_ok n nj -> node_ok n' nj) as HO.
  { intros nj [A1 A2 A3 A4 A5]. constructor; rewrite ?Eo, ?Ex; done. }
  split; [split|split].
  - intros b. rewrite Eb, En. intros Hb. apply lookup_insert_is_Some. destruct (decide (id = b)); [by left|right; auto].
  - intros j [nj Ej]. rewrite Efr. destruct (B _ _ Ej) as [[-> _]|[_ Ej']]; [lia|]. pose proof (Wf j ltac:(by eexists)). lia.
  - intros t. by apply (add_node_table n n' id ni t).
  - destruct Wk as [K1 K0 K2 K3 K4]. destruct (HK T_scan) as [S1 _], (HK T_sta) as [S2 S3]. cbn in S1, S2, S3.
    split; rewrite ?S1, ?S2, ?S3; [done..| |].
    + intros k j H0. rewrite HG. intros H. destruct (K3 k j H0 H) as (nj & Ej & EK). exists nj. split; [|done].
      rewrite En, lookup_insert_ne; [done|]. congruence.
    + intros j1 j2 n1 n2 E1 E2 EK EL.
      destruct (B _ _ E1) as [[-> ->]|[? F1]], (B _ _ E2) as [[-> ->]|[? F2]]; [done|lia|lia|by apply (K4 j1 j2 n1 n2)].
  - intros j nj Ej. apply HO. destruct (B _ _ Ej) as [[-> ->]|[_ Ej']]; [done|eauto].
  - unfold maps_ok in *. by rewrite Ex, P1, P2.
  - intros j nj Ej _. unfold keyref, bssref. rewrite HG, Eb. destruct (B _ _ Ej) as [[-> ->]|[Hj Ej']].
    + rewrite hinc_same, !decide_False; [|intros Hb; destruct (Wb _ Hb); congruence|by apply Hno; rewrite Hk].
      assert (held id = 0)%nat as -> by (destruct (held id) eqn:Eh; [done|destruct (Wh id ltac:(lia)); congruence]). lia.
    + rewrite hinc_other by done. destruct (Wr _ _ Ej') as [R ?]; [done|]. by unfold keyref, bssref in R.
  - done.
  - intros j. destruct (decide (j = id)) as [->|Hj]; [intros _; rewrite En, lookup_insert_eq; by eexists|].
    rewrite hinc_other by done. intros H. rewrite En, lookup_insert_ne by done. by apply Wh.
Qed.

(** What allocations do not change. *)
Definition modes (n : net) : Z * Z * (Z * Z * Z) := (ic_opmode n, ic_curmode n, conf n).
Lemma modes_same n n' : same_net n n' -> modes n' = modes n.
Proof. intros S. pose proof (sn_mode _ _ S). pose proof (sn_curmode _ _ S). pose proof (sn_conf _ _ S). unfold modes. congruence. Qed.

(** What the outcome of an allocation is. *)
Definition allocated (n : net) (held : nat -> nat) (ot : option tab) (mac : list Z) (r : option nat) (n' : net) : Prop :=
  match r with
  | Some id => id = n_fresh n /\ nwf n' (hinc held id) /\ ic_bss n' = ic_bss n /\ modes n' = modes n /\
      (forall j, j <> id -> n_nodes n' !! j = n_nodes n !! j) /\
      exists ni, n_nodes n' !! id = Some ni /\ ni_table ni = ot /\ ni_macaddr ni = mac
  | None => nwf n' held /\ ic_bss n' = ic_bss n /\ modes n' = modes n /\ n_nodes n' = n_nodes n
  end.

Lemma alloc_fails n held ot mac : nwf n held -> forall mem, allocated n held ot mac None (bump (set_mem n mem) is_rx_nodealloc).
Proof. intros W mem. split_and!; [|done|done|done]. eapply nwf_quiet; [|exact W]. by apply quiet_net. Qed.
Lemma node_alloc_cases n : (exists mem, node_alloc n = (None, set_mem n mem)) \/
  exists mem, node_alloc n = (Some (n_fresh n),
    set_fresh (set_mem (set_nodes n (<[n_fresh n := zero_node]> (n_nodes n))) mem) (S (n_fresh n))).
Proof.
  unfold node_alloc. destruct (n_mem n) as [|[|] mem] eqn:E; [left; exists []|right|left]; [|by eexists..].
  f_equal. rewrite <- E. by destruct n.
Qed.

Lemma setup_node_ok n held t mac mem :
  nwf n held ->
  exists n', ieee80211_setup_node (set_fresh (set_mem (set_nodes n (<[n_fresh n := zero_node]> (n_nodes n))) mem) (S (n_fresh n)))
    t (n_fresh n) mac = Ok n' /\ allocated n held (Some t) mac (Some (n_fresh n)) n'.
Proof.
  intros W. unfold ieee80211_setup_node. set (n1 := set_fresh _ _).
  assert (n_nodes n1 !! n_fresh n = Some zero_node) as E by apply lookup_insert_eq.
  rewrite (node_at_Some _ _ _ E). cbn [res_bind]. cbn zeta. eexists. split; [done|].
  assert (forall f g, alter f (n_fresh n) (alter g (n_fresh n) (n_nodes n1)) = <[n_fresh n := f (g zero_node)]> (n_nodes n)) as HA.
  { intros f g. subst n1. cbn. by rewrite !alter_insert_eq. }
  rewrite (upd_const n1 _ _ _ E). set (fz := set_inact _ _).
  split_and!; [done| | | | |].
  - apply (add_node_ok n _ held (n_fresh n) (set_table fz (Some t))); try done.
    + destruct t; exact (HA _ _).
    + by destruct t.
    + by destruct t.
    + by destruct t.
    + by destruct t.
    + intros t'. by destruct t, t'.
    + destruct W as [L _]. pose proof (wf_maps _ _ L) as (M & _). constructor; [|done..]. split; [done|].
      change (IEEE80211_AID (ni_associd _)) with 0. lia.
  - by destruct t.
  - by destruct t.
  - intros j Hj. destruct t; cbn; rewrite !lookup_alter_ne, lookup_insert_ne by done; done.
  - exists (set_table fz (Some t)). split; [|done].
    destruct t; cbn; by rewrite !lookup_alter_eq, lookup_insert_eq.
Qed.

Lemma alloc_node_ok n held t mac : nwf n held ->
  exists r n', ieee80211_alloc_node n t mac = Ok (r, n') /\ allocated n held (Some t) mac r n'.
Proof.
  intros W. unfold ieee80211_alloc_node. destruct (node_alloc_cases n) as [[mem ->]|[mem ->]].
  - eexists _, _. split; [done|]. by apply alloc_fails.
  - destruct (setup_node_ok n held t mac mem W) as (n' & -> & H). by eexists _, _.
Qed.

(** Fields set after the allocation. *)
Lemma allocated_mild n held ot mac id n1 n2 ni : allocated n held ot mac (Some id) n1 -> mild id n1 n2 ni ->
  allocated n held ot mac (Some id) n2.
Proof.
  intros (Hid & W & B & O & F & ni1 & E1 & T1 & M1) (Q & T & E2). pose proof (modes_same _ _ (q_net _ _ Q)) as So.
  split_and!; [done|by eapply nwf_quiet|rewrite (t_bss _ _ _ T); done|congruence| |].
  - intros j Hj. rewrite (t_others _ _ _ T j Hj). auto.
  - exists ni. pose proof (q_nodes _ _ Q id) as N. rewrite E1, E2 in N. destruct N as [(C1 & C2 & _)%core_inv _].
    split_and!; [done|congruence|congruence].
Qed.
Lemma set_chan_mild n id ni c : n_nodes n !! id = Some ni ->
  exists n' ni', ieee80211_set_chan n id c = Ok n' /\ mild id n n' ni'.
Proof.
  intros E. unfold ieee80211_set_chan. rewrite (node_at_Some _ _ _ E). cbn [res_bind].
  eexists _, _. split; [done|]. apply (mild_upd _ _ ni); [done|done|done|node_ok_fields].
Qed.
Lemma bss_node_ok n b ni : ic_bss n = Some b -> n_nodes n !! b = Some ni -> bss_node n = Ok ni.
Proof. intros Eb E. unfold bss_node. rewrite Eb. by apply node_at_Some. Qed.
Lemma allocated_bss n held ot mac id n' b : nwf n held -> ic_bss n = Some b -> allocated n held ot mac (Some id) n' ->
  exists bss, bss_node n' = Ok bss /\ n_nodes n' !! b = Some bss /\ b <> id.
Proof.
  intros [L C] Eb (Hid & _ & B & _ & F & _). destruct (wf_bss _ _ L b Eb) as [bss E].
  assert (b <> id) as Hne by (pose proof (wf_fresh _ _ L b ltac:(by eexists)); lia).
  exists bss. rewrite <- (F b Hne) in E. split; [by apply (bss_node_ok _ b); [congruence|]|done].
Qed.

Lemma dup_bss_ok n held t mac b : nwf n held -> ic_bss n = Some b ->
  exists r n', ieee80211_dup_bss n t mac = Ok (r, n') /\ allocated n held (Some t) mac r n'.
Proof.
  intros W Eb. unfold ieee80211_dup_bss. destruct (node_alloc_cases n) as [[mem ->]|[mem ->]].
  - eexists _, _. split; [done|]. by apply alloc_fails.
  - destruct (setup_node_ok n held t mac mem W) as (n1 & -> & H). cbn [res_bind].
    destruct (allocated_bss _ _ _ _ _ _ _ W Eb H) as (bss & -> & _). cbn [res_bind]. cbn zeta.
    pose proof H as (_ & _ & _ & _ & _ & ni1 & E1 & _). set (n2 := upd n1 (n_fresh n) _).
    assert (exists ni2, mild (n_fresh n) n1 n2 ni2) as [ni2 M2].
    { eexists. apply (mild_upd _ _ ni1); [done|done|done|node_ok_fields]. }
    destruct (set_chan_mild n2 (n_fresh n) ni2 (ni_chan bss)) as (n3 & ni3 & -> & M3); [apply M2|].
    cbn [res_bind]. eexists _, _. split; [done|]. eapply allocated_mild; [exact H|].
    eapply mild_trans; [exact M2|]. eapply mild_trans; [exact M3|].
    apply mild_upd; [apply M3|done|done|node_ok_fields].
Qed.

Lemma fakeup_ok n held t mac b : nwf n held -> ic_bss n = Some b ->
  exists r n', ieee80211_fakeup_adhoc_node n t mac = Ok (r, n') /\ allocated n held (Some t) mac r n'.
Proof.
  intros W Eb. unfold ieee80211_fakeup_adhoc_node. destruct (dup_bss_ok n held t mac b W Eb) as (r & n1 & -> & H).
  cbn [res_bind]. destruct r as [id|]; [|by eexists _, _].
  destruct (allocated_bss _ _ _ _ _ _ _ W Eb H) as (bss & -> & _). cbn [res_bind]. cbn zeta.
  pose proof H as (_ & _ & _ & _ & _ & ni1 & E1 & _). eexists _, _. split; [done|]. eapply allocated_mild; [exact H|].
  apply mild_then_upd; [|done|done|node_ok_fields].
  apply (mild_then_net _ _ (upd n1 id (fun ni => set_rates ni (ni_rates bss)))); [|done|done].
  apply (mild_upd _ _ ni1); [done|done|done|node_ok_fields].
Qed.

Lemma tmp_node_ok n held mac b : nwf n held -> ic_bss n = Some b ->
  exists r n', ieee80211_tmp_node n mac = Ok (r, n') /\ allocated n held None mac r n'.
Proof.
  intros W Eb. unfold ieee80211_tmp_node. destruct (node_alloc_cases n) as [[mem ->]|[mem ->]].
  - eexists _, _. split; [done|]. by apply alloc_fails.
  - set (n1 := set_fresh _ _). destruct (wf_bss _ _ (proj1 W) b Eb) as [bss E].
    assert (b <> n_fresh n) as Hne by (pose proof (wf_fresh _ _ (proj1 W) b ltac:(by eexists)); lia).
    assert (n_nodes n1 !! b = Some bss) as E1 by (cbn; by rewrite lookup_insert_ne).
    rewrite (bss_node_ok n1 b bss Eb E1). cbn [res_bind]. cbn zeta. unfold ieee80211_set_chan.
    set (n2 := upd n1 _ _).
    assert (exists z, n_nodes n2 !! n_fresh n = Some z) as [z Ez].
    { eexists. apply upd_same. apply lookup_insert_eq. }
    rewrite (node_at_Some _ _ _ Ez). cbn [res_bind]. eexists _, _. split; [done|].
    assert (forall f g h, alter f (n_fresh n) (alter g (n_fresh n) (alter h (n_fresh n) (n_nodes n1))) =
       <[n_fresh n := f (g (h zero_node))]> (n_nodes n)) as HA.
    { intros f g h. subst n1. cbn. by rewrite !alter_insert_eq. }
    split_and!; [done| |done|done| |].
    + eapply (add_node_ok n _ held (n_fresh n)); [done|done|exact (HA _ _ _)|done|done|done|done|by intros [|]|done|done|].
      pose proof (wf_maps _ _ (proj1 W)) as (M & _). constructor; [|done..]. split; [done|].
      change (IEEE80211_AID (ni_associd _)) with 0. lia.
    + intros j Hj. rewrite !upd_other by done. unfold n2. rewrite upd_other by done. cbn. by rewrite lookup_insert_ne.
    + eexists. split; [apply upd_same, upd_same; exact Ez|]. split; [done|].
      unfold n2 in Ez. rewrite (upd_same n1 _ _ zero_node) in Ez by apply lookup_insert_eq. injection Ez as <-. done.
Qed.

(** ** Lookup *)

Lemma find_chain_ok n mac l :
  (forall id, id ∈ l -> is_Some (n_nodes n !! id)) ->
  exists r, find_chain n mac l = Ok r /\
    match r with
    | Some id => id ∈ l /\ exists ni, n_nodes n !! id = Some ni /\ IEEE80211_ADDR_EQ (ni_macaddr ni) mac = true
    | None => forall id ni, id ∈ l -> n_nodes n !! id = Some ni -> IEEE80211_ADDR_EQ (ni_macaddr ni) mac = false
    end.
Proof.
  induction l as [|id l IH]; intros H; [exists None; split; [done|]; intros id ni []%not_elem_of_nil|].
  destruct (H id) as [ni E]; [left|]. cbn [find_chain]. rewrite (node_at_Some _ _ _ E). cbn [res_bind].
  destruct (IEEE80211_ADDR_EQ (ni_macaddr ni) mac) eqn:Em; [exists (Some id); split; [done|]; split; [left|by exists ni]|].
  destruct IH as (r & -> & Hr); [intros j Hj; apply H; by right|].
  exists r. split; [done|]. destruct r as [j|]; [destruct Hr; split; [by right|done]|].
  intros j nj [->|Hj]%elem_of_cons Ej; [congruence|by apply (Hr j)].
Qed.

Lemma addr_eq_hash a b : IEEE80211_ADDR_EQ a b = true -> IEEE80211_NODE_HASH a = IEEE80211_NODE_HASH b.
Proof.
  unfold IEEE80211_ADDR_EQ, IEEE80211_NODE_HASH. intros H%bool_decide_eq_true. do 2 f_equal.
  assert (forall l, byte_at (take IEEE80211_ADDR_LEN l) 5 = byte_at l 5) as T.
  { intros l. unfold byte_at. do 6 (destruct l as [|? l]; [done|]). done. }
  by rewrite <- (T a), <- (T b), H.
Qed.

(** A lookup returns a node of the table with the address, and a reference to
    it; it returns none only when the table has none. *)
Definition found (n : net) (held : nat -> nat) (t : tab) (mac : list Z) (r : option nat) (n' : net) : Prop :=
  match r with
  | Some id => nwf n' (hinc held id) /\ touch id n n' /\
      exists ni, n_nodes n !! id = Some ni /\ ni_table ni = Some t /\ IEEE80211_ADDR_EQ (ni_macaddr ni) mac = true
  | None => n' = n /\ forall id ni, n_nodes n !! id = Some ni -> ni_table ni = Some t -> IEEE80211_ADDR_EQ (ni_macaddr ni) mac = false
  end.

Lemma find_node_ok n held t mac : nwf n held -> few held ->
  exists r n', _ieee80211_find_node n t mac = Ok (r, n') /\ found n held t mac r n'.
Proof.
  intros W Hf. unfold _ieee80211_find_node. pose proof (wf_tab _ _ (proj1 W) t) as [_ _ Q3 Q4].
  destruct (lookup_lt_is_Some_2 (nt_hash (table n t)) (IEEE80211_NODE_HASH mac)) as [bucket Eb]; [rewrite Q3; apply hash_range|].
  rewrite Eb. destruct (find_chain_ok n mac bucket) as (r & -> & Hr).
  { intros id H. apply (Q4 _ _ _ Eb) in H as (_ & ni & E & _). by eexists. }
  cbn [res_bind]. destruct r as [id|].
  - destruct Hr as (Hin & ni & E & Em). apply (Q4 _ _ _ Eb) in Hin as (_ & ni' & E' & Et & _).
    destruct (ref_node_ok n held id W (few_at _ _ Hf)) as (n' & -> & W' & T'); [by eexists|].
    eexists _, _. split; [done|]. split_and!; [done|done|]. exists ni. split_and!; [done|congruence|done].
  - eexists _, _. split; [done|]. split; [done|]. intros id ni E Et. apply not_true_is_false. intros Em.
    pose proof (addr_eq_hash _ _ Em) as Hh. assert (id ∈ bucket) as Hin by (apply (Q4 _ _ _ Eb); split; [done|by exists ni]).
    by rewrite (Hr id ni Hin E) in Em.
Qed.

Lemma ref_bss_ok n held b : nwf n held -> few held -> ic_bss n = Some b ->
  exists n', ref_bss n = Ok (b, n') /\ nwf n' (hinc held b) /\ touch b n n'.
Proof.
  intros W Hf Eb. unfold ref_bss. rewrite Eb. destruct (ref_node_ok n held b W (few_at _ _ Hf)) as (n' & -> & W' & T').
  { by apply (wf_bss _ _ (proj1 W)). }
  by eexists.
Qed.
Lemma find_or_bss_ok n held t wh b : nwf n held -> few held -> ic_bss n = Some b ->
  exists id n', find_or_bss n t wh = Ok (id, n') /\ nwf n' (hinc held id) /\ touch id n n'.
Proof.
  intros W Hf Eb. unfold find_or_bss. destruct (find_node_ok n held t (rx_addr wh) W Hf) as (r & n1 & -> & H).
  cbn [res_bind]. destruct r as [id|].
  - destruct H as (W1 & T1 & _). by eexists _, _.
  - destruct H as [-> _]. destruct (ref_bss_ok n held b W Hf Eb) as (n' & -> & W' & T'). by eexists _, _.
Qed.

(** Filling an empty entry of the key map. *)
Lemma keymap_fill_ok n held id ni :
  nwf n (hinc held id) -> n_nodes n !! id = Some ni -> is_Some (nt_keyixmap (ic_sta n)) ->
  rxkey ni < nt_keyixmax (ic_sta n) -> keymap_get n T_sta (rxkey ni) = None ->
  nwf (keymap_put n T_sta (rxkey ni) (Some id)) held.
Proof.
  intros [L C] E [m Em] Hlt Hg. destruct (keymap_put_keep n (rxkey ni) (Some id)) as (En & Eb & Ef & Es & E1 & E2 & E3 & Emp & Eo & _).
  pose proof (wf_keys _ _ L) as K. pose proof (ok_rxkey _ _ (wf_node _ _ L _ _ E)) as H0.
  assert (forall k', 0 <= k' -> keymap_get (keymap_put n T_sta (rxkey ni) (Some id)) T_sta k' =
    if decide (k' = rxkey ni) then Some id else keymap_get n T_sta k') as G.
  { intros k' Hk'. unfold keymap_get, keymap_put in *. cbn in *. rewrite Em in *. cbn. pose proof (key_len _ K m Em) as Hlen.
    destruct (decide (k' = rxkey ni)) as [->|Hne].
    - rewrite (proj2 (Z.ltb_lt _ _) Hlt), list_lookup_insert_eq by lia. done.
    - destruct (k' <? nt_keyixmax (ic_sta n)); [|done]. rewrite list_lookup_insert_ne by lia. done. }
  destruct L as [Wb Wf Wt Wk Wn Wm], C as [Wr _ Wh]. split; [split|split].
  - intros b. rewrite Eb, En. apply Wb.
  - intros j. rewrite Ef, En. apply Wf.
  - intros t. destruct (Wt t) as [Q1 Q2 Q3 Q4].
    destruct t; split; unfold linked; cbn [table] in *; rewrite ?Es, ?E1, ?E2, ?En; done.
  - destruct Wk as [Q1 Q0 Q2 Q3 Q4]. split; rewrite ?Es, ?E3, ?En; [done|done| | |done].
    + unfold keymap_put. cbn. rewrite Em. cbn. intros m' [= <-]. rewrite length_insert. by apply Q2.
    + intros k' j Hk'. rewrite (G _ Hk'). case_decide; [intros [= <-]; by exists ni|by apply Q3].
  - intros j nj. rewrite En. intros Ej. apply Eo. eauto.
  - tauto.
  - intros j nj. rewrite En. intros Ej _. destruct (Wr _ _ Ej) as [R B]; [done|]. split; [|done].
    pose proof (ok_rxkey _ _ (Wn _ _ Ej)) as Hrk. unfold keyref, bssref in *. rewrite Eb, (G _ Hrk).
    destruct (decide (j = id)) as [->|Hne].
    + assert (nj = ni) as -> by congruence. rewrite hinc_same, Hg in R. rewrite (decide_False (P := None = Some id)) in R by done.
      rewrite (decide_True (P := rxkey ni = rxkey ni)), (decide_True (P := Some id = Some id)) by done. lia.
    + rewrite hinc_other in R by done. destruct (decide (rxkey nj = rxkey ni)) as [HK|]; [|done].
      rewrite HK, Hg in R. rewrite (decide_False (P := None = Some j)) in R by done.
      rewrite (decide_False (P := Some id = Some j)) by congruence. done.
  - done.
  - intros j Hj. rewrite En. apply Wh. unfold hinc. case_decide; lia.
Qed.

Lemma find_rxnode_withkey_ok n held wh keyix b : nwf n held -> few held -> ic_bss n = Some b -> 0 <= keyix ->
  exists id n', ieee80211_find_rxnode_withkey n wh keyix = Ok (id, n') /\ nwf n' (hinc held id).
Proof.
  intros W Hf Eb Hk. unfold ieee80211_find_rxnode_withkey. pose proof (wf_keys _ _ (proj1 W)) as K.
  destruct (keymap_get n (rx_table n) keyix) as [id|] eqn:Eg.
  - destruct (rx_table n); [by rewrite (keymap_scan _ _ _ (proj1 W)) in Eg|].
    destruct (key_node _ K keyix id Hk Eg) as (ni & E & _).
    destruct (ref_node_ok n held id W (few_at _ _ Hf)) as (n' & -> & W' & _); [by eexists|]. by eexists _, _.
  - destruct (find_or_bss_ok n held (rx_table n) wh b W Hf Eb) as (id & n1 & -> & W1 & T1). cbn [res_bind].
    destruct (nt_keyixmap (table n1 (rx_table n))) as [m|] eqn:Em; [|by eexists _, _].
    destruct (rx_table n); [cbn in Em; by rewrite (key_scan _ (wf_keys _ _ (proj1 W1))) in Em|].
    destruct (wf_held _ _ _ (proj2 W1) id) as [ni1 E1]; [rewrite hinc_same; lia|].
    rewrite (node_at_Some _ _ _ E1). cbn [res_bind]. cbn zeta. fold (rxkey ni1).
    destruct (Z.ltb_spec (rxkey ni1) (nt_keyixmax (ic_sta n1))) as [Hlt|Hge]; cbn [table andb].
    2:{ rewrite (proj2 (Z.ltb_ge _ _) Hge). by eexists _, _. }
    rewrite (proj2 (Z.ltb_lt _ _) Hlt). cbn [andb]. case_bool_decide as Hg; [|by eexists _, _].
    destruct (ref_node_ok n1 (hinc held id) id W1 (few_hinc _ _ _ Hf)) as (n2 & Er & W2 & T2); [by eexists|].
    rewrite Er. cbn [res_bind]. eexists _, _. split; [done|].
    unfold ieee80211_ref_node in Er. rewrite (node_at_Some _ _ _ E1) in Er. injection Er as <-.
    pose proof (upd_same n1 id ieee80211_node_incref ni1 E1) as E2.
    by apply (keymap_fill_ok _ (hinc held id) id _ W2 E2).
Qed.

Lemma find_txnode_ok n held mac b : nwf n held -> few held -> ic_bss n = Some b ->
  exists r n' held', ieee80211_find_txnode n mac = Ok (r, n') /\ nwf n' held' /\
    match r with
    | Some id => is_Some (n_nodes n !! id) /\ held' = hinc held id \/ id = n_fresh n /\ held' = hinc (hinc held id) id
    | None => held' = held
    end.
Proof.
  intros W Hf Eb. unfold ieee80211_find_txnode.
  assert (exists r n1, (if (ic_opmode n =? IEEE80211_M_STA) || IEEE80211_IS_MULTICAST mac
    then let* (id, n) := ref_bss n in Ok (Some id, n) else _ieee80211_find_node n T_sta mac) = Ok (r, n1) /\
    match r with Some id => nwf n1 (hinc held id) /\ is_Some (n_nodes n !! id) | None => n1 = n end) as (r & n1 & -> & H1).
  { destruct (_ || _).
    - destruct (ref_bss_ok n held b W Hf Eb) as (n' & -> & W' & _). eexists _, _. split; [done|].
      split; [done|]. by apply (wf_bss _ _ (proj1 W)).
    - destruct (find_node_ok n held T_sta mac W Hf) as (r & n' & -> & H). eexists _, _. split; [done|].
      destruct r; [|apply H]. destruct H as (W' & _ & ni & E & _). split; [done|by eexists]. }
  cbn [res_bind]. destruct r as [id|]; [eexists _, _, _; split; [done|]; split; [apply H1|left; split; [apply H1|done]]|]. subst n1.
  destruct ((ic_opmode n =? IEEE80211_M_IBSS) || (ic_opmode n =? IEEE80211_M_AHDEMO)).
  - destruct (fakeup_ok n held T_sta mac b W Eb) as (r & n1 & -> & H). cbn [res_bind]. destruct r as [id|].
    + destruct H as (Hid & W1 & _ & _ & _ & ni & E & _).
      destruct (ref_node_ok n1 (hinc held id) id W1 (few_hinc _ _ _ Hf)) as (n2 & -> & W2 & _); [by eexists|].
      eexists _, _, _. split; [done|]. split; [exact W2|by right].
    + eexists _, _, _. split; [done|]. split; [apply H|done].
  - eexists _, _, _. split; [done|]. split; [|done]. eapply nwf_quiet; [|exact W]. by apply quiet_net.
Qed.

(** ** Loops over a table *)

(** One reference less on each node of a list. *)
Definition hdecs (held : nat -> nat) (l : list nat) : nat -> nat := fold_left hdec l held.
Lemma hdecs_out l : forall held j, j ∉ l -> hdecs held l j = held j.
Proof.
  induction l as [|id l IH]; intros held j Hj; [done|]. apply not_elem_of_cons in Hj as [Hne Hj].
  change (hdecs (hdec held id) l j = held j). rewrite IH by done. by apply hdec_other.
Qed.
Lemma hdecs_in l : forall held j, NoDup l -> j ∈ l -> hdecs held l j = pred (held j).
Proof.
  induction l as [|id l IH]; intros held j Hnd Hj; [by apply not_elem_of_nil in Hj|].
  apply list.NoDup_cons in Hnd as [Hni Hnd]. change (hdecs (hdec held id) l j = pred (held j)). apply elem_of_cons in Hj as [->|Hj].
  - rewrite hdecs_out by done. apply hdec_same.
  - rewrite IH by done. rewrite hdec_other; [done|]. by intros ->.
Qed.

Lemma filter_out (l : list nat) id : id ∉ l -> filter (.≠ id) l = l.
Proof.
  induction l as [|x l IH]; intros H; [done|]. apply not_elem_of_cons in H as [Hne H].
  rewrite filter_cons_True by done. by rewrite IH.
Qed.
Lemma filter_in {A} (P Q : A -> Prop) `{!forall x, Decision (P x), !forall x, Decision (Q x)} (l : list A) :
  (forall x, x ∈ l -> P x <-> Q x) -> filter P l = filter Q l.
Proof.
  induction l as [|x l IH]; intros HE; [done|]. assert (P x <-> Q x) as HD by (apply HE; left).
  assert (filter P l = filter Q l) as IH' by (apply IH; intros; apply HE; by right).
  destruct (decide (Q x)); [rewrite !filter_cons_True by tauto|rewrite !filter_cons_False by tauto]; by rewrite IH'.
Qed.
(** A node that is in no table any more is in no list. *)
Lemma list_after n n' id held :
  nwf n' held -> touch id n n' -> (forall ni', n_nodes n' !! id = Some ni' -> ni_table ni' = None) ->
  forall t, nt_node (table n' t) = filter (.≠ id) (nt_node (table n t)).
Proof.
  intros W T H t. rewrite <- (t_lists _ _ _ T t). symmetry. apply filter_out.
  rewrite (tab_in _ _ _ (wf_tab _ _ (proj1 W) t)). intros (_ & ni & E & Et & _). by rewrite (H _ E) in Et.
Qed.
Lemma list_live n held t id : nwf n held -> id ∈ nt_node (table n t) ->
  exists ni, n_nodes n !! id = Some ni /\ ni_table ni = Some t.
Proof. intros W H. apply (tab_in _ _ _ (wf_tab _ _ (proj1 W) t)) in H as (_ & ni & E & Et & _). by exists ni. Qed.

Section Loops.
Context (dev : key_ops).

Definition only_table (t : tab) (n n' : net) : Prop :=
  (forall t', t' <> t -> nt_node (table n' t') = nt_node (table n t')) /\
  (ic_bss n', ic_opmode n', n_fresh n') = (ic_bss n, ic_opmode n, n_fresh n).
Lemma reclaim_step n held t id ni :
  nwf n held -> (0 < held id)%nat -> n_nodes n !! id = Some ni -> ni_table ni = Some t ->
  exists n', node_reclaim dev n t id = Ok n' /\ nwf n' (hdec held id) /\ touch id n n' /\ only_table t n n' /\
    nt_node (table n' t) = filter (.≠ id) (nt_node (table n t)).
Proof.
  intros W Hh E Et. destruct (node_reclaim_ok dev n held t id ni W Hh E Et) as (n' & -> & W' & T' & H').
  pose proof (list_after _ _ _ _ W' T' H') as HL. exists n'. split; [done|]. split; [done|]. split; [done|]. split; [|done].
  split; [|rewrite (t_bss _ _ _ T'); pose proof (t_mode _ _ _ T'); congruence].
  intros t' Ht. rewrite HL. apply filter_out. intros Hin. destruct (list_live _ _ _ _ W Hin) as (ni' & E' & Et'). congruence.
Qed.

Lemma drop_aid_ok n id ni : nlinks n -> n_nodes n !! id = Some ni ->
  exists n1, (if ni_associd ni =? 0 then Ok n else IEEE80211_AID_CLR n (ni_associd ni)) = Ok n1 /\
    n_nodes n1 = n_nodes n /\ same_net n n1.
Proof.
  intros L E. destruct (ni_associd ni =? 0); [by exists n|]. destruct (wf_node _ _ L _ _ E) as [[A1 A2] _ _ _ _].
  destruct (aid_clr_ok n (ni_associd ni)) as (m & -> & Sm); [apply L|done|done|]. by eexists.
Qed.
Lemma free_all_loop_ok t l : forall n held,
  nt_node (table n t) = l -> nwf n held -> (forall id, id ∈ l -> (0 < held id)%nat) ->
  exists n', free_all_loop dev (length l) n t = Ok n' /\ nwf n' (hdecs held l) /\ nt_node (table n' t) = [] /\ only_table t n n'.
Proof.
  induction l as [|id l IH]; intros n held El W Hh.
  - exists n. cbn. rewrite El. split; [done|]. split; [done|]. by repeat split.
  - cbn [length free_all_loop]. rewrite El. destruct (list_live n held t id W) as (ni & E & Et); [rewrite El; left|].
    rewrite (node_at_Some _ _ _ E). cbn [res_bind].
    destruct (drop_aid_ok n id ni (proj1 W) E) as (n1 & -> & E1 & S1).
    cbn [res_bind]. pose proof (nwf_quiet _ _ _ _ (quiet_net _ _ E1 S1) W) as W1.
    destruct (reclaim_step n1 held t id ni W1) as (n2 & -> & W2 & _ & O2 & L2); [apply Hh; left|by rewrite E1|done|].
    cbn [res_bind]. destruct (same_table _ _ S1 t) as (T1 & _).
    pose proof (tab_nodup _ _ _ (wf_tab _ _ (proj1 W) t)) as Hnd. rewrite El in Hnd. apply list.NoDup_cons in Hnd as [Hni Hnd].
    destruct (IH n2 (hdec held id)) as (n3 & -> & W3 & H3 & O3).
    + rewrite L2, T1, El, filter_cons_False by naive_solver. by apply filter_out.
    + done.
    + intros j Hj. rewrite hdec_other by (by intros ->). apply Hh. by right.
    + exists n3. split; [done|]. split; [done|]. split; [done|]. destruct O2 as [P2 Q2], O3 as [P3 Q3]. split.
      * intros t' Ht. rewrite P3, P2 by done. by destruct (same_table _ _ S1 t') as (-> & _).
      * rewrite Q3, Q2. pose proof (sn_mode _ _ S1). rewrite (sn_bss _ _ S1), (sn_fresh _ _ S1). congruence.
Qed.

Lemma reset_erp_quiet n : n_nodes (ieee80211_reset_erp n) = n_nodes n /\ same_net n (ieee80211_reset_erp n).
Proof.
  unfold ieee80211_reset_erp. cbn zeta. set (n1 := set_longslotsta _ 0).
  assert (forall b, n_nodes (ieee80211_set_shortslottime n1 b) = n_nodes n /\ same_net n (ieee80211_set_shortslottime n1 b)) as H.
  { intros b. unfold ieee80211_set_shortslottime. destruct b; (split; [done|same_flags]). }
  match goal with |- context [ieee80211_set_shortslottime n1 ?b] => destruct (H b) as [E S]; generalize dependent (ieee80211_set_shortslottime n1 b) end.
  intros n2 E S. destruct (_ || _); (split; [exact E|trans n2; [exact S|same_flags]]).
Qed.
Lemma free_allnodes_ok n held t : nwf n held -> (forall id, id ∈ nt_node (table n t) -> (0 < held id)%nat) ->
  exists n', ieee80211_free_allnodes_locked dev n t = Ok n' /\ nwf n' (hdecs held (nt_node (table n t))) /\
    nt_node (table n' t) = [] /\ only_table t n n'.
Proof.
  intros W Hh. unfold ieee80211_free_allnodes_locked.
  destruct (free_all_loop_ok t _ n held eq_refl W Hh) as (n1 & -> & W1 & H1 & [O1 O2]). cbn [res_bind].
  destruct (reset_erp_quiet n1) as [E2 S2]. eexists. split; [done|]. split.
  - eapply nwf_quiet; [|exact W1]. by apply quiet_net.
  - destruct (same_table _ _ S2 t) as (-> & _). split; [done|]. split.
    + intros t' Ht. destruct (same_table _ _ S2 t') as (-> & _). auto.
    + pose proof (sn_mode _ _ S2). rewrite (sn_bss _ _ S2), (sn_fresh _ _ S2). congruence.
Qed.
Lemma table_reset_ok n held t : nwf n held -> (forall id, id ∈ nt_node (table n t) -> (0 < held id)%nat) ->
  exists n', ieee80211_node_table_reset dev n t = Ok n' /\ nwf n' (hdecs held (nt_node (table n t))) /\
    nt_node (table n' t) = [] /\ only_table t n n'.
Proof.
  intros W Hh. unfold ieee80211_node_table_reset. set (n1 := put_table _ _ _).
  assert (n_nodes n1 = n_nodes n /\ same_net n n1 /\ nt_node (table n1 t) = nt_node (table n t) /\ only_table t n n1) as (E1 & S1 & L1 & O1 & P1).
  { subst n1. destruct t; split_and!; first [done|by constructor|split; [by intros [|]|done]]. }
  pose proof (nwf_quiet _ _ _ _ (quiet_net _ _ E1 S1) W) as W1.
  destruct (free_allnodes_ok n1 held t W1) as (n2 & -> & W2 & H2 & O2 & P2); [by rewrite L1|].
  exists n2. split; [done|]. rewrite L1 in W2. split; [done|]. split; [done|].
  split; [intros t' Ht; by rewrite O2, O1|congruence].
Qed.
End Loops.
