(* ===== verification/NodeHistory.v ===== *)
(** * Histories of node operations

    The operations a client of the node layer may call, the references each of
    them hands out or takes back, and the theorem that a client who gives back
    only references it owns never makes the node layer touch a freed node. *)

From stdpp Require Import gmap.
From S2P Require Import Prelude Buffers Mbuf Ieee80211 Crypto InfoElem Node NodeTable NodeProof NodeSafety.

Section History.
Context (dev : key_ops).

(** ** The scan cache timer *)

(** The nodes the timer purges. *)
Definition due (n : net) (id : nat) : Prop := (ni_inact <$> n_nodes n !! id) = Some 1.
#[global] Instance due_dec n id : Decision (due n id).
Proof. unfold due. apply _. Defined.

Lemma due_touch n n' id (l : list nat) : touch id n n' -> id ∉ l -> filter (due n') l = filter (due n) l.
Proof.
  intros T H. apply filter_in. intros j Hj. unfold due. rewrite (t_others _ _ _ T j); [done|]. by intros ->.
Qed.

Lemma due_cons n id l ni : n_nodes n !! id = Some ni ->
  filter (due n) (id :: l) = if ni_inact ni =? 1 then id :: filter (due n) l else filter (due n) l.
Proof.
  intros E. destruct (Z.eqb_spec (ni_inact ni) 1) as [H|H].
  - rewrite filter_cons_True; [done|]. unfold due. rewrite E. cbn. congruence.
  - rewrite filter_cons_False; [done|]. unfold due. rewrite E. cbn. congruence.
Qed.

(** Owned nodes of a table. *)
Definition owned (n : net) (held : nat -> nat) (t : tab) (l : list nat) : Prop :=
  forall id, id ∈ l -> (0 < held id)%nat /\ exists ni, n_nodes n !! id = Some ni /\ ni_table ni = Some t.
Lemma owned_touch n n' held held' t id l :
  touch id n n' -> (forall j, j <> id -> held' j = held j) -> id ∉ l -> owned n held t l -> owned n' held' t l.
Proof.
  intros T H Hn O j Hj. assert (j <> id) as Hne by (by intros ->).
  rewrite H, (t_others _ _ _ T j) by done. by apply O.
Qed.

Lemma scan_purge_ok t l : forall n held,
  NoDup l -> nwf n held -> owned n held t l ->
  exists n', scan_purge dev n t l = Ok n' /\ nwf n' (hdecs held (filter (due n) l)).
Proof.
  induction l as [|id l IH]; intros n held Hnd W Hl; [by exists n|].
  apply list.NoDup_cons in Hnd as [Hni Hnd]. destruct (Hl id) as [Hh (ni & E & Et)]; [left|].
  assert (owned n held t l) as Hl' by (intros j Hj; apply Hl; by right).
  cbn [scan_purge]. rewrite (node_at_Some _ _ _ E), (due_cons _ _ _ _ E). cbn [res_bind].
  destruct (Z.eqb_spec (ni_inact ni) 0) as [H0|H0].
  { rewrite H0. by apply IH. }
  cbn zeta. set (n1 := upd n id _).
  assert (mild id n n1 (set_inact ni (ni_inact ni - 1))) as (Q1 & T1 & E1).
  { apply (mild_upd _ _ ni (fun ni => set_inact ni (ni_inact ni - 1))); [done|done|done|node_ok_fields]. }
  pose proof (nwf_quiet _ _ _ _ Q1 W) as W1. destruct (Z.eqb_spec (ni_inact ni) 1) as [Hi|Hi].
  - rewrite Hi. cbn [Z.sub Z.eqb Z.add Z.opp Z.pos_sub].
    destruct (node_reclaim_ok dev n1 held t id _ W1 Hh E1 Et) as (n2 & Er & W2 & T2 & _).
    rewrite Er. cbn [res_bind]. assert (touch id n n2) as T by by trans n1.
    rewrite <- (due_touch n n2 id l T Hni). apply IH; [done|done|].
    apply (owned_touch n n2 held _ t id); [done|intros; by apply hdec_other|done|done].
  - rewrite (proj2 (Z.eqb_neq _ _)) by lia. cbn [res_bind]. rewrite <- (due_touch n n1 id l T1 Hni).
    apply IH; [done|done|]. by apply (owned_touch n n1 held _ t id).
Qed.

Lemma old_frag_mild ticks hz n id ni : n_nodes n !! id = Some ni ->
  exists n' ni', drop_old_frag ticks hz n id = Ok n' /\ mild id n n' ni' /\
    (ni_inact ni', ni_table ni', ni_associd ni', ni_scangen ni') = (ni_inact ni, ni_table ni, ni_associd ni, ni_scangen ni).
Proof.
  intros E. unfold drop_old_frag. rewrite (node_at_Some _ _ _ E). cbn [res_bind].
  destruct (ni_rxfrag ni) as [m|]; [|by exists n, ni; split_and!; [|apply mild_refl|]].
  destruct (_ <? _); [|by exists n, ni; split_and!; [|apply mild_refl|]].
  eexists _, _. split; [done|]. split; [|].
  - apply (mild_then_upd _ _ _ ni); [by apply mild_heap|done|done|node_ok_fields].
  - done.
Qed.

Lemma due_mild n n' id ni ni' (l : list nat) : n_nodes n !! id = Some ni -> mild id n n' ni' -> ni_inact ni' = ni_inact ni ->
  filter (due n') l = filter (due n) l.
Proof.
  intros E (_ & T & E') Hi. apply filter_in. intros j _. unfold due.
  destruct (decide (j = id)) as [->|Hj]; [rewrite E, E'; cbn; by rewrite Hi|by rewrite (t_others _ _ _ T j Hj)].
Qed.

Lemma inact_timer_quiet n t v : quiet n (put_table n t (set_nt_inact_timer (table n t) v)).
Proof. apply quiet_net; [apply put_table_nodes|]. by destruct t. Qed.

Lemma timeout_scan_ok ticks hz n held t b :
  nwf n held -> ic_bss n = Some b -> owned n held t (nt_node (table n t)) ->
  exists n', ieee80211_timeout_scan_candidates dev ticks hz n t = Ok n' /\ nwf n' (hdecs held (filter (due n) (nt_node (table n t)))).
Proof.
  intros W Eb HO. unfold ieee80211_timeout_scan_candidates. rewrite Eb. destruct (wf_bss _ _ (proj1 W) b Eb) as [ni E].
  destruct (old_frag_mild ticks hz n b ni E) as (n1 & ni1 & -> & M1 & [= Hi Ht _ _]). cbn [res_bind].
  pose proof M1 as (Q1 & T1 & E1). destruct (same_table _ _ (q_net _ _ Q1) t) as (L1 & _). rewrite L1.
  destruct (scan_purge_ok t (nt_node (table n t)) n1 held) as (n2 & -> & W2).
  - apply (tab_nodup _ _ _ (wf_tab _ _ (proj1 W) t)).
  - by apply (nwf_quiet _ n).
  - intros j Hj. destruct (HO j Hj) as [Hh (nj & Ej & Et)]. split; [done|].
    destruct (same_forth _ _ (q_nodes _ _ Q1) _ _ Ej) as (nj' & Ej' & (C & _)%core_inv). exists nj'. split; [done|congruence].
  - cbn [res_bind]. eexists. split; [done|]. rewrite (due_mild n n1 b ni ni1) in W2 by done.
    eapply nwf_quiet; [|exact W2]. apply inact_timer_quiet.
Qed.

(** ** A new BSS node *)

(** The caller's reference to the new node becomes that of [ic_bss]; the old
    one becomes the caller's. *)
Definition handover (n : net) (held : nat -> nat) : nat -> nat :=
  match ic_bss n with Some o => hinc held o | None => held end.
Lemma set_bss_ok n held id : nwf n held -> (0 < held id)%nat -> nwf (set_bss n (Some id)) (handover n (hdec held id)).
Proof.
  intros [L [Wr _ Wh]] Hh.
  assert (forall j nj, node_ok n nj -> node_ok (set_bss n j) nj) as HO by (intros j nj []; by constructor).
  split; [destruct L as [Wb Wf Wt Wk Wn Wm]; split|split].
  - intros b [= <-]. by apply Wh.
  - apply Wf.
  - intros t. specialize (Wt t). by destruct t, Wt; split.
  - by destruct Wk; split.
  - intros j nj Ej. apply HO. by apply (Wn j).
  - exact Wm.
  - intros j nj Ej _. destruct (Wr _ _ Ej) as [R B]; [done|]. split; [|done]. rewrite R.
    unfold handover, bssref, hinc, hdec. cbn [ic_bss set_bss].
    change (keyref (set_bss n (Some id)) j nj) with (keyref n j nj).
    destruct (ic_bss n); repeat case_decide; simplify_eq; try lia.
  - done.
  - intros j Hj. cbn [n_nodes set_bss]. destruct (decide (ic_bss n = Some j)) as [Ho|Ho]; [by apply (wf_bss _ _ L)|].
    apply Wh. unfold handover, hinc, hdec in Hj. destruct (ic_bss n); repeat case_decide; simplify_eq; lia.
Qed.

Lemma bss_switch_ok n held id : nwf n held -> is_Some (ic_bss n) -> (0 < held id)%nat ->
  exists n', bss_switch dev n id = Ok n' /\ nwf n' (hdec held id).
Proof.
  intros W [o Eb] Hh. unfold bss_switch. rewrite Eb. pose proof (set_bss_ok n held id W Hh) as W1.
  unfold handover in W1. rewrite Eb in W1.
  destruct (wf_bss _ _ (proj1 W) o Eb) as [oni Eo]. destruct (wf_held _ _ _ (proj2 W) id Hh) as [ni E].
  set (n1 := set_bss n (Some id)) in *. rewrite (node_at_Some n1 o oni Eo), (node_at_Some n1 id ni E). cbn [res_bind].
  set (n2 := upd n1 id _).
  assert (mild id n1 n2 (copy_bss ni oni)) as (Q2 & _ & _).
  { apply (mild_upd _ _ ni (fun ni => copy_bss ni oni)); [done|done|done|node_ok_fields]. }
  destruct (free_node_ok dev 2 n2 (hinc (hdec held id) o) o) as (n3 & Ef & W3 & _);
    [by apply (nwf_quiet _ n1)|rewrite hinc_same; lia|].
  exists n3. split; [exact Ef|]. apply (nwf_ext _ _ _ _ (fun j => eq_sym (hdec_hinc (hdec held id) o j))). exact W3.
Qed.

(** ** Association *)

(** Sending changes a sequence number and, at most, the authorization. *)
Lemma mgmt_sent_keeps subtype ni :
  core (mgmt_sent subtype ni) = core ni /\ ni_associd (mgmt_sent subtype ni) = ni_associd ni /\
  ni_scangen (mgmt_sent subtype ni) = ni_scangen ni /\ ni_inact (mgmt_sent subtype ni) = ni_inact ni /\
  ni_chan (mgmt_sent subtype ni) = ni_chan ni /\ ni_refcnt (mgmt_sent subtype ni) = ni_refcnt ni /\
  (forall n, node_ok n ni -> node_ok n (mgmt_sent subtype ni)).
Proof. unfold mgmt_sent. destruct (_ =? _); (split_and!; [done..|intros n; node_ok_fields]). Qed.
Lemma quiet_sent n id ni subtype : n_nodes n !! id = Some ni -> quiet n (upd n id (mgmt_sent subtype)).
Proof. intros E. destruct (mgmt_sent_keeps subtype ni) as (H1 & _ & _ & _ & _ & H2 & H3). apply (quiet_upd _ _ ni); [exact E|exact H1|exact H2|apply H3]. Qed.

Lemma send_mgmt_ok queued n held id ni subtype arg :
  nwf n held -> Z.of_nat (held id) + 3 < 2 ^ 32 -> n_nodes n !! id = Some ni ->
  exists n' ni', IEEE80211_SEND_MGMT queued n id subtype arg = Ok n' /\
    nwf n' (if queued n id then hinc held id else held) /\ touch id n n' /\ n_nodes n' !! id = Some ni' /\
    (core ni', ni_associd ni', ni_scangen ni', ni_inact ni') = (core ni, ni_associd ni, ni_scangen ni, ni_inact ni) /\
    (forall t, nt_node (table n' t) = nt_node (table n t)) /\ ni_chan ni' = ni_chan ni.
Proof.
  intros W Hf E. unfold IEEE80211_SEND_MGMT. rewrite (node_at_Some _ _ _ E). cbn [res_bind].
  destruct (queued n id); [|exists (bump n is_tx_nobuf), ni; split; [done|]; split; [eapply nwf_quiet; [|exact W]; by apply quiet_net|];
    split_and!; [by apply touch_net|done|done|by intros [|]|done]].
  destruct (ref_node_ok n held id W Hf) as (n1 & Er & W1 & T1); [by eexists|]. rewrite Er. cbn [res_bind].
  unfold ieee80211_ref_node in Er. rewrite (node_at_Some _ _ _ E) in Er. injection Er as <-.
  pose proof (upd_same n id ieee80211_node_incref ni E) as E1. eexists _, _. split; [done|].
  split; [|split_and!; [|exact (upd_same _ id (mgmt_sent subtype) _ E1)|by destruct (mgmt_sent_keeps subtype (ieee80211_node_incref ni)) as (-> & -> & -> & -> & _); destruct ni
    |by intros [|]|by destruct (mgmt_sent_keeps subtype (ieee80211_node_incref ni)) as (_ & _ & _ & _ & -> & _)]].
  - eapply nwf_quiet; [|exact W1]. etrans; [by apply (quiet_sent _ id (ieee80211_node_incref ni) subtype)|by apply quiet_net].
  - etrans; [exact T1|]. etrans; [apply touch_upd|by apply touch_net].
Qed.

Lemma aid_lookup n b : maps_ok n -> 0 <= b -> IEEE80211_AID b < ic_max_aid n ->
  exists w, aid_word n b = Ok w.
Proof.
  intros (_ & M & _) H0 H. unfold aid_word. pose proof (AID_range b H0) as Hr.
  destruct (lookup_lt_is_Some_2 (ic_aid_bitmap n) (Z.to_nat (IEEE80211_AID b / 32))) as [w ->]; [|by exists w].
  apply Nat2Z.inj_lt. rewrite Z2Nat.id by (apply Z.div_pos; lia). apply Z.div_lt_upper_bound; lia.
Qed.

(** The top two bits, and the others. *)
Lemma AID_low a : 0 <= a < 0x4000 -> IEEE80211_AID a = a /\ IEEE80211_AID (Z.lor a 0xc000) = a.
Proof.
  intros H. unfold IEEE80211_AID. change (Z.lnot 0xc000) with (Z.lnot (Z.shiftl 3 14)).
  change 0xc000 with (Z.shiftl 3 14).
  assert (forall i, 14 <= i -> Z.testbit a i = false) as Ha.
  { intros i Hi. apply Z.bits_above_log2; [lia|]. destruct (decide (a = 0)) as [->|]; [cbn; lia|].
    apply Z.log2_lt_pow2; [lia|]. assert (2 ^ 14 <= 2 ^ i) by (apply Z.pow_le_mono_r; lia). lia. }
  split; apply Z.bits_inj'; intros i Hi; rewrite Z.land_spec, Z.lnot_spec, ?Z.lor_spec, Z.shiftl_spec by done;
    (destruct (Z.testbit 3 (i - 14)) eqn:Eb; [|by rewrite ?orb_false_r, andb_true_r]).
  all: destruct (decide (14 <= i)) as [Hl|Hl]; [by rewrite (Ha i Hl), andb_false_r|rewrite Z.testbit_neg_r in Eb by lia; done].
Qed.

(** [find_aid] stops at the first id that is free. *)
Lemma find_aid_ok fuel : forall n a,
  maps_ok n -> 1 <= a <= ic_max_aid n -> ic_max_aid n - a <= Z.of_nat fuel ->
  exists aid, find_aid fuel n a = Ok aid /\ a <= aid <= ic_max_aid n /\
    (aid < ic_max_aid n -> IEEE80211_AID_ISSET n aid = Ok false) /\
    (forall j, a <= j < aid -> IEEE80211_AID_ISSET n j = Ok true).
Proof.
  induction fuel as [|fuel IH]; intros n a M Ha Hf.
  - exists a. cbn. split_and!; [done|lia|lia|lia|intros; lia].
  - cbn [find_aid]. pose proof M as (M0 & _). destruct (Z.ltb_spec a (ic_max_aid n)) as [Hl|Hl].
    2:{ exists a. split_and!; [done|lia|lia|lia|intros; lia]. }
    destruct (AID_low a ltac:(lia)) as [Ea _].
    destruct (aid_lookup n a M) as [w Ew]; [lia|lia|]. unfold IEEE80211_AID_ISSET at 1. rewrite Ew. cbn [res_bind].
    destruct (has_flag w _) eqn:Eh.
    + rewrite u16_id by (unfold is_u; lia). destruct (IH n (a + 1) M) as (aid & -> & B & F & T); [lia|lia|].
      exists aid. split_and!; [done|lia|lia|done|]. intros j Hj. destruct (decide (j = a)) as [->|]; [|apply T; lia].
      unfold IEEE80211_AID_ISSET. rewrite Ew. cbn [res_bind]. by rewrite Eh.
    + exists a. split_and!; [done|lia|lia| |intros; lia]. intros _. unfold IEEE80211_AID_ISSET. rewrite Ew. cbn [res_bind]. by rewrite Eh.
Qed.

Lemma aid_set_ok n b : maps_ok n -> 0 <= b -> IEEE80211_AID b < ic_max_aid n ->
  exists l, IEEE80211_AID_SET n b = Ok (set_aid_bitmap n l) /\ same_net n (set_aid_bitmap n l).
Proof.
  intros M H0 H. destruct (aid_lookup n b M H0 H) as [w E]. unfold IEEE80211_AID_SET. rewrite E. cbn [res_bind].
  eexists. split; [done|]. constructor; try done. cbn. by rewrite length_insert.
Qed.

Lemma join_11g_mild n id ni : n_nodes n !! id = Some ni ->
  exists n' ni', ieee80211_node_join_11g n id = Ok n' /\ mild id n n' ni' /\ ni_chan ni' = ni_chan ni.
Proof.
  intros E. unfold ieee80211_node_join_11g. rewrite (node_at_Some _ _ _ E). cbn [res_bind]. cbn zeta. set (n1 := if has_flag _ _ then n else _).
  assert (mild id n n1 ni) as M1 by (subst n1; case_match; apply mild_net; first [done|same_flags]).
  destruct (ieee80211_iserp_rateset (ni_rates ni)).
  - eexists _, _. split; [done|]. split; [apply mild_then_upd; [exact M1|done|done|node_ok_fields]|done].
  - eexists _, _. split; [done|]. split; [|done]. eapply mild_then_net; [exact M1|by repeat case_match|].
    repeat case_match; same_flags.
Qed.

(** The station is given its id and counted. *)
Lemma join_admit_ok n id ni aid :
  nlinks n -> n_nodes n !! id = Some ni -> 1 <= aid < ic_max_aid n ->
  exists n' ni', join_admit n id aid = Ok n' /\ mild id n n' ni' /\ ni_chan ni' = ni_chan ni.
Proof.
  intros L E Ha. pose proof (wf_maps _ _ L) as M. destruct (AID_low aid) as [_ Hl]; [destruct M; lia|]. unfold join_admit. cbn zeta.
  assert (0 <= Z.lor aid 0xc000) as H0 by (apply Z.lor_nonneg; lia).
  assert (mild id n (upd n id (fun ni => set_associd ni (Z.lor aid 0xc000))) (set_associd ni (Z.lor aid 0xc000))) as M1.
  { apply (mild_upd _ _ ni (fun ni => set_associd ni (Z.lor aid 0xc000))); [done|done|done|].
    intros []. constructor; cbn [set_associd ni_associd ni_ucastkey ni_savedq]; auto. rewrite Hl. lia. }
  set (n1 := upd n id _) in *. destruct (aid_set_ok n1 (Z.lor aid 0xc000)) as (l & -> & S2); [exact M|done|rewrite Hl; apply Ha|].
  cbn [res_bind]. cbn zeta. set (n2 := set_sta_assoc _ _).
  assert (mild id n n2 (set_associd ni (Z.lor aid 0xc000))) as M2.
  { apply (mild_then_net _ _ (set_aid_bitmap n1 l)); [by apply (mild_then_net _ _ n1)|done|done]. }
  destruct (_ =? _); [|by eexists _, _].
  destruct (join_11g_mild n2 id _ ltac:(apply M2)) as (n3 & ni3 & -> & M3 & C3). eexists _, _. split; [done|].
  split; [by eapply mild_trans|done].
Qed.

(** There is no association id left for a station that has none. *)
Definition refused (n : net) (id : nat) : bool :=
  match n_nodes n !! id, find_aid (Z.to_nat (ic_max_aid n)) n 1 with
  | Some ni, Ok aid => (ni_associd ni =? 0) && (ic_max_aid n <=? aid)
  | _, _ => false
  end.
(** The modes of an interface that has stations. *)
Definition has_stations (n : net) : Prop :=
  ic_opmode n = IEEE80211_M_HOSTAP \/ ic_opmode n = IEEE80211_M_IBSS \/ ic_opmode n = IEEE80211_M_AHDEMO.

Lemma join_done_ok queued n n1 held id resp isnew ni1 :
  nwf n held -> few held -> mild id n n1 ni1 ->
  exists n' ni' m, join_done queued n1 id resp isnew = Ok n' /\ nwf n' (if queued m id then hinc held id else held) /\
    touch id n n' /\ n_nodes n' !! id = Some ni' /\ core ni' = core ni1 /\ ni_chan ni' = ni_chan ni1.
Proof.
  intros W Hf M1. unfold join_done. cbn zeta. set (n2 := upd (tell n1 _) id _).
  assert (exists ni2, mild id n n2 ni2 /\ core ni2 = core ni1 /\ ni_chan ni2 = ni_chan ni1) as (ni2 & (Q2 & T2 & E2) & K2 & A2).
  { eexists. split; [apply mild_then_upd; [by apply (mild_then_net _ _ n1)|done|done|node_ok_fields]|done]. }
  destruct (send_mgmt_ok queued n2 held id ni2 resp IEEE80211_STATUS_SUCCESS) as (n3 & ni3 & -> & W3 & T3 & E3 & K3 & _ & C3);
    [by apply (nwf_quiet _ n)|by apply few_at|done|].
  cbn [res_bind]. exists (tell n3 (NE_join id isnew)), ni3, n2. split; [done|]. split; [eapply nwf_quiet; [|exact W3]; by apply quiet_net|].
  split; [trans n2; [done|]; trans n3; [done|by apply touch_net]|]. split; [done|]. split; congruence.
Qed.

Lemma node_join_ok queued n held id resp :
  nwf n held -> few held -> (0 < held id)%nat -> has_stations n ->
  exists n' m, ieee80211_node_join dev queued n id resp = Ok n' /\
    (let h := if queued m id then hinc held id else held in nwf n' (if refused n id then hdec h id else h)) /\ touch id n n' /\
    forall ni ni', n_nodes n !! id = Some ni -> n_nodes n' !! id = Some ni' ->
      if refused n id then ni_table ni' = None else core ni' = core ni /\ ni_chan ni' = ni_chan ni.
Proof.
  intros W Hf Hh Ho. destruct (wf_held _ _ _ (proj2 W) id Hh) as [ni E]. unfold ieee80211_node_join, refused.
  rewrite E, (node_at_Some _ _ _ E). cbn [res_bind]. cbn zeta.
  destruct (find_aid_ok (Z.to_nat (ic_max_aid n)) n 1) as (aid & -> & Ba & _);
    [apply W|destruct (wf_maps _ _ (proj1 W)); lia|lia|]. cbn [res_bind].
  assert (forall n1 ni1 isnew, mild id n n1 ni1 -> ni_chan ni1 = ni_chan ni -> exists n' m, join_done queued n1 id resp isnew = Ok n' /\
    nwf n' (if queued m id then hinc held id else held) /\ touch id n n' /\
    forall ni0 ni', Some ni = Some ni0 -> n_nodes n' !! id = Some ni' -> core ni' = core ni0 /\ ni_chan ni' = ni_chan ni0) as Hdone.
  { intros n1 ni1 isnew M C. destruct (join_done_ok queued n n1 held id resp isnew ni1 W Hf M) as (n' & ni2 & m & Ej & W' & T' & E' & K' & C').
    exists n', m. split; [done|]. split; [done|]. split; [done|]. intros ni0 ni' [= <-] E2. pose proof M as (Q & _ & E1).
    pose proof (q_nodes _ _ Q id) as N. rewrite E, E1 in N. destruct N as [N _]. split; congruence. }
  destruct (Z.eqb_spec (ni_associd ni) 0) as [Ha|Ha]; cbn [andb].
  2:{ apply (Hdone n ni); [by apply mild_refl|done]. }
  destruct (Z.leb_spec (ic_max_aid n) aid) as [Hl|Hl].
  - destruct (send_mgmt_ok queued n held id ni resp IEEE80211_REASON_ASSOC_TOOMANY) as (n1 & ni1 & -> & W1 & T1 & E1 & [= _ _ _ A1 _ _] & _);
      [done|by apply few_at|done|]. cbn [res_bind].
    destruct (node_leave_ok dev n1 (if queued n id then hinc held id else held) id ni1 W1) as (n2 & -> & W2 & T2 & H2);
      [destruct (queued n id); rewrite ?hinc_same; lia|done|congruence|pose proof (t_mode _ _ _ T1); unfold has_stations in Ho; naive_solver congruence|].
    exists n2, n. split; [done|]. split; [done|]. split; [by trans n1|]. intros ni0 ni' _. apply H2.
  - destruct (join_admit_ok n id ni aid) as (n1 & ni1 & -> & M1 & C1); [apply W|done|lia|]. cbn [res_bind].
    by apply (Hdone n1 ni1).
Qed.

(** ** Operations of a client *)

Inductive nop :=
| Op_alloc (t : tab) (mac : list Z)
| Op_tmp (mac : list Z)
| Op_dup (t : tab) (mac : list Z)
| Op_fakeup (t : tab) (mac : list Z)
| Op_find (t : tab) (mac : list Z)
| Op_find_rx (wh : list Z)
| Op_find_rxkey (wh : list Z) (keyix : Z)
| Op_find_tx (mac : list Z)
| Op_ref (id : nat)
| Op_free (id : nat)
| Op_setkey (id : nat) (k : ieee80211_key)  (* the driver has given the node a key *)
| Op_join (queued : bool) (id : nat) (resp : Z)
| Op_leave (id : nat)
| Op_switch (id : nat)
| Op_reset (t : tab)
| Op_scan_timer (ticks hz : Z) (t : tab).

Definition handed (r : res (nat * net)) : res (option nat * net) := let* (id, n) := r in Ok (Some id, n).
Definition nothing (r : res net) : res (option nat * net) := let* n := r in Ok (None, n).

Definition exec (o : nop) (n : net) : res (option nat * net) :=
  match o with
  | Op_alloc t mac => ieee80211_alloc_node n t mac
  | Op_tmp mac => ieee80211_tmp_node n mac
  | Op_dup t mac => ieee80211_dup_bss n t mac
  | Op_fakeup t mac => ieee80211_fakeup_adhoc_node n t mac
  | Op_find t mac => ieee80211_find_node n t mac
  | Op_find_rx wh => handed (ieee80211_find_rxnode n wh)
  | Op_find_rxkey wh keyix => handed (ieee80211_find_rxnode_withkey n wh keyix)
  | Op_find_tx mac => ieee80211_find_txnode n mac
  | Op_ref id => nothing (ieee80211_ref_node n id)
  | Op_free id => nothing (ieee80211_free_node dev n id)
  | Op_setkey id k => nothing (let* _ := node_at n id in Ok (upd n id (fun ni => set_ucastkey ni k)))
  | Op_join queued id resp => nothing (ieee80211_node_join dev (fun _ _ => queued) n id resp)
  | Op_leave id => nothing (ieee80211_node_leave dev n id)
  | Op_switch id => nothing (bss_switch dev n id)
  | Op_reset t => nothing (ieee80211_node_table_reset dev n t)
  | Op_scan_timer ticks hz t => nothing (ieee80211_timeout_scan_candidates dev ticks hz n t)
  end.

(** The key of a node may change when the key map does not have it, to one with
    an index of its own. *)
Definition fresh_key (n : net) (id : nat) (k : ieee80211_key) : Prop :=
  wk_cipher k <> None /\ 0 <= wk_rxkeyix k /\ keymap_get n T_sta (wk_rxkeyix k) <> Some id /\
  (forall ni, n_nodes n !! id = Some ni -> keymap_get n T_sta (rxkey ni) <> Some id) /\
  (forall j nj, j <> id -> n_nodes n !! j = Some nj -> rxkey nj = wk_rxkeyix k -> nt_keyixmax (ic_sta n) <= wk_rxkeyix k).

(** What a client owes before each call. *)
Definition may (o : nop) (n : net) (held : nat -> nat) : Prop :=
  match o with
  | Op_alloc _ _ | Op_find _ _ => True
  | Op_tmp _ | Op_dup _ _ | Op_fakeup _ _ | Op_find_rx _ | Op_find_tx _ => is_Some (ic_bss n)
  | Op_find_rxkey _ keyix => is_Some (ic_bss n) /\ 0 <= keyix
  | Op_ref id | Op_free id => (0 < held id)%nat
  | Op_setkey id k => (0 < held id)%nat /\ fresh_key n id k
  | Op_join _ id _ => (0 < held id)%nat /\ has_stations n
  | Op_leave id => (0 < held id)%nat /\ has_stations n /\
      forall ni, n_nodes n !! id = Some ni -> ni_associd ni <> 0 -> counters_ok n ni
  | Op_switch id => (0 < held id)%nat /\ is_Some (ic_bss n)
  | Op_reset t => forall id, id ∈ nt_node (table n t) -> (0 < held id)%nat
  | Op_scan_timer _ _ t => is_Some (ic_bss n) /\ forall id, id ∈ nt_node (table n t) -> (0 < held id)%nat
  end.

(** The references it owns afterwards.  A frame that was queued owns one; the
    node that [ieee80211_find_txnode] makes up is in a table, which owns one. *)
Definition held_after (o : nop) (n : net) (r : option nat) (held : nat -> nat) : nat -> nat :=
  match o with
  | Op_alloc _ _ | Op_tmp _ | Op_dup _ _ | Op_fakeup _ _ | Op_find _ _ | Op_find_rx _ | Op_find_rxkey _ _ =>
      match r with Some id => hinc held id | None => held end
  | Op_find_tx _ =>
      match r with
      | Some id => if decide (id = n_fresh n) then hinc (hinc held id) id else hinc held id
      | None => held
      end
  | Op_ref id => hinc held id
  | Op_free id | Op_leave id | Op_switch id => hdec held id
  | Op_setkey _ _ => held
  | Op_join queued id _ =>
      let h := if queued then hinc held id else held in if refused n id then hdec h id else h
  | Op_reset t => hdecs held (nt_node (table n t))
  | Op_scan_timer _ _ t => hdecs held (filter (due n) (nt_node (table n t)))
  end.

Lemma node_setkey_ok n held id k : nwf n held -> (0 < held id)%nat -> fresh_key n id k ->
  exists n', (let* _ := node_at n id in Ok (upd n id (fun ni => set_ucastkey ni k))) = Ok n' /\ nwf n' held.
Proof.
  intros W Hh (K1 & K2 & K3 & K4 & K5). destruct (wf_held _ _ _ (proj2 W) id Hh) as [ni E].
  rewrite (node_at_Some _ _ _ E). cbn [res_bind]. eexists. split; [done|].
  apply (rekey_ok None None n held id ni (fun ni => set_ucastkey ni k)); [apply W|apply W|done|done| |by apply K4|done|done].
  destruct (wf_node _ _ (proj1 W) _ _ E). by constructor.
Qed.

Lemma table_owned n held t : nwf n held -> (forall id, id ∈ nt_node (table n t) -> (0 < held id)%nat) ->
  owned n held t (nt_node (table n t)).
Proof. intros W H id Hin. split; [by apply H|]. by apply (list_live n held). Qed.

Lemma nothing_ok (r : res net) n' : r = Ok n' -> nothing r = Ok (None, n').
Proof. by intros ->. Qed.

(** Each operation succeeds and keeps the invariant. *)
Lemma exec_ok o n held : nwf n held -> few held -> may o n held ->
  exists r n', exec o n = Ok (r, n') /\ nwf n' (held_after o n r held).
Proof.
  intros W Hf. destruct o; cbn [exec may held_after].
  - intros _. destruct (alloc_node_ok n held t mac W) as (r & n' & -> & H). eexists _, _. split; [done|]. destruct r; apply H.
  - intros [b Eb]. destruct (tmp_node_ok n held mac b W Eb) as (r & n' & -> & H). eexists _, _. split; [done|]. destruct r; apply H.
  - intros [b Eb]. destruct (dup_bss_ok n held t mac b W Eb) as (r & n' & -> & H). eexists _, _. split; [done|]. destruct r; apply H.
  - intros [b Eb]. destruct (fakeup_ok n held t mac b W Eb) as (r & n' & -> & H). eexists _, _. split; [done|]. destruct r; apply H.
  - intros _. destruct (find_node_ok n held t mac W Hf) as (r & n' & Ex & H). eexists _, _. split; [exact Ex|].
    destruct r; [apply H|]. by destruct H as [-> _].
  - intros [b Eb]. destruct (find_or_bss_ok n held (rx_table n) wh b W Hf Eb) as (id & n' & Ex & H & _).
    unfold ieee80211_find_rxnode. rewrite Ex. by eexists _, _.
  - intros [[b Eb] Hk]. destruct (find_rxnode_withkey_ok n held wh keyix b W Hf Eb Hk) as (id & n' & -> & H). by eexists _, _.
  - intros [b Eb]. destruct (find_txnode_ok n held mac b W Hf Eb) as (r & n' & h' & -> & W' & H). eexists _, _. split; [done|].
    destruct r as [id|]; [|by subst]. destruct H as [[Hid ->]|[-> ->]]; [|by rewrite decide_True].
    pose proof (wf_fresh _ _ (proj1 W) id Hid). by rewrite decide_False by lia.
  - intros Hh. destruct (ref_node_ok n held id W (few_at _ _ Hf) (wf_held _ _ _ (proj2 W) id Hh)) as (n' & -> & W' & _). by eexists _, _.
  - intros Hh. destruct (free_node_ok dev 2 n held id W Hh) as (n' & Ex & W' & _). eexists _, _. by rewrite (nothing_ok _ n').
  - intros [Hh Hk]. destruct (node_setkey_ok n held id k W Hh Hk) as (n' & -> & W'). by eexists _, _.
  - intros [Hh Ho]. destruct (node_join_ok (fun _ _ => queued) n held id resp W Hf Hh Ho) as (n' & _ & -> & W' & _). by eexists _, _.
  - intros (Hh & Ho & Hc). destruct (wf_held _ _ _ (proj2 W) id Hh) as [ni E].
    destruct (node_leave_ok dev n held id ni W Hh E (Hc ni E) Ho) as (n' & -> & W' & _). by eexists _, _.
  - intros [Hh Hb]. destruct (bss_switch_ok n held id W Hb Hh) as (n' & -> & W'). by eexists _, _.
  - intros Hh. destruct (table_reset_ok dev n held t W Hh) as (n' & -> & W' & _). by eexists _, _.
  - intros [[b Eb] Hh]. destruct (timeout_scan_ok ticks hz n held t b W Eb (table_owned _ _ _ W Hh)) as (n' & -> & W').
    by eexists _, _.
Qed.
End History.
