(* ===== verification/NodeLife.v ===== *)
(** * From attach to detach

    An interface starts in a well-formed state, every history of operations on
    it is free of memory errors, and detaching frees every node. *)

From stdpp Require Import gmap.
From S2P Require Import Prelude Buffers Mbuf Ieee80211 Crypto InfoElem Wme Node NodeTable NodeProof NodeSafety NodeHistory.

Section Life.
Context (dev : key_ops).

(** ** Attach *)

(** An interface that is being attached: a zeroed structure, with memory for
    one node and room for a station. *)
Record pristine (n : net) : Prop := mkPristine {
  pr_nodes : n_nodes n = ∅;
  pr_bss : ic_bss n = None;
  pr_hash : nt_hash (ic_scan n) = replicate (Z.to_nat IEEE80211_NODE_HASHSIZE) [] /\
            nt_hash (ic_sta n) = replicate (Z.to_nat IEEE80211_NODE_HASHSIZE) [];
  pr_keys : ic_max_keyix (n_ic n) <= IEEE80211_KEYIX_NONE;
  pr_aid : 0 < ic_max_aid n;
  pr_mem : exists mem, n_mem n = true :: mem;
}.

(** No node at all. *)
Lemma nwf_empty n : n_nodes n = ∅ -> ic_bss n = None -> maps_ok n ->
  (forall t, nt_node (table n t) = [] /\ nt_hash (table n t) = replicate (Z.to_nat IEEE80211_NODE_HASHSIZE) []) ->
  nt_keyixmap (ic_scan n) = None -> nt_keyixmax (ic_sta n) <= IEEE80211_KEYIX_NONE ->
  nt_keyixmap (ic_sta n) = None \/ nt_keyixmap (ic_sta n) = Some (replicate (Z.to_nat (nt_keyixmax (ic_sta n))) None) ->
  nwf n (fun _ => 0%nat).
Proof.
  intros En Eb M Ht K1 K2 K3.
  assert (forall g t id P, ~ linked g n t id P) as HN by (intros g t id P (_ & ni & E & _); by rewrite En in E).
  split; [split|split]; rewrite ?En, ?Eb; try done.
  - intros id [ni E]. done.
  - intros t. destruct (Ht t) as [L1 L2]. split; rewrite ?L1, ?L2; [apply NoDup_nil_2| |by rewrite length_replicate|].
    + intros id. split; [by intros ?%not_elem_of_nil|by intros ?%HN].
    + intros b l id [-> _]%lookup_replicate. split; [by intros ?%not_elem_of_nil|by intros ?%HN].
  - split; [done|done| | |].
    + intros m Em. destruct K3 as [K3|K3]; rewrite K3 in Em; [done|]. injection Em as <-. by rewrite length_replicate.
    + intros k id _. unfold keymap_get. cbn [table]. destruct K3 as [-> | ->]; [done|]. destruct (_ <? _); [|done].
      destruct (replicate _ _ !! _) as [o|] eqn:E; [|done]. by apply lookup_replicate in E as [-> _].
    + intros id1 id2 ni1 ni2 E1. by rewrite En in E1.
  - intros id. lia.
Qed.

Lemma reset_empty n t : nt_node (table n t) = [] ->
  exists n', ieee80211_node_table_reset dev n t = Ok n' /\ n_nodes n' = n_nodes n /\ same_net n n' /\ n_mem n' = n_mem n.
Proof.
  intros El. unfold ieee80211_node_table_reset, ieee80211_free_allnodes_locked. set (n1 := put_table n t _).
  assert (nt_node (table n1 t) = []) as E1 by by destruct t.
  assert (n_nodes n1 = n_nodes n /\ same_net n n1 /\ n_mem n1 = n_mem n) as (A1 & A2 & A3) by by destruct t.
  rewrite E1. cbn [length free_all_loop]. rewrite E1. cbn [res_bind]. eexists. split; [done|].
  destruct (reset_erp_quiet n1) as [B1 B2]. split; [congruence|]. split; [by trans n1|]. rewrite <- A3.
  unfold ieee80211_reset_erp, ieee80211_set_shortslottime. cbn zeta. repeat case_match; done.
Qed.

(** The first BSS node has two owners: its table and [ic_bss]. *)
Lemma first_bss_ok n mem : nwf n (fun _ => 0%nat) -> ic_bss n = None -> (forall t, nt_node (table n t) = []) -> n_mem n = true :: mem ->
  exists n' id, ieee80211_reset_bss dev n = Ok n' /\ nwf n' (hinc (fun _ => 0%nat) id) /\ ic_bss n' = Some id.
Proof.
  intros W Eb El Em. unfold ieee80211_reset_bss.
  destruct (reset_empty n T_scan (El T_scan)) as (n1 & -> & E1 & S1 & M1). cbn [res_bind].
  destruct (reset_empty n1 T_sta) as (n2 & -> & E2 & S2 & M2); [destruct (same_table _ _ S1 T_sta) as (-> & _); apply El|]. cbn [res_bind].
  assert (same_net n n2) as S by by trans n1.
  assert (nwf n2 (fun _ => 0%nat)) as W2 by (apply (nwf_quiet _ n); [apply quiet_net; [congruence|done]|done]).
  unfold ieee80211_alloc_node, node_alloc. rewrite M2, M1, Em.
  destruct (setup_node_ok n2 _ T_scan (ic_myaddr n2) mem W2) as (n3 & Es & Hid & W3 & B3 & _ & _ & ni & E3 & _).
  rewrite Es. cbn [res_bind].
  destruct (ref_node_ok n3 _ (n_fresh n2) W3) as (n4 & -> & W4 & T4); [rewrite hinc_same; lia|by eexists|]. cbn [res_bind].
  pose proof (set_bss_ok n4 _ (n_fresh n2) W4 ltac:(rewrite hinc_same; lia)) as W5.
  unfold handover in W5. rewrite (t_bss _ _ _ T4), B3, (sn_bss _ _ S), Eb in W5. rewrite B3, (sn_bss _ _ S), Eb.
  eexists _, (n_fresh n2). split; [done|]. split; [|done]. eapply nwf_ext; [|exact W5]. intros j. by rewrite hdec_hinc.
Qed.

Lemma lateattach_ok n : pristine n ->
  exists n' id, ieee80211_node_lateattach dev n = Ok n' /\ nwf n' (hinc (fun _ => 0%nat) id) /\ ic_bss n' = Some id.
Proof.
  intros [En Eb [H1 H2] Hk Ha [mem Em]]. unfold ieee80211_node_lateattach. cbn zeta.
  set (n0 := if _ <? _ then _ else n).
  assert (0 < ic_max_aid n0 <= IEEE80211_AID_MAX) as Ha0 by (subst n0; unfold IEEE80211_AID_MAX; case_match eqn:El; rewrite ?Z.ltb_lt, ?Z.ltb_ge in El; cbn; lia).
  assert ((n_nodes n0, ic_bss n0, nt_hash (ic_scan n0), nt_hash (ic_sta n0), n_mem n0, n_ic n0) =
          (n_nodes n, ic_bss n, nt_hash (ic_scan n), nt_hash (ic_sta n), n_mem n, n_ic n)) as [= P1 P2 P3 P4 P5 P6] by (subst n0; by case_match).
  clearbody n0. set (n1 := put_table _ T_scan _).
  destruct (first_bss_ok n1 mem) as (n2 & id & -> & W2 & B2).
  - apply nwf_empty; try done.
    + cbn. congruence.
    + cbn. congruence.
    + unfold maps_ok. cbn. rewrite !length_replicate, !Z2Nat.id by (apply Z.div_pos; lia).
      unfold IEEE80211_AID_MAX in Ha0. pose proof (Z.div_mod (ic_max_aid n0 + 31) 32). pose proof (Z.div_mod (ic_max_aid n0 + 7) 8).
      pose proof (Z.mod_pos_bound (ic_max_aid n0 + 31) 32). pose proof (Z.mod_pos_bound (ic_max_aid n0 + 7) 8). lia.
    + intros [|]; cbn; split; congruence.
    + cbn. by rewrite P6.
    + cbn. rewrite P6. destruct (0 <? _); [by right|by left].
  - cbn. congruence.
  - by intros [|].
  - cbn. congruence.
  - cbn [res_bind]. rewrite B2. destruct (wf_bss _ _ (proj1 W2) id B2) as [ni E]. rewrite (node_at_Some _ _ _ E). cbn [res_bind].
    eexists _, id. split; [done|]. split; [|done]. eapply nwf_quiet; [|exact W2]. apply (quiet_upd _ _ ni); [done|done|done|node_ok_fields].
Qed.

(** ** Histories *)

(** What clients may do, one call after another. *)
Inductive history (n : net) (held : nat -> nat) : net -> (nat -> nat) -> Prop :=
| H_start : history n held n held
| H_step n1 held1 o r n2 : history n held n1 held1 -> few held1 -> may o n1 held1 -> exec dev o n1 = Ok (r, n2) ->
    history n held n2 (held_after o n1 r held1).

Lemma history_wf n held n' held' : nwf n held -> history n held n' held' -> nwf n' held'.
Proof.
  intros W H. induction H as [|n1 held1 o r n2 _ IH Hf Hm Ex]; [done|].
  destruct (exec_ok dev o n1 held1 IH Hf Hm) as (r' & n2' & Ex' & W'). rewrite Ex in Ex'. by injection Ex' as <- <-.
Qed.

(** ** Detach *)

(** A node whose key the key map cannot hold, with no other owner. *)
Definition sole (n : net) (held : nat -> nat) (id : nat) : Prop :=
  held id = 1%nat /\ ic_bss n <> Some id /\ forall ni, n_nodes n !! id = Some ni -> nt_keyixmax (ic_sta n) <= rxkey ni.
Lemma keymap_past n k : nt_keyixmax (ic_sta n) <= k -> keymap_get n T_sta k = None.
Proof. intros H. unfold keymap_get. cbn [table]. rewrite (proj2 (Z.ltb_ge _ _) H). by destruct (nt_keyixmap _). Qed.

Lemma reclaim_gone n held t id ni n' : nwf n held -> sole n held id -> n_nodes n !! id = Some ni ->
  node_reclaim dev n t id = Ok n' -> n_nodes n' !! id = None.
Proof.
  intros W (Hh & Hb & Hk) E. unfold node_reclaim. rewrite (node_at_Some _ _ _ E). cbn [res_bind]. cbn zeta. fold (rxkey ni).
  pose proof (keymap_past n (rxkey ni) (Hk ni E)) as Hg.
  rewrite bool_decide_eq_false_2 by (destruct t; rewrite ?(keymap_scan _ _ _ (proj1 W)), ?Hg; done).
  destruct (wf_ref _ _ _ (proj2 W) _ _ E) as [R _]; [done|].
  unfold keyref, bssref in R. rewrite Hg, Hh in R. rewrite !decide_False in R by done.
  destruct (dectest_last n held id ni W E ltac:(lia) ltac:(lia)) as (n1 & ni1 & -> & L1 & C1 & E1 & _). cbn [res_bind negb].
  destruct (free_dying dev (ieee80211_free_node dev) n1 (hdec held id) id ni1 L1 C1 E1) as (n2 & -> & _ & _ & Hg2).
  by intros [= <-].
Qed.

Lemma sole_touch n n' held id j : touch id n n' -> j <> id -> sole n held j -> sole n' (hdec held id) j.
Proof.
  intros T Hj (Hh & Hb & Hk). split; [by rewrite hdec_other|]. split; [by rewrite (t_bss _ _ _ T)|].
  intros nj. rewrite (t_others _ _ _ T j Hj), (t_keymax _ _ _ T). apply Hk.
Qed.

(** Emptying a table frees the nodes that nobody else holds. *)
Lemma free_all_gone t l : forall n held n',
  nt_node (table n t) = l -> nwf n held -> (forall id, id ∈ l -> sole n held id) -> free_all_loop dev (length l) n t = Ok n' ->
  (forall j, n_nodes n' !! j = if decide (j ∈ l) then None else n_nodes n !! j) /\
  nt_keyixmax (ic_sta n') = nt_keyixmax (ic_sta n).
Proof.
  induction l as [|id l IH]; intros n held n' El W HS.
  { cbn. rewrite El. intros [= <-]. split; [|done]. intros j. by rewrite decide_False by apply not_elem_of_nil. }
  cbn [length free_all_loop]. rewrite El. destruct (list_live n held t id W) as (ni & E & Et); [rewrite El; left|].
  rewrite (node_at_Some _ _ _ E). cbn [res_bind].
  destruct (drop_aid_ok n id ni (proj1 W) E) as (n1 & -> & E1 & S1).
  cbn [res_bind]. pose proof (nwf_quiet _ _ _ _ (quiet_net _ _ E1 S1) W) as W1. pose proof (touch_net id _ _ E1 S1) as T1.
  assert (sole n1 held id) as HS1.
  { destruct (HS id) as (Hh & Hb & Hk); [left|]. split; [done|]. rewrite (sn_bss _ _ S1), E1, (t_keymax _ _ _ T1). done. }
  destruct (reclaim_step dev n1 held t id ni W1) as (n2 & Er & W2 & T2 & O2 & L2); [destruct HS1; lia|by rewrite E1|done|].
  pose proof (reclaim_gone n1 held t id ni n2 W1 HS1 ltac:(by rewrite E1) Er) as Hg. rewrite Er. cbn [res_bind].
  pose proof (tab_nodup _ _ _ (wf_tab _ _ (proj1 W) t)) as Hnd. rewrite El in Hnd. apply list.NoDup_cons in Hnd as [Hni Hnd].
  assert (touch id n n2) as T by by trans n1.
  intros H. apply (IH n2 (hdec held id)) in H as [Hj Hx]; [|  |done|].
  - split; [|by rewrite Hx, (t_keymax _ _ _ T)]. intros j. rewrite Hj. destruct (decide (j = id)) as [->|Hne].
    + rewrite decide_False by done. rewrite decide_True by left. done.
    + rewrite (t_others _ _ _ T j Hne). destruct (decide (j ∈ l)); [by rewrite decide_True by (by right)|].
      rewrite decide_False; [done|]. by intros [->|?]%elem_of_cons.
  - rewrite L2. destruct (same_table _ _ S1 t) as (-> & _). rewrite El, filter_cons_False by naive_solver. by apply filter_out.
  - intros j Hj. apply (sole_touch n n2 held id j T); [by intros ->|]. apply HS. by right.
Qed.

Lemma table_cleanup_gone n held t : nwf n held -> (forall id, id ∈ nt_node (table n t) -> sole n held id) ->
  exists n1 n', ieee80211_free_allnodes_locked dev n t = Ok n1 /\ ieee80211_node_table_cleanup dev n t = Ok n' /\
    n' = put_table n1 t (set_nt_keyixmap (table n1 t) None) /\
    nwf n1 (hdecs held (nt_node (table n t))) /\ only_table t n n1 /\
    (forall j, n_nodes n' !! j = if decide (j ∈ nt_node (table n t)) then None else n_nodes n !! j) /\
    nt_keyixmax (ic_sta n1) = nt_keyixmax (ic_sta n).
Proof.
  intros W HS. destruct (free_allnodes_ok dev n held t W) as (n1 & Ef & W1 & _ & O1); [intros id H; destruct (HS id H); lia|].
  unfold ieee80211_node_table_cleanup. rewrite Ef. cbn [res_bind]. eexists _, _. split; [done|]. split; [done|]. split; [done|].
  split; [done|]. split; [done|]. unfold ieee80211_free_allnodes_locked in Ef.
  destruct (free_all_loop dev (length (nt_node (table n t))) n t) as [n2|] eqn:El; [|done]. cbn [res_bind] in Ef. injection Ef as <-.
  destruct (reset_erp_quiet n2) as [E2 S2]. destruct (free_all_gone t _ n held n2 eq_refl W HS El) as [Hj Hx].
  split; [intros j; rewrite put_table_nodes, E2; apply Hj|]. destruct (same_table _ _ S2 T_sta) as (_ & _ & _ & K). cbn in K. congruence.
Qed.

(** Nobody but the tables and [ic_bss] holds a node, and none has a key that
    the key map can hold. *)
Record idle (n : net) (held : nat -> nat) : Prop := mkIdle {
  id_held : forall id, held id = if decide (id ∈ nt_node (ic_scan n) \/ id ∈ nt_node (ic_sta n)) then 1%nat else 0%nat;
  id_bss : forall b, ic_bss n = Some b -> held b = 1%nat;
  id_keys : forall id ni, n_nodes n !! id = Some ni -> nt_keyixmax (ic_sta n) <= rxkey ni;
}.

Lemma clear_bss_ok n held b : nwf n held -> ic_bss n = Some b -> nwf (set_bss n None) (hinc held b).
Proof.
  intros [L [Wr _ Wh]] Eb. assert (forall j nj, node_ok n nj -> node_ok (set_bss n j) nj) as HO by (intros j nj []; by constructor).
  split; [destruct L as [Wb Wf Wt Wk Wn Wm]; split|split].
  - done.
  - apply Wf.
  - intros t. specialize (Wt t). by destruct t, Wt; split.
  - by destruct Wk; split.
  - intros j nj Ej. apply HO. by apply (Wn j).
  - exact Wm.
  - intros j nj Ej _. destruct (Wr _ _ Ej) as [R B]; [done|]. split; [|done]. rewrite R.
    unfold bssref, hinc. cbn [ic_bss set_bss]. change (keyref (set_bss n None) j nj) with (keyref n j nj). rewrite Eb.
    repeat case_decide; simplify_eq; lia.
  - done.
  - intros j Hj. cbn [n_nodes set_bss]. destruct (decide (j = b)) as [->|Ho]; [by apply (wf_bss _ _ L)|].
    apply Wh. by rewrite hinc_other in Hj.
Qed.

(** Giving up the BSS node leaves it to its table. *)
Lemma drop_bss_ok n held : nwf n held -> idle n held ->
  exists n', (match ic_bss n with Some b => let* n := ieee80211_free_node dev n b in Ok (set_bss n None) | None => Ok n end) = Ok n' /\
    nwf n' held /\ idle n' held /\ ic_bss n' = None.
Proof.
  intros W [I1 I2 I3]. destruct (ic_bss n) as [b|] eqn:Eb; [|exists n; split; [done|]; split; [done|]; split; [|done]; split; rewrite ?Eb; done].
  pose proof (I2 b eq_refl) as Hb. destruct (free_node_ok dev 2 n held b W ltac:(lia)) as (n1 & Ef & W1 & T1 & Hc).
  change (free_node_n dev 3) with (ieee80211_free_node dev) in Ef. rewrite Ef. cbn [res_bind].
  pose proof (clear_bss_ok n1 _ b W1 ltac:(by rewrite (t_bss _ _ _ T1))) as W2.
  assert (forall j, held j = hinc (hdec held b) b j) as Hh.
  { intros j. unfold hinc, hdec. case_decide; [subst; lia|done]. }
  apply (nwf_ext _ _ _ _ Hh) in W2. eexists. split; [done|]. split; [done|]. split; [|done].
  assert (forall j nj, n_nodes n1 !! j = Some nj -> exists nj0, n_nodes n !! j = Some nj0 /\ core nj = core nj0) as HC.
  { intros j nj Ej. destruct (decide (j = b)) as [->|Hne]; [destruct (Hc nj Ej) as (x & ? & ? & _); by exists x|]. rewrite (t_others _ _ _ T1 j Hne) in Ej. by exists nj. }
  assert (forall j t, j ∈ nt_node (table n1 t) <-> j ∈ nt_node (table n t)) as HL.
  { intros j t. pose proof (t_lists _ _ _ T1 t) as F. destruct (decide (j = b)) as [->|Hne].
    - destruct (wf_held _ _ _ (proj2 W2) b ltac:(lia)) as [nb Enb]. destruct (Hc _ Enb) as (nb0 & Enb0 & (Ct & _)%core_inv & _).
      rewrite (tab_in _ _ _ (wf_tab _ _ (proj1 W1) t)), (tab_in _ _ _ (wf_tab _ _ (proj1 W) t)). unfold linked. cbn in Enb.
      rewrite Enb, Enb0. naive_solver congruence.
    - assert (j ∈ filter (.≠ b) (nt_node (table n1 t)) <-> j ∈ filter (.≠ b) (nt_node (table n t))) as HF by by rewrite F.
      rewrite !list_elem_of_filter in HF. tauto. }
  split.
  - intros id. rewrite I1. pose proof (HL id T_scan) as H1. pose proof (HL id T_sta) as H2. cbn in H1, H2 |- *.
    apply decide_ext. tauto.
  - done.
  - intros id ni Ei. destruct (HC id ni Ei) as (n0 & E0 & (_ & _ & ->)%core_inv).
    change (nt_keyixmax (ic_sta (set_bss n1 None))) with (nt_keyixmax (ic_sta n1)). rewrite (t_keymax _ _ _ T1). by apply (I3 id).
Qed.

(** The scan table has no key map to free. *)
Lemma scan_map_quiet n held : nwf n held -> quiet n (put_table n T_scan (set_nt_keyixmap (table n T_scan) None)).
Proof. intros W. apply quiet_net; [done|]. pose proof (key_scan _ (wf_keys _ _ (proj1 W))) as K. constructor; try done. cbn. by rewrite K. Qed.

Lemma idle_sole n held t : idle n held -> ic_bss n = None -> forall id, id ∈ nt_node (table n t) -> sole n held id.
Proof.
  intros [I1 _ I3] Eb id Hin. split; [|split; [by rewrite Eb|apply I3]].
  rewrite I1, decide_True; [done|]. destruct t; [by left|by right].
Qed.

Lemma detach_frees n held : nwf n held -> idle n held -> exists n', ieee80211_node_detach dev n = Ok n' /\ n_nodes n' = ∅.
Proof.
  intros W I. unfold ieee80211_node_detach. destruct (drop_bss_ok n held W I) as (n1 & -> & W1 & I1 & B1). cbn [res_bind].
  destruct (table_cleanup_gone n1 held T_scan W1 (idle_sole _ _ _ I1 B1)) as (m2 & n2 & _ & -> & -> & W2 & [O2 P2] & G2 & K2).
  cbn [res_bind]. set (n2 := put_table m2 _ _) in *. pose proof (scan_map_quiet _ _ W2 : quiet m2 n2) as Q2.
  pose proof (nwf_quiet _ _ _ _ Q2 W2) as W3. pose proof (sn_bss _ _ (q_net _ _ Q2)) as B2.
  assert (nt_node (ic_sta n2) = nt_node (ic_sta n1)) as L2 by exact (O2 T_sta ltac:(done)).
  destruct (table_cleanup_gone n2 _ T_sta W3) as (m3 & n3 & _ & -> & _ & _ & _ & G3 & _).
  { cbn [table]. rewrite L2. intros id Hin. destruct (list_live n1 held T_sta id W1 Hin) as (ni & E & Et).
    assert (id ∉ nt_node (ic_scan n1)) as Hno.
    { intros H. destruct (list_live n1 held T_scan id W1 H) as (ni' & E' & Et'). congruence. }
    destruct (idle_sole _ _ T_sta I1 B1 id Hin) as (S1 & _ & S3). split; [by rewrite hdecs_out|]. split; [congruence|].
    intros ni2. rewrite G2. cbn [table]. rewrite decide_False by done. intros E2.
    change (nt_keyixmax (ic_sta n2)) with (nt_keyixmax (ic_sta m2)). rewrite K2. by apply S3. }
  cbn [res_bind]. eexists. split; [done|]. apply map_empty. intros j.
  change (n_nodes n3 !! j = None). rewrite G3, G2. cbn [table]. rewrite L2. do 2 (case_decide; [done|]).
  destruct (n_nodes n1 !! j) as [nj|] eqn:Ej; [|done]. exfalso.
  destruct (wf_ref _ _ _ (proj2 W1) _ _ Ej) as [R B]; [done|]. destruct I1 as [J1 _ J3].
  unfold keyref, bssref in R. rewrite B1, (keymap_past _ _ (J3 _ _ Ej)) in R. rewrite J1 in R.
  rewrite !decide_False in R by (done || tauto). lia.
Qed.

(** ** The theorems *)


(** C3. Once only the tables and [ic_bss] hold nodes, detaching the interface
    returns and leaves no node allocated. *)
Theorem detach_leaks_nothing n held n' held' :
  nwf n held -> history n held n' held' -> idle n' held' ->
  exists n'', ieee80211_node_detach dev n' = Ok n'' /\ n_nodes n'' = ∅.
Proof. intros W H. apply detach_frees. by apply (history_wf n held). Qed.
End Life.

(** ** An example *)

Definition empty_table : ieee80211_node_table := mkTable [] (replicate (Z.to_nat IEEE80211_NODE_HASHSIZE) []) 0 0 0 None 0.
(** An interface as a driver hands it over. *)
Definition sample_net (opmode curmode caps : Z) : net :=
  mkNet (mkCom true 0 caps (fun _ => 0) [] 0 4 []) (mkKmem [] 0) (mkHeap [] 0) ∅ 0%nat (replicate 8 true) None empty_table empty_table
    opmode curmode IEEE80211_PROT_NONE (mkChan 1 2412 0xa0) (fun _ => [2; 4; 11; 22]) [2; 0; 0; 0; 0; 1] IEEE80211_AID_DEF [] [] 0 0 0 0 0 100 100
    IEEE80211_INACT_AUTH IEEE80211_INACT_RUN IEEE80211_INACT_PROBE 4 (-1) 0 0 (replicate 6 0xff) 2346 idle_wme no_conf [].
Lemma sample_pristine opmode curmode caps : pristine (sample_net opmode curmode caps).
Proof. split; try done. by eexists. Qed.

(** The state after a call. *)
Definition after (n : net) (o : nop) : net := match exec null_key_ops o n with Ok (_, n') => n' | Fault _ => n end.
Definition attached (opmode curmode caps : Z) : res net := ieee80211_node_lateattach null_key_ops (sample_net opmode curmode caps).
Definition station : list Z := [2; 0; 0; 0; 0; 9].


(** A station is added to the table, looked up and let go of again. *)
Definition sample_start : net :=
  match attached IEEE80211_M_HOSTAP IEEE80211_MODE_11B 0 with Ok n => n | Fault _ => sample_net 0 0 0 end.
Definition sample_ops : list nop := [Op_alloc T_sta station; Op_find T_sta station; Op_free 1%nat].
Definition sample_held : nat -> nat := hdec (hinc (hinc (hinc (fun _ => 0%nat) 0%nat) 1%nat) 1%nat) 1%nat.

Lemma sample_start_ok : nwf sample_start (hinc (fun _ => 0%nat) 0%nat).
Proof.
  destruct (lateattach_ok null_key_ops (sample_net IEEE80211_M_HOSTAP IEEE80211_MODE_11B 0)) as (n & b & E & W & B); [apply sample_pristine|].
  assert (sample_start = n) as <- by (unfold sample_start, attached; by rewrite E).
  assert (b = 0%nat) as -> by (vm_compute in B; congruence). exact W.
Qed.
Lemma few_small held : (forall id, (held id <= 8)%nat) -> few held.
Proof. intros H id. specialize (H id). lia. Qed.
Lemma sample_history : history null_key_ops sample_start (hinc (fun _ => 0%nat) 0%nat) (fold_left after sample_ops sample_start) sample_held.
Proof.
  set (n1 := after sample_start (Op_alloc T_sta station)). set (n2 := after n1 (Op_find T_sta station)).
  apply (H_step _ _ _ n2 (hinc (hinc (hinc (fun _ => 0%nat) 0%nat) 1%nat) 1%nat) (Op_free 1%nat) None);
    [|apply few_small; intros id; unfold hinc; repeat case_decide; lia|vm_compute; lia|vm_compute; reflexivity].
  apply (H_step _ _ _ n1 (hinc (hinc (fun _ => 0%nat) 0%nat) 1%nat) (Op_find T_sta station) (Some 1%nat));
    [|apply few_small; intros id; unfold hinc; repeat case_decide; lia|done|vm_compute; reflexivity].
  apply (H_step _ _ _ sample_start (hinc (fun _ => 0%nat) 0%nat) (Op_alloc T_sta station) (Some 1%nat));
    [apply H_start|apply few_small; intros id; unfold hinc; repeat case_decide; lia|done|vm_compute; reflexivity].
Qed.
Lemma sample_idle : idle (fold_left after sample_ops sample_start) sample_held.
Proof.
  split.
  - assert (nt_node (ic_scan (fold_left after sample_ops sample_start)) = [0%nat] /\
            nt_node (ic_sta (fold_left after sample_ops sample_start)) = [1%nat]) as [-> ->] by (vm_compute; done).
    intros id. destruct (decide (id ∈ [0%nat] \/ id ∈ [1%nat])) as [H|H]; rewrite !list_elem_of_singleton in H;
      unfold sample_held, hdec, hinc; repeat case_decide; subst; lia.
  - vm_compute. by intros b [= <-].
  - intros id ni E. assert (n_nodes (fold_left after sample_ops sample_start) !! id = Some ni -> id = 0%nat \/ id = 1%nat) as H.
    { intros H. assert (dom (n_nodes (fold_left after sample_ops sample_start)) = {[0%nat; 1%nat]}) as D by (vm_compute; reflexivity).
      apply elem_of_dom_2 in H. rewrite D in H. by rewrite elem_of_union, !elem_of_singleton in H. }
    destruct (H E) as [-> | ->]; vm_compute in E; injection E as <-; vm_compute; congruence.
Qed.
Lemma detach_leaks_nothing_witness :
  nwf sample_start (hinc (fun _ => 0%nat) 0%nat) /\
  history null_key_ops sample_start (hinc (fun _ => 0%nat) 0%nat) (fold_left after sample_ops sample_start) sample_held /\
  idle (fold_left after sample_ops sample_start) sample_held /\
  exists n'', ieee80211_node_detach null_key_ops (fold_left after sample_ops sample_start) = Ok n'' /\ n_nodes n'' = ∅.
Proof.
  split; [apply sample_start_ok|]. split; [apply sample_history|]. split; [apply sample_idle|].
  apply (detach_leaks_nothing null_key_ops sample_start _ _ _ sample_start_ok sample_history sample_idle).
Defined.
