(* ===== verification/NodeTimer.v ===== *)
(** * The station timer

    [ieee80211_timeout_stations] starts over at the head of the list whenever it
    has sent a frame, and passes over the nodes it has marked.  It ends, ages
    every station once, and removes those that have been silent too long. *)

From stdpp Require Import gmap.
From S2P Require Import Prelude Buffers Mbuf Ieee80211 Crypto InfoElem Node NodeTable NodeProof NodeSafety NodeHistory NodeLife.

Section Timer.
Context (dev : key_ops) (queued : net -> nat -> bool) (ticks hz : Z).

(** Nodes the timer does not age: those a station has never authenticated
    with, on an access point, and the BSS node. *)
Definition exempt (n : net) (id : nat) (ni : ieee80211_node) : bool :=
  ((ic_opmode n =? IEEE80211_M_HOSTAP) && negb (has_flag (ni_flags ni) IEEE80211_NODE_AREF)) || bool_decide (ic_bss n = Some id).

Lemma age_savedq_discard q : forall h, let '(q', _, d) := age_savedq q h in 0 <= d /\ (d <> 0 -> q <> []) /\ (q' <> [] -> q <> []).
Proof.
  induction q as [|[age m] q IH]; intros h; [done|]. cbn [age_savedq]. destruct (age <? _).
  - specialize (IH (m_freem h m)). destruct (age_savedq q (m_freem h m)) as [[q'' h''] d]. split; [lia|done].
  - done.
Qed.

(** Fields that ageing the queue keeps. *)
Definition kept (ni : ieee80211_node) : option tab * Z * Z * Z := (ni_table ni, ni_scangen ni, ni_inact ni, ni_associd ni).

Lemma age_station_mild n id ni : nlinks n -> n_nodes n !! id = Some ni ->
  exists n' ni', age_station n id = Ok n' /\ mild id n n' ni' /\ kept ni' = kept ni.
Proof.
  intros L E. unfold age_station. rewrite (node_at_Some _ _ _ E). cbn [res_bind].
  pose proof (age_savedq_discard (ni_savedq ni) (n_heap n)) as HD. destruct (age_savedq (ni_savedq ni) (n_heap n)) as [[q h] d].
  destruct HD as (_ & Hd & Hq). set (n1 := upd (set_heap n h) id _).
  assert (mild id n n1 (set_savedq ni q)) as M1.
  { apply (mild_then_upd _ _ _ ni (fun ni => set_savedq ni q)); [by apply mild_heap|done|done|].
    intros [A1 A2 A3 A4 A5]. constructor; [done|done|done| |done]. cbn. intros ?%Hq. by apply A4. }
  destruct q as [|p q]; [|by eexists _, _]. destruct (Z.eqb_spec d 0) as [|Hne]; [by eexists _, _|].
  pose proof (mild_ok _ _ _ _ M1 L) as K1. destruct (set_tim_ok n1 id (set_savedq ni []) false) as (n2 & -> & E2 & S2).
  - apply M1.
  - exact K1.
  - exact (wf_maps _ _ L).
  - destruct (wf_node _ _ L _ _ E) as [_ _ _ A4]. by apply A4, Hd.
  - eexists _, _. split; [done|]. split; [by eapply mild_then_net|done].
Qed.

(** A probe: the frame keeps the reference or it is given back. *)
Lemma probe_ok n held id ni : nwf n held -> Z.of_nat (held id) + 3 < 2 ^ 32 -> n_nodes n !! id = Some ni ->
  exists n' ni' held', (let* n := ieee80211_ref_node n id in ieee80211_send_nulldata queued n id) = Ok n' /\
    nwf n' held' /\ touch id n n' /\ (forall j, j <> id -> held' j = held j) /\ n_nodes n' !! id = Some ni' /\ kept ni' = kept ni /\
    (held id <= held' id <= S (held id))%nat.
Proof.
  intros W Hf E. destruct (ref_node_ok n held id W Hf) as (n1 & Er & W1 & T1); [by eexists|]. rewrite Er. cbn [res_bind].
  unfold ieee80211_ref_node in Er. rewrite (node_at_Some _ _ _ E) in Er. injection Er as <-. set (n1 := upd n id _) in *.
  pose proof (upd_same n id ieee80211_node_incref ni E : n_nodes n1 !! id = _) as E1.
  unfold ieee80211_send_nulldata. rewrite (node_at_Some _ _ _ E1). cbn [res_bind]. destruct (queued n1 id).
  - eexists _, _, (hinc held id). split; [done|].
    split; [|split_and!; [|intros; by apply hinc_other|exact (upd_same n1 id take_seq _ E1)|done|rewrite hinc_same; lia..]].
    + eapply nwf_quiet; [|exact W1]. etrans; [by apply (quiet_sent n1 id _ 0 E1)|by apply quiet_net].
    + etrans; [exact T1|]. etrans; [apply touch_upd|by apply touch_net].
  - set (n2 := bump n1 is_tx_nobuf). assert (nwf n2 (hinc held id)) as W2 by (eapply nwf_quiet; [|exact W1]; by apply quiet_net).
    pose proof (proj2 W2) as C2. destruct (wf_ref _ _ _ C2 _ _ E1) as [R B]; [done|].
    pose proof (keyref_range n2 id (ieee80211_node_incref ni)). pose proof (bssref_range n2 id). rewrite hinc_same in R.
    eexists _, _, held. split; [done|]. assert (n_nodes n2 !! id = Some (ieee80211_node_incref ni)) as E2 by exact E1.
    split; [|split_and!; [|done|exact (upd_same n2 id _ _ E2)|done|lia|lia]].
    + rewrite (upd_const _ _ _ _ E2). unfold ieee80211_node_decref at 1. rewrite u32_pred_id by lia.
      apply (nwf_recount None n2 (hinc held id)); [done|done|intros j Hj; by rewrite hinc_other|left].
      destruct (wf_ref _ _ _ (proj2 W) _ _ E) as [R0 B0]; [done|].
      change (keyref n2 id (ieee80211_node_incref ni)) with (keyref n id ni) in *. change (bssref n2 id) with (bssref n id) in *.
      split_and!; [done|lia|lia|lia].
    + etrans; [exact T1|]. trans n2; [by apply touch_net|apply touch_upd].
Qed.

(** What becomes of one node. *)
Definition aged (t : tab) (gen : Z) (n n' : net) (id : nat) : Prop :=
  forall ni ni', n_nodes n !! id = Some ni -> n_nodes n' !! id = Some ni' -> ni_table ni' = Some t ->
    ni_scangen ni' = gen /\ (exempt n id ni = true \/ 1 < ni_inact ni) /\
    ni_inact ni' = if exempt n id ni then ni_inact ni else ni_inact ni - 1.

(** The last part of the step: the station is probed or has to go. *)
Lemma timeout_act_ok n held id ni (known : bool) :
  nwf n held -> (0 < held id)%nat -> Z.of_nat (held id) + 4 < 2 ^ 32 -> n_nodes n !! id = Some ni ->
  has_stations n -> ic_curmode n <> IEEE80211_MODE_11G ->
  exists n' held',
    (if known && (0 <? ni_inact ni) && (ni_inact ni <=? ic_inact_probe n) then
       let* n := ieee80211_ref_node n id in ieee80211_send_nulldata queued n id
     else if ni_inact ni <=? 0 then
       let* n := if ni_associd ni =? 0 then Ok n
                 else IEEE80211_SEND_MGMT queued n id IEEE80211_FC0_SUBTYPE_DEAUTH IEEE80211_REASON_AUTH_EXPIRE in
       let* n := ieee80211_node_leave dev n id in
       Ok (bump n is_node_timeout)
     else Ok n) = Ok n' /\ nwf n' held' /\ touch id n n' /\ (forall j, j <> id -> held' j = held j) /\
    (forall ni' t, n_nodes n' !! id = Some ni' -> ni_table ni' = Some t -> 0 < ni_inact ni /\ kept ni' = kept ni).
Proof.
  intros W Hh Hf E Ho Hm. destruct (Z.leb_spec (ni_inact ni) 0) as [Hi|Hi].
  - rewrite (proj2 (Z.ltb_ge _ _)), andb_false_r by lia. cbn [andb].
    assert (exists n1 ni1 h1, (if ni_associd ni =? 0 then Ok n
      else IEEE80211_SEND_MGMT queued n id IEEE80211_FC0_SUBTYPE_DEAUTH IEEE80211_REASON_AUTH_EXPIRE) = Ok n1 /\ nwf n1 h1 /\
      touch id n n1 /\ (forall j, j <> id -> h1 j = held j) /\ (0 < h1 id)%nat /\ n_nodes n1 !! id = Some ni1)
      as (n1 & ni1 & h1 & -> & W1 & T1 & H1 & P1 & E1).
    { destruct (ni_associd ni =? 0); [exists n, ni, held; split; [done|]; split; [done|]; by split_and!|].
      destruct (send_mgmt_ok queued n held id ni IEEE80211_FC0_SUBTYPE_DEAUTH IEEE80211_REASON_AUTH_EXPIRE W ltac:(lia) E)
        as (n1 & ni1 & -> & W1 & T1 & E1 & _). exists n1, ni1, (if queued n id then hinc held id else held).
      split; [done|]. split; [done|]. destruct (queued n id); split_and!; try done; [intros; by apply hinc_other|rewrite hinc_same; lia]. }
    cbn [res_bind]. pose proof (t_mode _ _ _ T1) as M1. pose proof (t_curmode _ _ _ T1) as C1.
    destruct (node_leave_ok dev n1 h1 id ni1 W1 P1 E1) as (n2 & -> & W2 & T2 & H2).
    + intros _ ?. congruence.
    + unfold has_stations in Ho. naive_solver congruence.
    + cbn [res_bind]. eexists _, (hdec h1 id). split; [done|]. split; [eapply nwf_quiet; [|exact W2]; by apply quiet_net|].
      split; [trans n1; [done|]; trans n2; [done|by apply touch_net]|]. split; [intros j Hj; rewrite hdec_other; auto|].
      intros ni' t E' Et. change (n_nodes n2 !! id = Some ni') in E'. by rewrite (H2 _ E') in Et.
  - destruct (_ && _).
    + destruct (probe_ok n held id ni W ltac:(lia) E) as (n' & ni' & held' & -> & W' & T' & H' & E' & K' & _).
      exists n', held'. split; [done|]. split; [done|]. split_and!; [done|done|]. intros ni2 t E2 _. split; [done|congruence].
    + exists n, held. split; [done|]. split; [done|]. split_and!; [done|done|]. intros ni2 t E2 _. split; [done|congruence].
Qed.

Lemma timeout_node_ok gen n held t id ni :
  nwf n held -> (0 < held id)%nat -> Z.of_nat (held id) + 4 < 2 ^ 32 -> n_nodes n !! id = Some ni -> ni_table ni = Some t ->
  has_stations n -> ic_curmode n <> IEEE80211_MODE_11G ->
  exists n' held', timeout_node dev queued ticks hz gen n id = Ok n' /\ nwf n' held' /\ touch id n n' /\
    (forall j, j <> id -> held' j = held j) /\ aged t gen n n' id.
Proof.
  intros W Hh Hf E Et Ho Hm. unfold timeout_node. cbn zeta. set (n1 := upd n id (fun ni => set_scangen ni gen)).
  assert (mild id n n1 (set_scangen ni gen)) as M1.
  { apply (mild_upd _ _ ni (fun ni => set_scangen ni gen)); [done|done|done|node_ok_fields]. }
  pose proof M1 as (_ & _ & E1). rewrite (node_at_Some _ _ _ E1). cbn [res_bind]. change (ni_flags (set_scangen ni gen)) with (ni_flags ni).
  change (ic_opmode n1) with (ic_opmode n). unfold aged, exempt. 
  assert (forall n' ni', mild id n n' ni' -> exists n0 held', Ok n' = Ok n0 /\ nwf n0 held' /\ touch id n n0 /\
    (forall j, j <> id -> held' j = held j) /\ n_nodes n0 !! id = Some ni') as Hstop.
  { intros n' ni' (Q & T & E'). exists n', held. split; [done|]. split; [by apply (nwf_quiet _ n)|]. by split_and!. }
  destruct (_ && negb _) eqn:Ex1.
  { destruct (Hstop n1 _ M1) as (n0 & h' & -> & W' & T' & H' & E'). exists n0, h'. split; [done|]. split; [done|]. split_and!; [done|done|].
    intros ni0 ni' F F' _. simplify_eq. rewrite Ex1. cbn [orb]. by split_and!; [|left|]. }
  destruct (old_frag_mild ticks hz n1 id _ E1) as (n2 & ni2 & -> & M2 & [= K1 K2 K3 K4]). cbn [res_bind].
  pose proof (mild_trans _ _ _ _ _ _ M1 M2) as M12. pose proof (t_bss _ _ _ (proj1 (proj2 M12))) as B2. rewrite B2.
  case_bool_decide as Hb.
  { destruct (Hstop n2 _ M12) as (n0 & h' & -> & W' & T' & H' & E'). exists n0, h'. split; [done|]. split; [done|]. split_and!; [done|done|].
    intros ni0 ni' F F' _. assert (ni0 = ni /\ ni' = ni2) as [-> ->] by (split; congruence). rewrite orb_true_r. split_and!; [exact K4|by left|exact K1]. }
  set (n3 := upd n2 id _). set (ni3 := set_inact ni2 (ni_inact ni2 - 1)).
  assert (mild id n n3 ni3) as M3 by (apply (mild_then_upd _ _ _ ni2 (fun ni => set_inact ni (ni_inact ni - 1))); [done|done|done|node_ok_fields]).
  pose proof M3 as (Q3 & T3 & E3). rewrite (node_at_Some _ _ _ E3). cbn [res_bind].
  set (known := negb (ni_associd ni3 =? 0) || _).
  assert (exists n4 ni4, (if known then age_station n3 id else Ok n3) = Ok n4 /\ mild id n n4 ni4 /\ kept ni4 = kept ni3) as (n4 & ni4 & -> & M4 & K).
  { destruct known; [|by exists n3, ni3]. pose proof (nwf_quiet _ _ _ _ Q3 W) as [L3 _].
    destruct (age_station_mild n3 id ni3 L3 E3) as (n4 & ni4 & -> & M4 & K). exists n4, ni4. split; [done|]. split; [by eapply mild_trans|done]. }
  cbn [res_bind]. destruct M4 as (Q4 & T4 & E4). pose proof (t_mode _ _ _ T4) as [= O4 _ _]. pose proof (t_curmode _ _ _ T4) as C4.
  assert (ni_scangen ni4 = ni_scangen ni3 /\ ni_inact ni4 = ni_inact ni3 /\ ni_associd ni4 = ni_associd ni3) as (J2 & J3 & J4)
    by (clear -K; clearbody ni3; unfold kept in K; by injection K as ? ? ? ?).
  rewrite <- J3, <- J4.
  destruct (timeout_act_ok n4 held id ni4 known) as (n5 & h5 & -> & W5 & T5 & H5 & A5); try done.
  - by apply (nwf_quiet _ n).
  - unfold has_stations in *. by rewrite O4.
  - congruence.
  - exists n5, h5. split; [done|]. split; [done|]. split; [by trans n4|]. split; [done|].
    intros ni0 ni' F F' Ft. assert (ni0 = ni) as -> by congruence. destruct (A5 ni' t F' Ft) as [Hi Hk]. unfold kept in Hk. injection Hk as L1 L2 L3 L4.
    rewrite Ex1. cbn [orb]. cbn in J2, J3. rewrite L2, L3, J2, J3, K1, K4. cbn. split_and!; [done|right|done].
    rewrite J3, K1 in Hi. cbn in Hi. lia.
Qed.

(** ** The loop *)

(** The nodes not marked yet. *)
Definition unmarked (gen : Z) (n : net) (id : nat) : Prop := (ni_scangen <$> n_nodes n !! id) <> Some gen.
#[local] Instance unmarked_dec gen n id : Decision (unmarked gen n id).
Proof. unfold unmarked. apply _. Defined.
Definition pending (gen : Z) (n : net) (t : tab) : list nat := filter (unmarked gen n) (nt_node (table n t)).

Lemma unhandled_ok gen n l : (forall id, id ∈ l -> is_Some (n_nodes n !! id)) ->
  unhandled n gen l = Ok (head (filter (unmarked gen n) l)).
Proof.
  induction l as [|id l IH]; intros H; [done|]. destruct (H id) as [ni E]; [left|]. cbn [unhandled].
  rewrite (node_at_Some _ _ _ E). cbn [res_bind]. destruct (Z.eqb_spec (ni_scangen ni) gen) as [Hg|Hg].
  - rewrite filter_cons_False; [apply IH; intros; apply H; by right|]. unfold unmarked. rewrite E. cbn. by rewrite Hg; intros [].
  - rewrite filter_cons_True; [done|]. unfold unmarked. rewrite E. cbn. congruence.
Qed.

Lemma pending_step gen n n' held' t id : nwf n' held' -> touch id n n' -> is_Some (n_nodes n !! id) -> aged t gen n n' id ->
  pending gen n' t = filter (.≠ id) (pending gen n t).
Proof.
  intros W T [ni E] A. unfold pending. trans (filter (unmarked gen n) (filter (.≠ id) (nt_node (table n t)))).
  2:{ rewrite !list_filter_filter. apply filter_in. tauto. }
  rewrite <- (t_lists _ _ _ T t), list_filter_filter. apply filter_in. intros j Hj. destruct (decide (j = id)) as [->|Hne].
  - split; [|tauto]. intros Hu. exfalso. apply Hu. destruct (list_live _ _ _ _ W Hj) as (ni' & E' & Et).
    destruct (A ni ni' E E' Et) as [Hg _]. rewrite E'. cbn. by rewrite Hg.
  - unfold unmarked. rewrite (t_others _ _ _ T j Hne). tauto.
Qed.

Lemma timeout_loop_ok gen t : forall fuel n held,
  nwf n held -> has_stations n -> ic_curmode n <> IEEE80211_MODE_11G ->
  (forall id, id ∈ pending gen n t -> (0 < held id)%nat /\ Z.of_nat (held id) + 4 < 2 ^ 32) ->
  (length (pending gen n t) <= fuel)%nat ->
  exists n' held', timeout_loop dev queued fuel ticks hz gen n t = Ok n' /\ nwf n' held' /\
    (forall id, id ∈ pending gen n t -> aged t gen n n' id) /\
    (forall j, j ∉ pending gen n t -> n_nodes n' !! j = n_nodes n !! j).
Proof.
  induction fuel as [|fuel IH]; intros n held W Ho Hm Hh Hf.
  all: cbn [timeout_loop]; rewrite unhandled_ok by (intros id Hin; destruct (list_live _ _ _ _ W Hin) as (ni & E & _); by eexists);
    fold (pending gen n t); cbn [res_bind].
  { destruct (pending gen n t); [|cbn in Hf; lia]. exists n, held. split; [done|]. split; [done|].
    split; [intros id []%not_elem_of_nil|done]. }
  destruct (pending gen n t) as [|id l] eqn:Ep; cbn [head].
  { exists n, held. split; [done|]. split; [done|]. split; [intros id []%not_elem_of_nil|done]. }
  assert (id ∈ pending gen n t) as Hin by (rewrite Ep; left). pose proof Hin as [_ Hl]%list_elem_of_filter.
  destruct (list_live _ _ _ _ W Hl) as (ni & E & Et). destruct (Hh id) as [Hh1 Hh2]; [left|].
  destruct (timeout_node_ok gen n held t id ni W Hh1 Hh2 E Et Ho Hm) as (n1 & h1 & -> & W1 & T1 & H1 & A1). cbn [res_bind].
  pose proof (pending_step gen n n1 h1 t id W1 T1 ltac:(by eexists) A1) as Ep1. rewrite Ep in Ep1.
  pose proof (t_mode _ _ _ T1) as [= O1 _ _]. pose proof (t_bss _ _ _ T1) as B1.
  destruct (IH n1 h1) as (n2 & h2 & -> & W2 & A2 & N2).
  - done.
  - unfold has_stations in *. by rewrite O1.
  - by rewrite (t_curmode _ _ _ T1).
  - rewrite Ep1. intros j [Hj1 Hj2]%list_elem_of_filter. rewrite H1 by done. by apply Hh.
  - rewrite Ep1. pose proof (length_filter_lt (.≠ id) (id :: l) id ltac:(left) ltac:(naive_solver)). lia.
  - exists n2, h2. split; [done|]. split; [done|]. rewrite Ep1 in A2, N2. split.
    + intros j Hj. destruct (decide (j = id)) as [->|Hne].
      * intros nj nj'. rewrite (N2 id) by (rewrite list_elem_of_filter; tauto). apply A1.
      * intros nj nj' Ej Ej' Et'. rewrite <- (t_others _ _ _ T1 j Hne) in Ej.
        pose proof (A2 j ltac:(by apply list_elem_of_filter) nj nj' Ej Ej' Et') as Hr. unfold exempt in *. rewrite O1, B1 in Hr. exact Hr.
    + intros j Hj. rewrite N2 by (rewrite list_elem_of_filter; tauto). apply (t_others _ _ _ T1). intros ->. apply Hj. left.
Qed.

(** ** The theorem *)

End Timer.

(** Two stations in the table, one of them silent for too long. *)
Definition timer_start : net :=
  let n := after (after sample_start (Op_alloc T_sta station)) (Op_alloc T_sta [2; 0; 0; 0; 0; 10]) in
  upd (upd n 1%nat (fun ni => set_inact (set_nflags ni IEEE80211_NODE_AREF) 1)) 2%nat (fun ni => set_nflags ni IEEE80211_NODE_AREF).
Definition timer_held : nat -> nat := hinc (hinc (hinc (fun _ => 0%nat) 0%nat) 1%nat) 2%nat.
Lemma timer_start_ok : nwf timer_start timer_held.
Proof.
  set (n1 := after sample_start (Op_alloc T_sta station)).
  assert (nwf n1 (hinc (hinc (fun _ => 0%nat) 0%nat) 1%nat)) as W1.
  { destruct (exec_ok null_key_ops (Op_alloc T_sta station) sample_start _ sample_start_ok) as (r & n & E & W);
      [apply few_small; intros id; unfold hinc; case_decide; lia|done|].
    unfold n1, after. rewrite E. assert (r = Some 1%nat) as -> by (vm_compute in E; congruence). exact W. }
  assert (nwf (after n1 (Op_alloc T_sta [2; 0; 0; 0; 0; 10])) timer_held) as W2.
  { destruct (exec_ok null_key_ops (Op_alloc T_sta [2; 0; 0; 0; 0; 10]) n1 _ W1) as (r & n & E & W);
      [apply few_small; intros id; unfold hinc; repeat case_decide; lia|done|].
    unfold after. rewrite E. assert (r = Some 2%nat) as -> by (vm_compute in E; congruence). exact W. }
  unfold timer_start. fold n1. set (n2 := after n1 _) in *. clearbody n2.
  destruct (wf_held _ _ _ (proj2 W2) 1%nat) as [x1 X1]; [vm_compute; lia|].
  destruct (wf_held _ _ _ (proj2 W2) 2%nat) as [x2 X2]; [vm_compute; lia|].
  eapply nwf_quiet; [|exact W2]. set (n3 := upd n2 1%nat _).
  trans n3; [apply (quiet_upd n2 1%nat x1); [done|done|done|node_ok_fields]|].
  apply (quiet_upd n3 2%nat x2); [unfold n3; by rewrite upd_other|done|done|node_ok_fields].
Qed.

(** The silent station is removed, the other one is sent a null frame. *)
Example timer_run : match ieee80211_timeout_stations null_key_ops (fun _ _ => true) 0 100 timer_start T_sta with
  | Ok n => (nt_node (ic_sta n), ni_inact <$> n_nodes n !! 1%nat, ni_inact <$> n_nodes n !! 2%nat) = ([2%nat], None, Some 1)
  | Fault _ => False
  end.
Proof. vm_compute. reflexivity. Qed.
