(* ===== verification/Rates.v ===== *)
(** * Rate sets: ieee80211_fix_rate and ieee80211_setup_rates

    A rate set is the list of its first [rs_nrates] bytes; the rest of the
    15-byte array is zero.  [ieee80211_fix_rate] (ieee80211_proto.c) sorts the
    set in place, one minimum at a time, while it checks it against the
    supported rates; [ieee80211_setup_rates] (ieee80211_input.c) fills it from
    the rate elements of a frame.

    The theorem says what the flags of association requests and responses give:
    the rates both sides have, in ascending order with our basic-rate bits, and
    the highest of them as the answer, unless something is missing. *)

From stdpp Require Import gmap sorting.
From S2P Require Import Prelude Buffers Mbuf Ieee80211 Crypto InfoElem Wme Node NodeTable.

Definition IEEE80211_RATE_BASIC : Z := 0x80.
Definition IEEE80211_RATE_MAXSIZE : Z := 15.
Definition IEEE80211_R_DOSORT : Z := 0x00000001.
Definition IEEE80211_R_DOFRATE : Z := 0x00000002.
Definition IEEE80211_R_DONEGO : Z := 0x00000004.
Definition IEEE80211_R_DODEL : Z := 0x00000008.
Definition IEEE80211_FIXED_RATE_NONE : Z := -1.

Definition RV (v : Z) : Z := Z.land v IEEE80211_RATE_VAL.

(** The inner sorting loop: the smallest rate comes to the front, each larger
    one met on the way is left where the smaller one was. *)
Fixpoint sort_pass (x : Z) (l : list Z) : Z * list Z :=
  match l with
  | [] => (x, [])
  | y :: l =>
      if RV y <? RV x then let '(m, l) := sort_pass y l in (m, x :: l)
      else let '(m, l) := sort_pass x l in (m, y :: l)
  end.

(** The first supported rate with the same value. *)
Fixpoint supported (r : Z) (srs : list Z) : option Z :=
  match srs with
  | [] => None
  | s :: srs => if r =? RV s then Some s else supported r srs
  end.

(** The local variables of the loop. *)
Record fixst := mkFix { fx_ok : Z; fx_bad : Z; fx_fixed : Z; fx_error : Z; fx_txrate : Z }.

(** [srs->rs_rates[ic->ic_fixed_rate]]. *)
Definition fixed_rate (n : net) (srs : list Z) : res Z :=
  if (0 <=? ic_fixed_rate n) && (ic_fixed_rate n <? IEEE80211_RATE_MAXSIZE)
  then Ok (byte_at srs (Z.to_nat (ic_fixed_rate n))) else Fault BadAccess.

(** One round on the rate [x] at index [length kept]: the byte to keep there, if
    any, and the variables. *)
Definition fix_round (n : net) (flags : Z) (srs : list Z) (i : nat) (x : Z) (st : fixst) : res (option Z * fixst) :=
  let r := RV x in
  let* fixed := if has_flag flags IEEE80211_R_DOFRATE
                then let* f := fixed_rate n srs in Ok (if r =? RV f then r else fx_fixed st) else Ok (fx_fixed st) in
  let '(x, ignore, error) :=
    if has_flag flags IEEE80211_R_DONEGO then
      match supported r srs with
      | Some s => (s, false, fx_error st)
      | None => (x, true, if (ic_opmode n =? IEEE80211_M_HOSTAP) && has_flag x IEEE80211_RATE_BASIC then fx_error st + 1 else fx_error st)
      end
    else (x, false, fx_error st) in
  if ignore then Ok (if has_flag flags IEEE80211_R_DODEL then None else Some x, mkFix (fx_ok st) r fixed error (fx_txrate st))
  else Ok (Some x, mkFix x r fixed error (Z.of_nat i)).

Fixpoint fix_loop (fuel : nat) (n : net) (flags : Z) (srs kept rest : list Z) (st : fixst) : res (list Z * fixst) :=
  match rest with
  | [] => Ok (kept, st)
  | x :: rest =>
      match fuel with
      | O => Fault Panic
      | S fuel =>
          let '(x, rest) := if has_flag flags IEEE80211_R_DOSORT then sort_pass x rest else (x, rest) in
          let* (o, st) := fix_round n flags srs (length kept) x st in
          fix_loop fuel n flags srs (kept ++ match o with Some x => [x] | None => [] end) rest st
      end
  end.

(** The flags after the check that a fixed rate is defined. *)
Definition fix_flags (n : net) (flags : Z) : Z :=
  if has_flag flags IEEE80211_R_DOFRATE && (ic_fixed_rate n =? IEEE80211_FIXED_RATE_NONE)
  then Z.land flags (Z.lnot IEEE80211_R_DOFRATE) else flags.
Definition ieee80211_fix_rate (n : net) (ni : ieee80211_node) (flags : Z) : res (Z * ieee80211_node) :=
  let flags := fix_flags n flags in
  match ni_chan ni with
  | None => Fault BadAccess
  | Some c =>
      let srs := ic_sup_rates n (ieee80211_chan2mode n c) in
      let* (rates, st) := fix_loop (length (ni_rates ni)) n flags srs [] (ni_rates ni) (mkFix 0 0 0 0 (ni_txrate ni)) in
      let ni := set_txrate (set_rates ni rates) (fx_txrate st) in
      if (fx_ok st =? 0) || negb (fx_error st =? 0) || (has_flag flags IEEE80211_R_DOFRATE && (fx_fixed st =? 0))
      then Ok (Z.lor (fx_bad st) IEEE80211_RATE_BASIC, ni) else Ok (RV (fx_ok st), ni)
  end.

(** [rates] and [xrates] point to the elements: id, length, rates.  The array
    has room for 15. *)
Definition ieee80211_setup_rates (n : net) (ni : ieee80211_node) (rates : list Z) (xrates : option (list Z)) (flags : Z)
    : res (Z * ieee80211_node * net) :=
  let nrates := byte_at rates 1 in
  if IEEE80211_RATE_MAXSIZE <? nrates then Fault BadAccess
  else if (length rates <? 2 + Z.to_nat nrates)%nat then Fault BadAccess
  else
    let rs := take (Z.to_nat nrates) (drop 2 rates) in
    let* (rs, n) :=
      match xrates with
      | None => Ok (rs, n)
      | Some xrates =>
          let total := nrates + byte_at xrates 1 in
          let nxrates := if IEEE80211_RATE_MAXSIZE <? total then u8 (IEEE80211_RATE_MAXSIZE - nrates) else byte_at xrates 1 in
          let n := if IEEE80211_RATE_MAXSIZE <? total then bump n is_rx_rstoobig else n in
          if (length xrates <? 2 + Z.to_nat nxrates)%nat then Fault BadAccess
          else Ok (rs ++ take (Z.to_nat nxrates) (drop 2 xrates), n)
      end in
    let* (rate, ni) := ieee80211_fix_rate n (set_rates ni rs) flags in Ok (rate, ni, n).

(** ** Negotiation *)

(** The supported rates that the other side has as well, in its order. *)
Definition common (srs rs : list Z) : list Z := omap (fun x => supported (RV x) srs) rs.
Definition slower (a b : Z) : Prop := RV a <= RV b.

Lemma supported_value r srs s : supported r srs = Some s -> RV s = r /\ s ∈ srs.
Proof.
  induction srs as [|y srs IH]; [done|]. cbn. destruct (Z.eqb_spec r (RV y)) as [->|].
  - intros [= ->]. split; [done|left].
  - intros H. destruct (IH H). split; [done|by right].
Qed.

Lemma sort_pass_min l : forall x m l', sort_pass x l = (m, l') -> m :: l' ≡ₚ x :: l /\ forall y, y ∈ l' -> slower m y.
Proof.
  induction l as [|y l IH]; intros x m l'; cbn [sort_pass].
  - intros [= <- <-]. split; [done|]. intros z []%not_elem_of_nil.
  - destruct (Z.ltb_spec (RV y) (RV x)) as [Hlt|Hge].
    + destruct (sort_pass y l) as [m0 l0] eqn:E. intros [= <- <-]. destruct (IH y m0 l0 E) as [P S]. split.
      * by rewrite Permutation_swap, P.
      * assert (slower m0 y) as Hm.
        { assert (y ∈ m0 :: l0) as [->|Hy]%elem_of_cons by (rewrite P; left); [unfold slower; lia|by apply S]. }
        intros z [->|Hz]%elem_of_cons; [unfold slower in *; lia|by apply S].
    + destruct (sort_pass x l) as [m0 l0] eqn:E. intros [= <- <-]. destruct (IH x m0 l0 E) as [P S]. split.
      * rewrite Permutation_swap, P. apply Permutation_swap.
      * assert (slower m0 x) as Hm.
        { assert (x ∈ m0 :: l0) as [->|Hy]%elem_of_cons by (rewrite P; left); [unfold slower; lia|by apply S]. }
        intros z [->|Hz]%elem_of_cons; [unfold slower in *; lia|by apply S].
Qed.
Lemma common_value srs rs y : y ∈ common srs rs -> exists x, x ∈ rs /\ RV y = RV x.
Proof. intros (x & Hx & Hs)%list_elem_of_omap. exists x. split; [done|]. by apply supported_value in Hs as [-> _]. Qed.

(** A basic rate of a station that the access point does not have. *)
Definition unmet (n : net) (srs : list Z) (x : Z) : bool :=
  (ic_opmode n =? IEEE80211_M_HOSTAP) && has_flag x IEEE80211_RATE_BASIC && bool_decide (supported (RV x) srs = None).
Definition unmets (n : net) (srs rs : list Z) : Z := Z.of_nat (length (List.filter (unmet n srs) rs)).

(** What the loop leaves in the variables after the rates [rs], of which it has
    kept [out]. *)
Definition fixed_seen (frate : bool) (f : Z) (rs : list Z) (old : Z) : Z :=
  if frate && existsb (fun x => RV x =? RV f) rs then RV f else old.
Record fix_done (n : net) (frate : bool) (f : Z) (srs : list Z) (i : nat) (rs out : list Z) (st st' : fixst) : Prop := mkDone {
  fd_ok : fx_ok st' = default (fx_ok st) (list.last out);
  fd_txrate : fx_txrate st' = match out with [] => fx_txrate st | _ => Z.of_nat (i + length out) - 1 end;
  fd_error : fx_error st' = fx_error st + unmets n srs rs;
  fd_fixed : fx_fixed st' = fixed_seen frate f rs (fx_fixed st);
}.

Lemma unmets_perm n srs l l' : l ≡ₚ l' -> unmets n srs l = unmets n srs l'.
Proof. unfold unmets. intros P. induction P as [|x l l' _ IH|x y l|l l1 l2 _ IH1 _ IH2]; cbn; repeat case_match; cbn in *; lia. Qed.
Lemma fixed_seen_perm b f l l' v : l ≡ₚ l' -> fixed_seen b f l v = fixed_seen b f l' v.
Proof.
  intros P. unfold fixed_seen. assert (existsb (fun x => RV x =? RV f) l = existsb (fun x => RV x =? RV f) l') as E; [|by rewrite E].
  induction P as [|x l l' _ IH|x y l|l l1 l2 _ IH1 _ IH2]; cbn; [done|by rewrite IH|by rewrite orb_assoc, (orb_comm (_ =? _)), <- orb_assoc|congruence].
Qed.
Lemma fix_done_perm n b f srs i l l' out st st' : l ≡ₚ l' -> fix_done n b f srs i l out st st' -> fix_done n b f srs i l' out st st'.
Proof. intros P [D1 D2 D3 D4]. split; [done|done|rewrite <- (unmets_perm _ _ _ _ P)|rewrite <- (fixed_seen_perm _ _ _ _ _ P)]; done. Qed.
Lemma fix_done_app n b f srs i x l o1 o2 st st1 st2 :
  fix_done n b f srs i [x] o1 st st1 -> fix_done n b f srs (i + length o1) l o2 st1 st2 -> fix_done n b f srs i (x :: l) (o1 ++ o2) st st2.
Proof.
  intros [A1 A2 A3 A4] [B1 B2 B3 B4]. split.
  - rewrite B1, A1. rewrite last_app. by destruct (list.last o2).
  - rewrite B2, A2. destruct o2 as [|y o2]; [by rewrite app_nil_r|]. rewrite length_app. destruct o1; cbn [app length]; lia.
  - rewrite B3, A3. unfold unmets. cbn. destruct (unmet n srs x); cbn; lia.
  - rewrite B4, A4. unfold fixed_seen. destruct b; cbn; [|done]. destruct (RV x =? RV f), (existsb _ l); done.
Qed.

Section Round.
Context (n : net) (flags f : Z) (srs : list Z).
Context (Hs : has_flag flags IEEE80211_R_DOSORT = true) (Hn : has_flag flags IEEE80211_R_DONEGO = true)
  (Hd : has_flag flags IEEE80211_R_DODEL = true)
  (Hf : has_flag flags IEEE80211_R_DOFRATE = true -> fixed_rate n srs = Ok f).

Lemma fix_round_ok i x st : exists st', fix_round n flags srs i x st = Ok (supported (RV x) srs, st') /\
  fix_done n (has_flag flags IEEE80211_R_DOFRATE) f srs i [x] (common srs [x]) st st'.
Proof using Hd Hf Hn.
  unfold fix_round. cbn zeta.
  assert ((if has_flag flags IEEE80211_R_DOFRATE then let* f := fixed_rate n srs in Ok (if RV x =? RV f then RV x else fx_fixed st)
           else Ok (fx_fixed st)) = Ok (fixed_seen (has_flag flags IEEE80211_R_DOFRATE) f [x] (fx_fixed st))) as ->.
  { unfold fixed_seen. destruct (has_flag flags IEEE80211_R_DOFRATE) eqn:Ef; [|done]. rewrite (Hf eq_refl). cbn [res_bind existsb andb orb].
    rewrite orb_false_r. destruct (Z.eqb_spec (RV x) (RV f)) as [->|]; done. }
  cbn [res_bind]. rewrite Hn. unfold common. cbn [omap list_omap].
  destruct (supported (RV x) srs) as [s|] eqn:Es.
  - eexists. split; [done|]. split; cbn; try done; [lia|].
    unfold unmets, List.filter, unmet. rewrite Es, bool_decide_eq_false_2 by done. rewrite andb_false_r. cbn. lia.
  - rewrite Hd. eexists. split; [done|]. split; cbn; try done.
    unfold unmets, List.filter, unmet. rewrite Es, bool_decide_eq_true_2, andb_true_r by done.
    destruct (_ && _); cbn; lia.
Qed.

Lemma fix_loop_ok : forall fuel kept rest st, (length rest <= fuel)%nat ->
  exists out st', fix_loop fuel n flags srs kept rest st = Ok (kept ++ out, st') /\ out ≡ₚ common srs rest /\
    StronglySorted slower out /\ fix_done n (has_flag flags IEEE80211_R_DOFRATE) f srs (length kept) rest out st st'.
Proof using Hd Hf Hn Hs.
  induction fuel as [|fuel IH]; intros kept [|x rest] st Hl; cbn [fix_loop];
    try (exists [], st; rewrite app_nil_r; split; [done|]; split; [done|]; split; [constructor|]; split; cbn; try done;
         [unfold unmets; cbn; lia|by unfold fixed_seen; rewrite andb_false_r]).
  { cbn in Hl. lia. }
  rewrite Hs. destruct (sort_pass x rest) as [m rest'] eqn:Ep. destruct (sort_pass_min _ _ _ _ Ep) as [P Hm].
  destruct (fix_round_ok (length kept) m st) as (st1 & -> & D1). cbn [res_bind].
  assert (common srs (m :: rest') = common srs [m] ++ common srs rest') as Ec by (unfold common; cbn; by case_match).
  assert (common srs [m] = match supported (RV m) srs with Some x => [x] | None => [] end) as E1 by (unfold common; cbn; by case_match).
  rewrite <- E1. destruct (IH (kept ++ common srs [m]) rest' st1) as (out & st2 & -> & Po & So & D2).
  { apply Permutation_length in P. cbn in P, Hl. lia. }
  exists (common srs [m] ++ out), st2. rewrite length_app in D2. split; [by rewrite app_assoc|]. split; [|split].
  - rewrite Po, <- Ec. unfold common. by rewrite P.
  - assert (forall y, y ∈ out -> slower m y) as Hy.
    { intros y Hy. rewrite Po in Hy. apply common_value in Hy as (z & Hz & Ez). specialize (Hm z Hz). unfold slower in *. lia. }
    rewrite E1. destruct (supported (RV m) srs) as [s|] eqn:Es; [|done]. cbn. constructor; [done|]. apply list.Forall_forall.
    intros y Hin. apply supported_value in Es as [Es _]. specialize (Hy y Hin). unfold slower in *. lia.
  - eapply fix_done_perm; [exact P|]. by eapply fix_done_app.
Qed.
End Round.

(** When a rate set is acceptable: there is a common rate, the station's basic
    rates are met on an access point, and the fixed rate is among them. *)
Definition acceptable (n : net) (srs rs : list Z) : Prop :=
  common srs rs <> [] /\ unmets n srs rs = 0 /\
  (ic_fixed_rate n <> IEEE80211_FIXED_RATE_NONE ->
     let f := byte_at srs (Z.to_nat (ic_fixed_rate n)) in RV f <> 0 /\ exists x, x ∈ rs /\ RV x = RV f).
Definition R_ASSOC : Z := Z.lor (Z.lor IEEE80211_R_DOSORT IEEE80211_R_DOFRATE) (Z.lor IEEE80211_R_DONEGO IEEE80211_R_DODEL).

Lemma RV_not_basic v : has_flag (RV v) IEEE80211_RATE_BASIC = false.
Proof. unfold has_flag, RV. rewrite <- Z.land_assoc. cbn. by rewrite Z.land_0_r. Qed.
Lemma basic_is_basic v : has_flag (Z.lor v IEEE80211_RATE_BASIC) IEEE80211_RATE_BASIC = true.
Proof.
  unfold has_flag. rewrite Z.land_lor_distr_l. change (Z.land IEEE80211_RATE_BASIC IEEE80211_RATE_BASIC) with 128.
  destruct (Z.eqb_spec (Z.lor (Z.land v IEEE80211_RATE_BASIC) 128) 0) as [H%Z.lor_eq_0_iff|]; [lia|done].
Qed.

Lemma unmets_nonneg n srs rs : 0 <= unmets n srs rs.
Proof. unfold unmets. lia. Qed.
Lemma last_some {A} (l : list A) : l <> [] -> exists x, list.last l = Some x /\ x ∈ l.
Proof. intros H. destruct (list.last l) as [x|] eqn:E; [exists x; split; [done|by apply last_Some_elem_of]|by apply last_None in E]. Qed.

Lemma fix_rate_run n ni c :
  ni_chan ni = Some c -> ic_fixed_rate n = IEEE80211_FIXED_RATE_NONE \/ 0 <= ic_fixed_rate n < IEEE80211_RATE_MAXSIZE ->
  let srs := ic_sup_rates n (ieee80211_chan2mode n c) in
  let frate := negb (ic_fixed_rate n =? IEEE80211_FIXED_RATE_NONE) in
  exists out st, ieee80211_fix_rate n ni R_ASSOC =
      Ok (if (fx_ok st =? 0) || negb (fx_error st =? 0) || frate && (fx_fixed st =? 0) then Z.lor (fx_bad st) IEEE80211_RATE_BASIC
          else RV (fx_ok st), set_txrate (set_rates ni out) (fx_txrate st)) /\
    out ≡ₚ common srs (ni_rates ni) /\ StronglySorted slower out /\
    fix_done n frate (byte_at srs (Z.to_nat (ic_fixed_rate n))) srs 0 (ni_rates ni) out (mkFix 0 0 0 0 (ni_txrate ni)) st.
Proof.
  intros Ec Hfix srs frate. unfold ieee80211_fix_rate. cbn zeta. rewrite Ec. fold srs.
  set (f := byte_at srs (Z.to_nat (ic_fixed_rate n))). set (flags := fix_flags n R_ASSOC).
  assert (has_flag flags IEEE80211_R_DOFRATE = frate) as Ef.
  { unfold frate, flags, fix_flags. by destruct (ic_fixed_rate n =? IEEE80211_FIXED_RATE_NONE). }
  destruct (fix_loop_ok n flags f srs) with (fuel := length (ni_rates ni)) (kept := @nil Z) (rest := ni_rates ni)
    (st := mkFix 0 0 0 0 (ni_txrate ni)) as (out & st & El & Po & So & D).
  1,2,3: unfold flags, fix_flags; by case_match.
  { rewrite Ef. unfold frate, fixed_rate. intros Hx. destruct (Z.eqb_spec (ic_fixed_rate n) IEEE80211_FIXED_RATE_NONE); [done|].
    destruct Hfix as [?|[H0 H1]]; [done|]. rewrite (proj2 (Z.leb_le _ _) H0), (proj2 (Z.ltb_lt _ _) H1). done. }
  { done. }
  rewrite El, Ef in *. cbn [res_bind app] in *. exists out, st. split; [by case_match|done].
Qed.

(** C12. With the flags used for associations, [ieee80211_fix_rate]
    leaves in the node exactly the supported rates the other side offered, in
    ascending order and with our basic-rate bits.  It answers with the highest
    of them, whose index is the transmit rate, exactly when the set is
    acceptable; otherwise the basic-rate bit marks the answer as an error. *)
Theorem fix_rate_negotiates n ni c :
  ni_chan ni = Some c ->
  let srs := ic_sup_rates n (ieee80211_chan2mode n c) in
  Forall (fun s => RV s <> 0) srs ->
  ic_fixed_rate n = IEEE80211_FIXED_RATE_NONE \/ 0 <= ic_fixed_rate n < IEEE80211_RATE_MAXSIZE ->
  exists v ni', ieee80211_fix_rate n ni R_ASSOC = Ok (v, ni') /\
    ni_rates ni' ≡ₚ common srs (ni_rates ni) /\ StronglySorted slower (ni_rates ni') /\
    (has_flag v IEEE80211_RATE_BASIC = false <-> acceptable n srs (ni_rates ni)) /\
    (acceptable n srs (ni_rates ni) -> RV <$> list.last (ni_rates ni') = Some v /\ ni_txrate ni' = Z.of_nat (length (ni_rates ni')) - 1).
Proof.
  intros Ec srs Hsrs Hfix. destruct (fix_rate_run n ni c Ec Hfix) as (out & st & El & Po & So & [D1 D2 D3 D4]).
  fold srs in El, Po, D3, D4. set (frate := negb (ic_fixed_rate n =? IEEE80211_FIXED_RATE_NONE)) in *.
  set (f := byte_at srs (Z.to_nat (ic_fixed_rate n))) in *. cbn in D1, D2, D3, D4.
  assert ((fx_ok st =? 0) = false <-> out <> []) as Hok.
  { rewrite D1. destruct (decide (out = [])) as [->|Hne]; [by split|]. destruct (last_some out Hne) as (y & -> & Hy). cbn.
    split; [done|]. intros _. apply Z.eqb_neq. rewrite Po in Hy. apply list_elem_of_omap in Hy as (x & _ & Hs).
    apply supported_value in Hs as [_ Hin]. rewrite list.Forall_forall in Hsrs. intros ->. by apply (Hsrs 0). }
  assert (out <> [] <-> common srs (ni_rates ni) <> []) as Hnil.
  { split; intros H E; apply H; [rewrite E in Po; by apply Permutation_nil_r in Po|rewrite E in Po; by apply Permutation_nil_l in Po]. }
  assert (frate && (fx_fixed st =? 0) = false <-> (ic_fixed_rate n <> IEEE80211_FIXED_RATE_NONE ->
     RV f <> 0 /\ exists x, x ∈ ni_rates ni /\ RV x = RV f)) as Hfx.
  { rewrite D4. unfold fixed_seen, frate. destruct (Z.eqb_spec (ic_fixed_rate n) IEEE80211_FIXED_RATE_NONE) as [|Hne];
      [by split|]. cbn [negb andb]. destruct (existsb _ _) eqn:Ex.
    - apply existsb_exists in Ex as (x & Hx%list_elem_of_In & Ev%Z.eqb_eq). rewrite Z.eqb_neq. split; [intros H _; split; [done|by exists x]|].
      intros H. by apply H.
    - split; [done|]. intros H. destruct (H Hne) as (_ & x & Hx & Ev). assert (existsb (fun x => RV x =? RV f) (ni_rates ni) = true); [|congruence].
      apply existsb_exists. exists x. split; [by apply list_elem_of_In|by apply Z.eqb_eq]. }
  assert ((fx_ok st =? 0) || negb (fx_error st =? 0) || frate && (fx_fixed st =? 0) = false <-> acceptable n srs (ni_rates ni)) as Hall.
  { rewrite !orb_false_iff, negb_false_iff, Hok, Z.eqb_eq, Hfx, D3, Hnil. unfold acceptable. cbn zeta. fold f. rewrite Z.add_0_l. tauto. }
  rewrite El. destruct (_ || _ || _) eqn:Ea.
  - assert (~ acceptable n srs (ni_rates ni)) as Hna by (rewrite <- Hall; congruence).
    eexists _, _. split; [done|]. split; [exact Po|]. split; [exact So|]. rewrite basic_is_basic. by split; [split|].
  - assert (acceptable n srs (ni_rates ni)) as Hya by tauto.
    eexists _, _. split; [done|]. split; [exact Po|]. split; [exact So|]. rewrite RV_not_basic. split; [by split|]. intros _.
    change (RV <$> list.last out = Some (RV (fx_ok st)) /\ fx_txrate st = Z.of_nat (length out) - 1).
    rewrite D1, D2. assert (out <> []) as Hne by apply Hnil, Hya. destruct (last_some out Hne) as (y & -> & _). split; [done|by destruct out].
Qed.

(** An 802.11g station at an access point with the rates of 802.11b and two more. *)
Definition rate_net : net := mkNet (mkCom true 0 0 (fun _ => 0) [] 0 4 []) (mkKmem [] 0) (mkHeap [] 0) ∅ 0%nat [] None
  (mkTable [] [] 0 0 0 None 0) (mkTable [] [] 0 0 0 None 0) IEEE80211_M_HOSTAP IEEE80211_MODE_11G IEEE80211_PROT_NONE (mkChan 1 2412 0x480)
  (fun _ => [0x82; 0x84; 11; 22; 12; 24]) [] 128 [] [] 0 0 0 0 0 100 100 1 1 1 4 (-1) 0 0 (replicate 6 0xff) 2346 idle_wme no_conf [].
Definition rate_node : ieee80211_node := set_rates (set_chan zero_node (Some (mkChan 1 2412 0x480))) [0x8c; 0x82; 108; 4; 22].
Lemma fix_rate_negotiates_witness :
  ni_chan rate_node = Some (mkChan 1 2412 0x480) /\ ieee80211_fix_rate rate_net rate_node R_ASSOC = Ok (22, set_txrate (set_rates rate_node [0x82; 0x84; 12; 22]) 3) /\
  StronglySorted slower [0x82; 0x84; 12; 22].
Proof.
  split; [done|]. split; [vm_compute; reflexivity|].
  destruct (fix_rate_negotiates rate_net rate_node (mkChan 1 2412 0x480)) as (v & ni' & E & _ & S & _); [done| |by left|].
  - vm_compute. repeat constructor; lia.
  - vm_compute in E. injection E as <- <-. exact S.
Defined.
