(* ===== verification/Rssadapt.v ===== *)
(** * Rate adaptation by signal strength: net80211/ieee80211_rssadapt.c

    For three classes of packet lengths each rate has a threshold; a rate is
    used while the average signal strength of the peer is above it.  Lost
    packets pull the threshold of their rate towards the signal strength they
    were sent with, successes let the threshold of the next rate decay.
    [ratecheck] is a function of the kernel. *)

From stdpp Require Import gmap.
From S2P Require Import Prelude Ieee80211 Node Rates.

(** ** Data *)

Definition IEEE80211_RSSADAPT_BKTS : nat := 3.
Definition IEEE80211_RSSADAPT_BKT0 : Z := 128.
Definition IEEE80211_RSSADAPT_BKTPOWER : Z := 3.
Definition IEEE80211_RATE_SIZE : nat := 8.

Record ieee80211_rssadapt_expavgctl := mkExpavgctl {
  rc_decay_denom : Z;
  rc_decay_old : Z;
  rc_thresh_denom : Z;
  rc_thresh_old : Z;
  rc_avgrssi_denom : Z;
  rc_avgrssi_old : Z;
}.
Definition master_expavgctl : ieee80211_rssadapt_expavgctl := mkExpavgctl 16 15 8 4 8 4.

Record timeval := mkTimeval { tv_sec : Z; tv_usec : Z }.
Record ieee80211_rssadapt := mkRssadapt {
  ra_avg_rssi : Z;                    (* u_int16_t *)
  ra_nfail : Z;
  ra_nok : Z;
  ra_pktrate : Z;
  ra_rate_thresh : list (list Z);     (* u_int16_t [BKTS][RATE_SIZE] *)
  ra_last_raise : timeval;
  ra_raise_interval : timeval;
}.
(** [id_node] is the node the function gets its rates from. *)
Record ieee80211_rssdesc := mkRssdesc {
  id_len : Z;
  id_rateidx : nat;
  id_rssi : Z;
}.

Definition set_avg_rssi (ra : ieee80211_rssadapt) (v : Z) : ieee80211_rssadapt :=
  mkRssadapt v (ra_nfail ra) (ra_nok ra) (ra_pktrate ra) (ra_rate_thresh ra) (ra_last_raise ra) (ra_raise_interval ra).
Definition set_nfail (ra : ieee80211_rssadapt) (v : Z) : ieee80211_rssadapt :=
  mkRssadapt (ra_avg_rssi ra) v (ra_nok ra) (ra_pktrate ra) (ra_rate_thresh ra) (ra_last_raise ra) (ra_raise_interval ra).
Definition set_nok (ra : ieee80211_rssadapt) (v : Z) : ieee80211_rssadapt :=
  mkRssadapt (ra_avg_rssi ra) (ra_nfail ra) v (ra_pktrate ra) (ra_rate_thresh ra) (ra_last_raise ra) (ra_raise_interval ra).
Definition set_rate_thresh (ra : ieee80211_rssadapt) (v : list (list Z)) : ieee80211_rssadapt :=
  mkRssadapt (ra_avg_rssi ra) (ra_nfail ra) (ra_nok ra) (ra_pktrate ra) v (ra_last_raise ra) (ra_raise_interval ra).
Definition set_last_raise (ra : ieee80211_rssadapt) (v : timeval) : ieee80211_rssadapt :=
  mkRssadapt (ra_avg_rssi ra) (ra_nfail ra) (ra_nok ra) (ra_pktrate ra) (ra_rate_thresh ra) v (ra_raise_interval ra).

(** ** Operations *)

(** The macro [interpolate], in [u_int]. *)
Definition interpolate (parm_old parm_denom old new : Z) : Z :=
  u32 (u32 (parm_old * old) + u32 (u32 (parm_denom - parm_old) * new)) / parm_denom.

(** The loop over the buckets; the number of rounds is [BKTS]. *)
Fixpoint bucket_loop (rounds i : nat) (top len : Z) (thridx : nat) : nat :=
  match rounds with
  | O => thridx
  | S rounds => if len <=? top then i else bucket_loop rounds (S i) (Z.shiftl top IEEE80211_RSSADAPT_BKTPOWER) len i
  end.
Definition thr_bucket (len : Z) : nat := bucket_loop IEEE80211_RSSADAPT_BKTS 0 IEEE80211_RSSADAPT_BKT0 len 0.

Definition thr_row (ra : ieee80211_rssadapt) (b : nat) : res (list Z) :=
  match ra_rate_thresh ra !! b with Some row => Ok row | None => Fault BadAccess end.
Definition row_at (row : list Z) (i : nat) : res Z := match row !! i with Some t => Ok t | None => Fault BadAccess end.
Definition thr_set (ra : ieee80211_rssadapt) (b i : nat) (v : Z) : ieee80211_rssadapt :=
  set_rate_thresh ra (alter (fun row => <[i := v]> row) b (ra_rate_thresh ra)).

(** A rate set is [rs_nrates] and the array [rs_rates]. *)
Section Rss.
Context (ratecheck : timeval -> timeval -> bool * timeval) (rs_nrates : nat) (rs_rates : list Z).

Definition rate_at (i : nat) : res Z := match rs_rates !! i with Some r => Ok r | None => Fault BadAccess end.

(** [while (--i >= 0)]. *)
Fixpoint choose_loop (i : nat) (flags : Z) (do_not_adapt : bool) (row : list Z) (avg : Z) (rateidx : nat) : res nat :=
  match i with
  | O => Ok rateidx
  | S i =>
      let* r := rate_at i in
      if negb (Z.land r flags =? flags) then choose_loop i flags do_not_adapt row avg i
      else if do_not_adapt then Ok i
      else let* t := row_at row i in if t <? avg then Ok i else choose_loop i flags do_not_adapt row avg i
  end.
(** [None] for the fixed rate is -1. *)
Definition ieee80211_rssadapt_choose (ra : ieee80211_rssadapt) (wh : list Z) (len : Z) (fixed_rate : option nat) (do_not_adapt : bool) : res nat :=
  let flags := if Z.land (i_fc0 wh) IEEE80211_FC0_TYPE_MASK =? IEEE80211_FC0_TYPE_CTL then IEEE80211_RATE_BASIC else 0 in
  let* row := thr_row ra (thr_bucket len) in
  match fixed_rate with
  | Some fixed =>
      let* r := rate_at fixed in
      if Z.land r flags =? flags then Ok fixed
      else choose_loop fixed (Z.lor flags IEEE80211_RATE_BASIC) do_not_adapt row (ra_avg_rssi ra) 0
  | None => choose_loop rs_nrates flags do_not_adapt row (ra_avg_rssi ra) 0
  end.

Definition ieee80211_rssadapt_updatestats (ra : ieee80211_rssadapt) : ieee80211_rssadapt :=
  let pktrate := u32 (ra_pktrate ra + u32 (10 * u32 (ra_nfail ra + ra_nok ra))) / 2 in
  let interval := Z.max 100000 (10000000 / Z.max 1 (u32 (10 * pktrate))) in
  mkRssadapt (ra_avg_rssi ra) 0 0 pktrate (ra_rate_thresh ra) (ra_last_raise ra)
    (mkTimeval (interval / (1000 * 1000)) (interval mod (1000 * 1000))).

Definition ieee80211_rssadapt_input (ra : ieee80211_rssadapt) (rssi : Z) : ieee80211_rssadapt :=
  set_avg_rssi ra (u16 (interpolate (rc_avgrssi_old master_expavgctl) (rc_avgrssi_denom master_expavgctl) (ra_avg_rssi ra) (u32 (Z.shiftl rssi 8)))).

Definition ieee80211_rssadapt_lower_rate (ra : ieee80211_rssadapt) (id : ieee80211_rssdesc) : res ieee80211_rssadapt :=
  let ra := set_nfail ra (u32 (ra_nfail ra + 1)) in
  if (rs_nrates <=? id_rateidx id)%nat then Ok ra
  else
    let thridx := thr_bucket (id_len id) in
    let* row := thr_row ra thridx in
    let* last_thr := row_at row (id_rateidx id) in
    Ok (thr_set ra thridx (id_rateidx id)
          (u16 (interpolate (rc_thresh_old master_expavgctl) (rc_thresh_denom master_expavgctl) last_thr (Z.shiftl (id_rssi id) 8)))).

Definition ieee80211_rssadapt_raise_rate (ra : ieee80211_rssadapt) (id : ieee80211_rssdesc) : res ieee80211_rssadapt :=
  let ra := set_nok ra (u32 (ra_nok ra + 1)) in
  let '(due, last) := ratecheck (ra_last_raise ra) (ra_raise_interval ra) in
  let ra := set_last_raise ra last in
  if negb due then Ok ra
  else
    let b := thr_bucket (id_len id) in
    let i := id_rateidx id in
    let* row := thr_row ra b in
    if (i + 1 <? rs_nrates)%nat then
      let* oldthr := row_at row (i + 1) in
      let* thr := row_at row i in
      if thr <? oldthr then
        let newthr := if thr =? 0 then ra_avg_rssi ra else thr in
        Ok (thr_set ra b (i + 1) (u16 (interpolate (rc_decay_old master_expavgctl) (rc_decay_denom master_expavgctl) oldthr newthr)))
      else Ok ra
    else Ok ra.

End Rss.

(** ** Averages *)

(** The strongest signal, in the unit of the averages. *)
Definition rss_max : Z := 255 * 256.

Lemma interpolate_exact w d old new : 0 <= w <= d -> 0 < d <= 16 -> 0 <= old <= rss_max -> 0 <= new <= rss_max ->
  interpolate w d old new = (w * old + (d - w) * new) / d.
Proof.
  unfold rss_max. intros Hw Hd Ho Hn. unfold interpolate. assert (0 <= w * old <= 16 * 65280) by nia. assert (0 <= (d - w) * new <= 16 * 65280) by nia.
  rewrite (u32_id (d - w)), (u32_id (w * old)), (u32_id ((d - w) * new)), u32_id; unfold is_u; lia.
Qed.
(** An average lies between what it is an average of. *)
Lemma interpolate_between w d old new lo hi : 0 <= w <= d -> 0 < d <= 16 -> 0 <= old <= rss_max -> 0 <= new <= rss_max ->
  lo <= old <= hi -> lo <= new <= hi -> lo <= interpolate w d old new <= hi.
Proof.
  intros Hw Hd Ho Hn Lo Ln. rewrite interpolate_exact by done. split.
  - apply Z.div_le_lower_bound; [lia|]. nia.
  - apply Z.div_le_upper_bound; [lia|]. nia.
Qed.
(** The decay makes progress. *)
Lemma decay_less w d old new : 0 <= w < d -> d <= 16 -> 0 <= new < old -> old <= rss_max -> new <= interpolate w d old new < old.
Proof.
  intros Hw Hd Hn Ho. split; [apply (interpolate_between w d old new new old); lia|]. rewrite interpolate_exact by lia.
  apply Z.div_lt_upper_bound; [lia|]. nia.
Qed.
Lemma u16_rss x : 0 <= x <= rss_max -> u16 x = x.
Proof. intros H. apply u16_id. unfold is_u, rss_max in *. lia. Qed.

(** ** Invariant *)

Definition row_ok (row : list Z) : Prop := length row = IEEE80211_RATE_SIZE /\ Forall (fun t => 0 <= t <= rss_max) row.
Record rss_ok (ra : ieee80211_rssadapt) : Prop := mkRssOk {
  ro_avg : 0 <= ra_avg_rssi ra <= rss_max;
  ro_rows : length (ra_rate_thresh ra) = IEEE80211_RSSADAPT_BKTS /\ Forall row_ok (ra_rate_thresh ra);
}.

Lemma thr_bucket_lt len : (thr_bucket len < IEEE80211_RSSADAPT_BKTS)%nat.
Proof. unfold thr_bucket, IEEE80211_RSSADAPT_BKTS. cbn [bucket_loop]. repeat case_match; lia. Qed.
Lemma thr_row_ok ra len : rss_ok ra -> exists row, thr_row ra (thr_bucket len) = Ok row /\ ra_rate_thresh ra !! thr_bucket len = Some row /\ row_ok row.
Proof.
  intros [_ [L F]]. unfold thr_row. destruct (lookup_lt_is_Some_2 (ra_rate_thresh ra) (thr_bucket len)) as [row E]; [rewrite L; apply thr_bucket_lt|].
  rewrite E. exists row. split; [done|]. split; [done|]. by apply (Forall_lookup_1 _ _ _ _ F E).
Qed.
Lemma row_at_ok row i : row_ok row -> (i < IEEE80211_RATE_SIZE)%nat -> exists t, row_at row i = Ok t /\ row !! i = Some t /\ 0 <= t <= rss_max.
Proof.
  intros [L F] Hi. unfold row_at. destruct (lookup_lt_is_Some_2 row i) as [t E]; [lia|]. rewrite E. exists t.
  split; [done|]. split; [done|]. by apply (Forall_lookup_1 _ _ _ _ F E).
Qed.
Lemma thr_set_ok ra b i v : rss_ok ra -> 0 <= v <= rss_max -> rss_ok (thr_set ra b i v).
Proof.
  intros [A [L F]] Hv. split; [exact A|]. cbn [thr_set set_rate_thresh ra_rate_thresh]. rewrite length_alter. split; [done|].
  apply Forall_alter; [done|]. intros row _ [Lr Fr]. split; [by rewrite length_insert|]. by apply Forall_insert.
Qed.

Section Histories.
Context (ratecheck : timeval -> timeval -> bool * timeval) (rs_nrates : nat).

Inductive rss_op := R_input (rssi : Z) | R_lower (id : ieee80211_rssdesc) | R_raise (id : ieee80211_rssdesc) | R_update.
Definition rss_op_ok (o : rss_op) : Prop :=
  match o with R_input rssi => 0 <= rssi < 256 | R_lower id | R_raise id => 0 <= id_rssi id < 256 | R_update => True end.
Definition rss_step (ra : ieee80211_rssadapt) (o : rss_op) : res ieee80211_rssadapt :=
  match o with
  | R_input rssi => Ok (ieee80211_rssadapt_input ra rssi)
  | R_lower id => ieee80211_rssadapt_lower_rate rs_nrates ra id
  | R_raise id => ieee80211_rssadapt_raise_rate ratecheck rs_nrates ra id
  | R_update => Ok (ieee80211_rssadapt_updatestats ra)
  end.
Fixpoint rss_run (ra : ieee80211_rssadapt) (os : list rss_op) : res ieee80211_rssadapt :=
  match os with [] => Ok ra | o :: os => let* ra := rss_step ra o in rss_run ra os end.

Lemma rssi_shift r : 0 <= r < 256 -> Z.shiftl r 8 = r * 256 /\ 0 <= Z.shiftl r 8 <= rss_max.
Proof. intros H. rewrite Z.shiftl_mul_pow2 by done. unfold rss_max. change (2 ^ 8) with 256. lia. Qed.

Context (Hn : (rs_nrates <= IEEE80211_RATE_SIZE)%nat).

Lemma raise_rate_ok ra id : rss_ok ra -> exists ra', ieee80211_rssadapt_raise_rate ratecheck rs_nrates ra id = Ok ra' /\ rss_ok ra'.
Proof.
  intros I. unfold ieee80211_rssadapt_raise_rate. cbv zeta. set (ra1 := set_nok ra _). destruct (ratecheck _ _) as [due last]. set (ra2 := set_last_raise ra1 last).
  assert (I2 : rss_ok ra2) by (destruct I; by split). destruct due; cbn [negb]; [|by exists ra2].
  destruct (thr_row_ok ra2 (id_len id) I2) as (row & -> & _ & Rw). cbn [res_bind]. destruct (Nat.ltb_spec (id_rateidx id + 1) rs_nrates); [|by exists ra2].
  destruct (row_at_ok row (id_rateidx id + 1) Rw) as (old & -> & _ & Ho); [lia|]. destruct (row_at_ok row (id_rateidx id) Rw) as (thr & -> & _ & Ht); [lia|].
  cbn [res_bind]. destruct (_ <? _); [|by exists ra2]. eexists. split; [reflexivity|]. apply thr_set_ok; [done|].
  set (new := if _ =? 0 then _ else _). assert (Hnew : 0 <= new <= rss_max) by (unfold new; destruct (_ =? 0); [apply I2|done]).
  assert (B : 0 <= interpolate 15 16 old new <= rss_max) by (apply interpolate_between; lia). cbn [rc_decay_old rc_decay_denom master_expavgctl].
  by rewrite u16_rss.
Qed.
Lemma rss_step_ok ra o : rss_ok ra -> rss_op_ok o -> exists ra', rss_step ra o = Ok ra' /\ rss_ok ra'.
Proof.
  intros I Ho. destruct o as [rssi|id|id|]; cbn [rss_step rss_op_ok] in *.
  - eexists. split; [reflexivity|]. split; [|apply I]. destruct (rssi_shift rssi Ho) as [_ B].
    cbn [ieee80211_rssadapt_input set_avg_rssi ra_avg_rssi rc_avgrssi_old rc_avgrssi_denom master_expavgctl]. rewrite (u32_id (Z.shiftl rssi 8)) by (unfold is_u, rss_max in *; lia).
    assert (0 <= interpolate 4 8 (ra_avg_rssi ra) (Z.shiftl rssi 8) <= rss_max) by (apply interpolate_between; try apply I; lia). by rewrite u16_rss.
  - unfold ieee80211_rssadapt_lower_rate. cbv zeta. set (ra1 := set_nfail ra _). assert (I1 : rss_ok ra1) by (destruct I; by split).
    destruct (Nat.leb_spec rs_nrates (id_rateidx id)); [by exists ra1|].
    destruct (thr_row_ok ra1 (id_len id) I1) as (row & -> & _ & Rw). cbn [res_bind]. destruct (row_at_ok row (id_rateidx id) Rw) as (old & -> & _ & Hold); [lia|].
    cbn [res_bind]. eexists. split; [reflexivity|]. apply thr_set_ok; [done|]. destruct (rssi_shift (id_rssi id) Ho) as [_ B].
    cbn [rc_thresh_old rc_thresh_denom master_expavgctl].
    assert (0 <= interpolate 4 8 old (Z.shiftl (id_rssi id) 8) <= rss_max) by (apply interpolate_between; lia). by rewrite u16_rss.
  - by apply raise_rate_ok.
  - eexists. split; [reflexivity|]. destruct I. by split.
Qed.
Lemma rss_run_ok os : forall ra, rss_ok ra -> Forall rss_op_ok os -> exists ra', rss_run ra os = Ok ra' /\ rss_ok ra'.
Proof.
  induction os as [|o os IH]; intros ra I H; [by exists ra|]. inversion_clear H as [|? ? Ho Hos]. cbn [rss_run].
  destruct (rss_step_ok ra o I Ho) as (ra1 & -> & I1). by apply IH.
Qed.

Context (rs_rates : list Z) (Hr : (rs_nrates <= length rs_rates)%nat).

(** For frames that may use any rate the loop finds the fastest one whose
    threshold is below the average. *)
Lemma choose_loop_spec row avg k : row_ok row -> (k <= rs_nrates)%nat -> forall d,
  exists i, choose_loop rs_rates k 0 false row avg d = Ok i /\
    match k with
    | O => i = d
    | _ => (i < k)%nat /\ (i = 0%nat \/ exists t, row !! i = Some t /\ t < avg) /\
           forall j t, (i < j < k)%nat -> row !! j = Some t -> avg <= t
    end.
Proof.
  intros Rw. induction k as [|k IH]; intros Hk d; [by exists d|]. cbn [choose_loop]. unfold rate_at.
  destruct (lookup_lt_is_Some_2 rs_rates k) as [r ->]; [lia|]. cbn [res_bind]. rewrite Z.land_0_r. cbn [Z.eqb negb].
  destruct (row_at_ok row k Rw) as (t & -> & Et & Ht); [lia|]. cbn [res_bind]. destruct (Z.ltb_spec t avg) as [Hlt|Hge].
  - exists k. split; [done|]. split; [lia|]. split; [right; by exists t|]. intros j t' Hj. lia.
  - destruct (IH ltac:(lia) k) as (i & E & H). exists i. split; [exact E|]. destruct k as [|k].
    + subst i. split; [lia|]. split; [by left|]. intros j t' Hj. lia.
    + destruct H as (H1 & H2 & H3). split; [lia|]. split; [exact H2|]. intros j t' Hj Ej. destruct (decide (j = S k)) as [->|]; [congruence|].
      apply (H3 j t'); [lia|done].
Qed.
Lemma choose_spec ra wh len : rss_ok ra -> (0 < rs_nrates)%nat -> Z.land (i_fc0 wh) IEEE80211_FC0_TYPE_MASK <> IEEE80211_FC0_TYPE_CTL ->
  exists row i, ra_rate_thresh ra !! thr_bucket len = Some row /\ ieee80211_rssadapt_choose rs_nrates rs_rates ra wh len None false = Ok i /\
    (i < rs_nrates)%nat /\ (i = 0%nat \/ exists t, row !! i = Some t /\ t < ra_avg_rssi ra) /\
    forall j t, (i < j < rs_nrates)%nat -> row !! j = Some t -> ra_avg_rssi ra <= t.
Proof.
  intros I H0 Hc. destruct (thr_row_ok ra len I) as (row & E & El & Rw). exists row. unfold ieee80211_rssadapt_choose. rewrite E.
  rewrite (proj2 (Z.eqb_neq _ _)) by done. cbn [res_bind]. destruct (choose_loop_spec row (ra_avg_rssi ra) rs_nrates Rw ltac:(lia) 0) as (i & -> & H).
  exists i. destruct rs_nrates as [|k]; [lia|]. done.
Qed.
End Histories.

(** ** Properties *)

Definition idle_rss : ieee80211_rssadapt :=
  mkRssadapt 0 0 0 0 (replicate IEEE80211_RSSADAPT_BKTS (replicate IEEE80211_RATE_SIZE 0)) (mkTimeval 0 0) (mkTimeval 0 0).
Lemma idle_rss_ok : rss_ok idle_rss.
Proof. split; [unfold rss_max; cbn; lia|]. split; [done|]. repeat (constructor; [split; [done|repeat (constructor; [unfold rss_max; lia|]); constructor]|]). constructor. Qed.


Section Raise.
Context (ratecheck : timeval -> timeval -> bool * timeval) (Hdue : forall l i, fst (ratecheck l i) = true).
Context (nrates : nat) (Hn : (nrates <= IEEE80211_RATE_SIZE)%nat).
Context (id : ieee80211_rssdesc) (Hi : (id_rateidx id + 1 < nrates)%nat).

Let b : nat := thr_bucket (id_len id).
Let i : nat := id_rateidx id.

(** A raise that is due, on the row of thresholds. *)
Lemma raise_row ra row thr old : rss_ok ra -> ra_rate_thresh ra !! b = Some row -> row !! i = Some thr -> row !! (i + 1)%nat = Some old -> thr < old ->
  let new := if thr =? 0 then ra_avg_rssi ra else thr in
  exists ra', ieee80211_rssadapt_raise_rate ratecheck nrates ra id = Ok ra' /\ rss_ok ra' /\ ra_avg_rssi ra' = ra_avg_rssi ra /\
    ra_rate_thresh ra' !! b = Some (<[(i + 1)%nat := interpolate 15 16 old new]> row).
Proof.
  intros I Eb Ei Eo Hlt new. destruct (raise_rate_ok ratecheck nrates Hn ra id I) as (ra' & E & I'). exists ra'. split; [exact E|]. split; [exact I'|].
  revert E. unfold ieee80211_rssadapt_raise_rate. cbv zeta. pose proof (Hdue (ra_last_raise (set_nok ra (u32 (ra_nok ra + 1)))) (ra_raise_interval (set_nok ra (u32 (ra_nok ra + 1))))) as D.
  destruct (ratecheck _ _) as [due last]. cbn [fst] in D. subst due. cbn [negb]. unfold thr_row, row_at. cbn [set_last_raise set_nok ra_rate_thresh ra_avg_rssi].
  fold b i. rewrite Eb. cbn [res_bind]. rewrite (proj2 (Nat.ltb_lt _ _)) by exact Hi. rewrite Eo, Ei. cbn [res_bind]. rewrite (proj2 (Z.ltb_lt _ _)) by exact Hlt.
  fold new. intros [= <-]. split; [done|]. cbn [thr_set set_rate_thresh set_last_raise set_nok ra_rate_thresh]. rewrite list_lookup_alter_eq, Eb. cbn [fmap option_fmap option_map]. f_equal.
  destruct I as [Ha [_ Fr]]. pose proof (Forall_lookup_1 _ _ _ _ Fr Eb) as [_ Ft]. pose proof (Forall_lookup_1 _ _ _ _ Ft Ei) as Bt. pose proof (Forall_lookup_1 _ _ _ _ Ft Eo) as Bo.
  cbn beta in Bt, Bo. assert (Hnew : 0 <= new <= rss_max) by (unfold new; destruct (_ =? 0); lia).
  assert (0 <= interpolate 15 16 old new <= rss_max) by (apply interpolate_between; lia).
  cbn [rc_decay_old rc_decay_denom master_expavgctl]. by rewrite u16_rss.
Qed.

Definition data_wh : list Z := [IEEE80211_FC0_TYPE_DATA].

(** The threshold of the next rate comes down, step by step. *)
Lemma threshold_falls k : forall ra row thr old, rss_ok ra -> ra_rate_thresh ra !! b = Some row -> row !! i = Some thr -> 0 < thr < ra_avg_rssi ra ->
  row !! (i + 1)%nat = Some old -> old <= Z.of_nat k ->
  exists j ra' row' t, rss_run ratecheck nrates ra (replicate j (R_raise id)) = Ok ra' /\ rss_ok ra' /\ ra_rate_thresh ra' !! b = Some row' /\
    row' !! (i + 1)%nat = Some t /\ t < ra_avg_rssi ra'.
Proof.
  induction k as [|k IH]; intros ra row thr old I Eb Ei Ht Eo Hk.
  - exists 0%nat, ra, row, old. do 4 (split; [done|]). lia.
  - destruct (Z.ltb_spec old (ra_avg_rssi ra)); [exists 0%nat, ra, row, old; by do 4 (split; [done|])|].
    destruct (raise_row ra row thr old I Eb Ei Eo ltac:(lia)) as (ra1 & E1 & I1 & A1 & R1). rewrite (proj2 (Z.eqb_neq thr 0)) in R1 by lia.
    pose proof (ro_rows _ I) as [_ Fr]. pose proof (Forall_lookup_1 _ _ _ _ Fr Eb) as [_ Ft]. pose proof (Forall_lookup_1 _ _ _ _ Ft Eo) as Bo. cbn beta in Bo.
    destruct (decay_less 15 16 old thr ltac:(lia) ltac:(lia) ltac:(lia) ltac:(lia)) as [Lo Hi'].
    destruct (IH ra1 (<[(i + 1)%nat := interpolate 15 16 old thr]> row) thr (interpolate 15 16 old thr) I1 R1) as (j & ra' & row' & t & E & Hx);
      [by rewrite list_lookup_insert_ne by lia|rewrite A1; lia|by apply list_lookup_insert_eq, (lookup_lt_Some _ _ _ Eo)|lia|].
    exists (S j), ra', row', t. cbn [replicate rss_run rss_step]. rewrite E1. cbn [res_bind]. by split.
Qed.

Context (rates : list Z) (Hr : (nrates <= length rates)%nat).

Lemma chosen_above ra row t len : rss_ok ra -> thr_bucket len = b -> ra_rate_thresh ra !! b = Some row -> row !! (i + 1)%nat = Some t -> t < ra_avg_rssi ra ->
  exists j, ieee80211_rssadapt_choose nrates rates ra data_wh len None false = Ok j /\ (i < j)%nat.
Proof.
  intros I El Eb Et Ht. destruct (choose_spec nrates Hn rates Hr ra data_wh len I ltac:(lia) ltac:(done)) as (row1 & j & E1 & Ec & Hj & _ & H3).
  rewrite El, Eb in E1. injection E1 as <-. exists j. split; [exact Ec|]. destruct (decide (i < j)%nat) as [|Hge]; [done|].
  pose proof (H3 (i + 1)%nat t) as H. fold i in Hi. specialize (H ltac:(lia) Et). lia.
Qed.

End Raise.


(** When the threshold of the rate in use is still 0, the next threshold decays
    to the average itself and no further: a rate is only used when its
    threshold is below the average, so that without a change of signal the
    next one is never tried. *)
Lemma threshold_stays (ratecheck : timeval -> timeval -> bool * timeval) (nrates : nat) (id : ieee80211_rssdesc)
    (Hdue : forall l i, fst (ratecheck l i) = true) (Hn : (nrates <= IEEE80211_RATE_SIZE)%nat) (Hi : (id_rateidx id + 1 < nrates)%nat) k :
  forall ra row old, rss_ok ra -> 0 < ra_avg_rssi ra -> ra_rate_thresh ra !! thr_bucket (id_len id) = Some row -> row !! id_rateidx id = Some 0 ->
  row !! (id_rateidx id + 1)%nat = Some old -> ra_avg_rssi ra <= old ->
  exists ra' old', rss_run ratecheck nrates ra (replicate k (R_raise id)) = Ok ra' /\ rss_ok ra' /\ ra_avg_rssi ra' = ra_avg_rssi ra /\
    ra_rate_thresh ra' !! thr_bucket (id_len id) = Some (<[(id_rateidx id + 1)%nat := old']> row) /\ ra_avg_rssi ra <= old'.
Proof.
  induction k as [|k IH]; intros ra row old I Ha Eb Ei Eo Hle.
  - exists ra, old. do 3 (split; [done|]). split; [|done]. rewrite Eb. by rewrite list_insert_id.
  - destruct (raise_row ratecheck Hdue nrates Hn id Hi ra row 0 old I Eb Ei Eo ltac:(lia)) as (ra1 & E1 & I1 & A1 & R1). cbn [Z.eqb] in R1.
    set (old1 := interpolate 15 16 old (ra_avg_rssi ra)) in *. pose proof (ro_rows _ I) as [_ Fr]. pose proof (Forall_lookup_1 _ _ _ _ Fr Eb) as [Lr Ft].
    pose proof (Forall_lookup_1 _ _ _ _ Ft Eo) as Bo. cbn beta in Bo. pose proof (ro_avg _ I).
    assert (Ho1 : ra_avg_rssi ra <= old1 <= old) by (apply interpolate_between; lia).
    destruct (IH ra1 (<[(id_rateidx id + 1)%nat := old1]> row) old1 I1) as (ra' & old' & E & I' & A' & R' & L');
      [lia|done|by rewrite list_lookup_insert_ne by lia|by apply list_lookup_insert_eq, (lookup_lt_Some _ _ _ Eo)|lia|].
    exists ra', old'. cbn [replicate rss_run rss_step]. rewrite E1. cbn [res_bind]. split; [exact E|]. split; [done|]. split; [lia|].
    rewrite R', list_insert_insert_eq. split; [done|lia].
Qed.

(** A rate given up too early stays given up: while the threshold of the rate
    in use is 0 and those above are not below the average, no number of
    successes changes the rate that is chosen. *)
Theorem raised_rate_is_never_tried (ratecheck : timeval -> timeval -> bool * timeval) (nrates : nat) (rates : list Z) (id : ieee80211_rssdesc)
    (ra : ieee80211_rssadapt) (row : list Z) (k : nat)
    (Hdue : forall l i, fst (ratecheck l i) = true) (Hn : (nrates <= IEEE80211_RATE_SIZE)%nat) (Hr : (nrates <= length rates)%nat)
    (Hi : (id_rateidx id + 1 < nrates)%nat) (Hok : rss_ok ra) (Ha : 0 < ra_avg_rssi ra) (Hrow : ra_rate_thresh ra !! thr_bucket (id_len id) = Some row)
    (Hthr : row !! id_rateidx id = Some 0) (Hup : forall j t, (id_rateidx id < j < nrates)%nat -> row !! j = Some t -> ra_avg_rssi ra <= t) :
  exists ra', rss_run ratecheck nrates ra (replicate k (R_raise id)) = Ok ra' /\
    ieee80211_rssadapt_choose nrates rates ra' data_wh (id_len id) None false = Ok (id_rateidx id).
Proof.
  pose proof (ro_rows _ Hok) as [_ Fr]. pose proof (Forall_lookup_1 _ _ _ _ Fr Hrow) as [Lr _].
  destruct (lookup_lt_is_Some_2 row (id_rateidx id + 1)) as [old Eo]; [lia|].
  destruct (threshold_stays ratecheck nrates id Hdue Hn Hi k ra row old Hok Ha Hrow Hthr Eo (Hup (id_rateidx id + 1)%nat old ltac:(lia) Eo)) as (ra' & old' & E & I & A & R & L).
  exists ra'. split; [exact E|]. destruct (choose_spec nrates Hn rates Hr ra' data_wh (id_len id) I ltac:(lia) ltac:(done)) as (row1 & j & E1 & Ec & Hj & H2 & H3).
  rewrite R in E1. injection E1 as <-. rewrite Ec. f_equal. rewrite A in H2, H3.
  assert (Hge : (id_rateidx id <= j)%nat).
  { destruct (decide (id_rateidx id <= j)%nat) as [|Hlt]; [done|]. specialize (H3 (id_rateidx id) 0). rewrite list_lookup_insert_ne in H3 by lia.
    specialize (H3 ltac:(lia) Hthr). lia. }
  destruct (decide (j = id_rateidx id)) as [|Hne]; [done|]. destruct H2 as [->|(t & Et & Ht)]; [lia|].
  destruct (decide (j = (id_rateidx id + 1)%nat)) as [->|Hn1].
  - rewrite list_lookup_insert_eq in Et by (apply (lookup_lt_Some _ _ _ Eo)). injection Et as <-. lia.
  - rewrite list_lookup_insert_ne in Et by lia. specialize (Hup j t ltac:(lia) Et). lia.
Qed.

(** ** Witnesses *)

Definition b_rates : list Z := [0x82; 0x84; 0x8b; 0x96].
Definition always_due (l i : timeval) : bool * timeval := (true, l).
Definition thr_row4 (a b c d : Z) : list Z := [a; b; c; d; 0; 0; 0; 0].
(** Average 40 << 8; the two fast rates were given up for short frames. *)
Definition lossy (t1 : Z) : ieee80211_rssadapt :=
  mkRssadapt 10240 0 0 0 [thr_row4 0 t1 12800 13000; thr_row4 0 0 0 0; thr_row4 0 0 0 0] (mkTimeval 0 0) (mkTimeval 0 0).
Lemma lossy_ok t1 : 0 <= t1 <= rss_max -> rss_ok (lossy t1).
Proof.
  intros H. unfold rss_max in *. split; [unfold rss_max; cbn; lia|]. split; [done|]. unfold lossy, thr_row4, row_ok, rss_max. cbn [ra_rate_thresh].
  repeat (constructor; [split; [done|]; repeat (constructor; [lia|]); constructor|]). constructor.
Qed.

Lemma raised_rate_is_never_tried_witness :
  exists ra', rss_run always_due 4 (lossy 0) (replicate 100 (R_raise (mkRssdesc 100 1 40))) = Ok ra' /\
    ieee80211_rssadapt_choose 4 b_rates ra' data_wh 100 None false = Ok 1%nat.
Proof.
  apply (raised_rate_is_never_tried always_due 4 b_rates (mkRssdesc 100 1 40) (lossy 0) (thr_row4 0 0 12800 13000) 100).
  - reflexivity.
  - unfold IEEE80211_RATE_SIZE. lia.
  - cbn. lia.
  - cbn. lia.
  - apply lossy_ok. unfold rss_max. lia.
  - cbn. lia.
  - reflexivity.
  - reflexivity.
  - intros j t Hj. cbn in Hj. assert (j = 2%nat \/ j = 3%nat) as [->| ->] by lia; cbn; intros [= <-]; lia.
Defined.

(** The rows have eight thresholds, an 802.11g node has twelve rates. *)
Lemma twelve_rates_leave_the_row :
  ieee80211_rssadapt_choose 12 [2; 4; 11; 22; 12; 18; 24; 36; 48; 72; 96; 108] idle_rss data_wh 100 None false = Fault BadAccess.
Proof. reflexivity. Qed.
