(* ===== verification/Mgmt.v ===== *)
(** * Management frames of an access point

    The handlers of ieee80211_input.c for probe, authentication, association,
    deauthentication and disassociation frames, and the authentication handlers
    for a station.  [m] is the contiguous data of the frame, 24 bytes of header
    first; [id] is the node of the sender or the BSS node, to which the caller
    holds a reference.  The statistics kept per node are not part of the model.

    [acl] is the answer of the access control list for an address, [true]
    without one.  [ieee80211_new_state] goes through the driver and is logged.
    [challenge] stands for the bytes of [get_random_bytes]. *)

From stdpp Require Import gmap.
From S2P Require Import Prelude Buffers Mbuf Ieee80211 Crypto InfoElem Wme Node NodeTable Rates.

(** ** Constants *)

Definition IEEE80211_FC0_SUBTYPE_ASSOC_REQ : Z := 0x00.
Definition IEEE80211_FC0_SUBTYPE_ASSOC_RESP : Z := 0x10.
Definition IEEE80211_FC0_SUBTYPE_REASSOC_REQ : Z := 0x20.
Definition IEEE80211_FC0_SUBTYPE_REASSOC_RESP : Z := 0x30.
Definition IEEE80211_FC0_SUBTYPE_PROBE_REQ : Z := 0x40.
Definition IEEE80211_FC0_SUBTYPE_PROBE_RESP : Z := 0x50.
Definition IEEE80211_FC0_SUBTYPE_BEACON : Z := 0x80.
Definition IEEE80211_FC0_SUBTYPE_DISASSOC : Z := 0xa0.
Definition IEEE80211_FC0_SUBTYPE_AUTH : Z := 0xb0.
Definition IEEE80211_NWID_LEN : Z := 32.
Definition IEEE80211_CAPINFO_ESS : Z := 0x0001.
Definition IEEE80211_ELEMID_SSID : Z := 0.
Definition IEEE80211_ELEMID_RATES : Z := 1.
Definition IEEE80211_ELEMID_CHALLENGE : Z := 16.
Definition IEEE80211_ELEMID_XRATES : Z := 50.
Definition IEEE80211_CHALLENGE_LEN : Z := 128.
Definition IEEE80211_AUTH_ALG_OPEN : Z := 0x0000.
Definition IEEE80211_AUTH_ALG_SHARED : Z := 0x0001.
Definition IEEE80211_AUTH_OPEN_REQUEST : Z := 1.
Definition IEEE80211_AUTH_OPEN_RESPONSE : Z := 2.
Definition IEEE80211_AUTH_SHARED_REQUEST : Z := 1.
Definition IEEE80211_AUTH_SHARED_CHALLENGE : Z := 2.
Definition IEEE80211_AUTH_SHARED_RESPONSE : Z := 3.
Definition IEEE80211_AUTH_SHARED_PASS : Z := 4.
Definition IEEE80211_REASON_ASSOC_NOT_AUTHED : Z := 9.
Definition IEEE80211_REASON_RSN_REQUIRED : Z := 11.
Definition IEEE80211_REASON_MIC_FAILURE : Z := 14.
Definition IEEE80211_STATUS_UNSPECIFIED : Z := 1.
Definition IEEE80211_STATUS_CAPINFO : Z := 10.
Definition IEEE80211_STATUS_ALG : Z := 13.
Definition IEEE80211_STATUS_SEQUENCE : Z := 14.
Definition IEEE80211_STATUS_CHALLENGE : Z := 15.
Definition IEEE80211_STATUS_BASIC_RATE : Z := 18.
Definition IEEE80211_S_SCAN : Z := 1.
Definition IEEE80211_S_AUTH : Z := 2.
Definition IEEE80211_S_ASSOC : Z := 3.
Definition IEEE80211_S_RUN : Z := 4.
Definition IEEE80211_F_PUREG : Z := 0x00000020.
Definition IEEE80211_F_HIDESSID : Z := 0x08000000.

(** ** Returning early

    A handler either returns with the state it has reached, or goes on. *)

Definition rr (A : Type) : Type := res (net + A).
Definition go {A} (a : A) : rr A := Ok (inr a).
Definition quit {A} (n : net) : rr A := Ok (inl n).
Definition rr_bind {A} (c : rr A) (k : A -> res net) : res net :=
  let* o := c in match o with inl n => Ok n | inr a => k a end.

Notation "'let?' x ':=' m 'in' k" :=
  (rr_bind m (fun x => k))
  (at level 10, x pattern, m at level 100, k at level 200) : res_scope.

Definition rr_then {A B} (c : rr A) (k : A -> rr B) : rr B :=
  let* o := c in match o with inl n => Ok (inl n) | inr a => k a end.
Notation "'let!' x ':=' m 'in' k" :=
  (rr_then m (fun x => k))
  (at level 10, x pattern, m at level 100, k at level 200) : res_scope.

(** ** Elements *)

Record elems := mkElems {
  el_ssid : option (list Z);
  el_rates : option (list Z);
  el_xrates : option (list Z);
  el_wpa : option (list Z);
  el_wme : option (list Z);
}.
Definition no_elems : elems := mkElems None None None None None.

Definition iswmeinfo (ie : list Z) : res bool :=
  if 5 <? byte_at ie 1 then
    let* w := LE_READ_4 ie 2 in
    if w =? Z.lor (Z.shiftl WME_OUI_TYPE 24) WME_OUI then let* b := rd ie 6 in Ok (b =? WME_INFO_OUI_SUBTYPE) else Ok false
  else Ok false.

(** One element of an association request, and of a probe request. *)
Definition asreq_elem (e : elems) (ie : list Z) : res elems :=
  let id := byte_at ie 0 in
  if id =? IEEE80211_ELEMID_SSID then Ok (mkElems (Some ie) (el_rates e) (el_xrates e) (el_wpa e) (el_wme e))
  else if id =? IEEE80211_ELEMID_RATES then Ok (mkElems (el_ssid e) (Some ie) (el_xrates e) (el_wpa e) (el_wme e))
  else if id =? IEEE80211_ELEMID_XRATES then Ok (mkElems (el_ssid e) (el_rates e) (Some ie) (el_wpa e) (el_wme e))
  else if id =? IEEE80211_ELEMID_RSN then Ok (mkElems (el_ssid e) (el_rates e) (el_xrates e) (Some ie) (el_wme e))
  else if id =? IEEE80211_ELEMID_VENDOR then
    let* wpa := iswpaoui ie in
    if wpa then Ok (mkElems (el_ssid e) (el_rates e) (el_xrates e) (Some ie) (el_wme e))
    else
      let* wme := iswmeinfo ie in
      Ok (if wme then mkElems (el_ssid e) (el_rates e) (el_xrates e) (el_wpa e) (Some ie) else e)
  else Ok e.
Definition prreq_elem (e : elems) (ie : list Z) : res elems :=
  let id := byte_at ie 0 in
  if id =? IEEE80211_ELEMID_SSID then Ok (mkElems (Some ie) (el_rates e) (el_xrates e) (el_wpa e) (el_wme e))
  else if id =? IEEE80211_ELEMID_RATES then Ok (mkElems (el_ssid e) (Some ie) (el_xrates e) (el_wpa e) (el_wme e))
  else if id =? IEEE80211_ELEMID_XRATES then Ok (mkElems (el_ssid e) (el_rates e) (Some ie) (el_wpa e) (el_wme e))
  else Ok e.

(** [while (frm + 1 < efrm)]; [None] when an element is longer than the rest. *)
Fixpoint elem_loop (fuel : nat) (elem : elems -> list Z -> res elems) (e : elems) (frm : list Z) : res (option elems) :=
  if (length frm <? 2)%nat then Ok (Some e)
  else
    match fuel with
    | O => Fault Panic
    | S fuel =>
        let len := (2 + Z.to_nat (byte_at frm 1))%nat in
        if (length frm <? len)%nat then Ok None
        else let* e := elem e (take len frm) in elem_loop fuel elem e (drop len frm)
    end.
Definition parse_elems (n : net) (elem : elems -> list Z -> res elems) (frm : list Z) : rr elems :=
  let* o := elem_loop (length frm) elem no_elems frm in
  match o with Some e => go e | None => quit (bump n is_rx_elem_toosmall) end.

Definition VERIFY_LENGTH (n : net) (len minlen : nat) : rr unit :=
  if (len <? minlen)%nat then quit (bump n is_rx_elem_toosmall) else go tt.
Definition VERIFY_ELEMENT (n : net) (e : option (list Z)) (maxlen : Z) : rr (list Z) :=
  match e with
  | None => quit (bump n is_rx_elem_missing)
  | Some ie => if maxlen <? byte_at ie 1 then quit (bump n is_rx_elem_toobig) else go ie
  end.
Definition VERIFY_SSID (n : net) (bss : ieee80211_node) (ssid : list Z) : rr unit :=
  let len := byte_at ssid 1 in
  if negb (len =? 0) && (negb (len =? Z.of_nat (length (ni_essid bss))) ||
      negb (bool_decide (take (Z.to_nat len) (drop 2 ssid) = take (Z.to_nat len) (ni_essid bss))))
  then quit (bump n is_rx_ssidmismatch) else go tt.

(** ** Handlers *)

Section Handlers.
Context (dev : key_ops) (queued : net -> nat -> bool) (acl : list Z -> bool) (shl32 : Z).

Definition frame_body (m : list Z) : list Z := drop sizeof_frame m.
Definition new_state (n : net) (nstate arg : Z) : net := tell n (NE_newstate nstate arg).
Definition subtype_of (m : list Z) : Z := Z.land (i_fc0 m) IEEE80211_FC0_SUBTYPE_MASK.
Definition is_bss (n : net) (id : nat) : bool := bool_decide (ic_bss n = Some id).

Definition ieee80211_send_error (n : net) (id : nat) (mac : list Z) (subtype arg : Z) : res net :=
  if is_bss n id then
    let* (r, n) := ieee80211_tmp_node n mac in
    match r with
    | None => Ok n
    | Some id => let* n := IEEE80211_SEND_MGMT queued n id subtype arg in ieee80211_free_node dev n id
    end
  else IEEE80211_SEND_MGMT queued n id subtype arg.

(** The node of a station that authenticates: a new one for a stranger; one
    that is known gets a reference that stays, marked by [NODE_AREF]. *)
Definition auth_node (n : net) (id : nat) (mac : list Z) : res (net + nat * net) :=
  let* (r, n) :=
    if is_bss n id then ieee80211_dup_bss n T_sta mac
    else
      let* ni := node_at n id in
      if has_flag (ni_flags ni) IEEE80211_NODE_AREF then Ok (Some id, n)
      else let* n := ieee80211_ref_node n id in Ok (Some id, n) in
  match r with
  | None => Ok (inl n)
  | Some id => Ok (inr (id, upd n id (fun ni => set_nflags ni (Z.lor (ni_flags ni) IEEE80211_NODE_AREF))))
  end.

(** [ni->ni_fails++], unless it is the BSS node. *)
Definition note_failure (n : net) (id : nat) : net :=
  if is_bss n id then n else upd n id (fun ni => set_fails ni (ni_fails ni + 1)).

Definition ieee80211_auth_open (n : net) (m : list Z) (id : nat) (seq status : Z) : res net :=
  let* ni := node_at n id in
  if ni_authmode ni =? IEEE80211_AUTH_SHARED then
    let n := bump n is_rx_bad_auth in
    if ic_opmode n =? IEEE80211_M_HOSTAP
    then ieee80211_send_error n id (i_addr2 m) IEEE80211_FC0_SUBTYPE_AUTH (Z.lor (seq + 1) (Z.shiftl IEEE80211_STATUS_ALG 16))
    else Ok n
  else if ic_opmode n =? IEEE80211_M_HOSTAP then
    if negb (ic_state n =? IEEE80211_S_RUN) || negb (seq =? IEEE80211_AUTH_OPEN_REQUEST) then Ok (bump n is_rx_bad_auth)
    else
      let? (id, n) := auth_node n id (i_addr2 m) in
      let* n := IEEE80211_SEND_MGMT queued n id IEEE80211_FC0_SUBTYPE_AUTH (seq + 1) in
      let* ni := node_at n id in
      Ok (if ni_authmode ni =? IEEE80211_AUTH_8021X then n else upd n id (ieee80211_node_authorize n))
  else if ic_opmode n =? IEEE80211_M_STA then
    if negb (ic_state n =? IEEE80211_S_AUTH) || negb (seq =? IEEE80211_AUTH_OPEN_RESPONSE) then Ok (bump n is_rx_bad_auth)
    else if negb (status =? 0) then Ok (new_state (bump (note_failure n id) is_rx_auth_fail) IEEE80211_S_SCAN 0)
    else Ok (new_state n IEEE80211_S_ASSOC (subtype_of m))
  else Ok n.

(** Room for a challenge, if there is none yet. *)
Definition alloc_challenge (n : net) (id : nat) : res (bool * net) :=
  let* ni := node_at n id in
  match ni_challenge ni with
  | Some _ => Ok (true, n)
  | None =>
      match n_mem n with
      | true :: mem => Ok (true, upd (set_mem n mem) id (fun ni => set_challenge ni (Some (replicate (Z.to_nat IEEE80211_CHALLENGE_LEN) 0))))
      | false :: mem => Ok (false, set_mem n mem)
      | [] => Ok (false, n)
      end
  end.

(** The [bad] label. *)
Definition auth_bad (n : net) (m : list Z) (id : nat) (seq estatus : Z) : res net :=
  if ic_opmode n =? IEEE80211_M_HOSTAP then
    ieee80211_send_error n id (i_addr2 m) IEEE80211_FC0_SUBTYPE_AUTH (Z.lor (seq + 1) (Z.shiftl estatus 16))
  else if (ic_opmode n =? IEEE80211_M_STA) && (ic_state n =? IEEE80211_S_AUTH) then Ok (new_state n IEEE80211_S_SCAN 0)
  else Ok n.

(** The access point's part, the challenge element found. *)
Definition auth_shared_ap (n : net) (m : list Z) (id : nat) (rssi rstamp seq : Z) (ie : option (list Z)) (challenge : list Z) : res net :=
  if negb (ic_state n =? IEEE80211_S_RUN) then auth_bad n m id seq IEEE80211_STATUS_ALG
  else if seq =? IEEE80211_AUTH_SHARED_REQUEST then
    let? (id, n) := auth_node n id (i_addr2 m) in
    let n := upd n id (fun ni => set_rstamp (set_rssi ni (u8 rssi)) rstamp) in
    let* (ok, n) := alloc_challenge n id in
    if ok then
      let n := upd n id (fun ni => set_challenge ni (Some challenge)) in
      IEEE80211_SEND_MGMT queued n id IEEE80211_FC0_SUBTYPE_AUTH (seq + 1)
    else Ok n
  else if seq =? IEEE80211_AUTH_SHARED_RESPONSE then
    if is_bss n id then Ok n
    else
      let* ni := node_at n id in
      match ni_challenge ni, ie with
      | None, _ => auth_bad (bump n is_rx_bad_auth) m id seq IEEE80211_STATUS_CHALLENGE
      | Some _, None => Fault NullDeref
      | Some c, Some ie =>
          let len := Z.to_nat (byte_at ie 1) in
          if negb (bool_decide (take len c = take len (drop 2 ie)))
          then auth_bad (bump n is_rx_auth_fail) m id seq IEEE80211_STATUS_CHALLENGE
          else IEEE80211_SEND_MGMT queued (upd n id (ieee80211_node_authorize n)) id IEEE80211_FC0_SUBTYPE_AUTH (seq + 1)
      end
  else auth_bad (bump n is_rx_bad_auth) m id seq IEEE80211_STATUS_SEQUENCE.

(** The station's part. *)
Definition auth_shared_sta (n : net) (m : list Z) (id : nat) (seq status : Z) (ie : option (list Z)) : res net :=
  if negb (ic_state n =? IEEE80211_S_AUTH) then Ok n
  else if seq =? IEEE80211_AUTH_SHARED_PASS then
    let* _ := node_at n id in
    let n := upd n id (fun ni => set_challenge ni None) in
    if negb (status =? 0) then Ok (bump (note_failure n id) is_rx_auth_fail)
    else Ok (new_state n IEEE80211_S_ASSOC (subtype_of m))
  else if seq =? IEEE80211_AUTH_SHARED_CHALLENGE then
    let* (ok, n) := alloc_challenge n id in
    if ok then
      match ie with
      | None => Fault NullDeref
      | Some ie =>
          let len := Z.to_nat (byte_at ie 1) in
          if IEEE80211_CHALLENGE_LEN <? byte_at ie 1 then Fault BadAccess
          else
            let n := upd n id (fun ni => set_challenge ni (Some (take len (drop 2 ie) ++ drop len (default [] (ni_challenge ni))))) in
            IEEE80211_SEND_MGMT queued n id IEEE80211_FC0_SUBTYPE_AUTH (seq + 1)
      end
    else Ok n
  else Ok (bump n is_rx_bad_auth).

Definition ieee80211_auth_shared (n : net) (m frm : list Z) (id : nat) (rssi rstamp seq status : Z) (challenge : list Z) : res net :=
  let* ni := node_at n id in
  if negb (has_flag (ic_flags (n_ic n)) IEEE80211_F_PRIVACY) then auth_bad n m id seq IEEE80211_STATUS_ALG
  else if negb (ni_authmode ni =? IEEE80211_AUTH_AUTO) && negb (ni_authmode ni =? IEEE80211_AUTH_SHARED)
  then auth_bad (bump n is_rx_bad_auth) m id seq IEEE80211_STATUS_ALG
  else
    let len := (2 + Z.to_nat (byte_at frm 1))%nat in
    if (1 <? length frm)%nat && (length frm <? len)%nat then auth_bad (bump n is_rx_bad_auth) m id seq IEEE80211_STATUS_CHALLENGE
    else
      let ie := if (1 <? length frm)%nat && (byte_at frm 0 =? IEEE80211_ELEMID_CHALLENGE) then Some (take len frm) else None in
      let needs := (seq =? IEEE80211_AUTH_SHARED_CHALLENGE) || (seq =? IEEE80211_AUTH_SHARED_RESPONSE) in
      let bad := match ie with Some ie => negb (byte_at ie 1 =? IEEE80211_CHALLENGE_LEN) | None => true end in
      if needs && bad then auth_bad (bump n is_rx_bad_auth) m id seq IEEE80211_STATUS_CHALLENGE
      else if ic_opmode n =? IEEE80211_M_HOSTAP then auth_shared_ap n m id rssi rstamp seq ie challenge
      else if ic_opmode n =? IEEE80211_M_STA then auth_shared_sta n m id seq status ie
      else Ok n.

Definition ieee80211_recv_mgmt_auth (n : net) (m : list Z) (id : nat) (rssi rstamp : Z) (challenge : list Z) : res net :=
  let frm := frame_body m in
  let? _ := VERIFY_LENGTH n (length frm) 6 in
  let algo := le2 frm 0 in let seq := le2 frm 2 in let status := le2 frm 4 in
  if negb (acl (i_addr2 m)) then
    let n := bump n is_rx_acl in
    if ic_opmode n =? IEEE80211_M_HOSTAP
    then IEEE80211_SEND_MGMT queued n id IEEE80211_FC0_SUBTYPE_AUTH (Z.lor (seq + 1) (Z.shiftl IEEE80211_STATUS_UNSPECIFIED 16)) else Ok n
  else if has_flag (ic_flags (n_ic n)) IEEE80211_F_COUNTERM then
    let n := bump n is_rx_auth_countermeasures in
    if ic_opmode n =? IEEE80211_M_HOSTAP
    then IEEE80211_SEND_MGMT queued n id IEEE80211_FC0_SUBTYPE_AUTH IEEE80211_REASON_MIC_FAILURE else Ok n
  else if algo =? IEEE80211_AUTH_ALG_SHARED then ieee80211_auth_shared n m (drop 6 frm) id rssi rstamp seq status challenge
  else if algo =? IEEE80211_AUTH_ALG_OPEN then ieee80211_auth_open n m id seq status
  else
    let n := bump n is_rx_auth_unsupported in
    if ic_opmode n =? IEEE80211_M_HOSTAP
    then IEEE80211_SEND_MGMT queued n id IEEE80211_FC0_SUBTYPE_AUTH (Z.lor (seq + 1) (Z.shiftl IEEE80211_STATUS_ALG 16)) else Ok n.

(** *** Association *)

(** [ieee80211_saveie]: the old copy is used again if the length is the same. *)
Definition ieee80211_saveie (n : net) (old : option (list Z)) (ie : list Z) : option (list Z) * net :=
  let fresh := match n_mem n with
               | true :: mem => (Some ie, set_mem n mem)
               | false :: mem => (None, set_mem n mem)
               | [] => (None, n)
               end in
  match old with
  | Some o => if byte_at o 1 =? byte_at ie 1 then (Some ie, n) else fresh
  | None => fresh
  end.

(** What an association request has to say. *)
Record asreq := mkAsreq {
  as_reassoc : bool;
  as_capinfo : Z;
  as_lintval : Z;
  as_rates : list Z;
  as_xrates : option (list Z);
  as_wpa : option (list Z);
  as_wme : option (list Z);
}.
Definition as_resp (a : asreq) : Z := if as_reassoc a then IEEE80211_FC0_SUBTYPE_REASSOC_RESP else IEEE80211_FC0_SUBTYPE_ASSOC_RESP.

(** Up to the checks of the elements. *)
Definition asreq_parse (n : net) (m : list Z) (subtype : Z) : rr asreq :=
  if negb (ic_opmode n =? IEEE80211_M_HOSTAP) || negb (ic_state n =? IEEE80211_S_RUN) then quit (bump n is_rx_mgtdiscard)
  else
    let reassoc := subtype =? IEEE80211_FC0_SUBTYPE_REASSOC_REQ in
    let frm := frame_body m in
    let skip := if reassoc then 10%nat else 4%nat in
    if (length frm <? skip)%nat then quit (bump n is_rx_elem_toosmall)
    else
      let* bss := bss_node n in
      if negb (IEEE80211_ADDR_EQ (i_addr3 m) (ni_bssid bss)) then quit (bump n is_rx_assoc_bss)
      else
        let! e := parse_elems n asreq_elem (drop skip frm) in
        let! rates := VERIFY_ELEMENT n (el_rates e) IEEE80211_RATE_MAXSIZE in
        let! ssid := VERIFY_ELEMENT n (el_ssid e) IEEE80211_NWID_LEN in
        let! _ := VERIFY_SSID n bss ssid in
        go (mkAsreq reassoc (le2 frm 0) (le2 frm 2) rates (el_xrates e) (el_wpa e) (el_wme e)).

(** A refusal: the station is told and loses its node. *)
Definition as_refuse (n : net) (id : nat) (subtype arg : Z) (s : stat) : res net :=
  let* n := IEEE80211_SEND_MGMT queued n id subtype arg in
  let* n := ieee80211_node_leave dev n id in
  Ok (bump n s).

(** The security element: the parameters to install. *)
Definition as_security (n : net) (id : nat) (a : asreq) : rr (option ieee80211_rsnparms) :=
  match as_wpa a with
  | None =>
      if has_flag (ic_flags (n_ic n)) IEEE80211_F_WPA then
        let* n := as_refuse n id IEEE80211_FC0_SUBTYPE_DEAUTH IEEE80211_REASON_RSN_REQUIRED is_rx_assoc_badwpaie in quit n
      else go None
  | Some wpa =>
      let* ni := node_at n id in
      let* (reason, rsn) :=
        if negb (byte_at wpa 0 =? IEEE80211_ELEMID_RSN) then ieee80211_parse_wpa shl32 (n_ic n) wpa (ni_rsn ni)
        else ieee80211_parse_rsn shl32 (n_ic n) wpa (ni_rsn ni) in
      if negb (u8 reason =? 0) then
        let* n := as_refuse n id IEEE80211_FC0_SUBTYPE_DEAUTH (u8 reason) is_rx_assoc_badwpaie in quit n
      else go (Some rsn)
  end.

(** What is recorded of the station. *)
Definition as_install (n : net) (id : nat) (a : asreq) (rsn : option ieee80211_rsnparms) (rssi rstamp : Z) : res net :=
  let* bss := bss_node n in
  let n := upd n id (fun ni =>
    let ni := set_capinfo (set_intval (set_rstamp (set_rssi ni (u8 rssi)) rstamp) (as_lintval a)) (as_capinfo a) in
    set_fhindex (set_fhdwell (set_chan ni (ni_chan bss)) (ni_fhdwell bss)) (ni_fhindex bss)) in
  let* ni := node_at n id in
  let n := match rsn, as_wpa a with
           | Some rsn, Some wpa =>
               let '(ie, n) := ieee80211_saveie n (ni_wpa_ie ni) wpa in
               upd n id (fun ni => set_wpa_ie (set_rsn ni rsn) ie)
           | _, _ => upd n id (fun ni => set_wpa_ie ni None)
           end in
  Ok (match as_wme a with
      | Some wme =>
          let '(ie, n) := ieee80211_saveie n (ni_wme_ie ni) wme in
          upd n id (fun ni => set_nflags (set_wme_ie ni ie) (Z.lor (ni_flags ni) IEEE80211_NODE_QOS))
      | None =>
          match ni_wme_ie ni with
          | Some _ => upd n id (fun ni => set_nflags (set_wme_ie ni None) (Z.land (ni_flags ni) (Z.lnot IEEE80211_NODE_QOS)))
          | None => n
          end
      end).

(** The rates of the station, then the association. *)
Definition as_associate (n : net) (id : nat) (a : asreq) (rsn : option ieee80211_rsnparms) (rssi rstamp : Z) : res net :=
  let* ni := node_at n id in
  let* (rate, ni, n) := ieee80211_setup_rates n ni (as_rates a) (as_xrates a) R_ASSOC in
  let n := upd n id (fun _ => ni) in
  let rate := u8 rate in
  if has_flag rate IEEE80211_RATE_BASIC || (has_flag (ic_flags (n_ic n)) IEEE80211_F_PUREG && (rate <? 48))
  then as_refuse n id (as_resp a) IEEE80211_STATUS_BASIC_RATE is_rx_assoc_norate
  else
    let* n := as_install n id a rsn rssi rstamp in
    ieee80211_node_join dev queued n id (as_resp a).

Definition ieee80211_recv_mgmt_assoc_req (n : net) (m : list Z) (id : nat) (subtype rssi rstamp : Z) : res net :=
  let? a := asreq_parse n m subtype in
  if is_bss n id then
    let* n := ieee80211_send_error n id (i_addr2 m) IEEE80211_FC0_SUBTYPE_DEAUTH IEEE80211_REASON_ASSOC_NOT_AUTHED in
    Ok (bump n is_rx_assoc_notauth)
  else
    let? rsn := as_security n id a in
    let* _ := node_at n id in
    let n := upd n id (fun ni => set_challenge ni None) in
    if negb (has_flag (as_capinfo a) IEEE80211_CAPINFO_ESS)
    then as_refuse n id (as_resp a) IEEE80211_STATUS_CAPINFO is_rx_assoc_capmismatch
    else as_associate n id a rsn rssi rstamp.

(** *** Probes *)

(** The node to answer: a temporary one, or a new neighbour in an IBSS. *)
Definition probe_node (n : net) (m : list Z) (id : nat) : rr (nat * bool * net) :=
  if is_bss n id then
    if negb (ic_opmode n =? IEEE80211_M_IBSS) then
      let* (r, n) := ieee80211_tmp_node n (i_addr2 m) in
      match r with Some id => go (id, true, n) | None => quit n end
    else
      let* ni := node_at n id in
      if IEEE80211_ADDR_EQ (i_addr2 m) (ni_macaddr ni) then go (id, false, n)
      else
        let* (r, n) := ieee80211_fakeup_adhoc_node n T_sta (i_addr2 m) in
        match r with Some id => go (id, false, n) | None => quit n end
  else go (id, false, n).

Definition prreq_parse (n : net) (m : list Z) : rr (list Z * option (list Z)) :=
  if (ic_opmode n =? IEEE80211_M_STA) || negb (ic_state n =? IEEE80211_S_RUN) then quit (bump n is_rx_mgtdiscard)
  else if IEEE80211_IS_MULTICAST (i_addr2 m) then quit (bump n is_rx_mgtdiscard)
  else
    let! e := parse_elems n prreq_elem (frame_body m) in
    let! rates := VERIFY_ELEMENT n (el_rates e) IEEE80211_RATE_MAXSIZE in
    let! ssid := VERIFY_ELEMENT n (el_ssid e) IEEE80211_NWID_LEN in
    let* bss := bss_node n in
    let! _ := VERIFY_SSID n bss ssid in
    if has_flag (ic_flags (n_ic n)) IEEE80211_F_HIDESSID && (byte_at ssid 1 =? 0) then quit (bump n is_rx_ssidmismatch)
    else go (rates, el_xrates e).

Definition ieee80211_recv_mgmt_probe_req (n : net) (m : list Z) (id : nat) (rssi rstamp : Z) : res net :=
  let? (rates, xrates) := prreq_parse n m in
  let? (id, need_free, n) := probe_node n m id in
  let* _ := node_at n id in
  let n := upd n id (fun ni => set_rstamp (set_rssi ni (u8 rssi)) rstamp) in
  let* ni := node_at n id in
  let* (rate, ni, n) := ieee80211_setup_rates n ni rates xrates R_ASSOC in
  let n := upd n id (fun _ => ni) in
  let* n := if has_flag (u8 rate) IEEE80211_RATE_BASIC then Ok n
            else IEEE80211_SEND_MGMT queued n id IEEE80211_FC0_SUBTYPE_PROBE_RESP 0 in
  if need_free then ieee80211_free_node dev n id else Ok n.

(** *** Departures *)

(** The common end of the two handlers: a station gives up its state, an access
    point the node of the sender. *)
Definition departs (n : net) (m : list Z) (id : nat) (nstate : Z) : res net :=
  if negb (IEEE80211_ADDR_EQ (i_addr1 m) (ic_myaddr n)) then Ok (bump n is_rx_mgtdiscard)
  else if ic_opmode n =? IEEE80211_M_STA then Ok (new_state n nstate (subtype_of m))
  else if ic_opmode n =? IEEE80211_M_HOSTAP then if is_bss n id then Ok n else ieee80211_node_leave dev n id
  else Ok (bump n is_rx_mgtdiscard).

Definition ieee80211_recv_mgmt_deauth (n : net) (m : list Z) (id : nat) : res net :=
  if ic_state n =? IEEE80211_S_SCAN then Ok (bump n is_rx_mgtdiscard)
  else
    let? _ := VERIFY_LENGTH n (length (frame_body m)) 2 in
    departs (bump n is_rx_deauth) m id IEEE80211_S_AUTH.

Definition ieee80211_recv_mgmt_disassoc (n : net) (m : list Z) (id : nat) : res net :=
  if negb (ic_state n =? IEEE80211_S_RUN) && negb (ic_state n =? IEEE80211_S_ASSOC) && negb (ic_state n =? IEEE80211_S_AUTH)
  then Ok (bump n is_rx_mgtdiscard)
  else
    let? _ := VERIFY_LENGTH n (length (frame_body m)) 2 in
    departs (bump n is_rx_disassoc) m id IEEE80211_S_ASSOC.
End Handlers.
