(* ===== verification/Station.v ===== *)
(** * Frames a station receives: beacons, probe and association responses

    The rest of the management handlers of ieee80211_input.c, the scan table
    entries and neighbours of ieee80211_node.c they fill in, and the dispatch of
    management frames.  What a beacon says is collected in [scanparams]
    ([struct ieee80211_scanparams]); elements are kept with their two bytes in
    front.  The country element is parsed and not used. *)

From stdpp Require Import gmap.
From S2P Require Import Prelude Buffers Mbuf Ieee80211 Crypto InfoElem Wme Node NodeTable WmeParams Rates Mgmt.

(** ** Constants *)

Definition IEEE80211_ELEMID_FHPARMS : Z := 2.
Definition IEEE80211_ELEMID_DSPARMS : Z := 3.
Definition IEEE80211_ELEMID_TIM : Z := 5.
Definition IEEE80211_ELEMID_IBSSPARMS : Z := 6.
Definition IEEE80211_ELEMID_COUNTRY : Z := 7.
Definition IEEE80211_ELEMID_ERP : Z := 42.
Definition IEEE80211_ERP_USE_PROTECTION : Z := 0x02.
Definition IEEE80211_CHAN_ANY : Z := 0xffff.
Definition IEEE80211_CHAN_PASSIVE : Z := 0x0200.
Definition IEEE80211_T_FH : Z := 1.
Definition IEEE80211_FH_CHANMOD : Z := 80.
Definition IEEE80211_BINTVAL_MIN : Z := 25.
Definition IEEE80211_BINTVAL_MAX : Z := 1000.
Definition IEEE80211_F_DESBSSID : Z := 0x00001000.
Definition IEEE80211_FEXT_PROBECHAN : Z := 0x00020000.

(** ** Channels *)

Definition ieee80211_chan2ieee (c : option ieee80211_channel) : Z :=
  match c with Some c => ch_ix c | None => IEEE80211_CHAN_ANY end.
Definition IEEE80211_FH_CHAN (set pat : Z) : Z := (set - 1) * IEEE80211_FH_CHANMOD + pat.
(** [isset], [&ic->ic_channels[i]]. *)
Definition isset (map : list Z) (i : Z) : res bool :=
  match map !! Z.to_nat (i / 8) with Some b => Ok (Z.testbit b (i mod 8)) | None => Fault BadAccess end.
Definition channel_at (n : net) (i : Z) : res ieee80211_channel :=
  match ic_channels (ic_conf n) !! Z.to_nat i with Some c => Ok c | None => Fault BadAccess end.
Definition fext_off (n : net) (f : Z) : net :=
  set_conf n (set_flags_ext (ic_conf n) (Z.land (ic_flags_ext (ic_conf n)) (Z.lnot f))).
Definition fext_on (n : net) (f : Z) : net := set_conf n (set_flags_ext (ic_conf n) (Z.lor (ic_flags_ext (ic_conf n)) f)).

(** ** What a beacon says *)

Record scanparams := mkSp {
  sp_tstamp : list Z;
  sp_bintval : Z;
  sp_capinfo : Z;
  sp_bchan : Z;
  sp_chan : Z;
  sp_fhdwell : Z;
  sp_fhindex : Z;
  sp_erp : Z;
  sp_timoff : Z;
  sp_tim : option (list Z);
  sp_ssid : option (list Z);
  sp_rates : option (list Z);
  sp_xrates : option (list Z);
  sp_wpa : option (list Z);
  sp_wme : option (list Z);
}.

Definition wme_subtype (ie : list Z) : res (option Z) :=
  if 5 <? byte_at ie 1 then
    let* w := LE_READ_4 ie 2 in
    if w =? Z.lor (Z.shiftl WME_OUI_TYPE 24) WME_OUI then let* b := rd ie 6 in Ok (Some b) else Ok None
  else Ok None.
Definition iswmeparam (ie : list Z) : res bool := let* s := wme_subtype ie in Ok (bool_decide (s = Some WME_PARAM_OUI_SUBTYPE)).
Definition iswmeoui (ie : list Z) : res bool :=
  if 3 <? byte_at ie 1 then let* w := LE_READ_4 ie 2 in Ok (w =? Z.lor (Z.shiftl WME_OUI_TYPE 24) WME_OUI) else Ok false.

(** Assignments to single fields. *)
Definition with_ssid (s : scanparams) (v : list Z) : scanparams :=
  mkSp (sp_tstamp s) (sp_bintval s) (sp_capinfo s) (sp_bchan s) (sp_chan s) (sp_fhdwell s) (sp_fhindex s) (sp_erp s) (sp_timoff s) (sp_tim s) (Some v) (sp_rates s) (sp_xrates s) (sp_wpa s) (sp_wme s).
Definition with_rates (s : scanparams) (v : list Z) : scanparams :=
  mkSp (sp_tstamp s) (sp_bintval s) (sp_capinfo s) (sp_bchan s) (sp_chan s) (sp_fhdwell s) (sp_fhindex s) (sp_erp s) (sp_timoff s) (sp_tim s) (sp_ssid s) (Some v) (sp_xrates s) (sp_wpa s) (sp_wme s).
Definition with_xrates (s : scanparams) (v : list Z) : scanparams :=
  mkSp (sp_tstamp s) (sp_bintval s) (sp_capinfo s) (sp_bchan s) (sp_chan s) (sp_fhdwell s) (sp_fhindex s) (sp_erp s) (sp_timoff s) (sp_tim s) (sp_ssid s) (sp_rates s) (Some v) (sp_wpa s) (sp_wme s).
Definition with_wpa (s : scanparams) (v : list Z) : scanparams :=
  mkSp (sp_tstamp s) (sp_bintval s) (sp_capinfo s) (sp_bchan s) (sp_chan s) (sp_fhdwell s) (sp_fhindex s) (sp_erp s) (sp_timoff s) (sp_tim s) (sp_ssid s) (sp_rates s) (sp_xrates s) (Some v) (sp_wme s).
Definition with_wme (s : scanparams) (v : list Z) : scanparams :=
  mkSp (sp_tstamp s) (sp_bintval s) (sp_capinfo s) (sp_bchan s) (sp_chan s) (sp_fhdwell s) (sp_fhindex s) (sp_erp s) (sp_timoff s) (sp_tim s) (sp_ssid s) (sp_rates s) (sp_xrates s) (sp_wpa s) (Some v).
Definition with_erp (s : scanparams) (v : Z) : scanparams :=
  mkSp (sp_tstamp s) (sp_bintval s) (sp_capinfo s) (sp_bchan s) (sp_chan s) (sp_fhdwell s) (sp_fhindex s) v (sp_timoff s) (sp_tim s) (sp_ssid s) (sp_rates s) (sp_xrates s) (sp_wpa s) (sp_wme s).
Definition with_tim (s : scanparams) (off : Z) (v : list Z) : scanparams :=
  mkSp (sp_tstamp s) (sp_bintval s) (sp_capinfo s) (sp_bchan s) (sp_chan s) (sp_fhdwell s) (sp_fhindex s) (sp_erp s) off (Some v) (sp_ssid s) (sp_rates s) (sp_xrates s) (sp_wpa s) (sp_wme s).
Definition with_chan (s : scanparams) (c fhdwell fhindex : Z) : scanparams :=
  mkSp (sp_tstamp s) (sp_bintval s) (sp_capinfo s) (sp_bchan s) c fhdwell fhindex (sp_erp s) (sp_timoff s) (sp_tim s) (sp_ssid s) (sp_rates s) (sp_xrates s) (sp_wpa s) (sp_wme s).

(** One element, at [off] in the frame. *)
Definition bcn_elem (n : net) (sp : scanparams) (off : nat) (ie : list Z) : rr (scanparams * net) :=
  let id := byte_at ie 0 in let len := byte_at ie 1 in
  let fh := ic_phytype (ic_conf n) =? IEEE80211_T_FH in
  if id =? IEEE80211_ELEMID_SSID then go (with_ssid sp ie, n)
  else if id =? IEEE80211_ELEMID_RATES then go (with_rates sp ie, n)
  else if id =? IEEE80211_ELEMID_COUNTRY then go (sp, n)
  else if id =? IEEE80211_ELEMID_FHPARMS then
    if len <? 5 then quit (bump n is_rx_elem_toosmall)
    else if fh then go (with_chan sp (u8 (IEEE80211_FH_CHAN (byte_at ie 4) (byte_at ie 5))) (le2 ie 2) (byte_at ie 6), n)
    else go (sp, n)
  else if id =? IEEE80211_ELEMID_DSPARMS then
    if len <? 1 then quit (bump n is_rx_elem_toosmall)
    else if fh then go (sp, n) else go (with_chan sp (byte_at ie 2) (sp_fhdwell sp) (sp_fhindex sp), n)
  else if id =? IEEE80211_ELEMID_TIM then
    if len <? 4 then quit (bump n is_rx_elem_toosmall) else go (with_tim sp (u16 (Z.of_nat off)) ie, n)
  else if id =? IEEE80211_ELEMID_IBSSPARMS then go (sp, n)
  else if id =? IEEE80211_ELEMID_XRATES then go (with_xrates sp ie, n)
  else if id =? IEEE80211_ELEMID_ERP then
    if negb (len =? 1) then go (sp, bump n is_rx_elem_toobig) else go (with_erp sp (byte_at ie 2), n)
  else if id =? IEEE80211_ELEMID_RSN then go (with_wpa sp ie, n)
  else if id =? IEEE80211_ELEMID_VENDOR then
    let* wpa := iswpaoui ie in
    if wpa then go (with_wpa sp ie, n)
    else
      let* param := iswmeparam ie in
      let* info := iswmeinfo ie in
      go (if param || info then with_wme sp ie else sp, n)
  else go (sp, bump n is_rx_elem_unknown).
Fixpoint bcn_loop (fuel : nat) (n : net) (sp : scanparams) (off : nat) (frm : list Z) : rr (scanparams * net) :=
  if (length frm <? 2)%nat then go (sp, n)
  else
    match fuel with
    | O => Fault Panic
    | S fuel =>
        let len := (2 + Z.to_nat (byte_at frm 1))%nat in
        if (length frm <? len)%nat then quit (bump n is_rx_elem_toosmall)
        else let! (sp, n) := bcn_elem n sp off (take len frm) in bcn_loop fuel n sp (off + len) (drop len frm)
    end.

(** Everything the frame must have, and the channel it was heard on. *)
Definition bcn_parse (n : net) (m : list Z) : rr (scanparams * list Z * list Z * net) :=
  let frm := frame_body m in
  let! _ := VERIFY_LENGTH n (length frm) 12 in
  let bchan := u8 (ieee80211_chan2ieee (Some (ic_curchan n))) in
  let sp := mkSp (take 8 frm) (le2 frm 8) (le2 frm 10) bchan bchan 0 0 0 0 None None None None None None in
  let! (sp, n) := bcn_loop (length frm) n sp (sizeof_frame + 12) (drop 12 frm) in
  let! rates := VERIFY_ELEMENT n (sp_rates sp) IEEE80211_RATE_MAXSIZE in
  let! ssid := VERIFY_ELEMENT n (sp_ssid sp) IEEE80211_NWID_LEN in
  let* active := isset (ic_chan_active (ic_conf n)) (sp_chan sp) in
  if negb active then quit (bump n is_rx_badchan)
  else if negb (sp_chan sp =? sp_bchan sp) && negb (ic_phytype (ic_conf n) =? IEEE80211_T_FH) then quit (bump n is_rx_chanmismatch)
  else if negb ((IEEE80211_BINTVAL_MIN <=? sp_bintval sp) && (sp_bintval sp <=? IEEE80211_BINTVAL_MAX)) then quit (bump n is_rx_badbintval)
  else go (sp, rates, ssid, n).

(** ** The node of the sender *)

(** How well a node fits an SSID element. *)
Definition ssid_score (ni : ieee80211_node) (ssid : list Z) : nat :=
  if (byte_at ssid 1 =? 0) || (length (ni_essid ni) =? 0)%nat then 1
  else if (byte_at ssid 1 =? Z.of_nat (length (ni_essid ni))) && bool_decide (take (Z.to_nat (byte_at ssid 1)) (drop 2 ssid) = ni_essid ni) then 2
  else 0.
(** The rest of the hash chain. *)
Fixpoint refine_chain (n : net) (mac : list Z) (chan : ieee80211_channel) (ssid : list Z) (best : nat) (best_score : nat) (l : list nat) : res nat :=
  match l with
  | [] => Ok best
  | id :: l =>
      let* ni := node_at n id in
      if negb (IEEE80211_ADDR_EQ (ni_macaddr ni) mac) || negb (bool_decide (ni_chan ni = Some chan)) then refine_chain n mac chan ssid best best_score l
      else
        let score := ssid_score ni ssid in
        if (best_score <? score)%nat then refine_chain n mac chan ssid id score l else refine_chain n mac chan ssid best best_score l
  end.
Fixpoint after_node (id : nat) (l : list nat) : list nat :=
  match l with [] => [] | x :: l => if (x =? id)%nat then l else after_node id l end.
Definition ieee80211_refine_node_for_beacon (n : net) (id : nat) (chan : ieee80211_channel) (ssid : list Z) : res nat :=
  let* ni := node_at n id in
  match ni_table ni with
  | None => Ok id
  | Some t =>
      match nt_hash (table n t) !! IEEE80211_NODE_HASH (ni_macaddr ni) with
      | None => Fault BadAccess
      | Some bucket => refine_chain n (ni_macaddr ni) chan ssid id (ssid_score ni ssid) (after_node id bucket)
      end
  end.

(** ** Scan table and neighbours *)

Definition set_tstamp (ni : ieee80211_node) (v : list Z) : ieee80211_node :=
  set_bcn ni (mkBcn v (ni_timoff (ni_bcn ni)) (ni_dtim_period (ni_bcn ni)) (ni_dtim_count (ni_bcn ni))).
Definition set_timoff (ni : ieee80211_node) (v : Z) : ieee80211_node :=
  set_bcn ni (mkBcn (ni_tstamp (ni_bcn ni)) v (ni_dtim_period (ni_bcn ni)) (ni_dtim_count (ni_bcn ni))).
Definition set_dtim (ni : ieee80211_node) (tim : option (list Z)) : ieee80211_node :=
  match tim with
  | Some ie => set_bcn ni (mkBcn (ni_tstamp (ni_bcn ni)) (ni_timoff (ni_bcn ni)) (byte_at ie 3) (byte_at ie 2))
  | None => ni
  end.
(** The static [saveie]: a missing element drops the pointer to the old copy. *)
Definition saveie (n : net) (old : option (list Z)) (ie : option (list Z)) : option (list Z) * net :=
  match ie with None => (None, n) | Some ie => ieee80211_saveie n old ie end.
(** An element that is missing changes nothing. *)
Definition keepie (n : net) (old : option (list Z)) (ie : option (list Z)) : option (list Z) * net :=
  match ie with None => (old, n) | Some ie => ieee80211_saveie n old ie end.

Definition ssid_bytes (ssid : list Z) : list Z := take (Z.to_nat (byte_at ssid 1)) (drop 2 ssid).

(** What a scan entry records, before the elements and the rates. *)
Definition scan_fields (n : net) (sp : scanparams) (ssid m : list Z) (chan : ieee80211_channel) (subtype rssi rstamp : Z) (ni : ieee80211_node) : ieee80211_node :=
  let ni := if negb (byte_at ssid 1 =? 0) && ((subtype =? IEEE80211_FC0_SUBTYPE_PROBE_RESP) || (length (ni_essid ni) =? 0)%nat)
            then set_essid ni (ssid_bytes ssid) else ni in
  let ni := set_rstamp (set_rssi (set_bssid (set_scangen ni (nt_scangen (ic_scan n))) (i_addr3 m)) (u8 rssi)) rstamp in
  let ni := set_chan (set_capinfo (set_intval (set_tstamp ni (sp_tstamp sp)) (sp_bintval sp)) (sp_capinfo sp)) (Some chan) in
  let ni := set_erp (set_fhindex (set_fhdwell ni (sp_fhdwell sp)) (sp_fhindex sp)) (sp_erp sp) in
  set_timoff (set_dtim ni (sp_tim sp)) (sp_timoff sp).

(** The elements that are kept. *)
Definition save_elems (save : net -> option (list Z) -> option (list Z) -> option (list Z) * net) (n : net) (id : nat) (wme wpa : option (list Z)) : res net :=
  let* ni := node_at n id in
  let '(w, n) := save n (ni_wme_ie ni) wme in
  let '(r, n) := save n (ni_wpa_ie ni) wpa in
  Ok (upd n id (fun ni => set_wpa_ie (set_wme_ie ni w) r)).

Section Station.
Context (dev : key_ops) (queued : net -> nat -> bool) (acl : list Z -> bool) (shl32 : Z).

(** The entry of a sender: whether it is new. *)
Definition scan_entry (n : net) (mac : list Z) : res (option (nat * bool) * net) :=
  let* (r, n) := ieee80211_find_node n T_scan mac in
  match r with
  | Some id => Ok (Some (id, false), n)
  | None =>
      match node_alloc n with
      | (None, n) => Ok (None, bump n is_rx_nodealloc)
      | (Some id, n) =>
          let* n := ieee80211_setup_node n T_scan id mac in
          let* bss := bss_node n in
          let n := upd n id (fun ni => set_vlan (set_txpower (set_authmode ni (ni_authmode bss)) (ni_txpower bss)) (ni_vlan bss)) in
          let* n := ieee80211_set_chan n id (Some (ic_curchan n)) in
          Ok (Some (id, true), upd n id (fun ni => set_rsn ni (ni_rsn bss)))
      end
  end.
Definition ieee80211_add_scan (n : net) (sp : scanparams) (rates ssid m : list Z) (subtype rssi rstamp : Z) : res net :=
  let* (r, n) := scan_entry n (i_addr2 m) in
  match r with
  | None => Ok n
  | Some (id, newnode) =>
      let* chan := channel_at n (sp_chan sp) in
      let n := upd n id (scan_fields n sp ssid m chan subtype rssi rstamp) in
      let* n := save_elems saveie n id (sp_wme sp) (sp_wpa sp) in
      let* ni := node_at n id in
      let* (_, ni, n) := ieee80211_setup_rates n ni rates (sp_xrates sp) IEEE80211_R_DOSORT in
      let n := upd n id (fun _ => ni) in
      if newnode : bool then Ok n else ieee80211_free_node dev n id
  end.

Definition R_NEIGHBOR : Z := Z.lor (Z.lor IEEE80211_R_DODEL IEEE80211_R_DONEGO) IEEE80211_R_DOSORT.
Definition ieee80211_init_neighbor (n : net) (id : nat) (sp : scanparams) (rates ssid m : list Z) (isnew : bool) : res net :=
  let* bss := bss_node n in
  let* _ := node_at n id in
  let n := upd n id (fun ni =>
    let ni := set_tstamp (set_bssid (set_essid ni (ssid_bytes ssid)) (i_addr3 m)) (sp_tstamp sp) in
    let ni := set_chan (set_capinfo (set_intval ni (sp_bintval sp)) (sp_capinfo sp)) (ni_chan bss) in
    set_timoff (set_erp (set_fhindex (set_fhdwell ni (sp_fhdwell sp)) (sp_fhindex sp)) (sp_erp sp)) (sp_timoff sp)) in
  let* n := save_elems keepie n id (sp_wme sp) (sp_wpa sp) in
  let* ni := node_at n id in
  let* (_, ni, n) := ieee80211_setup_rates n ni rates (sp_xrates sp) R_NEIGHBOR in
  Ok (tell (upd n id (fun _ => ni)) (NE_newassoc id isnew)).
Definition ieee80211_add_neighbor (n : net) (sp : scanparams) (rates ssid m : list Z) : res (option nat * net) :=
  let* (r, n) := ieee80211_dup_bss n T_sta (i_addr2 m) in
  match r with
  | None => Ok (None, n)
  | Some id =>
      let* n := ieee80211_init_neighbor n id sp rates ssid m true in
      Ok (Some id, upd n id (ieee80211_node_authorize n))
  end.
Definition ieee80211_update_adhoc_node (n : net) (id : nat) (sp : scanparams) (rates ssid m : list Z) (rssi rstamp : Z) : res net :=
  let* ni := node_at n id in
  let* (r, n) :=
    if negb (IEEE80211_ADDR_EQ (i_addr2 m) (ni_macaddr ni)) then ieee80211_add_neighbor n sp rates ssid m
    else if ni_capinfo ni =? 0 then let* n := ieee80211_init_neighbor n id sp rates ssid m false in Ok (Some id, n)
    else Ok (Some id, upd n id (fun ni => set_tstamp ni (sp_tstamp sp))) in
  match r with
  | None => Ok n
  | Some id =>
      let n := upd n id (fun ni => set_rstamp (set_rssi ni (u8 rssi)) rstamp) in
      let* ni := node_at n id in
      if IEEE80211_ADDR_EQ (i_addr3 m) (ni_bssid ni) then Ok n
      else
        let n := upd n id (fun ni => set_bssid ni (i_addr3 m)) in
        if negb (is_bss n id) then Ok n
        else if has_flag (ic_flags (n_ic n)) IEEE80211_F_DESBSSID then Ok (new_state n IEEE80211_S_SCAN 0)
        else Ok (new_state n IEEE80211_S_RUN 0)
  end.

(** What the rest of the stack sees of a probe request sent: the frame is built
    by [ieee80211_send_probereq] of MgmtOut.v. *)
Definition probereq_sent (n : net) (id : nat) : res net := IEEE80211_SEND_MGMT queued n id IEEE80211_FC0_SUBTYPE_PROBE_REQ 0.
Definition ieee80211_probe_curchan (n : net) (force : bool) : res net :=
  if negb (has_flag (ch_flags (ic_curchan n)) IEEE80211_CHAN_PASSIVE) || force then
    match ic_bss n with None => Fault NullDeref | Some id => probereq_sent n id end
  else Ok (fext_on n IEEE80211_FEXT_PROBECHAN).

(** ** Beacons at an associated station *)

Definition bcn_erp (n : net) (id : nat) (ni : ieee80211_node) (erp : Z) : net :=
  if ni_erp ni =? erp then n
  else
    let n := if (ic_curmode n =? IEEE80211_MODE_11G) && has_flag (ni_erp ni) IEEE80211_ERP_USE_PROTECTION
             then flag_on n IEEE80211_F_USEPROT else flag_off n IEEE80211_F_USEPROT in
    upd n id (fun ni => set_erp ni erp).
Definition bcn_slot (n : net) (id : nat) (ni : ieee80211_node) (capinfo : Z) : net :=
  if has_flag (Z.lxor (ni_capinfo ni) capinfo) IEEE80211_CAPINFO_SHORT_SLOTTIME then
    let n := ieee80211_set_shortslottime n ((ic_curmode n =? IEEE80211_MODE_11A) || has_flag (ni_capinfo ni) IEEE80211_CAPINFO_SHORT_SLOTTIME) in
    upd n id (fun ni => set_capinfo ni capinfo)
  else n.
Definition bcn_wme (n : net) (ni : ieee80211_node) (wme : option (list Z)) : res net :=
  match wme with
  | Some ie =>
      if has_flag (ni_flags ni) IEEE80211_NODE_QOS then
        let* (r, w) := ieee80211_parse_wmeparams (ic_wme n) ie in
        let n := set_wme n w in
        if 0 <? r then ieee80211_wme_updateparams n else Ok n
      else Ok n
  | None => Ok n
  end.
Definition bcn_associated (n : net) (m : list Z) (id : nat) (ni : ieee80211_node) (sp : scanparams) (rates ssid : list Z) (subtype rssi rstamp : Z) : res net :=
  let n := upd n id (fun ni => set_tstamp ni (sp_tstamp sp)) in
  let n := bcn_erp n id ni (sp_erp sp) in
  let n := bcn_slot n id ni (sp_capinfo sp) in
  let* n := bcn_wme n ni (sp_wme sp) in
  let n := upd n id (fun ni => set_dtim ni (sp_tim sp)) in
  let* n := if has_flag (ic_flags (n_ic n)) IEEE80211_F_SCAN then ieee80211_add_scan n sp rates ssid m subtype rssi rstamp else Ok n in
  Ok (set_conf n (set_bmiss_count (ic_conf n) 0)).

Definition ieee80211_recv_mgmt_beacon (n : net) (m : list Z) (id : nat) (subtype rssi rstamp : Z) : res net :=
  let* ni := node_at n id in
  if negb (has_flag (ic_flags (n_ic n)) IEEE80211_F_SCAN || ((ic_opmode n =? IEEE80211_M_STA) && negb (ni_associd ni =? 0)) ||
           (ic_opmode n =? IEEE80211_M_IBSS))
  then Ok (bump n is_rx_mgtdiscard)
  else
    let? (sp, rates, ssid, n) := bcn_parse n m in
    let* id := if is_bss n id then Ok id
               else let* chan := channel_at n (sp_chan sp) in ieee80211_refine_node_for_beacon n id chan ssid in
    let n := if subtype =? IEEE80211_FC0_SUBTYPE_BEACON then bump n is_rx_beacon else n in
    let* ni := node_at n id in
    if (ic_opmode n =? IEEE80211_M_STA) && negb (ni_associd ni =? 0) &&
       (negb (has_flag (ic_flags (n_ic n)) IEEE80211_F_SCAN) || IEEE80211_ADDR_EQ (i_addr2 m) (ni_bssid ni))
    then bcn_associated n m id ni sp rates ssid subtype rssi rstamp
    else if has_flag (ic_flags (n_ic n)) IEEE80211_F_SCAN then
      let* n := if has_flag (ic_flags_ext (ic_conf n)) IEEE80211_FEXT_PROBECHAN
                then let* n := ieee80211_probe_curchan n true in Ok (fext_off n IEEE80211_FEXT_PROBECHAN) else Ok n in
      ieee80211_add_scan n sp rates ssid m subtype rssi rstamp
    else if has_flag (sp_capinfo sp) IEEE80211_CAPINFO_IBSS then ieee80211_update_adhoc_node n id sp rates ssid m rssi rstamp
    else Ok n.

(** ** Association responses *)

Definition asresp_elem (e : elems) (ie : list Z) : res elems :=
  let id := byte_at ie 0 in
  if id =? IEEE80211_ELEMID_RATES then Ok (mkElems (el_ssid e) (Some ie) (el_xrates e) (el_wpa e) (el_wme e))
  else if id =? IEEE80211_ELEMID_XRATES then Ok (mkElems (el_ssid e) (el_rates e) (Some ie) (el_wpa e) (el_wme e))
  else if id =? IEEE80211_ELEMID_VENDOR then
    let* wme := iswmeoui ie in
    Ok (if wme then mkElems (el_ssid e) (el_rates e) (el_xrates e) (el_wpa e) (Some ie) else e)
  else Ok e.

(** The state of a station that is associated. *)
Definition asresp_qos (n : net) (b : nat) (wme : option (list Z)) : res net :=
  let qos_off := upd n b (fun ni => set_nflags ni (Z.land (ni_flags ni) (Z.lnot IEEE80211_NODE_QOS))) in
  match wme with
  | None => Ok qos_off
  | Some ie =>
      let* (r, w) := ieee80211_parse_wmeparams (ic_wme n) ie in
      if 0 <=? r then
        ieee80211_wme_updateparams (upd (set_wme n w) b (fun ni => set_nflags ni (Z.lor (ni_flags ni) IEEE80211_NODE_QOS)))
      else Ok (upd (set_wme n w) b (fun ni => set_nflags ni (Z.land (ni_flags ni) (Z.lnot IEEE80211_NODE_QOS))))
  end.
Definition asresp_modes (n : net) (ni : ieee80211_node) : net :=
  let is11a := ic_curmode n =? IEEE80211_MODE_11A in
  let n := if is11a || has_flag (ni_capinfo ni) IEEE80211_CAPINFO_SHORT_PREAMBLE
           then flag_off (flag_on n IEEE80211_F_SHPREAMBLE) IEEE80211_F_USEBARKER
           else flag_on (flag_off n IEEE80211_F_SHPREAMBLE) IEEE80211_F_USEBARKER in
  let n := ieee80211_set_shortslottime n (is11a || has_flag (ni_capinfo ni) IEEE80211_CAPINFO_SHORT_SLOTTIME) in
  if (ic_curmode n =? IEEE80211_MODE_11G) && has_flag (ni_erp ni) IEEE80211_ERP_USE_PROTECTION
  then flag_on n IEEE80211_F_USEPROT else flag_off n IEEE80211_F_USEPROT.

Definition ieee80211_recv_mgmt_assoc_resp (n : net) (m : list Z) (subtype : Z) : res net :=
  if negb (ic_opmode n =? IEEE80211_M_STA) || negb (ic_state n =? IEEE80211_S_ASSOC) then Ok (bump n is_rx_mgtdiscard)
  else
    let frm := frame_body m in
    let? _ := VERIFY_LENGTH n (length frm) 6 in
    match ic_bss n with
    | None => Fault NullDeref
    | Some b =>
        let status := le2 frm 2 in
        if negb (status =? 0) then Ok (bump n is_rx_auth_fail)
        else
          let? e := parse_elems n asresp_elem (drop 6 frm) in
          let? rates := VERIFY_ELEMENT n (el_rates e) IEEE80211_RATE_MAXSIZE in
          let* ni := node_at n b in
          let* (rate, ni, n) := ieee80211_setup_rates n ni rates (el_xrates e) R_ASSOC in
          let n := upd n b (fun _ => ni) in
          if has_flag (u8 rate) IEEE80211_RATE_BASIC then Ok (new_state (bump n is_rx_assoc_norate) IEEE80211_S_SCAN 0)
          else
            let n := upd n b (fun ni => set_associd (set_capinfo ni (le2 frm 0)) (le2 frm 4)) in
            let* n := asresp_qos n b (el_wme e) in
            let* ni := node_at n b in
            Ok (new_state (asresp_modes n ni) IEEE80211_S_RUN subtype)
    end.

(** ** Dispatch *)

Definition ieee80211_recv_mgmt (n : net) (m : list Z) (id : nat) (subtype rssi rstamp : Z) (challenge : list Z) : res net :=
  if (subtype =? IEEE80211_FC0_SUBTYPE_PROBE_RESP) || (subtype =? IEEE80211_FC0_SUBTYPE_BEACON) then ieee80211_recv_mgmt_beacon n m id subtype rssi rstamp
  else if subtype =? IEEE80211_FC0_SUBTYPE_PROBE_REQ then ieee80211_recv_mgmt_probe_req dev queued n m id rssi rstamp
  else if subtype =? IEEE80211_FC0_SUBTYPE_AUTH then ieee80211_recv_mgmt_auth dev queued acl n m id rssi rstamp challenge
  else if (subtype =? IEEE80211_FC0_SUBTYPE_ASSOC_REQ) || (subtype =? IEEE80211_FC0_SUBTYPE_REASSOC_REQ)
  then ieee80211_recv_mgmt_assoc_req dev queued shl32 n m id subtype rssi rstamp
  else if (subtype =? IEEE80211_FC0_SUBTYPE_ASSOC_RESP) || (subtype =? IEEE80211_FC0_SUBTYPE_REASSOC_RESP)
  then ieee80211_recv_mgmt_assoc_resp n m subtype
  else if subtype =? IEEE80211_FC0_SUBTYPE_DEAUTH then ieee80211_recv_mgmt_deauth dev n m id
  else if subtype =? IEEE80211_FC0_SUBTYPE_DISASSOC then ieee80211_recv_mgmt_disassoc dev n m id
  else Ok (bump n is_rx_badsubtype).
End Station.
