(* ===== verification/MgmtProof.v ===== *)
(** * Management frames are handled safely

    Whatever bytes a station sends: the handlers of an access point read inside
    the frame, keep the node invariant and the caller's reference. *)

From stdpp Require Import gmap.
From S2P Require Import Prelude Buffers Mbuf Ieee80211 Crypto InfoElem Node NodeTable NodeProof NodeSafety NodeHistory NodeLife Rates Mgmt Station.

(** ** The invariant of an access point

    [own] are the references of tables and frames; the caller of a handler has
    one more, on [id].  [k] is the room left in the counts, [rxf] says whether
    privacy is on and a scan in progress. *)
Section Ap.
Context (rxf : Z).

Definition fixed_ok (n : net) : Prop :=
  ic_fixed_rate n = IEEE80211_FIXED_RATE_NONE \/ 0 <= ic_fixed_rate n < IEEE80211_RATE_MAXSIZE.
Record ap_wf (k : Z) (n : net) (held own : nat -> nat) : Prop := mkAp {
  ap_nwf : nwf n held;
  ap_tabs : forall t j, j ∈ nt_node (table n t) -> (0 < own j)%nat;
  ap_room : forall j, Z.of_nat (own j) + k < 2 ^ 32;
  ap_mode : ic_opmode n = IEEE80211_M_HOSTAP /\ ic_curmode n <> IEEE80211_MODE_11G /\ Z.land (ic_flags (n_ic n)) rx_mask = rxf;
  ap_bss : is_Some (ic_bss n);
  ap_chan : forall j nj, n_nodes n !! j = Some nj -> ni_table nj <> None \/ ic_bss n = Some j -> ni_chan nj <> None;
  ap_fixed : fixed_ok n;
}.
Definition ap (k : Z) (n : net) (own : nat -> nat) (id : nat) : Prop := ap_wf k n (hinc own id) own.

(** A step that concerns one node. *)
Record near (j : nat) (n n' : net) : Prop := mkNear {
  nr_others : forall i, i <> j -> n_nodes n' !! i = n_nodes n !! i;
  nr_bss : ic_bss n' = ic_bss n;
  nr_modes : modes n' = modes n;
}.
Lemma near_touch j n n' : touch j n n' -> near j n n'.
Proof.
  intros T. pose proof (t_mode _ _ _ T). pose proof (t_curmode _ _ _ T). pose proof (t_conf _ _ _ T).
  split; [apply T|apply T|unfold modes; congruence].
Qed.
Lemma near_allocated n held ot mac id n' : allocated n held ot mac (Some id) n' -> near id n n'.
Proof. intros (_ & _ & B & M & F & _). by split. Qed.

Lemma ap_step k k' n n' held held' own own' j :
  ap_wf k n held own -> nwf n' held' -> near j n n' -> k' <= k -> Z.of_nat (own' j) + k' < 2 ^ 32 ->
  (forall i, i <> j -> own' i = own i) ->
  (forall nj, n_nodes n' !! j = Some nj -> (ni_table nj <> None -> (0 < own' j)%nat) /\
     (ni_table nj <> None \/ ic_bss n = Some j -> ni_chan nj <> None)) ->
  ap_wf k' n' held' own'.
Proof.
  intros [W T R M B C F] W' [O Eb Em] Hk Hr Ho Hj. unfold modes in Em. injection Em as E1 E2 E3 E4 E5. split.
  - done.
  - intros t i Hi. destruct (list_live _ _ _ _ W' Hi) as (ni & E & Et). destruct (decide (i = j)) as [->|Hne].
    + apply (proj1 (Hj _ E)). by rewrite Et.
    + rewrite Ho by done. rewrite O in E by done. apply (T t). apply (tab_in _ _ _ (wf_tab _ _ (proj1 W) t)). split; [done|by exists ni].
  - intros i. destruct (decide (i = j)) as [->|Hne]; [done|]. rewrite Ho by done. specialize (R i). lia.
  - by rewrite E1, E2, E5.
  - by rewrite Eb.
  - intros i ni E. rewrite Eb. destruct (decide (i = j)) as [->|Hne]; [apply (proj2 (Hj _ E))|]. rewrite O in E by done. by apply C.
  - unfold fixed_ok in *. by rewrite E4.
Qed.

(** A quiet step that keeps the channel of its node. *)
Lemma ap_mild k n n' held own j nj nj' :
  ap_wf k n held own -> n_nodes n !! j = Some nj -> mild j n n' nj' -> (ni_chan nj' = None -> ni_chan nj = None) ->
  ap_wf k n' held own.
Proof.
  intros A E (Q & T & E') Hc. pose proof A as [W TT R M B C F].
  apply (ap_step k k n n' held held own own j A); [by apply (nwf_quiet _ n)|by apply near_touch|lia|done|done|].
  intros ni. rewrite E'. intros [= <-]. pose proof (q_nodes _ _ Q j) as N. rewrite E, E' in N. destruct N as [(Ct & _)%core_inv _].
  rewrite Ct. split.
  - intros Ht. destruct (ni_table nj) as [t|] eqn:Et; [|done]. apply (TT t). apply (tab_in _ _ _ (wf_tab _ _ (proj1 W) t)). split; [done|by exists nj].
  - intros H Hn. by apply (C j nj E H), Hc.
Qed.
Lemma ap_net k n n' held own : ap_wf k n held own -> n_nodes n' = n_nodes n -> same_net n n' -> ap_wf k n' held own.
Proof.
  intros A E S. pose proof A as [W TT R M B C F]. apply (ap_step k k n n' held held own own (n_fresh n) A).
  - apply (nwf_quiet _ n); [by apply quiet_net|done].
  - split; [intros; by rewrite E|apply S|by apply modes_same].
  - lia.
  - apply R.
  - done.
  - intros nj Ej. rewrite E in Ej. pose proof (wf_fresh _ _ (proj1 W) (n_fresh n) ltac:(by eexists)). lia.
Qed.
Lemma ap_bump k n held own s : ap_wf k n held own -> ap_wf k (bump n s) held own.
Proof. intros A. by apply (ap_net _ n). Qed.
Lemma ap_more k k' n held own : ap_wf k n held own -> k' <= k -> ap_wf k' n held own.
Proof. intros [W T R M B C F] H. split; try done. intros j. specialize (R j). lia. Qed.
Lemma ap_ext k n held held' own : (forall j, held' j = held j) -> ap_wf k n held own -> ap_wf k n held' own.
Proof. intros H [W T R M B C F]. split; try done. by apply (nwf_ext _ _ _ _ H). Qed.

(** ** Steps *)

Lemma hinc_swap held i j x : hinc (hinc held i) j x = hinc (hinc held j) i x.
Proof. unfold hinc. by repeat case_decide. Qed.
Lemma hinc_hdec held i j x : (0 < held j)%nat -> hdec (hinc held i) j x = hinc (hdec held j) i x.
Proof. intros H. unfold hinc, hdec. repeat case_decide; subst; lia. Qed.

Section Steps.
Context (dev : key_ops) (queued : net -> nat -> bool).

Lemma ap_alive k n own id : ap k n own id -> is_Some (n_nodes n !! id).
Proof. intros A. apply (wf_held _ _ _ (proj2 (ap_nwf _ _ _ _ A))). rewrite hinc_same. lia. Qed.
Lemma ap_own k n own id t ni j : ap k n own id -> n_nodes n !! j = Some ni -> ni_table ni = Some t -> (0 < own j)%nat.
Proof.
  intros A E Et. apply (ap_tabs _ _ _ _ A t). apply (tab_in _ _ _ (wf_tab _ _ (proj1 (ap_nwf _ _ _ _ A)) t)). split; [done|by exists ni].
Qed.
Lemma ap_fresh k n own id : ap k n own id -> own (n_fresh n) = 0%nat /\ ic_bss n <> Some (n_fresh n).
Proof.
  intros A. pose proof (ap_nwf _ _ _ _ A) as W. split.
  - destruct (own (n_fresh n)) eqn:E; [done|]. exfalso.
    pose proof (wf_fresh _ _ (proj1 W) (n_fresh n) ltac:(apply (wf_held _ _ _ (proj2 W)); unfold hinc; case_decide; lia)). lia.
  - intros Hb. pose proof (wf_fresh _ _ (proj1 W) _ (wf_bss _ _ (proj1 W) _ Hb)). lia.
Qed.
Lemma ap_few k n own id : ap k n own id -> 5 <= k -> few (hinc own id).
Proof. intros A Hk j. pose proof (ap_room _ _ _ _ A j). unfold hinc. case_decide; lia. Qed.

Lemma ap_ref k n own id j : ap k n own id -> 4 <= k -> is_Some (n_nodes n !! j) ->
  exists n', ieee80211_ref_node n j = Ok n' /\ ap (k - 1) n' (hinc own j) id /\ near j n n' /\
    forall nj nj', n_nodes n !! j = Some nj -> n_nodes n' !! j = Some nj' -> core nj' = core nj /\ ni_chan nj' = ni_chan nj.
Proof.
  intros A Hk [nj E]. pose proof (ap_room _ _ _ _ A j) as R. pose proof (ap_nwf _ _ _ _ A) as W.
  destruct (ref_node_ok n (hinc own id) j W) as (n' & Er & W' & T'); [unfold hinc; case_decide; lia|by eexists|].
  assert (n_nodes n' !! j = Some (ieee80211_node_incref nj)) as E'.
  { unfold ieee80211_ref_node in Er. rewrite (node_at_Some _ _ _ E) in Er. injection Er as <-. by apply upd_same. }
  exists n'. split; [done|]. pose proof (near_touch _ _ _ T') as Nr. split; [|split; [done|intros x x'; rewrite E, E'; by intros [= <-] [= <-]]].
  eapply ap_ext; [intros x; apply hinc_swap|]. eapply (ap_step k (k - 1) n n' _ _ own _ j A); [exact W'|done|lia|rewrite hinc_same; lia|intros; by apply hinc_other|].
  rewrite E'. intros x [= <-]. split; [intros _; rewrite hinc_same; lia|]. apply (ap_chan _ _ _ _ A j nj E).
Qed.

Lemma ap_send k n own id j nj subtype arg : ap k n own id -> 4 <= k -> n_nodes n !! j = Some nj ->
  exists n' nj' own', IEEE80211_SEND_MGMT queued n j subtype arg = Ok n' /\ ap (k - 1) n' own' id /\
    n_nodes n' !! j = Some nj' /\ core nj' = core nj /\ ic_bss n' = ic_bss n /\ (own j <= own' j)%nat.
Proof.
  intros A Hk E. pose proof (ap_room _ _ _ _ A j) as R. pose proof (ap_nwf _ _ _ _ A) as W.
  destruct (send_mgmt_ok queued n (hinc own id) j nj subtype arg W) as (n' & nj' & -> & W' & T' & E' & [= Kt Km Kk _ _ _] & _ & Kc);
    [unfold hinc; case_decide; lia|done|].
  exists n', nj', (if queued n j then hinc own j else own). split; [done|].
  assert (core nj' = core nj) as Kr by (unfold core; congruence). pose proof (near_touch _ _ _ T') as Nr.
  split; [|split_and!; [done|done|apply T'|destruct (queued n j); rewrite ?hinc_same; lia]].
  apply (ap_ext _ _ (if queued n j then hinc (hinc own id) j else hinc own id)); [intros x; destruct (queued n j); [apply hinc_swap|done]|].
  apply (ap_step k (k - 1) n n' (hinc own id) _ own _ j A); [exact W'|done|lia|destruct (queued n j); rewrite ?hinc_same; lia
    |intros i Hi; destruct (queued n j); [by apply hinc_other|done]|].
  rewrite E'. intros x [= <-]. rewrite Kc, Kt. split; [|apply (ap_chan _ _ _ _ A j nj E)].
  intros Ht. destruct (ni_table nj) as [t|] eqn:Et; [|done]. pose proof (ap_own _ _ _ _ _ _ _ A E Et). destruct (queued n j); rewrite ?hinc_same; lia.
Qed.

Lemma ap_leave k n own id ni : ap k n own id -> n_nodes n !! id = Some ni -> ic_bss n <> Some id -> (0 < own id)%nat ->
  exists n' own', ieee80211_node_leave dev n id = Ok n' /\ ap k n' own' id.
Proof.
  intros A E Hb Hh. pose proof (ap_room _ _ _ _ A id) as R. destruct (ap_mode _ _ _ _ A) as (M1 & M2 & _).
  destruct (node_leave_ok dev n (hinc own id) id ni (ap_nwf _ _ _ _ A)) as (n' & -> & W' & T' & H');
    [rewrite hinc_same; lia|done|by intros _ ?|by left|].
  exists n', (hdec own id). split; [done|]. eapply ap_ext; [intros x; symmetry; by apply hinc_hdec|].
  apply (ap_step k k n n' (hinc own id) _ own _ id A); [exact W'|by apply near_touch|lia|rewrite hdec_same; lia|intros; by apply hdec_other|].
  intros nj Ej. rewrite (H' _ Ej). split; [done|]. by intros [?|?].
Qed.

(** Giving back a reference of a frame or table, and the caller's own. *)
Lemma ap_free k n own id j : ap k n own id -> (0 < own j)%nat ->
  (forall nj, n_nodes n !! j = Some nj -> ni_table nj = None) ->
  exists n', ieee80211_free_node dev n j = Ok n' /\ ap k n' (hdec own j) id.
Proof.
  intros A Hh Ht. pose proof (ap_room _ _ _ _ A j) as R.
  destruct (free_node_ok dev 2 n (hinc own id) j (ap_nwf _ _ _ _ A)) as (n' & Ef & W' & T' & H'); [unfold hinc; case_decide; lia|].
  exists n'. split; [exact Ef|]. eapply ap_ext; [intros x; symmetry; by apply hinc_hdec|].
  apply (ap_step k k n n' (hinc own id) _ own _ j A); [exact W'|by apply near_touch|lia|rewrite hdec_same; lia|intros; by apply hdec_other|].
  intros nj Ej. destruct (H' _ Ej) as (nj0 & E0 & (Ct & _)%core_inv & Cc). rewrite Ct, (Ht _ E0), Cc. split; [done|].
  intros [?|Hb]; [done|]. apply (ap_chan _ _ _ _ A j nj0 E0). by right.
Qed.
Lemma ap_release k n own id : ap k n own id -> exists n', ieee80211_free_node dev n id = Ok n' /\ ap_wf k n' own own.
Proof.
  intros A. pose proof (ap_room _ _ _ _ A id) as R.
  destruct (free_node_ok dev 2 n (hinc own id) id (ap_nwf _ _ _ _ A)) as (n' & Ef & W' & T' & H'); [rewrite hinc_same; lia|].
  exists n'. split; [exact Ef|]. apply (ap_ext _ _ (hdec (hinc own id) id)); [intros x; by rewrite hdec_hinc|].
  apply (ap_step k k n n' (hinc own id) _ own _ id A); [exact W'|by apply near_touch|lia|done|done|].
  intros nj Ej. destruct (H' _ Ej) as (nj0 & E0 & (Ct & _)%core_inv & Cc). rewrite Ct, Cc. split; [|by apply (ap_chan _ _ _ _ A id)].
  intros Hn. destruct (ni_table nj0) as [t|] eqn:Et; [|done]. by apply (ap_own _ _ _ _ _ _ _ A E0 Et).
Qed.

(** A new node, for a station or for one frame. *)
Lemma ap_alloc k n own id ot mac r n' :
  ap k n own id -> 0 <= k <= 2 ^ 31 -> allocated n (hinc own id) ot mac r n' ->
  match r with
  | Some j => (forall nj, n_nodes n' !! j = Some nj -> ni_chan nj <> None) ->
      ap k n' (hinc own j) id /\ is_Some (n_nodes n' !! j) /\ ic_bss n' <> Some j /\ j <> id
  | None => ap k n' own id
  end.
Proof.
  intros A Hk H. pose proof (ap_fresh _ _ _ _ A) as [F1 F2]. destruct r as [j|].
  - intros Hc. pose proof (near_allocated _ _ _ _ _ _ H) as Nr. destruct H as (-> & W' & B & _ & _ & nj & E & _).
    split; [|split_and!; [by eexists|by rewrite B|]].
    + eapply ap_ext; [intros x; apply hinc_swap|].
      eapply (ap_step k k n n' _ _ own _ (n_fresh n) A); [exact W'|done|lia|rewrite hinc_same; lia|intros; by apply hinc_other|].
      intros x Ex. split; [intros _; rewrite hinc_same; lia|]. intros _. by apply Hc.
    + destruct (ap_alive _ _ _ _ A) as [ni Ei]. intros <-. pose proof (wf_fresh _ _ (proj1 (ap_nwf _ _ _ _ A)) _ ltac:(by eexists)). lia.
  - destruct H as (W' & B & M & En). apply (ap_step k k n n' (hinc own id) _ own own (n_fresh n) A); [exact W'| |lia|lia|done|].
    + split; [intros; by rewrite En|done|done].
    + intros nj. rewrite En. intros Ej. pose proof (wf_fresh _ _ (proj1 (ap_nwf _ _ _ _ A)) _ ltac:(by eexists)). lia.
Qed.

(** Copies of the BSS node and temporary nodes have a channel. *)
Lemma set_chan_some n id c n' ni : ieee80211_set_chan n id c = Ok n' -> n_nodes n' !! id = Some ni -> ni_chan ni <> None.
Proof.
  unfold ieee80211_set_chan, node_at. destruct (n_nodes n !! id) as [x|] eqn:E; [|done]. cbn [res_bind]. intros [= <-].
  rewrite (upd_same _ _ _ _ E). by intros [= <-].
Qed.
Lemma chan_upd n id f ni : (forall x, ni_chan (f x) = ni_chan x) -> (forall x, n_nodes n !! id = Some x -> ni_chan x <> None) ->
  n_nodes (upd n id f) !! id = Some ni -> ni_chan ni <> None.
Proof.
  intros Hf Hn. rewrite upd_nodes, lookup_alter_eq. intros (x & Ex & ->)%fmap_Some. rewrite Hf. by apply Hn.
Qed.
Lemma dup_chan n t mac j n' nj : ieee80211_dup_bss n t mac = Ok (Some j, n') -> n_nodes n' !! j = Some nj -> ni_chan nj <> None.
Proof.
  unfold ieee80211_dup_bss. destruct (node_alloc n) as [[i|] n0]; [|done].
  intros (n1 & _ & (bss & _ & (n2 & E2 & [= -> <-])%res_bind_Ok)%res_bind_Ok)%res_bind_Ok.
  apply chan_upd; [done|]. intros x. by apply (set_chan_some _ _ _ _ _ E2).
Qed.
Lemma tmp_chan n mac j n' nj : ieee80211_tmp_node n mac = Ok (Some j, n') -> n_nodes n' !! j = Some nj -> ni_chan nj <> None.
Proof.
  unfold ieee80211_tmp_node. destruct (node_alloc n) as [[i|] n0]; [|done].
  intros (bss & _ & (n2 & E2 & [= -> <-])%res_bind_Ok)%res_bind_Ok.
  apply chan_upd; [done|]. intros x. by apply (set_chan_some _ _ _ _ _ E2).
Qed.
End Steps.

(** ** Elements *)

Definition wf_ie (ie : list Z) : Prop := bytes ie /\ length ie = (2 + Z.to_nat (byte_at ie 1))%nat.
Definition wf_opt (o : option (list Z)) : Prop := forall ie, o = Some ie -> wf_ie ie.
Record wf_elems (e : elems) : Prop := mkWfElems {
  we_ssid : wf_opt (el_ssid e); we_rates : wf_opt (el_rates e); we_xrates : wf_opt (el_xrates e);
  we_wpa : wf_opt (el_wpa e); we_wme : wf_opt (el_wme e);
}.
Lemma wf_some ie : wf_ie ie -> wf_opt (Some ie).
Proof. intros H x [= <-]. done. Qed.

Lemma iswpaoui_ok ie : exists b, iswpaoui ie = Ok b.
Proof.
  unfold iswpaoui. destruct (Z.ltb_spec 3 (byte_at ie 1)); [|by eexists]. rewrite LE_READ_4_ok by lia. cbn [res_bind]. by eexists.
Qed.
Lemma iswmeinfo_ok ie : exists b, iswmeinfo ie = Ok b.
Proof.
  unfold iswmeinfo. destruct (Z.ltb_spec 5 (byte_at ie 1)); [|by eexists]. rewrite LE_READ_4_ok by lia. cbn [res_bind].
  case_match; [|by eexists]. rewrite rd_ok by lia. cbn [res_bind]. by eexists.
Qed.

Lemma asreq_elem_ok e ie : wf_elems e -> wf_ie ie -> exists e', asreq_elem e ie = Ok e' /\ wf_elems e'.
Proof.
  intros [] Hi%wf_some. unfold asreq_elem. repeat case_match; try (by eexists; split; [|split]).
  - destruct (iswpaoui_ok ie) as [[|] ->]; cbn [res_bind]; [by eexists; split; [|split]|].
    destruct (iswmeinfo_ok ie) as [[|] ->]; cbn [res_bind]; by eexists; split; [|split].
Qed.
Lemma prreq_elem_ok e ie : wf_elems e -> wf_ie ie -> exists e', prreq_elem e ie = Ok e' /\ wf_elems e'.
Proof. intros [] Hi%wf_some. unfold prreq_elem. repeat case_match; by eexists; split; [|split]. Qed.

Lemma elem_loop_ok elem : (forall e ie, wf_elems e -> wf_ie ie -> exists e', elem e ie = Ok e' /\ wf_elems e') ->
  forall fuel frm e, bytes frm -> (length frm <= fuel)%nat -> wf_elems e ->
  exists o, elem_loop fuel elem e frm = Ok o /\ forall e', o = Some e' -> wf_elems e'.
Proof.
  intros HE. induction fuel as [|fuel IH]; intros frm e Hb Hl We; cbn [elem_loop]; destruct (Nat.ltb_spec (length frm) 2) as [H2|H2].
  - eexists. split; [done|]. by intros e' [= <-].
  - lia.
  - eexists. split; [done|]. by intros e' [= <-].
  - set (len := (2 + Z.to_nat (byte_at frm 1))%nat). destruct (Nat.ltb_spec (length frm) len) as [H|H]; [by eexists|].
    destruct (HE e (take len frm)) as (e' & -> & We'); [done| |].
    + split; [by apply bytes_take|]. rewrite byte_at_take, length_take by (unfold len; lia). unfold len in *. lia.
    + cbn [res_bind]. apply IH; [by apply bytes_drop|rewrite length_drop; lia|done].
Qed.

(** The parsers of the security elements return on every element. *)
Lemma parse_wpa_total shl32 ic ie rsn : bytes ie -> exists o, ieee80211_parse_wpa shl32 ic ie rsn = Ok o.
Proof.
  intros Hb. pose proof (byte_at_range ie 1 Hb) as HL. unfold is_u8, is_u in HL. unfold ieee80211_parse_wpa. case_match; [by eexists|].
  destruct (Z.ltb_spec (byte_at ie 1) 14); [by eexists|]. rewrite LE_READ_2_ok by lia. cbn [res_bind]. case_match; [by eexists|].
  rewrite (u8_id (byte_at ie 1 - 4)) by (unfold is_u8, is_u; lia). rewrite (u8_id (byte_at ie 1 - 4 - 2)) by (unfold is_u8, is_u; lia).
  rewrite parse_body_ok by (apply wpa_cipher_named || lia). by eexists.
Qed.
Lemma parse_rsn_total shl32 ic ie rsn : bytes ie -> exists o, ieee80211_parse_rsn shl32 ic ie rsn = Ok o.
Proof.
  intros Hb. pose proof (byte_at_range ie 1 Hb) as HL. unfold is_u8, is_u in HL. unfold ieee80211_parse_rsn. case_match; [by eexists|].
  destruct (Z.ltb_spec (byte_at ie 1) 10); [by eexists|]. rewrite LE_READ_2_ok by lia. cbn [res_bind]. case_match; [by eexists|].
  rewrite (u8_id (byte_at ie 1 - 2)) by (unfold is_u8, is_u; lia).
  rewrite parse_body_ok by (apply rsn_cipher_named || lia). by eexists.
Qed.

Lemma setup_rates_total n ni rates xrates : ni_chan ni <> None -> fixed_ok n -> wf_ie rates -> byte_at rates 1 <= IEEE80211_RATE_MAXSIZE ->
  wf_opt xrates ->
  exists v l tx n', ieee80211_setup_rates n ni rates xrates R_ASSOC = Ok (v, set_txrate (set_rates ni l) tx, n') /\
    (n' = n \/ n' = bump n is_rx_rstoobig).
Proof.
  intros Hc Hf [Hb Hl] Hm Hx. unfold ieee80211_setup_rates. cbn zeta. rewrite (proj2 (Z.ltb_ge _ _) Hm).
  destruct (Nat.ltb_spec (length rates) (2 + Z.to_nat (byte_at rates 1))); [lia|]. set (rs := take _ _).
  pose proof (byte_at_range rates 1 Hb) as Hr. unfold is_u8, is_u in Hr.
  assert (exists rs' n', match xrates with
    | None => Ok (rs, n)
    | Some xrates =>
        let total := byte_at rates 1 + byte_at xrates 1 in
        let nxrates := if IEEE80211_RATE_MAXSIZE <? total then u8 (IEEE80211_RATE_MAXSIZE - byte_at rates 1) else byte_at xrates 1 in
        let n := if IEEE80211_RATE_MAXSIZE <? total then bump n is_rx_rstoobig else n in
        if (length xrates <? 2 + Z.to_nat nxrates)%nat then Fault BadAccess else Ok (rs ++ take (Z.to_nat nxrates) (drop 2 xrates), n)
    end = Ok (rs', n') /\ (n' = n \/ n' = bump n is_rx_rstoobig)) as (rs' & n' & Ex & Hn).
  { destruct xrates as [x|]; [|exists rs, n; by split; [|left]]. destruct (Hx x eq_refl) as [Hbx Hlx]. cbn zeta.
    pose proof (byte_at_range x 1 Hbx) as Hrx. unfold is_u8, is_u in Hrx. unfold IEEE80211_RATE_MAXSIZE in *.
    destruct (Z.ltb_spec 15 (byte_at rates 1 + byte_at x 1)).
    - rewrite u8_id by (unfold is_u8, is_u; lia). destruct (Nat.ltb_spec (length x) (2 + Z.to_nat (15 - byte_at rates 1))); [lia|].
      eexists _, _. split; [done|by right].
    - destruct (Nat.ltb_spec (length x) (2 + Z.to_nat (byte_at x 1))); [lia|]. eexists _, _. split; [done|by left]. }
  cbn zeta in Ex. rewrite Ex. cbn [res_bind]. destruct (ni_chan ni) as [c|] eqn:Ec; [|done].
  destruct (fix_rate_run n' (set_rates ni rs') c) as (out & st & -> & _); [done| |].
  - unfold fixed_ok in Hf. by destruct Hn as [-> | ->].
  - cbn [res_bind]. eexists _, _, _, _. split; [|exact Hn]. done.
Qed.

(** ** Handlers *)

(** The handler returns, and the caller still has its reference. *)
Definition safe (k : Z) (id : nat) (c : res net) : Prop := exists n' own', c = Ok n' /\ ap k n' own' id.
Lemma safe_ok k n own id : ap k n own id -> safe k id (Ok n).
Proof. intros A. by exists n, own. Qed.
Lemma safe_more k k' id c : safe k id c -> k' <= k -> safe k' id c.
Proof. intros (n & own & -> & A) H. exists n, own. split; [done|by apply (ap_more k)]. Qed.

(** An assignment to fields that nothing depends on. *)
Lemma ap_upd k n own id j nj f : ap k n own id -> n_nodes n !! j = Some nj ->
  core (f nj) = core nj -> ni_refcnt (f nj) = ni_refcnt nj -> (node_ok n nj -> node_ok n (f nj)) -> (ni_chan (f nj) = None -> ni_chan nj = None) ->
  ap k (upd n j f) own id /\ n_nodes (upd n j f) !! j = Some (f nj).
Proof.
  intros A E C R K H. pose proof (mild_upd j n nj f E C R K) as M. split; [by apply (ap_mild _ n _ _ _ j nj (f nj))|apply M].
Qed.
(** The sender of a frame: the BSS node stands for a stranger. *)
Definition sender (n : net) (id : nat) : Prop := ic_bss n = Some id \/ exists ni, n_nodes n !! id = Some ni /\ ni_table ni <> None.

Section Handled.
Context (dev : key_ops) (queued : net -> nat -> bool) (acl : list Z -> bool) (shl32 : Z).

Lemma send_safe k n own id j subtype arg : ap k n own id -> 4 <= k -> is_Some (n_nodes n !! j) ->
  safe (k - 1) id (IEEE80211_SEND_MGMT queued n j subtype arg).
Proof. intros A Hk [nj E]. destruct (ap_send queued k n own id j nj subtype arg A Hk E) as (n' & _ & own' & -> & A' & _). by exists n', own'. Qed.

Lemma send_error_safe k n own id mac subtype arg : ap k n own id -> 4 <= k <= 2 ^ 31 ->
  safe (k - 1) id (ieee80211_send_error dev queued n id mac subtype arg).
Proof.
  intros A Hk. unfold ieee80211_send_error. destruct (is_bss n id); [|apply (send_safe k n own); [done|lia|by apply (ap_alive k n own)]].
  destruct (ap_bss _ _ _ _ A) as [b Eb]. destruct (tmp_node_ok n (hinc own id) mac b (ap_nwf _ _ _ _ A) Eb) as (r & n1 & Et & H).
  rewrite Et. cbn [res_bind]. pose proof (ap_alloc k n own id _ _ _ _ A ltac:(lia) H) as A1. destruct r as [j|].
  - destruct A1 as (A1 & _); [intros x; by apply (tmp_chan _ _ _ _ x Et)|]. destruct H as (_ & _ & _ & _ & _ & nj & E & Ht & _).
    destruct (ap_send queued k n1 _ id j nj subtype arg A1 ltac:(lia) E) as (n2 & nj2 & own2 & -> & A2 & E2 & (C2 & _)%core_inv & _ & Ho).
    cbn [res_bind]. destruct (ap_free dev (k - 1) n2 own2 id j A2) as (n3 & -> & A3).
    + rewrite hinc_same in Ho. lia.
    + rewrite E2. intros x [= <-]. congruence.
    + by eapply safe_ok.
  - eapply safe_more; [by eapply safe_ok|lia].
Qed.

Lemma auth_node_safe k n own id mac : ap k n own id -> 4 <= k <= 2 ^ 31 ->
  exists o, auth_node n id mac = Ok o /\
    match o with
    | inl n' => exists own', ap k n' own' id
    | inr (j, n') => exists own', ap (k - 1) n' own' id /\ is_Some (n_nodes n' !! j)
    end.
Proof.
  intros A Hk. unfold auth_node. destruct (ap_bss _ _ _ _ A) as [b Eb].
  assert (exists r n1 own1, (if is_bss n id then ieee80211_dup_bss n T_sta mac
    else let* ni := node_at n id in if has_flag (ni_flags ni) IEEE80211_NODE_AREF then Ok (Some id, n)
         else let* n := ieee80211_ref_node n id in Ok (Some id, n)) = Ok (r, n1) /\
    match r with Some j => ap (k - 1) n1 own1 id /\ is_Some (n_nodes n1 !! j) | None => ap k n1 own1 id end) as (r & n1 & own1 & -> & H).
  { destruct (is_bss n id).
    - destruct (dup_bss_ok n (hinc own id) T_sta mac b (ap_nwf _ _ _ _ A) Eb) as (r & n1 & Ed & H).
      pose proof (ap_alloc k n own id _ _ _ _ A ltac:(lia) H) as A1. destruct r as [j|].
      + destruct A1 as (A1 & L & _); [intros x; by apply (dup_chan _ _ _ _ _ x Ed)|]. eexists _, _, _. split; [done|].
        split; [apply (ap_more k); [exact A1|lia]|done].
      + exists None, n1, own. by split.
    - destruct (ap_alive _ _ _ _ A) as [ni E]. rewrite (node_at_Some _ _ _ E). cbn [res_bind].
      destruct (has_flag _ _); [eexists _, _, _; split; [done|]; split; [apply (ap_more k); [exact A|lia]|by eexists]|].
      destruct (ap_ref k n own id id A ltac:(lia) ltac:(by eexists)) as (n1 & -> & A1 & _). cbn [res_bind].
      eexists _, _, _. split; [done|]. split; [exact A1|]. by apply (ap_alive _ _ _ _ A1). }
  cbn [res_bind]. destruct r as [j|]; [|eexists; split; [done|by exists own1]].
  destruct H as [A1 [nj E]]. eexists. split; [done|]. exists own1.
  destruct (ap_upd (k - 1) n1 own1 id j nj (fun ni => set_nflags ni (Z.lor (ni_flags ni) IEEE80211_NODE_AREF))) as [A2 E2];
    [done|done|done|done|node_ok_fields|done|]. split; [exact A2|by eexists].
Qed.

Lemma authorize_safe k n own id j nj : ap k n own id -> n_nodes n !! j = Some nj ->
  ap k (upd n j (ieee80211_node_authorize n)) own id /\ is_Some (n_nodes (upd n j (ieee80211_node_authorize n)) !! j).
Proof.
  intros A E. destruct (ap_upd k n own id j nj (ieee80211_node_authorize n)) as [A2 E2]; [done|done|done|done|node_ok_fields|done|].
  split; [done|by eexists].
Qed.

Lemma auth_open_safe k n own m id seq status : ap k n own id -> 5 <= k <= 2 ^ 31 ->
  safe (k - 2) id (ieee80211_auth_open dev queued n m id seq status).
Proof.
  intros A Hk. unfold ieee80211_auth_open. destruct (ap_alive _ _ _ _ A) as [ni E]. rewrite (node_at_Some _ _ _ E). cbn [res_bind].
  pose proof (ap_bump _ _ _ _ is_rx_bad_auth A) as Ab. destruct (ap_mode _ _ _ _ A) as [Hm _]. cbn zeta.
  change (ic_opmode (bump n is_rx_bad_auth)) with (ic_opmode n). rewrite Hm, Z.eqb_refl. case_match.
  { eapply safe_more; [apply (send_error_safe k _ own); [exact Ab|lia]|lia]. }
  case_match; [eapply safe_more; [by eapply safe_ok|lia]|].
  destruct (auth_node_safe k n own id (i_addr2 m) A ltac:(lia)) as ([n1|[j n1]] & -> & H'); unfold rr_bind; cbn [res_bind].
  { destruct H' as [own1 A1]. eapply safe_more; [by eapply safe_ok|lia]. }
  destruct H' as (own1 & A1 & [nj E1]).
  destruct (ap_send queued (k - 1) n1 own1 id j nj IEEE80211_FC0_SUBTYPE_AUTH (seq + 1) A1 ltac:(lia) E1) as (n2 & nj2 & own2 & -> & A2 & E2 & _).
  cbn [res_bind]. rewrite (node_at_Some _ _ _ E2). cbn [res_bind]. apply (safe_more (k - 1 - 1)); [|lia].
  case_match; [by eapply safe_ok|]. eapply safe_ok. by apply (authorize_safe _ _ _ _ _ nj2).
Qed.

Lemma auth_bad_safe k n own m id seq estatus : ap k n own id -> 4 <= k <= 2 ^ 31 ->
  safe (k - 1) id (auth_bad dev queued n m id seq estatus).
Proof.
  intros A Hk. unfold auth_bad. destruct (ap_mode _ _ _ _ A) as [Hm _]. rewrite Hm, Z.eqb_refl. by apply (send_error_safe k n own).
Qed.

Lemma alloc_challenge_safe k n own id j nj : ap k n own id -> n_nodes n !! j = Some nj ->
  exists b n' nj', alloc_challenge n j = Ok (b, n') /\ ap k n' own id /\ n_nodes n' !! j = Some nj'.
Proof.
  intros A E. unfold alloc_challenge. rewrite (node_at_Some _ _ _ E). cbn [res_bind].
  destruct (ni_challenge nj); [by exists true, n, nj|].
  assert (forall mem, ap k (set_mem n mem) own id) as Am by (intros mem; by apply (ap_net _ n)).
  destruct (n_mem n) as [|[|] mem].
  - by exists false, n, nj.
  - destruct (ap_upd k (set_mem n mem) own id j nj (fun ni => set_challenge ni (Some (replicate (Z.to_nat IEEE80211_CHALLENGE_LEN) 0)))) as [A2 E2];
      [done|done|done|done|node_ok_fields|done|]. by eexists _, _, _.
  - by exists false, (set_mem n mem), nj.
Qed.

Lemma auth_shared_ap_safe k n own m id rssi rstamp seq ie challenge : ap k n own id -> 5 <= k <= 2 ^ 31 ->
  (seq = IEEE80211_AUTH_SHARED_RESPONSE -> is_Some ie) ->
  safe (k - 2) id (auth_shared_ap dev queued n m id rssi rstamp seq ie challenge).
Proof.
  intros A Hk Hie. unfold auth_shared_ap.
  assert (forall s e, safe (k - 2) id (auth_bad dev queued (bump n s) m id seq e)) as Hbad.
  { intros s e. apply (safe_more (k - 1)); [|lia]. apply (auth_bad_safe k _ own); [by apply ap_bump|lia]. }
  case_match; [apply (safe_more (k - 1)); [apply (auth_bad_safe k n own); [done|lia]|lia]|].
  case_match.
  { destruct (auth_node_safe k n own id (i_addr2 m) A ltac:(lia)) as ([n1|[j n1]] & -> & H'); unfold rr_bind; cbn [res_bind].
    { destruct H' as [own1 A1]. eapply safe_more; [by eapply safe_ok|lia]. }
    destruct H' as (own1 & A1 & [nj E1]).
    destruct (ap_upd (k - 1) n1 own1 id j nj (fun ni => set_rstamp (set_rssi ni (u8 rssi)) rstamp)) as [A2 E2];
      [done|done|done|done|node_ok_fields|done|]. cbn zeta.
    destruct (alloc_challenge_safe (k - 1) _ own1 id j _ A2 E2) as (b & n3 & nj3 & -> & A3 & E3). cbn [res_bind].
    apply (safe_more (k - 1 - 1)); [|lia]. destruct b; [|apply (safe_more (k - 1)); [by eapply safe_ok|lia]].
    destruct (ap_upd (k - 1) n3 own1 id j nj3 (fun ni => set_challenge ni (Some challenge))) as [A4 E4];
      [done|done|done|done|node_ok_fields|done|]. apply (send_safe (k - 1) _ own1); [done|lia|by eexists]. }
  destruct (Z.eqb_spec seq IEEE80211_AUTH_SHARED_RESPONSE) as [Hs|]; [|apply Hbad].
  case_match; [eapply safe_more; [by eapply safe_ok|lia]|].
  destruct (ap_alive _ _ _ _ A) as [ni E]. rewrite (node_at_Some _ _ _ E). cbn [res_bind].
  destruct (ni_challenge ni) as [c|]; [|apply Hbad]. destruct (Hie Hs) as [x ->]. cbn zeta. case_match; [apply Hbad|].
  destruct (authorize_safe k n own id id ni A E) as [A2 E2].
  apply (safe_more (k - 1)); [|lia]. apply (send_safe k _ own); [done|lia|done].
Qed.

Lemma auth_shared_safe k n own m frm id rssi rstamp seq status challenge : ap k n own id -> 5 <= k <= 2 ^ 31 ->
  safe (k - 2) id (ieee80211_auth_shared dev queued n m frm id rssi rstamp seq status challenge).
Proof.
  intros A Hk. unfold ieee80211_auth_shared. destruct (ap_alive _ _ _ _ A) as [ni E]. rewrite (node_at_Some _ _ _ E). cbn [res_bind]. cbn zeta.
  assert (forall s e, safe (k - 2) id (auth_bad dev queued (bump n s) m id seq e)) as Hbad.
  { intros s e. apply (safe_more (k - 1)); [|lia]. apply (auth_bad_safe k _ own); [by apply ap_bump|lia]. }
  case_match; [apply (safe_more (k - 1)); [apply (auth_bad_safe k n own); [done|lia]|lia]|].
  case_match; [apply Hbad|]. case_match; [apply Hbad|]. set (ie := if (1 <? length frm)%nat && _ then _ else _).
  destruct (((seq =? _) || _) && _) eqn:En; [apply Hbad|]. destruct (ap_mode _ _ _ _ A) as [Hm _]. rewrite Hm, Z.eqb_refl.
  apply (auth_shared_ap_safe k n own); [done|lia|]. intros ->. destruct ie; [by eexists|]. done.
Qed.

Lemma recv_auth_safe k n own m id rssi rstamp challenge : ap k n own id -> 5 <= k <= 2 ^ 31 ->
  safe (k - 2) id (ieee80211_recv_mgmt_auth dev queued acl n m id rssi rstamp challenge).
Proof.
  intros A Hk. unfold ieee80211_recv_mgmt_auth, VERIFY_LENGTH. cbn zeta. destruct (_ <? 6)%nat; unfold rr_bind; cbn [quit go res_bind].
  { eapply safe_more; [eapply safe_ok; by apply ap_bump|lia]. }
  assert (forall s arg, safe (k - 2) id (if ic_opmode (bump n s) =? IEEE80211_M_HOSTAP
    then IEEE80211_SEND_MGMT queued (bump n s) id IEEE80211_FC0_SUBTYPE_AUTH arg else Ok (bump n s))) as Hreply.
  { intros s arg. change (ic_opmode (bump n s)) with (ic_opmode n). destruct (ap_mode _ _ _ _ A) as [-> _]. rewrite Z.eqb_refl.
    apply (safe_more (k - 1)); [|lia]. apply (send_safe k _ own); [by apply ap_bump|lia|]. by apply (ap_alive k n own). }
  case_match; [apply Hreply|]. case_match; [apply Hreply|].
  case_match; [by apply (auth_shared_safe k n own)|]. case_match; [by apply (auth_open_safe k n own)|apply Hreply].
Qed.

(** *** Association *)

Record wf_asreq (a : asreq) : Prop := mkWfAs {
  wa_rates : wf_ie (as_rates a); wa_small : byte_at (as_rates a) 1 <= IEEE80211_RATE_MAXSIZE;
  wa_xrates : wf_opt (as_xrates a); wa_wpa : wf_opt (as_wpa a); wa_wme : wf_opt (as_wme a);
}.
(** A check that leads on or out. *)
Definition leads {A} (k : Z) (own : nat -> nat) (id : nat) (P : A -> Prop) (c : rr A) : Prop :=
  exists o, c = Ok o /\ match o with inl n' => ap k n' own id | inr a => P a end.
Lemma leads_then {A B} k own id (P : A -> Prop) (Q : B -> Prop) (c : rr A) (f : A -> rr B) :
  leads k own id P c -> (forall a, P a -> leads k own id Q (f a)) -> leads k own id Q (rr_then c f).
Proof. intros (o & -> & Ho) Hf. unfold rr_then. cbn [res_bind]. destruct o as [n'|a]; [by exists (inl n')|by apply Hf]. Qed.
Lemma leads_quit {A} k own id (P : A -> Prop) n : ap k n own id -> leads k own id P (quit n).
Proof. intros H. by exists (inl n). Qed.
Lemma leads_go {A} k own id (P : A -> Prop) a : P a -> leads k own id P (go a).
Proof. intros H. by exists (inr a). Qed.

Lemma parse_elems_leads k n own id elem frm :
  (forall e ie, wf_elems e -> wf_ie ie -> exists e', elem e ie = Ok e' /\ wf_elems e') -> ap k n own id -> bytes frm ->
  leads k own id wf_elems (parse_elems n elem frm).
Proof.
  intros HE A Hb. unfold parse_elems. destruct (elem_loop_ok elem HE (length frm) frm no_elems) as (o & -> & Ho); [done|done|by split|].
  cbn [res_bind]. destruct o as [e|]; [apply leads_go; by apply Ho|apply leads_quit; by apply ap_bump].
Qed.
Lemma verify_element_leads k n own id o max : ap k n own id -> wf_opt o ->
  leads k own id (fun ie => wf_ie ie /\ byte_at ie 1 <= max) (VERIFY_ELEMENT n o max).
Proof.
  intros A Ho. unfold VERIFY_ELEMENT. destruct o as [ie|]; [|apply leads_quit; by apply ap_bump].
  destruct (Z.ltb_spec max (byte_at ie 1)); [apply leads_quit; by apply ap_bump|apply leads_go; split; [by apply Ho|done]].
Qed.
Lemma verify_ssid_leads k n own id bss ssid : ap k n own id -> leads k own id (fun _ => True) (VERIFY_SSID n bss ssid).
Proof. intros A. unfold VERIFY_SSID. case_match; [apply leads_quit; by apply ap_bump|by apply leads_go]. Qed.
Lemma bss_node_live k n own id : ap k n own id -> exists b bss, ic_bss n = Some b /\ n_nodes n !! b = Some bss /\ bss_node n = Ok bss.
Proof.
  intros A. destruct (ap_bss _ _ _ _ A) as [b Eb]. destruct (wf_bss _ _ (proj1 (ap_nwf _ _ _ _ A)) b Eb) as [bss E].
  exists b, bss. split; [done|]. split; [done|]. by apply (bss_node_ok _ b).
Qed.

Lemma asreq_parse_leads k n own id m subtype : ap k n own id -> bytes m -> leads k own id wf_asreq (asreq_parse n m subtype).
Proof.
  intros A Hb. unfold asreq_parse. case_match; [apply leads_quit; by apply ap_bump|]. cbn zeta.
  destruct (_ <? _)%nat; [apply leads_quit; by apply ap_bump|]. destruct (bss_node_live _ _ _ _ A) as (b & bss & _ & _ & ->). cbn [res_bind].
  case_match; [apply leads_quit; by apply ap_bump|].
  eapply leads_then; [apply parse_elems_leads; [apply asreq_elem_ok|done|by apply bytes_drop, bytes_drop]|]. intros e [S1 S2 S3 S4 S5].
  eapply leads_then; [by apply verify_element_leads|]. intros rates [R1 R2].
  eapply leads_then; [by apply verify_element_leads|]. intros ssid _.
  eapply leads_then; [by apply verify_ssid_leads|]. intros _ _. apply leads_go. by split.
Qed.

Lemma as_refuse_safe k n own id ni subtype arg s : ap k n own id -> 4 <= k -> ic_bss n <> Some id ->
  n_nodes n !! id = Some ni -> ni_table ni <> None -> safe (k - 1) id (as_refuse dev queued n id subtype arg s).
Proof.
  intros A Hk Hb E Ht. unfold as_refuse. destruct (ap_send queued k n own id id ni subtype arg A Hk E) as (n1 & ni1 & own1 & -> & A1 & E1 & _ & B1 & Ho).
  cbn [res_bind]. destruct (ni_table ni) as [t|] eqn:Et; [|done]. pose proof (ap_own _ _ _ _ _ _ _ A E Et).
  destruct (ap_leave dev (k - 1) n1 own1 id ni1 A1 E1) as (n2 & own2 & -> & A2); [by rewrite B1|lia|]. cbn [res_bind].
  eapply safe_ok. by apply ap_bump.
Qed.

Lemma as_security_safe k n own id ni a : ap k n own id -> 4 <= k -> ic_bss n <> Some id ->
  n_nodes n !! id = Some ni -> ni_table ni <> None -> wf_asreq a ->
  exists o, as_security dev queued shl32 n id a = Ok o /\ match o with inl n' => exists own', ap (k - 1) n' own' id | inr _ => True end.
Proof.
  intros A Hk Hb E Ht Wa. unfold as_security.
  assert (forall reason, exists o : net + option ieee80211_rsnparms,
    (let* n := as_refuse dev queued n id IEEE80211_FC0_SUBTYPE_DEAUTH reason is_rx_assoc_badwpaie in quit n) = Ok o /\
    match o with inl n' => exists own', ap (k - 1) n' own' id | inr _ => True end) as Hno.
  { intros reason. destruct (as_refuse_safe k n own id ni IEEE80211_FC0_SUBTYPE_DEAUTH reason is_rx_assoc_badwpaie A Hk Hb E Ht) as (n' & own' & -> & A').
    eexists. split; [done|]. by exists own'. }
  destruct (as_wpa a) as [wpa|] eqn:Ew; [|case_match; [apply Hno|by eexists]].
  rewrite (node_at_Some _ _ _ E). cbn [res_bind]. destruct (wa_wpa _ Wa wpa Ew) as [Hbw _].
  assert (exists o, (if negb (byte_at wpa 0 =? IEEE80211_ELEMID_RSN) then ieee80211_parse_wpa shl32 (n_ic n) wpa (ni_rsn ni)
    else ieee80211_parse_rsn shl32 (n_ic n) wpa (ni_rsn ni)) = Ok o) as [[reason rsn] ->].
  { case_match; [by apply parse_wpa_total|by apply parse_rsn_total]. }
  cbn [res_bind]. case_match; [apply Hno|by eexists].
Qed.

Lemma saveie_net n old ie : exists r mem, ieee80211_saveie n old ie = (r, set_mem n mem).
Proof.
  assert (set_mem n (n_mem n) = n) as En by by destruct n. unfold ieee80211_saveie. cbn zeta.
  destruct (n_mem n) as [|[|] mem]; destruct old as [o|]; try case_match; eexists _, _; try reflexivity.
  all: f_equal; by rewrite <- En at 1.
Qed.

Lemma as_install_safe k n own id ni a rsn rssi rstamp : ap k n own id -> n_nodes n !! id = Some ni ->
  exists n' ni', as_install n id a rsn rssi rstamp = Ok n' /\ ap k n' own id /\ n_nodes n' !! id = Some ni' /\
    ni_table ni' = ni_table ni /\ ic_bss n' = ic_bss n.
Proof.
  intros A E. unfold as_install. destruct (bss_node_live _ _ _ _ A) as (b & bss & Eb & Ebn & ->). cbn [res_bind]. cbn zeta.
  set (n1 := upd n id _).
  assert (exists ni1, ap k n1 own id /\ n_nodes n1 !! id = Some ni1 /\ ni_table ni1 = ni_table ni) as (ni1 & A1 & E1 & T1).
  { eexists. edestruct (ap_upd k n own id id ni) as [A1 E1]; [exact A|exact E| | | | |split; [exact A1|split; [exact E1|done]]]; [done|done|node_ok_fields|].
    cbn. intros Hn. exfalso. apply (ap_chan _ _ _ _ A b bss Ebn); [by right|done]. }
  rewrite (node_at_Some _ _ _ E1). cbn [res_bind].
  assert (forall n0 x f, ap k n0 own id -> n_nodes n0 !! id = Some x -> ni_table x = ni_table ni -> ic_bss n0 = ic_bss n ->
    (core (f x) = core x /\ ni_refcnt (f x) = ni_refcnt x /\ (node_ok n0 x -> node_ok n0 (f x)) /\ ni_chan (f x) = ni_chan x) ->
    exists x', ap k (upd n0 id f) own id /\ n_nodes (upd n0 id f) !! id = Some x' /\ ni_table x' = ni_table ni /\ ic_bss (upd n0 id f) = ic_bss n) as Hup.
  { intros n0 x f B0 Ex Tx Bx (C1 & C2 & C3 & C4). destruct (ap_upd k n0 own id id x f) as [B1 B2]; [done|done|done|done|done|by rewrite C4|].
    exists (f x). apply core_inv in C1 as (C1 & _). split; [done|]. split; [done|]. split; [congruence|done]. }
  set (n2 := match rsn with Some _ => _ | None => _ end).
  assert (exists ni2, ap k n2 own id /\ n_nodes n2 !! id = Some ni2 /\ ni_table ni2 = ni_table ni /\ ic_bss n2 = ic_bss n) as (ni2 & A2 & E2 & T2 & B2).
  { subst n2. destruct rsn as [r|]; [destruct (as_wpa a) as [wpa|]|].
    - destruct (saveie_net n1 (ni_wpa_ie ni1) wpa) as (ie & mem & ->). apply (Hup (set_mem n1 mem) ni1); [by apply (ap_net _ n1)|done|done|done|].
      split; [done|]. split; [done|]. split; [node_ok_fields|done].
    - apply (Hup n1 ni1); [done|done|done|done|]. split; [done|]. split; [done|]. split; [node_ok_fields|done].
    - apply (Hup n1 ni1); [done|done|done|done|]. split; [done|]. split; [done|]. split; [node_ok_fields|done]. }
  destruct (as_wme a) as [wme|].
  - destruct (saveie_net n2 (ni_wme_ie ni1) wme) as (ie & mem & ->).
    destruct (Hup (set_mem n2 mem) ni2 (fun ni => set_nflags (set_wme_ie ni ie) (Z.lor (ni_flags ni) IEEE80211_NODE_QOS))) as (ni3 & H3);
      [by apply (ap_net _ n2)|done|done|done|split; [done|]; split; [done|]; split; [node_ok_fields|done]|]. eexists _, ni3. split; [done|exact H3].
  - destruct (ni_wme_ie ni1); [|by exists n2, ni2].
    destruct (Hup n2 ni2 (fun ni => set_nflags (set_wme_ie ni None) (Z.land (ni_flags ni) (Z.lnot IEEE80211_NODE_QOS)))) as (ni3 & H3);
      [done|done|done|done|split; [done|]; split; [done|]; split; [node_ok_fields|done]|]. eexists _, ni3. split; [done|exact H3].
Qed.

Lemma join_safe k n own id ni resp : ap k n own id -> 5 <= k -> ic_bss n <> Some id ->
  n_nodes n !! id = Some ni -> ni_table ni <> None -> safe (k - 1) id (ieee80211_node_join dev queued n id resp).
Proof.
  intros A Hk Hb E Ht. destruct (ni_table ni) as [t|] eqn:Et; [|done]. pose proof (ap_own _ _ _ _ _ _ _ A E Et) as Ho.
  pose proof (ap_room _ _ _ _ A id) as R. destruct (ap_mode _ _ _ _ A) as [Hm _].
  destruct (node_join_ok dev queued n (hinc own id) id resp (ap_nwf _ _ _ _ A)) as (n' & m & -> & W' & T' & H');
    [by apply (ap_few k n)|rewrite hinc_same; lia|by left|].
  pose proof (near_touch _ _ _ T') as Nr. destruct (refused n id).
  - exists n', (if queued m id then own else hdec own id). split; [done|].
    apply (ap_ext _ _ (hdec (if queued m id then hinc (hinc own id) id else hinc own id) id)).
    { intros x. destruct (queued m id); [by rewrite hdec_hinc|]. symmetry. by apply hinc_hdec. }
    apply (ap_step k (k - 1) n n' (hinc own id) _ own _ id A); [exact W'|done|lia|destruct (queued m id); rewrite ?hdec_same; lia
      |intros i Hi; destruct (queued m id); [done|by apply hdec_other]|].
    intros nj Ej. rewrite (H' ni nj E Ej). split; [done|]. by intros [?|?].
  - exists n', (if queued m id then hinc own id else own). split; [done|].
    apply (ap_ext _ _ (if queued m id then hinc (hinc own id) id else hinc own id)); [intros x; by destruct (queued m id)|].
    apply (ap_step k (k - 1) n n' (hinc own id) _ own _ id A); [exact W'|done|lia|destruct (queued m id); rewrite ?hinc_same; lia
      |intros i Hi; destruct (queued m id); [by apply hinc_other|done]|].
    intros nj Ej. destruct (H' ni nj E Ej) as [(Ct & _)%core_inv Cc]. rewrite Ct, Cc, Et. split.
    + intros _. destruct (queued m id); rewrite ?hinc_same; lia.
    + intros _. apply (ap_chan _ _ _ _ A id ni E). left. by rewrite Et.
Qed.

(** The rates of a frame are taken over. *)
Lemma rates_safe k n own id j nj rates xrates : ap k n own id -> n_nodes n !! j = Some nj -> ni_chan nj <> None ->
  wf_ie rates -> byte_at rates 1 <= IEEE80211_RATE_MAXSIZE -> wf_opt xrates ->
  exists v ni n' nj', ieee80211_setup_rates n nj rates xrates R_ASSOC = Ok (v, ni, n') /\ ap k (upd n' j (fun _ => ni)) own id /\
    n_nodes (upd n' j (fun _ => ni)) !! j = Some nj' /\ ni_table nj' = ni_table nj /\ ic_bss (upd n' j (fun _ => ni)) = ic_bss n.
Proof.
  intros A E Hc Wr Hs Wx. destruct (setup_rates_total n nj rates xrates Hc (ap_fixed _ _ _ _ A) Wr Hs Wx) as (v & l & tx & n' & -> & Hn).
  assert (ap k n' own id /\ n_nodes n' !! j = Some nj /\ ic_bss n' = ic_bss n) as (A' & E' & B').
  { destruct Hn as [-> | ->]; [done|]. split; [by apply ap_bump|done]. }
  destruct (ap_upd k n' own id j nj (fun _ => set_txrate (set_rates nj l) tx)) as [A2 E2]; [done|done|done|done|node_ok_fields|done|].
  eexists _, _, _, _. split; [done|]. split; [exact A2|]. split; [exact E2|done].
Qed.

Lemma as_associate_safe k n own id ni a rsn rssi rstamp : ap k n own id -> 5 <= k -> ic_bss n <> Some id ->
  n_nodes n !! id = Some ni -> ni_table ni <> None -> wf_asreq a ->
  safe (k - 1) id (as_associate dev queued n id a rsn rssi rstamp).
Proof.
  intros A Hk Hb E Ht [W1 W2 W3 _ _]. unfold as_associate. rewrite (node_at_Some _ _ _ E). cbn [res_bind].
  destruct (rates_safe k n own id id ni (as_rates a) (as_xrates a)) as (v & ni1 & n1 & ni2 & -> & A2 & E2 & T2 & B2); try done.
  { apply (ap_chan _ _ _ _ A id ni E). by left. }
  cbn [res_bind]. cbn zeta. case_match.
  - apply (as_refuse_safe k _ own id ni2); [done|lia|by rewrite B2|done|by rewrite T2].
  - destruct (as_install_safe k _ own id ni2 a rsn rssi rstamp A2 E2) as (n3 & ni3 & -> & A3 & E3 & T3 & B3). cbn [res_bind].
    apply (join_safe k n3 own id ni3); [done|lia|by rewrite B3, B2|done|by rewrite T3, T2].
Qed.

Lemma assoc_req_safe k n own m id subtype rssi rstamp : ap k n own id -> 5 <= k <= 2 ^ 31 -> sender n id -> bytes m ->
  safe (k - 1) id (ieee80211_recv_mgmt_assoc_req dev queued shl32 n m id subtype rssi rstamp).
Proof.
  intros A Hk Hs Hm. unfold ieee80211_recv_mgmt_assoc_req.
  destruct (asreq_parse_leads k n own id m subtype A Hm) as (o & -> & Ho). unfold rr_bind at 1. cbn [res_bind].
  destruct o as [n'|a]; [eapply safe_more; [by eapply safe_ok|lia]|].
  unfold is_bss. case_bool_decide as Hb.
  { destruct (send_error_safe k n own id (i_addr2 m) IEEE80211_FC0_SUBTYPE_DEAUTH IEEE80211_REASON_ASSOC_NOT_AUTHED A ltac:(lia)) as (n' & own' & -> & A').
    cbn [res_bind]. eapply safe_ok. by apply ap_bump. }
  destruct Hs as [?|(ni & E & Ht)]; [done|].
  destruct (as_security_safe k n own id ni a A ltac:(lia) Hb E Ht Ho) as (o & -> & Hsec). unfold rr_bind. cbn [res_bind].
  destruct o as [n'|rsn]; [destruct Hsec as [own' A']; by eapply safe_ok|].
  rewrite (node_at_Some _ _ _ E). cbn [res_bind]. cbn zeta.
  destruct (ap_upd k n own id id ni (fun ni => set_challenge ni None)) as [A1 E1]; [done|done|done|done|node_ok_fields|done|].
  case_match.
  - by apply (as_refuse_safe k _ own id _ _ _ _ A1 ltac:(lia) Hb E1).
  - apply (as_associate_safe k _ own id _ a rsn rssi rstamp A1 ltac:(lia) Hb E1 Ht Ho).
Qed.

(** *** Probes and departures *)

Lemma prreq_parse_leads k n own id m : ap k n own id -> bytes m ->
  leads k own id (fun p => wf_ie p.1 /\ byte_at p.1 1 <= IEEE80211_RATE_MAXSIZE /\ wf_opt p.2) (prreq_parse n m).
Proof.
  intros A Hb. unfold prreq_parse. case_match; [apply leads_quit; by apply ap_bump|]. case_match; [apply leads_quit; by apply ap_bump|].
  eapply leads_then; [apply parse_elems_leads; [apply prreq_elem_ok|done|by apply bytes_drop]|]. intros e [S1 S2 S3 S4 S5].
  eapply leads_then; [by apply verify_element_leads|]. intros rates [R1 R2].
  eapply leads_then; [by apply verify_element_leads|]. intros ssid _.
  destruct (bss_node_live _ _ _ _ A) as (b & bss & _ & _ & ->). cbn [res_bind].
  eapply leads_then; [by apply verify_ssid_leads|]. intros _ _. case_match; [apply leads_quit; by apply ap_bump|]. by apply leads_go.
Qed.

Lemma probe_req_safe k n own m id rssi rstamp : ap k n own id -> 5 <= k <= 2 ^ 31 -> sender n id -> bytes m ->
  safe (k - 1) id (ieee80211_recv_mgmt_probe_req dev queued n m id rssi rstamp).
Proof.
  intros A Hk Hs Hm. unfold ieee80211_recv_mgmt_probe_req.
  destruct (prreq_parse_leads k n own id m A Hm) as (o & -> & Ho). unfold rr_bind at 1. cbn [res_bind].
  destruct o as [n'|[rates xrates]]; [eapply safe_more; [by eapply safe_ok|lia]|]. destruct Ho as (R1 & R2 & R3). cbn in R1, R2, R3.
  assert (exists o, probe_node n m id = Ok o /\ match o with
    | inl n' => ap k n' own id
    | inr (j, tmp, n') => exists own' nj, ap k n' own' id /\ n_nodes n' !! j = Some nj /\ ni_chan nj <> None /\
        (tmp = true -> (0 < own' j)%nat /\ ni_table nj = None)
    end) as (o & -> & H).
  { unfold probe_node. destruct (ap_mode _ _ _ _ A) as [-> _]. unfold is_bss. case_bool_decide as Hb; cbn [IEEE80211_M_HOSTAP IEEE80211_M_IBSS Z.eqb negb].
    - destruct (tmp_node_ok n (hinc own id) (i_addr2 m) id (ap_nwf _ _ _ _ A) Hb) as (r & n1 & Et & H). rewrite Et. cbn [res_bind].
      pose proof (ap_alloc k n own id _ _ _ _ A ltac:(lia) H) as A1. destruct r as [j|]; [|by exists (inl n1)].
      destruct A1 as (A1 & _); [intros x; by apply (tmp_chan _ _ _ _ x Et)|]. destruct H as (_ & _ & _ & _ & _ & nj & E & Htb & _).
      exists (inr (j, true, n1)). split; [done|]. exists (hinc own j), nj. split; [done|]. split; [done|].
      split; [by apply (tmp_chan _ _ _ _ nj Et)|]. intros _. rewrite hinc_same. split; [lia|done].
    - destruct Hs as [?|(ni & E & Ht)]; [done|]. exists (inr (id, false, n)). split; [done|]. exists own, ni.
      split; [done|]. split; [done|]. split; [|done]. apply (ap_chan _ _ _ _ A id ni E). by left. }
  unfold rr_bind. cbn [res_bind]. destruct o as [n'|[[j tmp] n1]]; [eapply safe_more; [by eapply safe_ok|lia]|].
  destruct H as (own1 & nj & A1 & E1 & C1 & Ht). rewrite (node_at_Some _ _ _ E1). cbn [res_bind]. cbn zeta.
  destruct (ap_upd k n1 own1 id j nj (fun ni => set_rstamp (set_rssi ni (u8 rssi)) rstamp)) as [A2 E2];
    [done|done|done|done|node_ok_fields|done|]. rewrite (node_at_Some _ _ _ E2). cbn [res_bind].
  destruct (rates_safe k _ own1 id j _ rates xrates A2 E2 C1 R1 R2 R3) as (v & ni3 & n3 & nj3 & -> & A3 & E3 & T3 & _). cbn [res_bind].
  set (n4 := upd n3 j _) in *.
  assert (exists n5 nj5 own5, (if has_flag (u8 v) IEEE80211_RATE_BASIC then Ok n4
    else IEEE80211_SEND_MGMT queued n4 j IEEE80211_FC0_SUBTYPE_PROBE_RESP 0) = Ok n5 /\ ap (k - 1) n5 own5 id /\
    n_nodes n5 !! j = Some nj5 /\ ni_table nj5 = ni_table nj /\ (own1 j <= own5 j)%nat) as (n5 & nj5 & own5 & -> & A5 & E5 & T5 & Ho5).
  { destruct (has_flag _ _).
    - exists n4, nj3, own1. split; [done|]. split; [apply (ap_more k); [done|lia]|]. split; [done|]. split; [exact T3|lia].
    - destruct (ap_send queued k n4 own1 id j nj3 IEEE80211_FC0_SUBTYPE_PROBE_RESP 0 A3 ltac:(lia) E3) as (n5 & nj5 & own5 & -> & A5 & E5 & (C5 & _)%core_inv & _ & Ho).
      exists n5, nj5, own5. split; [done|]. split; [done|]. split; [done|]. split; [rewrite C5; exact T3|done]. }
  cbn [res_bind]. destruct tmp; [|by eapply safe_ok]. destruct (Ht eq_refl) as [Hp Hnt].
  destruct (ap_free dev (k - 1) n5 own5 id j A5) as (n6 & -> & A6); [lia|rewrite E5; intros x [= <-]; congruence|]. by eapply safe_ok.
Qed.

Lemma departs_safe k n own m id nstate : ap k n own id -> sender n id -> safe k id (departs dev n m id nstate).
Proof.
  intros A Hs. unfold departs. case_match; [eapply safe_ok; by apply ap_bump|]. destruct (ap_mode _ _ _ _ A) as [-> _].
  cbn [IEEE80211_M_HOSTAP IEEE80211_M_STA Z.eqb Pos.eqb]. unfold is_bss. case_bool_decide as Hb; [by eapply safe_ok|].
  destruct Hs as [?|(ni & E & Ht)]; [done|]. destruct (ni_table ni) as [t|] eqn:Et; [|done].
  destruct (ap_leave dev k n own id ni A E Hb) as (n' & own' & -> & A'); [by apply (ap_own _ _ _ _ _ _ _ A E Et)|]. by eapply safe_ok.
Qed.

(** With no scan in progress an access point discards what beacons say. *)
Lemma beacon_safe k n own m id subtype rssi rstamp : ap k n own id -> has_flag (ic_flags (n_ic n)) IEEE80211_F_SCAN = false ->
  safe k id (ieee80211_recv_mgmt_beacon dev queued n m id subtype rssi rstamp).
Proof.
  intros A Hs. unfold ieee80211_recv_mgmt_beacon. destruct (ap_alive _ _ _ _ A) as [ni E]. rewrite (node_at_Some _ _ _ E).
  cbn [res_bind]. rewrite Hs, (proj1 (ap_mode _ _ _ _ A)). eapply safe_ok. by apply ap_bump.
Qed.
Lemma assoc_resp_safe k n own m id subtype : ap k n own id -> safe k id (ieee80211_recv_mgmt_assoc_resp n m subtype).
Proof.
  intros A. unfold ieee80211_recv_mgmt_assoc_resp. rewrite (proj1 (ap_mode _ _ _ _ A)). eapply safe_ok. by apply ap_bump.
Qed.

Lemma recv_mgmt_safe k n own m id subtype rssi rstamp challenge : ap k n own id -> 5 <= k <= 2 ^ 31 -> sender n id -> bytes m ->
  has_flag (ic_flags (n_ic n)) IEEE80211_F_SCAN = false ->
  safe (k - 2) id (ieee80211_recv_mgmt dev queued acl shl32 n m id subtype rssi rstamp challenge).
Proof.
  intros A Hk Hs Hm Hscan. unfold ieee80211_recv_mgmt.
  assert (forall s, sender (bump n s) id) as Hs' by done.
  destruct (_ || _); [apply (safe_more k); [by apply (beacon_safe k n own)|lia]|].
  destruct (_ =? _); [apply (safe_more (k - 1)); [by apply (probe_req_safe k n own)|lia]|].
  destruct (_ =? _); [by apply (recv_auth_safe k n own)|].
  destruct (_ || _); [apply (safe_more (k - 1)); [by apply (assoc_req_safe k n own)|lia]|].
  destruct (_ || _); [apply (safe_more k); [by apply (assoc_resp_safe k n own)|lia]|].
  destruct (_ =? _); [|destruct (_ =? _)]; apply (safe_more k); try lia.
  - unfold ieee80211_recv_mgmt_deauth, VERIFY_LENGTH, rr_bind. case_match; [eapply safe_ok; by apply ap_bump|].
    destruct (_ <? 2)%nat; cbn [quit go res_bind]; [eapply safe_ok; by apply ap_bump|]. apply (departs_safe k _ own); [by apply ap_bump|done].
  - unfold ieee80211_recv_mgmt_disassoc, VERIFY_LENGTH, rr_bind. case_match; [eapply safe_ok; by apply ap_bump|].
    destruct (_ <? 2)%nat; cbn [quit go res_bind]; [eapply safe_ok; by apply ap_bump|]. apply (departs_safe k _ own); [by apply ap_bump|done].
  - eapply safe_ok; by apply ap_bump.
Qed.
End Handled.
End Ap.
