(* ===== verification/Input.v ===== *)
(** * The receive path: net80211/ieee80211_input.c

    [ieee80211_input] and the input of management, control and data frames it
    dispatches to: filters, detection of duplicates, decryption, reassembly,
    translation to Ethernet, power save and delivery.  A frame is an mbuf chain;
    fields of its header are read where [mtod] points, also past [m_len] when
    the code does so.  The frame tap, the counters of the interface and those
    kept per node are not part of the model.

    [challenge] stands for random bytes, [junk] for an uninitialised byte,
    [ticks] for the clock; [eapol_rx] and [data_rx] say which of the callbacks
    of the port are registered. *)

From stdpp Require Import gmap.
From S2P Require Import Prelude Buffers Endian Mbuf Ieee80211 Crypto Defrag InfoElem Wme Node NodeTable Rates Mgmt Station.

(** ** Constants *)

Definition IEEE80211_FC0_VERSION_MASK : Z := 0x03.
Definition IEEE80211_FC0_VERSION_0 : Z := 0x00.
Definition IEEE80211_FC1_RETRY : Z := 0x08.
Definition IEEE80211_FC1_PWR_MGT : Z := 0x10.
Definition IEEE80211_FC1_WEP : Z := 0x40.
Definition IEEE80211_FC0_SUBTYPE_NODATA : Z := 0x40.
Definition IEEE80211_CRC_LEN : Z := 4.
Definition IEEE80211_F_NOBRIDGE : Z := 0x10000000.
Definition IEEE80211_REASON_NOT_AUTHED : Z := 6.
Definition IEEE80211_REASON_NOT_ASSOCED : Z := 7.
Definition IFF_SIMPLEX : Z := 0x0800.
Definition ETHERTYPE_PAE : Z := 0x888e.
Definition M_HASFCS : Z := 0x002000.
Definition M_PROTO1 : Z := 0x000008.
Definition M_LINK3 : Z := 0x000080.
Definition M_PWR_SAV : Z := M_PROTO1.
Definition M_MORE_DATA : Z := M_LINK3.
Definition LLC_SNAP_LSAP : Z := 0xaa.
Definition LLC_UI : Z := 0x3.
Definition TID_TO_WME_AC (tid : Z) : Z :=
  if tid <? 1 then WME_AC_BE else if tid <? 3 then WME_AC_BK else if tid <? 6 then WME_AC_VI else WME_AC_VO.

(** Sizes of [struct ieee80211_frame_min], [struct ieee80211_qosframe],
    [struct ieee80211_qosframe_addr4], [struct ether_header], [struct llc]. *)
Definition sizeof_frame_min : nat := 16.
Definition sizeof_qosframe : nat := 26.
Definition sizeof_qosframe_addr4 : nat := 32.
Definition sizeof_eh : nat := 14.
Definition sizeof_llc : nat := 8.
Definition ether_dhost (eh : list Z) : list Z := sub_list 0 6 eh.
Definition ether_shost (eh : list Z) : list Z := sub_list 6 6 eh.
(** In host order. *)
Definition ether_type (eh : list Z) : Z := byte_at eh 12 * 256 + byte_at eh 13.

Definition fc_dir (wh : list Z) : Z := Z.land (i_fc1 wh) IEEE80211_FC1_DIR_MASK.
Definition fc_type (wh : list Z) : Z := Z.land (i_fc0 wh) IEEE80211_FC0_TYPE_MASK.
(** [ni->ni_ucastkey], [ic] and the heap after a call into the key layer. *)
Definition put_crypto (n : net) (id : nat) (ic : ieee80211com) (ucast : ieee80211_key) (h : heap) : net :=
  upd (set_heap (set_ic n ic) h) id (fun ni => set_ucastkey ni ucast).
Definition release (n : net) (m : list mbuf) : net := set_heap n (m_freem (n_heap n) m).

(** ** Duplicates *)

(** [((int)((a)-(b)) <= 0)] on [u_int16_t], which are promoted to [int] first. *)
Definition SEQ_LEQ (a b : Z) : bool := a - b <=? 0.
Definition rx_duplicate (retry : bool) (rxseq last : Z) : bool :=
  let rxno := Z.shiftr rxseq IEEE80211_SEQ_SEQ_SHIFT in
  let orxno := Z.shiftr last IEEE80211_SEQ_SEQ_SHIFT in
  retry && (((orxno =? 4095) && (rxno =? orxno)) || (negb (orxno =? 4095) && SEQ_LEQ rxseq last)).

(** The class of a frame: 0, or one more than the traffic class of a QoS frame. *)
Definition rx_tid (n : net) (x : mbuf) : rr (Z * net) :=
  let wh := mtod x in
  if ieee80211_has_qos wh then
    if (m_len x <? sizeof_qosframe)%nat then quit (bump n is_rx_tooshort)
    else
      let tid := Z.land (i_qos0 wh) IEEE80211_QOS_TID in
      let n := if WME_AC_VI <=? TID_TO_WME_AC tid then set_hipri_traffic n (u32 (wme_hipri_traffic n + 1)) else n in
      go (tid + 1, n)
  else go (0, n).
Definition rx_sequence (n : net) (id : nat) (x : mbuf) : rr net :=
  let wh := mtod x in
  let! (tid, n) := rx_tid n x in
  let* ni := node_at n id in
  let retry := has_flag (i_fc1 wh) IEEE80211_FC1_RETRY in
  match ni_rxseqs ni !! Z.to_nat tid with
  | None => Fault BadAccess
  | Some last =>
      if rx_duplicate retry (rxseq wh) last then quit (bump n is_rx_dup)
      else go (upd n id (fun ni => set_rxseqs ni (<[Z.to_nat tid := rxseq wh]> (ni_rxseqs ni))))
  end.

(** ** Is the frame for us? *)

Definition filter_sta (n : net) (id : nat) (x : mbuf) : rr nat :=
  let wh := mtod x in
  let* ni := node_at n id in
  if negb (IEEE80211_ADDR_EQ (i_addr2 wh) (ni_bssid ni)) then quit (bump n is_rx_wrongbss)
  else if negb (IEEE80211_IS_MULTICAST (i_addr1 wh)) && negb (IEEE80211_ADDR_EQ (i_addr1 wh) (ic_myaddr n))
  then quit (bump n is_rx_wrongbss) else go id.

(** Other modes check the BSSID of data frames; an ad-hoc network gets a node
    for a sender it has not met. *)
Definition filter_bss (n : net) (id : nat) (x : mbuf) : rr (nat * net) :=
  let wh := mtod x in let type := fc_type wh in
  let! bssid :=
    if negb (fc_dir wh =? IEEE80211_FC1_DIR_NODS) || (type =? IEEE80211_FC0_TYPE_CTL) then go (i_addr1 wh)
    else if (m_len x <? sizeof_frame)%nat then quit (bump n is_rx_tooshort) else go (i_addr3 wh) in
  if negb (type =? IEEE80211_FC0_TYPE_DATA) then go (id, n)
  else
    let* bss := bss_node n in
    if negb (IEEE80211_ADDR_EQ bssid (ni_bssid bss)) && negb (IEEE80211_ADDR_EQ bssid (if_broadcastaddr n))
    then quit (bump n is_rx_wrongbss)
    else
      let* ni := node_at n id in
      if is_bss n id && negb (ic_opmode n =? IEEE80211_M_HOSTAP) && negb (IEEE80211_ADDR_EQ (i_addr2 wh) (ni_macaddr ni)) then
        let* (r, n) := ieee80211_fakeup_adhoc_node n T_sta (i_addr2 wh) in
        match r with Some id => go (id, n) | None => quit n end
      else go (id, n).

Definition rx_filter (n : net) (id : nat) (x : mbuf) (rssi rstamp : Z) : rr (nat * net) :=
  let wh := mtod x in
  if has_flag (ic_flags (n_ic n)) IEEE80211_F_SCAN then go (id, n)
  else
    let! (id, n) :=
      if ic_opmode n =? IEEE80211_M_STA then let! id := filter_sta n id x in go (id, n)
      else if (ic_opmode n =? IEEE80211_M_IBSS) || (ic_opmode n =? IEEE80211_M_AHDEMO) || (ic_opmode n =? IEEE80211_M_HOSTAP)
      then filter_bss n id x
      else quit n in
    let n := upd n id (fun ni => set_rstamp (set_rssi ni rssi) rstamp) in
    if (Z.land (fc_type wh) 0x4 =? 0) && (negb (ic_opmode n =? IEEE80211_M_STA) || negb (IEEE80211_IS_MULTICAST (i_addr1 wh)))
    then let! n := rx_sequence n id x in go (id, n)
    else go (id, n).

(** ** Power save *)

Definition or_flags (m : list mbuf) (f : Z) : list mbuf :=
  match m with x :: r => set_flags x (Z.lor (m_flags x) f) :: r | [] => [] end.

(** Every saved frame goes out, all but the last marked. *)
Definition flush_savedq (n : net) (q : list (Z * list mbuf)) : net :=
  fold_left (fun n '(i, m) => tell n (NE_snd (if (i =? 0)%nat then m else or_flags m M_MORE_DATA)))
    (zip (reverse (seq 0 (length q))) (map snd q)) n.
Definition ieee80211_node_pwrsave (n : net) (id : nat) (enable : bool) : res net :=
  let* ni := node_at n id in
  let ps := has_flag (ni_flags ni) IEEE80211_NODE_PWR_MGT in
  if enable then
    let n := if ps then n else set_ps_sta n (u16 (ic_ps_sta n + 1)) in
    Ok (upd n id (fun ni => set_nflags ni (Z.lor (ni_flags ni) IEEE80211_NODE_PWR_MGT)))
  else
    let n := if ps then set_ps_sta n (u16 (ic_ps_sta n - 1)) else n in
    let n := upd n id (fun ni => set_nflags ni (Z.land (ni_flags ni) (Z.lnot IEEE80211_NODE_PWR_MGT))) in
    ieee80211_set_tim (upd (flush_savedq n (ni_savedq ni)) id (fun ni => set_savedq ni [])) id false.

Section Input.
Context (dev : key_ops) (queued : net -> nat -> bool) (acl : list Z -> bool) (shl32 : Z).
Context (eapol_rx data_rx : bool).

Definition ieee80211_recv_pspoll (n : net) (id : nat) (m0 : list Z) : res net :=
  let* ni := node_at n id in
  if ni_associd ni =? 0 then
    IEEE80211_SEND_MGMT queued (bump n is_ps_unassoc) id IEEE80211_FC0_SUBTYPE_DEAUTH IEEE80211_REASON_NOT_ASSOCED
  else if negb (le16dec (sub_list 2 2 m0) =? ni_associd ni) then
    IEEE80211_SEND_MGMT queued (bump n is_ps_badaid) id IEEE80211_FC0_SUBTYPE_DEAUTH IEEE80211_REASON_NOT_ASSOCED
  else
    match ni_savedq ni with
    | [] =>
        let* n := ieee80211_ref_node n id in
        let* n := ieee80211_send_nulldata queued n id in
        ieee80211_set_tim (bump n is_ps_qempty) id false
    | (_, m) :: q =>
        let n := upd n id (fun ni => set_savedq ni q) in
        let* (m, n) := match q with
                       | _ :: _ => Ok (or_flags m M_MORE_DATA, n)
                       | [] => let* n := ieee80211_set_tim n id false in Ok (m, n)
                       end in
        Ok (tell n (NE_snd (or_flags m M_PWR_SAV)))
    end.

Definition ieee80211_input_control (n : net) (id : nat) (x : mbuf) : res net :=
  let n := bump n is_rx_ctl in
  if (ic_opmode n =? IEEE80211_M_HOSTAP) && IS_PSPOLL (mtod x) then ieee80211_recv_pspoll n id (mtod x) else Ok n.

(** ** Data frames *)

(** [struct ieee80211_qosframe_addr4 wh] holds a copy of the header. *)
Definition decap_addrs (wh : list Z) : list Z :=
  if fc_dir wh =? IEEE80211_FC1_DIR_NODS then i_addr1 wh ++ i_addr2 wh
  else if fc_dir wh =? IEEE80211_FC1_DIR_TODS then i_addr3 wh ++ i_addr2 wh
  else if fc_dir wh =? IEEE80211_FC1_DIR_FROMDS then i_addr1 wh ++ i_addr3 wh
  else i_addr3 wh ++ i_addr4 wh.
Definition is_snap (llc : list Z) : bool :=
  (byte_at llc 0 =? LLC_SNAP_LSAP) && (byte_at llc 1 =? LLC_SNAP_LSAP) && (byte_at llc 2 =? LLC_UI) &&
  (byte_at llc 3 =? 0) && (byte_at llc 4 =? 0) && (byte_at llc 5 =? 0).
Definition ieee80211_decap (h : heap) (m : list mbuf) (hdrlen : nat) : res (list mbuf * heap) :=
  match m with
  | [] => Fault NullDeref
  | x :: _ =>
      let '(m, h) := if (m_len x <? hdrlen + sizeof_llc)%nat then m_pullup h m (Z.of_nat (hdrlen + sizeof_llc)) else (m, h) in
      match m with
      | [] => Ok ([], h)
      | x :: _ =>
          if (sizeof_qosframe_addr4 <? hdrlen)%nat then Fault BadAccess
          else
            let wh := take hdrlen (mtod x) in
            let snap := is_snap (drop hdrlen (mtod x)) in
            let m := if snap then m_adj m (Z.of_nat (hdrlen + sizeof_llc) - Z.of_nat sizeof_eh)
                     else m_adj m (Z.of_nat hdrlen - Z.of_nat sizeof_eh) in
            match m with
            | [] => Fault NullDeref
            | x :: r =>
                let x := mstore x 0 (decap_addrs wh) in
                let len := u16 (ph_len (m_hdr x) - Z.of_nat sizeof_eh) in
                Ok ((if snap then x else mstore x 12 [Z.shiftr len 8; u8 len]) :: r, h)
            end
      end
  end.

(** [vlan_set_tag]. *)
Definition vlan_set_tag (m : list mbuf) (tag : Z) : list mbuf :=
  match m with
  | x :: r => let h := m_hdr x in
      set_hdr (set_flags x (Z.lor (m_flags x) M_PROTO1)) (mkPkthdr (ph_len h) (ph_rcvif h) tag (ph_csum_flags h) (ph_userdata h)) :: r
  | [] => []
  end.
(** Of the port: the callbacks see the first mbuf. *)
Definition if_percpuq_enqueue (n : net) (m : list mbuf) : res net :=
  match m with
  | [] => Ok n
  | x :: _ =>
      let eh := mtod x in
      if (ether_type eh =? ETHERTYPE_PAE) && eapol_rx then
        if (m_len x <? sizeof_eh)%nat then Fault BadAccess
        else Ok (release (tell n (NE_eapol (ether_shost eh) (sub_list sizeof_eh (m_len x - sizeof_eh) eh))) m)
      else Ok (release (if data_rx then tell n (NE_data (mdata x)) else n) m)
  end.

(** What the bridge of an access point sends out, and what stays for this host. *)
Definition bridge (n : net) (m : list mbuf) (eh : list Z) : res (list mbuf * list mbuf * net) :=
  if IEEE80211_IS_MULTICAST (ether_dhost eh) then
    let '(m1, h) := m_copypacket (n_heap n) m in Ok (or_flags m1 M_MCAST, m, set_heap n h)
  else
    let* (r, n) := ieee80211_find_node n T_sta (ether_dhost eh) in
    match r with
    | None => Ok ([], m, n)
    | Some sta =>
        let* ni := node_at n sta in
        let auth := has_flag (ni_flags ni) IEEE80211_NODE_AUTH in
        let n' := if auth then n else bump n is_rx_unauth in
        let* n' := ieee80211_free_node dev n' sta in
        Ok (if auth && negb (is_bss n sta) then (m, [], n') else ([], m, n'))
    end.
Definition ieee80211_deliver_data (n : net) (id : nat) (m : list mbuf) : res net :=
  match m with
  | [] => Fault NullDeref
  | x :: _ =>
      let* (m, n) :=
        if (ic_opmode n =? IEEE80211_M_HOSTAP) && negb (has_flag (ic_flags (n_ic n)) IEEE80211_F_NOBRIDGE) then
          let* (m1, m, n) := bridge n m (mtod x) in
          Ok (m, match m1 with [] => n | _ :: _ => tell n (NE_snd m1) end)
        else Ok (m, n) in
      match m with
      | [] => Ok n
      | _ :: _ =>
          let* ni := node_at n id in
          if_percpuq_enqueue n (if ni_vlan ni =? 0 then m else vlan_set_tag m (ni_vlan ni))
      end
  end.

(** What each mode accepts; [inl] gives the chain back to be freed. *)
Definition data_source (n : net) (id : nat) (wh : list Z) : rr net :=
  let dir := fc_dir wh in
  if ic_opmode n =? IEEE80211_M_STA then
    if negb (dir =? IEEE80211_FC1_DIR_FROMDS) then quit (bump n is_rx_wrongdir)
    else if has_flag (if_flags n) IFF_SIMPLEX && IEEE80211_IS_MULTICAST (i_addr1 wh) && IEEE80211_ADDR_EQ (i_addr3 wh) (ic_myaddr n)
    then quit (bump n is_rx_mcastecho) else go n
  else if (ic_opmode n =? IEEE80211_M_IBSS) || (ic_opmode n =? IEEE80211_M_AHDEMO) then
    if negb (dir =? IEEE80211_FC1_DIR_NODS) then quit (bump n is_rx_wrongdir) else go n
  else if ic_opmode n =? IEEE80211_M_HOSTAP then
    if negb (dir =? IEEE80211_FC1_DIR_TODS) then quit (bump n is_rx_wrongdir)
    else if is_bss n id then
      let* n := ieee80211_send_error dev queued n id (i_addr2 wh) IEEE80211_FC0_SUBTYPE_DEAUTH IEEE80211_REASON_NOT_AUTHED in
      quit (bump n is_rx_notassoc)
    else
      let* ni := node_at n id in
      if ni_associd ni =? 0 then
        let* n := IEEE80211_SEND_MGMT queued n id IEEE80211_FC0_SUBTYPE_DISASSOC IEEE80211_REASON_NOT_ASSOCED in
        quit (bump n is_rx_notassoc)
      else
        let pwr := has_flag (i_fc1 wh) IEEE80211_FC1_PWR_MGT in
        if eqb pwr (has_flag (ni_flags ni) IEEE80211_NODE_PWR_MGT) then go n
        else let* n := ieee80211_node_pwrsave n id pwr in go n
  else quit n.

(** Decryption and removal of the WEP bit: the key used, if any. *)
Definition rx_decap (n : net) (id : nat) (m : list mbuf) (hdrspace : nat) (junk : Z) : res (list mbuf * net * option kloc) :=
  let* ni := node_at n id in
  let* (key, ic, ucast, m, h) := ieee80211_crypto_decap (n_ic n) (ni_ucastkey ni) (n_heap n) junk m hdrspace in
  let n := put_crypto n id ic ucast h in
  match key with
  | None => Ok (m, n, None)
  | Some l =>
      match m with
      | [] => Fault NullDeref
      | x :: r => Ok (mstore x 1 [Z.land (i_fc1 (mtod x)) (Z.lnot IEEE80211_FC1_WEP)] :: r, n, Some l)
      end
  end.

Definition rx_defrag (ticks : Z) (n : net) (id : nat) (m : list mbuf) (hdrspace : nat) : res (list mbuf * net) :=
  let* ni := node_at n id in
  let fn := mkFrag (ni_rxfrag ni) (bool_decide (is_Some (ni_table ni))) (ni_rxfragstamp ni) 0 in
  let* (m, fn, h) := ieee80211_defrag ticks fn (n_heap n) m hdrspace in
  Ok (m, upd (set_heap n h) id (fun ni => set_rxfragstamp (set_rxfrag ni (Defrag.ni_rxfrag fn)) (Defrag.ni_rxfragstamp fn))).
Definition rx_demic (n : net) (id : nat) (l : kloc) (m : list mbuf) : res (bool * list mbuf * net) :=
  let* ni := node_at n id in
  let* k := get_key (n_ic n) (ni_ucastkey ni) l in
  let* (ok, k, m, ic) := ieee80211_crypto_demic (n_ic n) k m false in
  let '(ic, ucast) := put_key ic (ni_ucastkey ni) l k in
  Ok (ok, m, put_crypto n id ic ucast (n_heap n)).

(** A frame that is dropped: the caller frees what is left of it. *)
Definition drop_frame {A} (n : net) (m : list mbuf) : rr A := quit (release n m).

(** The frame after decryption, reassembly and the MIC check. *)
Definition data_open (ticks : Z) (n : net) (id : nat) (m : list mbuf) (wh : list Z) (hdrspace : nat) (junk : Z)
    : rr (list mbuf * option kloc * net) :=
  let! (m, key, n) :=
    if has_flag (i_fc1 wh) IEEE80211_FC1_WEP then
      if negb (has_flag (ic_flags (n_ic n)) IEEE80211_F_PRIVACY) then drop_frame (bump n is_rx_noprivacy) m
      else
        let* (m, n, key) := rx_decap n id m hdrspace junk in
        match key with None => drop_frame n m | Some l => go (m, Some l, n) end
    else go (m, None, n) in
  let! (m, n) :=
    match m with
    | [] => Fault NullDeref
    | x :: _ =>
        if IEEE80211_IS_MULTICAST (i_addr1 (mtod x)) then go (m, n)
        else
          let* (m, n) := rx_defrag ticks n id m hdrspace in
          match m with [] => quit n | _ :: _ => go (m, n) end
    end in
  match key with
  | None => go (m, key, n)
  | Some l => let* (ok, m, n) := rx_demic n id l m in if ok then go (m, key, n) else drop_frame n m
  end.
(** Who may send what: before authorization only PAE frames, afterwards only
    encrypted ones where the configuration says so. *)
Definition data_port (n : net) (id : nat) (m : list mbuf) (eh : list Z) (encrypted : bool) : rr unit :=
  let* ni := node_at n id in
  let pae := ether_type eh =? ETHERTYPE_PAE in
  if negb (has_flag (ni_flags ni) IEEE80211_NODE_AUTH) then
    if pae then go tt else drop_frame (bump n is_rx_unauth) m
  else if has_flag (ic_flags (n_ic n)) IEEE80211_F_DROPUNENC && negb encrypted && negb pae
  then drop_frame (bump n is_rx_unencrypted) m else go tt.
Definition ieee80211_input_data (ticks : Z) (n : net) (m : list mbuf) (id : nat) (junk : Z) : res net :=
  match m with
  | [] => Fault NullDeref
  | x :: _ =>
      let subtype := subtype_of (mtod x) in
      let* hdrspace := ieee80211_hdrspace (n_ic n) (mtod x) in
      let '(m, h) := if (m_len x <? hdrspace)%nat then m_pullup (n_heap n) m (Z.of_nat hdrspace) else (m, n_heap n) in
      let n := set_heap n h in
      match m with
      | [] => Ok (bump n is_rx_tooshort)
      | x :: _ =>
          let wh := mtod x in
          let* o := data_source n id wh in
          match o with
          | inl n => Ok (release n m)
          | inr n =>
              let? (m, key, n) := data_open ticks n id m wh hdrspace junk in
              let* (m, h) := ieee80211_decap (n_heap n) m hdrspace in
              let n := set_heap n h in
              match m with
              | [] => Ok (if subtype =? IEEE80211_FC0_SUBTYPE_NODATA then n else bump n is_rx_decap)
              | x :: _ =>
                  let? _ := data_port n id m (mtod x) (bool_decide (is_Some key)) in
                  ieee80211_deliver_data n id m
              end
          end
      end
  end.

(** ** Management frames *)

(** The checks of an incoming management frame, and its decryption. *)
Definition mgmt_open (n : net) (m : list mbuf) (id : nat) (junk : Z) : rr (list mbuf * net) :=
  match m with
  | [] => Fault NullDeref
  | x :: _ =>
      let wh := mtod x in
      if negb (fc_dir wh =? IEEE80211_FC1_DIR_NODS) then drop_frame (bump n is_rx_wrongdir) m
      else if (m_len x <? sizeof_frame)%nat then drop_frame (bump n is_rx_tooshort) m
      else if has_flag (i_fc1 wh) IEEE80211_FC1_WEP then
        if negb (subtype_of wh =? IEEE80211_FC0_SUBTYPE_AUTH) then drop_frame (bump n is_rx_mgtdiscard) m
        else if negb (has_flag (ic_flags (n_ic n)) IEEE80211_F_PRIVACY) then drop_frame (bump n is_rx_noprivacy) m
        else
          let* hdrspace := ieee80211_hdrspace (n_ic n) wh in
          let* (m, n, key) := rx_decap n id m hdrspace junk in
          match key with None => drop_frame n m | Some _ => go (m, n) end
      else go (m, n)
  end.
Definition ieee80211_input_management (n : net) (m : list mbuf) (id : nat) (rssi rstamp : Z) (challenge : list Z) (junk : Z) : res net :=
  let? (m, n) := mgmt_open n m id junk in
  match m with
  | [] => Fault NullDeref
  | x :: _ =>
      let* n := ieee80211_recv_mgmt dev queued acl shl32 n (mdata x) id (subtype_of (mtod x)) rssi rstamp challenge in
      Ok (release n m)
  end.

(** ** All frames *)

(** The frame check sequence is cut off, the node was heard from. *)
Definition input_begin (n : net) (m : list mbuf) (id : nat) : res (list mbuf * net) :=
  let* _ := node_at n id in
  let n := upd n id (fun ni => set_inact ni (ni_inact_reload ni)) in
  match m with
  | [] => Fault NullDeref
  | x :: _ =>
      if has_flag (m_flags x) M_HASFCS then
        match m_adj m (- IEEE80211_CRC_LEN) with
        | y :: r => Ok (set_flags y (Z.land (m_flags y) (Z.lnot M_HASFCS)) :: r, n)
        | [] => Fault NullDeref
        end
      else Ok (m, n)
  end.
Definition input_dispatch (ticks : Z) (n : net) (m : list mbuf) (id : nat) (type rssi rstamp : Z) (challenge : list Z) (junk : Z) : res net :=
  match m with
  | [] => Fault NullDeref
  | x :: _ =>
      if type =? IEEE80211_FC0_TYPE_DATA then ieee80211_input_data ticks n m id junk
      else if type =? IEEE80211_FC0_TYPE_MGT then ieee80211_input_management n m id rssi rstamp challenge junk
      else if type =? IEEE80211_FC0_TYPE_CTL then let* n := ieee80211_input_control n id x in Ok (release n m)
      else Ok (release n m)
  end.
Definition ieee80211_input (ticks : Z) (n : net) (m : list mbuf) (id : nat) (rssi rstamp : Z) (challenge : list Z) (junk : Z) : res net :=
  let* (m, n) := input_begin n m id in
  match m with
  | [] => Fault NullDeref
  | x :: _ =>
      let wh := mtod x in
      if ic_opmode n =? IEEE80211_M_MONITOR then Ok (release n m)
      else if (m_len x <? sizeof_frame_min)%nat then Ok (release (bump n is_rx_tooshort) m)
      else if negb (Z.land (i_fc0 wh) IEEE80211_FC0_VERSION_MASK =? IEEE80211_FC0_VERSION_0)
      then Ok (release (bump n is_rx_badversion) m)
      else
        let* o := rx_filter n id x rssi rstamp in
        match o with
        | inl n => Ok (release n m)
        | inr (id, n) => input_dispatch ticks n m id (fc_type wh) rssi rstamp challenge junk
        end
  end.

(** What a driver does with a frame: the node of the sender is referenced for
    the time of the call. *)
Definition rx_frame (ticks : Z) (n : net) (m : list mbuf) (rssi rstamp : Z) (challenge : list Z) (junk : Z) : res net :=
  match m with
  | [] => Fault NullDeref
  | x :: _ =>
      let* (id, n) := ieee80211_find_rxnode n (mtod x) in
      let* n := ieee80211_input ticks n m id rssi rstamp challenge junk in
      ieee80211_free_node dev n id
  end.
End Input.
