(* ===== verification/Output.v ===== *)
(** * Frame output: data frames of net80211/ieee80211_output.c

    An Ethernet packet becomes an 802.11 data frame: a key is chosen, room is
    made, the Ethernet header is replaced by an LLC header and an 802.11
    header, a MIC is added and the frame is cut into fragments.  The packet
    list that the code links through [m_nextpkt] is a list of chains here. *)

From stdpp Require Import gmap.
From S2P Require Import Prelude Buffers Endian Mbuf Ieee80211 Crypto InfoElem Wme Node NodeTable Rates Mgmt Input.

(** ** Constants *)

Definition M_LINK1 : Z := 0x000020.
Definition M_LINK2 : Z := 0x000040.
Definition M_LINK4 : Z := 0x000100.
Definition M_LINK5 : Z := 0x000200.
Definition M_LINK6 : Z := 0x000400.
Definition M_FRAG : Z := M_LINK4.
Definition M_FIRSTFRAG : Z := M_LINK5.
Definition M_FF : Z := M_LINK6.
Definition MHLEN : Z := 128.
Definition IEEE80211_FC1_MORE_DATA : Z := 0x20.
Definition IEEE80211_SEQ_FRAG_SHIFT : Z := 0.
Definition IEEE80211_QOS_ACKPOLICY_S : Z := 5.

Definition WME_AC_TO_TID (ac : Z) : Z :=
  if ac =? WME_AC_VO then 6 else if ac =? WME_AC_VI then 5 else if ac =? WME_AC_BK then 1 else 0.

(** The access category travels in the flags of the mbuf. *)
Definition M_WME_AC_MASK : Z := Z.lor M_LINK1 M_LINK2.
Definition M_WME_AC_SHIFT : Z := 13.
Definition M_WME_SETAC (x : mbuf) (ac : Z) : mbuf :=
  set_flags x (Z.lor (Z.land (m_flags x) (Z.lnot M_WME_AC_MASK)) (Z.shiftl ac M_WME_AC_SHIFT)).
Definition M_WME_GETAC (x : mbuf) : Z := Z.land (Z.shiftr (m_flags x) M_WME_AC_SHIFT) 0x3.

(** ** Classification *)

Definition vlan_has_tag (x : mbuf) : bool := has_flag (m_flags x) M_PROTO1.
Definition vlan_get_tag (x : mbuf) : Z := if vlan_has_tag x then u16 (ph_csum_data (m_hdr x)) else 0.
Definition EVL_VLANOFTAG (tag : Z) : Z := Z.land tag 0xfff.
Definition EVL_PRIOFTAG (tag : Z) : Z := Z.land (Z.shiftr tag 13) 0x7.

Definition vlan_ac (vlan : Z) : Z :=
  let p := EVL_PRIOFTAG vlan in
  if (p =? 1) || (p =? 2) then WME_AC_BK else if (p =? 0) || (p =? 3) then WME_AC_BE
  else if (p =? 4) || (p =? 5) then WME_AC_VI else WME_AC_VO.
Definition acmap (ac : Z) : Z := if ac =? WME_AC_VI then WME_AC_BE else if ac =? WME_AC_VO then WME_AC_VI else WME_AC_BK.
(** [while (ac != WME_AC_BK && ... wmep_acm)]; from any class the map leads to
    background traffic in three steps. *)
Fixpoint acm_loop (fuel : nat) (c : chanAccParams) (ac : Z) : res Z :=
  match fuel with
  | O => Fault Panic
  | S fuel =>
      if ac =? WME_AC_BK then Ok ac
      else match cap_wmeParams c !! Z.to_nat ac with
           | None => Fault BadAccess
           | Some p => if wmep_acm p =? 0 then Ok ac else acm_loop fuel c (acmap ac)
           end
  end.
(** The answer tells whether the packet must be dropped; IP headers are not
    looked at in this port. *)
Definition ieee80211_classify (n : net) (x : mbuf) (id : nat) : res (bool * mbuf) :=
  let* ni := node_at n id in
  if negb (has_flag (ni_flags ni) IEEE80211_NODE_QOS) then Ok (false, M_WME_SETAC x WME_AC_BE)
  else if negb (ni_vlan ni =? 0) && (negb (vlan_has_tag x) || negb (EVL_VLANOFTAG (vlan_get_tag x) =? EVL_VLANOFTAG (ni_vlan ni)))
  then Ok (true, x)
  else
    let v_wme_ac := if ni_vlan ni =? 0 then 0 else vlan_ac (ni_vlan ni) in
    let ac := if WME_AC_BE <? v_wme_ac then v_wme_ac else WME_AC_BE in
    let* ac := if ic_opmode n =? IEEE80211_M_STA then acm_loop 4 (wme_wmeBssChanParams (ic_wme n)) ac else Ok ac in
    Ok (false, M_WME_SETAC x ac).

(** ** Keys *)

Definition IEEE80211_KEY_UNDEFINED (k : ieee80211_key) : bool := bool_decide (wk_cipher k = Some cipher_none).

Definition ieee80211_crypto_getmcastkey (ic : ieee80211com) : res (option kloc) :=
  if ic_def_txkey ic =? IEEE80211_KEYIX_NONE then Ok None
  else
    let l := KNw (Z.to_nat (ic_def_txkey ic)) in
    let* k := get_key ic zero_key l in
    Ok (if IEEE80211_KEY_UNDEFINED k then None else Some l).
Definition ieee80211_crypto_getucastkey (ic : ieee80211com) (ucast : ieee80211_key) : res (option kloc) :=
  if IEEE80211_KEY_UNDEFINED ucast then ieee80211_crypto_getmcastkey ic else Ok (Some KUcast).

(** ** Room for the headers *)

(** [wlen] tells whether part of the chain is overwritten in place, [swcrypt]
    whether all of it will be. *)
Definition adjust_writable (wlen swcrypt : bool) (ic : ieee80211com) (h : heap) (m : list mbuf) : list mbuf * heap * ieee80211com :=
  if wlen || swcrypt then match m_makewritable m with (None, m) => (m, h, ic) | (Some _, m) => ([], m_freem h m, ic) end
  else (m, h, ic).
(** The header size and the size of the cipher's header are the room needed;
    an empty chain is NULL. *)
Definition ieee80211_mbuf_adjust (ic : ieee80211com) (h : heap) (hdrsize ciphdr : nat) (swcrypt : bool) (m : list mbuf)
    : res (list mbuf * heap * ieee80211com) :=
  match m with
  | [] => Fault NullDeref
  | x :: rest =>
      let needed_space := (hdrsize + ciphdr)%nat in
      if M_LEADINGSPACE x <? Z.of_nat needed_space - (Z.of_nat sizeof_eh - Z.of_nat sizeof_llc) then
        match m_get_impl h (m_type x) true with
        | (None, h) => Ok ([], m_freem h m, stat_inc ic is_tx_nobuf)
        | (Some y, h) =>
            if MHLEN <? Z.of_nat needed_space then Fault Panic
            else
              let '(y, x) := m_move_pkthdr y x in
              let y := set_window y (m_data y + needed_space) sizeof_eh in
              let x := set_window x (m_data x + sizeof_eh) (m_len x - sizeof_eh) in
              Ok (adjust_writable false swcrypt ic h (y :: x :: rest))
        end
      else Ok (adjust_writable true swcrypt ic h m)
  end.

(** ** Fragments *)

Definition le16enc (v : Z) : list Z := [u8 v; u8 (Z.shiftr v 8)].
Definition stat_add (ic : ieee80211com) (s : stat) (v : Z) : ieee80211com :=
  mkCom (ic_ifp ic) (ic_flags ic) (ic_caps ic) (fun t => if decide (t = s) then u32 (ic_stats ic t + v) else ic_stats ic t)
        (ic_nw_keys ic) (ic_def_txkey ic) (ic_max_keyix ic) (ic_log ic).

(** The fragment with number [fragno]: the header [wh] and [payload] bytes of
    [m0] from [off]. *)
Definition form_fragment (m : mbuf) (m0 : list mbuf) (wh : list Z) (hdrsize : nat) (fragno off payload fragsize ciphdrsize : Z) : list mbuf :=
  match m_align [m] (fragsize - ciphdrsize) with
  | m :: _ =>
      let m := mstore m 0 (take hdrsize wh) in
      let m := mstore m 22 (le16enc (Z.lor (le16dec (sub_list 22 2 (mtod m)))
                 (Z.shiftl (Z.land fragno IEEE80211_SEQ_FRAG_MASK) IEEE80211_SEQ_FRAG_SHIFT))) in
      let m := mstore m hdrsize (m_copydata m0 (Z.to_nat off) (Z.to_nat payload)) in
      let m := set_window m (m_data m) (Z.to_nat (u32 (Z.of_nat hdrsize + payload))) in
      let m := set_ph_len m (u32 (Z.of_nat hdrsize + payload)) in
      [set_flags m (Z.lor (m_flags m) M_FRAG)]
  | [] => []
  end.
Definition last_fragment (m : list mbuf) : list mbuf :=
  match m with x :: r => mstore x 1 [Z.land (byte_at (mtod x) 1) (Z.lnot IEEE80211_FC1_MORE_FRAG)] :: r | [] => [] end.

(** The [do] loop; each round takes one mbuf, so that one round more than
    there is memory for is enough.  [None]: out of memory, and the fragments
    were freed. *)
Fixpoint frag_loop (fuel : nat) (h : heap) (m0 : list mbuf) (wh : list Z) (hdrsize : nat) (ciphdrsize mtu : Z) (fragno off remainder : Z)
    (done : list (list mbuf)) : res (option (list (list mbuf) * Z) * heap) :=
  match fuel with
  | O => Fault Panic
  | S fuel =>
      let totalhdrsize := u32 (Z.of_nat hdrsize + ciphdrsize) in
      let fragsize := Z.min (u32 (totalhdrsize + remainder)) mtu in
      if Z.of_nat MCLBYTES <=? fragsize then Fault Panic
      else
        match m_get_impl h MT_DATA true with
        | (None, h) => Ok (None, fold_left m_freem done h)
        | (Some m, h) =>
            let payload := u32 (fragsize - totalhdrsize) in
            let f := form_fragment m m0 wh hdrsize fragno off (if payload <? 2 ^ 31 then payload else 0) fragsize ciphdrsize in
            let remainder := u32 (remainder - payload) in
            if remainder =? 0 then Ok (Some (done ++ [last_fragment f], fragno + 1), h)
            else frag_loop fuel h m0 wh hdrsize ciphdrsize mtu (u32 (fragno + 1)) (u32 (off + payload)) remainder (done ++ [f])
        end
  end.

(** The packets to send, [None] for failure, and the first one as it is then. *)
Definition ieee80211_fragment (ic : ieee80211com) (h : heap) (m0 : list mbuf) (hdrsize : nat) (ciphdrsize mtu : Z)
    : res (option (list (list mbuf)) * list mbuf * ieee80211com * heap) :=
  match m0 with
  | [] => Fault NullDeref
  | x :: rest =>
      let len := ph_len (m_hdr x) in
      if len <=? mtu then Fault Panic
      else
        let m0 := mstore x 1 [Z.lor (byte_at (mtod x) 1) IEEE80211_FC1_MORE_FRAG] :: rest in
        let wh := match m0 with x :: _ => mtod x | [] => [] end in
        let off := u32 (mtu - ciphdrsize) in
        let* (r, h) := frag_loop (S (length (h_supply h))) h m0 wh hdrsize ciphdrsize mtu 1 off (u32 (len - off)) [] in
        match r with
        | None => Ok (None, m0, ic, h)
        | Some (frags, fragno) =>
            match m_adj m0 (- (len - off)) with
            | [] => Fault NullDeref
            | x :: rest =>
                let m0 := set_flags x (Z.lor (m_flags x) (Z.lor M_FIRSTFRAG M_FRAG)) :: rest in
                Ok (Some (m0 :: frags), m0, stat_add (stat_inc ic is_tx_fragframes) is_tx_frags (fragno - 1), h)
            end
        end
  end.

(** ** Encapsulation *)

(** The transmit key, and the packet counted that has to do without one. *)
Definition encap_key (n : net) (ucast : ieee80211_key) (eh : list Z) : res (option kloc * net) :=
  if has_flag (ic_flags (n_ic n)) IEEE80211_F_PRIVACY then
    let* key := if (ic_opmode n =? IEEE80211_M_STA) || negb (IEEE80211_IS_MULTICAST (ether_dhost eh))
                then ieee80211_crypto_getucastkey (n_ic n) ucast else ieee80211_crypto_getmcastkey (n_ic n) in
    Ok (key, match key with
             | None => if ether_type eh =? ETHERTYPE_PAE then n else bump n is_tx_nodefkey
             | Some _ => n
             end)
  else Ok (None, n).

(** Direction and addresses; [None] in monitor mode. *)
Definition encap_addrs (n : net) (ni : ieee80211_node) (eh : list Z) : res (option (Z * list Z)) :=
  if ic_opmode n =? IEEE80211_M_STA then
    Ok (Some (IEEE80211_FC1_DIR_TODS, ni_bssid ni ++ ether_shost eh ++ ether_dhost eh))
  else if (ic_opmode n =? IEEE80211_M_IBSS) || (ic_opmode n =? IEEE80211_M_AHDEMO) then
    let* bss := bss_node n in Ok (Some (IEEE80211_FC1_DIR_NODS, ether_dhost eh ++ ether_shost eh ++ ni_bssid bss))
  else if ic_opmode n =? IEEE80211_M_HOSTAP then
    Ok (Some (IEEE80211_FC1_DIR_FROMDS, ether_dhost eh ++ ni_bssid ni ++ ether_shost eh))
  else Ok None.

(** The QoS control field and the sequence counter to use. *)
Definition encap_qos (n : net) (x : mbuf) : res (list Z * nat) :=
  let ac := M_WME_GETAC x in
  let tid := WME_AC_TO_TID ac in
  match cap_wmeParams (wme_wmeChanParams (ic_wme n)) !! Z.to_nat ac with
  | None => Fault BadAccess
  | Some p =>
      let q := Z.land tid IEEE80211_QOS_TID in
      Ok ([if wmep_noackPolicy p =? 0 then q else Z.lor q (Z.shiftl 1 IEEE80211_QOS_ACKPOLICY_S); 0], Z.to_nat tid)
  end.
Definition next_seq (ni : ieee80211_node) (tid : nat) : res (Z * ieee80211_node) :=
  match ni_txseqs ni !! tid with
  | None => Fault BadAccess
  | Some s => Ok (s, set_txseqs ni (<[tid := u16 (s + 1)]> (ni_txseqs ni)))
  end.

(** The 802.11 header of a packet, stored over what is in front. *)
Definition encap_header (n : net) (id : nat) (ni : ieee80211_node) (eh : list Z) (addqos : bool) (x : mbuf) : res (option mbuf * net) :=
  let* o := encap_addrs n ni eh in
  match o with
  | None => Ok (None, n)
  | Some (dir, addrs) =>
      let fc1 := if has_flag (m_flags x) M_MORE_DATA then Z.lor dir IEEE80211_FC1_MORE_DATA else dir in
      let* (qos, tid) := if addqos then encap_qos n x else Ok ([], 0%nat) in
      let fc0 := Z.lor IEEE80211_FC0_VERSION_0 IEEE80211_FC0_TYPE_DATA in
      let fc0 := if addqos then Z.lor fc0 IEEE80211_FC0_SUBTYPE_QOS else fc0 in
      let* (s, ni) := next_seq ni tid in
      let hdr := [fc0; fc1; 0; 0] ++ addrs ++ le16enc (u16 (Z.shiftl s IEEE80211_SEQ_SEQ_SHIFT)) ++ qos in
      Ok (Some (mstore x 0 hdr), upd n id (fun _ => ni))
  end.

(** Whether a packet with a key is encrypted: port access entity frames are
    only when there is a pairwise key. *)
Definition encap_crypts (n : net) (key ucast : ieee80211_key) (eh : list Z) : bool :=
  negb (ether_type eh =? ETHERTYPE_PAE) ||
  (has_flag (ic_flags (n_ic n)) IEEE80211_F_WPA &&
   (if ic_opmode n =? IEEE80211_M_STA then negb (IEEE80211_KEY_UNDEFINED key) else negb (IEEE80211_KEY_UNDEFINED ucast))).

Definition llc_snap (eh : list Z) : list Z := [LLC_SNAP_LSAP; LLC_SNAP_LSAP; LLC_UI; 0; 0; 0] ++ sub_list 12 2 eh.

(** The MIC, over the frame with its protected bit. *)
Definition encap_mic (n : net) (key : option ieee80211_key) (ucast : ieee80211_key) (eh : list Z) (m : list mbuf) (txfrag : bool)
    : res (bool * list mbuf * net) :=
  match key, m with
  | Some k, x :: rest =>
      if encap_crypts n k ucast eh then
        let x := mstore x 1 [Z.lor (byte_at (mtod x) 1) IEEE80211_FC1_WEP] in
        let* (ok, m, ic, h) := ieee80211_crypto_enmic (n_ic n) (n_heap n) k (x :: rest) txfrag in
        let n := set_heap (set_ic n ic) h in
        Ok (if ok : bool then (true, m, n) else (false, m, bump n is_crypto_enmicfail))
      else Ok (true, m, n)
  | _, _ => Ok (true, m, n)
  end.

Definition encap_hdrsize (ic : ieee80211com) (addqos : bool) : nat :=
  let hdrsize := if addqos then sizeof_qosframe else sizeof_frame in
  if has_flag (ic_flags ic) IEEE80211_F_DATAPAD then roundup4 hdrsize else hdrsize.

(** The packets to hand to the driver, none on failure. *)
Definition ieee80211_encap (n : net) (m : list mbuf) (id : nat) : res (list (list mbuf) * net) :=
  match m with
  | [] => Fault NullDeref
  | x :: _ =>
      if (m_len x <? sizeof_eh)%nat then Fault Panic
      else
        let eh := take sizeof_eh (mtod x) in
        let* ni := node_at n id in
        let* (loc, n) := encap_key n (ni_ucastkey ni) eh in
        let* key := match loc with None => Ok None | Some l => let* k := get_key (n_ic n) (ni_ucastkey ni) l in Ok (Some k) end in
        let* ciphdr := match key with None => Ok 0%nat | Some k => let* c := key_cipher k in Ok (ic_header c) end in
        let addqos := has_flag (ni_flags ni) IEEE80211_NODE_QOS && negb (ether_type eh =? ETHERTYPE_PAE) in
        let hdrsize := encap_hdrsize (n_ic n) addqos in
        let swcrypt := match key with Some k => has_flag (wk_flags k) IEEE80211_KEY_SWCRYPT | None => false end in
        let* (m, h, ic) := ieee80211_mbuf_adjust (n_ic n) (n_heap n) hdrsize ciphdr swcrypt m in
        let n := set_heap (set_ic n ic) h in
        match m_adj m (Z.of_nat sizeof_eh - Z.of_nat sizeof_llc) with
        | [] => Ok ([], n)
        | x :: rest =>
            let m := mstore x 0 (llc_snap eh) :: rest in
            let '(m, h) := m_prepend (n_heap n) m (Z.of_nat hdrsize) in
            let n := set_heap n h in
            match m with
            | [] => Ok ([], bump n is_tx_nobuf)
            | x :: rest =>
                let* (o, n) := encap_header n id ni eh addqos x in
                match o with
                | None => Ok ([], release n m)
                | Some x =>
                    let txfrag := (ic_fragthreshold n <? ph_len (m_hdr x)) && negb (IEEE80211_IS_MULTICAST (i_addr1 (mtod x))) &&
                                  negb (has_flag (m_flags x) M_FF) in
                    let* (ok, m, n) := encap_mic n key (ni_ucastkey ni) eh (x :: rest) txfrag in
                    if negb ok then Ok ([], release n m)
                    else if txfrag then
                      let* (r, m, ic, h) := ieee80211_fragment (n_ic n) (n_heap n) m hdrsize (Z.of_nat ciphdr) (ic_fragthreshold n) in
                      let n := set_heap (set_ic n ic) h in
                      match r with
                      | None => Ok ([], release n m)
                      | Some ps => Ok (ps, n)
                      end
                    else Ok ([m], n)
                end
            end
        end
  end.
