(* ===== verification/OutputProof.v ===== *)
(** * Data frames from one Ethernet to the other

    What [ieee80211_encap] makes of a packet, and that the receive path gives
    the packet back: in clear, under a cipher, and in fragments. *)

From stdpp Require Import gmap.
From S2P Require Import Prelude Buffers Endian Mbuf MbufProof AesCcmProof AesCcmRfc AesCcmMbuf Ieee80211 FrameProof Crypto CryptoProof CryptoFrame.
From S2P Require Import Defrag InfoElem Wme Node NodeTable Rates Mgmt Input Output.

(** ** Buffers *)

Lemma pkt_ok_head x c y : pkt_ok (x :: c) -> mwf y -> has_pkthdr y = has_pkthdr x -> ph_len (m_hdr y) = ph_len (m_hdr x) ->
  length (mdata y) = length (mdata x) -> pkt_ok (y :: c).
Proof.
  intros [Hc Hs] Hy Hp Hl Hm. inversion_clear Hc. split; [by constructor|]. intros E. rewrite Hp in E. rewrite Hl, (Hs E).
  rewrite !content_cons, !length_app. by rewrite Hm.
Qed.

(** Cutting less than the first mbuf holds. *)
Lemma m_adj_in_head x c k :
  pkt_ok (x :: c) -> has_pkthdr x = true -> (0 < k < m_len x)%nat ->
  exists y, m_adj (x :: c) (Z.of_nat k) = y :: c /\ pkt_ok (y :: c) /\ has_pkthdr y = true /\ m_data y = (m_data x + k)%nat /\
    m_len y = (m_len x - k)%nat /\ m_flags y = m_flags x /\ content (y :: c) = drop k (content (x :: c)).
Proof.
  intros O P K. pose proof (m_adj_spec (x :: c) (Z.of_nat k) (proj1 O)) as (E & W & S).
  assert (Em : m_adj (x :: c) (Z.of_nat k) = sync_pkthdr (set_window x (m_data x + k) (m_len x - k) :: c)).
  { unfold m_adj. rewrite (proj2 (Z.leb_le 0 _)) by lia. rewrite Nat2Z.id. cbn [adj_head].
    rewrite (proj2 (Nat.eqb_neq k 0)), (proj2 (Nat.leb_gt (m_len x) k)) by lia. done. }
  rewrite Em in *. cbn [sync_pkthdr] in *. change (has_pkthdr (set_window _ _ _)) with (has_pkthdr x) in *. rewrite P in *.
  eexists. split; [reflexivity|]. split; [by split|]. do 4 (split; [done|]). rewrite E. unfold adj_spec.
  rewrite (proj2 (Z.leb_le 0 _)) by lia. by rewrite Nat2Z.id.
Qed.

(** Room for the headers: the packet keeps all but the bytes of its Ethernet
    header, which the first mbuf still has place for. *)
Lemma adjust_writable_id wlen sw ic h m : adjust_writable wlen sw ic h m = (m, h, ic).
Proof. by destruct wlen, sw. Qed.
Lemma mbuf_adjust_ok ic h hs ch sw x c :
  pkt_ok (x :: c) -> has_pkthdr x = true -> (sizeof_eh <= m_len x)%nat -> (hs + ch <= 128)%nat ->
  exists m h' ic', ieee80211_mbuf_adjust ic h hs ch sw (x :: c) = Ok (m, h', ic') /\
    match m with
    | [] => exhausted h
    | y :: c' => pkt_ok m /\ has_pkthdr y = true /\ (sizeof_eh <= m_len y)%nat /\ (hs + ch <= m_data y + 6)%nat /\ ic' = ic /\
        drop 14 (content m) = drop 14 (content (x :: c)) /\ length (content m) = length (content (x :: c)) /\
        (h' = h \/ exists z, m_get_impl h (m_type x) true = (Some z, h'))
    end.
Proof.
  intros O P L R. unfold ieee80211_mbuf_adjust, sizeof_eh, sizeof_llc in *. cbv zeta.
  rewrite !adjust_writable_id.
  destruct (M_LEADINGSPACE x <? _) eqn:E.
  - pose proof (m_get_impl_spec h (m_type x) true) as G. destruct (m_get_impl h (m_type x) true) as [[y|] h1] eqn:Eg.
    + rewrite (proj2 (Z.ltb_ge MHLEN _)) by (unfold MHLEN; lia). destruct G as (Wy & Ly & Dy & Py & _).
      pose proof (m_move_pkthdr_spec y x) as M. destruct (m_move_pkthdr y x) as [y2 x2]. rewrite adjust_writable_id.
      destruct M as (P2 & H2 & P3 & D2 & D3 & W2 & W3 & Dm & L3 & L2). pose proof O as [Hc Hs]. inversion_clear Hc as [|? ? Hx Hr].
      eexists _, _, _. split; [reflexivity|]. specialize (W2 Wy). specialize (W3 Hx). pose proof W2 as (Lc & _ & Bc).
      assert (Wz : mwf (set_window y2 (m_data y2 + (hs + ch)) 14)).
      { split; [exact Lc|]. split; [|exact Bc]. cbn [set_window m_data m_len]. rewrite Dm, Dy. unfold cluster_size, MCLBYTES, MH_ALIGN. lia. }
      assert (Wx : mwf (set_window x2 (m_data x2 + 14) (m_len x2 - 14))).
      { destruct W3 as (A & B & C). split; [exact A|]. split; [cbn [set_window m_data m_len]; lia|exact C]. }
      assert (Ex : mdata (set_window x2 (m_data x2 + 14) (m_len x2 - 14)) = drop 14 (mdata x)) by (rewrite <- D3; apply mdata_trim; lia).
      pose proof (length_mdata _ Wz) as Lz. cbn [set_window m_len] in Lz. pose proof (length_mdata x Hx) as Lx.
      assert (Ec : drop 14 (content (set_window y2 (m_data y2 + (hs + ch)) 14 :: set_window x2 (m_data x2 + 14) (m_len x2 - 14) :: c)) = drop 14 (content (x :: c))).
      { rewrite !content_cons, Ex. rewrite <- Lz at 1. rewrite drop_app_length. symmetry. rewrite drop_app_le by lia. done. }
      assert (El : length (content (set_window y2 (m_data y2 + (hs + ch)) 14 :: set_window x2 (m_data x2 + 14) (m_len x2 - 14) :: c)) = length (content (x :: c))).
      { rewrite !content_cons, !length_app, Ex, length_drop, Lz, Lx. lia. }
      split; [|split; [by rewrite <- P, <- P2|split; [cbn; lia|split; [cbn; rewrite Dm, Dy; unfold MH_ALIGN; lia|split; [done|split; [done|split; [done|right; by exists y]]]]]]].
      split; [constructor; [done|by constructor]|]. intros _. rewrite El. change (ph_len (m_hdr y2) = Z.of_nat (length (content (x :: c)))). rewrite H2. by apply Hs.
    + eexists _, _, _. split; [reflexivity|]. by apply (m_get_impl_None h (m_type x) true h1).
  - apply Z.ltb_ge in E. unfold M_LEADINGSPACE in E. eexists _, _, _. split; [reflexivity|]. split; [done|]. split; [done|]. split; [lia|]. split; [lia|]. do 3 (split; [done|]). by left.
Qed.

Lemma m_prepend_room h x c k :
  pkt_ok (x :: c) -> (k <= m_data x)%nat -> (k <= 128)%nat ->
  exists y pre, m_prepend h (x :: c) (Z.of_nat k) = (y :: c, h) /\ pkt_ok (y :: c) /\ has_pkthdr y = has_pkthdr x /\
    m_data y = (m_data x - k)%nat /\ m_len y = (m_len x + k)%nat /\ m_flags y = m_flags x /\
    length pre = k /\ content (y :: c) = pre ++ content (x :: c).
Proof.
  intros O K B. pose proof (prepend_in_place x c k O K) as [O' (x1 & r1 & pre & [= <- <-] & L & E & _)]. unfold m_prepend.
  rewrite (proj2 (Z.ltb_ge _ 0)), (proj2 (Z.ltb_ge (Z.of_nat (MCLBYTES - MH_ALIGN)) _)) by (unfold MCLBYTES, MH_ALIGN; lia). cbn [orb].
  unfold M_LEADINGSPACE. rewrite (proj2 (Z.leb_le _ _)) by lia. rewrite Nat2Z.id. eexists _, pre. split; [reflexivity|].
  split; [exact O'|]. destruct (has_pkthdr (set_window _ _ _)); done.
Qed.

Lemma length_llc_snap eh : length eh = 14%nat -> length (llc_snap eh) = 8%nat.
Proof. intros L. unfold llc_snap. rewrite length_app, length_sub_list; [done|lia]. Qed.
Lemma llc_snap_bytes eh : bytes eh -> bytes (llc_snap eh).
Proof. intros B. apply bytes_app. split; [by_compute|by apply bytes_sub_list]. Qed.

(** The Ethernet header gives way to the LLC header, with the 802.11 header in
    front. *)
Lemma encap_layout h y c hs ch eh :
  pkt_ok (y :: c) -> has_pkthdr y = true -> (14 <= m_len y)%nat -> (hs + ch <= m_data y + 6)%nat -> (hs <= 128)%nat ->
  length eh = 14%nat -> bytes eh ->
  exists z w pre, m_adj (y :: c) (Z.of_nat sizeof_eh - Z.of_nat sizeof_llc) = z :: c /\
    m_prepend h (mstore z 0 (llc_snap eh) :: c) (Z.of_nat hs) = (w :: c, h) /\ pkt_ok (w :: c) /\ has_pkthdr w = true /\
    m_flags w = m_flags y /\ (hs + 8 <= m_len w)%nat /\ (ch <= m_data w)%nat /\ length pre = hs /\
    content (w :: c) = pre ++ llc_snap eh ++ drop 14 (content (y :: c)).
Proof.
  intros O P L R H128 Le Be. change (Z.of_nat sizeof_eh - Z.of_nat sizeof_llc) with (Z.of_nat 6).
  destruct (m_adj_in_head y c 6 O P ltac:(lia)) as (z & Ez & Oz & Pz & Dz & Lz & Fz & Cz). exists z.
  destruct (mstore_ok z c 0 (llc_snap eh) Oz) as [Os Es]; [rewrite length_llc_snap by done; lia|by apply llc_snap_bytes|].
  destruct (m_prepend_room h (mstore z 0 (llc_snap eh)) c hs Os) as (w & pre & Ew & Ow & Pw & Dw & Lw & Fw & Lp & Cw);
    [change (m_data (mstore z 0 (llc_snap eh))) with (m_data z); lia|lia|].
  change (m_data (mstore z 0 (llc_snap eh))) with (m_data z) in *. change (m_len (mstore z 0 (llc_snap eh))) with (m_len z) in *.
  exists w, pre. split; [exact Ez|]. split; [exact Ew|]. split; [done|]. split; [by rewrite Pw|]. split; [rewrite Fw; exact Fz|].
  split; [lia|]. split; [lia|]. split; [done|]. rewrite Cw, Es, Cz. f_equal.
  pose proof (length_llc_snap eh Le) as Ll. assert (14 <= length (content (y :: c)))%nat by (by apply content_ge; [apply O|]).
  clear -Ll H. set (l := llc_snap eh) in *. set (d := content (y :: c)) in *. clearbody l d. list_solve.
Qed.

(** ** Decapsulation *)

Lemma decap_snap h y c hdr llc pl :
  cwf (y :: c) -> (24 <= length hdr <= 32)%nat -> length llc = 8%nat -> is_snap llc = true -> bytes hdr ->
  (length hdr + 8 <= m_len y)%nat -> content (y :: c) = hdr ++ llc ++ pl -> length (decap_addrs hdr) = 12%nat ->
  exists m, ieee80211_decap h (y :: c) (length hdr) = Ok (m, h) /\ pkt_ok m /\ content m = decap_addrs hdr ++ sub_list 6 2 llc ++ pl.
Proof.
  intros O Hh Hl Hs Bh Hm Ec Ha. pose proof O as Hc. inversion_clear Hc as [|? ? Wy _].
  assert (Et : take (length hdr) (mtod y) = hdr).
  { rewrite (take_mtod y c) by (done || lia). rewrite Ec. apply take_app_length. }
  assert (Es : is_snap (drop (length hdr) (mtod y)) = true).
  { rewrite <- Hs. unfold is_snap. assert (E : take 8 (drop (length hdr) (mtod y)) = take 8 llc).
    { rewrite take_drop_commute, (take_mtod y c) by (done || lia). rewrite Ec. rewrite <- take_drop_commute, drop_app_length.
      by rewrite <- Hl, take_app_length, firstn_all. }
    by rewrite !(byte_at_prefix 8 _ _ _ E) by lia. }
  unfold ieee80211_decap, sizeof_llc, sizeof_qosframe_addr4, sizeof_eh. rewrite (proj2 (Nat.ltb_ge _ _)) by lia.
  rewrite (proj2 (Nat.ltb_ge 32 _)) by lia. rewrite Et, Es. cbv zeta.
  replace (Z.of_nat (length hdr + 8) - Z.of_nat 14) with (Z.of_nat (length hdr - 6)) by lia.
  destruct (m_adj_spec (y :: c) (Z.of_nat (length hdr - 6)) O) as (Cz & Wz & Sz).
  pose proof (m_adj_front_head (y :: c) (length hdr - 6) 14) as Lz. cbn [head_len] in Lz. specialize (Lz ltac:(lia)).
  destruct (m_adj _ _) as [|z r]; [cbn in Lz; lia|]. cbn [head_len] in Lz.
  assert (Ba : bytes (decap_addrs hdr)) by (unfold decap_addrs; repeat case_match; apply bytes_app; split; by apply bytes_sub_list).
  destruct (mstore_ok z r 0 (decap_addrs hdr) (conj Wz Sz) ltac:(lia) Ba) as [Om Em]. eexists. split; [reflexivity|]. split; [exact Om|].
  rewrite Em, Cz, Ec. unfold adj_spec. rewrite (proj2 (Z.leb_le 0 _)), Nat2Z.id by lia.
  revert Ha Hl Hh. generalize (decap_addrs hdr). clear. intros a Ha Hl Hh. list_solve.
Qed.

(** ** The header *)

(** The header of a data frame that carries the packet with Ethernet header
    [eh]: its size, where the addresses are, and no fragment number. *)
Record good_hdr (eh hdr : list Z) : Prop := mkGoodHdr {
  gh_len : (24 <= length hdr <= 26)%nat;
  gh_bytes : bytes hdr;
  gh_size : ieee80211_hdrsize hdr = Ok (length hdr);
  gh_addrs : decap_addrs hdr = take 12 eh;
  gh_more : Z.land (i_fc1 hdr) IEEE80211_FC1_MORE_FRAG = 0;
  gh_frag : Z.land (rxseq hdr) IEEE80211_SEQ_FRAG_MASK = 0;
}.

Definition mk_hdr (qos : bool) (fc1 : Z) (addrs seq2 q : list Z) : list Z :=
  [if qos then 0x88 else 0x08; fc1; 0; 0] ++ addrs ++ seq2 ++ q.
(** Direction, more data, protected. *)
Definition mk_fc1 (dir : Z) (more wep : bool) : Z :=
  let fc1 := if more then Z.lor dir IEEE80211_FC1_MORE_DATA else dir in if wep then Z.lor fc1 IEEE80211_FC1_WEP else fc1.

(** Where a direction puts the two addresses of a packet. *)
Definition addressed (dir : Z) (addrs eh : list Z) : Prop :=
  (dir = IEEE80211_FC1_DIR_NODS /\ sub_list 0 6 addrs = ether_dhost eh /\ sub_list 6 6 addrs = ether_shost eh) \/
  (dir = IEEE80211_FC1_DIR_TODS /\ sub_list 12 6 addrs = ether_dhost eh /\ sub_list 6 6 addrs = ether_shost eh) \/
  (dir = IEEE80211_FC1_DIR_FROMDS /\ sub_list 0 6 addrs = ether_dhost eh /\ sub_list 12 6 addrs = ether_shost eh).

Lemma mk_hdr_fields (qos : bool) fc1 addrs s q : length addrs = 18%nat -> length s = 2%nat ->
  let hdr := mk_hdr qos fc1 addrs s q in
  i_fc1 hdr = fc1 /\ i_addr1 hdr = sub_list 0 6 addrs /\ i_addr2 hdr = sub_list 6 6 addrs /\ i_addr3 hdr = sub_list 12 6 addrs /\
  i_seq hdr = s /\ length hdr = (24 + length q)%nat.
Proof.
  intros La Ls hdr. split; [done|]. unfold hdr, mk_hdr, i_addr1, i_addr2, i_addr3, i_seq.
  assert (E : forall off len k, off = (4 + k)%nat -> (k + len <= 18)%nat ->
    sub_list off len ([if qos then 136 else 8; fc1; 0; 0] ++ addrs ++ s ++ q) = sub_list k len addrs).
  { intros off len k -> Hk. set (p := [if qos then 136 else 8; fc1; 0; 0]). assert (length p = 4%nat) as Lp by done. clearbody p. clear -La Lp Hk. list_solve. }
  split; [by apply E; lia|]. split; [by apply E; lia|]. split; [by apply E; lia|].
  split; [|rewrite !length_app; cbn [length]; lia].
  set (p := [if qos then 136 else 8; fc1; 0; 0]). assert (length p = 4%nat) as Lp by done. clearbody p. clear -La Ls Lp. list_solve.
Qed.

Lemma le16dec_enc v : is_u 16 v -> le16dec (le16enc v) = v.
Proof.
  intros H. unfold le16dec, le16enc, byte_at. cbn [nth]. apply Z.bits_inj'. intros i Hi.
  unfold u16, u8. change 65535 with (Z.ones 16). change 255 with (Z.ones 8).
  rewrite Z.land_spec, Z.lor_spec, Z.testbit_ones_nonneg, Z.land_spec, Z.testbit_ones_nonneg by lia.
  destruct (Z.ltb_spec i 16); [rewrite andb_true_r|rewrite andb_false_r; symmetry; apply (is_u_testbit 16); [done|lia]].
  destruct (Z.ltb_spec i 8); [rewrite andb_true_r, Z.shiftl_spec_low by lia; apply orb_false_r|]. rewrite andb_false_r. cbn [orb].
  rewrite Z.shiftl_spec, Z.land_spec, Z.testbit_ones_nonneg, Z.shiftr_spec by lia. rewrite (proj2 (Z.ltb_lt _ _)) by lia.
  rewrite andb_true_r. f_equal. lia.
Qed.
Lemma seq_frag_free s : Z.land (le16dec (le16enc (u16 (Z.shiftl s IEEE80211_SEQ_SEQ_SHIFT)))) IEEE80211_SEQ_FRAG_MASK = 0.
Proof.
  rewrite le16dec_enc by apply u16_range. unfold u16, IEEE80211_SEQ_SEQ_SHIFT, IEEE80211_SEQ_FRAG_MASK. apply Z.bits_inj'. intros i Hi.
  change 65535 with (Z.ones 16). change 0xf with (Z.ones 4). rewrite !Z.land_spec, !Z.testbit_ones_nonneg, Z.bits_0 by lia.
  destruct (Z.ltb_spec i 4); [|apply andb_false_r]. by rewrite Z.shiftl_spec_low.
Qed.

Lemma mk_hdr_good (qos : bool) dir more wep addrs s q eh :
  length addrs = 18%nat -> bytes addrs -> length eh = 14%nat -> addressed dir addrs eh ->
  length q = (if qos then 2%nat else 0%nat) -> bytes q ->
  good_hdr eh (mk_hdr qos (mk_fc1 dir more wep) addrs (le16enc (u16 (Z.shiftl s IEEE80211_SEQ_SEQ_SHIFT))) q).
Proof.
  intros La Ba Le A Lq Bq. set (s2 := le16enc _). assert (Ls : length s2 = 2%nat) by done.
  assert (Hd : dir = 0 \/ dir = 1 \/ dir = 2) by (destruct A as [[-> _]|[[-> _]|[-> _]]]; auto).
  destruct (mk_hdr_fields qos (mk_fc1 dir more wep) addrs s2 q La Ls) as (F1 & A1 & A2 & A3 & Sq & Lh).
  split.
  - rewrite Lh, Lq. destruct qos; lia.
  - apply bytes_app. split; [|rewrite !bytes_app; split; [done|split; [|done]]].
    + destruct Hd as [->|[->| ->]], qos, more, wep; by_compute.
    + unfold s2, le16enc. repeat constructor; apply u8_range.
  - rewrite Lh, Lq. destruct Hd as [->|[->| ->]], qos, more, wep; vm_compute; reflexivity.
  - assert (E : take 12 eh = ether_dhost eh ++ ether_shost eh) by (unfold ether_dhost, ether_shost; clear -Le; list_solve). rewrite E.
    unfold decap_addrs, fc_dir. rewrite F1, A1, A2, A3.
    destruct A as [(-> & -> & ->)|[(-> & -> & ->)|(-> & -> & ->)]]; by destruct more, wep.
  - rewrite F1. destruct Hd as [->|[->| ->]], more, wep; reflexivity.
  - unfold rxseq. rewrite Sq. apply seq_frag_free.
Qed.

(** ** Encapsulation *)

(** The key is one of a cipher that puts no MIC over whole packets. *)
Definition plain_key (k : ieee80211_key) : Prop := exists c, wk_cipher k = Some c /\ ic_miclen c = 0%nat.

(** A packet that an interface may send to a node. *)
Record sends (n : net) (id : nat) (ni : ieee80211_node) (m : list mbuf) : Prop := mkSends {
  sd_node : n_nodes n !! id = Some ni;
  sd_pkt : pkt_ok m;
  sd_eh : match m with x :: _ => has_pkthdr x = true /\ (sizeof_eh <= m_len x)%nat | [] => False end;
  sd_mode : ic_opmode n = IEEE80211_M_STA \/ ic_opmode n = IEEE80211_M_IBSS \/ ic_opmode n = IEEE80211_M_AHDEMO \/ ic_opmode n = IEEE80211_M_HOSTAP;
  sd_bssid : length (ni_bssid ni) = 6%nat /\ bytes (ni_bssid ni);
  sd_bss : exists b bss, ic_bss n = Some b /\ n_nodes n !! b = Some bss /\ length (ni_bssid bss) = 6%nat /\ bytes (ni_bssid bss);
  sd_seqs : length (ni_txseqs ni) = 17%nat;
  sd_wme : length (cap_wmeParams (wme_wmeChanParams (ic_wme n))) = 4%nat;
  sd_pad : has_flag (ic_flags (n_ic n)) IEEE80211_F_DATAPAD = false;
  sd_ucast : plain_key (ni_ucastkey ni);
  sd_def : ic_def_txkey (n_ic n) = IEEE80211_KEYIX_NONE \/
           exists k, ic_nw_keys (n_ic n) !! Z.to_nat (ic_def_txkey (n_ic n)) = Some k /\ plain_key k;
}.

Lemma encap_addrs_ok n id ni m eh :
  sends n id ni m -> length eh = 14%nat -> bytes eh ->
  exists dir addrs, encap_addrs n ni eh = Ok (Some (dir, addrs)) /\ length addrs = 18%nat /\ bytes addrs /\ addressed dir addrs eh.
Proof.
  intros S Le Be. destruct (sd_bssid _ _ _ _ S) as [L6 B6]. destruct (sd_bss _ _ _ _ S) as (b & bss & Eb & En & Lb & Bb).
  assert (Ld : length (ether_dhost eh) = 6%nat) by (apply length_sub_list; lia).
  assert (Ls : length (ether_shost eh) = 6%nat) by (apply length_sub_list; lia).
  assert (Bd : bytes (ether_dhost eh)) by (by apply bytes_sub_list). assert (Bs : bytes (ether_shost eh)) by (by apply bytes_sub_list).
  assert (T : forall a b c : list Z, length a = 6%nat -> length b = 6%nat -> length c = 6%nat ->
    length (a ++ b ++ c) = 18%nat /\ sub_list 0 6 (a ++ b ++ c) = a /\ sub_list 6 6 (a ++ b ++ c) = b /\ sub_list 12 6 (a ++ b ++ c) = c).
  { clear. intros a b c Ha Hb Hc. split; [rewrite !length_app; lia|]. split; [|split]; list_solve. }
  unfold encap_addrs, bss_node, node_at. rewrite Eb, En. cbn [res_bind].
  destruct (sd_mode _ _ _ _ S) as [->|[->|[->| ->]]]; cbn [Z.eqb Pos.eqb orb IEEE80211_M_STA IEEE80211_M_IBSS IEEE80211_M_AHDEMO IEEE80211_M_HOSTAP].
  - destruct (T (ni_bssid ni) (ether_shost eh) (ether_dhost eh)) as (L & S0 & S6 & S12); try done. eexists _, _. split; [reflexivity|].
    split; [done|]. split; [by rewrite !bytes_app|]. right. left. done.
  - destruct (T (ether_dhost eh) (ether_shost eh) (ni_bssid bss)) as (L & S0 & S6 & S12); try done. eexists _, _. split; [reflexivity|].
    split; [done|]. split; [by rewrite !bytes_app|]. left. done.
  - destruct (T (ether_dhost eh) (ether_shost eh) (ni_bssid bss)) as (L & S0 & S6 & S12); try done. eexists _, _. split; [reflexivity|].
    split; [done|]. split; [by rewrite !bytes_app|]. left. done.
  - destruct (T (ether_dhost eh) (ni_bssid ni) (ether_shost eh)) as (L & S0 & S6 & S12); try done. eexists _, _. split; [reflexivity|].
    split; [done|]. split; [by rewrite !bytes_app|]. right. right. done.
Qed.

Lemma getac_range x : (Z.to_nat (M_WME_GETAC x) < 4)%nat.
Proof.
  unfold M_WME_GETAC. change 3 with (Z.ones 2). rewrite Z.land_ones by done. pose proof (Z.mod_pos_bound (Z.shiftr (m_flags x) M_WME_AC_SHIFT) (2 ^ 2)). lia.
Qed.
Lemma encap_qos_ok n x : length (cap_wmeParams (wme_wmeChanParams (ic_wme n))) = 4%nat ->
  exists q tid, encap_qos n x = Ok (q, tid) /\ length q = 2%nat /\ bytes q /\ (tid < 17)%nat.
Proof.
  intros L. unfold encap_qos. destruct (lookup_lt_is_Some_2 (cap_wmeParams (wme_wmeChanParams (ic_wme n))) (Z.to_nat (M_WME_GETAC x))) as [p ->];
    [rewrite L; apply getac_range|].
  unfold WME_AC_TO_TID. eexists _, _. split; [reflexivity|]. split; [done|].
  repeat case_match; (split; [by_compute|cbn; lia]).
Qed.

(** The header goes in front of what the buffer stages leave. *)
Lemma encap_header_ok n id ni m eh (addqos : bool) w c pre rest :
  sends n id ni m -> length eh = 14%nat -> bytes eh -> pkt_ok (w :: c) -> length pre = (if addqos then 26 else 24)%nat ->
  (length pre <= m_len w)%nat -> content (w :: c) = pre ++ rest ->
  exists dir more addrs s q ni', let hdr := mk_hdr addqos (mk_fc1 dir more false) addrs (le16enc (u16 (Z.shiftl s IEEE80211_SEQ_SEQ_SHIFT))) q in
    encap_header n id ni eh addqos w = Ok (Some (mstore w 0 hdr), upd n id (fun _ => ni')) /\ ni_ucastkey ni' = ni_ucastkey ni /\
    length hdr = length pre /\ (forall wep, good_hdr eh (mk_hdr addqos (mk_fc1 dir more wep) addrs (le16enc (u16 (Z.shiftl s IEEE80211_SEQ_SEQ_SHIFT))) q)) /\
    pkt_ok (mstore w 0 hdr :: c) /\ content (mstore w 0 hdr :: c) = hdr ++ rest.
Proof.
  intros S Le Be O Lp Hm Ec. destruct (encap_addrs_ok n id ni m eh S Le Be) as (dir & addrs & Ea & La & Ba & A).
  assert (exists q tid, (if addqos then encap_qos n w else Ok ([], 0%nat)) = Ok (q, tid) /\ length q = (if addqos then 2 else 0)%nat /\ bytes q /\ (tid < 17)%nat)
    as (q & tid & Eq & Lq & Bq & Ht).
  { destruct addqos; [apply encap_qos_ok, S|]. eexists _, _. split; [reflexivity|]. split; [done|]. split; [by_compute|lia]. }
  destruct (lookup_lt_is_Some_2 (ni_txseqs ni) tid) as [s Es]; [rewrite (sd_seqs _ _ _ _ S); lia|].
  exists dir, (has_flag (m_flags w) M_MORE_DATA), addrs, s, q, (set_txseqs ni (<[tid := u16 (s + 1)]> (ni_txseqs ni))). cbv zeta.
  unfold encap_header. rewrite Ea. cbn [res_bind]. rewrite Eq. cbn [res_bind]. unfold next_seq. rewrite Es. cbn [res_bind].
  assert (G : forall wep, good_hdr eh (mk_hdr addqos (mk_fc1 dir (has_flag (m_flags w) M_MORE_DATA) wep) addrs (le16enc (u16 (Z.shiftl s IEEE80211_SEQ_SEQ_SHIFT))) q))
    by (intros wep; by apply mk_hdr_good).
  split; [by destruct addqos|]. split; [done|].
  assert (Lh : length (mk_hdr addqos (mk_fc1 dir (has_flag (m_flags w) M_MORE_DATA) false) addrs (le16enc (u16 (Z.shiftl s IEEE80211_SEQ_SEQ_SHIFT))) q) = length pre).
  { destruct (mk_hdr_fields addqos (mk_fc1 dir (has_flag (m_flags w) M_MORE_DATA) false) addrs (le16enc (u16 (Z.shiftl s IEEE80211_SEQ_SEQ_SHIFT))) q La eq_refl)
      as (_ & _ & _ & _ & _ & ->). rewrite Lq, Lp. by destruct addqos. }
  split; [exact Lh|]. split; [exact G|]. destruct (mstore_ok w c 0 _ O (ltac:(rewrite Nat.add_0_l, Lh; exact Hm)) (gh_bytes _ _ (G false))) as [Om Em].
  split; [exact Om|]. rewrite Em, Ec. clear -Lh. set (hdr := mk_hdr _ _ _ _ _) in *. clearbody hdr. list_solve.
Qed.

Lemma sends_bump n id ni m s : sends n id ni m -> sends (bump n s) id ni m.
Proof. intros []. by split. Qed.
Lemma sends_heap n id ni m h : sends n id ni m -> sends (set_heap (set_ic n (n_ic n)) h) id ni m.
Proof. intros []. by split. Qed.
Lemma sends_pkt n id ni m m' : sends n id ni m -> pkt_ok m' ->
  match m' with x :: _ => has_pkthdr x = true /\ (sizeof_eh <= m_len x)%nat | [] => False end -> sends n id ni m'.
Proof. intros [] ? ?. by split. Qed.

Lemma encap_key_ok n id ni m eh : sends n id ni m ->
  exists loc n1, encap_key n (ni_ucastkey ni) eh = Ok (loc, n1) /\ sends n1 id ni m /\ n_heap n1 = n_heap n /\ ic_fragthreshold n1 = ic_fragthreshold n /\
    match loc with None => True | Some l => exists k, get_key (n_ic n1) (ni_ucastkey ni) l = Ok k /\ plain_key k end.
Proof.
  intros S. assert (M : exists l, ieee80211_crypto_getmcastkey (n_ic n) = Ok l /\
    match l with None => True | Some l => exists k, get_key (n_ic n) (ni_ucastkey ni) l = Ok k /\ plain_key k end).
  { unfold ieee80211_crypto_getmcastkey. destruct (sd_def _ _ _ _ S) as [->|(k & Ek & Hk)]; [by exists None|].
    destruct (_ =? _); [by exists None|]. unfold get_key. rewrite Ek. cbn [res_bind]. eexists. split; [reflexivity|].
    destruct (IEEE80211_KEY_UNDEFINED k); [done|]. exists k. unfold get_key. by rewrite Ek. }
  assert (U : exists l, ieee80211_crypto_getucastkey (n_ic n) (ni_ucastkey ni) = Ok l /\
    match l with None => True | Some l => exists k, get_key (n_ic n) (ni_ucastkey ni) l = Ok k /\ plain_key k end).
  { unfold ieee80211_crypto_getucastkey. destruct (IEEE80211_KEY_UNDEFINED _); [exact M|]. eexists. split; [reflexivity|].
    exists (ni_ucastkey ni). split; [done|apply S]. }
  unfold encap_key. destruct (has_flag _ _); [|by exists None, n].
  assert (exists l, (if (ic_opmode n =? IEEE80211_M_STA) || negb (IEEE80211_IS_MULTICAST (ether_dhost eh))
      then ieee80211_crypto_getucastkey (n_ic n) (ni_ucastkey ni) else ieee80211_crypto_getmcastkey (n_ic n)) = Ok l /\
    match l with None => True | Some l => exists k, get_key (n_ic n) (ni_ucastkey ni) l = Ok k /\ plain_key k end) as (l & -> & Hl)
    by (destruct (_ || _); [exact U|exact M]).
  cbn [res_bind]. eexists _, _. split; [reflexivity|]. destruct l as [l|]; [done|]. destruct (_ =? _); [done|].
  split; [by apply sends_bump|done].
Qed.

(** The MIC step sets the protected bit, or does nothing. *)
Lemma encap_mic_ok n ucast key eh x c dir more addrs s q rest txfrag (addqos : bool) :
  let hdr wep := mk_hdr addqos (mk_fc1 dir more wep) addrs s q in
  match key with None => True | Some k => plain_key k end ->
  pkt_ok (x :: c) -> has_pkthdr x = true -> (2 <= m_len x)%nat -> content (x :: c) = hdr false ++ rest -> bytes (hdr true) -> 
  exists x' n' wep, encap_mic n key ucast eh (x :: c) txfrag = Ok (true, x' :: c, n') /\
    n_ic n' = n_ic n /\ n_heap n' = n_heap n /\ ic_fragthreshold n' = ic_fragthreshold n /\
    pkt_ok (x' :: c) /\ has_pkthdr x' = true /\ m_len x' = m_len x /\ m_data x' = m_data x /\ m_flags x' = m_flags x /\
    content (x' :: c) = hdr wep ++ rest.
Proof.
  intros hdr Hk O P L2 Ec B. unfold encap_mic. destruct key as [k|]; [|by exists x, n, false].
  destruct (encap_crypts n k ucast eh); [|by exists x, n, false].
  destruct Hk as (cip & Ecip & Hm). unfold ieee80211_crypto_enmic, key_cipher. rewrite Ecip. cbn [res_bind]. rewrite Hm. cbn [Nat.ltb Nat.leb res_bind].
  pose proof O as [Hc _]. inversion_clear Hc as [|? ? Wx _].
  assert (E1 : byte_at (mtod x) 1 = mk_fc1 dir more false) by (rewrite (byte_at_mtod x c) by (done || lia); by rewrite Ec).
  rewrite E1. change (Z.lor (mk_fc1 dir more false) IEEE80211_FC1_WEP) with (mk_fc1 dir more true).
  destruct (mstore_ok x c 1 [mk_fc1 dir more true] O) as [Os Es]; [cbn; lia| |].
  { constructor; [|constructor]. exact (byte_at_range _ 1 B). }
  eexists _, _, true. split; [reflexivity|]. do 3 (split; [done|]). split; [exact Os|].
  split; [exact P|]. do 3 (split; [done|]). rewrite Es, Ec. done.
Qed.

(** The frame [f] carries the packet [m]: an 802.11 header, the LLC header and
    the payload, the headers in the first mbuf. *)
Record framed (m f : list mbuf) (hdr : list Z) : Prop := mkFramed {
  fr_pkt : pkt_ok f;
  fr_head : head_pkthdr f = true;
  fr_hdr : good_hdr (take 14 (content m)) hdr;
  fr_room : (length hdr + 8 <= head_len f)%nat;
  fr_content : content f = hdr ++ llc_snap (take 14 (content m)) ++ drop 14 (content m);
}.
Definition head_flags (m : list mbuf) : Z := match m with x :: _ => m_flags x | [] => 0 end.
(** What is cut into fragments. *)
Definition cut (n : net) (f : list mbuf) : bool :=
  (ic_fragthreshold n <? Z.of_nat (length (content f))) && negb (IEEE80211_IS_MULTICAST (i_addr1 (content f))) &&
  negb (has_flag (head_flags f) M_FF).

Lemma plain_header k : plain_key k -> exists c, key_cipher k = Ok c /\ (ic_header c <= 8)%nat.
Proof. intros (c & E & _). exists c. unfold key_cipher. rewrite E. split; [done|]. destruct c; apply Nat.leb_le; reflexivity. Qed.

Lemma encap_stages n id ni m : sends n id ni m ->
  (exists n1, ieee80211_encap n m id = Ok ([], n1) /\ exhausted (n_heap n)) \/
  exists f hdr (ch : nat) n1, framed m f hdr /\ (ch <= 8)%nat /\ ic_fragthreshold n1 = ic_fragthreshold n /\
    has_flag (ic_flags (n_ic n1)) IEEE80211_F_DATAPAD = false /\
    (n_heap n1 = n_heap n \/ exists t z, m_get_impl (n_heap n) t true = (Some z, n_heap n1)) /\
    ieee80211_encap n m id =
      if cut n f then
        let* (r, f, ic, h) := ieee80211_fragment (n_ic n1) (n_heap n1) f (length hdr) (Z.of_nat ch) (ic_fragthreshold n1) in
        let n := set_heap (set_ic n1 ic) h in match r with None => Ok ([], release n f) | Some ps => Ok (ps, n) end
      else Ok ([f], n1).
Proof.
  intros S. destruct m as [|x c]; [by destruct (sd_eh _ _ _ _ S)|]. destruct (sd_eh _ _ _ _ S) as [P L].
  pose proof (sd_pkt _ _ _ _ S) as O. pose proof O as [Hc _]. inversion_clear Hc as [|? ? Wx _].
  unfold ieee80211_encap. rewrite (proj2 (Nat.ltb_ge _ _)) by exact L. cbv zeta. unfold sizeof_eh in L.
  assert (Eeh : take sizeof_eh (mtod x) = take 14 (content (x :: c))) by (by apply take_mtod). rewrite Eeh.
  set (eh := take 14 (content (x :: c))).
  assert (Le : length eh = 14%nat) by (unfold eh; rewrite length_take; pose proof (content_ge x c 14 (proj1 O) L); lia).
  assert (Be : bytes eh) by (apply bytes_take, content_bytes, O).
  unfold node_at. rewrite (sd_node _ _ _ _ S). cbn [res_bind].
  destruct (encap_key_ok n id ni _ eh S) as (loc & n1 & -> & S1 & H1 & T1 & Hk). cbn [res_bind].
  set (okey := match loc with None => Ok None | Some l => _ end).
  assert (exists key, okey = Ok key /\ match key with None => True | Some k => plain_key k end) as (key & -> & Hkey).
  { unfold okey. destruct loc as [l|]; [|by exists None]. destruct Hk as (k & -> & Hk). cbn [res_bind]. by exists (Some k). }
  clear Hk. cbn [res_bind]. set (ochd := match key with None => _ | Some k => _ end).
  assert (exists ch, ochd = Ok ch /\ (ch <= 8)%nat) as (ch & -> & Hch).
  { unfold ochd. destruct key as [k|]; [|exists 0%nat; split; [done|lia]]. destruct (plain_header k Hkey) as (cc & -> & Hh). cbn [res_bind]. by exists (ic_header cc). }
  cbn [res_bind]. set (addqos := has_flag (ni_flags ni) _ && _).
  assert (Ehs : encap_hdrsize (n_ic n1) addqos = (if addqos then 26 else 24)%nat)
    by (unfold encap_hdrsize; rewrite (sd_pad _ _ _ _ S1); by destruct addqos).
  rewrite Ehs. set (hs := if addqos then 26%nat else 24%nat). assert (Hhs : (hs <= 26)%nat) by (unfold hs; destruct addqos; lia).
  set (sw := match key with None => false | Some k => _ end).
  destruct (mbuf_adjust_ok (n_ic n1) (n_heap n1) hs ch sw x c O P L ltac:(lia)) as (m1 & h1 & ic1 & -> & M1). cbn [res_bind].
  destruct m1 as [|y c1]; [left; eexists; split; [reflexivity|by rewrite <- H1]|].
  destruct M1 as (Oy & Py & Ly & Ry & -> & Dy & Ny & Hy).
  set (n2 := set_heap (set_ic n1 (n_ic n1)) h1). assert (S2 : sends n2 id ni (x :: c)) by (by apply sends_heap).
  destruct (encap_layout (n_heap n2) y c1 hs ch eh Oy Py Ly Ry ltac:(lia) Le Be) as (z & w & pre & -> & Ew & Ow & Pw & Fw & Lw & Dw & Lp & Cw).
  rewrite Ew. set (n3 := set_heap n2 (n_heap n2)). assert (S3 : sends n3 id ni (x :: c)) by (by apply (sends_heap n2)).
  destruct (encap_header_ok n3 id ni (x :: c) eh addqos w c1 pre _ S3 Le Be Ow Lp ltac:(lia) Cw)
    as (dir & more & addrs & s & q & ni' & -> & Hu & Lh & G & Oh & Ch). cbn [res_bind].
  set (s2 := le16enc _) in *. set (hdr := fun wep => mk_hdr addqos (mk_fc1 dir more wep) addrs s2 q) in *.
  change (mk_hdr addqos (mk_fc1 dir more false) addrs s2 q) with (hdr false) in *.
  set (x4 := mstore w 0 (hdr false)) in *. set (n4 := upd n3 id _).
  set (txfrag := _ && _ && _).
  destruct (encap_mic_ok n4 (ni_ucastkey ni) key eh x4 c1 dir more addrs s2 q (llc_snap eh ++ drop 14 (content (y :: c1))) txfrag addqos)
    as (f & n5 & wep & -> & I5 & H5 & T5 & Of & Pf & Lf & Df & Ff & Cf); try done.
  { change (m_len x4) with (m_len w). lia. }
  { apply (gh_bytes _ _ (G true)). }
  cbn [res_bind negb]. right. exists (f :: c1), (hdr wep), ch, n5.
  assert (Lhw : length (hdr wep) = hs).
  { unfold hdr, mk_hdr in *. rewrite !length_app in *. cbn [length] in *. lia. }
  split.
  { split; [exact Of|exact Pf|exact (G wep)| |by rewrite <- Dy]. cbn [head_len]. rewrite Lf. change (m_len x4) with (m_len w). lia. }
  split; [exact Hch|]. assert (T4 : ic_fragthreshold n5 = ic_fragthreshold n) by (by rewrite T5). split; [exact T4|].
  split; [rewrite I5; exact (sd_pad _ _ _ _ S3)|].
  split; [rewrite H5, <- H1; destruct Hy as [Hy|[z' Hy]]; [left; exact Hy|right; by exists (m_type x), z']|].
  assert (txfrag = cut n (f :: c1)) as ->; [|by rewrite Lhw, T4].
  assert (Tx4 : take 24 (mtod x4) = take 24 (content (x4 :: c1))).
  { apply take_mtod; [pose proof (proj1 Oh) as Wo; by inversion_clear Wo|]. change (m_len x4) with (m_len w). unfold hs in *. destruct addqos; lia. }
  unfold txfrag, cut. f_equal; [f_equal|].
  - f_equal; [exact T1|]. rewrite (proj2 Oh) by (exact Pw). f_equal. by rewrite Ch, Cf, !length_app.
  - f_equal. f_equal. unfold i_addr1. rewrite (sub_list_prefix 24 4 6 _ _ Tx4) by lia. rewrite Ch, Cf. done.
  - cbn [head_flags]. by rewrite Ff.
Qed.

(** ** Classification *)

(** Four rounds lead every class to one that needs no admission, or to
    background traffic. *)
Lemma acm_loop_ok c ac : length (cap_wmeParams c) = 4%nat -> 0 <= ac < 4 ->
  exists ac', acm_loop 4 c ac = Ok ac' /\ 0 <= ac' < 4 /\
    (ac' = WME_AC_BK \/ exists p, cap_wmeParams c !! Z.to_nat ac' = Some p /\ wmep_acm p = 0).
Proof.
  intros L H. assert (Hp : forall a, 0 <= a < 4 -> exists p, cap_wmeParams c !! Z.to_nat a = Some p) by (intros a Ha; apply lookup_lt_is_Some_2; lia).
  destruct (Hp 0 ltac:(lia)) as [p0 E0]. destruct (Hp 2 ltac:(lia)) as [p2 E2]. destruct (Hp 3 ltac:(lia)) as [p3 E3].
  assert (B : forall k, acm_loop (S k) c WME_AC_BK = Ok WME_AC_BK) by done.
  assert (R0 : forall k, exists a, acm_loop (S (S k)) c 0 = Ok a /\ 0 <= a < 4 /\ (a = WME_AC_BK \/ exists p, cap_wmeParams c !! Z.to_nat a = Some p /\ wmep_acm p = 0)).
  { intros k. cbn [acm_loop]. rewrite E0. cbn [Z.eqb WME_AC_BK]. destruct (wmep_acm p0 =? 0) eqn:X; [exists 0; split; [done|]; split; [lia|]; right; exists p0; split; [done|lia]|].
    exists WME_AC_BK. split; [done|]. split; [unfold WME_AC_BK; lia|]. by left. }
  assert (R2 : forall k, exists a, acm_loop (S (S (S k))) c 2 = Ok a /\ 0 <= a < 4 /\ (a = WME_AC_BK \/ exists p, cap_wmeParams c !! Z.to_nat a = Some p /\ wmep_acm p = 0)).
  { intros k. cbn [acm_loop]. rewrite E2. destruct (wmep_acm p2 =? 0) eqn:X; [exists 2; split; [done|]; split; [lia|]; right; exists p2; split; [done|lia]|].
    apply (R0 k). }
  assert (ac = 0 \/ ac = 1 \/ ac = 2 \/ ac = 3) as [->|[->|[->| ->]]] by lia; [apply R0| |apply R2|].
  - exists WME_AC_BK. split; [done|]. split; [unfold WME_AC_BK; lia|]. by left.
  - cbn [acm_loop]. rewrite E3. destruct (wmep_acm p3 =? 0) eqn:X; [exists 3; split; [done|]; split; [lia|]; right; exists p3; split; [done|lia]|].
    apply (R2 0%nat).
Qed.
Lemma classify_returns n x id ni : n_nodes n !! id = Some ni -> length (cap_wmeParams (wme_wmeBssChanParams (ic_wme n))) = 4%nat ->
  exists drop x', ieee80211_classify n x id = Ok (drop, x').
Proof.
  intros En L. unfold ieee80211_classify, node_at. rewrite En. cbn [res_bind]. destruct (negb _); [by eexists _, _|]. destruct (_ && _); [by eexists _, _|].
  cbv zeta. set (ac := if WME_AC_BE <? _ then _ else _).
  assert (H : 0 <= ac < 4) by (unfold ac, vlan_ac, WME_AC_BE, WME_AC_BK, WME_AC_VI, WME_AC_VO; repeat case_match; lia).
  destruct (_ =? IEEE80211_M_STA); [|by eexists _, _]. destruct (acm_loop_ok _ ac L H) as (ac' & -> & _). by eexists _, _.
Qed.
