(* ===== verification/LinkProof.v ===== *)
(** * From one Ethernet to the other

    The transmit path of one interface and the receive path of another: a
    packet that [ieee80211_encap] frames, and a cipher may encrypt, is given
    back by the decryption, reassembly and decapsulation of the receiver. *)

From stdpp Require Import gmap.
From S2P Require Import Prelude Buffers Endian Mbuf MbufProof AesCcmProof AesCcmRfc AesCcmMbuf Ieee80211 FrameProof Wep WepProof Crypto CryptoProof CryptoFrame.
From S2P Require Import Defrag InfoElem Wme Node NodeTable NodeProof Rates Mgmt Input Output OutputProof.

(** ** The frame as it is heard *)

(** Any layout in which the first [room] bytes are in the first mbuf. *)
Record heard (air : list Z) (room : nat) (y : list mbuf) : Prop := mkHeard {
  hd_pkt : pkt_ok y;
  hd_head : head_pkthdr y = true;
  hd_content : content y = air;
  hd_room : (room <= head_len y)%nat;
}.
Definition head_mtod (y : list mbuf) : list Z := match y with x :: _ => mtod x | [] => [] end.

(** What is left of a frame is the packet [m]. *)
Definition delivers (ticks : Z) (n : net) (id : nat) (y : list mbuf) (hdrlen : nat) (junk : Z) (key : option kloc) (m : list mbuf) : Prop :=
  exists y1 n1 m1 h1, data_open ticks n id y (head_mtod y) hdrlen junk = go (y1, key, n1) /\
    ieee80211_decap (n_heap n1) y1 hdrlen = Ok (m1, h1) /\ pkt_ok m1 /\ content m1 = content m.

Lemma packet_parts (c : list Z) : (14 <= length c)%nat -> take 12 (take 14 c) ++ sub_list 12 2 (take 14 c) ++ drop 14 c = c.
Proof. intros H. list_solve. Qed.

(** Decapsulation of a frame that carries [m]. *)
Lemma carried_decap m hdr y h :
  (14 <= length (content m))%nat -> (24 <= length hdr <= 32)%nat -> bytes hdr -> decap_addrs hdr = take 12 (take 14 (content m)) -> cwf y ->
  content y = hdr ++ llc_snap (take 14 (content m)) ++ drop 14 (content m) -> (length hdr + 8 <= head_len y)%nat ->
  exists m1, ieee80211_decap h y (length hdr) = Ok (m1, h) /\ pkt_ok m1 /\ content m1 = content m.
Proof.
  intros L Lh Bh Ah W C R. destruct y as [|y rs]; [cbn in R; lia|].
  set (eh := take 14 (content m)) in *. assert (Le : length eh = 14%nat) by (unfold eh; rewrite length_take; lia).
  assert (La : length (decap_addrs hdr) = 12%nat) by (rewrite Ah, length_take; lia).
  destruct (decap_snap h y rs hdr (llc_snap eh) (drop 14 (content m)) W Lh (length_llc_snap eh Le) eq_refl Bh R C La)
    as (m1 & E & O1 & C1).
  exists m1. split; [exact E|]. split; [exact O1|]. rewrite C1, Ah.
  assert (El : sub_list 6 2 (llc_snap eh) = sub_list 12 2 eh).
  { unfold llc_snap. set (p := [_; _; _; _; _; _]). assert (Lp : length p = 6%nat) by done. clearbody p. clear -Lp Le. list_solve. }
  rewrite El. unfold eh. by apply packet_parts.
Qed.
Lemma framed_decap m hdr y h :
  (14 <= length (content m))%nat -> good_hdr (take 14 (content m)) hdr ->
  heard (hdr ++ llc_snap (take 14 (content m)) ++ drop 14 (content m)) (length hdr + 8) y ->
  exists m1, ieee80211_decap h y (length hdr) = Ok (m1, h) /\ pkt_ok m1 /\ content m1 = content m.
Proof. intros L G [[W _] P C R]. pose proof (gh_len _ _ G). apply carried_decap; [done|lia|apply G|apply G|done|done|done]. Qed.

(** Reassembly lets a whole frame pass. *)
Lemma defrag_passes ticks n id ni y hdr rest (hdrlen : nat) :
  n_nodes n !! id = Some ni -> Node.ni_rxfrag ni = None -> (24 <= length hdr)%nat ->
  Z.land (i_fc1 hdr) IEEE80211_FC1_MORE_FRAG = 0 -> Z.land (rxseq hdr) IEEE80211_SEQ_FRAG_MASK = 0 ->
  heard (hdr ++ rest) (length hdr) y -> IEEE80211_IS_MULTICAST (i_addr1 (head_mtod y)) = false ->
  exists n1, rx_defrag ticks n id y hdrlen = Ok (y, n1) /\ n_ic n1 = n_ic n /\
    exists ni1, n_nodes n1 !! id = Some ni1 /\ ni_ucastkey ni1 = ni_ucastkey ni.
Proof.
  intros En Er L M F [[Wc Sc] P C R] U. destruct y as [|y rs]; [done|]. cbn [head_mtod head_len] in *.
  destruct (frag_fields y rs 24 Wc ltac:(lia) ltac:(lia)) as (F1 & F2 & F3 & F4).
  assert (G1 : i_fc1 (mtod y) = i_fc1 hdr).
  { rewrite F1, C. unfold i_fc1, byte_at. by rewrite app_nth1 by lia. }
  assert (G4 : i_seq (mtod y) = i_seq hdr) by (rewrite F4, C; unfold i_seq; clear -L; list_solve).
  unfold rx_defrag, node_at. rewrite En. cbn [res_bind]. unfold ieee80211_defrag, rxseq in *. rewrite G1, G4, M, F, U.
  cbn [Defrag.ni_rxfrag]. rewrite Er. cbn [Z.eqb negb andb bool_decide res_bind]. rewrite bool_decide_eq_true_2 by done. cbn [andb res_bind].
  eexists. split; [reflexivity|]. split; [done|]. eexists. split; [by apply upd_same|]. done.
Qed.

(** Clearing the protected bit leaves a good header. *)
Lemma unprotect_dir v m : Z.land IEEE80211_FC1_WEP m = 0 -> Z.land (Z.land v (Z.lnot IEEE80211_FC1_WEP)) m = Z.land v m.
Proof.
  intros H. apply Z.bits_inj'. intros i Hi. apply (f_equal (fun x => Z.testbit x i)) in H. rewrite Z.bits_0, Z.land_spec in H.
  rewrite !Z.land_spec, Z.lnot_spec by done. destruct (Z.testbit IEEE80211_FC1_WEP i), (Z.testbit m i), (Z.testbit v i); done.
Qed.
Definition unprotect (hdr : list Z) : list Z := splice 1 [Z.land (i_fc1 hdr) (Z.lnot IEEE80211_FC1_WEP)] hdr.
Lemma unprotect_fields hdr : (24 <= length hdr)%nat ->
  i_fc0 (unprotect hdr) = i_fc0 hdr /\ i_fc1 (unprotect hdr) = Z.land (i_fc1 hdr) (Z.lnot IEEE80211_FC1_WEP) /\
  length (unprotect hdr) = length hdr /\
  forall off len, (2 <= off)%nat -> (off + len <= length hdr)%nat -> sub_list off len (unprotect hdr) = sub_list off len hdr.
Proof.
  intros L. unfold unprotect. set (b := Z.land _ _). destruct hdr as [|b0 [|b1 hdr]]; [cbn in L; lia|cbn in L; lia|].
  split; [done|]. split; [done|]. split; [done|]. intros off len Ho Hl. destruct off as [|[|off]]; [lia|lia|]. done.
Qed.
(** The two addresses only depend on the direction and the first three. *)
Lemma decap_addrs_same eh hdr hdr' : good_hdr eh hdr -> fc_dir hdr' = fc_dir hdr ->
  i_addr1 hdr' = i_addr1 hdr -> i_addr2 hdr' = i_addr2 hdr -> i_addr3 hdr' = i_addr3 hdr -> decap_addrs hdr' = decap_addrs hdr.
Proof.
  intros G D A1 A2 A3. pose proof (gh_len _ _ G) as L. unfold decap_addrs. rewrite D, A1, A2, A3. unfold fc_dir.
  pose proof (gh_size _ _ G) as S. unfold ieee80211_hdrsize in S.
  destruct (Z.land _ IEEE80211_FC0_TYPE_MASK =? _); [done|]. destruct (_ =? IEEE80211_FC1_DIR_DSTODS) eqn:E4.
  - injection S as S. unfold sizeof_frame, IEEE80211_ADDR_LEN in S. destruct (ieee80211_has_qos hdr); lia.
  - destruct (_ =? IEEE80211_FC1_DIR_NODS) eqn:E0; [done|]. destruct (_ =? IEEE80211_FC1_DIR_TODS) eqn:E1; [done|].
    destruct (_ =? IEEE80211_FC1_DIR_FROMDS) eqn:E2; [done|]. exfalso. clear -E0 E1 E2 E4.
    change IEEE80211_FC1_DIR_MASK with (Z.ones 2) in *. rewrite Z.land_ones in * by done.
    pose proof (Z.mod_pos_bound (i_fc1 hdr) (2 ^ 2)). unfold IEEE80211_FC1_DIR_NODS, IEEE80211_FC1_DIR_TODS, IEEE80211_FC1_DIR_FROMDS, IEEE80211_FC1_DIR_DSTODS in *.
    change (2 ^ 2) with 4 in *. lia.
Qed.
Lemma unprotect_good eh hdr : good_hdr eh hdr -> good_hdr eh (unprotect hdr).
Proof.
  intros G. pose proof (gh_len _ _ G) as L. destruct (unprotect_fields hdr ltac:(lia)) as (F0 & F1 & Ln & Fs).
  assert (D : Z.land (i_fc1 (unprotect hdr)) IEEE80211_FC1_DIR_MASK = Z.land (i_fc1 hdr) IEEE80211_FC1_DIR_MASK).
  { rewrite F1. by apply unprotect_dir. }
  split.
  - by rewrite Ln.
  - apply bytes_splice; [|apply G]. constructor; [|constructor]. change (is_u8 (Z.land (byte_at hdr 1) (Z.lnot IEEE80211_FC1_WEP))).
    rewrite Z.land_comm. apply is_u_land_r; [done|]. apply byte_at_range, G.
  - rewrite Ln, <- (gh_size _ _ G). unfold ieee80211_hdrsize, ieee80211_has_qos. by rewrite F0, D.
  - rewrite <- (gh_addrs _ _ G). apply (decap_addrs_same eh); [done|exact D|..]; unfold i_addr1, i_addr2, i_addr3; by rewrite Fs by lia.
  - rewrite F1, unprotect_dir by done. apply G.
  - unfold rxseq, i_seq. rewrite Fs by lia. apply G.
Qed.

(** ** In clear *)

Lemma sends_long n id ni m : sends n id ni m -> (14 <= length (content m))%nat.
Proof.
  intros S. pose proof (sd_eh _ _ _ _ S) as E. destruct m as [|x c]; [done|]. apply content_ge; [apply S|apply E].
Qed.
Lemma heard_field air room y (k : nat) : heard air room y -> (k <= room)%nat -> take k (head_mtod y) = take k air.
Proof.
  intros [[W _] P C R] H. destruct y as [|y rs]; [done|]. inversion_clear W. cbn [head_mtod head_len] in *.
  rewrite (take_mtod y rs) by (done || lia). by rewrite C.
Qed.
Lemma heard_weaken air room room' y : (room' <= room)%nat -> heard air room y -> heard air room' y.
Proof. intros H [O P C R]. split; [done|done|done|lia]. Qed.
Lemma heard_fc1 hdr rest y : (24 <= length hdr)%nat -> heard (hdr ++ rest) (length hdr) y -> i_fc1 (head_mtod y) = i_fc1 hdr.
Proof.
  intros L H. pose proof (heard_field _ _ _ 24 H L) as E. unfold i_fc1. rewrite (byte_at_prefix 24 _ _ 1 E) by lia.
  unfold byte_at. by rewrite app_nth1 by lia.
Qed.

(** After decryption: the frame is whole, and the key has no MIC to check. *)
Lemma open_rest ticks n id ni m hdr y (key : option kloc) :
  n_nodes n !! id = Some ni -> Node.ni_rxfrag ni = None -> (14 <= length (content m))%nat -> good_hdr (take 14 (content m)) hdr ->
  heard (hdr ++ llc_snap (take 14 (content m)) ++ drop 14 (content m)) (length hdr + 8) y ->
  match key with None => True | Some l => exists k, get_key (n_ic n) (ni_ucastkey ni) l = Ok k /\ plain_key k end ->
  exists n1 m1 h1,
    (let! (y, n) := match y with
                    | [] => Fault NullDeref
                    | x :: _ => if IEEE80211_IS_MULTICAST (i_addr1 (mtod x)) then go (y, n)
                                else let* (y, n) := rx_defrag ticks n id y (length hdr) in match y with [] => quit n | _ :: _ => go (y, n) end
                    end in
     match key with
     | None => go (y, key, n)
     | Some l => let* (ok, y, n) := rx_demic n id l y in if ok : bool then go (y, key, n) else drop_frame n y
     end) = go (y, key, n1) /\
    ieee80211_decap (n_heap n1) y (length hdr) = Ok (m1, h1) /\ pkt_ok m1 /\ content m1 = content m.
Proof.
  intros En Er L G H Hk. pose proof (gh_len _ _ G) as Lh. pose proof (hd_head _ _ _ H) as Hy.
  set (step := match y with [] => _ | x :: _ => _ end).
  assert (exists n1, step = go (y, n1) /\ n_ic n1 = n_ic n /\ exists ni1, n_nodes n1 !! id = Some ni1 /\ ni_ucastkey ni1 = ni_ucastkey ni)
    as (n1 & -> & E1 & ni1 & N1 & U1).
  { unfold step. destruct y as [|x rs] eqn:Ey; [done|]. rewrite <- Ey in *. destruct (IEEE80211_IS_MULTICAST _) eqn:Em.
    - exists n. split; [by rewrite Ey|]. split; [done|]. by exists ni.
    - destruct (defrag_passes ticks n id ni y hdr (llc_snap (take 14 (content m)) ++ drop 14 (content m)) (length hdr) En Er ltac:(lia) (gh_more _ _ G) (gh_frag _ _ G))
        as (n1 & E & I & X); [by apply (heard_weaken _ (length hdr + 8)); [lia|]|by rewrite Ey|].
      exists n1. rewrite E. cbn [res_bind]. split; [by rewrite Ey|]. done. }
  unfold rr_then, go. cbn [res_bind]. destruct key as [l|].
  - destruct Hk as (k & Gk & c & Ec & Em). unfold rx_demic, node_at. rewrite N1. cbn [res_bind]. rewrite E1, U1, Gk. cbn [res_bind].
    unfold ieee80211_crypto_demic, key_cipher. rewrite Ec. cbn [res_bind]. rewrite Em. cbn [Nat.ltb Nat.leb res_bind].
    destruct (put_key (n_ic n) (ni_ucastkey ni) l k) as [ic4 u4]. cbn [res_bind].
    destruct (framed_decap m hdr y (n_heap (put_crypto n1 id ic4 u4 (n_heap n1))) L G H) as (m1 & D & O1 & C1).
    eexists _, m1, _. split; [reflexivity|]. split; [exact D|]. done.
  - destruct (framed_decap m hdr y (n_heap n1) L G H) as (m1 & D & O1 & C1). eexists _, m1, _. split; [reflexivity|]. split; [exact D|]. done.
Qed.


(** ** Under a cipher *)

(** Decryption in the receive path, with the protected bit cleared. *)
Lemma rx_decap_ok n id ni y l ic u c2 h hdrlen junk hdr rest :
  n_nodes n !! id = Some ni -> ieee80211_crypto_decap (n_ic n) (ni_ucastkey ni) (n_heap n) junk y hdrlen = Ok (Some l, ic, u, c2, h) ->
  heard (hdr ++ rest) (length hdr + 8) c2 -> (24 <= length hdr)%nat ->
  exists c3, rx_decap n id y hdrlen junk = Ok (c3, put_crypto n id ic u h, Some l) /\ heard (unprotect hdr ++ rest) (length hdr + 8) c3.
Proof.
  intros En Ed H Lh. unfold rx_decap, node_at. rewrite En. cbn [res_bind]. rewrite Ed. cbn [res_bind].
  pose proof (heard_fc1 hdr rest c2 Lh ltac:(by apply (heard_weaken _ (length hdr + 8)); [lia|])) as F.
  destruct H as [O P C R]. destruct c2 as [|x r]; [done|]. cbn [head_mtod head_len] in *. rewrite F.
  eexists. split; [reflexivity|]. pose proof (proj1 O) as W.
  destruct (mstore_ok x r 1 [Z.land (i_fc1 hdr) (Z.lnot IEEE80211_FC1_WEP)] O) as [Om Em]; [cbn; lia| |].
  { constructor; [|constructor]. rewrite Z.land_comm. apply is_u_land_r; [done|]. unfold i_fc1. apply byte_at_range.
    apply (proj1 (proj1 (bytes_app hdr rest) ltac:(rewrite <- C; by apply content_bytes))). }
  split; [exact Om|exact P| |exact R]. rewrite Em, C. apply splice_app_l. cbn [length]. lia.
Qed.


(** ** Witnesses *)

(** A station and an access point of one network, with the keys of [ic]. *)
Definition link_node (flags : Z) : ieee80211_node :=
  set_nflags (set_bssid (set_ucastkey (set_txseqs (set_refcnt zero_node 1) (replicate 17 5)) gk_none) [2; 0; 0; 0; 0; 1]) flags.
Definition net_with (thr : Z) (h : heap) (opmode : Z) (ic : ieee80211com) (flags : Z) : net :=
  mkNet ic (mkKmem [] 0) h {[ 0%nat := link_node flags ]} 1%nat [] (Some 0%nat) (mkTable [] [] 0 0 0 None 0) (mkTable [] [] 0 0 0 None 0)
    opmode 0 IEEE80211_PROT_NONE (mkChan 1 2412 0xa0) (fun _ => [2; 4; 11; 22]) [2; 0; 0; 0; 0; 9] 0 [] [] 0 0 0 0 0 100 100
    0 0 0 4 (-1) 0 0 (replicate 6 0xff) thr idle_wme no_conf [].
Definition link_net : Z -> ieee80211com -> Z -> net := net_with 2346 (mkHeap [] 1).
Definition open_com : ieee80211com := mkCom true 0 0 (fun _ => 0) [] IEEE80211_KEYIX_NONE 4 [].
Definition wep_link_com : ieee80211com := mkCom true IEEE80211_F_PRIVACY 0 (fun _ => 0) [gk_none; gk_none; wep_key; gk_none] 2 4 [].
(** An IP packet, its payload in a second mbuf. *)
Definition link_pkt : list mbuf :=
  [sample_mbuf true 256 ([2; 0; 0; 0; 0; 7] ++ [2; 0; 0; 0; 0; 9] ++ [8; 0]) 24; sample_mbuf false 0 (map Z.of_nat (seq 1 10)) 0].

Lemma link_sends thr h m flags (ic : ieee80211com) :
  pkt_ok m -> match m with x :: _ => has_pkthdr x = true /\ (sizeof_eh <= m_len x)%nat | [] => False end ->
  has_flag (ic_flags ic) IEEE80211_F_DATAPAD = false ->
  ic_def_txkey ic = IEEE80211_KEYIX_NONE \/ (exists k, ic_nw_keys ic !! Z.to_nat (ic_def_txkey ic) = Some k /\ plain_key k) ->
  sends (net_with thr h IEEE80211_M_STA ic flags) 0 (link_node flags) m.
Proof.
  intros O E Hp Hk. split.
  - reflexivity.
  - exact O.
  - exact E.
  - by left.
  - split; [reflexivity|by_compute].
  - exists 0%nat, (link_node flags). repeat split. by_compute.
  - reflexivity.
  - reflexivity.
  - exact Hp.
  - by exists cipher_none.
  - exact Hk.
Qed.

Lemma link_pkt_ok : pkt_ok link_pkt.
Proof. split; [by_compute|]. intros _. reflexivity. Qed.

Abbreviation open_sent := (ieee80211_encap (link_net IEEE80211_M_STA open_com IEEE80211_NODE_QOS) link_pkt 0).
Definition open_air : list Z := match open_sent with Ok ([f], _) => content f | _ => [] end.


Abbreviation wep_sent := (ieee80211_encap (link_net IEEE80211_M_STA wep_link_com 0) link_pkt 0).
Abbreviation wep_crypted := (let* (ps, n) := wep_sent in
  match ps with f :: _ => ieee80211_crypto_encap (n_ic n) gk_none (mkHeap [] 1) f | [] => Fault NullDeref end).
Definition wep_air_bytes : list Z := match wep_crypted with Ok (_, _, _, c, _) => content c | _ => [] end.
Definition wep_heard : list mbuf := [sample_mbuf true 256 wep_air_bytes (Z.of_nat (length wep_air_bytes))].

