(* ===== verification/FragProof.v ===== *)
(** * Fragments from one Ethernet to the other

    [ieee80211_fragment] cuts a frame into fragments that [ieee80211_defrag]
    puts together again. *)

From stdpp Require Import gmap.
From S2P Require Import Prelude Buffers Endian Mbuf MbufProof AesCcmProof AesCcmRfc AesCcmMbuf Ieee80211 FrameProof Crypto CryptoProof CryptoFrame.
From S2P Require Import Defrag InfoElem Wme Node NodeTable NodeProof Rates Mgmt Input Output OutputProof LinkProof.

(** ** What the fragments are *)

(** A header with a fragment number, and without the bit for more. *)
Definition numbered (hdr : list Z) (no : Z) : list Z :=
  splice 22 (le16enc (Z.lor (rxseq hdr) (Z.shiftl (Z.land no IEEE80211_SEQ_FRAG_MASK) IEEE80211_SEQ_FRAG_SHIFT))) hdr.
Definition fc1_with (hdr : list Z) (v : Z) : list Z := splice 1 [v] hdr.
Definition final (hdr : list Z) : list Z := fc1_with hdr (Z.land (i_fc1 hdr) (Z.lnot IEEE80211_FC1_MORE_FRAG)).
Definition more_frag (hdr : list Z) : list Z := fc1_with hdr (Z.lor (i_fc1 hdr) IEEE80211_FC1_MORE_FRAG).

(** The bytes [d] in pieces of [p], at most [k] of them. *)
Fixpoint frag_contents (k : nat) (hdr : list Z) (p : nat) (no : Z) (d : list Z) : list (list Z) :=
  match k with
  | O => []
  | S k => if (length d <=? p)%nat then [final (numbered hdr no) ++ d]
           else (numbered hdr no ++ take p d) :: frag_contents k hdr p (no + 1) (drop p d)
  end.

(** Memory for [k] mbufs. *)
Definition usable (k : nat) (h : heap) : Prop := exists mems rest, h_supply h = map Some mems ++ rest /\ length mems = k.
(** An allocation takes one, or there is none. *)
Lemma usable_get k h type p :
  match m_get_impl h type p with
  | (Some x, h1) => (usable (S k) h -> usable k h1) /\ S (length (h_supply h1)) = length (h_supply h)
  | (None, _) => ~ usable (S k) h
  end.
Proof.
  unfold m_get_impl, sysmalloc, usable. destruct (h_supply h) as [|[mem|] supply]; cbn [h_supply].
  - intros (mems & rest & E & L). by destruct mems.
  - split; [|done]. intros (mems & rest & E & L). destruct mems as [|mem' mems]; [done|]. injection E as -> E. exists mems, rest. cbn in L. split; [done|lia].
  - intros (mems & rest & E & L). by destruct mems.
Qed.
Lemma usable_pred k h : usable (S k) h -> usable k h.
Proof.
  intros (mems & rest & E & L). exists (take k mems), (map Some (drop k mems) ++ rest). split; [|rewrite length_take; lia].
  rewrite E, app_assoc, <- map_app, take_drop. done.
Qed.
Lemma exhausted_usable k h : exhausted h -> ~ usable (S k) h.
Proof. intros X (mems & rest & E & L). destruct mems as [|mem mems]; [done|]. unfold exhausted in X. by rewrite E in X. Qed.

Lemma length_numbered hdr no : (24 <= length hdr)%nat -> length (numbered hdr no) = length hdr.
Proof. intros. apply length_splice. cbn. lia. Qed.
Lemma le16enc_bytes v : bytes (le16enc v).
Proof. repeat constructor; apply u8_range. Qed.
Lemma numbered_bytes hdr no : bytes hdr -> bytes (numbered hdr no).
Proof. intros B. apply bytes_splice; [apply le16enc_bytes|done]. Qed.

(** ** One fragment *)

Lemma frag_bytes (cl hdr pl : list Z) (no : Z) b (hs : nat) :
  length cl = 4352%nat -> length hdr = hs -> (24 <= hs <= 32)%nat -> (hs + length pl <= 4096)%nat -> b = 256%nat ->
  let cl1 := splice (b + 0) hdr cl in
  let cl2 := splice (b + 22) (le16enc (Z.lor (le16dec (sub_list 22 2 (drop b cl1)))
               (Z.shiftl (Z.land no IEEE80211_SEQ_FRAG_MASK) IEEE80211_SEQ_FRAG_SHIFT))) cl1 in
  take (hs + length pl) (drop b (splice (b + hs) pl cl2)) = numbered hdr no ++ pl.
Proof.
  intros Lc Lh Hs Hp -> cl1 cl2. assert (E1 : sub_list 22 2 (drop 256 cl1) = i_seq hdr) by (unfold cl1, i_seq; clear -Lc Lh Hs; list_solve).
  unfold cl2. rewrite E1. fold (rxseq hdr). unfold numbered. set (s2 := le16enc _). assert (L2 : length s2 = 2%nat) by done.
  unfold cl1. clearbody s2. clear -Lc Lh Hs Hp L2. rewrite <- (take_drop 256 cl). set (a := take 256 cl). set (r := drop 256 cl).
  assert (La : length a = 256%nat) by (unfold a; rewrite length_take; lia). assert (Lr : length r = 4096%nat) by (unfold r; rewrite length_drop; lia).
  clearbody a r. change (256 + 0)%nat with 256%nat. rewrite <- La.
  assert (E0 : splice (length a) hdr (a ++ r) = a ++ hdr ++ drop hs r).
  { rewrite <- (Nat.add_0_r (length a)), splice_app_r by lia. f_equal. rewrite <- Lh. unfold splice. by rewrite take_0. }
  rewrite E0, splice_app_r, splice_app_r, drop_app_length, splice_app_l
    by (rewrite ?length_splice, ?length_app, ?length_drop; rewrite ?length_app, ?length_drop; lia).
  set (H := splice 22 s2 hdr). assert (LH : length H = hs) by (unfold H; rewrite length_splice; lia).
  unfold splice. rewrite <- LH at 2. rewrite take_app_length. rewrite <- LH at 2. rewrite drop_app_add.
  rewrite app_assoc, take_app_le by (rewrite length_app; lia). apply take_ge. rewrite length_app. lia.
Qed.

Lemma form_fragment_ok m c0 wh hs no off pl fragsize ch :
  mwf m -> has_pkthdr m = true -> cwf c0 -> bytes wh -> (24 <= hs <= 32)%nat -> (hs <= length wh)%nat -> 0 <= fragsize - ch ->
  (hs + pl <= 4096)%nat -> (off + pl <= length (content c0))%nat ->
  exists x, form_fragment m c0 wh hs no (Z.of_nat off) (Z.of_nat pl) fragsize ch = [x] /\ pkt_ok [x] /\ has_pkthdr x = true /\
    m_len x = (hs + pl)%nat /\ content [x] = numbered (take hs wh) no ++ sub_list off pl (content c0).
Proof.
  intros Wm Pm W0 Bw Hs Lw Hf Hp Ho. unfold form_fragment, m_align. rewrite (proj2 (Z.ltb_ge _ 0)) by lia. rewrite Pm, !Nat2Z.id.
  set (d := m_copydata c0 off pl). assert (Ed : d = sub_list off pl (content c0)) by (by apply m_copydata_spec).
  assert (Ld : length d = pl) by (rewrite Ed; apply length_sub_list; lia).
  assert (Bd : bytes d) by (rewrite Ed; by apply bytes_sub_list, content_bytes).
  rewrite u32_id by (unfold is_u; lia). replace (Z.to_nat (Z.of_nat hs + Z.of_nat pl)) with (hs + pl)%nat by lia.
  eexists. split; [reflexivity|]. pose proof Wm as (Lm & _ & Bm). set (s2 := le16enc _).
  match goal with |- pkt_ok [?x] /\ _ => set (x0 := x) end.
  assert (Ex : mdata x0 = numbered (take hs wh) no ++ d).
  { unfold x0, mdata, s2. cbn [m_data m_len m_cluster set_flags set_ph_len set_hdr set_window mstore set_cluster]. rewrite <- Ld at 1.
    apply frag_bytes; [exact Lm|rewrite length_take; lia|done|lia|done]. }
  assert (W : mwf x0).
  { split; [|split]; cbn [x0 m_data m_len m_cluster set_flags set_ph_len set_hdr set_window mstore set_cluster].
    - assert (S : forall (l b : list Z) o, length l = 4352%nat -> (o + length b <= 4096)%nat -> length (splice (MH_ALIGN + o) b l) = 4352%nat)
        by (intros l b o Hl Hb; rewrite length_splice; [done|unfold MH_ALIGN; lia]).
      apply S; [apply S; [apply S; [exact Lm|rewrite length_take; lia]|]|lia]. change (length s2) with 2%nat. lia.
    - change cluster_size with 4352%nat. change MH_ALIGN with 256%nat. lia.
    - apply bytes_splice; [done|]. apply bytes_splice; [apply le16enc_bytes|]. apply bytes_splice; [by apply bytes_take|done]. }
  assert (Ec : content [x0] = numbered (take hs wh) no ++ d) by (rewrite content_cons, app_nil_r; exact Ex).
  assert (Px : has_pkthdr x0 = true).
  { unfold has_pkthdr in *. cbn [x0 m_flags set_flags set_ph_len set_hdr set_window mstore set_cluster]. apply has_flag_lor. exact Pm. }
  split; [|split; [exact Px|split; [done|by rewrite Ec, Ed]]].
  split; [constructor; [exact W|constructor]|]. intros _. rewrite Ec, length_app, length_numbered, length_take, Ld by (rewrite length_take; lia).
  change (Z.of_nat hs + Z.of_nat pl = Z.of_nat (hs `min` length wh + pl)). lia.
Qed.

(** ** The loop *)

(** A fragment is one mbuf with a packet header. *)
Definition single (f : list mbuf) : Prop := exists x, f = [x] /\ pkt_ok [x] /\ has_pkthdr x = true.

Lemma last_fragment_ok x hdr d : pkt_ok [x] -> has_pkthdr x = true -> content [x] = hdr ++ d -> (24 <= length hdr)%nat ->
  single (last_fragment [x]) /\ content (last_fragment [x]) = final hdr ++ d.
Proof.
  intros O P C L. unfold last_fragment. pose proof (proj1 O) as W. inversion_clear W as [|? ? Wx _].
  assert (Lm : m_len x = length (hdr ++ d)) by (rewrite <- C, length_content by apply O; cbn; lia). rewrite length_app in Lm.
  assert (E1 : byte_at (mtod x) 1 = i_fc1 hdr).
  { rewrite (byte_at_mtod x []) by (done || lia). rewrite C. unfold i_fc1, byte_at. by rewrite app_nth1 by lia. }
  rewrite E1. assert (B : bytes (hdr ++ d)) by (rewrite <- C; by apply content_bytes, O). apply bytes_app in B as [B _].
  destruct (mstore_ok x [] 1 [Z.land (i_fc1 hdr) (Z.lnot IEEE80211_FC1_MORE_FRAG)] O) as [Om Em]; [cbn; lia| |].
  { constructor; [|constructor]. rewrite Z.land_comm. apply is_u_land_r; [done|]. by apply byte_at_range. }
  split; [eexists; by split_and!|]. rewrite Em, C. apply splice_app_l. cbn. lia.
Qed.

Section Loop.
Context (c0 : list mbuf) (wh hdr : list Z) (ch mtu : nat).
Context (W0 : cwf c0) (Bw : bytes wh) (Lw : (length hdr <= length wh)%nat) (Ew : take (length hdr) wh = hdr) (Lh : (24 <= length hdr <= 32)%nat).
Context (Hm : (length hdr + ch < mtu < 4096)%nat) (Hlen : Z.of_nat (length (content c0)) < 2 ^ 31).

Let p : nat := (mtu - (length hdr + ch))%nat.

Lemma frag_loop_ok k : forall fuel h no off done d,
  (length (h_supply h) < fuel)%nat -> drop off (content c0) = d -> (0 < length d <= k * p)%nat -> 1 <= no -> no + Z.of_nat k < 2 ^ 32 ->
  exists r h', frag_loop fuel h c0 wh (length hdr) (Z.of_nat ch) (Z.of_nat mtu) no (Z.of_nat off) (Z.of_nat (length d)) done = Ok (r, h') /\
    match r with
    | None => ~ usable k h
    | Some (l, no') => exists fs, l = done ++ fs /\ no' = no + Z.of_nat (length fs) /\
        map content fs = frag_contents k hdr p no d /\ Forall single fs
    end.
Proof.
  induction k as [|k IH]; intros fuel h no off done d Hf Ed Hd Hno Hk; [lia|]. destruct fuel as [|fuel]; [lia|]. cbn [frag_loop].
  assert (Lo : length d = (length (content c0) - off)%nat) by (rewrite <- Ed; apply length_drop).
  rewrite (u32_id (Z.of_nat (length hdr) + Z.of_nat ch)) by (unfold is_u; lia). rewrite (u32_id (_ + Z.of_nat (length d))) by (unfold is_u; lia).
  set (fragsize := Z.min _ _). assert (Ef : fragsize = Z.of_nat (length hdr + ch + Nat.min (length d) p)) by (unfold fragsize, p; lia).
  rewrite (proj2 (Z.leb_gt _ _)) by (unfold MCLBYTES, p in *; lia). clearbody fragsize.
  pose proof (usable_get k h MT_DATA true) as Hu. pose proof (m_get_impl_spec h MT_DATA true) as G.
  destruct (m_get_impl h MT_DATA true) as [[m|] h1]; [|by eexists None, _].
  destruct Hu as [Hu Hsup]. destruct G as (Wm & _ & _ & Pm & _). set (q := Nat.min (length d) p) in *.
  replace (u32 (fragsize - (Z.of_nat (length hdr) + Z.of_nat ch))) with (Z.of_nat q) by (rewrite u32_id; unfold is_u; unfold q, p in *; lia).
  rewrite (proj2 (Z.ltb_lt _ (2 ^ 31))) by (unfold q in *; lia).
  destruct (form_fragment_ok m c0 wh (length hdr) no off q fragsize (Z.of_nat ch) Wm Pm W0 Bw Lh Lw) as (x & -> & Ox & Px & Lx & Cx);
    [lia|unfold q, p; lia|unfold q; lia|].
  rewrite Ew in Cx. assert (Es : sub_list off q (content c0) = take q d) by (rewrite <- Ed; done). rewrite Es in Cx.
  rewrite (u32_id (Z.of_nat (length d) - _)) by (unfold is_u, q; lia).
  assert (Ln : length (numbered hdr no) = length hdr) by (apply length_numbered; lia). cbn [frag_contents].
  destruct (Nat.leb_spec (length d) p) as [Hle|Hgt].
  - assert (q = length d) as Eq by (unfold q; lia). rewrite (proj2 (Z.eqb_eq _ _)) by lia. rewrite Eq, firstn_all in Cx.
    destruct (last_fragment_ok x (numbered hdr no) d Ox Px Cx ltac:(lia)) as [Sl Cl].
    eexists (Some _), _. split; [reflexivity|]. eexists [_]. split; [reflexivity|]. split; [done|]. cbn [map]. rewrite Cl. split; [done|]. by constructor.
  - assert (q = p) as Eq by (unfold q; lia). rewrite (proj2 (Z.eqb_neq _ _)) by lia.
    rewrite (u32_id (no + 1)), (u32_id (Z.of_nat off + _)) by (unfold is_u; lia). rewrite Eq in *.
    replace (Z.of_nat off + Z.of_nat p) with (Z.of_nat (off + p)) by lia.
    replace (Z.of_nat (length d) - Z.of_nat p) with (Z.of_nat (length (drop p d))) by (rewrite length_drop; lia).
    destruct (IH fuel h1 (no + 1) (off + p)%nat (done ++ [[x]]) (drop p d)) as (r & h' & E & Hr);
      [lia|by rewrite <- Ed, drop_drop|rewrite length_drop; lia|lia|lia|].
    rewrite E. eexists _, _. split; [reflexivity|]. destruct r as [[l no']|]; [|by auto].
    destruct Hr as (fs & -> & -> & Cf & Sf). exists ([x] :: fs). rewrite <- app_assoc. cbn [app length map]. split; [done|]. split; [lia|].
    rewrite Cx, Cf. split; [done|]. constructor; [|done]. by exists x.
Qed.

End Loop.

(** ** A frame in fragments *)

Lemma length_more hdr : (24 <= length hdr)%nat -> length (more_frag hdr) = length hdr.
Proof. intros. apply length_splice. cbn. lia. Qed.

Lemma fragment_ok ic h m0 hdr d ch mtu k :
  pkt_ok m0 -> head_pkthdr m0 = true -> content m0 = hdr ++ d -> (24 <= length hdr <= 32)%nat -> (length hdr <= head_len m0)%nat ->
  (length hdr + ch < mtu < 4096)%nat -> (mtu < length (content m0))%nat -> Z.of_nat (length (content m0)) < 2 ^ 31 ->
  let p := (mtu - (length hdr + ch))%nat in
  (length d <= (k + 1) * p)%nat -> Z.of_nat k < 2 ^ 31 ->
  (exists m1 ic' h', ieee80211_fragment ic h m0 (length hdr) (Z.of_nat ch) (Z.of_nat mtu) = Ok (None, m1, ic', h') /\ ~ usable k h) \/
  exists f0 fs ic' h', ieee80211_fragment ic h m0 (length hdr) (Z.of_nat ch) (Z.of_nat mtu) = Ok (Some (f0 :: fs), f0, ic', h') /\
    pkt_ok f0 /\ head_pkthdr f0 = true /\ content f0 = more_frag hdr ++ take p d /\
    (forall j, (j <= head_len m0)%nat -> (j <= length hdr + p)%nat -> (j <= head_len f0)%nat) /\
    Forall single fs /\ map content fs = frag_contents k (more_frag hdr) p 1 (drop p d).
Proof.
  intros O P C Lh Rh Hm Hlt Hs p Hk Hk2. rewrite Nat.mul_add_distr_r, Nat.mul_1_l in Hk. destruct m0 as [|x rest]; [done|]. unfold ieee80211_fragment. cbn [head_pkthdr head_len] in *.
  rewrite (pkt_ok_ph x rest O P). rewrite (proj2 (Z.leb_gt _ _)) by lia. pose proof (proj1 O) as W. inversion_clear W as [|? ? Wx _].
  assert (Ld : length (content (x :: rest)) = (length hdr + length d)%nat) by (by rewrite C, length_app).
  assert (Hpd : (p < length d)%nat) by (unfold p; lia).
  assert (E1 : byte_at (mtod x) 1 = i_fc1 hdr).
  { rewrite (byte_at_mtod x rest) by (done || lia). rewrite C. unfold i_fc1, byte_at. by rewrite app_nth1 by lia. }
  assert (B : bytes (hdr ++ d)) by (rewrite <- C; by apply content_bytes, O). apply bytes_app in B as [Bh Bd].
  rewrite E1. destruct (mstore_ok x rest 1 [Z.lor (i_fc1 hdr) IEEE80211_FC1_MORE_FRAG] O) as [Om Em]; [cbn; lia| |].
  { constructor; [|constructor]. apply is_u_lor; [done|by apply byte_at_range|done]. }
  rewrite C, splice_app_l in Em by (cbn; lia). change (splice 1 _ hdr) with (more_frag hdr) in Em. set (x1 := mstore x 1 _) in *.
  pose proof (length_more hdr ltac:(lia)) as Lm. cbv zeta.
  assert (Eo : u32 (Z.of_nat mtu - Z.of_nat ch) = Z.of_nat (length hdr + p)) by (rewrite u32_id; unfold is_u, p; lia). rewrite Eo.
  assert (Lc : length (content (x1 :: rest)) = length (content (x :: rest))) by (rewrite Em, C, !length_app; lia).
  assert (Edr : drop (length hdr + p) (content (x1 :: rest)) = drop p d) by (rewrite Em, <- Lm, drop_app_add; done).
  assert (Er : u32 (Z.of_nat (length (content (x :: rest))) - Z.of_nat (length hdr + p)) = Z.of_nat (length (drop p d))).
  { rewrite u32_id; rewrite ?length_drop; unfold is_u, p in *; lia. }
  rewrite Er. assert (Wx1 : mwf x1) by (pose proof (proj1 Om) as W; by inversion_clear W).
  assert (Ew : take (length (more_frag hdr)) (mtod x1) = more_frag hdr).
  { rewrite (take_mtod x1 rest) by (done || (change (m_len x1) with (m_len x); lia)). rewrite Em. apply take_app_length. }
  destruct (frag_loop_ok (x1 :: rest) (mtod x1) (more_frag hdr) ch mtu (proj1 Om) (mtod_bytes x1 Wx1)) with (k := k) (fuel := S (length (h_supply h)))
    (h := h) (no := 1) (off := (length hdr + p)%nat) (done := @nil (list mbuf)) (d := drop p d) as (r & h' & E & Hr);
    [pose proof (length_mtod x1 Wx1) as X; change (m_len x1) with (m_len x) in X; lia|exact Ew|lia|lia|rewrite Lc; lia|
     lia|exact Edr|rewrite Lm, length_drop; fold p; clearbody p; lia|lia|lia|].
  rewrite Lm in E, Hr. rewrite E. cbn [res_bind]. clear E. destruct r as [[l no']|]; [|left; by eexists _, _, _].
  right. destruct Hr as (fs & -> & -> & Cf & Sf). cbn [app].
  replace (- (Z.of_nat (length (content (x :: rest))) - Z.of_nat (length hdr + p))) with (- Z.of_nat (length d - p)) by (unfold p in *; lia).
  destruct (m_adj_spec (x1 :: rest) (- Z.of_nat (length d - p)) (proj1 Om)) as (Ea & Wa & Sa).
  pose proof (m_adj_head (x1 :: rest) (- Z.of_nat (length d - p))) as Ha. cbn [head_pkthdr] in Ha. change (has_pkthdr x1) with (has_pkthdr x) in Ha.
  pose proof (m_adj_back_head (x1 :: rest) (length d - p)) as Hb. 
  assert (Ca : content (m_adj (x1 :: rest) (- Z.of_nat (length d - p))) = more_frag hdr ++ take p d).
  { rewrite Ea. unfold adj_spec. rewrite (proj2 (Z.leb_gt _ _)) by lia. rewrite Em.
    replace (_ - _)%nat with (length (more_frag hdr) + p)%nat by (rewrite length_app; lia). apply take_app_add. }
  destruct (m_adj (x1 :: rest) (- Z.of_nat (length d - p))) as [|f0 r0] eqn:Eadj; [rewrite P in Ha; discriminate Ha|].
  eexists _, fs, _, _. split; [reflexivity|]. cbn [head_pkthdr] in *.
  assert (Pf : has_pkthdr (set_flags f0 (Z.lor (m_flags f0) (Z.lor M_FIRSTFRAG M_FRAG))) = true).
  { unfold has_pkthdr in *. cbn [set_flags m_flags]. apply has_flag_lor. rewrite <- P. exact Ha. }
  split; [|split; [exact Pf|split; [exact Ca|split; [|done]]]].
  - inversion_clear Wa. split; [by constructor|]. intros _. apply Sa. by rewrite Ha.
  - intros j Hj1 Hj2. apply Hb; [apply Om|exact Hj1|]. rewrite Ca, length_app, length_take, Lm. lia.
Qed.

(** ** The fragments belong together *)

Lemma lor_disjoint a b : 0 <= b < 16 -> Z.land a 15 = 0 -> Z.lor a b = a + b.
Proof.
  intros Hb Ha. rewrite <- Z.lxor_lor, <- Z.add_nocarry_lxor; [done|..].
  all: apply Z.bits_inj'; intros i Hi; rewrite Z.land_spec, Z.bits_0.
  all: destruct (Z.ltb_spec i 4); [|rewrite (Z.bits_above_log2 b), andb_false_r; [done|lia|]].
  all: try (apply (f_equal (fun x => Z.testbit x i)) in Ha; rewrite Z.bits_0, Z.land_spec in Ha;
            change 15 with (Z.ones 4) in Ha; rewrite Z.testbit_ones_nonneg, (proj2 (Z.ltb_lt _ _)), andb_true_r in Ha by lia; by rewrite Ha).
  all: destruct (Z.eq_dec b 0) as [->|]; [cbn; lia|]; apply Z.log2_lt_pow2; [lia|]; apply (Z.lt_le_trans _ (2 ^ 4)); [lia|]; apply Z.pow_le_mono_r; lia.
Qed.

(** Only the flags change. *)
Lemma fc1_with_fields (l : list Z) (v : Z) (d : list Z) : (24 <= length l)%nat ->
  i_seq (fc1_with l v ++ d) = i_seq l /\ i_addr1 (fc1_with l v ++ d) = i_addr1 l /\ i_addr2 (fc1_with l v ++ d) = i_addr2 l /\
  i_fc1 (fc1_with l v ++ d) = v /\ length (fc1_with l v) = length l.
Proof.
  intros L. destruct l as [|b0 [|b1 l]]; [cbn in L; lia|cbn in L; lia|]. unfold fc1_with, splice. cbn [take drop app length Nat.add].
  unfold i_seq, i_addr1, i_addr2. cbn [length] in L.
  assert (E : forall off len, (2 <= off)%nat -> (off + len <= 24)%nat -> sub_list off len (b0 :: v :: l ++ d) = sub_list off len (b0 :: b1 :: l)).
  { intros off len Ho Hl. destruct off as [|[|off]]; [lia|lia|]. unfold sub_list. cbn [drop]. rewrite drop_app_le, take_app_le by (rewrite ?length_drop; lia). done. }
  split; [by apply E; lia|]. split; [by apply E; lia|]. split; [by apply E; lia|]. done.
Qed.
Lemma final_more l (d : list Z) : (24 <= length l)%nat -> Z.land (i_fc1 (final l ++ d)) IEEE80211_FC1_MORE_FRAG = 0.
Proof.
  intros L. unfold final. destruct (fc1_with_fields l (Z.land (i_fc1 l) (Z.lnot IEEE80211_FC1_MORE_FRAG)) d L) as (_ & _ & _ & -> & _).
  rewrite <- Z.land_assoc. change (Z.land (Z.lnot IEEE80211_FC1_MORE_FRAG) IEEE80211_FC1_MORE_FRAG) with 0. apply Z.land_0_r.
Qed.
Lemma frag_related_fields a b : rxseq a = rxseq b + 1 -> i_addr1 a = i_addr1 b -> i_addr2 a = i_addr2 b -> frag_related a b = true.
Proof.
  intros E1 E2 E3. unfold frag_related, IEEE80211_ADDR_EQ. rewrite E1, E2, E3, Z.eqb_refl. by rewrite !bool_decide_eq_true_2.
Qed.

Section Linked.
Context (hdr : list Z) (Lh : (24 <= length hdr)%nat) (Fr : Z.land (rxseq hdr) IEEE80211_SEQ_FRAG_MASK = 0).

Lemma rxseq_u16 : is_u 16 (rxseq hdr).
Proof using. unfold rxseq, le16dec. apply u16_range. Qed.

(** The fields of a fragment, with and without the bit for more. *)
Lemma numbered_fields (no : Z) (d : list Z) : 0 <= no < 16 ->
  rxseq (numbered hdr no ++ d) = rxseq hdr + no /\ i_addr1 (numbered hdr no ++ d) = i_addr1 hdr /\
  i_addr2 (numbered hdr no ++ d) = i_addr2 hdr /\ i_fc1 (numbered hdr no ++ d) = i_fc1 hdr.
Proof using Lh Fr.
  intros Hn. assert (Ls : forall v, length (le16enc v) = 2%nat) by done. unfold numbered. set (v := Z.lor _ _).
  assert (Ev : v = rxseq hdr + no).
  { unfold v. change IEEE80211_SEQ_FRAG_MASK with (Z.ones 4) at 1. rewrite Z.land_ones, Z.mod_small, Z.shiftl_0_r by (done || (change (2 ^ 4) with 16; lia)).
    by apply lor_disjoint. }
  assert (Hv : is_u 16 v).
  { unfold v. apply is_u_lor; [done|apply rxseq_u16|]. change IEEE80211_SEQ_FRAG_MASK with (Z.ones 4). rewrite Z.land_ones, Z.mod_small, Z.shiftl_0_r by (done || (change (2 ^ 4) with 16; lia)).
    unfold is_u. lia. }
  split; [|split; [|split]].
  - unfold rxseq at 1. assert (i_seq (splice 22 (le16enc v) hdr ++ d) = le16enc v) as ->.
    { unfold i_seq. specialize (Ls v). set (s := le16enc v) in *. clearbody s. clear -Ls Lh. list_solve. }
    rewrite le16dec_enc by done. exact Ev.
  - unfold i_addr1. specialize (Ls v). set (s := le16enc v) in *. clearbody s. clear -Ls Lh. list_solve.
  - unfold i_addr2. specialize (Ls v). set (s := le16enc v) in *. clearbody s. clear -Ls Lh. list_solve.
  - unfold i_fc1, byte_at. rewrite app_nth1 by (rewrite length_splice by (cbn; lia); lia).
    destruct hdr as [|b0 [|b1 l]]; [cbn in Lh; lia|cbn in Lh; lia|]. done.
Qed.


Context (Mr : Z.land (i_fc1 hdr) IEEE80211_FC1_MORE_FRAG <> 0).

(** Chains with these contents continue [prev] and hold the bytes. *)
Lemma contents_linked k : forall no d prev ys p,
  map content ys = frag_contents k hdr p no d -> (0 < length d <= k * p)%nat -> 1 <= no -> no + Z.of_nat k <= 16 ->
  rxseq (content prev) = rxseq hdr + (no - 1) -> i_addr1 (content prev) = i_addr1 hdr -> i_addr2 (content prev) = i_addr2 hdr ->
  frags_linked prev ys /\ payloads (length hdr) ys = d /\ ys <> [].
Proof using Lh Fr Mr.
  induction k as [|k IH]; intros no d prev ys p E Hd Hno Hk Hs H1 H2; [lia|]. cbn [frag_contents] in E.
  destruct (numbered_fields no (if (length d <=? p)%nat then d else take p d) ltac:(lia)) as (Es & E1 & E2 & E3).
  assert (Ln : length (numbered hdr no) = length hdr) by (by apply length_numbered).
  assert (P : forall (a : list Z) b, length a = length hdr -> drop (length hdr) (a ++ b) = b) by (intros a b <-; apply drop_app_length).
  destruct (Nat.leb_spec (length d) p).
  - destruct ys as [|y [|z ys]]; cbn [map] in E; [done| |done]. injection E as E.
    destruct (fc1_with_fields (numbered hdr no) (Z.land (i_fc1 (numbered hdr no)) (Z.lnot IEEE80211_FC1_MORE_FRAG)) d ltac:(lia)) as (Fs & F1 & F2 & _ & Lf).
    fold (final (numbered hdr no)) in *. pose proof (numbered_fields no [] ltac:(lia)) as (G0 & G1 & G2 & _). rewrite app_nil_r in G0, G1, G2.
    cbn [frags_linked]. split; [split|split; [|done]].
    + apply frag_related_fields; [|rewrite E, F1, G1; done|rewrite E, F2, G2; done]. unfold rxseq in *. rewrite E, Fs, G0, Hs. lia.
    + unfold frag_more. rewrite E, final_more by lia. done.
    + unfold payloads. cbn [map concat]. rewrite E, app_nil_r. apply P. by rewrite Lf.
  - destruct ys as [|y ys]; cbn [map] in E; [done|]. injection E as E Er.
    destruct (IH (no + 1) (drop p d) y ys p Er) as (L & Q & N); [rewrite length_drop; lia|lia|lia|rewrite E, Es; lia|by rewrite E|by rewrite E|].
    cbn [frags_linked]. split; [split|split; [|done]].
    + apply frag_related_fields; [rewrite E, Es, Hs; lia|by rewrite E, E1|by rewrite E, E2].
    + destruct ys as [|z ys]; [done|]. split; [|exact L]. unfold frag_more. rewrite E, E3. by apply negb_true_iff, Z.eqb_neq.
    + unfold payloads in *. cbn [map concat]. rewrite Q, E, P by done. apply take_drop.
Qed.
End Linked.

(** No fragment is longer than the first, and all have the same receiver. *)
Lemma frag_contents_shape hdr p k : (24 <= length hdr)%nat -> Z.land (rxseq hdr) IEEE80211_SEQ_FRAG_MASK = 0 -> forall no d, 0 <= no -> no + Z.of_nat k <= 16 ->
  Forall (fun c => (length c <= length hdr + p)%nat /\ i_addr1 c = i_addr1 hdr) (frag_contents k hdr p no d).
Proof.
  intros L F. induction k as [|k IH]; intros no d Hno Hk; [constructor|]. cbn [frag_contents].
  pose proof (length_numbered hdr no L) as Ln.
  destruct (Nat.leb_spec (length d) p).
  - constructor; [|constructor]. 
    destruct (fc1_with_fields (numbered hdr no) (Z.land (i_fc1 (numbered hdr no)) (Z.lnot IEEE80211_FC1_MORE_FRAG)) d ltac:(lia)) as (_ & F1 & _ & _ & Lf).
    fold (final (numbered hdr no)) in *. rewrite length_app, Lf, Ln. split; [lia|]. rewrite F1.
    pose proof (numbered_fields hdr L F no [] ltac:(lia)) as (_ & G & _). by rewrite app_nil_r in G.
  - constructor; [|apply IH; lia]. rewrite length_app, Ln, length_take. split; [lia|]. by apply numbered_fields; [..|lia].
Qed.

(** The header of the reassembled frame. *)
Lemma more_frag_fields hdr : (24 <= length hdr)%nat -> bytes hdr ->
  i_seq (more_frag hdr) = i_seq hdr /\ i_addr1 (more_frag hdr) = i_addr1 hdr /\ i_addr2 (more_frag hdr) = i_addr2 hdr /\
  i_fc1 (more_frag hdr) = Z.lor (i_fc1 hdr) IEEE80211_FC1_MORE_FRAG /\ i_addr3 (more_frag hdr) = i_addr3 hdr /\ bytes (more_frag hdr).
Proof.
  intros L B. destruct (fc1_with_fields hdr (Z.lor (i_fc1 hdr) IEEE80211_FC1_MORE_FRAG) [] L) as (E0 & E1 & E2 & E3 & _). rewrite app_nil_r in *.
  split; [done|]. split; [done|]. split; [done|]. split; [done|]. split.
  - unfold more_frag, fc1_with, i_addr3. set (b := [_]). assert (Lb : length b = 1%nat) by done. clearbody b. clear -L Lb. list_solve.
  - apply bytes_splice; [|done]. constructor; [|constructor]. apply is_u_lor; [done|by apply byte_at_range|done].
Qed.
Lemma reassembled_hdr eh hdr s : good_hdr eh hdr -> length s = 2%nat -> bytes s ->
  let hdr' := splice 22 s (more_frag hdr) in length hdr' = length hdr /\ bytes hdr' /\ decap_addrs hdr' = take 12 eh.
Proof.
  intros G Ls Bs hdr'. pose proof (gh_len _ _ G) as L. destruct (more_frag_fields hdr ltac:(lia) (gh_bytes _ _ G)) as (_ & A1 & A2 & F & A3 & B).
  pose proof (length_more hdr ltac:(lia)) as Lm. split; [unfold hdr'; rewrite length_splice; lia|]. split; [by apply bytes_splice|].
  rewrite <- (gh_addrs _ _ G). apply (decap_addrs_same eh); [done|..].
  - unfold fc_dir. assert (i_fc1 hdr' = i_fc1 (more_frag hdr)) as ->.
    { unfold hdr'. destruct (more_frag hdr) as [|b0 [|b1 l]]; [cbn in Lm; lia|cbn in Lm; lia|]. done. }
    rewrite F, Z.land_lor_distr_l. change (Z.land IEEE80211_FC1_MORE_FRAG IEEE80211_FC1_DIR_MASK) with 0. apply Z.lor_0_r.
  - rewrite <- A1. unfold hdr', i_addr1. clear -Lm L Ls. set (l := more_frag hdr) in *. clearbody l. list_solve.
  - rewrite <- A2. unfold hdr', i_addr2. clear -Lm L Ls. set (l := more_frag hdr) in *. clearbody l. list_solve.
  - rewrite <- A3. unfold hdr', i_addr3. clear -Lm L Ls. set (l := more_frag hdr) in *. clearbody l. list_solve.
Qed.

(** ** From fragments to the packet *)

(** [hdr] and the payload [d], cut as [ieee80211_fragment] does and heard in any
    layout, are put together again. *)
Lemma cut_reassembles eh hdr d p k ticks fn h y0 ys :
  good_hdr eh hdr -> IEEE80211_IS_MULTICAST (i_addr1 hdr) = false -> (8 <= p < length d)%nat -> (length d <= (k + 1) * p)%nat -> (k <= 15)%nat ->
  Defrag.ni_rxfrag fn = None -> Defrag.ni_table fn = true ->
  heard (more_frag hdr ++ take p d) (length hdr + 8) y0 ->
  map content ys = frag_contents k (more_frag hdr) p 1 (drop p d) -> Forall (fun y => heard (content y) (length hdr) y) ys ->
  exists c fn' hdr', defrag_all ticks fn h (y0 :: ys) (length hdr) = Ok (replicate (length ys) [] ++ [c], fn', h) /\ Defrag.ni_rxfrag fn' = None /\
    cwf c /\ (length hdr + 8 <= head_len c)%nat /\ content c = hdr' ++ d /\ length hdr' = length hdr /\ bytes hdr' /\ decap_addrs hdr' = take 12 eh.
Proof.
  intros G U Hp Hd Hk Fn Ft H0 Ec Hy. pose proof (gh_len _ _ G) as L. rewrite Nat.mul_add_distr_r, Nat.mul_1_l in Hd.
  destruct (more_frag_fields hdr ltac:(lia) (gh_bytes _ _ G)) as (Sq & A1 & A2 & F & A3 & B). pose proof (length_more hdr ltac:(lia)) as Lm.
  assert (Fz : Z.land (rxseq (more_frag hdr)) IEEE80211_SEQ_FRAG_MASK = 0) by (unfold rxseq; rewrite Sq; apply G).
  assert (Mz : Z.land (i_fc1 (more_frag hdr)) IEEE80211_FC1_MORE_FRAG <> 0).
  { rewrite F, Z.land_lor_distr_l. change (Z.land IEEE80211_FC1_MORE_FRAG IEEE80211_FC1_MORE_FRAG) with 4. intros E. apply Z.lor_eq_0_iff in E. lia. }
  destruct H0 as [[W0 S0] P0 C0 R0].
  assert (Fy0 : i_seq (content y0) = i_seq hdr /\ i_addr1 (content y0) = i_addr1 hdr /\ i_addr2 (content y0) = i_addr2 hdr /\ i_fc1 (content y0) = i_fc1 (more_frag hdr)).
  { rewrite C0, <- Sq, <- A1, <- A2. unfold i_seq, i_addr1, i_addr2, i_fc1, byte_at. rewrite app_nth1 by lia.
    assert (E : forall off len, (off + len <= 24)%nat -> sub_list off len (more_frag hdr ++ take p d) = sub_list off len (more_frag hdr)).
    { intros off len Ho. unfold sub_list. rewrite drop_app_le, take_app_le by (rewrite ?length_drop; lia). done. }
    rewrite !E by lia. done. }
  destruct Fy0 as (Fs & F1 & F2 & F3).
  destruct (contents_linked (more_frag hdr) ltac:(lia) Fz Mz k 1 (drop p d) y0 ys p Ec) as (Lk & Pl & Ne);
    [rewrite length_drop; lia|lia|lia|unfold rxseq; rewrite Fs, Sq; lia|by rewrite F1|by rewrite F2|].
  pose proof (frag_contents_shape (more_frag hdr) p k ltac:(lia) Fz 1 (drop p d) ltac:(lia) ltac:(lia)) as Sh. rewrite <- Ec in Sh.
  assert (Fr : Forall (frag_ok (length hdr)) (y0 :: ys)).
  { constructor; [split; [done|destruct y0; [done|cbn [head_len] in R0; lia]|lia|by rewrite F1]|].
    apply list.Forall_forall. intros y Iy. pose proof (proj1 (list.Forall_forall _ _) Hy y Iy) as [[Wy _] Py _ Ry].
    split; [done|by destruct y|lia|].
    destruct (proj1 (list.Forall_forall _ _) Sh (content y)) as [_ ->]; [by apply (list_elem_of_fmap_2 content)|]. by rewrite A1. }
  destruct (defrag_frags ticks fn h y0 ys (length hdr) Fn Ft Fr) as (c & fn' & E & N & C & _ & Wc & Hc); [| |exact Lk|].
  { unfold frag_no, rxseq. rewrite Fs. apply G. }
  { unfold frag_more. rewrite F3. by apply negb_true_iff, Z.eqb_neq. }
  set (s := i_seq (content (List.last ys y0))) in *.
  assert (Hs : length s = 2%nat /\ bytes s).
  { unfold s. destruct ys as [|z ys]; [done|]. inversion_clear Fr as [|? ? _ Fr']. apply (frag_seq_ok (length hdr)). by apply last_Forall. }
  exists c, fn', (splice 22 s (more_frag hdr)). split; [exact E|]. split; [exact N|]. split; [exact Wc|]. split; [by rewrite Hc|].
  split; [|apply reassembled_hdr; [done|apply Hs|apply Hs]]. rewrite C, C0, splice_app_l by (rewrite (proj1 Hs); lia). rewrite Lm in Pl. rewrite <- app_assoc, Pl. f_equal. apply take_drop.
Qed.

(** Each fragment is heard as it was sent, the headers in its first mbuf. *)
Definition all_heard (hdrlen : nat) (ps ys : list (list mbuf)) : Prop :=
  Forall2 (fun f y => heard (content f) hdrlen y) ps ys /\
  match ys with y :: _ => (hdrlen + 8 <= head_len y)%nat | [] => False end.

Lemma all_heard_contents hdrlen ps ys : Forall2 (fun f y => heard (content f) hdrlen y) ps ys ->
  map content ys = map content ps /\ Forall (fun y => heard (content y) hdrlen y) ys.
Proof.
  induction 1 as [|f y ps ys [O P C R] _ [E F]]; [done|]. cbn [map]. rewrite C, E. split; [done|]. by constructor.
Qed.

(** C15. Fragmentation: whatever packet an interface may send, with a threshold
    that leaves room for headers and at most sixteen fragments, encapsulation
    returns; it gives nothing only for lack of memory, one frame when nothing
    has to be cut, and otherwise fragments none of which is over the
    threshold.  Heard in order, in any layout, by a node with nothing pending,
    the fragments are held back until the last, which brings a frame that
    [ieee80211_decap] turns into the packet that was sent. *)
Theorem fragments_cross (n : net) (id : nat) (ni : ieee80211_node) (m : list mbuf) (Hs : sends n id ni m)
    (Ht : 64 <= ic_fragthreshold n < 4096) (Hl : Z.of_nat (length (content m)) <= 15 * (ic_fragthreshold n - 34)) :
  exists ps n', ieee80211_encap n m id = Ok (ps, n') /\
    match ps with
    | [] => ~ usable 16 (n_heap n)
    | [f] => cut n f = false
    | f0 :: fs => exists hdrlen, ieee80211_hdrsize (content f0) = Ok hdrlen /\
        Forall (fun f => Z.of_nat (length (content f)) <= ic_fragthreshold n) ps /\
        forall ticks fn h ys, Defrag.ni_rxfrag fn = None -> Defrag.ni_table fn = true -> all_heard hdrlen ps ys ->
          exists c fn' m1, defrag_all ticks fn h ys hdrlen = Ok (replicate (length fs) [] ++ [c], fn', h) /\ Defrag.ni_rxfrag fn' = None /\
            ieee80211_decap h c hdrlen = Ok (m1, h) /\ pkt_ok m1 /\ content m1 = content m
    end.
Proof.
  pose proof (sends_long _ _ _ _ Hs) as L. destruct (encap_stages n id ni m Hs) as [(n1 & -> & X)|(f & hdr & ch & n1 & F & Hch & T & _ & Hh & ->)].
  { eexists _, _. split; [reflexivity|]. by apply exhausted_usable. }
  destruct (cut n f) eqn:Ecut; [|by eexists _, _]. pose proof (gh_len _ _ (fr_hdr _ _ _ F)) as Lh. destruct F as [Of Pf Gf Rf Cf].
  assert (Le : length (take 14 (content m)) = 14%nat) by (rewrite length_take; lia).
  set (d := llc_snap (take 14 (content m)) ++ drop 14 (content m)) in *.
  assert (Ld : length d = (8 + (length (content m) - 14))%nat) by (unfold d; rewrite length_app, length_llc_snap, length_drop by done; done).
  rewrite T. set (mtu := Z.to_nat (ic_fragthreshold n)). assert (Em : ic_fragthreshold n = Z.of_nat mtu) by (unfold mtu; lia). rewrite Em in *.
  assert (Lf : length (content f) = (length hdr + length d)%nat) by (by rewrite Cf, length_app).
  unfold cut in Ecut. rewrite Em in Ecut. apply andb_true_iff in Ecut as [[Hc1%Z.ltb_lt Hc2%negb_true_iff]%andb_true_iff _].
  assert (Pf1 : i_addr1 (content f) = i_addr1 hdr) by (rewrite Cf; unfold i_addr1, sub_list; rewrite drop_app_le, take_app_le by (rewrite ?length_drop; lia); done).
  rewrite Pf1 in Hc2. set (p := (mtu - (length hdr + ch))%nat).
  destruct (fragment_ok (n_ic n1) (n_heap n1) f hdr d ch mtu 15 Of Pf Cf ltac:(lia) ltac:(lia) ltac:(lia) ltac:(lia) ltac:(lia) ltac:(lia) ltac:(lia))
    as [(m1 & ic' & h' & -> & Nu)|(f0 & fs & ic' & h' & -> & O0 & P0 & C0 & R0 & Sf & Cfs)]; cbn [res_bind].
  { eexists _, _. split; [reflexivity|]. intros U. apply Nu. destruct Hh as [->|(t & z & Eg)]; [by apply usable_pred|].
    pose proof (usable_get 15 (n_heap n) t true) as Ug. rewrite Eg in Ug. by apply Ug. }
  fold p in C0, R0, Cfs. assert (Hp : (8 <= p < length d)%nat) by (unfold p; lia). assert (Hp2 : (length d <= (15 + 1) * p)%nat) by (unfold p; lia).
  pose proof (length_more hdr ltac:(lia)) as Lm. destruct (more_frag_fields hdr ltac:(lia) (gh_bytes _ _ Gf)) as (Sq & A1 & A2 & Fm & A3 & B).
  eexists _, _. split; [reflexivity|]. destruct fs as [|g fs]; [exfalso; cbn [map frag_contents] in Cfs; by destruct (length (drop p d) <=? p)%nat|].
  exists (length hdr). split; [|split].
  - rewrite C0, <- (gh_size _ _ Gf). unfold ieee80211_hdrsize, ieee80211_has_qos, i_fc0. assert (i_fc1 (more_frag hdr ++ take p d) = i_fc1 (more_frag hdr)) as ->
      by (unfold i_fc1, byte_at; by rewrite app_nth1 by lia). rewrite Fm, Z.land_lor_distr_l.
    change (Z.land IEEE80211_FC1_MORE_FRAG IEEE80211_FC1_DIR_MASK) with 0. rewrite Z.lor_0_r. unfold more_frag, fc1_with.
    destruct hdr as [|b0 [|b1 hdr]]; [cbn in Lh; lia|cbn in Lh; lia|]. done.
  - pose proof (frag_contents_shape (more_frag hdr) p 15 ltac:(lia) ltac:(unfold rxseq; rewrite Sq; apply Gf) 1 (drop p d) ltac:(lia) ltac:(lia)) as Sh.
    rewrite <- Cfs in Sh. constructor; [rewrite C0, length_app, length_take; unfold p in *; lia|].
    apply list.Forall_forall. intros y Iy. destruct (proj1 (list.Forall_forall _ _) Sh (content y)) as [Hy _]; [by apply (list_elem_of_fmap_2 content)|].
    unfold p in *. lia.
  - intros ticks fn h ys Fn Ft [Hy Hy0]. destruct (all_heard_contents _ _ _ Hy) as [Ec Fy]. destruct ys as [|y0 ys]; [done|].
    cbn [map] in Ec. injection Ec as Ec0 Ec. rewrite <- Ec0 in C0. cbn [map] in Cfs. rewrite Cfs in Ec. inversion_clear Fy as [|? ? [O1 P1 _ R1] Fys].
    destruct (cut_reassembles (take 14 (content m)) hdr d p 15 ticks fn h y0 ys Gf Hc2 Hp Hp2 ltac:(lia) Fn Ft) as (c & fn' & hdr' & E & N & Wc & Hc & Cc & Lc & Bc & Ac);
      [by split|exact Ec|exact Fys|].
    rewrite <- Lc in Hc. destruct (carried_decap m hdr' c h L ltac:(lia) Bc Ac Wc Cc Hc) as (m1 & E1 & O' & C1). rewrite Lc in E1.
    exists c, fn', m1. assert (length ys = length (g :: fs)) as <- by (apply Forall2_length in Hy; cbn [length] in *; lia). done.
Qed.

(** ** A witness *)

(** A packet of 104 bytes with a threshold of 64: three fragments. *)
Definition long_pkt : list mbuf :=
  [sample_mbuf true 256 ([2; 0; 0; 0; 0; 7] ++ [2; 0; 0; 0; 0; 9] ++ [8; 0] ++ map Z.of_nat (seq 1 90)) 104].
Definition frag_net : net := net_with 64 (mkHeap (replicate 20 (Some [])) 1) IEEE80211_M_STA open_com 0.
Definition frag_sent : list (list Z) := match ieee80211_encap frag_net long_pkt 0 with Ok (ps, _) => map content ps | _ => [] end.
Definition frag_heard : list (list mbuf) := map (fun c => [sample_mbuf true 256 c (Z.of_nat (length c))]) frag_sent.

Lemma frag_heard_ok : Forall2 (fun c y => heard c 24 y) frag_sent frag_heard.
Proof.
  assert (E : forall c, bytes c -> (24 <= length c <= 64)%nat -> heard c 24 [sample_mbuf true 256 c (Z.of_nat (length c))]).
  { intros c B L. assert (M : mdata (sample_mbuf true 256 c (Z.of_nat (length c))) = c).
    { unfold mdata, sample_mbuf, sub_list. cbn [m_data m_len m_cluster]. rewrite drop_app_length' by (by rewrite length_replicate). apply take_app_length. }
    assert (C : content [sample_mbuf true 256 c (Z.of_nat (length c))] = c) by (by rewrite content_cons, M, app_nil_r).
    split; [|reflexivity|exact C|cbn; lia]. split; [|intros _; by rewrite C]. constructor; [|constructor]. split; [|split].
    - unfold sample_mbuf. cbn [m_cluster]. rewrite !length_app, !length_replicate. unfold cluster_size, MCLBYTES, MH_ALIGN. lia.
    - unfold sample_mbuf, cluster_size, MCLBYTES, MH_ALIGN. cbn [m_data m_len]. lia.
    - unfold sample_mbuf. cbn [m_cluster]. rewrite !bytes_app. split; [by_compute|]. split; [done|]. apply list.Forall_replicate. by_compute. }
  unfold frag_heard. assert (H : Forall (fun c => bytes c /\ (24 <= length c <= 64)%nat) frag_sent) by by_compute.
  induction H as [|c l [B L] _ IH]; [constructor|]. constructor; [by apply E|exact IH].
Qed.

Lemma fragments_cross_witness :
  exists c fn m1, defrag_all 0 idle_node (mkHeap [] 3) frag_heard 24 = Ok ([[]; []; c], fn, mkHeap [] 3) /\
    ieee80211_decap (mkHeap [] 3) c 24 = Ok (m1, mkHeap [] 3) /\ content m1 = content long_pkt.
Proof.
  destruct (fragments_cross frag_net 0 (link_node 0) long_pkt) as (ps & n' & E & H).
  - apply link_sends; [split; [by_compute|intros _; reflexivity]|split; [reflexivity|apply Nat.leb_le; reflexivity]|reflexivity|by left].
  - vm_compute. split; [discriminate|reflexivity].
  - vm_compute. discriminate.
  - assert (Ec : map content ps = frag_sent) by (unfold frag_sent; by rewrite E).
    assert (L : length ps = 3%nat) by (rewrite <- (length_map content), Ec; vm_compute; reflexivity).
    destruct ps as [|f0 [|f1 fs]]; [done|done|]. destruct H as (hdrlen & Eh & _ & D).
    assert (hdrlen = 24%nat) as ->.
    { apply (f_equal (fun r => match r with Ok k => k | _ => 0%nat end)) in Eh. cbn [map] in Ec. rewrite <- Eh.
      replace (content f0) with (nth 0 frag_sent []) by (by rewrite <- Ec). vm_compute. reflexivity. }
    destruct (D 0 idle_node (mkHeap [] 3) frag_heard) as (c & fn' & m1 & E1 & _ & E2 & _ & E3); [reflexivity|reflexivity| |].
    + split; [|vm_compute; lia]. pose proof frag_heard_ok as F. rewrite <- Ec in F. by apply Forall2_fmap_l in F.
    + exists c, fn', m1. split; [|split; [exact E2|exact E3]]. rewrite E1. cbn [length] in L. by replace (length (f1 :: fs)) with 2%nat by (cbn; lia).
Defined.
