(* ===== verification/InputProof.v ===== *)
(** * The receive path of an access point is safe

    Whatever frames arrive, the node invariant holds after each of them and the
    reference of the driver is given back. *)

From stdpp Require Import gmap.
From S2P Require Import Prelude Buffers Endian Mbuf Ieee80211 Crypto Defrag InfoElem Node NodeTable NodeProof NodeSafety NodeHistory NodeLife NodeTimer Rates Mgmt Station MgmtProof Input.

(** ** Frames *)

(** The memory of a frame holds bytes. *)
Definition frame_bytes (m : list mbuf) : Prop := m <> [] /\ Forall (fun x => bytes (m_cluster x)) m.
Lemma adj_tail_clusters c m : map m_cluster (adj_tail c m) = map m_cluster m.
Proof. revert c. induction m as [|x m IH]; intros c; [done|]. cbn [adj_tail map]. rewrite IH. by destruct (_ <? _)%nat. Qed.
Lemma adj_head_clusters c m : map m_cluster (adj_head c m) = map m_cluster m.
Proof. revert c. induction m as [|x m IH]; intros c; [done|]. cbn [adj_head]. destruct (_ =? 0)%nat; [done|]. destruct (_ <=? _)%nat; cbn [map]; [by rewrite IH|done]. Qed.
Lemma m_adj_clusters m r : map m_cluster (m_adj m r) = map m_cluster m.
Proof.
  assert (forall c, map m_cluster (sync_pkthdr c) = map m_cluster c) as Hs by (intros [|x c]; [done|]; cbn; by destruct (has_pkthdr x)).
  unfold m_adj. rewrite Hs. destruct (0 <=? r); [apply adj_head_clusters|apply adj_tail_clusters].
Qed.
Lemma clusters_bytes m m' : map m_cluster m' = map m_cluster m -> frame_bytes m -> frame_bytes m'.
Proof.
  intros E [Hm H]. split; [by destruct m, m'|]. assert (Forall bytes (map m_cluster m)) as H' by (by apply Forall_map).
  rewrite <- E in H'. exact (proj1 (Forall_map _ _ _) H').
Qed.
Lemma frame_head_bytes x m : frame_bytes (x :: m) -> bytes (mdata x).
Proof. intros [_ H]. apply list.Forall_cons in H as [H _]. unfold mdata, sub_list. by apply Forall_take, Forall_drop. Qed.
Lemma m_adj_some x m r : exists y m', m_adj (x :: m) r = y :: m'.
Proof. pose proof (m_adj_clusters (x :: m) r) as H. destruct (m_adj (x :: m) r) as [|y m'] eqn:E; [done|by eexists _, _]. Qed.

Section InputSafe.
Context (rxf : Z).
Context (dev : key_ops) (queued : net -> nat -> bool) (acl : list Z -> bool) (shl32 : Z) (eapol_rx data_rx : bool).
Notation ap := (ap rxf).

(** ** Steps *)

Lemma ap_same k n n' own id : ap k n own id -> n_nodes n' = n_nodes n -> same_net n n' -> ap k n' own id.
Proof. apply ap_net. Qed.
Lemma ap_tell k n own id e : ap k n own id -> ap k (tell n e) own id.
Proof. intros A. by apply (ap_same _ n). Qed.
Lemma ap_heap k n own id h : ap k n own id -> ap k (set_heap n h) own id.
Proof. intros A. by apply (ap_same _ n). Qed.
Lemma ap_drop k n own id m : ap k n own id -> ap k (release n m) own id.
Proof. apply ap_heap. Qed.
Lemma upd_absent n j f : n_nodes n !! j = None -> n_nodes (upd n j f) = n_nodes n.
Proof.
  intros E. apply map_eq. intros i. destruct (decide (j = i)) as [->|H]; [|by rewrite upd_other].
  by rewrite upd_nodes, lookup_alter_eq, E.
Qed.
(** Fields of a node that nothing depends on. *)
Lemma ap_set k n own id j f : ap k n own id ->
  (forall x, core (f x) = core x) -> (forall x, ni_refcnt (f x) = ni_refcnt x) -> (forall x, node_ok n x -> node_ok n (f x)) ->
  (forall x, ni_chan (f x) = ni_chan x) -> ap k (upd n j f) own id.
Proof.
  intros A C R K H. destruct (n_nodes n !! j) as [nj|] eqn:E.
  - destruct (ap_upd rxf k n own id j nj f A E) as [A' _]; try done; [apply K|by rewrite H].
  - apply (ap_same _ n); [done|by apply upd_absent|by apply upd_same_net].
Qed.

(** A reference to a node of a table for the time of a call. *)
Lemma ap_unref k n own id j : ap k n (hinc own j) id ->
  (forall nj, n_nodes n !! j = Some nj -> ni_table nj <> None -> (0 < own j)%nat) ->
  exists n', ieee80211_free_node dev n j = Ok n' /\ ap k n' own id.
Proof.
  intros A Ht. pose proof (ap_room _ _ _ _ _ A j) as R. rewrite hinc_same in R.
  destruct (free_node_ok dev 2 n (hinc (hinc own j) id) j (ap_nwf _ _ _ _ _ A)) as (n' & Ef & W' & T' & H');
    [unfold hinc; repeat case_decide; lia|].
  exists n'. split; [exact Ef|]. apply (ap_ext _ _ _ (hdec (hinc (hinc own j) id) j)).
  { intros x. unfold hinc, hdec. repeat case_decide; subst; lia. }
  apply (ap_step rxf k k n n' (hinc (hinc own j) id) _ (hinc own j) _ j A);
    [exact W'|by apply near_touch|lia|lia|intros i Hi; by rewrite hinc_other|].
  intros nj Ej. destruct (H' _ Ej) as (nj0 & E0 & (Ct & _)%core_inv & Cc). rewrite Ct, Cc. split; [by apply Ht|].
  apply (ap_chan _ _ _ _ _ A j nj0 E0).
Qed.
Lemma ap_find k n own id t mac : ap k n own id -> 5 <= k ->
  exists r n', _ieee80211_find_node n t mac = Ok (r, n') /\
    match r with
    | None => n' = n
    | Some j => ap (k - 1) n' (hinc own j) id /\ (0 < own j)%nat /\ ic_bss n' = ic_bss n /\ is_Some (n_nodes n' !! j)
    end.
Proof.
  intros A Hk. pose proof (ap_nwf _ _ _ _ _ A) as W. unfold _ieee80211_find_node. pose proof (wf_tab _ _ (proj1 W) t) as [_ _ Q3 Q4].
  destruct (lookup_lt_is_Some_2 (nt_hash (table n t)) (IEEE80211_NODE_HASH mac)) as [bucket Eb]; [rewrite Q3; apply hash_range|].
  rewrite Eb. destruct (find_chain_ok n mac bucket) as (r & -> & Hr).
  { intros j H. apply (Q4 _ _ _ Eb) in H as (_ & ni & E & _). by eexists. }
  cbn [res_bind]. destruct r as [j|]; [|by eexists _, _].
  destruct Hr as (Hin & ni & E & _). apply (Q4 _ _ _ Eb) in Hin as (_ & ni' & E' & Et & _).
  destruct (ap_ref rxf k n own id j A) as (n' & -> & A' & Nr & _); [lia|by eexists|].
  eexists _, _. split; [done|]. split; [done|]. split; [by apply (ap_own _ _ _ _ _ _ _ _ A E' Et)|]. split; [apply Nr|].
  apply (wf_held _ _ _ (proj2 (ap_nwf _ _ _ _ _ A'))). unfold hinc. repeat case_decide; lia.
Qed.

Lemma ap_set_tim k n own id b : ap k n own id -> exists n', ieee80211_set_tim n id b = Ok n' /\ ap k n' own id /\ n_nodes n' = n_nodes n /\ ic_bss n' = ic_bss n.
Proof.
  intros A. destruct (ap_alive _ _ _ _ _ A) as [ni E]. pose proof (proj1 (ap_nwf _ _ _ _ _ A)) as L.
  destruct (set_tim_ok n id ni b E) as (n' & -> & En & S); [by apply (wf_node _ _ L id)|apply L|left; apply (ap_mode _ _ _ _ _ A)|].
  exists n'. split; [done|]. split; [by apply (ap_same _ n)|]. split; [done|apply S].
Qed.

(** ** Before dispatch *)

Definition ready (k : Z) (n : net) (own : nat -> nat) (id : nat) : Prop := ap k n own id /\ sender n id.
Definition ends {A} (k : Z) (id : nat) (P : A -> Prop) (c : rr A) : Prop :=
  exists o, c = Ok o /\ match o with inl n' => exists own', ap k n' own' id | inr a => P a end.
Lemma ends_then {A B} k id (P : A -> Prop) (Q : B -> Prop) (c : rr A) (f : A -> rr B) :
  ends k id P c -> (forall a, P a -> ends k id Q (f a)) -> ends k id Q (rr_then c f).
Proof. intros (o & -> & Ho) Hf. unfold rr_then. cbn [res_bind]. destruct o as [n'|a]; [by exists (inl n')|by apply Hf]. Qed.
Lemma ends_bind {A} k id (P : A -> Prop) (c : rr A) (f : A -> res net) :
  ends k id P c -> (forall a, P a -> safe rxf k id (f a)) -> safe rxf k id (rr_bind c f).
Proof. intros (o & -> & Ho) Hf. unfold rr_bind. cbn [res_bind]. destruct o as [n'|a]; [destruct Ho as [own' A']; by eapply safe_ok|by apply Hf]. Qed.
Lemma ends_quit {A} k id (P : A -> Prop) n own : ap k n own id -> ends k id P (quit n).
Proof. intros H. exists (inl n). split; [done|by exists own]. Qed.
Lemma ends_go {A} k id (P : A -> Prop) a : P a -> ends k id P (go a).
Proof. intros H. by exists (inr a). Qed.
Lemma ends_more {A} k k' id (P : A -> Prop) (c : rr A) : ends k id P c -> k' <= k -> ends k' id P c.
Proof. intros (o & -> & Ho) H. exists o. split; [done|]. destruct o; [|done]. destruct Ho as [own' A']. exists own'. by apply (ap_more _ k). Qed.

Lemma ready_net k n n' own id : ready k n own id -> n_nodes n' = n_nodes n -> same_net n n' -> ready k n' own id.
Proof.
  intros [A H] E S. split; [by apply (ap_same _ n)|]. unfold sender in *. by rewrite E, (sn_bss _ _ S).
Qed.
Lemma ready_set k n own id j f : ready k n own id ->
  (forall x, core (f x) = core x) -> (forall x, ni_refcnt (f x) = ni_refcnt x) -> (forall x, node_ok n x -> node_ok n (f x)) ->
  (forall x, ni_chan (f x) = ni_chan x) -> ready k (upd n j f) own id.
Proof.
  intros [A H] C R K Hc. split; [by apply ap_set|]. destruct H as [?|(ni & E & Ht)]; [by left|right].
  destruct (decide (j = id)) as [->|Hne]; [|exists ni; by rewrite upd_other].
  exists (f ni). rewrite (upd_same _ _ _ _ E). split; [done|]. destruct (core_inv _ _ (C ni)) as [-> _]. done.
Qed.

Lemma begin_ready k n own m id : ready k n own id -> frame_bytes m ->
  exists x r n', input_begin n m id = Ok (x :: r, n') /\ frame_bytes (x :: r) /\ ready k n' own id.
Proof.
  intros A Hm. unfold input_begin. destruct (ap_alive _ _ _ _ _ (proj1 A)) as [ni E]. rewrite (node_at_Some _ _ _ E). cbn [res_bind]. cbn zeta.
  assert (ready k (upd n id (fun ni => set_inact ni (ni_inact_reload ni))) own id) as A' by (by apply ready_set; try done; intros ?; node_ok_fields).
  destruct m as [|x r]; [by destruct Hm|]. destruct (has_flag (m_flags x) M_HASFCS); [|by eexists _, _, _].
  destruct (m_adj_some x r (- IEEE80211_CRC_LEN)) as (y & m' & Ey). rewrite Ey. eexists _, _, _. split; [done|]. split; [|done].
  apply (clusters_bytes (y :: m')); [done|]. rewrite <- Ey. apply (clusters_bytes (x :: r)); [apply m_adj_clusters|done].
Qed.

Lemma tid_ends k n own id x : ready k n own id ->
  ends k id (fun '(tid, n') => 0 <= tid < 17 /\ ready k n' own id) (rx_tid n x).
Proof.
  intros A. unfold rx_tid. destruct (ieee80211_has_qos _); [|by apply ends_go].
  destruct (_ <? _)%nat; [eapply ends_quit; by apply ap_bump, A|]. cbn zeta. apply ends_go. split.
  - unfold IEEE80211_QOS_TID. change 0x0f with (Z.ones 4). rewrite Z.land_ones by done.
    pose proof (Z.mod_pos_bound (i_qos0 (mtod x)) (2 ^ 4) eq_refl). lia.
  - case_match; [by apply (ready_net _ n)|done].
Qed.
Lemma sequence_ends k n own id x : ready k n own id -> ends k id (fun n' => ready k n' own id) (rx_sequence n id x).
Proof.
  intros A. unfold rx_sequence. eapply ends_then; [by apply tid_ends|]. intros [tid n1] [Ht A1].
  destruct (ap_alive _ _ _ _ _ (proj1 A1)) as [ni E]. rewrite (node_at_Some _ _ _ E). cbn [res_bind].
  pose proof (ok_rxseqs _ _ (wf_node _ _ (proj1 (ap_nwf _ _ _ _ _ (proj1 A1))) _ _ E)) as L.
  destruct (lookup_lt_is_Some_2 (ni_rxseqs ni) (Z.to_nat tid)) as [last ->]; [lia|].
  destruct (rx_duplicate _ _ _); [eapply ends_quit; by apply ap_bump, A1|]. apply ends_go.
  apply ready_set; try done. intros ?. node_ok_fields. by rewrite length_insert.
Qed.

(** An access point that is not scanning looks at every frame, and takes data
    frames with its own BSSID. *)
Lemma filter_ends k n own id x rssi rstamp : ready k n own id -> Z.land rxf IEEE80211_F_SCAN = 0 ->
  ends k id (fun '(j, n') => j = id /\ ready k n' own id) (rx_filter n id x rssi rstamp).
Proof.
  intros A Hs. pose proof (ap_mode _ _ _ _ _ (proj1 A)) as (M & _ & F). unfold rx_filter.
  assert (has_flag (ic_flags (n_ic n)) IEEE80211_F_SCAN = false) as ->.
  { unfold has_flag. change IEEE80211_F_SCAN with (Z.land rx_mask IEEE80211_F_SCAN). by rewrite Z.land_assoc, F, Hs. }
  apply (ends_then _ _ (fun '(j, n') => j = id /\ ready k n' own id)).
  - rewrite M. cbn [Z.eqb Pos.eqb IEEE80211_M_HOSTAP IEEE80211_M_STA IEEE80211_M_IBSS IEEE80211_M_AHDEMO orb]. unfold filter_bss. cbn zeta.
    apply (ends_then _ _ (fun _ => True)).
    { destruct (_ || _); [by apply ends_go|]. destruct (_ <? _)%nat; [eapply ends_quit; by apply ap_bump, A|by apply ends_go]. }
    intros bssid _. destruct (negb _); [by apply ends_go|].
    destruct (bss_node_live _ _ _ _ _ (proj1 A)) as (b & bss & _ & _ & ->). cbn [res_bind].
    destruct (_ && _); [eapply ends_quit; by apply ap_bump, A|].
    destruct (ap_alive _ _ _ _ _ (proj1 A)) as [ni E]. rewrite (node_at_Some _ _ _ E). cbn [res_bind].
    rewrite M, Z.eqb_refl, andb_false_r. cbn [andb negb]. by apply ends_go.
  - intros [j n1] [-> A1]. cbn zeta.
    assert (ready k (upd n1 id (fun ni => set_rstamp (set_rssi ni rssi) rstamp)) own id) as A2 by (apply ready_set; try done; intros ?; node_ok_fields).
    destruct (_ && _); [|by apply ends_go]. eapply ends_then; [by apply sequence_ends|]. intros n2 A3. by apply ends_go.
Qed.

(** ** Control frames *)

Lemma safe_bind k id (c : res net) (f : net -> res net) k' :
  safe rxf k id c -> (forall n own, ap k n own id -> safe rxf k' id (f n)) -> safe rxf k' id (let* n := c in f n).
Proof. intros (n & own & -> & A) Hf. cbn [res_bind]. by apply (Hf n own). Qed.

Lemma unref_same ni : 0 < ni_refcnt ni < 2 ^ 32 -> ieee80211_node_decref (ieee80211_node_incref ni) = ni.
Proof.
  intros H. unfold ieee80211_node_decref, ieee80211_node_incref. cbn [ni_refcnt set_refcnt].
  assert (u32 (u32 (ni_refcnt ni + 1) - 1) = ni_refcnt ni) as E.
  { rewrite !u32_mod, Zminus_mod_idemp_l. replace (ni_refcnt ni + 1 - 1) with (ni_refcnt ni) by lia. apply Z.mod_small. lia. }
  change (ni_refcnt (set_refcnt ni (u32 (ni_refcnt ni + 1)))) with (u32 (ni_refcnt ni + 1)). rewrite E. by destruct ni.
Qed.
Lemma nulldata_safe k n own id : ap k n own id -> 4 <= k ->
  safe rxf (k - 1) id (let* n := ieee80211_ref_node n id in ieee80211_send_nulldata queued n id).
Proof.
  intros A Hk. destruct (ap_alive _ _ _ _ _ A) as [ni E]. destruct (ap_ref rxf k n own id id A Hk) as (n1 & Er & A1 & _); [by eexists|].
  rewrite Er. cbn [res_bind]. unfold ieee80211_ref_node in Er. rewrite (node_at_Some _ _ _ E) in Er. injection Er as <-.
  unfold ieee80211_send_nulldata. rewrite (node_at_Some _ _ _ (upd_same n id ieee80211_node_incref ni E)). cbn [res_bind].
  destruct (queued _ id); [eapply safe_ok; apply ap_tell; apply ap_set; try done; intros x [B1 B2 B3 B4 B5]; by constructor|]. eapply safe_ok. apply (ap_more _ k); [|lia].
  apply (ap_same _ (bump n is_tx_nobuf)); [by apply ap_bump| |done].
  apply map_eq. intros j. destruct (decide (id = j)) as [<-|Hne]; [|rewrite upd_other by done; exact (upd_other n id _ j Hne)].
  rewrite (upd_same _ id _ (ieee80211_node_incref ni)) by exact (upd_same n id _ ni E).
  destruct (wf_ref _ _ _ (proj2 (ap_nwf _ _ _ _ _ A)) _ _ E) as [_ B]; [done|]. rewrite unref_same by done. symmetry. exact E.
Qed.

Lemma pspoll_safe k n own id m0 : ap k n own id -> 4 <= k -> safe rxf (k - 1) id (ieee80211_recv_pspoll queued n id m0).
Proof.
  intros A Hk. destruct (ap_alive _ _ _ _ _ A) as [ni E]. unfold ieee80211_recv_pspoll. rewrite (node_at_Some _ _ _ E). cbn [res_bind].
  assert (forall s, safe rxf (k - 1) id (IEEE80211_SEND_MGMT queued (bump n s) id IEEE80211_FC0_SUBTYPE_DEAUTH IEEE80211_REASON_NOT_ASSOCED)) as Hd
    by (intros s; apply (send_safe rxf queued k (bump n s) own); [by apply ap_bump|done|by eexists]).
  destruct (_ =? 0); [apply Hd|]. destruct (negb _); [apply Hd|].
  destruct (ni_savedq ni) as [|[age m] q].
  - destruct (nulldata_safe k n own id A Hk) as (n1 & own1 & E1 & A1). apply res_bind_Ok in E1 as (n2 & -> & E2). cbn [res_bind]. rewrite E2. cbn [res_bind].
    destruct (ap_set_tim (k - 1) (bump n1 is_ps_qempty) own1 id false) as (n3 & -> & A3 & _); [by apply ap_bump|]. by eapply safe_ok.
  - cbn zeta. assert (ap k (upd n id (fun ni => set_savedq ni q)) own id) as A1.
    { apply ap_set; try done. intros x [B1 B2 B3 B4 B5]. constructor; try done. intros _. left. apply (ap_mode _ _ _ _ _ A). }
    destruct q as [|p q]; cbn [res_bind]; [|eapply safe_ok; apply ap_tell, (ap_more _ k); [done|lia]].
    destruct (ap_set_tim k _ own id false A1) as (n2 & -> & A2 & _). cbn [res_bind]. eapply safe_ok. apply ap_tell, (ap_more _ k); [done|lia].
Qed.
Lemma control_safe k n own id x : ap k n own id -> 4 <= k -> safe rxf (k - 1) id (ieee80211_input_control queued n id x).
Proof.
  intros A Hk. unfold ieee80211_input_control. cbn zeta. pose proof (ap_bump _ _ _ _ _ is_rx_ctl A) as A'.
  destruct (_ && _); [by apply (pspoll_safe k _ own)|]. eapply safe_ok. apply (ap_more _ k); [done|lia].
Qed.

(** ** Management frames *)

Lemma mgmt_open_ends k n own m id junk : ready k n own id -> frame_bytes m -> Z.land rxf IEEE80211_F_PRIVACY = 0 ->
  ends k id (fun '(m', n') => m' = m /\ ready k n' own id) (mgmt_open n m id junk).
Proof.
  intros A [Hm _] Hp. unfold mgmt_open. destruct m as [|x r]; [done|]. cbn zeta.
  assert (forall s, ends k id (fun '(m', n') => m' = x :: r /\ ready k n' own id) (drop_frame (bump n s) (x :: r))) as Hd
    by (intros s; eapply ends_quit; apply ap_drop, ap_bump, A).
  destruct (negb _); [apply Hd|]. destruct (_ <? _)%nat; [apply Hd|]. destruct (has_flag _ _); [|by apply ends_go].
  destruct (negb _); [apply Hd|].
  assert (has_flag (ic_flags (n_ic n)) IEEE80211_F_PRIVACY = false) as ->; [|apply Hd].
  pose proof (ap_mode _ _ _ _ _ (proj1 A)) as (_ & _ & F). unfold has_flag.
  change IEEE80211_F_PRIVACY with (Z.land rx_mask IEEE80211_F_PRIVACY). by rewrite Z.land_assoc, F, Hp.
Qed.
Lemma management_safe k n own m id rssi rstamp challenge junk :
  ready k n own id -> 5 <= k <= 2 ^ 31 -> frame_bytes m -> Z.land rxf rx_mask = 0 ->
  safe rxf (k - 2) id (ieee80211_input_management dev queued acl shl32 n m id rssi rstamp challenge junk).
Proof.
  intros A Hk Hm Hr. unfold ieee80211_input_management.
  assert (forall f, Z.land rx_mask f = f -> Z.land rxf f = 0) as Hf by (intros f <-; by rewrite Z.land_assoc, Hr).
  destruct (mgmt_open_ends k n own m id junk A Hm) as (o & -> & Ho); [by apply Hf|].
  unfold rr_bind. cbn [res_bind]. destruct o as [n1|[m1 n1]].
  - destruct Ho as [own1 A1]. eapply safe_more; [by eapply safe_ok|lia].
  - destruct Ho as [-> A1]. destruct m as [|x r]; [by destruct Hm|].
    assert (has_flag (ic_flags (n_ic n1)) IEEE80211_F_SCAN = false) as Hs.
    { pose proof (ap_mode _ _ _ _ _ (proj1 A1)) as (_ & _ & F). unfold has_flag.
      change IEEE80211_F_SCAN with (Z.land rx_mask IEEE80211_F_SCAN). by rewrite Z.land_assoc, F, Hf. }
    eapply safe_bind.
    + apply (recv_mgmt_safe rxf dev queued acl shl32 k n1 own); try done; [apply A1|apply A1|]. by apply (frame_head_bytes x r).
    + intros n2 own2 A2. eapply safe_ok. by apply ap_drop.
Qed.

(** ** Data frames *)

Lemma m_cat_some x r n : exists y c, m_cat (x :: r) n = Ok (y :: c).
Proof.
  revert x. induction r as [|z r IH]; intros x; [by eexists _, _|].
  destruct (IH z) as (y & c & E). change (m_cat (x :: z :: r) n) with (let* c := m_cat (z :: r) n in Ok (x :: c)). rewrite E. by eexists _, _.
Qed.
Lemma defrag_total ticks fn h x r hdrspace : IEEE80211_IS_MULTICAST (i_addr1 (mtod x)) = false ->
  exists m' fn' h', ieee80211_defrag ticks fn h (x :: r) hdrspace = Ok (m', fn', h').
Proof.
  intros Hm. unfold ieee80211_defrag. cbn zeta. rewrite Hm. destruct (_ && _); [by eexists _, _, _|].
  destruct (negb _); [by eexists _, _, _|]. set (fr := match Defrag.ni_rxfrag fn with Some c => c | None => [] end).
  destruct (match fr with [] => _ | y :: _ => _ end) as [mf h1]. destruct mf as [|y c]; [by repeat case_match; eexists _, _, _|].
  unfold frag_append. cbn zeta. destruct (m_cat_some y c (m_adj (x :: r) (Z.of_nat hdrspace))) as (y' & c' & ->).
  cbn [res_bind]. by case_match; eexists _, _, _.
Qed.
Lemma pullup_len h m len x r h' : m_pullup h m len = (x :: r, h') -> (Z.to_nat len <= m_len x)%nat.
Proof.
  unfold m_pullup. destruct m as [|y c]; [done|]. destruct (_ || _); [done|].
  destruct (Z.leb_spec len (Z.of_nat (m_len y))); [intros [= <- <- <-]; lia|]. destruct (_ <? _); [done|].
  destruct (m_get_impl _ _ _) as [[z|] h1]; [|done]. destruct (if has_pkthdr y then _ else _) as [a b]. cbn zeta.
  destruct (free_empty _ _) as [h2 m2]. intros [= <- <- <-]. done.
Qed.
Lemma adj_len x r len y c : m_adj (x :: r) (Z.of_nat len) = y :: c -> (len < m_len x)%nat -> (m_len y = m_len x - len)%nat.
Proof.
  intros E H. unfold m_adj in E. rewrite (proj2 (Z.leb_le _ _) (Nat2Z.is_nonneg len)), Nat2Z.id in E. cbn [adj_head] in E.
  destruct (Nat.eqb_spec len 0) as [->|Hne].
  - cbn [sync_pkthdr] in E. destruct (has_pkthdr x); injection E as <- <-; cbn; lia.
  - rewrite (proj2 (Nat.leb_gt _ _) H) in E. cbn [sync_pkthdr] in E. destruct (has_pkthdr _); injection E as <- <-; done.
Qed.
(** The result starts with a whole Ethernet header. *)
Definition has_eh (m : list mbuf) : Prop := match m with x :: _ => (sizeof_eh <= m_len x)%nat | [] => False end.
Lemma decap_total h x r hdrlen : (sizeof_frame <= hdrlen <= sizeof_qosframe_addr4)%nat ->
  exists m' h', ieee80211_decap h (x :: r) hdrlen = Ok (m', h') /\ (m' = [] \/ has_eh m').
Proof.
  intros Hh. unfold ieee80211_decap, sizeof_frame, sizeof_qosframe_addr4 in *.
  destruct (if (_ <? _)%nat then _ else _) as [[|y c] h1] eqn:E; [eexists _, _; split; [done|by left]|].
  assert (hdrlen + sizeof_llc <= m_len y)%nat as Hy.
  { destruct (Nat.ltb_spec (m_len x) (hdrlen + sizeof_llc)); [apply pullup_len in E; lia|]. by injection E as <- <- <-. }
  rewrite (proj2 (Nat.ltb_ge _ _) (proj2 Hh)). cbn zeta. unfold sizeof_llc in Hy.
  assert (forall b, exists m' h', match m_adj (y :: c) (if b : bool then Z.of_nat (hdrlen + sizeof_llc) - Z.of_nat sizeof_eh else Z.of_nat hdrlen - Z.of_nat sizeof_eh) with
    | [] => Fault NullDeref
    | z :: r => let z := mstore z 0 (decap_addrs (take hdrlen (mtod y))) in
        let len := u16 (ph_len (m_hdr z) - Z.of_nat sizeof_eh) in
        Ok ((if b then z else mstore z 12 [Z.shiftr len 8; u8 len]) :: r, h1) end = Ok (m', h') /\ (m' = [] \/ has_eh m')) as H.
  { intros b. destruct (m_adj_some y c (Z.of_nat (if b : bool then hdrlen - 6 else hdrlen - 14))) as (z & c' & Ez).
    assert ((if b then Z.of_nat (hdrlen + sizeof_llc) - Z.of_nat sizeof_eh else Z.of_nat hdrlen - Z.of_nat sizeof_eh) =
            Z.of_nat (if b : bool then hdrlen - 6 else hdrlen - 14)) as -> by (unfold sizeof_llc, sizeof_eh; destruct b; lia).
    rewrite Ez. eexists _, _. split; [done|]. right. apply adj_len in Ez; [|destruct b; lia].
    unfold has_eh, sizeof_eh. destruct b; cbn [m_len mstore set_cluster]; lia. }
  specialize (H (is_snap (drop hdrlen (mtod y)))). by destruct (is_snap _).
Qed.
Lemma hdrspace_data ic wh : fc_type wh = IEEE80211_FC0_TYPE_DATA ->
  exists l, ieee80211_hdrspace ic wh = Ok l /\ (sizeof_frame <= l <= sizeof_qosframe_addr4)%nat.
Proof.
  intros Ht. unfold ieee80211_hdrspace, ieee80211_hdrsize. fold (fc_type wh). rewrite Ht. cbn [res_bind Z.eqb IEEE80211_FC0_TYPE_DATA IEEE80211_FC0_TYPE_CTL].
  destruct (_ =? _), (ieee80211_has_qos wh); cbn [res_bind]; eexists; (split; [done|]); destruct (has_flag _ _); (split; by apply Nat.leb_le).
Qed.

Lemma pwrsave_safe k n own id b : ap k n own id -> exists n', ieee80211_node_pwrsave n id b = Ok n' /\ ap k n' own id.
Proof.
  intros A. destruct (ap_alive _ _ _ _ _ A) as [ni E]. unfold ieee80211_node_pwrsave. rewrite (node_at_Some _ _ _ E). cbn [res_bind]. cbn zeta.
  assert (forall n0 f, ap k n0 own id -> ap k (upd n0 id (fun ni => set_nflags ni (f ni))) own id) as Hu
    by (intros n0 f A0; apply ap_set; try done; intros ?; node_ok_fields).
  destruct b; [eexists; split; [done|]; apply Hu; destruct (has_flag _ _); [done|by apply (ap_same _ n)]|].
  match goal with |- context [flush_savedq ?x _] => set (n1 := x) end.
  assert (ap k n1 own id) as A1 by (apply Hu; destruct (has_flag _ _); [by apply (ap_same _ n)|done]).
  assert (forall q n0, ap k n0 own id -> ap k (fold_left (fun n '(i, m) => tell n (NE_snd (if (i =? 0)%nat then m else or_flags m M_MORE_DATA))) q n0) own id) as Hq.
  { induction q as [|[i m] q IH]; intros n0 A0; [done|]. cbn [fold_left]. apply IH. by apply ap_tell. }
  destruct (ap_set_tim k (upd (flush_savedq n1 (ni_savedq ni)) id (fun ni => set_savedq ni [])) own id false) as (n2 & -> & A2 & _); [|by exists n2].
  apply ap_set; try done; [by apply Hq|]. intros x [B1 B2 B3 B4 B5]. by constructor.
Qed.

Lemma source_ends k n own id wh : ap k n own id -> 4 <= k <= 2 ^ 31 ->
  ends (k - 1) id (fun n' => exists own', ap (k - 1) n' own' id) (data_source dev queued n id wh).
Proof.
  intros A Hk. pose proof (ap_mode _ _ _ _ _ A) as (M & _ & _). unfold data_source. cbn zeta. rewrite M.
  cbn [Z.eqb Pos.eqb IEEE80211_M_HOSTAP IEEE80211_M_STA IEEE80211_M_IBSS IEEE80211_M_AHDEMO orb].
  assert (ap (k - 1) n own id) as A' by (apply (ap_more _ k); [done|lia]).
  destruct (negb _); [eapply ends_quit; by apply ap_bump|].
  destruct (is_bss n id).
  { destruct (send_error_safe rxf dev queued k n own id (i_addr2 wh) IEEE80211_FC0_SUBTYPE_DEAUTH IEEE80211_REASON_NOT_AUTHED A) as (n1 & own1 & -> & A1); [lia|].
    cbn [res_bind]. eapply ends_quit. apply ap_bump. exact A1. }
  destruct (ap_alive _ _ _ _ _ A) as [ni E]. rewrite (node_at_Some _ _ _ E). cbn [res_bind]. destruct (_ =? 0).
  { destruct (send_safe rxf queued k n own id id IEEE80211_FC0_SUBTYPE_DISASSOC IEEE80211_REASON_NOT_ASSOCED A) as (n1 & own1 & -> & A1); [lia|by eexists|].
    cbn [res_bind]. eapply ends_quit. apply ap_bump. exact A1. }
  destruct (eqb _ _); [apply ends_go; by exists own|].
  destruct (pwrsave_safe (k - 1) n own id (has_flag (i_fc1 wh) IEEE80211_FC1_PWR_MGT) A') as (n1 & -> & A1). cbn [res_bind]. apply ends_go. by exists own.
Qed.

Lemma open_ends k ticks n own id x r wh hdrspace junk : ap k n own id -> Z.land rxf IEEE80211_F_PRIVACY = 0 ->
  ends k id (fun '(m', key, n') => m' <> [] /\ ap k n' own id) (data_open ticks n id (x :: r) wh hdrspace junk).
Proof.
  intros A Hp. unfold data_open. apply (ends_then _ _ (fun '(m', key, n') => (m', key, n') = (x :: r, @None kloc, n))).
  - destruct (has_flag (i_fc1 wh) _); [|by apply ends_go].
    assert (has_flag (ic_flags (n_ic n)) IEEE80211_F_PRIVACY = false) as ->.
    { pose proof (ap_mode _ _ _ _ _ A) as (_ & _ & F). unfold has_flag.
      change IEEE80211_F_PRIVACY with (Z.land rx_mask IEEE80211_F_PRIVACY). by rewrite Z.land_assoc, F, Hp. }
    eapply ends_quit. apply ap_drop, ap_bump. exact A.
  - intros [[m1 key] n1] [= -> -> ->]. apply (ends_then _ _ (fun '(m', n') => m' <> [] /\ ap k n' own id)).
    + destruct (IEEE80211_IS_MULTICAST _) eqn:Em; [by apply ends_go|]. unfold rx_defrag.
      destruct (ap_alive _ _ _ _ _ A) as [ni E]. rewrite (node_at_Some _ _ _ E). cbn [res_bind]. cbn zeta.
      match goal with |- context [ieee80211_defrag ticks ?fn ?h _ _] => destruct (defrag_total ticks fn h x r hdrspace Em) as (m2 & fn2 & h2 & ->) end.
      cbn [res_bind]. cbn zeta.
      match goal with |- context [upd (set_heap n h2) id ?f] => assert (ap k (upd (set_heap n h2) id f) own id) as A2 end.
      { apply ap_set; try done; [by apply ap_heap|intros ?; node_ok_fields]. }
      destruct m2; [by eapply ends_quit|by apply ends_go].
    + intros [m2 n2] [H2 A2]. by apply ends_go.
Qed.

Lemma vlan_eh m tag : has_eh m -> has_eh (vlan_set_tag m tag).
Proof. by destruct m. Qed.
Lemma percpuq_safe k n own id m : ap k n own id -> has_eh m -> safe rxf k id (if_percpuq_enqueue eapol_rx data_rx n m).
Proof.
  intros A He. destruct m as [|x r]; [done|]. unfold if_percpuq_enqueue. cbn zeta. destruct (_ && _).
  - rewrite (proj2 (Nat.ltb_ge _ _) He). eapply safe_ok. apply ap_drop, ap_tell. exact A.
  - eapply safe_ok. apply ap_drop. destruct data_rx; [apply ap_tell|]; exact A.
Qed.
Lemma bridge_safe k n own id m eh : ap k n own id -> 5 <= k ->
  exists m1 m2 n', bridge dev n m eh = Ok (m1, m2, n') /\ (m2 = [] \/ m2 = m) /\ ap (k - 1) n' own id.
Proof.
  intros A Hk. unfold bridge. assert (ap (k - 1) n own id) as A' by (apply (ap_more _ k); [done|lia]).
  destruct (IEEE80211_IS_MULTICAST _).
  { destruct (m_copypacket (n_heap n) m) as [m1 h]. eexists _, _, _. split; [done|]. split; [by right|by apply ap_heap]. }
  unfold ieee80211_find_node. destruct (ap_find k n own id T_sta (ether_dhost eh) A Hk) as (r & n1 & -> & H). cbn [res_bind].
  destruct r as [j|]; [|subst; eexists _, _, _; split; [done|]; by split; [right|]].
  destruct H as (A1 & Ho & _ & [nj Ej]). rewrite (node_at_Some _ _ _ Ej). cbn [res_bind]. cbn zeta.
  set (n2 := if has_flag _ _ then n1 else _). assert (ap (k - 1) n2 (hinc own j) id) as A2 by (subst n2; case_match; [done|by apply ap_bump]).
  destruct (ap_unref (k - 1) n2 own id j A2) as (n3 & -> & A3); [done|]. cbn [res_bind].
  destruct (_ && _); eexists _, _, _; (split; [done|]); (split; [auto|done]).
Qed.
Lemma deliver_safe k n own id m : ap k n own id -> 5 <= k -> has_eh m -> safe rxf (k - 1) id (ieee80211_deliver_data dev eapol_rx data_rx n id m).
Proof.
  intros A Hk He. unfold ieee80211_deliver_data. destruct m as [|x r]; [done|].
  assert (forall m n', ap (k - 1) n' own id -> m = [] \/ has_eh m -> safe rxf (k - 1) id (match m with
      | [] => Ok n'
      | _ :: _ => let* ni := node_at n' id in if_percpuq_enqueue eapol_rx data_rx n' (if ni_vlan ni =? 0 then m else vlan_set_tag m (ni_vlan ni)) end)) as Hd.
  { intros m n' A' Hm. destruct m as [|y c]; [by eapply safe_ok|]. destruct Hm as [?|Hm]; [done|].
    destruct (ap_alive _ _ _ _ _ A') as [ni E]. rewrite (node_at_Some _ _ _ E). cbn [res_bind].
    apply (percpuq_safe _ _ own); [done|]. destruct (_ =? 0); [done|by apply vlan_eh]. }
  destruct (_ && _).
  - destruct (bridge_safe k n own id (x :: r) (mtod x) A Hk) as (m1 & m2 & n1 & -> & H2 & A1). cbn [res_bind]. apply Hd.
    + destruct m1; [done|by apply ap_tell].
    + destruct H2 as [->| ->]; auto.
  - cbn [res_bind]. apply (Hd (x :: r) n); [apply (ap_more _ k); [done|lia]|by right].
Qed.

Lemma port_ends k n own id m eh b : ap k n own id -> ends k id (fun _ => True) (data_port n id m eh b).
Proof.
  intros A. unfold data_port. destruct (ap_alive _ _ _ _ _ A) as [ni E]. rewrite (node_at_Some _ _ _ E). cbn [res_bind]. cbn zeta.
  destruct (negb _); [destruct (_ =? _)|destruct (_ && _)]; first [by apply ends_go|eapply ends_quit; apply ap_drop, ap_bump; exact A].
Qed.
Lemma data_safe k ticks n own m id junk : ap k n own id -> 6 <= k <= 2 ^ 31 -> Z.land rxf IEEE80211_F_PRIVACY = 0 ->
  match m with x :: _ => fc_type (mtod x) = IEEE80211_FC0_TYPE_DATA | [] => False end ->
  safe rxf (k - 2) id (ieee80211_input_data dev queued eapol_rx data_rx ticks n m id junk).
Proof.
  intros A Hk Hp Ht. unfold ieee80211_input_data. destruct m as [|x r]; [done|]. cbn zeta.
  destruct (hdrspace_data (n_ic n) (mtod x) Ht) as (l & -> & Hl). cbn [res_bind].
  destruct (if (_ <? _)%nat then _ else _) as [m1 h]. pose proof (ap_heap _ _ _ _ h A) as A1.
  destruct m1 as [|y c]; [eapply safe_ok; apply ap_bump, (ap_more _ k); [exact A1|lia]|].
  destruct (source_ends k (set_heap n h) own id (mtod y) A1) as (o & -> & Ho); [lia|]. cbn [res_bind].
  destruct o as [n2|n2]; destruct Ho as [own2 A2]; [eapply safe_ok; apply ap_drop, (ap_more _ (k - 1)); [exact A2|lia]|].
  eapply ends_bind; [eapply ends_more; [by apply (open_ends (k - 1) ticks n2 own2)|lia]|].
  intros [[m3 key] n3] [H3 A3]. destruct m3 as [|z d]; [done|]. destruct (decap_total (n_heap n3) z d l Hl) as (m4 & h4 & -> & H4).
  cbn [res_bind]. cbn zeta. pose proof (ap_heap _ _ _ _ h4 A3) as A4.
  destruct m4 as [|w e]; [eapply safe_ok; apply (ap_more _ (k - 1)); [case_match; [exact A4|by apply ap_bump]|lia]|].
  destruct H4 as [?|H4]; [done|]. eapply ends_bind; [eapply ends_more; [by apply (port_ends (k - 1) _ own2)|lia]|]. intros _ _.
  replace (k - 2) with (k - 1 - 1) by lia. apply (deliver_safe _ _ own2); [done|lia|done].
Qed.

(** ** All frames *)

Lemma input_safe k ticks n own m id rssi rstamp challenge junk :
  ready k n own id -> 6 <= k <= 2 ^ 31 -> frame_bytes m -> Z.land rxf rx_mask = 0 ->
  safe rxf (k - 2) id (ieee80211_input dev queued acl shl32 eapol_rx data_rx ticks n m id rssi rstamp challenge junk).
Proof.
  intros A Hk Hm Hr. assert (forall f, Z.land rx_mask f = f -> Z.land rxf f = 0) as Hf by (intros f <-; by rewrite Z.land_assoc, Hr).
  unfold ieee80211_input. destruct (begin_ready k n own m id A Hm) as (x & r & n1 & -> & Hx & A1). cbn [res_bind].
  assert (forall n' own', ap k n' own' id -> safe rxf (k - 2) id (Ok (release n' (x :: r)))) as Hd.
  { intros n' own' A'. eapply safe_ok. apply ap_drop, (ap_more _ k); [exact A'|lia]. }
  destruct (_ =? _); [by apply (Hd n1 own), A1|]. destruct (_ <? _)%nat; [apply (Hd _ own), ap_bump, A1|].
  destruct (negb _); [apply (Hd _ own), ap_bump, A1|].
  destruct (filter_ends k n1 own id x rssi rstamp A1) as (o & -> & Ho); [by apply Hf|]. cbn [res_bind].
  destruct o as [n2|[j n2]]; [destruct Ho as [own2 A2]; by apply (Hd n2 own2)|]. destruct Ho as [-> A2].
  unfold input_dispatch. destruct (Z.eqb_spec (fc_type (mtod x)) IEEE80211_FC0_TYPE_DATA) as [Ht|_].
  { apply (data_safe k _ _ own); [apply A2|done|by apply Hf|done]. }
  destruct (_ =? _); [apply (management_safe k n2 own); [done|lia|done|done]|].
  destruct (_ =? _); [|by apply (Hd n2 own), A2].
  eapply safe_bind; [by apply (control_safe k n2 own); [apply A2|lia]|]. intros n3 own3 A3. eapply safe_ok. apply ap_drop, (ap_more _ (k - 1)); [exact A3|lia].
Qed.

Lemma rx_ref k n own j : ap_wf rxf k n own own -> 5 <= k -> sender n j ->
  exists n', ieee80211_ref_node n j = Ok n' /\ ready k n' own j.
Proof.
  intros A Hk Hs. pose proof (ap_nwf _ _ _ _ _ A) as W. pose proof (ap_room _ _ _ _ _ A j) as R.
  assert (is_Some (n_nodes n !! j)) as [nj E] by (destruct Hs as [Hb|(ni & E & _)]; [by apply (wf_bss _ _ (proj1 W))|by eexists]).
  destruct (ref_node_ok n own j W) as (n' & Er & W' & T'); [lia|by eexists|].
  assert (n' = upd n j ieee80211_node_incref) as ->.
  { unfold ieee80211_ref_node in Er. rewrite (node_at_Some _ _ _ E) in Er. by injection Er. }
  pose proof (upd_same n j ieee80211_node_incref nj E) as E'. eexists. split; [exact Er|]. split.
  - apply (ap_step rxf k k n _ own _ own own j A); [exact W'|by apply near_touch|lia|done|done|].
    rewrite E'. intros x [= <-]. split; [|apply (ap_chan _ _ _ _ _ A j nj E)].
    change (ni_table (ieee80211_node_incref nj)) with (ni_table nj). destruct (ni_table nj) as [t|] eqn:Et; [|done]. intros _.
    apply (ap_tabs _ _ _ _ _ A t). apply (tab_in _ _ _ (wf_tab _ _ (proj1 W) t)). split; [done|by exists nj].
  - destruct Hs as [Hb|(ni & En & Ht)]; [by left|right]. eexists. split; [exact E'|]. by simplify_eq.
Qed.
Lemma find_rx k n own wh : ap_wf rxf k n own own -> 5 <= k ->
  exists id n', ieee80211_find_rxnode n wh = Ok (id, n') /\ ready k n' own id.
Proof.
  intros A Hk. pose proof (ap_nwf _ _ _ _ _ A) as W. destruct (ap_bss _ _ _ _ _ A) as [b Eb].
  unfold ieee80211_find_rxnode, find_or_bss, _ieee80211_find_node. pose proof (wf_tab _ _ (proj1 W) (rx_table n)) as [_ _ Q3 Q4].
  destruct (lookup_lt_is_Some_2 (nt_hash (table n (rx_table n))) (IEEE80211_NODE_HASH (rx_addr wh))) as [bucket Eu]; [rewrite Q3; apply hash_range|].
  rewrite Eu. destruct (find_chain_ok n (rx_addr wh) bucket) as (r & -> & Hr).
  { intros j H. apply (Q4 _ _ _ Eu) in H as (_ & ni & E & _). by eexists. }
  cbn [res_bind]. destruct r as [j|].
  - destruct Hr as (Hin & _). apply (Q4 _ _ _ Eu) in Hin as (_ & ni & E & Et & _).
    destruct (rx_ref k n own j A Hk) as (n' & -> & A'); [right; exists ni; split; [done|by rewrite Et]|]. by eexists _, _.
  - cbn [res_bind]. unfold ref_bss. rewrite Eb. destruct (rx_ref k n own b A Hk) as (n' & -> & A'); [by left|]. by eexists _, _.
Qed.
Lemma rx_frame_safe k ticks n own m rssi rstamp challenge junk :
  ap_wf rxf k n own own -> 6 <= k <= 2 ^ 31 -> frame_bytes m -> Z.land rxf rx_mask = 0 ->
  exists n' own', rx_frame dev queued acl shl32 eapol_rx data_rx ticks n m rssi rstamp challenge junk = Ok n' /\ ap_wf rxf (k - 2) n' own' own'.
Proof.
  intros A Hk Hm Hr. unfold rx_frame. destruct m as [|x r]; [by destruct Hm|].
  destruct (find_rx k n own (mtod x) A ltac:(lia)) as (id & n1 & -> & A1). cbn [res_bind].
  destruct (input_safe k ticks n1 own (x :: r) id rssi rstamp challenge junk A1 Hk Hm Hr) as (n2 & own2 & -> & A2). cbn [res_bind].
  destruct (ap_release rxf dev (k - 2) n2 own2 id A2) as (n3 & -> & A3). by exists n3, own2.
Qed.

(** Any sequence of frames, each with its time, strength and random bytes. *)
Record arrival := mkArrival { ar_ticks : Z; ar_frame : list mbuf; ar_rssi : Z; ar_rstamp : Z; ar_challenge : list Z; ar_junk : Z }.
Fixpoint rx_frames (n : net) (fs : list arrival) : res net :=
  match fs with
  | [] => Ok n
  | f :: fs =>
      let* n := rx_frame dev queued acl shl32 eapol_rx data_rx (ar_ticks f) n (ar_frame f) (ar_rssi f) (ar_rstamp f) (ar_challenge f) (ar_junk f) in
      rx_frames n fs
  end.
End InputSafe.


(** ** An example *)

(** An access point on channel 1, and a station that authenticates, associates,
    sends a broadcast and polls for saved frames. *)
Definition open_ap : net :=
  upd sample_start 0%nat (fun ni => set_bssid (set_rates (set_chan ni (Some (mkChan 1 2412 0xa0))) [2; 4; 11; 22]) [2; 0; 0; 0; 0; 1]).
Definition one_mbuf (l : list Z) : list mbuf :=
  [mkMbuf (Z.lor M_PKTHDR M_EXT) 256 (length l) MT_DATA (mkPkthdr (Z.of_nat (length l)) 0 0 0 0) (replicate 256 0 ++ l)].
Definition to_ap (fc0 fc1 sq : Z) (a3 body : list Z) : list Z :=
  [fc0; fc1; 0; 0] ++ [2; 0; 0; 0; 0; 1] ++ station ++ a3 ++ [sq; 0] ++ body.
Definition auth_frame : list Z := to_ap 0xb0 0 0x10 [2; 0; 0; 0; 0; 1] [0; 0; 1; 0; 0; 0].
Definition assoc_frame : list Z := to_ap 0x00 0 0x20 [2; 0; 0; 0; 0; 1] ([1; 0; 10; 0] ++ [0; 0] ++ [1; 4; 2; 4; 11; 22]).
Definition bcast_frame : list Z := to_ap 0x08 0x01 0x30 (replicate 6 0xff) ([0xaa; 0xaa; 3; 0; 0; 0; 8; 6] ++ [1; 2; 3]).
Definition pspoll_frame : list Z := [0xa4; 0x10; 1; 0xc0] ++ [2; 0; 0; 0; 0; 1] ++ station.
Definition session : list arrival :=
  map (fun l => mkArrival 100 (one_mbuf l) 30 0 [] 0) [auth_frame; assoc_frame; bcast_frame; pspoll_frame].
Definition run_session : res net := rx_frames null_key_ops (fun _ _ => true) (fun _ => true) 1 true true open_ap session.

(** The station gets an association id, is authorized, and the broadcast is
    delivered in Ethernet format. *)
Example session_run : (match run_session with Ok n =>
    ((fun ni => (ni_associd ni, ni_refcnt ni, has_flag (ni_flags ni) IEEE80211_NODE_AUTH)) <$> n_nodes n !! 1%nat, drop 2 (n_out n)) | _ => (None, []) end) =
  (Some (0xc001, 4, true),
   [NE_mgmt 1 IEEE80211_FC0_SUBTYPE_AUTH 2; NE_newassoc 1 true; NE_mgmt 1 IEEE80211_FC0_SUBTYPE_ASSOC_RESP 0; NE_join 1 true;
    NE_data (replicate 6 0xff ++ station ++ [8; 6] ++ [1; 2; 3]); NE_nulldata 1]).
Proof. vm_compute. reflexivity. Qed.

Lemma open_ap_wf : ap_wf 0 20 open_ap (hinc (fun _ => 0%nat) 0%nat) (hinc (fun _ => 0%nat) 0%nat).
Proof.
  pose proof sample_start_ok as W. destruct (wf_held _ _ _ (proj2 W) 0%nat) as [ni E]; [vm_compute; lia|].
  assert (nwf open_ap (hinc (fun _ => 0%nat) 0%nat)) as W1
    by (eapply nwf_quiet; [apply (quiet_upd _ _ ni); [exact E|done|done|node_ok_fields]|exact W]).
  assert (forall t j, j ∈ nt_node (table open_ap t) -> j = 0%nat) as Ht.
  { assert (nt_node (table open_ap T_scan) = [0%nat] /\ nt_node (table open_ap T_sta) = []) as [E1 E2] by (vm_compute; done).
    intros [|] j; [rewrite E1|rewrite E2]; [apply list_elem_of_singleton|by intros ?%not_elem_of_nil]. }
  assert (ic_bss open_ap = Some 0%nat) as Eb by (vm_compute; reflexivity).
  split; [exact W1| | | |by eexists| |left; vm_compute; reflexivity].
  - intros t j ->%Ht. vm_compute. lia.
  - intros j. unfold hinc. case_decide; lia.
  - vm_compute. done.
  - intros j nj Ej Hj. assert (j = 0%nat) as ->.
    { destruct Hj as [Hn|Hb]; [|congruence]. destruct (ni_table nj) as [t|] eqn:Et; [|done]. apply (Ht t).
      apply (tab_in _ _ _ (wf_tab _ _ (proj1 W1) t)). split; [done|by exists nj]. }
    unfold open_ap in Ej. rewrite (upd_same _ _ _ _ E) in Ej. by injection Ej as <-.
Qed.
Lemma one_mbuf_bytes l : bytes l -> frame_bytes (one_mbuf l).
Proof.
  intros H. split; [done|]. constructor; [|done]. apply bytes_app. split; [|done]. by apply Forall_replicate.
Qed.
Lemma session_bytes : Forall (fun f => frame_bytes (ar_frame f)) session.
Proof.
  apply Forall_map. repeat (apply list.Forall_cons; split; [apply one_mbuf_bytes; by apply (bool_decide_unpack _); vm_compute|]). done.
Qed.
