(* ===== verification/PowerSave.v ===== *)
(** * Power save at an access point

    Frames for a sleeping station wait in its queue ([ieee80211_pwrsave] of
    net80211/ieee80211_output.c) until it polls, wakes up or they grow too old;
    its bit in the traffic indication map tells it that there are some. *)

From stdpp Require Import gmap.
From S2P Require Import Prelude Buffers Endian Mbuf Ieee80211 Crypto Defrag InfoElem Node NodeTable NodeProof NodeSafety NodeHistory NodeLife NodeTimer Rates Mgmt MgmtProof Input InputProof.

(** ** Definitions *)

Definition IEEE80211_PS_MAX_QUEUE : nat := 50.
(** The age, stored as the difference to the one before.  [ni_intval] has 16 bits
    and the beacon interval is at most 1000, so that the product fits. *)
Definition save_age (n : net) (ni : ieee80211_node) : Z := Z.shiftl (ni_intval ni * ic_bintval n) 2 `quot` 1024.
Definition _IEEE80211_NODE_SAVEQ_ENQUEUE (q : list (Z * list mbuf)) (m : list mbuf) (age : Z) : list (Z * list mbuf) :=
  q ++ [(match list.last q with Some (a, _) => age - a | None => age end, m)].
Definition ieee80211_pwrsave (n : net) (id : nat) (m : list mbuf) : res net :=
  let* ni := node_at n id in
  let q := ni_savedq ni in
  if (IEEE80211_PS_MAX_QUEUE <=? length q)%nat then Ok (release n m)
  else
    let q' := _IEEE80211_NODE_SAVEQ_ENQUEUE q m (save_age n ni) in
    let n := upd n id (fun ni => set_savedq ni q') in
    if (length q + 1 =? 1)%nat then ieee80211_set_tim n id true else Ok n.

(** ** The traffic indication map *)

(** The bit of a station, and what nobody but power save may change. *)
Definition tim_bit (n : net) (aid : Z) : bool :=
  match ic_tim_bitmap n !! Z.to_nat (aid / 8) with Some b => Z.testbit b (aid mod 8) | None => false end.
Definition aid_of (ni : ieee80211_node) : Z := IEEE80211_AID (ni_associd ni).
Definition ps_part (ni : ieee80211_node) : Z * list (Z * list mbuf) := (ni_associd ni, ni_savedq ni).
Definition ps_view (n n' : net) : Prop :=
  (ic_tim_bitmap n', ic_ps_pending n') = (ic_tim_bitmap n, ic_ps_pending n) /\ forall j, ps_part <$> n_nodes n' !! j = ps_part <$> n_nodes n !! j.

(** Associated stations have their own ids, and each one's bit is set exactly
    when it has frames waiting. *)
Definition aids_apart (n : net) : Prop := forall i j ni nj,
  n_nodes n !! i = Some ni -> n_nodes n !! j = Some nj -> aid_of ni <> 0 -> aid_of ni = aid_of nj -> i = j.
Definition tim_sync (n : net) : Prop := forall j nj,
  n_nodes n !! j = Some nj -> aid_of nj <> 0 -> tim_bit n (aid_of nj) = negb (bool_decide (ni_savedq nj = [])).

Lemma view_refl n : ps_view n n.
Proof. done. Qed.
Lemma view_trans a b c : ps_view a b -> ps_view b c -> ps_view a c.
Proof. intros [E1 H1] [E2 H2]. split; [congruence|]. intros j. by rewrite H2. Qed.
Lemma view_node n n' j nj' : ps_view n n' -> n_nodes n' !! j = Some nj' -> exists nj, n_nodes n !! j = Some nj /\ ps_part nj' = ps_part nj.
Proof.
  intros [_ H] E. specialize (H j). rewrite E in H. cbn in H. symmetry in H. apply fmap_Some in H as (nj & En & Ep). by exists nj.
Qed.
Lemma view_sync n n' : ps_view n n' -> aids_apart n /\ tim_sync n -> aids_apart n' /\ tim_sync n'.
Proof.
  intros V [Ha Hs]. split.
  - intros i j ni' nj' Ei Ej Hn Hij. destruct (view_node _ _ _ _ V Ei) as (ni & Fi & [= Pi _]), (view_node _ _ _ _ V Ej) as (nj & Fj & [= Pj _]).
    unfold aid_of in *. rewrite Pi, Pj in *. by apply (Ha i j ni nj).
  - intros j nj' Ej Hn. destruct (view_node _ _ _ _ V Ej) as (nj & Fj & [= Pj Pq]). unfold aid_of in *. rewrite Pj, Pq in *.
    rewrite <- (Hs j nj Fj Hn). destruct V as [[= Vm _] _]. unfold tim_bit. by rewrite Vm.
Qed.
Lemma view_upd n id f : (forall x, ps_part (f x) = ps_part x) -> ps_view n (upd n id f).
Proof.
  intros H. split; [done|]. intros j. destruct (decide (id = j)) as [->|Hne]; [|by rewrite upd_other].
  rewrite upd_nodes, lookup_alter_eq. destruct (n_nodes n !! j) as [x|]; [|done]. cbn. by rewrite H.
Qed.

(** What [ieee80211_set_tim] does to the map. *)
Lemma has_flag_shl b i : 0 <= i -> has_flag b (Z.shiftl 1 i) = Z.testbit b i.
Proof.
  intros Hi. unfold has_flag. rewrite Z.shiftl_1_l. destruct (Z.testbit b i) eqn:E.
  - apply negb_true_iff, Z.eqb_neq. intros H. apply (f_equal (fun x => Z.testbit x i)) in H.
    by rewrite Z.land_spec, Z.pow2_bits_true, E, Z.bits_0 in H by done.
  - apply negb_false_iff, Z.eqb_eq. apply Z.bits_inj'. intros j Hj. rewrite Z.land_spec, Z.bits_0.
    destruct (decide (i = j)) as [<-|Hne]; [by rewrite E|]. rewrite Z.pow2_bits_false by done. by rewrite andb_false_r.
Qed.
(** How many bits are set. *)
Definition weight (b : Z) : Z :=
  Z.b2z (Z.testbit b 0) + Z.b2z (Z.testbit b 1) + Z.b2z (Z.testbit b 2) + Z.b2z (Z.testbit b 3) +
  Z.b2z (Z.testbit b 4) + Z.b2z (Z.testbit b 5) + Z.b2z (Z.testbit b 6) + Z.b2z (Z.testbit b 7).
Definition waiting (l : list Z) : Z := foldr (fun b s => weight b + s) 0 l.

Lemma waiting_insert l i w w' : l !! i = Some w -> waiting (<[i := w']> l) = waiting l - weight w + weight w'.
Proof.
  revert i. induction l as [|x l IH]; intros [|i] E; try done; cbn [insert list_insert waiting foldr] in *; [injection E as ->; lia|].
  change (weight x + waiting (<[i := w']> l) = weight x + waiting l - weight w + weight w'). rewrite (IH i E). lia.
Qed.
Lemma weight_flip w w' k b : 0 <= k < 8 -> (forall i, 0 <= i < 8 -> Z.testbit w' i = if decide (i = k) then b else Z.testbit w i) ->
  weight w' = weight w - Z.b2z (Z.testbit w k) + Z.b2z b.
Proof.
  intros Hk H. unfold weight. rewrite !H by lia.
  assert (k = 0 \/ k = 1 \/ k = 2 \/ k = 3 \/ k = 4 \/ k = 5 \/ k = 6 \/ k = 7) as Hc by lia.
  destruct Hc as [->|[->|[->|[->|[->|[->|[->| ->]]]]]]]; cbn [decide decide_rel Z.eq_dec]; repeat case_decide; try lia; done.
Qed.

Lemma set_tim_map n id b n' ni : ieee80211_set_tim n id b = Ok n' -> n_nodes n !! id = Some ni -> 0 <= ni_associd ni ->
  let i := Z.to_nat (aid_of ni / 8) in let k := aid_of ni mod 8 in
  exists w, ic_tim_bitmap n !! i = Some w /\ 0 <= k < 8 /\ n_nodes n' = n_nodes n /\
    ((b = Z.testbit w k /\ n' = n) \/
     exists w', b = negb (Z.testbit w k) /\ (forall j, 0 <= j < 8 -> Z.testbit w' j = if decide (j = k) then b else Z.testbit w j) /\ is_u8 w' /\
       ic_tim_bitmap n' = <[i := w']> (ic_tim_bitmap n) /\ ic_ps_pending n' = u16 (ic_ps_pending n + (if b then 1 else -1))).
Proof.
  unfold ieee80211_set_tim. destruct (negb _); [done|]. intros Et E H0. rewrite (node_at_Some _ _ _ E) in Et. cbn [res_bind] in Et.
  fold (aid_of ni) in Et. destruct (negb (_ <? _)); [done|]. cbn zeta in Et |- *.
  destruct (ic_tim_bitmap n !! Z.to_nat (aid_of ni / 8)) as [w|] eqn:Ew; [|done]. exists w. split; [done|].
  pose proof (Z.mod_pos_bound (aid_of ni) 8 eq_refl) as B8. split; [done|]. rewrite has_flag_shl in Et by lia.
  destruct (eqb_spec b (Z.testbit w (aid_of ni mod 8))) as [Hb|Hb]; [injection Et as <-; split; [done|by left]|].
  split; [by destruct b; injection Et as <-|]. right.
  destruct b; injection Et as <-; eexists; (split; [by destruct (Z.testbit w _)|]); (split; [|split; [apply u8_range|done]]); intros i Hi8; rewrite testbit_u8 by lia.
  - rewrite Z.lor_spec, Z.shiftl_1_l. case_decide as Hd; [subst i; rewrite Z.pow2_bits_true by lia; by rewrite orb_true_r|].
    rewrite Z.pow2_bits_false by done. by rewrite orb_false_r.
  - rewrite Z.land_spec, Z.lnot_spec, Z.shiftl_1_l by lia. case_decide as Hd; [subst i; rewrite Z.pow2_bits_true by lia; by rewrite andb_false_r|].
    rewrite Z.pow2_bits_false by done. by rewrite andb_true_r.
Qed.
Lemma set_tim_bits n id b n' ni aid : ieee80211_set_tim n id b = Ok n' -> n_nodes n !! id = Some ni -> 0 <= ni_associd ni -> 0 <= aid ->
  n_nodes n' = n_nodes n /\ tim_bit n' aid = (if decide (aid = aid_of ni) then b else tim_bit n aid).
Proof.
  intros Et E H0 Ha. destruct (set_tim_map _ _ _ _ _ Et E H0) as (w & Ew & B8 & En & C). split; [done|].
  assert (0 <= aid_of ni) as Hi by by apply AID_range.
  destruct C as [[Hb ->]|(w' & _ & Hw & _ & Em & _)].
  { case_decide as Hd; [|done]. subst aid. unfold tim_bit. by rewrite Ew. }
  unfold tim_bit. rewrite Em. pose proof (Z.mod_pos_bound aid 8 eq_refl) as A8.
  destruct (decide (aid / 8 = aid_of ni / 8)) as [Hq|Hq].
  - rewrite Hq, list_lookup_insert_eq by (by apply lookup_lt_Some in Ew). rewrite Hw by lia.
    destruct (decide (aid = aid_of ni)) as [->|Hne]; [by rewrite decide_True|]. rewrite decide_False; [by rewrite Ew|].
    intros Hm. apply Hne. rewrite (Z.div_mod aid 8), (Z.div_mod (aid_of ni) 8) by done. congruence.
  - rewrite list_lookup_insert_ne; [rewrite decide_False; [done|]; by intros ->|].
    intros Hc. apply Hq. apply Z2Nat.inj in Hc; [done|apply Z.div_pos; lia..].
Qed.

(** [ic_ps_pending] counts the bits that are set. *)
Definition pending_ok (n : net) : Prop := bytes (ic_tim_bitmap n) /\ ic_ps_pending n = u16 (waiting (ic_tim_bitmap n)).
Lemma set_tim_pending n id b n' ni : ieee80211_set_tim n id b = Ok n' -> n_nodes n !! id = Some ni -> 0 <= ni_associd ni ->
  pending_ok n -> pending_ok n'.
Proof.
  intros Et E H0 [Hb Hp]. destruct (set_tim_map _ _ _ _ _ Et E H0) as (w & Ew & B8 & _ & [[_ ->]|(w' & Hn & Hw & Hu & Em & Ep)]); [done|].
  split; [rewrite Em; by apply Forall_insert|]. rewrite Ep, Em, Hp, (waiting_insert _ _ _ _ Ew), (weight_flip w w' _ b B8 Hw).
  rewrite !u16_mod, Zplus_mod_idemp_l. f_equal. subst b. destruct (Z.testbit w _); cbn; lia.
Qed.

Lemma set_tim_out n id b n' : ieee80211_set_tim n id b = Ok n' -> n_out n' = n_out n.
Proof.
  unfold ieee80211_set_tim. destruct (negb _); [done|]. intros (x & _ & H)%res_bind_Ok. cbn zeta in H. destruct (negb _); [done|].
  destruct (ic_tim_bitmap n !! _); [|done]. by destruct (eqb _ _), b; injection H as <-.
Qed.

(** ** Operations *)

Record in_sync (n : net) : Prop := mkSync {
  sy_apart : aids_apart n;
  sy_bits : tim_sync n;
  sy_aid : forall j nj, n_nodes n !! j = Some nj -> 0 <= ni_associd nj;
  sy_pending : pending_ok n;
}.
Lemma view_in_sync n n' : ps_view n n' -> in_sync n -> in_sync n'.
Proof.
  intros V [A S H P]. destruct (view_sync n n' V (conj A S)) as [A' S']. split; [done|done| |].
  - intros j nj Ej. destruct (view_node _ _ _ _ V Ej) as (x & Ex & [= -> _]). by apply (H j).
  - destruct V as [[= Vm Vp] _]. unfold pending_ok. by rewrite Vm, Vp.
Qed.
(** One station gets another queue and the bit that goes with it. *)
Lemma requeue_sync n n1 id ni q : in_sync n -> n_nodes n !! id = Some ni ->
  n_nodes n1 = n_nodes (upd n id (fun ni => set_savedq ni q)) ->
  (forall aid, 0 <= aid -> aid <> 0 -> tim_bit n1 aid = if decide (aid = aid_of ni) then negb (bool_decide (q = [])) else tim_bit n aid) ->
  pending_ok n1 -> in_sync n1.
Proof.
  intros [A S H P] E En Hb P1. assert (forall j nj, n_nodes n1 !! j = Some nj -> exists x, n_nodes n !! j = Some x /\ ni_associd nj = ni_associd x /\
    ni_savedq nj = if decide (j = id) then q else ni_savedq x) as B.
  { intros j nj. rewrite En. destruct (decide (j = id)) as [->|Hne]; [|rewrite upd_other by done; intros ?; by exists nj].
    rewrite (upd_same _ _ _ _ E). intros [= <-]. by exists ni. }
  split; [| | |done].
  - intros i j xi xj Ei Ej. destruct (B _ _ Ei) as (yi & Fi & Ai & _), (B _ _ Ej) as (yj & Fj & Aj & _). unfold aid_of. rewrite Ai, Aj. by apply A.
  - intros j nj Ej. destruct (B _ _ Ej) as (x & Fx & Ax & Qx). unfold aid_of. rewrite Ax. fold (aid_of x). intros Hn.
    rewrite Hb by (try done; by apply AID_range, (H j)). rewrite Qx. destruct (decide (j = id)) as [->|Hne].
    + assert (x = ni) as -> by congruence. by rewrite decide_True.
    + rewrite decide_False; [by apply (S j)|]. intros Heq. apply Hne. by apply (A j id x ni).
  - intros j nj Ej. destruct (B _ _ Ej) as (x & Fx & -> & _). by apply (H j).
Qed.
Lemma tim_requeue n id ni q b n1 : in_sync n -> n_nodes n !! id = Some ni -> b = negb (bool_decide (q = [])) ->
  ieee80211_set_tim (upd n id (fun ni => set_savedq ni q)) id b = Ok n1 -> in_sync n1.
Proof.
  intros I E Hb Et. pose proof (upd_same n id (fun ni => set_savedq ni q) ni E) as E1. pose proof (sy_aid _ I _ _ E) as H0.
  assert (forall aid, 0 <= aid -> n_nodes n1 = n_nodes (upd n id (fun ni => set_savedq ni q)) /\
    tim_bit n1 aid = (if decide (aid = aid_of ni) then b else tim_bit n aid)) as Hs by (intros aid Ha; exact (set_tim_bits _ _ _ _ _ aid Et E1 H0 Ha)).
  apply (requeue_sync n n1 id ni q I E); [apply (Hs 0); lia| |by apply (set_tim_pending _ _ _ _ _ Et E1 H0), (sy_pending _ I)].
  intros aid Ha _. destruct (Hs aid Ha) as [_ ->]. by rewrite Hb.
Qed.

Lemma node_at_inv n id ni : node_at n id = Ok ni -> n_nodes n !! id = Some ni.
Proof. unfold node_at. destruct (n_nodes n !! id); [by intros [= ->]|done]. Qed.
Lemma same_view n n' : (ic_tim_bitmap n', ic_ps_pending n') = (ic_tim_bitmap n, ic_ps_pending n) -> n_nodes n' = n_nodes n -> ps_view n n'.
Proof. intros E1 E2. split; [done|]. intros j. by rewrite E2. Qed.
Lemma ref_view n id n' : ieee80211_ref_node n id = Ok n' -> ps_view n n'.
Proof. unfold ieee80211_ref_node. intros (x & _ & [= <-])%res_bind_Ok. by apply view_upd. Qed.

Section Ops.
Context (rxf : Z) (queued : net -> nat -> bool).

Lemma send_view n id subtype arg n' : IEEE80211_SEND_MGMT queued n id subtype arg = Ok n' -> ps_view n n'.
Proof.
  unfold IEEE80211_SEND_MGMT. intros (x & _ & H)%res_bind_Ok. destruct (queued n id); [|injection H as <-; by apply same_view].
  apply res_bind_Ok in H as (n1 & E1%ref_view & [= <-]). apply (view_trans _ n1); [done|]. eapply view_trans; [|by apply same_view].
  apply view_upd. intros ni. unfold mgmt_sent. by destruct (_ =? _).
Qed.
Lemma nulldata_view n id n' : ieee80211_send_nulldata queued n id = Ok n' -> ps_view n n'.
Proof.
  unfold ieee80211_send_nulldata. intros (x & _ & H)%res_bind_Ok. destruct (queued n id); injection H as <-; [apply (view_trans _ (upd n id take_seq)); [by apply view_upd|by apply same_view]|].
  apply (view_trans _ (bump n is_tx_nobuf)); [by apply same_view|by apply view_upd].
Qed.

Lemma age_savedq_keeps q h q' h' d : age_savedq q h = (q', h', d) -> 0 <= d /\ (d = 0 -> (q' = [] <-> q = [])).
Proof.
  revert h q' h' d. induction q as [|[a m] q IH]; intros h q' h' d; cbn [age_savedq]; [intros [= <- <- <-]; by split; [lia|]|].
  destruct (_ <? _); [|intros [= <- <- <-]; split; [lia|]; intros _; by split]. destruct (age_savedq q (m_freem h m)) as [[q1 h1] d1] eqn:E. intros [= <- <- <-].
  destruct (IH _ _ _ _ E). lia.
Qed.

(** Saving a frame, a poll, a change of the power-save state, the timer. *)
Inductive psop := Ps_save (m : list mbuf) | Ps_poll (m0 : list Z) | Ps_mode (enable : bool) | Ps_age.
Definition ps_exec (n : net) (id : nat) (o : psop) : res net :=
  match o with
  | Ps_save m => ieee80211_pwrsave n id m
  | Ps_poll m0 => ieee80211_recv_pspoll queued n id m0
  | Ps_mode enable => ieee80211_node_pwrsave n id enable
  | Ps_age => age_station n id
  end.
Fixpoint ps_run (n : net) (id : nat) (os : list psop) : res net :=
  match os with [] => Ok n | o :: os => let* n := ps_exec n id o in ps_run n id os end.

Lemma save_sync n id m n' : in_sync n -> ieee80211_pwrsave n id m = Ok n' -> in_sync n'.
Proof.
  intros I. unfold ieee80211_pwrsave. intros (ni & E & H)%res_bind_Ok. cbn zeta in H.
  pose proof (node_at_inv _ _ _ E) as En.
  destruct (_ <=? _)%nat; [injection H as <-; by apply (view_in_sync n); [apply same_view|]|].
  set (q' := _IEEE80211_NODE_SAVEQ_ENQUEUE (ni_savedq ni) m (save_age n ni)) in *. assert (q' <> []) as Hq by (subst q'; unfold _IEEE80211_NODE_SAVEQ_ENQUEUE; by destruct (ni_savedq ni)).
  destruct (Nat.eqb_spec (length (ni_savedq ni) + 1) 1) as [Hl|Hl].
  - eapply (tim_requeue n id ni q'); [done|done| |exact H]. by rewrite bool_decide_false.
  - injection H as <-. eapply (requeue_sync n _ id ni q'); [done|done|done| |exact (sy_pending _ I)]. intros aid Ha Hn. case_decide as Hd; [|done]. subst aid.
    rewrite bool_decide_false by done. change (tim_bit n (aid_of ni) = true). rewrite (sy_bits _ I id ni En Hn).
    rewrite bool_decide_false; [done|]. intros Hz. rewrite Hz in Hl. cbn in Hl. lia.
Qed.
Lemma mode_sync n id b n' : in_sync n -> ieee80211_node_pwrsave n id b = Ok n' -> in_sync n'.
Proof.
  intros I. unfold ieee80211_node_pwrsave. intros (ni & E & H)%res_bind_Ok. cbn zeta in H.
  pose proof (node_at_inv _ _ _ E) as En.
  destruct b; [injection H as <-; apply (view_in_sync n); [|done]; eapply view_trans; [|by apply view_upd]; by destruct (has_flag _ _)|].
  match type of H with ieee80211_set_tim (upd (flush_savedq ?x _) _ _) _ _ = _ => set (n1 := x) in * end.
  assert (ps_view n n1) as V1 by (eapply view_trans; [|by apply view_upd]; by destruct (has_flag _ _)).
  assert (forall l n0, ps_view n0 (fold_left (fun n '(i, m) => tell n (NE_snd (if (i =? 0)%nat then m else or_flags m M_MORE_DATA))) l n0)) as Hq.
  { induction l as [|[i m] l IH]; intros n0; [done|]. cbn [fold_left]. eapply view_trans; [|apply IH]. by apply same_view. }
  assert (n_nodes (flush_savedq n1 (ni_savedq ni)) !! id = n_nodes n1 !! id) as Ef.
  { unfold flush_savedq. generalize (zip (reverse (seq 0 (length (ni_savedq ni)))) (map snd (ni_savedq ni))).
    assert (forall l n0, n_nodes (fold_left (fun n '(i, m) => tell n (NE_snd (if (i =? 0)%nat then m else or_flags m M_MORE_DATA))) l n0) = n_nodes n0) as Hn
      by (induction l as [|[i m] l IH]; intros n0; [done|]; cbn [fold_left]; by rewrite IH).
    intros l. by rewrite Hn. }
  assert (exists x, n_nodes n1 !! id = Some x) as [x Ex] by (eexists; apply upd_same; by destruct (has_flag _ _)).
  eapply (tim_requeue (flush_savedq n1 (ni_savedq ni)) id x []); [|by rewrite Ef|done|exact H].
  apply (view_in_sync n); [|done]. eapply view_trans; [exact V1|apply Hq].
Qed.
Lemma age_sync n id n' : in_sync n -> age_station n id = Ok n' -> in_sync n'.
Proof.
  intros I. unfold age_station. intros (ni & E & H)%res_bind_Ok.
  pose proof (node_at_inv _ _ _ E) as En.
  destruct (age_savedq (ni_savedq ni) (n_heap n)) as [[q h] d] eqn:Ea. destruct (age_savedq_keeps _ _ _ _ _ Ea) as [Hd0 Hd].
  assert (in_sync (set_heap n h)) as Ih by (apply (view_in_sync n); [by apply same_view|done]).
  assert (negb (bool_decide (q = [])) = negb (bool_decide (ni_savedq ni = [])) -> in_sync (upd (set_heap n h) id (fun ni => set_savedq ni q))) as Hk.
  { intros Hq. eapply (requeue_sync (set_heap n h) _ id ni q); [done|done|done| |exact (sy_pending _ I)]. intros aid Ha Hn. case_decide as Hc; [|done]. subst aid.
    rewrite Hq. change (tim_bit n (aid_of ni) = negb (bool_decide (ni_savedq ni = []))). by apply (sy_bits _ I id). }
  destruct q as [|p q].
  - destruct (Z.eqb_spec d 0) as [Hz|Hz]; [|by eapply (tim_requeue (set_heap n h) id ni []); [done|done|done|exact H]].
    injection H as <-. apply Hk. rewrite (proj1 (Hd Hz) eq_refl). done.
  - injection H as <-. apply Hk. rewrite !bool_decide_false; [done| |done]. intros Hn. rewrite Hn in Ea. by injection Ea.
Qed.
Lemma poll_sync n id m0 n' : in_sync n -> ieee80211_recv_pspoll queued n id m0 = Ok n' -> in_sync n'.
Proof.
  intros I. unfold ieee80211_recv_pspoll. intros (ni & E & H)%res_bind_Ok.
  pose proof (node_at_inv _ _ _ E) as En.
  assert (forall s n1, IEEE80211_SEND_MGMT queued (bump n s) id IEEE80211_FC0_SUBTYPE_DEAUTH IEEE80211_REASON_NOT_ASSOCED = Ok n1 -> in_sync n1) as Hd.
  { intros s n1 V%send_view. apply (view_in_sync n); [|done]. eapply view_trans; [|exact V]. by apply same_view. }
  destruct (_ =? 0); [by apply Hd in H|]. destruct (negb _); [by apply Hd in H|].
  destruct (ni_savedq ni) as [|[a m] q] eqn:Eq.
  - apply res_bind_Ok in H as (n1 & V1%ref_view & (n2 & V2%nulldata_view & Ht)%res_bind_Ok).
    assert (ps_view n (bump n2 is_ps_qempty)) as V by (eapply view_trans; [exact V1|]; eapply view_trans; [exact V2|by apply same_view]).
    assert (is_Some (n_nodes (bump n2 is_ps_qempty) !! id)) as [x Ex].
    { destruct V as [_ V]. specialize (V id). rewrite En in V. by apply fmap_is_Some with (f := ps_part); rewrite V. }
    destruct (view_node _ _ _ _ V Ex) as (y & Ey & [= Pa Pq]). assert (y = ni) as -> by congruence.
    pose proof (view_in_sync _ _ V I) as I2.
    pose proof (fun aid Ha => set_tim_bits _ _ _ _ _ aid Ht Ex (sy_aid _ I2 _ _ Ex) Ha) as Hs.
    apply (requeue_sync (bump n2 is_ps_qempty) n' id x []); [done|done| | |by apply (set_tim_pending _ _ _ _ _ Ht Ex), (sy_pending _ I2); apply (sy_aid _ I2 id)].
    + rewrite (proj1 (Hs 0 ltac:(lia))). rewrite Eq in Pq. apply map_eq. intros j.
      destruct (decide (id = j)) as [<-|Hne]; [|by rewrite upd_other]. rewrite (upd_same _ _ _ _ Ex), Ex. f_equal. rewrite <- Pq. by destruct x.
    + intros aid Ha _. by apply Hs.
  - cbn zeta in H. apply res_bind_Ok in H as ([m1 n1] & H1 & [= <-]). apply (view_in_sync n1); [by apply same_view|].
    destruct q as [|p q].
    + apply res_bind_Ok in H1 as (n2 & Ht & [= <- <-]). by eapply (tim_requeue n id ni []); [done|done|done|exact Ht].
    + injection H1 as <- <-. eapply (requeue_sync n _ id ni (p :: q)); [done|done|done| |exact (sy_pending _ I)]. intros aid Ha Hn. case_decide as Hc; [|done]. subst aid.
      change (tim_bit n (aid_of ni) = negb (bool_decide (p :: q = []))). rewrite (sy_bits _ I id ni En Hn), Eq. by rewrite !bool_decide_false.
Qed.

Lemma save_safe k n own id m : ap rxf k n own id -> exists n', ieee80211_pwrsave n id m = Ok n' /\ ap rxf k n' own id.
Proof.
  intros A. destruct (ap_alive _ _ _ _ _ A) as [ni E]. unfold ieee80211_pwrsave. rewrite (node_at_Some _ _ _ E). cbn [res_bind]. cbn zeta.
  destruct (_ <=? _)%nat; [eexists; split; [done|by apply ap_drop]|].
  match goal with |- context [upd n id ?f] => assert (ap rxf k (upd n id f) own id) as A1 end.
  { apply ap_set; try done. intros x [B1 B2 B3 B4 B5]. constructor; try done. intros _. left. apply (ap_mode _ _ _ _ _ A). }
  destruct (_ =? _)%nat; [|by eexists]. destruct (ap_set_tim rxf k _ own id true A1) as (n2 & -> & A2 & _). by exists n2.
Qed.
Lemma age_safe k n own id : ap rxf k n own id -> exists n', age_station n id = Ok n' /\ ap rxf k n' own id.
Proof.
  intros A. destruct (ap_alive _ _ _ _ _ A) as [ni E]. unfold age_station. rewrite (node_at_Some _ _ _ E). cbn [res_bind].
  destruct (age_savedq (ni_savedq ni) (n_heap n)) as [[q h] d].
  match goal with |- context [upd (set_heap n h) id ?f] => assert (ap rxf k (upd (set_heap n h) id f) own id) as A1 end.
  { apply ap_set; try done; [by apply ap_heap|]. intros x [B1 B2 B3 B4 B5]. constructor; try done. intros _. left. apply (ap_mode _ _ _ _ _ A). }
  destruct q; [|by eexists]. destruct (_ =? 0); [by eexists|]. destruct (ap_set_tim rxf k _ own id false A1) as (n2 & -> & A2 & _). by exists n2.
Qed.
Lemma ps_exec_ok k n own id o : ap rxf k n own id -> 4 <= k -> in_sync n ->
  exists n' own', ps_exec n id o = Ok n' /\ ap rxf (k - 1) n' own' id /\ in_sync n'.
Proof.
  intros A Hk I. destruct o as [m|m0|b|]; cbn [ps_exec].
  - destruct (save_safe k n own id m A) as (n' & E & A'). exists n', own. split; [done|]. split; [apply (ap_more _ k); [done|lia]|by apply (save_sync n id m)].
  - destruct (pspoll_safe rxf queued k n own id m0 A Hk) as (n' & own' & E & A'). exists n', own'. split; [done|]. split; [done|by apply (poll_sync n id m0)].
  - destruct (pwrsave_safe rxf k n own id b A) as (n' & E & A'). exists n', own. split; [done|]. split; [apply (ap_more _ k); [done|lia]|by apply (mode_sync n id b)].
  - destruct (age_safe k n own id A) as (n' & E & A'). exists n', own. split; [done|]. split; [apply (ap_more _ k); [done|lia]|by apply (age_sync n id)].
Qed.


(** ** A sleeping station collects its frames *)

(** Every frame bypasses power save; all but the last announce another. *)
Fixpoint marked (ms : list (list mbuf)) : list (list mbuf) :=
  match ms with
  | [] => []
  | [m] => [or_flags m M_PWR_SAV]
  | m :: ms => or_flags (or_flags m M_MORE_DATA) M_PWR_SAV :: marked ms
  end.

(** C6. A station that polls once for each frame waiting for it gets all
    of them, in the order in which they were saved, each but the last marked as
    followed by another; after that its bit is clear. *)
Theorem polls_drain k own id m0 (q : list (Z * list mbuf)) : forall n ni,
  ap rxf k n own id -> n_nodes n !! id = Some ni -> ni_savedq ni = q -> q <> [] ->
  ni_associd ni <> 0 -> le16dec (sub_list 2 2 m0) = ni_associd ni ->
  exists n' ni', ps_run n id (replicate (length q) (Ps_poll m0)) = Ok n' /\
    n_out n' = n_out n ++ map NE_snd (marked (map snd q)) /\ n_nodes n' !! id = Some ni' /\ ni_savedq ni' = [] /\
    tim_bit n' (aid_of ni) = false /\ ap rxf k n' own id.
Proof.
  induction q as [|[a m] q IH]; intros n ni A E Eq Hq Ha Hm; [done|]. cbn [length replicate ps_run ps_exec].
  unfold ieee80211_recv_pspoll at 1. rewrite (node_at_Some _ _ _ E). cbn [res_bind].
  rewrite (proj2 (Z.eqb_neq _ _) Ha), (proj2 (Z.eqb_eq _ _) Hm), Eq. cbn [negb]. cbn zeta.
  assert (ap rxf k (upd n id (fun ni => set_savedq ni q)) own id) as A1.
  { apply ap_set; try done. intros x [B1 B2 B3 B4 B5]. constructor; try done. intros _. left. apply (ap_mode _ _ _ _ _ A). }
  pose proof (upd_same n id (fun ni => set_savedq ni q) ni E) as E1. destruct q as [|p q].
  - destruct (ap_set_tim rxf k _ own id false A1) as (n2 & Et & A2 & En & _). rewrite Et. cbn [res_bind map marked replicate length ps_run].
    pose proof (ok_aid _ _ (wf_node _ _ (proj1 (ap_nwf _ _ _ _ _ A)) _ _ E)) as [H0 _].
    destruct (set_tim_bits _ _ _ _ _ (aid_of ni) Et E1 H0) as [_ Hb]; [by apply AID_range|].
    eexists _, _. split; [done|]. split; [|split; [by rewrite <- E1, <- En|split; [done|split; [|by apply ap_tell]]]].
    + change (n_out (tell n2 ?e)) with (n_out n2 ++ [e]). by rewrite (set_tim_out _ _ _ _ Et).
    + change (tim_bit (tell n2 ?e) ?a) with (tim_bit n2 a). rewrite Hb. by rewrite decide_True.
  - cbn [res_bind]. set (n1 := tell _ _). assert (ap rxf k n1 own id) as A2 by by apply ap_tell.
    destruct (IH n1 (set_savedq ni (p :: q)) A2 E1) as (n' & ni' & -> & Ho & En & Eq' & Hb & A'); [done|done|done|done|].
    exists n', ni'. split; [done|]. split; [|done]. rewrite Ho. exact (eq_sym (List.app_assoc (n_out n) [_] _)).
Qed.
End Ops.

(** ** An example *)

(** An associated station, 1, that sleeps; the caller has a reference to it. *)
Definition known_ap : net := after (after open_ap (Op_alloc T_sta station)) (Op_find T_sta station).
Definition asleep (ni : ieee80211_node) : ieee80211_node :=
  set_nflags (set_intval (set_associd (set_chan ni (Some (mkChan 1 2412 0xa0))) 0xc001) 10) (Z.lor IEEE80211_NODE_AUTH IEEE80211_NODE_PWR_MGT).
Definition sleeper_ap : net := upd known_ap 1%nat asleep.
Definition sleeper_own : nat -> nat := hinc (hinc (fun _ => 0%nat) 0%nat) 1%nat.

Lemma known_ap_wf : nwf known_ap (hinc sleeper_own 1%nat).
Proof.
  apply (history_wf null_key_ops open_ap (hinc (fun _ => 0%nat) 0%nat)); [apply open_ap_wf|].
  apply (H_step _ _ _ (after open_ap (Op_alloc T_sta station)) sleeper_own (Op_find T_sta station) (Some 1%nat));
    [|apply few_small; intros id; unfold sleeper_own, hinc; repeat case_decide; lia|done|vm_compute; reflexivity].
  apply (H_step _ _ _ open_ap (hinc (fun _ => 0%nat) 0%nat) (Op_alloc T_sta station) (Some 1%nat));
    [apply H_start|apply few_small; intros id; unfold hinc; repeat case_decide; lia|done|vm_compute; reflexivity].
Qed.
Lemma asleep_ok n ni : ic_max_aid n = 128 -> node_ok n ni -> node_ok n (asleep ni).
Proof. intros Em [A1 A2 A3 A4 A5]. constructor; try done. rewrite Em. by vm_compute. Qed.
Lemma sleeper_wf : nwf sleeper_ap (hinc sleeper_own 1%nat).
Proof.
  destruct (wf_held _ _ _ (proj2 known_ap_wf) 1%nat) as [ni E]; [vm_compute; lia|].
  eapply nwf_quiet; [apply (quiet_upd _ _ ni); [exact E|done|done|]|apply known_ap_wf].
  apply asleep_ok. vm_compute. reflexivity.
Qed.
Lemma sleeper_ids j ni : n_nodes sleeper_ap !! j = Some ni -> j = 0%nat \/ j = 1%nat.
Proof.
  intros H. assert (dom (n_nodes sleeper_ap) = {[0%nat; 1%nat]}) as D by (vm_compute; reflexivity).
  apply elem_of_dom_2 in H. rewrite D in H. by rewrite elem_of_union, !elem_of_singleton in H.
Qed.
Lemma sleeper_ok : ap 0 100 sleeper_ap sleeper_own 1%nat.
Proof.
  split; [exact sleeper_wf| | |vm_compute; done|by eexists| |left; vm_compute; reflexivity].
  - intros t j Hj. destruct (list_live _ _ _ _ sleeper_wf Hj) as (ni & E & _). destruct (sleeper_ids j ni E) as [-> | ->]; vm_compute; lia.
  - intros j. unfold sleeper_own, hinc. repeat case_decide; lia.
  - intros j ni E _. destruct (sleeper_ids j ni E) as [-> | ->]; vm_compute in E; by injection E as <-.
Qed.
Lemma sleeper_sync : in_sync sleeper_ap.
Proof.
  split; [| | |split; [vm_compute; repeat constructor; done|vm_compute; reflexivity]].
  - intros i j ni nj Ei Ej. destruct (sleeper_ids i ni Ei) as [-> | ->], (sleeper_ids j nj Ej) as [-> | ->];
      first [intros _ _; exact eq_refl|vm_compute in Ei, Ej; injection Ei as <-; injection Ej as <-; vm_compute; done].
  - intros j ni E. destruct (sleeper_ids j ni E) as [-> | ->]; vm_compute in E; injection E as <-; vm_compute; done.
  - intros j ni E. destruct (sleeper_ids j ni E) as [-> | ->]; vm_compute in E; injection E as <-; vm_compute; done.
Qed.
Definition poll : list Z := pspoll_frame.
Definition day : list psop := [Ps_save (one_mbuf [1]); Ps_save (one_mbuf [2]); Ps_poll poll; Ps_age; Ps_save (one_mbuf [3]); Ps_mode false; Ps_poll poll].

Example day_run : (match ps_run (fun _ _ => true) sleeper_ap 1%nat day with
  | Ok n => (map (fun e => match e with NE_snd m => content m | _ => [] end) (drop 2 (n_out n)), tim_bit n 1, ic_ps_pending n) | Fault _ => ([], true, 0) end) =
  ([[1]; [3]; []], false, 0).
Proof. vm_compute. reflexivity. Qed.

(** Two frames are waiting. *)
Definition two_saved : net :=
  match ps_run (fun _ _ => true) sleeper_ap 1%nat [Ps_save (one_mbuf [1]); Ps_save (one_mbuf [2])] with Ok n => n | Fault _ => sleeper_ap end.
Definition two_node : ieee80211_node := default zero_node (n_nodes two_saved !! 1%nat).
Lemma two_saved_ok : exists own, ap 0 98 two_saved own 1%nat.
Proof.
  destruct (save_safe 0 100 sleeper_ap sleeper_own 1%nat (one_mbuf [1]) sleeper_ok) as (n1 & E1 & A1).
  destruct (save_safe 0 100 n1 sleeper_own 1%nat (one_mbuf [2]) A1) as (n2 & E2 & A2).
  assert (two_saved = n2) as ->; [|exists sleeper_own; apply (ap_more 0 100); [done|lia]].
  unfold two_saved. cbn [ps_run ps_exec]. rewrite E1. cbn [res_bind]. rewrite E2. done.
Qed.
Lemma polls_drain_witness : exists own n' ni',
  ap 0 98 two_saved own 1%nat /\ ni_savedq two_node = [(3, one_mbuf [1]); (0, one_mbuf [2])] /\
  ps_run (fun _ _ => true) two_saved 1%nat (replicate 2 (Ps_poll poll)) = Ok n' /\
  n_out n' = n_out two_saved ++ map NE_snd (marked [one_mbuf [1]; one_mbuf [2]]) /\ n_nodes n' !! 1%nat = Some ni' /\ ni_savedq ni' = [] /\
  tim_bit n' (aid_of two_node) = false.
Proof.
  destruct two_saved_ok as [own A].
  assert (ni_savedq two_node = [(3, one_mbuf [1]); (0, one_mbuf [2])]) as Eq by (vm_compute; reflexivity).
  destruct (polls_drain 0 (fun _ _ => true) 98 own 1%nat poll [(3, one_mbuf [1]); (0, one_mbuf [2])] two_saved two_node A)
    as (n' & ni' & H1 & H2 & H3 & H4 & H5 & _); [vm_compute; reflexivity|exact Eq|discriminate|vm_compute; discriminate|vm_compute; reflexivity|].
  exists own, n', ni'. exact (conj A (conj Eq (conj H1 (conj H2 (conj H3 (conj H4 H5)))))).
Defined.
