(* ===== verification/MgmtOut.v ===== *)
(** * Management frames sent: ieee80211_send_mgmt and what it builds

    The bodies of the management frames of ieee80211_output.c, element by
    element, and the function that allocates such a frame, fills it in, gives it
    a header and puts it on the management queue.  [IEEE80211_SEND_MGMT] of
    NodeTable.v is what the rest of the stack sees of it; [send_mgmt_refines]
    relates the two.  The timer that guards a handshake ([ic_mgt_timer]) and
    the statistics of nodes are not part of the model. *)

From stdpp Require Import gmap.
From S2P Require Import Prelude Buffers Mbuf Ieee80211 FrameProof Crypto InfoElem Wme Node NodeTable WmeParams NodeProof NodeSafety NodeHistory Rates Mgmt Station Input Output.

(** ** Constants *)

Definition IEEE80211_ERP_NON_ERP_PRESENT : Z := 0x01.
Definition IEEE80211_ERP_LONG_PREAMBLE : Z := 0x04.
Definition IEEE80211_CAPINFO_PRIVACY : Z := 0x0010.
Definition IEEE80211_CHAN_2GHZ : Z := 0x0080.
Definition MT_HEADER : Z := 2.
Definition ENOMEM : Z := 12.
Definition EINVAL : Z := 22.

(** ** Elements *)

Definition IEEE80211_FH_CHANSET (chan : Z) : Z := chan / IEEE80211_FH_CHANMOD + 1.
Definition IEEE80211_FH_CHANPAT (chan : Z) : Z := chan mod IEEE80211_FH_CHANMOD.
Definition IEEE80211_IS_CHAN_2GHZ (c : option ieee80211_channel) : bool :=
  match c with Some c => Z.land (ch_flags c) IEEE80211_CHAN_2GHZ =? IEEE80211_CHAN_2GHZ | None => false end.

Definition IEEE80211_RATE_SIZE : nat := 8.
Definition ieee80211_add_rates (rs : list Z) : list Z :=
  let nrates := Nat.min (length rs) IEEE80211_RATE_SIZE in
  [IEEE80211_ELEMID_RATES; Z.of_nat nrates] ++ take nrates rs.
Definition ieee80211_add_xrates (rs : list Z) : list Z :=
  if (IEEE80211_RATE_SIZE <? length rs)%nat then
    [IEEE80211_ELEMID_XRATES; u8 (Z.of_nat (length rs - IEEE80211_RATE_SIZE))] ++ drop IEEE80211_RATE_SIZE rs
  else [].
Definition ieee80211_add_ssid (ssid : list Z) : list Z :=
  [IEEE80211_ELEMID_SSID; u8 (Z.of_nat (length ssid))] ++ ssid.
Definition ieee80211_add_erp (n : net) : list Z :=
  let erp := if ic_nonerpsta n =? 0 then 0 else IEEE80211_ERP_NON_ERP_PRESENT in
  let erp := if has_flag (ic_flags (n_ic n)) IEEE80211_F_USEPROT then Z.lor erp IEEE80211_ERP_USE_PROTECTION else erp in
  let erp := if has_flag (ic_flags (n_ic n)) IEEE80211_F_USEBARKER then Z.lor erp IEEE80211_ERP_LONG_PREAMBLE else erp in
  [IEEE80211_ELEMID_ERP; 1; erp].

(** ** Bodies *)

(** The capabilities of the network in beacons and probe responses, on [chan]. *)
Definition mode_capinfo (n : net) : Z :=
  if ic_opmode n =? IEEE80211_M_IBSS then IEEE80211_CAPINFO_IBSS else IEEE80211_CAPINFO_ESS.
Definition flag_capinfo (n : net) (chan : option ieee80211_channel) (cap : Z) : Z :=
  let cap := if has_flag (ic_flags (n_ic n)) IEEE80211_F_PRIVACY then Z.lor cap IEEE80211_CAPINFO_PRIVACY else cap in
  if has_flag (ic_flags (n_ic n)) IEEE80211_F_SHPREAMBLE && IEEE80211_IS_CHAN_2GHZ chan
  then Z.lor cap IEEE80211_CAPINFO_SHORT_PREAMBLE else cap.
Definition slot_capinfo (n : net) (cap : Z) : Z :=
  if has_flag (ic_flags (n_ic n)) IEEE80211_F_SHSLOT then Z.lor cap IEEE80211_CAPINFO_SHORT_SLOTTIME else cap.
Definition bss_capinfo (n : net) (chan : option ieee80211_channel) : Z := slot_capinfo n (flag_capinfo n chan (mode_capinfo n)).

Definition wpa_ie (n : net) : res (list Z) :=
  if has_flag (ic_flags (n_ic n)) IEEE80211_F_WPA
  then let* bss := bss_node n in ieee80211_add_wpa (ic_flags (n_ic n)) (ni_rsn bss) else Ok [].
Definition wme_param_ie (n : net) : list Z :=
  if has_flag (ic_flags (n_ic n)) IEEE80211_F_WME then ieee80211_add_wme_param (ic_wme n) else [].
Definition erp_ie (n : net) : list Z := if ic_curmode n =? IEEE80211_MODE_11G then ieee80211_add_erp n else [].

Definition probe_resp_body (n : net) (ni : ieee80211_node) : res (list Z) :=
  let* bss := bss_node n in
  let chan := ieee80211_chan2ieee (Some (ic_curchan n)) in
  let phy := if ic_phytype (ic_conf n) =? IEEE80211_T_FH then
               [IEEE80211_ELEMID_FHPARMS; 5; Z.land (ni_fhdwell ni) 0x00ff; Z.land (Z.shiftr (ni_fhdwell ni) 8) 0x00ff;
                u8 (IEEE80211_FH_CHANSET chan); u8 (IEEE80211_FH_CHANPAT chan); ni_fhindex ni]
             else [IEEE80211_ELEMID_DSPARMS; 1; u8 chan] in
  let ibss := if ic_opmode n =? IEEE80211_M_IBSS then [IEEE80211_ELEMID_IBSSPARMS; 2; 0; 0] else [] in
  let* wpa := wpa_ie n in
  Ok (replicate 8 0 ++ le16enc (ni_intval bss) ++ le16enc (bss_capinfo n (Some (ic_curchan n))) ++
      ieee80211_add_ssid (ni_essid bss) ++ ieee80211_add_rates (ni_rates ni) ++ phy ++ ibss ++ wpa ++ erp_ie n ++
      ieee80211_add_xrates (ni_rates ni) ++ wme_param_ie n).

(** The body, and whether it is to be encrypted. *)
Definition auth_status (arg : Z) : Z := Z.shiftr arg 16.
Definition auth_seq (arg : Z) : Z := Z.land arg 0xffff.
(** [has_challenge], with the challenge. *)
Definition auth_challenge (ni : ieee80211_node) (arg : Z) : option (list Z) :=
  if (auth_seq arg =? IEEE80211_AUTH_SHARED_CHALLENGE) || (auth_seq arg =? IEEE80211_AUTH_SHARED_RESPONSE) then ni_challenge ni else None.
Definition need_challenge (ni : ieee80211_node) (arg : Z) : bool :=
  negb (bool_decide (auth_challenge ni arg = None)) && (auth_status arg =? IEEE80211_STATUS_SUCCESS).
Definition auth_room (ni : ieee80211_node) (arg : Z) : nat :=
  if need_challenge ni arg then 3 * 2 + (2 + Z.to_nat IEEE80211_CHALLENGE_LEN) else 3 * 2.
Definition auth_shared (n : net) (ni : ieee80211_node) (arg : Z) : res bool :=
  if negb (bool_decide (auth_challenge ni arg = None)) || (IEEE80211_AUTH_SHARED_RESPONSE <=? auth_seq arg) then Ok true
  else if auth_seq arg =? IEEE80211_AUTH_SHARED_REQUEST then let* bss := bss_node n in Ok (ni_authmode bss =? IEEE80211_AUTH_SHARED)
  else Ok false.
Definition auth_body (n : net) (ni : ieee80211_node) (arg : Z) : res (list Z * bool) :=
  let* is_shared_key := auth_shared n ni arg in
  let head := le16enc (if is_shared_key : bool then IEEE80211_AUTH_ALG_SHARED else IEEE80211_AUTH_ALG_OPEN) ++
              le16enc (auth_seq arg) ++ le16enc (auth_status arg) in
  if need_challenge ni arg then
    Ok (head ++ [IEEE80211_ELEMID_CHALLENGE; IEEE80211_CHALLENGE_LEN] ++ take (Z.to_nat IEEE80211_CHALLENGE_LEN) (default [] (auth_challenge ni arg)),
        auth_seq arg =? IEEE80211_AUTH_SHARED_RESPONSE)
  else Ok (head, false).

Definition assoc_req_body (n : net) (ni : ieee80211_node) (type : Z) : res (list Z) :=
  let cap := flag_capinfo n (Some (ic_curchan n)) (mode_capinfo n) in
  let cap := if has_flag (ni_capinfo ni) IEEE80211_CAPINFO_SHORT_SLOTTIME && has_flag (ic_caps (n_ic n)) IEEE80211_C_SHSLOT
             then Z.lor cap IEEE80211_CAPINFO_SHORT_SLOTTIME else cap in
  let* current := if type =? IEEE80211_FC0_SUBTYPE_REASSOC_REQ then let* bss := bss_node n in Ok (ni_bssid bss) else Ok [] in
  let wme := if has_flag (ic_flags (n_ic n)) IEEE80211_F_WME && negb (bool_decide (ni_wme_ie ni = None)) then ieee80211_add_wme_info else [] in
  Ok (le16enc cap ++ le16enc (ic_lintval (ic_conf n)) ++ current ++
      ieee80211_add_ssid (ni_essid ni) ++ ieee80211_add_rates (ni_rates ni) ++ ieee80211_add_xrates (ni_rates ni) ++ wme ++
      default [] (ic_opt_ie (ic_conf n))).

Definition assoc_resp_body (n : net) (ni : ieee80211_node) (arg : Z) : list Z :=
  let cap := slot_capinfo n (flag_capinfo n (Some (ic_curchan n)) IEEE80211_CAPINFO_ESS) in
  let wme := if has_flag (ic_flags (n_ic n)) IEEE80211_F_WME && negb (bool_decide (ni_wme_ie ni = None)) then ieee80211_add_wme_param (ic_wme n) else [] in
  le16enc cap ++ le16enc arg ++ le16enc (if arg =? IEEE80211_STATUS_SUCCESS then ni_associd ni else 0) ++
  ieee80211_add_rates (ni_rates ni) ++ ieee80211_add_xrates (ni_rates ni) ++ wme.

(** ** Room for a frame *)

Definition sizeof_ie_wpa_n : nat := Z.to_nat sizeof_ie_wpa.
Definition wpa_room (n : net) : nat := if has_flag (ic_flags (n_ic n)) IEEE80211_F_WPA then 2 * sizeof_ie_wpa_n else 0.
Definition XRATES_ROOM : nat := 2 + (Z.to_nat IEEE80211_RATE_MAXSIZE - IEEE80211_RATE_SIZE).
Definition SSID_ROOM : nat := 2 + Z.to_nat IEEE80211_NWID_LEN.
Definition probe_resp_room (n : net) : nat :=
  8 + 2 + 2 + SSID_ROOM + (2 + IEEE80211_RATE_SIZE) + 7 + 6 + 3 + XRATES_ROOM + wpa_room n + Z.to_nat sizeof_wme_param.
Definition assoc_req_room (n : net) : nat :=
  2 + 2 + 6 + SSID_ROOM + (2 + IEEE80211_RATE_SIZE) + XRATES_ROOM + Z.to_nat sizeof_wme_info + length (default [] (ic_opt_ie (ic_conf n))).
Definition assoc_resp_room : nat := 2 + 2 + 2 + (2 + IEEE80211_RATE_SIZE) + XRATES_ROOM + Z.to_nat sizeof_wme_param.

(** An mbuf with room for [pktlen] bytes behind a header. *)
Definition MHLEN_n : nat := Z.to_nat MHLEN.
Definition ieee80211_getmgtframe (h : heap) (pktlen : nat) : res (option mbuf * heap) :=
  let len := roundup4 (sizeof_frame + pktlen) in
  if (MCLBYTES <? len)%nat then Fault Panic
  else
    match m_get_impl h MT_HEADER true with
    | (None, h) => Ok (None, h)
    | (Some m, h) =>
        let m := if (len <=? MHLEN_n)%nat then match m_align [m] (Z.of_nat len) with x :: _ => x | [] => m end else m in
        let m := set_window m (m_data m + sizeof_frame) (m_len m) in
        if negb (Nat.eqb (m_data m mod 4) 0) then Fault Panic else Ok (Some m, h)
    end.
(** The body is written and the lengths are set. *)
Definition fill_frame (m : mbuf) (body : list Z) : res mbuf :=
  if (m_data m + length body <=? length (m_cluster m))%nat
  then Ok (set_ph_len (set_window (mstore m 0 body) (m_data m) (length body)) (Z.of_nat (length body)))
  else Fault BadAccess.

(** ** Control frames *)

Definition IEEE80211_FC0_SUBTYPE_RTS : Z := 0xb0.
Definition sizeof_frame_rts : nat := 16.
Definition sizeof_frame_cts : nat := 10.
(** A frame without a body: the header is the packet. *)
Definition ctl_frame (h : heap) (len : nat) (hdr : list Z) : option mbuf * heap :=
  match m_get_impl h MT_DATA true with
  | (None, h) => (None, h)
  | (Some m, h) => (Some (mstore (set_ph_len (set_window m (m_data m) len) (Z.of_nat len)) 0 hdr), h)
  end.
Definition ieee80211_get_rts (h : heap) (wh : list Z) (dur : Z) : option mbuf * heap :=
  ctl_frame h sizeof_frame_rts
    ([Z.lor (Z.lor IEEE80211_FC0_VERSION_0 IEEE80211_FC0_TYPE_CTL) IEEE80211_FC0_SUBTYPE_RTS; IEEE80211_FC1_DIR_NODS] ++
     le16enc dur ++ i_addr1 wh ++ i_addr2 wh).
Definition ieee80211_get_cts_to_self (n : net) (h : heap) (dur : Z) : option mbuf * heap :=
  ctl_frame h sizeof_frame_cts
    ([Z.lor (Z.lor IEEE80211_FC0_VERSION_0 IEEE80211_FC0_TYPE_CTL) IEEE80211_FC0_SUBTYPE_CTS; IEEE80211_FC1_DIR_NODS] ++ le16enc dur ++ ic_myaddr n).

(** ** Sending *)

(** [ieee80211_send_setup]: the header of a frame that is not QoS, and the node
    that has given a sequence number for it.  The bytes of [old] stay where
    nothing is written. *)
Definition ieee80211_send_setup (n : net) (ni : ieee80211_node) (old : list Z) (type : Z) (sa da bssid : list Z) : res (list Z * ieee80211_node) :=
  let* (s, ni) := next_seq ni 0 in
  let tail := le16enc (u16 (Z.shiftl s IEEE80211_SEQ_SEQ_SHIFT)) in
  let fc0 := u8 (Z.lor IEEE80211_FC0_VERSION_0 type) in
  let frame fc1 a := Ok ([fc0; fc1; 0; 0] ++ a ++ tail, ni) in
  if Z.land type IEEE80211_FC0_TYPE_MASK =? IEEE80211_FC0_TYPE_DATA then
    if ic_opmode n =? IEEE80211_M_STA then frame IEEE80211_FC1_DIR_TODS (bssid ++ sa ++ da)
    else if (ic_opmode n =? IEEE80211_M_IBSS) || (ic_opmode n =? IEEE80211_M_AHDEMO) then frame IEEE80211_FC1_DIR_NODS (da ++ sa ++ bssid)
    else if ic_opmode n =? IEEE80211_M_HOSTAP then frame IEEE80211_FC1_DIR_FROMDS (da ++ bssid ++ sa)
    else frame (byte_at old 1) (sub_list 4 18 old)
  else frame IEEE80211_FC1_DIR_NODS (da ++ sa ++ bssid).

Section Send.
Context (dev : key_ops).

Definition ieee80211_mgmt_output (n : net) (id : nat) (m : mbuf) (type : Z) : res (Z * net) :=
  match m_prepend (n_heap n) [m] (Z.of_nat sizeof_frame) with
  | ([], h) => Ok (ENOMEM, set_heap n h)
  | (x :: rest, h) =>
      let n := set_heap n h in
      let* ni := node_at n id in
      let* (wh, ni) := ieee80211_send_setup n ni (mtod x) (Z.lor IEEE80211_FC0_TYPE_MGT type) (ic_myaddr n) (ni_macaddr ni) (ni_bssid ni) in
      let crypt := has_flag (m_flags x) M_LINK0 && negb (bool_decide (ni_challenge ni = None)) in
      let x := if crypt then set_flags x (Z.land (m_flags x) (Z.lnot M_LINK0)) else x in
      let wh := if crypt then splice 1 [Z.lor (byte_at wh 1) IEEE80211_FC1_WEP] wh else wh in
      Ok (0, tell (upd n id (fun _ => ni)) (NE_mgtq id (mstore x 0 wh :: rest)))
  end.

(** The room asked for the body of a frame, none for a type that is not known;
    the body, and whether it is encrypted. *)
Definition mgmt_room (n : net) (ni : ieee80211_node) (type arg : Z) : option nat :=
  if type =? IEEE80211_FC0_SUBTYPE_PROBE_RESP then Some (probe_resp_room n)
  else if type =? IEEE80211_FC0_SUBTYPE_AUTH then Some (auth_room ni arg)
  else if (type =? IEEE80211_FC0_SUBTYPE_DEAUTH) || (type =? IEEE80211_FC0_SUBTYPE_DISASSOC) then Some 2%nat
  else if (type =? IEEE80211_FC0_SUBTYPE_ASSOC_REQ) || (type =? IEEE80211_FC0_SUBTYPE_REASSOC_REQ) then Some (assoc_req_room n)
  else if (type =? IEEE80211_FC0_SUBTYPE_ASSOC_RESP) || (type =? IEEE80211_FC0_SUBTYPE_REASSOC_RESP) then Some assoc_resp_room
  else None.
Definition mgmt_body (n : net) (ni : ieee80211_node) (type arg : Z) : res (list Z * bool) :=
  let plain c := let* b := c in Ok (b, false) in
  if type =? IEEE80211_FC0_SUBTYPE_PROBE_RESP then plain (probe_resp_body n ni)
  else if type =? IEEE80211_FC0_SUBTYPE_AUTH then auth_body n ni arg
  else if (type =? IEEE80211_FC0_SUBTYPE_DEAUTH) || (type =? IEEE80211_FC0_SUBTYPE_DISASSOC) then plain (Ok (le16enc arg))
  else if (type =? IEEE80211_FC0_SUBTYPE_ASSOC_REQ) || (type =? IEEE80211_FC0_SUBTYPE_REASSOC_REQ) then plain (assoc_req_body n ni type)
  else plain (Ok (assoc_resp_body n ni arg)).

Definition ieee80211_send_mgmt (n : net) (id : nat) (type arg : Z) : res (Z * net) :=
  let* n := ieee80211_ref_node n id in
  let* ni := node_at n id in
  let bad err n := let* n := ieee80211_free_node dev n id in Ok (err, n) in
  match mgmt_room n ni type arg with
  | None => bad EINVAL (bump n is_tx_unknownmgt)
  | Some room =>
      let* (m, h) := ieee80211_getmgtframe (n_heap n) room in
      let n := set_heap n h in
      match m with
      | None => bad ENOMEM (bump n is_tx_nobuf)
      | Some m =>
          let* (body, crypt) := mgmt_body n ni type arg in
          let* m := fill_frame m body in
          let m := if crypt : bool then set_flags m (Z.lor (m_flags m) M_LINK0) else m in
          let n := if type =? IEEE80211_FC0_SUBTYPE_DEAUTH then upd n id ieee80211_node_unauthorize else n in
          let* (ret, n) := ieee80211_mgmt_output n id m type in
          if ret =? 0 then Ok (0, n) else bad ret n
      end
  end.

(** Probe requests. *)
Definition probereq_room (optie : option (list Z)) : nat := SSID_ROOM + (2 + IEEE80211_RATE_SIZE) + XRATES_ROOM + length (default [] optie).
Definition probereq_body (n : net) (ssid : list Z) (optie : option (list Z)) : list Z :=
  let rs := ic_sup_rates n (ieee80211_chan2mode n (ic_curchan n)) in
  ieee80211_add_ssid ssid ++ ieee80211_add_rates rs ++ ieee80211_add_xrates rs ++ default [] optie.
Definition ieee80211_send_probereq (n : net) (id : nat) (sa da bssid ssid : list Z) (optie : option (list Z)) : res (Z * net) :=
  let* n := ieee80211_ref_node n id in
  let bad n := let* n := ieee80211_free_node dev (bump n is_tx_nobuf) id in Ok (ENOMEM, n) in
  let* (m, h) := ieee80211_getmgtframe (n_heap n) (probereq_room optie) in
  let n := set_heap n h in
  match m with
  | None => bad n
  | Some m =>
      let* m := fill_frame m (probereq_body n ssid optie) in
      match m_prepend (n_heap n) [m] (Z.of_nat sizeof_frame) with
      | ([], h) => bad (set_heap n h)
      | (x :: rest, h) =>
          let n := set_heap n h in
          let* ni := node_at n id in
          let* (wh, ni) := ieee80211_send_setup n ni (mtod x) (Z.lor IEEE80211_FC0_TYPE_MGT IEEE80211_FC0_SUBTYPE_PROBE_REQ) sa da bssid in
          Ok (0, tell (upd n id (fun _ => ni)) (NE_mgtq id (mstore x 0 wh :: rest)))
      end
  end.
End Send.
