(* ===== verification/Beacon.v ===== *)
(** * Beacons: ieee80211_beacon_alloc and ieee80211_beacon_update

    A driver allocates a beacon once and then lets it be updated in place,
    through offsets into it ([struct ieee80211_beacon_offsets], here positions
    in the cluster of the mbuf): capabilities, WME parameters, and the traffic
    indication map, which moves what follows it when its length changes. *)

From stdpp Require Import gmap.
From S2P Require Import Prelude Buffers Mbuf Ieee80211 Crypto InfoElem Wme Node NodeTable WmeParams Rates Mgmt Station Input Output MgmtOut.

(** ** Constants and data *)

Definition IEEE80211_C_WPA : Z := 0x01800000.
(** [sizeof(struct ieee80211_tim_ie)] and the offsets of its fields. *)
Definition sizeof_tim_ie : nat := 6.
Definition tim_len : nat := 1.
Definition tim_count : nat := 2.
Definition tim_period : nat := 3.
Definition tim_bitctl : nat := 4.
Definition tim_bitmap : nat := 5.

Record ieee80211_beacon_offsets := mkBo {
  bo_caps : nat;
  bo_tim : nat;
  bo_wme : nat;
  bo_trailer : nat;
  bo_tim_len : nat;
  bo_trailer_len : nat;
}.

(** ** Allocation *)

Definition beacon_room (n : net) (ni : ieee80211_node) : nat :=
  8 + 2 + 2 + (2 + length (ni_essid ni)) + (2 + IEEE80211_RATE_SIZE) + (2 + 1) + (2 + 4 + length (ic_tim_bitmap n)) + (2 + 1) + XRATES_ROOM +
  (if has_flag (ic_caps (n_ic n)) IEEE80211_C_WME then Z.to_nat sizeof_wme_param else 0) +
  (if has_flag (ic_caps (n_ic n)) IEEE80211_C_WPA then 2 * sizeof_ie_wpa_n else 0).

(** What comes before the map, the map, and what follows it. *)
Definition beacon_ssid (n : net) (ni : ieee80211_node) : list Z :=
  if has_flag (ic_flags (n_ic n)) IEEE80211_F_HIDESSID then [IEEE80211_ELEMID_SSID; 0] else ieee80211_add_ssid (ni_essid ni).
Definition beacon_head (n : net) (ni : ieee80211_node) : list Z :=
  replicate 8 0 ++ le16enc (ni_intval ni) ++ le16enc (bss_capinfo n (ni_chan ni)) ++ beacon_ssid n ni ++ ieee80211_add_rates (ni_rates ni) ++
  (if ic_curmode n =? IEEE80211_MODE_FH then [] else [IEEE80211_ELEMID_DSPARMS; 1; u8 (ieee80211_chan2ieee (ni_chan ni))]).
Definition beacon_tim (n : net) : list Z :=
  if ic_opmode n =? IEEE80211_M_IBSS then [IEEE80211_ELEMID_IBSSPARMS; 2; 0; 0]
  else [IEEE80211_ELEMID_TIM; 4; 0; ic_dtim_period (ic_conf n); 0; 0].
Definition beacon_trailer (n : net) (ni : ieee80211_node) : res (list Z) :=
  let* wpa := wpa_ie n in Ok (wme_param_ie n ++ wpa ++ erp_ie n ++ ieee80211_add_xrates (ni_rates ni)).
Definition beacon_header (n : net) (ni : ieee80211_node) : list Z :=
  [Z.lor (Z.lor IEEE80211_FC0_VERSION_0 IEEE80211_FC0_TYPE_MGT) IEEE80211_FC0_SUBTYPE_BEACON; IEEE80211_FC1_DIR_NODS; 0; 0] ++
  if_broadcastaddr n ++ ic_myaddr n ++ ni_bssid ni ++ [0; 0].

Definition ieee80211_beacon_alloc (n : net) (id : nat) (bo : ieee80211_beacon_offsets)
    : res (option (mbuf * ieee80211_beacon_offsets) * net) :=
  let* ni := node_at n id in
  let* (m, h) := ieee80211_getmgtframe (n_heap n) (beacon_room n ni) in
  let n := set_heap n h in
  match m with
  | None => Ok (None, bump n is_tx_nobuf)
  | Some m =>
      let head := beacon_head n ni in
      let tim := beacon_tim n in
      let* trailer := beacon_trailer n ni in
      let at_tim := (m_data m + length head)%nat in
      let at_trailer := (at_tim + length tim)%nat in
      let wme := has_flag (ic_flags (n_ic n)) IEEE80211_F_WME in
      let bo := mkBo (m_data m + 10) at_tim (if wme then at_trailer else bo_wme bo) at_trailer
                     (if ic_opmode n =? IEEE80211_M_IBSS then 0 else 1) (length trailer) in
      let n := if wme then flag_off n IEEE80211_F_WMEUPDATE else n in
      let* m := fill_frame m (head ++ tim ++ trailer) in
      match m_prepend (n_heap n) [m] (Z.of_nat sizeof_frame) with
      | (x :: _, h) => Ok (Some (mstore x 0 (beacon_header n ni), bo), set_heap n h)
      | ([], h) => Fault Panic
      end
  end.

(** ** Update *)

(** Stores into the cluster. *)
Definition poke (m : mbuf) (pos : nat) (b : list Z) : res mbuf :=
  if (pos + length b <=? length (m_cluster m))%nat then Ok (set_cluster m (splice pos b (m_cluster m))) else Fault BadAccess.
Definition peek (m : mbuf) (pos : nat) : res Z :=
  match m_cluster m !! pos with Some b => Ok b | None => Fault BadAccess end.

(** The switch of aggressive mode. *)
Definition wme_aggressive (n : net) : res net :=
  let w := ic_wme n in
  if has_flag (wme_flags w) WME_F_AGGRMODE then
    if wme_hipri_switch_thresh w <? wme_hipri_traffic n then
      let* n := ieee80211_wme_updateparams_locked (set_wme n (set_wme_flags w (Z.land (wme_flags w) (Z.lnot WME_F_AGGRMODE)))) in
      Ok (set_hipri_traffic n (wme_hipri_switch_hysteresis w))
    else Ok (set_hipri_traffic n 0)
  else
    if wme_hipri_traffic n <=? wme_hipri_switch_thresh w then
      let* n := ieee80211_wme_updateparams_locked (set_wme n (set_wme_flags w (Z.lor (wme_flags w) WME_F_AGGRMODE))) in
      Ok (set_hipri_traffic n 0)
    else Ok (set_hipri_traffic n (wme_hipri_switch_hysteresis w)).

(** The first byte of the map that is not 0, down to an even one; 128 without
    one. *)
Fixpoint tim_first (l : list Z) (i : nat) : nat :=
  match l with
  | [] => 128
  | b :: l => if b =? 0 then tim_first l (S i) else (2 * (i / 2))%nat
  end.
(** The last byte, not below [timoff], that is not 0; [k] is one more than the
    index to look at. *)
Fixpoint tim_last (l : list Z) (timoff k : nat) : res nat :=
  match k with
  | O => Fault BadAccess
  | S i =>
      if (i <? timoff)%nat then Ok i
      else match l !! i with
           | None => Fault BadAccess
           | Some b => if b =? 0 then tim_last l timoff i else Ok i
           end
  end.
Definition tim_window (n : net) : res (nat * nat) :=
  if ic_ps_pending n =? 0 then Ok (0%nat, 1%nat)
  else
    let timoff := tim_first (ic_tim_bitmap n) 0 in
    if Nat.eqb timoff 128 then Fault Panic
    else
      let* i := tim_last (ic_tim_bitmap n) timoff (length (ic_tim_bitmap n)) in
      Ok (timoff, 1 + (i - timoff))%nat.

(** The map is brought up to date. *)
Definition tim_rewrite (n : net) (bo : ieee80211_beacon_offsets) (m : mbuf) : res (bool * ieee80211_beacon_offsets * mbuf) :=
  let* (timoff, timlen) := tim_window n in
  let* (changed, bo, m) :=
    if Nat.eqb timlen (bo_tim_len bo) then Ok (false, bo, m)
    else
      let trailer := (bo_tim bo + tim_bitmap + timlen)%nat in
      if (length (m_cluster m) <? bo_trailer bo + bo_trailer_len bo)%nat then Fault BadAccess
      else
        let* m := poke m trailer (sub_list (bo_trailer bo) (bo_trailer_len bo) (m_cluster m)) in
        let bo := mkBo (bo_caps bo) (bo_tim bo) trailer trailer timlen (bo_trailer_len bo) in
        let* m := poke m (bo_tim bo + tim_len) [u8 (3 + Z.of_nat timlen)] in
        let* m := poke m (bo_tim bo + tim_bitctl) [u8 (Z.of_nat timoff)] in
        Ok (true, bo, m) in
  if (length (ic_tim_bitmap n) <? timoff + bo_tim_len bo)%nat then Fault BadAccess
  else
    let* m := poke m (bo_tim bo + tim_bitmap) (sub_list timoff (bo_tim_len bo) (ic_tim_bitmap n)) in
    Ok (changed, bo, m).

(** The count down to the beacon that announces multicast frames. *)
Definition tim_countdown (bo : ieee80211_beacon_offsets) (m : mbuf) (mcast : bool) : res mbuf :=
  let* count := peek m (bo_tim bo + tim_count) in
  let* period := peek m (bo_tim bo + tim_period) in
  let count := if count =? 0 then u8 (period - 1) else u8 (count - 1) in
  let* m := poke m (bo_tim bo + tim_count) [count] in
  let* ctl := peek m (bo_tim bo + tim_bitctl) in
  poke m (bo_tim bo + tim_bitctl)
    [if mcast && ((count =? 1) || (period =? 1)) then Z.lor ctl 1 else Z.land ctl (Z.lnot 1)].

(** The answer is whether the length has changed. *)
Definition ieee80211_beacon_update (n : net) (id : nat) (bo : ieee80211_beacon_offsets) (m : mbuf) (mcast : bool)
    : res (bool * ieee80211_beacon_offsets * mbuf * net) :=
  let* ni := node_at n id in
  let* m := poke m (bo_caps bo) (le16enc (bss_capinfo n (ni_chan ni))) in
  let* (m, n) :=
    if has_flag (ic_flags (n_ic n)) IEEE80211_F_WME then
      let* n := wme_aggressive n in
      if has_flag (ic_flags (n_ic n)) IEEE80211_F_WMEUPDATE then
        let* m := poke m (bo_wme bo) (ieee80211_add_wme_param (ic_wme n)) in
        Ok (m, flag_off n IEEE80211_F_WMEUPDATE)
      else Ok (m, n)
    else Ok (m, n) in
  if ic_opmode n =? IEEE80211_M_HOSTAP then
    let* (changed, bo, m, n) :=
      if has_flag (ic_flags (n_ic n)) IEEE80211_F_TIMUPDATE then
        let* (changed, bo, m) := tim_rewrite n bo m in Ok (changed, bo, m, flag_off n IEEE80211_F_TIMUPDATE)
      else Ok (false, bo, m, n) in
    let* m := tim_countdown bo m mcast in
    Ok (changed, bo, m, n)
  else Ok (false, bo, m, n).
