(* ===== verification/MgmtOutProof.v ===== *)
(** * Management frames sent: they fit, and they are what the stack assumes

    Every body fits the room that was asked for it, and [ieee80211_send_mgmt]
    does to nodes and references what [IEEE80211_SEND_MGMT] says, with the frame
    of the type on the management queue. *)

From stdpp Require Import gmap.
From S2P Require Import Prelude Buffers Mbuf MbufProof Ieee80211 FrameProof Crypto InfoElem Wme Node NodeTable WmeParams NodeProof Rates Mgmt Station Input Output InputProof MgmtOut.

(** ** Elements *)

Lemma add_rates_length rs : (length (ieee80211_add_rates rs) = 2 + Nat.min (length rs) IEEE80211_RATE_SIZE)%nat.
Proof. unfold ieee80211_add_rates. list_lia. Qed.
Lemma add_xrates_length rs : Z.of_nat (length rs) <= IEEE80211_RATE_MAXSIZE -> (length (ieee80211_add_xrates rs) <= XRATES_ROOM)%nat.
Proof. unfold ieee80211_add_xrates, XRATES_ROOM, IEEE80211_RATE_MAXSIZE, IEEE80211_RATE_SIZE. intros H. case_match; list_lia. Qed.
Lemma add_ssid_length s : Z.of_nat (length s) <= IEEE80211_NWID_LEN -> (length (ieee80211_add_ssid s) <= SSID_ROOM)%nat.
Proof. unfold ieee80211_add_ssid, SSID_ROOM, IEEE80211_NWID_LEN. intros H. list_lia. Qed.
Lemma le16enc_length v : length (le16enc v) = 2%nat.
Proof. done. Qed.
Lemma wme_param_length w : length (cap_wmeParams (wme_bssChanParams w)) = WME_NUM_AC -> length (ieee80211_add_wme_param w) = Z.to_nat sizeof_wme_param.
Proof. intros L. unfold ieee80211_add_wme_param. destruct (cap_wmeParams _) as [|a [|b [|c [|d [|]]]]]; try discriminate L. done. Qed.

Lemma selectors_length sels : Forall (fun p => length p.2 = 4%nat) sels -> (length (selectors sels) <= 2 + 4 * length sels)%nat.
Proof.
  unfold selectors. rewrite length_app. cbn [length]. induction 1 as [|[b s] sels Hs _ IH]; [cbn; lia|]. cbn [snd] in Hs.
  destruct b; [rewrite filter_cons_True by done|rewrite filter_cons_False by done]; cbn [map concat length snd]; rewrite ?length_app, ?Hs; lia.
Qed.
Lemma setup_body_length oui suites w rsn body : length oui = 3%nat -> (forall s, s ∈ suites -> length s = 4%nat) ->
  setup_body oui suites w rsn = Ok body -> (length body <= 24)%nat.
Proof.
  intros Lo Ls. unfold setup_body, suite.
  assert (forall c s, match suites !! Z.to_nat c with Some s => Ok s | None => Fault BadAccess end = Ok s -> length s = 4%nat) as Hs.
  { intros c s. case_match eqn:E; [|done]. intros [= <-]. eapply Ls, list_elem_of_lookup_2. exact E. }
  intros E. apply res_bind_Ok in E as (mcast & E1 & E). apply res_bind_Ok in E as (ccm & E2%Hs & E). apply res_bind_Ok in E as (tkip & E3%Hs & Eb).
  assert (length mcast = 4%nat) as E1'. { destruct (_ && _); [injection E1 as <-; list_lia|by apply Hs in E1]. }
  apply (f_equal (fun r => match r with Ok b => length b | _ => 0%nat end)) in Eb. cbn beta iota in Eb. rewrite <- Eb, 2!length_app, E1'. match goal with |- context [(_ + (length (selectors ?a) + length (selectors ?b)))%nat] =>
    pose proof (selectors_length a) as Ha; pose proof (selectors_length b) as Hb end. cbn [length] in Ha, Hb.
  pose proof (Ha ltac:(repeat constructor; cbn; lia)). pose proof (Hb ltac:(repeat constructor; cbn; rewrite length_app; cbn; lia)). lia.
Qed.
Lemma suites_length : (forall s, s ∈ wpa_suites -> length s = 4%nat) /\ (forall s, s ∈ rsn_suites -> length s = 4%nat).
Proof. split; apply list.Forall_forall; repeat constructor. Qed.
Lemma close_ie_length id body ie : (length body <= 200)%nat -> close_ie id body = Ok ie -> (length ie <= sizeof_ie_wpa_n)%nat.
Proof.
  intros L. unfold close_ie. rewrite u8_id by (unfold is_u8, is_u; lia). case_match eqn:E; [done|]. intros [= <-].
  unfold sizeof_ie_wpa_n. cbn [app length]. lia.
Qed.
Lemma add_wpa_length flags rsn ie : ieee80211_add_wpa flags rsn = Ok ie -> (length ie <= 2 * sizeof_ie_wpa_n)%nat.
Proof.
  unfold ieee80211_add_wpa. case_match; [done|]. intros E. apply res_bind_Ok in E as (a & Ea & E). apply res_bind_Ok in E as (b & Eb & [= <-]).
  assert (length a <= sizeof_ie_wpa_n)%nat.
  { destruct (has_flag flags IEEE80211_F_WPA2); [|injection Ea as <-; unfold sizeof_ie_wpa_n; cbn; lia]. unfold ieee80211_setup_rsn_ie in Ea.
    apply res_bind_Ok in Ea as (body & E1 & Ea). apply setup_body_length in E1; [|done|apply suites_length].
    apply close_ie_length in Ea; [done|]. rewrite !length_app. cbn [length ADDSHORT]. lia. }
  assert (length b <= sizeof_ie_wpa_n)%nat.
  { destruct (has_flag flags IEEE80211_F_WPA1); [|injection Eb as <-; unfold sizeof_ie_wpa_n; cbn; lia]. unfold ieee80211_setup_wpa_ie in Eb.
    apply res_bind_Ok in Eb as (body & E1 & Eb). apply setup_body_length in E1; [|done|apply suites_length].
    apply close_ie_length in Eb; [done|]. rewrite !length_app. case_match; cbn [length ADDSHORT WPA_OUI_BYTES]; lia. }
  rewrite length_app. lia.
Qed.

(** ** Bodies fit *)

(** What a node and an interface are like when frames are sent. *)
Record node_fit (ni : ieee80211_node) : Prop := mkNodeFit {
  nf_essid : Z.of_nat (length (ni_essid ni)) <= IEEE80211_NWID_LEN;
  nf_rates : Z.of_nat (length (ni_rates ni)) <= IEEE80211_RATE_MAXSIZE;
  nf_addr : length (ni_macaddr ni) = 6%nat /\ length (ni_bssid ni) = 6%nat;
  nf_seqs : (0 < length (ni_txseqs ni))%nat;
  nf_challenge : forall c, ni_challenge ni = Some c -> length c = Z.to_nat IEEE80211_CHALLENGE_LEN;
}.
Record net_fit (n : net) : Prop := mkNetFit {
  nt_nodes : forall j nj, n_nodes n !! j = Some nj -> node_fit nj;
  nt_bss : exists b nb, ic_bss n = Some b /\ n_nodes n !! b = Some nb;
  nt_addr : length (ic_myaddr n) = 6%nat;
  nt_wme : length (cap_wmeParams (wme_bssChanParams (ic_wme n))) = WME_NUM_AC;
  nt_opt : (length (default [] (ic_opt_ie (ic_conf n))) <= 1024)%nat;
  nt_wpa : exists w, wpa_ie n = Ok w;
}.

Lemma wpa_ie_length n w : wpa_ie n = Ok w -> (length w <= wpa_room n)%nat.
Proof.
  unfold wpa_ie, wpa_room. destruct (has_flag _ _); [|intros [= <-]; done]. intros E. apply res_bind_Ok in E as (bss & _ & E). by apply add_wpa_length in E.
Qed.
Lemma erp_ie_length n : (length (erp_ie n) <= 3)%nat.
Proof. unfold erp_ie. case_match; cbn; lia. Qed.
Lemma bss_node_fit n : net_fit n -> exists nb, bss_node n = Ok nb /\ node_fit nb.
Proof.
  intros F. destruct (nt_bss _ F) as (b & nb & Eb & En). exists nb. unfold bss_node. rewrite Eb, (node_at_Some _ _ _ En). split; [done|]. by apply (nt_nodes _ F b).
Qed.

Lemma probe_resp_fits n ni : net_fit n -> node_fit ni ->
  exists body, probe_resp_body n ni = Ok body /\ (length body <= probe_resp_room n)%nat.
Proof.
  intros F N. unfold probe_resp_body. destruct (bss_node_fit n F) as (nb & -> & B). destruct (nt_wpa _ F) as [w Ew]. rewrite Ew. cbn [res_bind].
  eexists. split; [done|]. apply wpa_ie_length in Ew. pose proof (add_rates_length (ni_rates ni)). pose proof (add_xrates_length _ (nf_rates _ N)).
  pose proof (add_ssid_length _ (nf_essid _ B)). pose proof (wme_param_length _ (nt_wme _ F)) as Lw.
  pose proof (erp_ie_length n).
  assert (length (wme_param_ie n) <= Z.to_nat sizeof_wme_param)%nat by (unfold wme_param_ie; case_match; [lia|cbn; lia]).
  unfold probe_resp_room. rewrite !length_app, !le16enc_length, length_replicate. unfold IEEE80211_RATE_SIZE in *.
  case_match; case_match; cbn [length]; lia.
Qed.
Lemma auth_body_fits n ni arg : net_fit n -> node_fit ni ->
  exists body crypt, auth_body n ni arg = Ok (body, crypt) /\ length body = auth_room ni arg.
Proof.
  intros F N. unfold auth_body, auth_shared.
  assert (exists b, (if negb (bool_decide (auth_challenge ni arg = None)) || (IEEE80211_AUTH_SHARED_RESPONSE <=? auth_seq arg) then Ok true
    else if auth_seq arg =? IEEE80211_AUTH_SHARED_REQUEST then let* bss := bss_node n in Ok (ni_authmode bss =? IEEE80211_AUTH_SHARED) else Ok false) = Ok b) as [b ->].
  { destruct (_ || _); [by eexists|]. destruct (_ =? _); [|by eexists]. destruct (bss_node_fit n F) as (nb & -> & _). by eexists. }
  cbn [res_bind]. unfold auth_room. destruct (need_challenge ni arg) eqn:Hc; [|by eexists _, _].
  eexists _, _. split; [done|]. unfold need_challenge in Hc. apply andb_true_iff in Hc as [Hc _].
  destruct (auth_challenge ni arg) as [c|] eqn:Ec; [|by rewrite bool_decide_true in Hc by done].
  assert (ni_challenge ni = Some c) as Ech by (unfold auth_challenge in Ec; by case_match).
  rewrite !length_app, !le16enc_length. cbn [length from_option]. unfold id. rewrite length_take, (nf_challenge _ N c Ech). lia.
Qed.
Lemma assoc_req_fits n ni type : net_fit n -> node_fit ni ->
  exists body, assoc_req_body n ni type = Ok body /\ (length body <= assoc_req_room n)%nat.
Proof.
  intros F N. unfold assoc_req_body. cbn zeta. destruct (bss_node_fit n F) as (nb & -> & B).
  assert (exists cur, (if type =? IEEE80211_FC0_SUBTYPE_REASSOC_REQ then let* bss := Ok nb in Ok (ni_bssid bss) else Ok []) = Ok cur /\ (length cur <= 6)%nat) as (cur & -> & Lc).
  { case_match; [|by exists []; split; [done|cbn; lia]]. eexists. split; [done|]. by rewrite (proj2 (nf_addr _ B)). }
  cbn [res_bind]. eexists. split; [done|]. pose proof (add_rates_length (ni_rates ni)). pose proof (add_xrates_length _ (nf_rates _ N)).
  pose proof (add_ssid_length _ (nf_essid _ N)). unfold assoc_req_room, IEEE80211_RATE_SIZE in *. rewrite !length_app, !le16enc_length.
  destruct (_ && negb _); [change (length ieee80211_add_wme_info) with (Z.to_nat sizeof_wme_info)|cbn [length]]; lia.
Qed.
Lemma assoc_resp_fits n ni arg : net_fit n -> node_fit ni -> (length (assoc_resp_body n ni arg) <= assoc_resp_room)%nat.
Proof.
  intros F N. unfold assoc_resp_body, assoc_resp_room. pose proof (add_rates_length (ni_rates ni)). pose proof (add_xrates_length _ (nf_rates _ N)).
  pose proof (wme_param_length _ (nt_wme _ F)). unfold IEEE80211_RATE_SIZE in *. rewrite !length_app, !le16enc_length. destruct (_ && negb _); cbn [length]; lia.
Qed.

Lemma body_and_room n ni type arg room :
  net_fit n -> node_fit ni -> mgmt_room n ni type arg = Some room ->
  (exists body crypt, mgmt_body n ni type arg = Ok (body, crypt) /\ (length body <= room)%nat) /\
  (roundup4 (sizeof_frame + room) <= MCLBYTES)%nat.
Proof.
  intros F N. pose proof (nt_opt _ F) as Lo. unfold mgmt_room, mgmt_body.
  assert (forall r, (r <= 1400)%nat -> (roundup4 (sizeof_frame + r) <= MCLBYTES)%nat) as Hr.
  { intros r H. etrans; [apply (roundup4_mono _ (sizeof_frame + 1400)); lia|]. apply Nat.leb_le. by vm_compute. }
  assert (probe_resp_room n <= 1400)%nat by (unfold probe_resp_room, wpa_room; case_match; apply Nat.leb_le; by vm_compute).
  assert (auth_room ni arg <= 1400)%nat by (unfold auth_room; case_match; apply Nat.leb_le; by vm_compute).
  assert (assoc_req_room n <= 1400)%nat.
  { unfold assoc_req_room. set (k := length (default _ _)) in *. clearbody k.
    change (2 + 2 + 6 + SSID_ROOM + (2 + IEEE80211_RATE_SIZE) + XRATES_ROOM + Z.to_nat sizeof_wme_info)%nat with 72%nat. lia. }
  assert (assoc_resp_room <= 1400)%nat by (apply Nat.leb_le; by vm_compute).
  destruct (_ =? _); [intros [= <-]; destruct (probe_resp_fits n ni F N) as (b & -> & L); split; [by eexists _, _|by apply Hr]|].
  destruct (_ =? _); [intros [= <-]; destruct (auth_body_fits n ni arg F N) as (b & c & -> & L); split; [eexists _, _; split; [done|lia]|by apply Hr]|].
  destruct (_ || _); [intros [= <-]; split; [by eexists _, _|apply Hr; lia]|].
  destruct (_ || _); [intros [= <-]; destruct (assoc_req_fits n ni type F N) as (b & -> & L); split; [by eexists _, _|by apply Hr]|].
  destruct (_ || _); [|done]. intros [= <-]. split; [|by apply Hr]. eexists _, _. split; [done|]. by apply assoc_resp_fits.
Qed.


(** ** The frame *)

Lemma getmgtframe_ok h room : (roundup4 (sizeof_frame + room) <= MCLBYTES)%nat ->
  match m_get_impl h MT_HEADER true with
  | (None, h') => ieee80211_getmgtframe h room = Ok (None, h')
  | (Some _, h') => exists m, ieee80211_getmgtframe h room = Ok (Some m, h') /\
      m_data m = (MH_ALIGN + sizeof_frame)%nat /\ length (m_cluster m) = cluster_size /\ has_pkthdr m = true /\ has_flag (m_flags m) M_LINK0 = false
  end.
Proof.
  intros Hr. unfold ieee80211_getmgtframe. rewrite (proj2 (Nat.ltb_ge _ _) Hr). unfold m_get_impl. destruct (sysmalloc h) as [[mem|] h']; [|done].
  cbn [m_align has_pkthdr m_flags]. rewrite (proj2 (Z.ltb_ge (Z.of_nat _) 0)) by lia.
  exists (set_window (mkMbuf (Z.lor M_PKTHDR M_EXT) MH_ALIGN 0 MT_HEADER (mkPkthdr 0 0 0 0 0) (fresh_cluster mem)) (MH_ALIGN + sizeof_frame)
    (if (roundup4 (sizeof_frame + room) <=? MHLEN_n)%nat then Z.to_nat (Z.of_nat (roundup4 (sizeof_frame + room))) else 0%nat)).
  split; [by destruct (_ <=? MHLEN_n)%nat|]. split; [done|]. split; [apply fresh_cluster_wf|done].
Qed.
Lemma fill_frame_ok m body : (m_data m + length body <= length (m_cluster m))%nat ->
  fill_frame m body = Ok (set_ph_len (set_window (mstore m 0 body) (m_data m) (length body)) (Z.of_nat (length body))).
Proof. intros H. unfold fill_frame. by rewrite (proj2 (Nat.leb_le _ _) H). Qed.

(** The header in front, in place. *)
Lemma m_prepend_here h m : (sizeof_frame <= m_data m)%nat -> has_pkthdr m = true ->
  m_prepend h [m] (Z.of_nat sizeof_frame) =
  ([set_ph_len (set_window m (m_data m - sizeof_frame) (m_len m + sizeof_frame)) (ph_len (m_hdr m) + Z.of_nat sizeof_frame)], h).
Proof.
  intros H P. unfold m_prepend. change (_ || _) with false. cbn iota. unfold M_LEADINGSPACE. rewrite (proj2 (Z.leb_le _ _)) by lia.
  change (has_pkthdr (set_window m _ _)) with (has_pkthdr m). by rewrite P.
Qed.
Lemma framed_content m d body hdr : m_data m = (d + length hdr)%nat -> (m_data m + length body <= length (m_cluster m))%nat ->
  sub_list d (length body + length hdr) (splice d hdr (splice (m_data m) body (m_cluster m))) = hdr ++ body.
Proof. intros -> H. list_solve. Qed.

Definition mgmt_header (n : net) (ni : ieee80211_node) (type : Z) (crypt : bool) : list Z :=
  [u8 (Z.lor IEEE80211_FC0_VERSION_0 (Z.lor IEEE80211_FC0_TYPE_MGT type)); if crypt then IEEE80211_FC1_WEP else IEEE80211_FC1_DIR_NODS; 0; 0] ++
  ni_macaddr ni ++ ic_myaddr n ++ ni_bssid ni ++ le16enc (u16 (Z.shiftl (nth 0 (ni_txseqs ni) 0) IEEE80211_SEQ_SEQ_SHIFT)).
Lemma mgmt_header_length n ni type crypt : length (ic_myaddr n) = 6%nat -> node_fit ni -> length (mgmt_header n ni type crypt) = sizeof_frame.
Proof. intros Hm [_ _ [H1 H2] _ _]. unfold mgmt_header. rewrite !length_app, Hm, H1, H2. done. Qed.

(** A type the sender knows is a subtype. *)
Lemma mgmt_type_masked n ni type arg room : mgmt_room n ni type arg = Some room -> Z.land (Z.lor IEEE80211_FC0_TYPE_MGT type) IEEE80211_FC0_TYPE_MASK <> IEEE80211_FC0_TYPE_DATA.
Proof.
  unfold mgmt_room.
  repeat (match goal with |- context [?a =? ?b] => destruct (Z.eqb_spec a b) as [->|?]; [intros _; by vm_compute|] end; cbn [orb]). done.
Qed.

Lemma take_seq_next ni : (0 < length (ni_txseqs ni))%nat -> next_seq ni 0 = Ok (nth 0 (ni_txseqs ni) 0, take_seq ni).
Proof.
  intros H. unfold next_seq, take_seq. destruct (ni_txseqs ni) as [|s l]; [cbn in H; lia|]. done.
Qed.

(** ** References and nodes *)

Lemma upd_back n id ni f : n_nodes n !! id = Some ni -> upd (upd n id f) id (fun _ => ni) = n.
Proof.
  intros E. destruct n; cbn in E. unfold upd, set_nodes. cbn. f_equal. apply map_eq. intros j. destruct (decide (j = id)) as [->|Hn].
  - by rewrite !lookup_alter_eq, E.
  - by rewrite !lookup_alter_ne.
Qed.
Lemma upd_twice n id f g : upd (upd n id f) id g = upd n id (fun ni => g (f ni)).
Proof.
  unfold upd, set_nodes. cbn. f_equal. apply map_eq. intros j. destruct (decide (j = id)) as [->|Hn].
  - rewrite !lookup_alter_eq. by destruct (n_nodes n !! id).
  - by rewrite !lookup_alter_ne.
Qed.

(** A reference taken and given back. *)
Lemma free_after_ref dev n id ni : n_nodes n !! id = Some ni -> 1 <= ni_refcnt ni < 2 ^ 32 - 1 ->
  (ni_refcnt ni = 1 -> forall t, keymap_get n t (wk_rxkeyix (ni_ucastkey ni)) <> Some id) ->
  ieee80211_free_node dev (upd n id ieee80211_node_incref) id = Ok n.
Proof.
  intros E Hr Hk. set (n1 := upd n id ieee80211_node_incref). assert (n_nodes n1 !! id = Some (ieee80211_node_incref ni)) as E1 by by apply upd_same.
  assert (ieee80211_node_decref (ieee80211_node_incref ni) = ni) as Hd.
  { unfold ieee80211_node_decref, ieee80211_node_incref. destruct ni. cbn in Hr |- *. unfold set_refcnt. cbn. f_equal.
    rewrite (u32_id (_ + 1)) by (unfold is_u32, is_u; lia). replace (ni_refcnt + 1 - 1) with ni_refcnt by lia. apply u32_id. unfold is_u32, is_u. lia. }
  assert (ieee80211_node_dectestref n1 id = Ok (false, n)) as Ht.
  { unfold ieee80211_node_dectestref. rewrite (node_at_Some _ _ _ E1). cbn [res_bind]. rewrite Hd. rewrite (proj2 (Z.eqb_neq _ _)) by lia.
    subst n1. by rewrite upd_back. }
  unfold ieee80211_free_node, free_depth. cbn [free_node_n]. rewrite (node_at_Some _ _ _ E1). cbn [res_bind].
  change (ni_table (ieee80211_node_incref ni)) with (ni_table ni). rewrite Ht. cbn [res_bind]. destruct (ni_table ni) as [t|]; [|done].
  rewrite (node_at_Some _ _ _ E). cbn [res_bind]. destruct (Z.eqb_spec (ni_refcnt ni) 1) as [H1|]; [|done]. by rewrite bool_decide_false by by apply Hk.
Qed.

Lemma mgmt_body_ref n id ni h type arg : n_nodes n !! id = Some ni ->
  mgmt_body (set_heap (upd n id ieee80211_node_incref) h) (ieee80211_node_incref ni) type arg = mgmt_body n ni type arg.
Proof.
  intros E. set (n1 := set_heap _ _).
  assert (exists f, (forall x, f x = x \/ f x = ieee80211_node_incref x) /\ bss_node n1 = (let* nb := bss_node n in Ok (f nb))) as (f & Hf & Hb).
  { unfold bss_node. change (ic_bss n1) with (ic_bss n). destruct (ic_bss n) as [b|]; [|by exists (fun x => x); split; [left|]].
    unfold node_at. change (n_nodes n1) with (n_nodes (upd n id ieee80211_node_incref)). destruct (decide (id = b)) as [->|Hn].
    - rewrite (upd_same _ _ _ _ E), E. exists ieee80211_node_incref. split; [by right|done].
    - rewrite upd_other by done. exists (fun x => x). split; [by left|]. by case_match. }
  assert (wpa_ie n1 = wpa_ie n) as Hw.
  { unfold wpa_ie. rewrite Hb. change (ic_flags (n_ic n1)) with (ic_flags (n_ic n)). destruct (bss_node n) as [nb|]; [|done]. cbn [res_bind].
    by destruct (Hf nb) as [-> | ->]. }
  unfold mgmt_body, probe_resp_body, auth_body, auth_shared, assoc_req_body. rewrite Hw, Hb.
  destruct (bss_node n) as [nb|]; [|done]. cbn [res_bind]. by destruct (Hf nb) as [-> | ->].
Qed.

Lemma auth_crypt_challenge n ni type arg body : mgmt_body n ni type arg = Ok (body, true) -> ni_challenge ni <> None /\ type = IEEE80211_FC0_SUBTYPE_AUTH.
Proof.
  unfold mgmt_body. intros E. destruct (_ =? _); [by apply res_bind_Ok in E as (? & _ & ?)|]. destruct (Z.eqb_spec type IEEE80211_FC0_SUBTYPE_AUTH) as [->|].
  - split; [|done]. unfold auth_body in E. apply res_bind_Ok in E as (b & _ & E). destruct (need_challenge ni arg) eqn:Hn; [|done].
    unfold need_challenge, auth_challenge in Hn. apply andb_true_iff in Hn as [Hn _]. intros Hc. rewrite Hc in Hn. by destruct (auth_seq arg =? IEEE80211_AUTH_SHARED_CHALLENGE), (auth_seq arg =? IEEE80211_AUTH_SHARED_RESPONSE).
  - repeat destruct (_ || _); apply res_bind_Ok in E as (? & _ & ?); done.
Qed.

(** ** Sending *)

Lemma send_setup_mgmt n ni old type : node_fit ni -> Z.land (Z.lor IEEE80211_FC0_TYPE_MGT type) IEEE80211_FC0_TYPE_MASK <> IEEE80211_FC0_TYPE_DATA ->
  ieee80211_send_setup n ni old (Z.lor IEEE80211_FC0_TYPE_MGT type) (ic_myaddr n) (ni_macaddr ni) (ni_bssid ni) =
  Ok (mgmt_header n ni type false, take_seq ni).
Proof.
  intros N Ht. unfold ieee80211_send_setup. rewrite take_seq_next by apply N. cbn [res_bind]. rewrite (proj2 (Z.eqb_neq _ _) Ht).
  unfold mgmt_header. by rewrite !app_assoc.
Qed.
Lemma mgmt_output_ok n id ni m body type crypt :
  n_nodes n !! id = Some ni -> node_fit ni -> length (ic_myaddr n) = 6%nat -> (crypt = true -> ni_challenge ni <> None) ->
  Z.land (Z.lor IEEE80211_FC0_TYPE_MGT type) IEEE80211_FC0_TYPE_MASK <> IEEE80211_FC0_TYPE_DATA ->
  m_data m = (MH_ALIGN + sizeof_frame)%nat -> (m_data m + length body <= length (m_cluster m))%nat -> has_pkthdr m = true ->
  has_flag (m_flags m) M_LINK0 = false ->
  let m' := set_ph_len (set_window (mstore m 0 body) (m_data m) (length body)) (Z.of_nat (length body)) in
  let m' := if crypt then set_flags m' (Z.lor (m_flags m') M_LINK0) else m' in
  exists f, ieee80211_mgmt_output n id m' type = Ok (0, tell (upd n id (fun _ => take_seq ni)) (NE_mgtq id [f])) /\
    content [f] = mgmt_header n ni type crypt ++ body /\ ph_len (m_hdr f) = Z.of_nat (length (content [f])).
Proof.
  intros E N Ha Hc Ht Hd Hl Hp Hf m1 m'. pose proof (mgmt_header_length n ni type crypt Ha N) as Lh.
  unfold ieee80211_mgmt_output. assert (m_data m' = m_data m /\ m_len m' = length body /\ m_cluster m' = splice (m_data m) body (m_cluster m) /\
    ph_len (m_hdr m') = Z.of_nat (length body) /\ has_pkthdr m' = true /\ has_flag (m_flags m') M_LINK0 = crypt) as (D & L & C & P & K & F).
  { assert (has_pkthdr (set_flags m1 (Z.lor (m_flags m1) M_LINK0)) = true) as Hk.
    { unfold has_pkthdr. cbn [m_flags set_flags]. rewrite Z.land_lor_distr_l. change (Z.land M_LINK0 M_PKTHDR) with 0. rewrite Z.lor_0_r. exact Hp. }
    unfold m'. destruct crypt; cbn -[has_pkthdr has_flag MH_ALIGN]; rewrite ?Nat.add_0_r; split_and!; try done.
    unfold has_flag. rewrite Z.land_lor_distr_l, Z.land_diag. apply negb_true_iff, Z.eqb_neq. intros [_ H]%Z.lor_eq_0_iff. done. }
  rewrite m_prepend_here by (rewrite ?D, ?Hd; done || (unfold sizeof_frame; lia)).
  rewrite (node_at_Some (set_heap n (n_heap n)) id ni) by exact E. cbn [res_bind].
  change (ic_myaddr (set_heap n (n_heap n))) with (ic_myaddr n).
  rewrite (send_setup_mgmt (set_heap n (n_heap n)) ni _ type N Ht : _ = Ok (mgmt_header n ni type false, take_seq ni)). cbn [res_bind].
  set (x := set_ph_len _ _). change (m_flags x) with (m_flags m'). rewrite F. change (ni_challenge (take_seq ni)) with (ni_challenge ni).
  assert (crypt && negb (bool_decide (ni_challenge ni = None)) = crypt) as ->.
  { destruct crypt; [|done]. by rewrite bool_decide_false by by apply Hc. }
  assert ((if crypt then splice 1 [Z.lor (byte_at (mgmt_header n ni type false) 1) IEEE80211_FC1_WEP] (mgmt_header n ni type false)
    else mgmt_header n ni type false) = mgmt_header n ni type crypt) as -> by by destruct crypt.
  eexists. split; [by replace (set_heap n (n_heap n)) with n by by destruct n|].
  match goal with |- content [?y] = _ /\ _ => assert (mdata y = mgmt_header n ni type crypt ++ body) as Hm end.
  { transitivity (sub_list (m_data m' - sizeof_frame) (m_len m' + sizeof_frame) (splice (m_data m' - sizeof_frame + 0) (mgmt_header n ni type crypt) (m_cluster m'))).
    - by destruct crypt.
    - rewrite D, L, C, Nat.add_0_r, <- Lh. apply framed_content; [rewrite Lh; lia|done]. }
  unfold content. cbn [flat_map]. rewrite app_nil_r, Hm. split; [done|]. rewrite length_app, Lh.
  transitivity (ph_len (m_hdr m') + Z.of_nat sizeof_frame); [by destruct crypt|]. rewrite P. lia.
Qed.

(** C9. Sending a management frame does to the node and its references what
    the rest of the stack assumes of it: without memory for the frame nothing
    but a count of failures changes; otherwise the node is referenced, closed by a
    deauthentication, and has given a sequence number, and the frame on the
    queue is the header to that node followed by the body of its type,
    marked for encryption when it answers a challenge. *)
Theorem send_mgmt_refines dev n id ni type arg room :
  net_fit n -> n_nodes n !! id = Some ni -> 1 <= ni_refcnt ni < 2 ^ 32 - 1 ->
  (ni_refcnt ni = 1 -> forall t, keymap_get n t (wk_rxkeyix (ni_ucastkey ni)) <> Some id) -> mgmt_room n ni type arg = Some room ->
  match m_get_impl (n_heap n) MT_HEADER true with
  | (None, h) => ieee80211_send_mgmt dev n id type arg =
      let* n1 := IEEE80211_SEND_MGMT (fun _ _ => false) n id type arg in Ok (ENOMEM, set_heap n1 h)
  | (Some _, h) => exists f body crypt, ieee80211_send_mgmt dev n id type arg =
      (let* n1 := IEEE80211_SEND_MGMT (fun _ _ => true) n id type arg in Ok (0, set_out (set_heap n1 h) (n_out n ++ [NE_mgtq id f]))) /\
      mgmt_body n ni type arg = Ok (body, crypt) /\ content f = mgmt_header n ni type crypt ++ body
  end.
Proof.
  intros F E Hr Hk Hm. pose proof (nt_nodes _ F _ _ E) as N. pose proof (mgmt_type_masked _ _ _ _ _ Hm) as Ht.
  assert ((exists body crypt, mgmt_body n ni type arg = Ok (body, crypt) /\ (length body <= room)%nat) /\ (roundup4 (sizeof_frame + room) <= MCLBYTES)%nat)
    as ((body & crypt & Eb & Lb) & Hroom) by by apply body_and_room.
  unfold ieee80211_send_mgmt, IEEE80211_SEND_MGMT, ieee80211_ref_node. rewrite !(node_at_Some _ _ _ E). cbn [res_bind].
  pose proof (upd_same n id ieee80211_node_incref ni E) as E1. rewrite (node_at_Some _ _ _ E1). cbn [res_bind].
  change (mgmt_room (upd n id ieee80211_node_incref) (ieee80211_node_incref ni) type arg) with (mgmt_room n ni type arg). rewrite Hm.
  change (n_heap (upd n id ieee80211_node_incref)) with (n_heap n). pose proof (getmgtframe_ok (n_heap n) room Hroom) as G.
  destruct (m_get_impl (n_heap n) MT_HEADER true) as [[m0|] h].
  - destruct G as (m & -> & Dm & Cm & Pm & Fm). cbn [res_bind]. rewrite (mgmt_body_ref _ _ _ _ _ _ E), Eb. cbn [res_bind].
    assert (m_data m + length body <= length (m_cluster m))%nat as Lm.
    { rewrite Dm, Cm. pose proof (roundup4_le (sizeof_frame + room)). unfold cluster_size, MCLBYTES, MH_ALIGN, sizeof_frame in *. lia. }
    rewrite fill_frame_ok by done. cbn [res_bind].
    set (n2 := if type =? IEEE80211_FC0_SUBTYPE_DEAUTH then _ else _).
    set (ni2 := if type =? IEEE80211_FC0_SUBTYPE_DEAUTH then ieee80211_node_unauthorize (ieee80211_node_incref ni) else ieee80211_node_incref ni).
    assert (n_nodes n2 !! id = Some ni2) as E2 by (subst n2 ni2; case_match; [by apply upd_same|done]).
    destruct (mgmt_output_ok n2 id ni2 m body type crypt E2) as (f & Eo & Ef & _); try done.
    { subst ni2. case_match; by destruct N; split. }
    { subst n2. by case_match; apply F. }
    { intros ->. apply auth_crypt_challenge in Eb as [Eb _]. subst ni2. by case_match. }
    cbn zeta in Eo. rewrite Eo. cbn [res_bind Z.eqb]. exists [f], body, crypt. split; [|split; [done|]].
    + assert (upd n2 id (fun _ => take_seq ni2) = set_heap (upd (upd n id ieee80211_node_incref) id (mgmt_sent type)) h) as ->; [|done].
      rewrite (upd_const (upd n id ieee80211_node_incref) id _ (mgmt_sent type) E1). subst n2 ni2. unfold mgmt_sent. case_match; [by rewrite upd_twice|done].
    + rewrite Ef. subst n2 ni2. unfold mgmt_header. by case_match.
  - rewrite G. cbn [res_bind].
    change (bump (set_heap (upd n id ieee80211_node_incref) h) is_tx_nobuf) with (upd (set_heap (bump n is_tx_nobuf) h) id ieee80211_node_incref).
    by rewrite (free_after_ref dev (set_heap (bump n is_tx_nobuf) h) id ni) by done.
Qed.

(** ** An example *)

(** An access point with memory for frames answers a probe. *)
Definition sending_ap : net := set_heap open_ap (mkHeap [Some []] 0).
Lemma sending_ap_fit : net_fit sending_ap.
Proof.
  split; [|by eexists _, _; split; vm_compute|done|done|by apply Nat.leb_le|by eexists].
  assert (map_Forall (fun _ ni => node_fit ni) (n_nodes sending_ap)) as H; [|exact H].
  rewrite map_Forall_to_list. let l := eval vm_compute in (map_to_list (n_nodes sending_ap)) in change (map_to_list (n_nodes sending_ap)) with l.
  repeat constructor; done.
Qed.
Definition ap_node : ieee80211_node := default zero_node (n_nodes sending_ap !! 0%nat).
Lemma ap_node_at : n_nodes sending_ap !! 0%nat = Some ap_node.
Proof. by vm_compute. Qed.

Lemma send_mgmt_refines_witness :
  exists f body crypt h, ieee80211_send_mgmt null_key_ops sending_ap 0 IEEE80211_FC0_SUBTYPE_PROBE_RESP 0 =
    (let* n1 := IEEE80211_SEND_MGMT (fun _ _ => true) sending_ap 0 IEEE80211_FC0_SUBTYPE_PROBE_RESP 0 in
     Ok (0, set_out (set_heap n1 h) (n_out sending_ap ++ [NE_mgtq 0 f]))) /\
    mgmt_body sending_ap ap_node IEEE80211_FC0_SUBTYPE_PROBE_RESP 0 = Ok (body, crypt) /\
    content f = mgmt_header sending_ap ap_node IEEE80211_FC0_SUBTYPE_PROBE_RESP crypt ++ body.
Proof.
  pose proof (send_mgmt_refines null_key_ops sending_ap 0 ap_node IEEE80211_FC0_SUBTYPE_PROBE_RESP 0 (probe_resp_room sending_ap)
    sending_ap_fit ap_node_at ltac:(by vm_compute) ltac:(intros _ t; by destruct t) eq_refl) as H.
  destruct (m_get_impl _ _ _) as [[m|] h] eqn:E; [|by vm_compute in E]. destruct H as (f & body & crypt & H). by exists f, body, crypt, h.
Defined.
