(* ===== verification/StationProof.v ===== *)
(** * Stations: what they learn from the frames of an access point

    Frames built by MgmtOut.v come out of the parsers of Station.v and Mgmt.v as
    what was put in; and what a change announced by a beacon does to a
    station. *)

From stdpp Require Import gmap.
From S2P Require Import Prelude Buffers Mbuf Ieee80211 FrameProof Crypto InfoElem Wme Node NodeTable WmeParams NodeProof NodeLife Rates Mgmt Station Input Output InputProof MgmtOut MgmtOutProof.

(** ** Lists of elements *)

Definition tlv (ie : list Z) : Prop := length ie = (2 + Z.to_nat (byte_at ie 1))%nat.

Fixpoint bcn_fold (n : net) (sp : scanparams) (off : nat) (ies : list (list Z)) : rr (scanparams * net) :=
  match ies with
  | [] => go (sp, n)
  | ie :: ies => let! (sp, n) := bcn_elem n sp off ie in bcn_fold n sp (off + length ie) ies
  end.
Lemma tlv_split ie rest : tlv ie -> let frm := ie ++ rest in
  (2 + Z.to_nat (byte_at frm 1))%nat = length ie /\ (length frm <? 2)%nat = false /\ (length frm <? length ie)%nat = false /\
  take (length ie) frm = ie /\ drop (length ie) frm = rest.
Proof.
  intros H frm. unfold tlv in H. assert (byte_at frm 1 = byte_at ie 1) as -> by (unfold byte_at, frm; rewrite app_nth1; [done|lia]).
  unfold frm. rewrite length_app. split_and!; [done|apply Nat.ltb_ge; lia|apply Nat.ltb_ge; lia|apply take_app_length|apply drop_app_length].
Qed.
Lemma bcn_loop_fold fuel n sp off ies : Forall tlv ies -> (length ies <= fuel)%nat -> bcn_loop fuel n sp off (concat ies) = bcn_fold n sp off ies.
Proof.
  intros H. revert fuel n sp off. induction H as [|ie ies Hi _ IH]; intros fuel n sp off Hf; [by destruct fuel|].
  destruct fuel as [|fuel]; [cbn in Hf; lia|]. cbn [concat bcn_fold bcn_loop]. destruct (tlv_split ie (concat ies) Hi) as (-> & -> & -> & -> & ->). unfold rr_then. destruct (bcn_elem n sp off ie) as [[?|[sp1 n1]]|]; cbn [res_bind]; [done| |done]. apply IH. cbn in Hf. lia.
Qed.
Lemma bcn_fold_app n sp off a b :
  bcn_fold n sp off (a ++ b) = let! (sp, n) := bcn_fold n sp off a in bcn_fold n sp (off + length (concat a)) b.
Proof.
  revert n sp off. induction a as [|ie a IH]; intros n sp off; [by cbn; rewrite Nat.add_0_r|]. cbn [app bcn_fold concat].
  unfold rr_then in IH |- *. destruct (bcn_elem n sp off ie) as [[?|[sp1 n1]]|]; cbn [res_bind]; [done| |done].
  rewrite IH, length_app, Nat.add_assoc. done.
Qed.

(** The same for the other frames. *)
Fixpoint elem_fold (elem : elems -> list Z -> res elems) (e : elems) (ies : list (list Z)) : res elems :=
  match ies with [] => Ok e | ie :: ies => let* e := elem e ie in elem_fold elem e ies end.
Lemma elem_loop_fold fuel elem e ies : Forall tlv ies -> (length ies <= fuel)%nat ->
  elem_loop fuel elem e (concat ies) = let* e := elem_fold elem e ies in Ok (Some e).
Proof.
  intros H. revert fuel e. induction H as [|ie ies Hi _ IH]; intros fuel e Hf; [by destruct fuel|].
  destruct fuel as [|fuel]; [cbn in Hf; lia|]. cbn [concat elem_fold elem_loop]. destruct (tlv_split ie (concat ies) Hi) as (-> & -> & -> & -> & ->).
  destruct (elem e ie) as [e1|]; cbn [res_bind]; [|done]. apply IH. cbn in Hf. lia.
Qed.
Lemma elem_fold_app elem e a b : elem_fold elem e (a ++ b) = let* e := elem_fold elem e a in elem_fold elem e b.
Proof. revert e. induction a as [|ie a IH]; intros e; [done|]. cbn [app elem_fold]. destruct (elem e ie) as [e1|]; cbn [res_bind]; [apply IH|done]. Qed.
Lemma tlv_count ies : Forall tlv ies -> (length ies <= length (concat ies))%nat.
Proof. induction 1 as [|ie ies Hi _ IH]; [done|]. cbn [concat length]. rewrite length_app, Hi. lia. Qed.

(** ** The elements that are built *)

Lemma rates_tlv rs : tlv (ieee80211_add_rates rs).
Proof. unfold tlv, ieee80211_add_rates. cbn [app byte_at nth length]. rewrite Nat2Z.id, length_take. unfold IEEE80211_RATE_SIZE. lia. Qed.
Lemma ssid_tlv s : Z.of_nat (length s) <= IEEE80211_NWID_LEN -> tlv (ieee80211_add_ssid s).
Proof.
  intros H. unfold tlv, ieee80211_add_ssid. cbn [app byte_at nth length]. unfold IEEE80211_NWID_LEN in H.
  rewrite u8_id by (unfold is_u8, is_u; lia). by rewrite Nat2Z.id.
Qed.
Lemma xrates_tlv rs : (IEEE80211_RATE_SIZE < length rs)%nat -> Z.of_nat (length rs) <= IEEE80211_RATE_MAXSIZE -> tlv (ieee80211_add_xrates rs).
Proof.
  intros H1 H2. unfold ieee80211_add_xrates. rewrite (proj2 (Nat.ltb_lt _ _) H1). unfold tlv. cbn [app byte_at nth length].
  unfold IEEE80211_RATE_MAXSIZE, IEEE80211_RATE_SIZE in *. rewrite u8_id, Nat2Z.id, length_drop by (unfold is_u8, is_u; lia). lia.
Qed.
Lemma close_ie_tlv id body ie : (length body <= 200)%nat -> close_ie id body = Ok ie -> tlv ie /\ byte_at ie 0 = id /\ drop 2 ie = body /\ byte_at ie 1 = Z.of_nat (length body).
Proof.
  intros L. unfold close_ie. rewrite u8_id by (unfold is_u8, is_u; lia). case_match; [done|]. intros [= <-]. unfold tlv. cbn [byte_at nth length].
  by rewrite Nat2Z.id.
Qed.
Lemma rsn_ie_tlv rsn ie : ieee80211_setup_rsn_ie rsn = Ok ie -> tlv ie /\ byte_at ie 0 = IEEE80211_ELEMID_RSN.
Proof.
  unfold ieee80211_setup_rsn_ie. intros E. apply res_bind_Ok in E as (body & E1 & E). apply setup_body_length in E1; [|done|apply suites_length].
  apply close_ie_tlv in E as (? & ? & _); [done|]. rewrite !length_app. cbn [length ADDSHORT]. lia.
Qed.
Lemma wpa_ie_tlv rsn ie : ieee80211_setup_wpa_ie rsn = Ok ie -> tlv ie /\ byte_at ie 0 = IEEE80211_ELEMID_VENDOR /\ iswpaoui ie = Ok true.
Proof.
  unfold ieee80211_setup_wpa_ie. intros E. apply res_bind_Ok in E as (body & E1 & E). apply setup_body_length in E1; [|done|apply suites_length].
  match type of E with context [body ++ ?c] => set (caps := c) in E end. assert (length caps <= 2)%nat as Lc by (subst caps; case_match; cbn; lia).
  apply close_ie_tlv in E as (H1 & H2 & H3 & H4); [|rewrite !length_app; cbn [length ADDSHORT WPA_OUI_BYTES]; lia]. split; [done|]. split; [done|].
  unfold iswpaoui, LE_READ_4, rd. assert (6 <= byte_at ie 1) as H6 by (rewrite H4, !length_app; cbn [length ADDSHORT WPA_OUI_BYTES]; lia).
  rewrite (proj2 (Z.ltb_lt _ _)) by lia. rewrite !(proj2 (Nat.ltb_lt _ _)) by lia. cbn [res_bind].
  assert (forall i, byte_at ie (2 + i) = byte_at (drop 2 ie) i) as Hd by (intros i; by rewrite byte_at_drop).
  change (byte_at ie 2) with (byte_at ie (2 + 0)). rewrite !Hd, H3. done.
Qed.

(** ** Probe responses *)

Definition opt (b : bool) (ie : list Z) : list (list Z) := if b then [ie] else [].
Lemma opt_concat b ie : concat (opt b ie) = if b then ie else [].
Proof. destruct b; [apply app_nil_r|done]. Qed.
Lemma opt_tlv b ie : (b = true -> tlv ie) -> Forall tlv (opt b ie).
Proof. intros H. destruct b; [constructor; [by apply H|constructor]|constructor]. Qed.
Lemma bcn_fold_opt n sp off b ie sp' : (b = true -> bcn_elem n sp off ie = go (sp', n)) -> bcn_fold n sp off (opt b ie) = go (if b then sp' else sp, n).
Proof. intros H. destruct b; [|done]. cbn [opt bcn_fold]. by rewrite H. Qed.
Lemma bcn_fold_then n sp off a b sp' : bcn_fold n sp off a = go (sp', n) -> bcn_fold n sp off (a ++ b) = bcn_fold n sp' (off + length (concat a)) b.
Proof. intros H. by rewrite bcn_fold_app, H. Qed.

(** The security elements of a frame, of which the last one counts. *)
Lemma wpa_elements n w : wpa_ie n = Ok w -> exists ies, w = concat ies /\ Forall tlv ies /\
  forall nS sp off, bcn_fold nS sp off ies = go (match list.last ies with Some ie => with_wpa sp ie | None => sp end, nS).
Proof.
  unfold wpa_ie, ieee80211_add_wpa. destruct (has_flag _ IEEE80211_F_WPA) eqn:Ew; [|by intros [= <-]; exists []].
  intros E. apply res_bind_Ok in E as (nb & _ & E). cbn [negb] in E. apply res_bind_Ok in E as (a & Ea & E). apply res_bind_Ok in E as (b & Eb & [= <-]).
  assert (exists i1, a = concat i1 /\ Forall tlv i1 /\ forall nS sp off,
    bcn_fold nS sp off i1 = go (match list.last i1 with Some ie => with_wpa sp ie | None => sp end, nS)) as (i1 & -> & T1 & H1).
  { destruct (has_flag _ IEEE80211_F_WPA2); [|injection Ea as <-; by exists []]. apply rsn_ie_tlv in Ea as [Ta Ia]. exists [a].
    split; [by cbn; rewrite app_nil_r|]. split; [by repeat constructor|]. intros nS sp off. cbn [bcn_fold]. unfold bcn_elem. by rewrite Ia. }
  assert (exists i2, b = concat i2 /\ Forall tlv i2 /\ (i2 = [] \/ exists ie, i2 = [ie]) /\ forall nS sp off,
    bcn_fold nS sp off i2 = go (match list.last i2 with Some ie => with_wpa sp ie | None => sp end, nS)) as (i2 & -> & T2 & S2 & H2).
  { destruct (has_flag _ IEEE80211_F_WPA1); [|injection Eb as <-; by exists []; split_and!; [|constructor|left|]].
    apply wpa_ie_tlv in Eb as (Tb & Ib & Wb). exists [b].
    split; [by cbn; rewrite app_nil_r|]. split; [by repeat constructor|]. split; [right; by eexists|]. intros nS sp off. cbn [bcn_fold]. unfold bcn_elem.
    rewrite Ib, Wb. done. }
  exists (i1 ++ i2). rewrite concat_app. split; [done|]. split; [by apply Forall_app|]. intros nS sp off. rewrite (bcn_fold_then _ _ _ _ _ _ (H1 nS sp off)), H2.
  destruct S2 as [-> |[ie ->]]; [by rewrite app_nil_r|]. rewrite last_snoc. cbn. by destruct (list.last i1).
Qed.

Lemma bcn_ssid_elem n sp off s : bcn_elem n sp off (ieee80211_add_ssid s) = go (with_ssid sp (ieee80211_add_ssid s), n).
Proof. done. Qed.
Lemma bcn_rates_elem n sp off rs : bcn_elem n sp off (ieee80211_add_rates rs) = go (with_rates sp (ieee80211_add_rates rs), n).
Proof. done. Qed.
Lemma bcn_ds_elem n sp off c : ic_phytype (ic_conf n) <> IEEE80211_T_FH ->
  bcn_elem n sp off [IEEE80211_ELEMID_DSPARMS; 1; c] = go (with_chan sp c (sp_fhdwell sp) (sp_fhindex sp), n).
Proof. intros H. unfold bcn_elem. rewrite (proj2 (Z.eqb_neq _ _) H). done. Qed.
Lemma bcn_xrates_elem n sp off rs : (IEEE80211_RATE_SIZE < length rs)%nat ->
  bcn_elem n sp off (ieee80211_add_xrates rs) = go (with_xrates sp (ieee80211_add_xrates rs), n).
Proof. intros H. unfold ieee80211_add_xrates. by rewrite (proj2 (Nat.ltb_lt _ _) H). Qed.
Lemma bcn_erp_elem n sp off v : bcn_elem n sp off [IEEE80211_ELEMID_ERP; 1; v] = go (with_erp sp v, n).
Proof. done. Qed.
Lemma bcn_wme_elem n sp off w : bcn_elem n sp off (ieee80211_add_wme_param w) = go (with_wme sp (ieee80211_add_wme_param w), n).
Proof. done. Qed.

Lemma le2_enc pre v post : 0 <= v < 2 ^ 16 -> le2 (pre ++ le16enc v ++ post) (length pre) = v.
Proof.
  intros H. unfold le2, le16enc. rewrite <- (Nat.add_0_r (length pre)) at 1. unfold byte_at. rewrite !app_nth2_plus. cbn [app nth].
  unfold u16, u8. change 0xffff with (Z.ones 16). change 0xff with (Z.ones 8). rewrite !Z.land_ones by lia.
  apply Z.bits_inj'. intros i Hi. destruct (decide (i < 16)) as [H16|H16].
  - rewrite Z.mod_pow2_bits_low, Z.lor_spec by lia. destruct (decide (i < 8)) as [H8|H8].
    + rewrite Z.mod_pow2_bits_low, Z.shiftl_spec_low, orb_false_r by lia. done.
    + rewrite Z.mod_pow2_bits_high, Z.shiftl_spec_high by lia. rewrite Z.mod_pow2_bits_low, Z.shiftr_spec by lia. rewrite orb_false_l. f_equal. lia.
  - rewrite Z.mod_pow2_bits_high by lia. symmetry. destruct (decide (v = 0)) as [->|]; [apply Z.bits_0|].
    apply Z.bits_above_log2; [lia|]. pose proof (Z.log2_lt_pow2 v 16 ltac:(lia)). lia.
Qed.
Lemma capinfo_range n chan cap : is_u16 cap -> is_u16 (slot_capinfo n (flag_capinfo n chan cap)).
Proof.
  intros H. unfold slot_capinfo, flag_capinfo. unfold is_u16 in *.
  repeat case_match; repeat (apply is_u_lor; [lia| |unfold is_u; vm_compute; done]); done.
Qed.
Lemma mode_capinfo_range n : is_u16 (mode_capinfo n).
Proof. unfold mode_capinfo, is_u. case_match; unfold IEEE80211_CAPINFO_IBSS, IEEE80211_CAPINFO_ESS; lia. Qed.

(** A station on the channel of an access point. *)
Record hears (nA nS : net) : Prop := mkHears {
  hr_phy : ic_phytype (ic_conf nA) <> IEEE80211_T_FH /\ ic_phytype (ic_conf nS) <> IEEE80211_T_FH;
  hr_chan : ch_ix (ic_curchan nS) = ch_ix (ic_curchan nA);
  hr_index : 0 <= ch_ix (ic_curchan nA) < 256;
  hr_active : isset (ic_chan_active (ic_conf nS)) (ch_ix (ic_curchan nA)) = Ok true;
}.
(** The rates of the two elements. *)
Definition rates_heard (rates : list Z) (xrates : option (list Z)) : list Z := drop 2 rates ++ default [] (drop 2 <$> xrates).
Lemma rates_heard_all rs : rates_heard (ieee80211_add_rates rs) (if (IEEE80211_RATE_SIZE <? length rs)%nat then Some (ieee80211_add_xrates rs) else None) = rs.
Proof.
  unfold rates_heard, ieee80211_add_rates, ieee80211_add_xrates. destruct (Nat.ltb_spec IEEE80211_RATE_SIZE (length rs)); cbn [app drop fmap option_fmap option_map from_option].
  - rewrite Nat.min_r by lia. exact (take_drop IEEE80211_RATE_SIZE rs).
  - rewrite Nat.min_l, firstn_all by lia. apply app_nil_r.
Qed.

Definition erp_byte (n : net) : Z := byte_at (ieee80211_add_erp n) 2.
Lemma add_erp_shape n : ieee80211_add_erp n = [IEEE80211_ELEMID_ERP; 1; erp_byte n].
Proof. done. Qed.
Definition ibss_ie : list Z := [IEEE80211_ELEMID_IBSSPARMS; 2; 0; 0].
Definition probe_elems (n : net) (nb ni : ieee80211_node) (wpa : list (list Z)) : list (list Z) :=
  [ieee80211_add_ssid (ni_essid nb); ieee80211_add_rates (ni_rates ni); [IEEE80211_ELEMID_DSPARMS; 1; ch_ix (ic_curchan n)]] ++
  opt (ic_opmode n =? IEEE80211_M_IBSS) ibss_ie ++ wpa ++ opt (ic_curmode n =? IEEE80211_MODE_11G) (ieee80211_add_erp n) ++
  opt (IEEE80211_RATE_SIZE <? length (ni_rates ni))%nat (ieee80211_add_xrates (ni_rates ni)) ++
  opt (has_flag (ic_flags (n_ic n)) IEEE80211_F_WME) (ieee80211_add_wme_param (ic_wme n)).

(** What is recorded of the elements. *)
Definition heard_params (n : net) (nb ni : ieee80211_node) (wpa : list (list Z)) (sp : scanparams) : scanparams :=
  let sp := with_chan (with_rates (with_ssid sp (ieee80211_add_ssid (ni_essid nb))) (ieee80211_add_rates (ni_rates ni)))
              (ch_ix (ic_curchan n)) (sp_fhdwell sp) (sp_fhindex sp) in
  let sp := match list.last wpa with Some ie => with_wpa sp ie | None => sp end in
  let sp := if ic_curmode n =? IEEE80211_MODE_11G then with_erp sp (erp_byte n) else sp in
  let sp := if (IEEE80211_RATE_SIZE <? length (ni_rates ni))%nat then with_xrates sp (ieee80211_add_xrates (ni_rates ni)) else sp in
  if has_flag (ic_flags (n_ic n)) IEEE80211_F_WME then with_wme sp (ieee80211_add_wme_param (ic_wme n)) else sp.

Lemma probe_elems_heard nA nb ni nS wpa sp off :
  ic_phytype (ic_conf nS) <> IEEE80211_T_FH ->
  (forall nS sp off, bcn_fold nS sp off wpa = go (match list.last wpa with Some ie => with_wpa sp ie | None => sp end, nS)) ->
  bcn_fold nS sp off (probe_elems nA nb ni wpa) = go (heard_params nA nb ni wpa sp, nS).
Proof.
  intros Hp Hw. unfold probe_elems.
  rewrite (bcn_fold_then nS sp off _ _ (with_chan (with_rates (with_ssid sp (ieee80211_add_ssid (ni_essid nb))) (ieee80211_add_rates (ni_rates ni)))
              (ch_ix (ic_curchan nA)) (sp_fhdwell sp) (sp_fhindex sp))).
  2:{ cbn [bcn_fold]. rewrite bcn_ssid_elem. unfold rr_then at 1. cbn [res_bind go]. rewrite bcn_rates_elem. unfold rr_then at 1. cbn [res_bind go].
      rewrite bcn_ds_elem by done. done. }
  erewrite bcn_fold_then; [|apply (bcn_fold_opt _ _ _ _ _ (with_chan (with_rates (with_ssid sp (ieee80211_add_ssid (ni_essid nb))) (ieee80211_add_rates (ni_rates ni)))
              (ch_ix (ic_curchan nA)) (sp_fhdwell sp) (sp_fhindex sp))); done].
  replace (if ic_opmode nA =? IEEE80211_M_IBSS then _ else _) with (with_chan (with_rates (with_ssid sp (ieee80211_add_ssid (ni_essid nb))) (ieee80211_add_rates (ni_rates ni)))
              (ch_ix (ic_curchan nA)) (sp_fhdwell sp) (sp_fhindex sp)) by by destruct (_ =? _).
  erewrite bcn_fold_then by apply Hw.
  erewrite bcn_fold_then; [|apply bcn_fold_opt; intros _; rewrite add_erp_shape; apply bcn_erp_elem].
  erewrite bcn_fold_then; [|apply bcn_fold_opt; intros Hx; apply bcn_xrates_elem; by apply Nat.ltb_lt].
  erewrite bcn_fold_opt; [|intros _; apply bcn_wme_elem]. done.
Qed.

Lemma probe_body_elems nA nb ni body : net_fit nA -> node_fit ni -> bss_node nA = Ok nb -> node_fit nb -> ic_phytype (ic_conf nA) <> IEEE80211_T_FH ->
  0 <= ch_ix (ic_curchan nA) < 256 -> probe_resp_body nA ni = Ok body ->
  exists wpa, wpa_ie nA = Ok (concat wpa) /\ Forall tlv (probe_elems nA nb ni wpa) /\
    (forall nS sp off, bcn_fold nS sp off wpa = go (match list.last wpa with Some ie => with_wpa sp ie | None => sp end, nS)) /\
    body = replicate 8 0 ++ le16enc (ni_intval nb) ++ le16enc (bss_capinfo nA (Some (ic_curchan nA))) ++ concat (probe_elems nA nb ni wpa).
Proof.
  intros F N Eb B Hp Hc. unfold probe_resp_body. rewrite Eb. cbn [res_bind]. intros E. apply res_bind_Ok in E as (w & Ew & E).
  destruct (wpa_elements _ _ Ew) as (wpa & -> & Tw & Hw). exists wpa. split; [done|]. split; [|split; [done|]].
  - unfold probe_elems. apply Forall_app. split; [repeat constructor; [apply ssid_tlv, B|apply rates_tlv]|].
    repeat (apply Forall_app; split); try done; apply opt_tlv; try done; [|intros _; unfold tlv; by rewrite (wme_param_length _ (nt_wme _ F))].
    intros Hx%Nat.ltb_lt. by apply xrates_tlv; [|apply N].
  - apply (f_equal (fun r => match r with Ok b => b | _ => [] end)) in E. cbn beta iota in E. rewrite <- E.
    rewrite (proj2 (Z.eqb_neq _ _) Hp). unfold probe_elems. rewrite !concat_app, !opt_concat. cbn [concat].
    unfold erp_ie, wme_param_ie, ieee80211_chan2ieee, ibss_ie. rewrite u8_id by (unfold is_u8, is_u; lia). rewrite app_nil_r, <- !app_assoc.
    assert (ieee80211_add_xrates (ni_rates ni) = if (IEEE80211_RATE_SIZE <? length (ni_rates ni))%nat then ieee80211_add_xrates (ni_rates ni) else []) as Ex
      by (unfold ieee80211_add_xrates; by destruct (_ <? _)%nat). rewrite Ex at 1. done.
Qed.

Lemma parse_ready nS c body sp n : (12 <= length body)%nat -> isset (ic_chan_active (ic_conf nS)) c = Ok true ->
  bcn_loop (length body) nS (mkSp (take 8 body) (le2 body 8) (le2 body 10) (u8 (ch_ix (ic_curchan nS))) (u8 (ch_ix (ic_curchan nS))) 0 0 0 0 None None None None None None)
    (sizeof_frame + 12) (drop 12 body) = go (sp, n) -> n = nS -> sp_chan sp = c -> sp_bchan sp = c ->
  IEEE80211_BINTVAL_MIN <= sp_bintval sp <= IEEE80211_BINTVAL_MAX ->
  forall rates ssid, sp_rates sp = Some rates -> byte_at rates 1 <= IEEE80211_RATE_MAXSIZE -> sp_ssid sp = Some ssid -> byte_at ssid 1 <= IEEE80211_NWID_LEN ->
  forall hdr, length hdr = sizeof_frame -> bcn_parse nS (hdr ++ body) = go (sp, rates, ssid, nS).
Proof.
  intros L Ha El -> Hc Hb Hi rates ssid Er Hr Es Hs hdr Hh. unfold bcn_parse, frame_body. rewrite drop_app_length' by done.
  unfold VERIFY_LENGTH. rewrite (proj2 (Nat.ltb_ge _ _)) by lia. unfold rr_then at 1. cbn [go res_bind ieee80211_chan2ieee]. rewrite El.
  unfold rr_then at 1. cbn [go res_bind]. rewrite Er, Es. cbn [VERIFY_ELEMENT]. rewrite (proj2 (Z.ltb_ge _ _)) by done. unfold rr_then at 1. cbn [go res_bind].
  rewrite (proj2 (Z.ltb_ge _ _)) by done. unfold rr_then at 1. cbn [go res_bind]. rewrite Hc, Ha. cbn [res_bind negb]. rewrite Hb, Z.eqb_refl. cbn [negb andb].
  rewrite (proj2 (Z.leb_le _ _)), (proj2 (Z.leb_le _ _)) by lia. done.
Qed.

(** C10. A probe response built by an access point, parsed by a station on its
    channel, gives back what the access point had: network name, rates, beacon
    interval, capabilities, channel, protection state, WME parameters and the
    (last) security element; no frame of the right channel is refused. *)
Theorem probe_response_understood nA nb ni nS hdr :
  net_fit nA -> node_fit ni -> bss_node nA = Ok nb -> node_fit nb -> hears nA nS ->
  IEEE80211_BINTVAL_MIN <= ni_intval nb <= IEEE80211_BINTVAL_MAX -> length hdr = sizeof_frame ->
  exists body sp rates ssid wpa, probe_resp_body nA ni = Ok body /\ bcn_parse nS (hdr ++ body) = go (sp, rates, ssid, nS) /\
    ssid_bytes ssid = ni_essid nb /\ rates_heard rates (sp_xrates sp) = ni_rates ni /\
    sp_bintval sp = ni_intval nb /\ sp_capinfo sp = bss_capinfo nA (Some (ic_curchan nA)) /\ sp_chan sp = ch_ix (ic_curchan nA) /\
    sp_erp sp = (if ic_curmode nA =? IEEE80211_MODE_11G then erp_byte nA else 0) /\
    sp_wme sp = (if has_flag (ic_flags (n_ic nA)) IEEE80211_F_WME then Some (ieee80211_add_wme_param (ic_wme nA)) else None) /\
    wpa_ie nA = Ok (concat wpa) /\ sp_wpa sp = list.last wpa.
Proof.
  intros F N Eb B [[Hp1 Hp2] Hc Hi Ha] Hint Hh. destruct (probe_resp_fits nA ni F N) as (body & Ebody & _).
  destruct (probe_body_elems nA nb ni body F N Eb B Hp1 Hi Ebody) as (wpa & Ew & T & Hw & Hbody).
  set (ies := probe_elems nA nb ni wpa) in *. set (c := ch_ix (ic_curchan nA)) in *.
  pose proof (capinfo_range nA (Some (ic_curchan nA)) (mode_capinfo nA) (mode_capinfo_range nA)) as Hcap.
  fold (bss_capinfo nA (Some (ic_curchan nA))) in Hcap. set (cap := bss_capinfo nA (Some (ic_curchan nA))) in *.
  set (sp0 := mkSp (take 8 body) (le2 body 8) (le2 body 10) (u8 (ch_ix (ic_curchan nS))) (u8 (ch_ix (ic_curchan nS))) 0 0 0 0 None None None None None None).
  assert (le2 body 8 = ni_intval nb) as E8.
  { rewrite Hbody. change 8%nat with (length (replicate 8 0)). apply le2_enc. unfold IEEE80211_BINTVAL_MIN, IEEE80211_BINTVAL_MAX in Hint. lia. }
  assert (le2 body 10 = cap) as E10.
  { rewrite Hbody, app_assoc. change 10%nat with (length (replicate 8 0 ++ le16enc (ni_intval nb))). by apply le2_enc. }
  assert (drop 12 body = concat ies) as E12 by by rewrite Hbody.
  assert (length body = 12 + length (concat ies))%nat as Lb by by rewrite Hbody.
  assert (u8 (ch_ix (ic_curchan nS)) = c) as Ec by (rewrite Hc; apply u8_id; unfold is_u8, is_u; lia).
  pose proof (tlv_count _ T) as Hcount.
  assert (bcn_loop (length body) nS sp0 (sizeof_frame + 12) (drop 12 body) = go (heard_params nA nb ni wpa sp0, nS)) as El.
  { rewrite E12, bcn_loop_fold by (done || lia). by apply probe_elems_heard. }
  set (sp := heard_params nA nb ni wpa sp0) in *.
  assert (sp_chan sp = c /\ sp_bchan sp = c /\ sp_bintval sp = ni_intval nb /\ sp_capinfo sp = cap /\
    sp_rates sp = Some (ieee80211_add_rates (ni_rates ni)) /\ sp_ssid sp = Some (ieee80211_add_ssid (ni_essid nb)) /\
    sp_xrates sp = (if (IEEE80211_RATE_SIZE <? length (ni_rates ni))%nat then Some (ieee80211_add_xrates (ni_rates ni)) else None) /\
    sp_erp sp = (if ic_curmode nA =? IEEE80211_MODE_11G then erp_byte nA else 0) /\
    sp_wme sp = (if has_flag (ic_flags (n_ic nA)) IEEE80211_F_WME then Some (ieee80211_add_wme_param (ic_wme nA)) else None) /\ sp_wpa sp = list.last wpa)
    as (S1 & S2 & S3 & S4 & S5 & S6 & S7 & S8 & S9 & S10).
  { unfold sp, heard_params. fold c. destruct (list.last wpa), (_ =? IEEE80211_MODE_11G), (_ <? _)%nat, (has_flag _ _); cbn -[ieee80211_add_xrates ieee80211_add_rates ieee80211_add_ssid ieee80211_add_wme_param];
      rewrite ?Ec, ?E8, ?E10; done. }
  exists body, sp, (ieee80211_add_rates (ni_rates ni)), (ieee80211_add_ssid (ni_essid nb)), wpa. split; [done|].
  pose proof (nf_essid _ B) as Hess. split.
  - apply (parse_ready nS c body sp nS); try done; [lia|by rewrite S3| |].
    + cbn [ieee80211_add_rates app byte_at nth]. unfold IEEE80211_RATE_SIZE, IEEE80211_RATE_MAXSIZE. lia.
    + cbn [ieee80211_add_ssid app byte_at nth]. unfold IEEE80211_NWID_LEN in *. rewrite u8_id by (unfold is_u8, is_u; lia). lia.
  - split_and!; try done.
    + unfold ssid_bytes, ieee80211_add_ssid. cbn [app byte_at nth drop]. unfold IEEE80211_NWID_LEN in *. rewrite u8_id by (unfold is_u8, is_u; lia).
      rewrite Nat2Z.id. by rewrite firstn_all.
    + rewrite S7. apply rates_heard_all.
Qed.

(** ** Association requests *)

Definition assoc_elems (n : net) (ni : ieee80211_node) (sec : list (list Z)) : list (list Z) :=
  [ieee80211_add_ssid (ni_essid ni); ieee80211_add_rates (ni_rates ni)] ++
  opt (IEEE80211_RATE_SIZE <? length (ni_rates ni))%nat (ieee80211_add_xrates (ni_rates ni)) ++
  opt (has_flag (ic_flags (n_ic n)) IEEE80211_F_WME && negb (bool_decide (ni_wme_ie ni = None))) ieee80211_add_wme_info ++ sec.
(** The element a supplicant adds: none, RSN or WPA. *)
Definition security_opt (n : net) (sec : list (list Z)) : Prop :=
  default [] (ic_opt_ie (ic_conf n)) = concat sec /\
  (sec = [] \/ exists rsn ie, sec = [ie] /\ (ieee80211_setup_rsn_ie rsn = Ok ie \/ ieee80211_setup_wpa_ie rsn = Ok ie)).

Lemma elem_fold_opt elem e b ie e' : (b = true -> elem e ie = Ok e') -> elem_fold elem e (opt b ie) = Ok (if b then e' else e).
Proof. intros H. destruct b; [|done]. cbn [opt elem_fold]. by rewrite H. Qed.
Lemma security_tlv n sec : security_opt n sec -> Forall tlv sec /\ forall e,
  elem_fold asreq_elem e sec = Ok (match list.last sec with Some ie => mkElems (el_ssid e) (el_rates e) (el_xrates e) (Some ie) (el_wme e) | None => e end).
Proof.
  intros [_ [-> |(rsn & ie & -> & [E|E])]]; [by split; [constructor|]| |].
  - apply rsn_ie_tlv in E as [T I]. split; [by repeat constructor|]. intros e. cbn [elem_fold]. unfold asreq_elem. by rewrite I.
  - apply wpa_ie_tlv in E as (T & I & W). split; [by repeat constructor|]. intros e. cbn [elem_fold]. unfold asreq_elem. by rewrite I, W.
Qed.
Lemma assoc_elems_heard n ni sec : security_opt n sec ->
  elem_fold asreq_elem no_elems (assoc_elems n ni sec) =
  Ok (mkElems (Some (ieee80211_add_ssid (ni_essid ni))) (Some (ieee80211_add_rates (ni_rates ni)))
       (if (IEEE80211_RATE_SIZE <? length (ni_rates ni))%nat then Some (ieee80211_add_xrates (ni_rates ni)) else None) (list.last sec)
       (if has_flag (ic_flags (n_ic n)) IEEE80211_F_WME && negb (bool_decide (ni_wme_ie ni = None)) then Some ieee80211_add_wme_info else None)).
Proof.
  intros Hs. destruct (security_tlv n sec Hs) as [_ Hf]. unfold assoc_elems. rewrite elem_fold_app.
  change (elem_fold asreq_elem no_elems [ieee80211_add_ssid (ni_essid ni); ieee80211_add_rates (ni_rates ni)])
    with (Ok (mkElems (Some (ieee80211_add_ssid (ni_essid ni))) (Some (ieee80211_add_rates (ni_rates ni))) None None None) : res elems). cbn [res_bind].
  rewrite elem_fold_app. erewrite elem_fold_opt.
  2:{ intros Hx%Nat.ltb_lt. unfold asreq_elem, ieee80211_add_xrates. rewrite (proj2 (Nat.ltb_lt _ _) Hx). reflexivity. }
  cbn [res_bind]. rewrite elem_fold_app. erewrite elem_fold_opt by (intros _; reflexivity). cbn [res_bind]. rewrite Hf.
  unfold ieee80211_add_xrates at 1. destruct (_ <? _)%nat, (_ && _), (list.last sec); reflexivity.
Qed.

(** The body a station builds: capabilities, listen interval, for a
    reassociation the current access point, and the elements. *)
Definition assoc_cap (n : net) (ni : ieee80211_node) : Z :=
  let cap := flag_capinfo n (Some (ic_curchan n)) (mode_capinfo n) in
  if has_flag (ni_capinfo ni) IEEE80211_CAPINFO_SHORT_SLOTTIME && has_flag (ic_caps (n_ic n)) IEEE80211_C_SHSLOT
  then Z.lor cap IEEE80211_CAPINFO_SHORT_SLOTTIME else cap.
Lemma assoc_cap_bits n ni : is_u16 (assoc_cap n ni) /\
  has_flag (assoc_cap n ni) IEEE80211_CAPINFO_ESS = negb (ic_opmode n =? IEEE80211_M_IBSS) /\
  has_flag (assoc_cap n ni) IEEE80211_CAPINFO_PRIVACY = has_flag (ic_flags (n_ic n)) IEEE80211_F_PRIVACY.
Proof.
  unfold assoc_cap, flag_capinfo, mode_capinfo.
  destruct (has_flag (ni_capinfo ni) _), (has_flag (ic_caps (n_ic n)) _), (has_flag (ic_flags (n_ic n)) IEEE80211_F_PRIVACY),
    (has_flag (ic_flags (n_ic n)) IEEE80211_F_SHPREAMBLE), (IEEE80211_IS_CHAN_2GHZ _), (_ =? IEEE80211_M_IBSS);
    (split; [unfold is_u; vm_compute; split; congruence|split; reflexivity]).
Qed.
Lemma assoc_body_elems n ni type sec : net_fit n -> node_fit ni -> security_opt n sec ->
  let re := type =? IEEE80211_FC0_SUBTYPE_REASSOC_REQ in
  exists cur, length cur = (if re then 6 else 0)%nat /\ Forall tlv (assoc_elems n ni sec) /\
    assoc_req_body n ni type = Ok (le16enc (assoc_cap n ni) ++ le16enc (ic_lintval (ic_conf n)) ++ cur ++ concat (assoc_elems n ni sec)).
Proof.
  intros F N Hs re. destruct (security_tlv n sec Hs) as [Tsec _]. destruct (bss_node_fit n F) as (nb & Eb & B).
  exists (if re then ni_bssid nb else []). split; [destruct re; [apply B|done]|]. split.
  - unfold assoc_elems. apply Forall_app. split; [repeat constructor; [apply ssid_tlv, N|apply rates_tlv]|].
    repeat (apply Forall_app; split); try done; apply opt_tlv; [|done]. intros Hx%Nat.ltb_lt. by apply xrates_tlv; [|apply N].
  - unfold assoc_req_body. cbn zeta. rewrite Eb. fold re. fold (assoc_cap n ni).
    replace (if re then let* bss := Ok nb in Ok (ni_bssid bss) else Ok []) with (Ok (if re then ni_bssid nb else []) : res (list Z)) by by destruct re.
    cbn [res_bind]. f_equal. rewrite (proj1 Hs). unfold assoc_elems. rewrite !concat_app, !opt_concat. cbn [concat]. rewrite app_nil_r, <- !app_assoc.
    assert (ieee80211_add_xrates (ni_rates ni) = if (IEEE80211_RATE_SIZE <? length (ni_rates ni))%nat then ieee80211_add_xrates (ni_rates ni) else []) as Ex
      by (unfold ieee80211_add_xrates; by destruct (_ <? _)%nat). by rewrite Ex at 1.
Qed.


(** ** Changes announced by beacons *)

(** The part of the interface a beacon is parsed with. *)
Definition parse_view (n : net) : Z * Z * list Z := (ch_ix (ic_curchan n), ic_phytype (ic_conf n), ic_chan_active (ic_conf n)).
(** Only counters differ. *)
Definition counted (n n' : net) : Prop := exists ic, n' = set_ic n ic /\ ic_flags ic = ic_flags (n_ic n) /\ ic_caps ic = ic_caps (n_ic n).
Lemma counted_refl n : counted n n.
Proof. exists (n_ic n). split; [by destruct n|done]. Qed.
Lemma counted_bump n n' s : counted n n' -> counted n (bump n' s).
Proof. intros (ic & -> & F & C). exists (stat_inc ic s). done. Qed.
Lemma counted_view n n' : counted n n' -> parse_view n' = parse_view n.
Proof. by intros (ic & -> & _). Qed.

Lemma bcn_elem_view n n' sp off ie sp' n1 : parse_view n' = parse_view n -> bcn_elem n sp off ie = go (sp', n1) ->
  counted n n1 /\ exists n1', bcn_elem n' sp off ie = go (sp', n1') /\ counted n' n1'.
Proof.
  intros [= _ Hp _]. unfold bcn_elem. rewrite Hp. cbn zeta. intros E.
  assert (forall (a b : scanparams) x, go (a, n) = go (b, x) -> counted n x /\ exists n1', go (a, n') = go (b, n1') /\ counted n' n1') as Hsame
    by (intros a b x [= -> <-]; split; [apply counted_refl|by exists n'; split; [|apply counted_refl]]).
  assert (forall (a b : scanparams) x s, go (a, bump n s) = go (b, x) -> counted n x /\ exists n1', go (a, bump n' s) = go (b, n1') /\ counted n' n1') as Hbump
    by (intros a b x s [= -> <-]; split; [apply counted_bump, counted_refl|by exists (bump n' s); split; [|apply counted_bump, counted_refl]]).
  repeat match type of E with (if ?b then _ else _) = _ => destruct b; [try (by apply Hsame); try (by apply Hbump); try done|] end; try (by apply Hsame); try (by apply Hbump).
  apply res_bind_Ok in E as (w & Ew & E). rewrite Ew. cbn [res_bind]. destruct w; [by apply Hsame|].
  apply res_bind_Ok in E as (p & Ep & E). rewrite Ep. cbn [res_bind]. apply res_bind_Ok in E as (q & Eq & E). rewrite Eq. cbn [res_bind]. by apply Hsame.
Qed.
Lemma bcn_loop_view fuel : forall n n' sp off frm sp' n1, parse_view n' = parse_view n -> bcn_loop fuel n sp off frm = go (sp', n1) ->
  counted n n1 /\ exists n1', bcn_loop fuel n' sp off frm = go (sp', n1') /\ counted n' n1'.
Proof.
  induction fuel as [|fuel IH]; intros n n' sp off frm sp' n1 Hv; cbn [bcn_loop].
  - destruct (_ <? _)%nat; [|done]. intros [= -> <-]. split; [apply counted_refl|]. exists n'. split; [done|apply counted_refl].
  - destruct (_ <? 2)%nat; [intros [= -> <-]; split; [apply counted_refl|]; exists n'; split; [done|apply counted_refl]|]. destruct (_ <? _)%nat; [done|].
    unfold rr_then. destruct (bcn_elem n sp off _) as [[?|[sp2 n2]]|] eqn:E; cbn [res_bind]; [done| |done].
    destruct (bcn_elem_view n n' sp off _ sp2 n2 Hv E) as [C1 (n2' & -> & C2)]. cbn [go res_bind]. intros El.
    destruct (IH n2 n2' _ _ _ _ _ ltac:(by rewrite (counted_view _ _ C1), (counted_view _ _ C2)) El) as [C3 (n3' & -> & C4)].
    assert (forall a b c, counted a b -> counted b c -> counted a c) as Htr.
    { intros a b c (i & -> & F1 & G1) (j & -> & F2 & G2). exists j. cbn in *. split; [done|]. by rewrite F2, G2. }
    split; [by eapply Htr|]. eexists. split; [done|]. by eapply Htr.
Qed.
Lemma bcn_parse_view n n' m sp rates ssid n1 : parse_view n' = parse_view n -> bcn_parse n m = go (sp, rates, ssid, n1) ->
  counted n n1 /\ exists n1', bcn_parse n' m = go (sp, rates, ssid, n1') /\ counted n' n1'.
Proof.
  intros Hv. unfold bcn_parse. cbn zeta. pose proof Hv as [= Hc Hp Ha]. unfold VERIFY_LENGTH. destruct (_ <? 12)%nat; [done|].
  unfold rr_then at 1 6. cbn [go res_bind ieee80211_chan2ieee]. rewrite Hc.
  destruct (bcn_loop _ n _ _ _) as [[?|[sp2 n2]]|] eqn:E; unfold rr_then at 1; cbn [go res_bind]; [done| |done].
  destruct (bcn_loop_view _ n n' _ _ _ sp2 n2 Hv E) as [C1 (n2' & -> & C2)]. unfold rr_then at 3. cbn [go res_bind].
  destruct (sp_rates sp2) as [r|]; [|done]. cbn [VERIFY_ELEMENT]. destruct (_ <? _); [done|]. unfold rr_then at 1 3. cbn [go res_bind].
  destruct (sp_ssid sp2) as [s|]; [|done]. cbn [VERIFY_ELEMENT]. destruct (_ <? _); [done|]. unfold rr_then at 1 2. cbn [go res_bind].
  pose proof (counted_view _ _ C1) as [= V1 V2 V3]. pose proof (counted_view _ _ C2) as [= W1 W2 W3]. rewrite V3, V2, W3, W2, Ha, Hp.
  destruct (isset _ _) as [[|]|]; cbn [res_bind negb]; [|done|done]. destruct (_ && _); [done|]. destruct (negb _); [done|].
  intros [= -> -> -> <-]. split; [done|]. by eexists.
Qed.

(** A station that is associated, without QoS and not scanning. *)
Record joined (n : net) (id : nat) (ni : ieee80211_node) : Prop := mkJoined {
  jn_mode : ic_opmode n = IEEE80211_M_STA;
  jn_bss : ic_bss n = Some id;
  jn_node : n_nodes n !! id = Some ni;
  jn_aid : ni_associd ni <> 0;
  jn_scan : has_flag (ic_flags (n_ic n)) IEEE80211_F_SCAN = false;
  jn_qos : has_flag (ni_flags ni) IEEE80211_NODE_QOS = false;
}.
Definition protects (n : net) : bool := has_flag (ic_flags (n_ic n)) IEEE80211_F_USEPROT.
Definition short_slot (n : net) : bool := has_flag (ic_flags (n_ic n)) IEEE80211_F_SHSLOT.
Definition slot_differs (a b : Z) : bool := has_flag (Z.lxor a b) IEEE80211_CAPINFO_SHORT_SLOTTIME.

Lemma flag_set x f : f <> 0 -> has_flag (Z.lor x f) f = true.
Proof. intros H. unfold has_flag. rewrite Z.land_lor_distr_l, Z.land_diag. apply negb_true_iff, Z.eqb_neq. by intros [_ ?]%Z.lor_eq_0_iff. Qed.
(** A flag of the interface is written. *)
Lemma write_flag n f (b : bool) : f <> 0 -> let n' := if b then flag_on n f else flag_off n f in
  has_flag (ic_flags (n_ic n')) f = b /\ (forall g, Z.land f g = 0 -> has_flag (ic_flags (n_ic n')) g = has_flag (ic_flags (n_ic n)) g).
Proof.
  intros Hf. destruct b; cbn zeta; (split; [cbn|intros g Hg; cbn]).
  - by apply flag_set.
  - unfold has_flag. by rewrite Z.land_lor_distr_l, Hg, Z.lor_0_r.
  - unfold has_flag. by rewrite <- Z.land_assoc, (Z.land_comm (Z.lnot f)), Z.land_lnot_diag, Z.land_0_r.
  - unfold has_flag. rewrite <- Z.land_assoc. do 2 f_equal. f_equal. apply Z.bits_inj'. intros i Hi.
    apply (f_equal (fun v => Z.testbit v i)) in Hg. rewrite Z.land_spec, Z.bits_0 in Hg. rewrite Z.land_spec, Z.lnot_spec by done. by destruct (Z.testbit f i), (Z.testbit g i).
Qed.

(** The state of the flags after the two announcements. *)
Lemma bcn_erp_ok n id ni erp : n_nodes n !! id = Some ni ->
  let n' := bcn_erp n id ni erp in exists ni', n_nodes n' !! id = Some ni' /\ ni' = set_erp ni erp /\
    (ic_opmode n', ic_bss n', ic_curmode n', ic_conf n', ic_curchan n', ic_wme n') = (ic_opmode n, ic_bss n, ic_curmode n, ic_conf n, ic_curchan n, ic_wme n) /\
    protects n' = (if ni_erp ni =? erp then protects n else (ic_curmode n =? IEEE80211_MODE_11G) && has_flag (ni_erp ni) IEEE80211_ERP_USE_PROTECTION) /\
    short_slot n' = short_slot n /\ has_flag (ic_flags (n_ic n')) IEEE80211_F_SCAN = has_flag (ic_flags (n_ic n)) IEEE80211_F_SCAN.
Proof.
  intros E. unfold bcn_erp. destruct (Z.eqb_spec (ni_erp ni) erp) as [He|He].
  - cbn zeta. exists ni. split; [done|]. split; [|done]. subst erp. by destruct ni.
  - set (b := _ && _). pose proof (write_flag n IEEE80211_F_USEPROT b ltac:(done)) as [W1 W2]. cbn zeta in *. set (n1 := if b then _ else _) in *.
    assert (n_nodes n1 = n_nodes n /\ (ic_opmode n1, ic_bss n1, ic_curmode n1, ic_conf n1, ic_curchan n1, ic_wme n1) = (ic_opmode n, ic_bss n, ic_curmode n, ic_conf n, ic_curchan n, ic_wme n))
      as [En Ef] by (subst n1; by destruct b).
    exists (set_erp ni erp). split; [apply (upd_same n1 id (fun ni => set_erp ni erp)); by rewrite En|]. split; [done|]. split; [exact Ef|].
    split; [exact W1|]. split; [exact (W2 IEEE80211_F_SHSLOT eq_refl)|exact (W2 IEEE80211_F_SCAN eq_refl)].
Qed.
Lemma bcn_slot_ok n id ni old cap : n_nodes n !! id = Some ni -> ni_capinfo ni = ni_capinfo old ->
  let n' := bcn_slot n id old cap in exists ni', n_nodes n' !! id = Some ni' /\ ni' = (if slot_differs (ni_capinfo old) cap then set_capinfo ni cap else ni) /\
    (ic_opmode n', ic_bss n', ic_curmode n', ic_conf n', ic_curchan n', ic_wme n') = (ic_opmode n, ic_bss n, ic_curmode n, ic_conf n, ic_curchan n, ic_wme n) /\
    short_slot n' = (if slot_differs (ni_capinfo old) cap
                     then (ic_curmode n =? IEEE80211_MODE_11A) || has_flag (ni_capinfo old) IEEE80211_CAPINFO_SHORT_SLOTTIME else short_slot n) /\
    protects n' = protects n /\ has_flag (ic_flags (n_ic n')) IEEE80211_F_SCAN = has_flag (ic_flags (n_ic n)) IEEE80211_F_SCAN.
Proof.
  intros E Ec. unfold bcn_slot, slot_differs. destruct (has_flag (Z.lxor _ _) _); [|by cbn zeta; exists ni].
  unfold ieee80211_set_shortslottime. set (b := _ || _). pose proof (write_flag n IEEE80211_F_SHSLOT b ltac:(done)) as [W1 W2]. cbn zeta in *.
  exists (set_capinfo ni cap). split.
  - apply (upd_same _ id (fun ni => set_capinfo ni cap)). destruct b; exact E.
  - split; [done|]. split; [by destruct b|]. split; [exact W1|]. split; [exact (W2 IEEE80211_F_USEPROT eq_refl)|exact (W2 IEEE80211_F_SCAN eq_refl)].
Qed.

Lemma beacon_joined dev queued n id ni m sp rates ssid nc subtype rssi rstamp :
  joined n id ni -> bcn_parse n m = go (sp, rates, ssid, nc) ->
  exists n' ni', ieee80211_recv_mgmt_beacon dev queued n m id subtype rssi rstamp = Ok n' /\ joined n' id ni' /\ parse_view n' = parse_view n /\
    ic_curmode n' = ic_curmode n /\ ni_erp ni' = sp_erp sp /\
    ni_capinfo ni' = (if slot_differs (ni_capinfo ni) (sp_capinfo sp) then sp_capinfo sp else ni_capinfo ni) /\
    protects n' = (if ni_erp ni =? sp_erp sp then protects n else (ic_curmode n =? IEEE80211_MODE_11G) && has_flag (ni_erp ni) IEEE80211_ERP_USE_PROTECTION) /\
    short_slot n' = (if slot_differs (ni_capinfo ni) (sp_capinfo sp)
                     then (ic_curmode n =? IEEE80211_MODE_11A) || has_flag (ni_capinfo ni) IEEE80211_CAPINFO_SHORT_SLOTTIME else short_slot n).
Proof.
  intros [J1 J2 J3 J4 J5 J6] Ep. destruct (bcn_parse_view n n m sp rates ssid nc eq_refl Ep) as [(ic & -> & Fi & Ci) _].
  unfold ieee80211_recv_mgmt_beacon. rewrite (node_at_Some _ _ _ J3). cbn [res_bind]. rewrite J5, J1, (proj2 (Z.eqb_neq _ _) J4).
  cbn [negb orb andb Z.eqb Pos.eqb IEEE80211_M_STA]. rewrite Ep. unfold rr_bind. cbn [go res_bind]. unfold is_bss.
  change (ic_bss (set_ic n ic)) with (ic_bss n). rewrite bool_decide_true by done. cbn [res_bind].
  set (n1 := if subtype =? IEEE80211_FC0_SUBTYPE_BEACON then _ else _).
  assert (n_nodes n1 !! id = Some ni /\ (ic_opmode n1, ic_bss n1, ic_curmode n1, ic_conf n1, ic_curchan n1) = (ic_opmode n, ic_bss n, ic_curmode n, ic_conf n, ic_curchan n) /\
    ic_flags (n_ic n1) = ic_flags (n_ic n)) as (E1 & [= O1 B1 M1 C1 K1] & F1) by (subst n1; by case_match).
  rewrite (node_at_Some _ _ _ E1). cbn [res_bind]. rewrite O1, J1, (proj2 (Z.eqb_neq _ _) J4), F1, J5. cbn [negb orb andb Z.eqb Pos.eqb IEEE80211_M_STA].
  unfold bcn_associated. cbn zeta. set (n2 := upd n1 id _). pose proof (upd_same n1 id (fun ni => set_tstamp ni (sp_tstamp sp)) ni E1) as E2. fold n2 in E2.
  assert (bcn_erp n2 id ni (sp_erp sp) = bcn_erp n2 id (set_tstamp ni (sp_tstamp sp)) (sp_erp sp)) as -> by done.
  destruct (bcn_erp_ok n2 id _ (sp_erp sp) E2) as (ni3 & E3 & -> & [= O3 B3 M3 C3 K3 _] & P3 & S3 & N3). set (n3 := bcn_erp n2 id _ _) in *.
  destruct (bcn_slot_ok n3 id _ ni (sp_capinfo sp) E3 eq_refl) as (ni4 & E4 & -> & [= O4 B4 M4 C4 K4 _] & S4 & P4 & N4). set (n4 := bcn_slot n3 id ni _) in *.
  assert (bcn_wme n4 ni (sp_wme sp) = Ok n4) as -> by (unfold bcn_wme; destruct (sp_wme sp); [by rewrite J6|done]). cbn [res_bind].
  pose proof (upd_same n4 id (fun ni => set_dtim ni (sp_tim sp)) _ E4) as E5. set (n5 := upd n4 id _) in *.
  change (ic_flags (n_ic n5)) with (ic_flags (n_ic n4)). rewrite N4, N3. change (ic_flags (n_ic n2)) with (ic_flags (n_ic n1)). rewrite F1, J5. cbn [res_bind].
  set (ni4 := if slot_differs _ _ then _ else _) in *.
  assert (ni_associd ni4 = ni_associd ni /\ ni_flags ni4 = ni_flags ni /\ ni_erp ni4 = sp_erp sp /\
    ni_capinfo ni4 = (if slot_differs (ni_capinfo ni) (sp_capinfo sp) then sp_capinfo sp else ni_capinfo ni)) as (A4 & G4 & R4 & D4)
    by (subst ni4; by destruct (slot_differs _ _)).
  eexists _, (set_dtim ni4 (sp_tim sp)). split; [done|].
  assert (forall x t, ni_associd (set_dtim x t) = ni_associd x /\ ni_flags (set_dtim x t) = ni_flags x /\ ni_erp (set_dtim x t) = ni_erp x /\ ni_capinfo (set_dtim x t) = ni_capinfo x) as Hd
    by (intros x [t|]; done).
  destruct (Hd ni4 (sp_tim sp)) as (D1 & D2 & D3 & D5).
  split; [split|].
  - change (ic_opmode n4 = IEEE80211_M_STA). rewrite O4, O3. change (ic_opmode n2) with (ic_opmode n1). congruence.
  - change (ic_bss n4 = Some id). rewrite B4, B3. change (ic_bss n2) with (ic_bss n1). congruence.
  - exact E5.
  - rewrite D1, A4. exact J4.
  - change (has_flag (ic_flags (n_ic n4)) IEEE80211_F_SCAN = false). rewrite N4, N3. change (ic_flags (n_ic n2)) with (ic_flags (n_ic n1)). by rewrite F1.
  - by rewrite D2, G4.
  - change (ic_curchan n2) with (ic_curchan n1) in K3. change (ic_conf n2) with (ic_conf n1) in C3. change (ic_curmode n2) with (ic_curmode n1) in *. split_and!.
    + unfold parse_view. change (ic_curchan (set_conf n5 _)) with (ic_curchan n4). rewrite K4, K3, K1.
      change (ic_phytype (ic_conf (set_conf n5 _))) with (ic_phytype (ic_conf n4)). change (ic_chan_active (ic_conf (set_conf n5 _))) with (ic_chan_active (ic_conf n4)). by rewrite C4, C3, C1.
    + change (ic_curmode n4 = ic_curmode n). congruence.
    + by rewrite D3.
    + by rewrite D5.
    + change (protects n4 = (if ni_erp ni =? sp_erp sp then protects n else (ic_curmode n =? IEEE80211_MODE_11G) && has_flag (ni_erp ni) IEEE80211_ERP_USE_PROTECTION)).
      rewrite P4, P3, M1. unfold protects. change (ic_flags (n_ic n2)) with (ic_flags (n_ic n1)). by rewrite F1.
    + change (short_slot n4 = (if slot_differs (ni_capinfo ni) (sp_capinfo sp)
        then (ic_curmode n =? IEEE80211_MODE_11A) || has_flag (ni_capinfo ni) IEEE80211_CAPINFO_SHORT_SLOTTIME else short_slot n)).
      rewrite S4, S3, M3, M1. unfold short_slot. change (ic_flags (n_ic n2)) with (ic_flags (n_ic n1)). by rewrite F1.
Qed.

Section Stale.
Context (dev : key_ops) (queued : net -> nat -> bool).

(** The same beacon, heard [k] times. *)
Fixpoint hear (k : nat) (n : net) (m : list Z) (id : nat) (rssi rstamp : Z) : res net :=
  match k with
  | O => Ok n
  | S k => let* n := ieee80211_recv_mgmt_beacon dev queued n m id IEEE80211_FC0_SUBTYPE_BEACON rssi rstamp in hear k n m id rssi rstamp
  end.
(** A beacon that says what the station has noted changes no flag. *)
Lemma hear_again k n id ni m sp rates ssid nc rssi rstamp :
  joined n id ni -> bcn_parse n m = go (sp, rates, ssid, nc) -> ni_erp ni = sp_erp sp -> slot_differs (ni_capinfo ni) (sp_capinfo sp) = false ->
  exists n' ni', hear k n m id rssi rstamp = Ok n' /\ joined n' id ni' /\ ni_erp ni' = sp_erp sp /\ protects n' = protects n /\ short_slot n' = short_slot n.
Proof.
  revert n ni nc. induction k as [|k IH]; intros n ni nc J Ep He Hs; [by exists n, ni|].
  destruct (beacon_joined dev queued n id ni m sp rates ssid nc IEEE80211_FC0_SUBTYPE_BEACON rssi rstamp J Ep) as (n1 & ni1 & E & J1 & V & _ & R1 & D1 & P1 & S1).
  cbn [hear]. rewrite E. cbn [res_bind]. rewrite He, Z.eqb_refl in P1. rewrite Hs in D1, S1.
  destruct (bcn_parse_view n n1 m sp rates ssid nc V Ep) as [_ (nc1 & Ep1 & _)].
  destruct (IH n1 ni1 nc1 J1 Ep1 R1 ltac:(by rewrite D1)) as (n2 & ni2 & E2 & J2 & R2 & P2 & S2). exists n2, ni2. by rewrite P2, S2.
Qed.
End Stale.

(** C38. When an access point changes its protection state, an associated station
    takes over the state announced before the change, and keeps it however
    often the new one is announced: protection of 802.11g frames that is
    switched on is switched off.  The same holds for the slot time. *)
Theorem beacon_applies_old_state dev queued k n id ni m sp rates ssid nc rssi rstamp :
  joined n id ni -> bcn_parse n m = go (sp, rates, ssid, nc) ->
  ni_erp ni <> sp_erp sp -> slot_differs (ni_capinfo ni) (sp_capinfo sp) = true ->
  exists n' ni', hear dev queued (S k) n m id rssi rstamp = Ok n' /\ joined n' id ni' /\ ni_erp ni' = sp_erp sp /\
    protects n' = (ic_curmode n =? IEEE80211_MODE_11G) && has_flag (ni_erp ni) IEEE80211_ERP_USE_PROTECTION /\
    short_slot n' = (ic_curmode n =? IEEE80211_MODE_11A) || has_flag (ni_capinfo ni) IEEE80211_CAPINFO_SHORT_SLOTTIME.
Proof.
  intros J Ep He Hs.
  destruct (beacon_joined dev queued n id ni m sp rates ssid nc IEEE80211_FC0_SUBTYPE_BEACON rssi rstamp J Ep) as (n1 & ni1 & E & J1 & V & _ & R1 & D1 & P1 & S1).
  cbn [hear]. rewrite E. cbn [res_bind]. rewrite (proj2 (Z.eqb_neq _ _) He) in P1. rewrite Hs in D1, S1.
  destruct (bcn_parse_view n n1 m sp rates ssid nc V Ep) as [_ (nc1 & Ep1 & _)].
  destruct (hear_again dev queued k n1 id ni1 m sp rates ssid nc1 rssi rstamp J1 Ep1 R1) as (n2 & ni2 & E2 & J2 & R2 & P2 & S2).
  { rewrite D1. unfold slot_differs. by rewrite Z.lxor_nilpotent. }
  exists n2, ni2. by rewrite P2, S2, P1, S1.
Qed.

(** ** Examples *)

(** A station that may use all channels, tuned to the one of [sending_ap] and in
    802.11g mode; and the same one associated without protection. *)
Definition any_channel : ieee80211_conf := mkConf 0 [] (replicate 32 0xff) [] None None [] [] 0 0 1 None 100 0.
Definition listener : net :=
  match attached IEEE80211_M_STA IEEE80211_MODE_11G IEEE80211_C_SHSLOT with Ok n => set_conf n any_channel | Fault _ => sending_ap end.
Definition member : net :=
  upd listener 0%nat (fun ni => set_capinfo (set_associd ni 0xc001) IEEE80211_CAPINFO_SHORT_SLOTTIME).
Definition member_bss : ieee80211_node := default zero_node (n_nodes member !! 0%nat).
(** A beacon that asks for protection and long slots. *)
Definition protect_beacon : list Z :=
  replicate 24 0 ++ replicate 8 0 ++ [100; 0] ++ [1; 0] ++ [0; 2; 0x61; 0x62] ++ [1; 4; 2; 4; 11; 22] ++ [3; 1; 1] ++ [42; 1; 2].
Definition protect_heard : scanparams * list Z * list Z * net :=
  match bcn_parse member protect_beacon with Ok (inr h) => h | _ => (mkSp [] 0 0 0 0 0 0 0 0 None None None None None None, [], [], member) end.
Lemma beacon_applies_old_state_witness :
  exists n' ni', hear null_key_ops (fun _ _ => true) 3 member protect_beacon 0%nat 30 0 = Ok n' /\ joined n' 0%nat ni' /\ ni_erp ni' = IEEE80211_ERP_USE_PROTECTION /\
    protects n' = false /\ short_slot n' = true.
Proof.
  destruct (beacon_applies_old_state null_key_ops (fun _ _ => true) 2 member 0%nat member_bss protect_beacon protect_heard.1.1.1 protect_heard.1.1.2 protect_heard.1.2 protect_heard.2 30 0)
    as (n' & ni' & E & J & R & P & S);
    [split; by vm_compute|vm_compute; reflexivity|by vm_compute|by vm_compute|]. exists n', ni'. split; [exact E|]. split; [exact J|]. split; [exact R|]. split; [exact P|exact S].
Defined.

(** An access point with a name and a beacon interval. *)
Definition named_ap : net := upd sending_ap 0%nat (fun ni => set_essid (set_intval ni 100) [0x61; 0x62]).
Definition named_bss : ieee80211_node := default zero_node (n_nodes named_ap !! 0%nat).
Lemma named_ap_fit : net_fit named_ap.
Proof.
  split; [|by eexists _, _; split; vm_compute|done|done|by apply Nat.leb_le|by eexists].
  assert (map_Forall (fun _ ni => node_fit ni) (n_nodes named_ap)) as H; [|exact H].
  rewrite map_Forall_to_list. let l := eval vm_compute in (map_to_list (n_nodes named_ap)) in change (map_to_list (n_nodes named_ap)) with l.
  repeat constructor; done.
Qed.
Lemma named_bss_fit : node_fit named_bss.
Proof. apply (nt_nodes _ named_ap_fit 0%nat). by vm_compute. Qed.

Lemma probe_response_understood_witness :
  exists body sp rates ssid, probe_resp_body named_ap named_bss = Ok body /\ bcn_parse listener (replicate 24 0 ++ body) = go (sp, rates, ssid, listener) /\
    ssid_bytes ssid = [0x61; 0x62] /\ rates_heard rates (sp_xrates sp) = [2; 4; 11; 22] /\ sp_bintval sp = 100.
Proof.
  destruct (probe_response_understood named_ap named_bss named_bss listener (replicate 24 0))
    as (body & sp & rates & ssid & wpa & E & P & H1 & H2 & H3 & _);
    [exact named_ap_fit|exact named_bss_fit|by vm_compute|exact named_bss_fit
    |split; [split; by vm_compute|reflexivity|by vm_compute|by vm_compute]|by vm_compute|reflexivity|].
  exists body, sp, rates, ssid. split; [exact E|]. split; [exact P|]. split; [exact H1|]. split; [exact H2|exact H3].
Defined.

(** The header of a frame to that access point. *)
Definition to_named : list Z := replicate 16 0 ++ [2; 0; 0; 0; 0; 1] ++ [0; 0].
