(* ===== verification/BeaconProof.v ===== *)
(** * Beacons: what they tell sleeping stations *)

From stdpp Require Import gmap.
From S2P Require Import Prelude Buffers Mbuf Ieee80211 FrameProof Crypto InfoElem Wme Node NodeTable WmeParams NodeProof Rates Mgmt Station Input Output InputProof MgmtOut MgmtOutProof Beacon PowerSave.

(** ** The map as a station reads it *)

(** Partial virtual bitmap of IEEE 802.11: the control byte says which even
    byte of the whole map is the first one sent, the length how many are. *)
Definition tim_says (ie : list Z) (aid : Z) : bool :=
  let first := Z.land (byte_at ie tim_bitctl) 0xfe in
  let o := aid / 8 - first in
  (0 <=? o) && (o <? byte_at ie tim_len - 3) && Z.testbit (byte_at ie (tim_bitmap + Z.to_nat o)) (aid mod 8).
Definition tim_at (bo : ieee80211_beacon_offsets) (m : mbuf) : list Z := drop (bo_tim bo) (m_cluster m).

(** ** The window of the map that is sent *)

Lemma weight_range b : 0 <= weight b <= 8.
Proof.
  unfold weight. repeat match goal with |- context [Z.b2z ?x] => pose proof (Z.b2z_bit0 x); destruct x; cbn [Z.b2z] end; lia.
Qed.
Lemma weight_zero b : is_u8 b -> weight b = 0 -> b = 0.
Proof.
  intros Hb Hw. apply Z.bits_inj'. intros i Hi. rewrite Z.bits_0. destruct (decide (i < 8)) as [H8|H8].
  - unfold weight in Hw. assert (i = 0 \/ i = 1 \/ i = 2 \/ i = 3 \/ i = 4 \/ i = 5 \/ i = 6 \/ i = 7) as Hc by lia.
    destruct Hc as [->|[->|[->|[->|[->|[->|[->| ->]]]]]]];
      repeat match type of Hw with context [Z.b2z ?x] => destruct x; cbn [Z.b2z] in Hw end; (done || lia).
  - destruct (decide (b = 0)) as [->|Hn]; [apply Z.bits_0|]. apply Z.bits_above_log2; [apply Hb|].
    unfold is_u8, is_u in Hb. pose proof (Z.log2_lt_pow2 b 8 ltac:(lia)). lia.
Qed.
Lemma waiting_range l : 0 <= waiting l <= 8 * Z.of_nat (length l).
Proof. induction l as [|b l IH]; [done|]. cbn [waiting foldr length]. fold (waiting l). pose proof (weight_range b). lia. Qed.
Lemma waiting_zero l : bytes l -> waiting l = 0 <-> forall i b, l !! i = Some b -> b = 0.
Proof.
  induction l as [|x l IH]; intros Hb; [by split; [intros _ [|i] b|]|]. apply list.Forall_cons in Hb as [Hx Hl].
  cbn [waiting foldr]. fold (waiting l). pose proof (weight_range x) as Hwx. pose proof (waiting_range l) as Hwl. split.
  - intros Hz [|i] b E; [injection E as <-; apply weight_zero; [done|lia]|]. apply (proj1 (IH Hl)) with i; [lia|done].
  - intros H0. rewrite (H0 0%nat x eq_refl). rewrite (proj2 (IH Hl)); [done|]. intros i b E. by apply (H0 (S i)).
Qed.
Lemma pending_zero n : pending_ok n -> (length (ic_tim_bitmap n) <= 128)%nat ->
  ic_ps_pending n = 0 <-> forall i b, ic_tim_bitmap n !! i = Some b -> b = 0.
Proof.
  intros [Hb Hp] Hl. rewrite Hp, <- (waiting_zero _ Hb). pose proof (waiting_range (ic_tim_bitmap n)). rewrite u16_id; [done|]. unfold is_u16, is_u. lia.
Qed.

Lemma tim_first_spec l i j b : l !! j = Some b -> b <> 0 ->
  exists f x, (f <= j)%nat /\ l !! f = Some x /\ x <> 0 /\ (forall k y, (k < f)%nat -> l !! k = Some y -> y = 0) /\
    tim_first l i = (2 * ((i + f) / 2))%nat.
Proof.
  revert i j. induction l as [|a l IH]; intros i j E Hb; [by destruct j|]. cbn [tim_first]. destruct (Z.eqb_spec a 0) as [->|Ha].
  - destruct j as [|j]; [by injection E as <-|]. destruct (IH (S i) j E Hb) as (f & x & Hf & Ex & Hx & H0 & ->).
    exists (S f), x. split_and!; [lia|done|done| |do 2 f_equal; lia]. intros [|k] y Hk Ek; [by injection Ek as <-|]. apply (H0 k); [lia|done].
  - exists 0%nat, a. split_and!; [lia|done|done|intros; lia|by rewrite Nat.add_0_r].
Qed.
Lemma tim_last_spec l off k j b : l !! j = Some b -> b <> 0 -> (off <= j < k)%nat -> (k <= length l)%nat ->
  exists e x, tim_last l off k = Ok e /\ (j <= e < k)%nat /\ l !! e = Some x /\ x <> 0 /\
    (forall i y, (e < i < k)%nat -> l !! i = Some y -> y = 0).
Proof.
  intros E Hb. induction k as [|k IH]; intros Hj Hk; [lia|]. cbn [tim_last]. rewrite (proj2 (Nat.ltb_ge k off)) by lia.
  destruct (lookup_lt_is_Some_2 l k) as [x Ex]; [lia|]. rewrite Ex. destruct (Z.eqb_spec x 0) as [->|Hx].
  - destruct (decide (j = k)) as [->|Hn]; [congruence|]. destruct IH as (e & y & He & Hr & Ey & Hy & H0); [lia|lia|].
    exists e, y. split_and!; [done|lia|lia|done|done|]. intros i z Hi Ez. destruct (decide (i = k)) as [->|]; [congruence|]. apply (H0 i); [lia|done].
  - exists k, x. split_and!; [done|lia|lia|done|done|]. intros i y Hi. lia.
Qed.

(** The bytes of the map from [off], [len] of them, and no other is set. *)
Record window (l : list Z) (off len : nat) : Prop := mkWindow {
  wd_even : Nat.even off = true;
  wd_len : (1 <= len)%nat;
  wd_in : (off + len <= length l)%nat;
  wd_low : (off < 128)%nat;
  wd_out : forall i b, (i < off \/ off + len <= i)%nat -> l !! i = Some b -> b = 0;
}.
Lemma tim_window_ok n : pending_ok n -> (1 <= length (ic_tim_bitmap n) <= 128)%nat ->
  exists off len, tim_window n = Ok (off, len) /\ window (ic_tim_bitmap n) off len /\
    (ic_ps_pending n <> 0 -> (exists f x, (f < off + 2)%nat /\ ic_tim_bitmap n !! f = Some x /\ x <> 0) /\
      exists x, ic_tim_bitmap n !! (off + len - 1)%nat = Some x /\ x <> 0).
Proof.
  intros P L. unfold tim_window. pose proof (pending_zero n P ltac:(lia)) as Hz. destruct (Z.eqb_spec (ic_ps_pending n) 0) as [Hp|Hp].
  - exists 0%nat, 1%nat. split; [done|]. split; [|done]. split; try done; [lia|lia|]. intros i b _. by apply Hz.
  - assert (exists j b, ic_tim_bitmap n !! j = Some b /\ b <> 0) as (j & b & E & Hb).
    { destruct (decide (Exists (fun b => b <> 0) (ic_tim_bitmap n))) as [He|He].
      - apply list.Exists_exists in He as (b & Hi & Hb). apply list_elem_of_lookup_1 in Hi as [j E]. by exists j, b.
      - exfalso. apply Hp, Hz. intros i b E. destruct (decide (b = 0)); [done|]. exfalso. apply He.
        apply list.Exists_exists. exists b. split; [by apply list_elem_of_lookup_2 in E|done]. }
    destruct (tim_first_spec _ 0 _ _ E Hb) as (f & x & Hf & Ex & Hx & H0 & ->). cbn [Nat.add].
    pose proof (lookup_lt_Some _ _ _ Ex) as Lf. pose proof (Nat.div_mod_eq f 2) as Hd. pose proof (Nat.mod_upper_bound f 2 ltac:(done)) as Hm.
    rewrite (proj2 (Nat.eqb_neq (2 * (f / 2)) 128)) by lia.
    destruct (tim_last_spec _ (2 * (f / 2)) (length (ic_tim_bitmap n)) _ _ Ex Hx) as (e & y & -> & He & Ey & Hy & H1); [lia|lia|].
    cbn [res_bind]. eexists _, _. split; [done|]. split.
    + split; [rewrite Nat.even_mul; done|lia|lia|lia|]. intros i z [Hi|Hi] Ez; [|apply (H1 i); [|done]; pose proof (lookup_lt_Some _ _ _ Ez); lia].
      apply (H0 i); [lia|done].
    + intros _. split; [exists f, x; split; [lia|done]|]. exists y. split; [|done]. match goal with |- _ !! ?k = _ => by replace k with e by lia end.
Qed.

(** ** Where things are in a beacon *)

Record bcn_ok (n : net) (bo : ieee80211_beacon_offsets) (m : mbuf) : Prop := mkBcnOk {
  bk_caps : (bo_caps bo + 2 <= bo_tim bo)%nat;
  bk_trailer : bo_trailer bo = (bo_tim bo + tim_bitmap + bo_tim_len bo)%nat;
  bk_map : (1 <= bo_tim_len bo <= length (ic_tim_bitmap n))%nat;
  bk_small : (length (ic_tim_bitmap n) <= 128)%nat;
  bk_len : byte_at (tim_at bo m) tim_len = 3 + Z.of_nat (bo_tim_len bo);
  bk_room : (bo_tim bo + tim_bitmap + length (ic_tim_bitmap n) + bo_trailer_len bo <= length (m_cluster m))%nat;
  bk_wme : has_flag (ic_flags (n_ic n)) IEEE80211_F_WME = true -> bo_wme bo = bo_trailer bo /\ (Z.to_nat sizeof_wme_param <= bo_trailer_len bo)%nat;
}.
(** Only the length of the map and the use of WME matter. *)
Definition alike (n n' : net) : Prop :=
  length (ic_tim_bitmap n') = length (ic_tim_bitmap n) /\
  has_flag (ic_flags (n_ic n')) IEEE80211_F_WME = has_flag (ic_flags (n_ic n)) IEEE80211_F_WME.
Lemma bcn_ok_alike n n' bo m : alike n n' -> bcn_ok n bo m -> bcn_ok n' bo m.
Proof. intros [L F] []. split; rewrite ?L, ?F; done. Qed.
(** The elements that follow the map. *)
Definition trailer_of (bo : ieee80211_beacon_offsets) (m : mbuf) : list Z := sub_list (bo_trailer bo) (bo_trailer_len bo) (m_cluster m).

Lemma poke_ok m pos b : (pos + length b <= length (m_cluster m))%nat -> poke m pos b = Ok (set_cluster m (splice pos b (m_cluster m))).
Proof. intros H. unfold poke. by rewrite (proj2 (Nat.leb_le _ _) H). Qed.
Lemma byte_at_splice pos b l i : (pos + length b <= length l)%nat ->
  byte_at (splice pos b l) i = if decide (pos <= i < pos + length b)%nat then byte_at b (i - pos) else byte_at l i.
Proof.
  intros H. unfold byte_at. rewrite !nth_lookup, lookup_splice by done. repeat case_decide; try lia; done.
Qed.
Lemma byte_at_sub off k l i : (i < k)%nat -> byte_at (sub_list off k l) i = byte_at l (off + i).
Proof. intros H. unfold byte_at. rewrite !nth_lookup, lookup_sub_list, decide_True by done. done. Qed.

Lemma sub_splice_out {A} off k pos (b l : list A) : (pos + length b <= length l)%nat -> (off + k <= pos \/ pos + length b <= off)%nat ->
  sub_list off k (splice pos b l) = sub_list off k l.
Proof. intros H D. apply list_eq. intros i. rewrite !lookup_sub_list. case_decide; [|done]. rewrite lookup_splice by done. repeat case_decide; try lia; done. Qed.

(** What [tim_rewrite] leaves: the window in place, the trailer behind it. *)
Lemma tim_rewrite_ok n bo m off len : tim_window n = Ok (off, len) -> window (ic_tim_bitmap n) off len -> bcn_ok n bo m ->
  let c := negb (Nat.eqb len (bo_tim_len bo)) in
  exists bo' m', tim_rewrite n bo m = Ok (c, bo', m') /\ length (m_cluster m') = length (m_cluster m) /\
    (bo_caps bo', bo_tim bo', bo_tim_len bo', bo_trailer_len bo') = (bo_caps bo, bo_tim bo, len, bo_trailer_len bo) /\
    bo_trailer bo' = (bo_tim bo + tim_bitmap + len)%nat /\ bo_wme bo' = (if c then bo_trailer bo' else bo_wme bo) /\
    trailer_of bo' m' = trailer_of bo m /\ take (bo_tim bo) (m_cluster m') = take (bo_tim bo) (m_cluster m) /\
    byte_at (tim_at bo' m') tim_len = 3 + Z.of_nat len /\
    byte_at (tim_at bo' m') tim_bitctl = (if c then Z.of_nat off else byte_at (tim_at bo m) tim_bitctl) /\
    byte_at (tim_at bo' m') tim_count = byte_at (tim_at bo m) tim_count /\
    byte_at (tim_at bo' m') tim_period = byte_at (tim_at bo m) tim_period /\
    (forall i, (i < len)%nat -> byte_at (tim_at bo' m') (tim_bitmap + i) = byte_at (ic_tim_bitmap n) (off + i)).
Proof.
  intros Ew [We Wl Wi Wo Wz] [B1 B2 B3 B4 B5 B6 _] c. unfold tim_rewrite. rewrite Ew. cbn [res_bind].
  set (cl := m_cluster m) in *. set (t := bo_tim bo) in *. assert (tim_bitmap = 5%nat) as E5 by done.
  assert (length (sub_list off len (ic_tim_bitmap n)) = len) as Ls by (rewrite length_sub_list_min; lia).
  destruct (Nat.eqb_spec len (bo_tim_len bo)) as [El|El]; subst c; cbn [negb].
  - cbn [res_bind]. rewrite <- El in *. rewrite (proj2 (Nat.ltb_ge _ _)) by lia. fold t.
    rewrite poke_ok by (fold cl; lia). cbn [res_bind]. fold cl. eexists _, _. split; [done|]. cbn [m_cluster set_cluster bo_tim].
    split; [by rewrite length_splice by lia|]. split; [by rewrite <- El|]. split; [lia|]. split; [done|].
    unfold trailer_of, tim_at. cbn [m_cluster set_cluster]. fold cl t. rewrite !byte_at_drop, !byte_at_splice by lia.
    split; [list_solve|]. split; [list_solve|]. change tim_len with 1%nat. change tim_bitctl with 4%nat. change tim_count with 2%nat. change tim_period with 3%nat.
    rewrite !decide_False by lia. unfold tim_at in B5. rewrite byte_at_drop in B5. fold cl t in B5. split_and!; try done.
    intros i Hi. rewrite byte_at_drop, byte_at_splice, decide_True by lia. match goal with |- byte_at _ ?k = _ => replace k with i by lia end. apply byte_at_sub. lia.
  - rewrite (proj2 (Nat.ltb_ge _ _)) by (fold cl; lia). fold t cl.
    assert (length (sub_list (bo_trailer bo) (bo_trailer_len bo) cl) = bo_trailer_len bo) as Lt by (rewrite length_sub_list_min; lia).
    rewrite poke_ok by (fold cl; lia). cbn [res_bind bo_tim m_cluster set_cluster]. fold t cl.
    set (c1 := splice (t + tim_bitmap + len) (sub_list (bo_trailer bo) (bo_trailer_len bo) cl) cl). assert (length c1 = length cl) as L1 by (apply length_splice; lia).
    rewrite poke_ok by (cbn [m_cluster set_cluster length]; fold c1; unfold tim_len; lia). cbn [res_bind m_cluster set_cluster]. fold c1.
    set (c2 := splice (t + tim_len) _ c1). assert (length c2 = length cl) as L2 by (rewrite <- L1; apply length_splice; cbn [length]; unfold tim_len; lia).
    rewrite poke_ok by (cbn [m_cluster set_cluster length]; fold c2; unfold tim_bitctl; lia). cbn [res_bind m_cluster set_cluster bo_tim_len]. fold c2.
    set (c3 := splice (t + tim_bitctl) _ c2). assert (length c3 = length cl) as L3 by (rewrite <- L2; apply length_splice; cbn [length]; unfold tim_bitctl; lia).
    rewrite (proj2 (Nat.ltb_ge _ _)) by lia. cbn [bo_tim]. rewrite poke_ok by (cbn [m_cluster set_cluster]; fold c3; lia). cbn [res_bind m_cluster set_cluster]. fold c3.
    eexists _, _. split; [done|]. cbn [m_cluster set_cluster bo_caps bo_tim bo_tim_len bo_trailer_len bo_trailer bo_wme].
    split; [by rewrite length_splice by lia|]. split; [done|]. split; [done|]. split; [done|].
    unfold trailer_of, tim_at. cbn [m_cluster set_cluster bo_trailer bo_trailer_len bo_tim]. fold t cl. unfold tim_len, tim_bitctl, tim_count, tim_period in *.
    assert (forall k (l : list Z), take k l = sub_list 0 k l) as Ht by (intros; by unfold sub_list; rewrite drop_0). rewrite !Ht.
    assert (forall o k, (o + k <= t \/ t + 5 + len <= o)%nat ->
      sub_list o k (splice (t + tim_bitmap) (sub_list off len (ic_tim_bitmap n)) c3) = sub_list o k c1) as Hout.
    { intros o k D. rewrite sub_splice_out by lia. subst c3. rewrite sub_splice_out by list_lia. subst c2. apply sub_splice_out; list_lia. }
    split; [rewrite Hout by lia; subst c1; rewrite <- Lt at 1; apply sub_list_splice; lia|].
    split; [rewrite Hout by lia; subst c1; apply sub_splice_out; lia|].
    rewrite !byte_at_drop, !byte_at_splice by lia. rewrite !decide_False by lia.
    assert (forall i, byte_at c3 i = if decide (i = t + 4)%nat then u8 (Z.of_nat off) else byte_at c2 i) as H3.
    { intros i. subst c3. rewrite byte_at_splice by list_lia. cbn [length]. repeat case_decide; try lia. by subst i; rewrite Nat.sub_diag. }
    assert (forall i, byte_at c2 i = if decide (i = t + 1)%nat then u8 (3 + Z.of_nat len) else byte_at c1 i) as H2.
    { intros i. subst c2. rewrite byte_at_splice by list_lia. cbn [length]. repeat case_decide; try lia. by subst i; rewrite Nat.sub_diag. }
    assert (forall i, (i < t + 5)%nat -> byte_at c1 i = byte_at cl i) as H1 by (intros i Hi; subst c1; rewrite byte_at_splice, decide_False by lia; done).
    rewrite !H3, !H2, !H1 by lia.
    split_and!; try (repeat case_decide; (lia || done || (rewrite u8_id; [done|unfold is_u8, is_u; lia]))).
    intros i Hi. rewrite byte_at_drop, byte_at_splice, decide_True by lia. match goal with |- byte_at _ ?k = _ => replace k with i by lia end. apply byte_at_sub. lia.
Qed.

(** ** The countdown *)

Lemma peek_ok m pos : (pos < length (m_cluster m))%nat -> peek m pos = Ok (byte_at (m_cluster m) pos).
Proof. intros H. unfold peek. by rewrite lookup_byte_at. Qed.
(** The count, and the bit for multicast frames. *)
Definition next_count (count period : Z) : Z := if count =? 0 then u8 (period - 1) else u8 (count - 1).
Definition next_ctl (mcast : bool) (count period ctl : Z) : Z :=
  if mcast && ((count =? 1) || (period =? 1)) then Z.lor ctl 1 else Z.land ctl (Z.lnot 1).

Lemma next_ctl_first mcast count period ctl : Z.land (next_ctl mcast count period ctl) 0xfe = Z.land ctl 0xfe.
Proof.
  unfold next_ctl. destruct (_ && _).
  - rewrite Z.land_lor_distr_l. change (Z.land 1 0xfe) with 0. apply Z.lor_0_r.
  - by rewrite <- Z.land_assoc.
Qed.
Lemma countdown_ok bo m mcast : (bo_tim bo + tim_bitmap <= length (m_cluster m))%nat ->
  let ie := tim_at bo m in let count := next_count (byte_at ie tim_count) (byte_at ie tim_period) in
  exists m', tim_countdown bo m mcast = Ok m' /\ length (m_cluster m') = length (m_cluster m) /\
    byte_at (tim_at bo m') tim_count = count /\
    byte_at (tim_at bo m') tim_bitctl = next_ctl mcast count (byte_at ie tim_period) (byte_at ie tim_bitctl) /\
    (forall i, i <> tim_count -> i <> tim_bitctl -> byte_at (tim_at bo m') i = byte_at ie i) /\
    (forall o k, (o + k <= bo_tim bo \/ bo_tim bo + tim_bitmap <= o)%nat -> sub_list o k (m_cluster m') = sub_list o k (m_cluster m)).
Proof.
  intros H. unfold tim_at. cbn zeta. rewrite !byte_at_drop. set (c := m_cluster m) in *. set (t := bo_tim bo) in *.
  unfold tim_countdown. fold t. unfold tim_bitmap, tim_count, tim_period, tim_bitctl in *.
  rewrite !peek_ok by (fold c; lia). cbn [res_bind]. fold c. fold (next_count (byte_at c (t + 2)) (byte_at c (t + 3))).
  set (count := next_count _ _). rewrite poke_ok by (fold c; list_lia). cbn [res_bind m_cluster set_cluster]. fold c.
  set (c1 := splice (t + 2) [count] c). assert (length c1 = length c) as L1 by (apply length_splice; list_lia).
  rewrite peek_ok by (cbn [m_cluster set_cluster]; fold c1; lia). cbn [res_bind m_cluster set_cluster]. fold c1.
  rewrite poke_ok by (cbn [m_cluster set_cluster]; fold c1; list_lia). eexists. split; [done|]. cbn [m_cluster set_cluster]. fold c1.
  assert (forall i, byte_at c1 i = if decide (i = t + 2)%nat then count else byte_at c i) as H1.
  { intros i. subst c1. rewrite byte_at_splice by list_lia. cbn [length]. repeat case_decide; try lia. by subst i; rewrite Nat.sub_diag. }
  rewrite length_splice by list_lia. split; [done|]. rewrite !byte_at_drop, !byte_at_splice by list_lia. cbn [length].
  rewrite decide_False, decide_True by lia. rewrite Nat.sub_diag, !H1, decide_True, decide_False by lia. split; [done|]. split; [done|].
  split.
  - intros i Hi Hj. rewrite !byte_at_drop, byte_at_splice by list_lia. cbn [length]. rewrite decide_False by lia. rewrite H1. by rewrite decide_False by lia.
  - intros o k D. rewrite sub_splice_out by list_lia. subst c1. apply sub_splice_out; list_lia.
Qed.

(** ** WME parameters *)

Lemma flag_lor_other x b f : Z.land b f = 0 -> has_flag (Z.lor x b) f = has_flag x f.
Proof. intros H. unfold has_flag. by rewrite Z.land_lor_distr_l, H, Z.lor_0_r. Qed.
Lemma flag_clear_other x b f : Z.land (Z.lnot b) f = f -> has_flag (Z.land x (Z.lnot b)) f = has_flag x f.
Proof. intros H. unfold has_flag. by rewrite <- Z.land_assoc, H. Qed.
Lemma flag_cleared x f : has_flag (Z.land x (Z.lnot f)) f = false.
Proof. unfold has_flag. by rewrite <- Z.land_assoc, (Z.land_comm (Z.lnot f)), Z.land_lnot_diag, Z.land_0_r. Qed.

(** What the WME part leaves alone. *)
Record calm (n n' : net) : Prop := mkCalm {
  cm_nodes : n_nodes n' = n_nodes n;
  cm_map : (ic_tim_bitmap n', ic_ps_pending n') = (ic_tim_bitmap n, ic_ps_pending n);
  cm_mode : (ic_opmode n', ic_curmode n') = (ic_opmode n, ic_curmode n);
  cm_tim : has_flag (ic_flags (n_ic n')) IEEE80211_F_TIMUPDATE = has_flag (ic_flags (n_ic n)) IEEE80211_F_TIMUPDATE;
  cm_wme : has_flag (ic_flags (n_ic n')) IEEE80211_F_WME = has_flag (ic_flags (n_ic n)) IEEE80211_F_WME;
}.
Lemma wme_aggressive_ok n : ic_opmode n = IEEE80211_M_HOSTAP -> 0 <= ic_curmode n < 7 -> wme_ok (ic_wme n) ->
  exists n', wme_aggressive n = Ok n' /\ calm n n' /\ wme_ok (ic_wme n').
Proof.
  intros Ho Hm W. unfold wme_aggressive. cbn zeta.
  assert (forall v t, exists n', (let* n := ieee80211_wme_updateparams_locked (set_wme n (set_wme_flags (ic_wme n) v)) in Ok (set_hipri_traffic n t)) = Ok n' /\
    calm n n' /\ wme_ok (ic_wme n')) as Hu.
  { intros v t. destruct (updateparams_ap (set_wme n (set_wme_flags (ic_wme n) v))) as (n1 & E & W1 & _); [done|done|by destruct W; split|].
    pose proof (updateparams_shape _ _ (Ho : ic_opmode (set_wme n _) = _) E) as S. rewrite E. cbn [res_bind]. eexists. split; [done|]. split; [|exact W1]. rewrite S.
    split; try done; by apply flag_lor_other. }
  destruct (has_flag (wme_flags _) _); destruct (_ <? _) || destruct (_ <=? _); try apply Hu; eexists; (split; [done|]); by split.
Qed.

(** ** The update *)

Section Update.
Context (n : net) (id : nat) (ni : ieee80211_node) (bo : ieee80211_beacon_offsets) (m : mbuf) (mcast : bool).
Context (Hni : n_nodes n !! id = Some ni) (Hap : ic_opmode n = IEEE80211_M_HOSTAP) (Hcm : 0 <= ic_curmode n < 7).
Context (Hwme : wme_ok (ic_wme n)) (Hbo : bcn_ok n bo m).

(** Capabilities and WME parameters change nothing from the map on but, at
    most, the element at the front of the trailer. *)
Lemma update_front : exists m1 n1,
  (let* m := poke m (bo_caps bo) (le16enc (bss_capinfo n (ni_chan ni))) in
   if has_flag (ic_flags (n_ic n)) IEEE80211_F_WME then
     let* n := wme_aggressive n in
     if has_flag (ic_flags (n_ic n)) IEEE80211_F_WMEUPDATE then
       let* m := poke m (bo_wme bo) (ieee80211_add_wme_param (ic_wme n)) in
       Ok (m, flag_off n IEEE80211_F_WMEUPDATE)
     else Ok (m, n)
   else Ok (m, n)) = Ok (m1, n1) /\ calm n n1 /\ wme_ok (ic_wme n1) /\ bcn_ok n1 bo m1 /\
  (forall i, (i < tim_bitmap + bo_tim_len bo)%nat -> byte_at (tim_at bo m1) i = byte_at (tim_at bo m) i) /\
  (trailer_of bo m1 = trailer_of bo m \/ trailer_of bo m1 = splice 0 (ieee80211_add_wme_param (ic_wme n1)) (trailer_of bo m)).
Proof.
  pose proof Hbo as [B1 B2 B3 B4 B5 B6 B7]. set (t := bo_tim bo) in *. set (c := m_cluster m) in *. assert (tim_bitmap = 5%nat) as E5 by done.
  rewrite poke_ok by (change (length (le16enc _)) with 2%nat; fold c; lia). cbn [res_bind]. fold c. set (c1 := splice _ _ c).
  assert (length c1 = length c) as L1 by (apply length_splice; change (length (le16enc _)) with 2%nat; lia).
  assert (forall o k, (t <= o)%nat -> sub_list o k c1 = sub_list o k c) as S1
    by (intros o k Ho; apply sub_splice_out; change (length (le16enc _)) with 2%nat; lia).
  assert (forall i, (t <= i)%nat -> byte_at c1 i = byte_at c i) as T1
    by (intros i Hi; subst c1; rewrite byte_at_splice, decide_False by (change (length (le16enc _)) with 2%nat; lia); done).
  assert (forall n1, calm n n1 -> bcn_ok n1 bo (set_cluster m c1)) as K.
  { intros n1 [C1 [= C2 C3] _ _ C4]. split; cbn [m_cluster set_cluster]; rewrite ?C2, ?L1, ?C4; try done.
    unfold tim_at. cbn [m_cluster set_cluster]. unfold tim_at in B5. rewrite byte_at_drop in B5 |- *. fold t. rewrite T1 by lia. exact B5. }
  assert (forall n1, calm n n1 -> wme_ok (ic_wme n1) -> calm n n1 /\ wme_ok (ic_wme n1) /\ bcn_ok n1 bo (set_cluster m c1) /\
    (forall i, (i < tim_bitmap + bo_tim_len bo)%nat -> byte_at (tim_at bo (set_cluster m c1)) i = byte_at (tim_at bo m) i) /\
    (trailer_of bo (set_cluster m c1) = trailer_of bo m \/ trailer_of bo (set_cluster m c1) = splice 0 (ieee80211_add_wme_param (ic_wme n1)) (trailer_of bo m))) as K1.
  { intros n1 C W1. split_and!; [done|done|by apply K| |].
    - intros i _. unfold tim_at. cbn [m_cluster set_cluster]. rewrite !byte_at_drop. fold t. apply T1. lia.
    - left. unfold trailer_of. cbn [m_cluster set_cluster]. apply S1. rewrite B2. lia. }
  destruct (has_flag _ IEEE80211_F_WME) eqn:Ew; [|exists (set_cluster m c1), n; split; [done|]; apply K1; [by split|exact Hwme]].
  destruct (wme_aggressive_ok n Hap Hcm Hwme) as (n1 & -> & C1 & W1). cbn [res_bind].
  destruct (has_flag _ IEEE80211_F_WMEUPDATE); [|exists (set_cluster m c1), n1; split; [done|]; by apply K1].
  destruct (B7 eq_refl) as [B8 B9]. pose proof (wme_param_length _ (co_len _ (we_bcast _ W1))) as Lw.
  rewrite poke_ok by (cbn [m_cluster set_cluster]; fold c1; lia). cbn [res_bind m_cluster set_cluster].
  set (w := ieee80211_add_wme_param (ic_wme n1)) in *. rewrite B8. eexists _, _. split; [done|]. cbn [m_cluster set_cluster].
  assert (calm n (flag_off n1 IEEE80211_F_WMEUPDATE)) as C2
    by (destruct C1 as [? ? ? A1 A2]; split; try done; [rewrite <- A1|rewrite <- A2]; by apply flag_clear_other).
  split; [exact C2|]. split; [exact W1|]. split; [|split].
  - destruct (K _ C2) as [? ? ? ? K5 ? ?]. split; cbn [m_cluster set_cluster] in *; rewrite ?length_splice by lia; try done.
    rewrite <- K5. unfold tim_at. cbn [m_cluster set_cluster]. rewrite !byte_at_drop, byte_at_splice by lia. rewrite decide_False; [done|]. unfold tim_len. lia.
  - intros i Hi. unfold tim_at. cbn [m_cluster set_cluster]. rewrite !byte_at_drop, byte_at_splice by lia. rewrite decide_False by lia. apply T1. lia.
  - right. change (ic_wme (flag_off n1 _)) with (ic_wme n1). fold w. unfold trailer_of. cbn [m_cluster set_cluster]. fold c.
    rewrite <- (S1 (bo_trailer bo) (bo_trailer_len bo)) by lia. list_solve.
Qed.

Lemma beacon_update_map off len :
  pending_ok n -> has_flag (ic_flags (n_ic n)) IEEE80211_F_TIMUPDATE = true -> tim_window n = Ok (off, len) -> window (ic_tim_bitmap n) off len ->
  let c := negb (Nat.eqb len (bo_tim_len bo)) in
  exists bo' m' n', ieee80211_beacon_update n id bo m mcast = Ok (c, bo', m', n') /\ bcn_ok n' bo' m' /\
    n_nodes n' = n_nodes n /\ has_flag (ic_flags (n_ic n')) IEEE80211_F_TIMUPDATE = false /\
    byte_at (tim_at bo' m') tim_len = 3 + Z.of_nat len /\
    Z.land (byte_at (tim_at bo' m') tim_bitctl) 0xfe = (if c then Z.of_nat off else Z.land (byte_at (tim_at bo m) tim_bitctl) 0xfe) /\
    (forall i, (i < len)%nat -> byte_at (tim_at bo' m') (tim_bitmap + i) = byte_at (ic_tim_bitmap n) (off + i)) /\
    (trailer_of bo' m' = trailer_of bo m \/ trailer_of bo' m' = splice 0 (ieee80211_add_wme_param (ic_wme n')) (trailer_of bo m)) /\
    alike n n'.
Proof.
  intros P Ht Ew Hw c. destruct update_front as (m1 & n1 & E1 & [C1 C2 C3 C4 C5] & W1 & K1 & T1 & R1).
  unfold ieee80211_beacon_update. rewrite (node_at_Some _ _ _ Hni). cbn [res_bind].
  destruct (poke m (bo_caps bo) _) as [m0|]; [|done]. cbn [res_bind] in E1 |- *. rewrite E1. cbn [res_bind]. clear E1 m0.
  injection C2 as C2 C2'. injection C3 as C3 C3'. rewrite C3, Hap. cbn [Z.eqb Pos.eqb IEEE80211_M_HOSTAP]. rewrite C4, Ht.
  assert (tim_window n1 = Ok (off, len)) as Ew1 by (unfold tim_window; rewrite C2, C2'; exact Ew).
  assert (window (ic_tim_bitmap n1) off len) as Hw1 by by rewrite C2.
  destruct (tim_rewrite_ok n1 bo m1 off len Ew1 Hw1 K1) as (bo2 & m2 & -> & L2 & [= F1 F2 F3 F4] & F5 & F6 & F7 & _ & F8 & F9 & _ & _ & F10). fold c. cbn [res_bind].
  pose proof K1 as [B1 B2 B3 B4 B5 B6 B7]. pose proof Hw1 as [We Wl Wi Wo Wz]. assert (tim_bitmap = 5%nat) as E5 by done.
  destruct (countdown_ok bo2 m2 mcast) as (m3 & -> & L3 & _ & G2 & G3 & G4); [rewrite F2, L2; lia|]. cbn [res_bind].
  exists bo2, m3, (flag_off n1 IEEE80211_F_TIMUPDATE). split; [done|].
  assert (byte_at (tim_at bo2 m3) tim_len = 3 + Z.of_nat len) as Hl by (rewrite G3 by done; exact F8).
  assert (trailer_of bo2 m3 = trailer_of bo m1) as Htr by (rewrite <- F7; apply G4; rewrite F2, F5; lia).
  split; [|split_and!; [exact C1|apply flag_cleared|exact Hl| | |by rewrite Htr|]].
  - split; [lia|rewrite F2, F3; exact F5|rewrite F3; change (ic_tim_bitmap (flag_off n1 _)) with (ic_tim_bitmap n1); lia|exact B4|by rewrite Hl, F3
      |rewrite L3, L2, F2, F4; exact B6|].
    change (has_flag (Z.land (ic_flags (n_ic n1)) (Z.lnot IEEE80211_F_TIMUPDATE)) IEEE80211_F_WME = true -> bo_wme bo2 = bo_trailer bo2 /\
      (Z.to_nat sizeof_wme_param <= bo_trailer_len bo2)%nat).
    rewrite flag_clear_other by done. intros Hf. destruct (B7 Hf) as [B8 B9]. rewrite F4. split; [|done]. rewrite F6. subst c.
    destruct (Nat.eqb_spec len (bo_tim_len bo)); cbn [negb]; [|done]. rewrite F5, B8, B2. lia.
  - rewrite G2, next_ctl_first, F9. subst c. destruct (Nat.eqb len (bo_tim_len bo)); cbn [negb]; [rewrite T1 by (unfold tim_bitctl; lia); done|].
    rewrite <- (Nat2Z.id off) at 1. change 0xfe with (Z.land 0xff (Z.lnot 1)).
    apply Nat.even_spec in We as [h ->]. change (Z.lnot 1) with (Z.lnot (Z.ones 1)).
    rewrite Z.land_assoc. change 0xff with (Z.ones 8). rewrite Z.land_ones, Z.mod_small by lia. rewrite <- Z.ldiff_land, Z.ldiff_ones_r by lia.
    rewrite Z.shiftl_mul_pow2, Z.shiftr_div_pow2 by lia. change (2 ^ 1) with 2. rewrite Nat2Z.inj_mul, Z2Nat.id by lia. change (Z.of_nat 2) with 2.
    rewrite (Z.mul_comm 2), Z.div_mul by lia. lia.
  - intros i Hi. rewrite G3 by (unfold tim_count, tim_bitctl; lia). rewrite F10 by done. by rewrite C2.
  - split; [by change (length (ic_tim_bitmap n1) = length (ic_tim_bitmap n)); rewrite C2|]. rewrite <- C5. by apply flag_clear_other.
Qed.
(** With no change of the map due, only the front and the countdown change. *)
Lemma beacon_update_rest : has_flag (ic_flags (n_ic n)) IEEE80211_F_TIMUPDATE = false ->
  exists m' n', ieee80211_beacon_update n id bo m mcast = Ok (false, bo, m', n') /\ bcn_ok n' bo m' /\ alike n n' /\
    (forall i, (i < tim_bitmap + bo_tim_len bo)%nat -> i <> tim_count -> i <> tim_bitctl -> byte_at (tim_at bo m') i = byte_at (tim_at bo m) i).
Proof.
  intros Ht. destruct update_front as (m1 & n1 & E1 & [C1 [= C2 C2'] [= C3 C3'] C4 C5] & W1 & K1 & T1 & R1).
  unfold ieee80211_beacon_update. rewrite (node_at_Some _ _ _ Hni). cbn [res_bind].
  destruct (poke m (bo_caps bo) _) as [m0|]; [|done]. cbn [res_bind] in E1 |- *. rewrite E1. cbn [res_bind]. clear E1 m0.
  rewrite C3, Hap. cbn [Z.eqb Pos.eqb IEEE80211_M_HOSTAP]. rewrite C4, Ht. cbn [res_bind].
  pose proof K1 as [B1 B2 B3 B4 B5 B6 B7]. destruct (countdown_ok bo m1 mcast) as (m3 & -> & L3 & _ & _ & G3 & G4); [lia|]. cbn [res_bind].
  exists m3, n1. split; [done|]. split; [|split; [split; [by rewrite C2|done]|]].
  - split; try done; [rewrite G3 by done; exact B5|by rewrite L3].
  - intros i Hi H2 H4. rewrite G3 by done. by apply T1.
Qed.
End Update.

(** ** What a station learns *)

Lemma says_window ie l first off len aid :
  Z.land (byte_at ie tim_bitctl) 0xfe = first -> byte_at ie tim_len = 3 + Z.of_nat len ->
  (forall i, (i < len)%nat -> byte_at ie (tim_bitmap + i) = byte_at l (off + i)) ->
  let o := aid / 8 - first in
  tim_says ie aid = (0 <=? o) && (o <? Z.of_nat len) && Z.testbit (byte_at l (off + Z.to_nat o)) (aid mod 8).
Proof.
  intros Hf Hl Hb o. unfold tim_says. rewrite Hf, Hl. fold o. replace (3 + Z.of_nat len - 3) with (Z.of_nat len) by lia.
  destruct (Z.leb_spec 0 o); [|done]. destruct (Z.ltb_spec o (Z.of_nat len)); [|done]. cbn [andb]. rewrite Hb by lia. done.
Qed.
(** The right window tells what the whole map does. *)
Lemma window_says n ie off len aid : window (ic_tim_bitmap n) off len -> 0 <= aid ->
  Z.land (byte_at ie tim_bitctl) 0xfe = Z.of_nat off -> byte_at ie tim_len = 3 + Z.of_nat len ->
  (forall i, (i < len)%nat -> byte_at ie (tim_bitmap + i) = byte_at (ic_tim_bitmap n) (off + i)) ->
  tim_says ie aid = tim_bit n aid.
Proof.
  intros [We Wl Wi Wo Wz] Ha Hf Hl Hb. rewrite (says_window _ _ _ off len aid Hf Hl Hb). cbn zeta. unfold tim_bit.
  pose proof (Z.div_pos aid 8 Ha ltac:(lia)) as Hd.
  destruct (Z.leb_spec 0 (aid / 8 - Z.of_nat off)) as [H0|H0]; [destruct (Z.ltb_spec (aid / 8 - Z.of_nat off) (Z.of_nat len)) as [H1|H1]|]; cbn [andb].
  - replace (off + Z.to_nat (aid / 8 - Z.of_nat off))%nat with (Z.to_nat (aid / 8)) by lia. rewrite lookup_byte_at by lia. done.
  - destruct (ic_tim_bitmap n !! Z.to_nat (aid / 8)) as [b|] eqn:E; [|done]. rewrite (Wz _ b) with (2 := E) by lia. symmetry. apply Z.bits_0.
  - destruct (ic_tim_bitmap n !! Z.to_nat (aid / 8)) as [b|] eqn:E; [|done]. rewrite (Wz _ b) with (2 := E) by lia. symmetry. apply Z.bits_0.
Qed.

(** C7. An access point whose traffic indication map is due updates its
    beacon in place: the update stays inside the frame, and the partial map it
    leaves tells every associated station exactly whether frames are waiting
    for it.  The elements behind the map are kept, at most with new WME
    parameters at their front.  The map must have changed its length, or the
    first byte it covers must be the one the beacon already says. *)
Theorem beacon_tells_sleepers n id ni bo m mcast :
  n_nodes n !! id = Some ni -> ic_opmode n = IEEE80211_M_HOSTAP -> 0 <= ic_curmode n < 7 -> wme_ok (ic_wme n) ->
  in_sync n -> bcn_ok n bo m -> has_flag (ic_flags (n_ic n)) IEEE80211_F_TIMUPDATE = true ->
  (forall off len, tim_window n = Ok (off, len) ->
     len <> bo_tim_len bo \/ Z.land (byte_at (tim_at bo m) tim_bitctl) 0xfe = Z.of_nat off) ->
  exists changed bo' m' n', ieee80211_beacon_update n id bo m mcast = Ok (changed, bo', m', n') /\ bcn_ok n' bo' m' /\
    n_nodes n' = n_nodes n /\ has_flag (ic_flags (n_ic n')) IEEE80211_F_TIMUPDATE = false /\
    (forall j nj, n_nodes n !! j = Some nj -> aid_of nj <> 0 ->
       tim_says (tim_at bo' m') (aid_of nj) = negb (bool_decide (ni_savedq nj = []))) /\
    (trailer_of bo' m' = trailer_of bo m \/ trailer_of bo' m' = splice 0 (ieee80211_add_wme_param (ic_wme n')) (trailer_of bo m)).
Proof.
  intros Hni Hap Hcm Hw S K Ht Hoff. pose proof (sy_pending _ S) as P.
  destruct (tim_window_ok n P) as (off & len & Ew & W & _); [pose proof (bk_map _ _ _ K); pose proof (bk_small _ _ _ K); lia|].
  destruct (beacon_update_map n id ni bo m mcast Hni Hap Hcm Hw K off len P Ht Ew W) as (bo' & m' & n' & E & K' & Hn & Hf & Hl & Hc & Hb & Hr & _).
  eexists _, bo', m', n'. split_and!; [exact E|done|done|done| |done]. intros j nj Ej Ha. rewrite <- (sy_bits _ S j nj Ej Ha).
  apply (window_says n _ off len); [done|by apply AID_range, (sy_aid _ S j)| |done|done]. rewrite Hc.
  destruct (Nat.eqb_spec len (bo_tim_len bo)) as [El|El]; cbn [negb]; [|done]. by destruct (Hoff off len Ew).
Qed.

Lemma some_bit b : is_u8 b -> b <> 0 -> exists k, 0 <= k < 8 /\ Z.testbit b k = true.
Proof.
  intros Hb Hn. exists (Z.log2 b). unfold is_u8, is_u in Hb. pose proof (Z.log2_lt_pow2 b 8 ltac:(lia)).
  pose proof (Z.log2_nonneg b). split; [lia|]. apply Z.bit_log2. lia.
Qed.

(** C37. When the map is due and covers as many bytes as before but from
    another place, the update leaves the old place in the control byte, and
    some station with frames waiting is not told. *)
Theorem stale_offset_hides_station n id ni bo m mcast off :
  n_nodes n !! id = Some ni -> ic_opmode n = IEEE80211_M_HOSTAP -> 0 <= ic_curmode n < 7 -> wme_ok (ic_wme n) ->
  pending_ok n -> ic_ps_pending n <> 0 -> bcn_ok n bo m -> has_flag (ic_flags (n_ic n)) IEEE80211_F_TIMUPDATE = true ->
  tim_window n = Ok (off, bo_tim_len bo) -> Z.land (byte_at (tim_at bo m) tim_bitctl) 0xfe <> Z.of_nat off ->
  exists bo' m' n' aid, ieee80211_beacon_update n id bo m mcast = Ok (false, bo', m', n') /\
    tim_bit n aid = true /\ tim_says (tim_at bo' m') aid = false.
Proof.
  intros Hni Hap Hcm Hw P Hp K Ht Ew Hoff. set (len := bo_tim_len bo) in *.
  destruct (tim_window_ok n P) as (off1 & len1 & Ew1 & W & Hs); [pose proof (bk_map _ _ _ K); pose proof (bk_small _ _ _ K); lia|].
  rewrite Ew in Ew1. injection Ew1 as <- <-. destruct (Hs Hp) as [(f & x & Hf & Ex & Hx) (y & Ey & Hy)].
  destruct (beacon_update_map n id ni bo m mcast Hni Hap Hcm Hw K off len P Ht Ew W) as (bo' & m' & n' & E & _ & _ & _ & Hl & Hc & Hb & _).
  unfold len in E at 1, Hc at 1. rewrite Nat.eqb_refl in E, Hc. cbn [negb] in E, Hc. set (old := Z.land (byte_at (tim_at bo m) tim_bitctl) 0xfe) in *.
  exists bo', m', n'. destruct W as [We Wl Wi Wo Wz].
  assert (forall i b k, ic_tim_bitmap n !! i = Some b -> 0 <= k < 8 -> Z.testbit b k = true ->
    (Z.of_nat i < old \/ old + Z.of_nat len <= Z.of_nat i) -> tim_bit n (8 * Z.of_nat i + k) = true /\ tim_says (tim_at bo' m') (8 * Z.of_nat i + k) = false) as G.
  { intros i b k Ei Hk Hbit Ho. unfold tim_bit. rewrite (says_window _ _ _ off len _ Hc Hl Hb).
    rewrite (Z.mul_comm 8), Z.div_add_l, (Z.div_small k), Z.add_0_r, Nat2Z.id, Ei by lia.
    rewrite (Z.add_comm _ k), Z.mod_add, Z.mod_small by lia. split; [done|].
    destruct Ho; [rewrite (proj2 (Z.leb_gt 0 _)) by lia; done|]. rewrite (proj2 (Z.ltb_ge (Z.of_nat i - old) _)) by lia. by rewrite andb_false_r. }
  destruct (decide (old < Z.of_nat off)) as [Hlt|Hge].
  - destruct (some_bit y (bytes_lookup _ _ _ (proj1 P) Ey) Hy) as (k & Hk & Hbit). destruct (G _ y k Ey Hk Hbit) as [G1 G2]; [right; lia|]. by eexists.
  - destruct (some_bit x (bytes_lookup _ _ _ (proj1 P) Ex) Hx) as (k & Hk & Hbit). destruct (G _ x k Ex Hk Hbit) as [G1 G2]; [left|by eexists].
    assert (old mod 2 = 0) as He.
    { subst old. change 0xfe with (Z.shiftl 0x7f 1). rewrite <- Z.bit0_mod, Z.land_spec, Z.shiftl_spec_low by lia. by rewrite andb_false_r. }
    apply Nat.even_spec in We as [h Eh]. pose proof (Z.div_mod old 2 ltac:(lia)). lia.
Qed.

(** ** A fresh beacon *)

(** A beacon has room for the elements the flags ask for. *)
Definition beacon_caps (n : net) : Prop :=
  (has_flag (ic_flags (n_ic n)) IEEE80211_F_WME = true -> has_flag (ic_caps (n_ic n)) IEEE80211_C_WME = true) /\
  (has_flag (ic_flags (n_ic n)) IEEE80211_F_WPA = true -> has_flag (ic_caps (n_ic n)) IEEE80211_C_WPA = true).

Lemma beacon_trailer_ok n ni : net_fit n -> node_fit ni -> beacon_caps n ->
  exists t, beacon_trailer n ni = Ok t /\
    (has_flag (ic_flags (n_ic n)) IEEE80211_F_WME = true -> (Z.to_nat sizeof_wme_param <= length t)%nat) /\
    (length t <= 3 + XRATES_ROOM + (if has_flag (ic_caps (n_ic n)) IEEE80211_C_WME then Z.to_nat sizeof_wme_param else 0) +
      (if has_flag (ic_caps (n_ic n)) IEEE80211_C_WPA then 2 * sizeof_ie_wpa_n else 0))%nat.
Proof.
  intros F N [C1 C2]. unfold beacon_trailer. destruct (nt_wpa _ F) as [w Ew]. rewrite Ew. cbn [res_bind]. eexists. split; [done|].
  apply wpa_ie_length in Ew. unfold wpa_room in Ew. pose proof (add_xrates_length _ (nf_rates _ N)).
  pose proof (erp_ie_length n). unfold wme_param_ie.
  pose proof (wme_param_length _ (nt_wme _ F)) as Lw. rewrite !length_app. split.
  - intros Hf. rewrite Hf. lia.
  - destruct (has_flag _ IEEE80211_F_WME); [rewrite C1 by done|cbn [length]]; (destruct (has_flag _ IEEE80211_F_WPA); [rewrite C2 by done|]); lia.
Qed.
Lemma beacon_head_length n ni : node_fit ni -> (10 <= length (beacon_head n ni) - 2 /\ length (beacon_head n ni) <= 8 + 2 + 2 + (2 + length (ni_essid ni)) + (2 + IEEE80211_RATE_SIZE) + (2 + 1))%nat.
Proof.
  intros N. unfold beacon_head, beacon_ssid, ieee80211_add_ssid. rewrite !length_app, !le16enc_length, add_rates_length, length_replicate.
  unfold IEEE80211_RATE_SIZE. repeat case_match; cbn [app length]; lia.
Qed.

(** The room asked for holds the frame with the longest map, in one cluster. *)
Lemma beacon_room_ok n ni (t : list Z) : node_fit ni -> (1 <= length (ic_tim_bitmap n) <= 128)%nat ->
  (length t <= 3 + XRATES_ROOM + (if has_flag (ic_caps (n_ic n)) IEEE80211_C_WME then Z.to_nat sizeof_wme_param else 0) +
      (if has_flag (ic_caps (n_ic n)) IEEE80211_C_WPA then 2 * sizeof_ie_wpa_n else 0))%nat ->
  (length (beacon_head n ni) + 6 + length t + length (ic_tim_bitmap n) <= beacon_room n ni)%nat /\
  (roundup4 (sizeof_frame + beacon_room n ni) <= MCLBYTES)%nat.
Proof.
  intros N L Lt. pose proof (beacon_head_length n ni N) as [_ Lh]. pose proof (nf_essid _ N) as Le. unfold IEEE80211_NWID_LEN in Le.
  split; [unfold beacon_room; lia|]. etrans; [apply (roundup4_mono _ (sizeof_frame + 500))|apply Nat.leb_le; by vm_compute].
  apply Nat.add_le_mono_l. unfold beacon_room, XRATES_ROOM, IEEE80211_RATE_SIZE. change (Z.to_nat IEEE80211_RATE_MAXSIZE - 8)%nat with 7%nat.
  assert (Z.to_nat sizeof_wme_param <= 40 /\ sizeof_ie_wpa_n <= 100)%nat as [A B] by (split; apply Nat.leb_le; done).
  clear -L Le A B. destruct (has_flag _ IEEE80211_C_WME), (has_flag _ IEEE80211_C_WPA); lia.
Qed.
(** A map of one zero byte announces nobody. *)
Lemma tim_silent tim aid : byte_at tim tim_len = 4 -> byte_at tim tim_bitctl = 0 -> byte_at tim tim_bitmap = 0 -> tim_says tim aid = false.
Proof.
  intros E1 E2 E3. unfold tim_says. rewrite E1, E2. change (Z.land 0 0xfe) with 0.
  destruct (Z.leb_spec 0 (aid / 8 - 0)) as [H0|]; [|done]. destruct (Z.ltb_spec (aid / 8 - 0) (4 - 3)) as [H1|]; [|done].
  replace (aid / 8 - 0) with 0 by lia. cbn [Z.to_nat andb]. rewrite Nat.add_0_r, E3. apply Z.bits_0.
Qed.

Lemma beacon_alloc_ok n id ni bo0 :
  n_nodes n !! id = Some ni -> net_fit n -> length (if_broadcastaddr n) = 6%nat -> ic_opmode n = IEEE80211_M_HOSTAP -> beacon_caps n ->
  (1 <= length (ic_tim_bitmap n) <= 128)%nat ->
  match m_get_impl (n_heap n) MT_HEADER true with
  | (None, _) => exists n', ieee80211_beacon_alloc n id bo0 = Ok (None, n')
  | (Some _, _) => exists m bo n', ieee80211_beacon_alloc n id bo0 = Ok (Some (m, bo), n') /\
      (forall k, alike n k -> bcn_ok k bo m) /\
      (forall aid, tim_says (tim_at bo m) aid = false) /\
      exists t, beacon_trailer n ni = Ok t /\ mdata m = beacon_header n ni ++ beacon_head n ni ++ beacon_tim n ++ t
  end.
Proof.
  intros E F Hb Hap C L. pose proof (nt_nodes _ F _ _ E) as N. destruct (beacon_trailer_ok n ni F N C) as (t & Et & Lw & Lt).
  unfold ieee80211_beacon_alloc. rewrite (node_at_Some _ _ _ E). cbn [res_bind].
  pose proof (beacon_head_length n ni N) as [Lh1 Lh2]. assert (length (beacon_tim n) = 6%nat) as Ltim by (unfold beacon_tim; by rewrite Hap).
  destruct (beacon_room_ok n ni t N L Lt) as [Hroom Hr].
  pose proof (getmgtframe_ok (n_heap n) _ Hr) as G. destruct (m_get_impl (n_heap n) MT_HEADER true) as [[m0|] h]; [|rewrite G; by eexists].
  destruct G as (m & -> & Dm & Cm & Pm & _). cbn [res_bind].
  change (beacon_trailer (set_heap n h) ni) with (beacon_trailer n ni). change (beacon_head (set_heap n h) ni) with (beacon_head n ni).
  change (beacon_tim (set_heap n h)) with (beacon_tim n). rewrite Et. cbn [res_bind].
  set (head := beacon_head n ni) in *. set (tim := beacon_tim n) in *. set (body := head ++ tim ++ t).
  assert (length body = length head + 6 + length t)%nat as Lb by (unfold body; rewrite !length_app; lia).
  assert (m_data m + length body + length (ic_tim_bitmap n) <= length (m_cluster m))%nat as Lm.
  { rewrite Dm, Cm, Lb. pose proof (roundup4_le (sizeof_frame + beacon_room n ni)). unfold cluster_size, MCLBYTES, MH_ALIGN, sizeof_frame in *. lia. }
  rewrite fill_frame_ok by lia. cbn [res_bind].
  rewrite m_prepend_here by (done || (cbn [m_data set_ph_len set_hdr set_window]; rewrite Dm; unfold sizeof_frame; lia)).
  match goal with |- context [beacon_header ?k ni] => assert (beacon_header k ni = beacon_header n ni) as -> by by destruct (has_flag _ IEEE80211_F_WME) end.
  assert (length (beacon_header n ni) = 24%nat) as Lhd.
  { unfold beacon_header. rewrite !length_app, Hb, (nt_addr _ F), (proj2 (nf_addr _ N)). done. }
  eexists _, _, _. split; [done|]. change (ic_opmode (set_heap n h)) with (ic_opmode n). rewrite Hap. cbn [Z.eqb IEEE80211_M_HOSTAP IEEE80211_M_IBSS].
  change (ic_flags (n_ic (set_heap n h))) with (ic_flags (n_ic n)). set (c := splice (m_data m) body (m_cluster m)).
  assert (length c = length (m_cluster m)) as Lc by (apply length_splice; lia).
  set (hd := beacon_header n ni) in *. set (d := m_data m) in *. assert (tim_bitmap = 5%nat) as E5 by done.
  assert (24 <= d)%nat as Hd24 by (rewrite Dm; unfold sizeof_frame; lia).
  assert (forall i, (d <= i < d + length body)%nat -> byte_at (splice (d - sizeof_frame) hd c) i = byte_at body (i - d)) as Hbyte.
  { intros i Hi. rewrite byte_at_splice by (rewrite Lhd, Lc; unfold sizeof_frame; lia). rewrite decide_False by (rewrite Lhd; unfold sizeof_frame; lia).
    subst c. rewrite byte_at_splice by lia. by rewrite decide_True by lia. }
  assert (forall i, (i < 6)%nat -> byte_at (drop (d + length head) (splice (d - sizeof_frame) hd c)) i = byte_at tim i) as Ht.
  { intros i Hi. rewrite byte_at_drop, Hbyte by lia. unfold body, byte_at. rewrite app_nth2, app_nth1 by lia. f_equal. lia. }
  assert (tim = [IEEE80211_ELEMID_TIM; 4; 0; ic_dtim_period (ic_conf n); 0; 0]) as Etim by (unfold tim, beacon_tim; by rewrite Hap).
  split_and!.
  - intros k [Lk Fk]. split; cbn [bo_caps bo_tim bo_trailer bo_tim_len bo_trailer_len bo_wme m_cluster mstore set_cluster]; try lia.
    + fold d. unfold tim_at. cbn [bo_tim m_cluster mstore set_cluster set_ph_len set_hdr set_window m_data]. fold d. rewrite !Nat.add_0_r.
      fold c. rewrite Ht by (unfold tim_len; lia). by rewrite Etim.
    + cbn [m_data set_ph_len set_hdr set_window m_cluster mstore set_cluster]. fold d. rewrite !Nat.add_0_r. fold c.
      rewrite length_splice by (rewrite Lhd, Lc; unfold sizeof_frame; lia). rewrite Lc. lia.
    + rewrite Fk. intros Hw. rewrite Hw. split; [done|]. by apply Lw.
  - intros aid. apply tim_silent; unfold tim_at; cbn [bo_tim m_cluster mstore set_cluster set_ph_len set_hdr set_window m_data]; fold d;
      rewrite !Nat.add_0_r; fold c; rewrite Ht by (apply Nat.ltb_lt; done); by rewrite Etim.
  - exists t. split; [done|]. unfold mdata. cbn [m_data m_len m_cluster mstore set_cluster set_ph_len set_hdr set_window]. fold d. rewrite !Nat.add_0_r. fold c body.
    change (sizeof_frame) with 24%nat. rewrite <- Lhd. apply (framed_content m (d - length hd) body hd); [rewrite Lhd; fold d; lia|lia].
Qed.

(** ** Beacons over time *)

(** The state of the interface at each beacon, and whether multicast frames
    wait. *)
Definition beat : Type := net * nat * bool.
Fixpoint beacon_beats (bo : ieee80211_beacon_offsets) (m : mbuf) (l : list beat) : res (ieee80211_beacon_offsets * mbuf) :=
  match l with
  | [] => Ok (bo, m)
  | (n, id, mcast) :: l => let* (_, bo, m, _) := ieee80211_beacon_update n id bo m mcast in beacon_beats bo m l
  end.
(** An access point like the one the beacon was made for. *)
Record beat_ok (n0 : net) (b : beat) : Prop := mkBeatOk {
  bt_node : is_Some (n_nodes b.1.1 !! b.1.2);
  bt_mode : ic_opmode b.1.1 = IEEE80211_M_HOSTAP /\ 0 <= ic_curmode b.1.1 < 7;
  bt_wme : wme_ok (ic_wme b.1.1);
  bt_pending : pending_ok b.1.1;
  bt_alike : alike n0 b.1.1;
}.

Lemma beacon_update_safe n0 n id bo m mcast : beat_ok n0 (n, id, mcast) -> bcn_ok n0 bo m ->
  exists c bo' m' n', ieee80211_beacon_update n id bo m mcast = Ok (c, bo', m', n') /\ bcn_ok n0 bo' m'.
Proof.
  intros [[ni E] [Ho Hm] W P A] K. cbn in *. apply (bcn_ok_alike _ _ _ _ A) in K.
  assert (forall n', alike n n' -> forall bo m, bcn_ok n' bo m -> bcn_ok n0 bo m) as Hback.
  { intros n' [A1 A2] bo' m'. apply bcn_ok_alike. destruct A as [A3 A4]. split; congruence. }
  destruct (has_flag (ic_flags (n_ic n)) IEEE80211_F_TIMUPDATE) eqn:Ht.
  - destruct (tim_window_ok n P) as (off & len & Ew & Hw & _); [pose proof (bk_map _ _ _ K); pose proof (bk_small _ _ _ K); lia|].
    destruct (beacon_update_map n id ni bo m mcast E Ho Hm W K off len P Ht Ew Hw) as (bo' & m' & n' & Eu & K' & _ & _ & _ & _ & _ & _ & A').
    eexists _, _, _, _. split; [exact Eu|]. by apply (Hback n').
  - destruct (beacon_update_rest n id ni bo m mcast E Ho Hm W K Ht) as (m' & n' & Eu & K' & A' & _).
    eexists _, _, _, _. split; [exact Eu|]. by apply (Hback n').
Qed.
Lemma beats_safe n0 bo m l : bcn_ok n0 bo m -> Forall (beat_ok n0) l -> exists bo' m', beacon_beats bo m l = Ok (bo', m') /\ bcn_ok n0 bo' m'.
Proof.
  intros K H. revert bo m K. induction H as [|[[n id] mcast] l Hb _ IH]; intros bo m K; [by exists bo, m|].
  cbn [beacon_beats]. destruct (beacon_update_safe n0 n id bo m mcast Hb K) as (c & bo1 & m1 & n1 & -> & K1). cbn [res_bind]. by apply IH.
Qed.

(** C8. A beacon that could be allocated announces no station, and every
    sequence of updates of it, at whatever states of the access point, stays
    inside its mbuf and raises no assertion: there is room for the longest map
    and for all that follows it. *)
Theorem beacon_stays_in_frame n id ni bo0 beats :
  n_nodes n !! id = Some ni -> net_fit n -> length (if_broadcastaddr n) = 6%nat -> ic_opmode n = IEEE80211_M_HOSTAP -> beacon_caps n ->
  (1 <= length (ic_tim_bitmap n) <= 128)%nat -> (m_get_impl (n_heap n) MT_HEADER true).1 <> None -> Forall (beat_ok n) beats ->
  exists m bo n' bo' m', ieee80211_beacon_alloc n id bo0 = Ok (Some (m, bo), n') /\ (forall aid, tim_says (tim_at bo m) aid = false) /\
    beacon_beats bo m beats = Ok (bo', m') /\ bcn_ok n bo' m'.
Proof.
  intros E F Hb Ho C L Hm Hl. pose proof (beacon_alloc_ok n id ni bo0 E F Hb Ho C L) as H.
  destruct (m_get_impl (n_heap n) MT_HEADER true) as [[m0|] h]; [|done]. destruct H as (m & bo & n' & Ea & K & Hs & _).
  destruct (beats_safe n bo m beats) as (bo' & m' & Eb & K'); [by apply K|done|]. by exists m, bo, n', bo', m'.
Qed.

(** ** Examples *)

(** An access point with one station asleep, under some association id, and one
    frame waiting for it. *)
Definition dozing_ap (associd : Z) : net := upd (set_heap sleeper_ap (mkHeap [Some []] 0)) 1%nat (fun ni => set_associd ni associd).
Definition napping_ap (associd : Z) : net :=
  match ps_run (fun _ _ => true) (dozing_ap associd) 1%nat [Ps_save (one_mbuf [1])] with Ok n => n | Fault _ => sleeper_ap end.
Definition bss_of (n : net) : ieee80211_node := default zero_node (n_nodes n !! 0%nat).
Definition no_offsets : ieee80211_beacon_offsets := mkBo 0 0 0 0 0 0.
(** Its beacon, made before the frame came. *)
Definition beacon_of (n : net) : mbuf * ieee80211_beacon_offsets :=
  match ieee80211_beacon_alloc n 0%nat no_offsets with Ok (Some r, _) => r | _ => (mkMbuf 0 0 0 0 (mkPkthdr 0 0 0 0 0) [], no_offsets) end.

Lemma dozing_fit a : net_fit (dozing_ap a).
Proof.
  split; [|by eexists _, _; split; vm_compute|done|done|by apply Nat.leb_le|by eexists].
  assert (map_Forall (fun _ ni => node_fit ni) (n_nodes (dozing_ap a))) as H; [|exact H].
  rewrite map_Forall_to_list. let l := eval vm_compute in (map_to_list (n_nodes (dozing_ap a))) in change (map_to_list (n_nodes (dozing_ap a))) with l.
  repeat constructor; done.
Qed.
Lemma fresh_beacon_ok a : exists n', ieee80211_beacon_alloc (dozing_ap a) 0%nat no_offsets = Ok (Some (beacon_of (dozing_ap a)), n') /\
  forall k, alike (dozing_ap a) k -> bcn_ok k (beacon_of (dozing_ap a)).2 (beacon_of (dozing_ap a)).1.
Proof.
  pose proof (beacon_alloc_ok (dozing_ap a) 0%nat (bss_of (dozing_ap a)) no_offsets ltac:(by vm_compute) (dozing_fit a) eq_refl eq_refl
    ltac:(split; by vm_compute) ltac:(vm_compute; lia)) as H.
  change (m_get_impl (n_heap (dozing_ap a)) MT_HEADER true) with (m_get_impl (mkHeap [Some []] 0) MT_HEADER true) in H.
  change (m_get_impl (mkHeap [Some []] 0) MT_HEADER true)
    with (Some (mkMbuf (Z.lor M_PKTHDR M_EXT) MH_ALIGN 0 MT_HEADER (mkPkthdr 0 0 0 0 0) (fresh_cluster [])), mkHeap [] 1) in H.
  destruct H as (m & bo & n' & E & K & _). unfold beacon_of. rewrite E. exists n'. split; [reflexivity|exact K].
Qed.

(** Association id 1: the first byte of the map. *)
Lemma napping_sync : in_sync (napping_ap 0xc001).
Proof.
  assert (dom (n_nodes (napping_ap 0xc001)) = {[0%nat; 1%nat]}) as D by (vm_compute; reflexivity).
  assert (forall j ni, n_nodes (napping_ap 0xc001) !! j = Some ni -> j = 0%nat \/ j = 1%nat) as Ids.
  { intros j ni H%elem_of_dom_2. rewrite D in H. by rewrite elem_of_union, !elem_of_singleton in H. }
  split; [| | |split; [vm_compute; repeat constructor; done|vm_compute; reflexivity]].
  - intros i j ni nj Ei Ej. destruct (Ids i ni Ei) as [-> | ->], (Ids j nj Ej) as [-> | ->];
      first [intros _ _; exact eq_refl|vm_compute in Ei, Ej; injection Ei as <-; injection Ej as <-; vm_compute; done].
  - intros j ni E. destruct (Ids j ni E) as [-> | ->]; vm_compute in E; injection E as <-; vm_compute; done.
  - intros j ni E. destruct (Ids j ni E) as [-> | ->]; vm_compute in E; injection E as <-; vm_compute; done.
Qed.
Lemma beacon_tells_sleepers_witness :
  exists changed bo' m' n', ieee80211_beacon_update (napping_ap 0xc001) 0%nat (beacon_of (dozing_ap 0xc001)).2 (beacon_of (dozing_ap 0xc001)).1 true =
      Ok (changed, bo', m', n') /\ tim_says (tim_at bo' m') 1 = true.
Proof.
  destruct (fresh_beacon_ok 0xc001) as (k & _ & K).
  destruct (beacon_tells_sleepers (napping_ap 0xc001) 0%nat (bss_of (napping_ap 0xc001)) (beacon_of (dozing_ap 0xc001)).2 (beacon_of (dozing_ap 0xc001)).1 true)
    as (c & bo' & m' & n' & E & _ & _ & _ & H & _);
    [by vm_compute|by vm_compute|by vm_compute|exact idle_wme_ok|exact napping_sync|apply K; split; by vm_compute|by vm_compute| |].
  - intros off len Ew. right. vm_compute in Ew. injection Ew as <- <-. by vm_compute.
  - exists c, bo', m', n'. split; [exact E|]. exact (H 1%nat (default zero_node (n_nodes (napping_ap 0xc001) !! 1%nat)) ltac:(by vm_compute) ltac:(by vm_compute)).
Defined.

(** Association id 16: the third byte, alone. *)
Lemma stale_offset_hides_station_witness :
  exists bo' m' n' aid, ieee80211_beacon_update (napping_ap 0xc010) 0%nat (beacon_of (dozing_ap 0xc010)).2 (beacon_of (dozing_ap 0xc010)).1 true =
      Ok (false, bo', m', n') /\ tim_bit (napping_ap 0xc010) aid = true /\ tim_says (tim_at bo' m') aid = false.
Proof.
  destruct (fresh_beacon_ok 0xc010) as (k & _ & K).
  apply (stale_offset_hides_station (napping_ap 0xc010) 0%nat (bss_of (napping_ap 0xc010)) (beacon_of (dozing_ap 0xc010)).2 (beacon_of (dozing_ap 0xc010)).1 true 2%nat);
    [by vm_compute|by vm_compute|by vm_compute|exact idle_wme_ok|split; [vm_compute; repeat constructor; done|vm_compute; reflexivity]
    |by vm_compute|apply K; split; by vm_compute|by vm_compute|by vm_compute|by vm_compute].
Defined.

Lemma beacon_stays_in_frame_witness :
  exists m bo n' bo' m', ieee80211_beacon_alloc (dozing_ap 0xc001) 0%nat no_offsets = Ok (Some (m, bo), n') /\ (forall aid, tim_says (tim_at bo m) aid = false) /\
    beacon_beats bo m [(napping_ap 0xc001, 0%nat, true); (dozing_ap 0xc001, 0%nat, false)] = Ok (bo', m') /\ bcn_ok (dozing_ap 0xc001) bo' m'.
Proof.
  apply (beacon_stays_in_frame (dozing_ap 0xc001) 0%nat (bss_of (dozing_ap 0xc001)) no_offsets [(napping_ap 0xc001, 0%nat, true); (dozing_ap 0xc001, 0%nat, false)]);
    [by vm_compute|exact (dozing_fit 0xc001)|reflexivity|reflexivity|split; by vm_compute|vm_compute; lia|discriminate|].
  apply list.Forall_cons; split; [|apply list.Forall_singleton]; (split; cbn [fst snd]; [by eexists; vm_compute|split; by vm_compute|exact idle_wme_ok
    |split; [vm_compute; repeat constructor; done|vm_compute; reflexivity]|split; vm_compute; reflexivity]).
Defined.
