(* ===== verification/InputFaults.v ===== *)
(** * What the receive path gets wrong

    Histories of frames, computed by the definitions of Input.v, in which the
    code does not do what it means to, and the conditions behind two of them. *)

From stdpp Require Import gmap.
From S2P Require Import Prelude Buffers Endian Mbuf Ieee80211 Crypto Defrag InfoElem Node NodeTable NodeProof NodeSafety NodeHistory NodeLife NodeTimer Rates Mgmt Station MgmtProof Input InputProof PowerSave.

(** ** Frames of the examples *)

Definition ap_addr : list Z := [2; 0; 0; 0; 0; 1].
Definition from (sta fc0 fc1 sq : Z) (a3 body : list Z) : list Z :=
  [fc0; fc1; 0; 0] ++ ap_addr ++ [2; 0; 0; 0; 0; sta] ++ a3 ++ [sq; 0] ++ body.
Definition auth_of (sta : Z) : list Z := from sta 0xb0 0 0x10 ap_addr [0; 0; 1; 0; 0; 0].
(** An association request, or a reassociation request, with capabilities. *)
Definition assoc_of (sta capinfo sq : Z) (re : bool) : list Z :=
  from sta (if re then 0x20 else 0x00) 0 sq ap_addr
    ([capinfo mod 256; capinfo / 256; 10; 0] ++ (if re then ap_addr else []) ++ [0; 0] ++ [1; 4; 2; 4; 11; 22]).
Definition disassoc_of (sta sq : Z) : list Z := from sta 0xa0 0 sq ap_addr [8; 0].
Definition text : list Z := map Z.of_nat (seq 1 128).
Definition rx (n : net) (fs : list (list Z)) : res net :=
  rx_frames null_key_ops (fun _ _ => true) (fun _ => true) 1 true true n (map (fun l => mkArrival 100 (one_mbuf l) 30 0 text 0) fs).

(** ** A remote panic *)

(** An access point in 802.11g mode with short slot time. *)
Definition g_ap : res net :=
  let* n := attached IEEE80211_M_HOSTAP IEEE80211_MODE_11G IEEE80211_C_SHSLOT in
  Ok (upd n 0%nat (fun ni => set_bssid (set_rates (set_chan ni (Some (mkChan 1 2412 0x480))) [2; 4; 11; 22]) ap_addr)).


(** ** Shared-key authentication *)

Definition wep_ap : net := flag_on (upd open_ap 0%nat (fun ni => set_authmode ni IEEE80211_AUTH_SHARED)) IEEE80211_F_PRIVACY.
Definition shared_request : list Z := from 9 0xb0 0 0x10 ap_addr [1; 0; 1; 0; 0; 0].
(** The challenge as it was received, not encrypted. *)
Definition shared_response : list Z := from 9 0xb0 0 0x20 ap_addr ([1; 0; 3; 0; 0; 0] ++ [IEEE80211_ELEMID_CHALLENGE; 128] ++ text).

(** A station that has no key passes shared-key authentication by
    sending the challenge text back in the clear, and is authorized. *)
Theorem shared_key_passes_in_clear :
  exists n ni, rx wep_ap [shared_request; shared_response] = Ok n /\ n_nodes n !! 1%nat = Some ni /\
    ni_macaddr ni = [2; 0; 0; 0; 0; 9] /\ has_flag (ni_flags ni) IEEE80211_NODE_AUTH = true /\
    list.last (n_out n) = Some (NE_mgmt 1%nat IEEE80211_FC0_SUBTYPE_AUTH IEEE80211_AUTH_SHARED_PASS) /\
    has_flag (i_fc1 shared_response) IEEE80211_FC1_WEP = false.
Proof.
  assert (exists n, rx wep_ap [shared_request; shared_response] = Ok n) as [n E] by (eexists; vm_compute; reflexivity).
  exists n. vm_compute in E. injection E as <-. eexists. vm_compute. done.
Qed.

(** ** Association ids *)


(** ** Power save *)

(** A sleeping station with a frame waiting leaves: its association
    id is zeroed before its queue is emptied, so that its bit in the traffic
    indication map and the count of stations with waiting frames stay, for the
    next station that gets the id. *)
Theorem leaving_keeps_tim_bit :
  exists n ni, (let* n := rx open_ap [auth_of 9; assoc_of 9 0x001 0x20 false; from 9 0x48 0x11 0x30 ap_addr []] in
    let* n := ieee80211_pwrsave n 1%nat (one_mbuf [1]) in
    rx n [disassoc_of 9 0x40; auth_of 10; assoc_of 10 0x001 0x20 false]) = Ok n /\
  n_nodes n !! 2%nat = Some ni /\ ni_associd ni = 0xc001 /\ ni_savedq ni = [] /\ tim_bit n 1 = true /\ ic_ps_pending n = 1.
Proof.
  match goal with |- exists n ni, ?c = Ok n /\ _ => assert (exists n, c = Ok n) as [n E] by (eexists; vm_compute; reflexivity) end.
  exists n. vm_compute in E. injection E as <-. eexists. vm_compute. done.
Qed.

(** ** Delivery *)

Definition fragment_of (no sq : Z) (more : bool) (body : list Z) : list Z :=
  from 9 0x08 (if more then 0x05 else 0x01) (sq + no) [2; 0; 0; 0; 0; 3] body.

(** A packet received in two fragments is put together, but what
    the network stack gets of it is the first fragment. *)
Theorem reassembled_packet_truncated :
  exists n, rx open_ap [auth_of 9; assoc_of 9 0x001 0x20 false;
      fragment_of 0 0x30 true ([0xaa; 0xaa; 3; 0; 0; 0; 8; 0] ++ [1; 2; 3]); fragment_of 1 0x30 false [4; 5; 6]] = Ok n /\
    list.last (n_out n) = Some (NE_data ([2; 0; 0; 0; 0; 3] ++ [2; 0; 0; 0; 0; 9] ++ [8; 0] ++ [1; 2; 3])).
Proof.
  match goal with |- exists n, ?c = Ok n /\ _ => assert (exists n, c = Ok n) as [n E] by (eexists; vm_compute; reflexivity) end.
  exists n. vm_compute in E. injection E as <-. vm_compute. done.
Qed.

(** ** Duplicates *)

(** A retransmitted frame that is ahead of the last one of its
    station, in sequence numbers modulo 4096, is dropped as a duplicate when the
    numbers have wrapped around in between, unless the last number was 4095. *)
Theorem wrapped_retry_is_dropped n id ni x last :
  n_nodes n !! id = Some ni -> ni_rxseqs ni !! 0%nat = Some last -> ieee80211_has_qos (mtod x) = false ->
  has_flag (i_fc1 (mtod x)) IEEE80211_FC1_RETRY = true ->
  0 <= rxseq (mtod x) < last -> last < 0xfff0 -> (rxseq (mtod x) - last) mod 2 ^ 16 < 2 ^ 15 ->
  rx_sequence n id x = quit (bump n is_rx_dup).
Proof.
  intros E El Hq Hr Hs Hl _. unfold rx_sequence, rx_tid. rewrite Hq. unfold rr_then, go. cbn [res_bind].
  rewrite (node_at_Some _ _ _ E). cbn [res_bind]. change (Z.to_nat 0) with 0%nat. rewrite El, Hr.
  assert (rx_duplicate true (rxseq (mtod x)) last = true) as ->; [|done].
  unfold rx_duplicate, SEQ_LEQ, IEEE80211_SEQ_SEQ_SHIFT. rewrite !Z.shiftr_div_pow2 by done.
  assert (last / 2 ^ 4 <> 4095) as Hn by (pose proof (Z.mul_div_le last (2 ^ 4) eq_refl); lia).
  rewrite (proj2 (Z.eqb_neq _ _) Hn), (proj2 (Z.leb_le (rxseq (mtod x) - last) 0)) by lia. done.
Qed.
(** Frame 4095 was lost, frame 0 is retransmitted. *)
Definition wrap_node : ieee80211_node := set_rxseqs zero_node (<[0%nat := 0xffe0]> (ni_rxseqs zero_node)).
Definition wrap_net : net := set_nodes open_ap {[1%nat := wrap_node]}.
Definition wrap_mbuf : mbuf := mkMbuf M_PKTHDR 0 24 MT_DATA (mkPkthdr 24 0 0 0 0) (from 9 0x08 0x09 0x00 ap_addr []).
Lemma wrapped_retry_is_dropped_witness :
  rxseq (mtod wrap_mbuf) = 0 /\ (rxseq (mtod wrap_mbuf) - 0xffe0) mod 2 ^ 16 = 32 /\
  rx_sequence wrap_net 1%nat wrap_mbuf = quit (bump wrap_net is_rx_dup).
Proof.
  split; [vm_compute; reflexivity|]. split; [vm_compute; reflexivity|].
  apply (wrapped_retry_is_dropped wrap_net 1%nat wrap_node wrap_mbuf 0xffe0);
    [vm_compute; reflexivity|reflexivity|vm_compute; reflexivity|vm_compute; reflexivity|vm_compute; done|done|vm_compute; reflexivity].
Defined.

(** ** Ages *)

(** The ages of frames saved one right after the other. *)
Fixpoint alternating (a b : Z) (k : nat) : list Z := match k with O => [] | S k => a :: alternating b a k end.

Lemma alternating_snoc k : forall a b, alternating a b (S k) = alternating a b k ++ [if Nat.even k then a else b].
Proof.
  induction k as [|k IH]; intros a b; [done|]. change (alternating a b (S (S k))) with (a :: alternating b a (S k)). rewrite IH.
  change (alternating a b (S k)) with (a :: alternating b a k). cbn [app]. do 3 f_equal. rewrite Nat.even_succ, <- Nat.negb_even. by destruct (Nat.even k).
Qed.
Lemma last_alternating k a b q : map fst q = alternating a b (S k) -> exists x, list.last q = Some (if Nat.even k then a else b, x : list mbuf).
Proof.
  intros H. rewrite alternating_snoc in H. destruct q as [|p q'] using rev_ind; [by destruct (alternating a b k)|].
  rewrite map_app in H. apply app_inj_tail in H as [_ H]. rewrite last_snoc. exists p.2. cbn in H. by rewrite <- H; destruct p.
Qed.
Lemma set_tim_bintval n id b n' : ieee80211_set_tim n id b = Ok n' -> ic_bintval n' = ic_bintval n.
Proof.
  unfold ieee80211_set_tim. destruct (negb _); [done|]. intros (x & _ & H)%res_bind_Ok. cbn zeta in H. destruct (negb _); [done|].
  destruct (ic_tim_bitmap n !! _); [|done]. by destruct (eqb _ _), b; injection H as <-.
Qed.

Section Ages.
Context (rxf : Z) (queued : net -> nat -> bool).

Lemma ps_run_app n id os os' : ps_run queued n id (os ++ os') = let* n := ps_run queued n id os in ps_run queued n id os'.
Proof. revert n. induction os as [|o os IH]; intros n; [done|]. cbn [app ps_run]. destruct (ps_exec _ _ _ _); [apply IH|done]. Qed.

(** A saved frame stores its age as the difference to the frame before
    it only: of frames saved one right after the other for an idle station, every
    second one carries the full age again, where all but the first should carry
    zero, so that the third expires after twice the time, the fifth after three
    times. *)
Theorem saved_ages_alternate k n own id ni ms :
  ap rxf k n own id -> n_nodes n !! id = Some ni -> ni_savedq ni = [] -> (length ms <= IEEE80211_PS_MAX_QUEUE)%nat ->
  exists n' ni', ps_run queued n id (map Ps_save ms) = Ok n' /\ n_nodes n' !! id = Some ni' /\
    map fst (ni_savedq ni') = alternating (save_age n ni) 0 (length ms) /\ map snd (ni_savedq ni') = ms.
Proof.
  intros A E Eq Hl. cut (exists n' ni', ps_run queued n id (map Ps_save ms) = Ok n' /\ n_nodes n' !! id = Some ni' /\
    map fst (ni_savedq ni') = alternating (save_age n ni) 0 (length ms) /\ map snd (ni_savedq ni') = ms /\
    ap rxf k n' own id /\ save_age n' ni' = save_age n ni).
  { intros (n' & ni' & H1 & H2 & H3 & H4 & _). by exists n', ni'. }
  induction ms as [|m ms IH] using rev_ind.
  { exists n, ni. cbn. rewrite Eq. done. }
  rewrite length_app in Hl. cbn in Hl. destruct IH as (n1 & n1i & R1 & E1 & F1 & S1 & A1 & G1); [lia|].
  rewrite map_app, ps_run_app, R1. cbn [res_bind map ps_run ps_exec].
  destruct (save_safe rxf k n1 own id m A1) as (n2 & R2 & A2). rewrite R2. cbn [res_bind].
  unfold ieee80211_pwrsave in R2. rewrite (node_at_Some _ _ _ E1) in R2. cbn [res_bind] in R2. cbn zeta in R2.
  assert (length (ni_savedq n1i) = length ms) as Hq by (rewrite <- S1; by rewrite length_map).
  rewrite (proj2 (Nat.leb_gt _ _)) in R2 by (rewrite Hq; lia). set (q' := _IEEE80211_NODE_SAVEQ_ENQUEUE _ _ _) in R2.
  pose proof (upd_same n1 id (fun ni => set_savedq ni q') n1i E1) as E2.
  assert (n_nodes n2 !! id = Some (set_savedq n1i q') /\ ic_bintval n2 = ic_bintval n1) as [E3 B3].
  { destruct (_ =? _)%nat; [|by injection R2 as <-]. split; [|exact (set_tim_bintval _ _ _ _ R2)].
    destruct (set_tim_bits _ _ _ _ _ 0 R2 E2) as [-> _]; [|done|done].
    apply (ok_aid _ _ (wf_node _ _ (proj1 (ap_nwf _ _ _ _ _ A1)) _ _ E1)). }
  exists n2, (set_savedq n1i q'). split; [done|]. split; [done|]. cbn [ni_savedq set_savedq]. subst q'. unfold _IEEE80211_NODE_SAVEQ_ENQUEUE.
  rewrite !map_app, F1, S1, length_app. cbn [map length fst snd]. split; [|split; [done|split; [done|]]].
  - rewrite Nat.add_1_r, alternating_snoc. do 2 f_equal. rewrite G1. destruct (length ms) as [|k'] eqn:Ek.
    + apply length_zero_iff_nil in Hq. by rewrite Hq.
    + destruct (last_alternating k' (save_age n ni) 0 (ni_savedq n1i)) as [x ->]; [by rewrite F1|].
      rewrite Nat.even_succ, <- Nat.negb_even. destruct (Nat.even k'); cbn; lia.
  - rewrite <- G1. unfold save_age. cbn. by rewrite B3.
Qed.
End Ages.

Definition sleeper : ieee80211_node := default zero_node (n_nodes sleeper_ap !! 1%nat).
Lemma saved_ages_alternate_witness :
  ap 0 100 sleeper_ap sleeper_own 1%nat /\ save_age sleeper_ap sleeper = 3 /\
  exists n' ni', ps_run (fun _ _ => true) sleeper_ap 1%nat (map Ps_save [one_mbuf [1]; one_mbuf [2]; one_mbuf [3]]) = Ok n' /\ n_nodes n' !! 1%nat = Some ni' /\
    map fst (ni_savedq ni') = [3; 0; 3].
Proof.
  split; [exact sleeper_ok|]. assert (save_age sleeper_ap sleeper = 3) as Ea by (vm_compute; reflexivity). split; [exact Ea|].
  destruct (saved_ages_alternate 0 (fun _ _ => true) 100 sleeper_ap sleeper_own 1%nat sleeper [one_mbuf [1]; one_mbuf [2]; one_mbuf [3]] sleeper_ok)
    as (n' & ni' & H1 & H2 & H3 & _); [vm_compute; reflexivity|vm_compute; reflexivity|apply Nat.leb_le; reflexivity|].
  exists n', ni'. rewrite Ea in H3. exact (conj H1 (conj H2 H3)).
Defined.
